(* ===== verification/_CoqProject ===== *)
-Q . S2P
Prelude.v
Bits.v
Helpers.v
Sync.v
Driver.v
Lifecycle.v
Firmware.v
Pci.v
ListHead.v
Slab.v
Skb.v
LogRing.v
Dma.v
Reorder.v
WorkQueue.v
ThreadCall.v
Timer.v
Rsn.v
Bss.v
Sha1.v
Kdf.v
Fips197.v
Aes.v
Kext.v
Tx.v
Eapol.v
Fourway.v
Rx.v
Mac80211.v
Mgmt.v
Mlme.v
Sweep.v
Session.v
ScanFlow.v
Race.v
UserClient.v
Ctl.v
ScanReport.v
Awdl.v
Airport.v
AirportVif.v
AirportRun.v
Controller.v
