(* ===== verification/Prelude.v ===== *)
(** * AirPort_RTW88: verification library

    The program is a macOS Wi-Fi driver for Realtek chips: the Linux driver
    rtw88 (a git submodule, not in this tree) behind a compatibility layer
    ([src/src/compat]), a station that speaks 802.11 and WPA2
    ([src/src/kext/RTW88IEEE80211.cpp]), and the IO80211 controller that offers
    it to macOS ([src/src/kext/AirportRTW88.cpp]); [src/src/ctl/main.c] is a
    command-line client.  This library translates their logic to executable
    definitions and proves what makes it correct.

    ** How the parts interact

    macOS calls the controller ([apple80211Request], packets to send); the
    controller turns a request into a command of the station object
    ([cmdScan], [cmdConnect], ...), some of which wait for a thread call of the
    object.  The object calls the driver (tune, install a key, transmit: the
    events of its trace) and is called back with received frames, timers and
    scan ends, by threads that interleave; what it reports (packets, link,
    scan done) the controller passes on to macOS.  The driver in turn runs on
    the compatibility layer: lists, socket buffers, work queues, thread calls,
    DMA buffers, the log.

    ** The files

    Compatibility layer ([src/src/compat]):
    - [Bits], [Helpers], [Sync]: bitmaps (refined to sets) and masked fields;
      averages, times, addresses, unaligned access; completions, semaphores and
      atomic counters among threads.
    - [Driver]: rtw88_compat.c, the threaded interrupt, NAPI, start-up and the
      helpers under the driver's mutex.
    - [Firmware]: rtw88_firmware.c, images looked up, inflated and released.
    - [ListHead]: linux/types.h, the intrusive lists over a heap of nodes;
      every operation refines the sequence operation of its name, from the
      empty list on.
    - [Slab]: linux/slab.h, the allocator shim and what a failed allocation is.
    - [Skb]: linux/skbuff.h, sk_buffs with head- and tailroom and their queues
      (refined to sequences), copies that stay inside their allocation.
    - [LogRing]: rtw88_compat.c, the log; any history of prints and reads is
      that of a bounded queue of 8191 bytes.
    - [Dma]: the bounce buffers of the controller and the mapping operations of
      RTW88HwOps.cpp; any history within the DMA contract behaves as an
      abstract table of mappings, and teardown releases each buffer once.
    - [WorkQueue]: rtw88_compat.c and linux/workqueue.h, work queues and
      delayed works as a transition system of workers, timers and callers under
      their lock; consistency, cancellation, flush and destruction, no lost
      wake-up.
    - [ThreadCall]: rtw88_thread_call.c, cancellable thread calls in the same
      manner; [Timer]: rtw88_compat.c, timers on them, [del_timer_sync] cut at
      its waits.
    - [Mac80211]: what the driver calls in place of mac80211: frames for the
      firmware, channel conversions, the routing of frames, reports and scan
      ends to the station ([compat_routes]).

    The station ([src/src/kext/RTW88IEEE80211.cpp], .hpp):
    - [Reorder]: the BlockAck reorder buffer ([rxReorderInput],
      [reorderTimerFired]); refinement of a reference window, every frame
      delivered or freed exactly once.
    - [Rsn], [Bss]: RSN elements; beacons to list entries, the list and its
      wire format with the reader of main.c (round trip).
    - [Sha1], [Kdf], [Aes]: the hand-written SHA-1, HMAC, PBKDF2, PRF and AES key
      unwrapping, against FIPS 180-4, RFC 2104, RFC 2898, 802.11 and RFC 3394;
      [Fips197]: AES written from the standard - field, S-box, key expansion,
      cipher - sharing nothing with the code's tables.
    - [Kext]: the object's fields as one record [kext], the driver's structures
      it reads and writes, its environment [env], the trace of [event]s, keys.
      [kext_wf] is the invariant of its buffers and tables.
    - [Tx], [Rx]: transmitted frames with their CCMP packet numbers, received
      data frames with their conversions, reordering and release.
    - [Eapol], [Fourway]: the WPA2 handshake, alone on any input and end to end
      against a reference authenticator.
    - [Mgmt]: management frames; what each may do to the state.
    - [Mlme]: power, scanning, connecting; [runManualScan] and [doAuthenticate]
      are cut at their waits into steps ([scan_pc], [auth_pc]).  [obj_inv] is
      the object's invariant, [calm] what a step leaves alone.
    - [Sweep]: a scan run alone terminates and sweeps every enabled channel; so
      does the authentication attempt.
    - [Session]: everything together, one step per stretch between two waits
      ([act]): received frames, timers, driver callbacks, the two thread calls
      and one command at a time, in any order; [sys_inv] is kept.
    - [ScanFlow]: no step loses a passive scan that was entered, and its thread
      call comes to its report in a bounded number of turns.
    - [Race]: the code takes no lock, so the handlers that carry an attempt
      forward are also cut between their checks and their stores ([fine_act]);
      the session's invariant holds for both, a disconnect is final unless it
      falls into such a gap, and two runs show what happens if it does.

    The controller ([src/src/kext/AirportRTW88.cpp], AirportRTW88AWDL.cpp,
    RTW88AWDLManager.cpp) and the clients:
    - [ScanReport]: the scan result structure of IO80211.
    - [Awdl]: the AWDL manager's settings, action frames out and in.
    - [Airport]: the controller's state [airport], its reports and every
      request of en0; [AirportVif]: the requests of the virtual interface.
    - [AirportRun]: a request, a report or a thread step as one step
      ([ap_step]), with the invariant [ap_inv]; [Controller]: what follows for
      any history since [start].
    - [UserClient]: the external methods of RTW88UserClient.cpp; [Ctl]: rtw88ctl,
      from its command line to the calls it makes.
    - [Pci]: configuration space, and the Ethernet controller of
      RTW88PCIDevice.cpp: its output path with flow control between threads,
      its input path, enabling; the media and the input path of the Airport
      interface.
    - [Lifecycle]: start, failure and teardown of both controllers and of the
      station object, on a ledger of what is acquired.

    This file has what they share: machine integers, buffers, the option monad,
    record update, tactics and the hint database.

    ** Conventions

    A machine integer is a [Z] reduced to its width where the code stores it
    ([u8] ... [u64], [signed]); bytes are [list Z]; a C array is a list of its
    size that is read and written with [ld], [ldn], [st], [stn].  [None] as a
    result is always a fault the code would commit: an access outside an array,
    a null dereference, a use after release; fallible code returns its own
    error codes inside [Some].  So a theorem that some operation "answers" or
    that a history "runs" excludes these faults.  The driver, the allocator,
    the random source and IO80211 are records of functions ([env], [io80211])
    of the trace of what was asked before: they may answer anything at any
    time, within the documented behaviour that [env_ok], [hw_wf], [io_ok] and
    the hypotheses of [Dma] state.  Theorem groups: types and invariants
    ([controller_invariant], [session_invariant], [reorder_conserves_frames],
    [workqueue_consistent], [start_stop_balanced]); safety on hostile input ([frame_state_machine],
    [eapol_needs_mic], [rx_path_owned], [scan_result_safe]); equivalence with
    reference definitions ([sha1_exact], [aes_unwrap_exact],
    [derive_pmk_pbkdf2], [associate_exact]); refinement ([fourway_handshake],
    [reorder_input_refines], [dma_refines_iommu], [list_head_refines],
    [bitmap_refines_set], [firmware_balanced], [compat_routes]); round
    trips ([bss_list_roundtrip], [tx_data_frame], [deamsdu_roundtrip]);
    termination and liveness ([manual_scan_sweeps], [scan_is_reported],
    [workqueue_no_lost_wakeup], [timer_never_lost], [tx_stall_resumed],
    [completion_semaphore], [ctl_runs]).

    ** Fuel

    Loops that are not structural carry fuel and fail without it; each has a
    theorem or lemma that the amount used is enough.  Parsers of elements use
    the length of their input, one turn consuming two bytes at least.  SHA-1
    takes one turn per 64-byte block and at most 64 for its padding.  The
    reorder buffer: 2048 slides (a new frame is less than half the sequence
    space ahead), 65 releases (64 slots), 4097 skips (the code's own guard).
    The thread calls: a scan has at most 256 channels of three steps each
    ([scan_left]); an authentication waits at most as often as its constants
    say ([auth_left]).  The log's reader is bounded by the ring.

    ** What is not modelled, and why

    - the rtw88 driver (submodule) and the firmware images (data);
    - IOKit plumbing: matching, registry properties, the Ethernet media table,
      MMIO accessors, the spin and mutex wrappers (sections under a lock are
      single steps);
    - polling macros and the register dump of the debug timer (reads of the
      chip and one log line);
    - functions with an empty body or a constant result, and declarations no
      modelled code reads (most of net/mac80211.h);
    - two clients issuing commands at once, which the code leaves to its
      callers' locks: commands are gated one at a time;
    - interleavings inside a handler of the station beyond the cuts of [Race]
      and the waits: [_lock] and [_gate] are never taken, so the code permits
      them;
    - timers' durations: a timer or a thread call may fire at any time, so that
      nothing depends on how long a wait is;
    - vsnprintf and IOLog: formatted text is a parameter;
    - of the structures IO80211 passes, fields no code reads or that are
      constant.

    ** What is left

    Beyond the list above, nothing is planned.  The models of the parts meet
    in [AirportRun] (controller, station, their threads) and [UserClient]; [Driver], [Timer], [Dma], [WorkQueue], [Skb] and [Mac80211] are
    specified each on its own, since what joins them, the Linux driver, is not
    in the tree. *)

From Stdlib Require Export ZArith Lia Bool.
From stdpp Require Export base tactics gmap strings option numbers.
From stdpp Require Export list.

#[global] Open Scope Z_scope.

(** ** Machine integers

    A [w]-bit unsigned C integer is a [Z]; every arithmetic result that the C
    code stores in such an integer is reduced by [wrap w]. *)

Declare Scope c_scope.
Delimit Scope c_scope with c.
Infix ".&" := Z.land (at level 40, left associativity) : c_scope.
Infix ".^" := Z.lxor (at level 45, left associativity) : c_scope.
Infix ".|" := Z.lor (at level 48, left associativity) : c_scope.
Notation "x << n" := (Z.shiftl x n) (at level 35, right associativity) : c_scope.
Notation "x >> n" := (Z.shiftr x n) (at level 35, right associativity) : c_scope.
#[global] Open Scope c_scope.

Definition wrap (w z : Z) : Z := z mod 2 ^ w.
Abbreviation u8 := (wrap 8).
Abbreviation u16 := (wrap 16).
Abbreviation u32 := (wrap 32).
Abbreviation u64 := (wrap 64).

(** Two's complement reading of a [w]-bit word. *)
Definition signed (w z : Z) : Z :=
  let m := z mod 2 ^ w in if m <? 2 ^ (w - 1) then m else m - 2 ^ w.

(** Bitwise complement of a [w]-bit word. *)
Definition cnot (w z : Z) : Z := wrap w (Z.lnot z).

(** The bytes of a C string constant. *)
Definition chars (x : string) : list Z := map (fun c => Z.of_nat (Ascii.nat_of_ascii c)) (String.list_ascii_of_string x).

(** A C truth value converted back to an integer. *)
Definition c_bool (b : bool) : Z := if b then 1 else 0.

Definition in_range (w z : Z) : Prop := 0 <= z < 2 ^ w.
Abbreviation is_byte := (in_range 8).
Abbreviation bytes_ok := (Forall (in_range 8)).

(** The test for [bytes_ok], for concrete buffers. *)
Definition bytes_okb (b : list Z) : bool := forallb (fun x => (0 <=? x) && (x <? 256)) b.
Lemma bytes_okb_ok b : bytes_okb b = true -> bytes_ok b.
Proof.
  intros H. apply Forall_forall. intros x Hx. unfold bytes_okb in H. rewrite forallb_forall in H.
  apply list_elem_of_In, H, andb_prop in Hx as [?%Z.leb_le ?%Z.ltb_lt]. by split.
Qed.

Lemma wrap_range w z : 0 <= w -> in_range w (wrap w z).
Proof. intros. apply Z.mod_pos_bound. lia. Qed.

Lemma wrap_small w z : in_range w z -> wrap w z = z.
Proof. intros. by apply Z.mod_small. Qed.

Lemma wrap_wrap w z : wrap w (wrap w z) = wrap w z.
Proof. unfold wrap. apply Z.mod_mod_divide. apply Z.divide_refl. Qed.

Lemma wrap_nonneg w z : 0 <= w -> 0 <= wrap w z.
Proof. intros Hw. apply (wrap_range w z Hw). Qed.

Lemma wrap_lt w z : 0 <= w -> wrap w z < 2 ^ w.
Proof. intros Hw. apply (wrap_range w z Hw). Qed.

Lemma wrap_add_l w a b : wrap w (wrap w a + b) = wrap w (a + b).
Proof. unfold wrap. apply Zplus_mod_idemp_l. Qed.

Lemma wrap_add_r w a b : wrap w (a + wrap w b) = wrap w (a + b).
Proof. unfold wrap. apply Zplus_mod_idemp_r. Qed.

Lemma wrap_testbit w z i :
  0 <= w -> Z.testbit (wrap w z) i = ((0 <=? i) && (i <? w) && Z.testbit z i).
Proof.
  intros Hw. unfold wrap. destruct (Z.leb_spec 0 i); simpl.
  - destruct (Z.ltb_spec i w); simpl.
    + by apply Z.mod_pow2_bits_low.
    + apply Z.mod_pow2_bits_high. lia.
  - by apply Z.testbit_neg_r.
Qed.

Lemma in_range_testbit w z i : in_range w z -> w <= i -> Z.testbit z i = false.
Proof.
  intros Hz Hi. destruct (Z.leb_spec 0 w).
  - rewrite <- (wrap_small w z Hz). rewrite wrap_testbit by done.
    destruct (Z.ltb_spec i w); [lia|]. by rewrite andb_false_r.
  - unfold in_range in Hz. rewrite Z.pow_neg_r in Hz by done. lia.
Qed.

Lemma testbit_in_range w z :
  0 <= w -> 0 <= z -> (forall i, w <= i -> Z.testbit z i = false) -> in_range w z.
Proof.
  intros Hw Hz H. split; [done|].
  destruct (Z.eq_dec z 0) as [->|]; [lia|].
  apply Z.log2_lt_pow2; [lia|]. destruct (Z.lt_ge_cases (Z.log2 z) w); [done|].
  specialize (H (Z.log2 z) ltac:(done)). rewrite Z.bit_log2 in H by lia. done.
Qed.

Lemma land_in_range w a b : 0 <= w -> in_range w a -> in_range w (a .& b).
Proof.
  intros Hw Ha. apply testbit_in_range; [done| |].
  - apply Z.land_nonneg. left. apply Ha.
  - intros i Hi. by rewrite Z.land_spec, (in_range_testbit w a i).
Qed.

Lemma land_in_range_r w a b : 0 <= w -> in_range w b -> in_range w (a .& b).
Proof. rewrite Z.land_comm. apply land_in_range. Qed.

Lemma lor_in_range w a b :
  0 <= w -> in_range w a -> in_range w b -> in_range w (a .| b).
Proof.
  intros Hw Ha Hb. apply testbit_in_range; [done| |].
  - apply Z.lor_nonneg. split; [apply Ha|apply Hb].
  - intros i Hi. by rewrite Z.lor_spec, (in_range_testbit w a i), (in_range_testbit w b i).
Qed.

Lemma lxor_in_range w a b :
  0 <= w -> in_range w a -> in_range w b -> in_range w (a .^ b).
Proof.
  intros Hw Ha Hb. apply testbit_in_range; [done| |].
  - apply Z.lxor_nonneg. destruct Ha, Hb. lia.
  - intros i Hi. by rewrite Z.lxor_spec, (in_range_testbit w a i), (in_range_testbit w b i).
Qed.

Lemma shiftr_in_range w a n : 0 <= n -> in_range w a -> in_range w (a >> n).
Proof.
  intros Hn [H1 H2]. split; [by apply Z.shiftr_nonneg|].
  rewrite Z.shiftr_div_pow2 by done.
  apply Z.le_lt_trans with a; [|done]. apply Z.div_le_upper_bound; [lia|].
  assert (0 < 2 ^ n) by lia. nia.
Qed.

Create HintDb machine.
#[export] Hint Resolve wrap_range wrap_nonneg wrap_lt land_in_range lor_in_range
  lxor_in_range shiftr_in_range : machine.

(** [bits_eq] proves an equality of integers bit by bit. *)
Create Rewrite HintDb bits.
Create Rewrite HintDb zlen.
#[export] Hint Rewrite Z.land_spec Z.lor_spec Z.lxor_spec Z.ldiff_spec Z.bits_0 : bits.
#[export] Hint Rewrite Z.lnot_spec Z.shiftr_spec Z.shiftl_spec wrap_testbit using lia : bits.

Ltac bits_norm := autorewrite with bits.
Ltac bits_eq :=
  apply Z.bits_inj'; let i := fresh "i" in let Hi := fresh "Hi" in
  intros i Hi; bits_norm.

(** Destruct every boolean comparison of the goal and let [lia] prune. *)
Ltac case_cmp :=
  repeat match goal with
  | |- context [?a <=? ?b] => destruct (Z.leb_spec a b)
  | |- context [?a <? ?b] => destruct (Z.ltb_spec a b)
  | |- context [?a =? ?b] => destruct (Z.eqb_spec a b)
  end; simpl; try lia; try done.

(** Turn boolean tests among the hypotheses into propositions. *)
Ltac bool_hyps :=
  repeat match goal with
  | H : _ && _ = true |- _ => apply andb_prop in H; destruct H
  | H : _ || _ = false |- _ => apply orb_false_elim in H; destruct H
  | H : negb _ = true |- _ => apply negb_true_iff in H
  | H : negb _ = false |- _ => apply negb_false_iff in H
  | H : (_ =? _) = true |- _ => apply Z.eqb_eq in H
  | H : (_ =? _) = false |- _ => apply Z.eqb_neq in H
  | H : (_ <? _) = true |- _ => apply Z.ltb_lt in H
  | H : (_ <? _) = false |- _ => apply Z.ltb_ge in H
  | H : (_ <=? _) = true |- _ => apply Z.leb_le in H
  | H : (_ <=? _) = false |- _ => apply Z.leb_gt in H
  end.

(** ** Bounded memory

    A buffer is the list of its bytes.  An access outside the buffer is
    undefined behaviour in C; it is [None] here, so a theorem that a routine
    returns [Some _] includes that it stays inside its buffers. *)

Definition zlen {A} (l : list A) : Z := Z.of_nat (length l).
Definition ztake {A} (n : Z) (l : list A) : list A := take (Z.to_nat n) l.
Definition zdrop {A} (n : Z) (l : list A) : list A := drop (Z.to_nat n) l.
Definition zeros (n : Z) : list Z := replicate (Z.to_nat n) 0.

(** [b[i]] *)
Definition ld {A} (b : list A) (i : Z) : option A :=
  if 0 <=? i then b !! Z.to_nat i else None.

(** [b[i .. i+n)] *)
Definition ldn {A} (b : list A) (i n : Z) : option (list A) :=
  if (0 <=? i) && (0 <=? n) && (i + n <=? zlen b) then Some (ztake n (zdrop i b)) else None.

(** [b[i] = v] *)
Definition st {A} (b : list A) (i : Z) (v : A) : option (list A) :=
  if (0 <=? i) && (i <? zlen b) then Some (<[Z.to_nat i := v]> b) else None.

(** [memcpy(b + i, v, length v)] *)
Definition stn {A} (b : list A) (i : Z) (v : list A) : option (list A) :=
  if (0 <=? i) && (i + zlen v <=? zlen b)
  then Some (ztake i b ++ v ++ zdrop (i + zlen v) b) else None.

Section memory.
Context {A : Type}.
Implicit Types b v : list A.

Lemma zlen_nonneg b : 0 <= zlen b.
Proof. unfold zlen. lia. Qed.
Lemma zlen_app b v : zlen (b ++ v) = zlen b + zlen v.
Proof. unfold zlen. rewrite length_app. lia. Qed.
Lemma zlen_cons x b : zlen (x :: b) = 1 + zlen b.
Proof. unfold zlen. cbn [length]. lia. Qed.
Lemma zlen_nil : zlen (@nil A) = 0.
Proof. done. Qed.
Lemma zlen_ztake n b : zlen (ztake n b) = Z.min (Z.max n 0) (zlen b).
Proof. unfold zlen, ztake. rewrite length_take. lia. Qed.
Lemma zlen_zdrop n b : zlen (zdrop n b) = Z.max 0 (zlen b - Z.max n 0).
Proof. unfold zlen, zdrop. rewrite length_drop. lia. Qed.
Lemma ztake_zdrop n b : ztake n b ++ zdrop n b = b.
Proof. apply take_drop. Qed.
Lemma ztake_app_exact b v : ztake (zlen b) (b ++ v) = b.
Proof. unfold ztake, zlen. rewrite Nat2Z.id. apply take_app_length. Qed.
Lemma zdrop_app_exact b v : zdrop (zlen b) (b ++ v) = v.
Proof. unfold zdrop, zlen. rewrite Nat2Z.id. apply drop_app_length. Qed.
Lemma ztake_app_exact' n b v : zlen b = n -> ztake n (b ++ v) = b.
Proof. intros <-. apply ztake_app_exact. Qed.
Lemma zdrop_app_exact' n b v : zlen b = n -> zdrop n (b ++ v) = v.
Proof. intros <-. apply zdrop_app_exact. Qed.
Lemma zdrop_0 b : zdrop 0 b = b.
Proof. done. Qed.
Lemma ztake_0 b : ztake 0 b = [].
Proof. by unfold ztake. Qed.
Lemma ztake_all n b : zlen b <= n -> ztake n b = b.
Proof. unfold zlen, ztake. intros. apply take_ge. lia. Qed.
Lemma zdrop_all n b : zlen b <= n -> zdrop n b = [].
Proof. unfold zlen, zdrop. intros. apply drop_ge. lia. Qed.
Lemma zdrop_zdrop n m b : 0 <= n -> 0 <= m -> zdrop n (zdrop m b) = zdrop (m + n) b.
Proof. intros. unfold zdrop. rewrite drop_drop. f_equal. lia. Qed.
Lemma ztake_ztake n m b : ztake n (ztake m b) = ztake (Z.min n m) b.
Proof. unfold ztake. rewrite take_take. f_equal. lia. Qed.
Lemma zdrop_ztake n m b : 0 <= n <= m -> zdrop n (ztake m b) = ztake (m - n) (zdrop n b).
Proof. intros. unfold ztake, zdrop. rewrite skipn_firstn_comm. f_equal. lia. Qed.

Lemma ld_Some b i : 0 <= i < zlen b -> is_Some (ld b i).
Proof.
  intros [H1 H2]. unfold ld. rewrite (proj2 (Z.leb_le 0 i) H1). apply lookup_lt_is_Some.
  unfold zlen in H2. lia.
Qed.
Lemma ld_inv b i x : ld b i = Some x -> 0 <= i < zlen b.
Proof.
  unfold ld, zlen. destruct (Z.leb_spec 0 i); [|done]. intros H1%lookup_lt_Some. split; lia.
Qed.
Lemma ldn_Some b i n :
  0 <= i -> 0 <= n -> i + n <= zlen b -> ldn b i n = Some (ztake n (zdrop i b)).
Proof. intros. unfold ldn. case_cmp. Qed.
Lemma ldn_inv b i n v : ldn b i n = Some v ->
  0 <= i /\ 0 <= n /\ i + n <= zlen b /\ v = ztake n (zdrop i b) /\ zlen v = n.
Proof.
  unfold ldn. destruct (_ && _) eqn:E; [|done]. intros [= <-]. bool_hyps.
  rewrite zlen_ztake, zlen_zdrop. split_and!; try done; lia.
Qed.
Lemma st_Some b i x : 0 <= i < zlen b -> st b i x = Some (<[Z.to_nat i := x]> b).
Proof. intros. unfold st. case_cmp. Qed.
Lemma stn_Some b i v :
  0 <= i -> i + zlen v <= zlen b -> stn b i v = Some (ztake i b ++ v ++ zdrop (i + zlen v) b).
Proof. intros. unfold stn. case_cmp. Qed.
Lemma stn_zlen b i v b' : stn b i v = Some b' -> zlen b' = zlen b.
Proof.
  unfold stn. destruct (_ && _) eqn:E; [|done]. intros [= <-]. bool_hyps.
  pose proof (zlen_nonneg v). rewrite !zlen_app, zlen_ztake, zlen_zdrop. lia.
Qed.
(** A write at the end of the part already written extends it. *)
Lemma stn_prefix b i v pre : ztake i b = pre -> zlen pre = i -> i + zlen v <= zlen b ->
  exists b', stn b i v = Some b' /\ zlen b' = zlen b /\ ztake (i + zlen v) b' = pre ++ v.
Proof.
  intros Hp Hi Hl. pose proof (zlen_nonneg pre). exists (ztake i b ++ v ++ zdrop (i + zlen v) b).
  rewrite stn_Some by lia. split; [done|]. split.
  - rewrite !zlen_app, zlen_zdrop, Hp. pose proof (zlen_nonneg v). lia.
  - rewrite Hp, app_assoc. apply ztake_app_exact'. rewrite zlen_app. lia.
Qed.
Lemma ldn_app_r b v i n : zlen b <= i -> ldn (b ++ v) i n = ldn v (i - zlen b) n.
Proof.
  intros Hi. pose proof (zlen_nonneg b). unfold ldn. rewrite zlen_app.
  replace (0 <=? i - zlen b) with (0 <=? i) by case_cmp.
  replace (i - zlen b + n <=? zlen v) with (i + n <=? zlen b + zlen v) by case_cmp.
  destruct (_ && _); [|done]. f_equal. f_equal. unfold zdrop, zlen in *.
  rewrite drop_app_ge by lia. f_equal. lia.
Qed.
Lemma ldn_app_exact b v w i n : zlen b = i -> zlen v = n -> ldn (b ++ v ++ w) i n = Some v.
Proof.
  intros <- <-. rewrite ldn_app_r by lia. rewrite Z.sub_diag. pose proof (zlen_nonneg v). pose proof (zlen_nonneg w).
  rewrite ldn_Some by (rewrite ?zlen_app; lia). by rewrite zdrop_0, ztake_app_exact.
Qed.
Lemma ldn_app_0 v w n : zlen v = n -> ldn (v ++ w) 0 n = Some v.
Proof. intros Hn. exact (ldn_app_exact [] v w 0 n eq_refl Hn). Qed.
Lemma ld_middle b x v : ld (b ++ x :: v) (zlen b) = Some x.
Proof.
  unfold ld. rewrite (proj2 (Z.leb_le 0 (zlen b)) (zlen_nonneg b)). unfold zlen. rewrite Nat2Z.id.
  by apply list_lookup_middle.
Qed.
Lemma st_middle b x v y : st (b ++ x :: v) (zlen b) y = Some (b ++ y :: v).
Proof.
  pose proof (zlen_nonneg b). pose proof (zlen_nonneg v).
  rewrite st_Some by (rewrite zlen_app, zlen_cons; lia). unfold zlen. rewrite Nat2Z.id.
  by rewrite insert_app_r_alt, Nat.sub_diag.
Qed.
Lemma zlen_insert b i x : zlen (<[i := x]> b) = zlen b.
Proof. unfold zlen. by rewrite length_insert. Qed.
End memory.

Lemma zlen_zeros n : zlen (zeros n) = Z.max 0 n.
Proof. unfold zlen, zeros. rewrite length_replicate. lia. Qed.
Lemma zlen_replicate {A} n (x : A) : zlen (replicate n x) = Z.of_nat n.
Proof. unfold zlen. by rewrite length_replicate. Qed.

Lemma filter_id {A} (P : A -> Prop) `{!forall x, Decision (P x)} (l : list A) :
  Forall P l -> filter P l = l.
Proof. induction 1 as [|x l Hx _ IH]; [done|]. by rewrite filter_cons_True, IH. Qed.

(** Little-endian numbers in memory. *)
Fixpoint le_bytes (n : nat) (z : Z) : list Z :=
  match n with O => [] | S k => (z .& 255) :: le_bytes k (z >> 8) end.
Fixpoint le_val (b : list Z) : Z :=
  match b with [] => 0 | x :: b => x + 256 * le_val b end.

Lemma length_le_bytes n z : length (le_bytes n z) = n.
Proof. revert z. induction n; intros; cbn; [done|by rewrite IHn]. Qed.
Lemma zlen_le_bytes n z : zlen (le_bytes n z) = Z.of_nat n.
Proof. unfold zlen. by rewrite length_le_bytes. Qed.

Lemma land_255 z : z .& 255 = wrap 8 z.
Proof. change 255 with (Z.ones 8). by rewrite Z.land_ones. Qed.

(** A field above [n] low bits. *)
Lemma lor_shift a b n : 0 <= n -> in_range n a -> a .| (b << n) = a + b * 2 ^ n.
Proof.
  intros Hn Ha. rewrite <- Z.shiftl_mul_pow2 by done.
  assert (a .& (b << n) = 0) as Hz.
  { bits_eq. destruct (Z.ltb_spec i n).
    - rewrite (Z.testbit_neg_r b) by lia. apply andb_false_r.
    - by rewrite (in_range_testbit n a i) by done. }
  by rewrite <- Z.lxor_lor, Z.add_nocarry_lxor.
Qed.

(** Turn masks and shifts by constants into [mod], [div] and products. *)
Ltac pow_const :=
  repeat match goal with
  | H : context [2 ^ Zpos ?n] |- _ => let v := eval vm_compute in (2 ^ Zpos n) in change (2 ^ Zpos n) with v in H
  | |- context [2 ^ Zpos ?n] => let v := eval vm_compute in (2 ^ Zpos n) in change (2 ^ Zpos n) with v
  end.
Ltac euclid :=
  unfold wrap, in_range in *;
  rewrite ?Z.shiftr_div_pow2, ?Z.shiftl_mul_pow2 in * by lia;
  pow_const; Z.to_euclidean_division_equations; lia.

Lemma le_val_bytes n z : in_range (8 * Z.of_nat n) z -> le_val (le_bytes n z) = z.
Proof.
  revert z. induction n as [|n IH]; intros z Hz; cbn [le_bytes le_val].
  - unfold in_range in Hz. cbn in Hz. lia.
  - rewrite IH, land_255.
    + rewrite Z.shiftr_div_pow2 by lia. unfold wrap. change (2 ^ 8) with 256.
      pose proof (Z.div_mod z 256). lia.
    + destruct Hz as [H1 H2]. split; [by apply Z.shiftr_nonneg|].
      rewrite Z.shiftr_div_pow2 by lia. apply Z.div_lt_upper_bound; [lia|].
      rewrite <- Z.pow_add_r by lia. eapply Z.lt_le_trans; [exact H2|].
      apply Z.pow_le_mono_r; lia.
Qed.

#[export] Hint Rewrite @zlen_app @zlen_cons @zlen_nil @zlen_insert @zlen_replicate
  zlen_le_bytes @zlen_ztake @zlen_zdrop zlen_zeros : zlen.
Ltac zlen := autorewrite with zlen; try lia.
Ltac zlen_in H := autorewrite with zlen in H.

(** Reads at constant offsets of a buffer whose first elements are written
    out as a cons list (the rest a variable). *)
Ltac is_offset z := lazymatch z with Z0 => idtac | Zpos _ => idtac end.
Ltac read_prefix :=
  repeat match goal with
  | |- context [ld (?x :: ?F) ?i] =>
      let j := eval vm_compute in i in is_offset j;
      let v := eval cbv [ld Z.leb Z.compare Pos.compare Pos.compare_cont lookup list_lookup Z.to_nat Pos.to_nat Pos.iter_op Init.Nat.add] in (ld (x :: F) j) in
      change (ld (x :: F) i) with v
  | |- context [ldn (?x :: ?F) ?i ?n] =>
      let i' := eval vm_compute in i in let n' := eval vm_compute in n in is_offset i'; is_offset n';
      rewrite (ldn_Some (x :: F) i n) by (rewrite ?zlen_cons, ?zlen_app; repeat match goal with |- context [zlen ?l] => is_var l; lazymatch goal with H : 0 <= zlen l |- _ => fail | _ => pose proof (zlen_nonneg l) end end; lia);
      let v := eval cbv [ztake zdrop take drop Z.to_nat Pos.to_nat Pos.iter_op Init.Nat.add] in (ztake n' (zdrop i' (x :: F))) in
      change (ztake n (zdrop i (x :: F))) with v
  | |- context [zdrop ?i (?x :: ?F)] =>
      let j := eval vm_compute in i in is_offset j;
      let v := eval cbv [zdrop drop Z.to_nat Pos.to_nat Pos.iter_op Init.Nat.add] in (zdrop j (x :: F)) in
      change (zdrop i (x :: F)) with v
  end; cbn [mbind option_bind].

(** Decide the tests whose conditions are closed terms. *)
Ltac closed_ifs :=
  repeat match goal with
  | |- context [if ?b then _ else _] =>
      let v := eval vm_compute in b in first [constr_eq v true | constr_eq v false]; progress change b with v; cbv iota
  end.

(** ** Record update

    [r <| field := v |>] for a record type with an [Eta] instance, which lists
    the constructor applied to the projections. *)

Class Eta (R : Type) := eta : R -> R.
Class Setter {R T : Type} (proj : R -> T) := upd : (T -> T) -> R -> R.
#[global] Arguments upd {R T} proj {_} _ _.
Ltac derive_setter :=
  match goal with |- @Setter ?R ?T ?proj =>
    let e := eval hnf in (@eta R _) in
    let e := eval pattern proj in e in
    match e with ?g _ => exact (fun f => g (fun r => f (proj r))) end
  end.
#[global] Hint Extern 1 (Setter _) => derive_setter : typeclass_instances.
Notation "r <| p := v |>" := (upd p (fun _ => v) r)
  (at level 12, left associativity, p at next level, v at level 200, format "r  <| p  :=  v |>").
