(* ===== verification/Bits.v ===== *)
(** * Bit operations: [src/src/compat/linux/bitops.h] and [bitfield.h]

    Bitmaps are arrays of 64-bit words.  A shift by 64 or more, a count of the
    zeros of 0 and an access outside the array are undefined and so [None].
    [bitmap_refines_set]: any history of operations on a bitmap is that of a
    finite set of numbers; [field_update_exact]: the masked helpers read back
    what they wrote and change nothing else. *)

From S2P Require Import Prelude.

(** ** Definitions *)

Definition BITS_PER_LONG : Z := 64.

Fixpoint ctz_pos (p : positive) : Z :=
  match p with xO q => Z.succ (ctz_pos q) | _ => 0 end.
(** [__builtin_ctzl], the number of low zero bits; undefined for 0. *)
Definition ctzl (x : Z) : option Z := match x with Zpos p => Some (ctz_pos p) | _ => None end.
(** [__builtin_clzl] *)
Definition clzl (x : Z) : option Z := if x =? 0 then None else Some (63 - Z.log2 x).
(** [1UL << n] *)
Definition shl1 (n : Z) : option Z := if (0 <=? n) && (n <? 64) then Some (1 << n) else None.

Definition GENMASK (h l : Z) : option Z :=
  one ← shl1 l;
  if (0 <=? h) && (h <? 64) then
    Some (u64 (cnot 64 0 - one + 1) .& (cnot 64 0 >> (BITS_PER_LONG - 1 - h)))
  else None.

Definition set_bit (nr : Z) (addr : list Z) : option (list Z) :=
  old ← ld addr (nr / BITS_PER_LONG);
  st addr (nr / BITS_PER_LONG) (old .| (1 << (nr mod BITS_PER_LONG))).
Definition clear_bit (nr : Z) (addr : list Z) : option (list Z) :=
  old ← ld addr (nr / BITS_PER_LONG);
  st addr (nr / BITS_PER_LONG) (old .& cnot 64 (1 << (nr mod BITS_PER_LONG))).
Definition test_bit (nr : Z) (addr : list Z) : option bool :=
  w ← ld addr (nr / BITS_PER_LONG);
  Some (negb (w .& (1 << (nr mod BITS_PER_LONG)) =? 0)).
Definition test_and_set_bit (nr : Z) (addr : list Z) : option (bool * list Z) :=
  old ← ld addr (nr / BITS_PER_LONG);
  addr ← st addr (nr / BITS_PER_LONG) (old .| (1 << (nr mod BITS_PER_LONG)));
  Some (negb (old .& (1 << (nr mod BITS_PER_LONG)) =? 0), addr).
Definition test_and_clear_bit (nr : Z) (addr : list Z) : option (bool * list Z) :=
  old ← ld addr (nr / BITS_PER_LONG);
  addr ← st addr (nr / BITS_PER_LONG) (old .& cnot 64 (1 << (nr mod BITS_PER_LONG)));
  Some (negb (old .& (1 << (nr mod BITS_PER_LONG)) =? 0), addr).

Definition __ffs (x : Z) : option Z := ctzl x.
Definition __fls (x : Z) : option Z := n ← clzl x; Some (BITS_PER_LONG - 1 - n).
Definition fls64 (x : Z) : option Z := if x =? 0 then Some 0 else n ← clzl x; Some (64 - n).
Definition fls (x : Z) : option Z :=
  if x =? 0 then Some 0 else n ← clzl x; Some (32 - (n - 32)).

(** [__builtin_popcount] *)
Fixpoint popcount_pos (p : positive) : Z :=
  match p with xH => 1 | xO q => popcount_pos q | xI q => 1 + popcount_pos q end.
Definition popcount (x : Z) : Z := match x with Zpos p => popcount_pos p | _ => 0 end.
Definition hweight8 (w : Z) : Z := popcount (w .& 255).
Definition hweight32 (x : Z) : Z := popcount x.
Definition hweight_long (x : Z) : Z := popcount x.

(** A 32-bit shift, undefined from 32 on. *)
Definition shl32 (x n : Z) : option Z := if (0 <=? n) && (n <? 32) then Some (u32 (x << n)) else None.
Definition shr32 (x n : Z) : option Z := if (0 <=? n) && (n <? 32) then Some (x >> n) else None.
Definition rol32 (val shift : Z) : option Z :=
  a ← shl32 val shift; b ← shr32 val (u32 (32 - shift)); Some (a .| b).
Definition ror32 (val shift : Z) : option Z :=
  a ← shr32 val shift; b ← shl32 val (u32 (32 - shift)); Some (a .| b).

Definition bitmap_words (nbits : Z) : Z := u64 (nbits + BITS_PER_LONG - 1) / BITS_PER_LONG.

(** The loop of [bitmap_zero]. *)
Fixpoint zero_words (n : nat) (i : Z) (dst : list Z) : option (list Z) :=
  match n with O => Some dst | S n => dst ← st dst i 0; zero_words n (i + 1) dst end.
Definition bitmap_zero (dst : list Z) (nbits : Z) : option (list Z) :=
  zero_words (Z.to_nat (u32 (bitmap_words nbits))) 0 dst.

(** The value a search looks at: the word, or its complement in the searches
    for a zero bit. *)
Definition word_of (zero : bool) (v : Z) : Z := if zero then cnot 64 v else v.

(** The loop over the words from [i] on that ends each of the four searches;
    [n] words are left. *)
Fixpoint scan_words (zero : bool) (n : nat) (i : Z) (addr : list Z) (size : Z) : option Z :=
  match n with
  | O => Some size
  | S n =>
      w ← ld addr i;
      let v := word_of zero w in
      if negb (v =? 0) then
        b ← __ffs v;
        let bit := u64 (i * BITS_PER_LONG + b) in
        Some (if bit <? size then bit else size)
      else scan_words zero n (i + 1) addr size
  end.
Definition find_first (zero : bool) (addr : list Z) (size : Z) : option Z :=
  scan_words zero (Z.to_nat (bitmap_words size)) 0 addr size.
Definition find_first_bit : list Z -> Z -> option Z := find_first false.
Definition find_first_zero_bit : list Z -> Z -> option Z := find_first true.

Definition find_next (zero : bool) (addr : list Z) (size offset : Z) : option Z :=
  if size <=? offset then Some size
  else
    let idx := offset / BITS_PER_LONG in
    let start := offset mod BITS_PER_LONG in
    w ← ld addr idx;
    let mask := word_of zero w .& u64 (cnot 64 0 << start) in
    if negb (mask =? 0) then
      b ← __ffs mask;
      let bit := u64 (idx * BITS_PER_LONG + b) in
      Some (if bit <? size then bit else size)
    else scan_words zero (Z.to_nat (bitmap_words size - (idx + 1))) (idx + 1) addr size.
Definition find_next_bit : list Z -> Z -> Z -> option Z := find_next false.
Definition find_next_zero_bit : list Z -> Z -> Z -> option Z := find_next true.

(** *** Fields under a mask *)

Definition FIELD_PREP (mask val : Z) : option Z := s ← __ffs mask; Some (u64 (val << s) .& mask).
Definition FIELD_GET (mask val : Z) : option Z := s ← __ffs mask; Some ((val .& mask) >> s).
Definition FIELD_FIT (mask val : Z) : option bool :=
  s ← __ffs mask; Some (u64 (val << s) .& cnot 64 mask =? 0).

Definition u8_encode_bits (v mask : Z) : option Z := x ← FIELD_PREP mask v; Some (u8 x).
Definition u8_get_bits (v mask : Z) : option Z := x ← FIELD_GET mask v; Some (u8 x).
Definition u8p_replace_bits (p val mask : Z) : option Z :=
  x ← u8_encode_bits val mask; Some (u8 ((p .& cnot 8 mask) .| x)).
Definition u16_encode_bits (v mask : Z) : option Z := x ← FIELD_PREP mask v; Some (u16 x).
Definition u16_get_bits (v mask : Z) : option Z := x ← FIELD_GET mask v; Some (u16 x).
Definition u32_encode_bits (v mask : Z) : option Z := x ← FIELD_PREP mask v; Some (u32 x).
Definition u32_get_bits (v mask : Z) : option Z := x ← FIELD_GET mask v; Some (u32 x).
Definition u32p_replace_bits (p val mask : Z) : option Z :=
  x ← u32_encode_bits val mask; Some ((p .& cnot 32 mask) .| x).
Definition u64_encode_bits (v mask : Z) : option Z := FIELD_PREP mask v.
Definition le16_get_bits (v mask : Z) : option Z := u16_get_bits (u16 v) mask.
Definition le32_get_bits (v mask : Z) : option Z := u32_get_bits (u32 v) mask.
Definition le32_encode_bits (v mask : Z) : option Z := x ← u32_encode_bits v mask; Some (u32 x).
Definition le32p_replace_bits (p val mask : Z) : option Z :=
  tmp ← u32p_replace_bits (u32 p) val mask; Some (u32 tmp).
Definition le64_get_bits (v mask : Z) : option Z := u64_encode_bits (v .& mask) mask.

Definition rtw_read32_mask_helper (val mask : Z) : option Z := s ← __ffs mask; shr32 (val .& mask) s.
Definition rtw_set32_mask_helper (val mask data : Z) : option Z :=
  s ← __ffs mask; d ← shl32 data s; Some ((val .& cnot 32 mask) .| (d .& mask)).

(** *** A bitmap as a set: the calls a program makes and their answers *)

Inductive bit_op :=
| OpSet (nr : Z) | OpClear (nr : Z) | OpTest (nr : Z) | OpTestSet (nr : Z) | OpTestClear (nr : Z)
| OpZero (nbits : Z) | OpFirst (zero : bool) (size : Z) | OpNext (zero : bool) (size offset : Z).
Inductive bit_answer := Done | Bit (b : bool) | Pos (n : Z).

Definition bit_call (o : bit_op) (addr : list Z) : option (bit_answer * list Z) :=
  match o with
  | OpSet nr => addr ← set_bit nr addr; Some (Done, addr)
  | OpClear nr => addr ← clear_bit nr addr; Some (Done, addr)
  | OpTest nr => b ← test_bit nr addr; Some (Bit b, addr)
  | OpTestSet nr => '(b, addr) ← test_and_set_bit nr addr; Some (Bit b, addr)
  | OpTestClear nr => '(b, addr) ← test_and_clear_bit nr addr; Some (Bit b, addr)
  | OpZero nbits => addr ← bitmap_zero addr nbits; Some (Done, addr)
  | OpFirst zero size => n ← find_first zero addr size; Some (Pos n, addr)
  | OpNext zero size offset => n ← find_next zero addr size offset; Some (Pos n, addr)
  end.

(** The least member, or with [zero] the least non-member, among [n] numbers
    from [i] on; [i + n] when there is none. *)
Fixpoint least (zero : bool) (X : gset Z) (n : nat) (i : Z) : Z :=
  match n with
  | O => i
  | S n => if xorb zero (bool_decide (i ∈ X)) then i else least zero X n (i + 1)
  end.
Definition least_from (zero : bool) (X : gset Z) (size i : Z) : Z :=
  if size <=? i then size else least zero X (Z.to_nat (size - i)) i.
Definition set_call (o : bit_op) (X : gset Z) : bit_answer * gset Z :=
  match o with
  | OpSet nr => (Done, {[nr]} ∪ X)
  | OpClear nr => (Done, X ∖ {[nr]})
  | OpTest nr => (Bit (bool_decide (nr ∈ X)), X)
  | OpTestSet nr => (Bit (bool_decide (nr ∈ X)), {[nr]} ∪ X)
  | OpTestClear nr => (Bit (bool_decide (nr ∈ X)), X ∖ {[nr]})
  | OpZero nbits => (Done, filter (fun i => 64 * bitmap_words nbits <= i) X)
  | OpFirst zero size => (Pos (least_from zero X size 0), X)
  | OpNext zero size offset => (Pos (least_from zero X size offset), X)
  end.

Fixpoint bit_calls (l : list bit_op) (addr : list Z) : option (list bit_answer * list Z) :=
  match l with
  | [] => Some ([], addr)
  | o :: l => '(a, addr) ← bit_call o addr; '(r, addr) ← bit_calls l addr; Some (a :: r, addr)
  end.
Fixpoint set_calls (l : list bit_op) (X : gset Z) : list bit_answer * gset Z :=
  match l with
  | [] => ([], X)
  | o :: l => let '(a, X) := set_call o X in let '(r, X) := set_calls l X in (a :: r, X)
  end.

(** The arguments stay inside a bitmap of [n] bits. *)
Definition bit_op_ok (n : Z) (o : bit_op) : Prop :=
  match o with
  | OpSet nr | OpClear nr | OpTest nr | OpTestSet nr | OpTestClear nr => 0 <= nr < n
  | OpZero nbits => 0 <= nbits <= n /\ nbits < 2 ^ 32
  | OpFirst _ size => 0 <= size <= n
  | OpNext _ size offset => 0 <= size <= n /\ 0 <= offset
  end.

Definition bit_at (addr : list Z) (i : Z) : bool :=
  match ld addr (i / BITS_PER_LONG) with Some w => Z.testbit w (i mod BITS_PER_LONG) | None => false end.
Definition bitmap_ok (addr : list Z) : Prop := Forall (in_range 64) addr /\ 64 * zlen addr < 2 ^ 64.
(** The bitmap holds the set. *)
Definition holds (addr : list Z) (X : gset Z) : Prop :=
  forall i, i ∈ X <-> 0 <= i < 64 * zlen addr /\ bit_at addr i = true.

(** ** Words *)

Lemma ctz_pos_spec p : 0 <= ctz_pos p /\ Z.testbit (Zpos p) (ctz_pos p) = true /\
  forall i, i < ctz_pos p -> Z.testbit (Zpos p) i = false.
Proof.
  induction p as [p IH|p (IH0 & IH1 & IH2)|]; simpl ctz_pos.
  - split_and!; [done|done|]. intros i Hi. by apply Z.testbit_neg_r.
  - rewrite Pos2Z.inj_xO. split_and!; [lia| |].
    + by rewrite Z.double_bits_succ.
    + intros i Hi. destruct (Z.ltb_spec i 0); [by apply Z.testbit_neg_r|].
      destruct (Z.eq_dec i 0) as [->|]; [by rewrite Z.testbit_even_0|].
      replace i with (Z.succ (i - 1)) by lia. rewrite Z.double_bits_succ. apply IH2. lia.
  - split_and!; [done|done|]. intros i Hi. by apply Z.testbit_neg_r.
Qed.

Lemma ffs_spec w x : 0 <= w -> in_range w x -> x <> 0 ->
  exists b, __ffs x = Some b /\ 0 <= b < w /\ Z.testbit x b = true /\
    forall i, i < b -> Z.testbit x i = false.
Proof.
  intros Hw Hr Hx. destruct x as [|p|p]; [done| |destruct Hr; lia].
  destruct (ctz_pos_spec p) as (H0 & H1 & H2). exists (ctz_pos p). split_and!; try done.
  destruct (Z.ltb_spec (ctz_pos p) w); [done|]. by rewrite (in_range_testbit _ _ _ Hr) in H1.
Qed.

Lemma cnot_testbit w x i : 0 <= w -> Z.testbit (cnot w x) i = (0 <=? i) && (i <? w) && negb (Z.testbit x i).
Proof.
  intros Hw. unfold cnot. rewrite wrap_testbit by done. destruct (Z.leb_spec 0 i); [|done].
  by rewrite Z.lnot_spec.
Qed.
#[export] Hint Rewrite cnot_testbit using lia : bits.

Lemma cnot_range w x : 0 <= w -> in_range w (cnot w x).
Proof. apply wrap_range. Qed.
#[export] Hint Resolve cnot_range : machine.

(** [1 << n] as a mask. *)
Lemma one_testbit n i : 0 <= n -> Z.testbit (1 << n) i = (i =? n).
Proof.
  intros Hn. destruct (Z.ltb_spec i 0).
  - rewrite Z.testbit_neg_r by done. case_cmp.
  - rewrite Z.shiftl_spec by done. destruct (Z.eqb_spec i n) as [->|Hi]; [by rewrite Z.sub_diag|].
    destruct (Z.ltb_spec i n); [rewrite Z.testbit_neg_r by lia; done|].
    by rewrite (Z.bits_above_log2 1) by (simpl; lia).
Qed.

Lemma one_range n : 0 <= n < 64 -> in_range 64 (1 << n).
Proof. intros [H1 H2]. rewrite Z.shiftl_1_l. split; [lia|]. by apply Z.pow_lt_mono_r. Qed.

Lemma land_one w n : 0 <= n -> negb (w .& (1 << n) =? 0) = Z.testbit w n.
Proof.
  intros Hn. destruct (Z.testbit w n) eqn:E.
  - apply negb_true_iff, Z.eqb_neq. intros H0. apply (f_equal (fun x => Z.testbit x n)) in H0.
    by rewrite Z.land_spec, one_testbit, E, Z.eqb_refl, Z.bits_0 in H0.
  - apply negb_false_iff, Z.eqb_eq. apply Z.bits_inj'. intros i Hi.
    rewrite Z.land_spec, one_testbit, Z.bits_0 by done. destruct (Z.eqb_spec i n) as [->|]; [by rewrite E|].
    apply andb_false_r.
Qed.

(** ** Bits of a bitmap *)

Lemma word_index n i : 0 <= i < 64 * n -> 0 <= i / 64 < n.
Proof. intros [H1 H2]. split; [apply Z.div_pos; lia|]. apply Z.div_lt_upper_bound; lia. Qed.

Lemma bit_word addr i w : ld addr (i / 64) = Some w -> bit_at addr i = Z.testbit w (i mod 64).
Proof. unfold bit_at, BITS_PER_LONG. by intros ->. Qed.

(** One word replaced. *)
Lemma bit_at_store addr k v addr' j : st addr k v = Some addr' ->
  bit_at addr' j = if j / 64 =? k then Z.testbit v (j mod 64) else bit_at addr j.
Proof.
  unfold st, bit_at, ld, BITS_PER_LONG, zlen. destruct (_ && _) eqn:E; [|done]. intros [= <-]. bool_hyps.
  destruct (Z.eqb_spec (j / 64) k) as [->|Hne].
  - rewrite (proj2 (Z.leb_le 0 k)) by done. by rewrite list_lookup_insert_eq by lia.
  - destruct (Z.leb_spec 0 (j / 64)); [|done]. by rewrite list_lookup_insert_ne by lia.
Qed.

Lemma word_store_ok addr k v addr' : bitmap_ok addr -> in_range 64 v -> st addr k v = Some addr' ->
  bitmap_ok addr' /\ zlen addr' = zlen addr.
Proof.
  unfold st. intros [H1 H2] Hv. destruct (_ && _); [|done]. intros [= <-].
  rewrite zlen_insert. split; [|done]. split; [|by rewrite zlen_insert]. by apply Forall_insert.
Qed.

Lemma word_ok addr k : bitmap_ok addr -> 0 <= k < zlen addr ->
  exists w, ld addr k = Some w /\ in_range 64 w.
Proof.
  intros [H1 _] Hk. destruct (ld_Some addr k Hk) as [w Hw]. exists w. split; [done|].
  unfold ld in Hw. destruct (0 <=? k); [|done]. by apply (Forall_lookup_1 _ _ _ _ H1 Hw).
Qed.

(** A bit's word is read, and written with the bit replaced. *)
Lemma update_bit addr nr f (b : bool) : bitmap_ok addr -> 0 <= nr < 64 * zlen addr ->
  (forall w, in_range 64 w -> in_range 64 (f w)) ->
  (forall w j, 0 <= j < 64 -> Z.testbit (f w) j = if j =? nr mod 64 then b else Z.testbit w j) ->
  exists w addr', ld addr (nr / 64) = Some w /\ Z.testbit w (nr mod 64) = bit_at addr nr /\
    st addr (nr / 64) (f w) = Some addr' /\ bitmap_ok addr' /\ zlen addr' = zlen addr /\
    forall j, bit_at addr' j = if j =? nr then b else bit_at addr j.
Proof.
  intros Hok Hnr Hf Hb. pose proof (word_index _ _ Hnr) as Hk.
  destruct (word_ok _ _ Hok Hk) as (w & Hw & Hr).
  pose proof (st_Some addr (nr / 64) (f w) Hk) as Hst. eexists w, _. split; [done|].
  split; [by rewrite (bit_word _ _ _ Hw)|]. split; [done|].
  destruct (word_store_ok _ _ _ _ Hok (Hf _ Hr) Hst) as [H1 H2]. split_and!; [done|done|].
  intros j. rewrite (bit_at_store _ _ _ _ j Hst). pose proof (Z.mod_pos_bound j 64 eq_refl).
  pose proof (Z.mod_pos_bound nr 64 eq_refl).
  pose proof (Z.div_mod j 64 ltac:(lia)). pose proof (Z.div_mod nr 64 ltac:(lia)).
  destruct (Z.eqb_spec (j / 64) (nr / 64)) as [He|He].
  - rewrite Hb by lia. destruct (Z.eqb_spec (j mod 64) (nr mod 64)), (Z.eqb_spec j nr); try lia; [done|].
    symmetry. apply bit_word. by rewrite He.
  - destruct (Z.eqb_spec j nr) as [->|]; done.
Qed.

Lemma set_word w n j : 0 <= n -> Z.testbit (w .| (1 << n)) j = if j =? n then true else Z.testbit w j.
Proof.
  intros Hn. rewrite Z.lor_spec, one_testbit by done. destruct (j =? n); [apply orb_true_r|apply orb_false_r].
Qed.
Lemma clear_word w n j : 0 <= n -> 0 <= j < 64 ->
  Z.testbit (w .& cnot 64 (1 << n)) j = if j =? n then false else Z.testbit w j.
Proof.
  intros Hn Hj. rewrite Z.land_spec, cnot_testbit, one_testbit by lia.
  rewrite (proj2 (Z.leb_le 0 j)), (proj2 (Z.ltb_lt j 64)) by lia.
  destruct (j =? n); [apply andb_false_r|apply andb_true_r].
Qed.

Lemma set_bit_ok addr nr : bitmap_ok addr -> 0 <= nr < 64 * zlen addr ->
  exists addr', set_bit nr addr = Some addr' /\
    test_and_set_bit nr addr = Some (bit_at addr nr, addr') /\ bitmap_ok addr' /\ zlen addr' = zlen addr /\
    forall j, bit_at addr' j = if j =? nr then true else bit_at addr j.
Proof.
  intros Hok Hnr. pose proof (Z.mod_pos_bound nr 64 eq_refl) as Hm.
  destruct (update_bit addr nr (fun w => w .| (1 << (nr mod 64))) true) as (w & addr' & H1 & H2 & H3 & H4 & H5 & H6);
    [done|done|intros; by apply lor_in_range, one_range| |].
  - intros w j _. apply set_word; lia.
  - exists addr'. unfold set_bit, test_and_set_bit, BITS_PER_LONG. rewrite H1. simpl. rewrite H3. simpl.
    rewrite land_one, H2 by lia. by split_and!.
Qed.

Lemma clear_bit_ok addr nr : bitmap_ok addr -> 0 <= nr < 64 * zlen addr ->
  exists addr', clear_bit nr addr = Some addr' /\
    test_and_clear_bit nr addr = Some (bit_at addr nr, addr') /\ bitmap_ok addr' /\ zlen addr' = zlen addr /\
    forall j, bit_at addr' j = if j =? nr then false else bit_at addr j.
Proof.
  intros Hok Hnr. pose proof (Z.mod_pos_bound nr 64 eq_refl) as Hm.
  destruct (update_bit addr nr (fun w => w .& cnot 64 (1 << (nr mod 64))) false) as (w & addr' & H1 & H2 & H3 & H4 & H5 & H6);
    [done|done|intros; by apply land_in_range| |].
  - intros w j Hj. apply clear_word; lia.
  - exists addr'. unfold clear_bit, test_and_clear_bit, BITS_PER_LONG. rewrite H1. simpl. rewrite H3. simpl.
    rewrite land_one, H2 by lia. by split_and!.
Qed.

Lemma test_bit_ok addr nr : bitmap_ok addr -> 0 <= nr < 64 * zlen addr -> test_bit nr addr = Some (bit_at addr nr).
Proof.
  intros Hok Hnr. destruct (word_ok _ _ Hok (word_index _ _ Hnr)) as (w & Hw & _).
  pose proof (Z.mod_pos_bound nr 64 eq_refl) as Hm.
  unfold test_bit, BITS_PER_LONG. rewrite Hw. simpl. rewrite land_one by lia. by rewrite (bit_word _ _ _ Hw).
Qed.

Lemma zero_words_ok n : forall i addr, bitmap_ok addr -> 0 <= i -> i + Z.of_nat n <= zlen addr ->
  exists addr', zero_words n i addr = Some addr' /\ bitmap_ok addr' /\ zlen addr' = zlen addr /\
    forall j, bit_at addr' j = if (i <=? j / 64) && (j / 64 <? i + Z.of_nat n) then false else bit_at addr j.
Proof.
  induction n as [|n IH]; intros i addr Hok Hi Hn; simpl.
  - exists addr. split_and!; try done. intros j. case_cmp.
  - pose proof (st_Some addr i 0 ltac:(lia)) as Hst. rewrite Hst. simpl.
    assert (H0 : in_range 64 0) by (split; lia). destruct (word_store_ok _ _ _ _ Hok H0 Hst) as [H1 H2].
    destruct (IH (i + 1) _ H1) as (addr' & E & Hok' & Hl & Hb); [lia|lia|].
    exists addr'. split; [done|]. split; [done|]. split; [lia|]. intros j. rewrite Hb, (bit_at_store _ _ _ _ j Hst), Z.bits_0.
    case_cmp.
Qed.

(** ** Searches *)

Definition looks (zero : bool) (addr : list Z) (j : Z) : bool := xorb zero (bit_at addr j).

(** [r] is the first hit from [lo] on, or [size]. *)
Definition found (P : Z -> bool) (lo size r : Z) : Prop :=
  r <= size /\ (r < size -> lo <= r /\ P r = true) /\ forall j, lo <= j < r -> P j = false.

Lemma word_of_range zero w : in_range 64 w -> in_range 64 (word_of zero w).
Proof. destruct zero; simpl; [intros _; by apply cnot_range|done]. Qed.
Lemma word_of_testbit zero w j : 0 <= j < 64 -> Z.testbit (word_of zero w) j = xorb zero (Z.testbit w j).
Proof.
  intros Hj. destruct zero; simpl; [|by destruct (Z.testbit w j)].
  rewrite cnot_testbit by lia. case_cmp.
Qed.

(** A word whose bits are the hits among its 64 numbers from [start] on. *)
Definition masks (P : Z -> bool) (k start v : Z) : Prop :=
  in_range 64 v /\ forall b, 0 <= b < 64 -> Z.testbit v b = (start <=? b) && P (k * 64 + b).

Lemma masks_hit P k start v size : masks P k start v -> v <> 0 -> 0 <= start -> 0 <= k -> 64 * k + 64 <= 2 ^ 64 ->
  exists b, __ffs v = Some b /\
    found P (k * 64 + start) size (let bit := u64 (k * 64 + b) in if bit <? size then bit else size).
Proof.
  intros [Hr Hb] Hv Hs Hk Hm. destruct (ffs_spec 64 v ltac:(lia) Hr Hv) as (b & H1 & H2 & H3 & H4).
  exists b. split; [done|]. cbv zeta. rewrite wrap_small by (split; lia).
  rewrite Hb in H3 by lia. bool_hyps.
  assert (Hlow : forall j, k * 64 + start <= j < k * 64 + b -> P j = false).
  { intros j Hj. specialize (H4 (j - k * 64) ltac:(lia)). rewrite Hb in H4 by lia.
    replace (k * 64 + (j - k * 64)) with j in H4 by lia.
    rewrite (proj2 (Z.leb_le start (j - k * 64))) in H4 by lia. done. }
  destruct (Z.ltb_spec (k * 64 + b) size); split_and!; try lia; intros.
  - split; [lia|done].
  - apply Hlow. lia.
  - apply Hlow. lia.
Qed.

Lemma masks_none P k start v : masks P k start v -> v = 0 -> 0 <= start ->
  forall j, k * 64 + start <= j < (k + 1) * 64 -> P j = false.
Proof.
  intros [_ Hb] -> Hs j Hj. specialize (Hb (j - k * 64) ltac:(lia)). rewrite Z.bits_0 in Hb.
  replace (k * 64 + (j - k * 64)) with j in Hb by lia.
  rewrite (proj2 (Z.leb_le start (j - k * 64))) in Hb by lia. done.
Qed.

Lemma looks_word zero addr k w b : ld addr k = Some w -> 0 <= b < 64 ->
  Z.testbit (word_of zero w) b = looks zero addr (k * 64 + b).
Proof.
  intros Hw Hb. rewrite word_of_testbit by done. unfold looks. f_equal. unfold bit_at, BITS_PER_LONG.
  rewrite Z.div_add_l, (Z.div_small b), Z.add_0_r, Hw by lia. f_equal. rewrite Z.add_comm, Z.mod_add by lia.
  symmetry. by apply Z.mod_small.
Qed.

(** What the first words do not hold, the rest may. *)
Lemma found_weaken P lo lo' size r : found P lo' size r -> lo <= lo' ->
  (forall j, lo <= j < lo' -> P j = false) -> found P lo size r.
Proof.
  intros (H1 & H2 & H3) Hlo Hl. split_and!; [done| |].
  - intros Hr. specialize (H2 Hr). split; [lia|apply H2].
  - intros j Hj. destruct (Z.ltb_spec j lo'); [apply Hl|apply H3]; lia.
Qed.

Lemma scan_words_ok zero addr size n : forall i, bitmap_ok addr -> 0 <= i -> i + Z.of_nat n <= zlen addr ->
  size <= 64 * (i + Z.of_nat n) ->
  exists r, scan_words zero n i addr size = Some r /\ found (looks zero addr) (i * 64) size r.
Proof.
  induction n as [|n IH]; intros i Hok Hi Hn Hsz; simpl.
  - exists size. split; [done|]. split_and!; [lia|lia|]. intros j Hj. lia.
  - destruct (word_ok addr i Hok ltac:(lia)) as (w & Hw & Hr). rewrite Hw. simpl.
    assert (Hm : masks (looks zero addr) i 0 (word_of zero w)).
    { split; [by apply word_of_range|]. intros b Hb. rewrite (proj2 (Z.leb_le 0 b)) by lia. by apply looks_word. }
    destruct (Z.eqb_spec (word_of zero w) 0) as [E|E]; simpl.
    + destruct (IH (i + 1) Hok) as (r & E1 & E2); [lia|lia|lia|]. exists r. split; [done|].
      apply (found_weaken _ _ _ _ _ E2); [lia|]. intros j Hj. apply (masks_none _ _ _ _ Hm E); lia.
    + destruct (masks_hit _ _ _ _ size Hm E) as (b & H1 & H2); [lia|lia|destruct Hok; lia|].
      rewrite H1. simpl. eexists. split; [done|]. by replace (i * 64) with (i * 64 + 0) by lia.
Qed.

Lemma high_testbit start b : 0 <= start < 64 -> 0 <= b < 64 ->
  Z.testbit (u64 (cnot 64 0 << start)) b = (start <=? b).
Proof.
  intros Hs Hb. rewrite wrap_testbit, Z.shiftl_spec by lia.
  rewrite (proj2 (Z.leb_le 0 b)), (proj2 (Z.ltb_lt b 64)) by lia. cbn [andb].
  destruct (Z.leb_spec start b); [|by rewrite Z.testbit_neg_r by lia].
  rewrite cnot_testbit, Z.bits_0 by lia. case_cmp.
Qed.

Lemma bitmap_words_ok n size : 0 <= size <= 64 * n -> 64 * n < 2 ^ 64 ->
  0 <= bitmap_words size <= n /\ size <= 64 * bitmap_words size.
Proof.
  intros Hs Hn. unfold bitmap_words, BITS_PER_LONG.
  destruct (Z.eq_dec size 0) as [->|]; [change (u64 (0 + 64 - 1) / 64) with 0; lia|].
  destruct (Z.ltb_spec (size + 64 - 1) (2 ^ 64)) as [H|H].
  - rewrite wrap_small by (split; lia). pose proof (Z.div_mod (size + 64 - 1) 64 ltac:(lia)).
    pose proof (Z.mod_pos_bound (size + 64 - 1) 64 eq_refl). lia.
  - exfalso. assert (2 ^ 64 = 64 * 2 ^ 58) by reflexivity. lia.
Qed.

Lemma find_first_ok zero addr size : bitmap_ok addr -> 0 <= size <= 64 * zlen addr ->
  exists r, find_first zero addr size = Some r /\ found (looks zero addr) 0 size r.
Proof.
  intros Hok Hs. destruct (bitmap_words_ok (zlen addr) size) as [H1 H2]; [done|apply Hok|].
  unfold find_first. apply scan_words_ok; [done|lia|lia|lia].
Qed.

Lemma find_next_ok zero addr size offset : bitmap_ok addr -> 0 <= offset < size -> size <= 64 * zlen addr ->
  exists r, find_next zero addr size offset = Some r /\ found (looks zero addr) offset size r.
Proof.
  intros Hok Ho Hs. destruct (bitmap_words_ok (zlen addr) size) as [H1 H2]; [lia|apply Hok|].
  unfold find_next, BITS_PER_LONG. rewrite (proj2 (Z.leb_gt size offset)) by lia.
  pose proof (word_index (zlen addr) offset ltac:(lia)) as Hk. pose proof (Z.mod_pos_bound offset 64 eq_refl) as Hm.
  pose proof (Z.div_mod offset 64 ltac:(lia)) as Hd. set (k := offset / 64) in *. set (s := offset mod 64) in *.
  destruct (word_ok addr k Hok Hk) as (w & Hw & Hr). rewrite Hw. simpl. set (v := word_of zero w .& _).
  assert (Hv : masks (looks zero addr) k s v).
  { split; [by apply land_in_range, word_of_range|]. intros b Hb. unfold v.
    rewrite Z.land_spec, high_testbit, (looks_word _ _ _ _ _ Hw), andb_comm by lia. done. }
  assert (Ho' : k * 64 + s = offset) by lia. destruct (Z.eqb_spec v 0) as [E|E]; simpl.
  - destruct (scan_words_ok zero addr size (Z.to_nat (bitmap_words size - (k + 1))) (k + 1)) as (r & E1 & E2);
      [done|lia|lia|lia|]. exists r. split; [done|]. apply (found_weaken _ _ _ _ _ E2); [lia|].
    intros j Hj. apply (masks_none _ _ _ _ Hv E); lia.
  - destruct (masks_hit _ _ _ _ size Hv E) as (b & E1 & E2); [lia|lia|destruct Hok; lia|].
    rewrite E1, <- Ho'. simpl. eexists. split; [done|exact E2].
Qed.

(** The reference search finds the same number. *)
Lemma least_found zero X n : forall i,
  found (fun j => xorb zero (bool_decide (j ∈ X))) i (i + Z.of_nat n) (least zero X n i).
Proof.
  induction n as [|n IH]; intros i; simpl least.
  - split_and!; [lia|lia|]. intros j Hj. lia.
  - destruct (xorb _ _) eqn:E; [split_and!; [lia|intros _; split; [lia|done]|lia]|].
    replace (i + Z.of_nat (S n)) with (i + 1 + Z.of_nat n) by lia.
    apply (found_weaken _ _ _ _ _ (IH (i + 1))); [lia|]. intros j Hj. by replace j with i by lia.
Qed.

Lemma found_unique P Q lo size r r' : lo <= size -> (forall j, lo <= j < size -> P j = Q j) ->
  found P lo size r -> found Q lo size r' -> r = r'.
Proof.
  intros Hlo HPQ (H1 & H2 & H3) (H1' & H2' & H3').
  destruct (Z.lt_trichotomy r r') as [H|[H|H]]; [|done|].
  - destruct (H2 ltac:(lia)) as [? Hr]. rewrite HPQ, H3' in Hr by lia. done.
  - destruct (H2' ltac:(lia)) as [? Hr]. rewrite <- HPQ, H3 in Hr by lia. done.
Qed.

Lemma holds_looks zero addr X j : holds addr X -> 0 <= j < 64 * zlen addr ->
  looks zero addr j = xorb zero (bool_decide (j ∈ X)).
Proof.
  intros HX Hj. unfold looks. f_equal. specialize (HX j). destruct (bit_at addr j).
  - symmetry. apply bool_decide_eq_true. tauto.
  - symmetry. apply bool_decide_eq_false. intros H%HX. by destruct H.
Qed.

Lemma found_least zero addr X lo size r : holds addr X -> 0 <= lo <= size -> size <= 64 * zlen addr ->
  found (looks zero addr) lo size r -> r = least_from zero X size lo.
Proof.
  intros HX Hlo Hs Hr. unfold least_from. destruct (Z.leb_spec size lo).
  - destruct Hr as (H1 & H2 & H3). destruct (Z.ltb_spec r size); [destruct (H2 ltac:(done)); lia|lia].
  - pose proof (least_found zero X (Z.to_nat (size - lo)) lo) as Hl.
    replace (lo + Z.of_nat (Z.to_nat (size - lo))) with size in Hl by lia.
    apply (found_unique _ _ lo size _ _ ltac:(lia)) with (2 := Hr) (3 := Hl).
    intros j Hj. apply holds_looks; [done|lia].
Qed.

(** ** One call, and any number of them *)

Lemma bit_holds addr X nr : holds addr X -> 0 <= nr < 64 * zlen addr -> bit_at addr nr = bool_decide (nr ∈ X).
Proof. intros HX Hnr. apply (holds_looks false _ _ _ HX) in Hnr. by rewrite xorb_false_l in Hnr. Qed.

Lemma holds_set addr addr' X nr : holds addr X -> zlen addr' = zlen addr -> 0 <= nr < 64 * zlen addr ->
  (forall j, bit_at addr' j = if j =? nr then true else bit_at addr j) -> holds addr' ({[nr]} ∪ X).
Proof.
  intros HX Hl Hnr Hb i. rewrite Hb, Hl, elem_of_union, elem_of_singleton, (HX i).
  destruct (Z.eqb_spec i nr); naive_solver.
Qed.
Lemma holds_clear addr addr' X nr : holds addr X -> zlen addr' = zlen addr ->
  (forall j, bit_at addr' j = if j =? nr then false else bit_at addr j) -> holds addr' (X ∖ {[nr]}).
Proof.
  intros HX Hl Hb i. rewrite Hb, Hl, elem_of_difference, elem_of_singleton, (HX i).
  destruct (Z.eqb_spec i nr); naive_solver.
Qed.

(** The call answers as the set's, and leaves a bitmap that holds its set. *)
Definition call_agrees (o : bit_op) (addr : list Z) (X : gset Z) : Prop :=
  exists addr', bit_call o addr = Some (fst (set_call o X), addr') /\
    bitmap_ok addr' /\ zlen addr' = zlen addr /\ holds addr' (snd (set_call o X)).

Lemma zero_agrees addr X nbits : bitmap_ok addr -> holds addr X -> bit_op_ok (64 * zlen addr) (OpZero nbits) ->
  call_agrees (OpZero nbits) addr X.
Proof.
  intros Hok HX [Hn Hw]. destruct (bitmap_words_ok (zlen addr) nbits) as [H1 H2]; [done|apply Hok|].
  assert (H3 : in_range 32 (bitmap_words nbits)).
  { split; [lia|]. unfold bitmap_words, BITS_PER_LONG. rewrite wrap_small by (split; lia).
    apply Z.div_lt_upper_bound; lia. }
  destruct (zero_words_ok (Z.to_nat (bitmap_words nbits)) 0 addr Hok) as (addr' & E & Hok' & Hl & Hb); [lia|lia|].
  exists addr'. cbn [bit_call]. unfold bitmap_zero. rewrite wrap_small, E by done.
  split; [done|]. split; [done|]. split; [done|]. intros i. cbn [set_call snd].
  rewrite elem_of_filter, Hb, Hl, (HX i). pose proof (Z.div_mod i 64 ltac:(lia)).
  pose proof (Z.mod_pos_bound i 64 eq_refl). case_cmp; naive_solver lia.
Qed.

Lemma search_agrees o zero addr X size offset : bitmap_ok addr -> holds addr X ->
  o = OpFirst zero size /\ offset = 0 \/ o = OpNext zero size offset -> bit_op_ok (64 * zlen addr) o ->
  call_agrees o addr X.
Proof.
  intros Hok HX Ho Hs. exists addr. split; [|by destruct Ho as [[-> ->]| ->]].
  destruct Ho as [[-> ->]| ->]; simpl in *.
  - destruct (find_first_ok zero addr size Hok Hs) as (r & E & Hr). rewrite E. simpl.
    by rewrite (found_least zero addr X 0 size r HX ltac:(lia) ltac:(lia) Hr).
  - destruct (Z.ltb_spec offset size).
    + destruct (find_next_ok zero addr size offset Hok) as (r & E & Hr); [lia|lia|]. rewrite E. simpl.
      by rewrite (found_least zero addr X offset size r HX ltac:(lia) ltac:(lia) Hr).
    + unfold find_next, least_from. by rewrite !(proj2 (Z.leb_le size offset)) by lia.
Qed.

Lemma bit_call_agrees o addr X : bitmap_ok addr -> holds addr X -> bit_op_ok (64 * zlen addr) o -> call_agrees o addr X.
Proof.
  intros Hok HX Ho. destruct o as [nr|nr|nr|nr|nr|nbits|zero size|zero size offset].
  - destruct (set_bit_ok addr nr Hok Ho) as (addr' & E & _ & H1 & H2 & H3). exists addr'. simpl. rewrite E.
    eauto using holds_set.
  - destruct (clear_bit_ok addr nr Hok Ho) as (addr' & E & _ & H1 & H2 & H3). exists addr'. simpl. rewrite E.
    eauto using holds_clear.
  - exists addr. simpl. rewrite test_bit_ok, (bit_holds _ _ _ HX) by done. done.
  - destruct (set_bit_ok addr nr Hok Ho) as (addr' & _ & E & H1 & H2 & H3). exists addr'. simpl.
    rewrite E, (bit_holds _ _ _ HX) by done. eauto using holds_set.
  - destruct (clear_bit_ok addr nr Hok Ho) as (addr' & _ & E & H1 & H2 & H3). exists addr'. simpl.
    rewrite E, (bit_holds _ _ _ HX) by done. eauto using holds_clear.
  - by apply zero_agrees.
  - apply (search_agrees _ zero _ _ size 0); auto.
  - apply (search_agrees _ zero _ _ size offset); auto.
Qed.

(** C29: a bitmap is a set of numbers.  Every history of set_bit, clear_bit,
    test_bit, test_and_set_bit, test_and_clear_bit, bitmap_zero and the four
    searches, with arguments inside the array, runs without an undefined shift
    or access, and gives the answers of the finite set it holds: each search
    the least member (or non-member) from its offset on, or its size.
    bitmap_zero clears whole words: every number below the size rounded up to
    64. *)
Theorem bitmap_refines_set l : forall addr X, bitmap_ok addr -> holds addr X ->
  Forall (bit_op_ok (64 * zlen addr)) l ->
  exists addr', bit_calls l addr = Some (fst (set_calls l X), addr') /\
    bitmap_ok addr' /\ zlen addr' = zlen addr /\ holds addr' (snd (set_calls l X)).
Proof.
  induction l as [|o l IH]; intros addr X Hok HX Hl; simpl; [by exists addr|].
  apply Forall_cons in Hl as [Ho Hl]. destruct (bit_call_agrees o addr X Hok HX Ho) as (addr1 & E & H1 & H2 & H3).
  rewrite E. simpl. destruct (set_call o X) as [a X1]. simpl in *. rewrite <- H2 in Hl.
  destruct (IH addr1 X1 H1 H3 Hl) as (addr2 & E' & H1' & H2' & H3'). exists addr2. rewrite E'. simpl.
  destruct (set_calls l X1) as [r X2]. simpl in *. split; [done|]. split; [done|]. split; [congruence|done].
Qed.

Definition demo_bits : list bit_op :=
  [OpSet 3; OpTestSet 70; OpTestSet 3; OpNext false 128 4; OpFirst true 128; OpClear 3; OpFirst false 100;
   OpNext true 128 70; OpTestClear 70; OpFirst false 100; OpSet 127; OpZero 65; OpTest 127].
Lemma demo_bits_ok : Forall (bit_op_ok (64 * zlen [0; 0])) demo_bits.
Proof. change (64 * zlen [0; 0]) with 128. repeat (apply List.Forall_cons; [simpl; lia|]). constructor. Qed.
Lemma holds_nothing : holds [0; 0] ∅.
Proof.
  intros i. split; [by intros ?%elem_of_empty|]. intros [Hi Hb]. exfalso.
  assert (H : bit_at [0; 0] i = false); [|congruence]. unfold bit_at, BITS_PER_LONG, ld. case_cmp.
  destruct (Z.to_nat (i `div` 64)) as [|[|k]]; simpl; rewrite ?lookup_nil; try apply Z.bits_0; done.
Qed.
Lemma bitmap_refines_set_witness : exists addr',
  bit_calls demo_bits [0; 0] = Some (fst (set_calls demo_bits ∅), addr') /\
    bitmap_ok addr' /\ zlen addr' = zlen [0; 0] /\ holds addr' (snd (set_calls demo_bits ∅)).
Proof.
  apply (bitmap_refines_set demo_bits [0; 0] ∅).
  - split; [by repeat constructor|vm_compute; reflexivity].
  - exact holds_nothing.
  - exact demo_bits_ok.
Defined.
Example demo_bits_answers : option_map fst (bit_calls demo_bits [0; 0]) =
  Some [Done; Bit false; Bit true; Pos 70; Pos 0; Done; Pos 70; Pos 71; Bit true; Pos 100; Done; Done; Bit false].
Proof. reflexivity. Qed.

(** ** Fields *)

Section field.
Context (w mask s : Z) (Hw : 0 < w <= 32) (Hm : in_range w mask) (Hs : __ffs mask = Some s) (Hsw : 0 <= s < w).

Lemma prep_value v : in_range w v -> FIELD_PREP mask v = Some ((v << s) .& mask).
Proof.
  intros Hv. unfold FIELD_PREP. rewrite Hs. simpl. rewrite wrap_small; [done|].
  apply testbit_in_range; [lia|apply Z.shiftl_nonneg, Hv|]. intros i Hi.
  rewrite Z.shiftl_spec by lia. apply (in_range_testbit w v); [done|lia].
Qed.
Lemma prep_range v : in_range w ((v << s) .& mask).
Proof. apply land_in_range_r; [lia|done]. Qed.

(** What is in the field after it was written, and what is outside it. *)
Definition field_put (p v : Z) : Z := (p .& cnot w mask) .| ((v << s) .& mask).
Lemma field_put_range p v : in_range w p -> in_range w (field_put p v).
Proof. intros Hp. apply lor_in_range; [lia|by apply land_in_range; [lia|]|apply prep_range]. Qed.
Lemma field_put_in p v : field_put p v .& mask = (v << s) .& mask.
Proof.
  unfold field_put. bits_eq. destruct (Z.testbit mask i); [|by rewrite !andb_false_r].
  cbn [negb]. by rewrite !andb_false_r, orb_false_l, !andb_true_r.
Qed.
Lemma field_put_out p v : field_put p v .& cnot w mask = p .& cnot w mask.
Proof.
  unfold field_put. bits_eq. destruct (Z.testbit mask i); [cbn [negb]; by rewrite !andb_false_r|].
  by rewrite andb_false_r, orb_false_r, <- andb_assoc, andb_diag.
Qed.
Lemma field_fits v : in_range w v -> FIELD_FIT mask v = Some true -> (v << s) .& mask = v << s.
Proof.
  intros Hv. unfold FIELD_FIT. rewrite Hs. simpl. intros [= H%Z.eqb_eq]. bits_eq.
  apply (f_equal (fun x => Z.testbit x i)) in H. revert H.
  rewrite Z.land_spec, wrap_testbit, cnot_testbit, Z.bits_0, Z.shiftl_spec by lia.
  destruct (Z.testbit mask i); [by rewrite andb_true_r|]. rewrite andb_false_r.
  destruct (Z.ltb_spec i 64); [by rewrite (proj2 (Z.leb_le 0 i)), !andb_true_r by lia|].
  by rewrite (in_range_testbit w v) by (done || lia).
Qed.
Lemma get_put p v : in_range w p -> in_range w v -> FIELD_FIT mask v = Some true -> FIELD_GET mask (field_put p v) = Some v.
Proof.
  intros Hp Hv Hf. unfold FIELD_GET. rewrite Hs. simpl. rewrite field_put_in, field_fits by done.
  f_equal. rewrite Z.shiftr_shiftl_l, Z.sub_diag by lia. apply Z.shiftl_0_r.
Qed.
End field.

Lemma mask_shift w mask : 0 < w -> in_range w mask -> mask <> 0 -> exists s, __ffs mask = Some s /\ 0 <= s < w.
Proof. intros Hw Hm Hn. destruct (ffs_spec w mask) as (s & H1 & H2 & _); [lia|done|done|by exists s]. Qed.

Lemma u8_replace_ok p v mask : in_range 8 p -> in_range 8 v -> in_range 8 mask -> mask <> 0 ->
  exists p', u8p_replace_bits p v mask = Some p' /\ in_range 8 p' /\ p' .& cnot 8 mask = p .& cnot 8 mask /\
    (FIELD_FIT mask v = Some true -> u8_get_bits p' mask = Some v).
Proof.
  intros Hp Hv Hm Hn. destruct (mask_shift 8 mask) as (s & Hs & Hsw); [done|done|done|].
  exists (field_put 8 mask s p v). unfold u8p_replace_bits, u8_encode_bits, u8_get_bits.
  rewrite (prep_value 8 mask s) by done. simpl.
  rewrite (wrap_small 8 (_ .& mask)) by by apply prep_range. fold (field_put 8 mask s p v).
  rewrite wrap_small by by apply field_put_range. split; [done|].
  split; [by apply field_put_range|]. split; [by apply field_put_out|]. intros Hf.
  rewrite get_put by done. simpl. by rewrite wrap_small.
Qed.

(** Masked fields are updated exactly.  For every word, value and nonzero
    mask of 32 bits, u32p_replace_bits leaves the bits outside the mask as they
    were, and when the value fits the mask (FIELD_FIT) u32_get_bits reads it
    back.  The register helpers rtw_set32_mask_helper and
    rtw_read32_mask_helper, and the little-endian variant, are the same
    functions; no shift is undefined. *)
Theorem field_update_exact p v mask :
  in_range 32 p -> in_range 32 v -> in_range 32 mask -> mask <> 0 ->
  exists p', u32p_replace_bits p v mask = Some p' /\ in_range 32 p' /\
    p' .& cnot 32 mask = p .& cnot 32 mask /\
    (FIELD_FIT mask v = Some true -> u32_get_bits p' mask = Some v) /\
    rtw_set32_mask_helper p mask v = Some p' /\ le32p_replace_bits p v mask = Some p' /\
    forall x, in_range 32 x -> rtw_read32_mask_helper x mask = u32_get_bits x mask.
Proof.
  intros Hp Hv Hm Hn. destruct (mask_shift 32 mask) as (s & Hs & Hsw); [done|done|done|].
  assert (Hput : u32p_replace_bits p v mask = Some (field_put 32 mask s p v)).
  { unfold u32p_replace_bits, u32_encode_bits. rewrite (prep_value 32 mask s) by done. simpl.
    by rewrite wrap_small by by apply prep_range. }
  pose proof (field_put_range 32 mask s ltac:(lia) Hm p v Hp) as Hr.
  exists (field_put 32 mask s p v). split_and!; try done; try apply Hr.
  - by apply field_put_out.
  - intros Hf. unfold u32_get_bits. rewrite get_put by done. simpl. by rewrite wrap_small.
  - unfold rtw_set32_mask_helper, shl32. rewrite Hs. simpl. replace ((0 <=? s) && (s <? 32)) with true by case_cmp.
    simpl. unfold field_put. do 2 f_equal. bits_eq. destruct (Z.testbit mask i) eqn:E; [|by rewrite !andb_false_r].
    destruct (Z.ltb_spec i 32); [|by rewrite (in_range_testbit 32 mask) in E by done].
    by rewrite (proj2 (Z.leb_le 0 i)) by done.
  - unfold le32p_replace_bits. rewrite (wrap_small 32 p), Hput by done. simpl. by rewrite wrap_small.
  - intros x Hx. unfold rtw_read32_mask_helper, u32_get_bits, FIELD_GET, shr32. rewrite Hs. simpl.
    replace ((0 <=? s) && (s <? 32)) with true by case_cmp.
    rewrite wrap_small; [done|]. apply shiftr_in_range; [lia|]. by apply land_in_range.
Qed.
Lemma field_update_exact_witness : exists p', u32p_replace_bits 0xdeadbeef 0x1a 0x1f00 = Some p' /\ in_range 32 p' /\
    p' .& cnot 32 0x1f00 = 0xdeadbeef .& cnot 32 0x1f00 /\
    (FIELD_FIT 0x1f00 0x1a = Some true -> u32_get_bits p' 0x1f00 = Some 0x1a) /\
    rtw_set32_mask_helper 0xdeadbeef 0x1f00 0x1a = Some p' /\ le32p_replace_bits 0xdeadbeef 0x1a 0x1f00 = Some p' /\
    forall x, in_range 32 x -> rtw_read32_mask_helper x 0x1f00 = u32_get_bits x 0x1f00.
Proof. apply (field_update_exact 0xdeadbeef 0x1a 0x1f00); [split; lia|split; lia|split; lia|lia]. Defined.

(** [le64_get_bits] shifts up where the 16- and 32-bit readers shift down. *)
Example le64_get_bits_encodes : le64_get_bits 0x1200 0xff00 = Some 0 /\ FIELD_GET 0xff00 0x1200 = Some 0x12.
Proof. done. Qed.

(** ** Masks of consecutive bits, rotations, counts *)

Lemma GENMASK_testbit h l : 0 <= l <= h -> h < 64 ->
  exists m, GENMASK h l = Some m /\ forall i, 0 <= i < 64 -> Z.testbit m i = (l <=? i) && (i <=? h).
Proof.
  intros Hl Hh. unfold GENMASK, shl1. replace ((0 <=? l) && (l <? 64)) with true by case_cmp. simpl.
  replace ((0 <=? h) && (h <? 64)) with true by case_cmp. eexists. split; [done|]. intros i Hi.
  assert (Hlow : u64 (cnot 64 0 - (1 << l) + 1) = u64 (cnot 64 0 << l)).
  { rewrite Z.shiftl_1_l, Z.shiftl_mul_pow2 by lia. unfold wrap, cnot, wrap.
    change (Z.lnot 0 mod 2 ^ 64) with (-1 + 1 * 2 ^ 64).
    replace (-1 + 1 * 2 ^ 64 - 2 ^ l + 1) with (- 2 ^ l + 1 * 2 ^ 64) by lia.
    replace ((-1 + 1 * 2 ^ 64) * 2 ^ l) with (- 2 ^ l + 2 ^ l * 2 ^ 64) by lia. by rewrite !Z_mod_plus_full. }
  rewrite Hlow, Z.land_spec, high_testbit, Z.shiftr_spec, cnot_testbit, Z.bits_0 by lia.
  unfold BITS_PER_LONG. f_equal. case_cmp.
Qed.

Lemma rol32_testbit x n : in_range 32 x -> 0 < n < 32 -> exists y, rol32 x n = Some y /\ in_range 32 y /\
  forall i, 0 <= i < 32 -> Z.testbit y i = Z.testbit x ((i - n) mod 32).
Proof.
  intros Hx Hn. unfold rol32, shl32, shr32. replace ((0 <=? n) && (n <? 32)) with true by case_cmp. simpl.
  rewrite (wrap_small 32 (32 - n)) by (split; lia). replace ((0 <=? 32 - n) && (32 - n <? 32)) with true by case_cmp.
  simpl. eexists. split; [done|]. split.
  { apply lor_in_range; [lia|by apply wrap_range|]. apply shiftr_in_range; [lia|done]. }
  intros i Hi. rewrite Z.lor_spec, wrap_testbit, Z.shiftl_spec, Z.shiftr_spec by lia.
  replace ((0 <=? i) && (i <? 32)) with true by case_cmp. cbn [andb]. destruct (Z.ltb_spec i n).
  - rewrite Z.testbit_neg_r by lia. rewrite <- (Z.mod_unique_pos (i - n) 32 (-1) (i - n + 32)) by lia.
    cbn [orb]. f_equal. lia.
  - rewrite Z.mod_small, (in_range_testbit 32 x (i + (32 - n))) by (done || lia). apply orb_false_r.
Qed.
Lemma ror32_rol32 x n : 0 < n < 32 -> ror32 x n = rol32 x (32 - n).
Proof.
  intros Hn. unfold ror32, rol32. rewrite (wrap_small 32 (32 - n)), (wrap_small 32 (32 - (32 - n))) by (split; lia).
  replace (32 - (32 - n)) with n by lia. destruct (shr32 x n), (shl32 x (32 - n)); simpl; try done. by rewrite Z.lor_comm.
Qed.
(** A rotation by 0 shifts by 32, which is undefined. *)
Lemma rol32_zero x : rol32 x 0 = None.
Proof. unfold rol32, shr32. change (u32 (32 - 0)) with 32. by destruct (shl32 x 0). Qed.
