(* ===== verification/Helpers.v ===== *)
(** * Small helpers of the compatibility layer

    linux/average.h (moving averages), linux/jiffies.h (times), bcd.h,
    asm/unaligned.h, linux/etherdevice.h, the size macros of kernel.h and
    [get_random_mask_addr] of rtw88_compat.c. *)

From S2P Require Import Prelude Bits.

(** ** Moving averages: DECLARE_EWMA(name, _precision, _weight_rcp) *)

Section ewma.
Context (_precision _weight_rcp : Z).

(** [unsigned long] shifts, undefined from 64 on. *)
Definition shl64 (x n : Z) : option Z := if (0 <=? n) && (n <? 64) then Some (u64 (x << n)) else None.
Definition shr64 (x n : Z) : option Z := if (0 <=? n) && (n <? 64) then Some (x >> n) else None.

Definition ewma_init : Z := 0.
Definition ewma_read (internal : Z) : option Z := shr64 internal _precision.
Definition ewma_add (internal val : Z) : option Z :=
  let weight_rcp := u64 _weight_rcp in
  if internal =? 0 then shl64 val _precision
  else
    a ← shr64 internal weight_rcp;
    b ← shl64 val (u64 (_precision - weight_rcp));
    Some (u64 (u64 (internal - a) + b)).
Fixpoint ewma_adds (internal : Z) (vals : list Z) : option Z :=
  match vals with [] => Some internal | v :: vals => i ← ewma_add internal v; ewma_adds i vals end.
End ewma.

(** ** Times *)

Definition usecs_to_jiffies (usecs : Z) : Z := u32 (usecs + 999) / 1000.
Definition msecs_to_jiffies (msecs : Z) : Z := msecs.
Definition jiffies_to_msecs (j : Z) : Z := u32 j.
Definition jiffies_to_usecs (j : Z) : Z := u32 (u64 (j * 1000)).
Definition time_after (a b : Z) : bool := signed 64 (u64 (b - a)) <? 0.
Definition time_before (a b : Z) : bool := time_after b a.
Definition time_after_eq (a b : Z) : bool := 0 <=? signed 64 (u64 (a - b)).

(** ** Binary coded decimals *)

Definition bcd2bin (val : Z) : Z := u8 ((val .& 15) + (val >> 4) * 10).
Definition bin2bcd (val : Z) : Z := u8 (((val / 10) << 4) .| (val mod 10)).

(** ** Unaligned access: [p] is the buffer and the offset in it *)

Definition __builtin_bswap16 (x : Z) : Z := u16 (x << 8) .| (x >> 8).
Definition __builtin_bswap32 (x : Z) : Z :=
  u32 (x << 24) .| (u32 (x << 8) .& 0xff0000) .| ((x >> 8) .& 0xff00) .| (x >> 24).
Definition get_unaligned_le16 (b : list Z) (i : Z) : option Z := v ← ldn b i 2; Some (u16 (le_val v)).
Definition get_unaligned_le32 (b : list Z) (i : Z) : option Z := v ← ldn b i 4; Some (u32 (le_val v)).
Definition get_unaligned_le64 (b : list Z) (i : Z) : option Z := v ← ldn b i 8; Some (le_val v).
Definition get_unaligned_be16 (b : list Z) (i : Z) : option Z := v ← ldn b i 2; Some (__builtin_bswap16 (le_val v)).
Definition get_unaligned_be32 (b : list Z) (i : Z) : option Z := v ← ldn b i 4; Some (__builtin_bswap32 (le_val v)).
Definition put_unaligned_le16 (val : Z) (b : list Z) (i : Z) : option (list Z) := stn b i (le_bytes 2 (u16 val)).
Definition put_unaligned_le32 (val : Z) (b : list Z) (i : Z) : option (list Z) := stn b i (le_bytes 4 (u32 val)).
Definition put_unaligned_be16 (val : Z) (b : list Z) (i : Z) : option (list Z) :=
  stn b i (le_bytes 2 (__builtin_bswap16 val)).
Definition put_unaligned_be32 (val : Z) (b : list Z) (i : Z) : option (list Z) :=
  stn b i (le_bytes 4 (__builtin_bswap32 val)).

(** ** Ethernet addresses *)

Definition ETH_ALEN : Z := 6.
Definition eth_broadcast_addr (addr : list Z) : option (list Z) := stn addr 0 (replicate 6 255).
Definition eth_zero_addr (addr : list Z) : option (list Z) := stn addr 0 (replicate 6 0).
Definition ether_addr_copy (dst src : list Z) : option (list Z) := v ← ldn src 0 ETH_ALEN; stn dst 0 v.
Definition ether_addr_equal (a b : list Z) : option bool :=
  a ← ldn a 0 ETH_ALEN; b ← ldn b 0 ETH_ALEN; Some (bool_decide (a = b)).
Definition is_broadcast_ether_addr (addr : list Z) : option bool :=
  a0 ← ld addr 0; a1 ← ld addr 1; a2 ← ld addr 2; a3 ← ld addr 3; a4 ← ld addr 4; a5 ← ld addr 5;
  Some ((a0 .& a1 .& a2 .& a3 .& a4 .& a5) =? 255).
Definition is_multicast_ether_addr (addr : list Z) : option bool := a0 ← ld addr 0; Some (negb (1 .& a0 =? 0)).
Definition is_unicast_ether_addr (addr : list Z) : option bool := m ← is_multicast_ether_addr addr; Some (negb m).
Definition is_zero_ether_addr (addr : list Z) : option bool :=
  a0 ← ld addr 0; a1 ← ld addr 1; a2 ← ld addr 2; a3 ← ld addr 3; a4 ← ld addr 4; a5 ← ld addr 5;
  Some ((a0 .| a1 .| a2 .| a3 .| a4 .| a5) =? 0).
Definition is_valid_ether_addr (addr : list Z) : option bool :=
  m ← is_multicast_ether_addr addr;
  if (m : bool) then Some false else z ← is_zero_ether_addr addr; Some (negb z).

(** [rand] is what [read_random] puts in the buffer. *)
Definition eth_random_addr (rand addr : list Z) : option (list Z) :=
  addr ← stn addr 0 rand;
  a0 ← ld addr 0;
  addr ← st addr 0 (a0 .& 0xfe);
  a0 ← ld addr 0;
  st addr 0 (a0 .| 2).
Fixpoint equal_masked_loop (n : nat) (i : Z) (a b mask : list Z) : option bool :=
  match n with
  | O => Some true
  | S n =>
      x ← ld a i; y ← ld b i; m ← ld mask i;
      if negb ((x .^ y) .& m =? 0) then Some false else equal_masked_loop n (i + 1) a b mask
  end.
Definition ether_addr_equal_masked (a b mask : list Z) : option bool := equal_masked_loop 6 0 a b mask.

Fixpoint mask_addr_loop (n : nat) (i : Z) (buf addr mask rand : list Z) : option (list Z) :=
  match n with
  | O => Some buf
  | S n =>
      x ← ld addr i; m ← ld mask i; r ← ld rand i;
      buf ← st buf i (u8 ((x .& Z.lnot m) .| (r .& m)));
      mask_addr_loop n (i + 1) buf addr mask rand
  end.
Definition get_random_mask_addr (rand buf addr mask : list Z) : option (list Z) := mask_addr_loop 6 0 buf addr mask rand.

(** ** Sizes: on unsigned long *)

Definition DIV_ROUND_UP (n d : Z) : option Z := if d =? 0 then None else Some (u64 (u64 (n + d) - 1) / d).
Definition round_up (x y : Z) : option Z :=
  if y =? 0 then None else Some (u64 (u64 (u64 (x + y) - 1) / y * y)).
Definition round_down (x y : Z) : option Z := if y =? 0 then None else Some (u64 (x / y * y)).
Definition ALIGN (x a : Z) : Z := u64 (u64 (x + a) - 1) .& cnot 64 (u64 (a - 1)).
Definition ALIGN_DOWN (x a : Z) : Z := x .& cnot 64 (u64 (a - 1)).
Definition IS_ALIGNED (x a : Z) : bool := x .& u64 (a - 1) =? 0.
Definition abs_diff (a b : Z) : Z := if b <? a then u64 (a - b) else u64 (b - a).

(** ** Errors as pointers *)

Definition IS_ERR_VALUE (x : Z) : bool := u64 (-4095) <=? x.
Definition ERR_PTR (error : Z) : Z := u64 error.
Definition PTR_ERR (ptr : Z) : Z := signed 64 ptr.
Definition IS_ERR (ptr : Z) : bool := IS_ERR_VALUE ptr.
Definition IS_ERR_OR_NULL (ptr : Z) : bool := (ptr =? 0) || IS_ERR ptr.

(** ** Averages stay between the least and the greatest sample *)

Section ewma_bounds.
Context (p w lo hi : Z) (Hp : 0 <= w <= p) (Hp64 : p < 64) (Hlo : 0 <= lo) (Hhi : hi * 2 ^ p < 2 ^ 64).

(** The fixed-point value between the bounds, or nothing seen yet. *)
Definition ewma_within (i : Z) : Prop := i = 0 \/ lo * 2 ^ p <= i <= hi * 2 ^ p.

Lemma pow_split : 2 ^ p = 2 ^ w * 2 ^ (p - w).
Proof. rewrite <- Z.pow_add_r by lia. f_equal. lia. Qed.

(** [x - x / 2 ^ w] grows with [x], and is exact at multiples of [2 ^ w]. *)
Lemma decay_mono x y : x <= y -> x - x / 2 ^ w <= y - y / 2 ^ w.
Proof.
  intros Hxy. assert (Hd : 0 < 2 ^ w) by lia. replace y with (x + (y - x)) by lia. set (d := y - x).
  enough ((x + d) / 2 ^ w <= x / 2 ^ w + d) by lia. assert (0 <= d) by lia.
  apply Z.le_trans with ((x + d * 2 ^ w) / 2 ^ w); [apply Z.div_le_mono; nia|by rewrite Z_div_plus by lia].
Qed.
Lemma decay_multiple v : v * 2 ^ p - v * 2 ^ p / 2 ^ w = v * 2 ^ p - v * 2 ^ (p - w).
Proof. rewrite pow_split, Z.mul_comm, <- Z.mul_assoc, (Z.mul_comm (2 ^ w)), Z_div_mult by lia. lia. Qed.

Lemma ewma_add_ok i v : ewma_within i -> lo <= v <= hi ->
  exists i', ewma_add p w i v = Some i' /\ lo * 2 ^ p <= i' <= hi * 2 ^ p.
Proof.
  intros Hi Hv. assert (H2 : 2 ^ 6 <= 2 ^ 64) by lia. assert (Hpw : 0 < 2 ^ p) by lia.
  unfold ewma_add, shl64, shr64. destruct (Z.eqb_spec i 0) as [->|Hne].
  - replace ((0 <=? p) && (p <? 64)) with true by case_cmp. eexists. split; [done|].
    rewrite Z.shiftl_mul_pow2 by lia. rewrite wrap_small by (split; nia). nia.
  - destruct Hi as [?|Hi]; [done|]. rewrite (wrap_small 64 w), (wrap_small 64 (p - w)) by (split; lia).
    replace ((0 <=? w) && (w <? 64)) with true by case_cmp.
    replace ((0 <=? p - w) && (p - w <? 64)) with true by case_cmp. simpl. eexists. split; [done|].
    rewrite Z.shiftr_div_pow2, Z.shiftl_mul_pow2 by lia.
    pose proof (decay_mono (lo * 2 ^ p) i ltac:(lia)) as H3. pose proof (decay_mono i (hi * 2 ^ p) ltac:(lia)) as H4.
    rewrite decay_multiple in H3, H4. assert (Hs : 0 < 2 ^ (p - w)) by lia.
    assert (Hsp : 2 ^ (p - w) <= 2 ^ p) by (apply Z.pow_le_mono_r; lia).
    assert (Hd : 0 <= i / 2 ^ w <= i) by (split; [apply Z.div_pos; nia|apply Z.div_le_upper_bound; nia]).
    rewrite (wrap_small 64 (i - _)) by (split; lia). rewrite (wrap_small 64 (v * _)) by (split; nia).
    rewrite wrap_small by (split; nia). nia.
Qed.

Lemma ewma_adds_ok vals : forall i, ewma_within i -> Forall (fun v => lo <= v <= hi) vals -> vals <> [] ->
  exists i', ewma_adds p w i vals = Some i' /\ lo * 2 ^ p <= i' <= hi * 2 ^ p.
Proof.
  induction vals as [|v vals IH]; intros i Hi Hv Hn; [done|]. apply Forall_cons in Hv as [Hv Hvs].
  destruct (ewma_add_ok i v Hi Hv) as (i1 & E & H1). simpl. rewrite E. simpl.
  destruct vals as [|v' vals]; [by exists i1|]. apply IH; [by right|done|done].
Qed.
End ewma_bounds.

(** A moving average is an average.  With a weight exponent at most the
    precision, after any nonempty sequence of samples between [lo] and [hi]
    whose fixed-point form fits 64 bits, no shift was undefined, nothing
    wrapped, and the value read is between [lo] and [hi]. *)
Theorem ewma_bounded p w lo hi vals : 0 <= w <= p -> p < 64 -> 0 <= lo -> hi * 2 ^ p < 2 ^ 64 ->
  Forall (fun v => lo <= v <= hi) vals -> vals <> [] ->
  exists i r, ewma_adds p w ewma_init vals = Some i /\ ewma_read p i = Some r /\ lo <= r <= hi.
Proof.
  intros Hw Hp Hlo Hhi Hv Hn. destruct (ewma_adds_ok p w lo hi Hw Hp Hlo Hhi vals ewma_init) as (i & E & Hi);
    [by left|done|done|]. exists i, (i >> p). split; [done|]. unfold ewma_read, shr64.
  replace ((0 <=? p) && (p <? 64)) with true by case_cmp. split; [done|].
  rewrite Z.shiftr_div_pow2 by lia. assert (0 < 2 ^ p) by lia.
  split; [apply Z.div_le_lower_bound; lia|]. apply Z.lt_succ_r, Z.div_lt_upper_bound; lia.
Qed.
Lemma ewma_bounded_witness : exists i r, ewma_adds 10 4 ewma_init [40; 55; 43; 47] = Some i /\
  ewma_read 10 i = Some r /\ 40 <= r <= 55.
Proof. apply (ewma_bounded 10 4 40 55 [40; 55; 43; 47]); try lia; [repeat constructor; lia|done]. Defined.

(** [_weight_rcp] is the shift itself, where Linux gives the weight (a power
    of two): a weight of 16 with a precision of 10 is an undefined shift. *)
Example ewma_weight_is_shift : ewma_add 10 16 (ewma_init + 1024) 50 = None.
Proof. done. Qed.

(** ** Times *)

Lemma signed_small w z : 0 < w -> - 2 ^ (w - 1) <= z < 2 ^ (w - 1) -> signed w (wrap w z) = z.
Proof.
  intros Hw Hz. unfold signed, wrap. rewrite Z.mod_mod by lia.
  assert (Hd : 2 ^ w = 2 * 2 ^ (w - 1)) by (rewrite <- Z.pow_succ_r by lia; f_equal; lia).
  destruct (Z.ltb_spec z 0).
  - rewrite <- (Z.mod_unique_pos z (2 ^ w) (-1) (z + 2 ^ w)) by lia. case_cmp.
  - rewrite Z.mod_small by lia. case_cmp.
Qed.

(** A later time is after an earlier one, across the wrap of the counter. *)
Lemma time_order t d : 0 <= d < 2 ^ 63 ->
  time_after (u64 (t + d)) (u64 t) = (0 <? d) /\ time_before (u64 t) (u64 (t + d)) = (0 <? d) /\
  time_after (u64 t) (u64 (t + d)) = false /\ time_after_eq (u64 (t + d)) (u64 t) = true.
Proof.
  intros Hd. unfold time_before, time_after, time_after_eq.
  assert (H : forall a b, u64 (u64 a - u64 b) = u64 (a - b)).
  { intros a b. rewrite <- !Z.add_opp_r, wrap_add_l. unfold wrap. rewrite Z.add_opp_r, Zminus_mod_idemp_r. f_equal; lia. }
  rewrite !H. replace (t - (t + d)) with (- d) by lia. replace (t + d - t) with d by lia.
  rewrite !signed_small by lia. split_and!; case_cmp.
Qed.

(** ** Unaligned access: what was put is got back *)

Lemma ldn_stn {A} (b v b' : list A) i : stn b i v = Some b' -> ldn b' i (zlen v) = Some v.
Proof.
  unfold stn. destruct (_ && _) eqn:E; [|done]. intros [= <-]. bool_hyps. pose proof (zlen_nonneg v).
  apply ldn_app_exact; [rewrite zlen_ztake; lia|done].
Qed.

Lemma put_get_le16 val b i b' : put_unaligned_le16 val b i = Some b' -> get_unaligned_le16 b' i = Some (u16 val).
Proof.
  intros H%ldn_stn. unfold get_unaligned_le16. change 2 with (zlen (le_bytes 2 (u16 val))). rewrite H. cbn [mbind option_bind].
  rewrite le_val_bytes by (by apply wrap_range). by rewrite wrap_wrap.
Qed.
Lemma put_get_le32 val b i b' : put_unaligned_le32 val b i = Some b' -> get_unaligned_le32 b' i = Some (u32 val).
Proof.
  intros H%ldn_stn. unfold get_unaligned_le32. change 4 with (zlen (le_bytes 4 (u32 val))). rewrite H. cbn [mbind option_bind].
  rewrite le_val_bytes by (by apply wrap_range). by rewrite wrap_wrap.
Qed.

Lemma bswap16_value x : in_range 16 x ->
  __builtin_bswap16 x = x / 256 + 256 * (x mod 256) /\ in_range 16 (__builtin_bswap16 x).
Proof.
  intros Hx. assert (E : __builtin_bswap16 x = x / 256 + 256 * (x mod 256)).
  { unfold __builtin_bswap16. rewrite Z.lor_comm. replace (u16 (x << 8)) with ((x mod 256) << 8) by euclid.
    rewrite lor_shift; [|lia|]; euclid. }
  split; [done|]. rewrite E. euclid.
Qed.
Lemma bswap16_involutive x : in_range 16 x -> __builtin_bswap16 (__builtin_bswap16 x) = x.
Proof.
  intros Hx. destruct (bswap16_value x Hx) as [E Hr]. destruct (bswap16_value _ Hr) as [E' _]. rewrite E', E. euclid.
Qed.
Lemma put_get_be16 val b i b' : in_range 16 val -> put_unaligned_be16 val b i = Some b' ->
  get_unaligned_be16 b' i = Some val.
Proof.
  intros Hv H%ldn_stn. unfold get_unaligned_be16. change 2 with (zlen (le_bytes 2 (__builtin_bswap16 val))).
  rewrite H. cbn [mbind option_bind]. rewrite le_val_bytes by (by apply bswap16_value). by rewrite bswap16_involutive.
Qed.

(** The 32-bit swap by its bits: byte [k] comes from byte [3 - k]. *)
Lemma bswap32_testbit x i : in_range 32 x -> 0 <= i < 32 ->
  Z.testbit (__builtin_bswap32 x) i = Z.testbit x (8 * (3 - i / 8) + i mod 8).
Proof.
  intros Hx Hi. assert (Hd : i = 8 * (i / 8) + i mod 8) by (apply Z.div_mod; lia).
  pose proof (Z.mod_pos_bound i 8 eq_refl) as Hm. set (k := i / 8) in *. set (j := i mod 8) in *.
  unfold __builtin_bswap32. change 0xff0000 with (Z.ones 8 << 16). change 0xff00 with (Z.ones 8 << 8).
  rewrite !Z.lor_spec, !Z.land_spec, !wrap_testbit by lia.
  rewrite !Z.shiftl_spec, !Z.shiftr_spec by lia. rewrite !Z.testbit_ones by lia.
  assert (Hk : k = 0 \/ k = 1 \/ k = 2 \/ k = 3) by lia.
  assert (Hneg : forall z, z < 0 -> Z.testbit x z = false) by (intros; by apply Z.testbit_neg_r).
  assert (Hhigh : forall z, 32 <= z -> Z.testbit x z = false) by (intros; by apply (in_range_testbit 32)).
  destruct Hk as [Hk|[Hk|[Hk|Hk]]]; rewrite Hk in *.
  - rewrite (Hneg (i - 24)), (Hneg (i - 8)) by lia. rewrite !andb_false_r, !orb_false_l. replace (8 * (3 - 0) + j) with (i + 24) by lia.
    destruct (Z.leb_spec 0 (i - 8)); [lia|]. by rewrite andb_false_r, orb_false_l.
  - rewrite (Hneg (i - 24)), (Hhigh (i + 24)) by lia. replace (8 * (3 - 1) + j) with (i + 8) by lia.
    destruct (Z.leb_spec 0 (i - 16)); [lia|]. rewrite !andb_false_r, !orb_false_l, orb_false_r.
    replace ((0 <=? i - 8) && (i - 8 <? 8)) with true by case_cmp. apply andb_true_r.
  - rewrite (Hneg (i - 24)), (Hhigh (i + 24)) by lia. replace (8 * (3 - 2) + j) with (i - 8) by lia.
    replace ((0 <=? i - 8) && (i - 8 <? 8)) with false by case_cmp. rewrite !andb_false_r, !orb_false_l, !orb_false_r.
    replace ((0 <=? i - 16) && (i - 16 <? 8)) with true by case_cmp.
    replace ((0 <=? i) && (i <? 32)) with true by case_cmp. apply andb_true_r.
  - rewrite (Hhigh (i + 24)), (Hhigh (i + 8)) by lia. replace (8 * (3 - 3) + j) with (i - 24) by lia.
    replace ((0 <=? i - 16) && (i - 16 <? 8)) with false by case_cmp. rewrite !andb_false_r, !orb_false_r.
    by replace ((0 <=? i) && (i <? 32)) with true by case_cmp.
Qed.

Lemma bswap32_range x : in_range 32 x -> in_range 32 (__builtin_bswap32 x).
Proof.
  intros Hx. unfold __builtin_bswap32. repeat apply lor_in_range; try lia; try (by apply wrap_range).
  - apply land_in_range; [lia|by apply wrap_range].
  - apply land_in_range; [lia|by apply shiftr_in_range; [lia|]].
  - by apply shiftr_in_range; [lia|].
Qed.
Lemma bswap32_involutive x : in_range 32 x -> __builtin_bswap32 (__builtin_bswap32 x) = x.
Proof.
  intros Hx. apply Z.bits_inj'. intros i Hi. destruct (Z.ltb_spec i 32).
  - pose proof (Z.div_mod i 8 ltac:(lia)). pose proof (Z.mod_pos_bound i 8 eq_refl).
    assert (0 <= i / 8 < 4) by lia.
    rewrite bswap32_testbit by (try apply bswap32_range; done). rewrite bswap32_testbit by (done || lia).
    replace (8 * (3 - i / 8) + i mod 8) with (i mod 8 + (3 - i / 8) * 8) by lia.
    rewrite Z.div_add, Z.mod_add, Z.div_small, Z.mod_mod by lia. f_equal. lia.
  - by rewrite (in_range_testbit 32 x), (in_range_testbit 32 (__builtin_bswap32 _)) by (try apply bswap32_range; try apply bswap32_range; done).
Qed.
Lemma put_get_be32 val b i b' : in_range 32 val -> put_unaligned_be32 val b i = Some b' ->
  get_unaligned_be32 b' i = Some val.
Proof.
  intros Hv H%ldn_stn. unfold get_unaligned_be32. change 4 with (zlen (le_bytes 4 (__builtin_bswap32 val))).
  rewrite H. cbn [mbind option_bind]. rewrite le_val_bytes by (by apply bswap32_range). by rewrite bswap32_involutive.
Qed.

(** ** Ethernet addresses *)

(** The six bytes of an address that is exactly one, and reads of them. *)
Ltac mac_bytes a :=
  destruct a as [|?a0 [|?a1 [|?a2 [|?a3 [|?a4 [|?a5 [|?]]]]]]]; try done.
Ltac read_bytes :=
  cbv [ld Z.leb Z.compare Z.to_nat Pos.to_nat Pos.iter_op Nat.add lookup list_lookup mbind option_bind].

Lemma lor_zero a b : a .| b = 0 <-> a = 0 /\ b = 0.
Proof. apply Z.lor_eq_0_iff. Qed.
Lemma land_255_all a b : in_range 8 a -> in_range 8 b -> a .& b = 255 <-> a = 255 /\ b = 255.
Proof.
  intros Ha Hb. split; [|by intros [-> ->]]. intros H.
  assert (Hbit : forall i, 0 <= i < 8 -> Z.testbit a i = true /\ Z.testbit b i = true).
  { intros i Hi. apply andb_prop. rewrite <- Z.land_spec, H. change 255 with (Z.ones 8). by apply Z.ones_spec_low. }
  change 255 with (Z.ones 8). split; apply Z.bits_inj'; intros i Hi; rewrite Z.testbit_ones by lia.
  all: destruct (Z.ltb_spec i 8); rewrite ?(proj2 (Z.leb_le 0 i)) by lia; [by apply Hbit|by apply (in_range_testbit 8)].
Qed.

Lemma is_zero_exact a : length a = 6%nat -> is_zero_ether_addr a = Some (bool_decide (a = replicate 6 0)).
Proof.
  mac_bytes a. intros _. unfold is_zero_ether_addr. read_bytes.
  f_equal. apply eq_true_iff_eq. rewrite Z.eqb_eq, bool_decide_eq_true, !lor_zero. simpl. naive_solver.
Qed.
Lemma is_broadcast_exact a : bytes_ok a -> length a = 6%nat ->
  is_broadcast_ether_addr a = Some (bool_decide (a = replicate 6 255)).
Proof.
  intros Hb. mac_bytes a. intros _. rewrite !Forall_cons in Hb. destruct Hb as (?&?&?&?&?&?&_).
  unfold is_broadcast_ether_addr. read_bytes.
  f_equal. apply eq_true_iff_eq. rewrite Z.eqb_eq, bool_decide_eq_true.
  rewrite !land_255_all by (repeat (apply land_in_range; [lia|]); done). simpl. naive_solver.
Qed.

(** A random address is one station's: unicast, not zero, locally
    administered. *)
Lemma eth_random_addr_valid rand addr : length rand = 6%nat -> length addr = 6%nat ->
  exists addr', eth_random_addr rand addr = Some addr' /\ length addr' = 6%nat /\
    is_valid_ether_addr addr' = Some true /\ is_unicast_ether_addr addr' = Some true.
Proof.
  mac_bytes rand. mac_bytes addr. intros _ _. 
  exists (((a0 .& 254) .| 2) :: [a1; a2; a3; a4; a5]). split; [reflexivity|]. split; [done|].
  assert (Hm : is_multicast_ether_addr (((a0 .& 254) .| 2) :: [a1; a2; a3; a4; a5]) = Some false).
  { unfold is_multicast_ether_addr. read_bytes.
    do 2 f_equal. apply negb_false_iff, Z.eqb_eq. bits_eq. destruct (Z.eqb_spec i 0) as [->|]; [by rewrite andb_false_r|].
    by rewrite (Z.bits_above_log2 1) by (simpl; lia). }
  unfold is_unicast_ether_addr, is_valid_ether_addr. rewrite Hm. cbn [mbind option_bind negb]. split; [|done].
  rewrite is_zero_exact by done. cbn [mbind option_bind]. f_equal. apply negb_true_iff, bool_decide_eq_false.
  intros [= H%lor_zero _]. by destruct H.
Qed.

(** The masked bits are random, the others the address's. *)
Lemma masked_byte x m r : in_range 8 x -> in_range 8 m -> in_range 8 r ->
  (x .^ u8 ((x .& Z.lnot m) .| (r .& m))) .& cnot 8 m = 0.
Proof.
  intros Hx Hm Hr. bits_eq. destruct (Z.ltb_spec i 8); [|by rewrite !andb_false_r].
  rewrite (proj2 (Z.leb_le 0 i)) by done. cbn [andb]. destruct (Z.testbit m i); cbn [negb];
    by rewrite ?andb_false_r, ?andb_true_r, ?orb_false_r, ?xorb_nilpotent.
Qed.
Lemma get_random_mask_addr_ok rand buf addr mask :
  bytes_ok rand -> bytes_ok addr -> bytes_ok mask ->
  length rand = 6%nat -> length buf = 6%nat -> length addr = 6%nat -> length mask = 6%nat ->
  exists buf', get_random_mask_addr rand buf addr mask = Some buf' /\
    ether_addr_equal_masked addr buf' (map (cnot 8) mask) = Some true.
Proof.
  intros H1 H2 H3. mac_bytes rand. mac_bytes buf. mac_bytes addr. mac_bytes mask. intros _ _ _ _.
  rewrite !Forall_cons in H1, H2, H3. destruct H1 as (?&?&?&?&?&?&_), H2 as (?&?&?&?&?&?&_), H3 as (?&?&?&?&?&?&_).
  set (f x m r := u8 ((x .& Z.lnot m) .| (r .& m))).
  exists [f a12 a18 a0; f a13 a19 a1; f a14 a20 a2; f a15 a21 a3; f a16 a22 a4; f a17 a23 a5].
  split; [reflexivity|]. unfold ether_addr_equal_masked, f. cbv [map equal_masked_loop Z.add Pos.add Pos.succ].
  read_bytes. by rewrite !masked_byte.
Qed.

(** ** Sizes and error pointers *)

Lemma round_up_least x y : 0 <= x -> 0 < y -> x + y < 2 ^ 64 ->
  exists r, round_up x y = Some r /\ x <= r < x + y /\ r mod y = 0.
Proof.
  intros Hx Hy Hs. unfold round_up. rewrite (proj2 (Z.eqb_neq y 0)) by lia. eexists. split; [done|].
  rewrite (wrap_small 64 (x + y)), (wrap_small 64 (x + y - 1)) by (split; lia).
  pose proof (Z.div_mod (x + y - 1) y ltac:(lia)). pose proof (Z.mod_pos_bound (x + y - 1) y Hy).
  rewrite wrap_small by (split; nia). split; [nia|]. apply Z.mod_mul. lia.
Qed.

(** [ALIGN] to a power of two is [round_up]. *)
Lemma ALIGN_round_up x k : 0 <= x -> 0 <= k < 64 -> x + 2 ^ k < 2 ^ 64 -> round_up x (2 ^ k) = Some (ALIGN x (2 ^ k)).
Proof.
  intros Hx Hk Hs. assert (Hp : 0 < 2 ^ k) by lia. unfold round_up, ALIGN.
  rewrite (proj2 (Z.eqb_neq (2 ^ k) 0)) by lia. f_equal.
  rewrite (wrap_small 64 (x + 2 ^ k)), (wrap_small 64 (x + 2 ^ k - 1)), (wrap_small 64 (2 ^ k - 1)) by (split; lia).
  set (z := x + 2 ^ k - 1). pose proof (Z.div_mod z (2 ^ k) ltac:(lia)). pose proof (Z.mod_pos_bound z (2 ^ k) Hp).
  assert (Hz : in_range 64 z) by (split; lia). rewrite wrap_small by (split; nia).
  rewrite <- Z.shiftr_div_pow2, <- Z.shiftl_mul_pow2, <- Z.ldiff_ones_r by lia.
  replace (2 ^ k - 1) with (Z.ones k) by (rewrite Z.ones_equiv; lia).
  apply Z.bits_inj'. intros i Hi. rewrite Z.ldiff_spec, Z.land_spec, cnot_testbit by lia.
  destruct (Z.ltb_spec i 64); [by rewrite (proj2 (Z.leb_le 0 i))|].
  by rewrite (in_range_testbit 64 z).
Qed.

Lemma err_ptr e : 1 <= e <= 4095 -> IS_ERR (ERR_PTR (- e)) = true /\ PTR_ERR (ERR_PTR (- e)) = - e.
Proof.
  intros He. split; [|apply signed_small; lia]. apply Z.leb_le. unfold ERR_PTR, wrap.
  rewrite <- (Z.mod_unique_pos (- e) (2 ^ 64) (-1) (2 ^ 64 - e)), <- (Z.mod_unique_pos (-4095) (2 ^ 64) (-1) (2 ^ 64 - 4095)); lia.
Qed.

Lemma bcd_exact x : 0 <= x < 100 -> bcd2bin (bin2bcd x) = x.
Proof.
  intros Hx. apply Z.eqb_eq. revert x Hx.
  assert (H : forallb (fun n => bcd2bin (bin2bcd (Z.of_nat n)) =? Z.of_nat n) (seq 0 100) = true) by reflexivity.
  intros x Hx. rewrite forallb_forall in H. specialize (H (Z.to_nat x)). rewrite in_seq, Z2Nat.id in H by lia.
  apply H. lia.
Qed.
