(* ===== verification/Sync.v ===== *)
(** * Completions, semaphores and atomic counters

    [src/src/compat/linux/completion.h], the semaphore of linux/mutex.h,
    [atomic_dec_if_positive] of rtw88_compat.c and linux/atomic.h, as transition
    systems of threads.  A section between IOLockLock and IOLockUnlock (or
    IOLockSleep, which releases the lock while it sleeps) is one step; so is
    each atomic access. *)

From S2P Require Import Prelude Helpers.

Module Completion.

(** ** The completion and the threads in its calls *)

(** Where a thread stands: asleep in IOLockSleep, woken and about to retake the
    lock, or between two polls of [wait_for_completion_timeout]. *)
Inductive waiter := Asleep | Woken | Polling (deadline : Z).
Record completion := mk_completion { done : Z; waiters : gmap Z waiter }.
#[export] Instance eta_completion : Eta completion := fun c => mk_completion (done c) (waiters c).

Definition all_ones : Z := 2 ^ 32 - 1.

Definition init_completion : completion := mk_completion 0 ∅.

(** [IOLockWakeup(c->lock, c, false)]: every sleeper. *)
Definition wake_waiter (w : waiter) : waiter := match w with Asleep => Woken | w => w end.
Definition complete (c : completion) : completion := mk_completion (u32 (done c + 1)) (wake_waiter <$> waiters c).
Definition complete_all (c : completion) : completion := mk_completion all_ones (wake_waiter <$> waiters c).
Definition reinit_completion (c : completion) : completion := c <| done := 0 |>.
Definition completion_done (c : completion) : bool := 0 <? done c.

(** [if (c->done != ~0u) c->done--;] and the return of thread [t]. *)
Definition take_done (t : Z) (c : completion) : completion :=
  mk_completion (if done c =? all_ones then done c else u32 (done c - 1)) (delete t (waiters c)).

(** What a call returns; [None] while it goes on. *)
Definition answer : Type := option Z.

(** The loop of [wait_for_completion], with the lock held: return or sleep. *)
Definition completion_loop (t : Z) (c : completion) : completion * answer :=
  if done c =? 0 then (c <| waiters := <[t := Asleep]> (waiters c) |>, None) else (take_done t c, Some 1).
Definition wait_for_completion (t : Z) (c : completion) : completion * answer := completion_loop t c.

(** One turn of [wait_for_completion_timeout]: the locked test, then with the
    lock released the time, [now]. *)
Definition timeout_turn (t deadline now : Z) (c : completion) : completion * answer :=
  if done c =? 0 then
    if time_after_eq now deadline then (c <| waiters := delete t (waiters c) |>, Some 0)
    else (c <| waiters := <[t := Polling deadline]> (waiters c) |>, None)
  else (take_done t c, Some 1).
Definition wait_for_completion_timeout (t jiffies timeout_j now : Z) (c : completion) : completion * answer :=
  timeout_turn t (u64 (jiffies + timeout_j)) now c.

(** ** Histories *)

Inductive comp_event :=
| EvComplete | EvCompleteAll | EvReinit
| EvWait (t : Z) | EvWaitTimeout (t jiffies timeout_j now : Z)
| EvResume (t : Z) | EvPoll (t now : Z).

(** [None]: the event cannot happen (a thread in a call starts no other, only a
    woken thread goes on). *)
Definition comp_exec (e : comp_event) (c : completion) : option (completion * answer) :=
  match e with
  | EvComplete => Some (complete c, None)
  | EvCompleteAll => Some (complete_all c, None)
  | EvReinit => Some (reinit_completion c, None)
  | EvWait t => match waiters c !! t with None => Some (wait_for_completion t c) | _ => None end
  | EvWaitTimeout t j d now =>
      match waiters c !! t with None => Some (wait_for_completion_timeout t j d now c) | _ => None end
  | EvResume t => match waiters c !! t with Some Woken => Some (completion_loop t c) | _ => None end
  | EvPoll t now => match waiters c !! t with Some (Polling d) => Some (timeout_turn t d now c) | _ => None end
  end.
Fixpoint comp_run (es : list comp_event) (c : completion) : option (completion * list answer) :=
  match es with
  | [] => Some (c, [])
  | e :: es => '(c, a) ← comp_exec e c; '(c, l) ← comp_run es c; Some (c, a :: l)
  end.

(** ** What a completion is: a counting semaphore that can be opened *)

Inductive gate := Tokens (n : Z) | Open.

(** A call returns 1 with a token of a closed gate, or through an open one; it
    goes on, or gives up, only at a closed gate with no token. *)
Definition gate_call (a : answer) (g : gate) : option gate :=
  match g with
  | Open => if bool_decide (a = Some 1) then Some Open else None
  | Tokens n =>
      if bool_decide (a = Some 1) then if 0 <? n then Some (Tokens (n - 1)) else None
      else if n =? 0 then Some g else None
  end.
(** A complete adds a token; the counter is 32 bits wide and its last value
    means open, so the 2^32 - 1st pending token opens the gate, and a complete
    of an open gate closes it with none. *)
Definition gate_complete (g : gate) : gate :=
  match g with Tokens n => if n + 1 =? all_ones then Open else Tokens (n + 1) | Open => Tokens 0 end.
(** complete_all opens the gate, reinit empties it. *)
Definition gate_step (e : comp_event) (a : answer) (g : gate) : option gate :=
  match e with
  | EvComplete => Some (gate_complete g)
  | EvCompleteAll => Some Open
  | EvReinit => Some (Tokens 0)
  | _ => gate_call a g
  end.
Fixpoint gate_run (es : list comp_event) (l : list answer) (g : gate) : option gate :=
  match es, l with
  | [], [] => Some g
  | e :: es, a :: l => g ← gate_step e a g; gate_run es l g
  | _, _ => None
  end.

Definition gate_of (c : completion) (g : gate) : Prop :=
  match g with Tokens n => done c = n /\ 0 <= n < all_ones | Open => done c = all_ones end.

(** A turn of either loop: a token is taken, or there was none. *)
Definition turn_of (c c' : completion) (a : answer) : Prop :=
  (done c = 0 /\ done c' = 0 /\ a <> Some 1) \/ (done c <> 0 /\ a = Some 1 /\ exists t, c' = take_done t c).

Lemma wait_turn t c : turn_of c (fst (completion_loop t c)) (snd (completion_loop t c)).
Proof. unfold completion_loop, turn_of. destruct (Z.eqb_spec (done c) 0); simpl; [by left|right; eauto]. Qed.
Lemma timeout_turn_of t d now c : turn_of c (fst (timeout_turn t d now c)) (snd (timeout_turn t d now c)).
Proof.
  unfold timeout_turn, turn_of. destruct (Z.eqb_spec (done c) 0); simpl; [|right; eauto].
  left. by destruct (time_after_eq now d).
Qed.

(** What an event is: one of the three calls that do not wait, or a turn. *)
Lemma exec_cases e c c' a : comp_exec e c = Some (c', a) ->
  match e with
  | EvComplete => c' = complete c
  | EvCompleteAll => c' = complete_all c
  | EvReinit => c' = reinit_completion c
  | _ => (exists t, completion_loop t c = (c', a)) \/ (exists t d now, timeout_turn t d now c = (c', a))
  end.
Proof.
  destruct e as [| | |t|t j d now|t|t now]; simpl; intros He; try congruence.
  all: destruct (waiters c !! t) as [[]|]; try done; injection He as He; eauto 10.
Qed.

Lemma turn_gate c c' a g : gate_of c g -> turn_of c c' a -> exists g', gate_call a g = Some g' /\ gate_of c' g'.
Proof.
  unfold gate_of, gate_call, all_ones. intros Hg [(H0 & H1 & Ha)|(H0 & -> & t & ->)].
  - rewrite bool_decide_eq_false_2 by done. destruct g as [n|]; [|lia]. destruct Hg as [<- Hn].
    rewrite H0. exists (Tokens 0). by rewrite H1.
  - rewrite bool_decide_eq_true_2 by done. unfold take_done, all_ones. destruct g as [n|]; simpl.
    + destruct Hg as [<- Hn]. rewrite (proj2 (Z.ltb_lt 0 (done c))) by lia. eexists. split; [done|]. simpl.
      rewrite (proj2 (Z.eqb_neq (done c) _)), wrap_small by (try split; lia). lia.
    + exists Open. by rewrite Hg.
Qed.

Lemma exec_gate e c g c' a : gate_of c g -> comp_exec e c = Some (c', a) ->
  exists g', gate_step e a g = Some g' /\ gate_of c' g'.
Proof.
  intros Hg He%exec_cases.
  assert (Ht : (exists t, completion_loop t c = (c', a)) \/ (exists t d now, timeout_turn t d now c = (c', a)) ->
    exists g', gate_call a g = Some g' /\ gate_of c' g').
  { intros [(t & E)|(t & d & now & E)]; apply (turn_gate c); try done.
    - pose proof (wait_turn t c) as H. by rewrite E in H.
    - pose proof (timeout_turn_of t d now c) as H. by rewrite E in H. }
  destruct e; simpl; auto; subst c'.
  - eexists. split; [reflexivity|]. destruct g as [n|]; unfold gate_of in *; cbn [complete gate_complete done]; [|by rewrite Hg].
    destruct Hg as [<- Hn]. destruct (Z.eqb_spec (done c + 1) all_ones) as [->|H]; [done|].
    unfold all_ones in *. rewrite wrap_small by (split; lia). lia.
  - by exists Open.
  - by exists (Tokens 0).
Qed.

Lemma run_gate es : forall c c' l g, gate_of c g -> comp_run es c = Some (c', l) ->
  exists g', gate_run es l g = Some g' /\ gate_of c' g'.
Proof.
  induction es as [|e es IH]; intros c c' l g Hg Hr; simpl in Hr.
  - injection Hr as <- <-. by exists g.
  - destruct (comp_exec e c) as [[c1 a]|] eqn:He; [|done]. simpl in Hr.
    destruct (comp_run es c1) as [[c2 l1]|] eqn:Hr1; [|done]. injection Hr as <- <-.
    destruct (exec_gate e c g c1 a Hg He) as (g1 & E1 & Hg1). simpl. rewrite E1. simpl. eauto.
Qed.

(** ** Sleepers *)

(** Whoever sleeps has nothing to take. *)
Definition no_lost (c : completion) : Prop := done c <> 0 -> forall t, waiters c !! t <> Some Asleep.

Lemma woken_awake (m : gmap Z waiter) t : (wake_waiter <$> m) !! t <> Some Asleep.
Proof. rewrite lookup_fmap. by destruct (m !! t) as [[]|]. Qed.

Lemma take_no_lost t c : no_lost c -> done c <> 0 -> no_lost (take_done t c).
Proof. intros Hn Hd _ u. simpl. intros [_ H]%lookup_delete_Some. by apply (Hn Hd u). Qed.

Lemma exec_no_lost e c c' a : no_lost c -> comp_exec e c = Some (c', a) -> no_lost c'.
Proof.
  intros Hn He%exec_cases.
  assert (Ht : (exists t, completion_loop t c = (c', a)) \/ (exists t d now, timeout_turn t d now c = (c', a)) -> no_lost c').
  { unfold completion_loop, timeout_turn. destruct (Z.eqb_spec (done c) 0) as [E|E].
    - intros [(t & [= <- _])|(t & d & now & H)]; [intros H; by destruct H|].
      destruct (time_after_eq now d); injection H as <- _; intros H; by destruct H.
    - intros [(t & [= <- _])|(t & d & now & [= <- _])]; by apply take_no_lost. }
  destruct e; auto; subst c'; try (intros _ t; apply woken_awake). intros H. by destruct H.
Qed.

Lemma run_no_lost es : forall c c' l, no_lost c -> comp_run es c = Some (c', l) -> no_lost c'.
Proof.
  induction es as [|e es IH]; intros c c' l Hn Hr; simpl in Hr; [by injection Hr as <- _|].
  destruct (comp_exec e c) as [[c1 a]|] eqn:He; [|done]. simpl in Hr.
  destruct (comp_run es c1) as [[c2 l1]|] eqn:Hr1; [|done]. injection Hr as <- _. eauto using exec_no_lost.
Qed.

Lemma awake_returns c t w : no_lost c -> done c <> 0 -> waiters c !! t = Some w ->
  comp_exec (EvResume t) c = Some (take_done t c, Some 1) \/ forall now, comp_exec (EvPoll t now) c = Some (take_done t c, Some 1).
Proof.
  intros Hn Hd Hw. simpl. rewrite Hw. unfold completion_loop, timeout_turn. rewrite (proj2 (Z.eqb_neq (done c) 0)) by done.
  destruct w; [by destruct (Hn Hd t)|by left|by right].
Qed.

(** C30: a completion is a counting semaphore with a gate, and loses no
    wake-up.  In every history of complete, complete_all, reinit_completion and
    the two waits by any threads, interleaved at every release of the lock:
    each wait that returns 1 took a token that a complete left, or went through
    an open gate; a wait goes on or times out only at a closed gate with no
    token.  complete_all opens the gate and reinit_completion empties it; a
    complete adds a token, except that one on an open gate closes it and the
    2^32 - 1st pending one opens it, as the counter's width has it.  Whenever
    the completion is done, every thread in a wait returns 1 at its next
    step. *)
Theorem completion_semaphore es c l : comp_run es init_completion = Some (c, l) ->
  (exists g, gate_run es l (Tokens 0) = Some g /\ gate_of c g) /\
  (done c <> 0 -> forall t w, waiters c !! t = Some w ->
    comp_exec (EvResume t) c = Some (take_done t c, Some 1) \/ forall now, comp_exec (EvPoll t now) c = Some (take_done t c, Some 1)).
Proof.
  intros Hr. split.
  - apply (run_gate es init_completion c l (Tokens 0)); [by split|done].
  - intros Hd t w. apply awake_returns; [|done]. apply (run_no_lost es init_completion c l); [|done].
    intros H. by destruct H.
Qed.

Definition demo : list comp_event :=
  [EvWait 1; EvWaitTimeout 2 100 5 101; EvComplete; EvResume 1; EvPoll 2 104; EvPoll 2 105; EvWait 3; EvCompleteAll].
Definition demo_end : completion := mk_completion all_ones (<[3 := Woken]> ∅).
Lemma demo_run : comp_run demo init_completion = Some (demo_end, [None; None; None; Some 1; None; Some 0; None; None]).
Proof. reflexivity. Qed.
Lemma completion_semaphore_witness :
  (exists g, gate_run demo [None; None; None; Some 1; None; Some 0; None; None] (Tokens 0) = Some g /\ gate_of demo_end g) /\
  comp_exec (EvResume 3) demo_end = Some (take_done 3 demo_end, Some 1).
Proof.
  destruct (completion_semaphore demo demo_end _ demo_run) as [H1 H2]. split.
  - exact H1.
  - destruct (H2 ltac:(discriminate) 3 Woken eq_refl) as [H|H]; [exact H|discriminate (H 0)].
Defined.

(** A complete after complete_all wraps the counter to 0 and closes the gate. *)
Example complete_closes_gate : option_map fst (comp_run [EvCompleteAll; EvComplete; EvWait 1] init_completion) =
  Some (mk_completion 0 (<[1 := Asleep]> ∅)).
Proof. reflexivity. Qed.

(** A timed wait returns at its first poll at or after the deadline. *)
Lemma timeout_ends t d now c : time_after_eq now d = true -> exists r, snd (timeout_turn t d now c) = Some r.
Proof. unfold timeout_turn. intros ->. destruct (done c =? 0); eauto. Qed.
End Completion.

Module AtomicDec.

(** ** [atomic_dec_if_positive] by several threads

    A thread in the call holds the value [c] it read last. *)

Record counter := mk_counter { value : Z; held : gmap Z Z }.

Inductive dec_event := EvInc | EvDecBegin (t : Z) | EvDecTurn (t : Z).

(** One turn of the loop, [old] being what the compare-and-swap finds. *)
Definition dec_turn (t c : Z) (s : counter) : counter * option Z :=
  if c <=? 0 then (mk_counter (value s) (delete t (held s)), Some (signed 32 (c - 1)))
  else
    let old := value s in
    if old =? c then (mk_counter (c - 1) (delete t (held s)), Some (c - 1))
    else (mk_counter (value s) (<[t := old]> (held s)), None).
Definition dec_exec (e : dec_event) (s : counter) : option (counter * option Z) :=
  match e with
  | EvInc => Some (mk_counter (signed 32 (value s + 1)) (held s), None)
  | EvDecBegin t => match held s !! t with None => Some (mk_counter (value s) (<[t := value s]> (held s)), None) | _ => None end
  | EvDecTurn t => match held s !! t with Some c => Some (dec_turn t c s) | None => None end
  end.
Fixpoint dec_run (es : list dec_event) (s : counter) : option (counter * list (option Z)) :=
  match es with
  | [] => Some (s, [])
  | e :: es => '(s, a) ← dec_exec e s; '(s, l) ← dec_run es s; Some (s, a :: l)
  end.

Definition is_inc (e : dec_event) : bool := match e with EvInc => true | _ => false end.
Definition taken (a : option Z) : bool := match a with Some r => 0 <=? r | None => false end.
Fixpoint count {A} (f : A -> bool) (l : list A) : Z :=
  match l with [] => 0 | x :: l => (if f x then 1 else 0) + count f l end.

(** Every value a thread holds was the counter's, so is not negative. *)
Definition counter_ok (top : Z) (s : counter) : Prop :=
  0 <= value s <= top /\ map_Forall (fun _ c => 0 <= c <= top) (held s).

Lemma dec_exec_ok top e s s' a : 0 <= top -> (if is_inc e then top + 1 else top) < 2 ^ 31 -> counter_ok top s -> dec_exec e s = Some (s', a) ->
  counter_ok (if is_inc e then top + 1 else top) s' /\
  value s' = value s + (if is_inc e then 1 else 0) - (if taken a then 1 else 0).
Proof.
  intros Ht Hm [Hv Hh] He. destruct e as [|t|t]; simpl in *.
  - injection He as <- <-. simpl. assert (E : signed 32 (value s + 1) = value s + 1).
    { unfold signed. rewrite Z.mod_small by lia. case_cmp. }
    rewrite E. split; [|lia]. split; [simpl; lia|]. intros t c Hc. specialize (Hh t c Hc). simpl in Hh. lia.
  - destruct (held s !! t); [done|]. injection He as <- <-. simpl. split; [|lia]. split; [done|].
    by apply map_Forall_insert_2.
  - destruct (held s !! t) as [c|] eqn:Hc; [|done]. injection He as He. pose proof (Hh t c Hc) as Hr. simpl in Hr.
    unfold dec_turn in He. destruct (Z.leb_spec c 0); [|destruct (Z.eqb_spec (value s) c)]; injection He as <- <-; simpl.
    + replace c with 0 by lia. split; [split; [done|by apply map_Forall_delete]|]. simpl. lia.
    + rewrite (proj2 (Z.leb_le 0 (c - 1))) by lia. split; [|lia]. split; [simpl; lia|by apply map_Forall_delete].
    + split; [|lia]. split; [done|by apply map_Forall_insert_2].
Qed.

Lemma count_nonneg {A} (f : A -> bool) l : 0 <= count f l.
Proof. induction l as [|x l IH]; simpl; [done|]. destruct (f x); lia. Qed.

Lemma dec_run_ok es : forall top s s' l, 0 <= top -> top + count is_inc es < 2 ^ 31 -> counter_ok top s -> dec_run es s = Some (s', l) ->
  counter_ok (top + count is_inc es) s' /\ value s' = value s + count is_inc es - count taken l.
Proof.
  induction es as [|e es IH]; intros top s s' l Ht Hm Hs Hr; simpl in Hr, Hm.
  - injection Hr as <- <-. simpl. rewrite Z.add_0_r. split; [done|lia].
  - destruct (dec_exec e s) as [[s1 a]|] eqn:He; [|done]. simpl in Hr.
    destruct (dec_run es s1) as [[s2 l1]|] eqn:Hr1; [|done]. injection Hr as <- <-. pose proof (count_nonneg is_inc es).
    destruct (dec_exec_ok top e s s1 a Ht) as [H1 H2]; [destruct (is_inc e); lia|done|done|]. simpl.
    destruct (is_inc e).
    + destruct (IH (top + 1) s1 s2 l1) as [H3 H4]; [lia|lia|done|done|].
      split; [by replace (top + (1 + count is_inc es)) with (top + 1 + count is_inc es) by lia|lia].
    + destruct (IH top s1 s2 l1) as [H3 H4]; [lia|lia|done|done|]. split; [done|lia].
Qed.

(** The counter never goes below zero, whatever the interleaving, and a call
    returns a number that is not negative exactly when it decremented. *)
Lemma dec_if_positive_exact es n s l : 0 <= n -> n + count is_inc es < 2 ^ 31 -> dec_run es (mk_counter n ∅) = Some (s, l) ->
  0 <= value s /\ value s = n + count is_inc es - count taken l.
Proof.
  intros Hn Hm Hr. destruct (dec_run_ok es n (mk_counter n ∅) s l Hn Hm) as [[H1 _] H2]; [|done|].
  - split; [simpl; lia|apply map_Forall_empty].
  - split; [apply H1|done].
Qed.
Example dec_race : option_map snd (dec_run [EvDecBegin 1; EvDecBegin 2; EvDecTurn 1; EvDecTurn 2; EvDecTurn 2] (mk_counter 1 ∅)) =
  Some [None; None; Some 0; None; Some (-1)].
Proof. reflexivity. Qed.
End AtomicDec.

(** ** The semaphore of linux/mutex.h

    [down] holds the lock up to its sleep, which releases it; each stretch is a
    step.  [up] wakes one sleeper, which the event names. *)

Module Semaphore.

Record semaphore := mk_sem { count : Z; asleep : gset Z; woken : gset Z }.
#[export] Instance eta_semaphore : Eta semaphore := fun s => mk_sem (count s) (asleep s) (woken s).
Definition sema_init (val : Z) : semaphore := mk_sem val ∅ ∅.

(** The test of [down]'s loop by thread [t], which holds the lock: whether it
    has taken the semaphore. *)
Definition down_test (t : Z) (s : semaphore) : semaphore * bool :=
  if count s <=? 0 then (s <| asleep := {[t]} ∪ asleep s |>, false) else (s <| count := signed 32 (count s - 1) |>, true).
Definition down (t : Z) (s : semaphore) : semaphore * bool := down_test t s.
Definition down_trylock (s : semaphore) : semaphore * Z :=
  if 0 <? count s then (s <| count := signed 32 (count s - 1) |>, 0) else (s, -1).
Definition up (t : option Z) (s : semaphore) : semaphore :=
  let s := s <| count := signed 32 (count s + 1) |> in
  match t with Some t => s <| asleep := asleep s ∖ {[t]} |> <| woken := {[t]} ∪ woken s |> | None => s end.

Inductive sem_event := SemDown (t : Z) | SemTurn (t : Z) | SemTry | SemUp (t : option Z).
(** Whether the event took a unit; [None]: it cannot happen. *)
Definition sem_exec (e : sem_event) (s : semaphore) : option (semaphore * bool) :=
  match e with
  | SemDown t => if bool_decide (t ∈ asleep s) || bool_decide (t ∈ woken s) then None else Some (down t s)
  | SemTurn t => if bool_decide (t ∈ woken s) then Some (down_test t (s <| woken := woken s ∖ {[t]} |>)) else None
  | SemTry => let '(s, r) := down_trylock s in Some (s, r =? 0)
  | SemUp (Some t) => if bool_decide (t ∈ asleep s) then Some (up (Some t) s, false) else None
  | SemUp None => if bool_decide (asleep s = ∅) then Some (up None s, false) else None
  end.
(** The state and the units taken and given back. *)
Fixpoint sem_run (es : list sem_event) (s : semaphore) : option (semaphore * Z * Z) :=
  match es with
  | [] => Some (s, 0, 0)
  | e :: es =>
      '(s, took) ← sem_exec e s; '(s, down, up) ← sem_run es s;
      Some (s, down + c_bool took, up + match e with SemUp _ => 1 | _ => 0 end)
  end.

(** Units are never negative, sleepers and woken threads are different ones,
    and while somebody sleeps there is a woken thread for every unit. *)
Definition sem_inv (s : semaphore) : Prop :=
  0 <= count s /\ asleep s ## woken s /\ (asleep s <> ∅ -> count s <= Z.of_nat (size (woken s))).

Lemma signed_id z : - 2 ^ 31 <= z < 2 ^ 31 -> signed 32 z = z.
Proof. intros H. pose proof (signed_small 32 z eq_refl H) as E. unfold signed, wrap in *. by rewrite Z.mod_mod in E. Qed.
Lemma size_add (t : Z) (w : gset Z) : t ∉ w -> Z.of_nat (size ({[t]} ∪ w)) = Z.of_nat (size w) + 1.
Proof. intros H. rewrite size_union by set_solver. rewrite size_singleton. lia. Qed.
Lemma size_remove (t : Z) (w : gset Z) : t ∈ w -> Z.of_nat (size (w ∖ {[t]})) = Z.of_nat (size w) - 1.
Proof.
  intros H. assert (E : w = {[t]} ∪ w ∖ {[t]}) by (apply set_eq; intros x; destruct (decide (x = t)); set_solver).
  pose proof (size_add t (w ∖ {[t]}) ltac:(set_solver)) as H1. rewrite <- E in H1. lia.
Qed.

Lemma sem_step e s s' took : sem_inv s -> count s + 1 < 2 ^ 31 -> sem_exec e s = Some (s', took) ->
  sem_inv s' /\ count s' = count s - c_bool took + match e with SemUp _ => 1 | _ => 0 end.
Proof.
  intros (H0 & Hd & Hw) Hb He. destruct s as [n a w]. unfold sem_inv in *. destruct e as [t|t| |[t|]]; simpl in *.
  - destruct (_ || _) eqn:E; [done|]. apply orb_false_iff in E as [Ea%bool_decide_eq_false Ew%bool_decide_eq_false].
    unfold down, down_test in He. simpl in He. destruct (Z.leb_spec n 0); injection He as <- <-; simpl.
    + split_and!; [lia|set_solver|lia|lia].
    + rewrite signed_id by lia. split_and!; [lia|done|intros Hx; specialize (Hw Hx); lia|lia].
  - case_bool_decide as Ht; [|done]. unfold down_test in He. simpl in He.
    destruct (Z.leb_spec n 0); injection He as <- <-; simpl; rewrite ?size_remove, ?signed_id by (done || lia).
    + pose proof (size_remove t w Ht).
      split_and!; [lia|set_solver|lia|lia].
    + split_and!; [lia|set_solver|intros Hx; specialize (Hw Hx); lia|lia].
  - unfold down_trylock in He. simpl in He. destruct (Z.ltb_spec 0 n); injection He as <- <-; simpl; rewrite ?signed_id by lia.
    + split_and!; [lia|done|intros Hx; specialize (Hw Hx); lia|lia].
    + split_and!; [lia|done|done|lia].
  - case_bool_decide as Ht; [|done]. injection He as <- <-. simpl. rewrite signed_id by lia.
    assert (t ∉ w) by set_solver. rewrite size_add by done. assert (a <> ∅) by set_solver.
    split_and!; [lia|set_solver|intros _; specialize (Hw ltac:(done)); lia|lia].
  - case_bool_decide as Ht; [|done]. injection He as <- <-. simpl. rewrite signed_id by lia. split_and!; [lia|done|done|lia].
Qed.

(** The semaphore counts, and no unit is left lying while threads sleep.  For
    every interleaving of [down], [down_trylock] and [up] that stays below the
    range of an int: the count is what it started with, less the units taken,
    plus those given back, and never negative; and while there are units and a
    thread sleeps, some woken thread is on its way and takes one at its turn. *)
Theorem semaphore_counts es : forall s s' d u, sem_inv s -> count s + zlen es < 2 ^ 31 -> sem_run es s = Some (s', d, u) ->
  count s' = count s - d + u /\ 0 <= count s' /\
  (0 < count s' -> asleep s' <> ∅ -> exists t, t ∈ woken s' /\
     exists s2, sem_exec (SemTurn t) s' = Some (s2, true)).
Proof.
  induction es as [|e es IH]; intros s s' d u Hi Hb Hr; simpl in Hr.
  - injection Hr as <- <- <-. destruct Hi as (H0 & _ & Hw). split_and!; [lia|done|]. intros Hc Ha. specialize (Hw Ha).
    destruct (set_choose_L (woken s)) as [t Ht]; [intros E; rewrite E, size_empty in Hw; lia|]. exists t. split; [done|].
    unfold sem_exec, down_test. rewrite bool_decide_true by done. simpl. rewrite (proj2 (Z.leb_gt (count s) 0)) by done. by eexists.
  - destruct (sem_exec e s) as [[s1 took]|] eqn:Ee; [|done]. simpl in Hr. rewrite zlen_cons in Hb. pose proof (zlen_nonneg es).
    destruct (sem_step e s s1 took Hi ltac:(lia) Ee) as [Hi1 Hc1].
    destruct (sem_run es s1) as [[[s2 d2] u2]|] eqn:Er; [|done]. simpl in Hr. injection Hr as <- <- <-.
    destruct (IH s1 s2 d2 u2 Hi1) as (H1 & H2 & H3); [destruct took, e; simpl in *; lia|done|]. split_and!; [lia|done|done].
Qed.
Definition demo_sem : list sem_event := [SemDown 1; SemDown 2; SemDown 3; SemUp (Some 2); SemTry; SemTurn 2; SemUp (Some 3)].
Example sem_demo : option_map (fun '(s, d, u) => (count s, d, u)) (sem_run demo_sem (sema_init 1)) = Some (1, 2, 2).
Proof. vm_compute. reflexivity. Qed.
End Semaphore.

(** ** The atomics of linux/atomic.h: each one step on an int *)

Module Atomic.
Definition int (z : Z) : Z := signed 32 z.
(** What is returned, and the counter after it. *)
Definition atomic_read (v : Z) : Z * Z := (v, v).
Definition atomic_set (i v : Z) : Z := int i.
Definition atomic_add_return (i v : Z) : Z * Z := let n := int (v + i) in (n, n).
Definition atomic_sub_return (i v : Z) : Z * Z := let n := int (v - i) in (n, n).
Definition atomic_inc (v : Z) : Z * Z := atomic_add_return 1 v.
Definition atomic_dec (v : Z) : Z * Z := atomic_sub_return 1 v.
Definition atomic_inc_return (v : Z) : Z * Z := atomic_add_return 1 v.
Definition atomic_dec_return (v : Z) : Z * Z := atomic_sub_return 1 v.
Definition atomic_dec_and_test (v : Z) : bool * Z := let '(n, v) := atomic_sub_return 1 v in (n =? 0, v).
Definition atomic_inc_and_test (v : Z) : bool * Z := let '(n, v) := atomic_add_return 1 v in (n =? 0, v).
Definition atomic_cmpxchg (old new_val v : Z) : Z * Z := (v, if v =? old then new_val else v).

(** Threads that hold references: each takes more or gives one back. *)
Inductive ref_event := RefGet | RefPut.
(** The puts that saw zero. *)
Fixpoint refs (es : list ref_event) (v : Z) : list bool * Z :=
  match es with
  | [] => ([], v)
  | RefGet :: es => refs es (snd (atomic_inc v))
  | RefPut :: es => let '(b, v) := atomic_dec_and_test v in let '(l, v) := refs es v in (b :: l, v)
  end.
(** Only a holder touches the counter: it stays positive before each event. *)
Fixpoint held (es : list ref_event) (n : Z) : Prop :=
  match es with
  | [] => True
  | RefGet :: es => 0 < n /\ n + 1 < 2 ^ 31 /\ held es (n + 1)
  | RefPut :: es => 0 < n /\ held es (n - 1)
  end.
Definition balance (es : list ref_event) : Z :=
  fold_right (fun e a => match e with RefGet => a + 1 | RefPut => a - 1 end) 0 es.

(** Exactly the last reference given back sees zero, whoever gives it. *)
Lemma refs_exact es : forall n, n < 2 ^ 31 -> held es n ->
  snd (refs es n) = n + balance es /\
  (n + balance es = 0 -> es <> [] -> exists l, fst (refs es n) = l ++ [true] /\ Forall (fun b => b = false) l) /\
  (0 < n + balance es -> Forall (fun b => b = false) (fst (refs es n))).
Proof.
  induction es as [|[] es IH]; intros n Hn Hh; simpl in *.
  - split_and!; [lia|done|constructor].
  - destruct Hh as (H0 & H1 & Hh). unfold int. rewrite Semaphore.signed_id by lia.
    destruct (IH (n + 1) ltac:(lia) Hh) as (E & Z & P). split_and!; [rewrite E; lia|intros Hz _; apply Z; [lia|]|intros Hp; apply P; lia].
    intros ->. simpl in Hz. lia.
  - destruct Hh as (H0 & Hh). unfold atomic_dec_and_test, atomic_sub_return, int. cbv zeta. rewrite Semaphore.signed_id by lia.
    destruct (IH (n - 1) ltac:(lia) Hh) as (E & Z & P). destruct (refs es (n - 1)) as [l v] eqn:Er. simpl in *.
    split_and!; [lia| |].
    + intros Hz _. destruct (Z.eqb_spec (n - 1) 0) as [E0|E0].
      * destruct es as [|[] es]; simpl in *; [|lia|lia]. injection Er as <- <-. by exists [].
      * destruct Z as (l' & -> & Hl); [lia|intros ->; simpl in *; lia|]. exists (false :: l'). split; [done|by constructor].
    + intros Hp. destruct (Z.eqb_spec (n - 1) 0) as [E0|E0]; [|constructor; [done|apply P; lia]].
      destruct es as [|[] es]; simpl in *; lia.
Qed.
(** Of two exchanges that expect the same value, and write another, one wins. *)
Lemma cmpxchg_once old a b v : a <> old -> v = old ->
  let '(r1, v1) := atomic_cmpxchg old a v in let '(r2, v2) := atomic_cmpxchg old b v1 in r1 = old /\ r2 = a /\ v2 = a.
Proof. intros Ha ->. unfold atomic_cmpxchg. rewrite Z.eqb_refl. by rewrite (proj2 (Z.eqb_neq a old)). Qed.
End Atomic.
