(* ===== verification/Driver.v ===== *)
(** * The driver's runtime: interrupts, polling, start-up and the scan helpers

    From [src/src/compat/rtw88_compat.c]: the threaded interrupt and NAPI on
    thread calls, [rtw88_compat_init] and
    [rtw88_compat_exit], and the helpers that call into rtw88 under its mutex.
    The functions of rtw88 are the calls recorded in [dcalls]; its poll function
    is a parameter. *)

From S2P Require Import Prelude Bits.

(** ** The threaded interrupt *)

(** A thread call as its users see it: whether it is pending, and whether its
    callback runs; [ThreadCall] has what is behind it. *)
Inductive callout := NoCallout | InFunction.
Record thread_call := mk_call { pending : bool; running : callout }.
#[export] Instance eta_thread_call : Eta thread_call := fun c => mk_call (pending c) (running c).

Inductive irq_act := RanHandler | RanThreadFn | RanResume.
Record irq := mk_irq {
  g_irq_handler : bool; g_irq_thread_fn : bool; g_irq_dev_id : bool;
  g_irq_thread_call : option thread_call; g_tx_resume_cb : bool; freeing : bool; acts : list irq_act }.
#[export] Instance eta_irq : Eta irq := fun i =>
  mk_irq (g_irq_handler i) (g_irq_thread_fn i) (g_irq_dev_id i) (g_irq_thread_call i) (g_tx_resume_cb i) (freeing i) (acts i).
Definition irq_start : irq := mk_irq false false false None false false [].
Definition IRQ_WAKE_THREAD : Z := 2.

Definition rtw88_set_tx_resume_cb (cb : bool) (i : irq) : irq := i <| g_tx_resume_cb := cb |>.
(** [thread_fn]: whether one is given; [alloc]: thread_call_allocate. *)
Definition rtw88_devm_request_threaded_irq (thread_fn alloc : bool) (i : irq) : irq :=
  let i := i <| g_irq_handler := true |> <| g_irq_thread_fn := thread_fn |> <| g_irq_dev_id := true |> in
  match g_irq_thread_call i with
  | None => if alloc then i <| g_irq_thread_call := Some (mk_call false NoCallout) |> else i
  | Some _ => i
  end.
(** Up to the wait of cancel_wait, and what follows it. *)
Definition rtw88_devm_free_irq (i : irq) : irq :=
  match g_irq_thread_call i with
  | Some c => i <| g_irq_thread_call := Some (c <| pending := false |>) |> <| freeing := true |>
  | None => i <| g_irq_handler := false |> <| g_irq_thread_fn := false |> <| g_irq_dev_id := false |>
  end.
Definition rtw88_devm_free_irq_end (i : irq) : option irq :=
  match g_irq_thread_call i with
  | Some c =>
      if pending c then None
      else Some (i <| g_irq_thread_call := None |> <| freeing := false |>
                   <| g_irq_handler := false |> <| g_irq_thread_fn := false |> <| g_irq_dev_id := false |>)
  | None => None
  end.
(** [ret]: what the handler returns.  A thread call that is being cancelled is
    not entered. *)
Definition rtw88_trigger_interrupt (ret : Z) (i : irq) : irq :=
  if g_irq_handler i && g_irq_dev_id i then
    let i := i <| acts := acts i ++ [RanHandler] |> in
    match g_irq_thread_call i with
    | Some c => if (ret =? IRQ_WAKE_THREAD) && negb (freeing i) then i <| g_irq_thread_call := Some (c <| pending := true |>) |> else i
    | None => i
    end
  else i.
Definition rtw88_irq_thread_wrapper (i : irq) : irq :=
  let i := if g_irq_thread_fn i && g_irq_dev_id i then i <| acts := acts i ++ [RanThreadFn] |> else i in
  if g_tx_resume_cb i then i <| acts := acts i ++ [RanResume] |> else i.
(** [ring]: the free slots of the driver's ring. *)
Definition rtw88_be_tx_avail (ring : Z) (i : irq) : Z := if negb (g_irq_dev_id i) then 0 else ring.

Inductive irq_event :=
| IrqRequest (thread_fn alloc : bool) | IrqFree | IrqFreeEnd | IrqTrigger (ret : Z) | IrqSetResume (cb : bool)
| IrqDispatch | IrqReturn.
Definition irq_exec (e : irq_event) (i : irq) : option (option irq) :=
  match e, g_irq_thread_call i with
  | IrqRequest f a, _ => Some (Some (rtw88_devm_request_threaded_irq f a i))
  | IrqFree, _ => if freeing i then None else Some (Some (rtw88_devm_free_irq i))
  | IrqFreeEnd, Some c =>
      if freeing i then match running c with NoCallout => Some (rtw88_devm_free_irq_end i) | _ => None end else None
  | IrqTrigger r, _ => Some (Some (rtw88_trigger_interrupt r i))
  | IrqSetResume cb, _ => Some (Some (rtw88_set_tx_resume_cb cb i))
  | IrqDispatch, Some c =>
      match pending c, running c with
      | true, NoCallout => Some (Some (rtw88_irq_thread_wrapper (i <| g_irq_thread_call := Some (mk_call false InFunction) |>)))
      | _, _ => None
      end
  | IrqReturn, Some c =>
      match running c with NoCallout => None | _ => Some (Some (i <| g_irq_thread_call := Some (c <| running := NoCallout |>) |>)) end
  | _, None => None
  end.
(** The driver requests the interrupt again only after it is freed. *)
Definition irq_calm (e : irq_event) (i : irq) : Prop :=
  match e with IrqRequest _ _ | IrqFree => freeing i = false | _ => True end.
Inductive irq_reachable : irq -> Prop :=
| irq_reach_start : irq_reachable irq_start
| irq_reach_step i e i' : irq_reachable i -> irq_calm e i -> irq_exec e i = Some (Some i') -> irq_reachable i'.

(** ** NAPI *)

Record napi_struct := mk_napi { has_poll : bool; weight : Z; napi_call : option bool }.
#[export] Instance eta_napi : Eta napi_struct := fun n => mk_napi (has_poll n) (weight n) (napi_call n).
(** [napi_call]: whether it is pending. *)
Definition rtw88_netif_napi_add (poll_fn alloc : bool) (n : napi_struct) : napi_struct :=
  let n := n <| has_poll := poll_fn |> <| weight := 64 |> in
  match napi_call n with None => if alloc then n <| napi_call := Some false |> else n | Some _ => n end.
Definition rtw88_netif_napi_del (n : napi_struct) : napi_struct := n <| napi_call := None |> <| has_poll := false |>.
Definition rtw88_napi_schedule (n : napi_struct) : napi_struct :=
  match napi_call n with Some _ => if has_poll n then n <| napi_call := Some true |> else n | None => n end.
(** [poll b w]: how many of [b] waiting packets one poll of weight [w] takes. *)
Definition rtw88_napi_thread_wrapper (poll : Z -> Z -> Z) (backlog : Z) (n : napi_struct) : Z * napi_struct :=
  if has_poll n then
    let work := poll backlog (weight n) in
    (backlog - work,
     if weight n <=? work then match napi_call n with Some _ => n <| napi_call := Some true |> | None => n end else n)
  else (backlog, n).
(** Dispatches until the call is no longer pending. *)
Fixpoint napi_run (fuel : nat) (poll : Z -> Z -> Z) (backlog : Z) (n : napi_struct) : option (Z * napi_struct) :=
  match napi_call n with
  | Some true =>
      match fuel with
      | O => None
      | S fuel =>
          let '(b, n) := rtw88_napi_thread_wrapper poll backlog (n <| napi_call := Some false |>) in napi_run fuel poll b n
      end
  | _ => Some (backlog, n)
  end.

(** ** Start-up *)

(** What is allocated: the state lock, the log's lock, the two queues. *)
Record runtime := mk_runtime { work_state_lock : bool; log_lock : bool; system_wq : bool; system_long_wq : bool }.
Definition EBUSY : Z := 16.
Definition ENOMEM : Z := 12.
(** The four allocations' answers. *)
Definition rtw88_compat_init (a_lock a_log a_wq a_long : bool) (r : runtime) : Z * runtime :=
  if system_wq r || system_long_wq r || log_lock r then (- EBUSY, r)
  else if negb a_lock then (- ENOMEM, mk_runtime false (log_lock r) (system_wq r) (system_long_wq r))
  else
    let r := mk_runtime true a_log a_wq a_long in
    if negb a_wq || negb a_long || negb a_log then (- ENOMEM, mk_runtime false false false false) else (0, r).
(** Once the bottom half, if any, was cancelled and waited for. *)
Definition rtw88_compat_exit (r : runtime) (i : irq) : runtime * irq :=
  (mk_runtime false false false false, mk_irq false false false None false (freeing i) (acts i)).

(** ** Helpers under the driver's mutex *)

Inductive dcall :=
| DCoreScanStart | DCoreScanComplete | DSetChannel | DPrepareTx (need_rfk : bool) | DWriteRcr (v : Z) | DSetBssid (b : list Z).
(** [rtwdev]: the mutex, the fields the helpers write, the calls with whether
    the mutex was held. *)
Record rtw_dev := mk_dev {
  mutex : bool; rcr : Z; need_rfk : bool; fix_rate : Z; btcoex : Z; rtwvif_bssid : list Z; dcalls : list (bool * dcall) }.
#[export] Instance eta_dev : Eta rtw_dev := fun d =>
  mk_dev (mutex d) (rcr d) (need_rfk d) (fix_rate d) (btcoex d) (rtwvif_bssid d) (dcalls d).

Section helpers.
Context (BIT_CBSSID_BCN : Z).

Definition dcall_do (c : dcall) (d : rtw_dev) : rtw_dev := d <| dcalls := dcalls d ++ [(mutex d, c)] |>.
(** A thread that takes the mutex twice never goes on. *)
Definition mutex_lock (d : rtw_dev) : option rtw_dev := if mutex d then None else Some (d <| mutex := true |>).
Definition mutex_unlock (d : rtw_dev) : option rtw_dev := if mutex d then Some (d <| mutex := false |>) else None.

(** [hw]: hw and its priv are set; [vif]: likewise; [rtwvif]: drv_priv. *)
Definition rtw88_sw_scan_start (hw vif rtwvif : bool) (d : rtw_dev) : option rtw_dev :=
  if negb hw || negb vif then Some d
  else if negb rtwvif then Some d
  else
    d ← mutex_lock d;
    let d := dcall_do DCoreScanStart d in
    let d := d <| rcr := rcr d .& cnot 32 BIT_CBSSID_BCN |> in
    mutex_unlock (dcall_do (DWriteRcr (rcr d)) d).
Definition rtw88_sw_scan_switch_channel (hw : bool) (d : rtw_dev) : option rtw_dev :=
  if negb hw then Some d else d ← mutex_lock d; mutex_unlock (dcall_do DSetChannel d).
Definition rtw88_awdl_switch_channel (hw : bool) (d : rtw_dev) : option rtw_dev :=
  if negb hw then Some d
  else
    d ← mutex_lock d;
    let d := dcall_do DSetChannel d in
    let d := d <| need_rfk := true |> in
    mutex_unlock (dcall_do (DPrepareTx (need_rfk d)) d).
Definition rtw88_sw_scan_complete (hw vif : bool) (d : rtw_dev) : option rtw_dev :=
  if negb hw || negb vif then Some d
  else
    d ← mutex_lock d;
    let d := d <| rcr := rcr d .| BIT_CBSSID_BCN |> in
    let d := dcall_do (DWriteRcr (rcr d)) d in
    mutex_unlock (dcall_do DCoreScanComplete d).
Definition connect_body (rtwvif : bool) (bssid : list Z) (d : rtw_dev) : rtw_dev :=
  let d := dcall_do DSetChannel d in
  let d := if rtwvif then dcall_do (DSetBssid bssid) (d <| rtwvif_bssid := bssid |>) else d in
  let d := d <| need_rfk := true |> in
  let d := dcall_do (DPrepareTx (need_rfk d)) d in
  d <| fix_rate := 0xFF |>.
Definition rtw88_connect_hw_setup (hw vif rtwvif : bool) (bssid : option (list Z)) (d : rtw_dev) : option rtw_dev :=
  match bssid with
  | Some b => if negb hw || negb vif then Some d else d ← mutex_lock d; mutex_unlock (connect_body rtwvif b d)
  | None => Some d
  end.
Definition rtw88_restore_connected_hw (hw vif rtwvif : bool) (bssid : option (list Z)) (d : rtw_dev) : option rtw_dev :=
  match bssid with
  | Some b => if negb hw || negb vif then Some d else d ← mutex_lock d; mutex_unlock (connect_body rtwvif b d)
  | None => Some d
  end.
Definition rtw88_force_wifi_only (hw : bool) (d : rtw_dev) : rtw_dev :=
  if negb hw then d else if negb (btcoex d =? 0) then d <| btcoex := 0 |> else d.
Definition rtw88_is_scanning (hw flag : bool) : bool := if negb hw then false else flag.
Definition rtw88_hw_scan_supported (hw feature : bool) : bool := if negb hw then false else feature.

Inductive helper :=
| HScanStart (hw vif rtwvif : bool) | HSwitch (hw : bool) | HAwdl (hw : bool) | HScanComplete (hw vif : bool)
| HConnect (hw vif rtwvif : bool) (b : option (list Z)) | HRestore (hw vif rtwvif : bool) (b : option (list Z)) | HWifiOnly (hw : bool).
Definition helper_do (h : helper) (d : rtw_dev) : option rtw_dev :=
  match h with
  | HScanStart hw vif rv => rtw88_sw_scan_start hw vif rv d
  | HSwitch hw => rtw88_sw_scan_switch_channel hw d
  | HAwdl hw => rtw88_awdl_switch_channel hw d
  | HScanComplete hw vif => rtw88_sw_scan_complete hw vif d
  | HConnect hw vif rv b => rtw88_connect_hw_setup hw vif rv b d
  | HRestore hw vif rv b => rtw88_restore_connected_hw hw vif rv b d
  | HWifiOnly hw => Some (rtw88_force_wifi_only hw d)
  end.
Fixpoint helpers_do (l : list helper) (d : rtw_dev) : option rtw_dev :=
  match l with [] => Some d | h :: l => d ← helper_do h d; helpers_do l d end.
End helpers.

(** ** The interrupt: no bottom half outlives its release, none is lost *)

Definition irq_ok (i : irq) : Prop :=
  match g_irq_thread_call i with
  | None => freeing i = false
  | Some c => freeing i = true -> pending c = false
  end.
Lemma irq_exec_ok e i r : irq_ok i -> irq_calm e i -> irq_exec e i = Some r -> exists i', r = Some i' /\ irq_ok i'.
Proof.
  unfold irq_ok. intros Hi Hc He. destruct i as [h f d [c|] cb fr ac]; destruct e as [tf al| | |ret|rc| |]; simpl in *; try done.
  - injection He as <-. by eexists.
  - subst fr. injection He as <-. by eexists.
  - destruct fr; [|done]. destruct (running c); try done. injection He as <-. unfold rtw88_devm_free_irq_end. simpl.
    rewrite (Hi eq_refl). by eexists.
  - injection He as <-. eexists. split; [done|]. unfold rtw88_trigger_interrupt. simpl. destruct (h && d); simpl; [|done].
    destruct (ret =? IRQ_WAKE_THREAD), fr; simpl; done.
  - injection He as <-. by eexists.
  - destruct (pending c), (running c); try done. injection He as <-. eexists. split; [done|].
    unfold rtw88_irq_thread_wrapper. simpl. by destruct (f && d), cb.
  - destruct (running c); try done; injection He as <-; by eexists.
  - injection He as <-. eexists. split; [done|]. unfold rtw88_devm_request_threaded_irq. simpl. by destruct al.
  - subst fr. injection He as <-. by eexists.
  - injection He as <-. eexists. split; [done|]. unfold rtw88_trigger_interrupt. simpl. by destruct (h && d).
  - injection He as <-. by eexists.
Qed.

Lemma irq_reachable_ok i : irq_reachable i -> irq_ok i.
Proof.
  induction 1 as [|i e i' _ IH Hc He]; [done|]. destruct (irq_exec_ok e i _ IH Hc He) as (i2 & [= <-] & H). done.
Qed.

(** No pending call is freed; after the release nothing runs before the next request; and a
    handler that asks for its thread has it run at the next dispatch, followed
    by the hook that resumes transmission. *)
Lemma irq_bottom_half i : irq_reachable i ->
  (forall e, irq_calm e i -> irq_exec e i <> Some None) /\
  (g_irq_thread_call i = None -> forall e i', (forall f a, e <> IrqRequest f a) -> irq_exec e i = Some (Some i') ->
     g_irq_thread_call i' = None) /\
  (forall c, g_irq_thread_call i = Some c -> running c = NoCallout -> freeing i = false -> g_irq_handler i = true -> g_irq_dev_id i = true ->
     g_irq_thread_fn i = true -> g_tx_resume_cb i = true -> exists i',
     irq_exec IrqDispatch (rtw88_trigger_interrupt IRQ_WAKE_THREAD i) = Some (Some i') /\
     acts i' = acts i ++ [RanHandler; RanThreadFn; RanResume]).
Proof.
  intros Hr. pose proof (irq_reachable_ok i Hr) as Hok. split_and!.
  - intros e Hc He. by destruct (irq_exec_ok e i None Hok Hc He) as (? & ? & _).
  - intros Hn e i' He Hx. destruct i as [h f d k cb fr ac]. simpl in *. subst k.
    destruct e as [tf al| | |ret|rc| |]; simpl in Hx; try done.
    + by destruct (He tf al).
    + destruct fr; [done|]. by injection Hx as <-.
    + injection Hx as <-. unfold rtw88_trigger_interrupt. simpl. by destruct (h && d).
    + by injection Hx as <-.
  - intros c Hk Hc Hfr Hh Hd Hf Hcb. destruct i as [h f d k cb fr ac]. simpl in *. subst. unfold rtw88_trigger_interrupt. simpl.
    rewrite Hc. eexists. split; [done|]. simpl. by rewrite <- !app_assoc.
Qed.

(** ** NAPI drains *)

(** A poll takes no more than there is, and less than its weight only when
    nothing is left. *)
Definition poll_ok (poll : Z -> Z -> Z) : Prop :=
  forall b w, 0 <= b -> 0 < w -> 0 <= poll b w <= b /\ (poll b w < w -> poll b w = b).

Lemma napi_drains poll fuel : poll_ok poll -> forall b n, 0 <= b < 64 * Z.of_nat fuel -> has_poll n = true -> weight n = 64 ->
  napi_call n = Some true -> exists n', napi_run fuel poll b n = Some (0, n') /\ napi_call n' = Some false.
Proof.
  intros Hp. induction fuel as [|fuel IH]; intros b n Hb Hn Hw Hc; [lia|].
  simpl. rewrite Hc. unfold rtw88_napi_thread_wrapper. simpl. rewrite Hn, Hw.
  destruct (Hp b 64) as [H1 H2]; [lia|lia|]. destruct (Z.leb_spec 64 (poll b 64)); simpl.
  - apply IH; simpl; [lia|done|done|done].
  - rewrite H2 by lia. rewrite Z.sub_diag. eexists. split; [by destruct fuel|done].
Qed.

(** ** Start-up keeps all or nothing *)

Lemma compat_init_balanced a b c d r : work_state_lock r = system_wq r ->
  let '(ret, r') := rtw88_compat_init a b c d r in
  (ret = 0 /\ r' = mk_runtime true true true true /\ (a && b && c && d) = true) \/
  (ret = - ENOMEM /\ r' = mk_runtime false false false false) \/
  (ret = - EBUSY /\ r' = r /\ (system_wq r || system_long_wq r || log_lock r) = true).
Proof.
  destruct r as [w l s g]. simpl. intros ->. unfold rtw88_compat_init. simpl.
  destruct (s || g || l) eqn:E; [by right; right|]. apply orb_false_elim in E as [[-> ->]%orb_false_elim ->].
  destruct a; simpl; [|by right; left]. destruct b, c, d; simpl; by (left + (right; left)).
Qed.

(** ** The helpers *)

Section helper_laws.
Context (B : Z) (HB : in_range 32 B).

Definition all_locked (d : rtw_dev) : Prop := Forall (fun c => fst c = true) (dcalls d).

(** Any sequence of helpers, with any of their arguments missing, from a free
    mutex: it is never taken twice, it is free again at the end, and every call
    into rtw88 is made with it held. *)
Lemma helpers_locked l : forall d, mutex d = false -> all_locked d ->
  exists d', helpers_do B l d = Some d' /\ mutex d' = false /\ all_locked d'.
Proof.
  assert (H1 : forall h d, mutex d = false -> all_locked d ->
    exists d', helper_do B h d = Some d' /\ mutex d' = false /\ all_locked d').
  { intros h [m r n f b v cs] Hm Hl. simpl in Hm. subst m. unfold all_locked in *. simpl in Hl.
    destruct h as [[] [] []|[]|[]|[] []|[] [] rv [bs|]|[] [] rv [bs|]|[]]; simpl;
      try (eexists; split; [reflexivity|]; simpl; split; [done|]; repeat (apply Forall_app; split; [|by constructor]); done).
    1,2: destruct rv; (eexists; split; [reflexivity|]; simpl; split; [done|]; repeat (apply Forall_app; split; [|by constructor]); done).
    unfold rtw88_force_wifi_only. simpl. destruct (b =? 0); by eexists. }
  induction l as [|h l IH]; intros d Hm Hl; simpl; [by exists d|].
  destruct (H1 h d Hm Hl) as (d1 & -> & Hm1 & Hl1). simpl. by apply IH.
Qed.

(** A scan ends with the beacon filter of the BSSID on, the other bits of the
    receive configuration as they were. *)
Lemma scan_restores_rcr d d1 d2 : mutex d = false -> in_range 32 (rcr d) ->
  rtw88_sw_scan_start B true true true d = Some d1 -> rtw88_sw_scan_complete B true true d1 = Some d2 ->
  rcr d1 = rcr d .& cnot 32 B /\ rcr d2 = rcr d .| B.
Proof.
  intros Hm Hr H1 H2. destruct d as [m r n f b v cs]. simpl in Hm, Hr. subst m. injection H1 as <-. injection H2 as <-. simpl.
  split; [done|]. bits_eq. destruct (Z.testbit B i) eqn:E; [by rewrite !orb_true_r|]. rewrite !orb_false_r. cbn [negb].
  destruct (Z.ltb_spec i 32); [|by rewrite (in_range_testbit 32 r)]. by rewrite (proj2 (Z.leb_le 0 i)), !andb_true_r.
Qed.
End helper_laws.
