(* ===== verification/Lifecycle.v ===== *)
(** * Start and teardown: what is acquired is released, in an order that works

    [AirportRTW88::start], [failStart], [teardown], [stop] and [free]
    (AirportRTW88.cpp), their Ethernet counterparts (RTW88PCIDevice.cpp), and
    [RTW88IEEE80211::init] and [free].  Every call of the kernel that acquires
    or releases something is recorded; whether it succeeds is an answer.  The
    ledger is the specification: an acquisition needs what it depends on, and
    nothing is released while something that uses it is held. *)

From S2P Require Import Prelude Driver.

(** ** The ledger *)

Inductive res :=
| RSuper | RPci | RDmaLock | RPendingLock | RMmio | RGlobals | RCompat | RPciStruct | RWorkLoop
| RIntr | RIntrAdded | RIntrOn | RIeee | RIeeeStarted | RManager | RNetif | RNetifAttached
| RCmdGate | RCmdGateAdded | RTxQueue | RResumeCb | RDebugTimer | RDebugTimerAdded
| RLock | RBssLock | RConnectTC | RManualScanTC | RCallbacks | RWl | RGate | RGateAdded
| RTimer | RTimerAdded | RRxBaLock | RReorderTimer | RReorderTimerAdded
| RClient | RClientAttached | RClientStarted.
#[export] Instance res_eq_dec : EqDecision res.
Proof. solve_decision. Defined.

(** [Off] is a release that may find nothing to release; [Touch] a use. *)
Inductive lcall := Acquire (r : res) | Release (r : res) | Off (r : res) | Touch (r : res).

Definition holds (r : res) (held : list res) : bool := existsb (fun x => bool_decide (r = x)) held.
Definition drop_res (r : res) (held : list res) : list res := List.filter (fun x => negb (bool_decide (r = x))) held.

(** [deps r]: what [r] uses; [last r]: what must outlive [r] besides. *)
Record discipline := mk_discipline { deps : res -> list res; outlives : res -> list res }.

Definition ledger_step (d : discipline) (c : lcall) (held : list res) : option (list res) :=
  match c with
  | Acquire r => if negb (holds r held) && forallb (fun x => holds x held) (deps d r) then Some (r :: held) else None
  | Release r =>
      if holds r held && forallb (fun x => negb (holds r (deps d x ++ outlives d x))) held then Some (drop_res r held) else None
  | Off r => Some (drop_res r held)
  | Touch r => if holds r held then Some held else None
  end.
Fixpoint ledger (d : discipline) (cs : list lcall) (held : list res) : option (list res) :=
  match cs with [] => Some held | c :: cs => held ← ledger_step d c held; ledger d cs held end.

(** Two controllers, to tell one from the other. *)
Inductive adapter := FirstAdapter | SecondAdapter.
#[export] Instance adapter_eq_dec : EqDecision adapter.
Proof. solve_decision. Defined.
(** What the controllers share: the globals of RTW88HwOps.cpp and the runtime
    of rtw88_compat.c. *)
Record globals := mk_globals { g_pci_dev_instance : option adapter; rtw88_pci_io_ops : bool; rtw88_dma_ops : bool; rt : runtime }.
#[export] Instance eta_globals : Eta globals := fun g =>
  mk_globals (g_pci_dev_instance g) (rtw88_pci_io_ops g) (rtw88_dma_ops g) (rt g).
Definition no_runtime : runtime := mk_runtime false false false false.
Definition no_globals : globals := mk_globals None false false no_runtime.
Definition owns (self : adapter) (g : globals) : bool :=
  bool_decide (g_pci_dev_instance g = Some self).
Definition clear_ops (g : globals) : globals :=
  g <| g_pci_dev_instance := None |> <| rtw88_pci_io_ops := false |> <| rtw88_dma_ops := false |>.
Definition set_ops (self : adapter) (g : globals) : globals :=
  g <| g_pci_dev_instance := Some self |> <| rtw88_pci_io_ops := true |> <| rtw88_dma_ops := true |>.
(** The runtime's exit, the bottom half being gone. *)
Definition compat_exit (g : globals) : globals := g <| rt := fst (rtw88_compat_exit (rt g) irq_start) |>.

(** ** The Airport controller *)

Module AirportLife.

Record life := mk_life {
  _superStarted : bool; _pciDev : bool; _dmaLock : bool; _pendingFreeLock : bool; _mmioMap : bool;
  _compatInitialized : bool; _compatPciDev : bool; _workLoop : bool; _intrSrc : bool; _ieee80211 : bool;
  _ieeeStarted : bool; _awdlManager : bool; _netif : bool; _netifAttached : bool;
  glob : globals; calls : list lcall }.
#[export] Instance eta_life : Eta life := fun l =>
  mk_life (_superStarted l) (_pciDev l) (_dmaLock l) (_pendingFreeLock l) (_mmioMap l) (_compatInitialized l)
    (_compatPciDev l) (_workLoop l) (_intrSrc l) (_ieee80211 l) (_ieeeStarted l) (_awdlManager l) (_netif l)
    (_netifAttached l) (glob l) (calls l).
Definition new_life (g : globals) : life :=
  mk_life false false false false false false false false false false false false false false g [].
Definition did (c : lcall) (l : life) : life := l <| calls := calls l ++ [c] |>.
Definition did_if (b : bool) (c : lcall) (l : life) : life := if b then did c l else l.

(** What each call answers. *)
Record answers := mk_answers {
  is_pci : bool; loop_ok : bool; super_ok : bool; dma_lock_ok : bool; pending_lock_ok : bool; mmio_ok : bool;
  state_lock_ok : bool; log_lock_ok : bool; wq_ok : bool; long_wq_ok : bool; struct_ok : bool;
  intr_ok : bool; add_ok : bool; create_ok : bool; probe_ok : bool; manager_ok : bool; manager_init_ok : bool;
  attach_ok : bool; netif_ok : bool; type_ok : bool }.

Definition createWorkLoop (a : answers) (l : life) : bool * life :=
  if _workLoop l then (true, l)
  else if loop_ok a then (true, did (Acquire RWorkLoop) (l <| _workLoop := true |>))
  else (false, l).

Definition setupInterrupt (a : answers) (l : life) : bool * life :=
  if negb (intr_ok a) then (false, l)
  else
    let l := did (Acquire RIntr) (l <| _intrSrc := true |>) in
    if negb (add_ok a) then (false, did (Release RIntr) l <| _intrSrc := false |>)
    else (true, did (Acquire RIntrAdded) l).

Definition drainPendingFree (l : life) : life := did_if (_pendingFreeLock l) (Touch RPendingLock) l.
Definition releaseDMAEntries (l : life) : life := did_if (_dmaLock l) (Touch RDmaLock) l.

(** The four parts of [teardown]: the users of the hardware, the station and
    its runtime, the device's resources, the globals and the locks. *)
Definition teardown_users (l : life) : life :=
  let l := did_if (_intrSrc l) (Touch RIntr) l in
  let l := did_if (_intrSrc l) (Off RIntrOn) l in
  let l := if _awdlManager l then did (Release RManager) l <| _awdlManager := false |> else l in
  if _netif l then
    let l := did_if (_netifAttached l) (Release RNetifAttached) l in
    let l := l <| _netifAttached := false |> in
    did (Release RNetif) l <| _netif := false |>
  else l.
Definition teardown_station (l : life) : life :=
  let l := if _ieee80211 l then
      let l := did_if (_ieeeStarted l) (Release RIeeeStarted) l in
      let l := l <| _ieeeStarted := false |> in
      did (Release RIeee) l <| _ieee80211 := false |>
    else l in
  let l := releaseDMAEntries (drainPendingFree l) in
  if _compatInitialized l then
    did (Release RCompat) (l <| glob := compat_exit (glob l) |>) <| _compatInitialized := false |>
  else l.
Definition teardown_device (l : life) : life :=
  let l := if _intrSrc l then
      let l := did_if (_workLoop l) (Off RIntrAdded) l in
      did (Release RIntr) l <| _intrSrc := false |>
    else l in
  let l := if _workLoop l then did (Release RWorkLoop) l <| _workLoop := false |> else l in
  let l := if _compatPciDev l then did (Release RPciStruct) l <| _compatPciDev := false |> else l in
  if _mmioMap l then did (Release RMmio) l <| _mmioMap := false |> else l.
Definition teardown_globals (self : adapter) (l : life) : life :=
  let l := if owns self (glob l) then did (Off RGlobals) (l <| glob := clear_ops (glob l) |>) else l in
  let l := if _pciDev l then did (Release RPci) l <| _pciDev := false |> else l in
  let l := if _pendingFreeLock l then did (Release RPendingLock) l <| _pendingFreeLock := false |> else l in
  if _dmaLock l then did (Release RDmaLock) l <| _dmaLock := false |> else l.
Definition teardown (self : adapter) (l : life) : life :=
  teardown_globals self (teardown_device (teardown_station (teardown_users l))).

Definition super_stop (l : life) : life :=
  if _superStarted l then did (Release RSuper) l <| _superStarted := false |> else l.
Definition failStart (self : adapter) (l : life) : bool * life := (false, teardown self (super_stop l)).
Definition stop (self : adapter) (l : life) : life := teardown self (super_stop l).
Definition free (self : adapter) (l : life) : life := teardown self l.

(** [start] from the creation of the station on. *)
Definition start_station (self : adapter) (a : answers) (l : life) : bool * life :=
  if negb (create_ok a) then failStart self l
  else
    let l := did (Acquire RIeee) (l <| _ieee80211 := true |>) in
    if negb (probe_ok a) then failStart self l
    else
      let l := did (Acquire RIeeeStarted) (l <| _ieeeStarted := true |>) in
      if negb (manager_ok a) then failStart self l
      else
        let l := did (Acquire RManager) (l <| _awdlManager := true |>) in
        if negb (manager_init_ok a) then failStart self l
        else if negb (attach_ok a) || negb (netif_ok a) then failStart self l
        else
          let l := did (Acquire RNetifAttached) (did (Acquire RNetif) (l <| _netif := true |>)) in
          if negb (type_ok a) then
            let l := did (Release RNetif) (did (Release RNetifAttached) l) <| _netif := false |> in failStart self l
          else
            let l := l <| _netifAttached := true |> in
            (true, did_if (_intrSrc l) (Acquire RIntrOn) l).

Definition start (self : adapter) (a : answers) (l : life) : bool * life :=
  if negb (is_pci a) then (false, l <| _pciDev := false |>)
  else
    let l := l <| _pciDev := true |> in
    let '(loop, l) := createWorkLoop a l in
    if negb (loop && super_ok a) then (false, l <| _pciDev := false |>)
    else
      let l := did (Acquire RPci) (did (Acquire RSuper) (l <| _superStarted := true |>)) in
      let l := did_if (dma_lock_ok a) (Acquire RDmaLock) (l <| _dmaLock := dma_lock_ok a |>) in
      let l := did_if (pending_lock_ok a) (Acquire RPendingLock) (l <| _pendingFreeLock := pending_lock_ok a |>) in
      if negb (_dmaLock l) || negb (_pendingFreeLock l) then failStart self l
      else if negb (mmio_ok a) then failStart self l
      else
        let l := did (Acquire RMmio) (l <| _mmioMap := true |>) in
        let l := did (Acquire RGlobals) (l <| glob := set_ops self (glob l) |>) in
        let '(ret, r) := rtw88_compat_init (state_lock_ok a) (log_lock_ok a) (wq_ok a) (long_wq_ok a) (rt (glob l)) in
        let l := l <| glob := glob l <| rt := r |> |> in
        if negb (ret =? 0) then failStart self l
        else
          let l := did (Acquire RCompat) (l <| _compatInitialized := true |>) in
          if negb (struct_ok a) then failStart self l
          else
            let l := did (Acquire RPciStruct) (l <| _compatPciDev := true |>) in
            if negb (_workLoop l) then failStart self l
            else
              let '(ok, l) := setupInterrupt a l in
              if negb ok then failStart self l else start_station self a l.

Definition discipline : discipline := mk_discipline
  (fun r => match r with
   | RMmio | RGlobals | RIntr => [RPci]
   | RIntrAdded => [RIntr; RWorkLoop]
   | RIntrOn => [RIntrAdded; RIeee; RCompat]
   | RIeee => [RPci; RMmio; RGlobals; RCompat; RPciStruct; RDmaLock; RPendingLock; RWorkLoop]
   | RIeeeStarted => [RIeee]
   | RManager => [RIeee; RWorkLoop]
   | RNetifAttached => [RNetif; RWorkLoop]
   | _ => [] end)
  (fun r => match r with RSuper => [RWorkLoop; RIeee] | _ => [] end).
Definition everything : list res :=
  [RIntrOn; RNetifAttached; RNetif; RManager; RIeeeStarted; RIeee; RIntrAdded; RIntr; RPciStruct; RCompat; RGlobals;
   RMmio; RPendingLock; RDmaLock; RPci; RSuper; RWorkLoop].
End AirportLife.
(** ** The station object *)

Module StationLife.

Record life := mk_life {
  _lock : bool; _bssLock : bool; _connectTC : bool; _manualScanTC : bool; _wl : bool; _gate : bool; _timer : bool;
  _rxBaLock : bool; _reorderTimer : bool; calls : list lcall }.
#[export] Instance eta_life : Eta life := fun l =>
  mk_life (_lock l) (_bssLock l) (_connectTC l) (_manualScanTC l) (_wl l) (_gate l) (_timer l) (_rxBaLock l)
    (_reorderTimer l) (calls l).
Definition new_life : life := mk_life false false false false false false false false false [].
Definition did (c : lcall) (l : life) : life := l <| calls := calls l ++ [c] |>.
Definition did_if (b : bool) (c : lcall) (l : life) : life := if b then did c l else l.

(** [rxwl_ok]: the parent has a work loop. *)
Record answers := mk_answers {
  super_ok : bool; lock_ok : bool; bss_lock_ok : bool; connect_ok : bool; manual_ok : bool; wl_ok : bool; gate_ok : bool;
  gate_add_ok : bool; timer_ok : bool; timer_add_ok : bool; ba_lock_ok : bool; rxwl_ok : bool; reorder_ok : bool;
  reorder_add_ok : bool }.

(** [init] from the work loop on. *)
Definition init_loop (a : answers) (l : life) : bool * life :=
  if negb (wl_ok a) then (false, l)
  else
    let l := did (Acquire RWl) (l <| _wl := true |>) in
    if negb (gate_ok a) then (false, l)
    else
      let l := did (Acquire RGate) (l <| _gate := true |>) in
      if negb (gate_add_ok a) then (false, l)
      else
        let l := did (Acquire RGateAdded) l in
        if negb (timer_ok a) then (false, l)
        else
          let l := did (Acquire RTimer) (l <| _timer := true |>) in
          if negb (timer_add_ok a) then (false, l)
          else
            let l := did (Acquire RTimerAdded) l in
            if negb (ba_lock_ok a) then (false, l)
            else
              let l := did (Acquire RRxBaLock) (l <| _rxBaLock := true |>) in
              if negb (rxwl_ok a) then (false, l)
              else if negb (reorder_ok a) then (false, l)
              else
                let l := did (Acquire RReorderTimer) (l <| _reorderTimer := true |>) in
                if negb (reorder_add_ok a) then (false, l) else (true, did (Acquire RReorderTimerAdded) l).
Definition init (a : answers) (l : life) : bool * life :=
  if negb (super_ok a) then (false, l)
  else
    let l := did_if (lock_ok a) (Acquire RLock) (l <| _lock := lock_ok a |>) in
    let l := did_if (bss_lock_ok a) (Acquire RBssLock) (l <| _bssLock := bss_lock_ok a |>) in
    if negb (_lock l) || negb (_bssLock l) then (false, l)
    else
      let l := did_if (connect_ok a) (Acquire RConnectTC) (l <| _connectTC := connect_ok a |>) in
      let l := did_if (manual_ok a) (Acquire RManualScanTC) (l <| _manualScanTC := manual_ok a |>) in
      if negb (_connectTC l) || negb (_manualScanTC l) then (false, l)
      else init_loop a (did (Acquire RCallbacks) l).

(** [free], with the parent's work loop still there or not; the station entry
    of [releaseSta] and the list of access points are in [Kext] and [Bss]. *)
Definition free (rxwl : bool) (l : life) : life :=
  let l := if _manualScanTC l then did (Release RManualScanTC) l <| _manualScanTC := false |> else l in
  let l := if _connectTC l then did (Release RConnectTC) l <| _connectTC := false |> else l in
  let l := did (Off RCallbacks) l in
  let l := did_if (_rxBaLock l) (Touch RRxBaLock) l in
  let l := if _reorderTimer l then
      let l := did_if rxwl (Off RReorderTimerAdded) l in
      did (Release RReorderTimer) l <| _reorderTimer := false |>
    else l in
  let l := if _rxBaLock l then did (Release RRxBaLock) l <| _rxBaLock := false |> else l in
  let l := if _timer l then
      let l := did_if (_wl l) (Off RTimerAdded) l in
      did (Release RTimer) l <| _timer := false |>
    else l in
  let l := if _gate l then
      let l := did_if (_wl l) (Off RGateAdded) l in
      did (Release RGate) l <| _gate := false |>
    else l in
  let l := if _wl l then did (Release RWl) l <| _wl := false |> else l in
  let l := if _lock l then did (Release RLock) l <| _lock := false |> else l in
  if _bssLock l then did (Release RBssLock) l <| _bssLock := false |> else l.
(** [create]: a failed [init] releases the object. *)
Definition create (a : answers) : bool * life :=
  let '(ok, l) := init a new_life in if ok then (true, l) else (false, free (rxwl_ok a) l).

Definition discipline : discipline := mk_discipline
  (fun r => match r with
   | RConnectTC | RManualScanTC | RCallbacks => [RLock; RBssLock]
   | RGateAdded => [RGate; RWl] | RTimerAdded => [RTimer; RWl]
   | RReorderTimer => [RRxBaLock] | RReorderTimerAdded => [RReorderTimer]
   | _ => [] end) (fun _ => []).
Definition everything : list res :=
  [RReorderTimerAdded; RReorderTimer; RRxBaLock; RTimerAdded; RTimer; RGateAdded; RGate; RWl; RCallbacks; RManualScanTC;
   RConnectTC; RBssLock; RLock].
End StationLife.

(** ** The Ethernet controller *)

Module EthernetLife.

Record life := mk_life {
  _dmaLock : bool; _pendingFreeLock : bool; _pciDev : bool; _mmioMap : bool; _compatPciDev : bool; _workLoop : bool;
  _cmdGate : bool; _intrSrc : bool; _ieee80211 : bool; _iface : bool; _txQueue : bool; _debugTimer : bool;
  _enabled : bool; glob : globals; calls : list lcall }.
#[export] Instance eta_life : Eta life := fun l =>
  mk_life (_dmaLock l) (_pendingFreeLock l) (_pciDev l) (_mmioMap l) (_compatPciDev l) (_workLoop l) (_cmdGate l)
    (_intrSrc l) (_ieee80211 l) (_iface l) (_txQueue l) (_debugTimer l) (_enabled l) (glob l) (calls l).
Definition new_life (g : globals) : life :=
  mk_life false false false false false false false false false false false false false g [].
Definition did (c : lcall) (l : life) : life := l <| calls := calls l ++ [c] |>.
Definition did_if (b : bool) (c : lcall) (l : life) : life := if b then did c l else l.

Record answers := mk_answers {
  super_init_ok : bool; dma_lock_ok : bool; pending_lock_ok : bool; super_ok : bool; is_pci : bool; mmio_ok : bool;
  state_lock_ok : bool; log_lock_ok : bool; wq_ok : bool; long_wq_ok : bool; struct_ok : bool; loop_ok : bool;
  gate_ok : bool; intr_ok : bool; create_ok : bool; probe_ok : bool; attach_ok : bool; media_ok : bool; queue_ok : bool;
  debug_timer_ok : bool }.

Definition init (a : answers) (l : life) : bool * life :=
  if negb (super_init_ok a) then (false, l)
  else
    let l := did_if (dma_lock_ok a) (Acquire RDmaLock) (l <| _dmaLock := dma_lock_ok a |>) in
    let l := did_if (pending_lock_ok a) (Acquire RPendingLock) (l <| _pendingFreeLock := pending_lock_ok a |>) in
    (_dmaLock l && _pendingFreeLock l, l).

(** [attachDevice], with [setupMediumDict]. *)
Definition attachDevice (a : answers) (l : life) : bool * life :=
  if negb (attach_ok a) then (false, l)
  else
    let l := did (Acquire RNetifAttached) (did (Acquire RNetif) (l <| _iface := true |>)) in
    if negb (media_ok a) then (false, l)
    else (true, did_if (queue_ok a) (Acquire RTxQueue) (l <| _txQueue := queue_ok a |>)).

(** The end of [start], once the probe has succeeded. *)
Definition start_attach (a : answers) (l : life) : bool * life :=
  let '(ok, l) := attachDevice a l in
  if negb ok then (false, l)
  else
    let l := did (Acquire RResumeCb) l in
    let l := did_if (_intrSrc l) (Acquire RIntrOn) l in
    let l := l <| _debugTimer := debug_timer_ok a |> in
    (true, if _debugTimer l then did (Acquire RDebugTimerAdded) (did (Acquire RDebugTimer) l) else l).
(** From the work loop to the probe. *)
Definition start_loop (a : answers) (l : life) : bool * life :=
  if negb (loop_ok a) then (false, l)
  else
    let l := did (Acquire RWorkLoop) (l <| _workLoop := true |>) in
    if negb (gate_ok a) then (false, l)
    else
      let l := did (Acquire RCmdGateAdded) (did (Acquire RCmdGate) (l <| _cmdGate := true |>)) in
      if negb (intr_ok a) then (false, l)
      else
        let l := did (Acquire RIntrAdded) (did (Acquire RIntr) (l <| _intrSrc := true |>)) in
        if negb (create_ok a) then (false, l)
        else
          let l := did (Acquire RIeee) (l <| _ieee80211 := true |>) in
          if negb (probe_ok a) then (false, l) else start_attach a (did (Acquire RIeeeStarted) l).
(** The result of [rtw88_compat_init] is not looked at. *)
Definition start (self : adapter) (a : answers) (l : life) : bool * life :=
  if negb (super_ok a) then (false, l)
  else
    let l := did (Acquire RSuper) l in
    if negb (is_pci a) then (false, l <| _pciDev := false |>)
    else
      let l := did (Acquire RPci) (l <| _pciDev := true |>) in
      if negb (mmio_ok a) then (false, l)
      else
        let l := did (Acquire RMmio) (l <| _mmioMap := true |>) in
        let l := did (Acquire RGlobals) (l <| glob := set_ops self (glob l) |>) in
        let '(ret, r) := rtw88_compat_init (state_lock_ok a) (log_lock_ok a) (wq_ok a) (long_wq_ok a) (rt (glob l)) in
        let l := did_if (ret =? 0) (Acquire RCompat) (l <| glob := glob l <| rt := r |> |>) in
        if negb (struct_ok a) then (false, l)
        else start_loop a (did (Acquire RPciStruct) (l <| _compatPciDev := true |>)).

Definition drainPendingFree (l : life) : life := did_if (_pendingFreeLock l) (Touch RPendingLock) l.
(** Of [disable], what concerns the station; the queue and the interrupt are in
    [Pci]. *)
Definition disable (l : life) : life :=
  if negb (_enabled l) then l else did_if (_ieee80211 l) (Touch RIeee) (l <| _enabled := false |>).

(** [teardown]: up to the runtime's exit, the sources and the interface, the
    device. *)
Definition teardown_station (l : life) : life :=
  let l := did (Off RResumeCb) l in
  let l := did_if (_debugTimer l) (Touch RDebugTimer) l in
  let l := did_if (_intrSrc l) (Off RIntrOn) l in
  let l := did_if (_txQueue l) (Touch RTxQueue) l in
  let l := drainPendingFree (if _enabled l then disable l else l) in
  let l := if _ieee80211 l then did (Release RIeee) (did (Off RIeeeStarted) l) <| _ieee80211 := false |> else l in
  did (Off RCompat) (l <| glob := compat_exit (glob l) |>).
Definition teardown_sources (l : life) : life :=
  let l := if _debugTimer l then did (Release RDebugTimer) (did (Off RDebugTimerAdded) l) <| _debugTimer := false |> else l in
  let l := if _intrSrc l then did (Release RIntr) (did (Off RIntrAdded) l) <| _intrSrc := false |> else l in
  let l := if _cmdGate l then did (Release RCmdGate) (did (Off RCmdGateAdded) l) <| _cmdGate := false |> else l in
  let l := if _txQueue l then did (Release RTxQueue) l <| _txQueue := false |> else l in
  if _iface l then did (Release RNetif) (did (Release RNetifAttached) l) <| _iface := false |> else l.
Definition teardown_device (l : life) : life :=
  let l := if _workLoop l then did (Release RWorkLoop) l <| _workLoop := false |> else l in
  let l := if _mmioMap l then did (Release RMmio) l <| _mmioMap := false |> else l in
  let l := if _pciDev l then did (Release RPci) l <| _pciDev := false |> else l in
  did (Off RGlobals) (l <| glob := clear_ops (glob l) |>).
Definition teardown (l : life) : life := teardown_device (teardown_sources (teardown_station l)).
Definition stop (l : life) : life := did (Release RSuper) (teardown l).
Definition free (l : life) : life :=
  let l := if _compatPciDev l then did (Release RPciStruct) l <| _compatPciDev := false |> else l in
  let l := if _pendingFreeLock l then did (Release RPendingLock) (drainPendingFree l) <| _pendingFreeLock := false |> else l in
  if _dmaLock l then did (Release RDmaLock) l <| _dmaLock := false |> else l.

(** [enable] and [disable] on the way. *)
Definition with_enabled (b : bool) (l : life) : life := l <| _enabled := b |>.
(** Bring up a controller; what becomes of one that does not come up is up to
    [free]: nobody calls [stop] then. *)
Definition bring_up (self : adapter) (a : answers) (g : globals) : bool * life :=
  let '(ok, l) := init a (new_life g) in if ok then start self a l else (false, l).

Definition discipline : discipline := mk_discipline
  (fun r => match r with
   | RMmio | RIntr => [RPci]
   | RIntrAdded => [RIntr; RWorkLoop] | RCmdGateAdded => [RCmdGate; RWorkLoop] | RDebugTimerAdded => [RDebugTimer; RWorkLoop]
   | RIntrOn => [RIntrAdded; RIeee]
   | RIeee => [RPci; RMmio; RGlobals; RPciStruct; RDmaLock; RPendingLock; RWorkLoop]
   | RIeeeStarted => [RIeee]
   | RNetifAttached => [RNetif]
   | RResumeCb => [RIeee]
   | _ => [] end) (fun _ => []).
End EthernetLife.

(** ** The user client of the Ethernet controller *)

Module ClientLife.
Definition kIOReturnSuccess : Z := 0.
Definition kIOReturnNoMemory : Z := 0xe00002bd.
Definition kIOReturnBadArgument : Z := 0xe00002c2.

(** [RTW88UserClient::start]: the superclass, then the cast of the provider. *)
Definition client_start (super_ok is_ethernet : bool) : bool := if negb super_ok then false else is_ethernet.

(** The result, whether [*handler] is set, and the calls. *)
Definition newUserClient (new_ok init_ok attach_ok super_ok is_ethernet : bool) : Z * bool * list lcall :=
  if negb new_ok then (kIOReturnNoMemory, false, [])
  else
    let cs := [Acquire RClient] in
    if negb init_ok then (kIOReturnBadArgument, false, cs ++ [Release RClient])
    else if negb attach_ok then (kIOReturnBadArgument, false, cs ++ [Release RClient])
    else
      let cs := cs ++ [Acquire RClientAttached] in
      if negb (client_start super_ok is_ethernet) then
        (kIOReturnBadArgument, false, cs ++ [Release RClientAttached; Release RClient])
      else (kIOReturnSuccess, true, cs ++ [Acquire RClientStarted]).

Definition discipline : discipline := mk_discipline
  (fun r => match r with RClientAttached => [RClient] | RClientStarted => [RClientAttached] | _ => [] end) (fun _ => []).
End ClientLife.

(** ** Every life ends with nothing held *)

(** Close the case of a failing answer by evaluation; [fails b] leaves the case
    in which [b] succeeded, the others likewise for answers that are asked
    together. *)
Ltac run_life := vm_compute; first [done|auto 10].
Ltac fails b := destruct b; [|solve [run_life]].
Ltac fails2 b c := destruct b; [fails c|destruct c; solve [run_life]].
Ltac fails3 b c d := destruct b; [fails2 c d|destruct c, d; solve [run_life]].

(** What a life leaves behind, by the controller's ledger. *)
Definition airport_ledger (l : AirportLife.life) : option (list res) := ledger AirportLife.discipline (AirportLife.calls l) [].
Definition station_ledger (l : StationLife.life) : option (list res) := ledger StationLife.discipline (StationLife.calls l) [].
Definition ethernet_ledger (l : EthernetLife.life) : option (list res) := ledger EthernetLife.discipline (EthernetLife.calls l) [].

(** A start that fails leaves at most the work loop of a superclass that did not
    start, until [free]; one that succeeds holds everything until [stop]. *)
Definition failed_start (self : adapter) (g : globals) (l : AirportLife.life) : Prop :=
  let l' := AirportLife.free self l in
  (airport_ledger l = Some [] \/ airport_ledger l = Some [RWorkLoop]) /\ airport_ledger l' = Some [] /\
  owns self (AirportLife.glob l') = false /\
  (rt (AirportLife.glob l') = no_runtime \/ rt (AirportLife.glob l') = rt g).
Definition good_start (self : adapter) (l : AirportLife.life) : Prop :=
  let l' := AirportLife.stop self l in
  airport_ledger l = Some AirportLife.everything /\ owns self (AirportLife.glob l) = true /\
  airport_ledger l' = Some [] /\ airport_ledger (AirportLife.free self l') = Some [] /\
  AirportLife.glob (AirportLife.free self l') = no_globals.

Lemma airport_balanced self a g : owns self g = false ->
  let '(ok, l) := AirportLife.start self a (AirportLife.new_life g) in
  if ok then good_start self l else failed_start self g l.
Proof.
  destruct a as [ip lo su dl pl mm sl ll wq lwq st it ad cr pr mg mi at_ nf ty].
  destruct g as [gi gp gd [r1 r2 r3 r4]]. unfold owns. intros H%bool_decide_eq_false. simpl in H.
  destruct self, gi as [[]|]; try done; clear H.
  all: fails ip; fails lo; fails su; fails2 dl pl; fails mm; (destruct r3; [solve [run_life]|]); (destruct r4; [solve [run_life]|]);
    (destruct r2; [solve [run_life]|]); fails sl; fails3 wq lwq ll;
    fails st; fails it; fails ad; fails cr; fails pr; fails mg; fails mi; fails at_; fails nf; fails ty; run_life.
Qed.

Lemma station_balanced a :
  let '(ok, l) := StationLife.create a in
  if ok then station_ledger l = Some StationLife.everything /\ station_ledger (StationLife.free true l) = Some []
  else station_ledger l = Some [].
Proof.
  destruct a as [su lo bl co ma wl ga gd ti td ba rx re rd].
  fails su; fails2 lo bl; fails2 co ma; fails wl; fails ga; fails gd; fails ti; fails td; fails ba; fails rx; fails re; fails rd; run_life.
Qed.

(** The Ethernet controller gives back what it acquired when it was started
    completely, enabled since or not. *)
Lemma ethernet_balanced self a g enabled :
  let '(ok, l) := EthernetLife.bring_up self a g in
  if ok then ethernet_ledger (EthernetLife.free (EthernetLife.stop (EthernetLife.with_enabled enabled l))) = Some [] else True.
Proof.
  destruct a as [si dl pl su ip mm sl ll wq lwq st lo ga it cr pr at_ me qu dt].
  destruct g as [gi gp gd [r1 r2 r3 r4]].
  destruct enabled; fails si; fails2 dl pl; fails su; fails ip; fails mm; destruct r2, r3, r4, sl, wq, lwq, ll.
  all: fails st; fails lo; fails ga; fails it; fails cr; fails pr; fails at_; fails me; destruct qu, dt; run_life.
Qed.

(** A client is handed out started, or not at all and then released. *)
Lemma client_balanced n i a s e :
  let '(ret, handler, cs) := ClientLife.newUserClient n i a s e in
  handler = bool_decide (ret = ClientLife.kIOReturnSuccess) /\
  ledger ClientLife.discipline cs [] = Some (if handler then [RClientStarted; RClientAttached; RClient] else []).
Proof. destruct n, i, a, s, e; vm_compute; auto. Qed.

(** C35: starting and stopping are balanced at every point of failure.  Whatever
    the calls of [AirportRTW88::start] answer, and whatever another controller
    left in the globals: nothing is acquired without what it uses, nothing is
    released that is not held or while something that uses it is held (the
    interrupt is off before the station goes, the superclass has stopped before
    the work loop and the station go, ...).  A start that succeeds holds every
    resource and owns the globals, and [stop] gives everything back, with the
    runtime; a start that fails has given everything back, except the work loop
    of a superclass that did not start, which [free] releases; the globals never
    point to the object afterwards.  The same holds of the station object's
    [create] and [free]. *)
Theorem start_stop_balanced self a g s : owns self g = false ->
  (let '(ok, l) := AirportLife.start self a (AirportLife.new_life g) in
   if ok then good_start self l else failed_start self g l) /\
  (let '(ok, l) := StationLife.create s in
   if ok then station_ledger l = Some StationLife.everything /\ station_ledger (StationLife.free true l) = Some []
   else station_ledger l = Some []).
Proof. intros H. split; [by apply airport_balanced|apply station_balanced]. Qed.

(** Every call succeeds; every call but the probe. *)
Definition all_well : AirportLife.answers :=
  AirportLife.mk_answers true true true true true true true true true true true true true true true true true true true true.
Definition no_probe : AirportLife.answers :=
  AirportLife.mk_answers true true true true true true true true true true true true true true false true true true true true.
Definition no_reorder_timer : StationLife.answers :=
  StationLife.mk_answers true true true true true true true true true true true true false true.
Lemma no_probe_fails : fst (AirportLife.start FirstAdapter no_probe (AirportLife.new_life no_globals)) = false.
Proof. vm_compute. reflexivity. Qed.
Lemma nobody_owns : owns FirstAdapter no_globals = false.
Proof. reflexivity. Qed.
Lemma start_stop_balanced_witness :
  (let '(ok, l) := AirportLife.start FirstAdapter no_probe (AirportLife.new_life no_globals) in
   if ok then good_start FirstAdapter l else failed_start FirstAdapter no_globals l) /\
  (let '(ok, l) := StationLife.create no_reorder_timer in
   if ok then station_ledger l = Some StationLife.everything /\ station_ledger (StationLife.free true l) = Some []
   else station_ledger l = Some []).
Proof. exact (start_stop_balanced FirstAdapter no_probe no_globals no_reorder_timer nobody_owns). Defined.

(** ** Two adapters *)

Definition first_up : AirportLife.life := snd (AirportLife.start FirstAdapter all_well (AirportLife.new_life no_globals)).
(** A second Airport controller does not start, the runtime being in use, but
    unhooks the first one's operations on its way: the first driver's DMA and
    configuration accesses then find no device. *)
Example second_adapter_unhooks :
  let '(ok, l) := AirportLife.start SecondAdapter all_well (AirportLife.new_life (AirportLife.glob first_up)) in
  ok = false /\ AirportLife.glob l = clear_ops (AirportLife.glob first_up) /\ owns FirstAdapter (AirportLife.glob l) = false.
Proof. vm_compute. auto. Qed.

Definition ethernet_answers (loop : bool) : EthernetLife.answers :=
  EthernetLife.mk_answers true true true true true true true true true true true loop true true true true true true true true.
(** The Ethernet controller's start returns without a teardown: without a work
    loop the device, its mapping, the runtime and the superclass stay acquired,
    and the globals point to the freed object. *)
Example ethernet_start_leaks :
  let '(ok, l) := EthernetLife.bring_up FirstAdapter (ethernet_answers false) no_globals in
  ok = false /\ ethernet_ledger (EthernetLife.free l) = Some [RCompat; RGlobals; RMmio; RPci; RSuper] /\
  owns FirstAdapter (EthernetLife.glob (EthernetLife.free l)) = true.
Proof. vm_compute. auto. Qed.
(** It does not look at the runtime's answer either: a second one starts on the
    first one's runtime, and takes it down when it stops. *)
Example ethernet_takes_runtime_down :
  let '(ok1, l1) := EthernetLife.bring_up FirstAdapter (ethernet_answers true) no_globals in
  let '(ok2, l2) := EthernetLife.bring_up SecondAdapter (ethernet_answers true) (EthernetLife.glob l1) in
  ok1 = true /\ ok2 = true /\ rt (EthernetLife.glob l2) = rt (EthernetLife.glob l1) /\
  EthernetLife.glob (EthernetLife.stop l2) = no_globals.
Proof. vm_compute. auto. Qed.
