(* ===== verification/Firmware.v ===== *)
(** * Firmware images: [src/src/compat/rtw88_firmware.c]

    An image is found by name in a table of compressed blobs, inflated into a
    fresh buffer and handed out with the sizes its release needs.  The heap is
    the map of live blocks to their sizes: [IOFree] of anything else is a
    fault.  zlib and the addresses the allocator chooses are parameters. *)

From S2P Require Import Prelude.

(** ** The heap *)

(** [live]: address to size; [streams]: zlib streams initialised and not ended. *)
Record world := mk_world { live : gmap Z Z; streams : Z }.
#[export] Instance eta_world : Eta world := fun w => mk_world (live w) (streams w).

Section firmware.
(** The address of a new block of a size, 0 when the allocator fails. *)
Context (IOMalloc_addr : gmap Z Z -> Z -> Z).

Definition IOMalloc (size : Z) (w : world) : Z * world :=
  let a := IOMalloc_addr (live w) size in
  if a =? 0 then (0, w) else (a, w <| live := <[a := size]> (live w) |>).
Definition IOFree (a size : Z) (w : world) : option world :=
  match live w !! a with
  | Some n => if n =? size then Some (w <| live := delete a (live w) |>) else None
  | None => None
  end.

(** *** The allocator zlib is given *)

Definition sizeof_ptr : Z := 8.
(** [z_mem]: the block, whose first word is its size; zlib gets the byte after
    that word. *)
Record z_mem := mk_z_mem { z_block : Z; alloc_size : Z }.
Definition rtw88_zcalloc (items size : Z) (w : world) : option z_mem * world :=
  let alloc := u32 (u32 (u32 (items * size)) + sizeof_ptr) in
  let '(a, w) := IOMalloc alloc w in
  if a =? 0 then (None, w) else (Some (mk_z_mem a alloc), w).
Definition z_data (zm : z_mem) : Z := z_block zm + 4.
Definition rtw88_zcfree (ptr : option z_mem) (w : world) : option world :=
  match ptr with None => Some w | Some zm => IOFree (z_data zm - 4) (alloc_size zm) w end.

(** *** Decompression *)

(** [inflateInit]'s result, [inflate] with Z_FINISH into a room of a size (its
    result and the bytes written), [inflateEnd]'s result. *)
Context (inflateInit : Z) (inflate : list Z -> Z -> Z * list Z) (inflateEnd : Z).
Definition Z_OK : Z := 0.
Definition Z_STREAM_END : Z := 1.

(** The result, what is in [dest], and [*dest_len]. *)
Definition rtw88_decompress (dest_len : Z) (src : list Z) (w : world) : Z * list Z * Z * world :=
  if negb (inflateInit =? Z_OK) then (inflateInit, [], dest_len, w)
  else
    let w := w <| streams := streams w + 1 |> in
    let '(err, out) := inflate src dest_len in
    if negb (err =? Z_STREAM_END) then (err, out, dest_len, w <| streams := streams w - 1 |>)
    else
      (if inflateEnd =? Z_OK then 0 else inflateEnd, out, u32 (zlen out), w <| streams := streams w - 1 |>).

(** *** The table *)

Record rtw88_fw_blob := mk_blob { name : list Z; data : list Z; compressed_size : Z; original_size : Z }.

(** [struct firmware]: where it is, its buffer and that buffer's bytes. *)
Record firmware := mk_fw { fw_addr : Z; fw_size : Z; fw_data : Z; _alloc_size : Z; fw_bytes : list Z }.
Definition sizeof_firmware : Z := 24.

(** [None] as the inner result is NULL. *)
Definition load_blob (b : rtw88_fw_blob) (w : world) : option (option firmware * world) :=
  let alloc := u64 (compressed_size b * 4) in
  let out_len := u32 alloc in
  let '(buf, w) := IOMalloc alloc w in
  if buf =? 0 then Some (None, w)
  else
    src ← ldn (data b) 0 (u32 (compressed_size b));
    let '(err, out, out_len, w) := rtw88_decompress out_len src w in
    if negb (err =? 0) then w ← IOFree buf alloc w; Some (None, w)
    else
      let '(fw, w) := IOMalloc sizeof_firmware w in
      if fw =? 0 then w ← IOFree buf alloc w; Some (None, w)
      else Some (Some (mk_fw fw out_len buf alloc out), w).

(** The loop ends at the table's terminator, the end of the list here. *)
Fixpoint load_fw_from_blob (base : list Z) (rtw88_fw_blobs : list rtw88_fw_blob) (w : world)
    : option (option firmware * world) :=
  match rtw88_fw_blobs with
  | [] => Some (None, w)
  | b :: rest =>
      if negb (bool_decide (name b = base)) then load_fw_from_blob base rest w else load_blob b w
  end.

Definition slash : Z := 47.
(** The loop over [name]: [p] is where it stands, [base] what was set last. *)
Fixpoint base_name (p base : list Z) : list Z :=
  match p with [] => base | c :: p => base_name p (if c =? slash then p else base) end.
Definition load_fw (table : list rtw88_fw_blob) (nm : list Z) (w : world) : option (option firmware * world) :=
  load_fw_from_blob (base_name nm nm) table w.

(** [cont] is called with the image, or not at all when it is null: the result
    and the image [cont] is given. *)
Definition request_firmware_nowait (table : list rtw88_fw_blob) (nm : list Z) (cont : bool) (w : world)
    : option (Z * option (option firmware) * world) :=
  if negb cont then Some (-22, None, w)
  else '(fw, w) ← load_fw table nm w; Some (0, Some fw, w).
Definition rtw88_load_firmware_sync (table : list rtw88_fw_blob) (nm : list Z) (w : world)
    : option (Z * option firmware * world) :=
  '(fw, w) ← load_fw table nm w;
  Some (match fw with Some _ => 0 | None => -2 end, fw, w).
Definition release_firmware (fw : option firmware) (w : world) : option world :=
  match fw with
  | None => Some w
  | Some fw =>
      w ← (if negb (fw_data fw =? 0) then IOFree (fw_data fw) (_alloc_size fw) w else Some w);
      IOFree (fw_addr fw) sizeof_firmware w
  end.

(** ** Documented behaviour of the parameters *)

(** A new block is not a live one; inflate stays inside its room, and with
    Z_FINISH never says Z_OK: an unfinished stream is an error. *)
Definition alloc_fresh : Prop := forall m n, IOMalloc_addr m n <> 0 -> m !! IOMalloc_addr m n = None.
Definition inflate_fits : Prop :=
  forall src room, 0 <= room -> zlen (snd (inflate src room)) <= room /\ fst (inflate src room) <> Z_OK.

(** A blob of the table: the data is as long as it says, and its size fits. *)
Definition blob_ok (b : rtw88_fw_blob) : Prop := zlen (data b) = compressed_size b /\ compressed_size b * 4 < 2 ^ 32.

Section laws.
Context (Hfresh : alloc_fresh) (Hfits : inflate_fits).

Lemma IOMalloc_cases size w : exists a w', IOMalloc size w = (a, w') /\
  ((a = 0 /\ w' = w) \/ (a <> 0 /\ live w !! a = None /\ w' = w <| live := <[a := size]> (live w) |>)).
Proof.
  unfold IOMalloc. destruct (Z.eqb_spec (IOMalloc_addr (live w) size) 0) as [E|E]; eexists _, _; (split; [done|]).
  - by left.
  - right. split_and!; [done|by apply Hfresh|done].
Qed.

Lemma IOFree_last a size m s : m !! a = None ->
  IOFree a size (mk_world (<[a := size]> m) s) = Some (mk_world m s).
Proof.
  intros Hm. unfold IOFree. simpl. rewrite lookup_insert_eq, Z.eqb_refl. f_equal.
  change (mk_world (delete a (<[a := size]> m)) s = mk_world m s). by rewrite delete_insert_id.
Qed.

(** zlib's blocks: what was allocated is what is freed, with room for what was
    asked. *)
Lemma zcalloc_zcfree items size w zm w' : 0 <= items * size < 2 ^ 32 - 8 ->
  rtw88_zcalloc items size w = (Some zm, w') ->
  z_data zm + items * size <= z_block zm + alloc_size zm /\ rtw88_zcfree (Some zm) w' = Some w.
Proof.
  intros Hn. unfold rtw88_zcalloc, rtw88_zcfree, z_data, sizeof_ptr.
  destruct (IOMalloc_cases (u32 (u32 (u32 (items * size)) + 8)) w) as (a & w1 & -> & [[-> ->]|(Ha & Hl & ->)]); [done|].
  rewrite (proj2 (Z.eqb_neq a 0)) by done. intros [= <- <-]. simpl.
  rewrite (wrap_small 32 (items * size)), (wrap_small 32 (items * size)), wrap_small by (split; lia).
  split; [lia|]. replace (a + 4 - 4) with a by lia. destruct w as [m s]. by apply IOFree_last.
Qed.

(** Decompression leaves no stream open and the heap as it was. *)
Lemma decompress_ok room src w : 0 <= room < 2 ^ 32 ->
  exists err out n, rtw88_decompress room src w = (err, out, n, w) /\
    (err = 0 -> out = snd (inflate src room) /\ n = zlen out /\ fst (inflate src room) = Z_STREAM_END).
Proof.
  intros Hr. unfold rtw88_decompress. destruct (Hfits src room) as [Hf Hne]; [lia|].
  pose proof (zlen_nonneg (snd (inflate src room))).
  assert (Hs : w <| streams := streams w + 1 |> <| streams := streams w + 1 - 1 |> = w).
  { destruct w as [m s]. unfold upd. simpl. f_equal. lia. }
  destruct (Z.eqb_spec inflateInit Z_OK) as [E|E]; cbn [negb].
  - destruct (inflate src room) as [e out] eqn:Ei. simpl in Hf, Hne, H.
    destruct (Z.eqb_spec e Z_STREAM_END) as [->|He]; cbn [negb].
    + do 3 eexists. split; [f_equal; exact Hs|]. intros _. by rewrite wrap_small by (split; lia).
    + do 3 eexists. split; [f_equal; exact Hs|]. intros E0. by destruct Hne.
  - do 3 eexists. split; [done|]. intros E0. by rewrite E0 in E.
Qed.

(** What a load leaves: nothing, or one image whose release undoes it. *)
Definition loaded (bytes : list Z) (w : world) (r : option firmware) (w' : world) : Prop :=
  match r with
  | None => w' = w
  | Some fw => fw_bytes fw = bytes /\ fw_size fw = zlen bytes /\ release_firmware (Some fw) w' = Some w
  end.

Lemma release_both buf fw alloc m s : m !! buf = None -> <[buf := alloc]> m !! fw = None -> buf <> 0 ->
  forall n out, release_firmware (Some (mk_fw fw n buf alloc out))
    (mk_world (<[fw := sizeof_firmware]> (<[buf := alloc]> m)) s) = Some (mk_world m s).
Proof.
  intros Hb Hf Hne n out. cbn [release_firmware fw_data _alloc_size fw_addr]. rewrite (proj2 (Z.eqb_neq buf 0)) by done.
  cbn [negb]. assert (fw <> buf) by (intros ->; by rewrite lookup_insert_eq in Hf).
  rewrite insert_insert_ne by done. rewrite IOFree_last by (rewrite lookup_insert_ne by done; rewrite lookup_insert_ne in Hf by done; done).
  cbn [mbind option_bind]. apply IOFree_last. by rewrite lookup_insert_ne in Hf by done.
Qed.

Lemma load_blob_ok b w : blob_ok b ->
  exists r w', load_blob b w = Some (r, w') /\ loaded (snd (inflate (data b) (compressed_size b * 4))) w r w'.
Proof.
  intros [Hl Hs]. unfold load_blob. pose proof (zlen_nonneg (data b)).
  rewrite (wrap_small 64 (compressed_size b * 4)), (wrap_small 32 (compressed_size b * 4)) by (split; lia).
  set (alloc := compressed_size b * 4) in *.
  destruct (IOMalloc_cases alloc w) as (buf & w1 & -> & [[-> ->]|(Hb & Hlb & ->)]); [by eexists _, _|].
  rewrite (proj2 (Z.eqb_neq buf 0)) by done. rewrite (wrap_small 32 (compressed_size b)) by (split; lia).
  rewrite ldn_Some, zdrop_0, ztake_all by lia. cbn [mbind option_bind].
  set (w1 := w <| live := <[buf := alloc]> (live w) |>).
  assert (Hfree : IOFree buf alloc w1 = Some w) by (destruct w as [m s]; by apply IOFree_last).
  destruct (decompress_ok alloc (data b) w1 ltac:(lia)) as (err & out & n & -> & Hok).
  destruct (Z.eqb_spec err 0) as [E|E]; cbn [negb]; [|rewrite Hfree; by eexists _, _].
  destruct (Hok E) as (-> & -> & _).
  destruct (IOMalloc_cases sizeof_firmware w1) as (fw & w2 & -> & [[-> ->]|(Hf & Hlf & ->)]).
  - rewrite Hfree. by eexists _, _.
  - rewrite (proj2 (Z.eqb_neq fw 0)) by done. eexists _, _. split; [done|]. split; [done|]. split; [done|].
    destruct w as [m s]. by apply release_both.
Qed.

(** ** Names *)

Lemma base_name_plain p base : slash ∉ p -> base_name p base = base.
Proof.
  revert base. induction p as [|c p IH]; intros base Hp; simpl; [done|].
  apply not_elem_of_cons in Hp as [Hc Hp]. rewrite IH by done. by rewrite (proj2 (Z.eqb_neq c slash)).
Qed.
Lemma base_name_dir dir p base : slash ∉ p -> base_name (dir ++ slash :: p) base = p.
Proof.
  intros Hp. revert base. induction dir as [|c dir IH]; intros base; simpl; [by apply base_name_plain|apply IH].
Qed.
Lemma base_name_path dir p : slash ∉ p -> dir = [] \/ last dir = Some slash -> base_name (dir ++ p) (dir ++ p) = p.
Proof.
  intros Hp [->|Hd]; [by apply base_name_plain|]. apply last_Some in Hd as [d ->].
  rewrite <- app_assoc. by apply base_name_dir.
Qed.

(** The blob of a name, and the image it holds. *)
Definition blob_of (table : list rtw88_fw_blob) (base : list Z) : option rtw88_fw_blob :=
  snd <$> list_find (fun b => name b = base) table.
Definition inflated (b : rtw88_fw_blob) : list Z := snd (inflate (data b) (compressed_size b * 4)).

Lemma load_from_table table base w : Forall blob_ok table ->
  exists r w', load_fw_from_blob base table w = Some (r, w') /\
    match blob_of table base with Some b => loaded (inflated b) w r w' | None => r = None /\ w' = w end.
Proof.
  induction table as [|b table IH]; intros Hok; simpl; [by eexists _, _|].
  apply Forall_cons in Hok as [Hb Hok]. unfold blob_of. simpl. destruct (decide (name b = base)) as [E|E].
  - rewrite bool_decide_eq_true_2 by done. by apply load_blob_ok.
  - rewrite bool_decide_eq_false_2 by done. cbn [negb]. destruct (IH Hok) as (r & w' & -> & H). exists r, w'. split; [done|].
    unfold blob_of in H. destruct (list_find _ table) as [[i b']|]; done.
Qed.
End laws.
End firmware.

(** C31: a firmware image is the one of its name, and is released completely.
    For every table, path, allocator and decompressor: loading looks at the
    part of the path after its last slash; without a blob of that name, or when
    a block or the decompression fails, the result is NULL (-2) and the heap is
    exactly as before; otherwise the image has the blob's inflated bytes and
    their number as size, and release_firmware gives back exactly the two
    blocks that were allocated, each with its own size.  No zlib stream stays
    open. *)
Theorem firmware_balanced alloc init inflate iend table dir base w :
  alloc_fresh alloc -> inflate_fits inflate -> Forall blob_ok table ->
  slash ∉ base -> dir = [] \/ last dir = Some slash ->
  exists code r w', rtw88_load_firmware_sync alloc init inflate iend table (dir ++ base) w = Some (code, r, w') /\
    code = match r with Some _ => 0 | None => -2 end /\
    match blob_of table base with Some b => loaded (inflated inflate b) w r w' | None => r = None /\ w' = w end.
Proof.
  intros Ha Hi Ht Hb Hd. destruct (load_from_table alloc init inflate iend Ha Hi table base w Ht) as (r & w' & E & H).
  unfold rtw88_load_firmware_sync, load_fw. rewrite base_name_path, E by done. by eexists _, _, _.
Qed.

(** An allocator of two addresses and a decompressor that repeats its input. *)
Definition demo_alloc (m : gmap Z Z) (n : Z) : Z :=
  if bool_decide (m !! 4096 = None) then 4096 else if bool_decide (m !! 8192 = None) then 8192 else 0.
Definition demo_inflate (src : list Z) (room : Z) : Z * list Z :=
  if 2 * zlen src <=? room then (Z_STREAM_END, src ++ src) else (-5, []).
Lemma demo_alloc_fresh : alloc_fresh demo_alloc.
Proof. intros m n. unfold demo_alloc. repeat case_bool_decide; done. Qed.
Lemma demo_inflate_fits : inflate_fits demo_inflate.
Proof.
  intros src room Hr. unfold demo_inflate. destruct (Z.leb_spec (2 * zlen src) room); simpl; [|done].
  rewrite zlen_app. split; [lia|done].
Qed.
Definition demo_table : list rtw88_fw_blob :=
  [mk_blob (chars "a.bin") [1; 2] 2 4; mk_blob (chars "b.bin") [5; 6; 7] 3 6].
Lemma firmware_balanced_witness : exists code r w',
  rtw88_load_firmware_sync demo_alloc 0 demo_inflate 0 demo_table (chars "rtw88/" ++ chars "b.bin") (mk_world ∅ 0) = Some (code, r, w') /\
    code = match r with Some _ => 0 | None => -2 end /\
    match blob_of demo_table (chars "b.bin") with
    | Some b => loaded (inflated demo_inflate b) (mk_world ∅ 0) r w' | None => r = None /\ w' = mk_world ∅ 0
    end.
Proof.
  apply (firmware_balanced demo_alloc 0 demo_inflate 0 demo_table (chars "rtw88/") (chars "b.bin") (mk_world ∅ 0)).
  - exact demo_alloc_fresh.
  - exact demo_inflate_fits.
  - repeat constructor.
  - apply (bool_decide_unpack _). vm_compute. exact I.
  - right. reflexivity.
Defined.
Example demo_load : option_map (fun '(c, r, _) => (c, fw_bytes <$> r))
  (rtw88_load_firmware_sync demo_alloc 0 demo_inflate 0 demo_table (chars "rtw88/b.bin") (mk_world ∅ 0)) =
  Some (0, Some [5; 6; 7; 5; 6; 7]).
Proof. reflexivity. Qed.
