(* ===== verification/Pci.v ===== *)
(** * The PCI glue and the Ethernet controller

    Configuration space as the driver reaches it (linux/pci.h, the operations
    of RTW88HwOps.cpp, the accessors of the controllers), and the operations of
    RTW88PCIDevice.cpp that carry packets: the output path with its flow
    control, received packets, enabling and disabling.  The output queue, the
    interface and the ring of the driver are outside: [qcall] is what is asked
    of them, and the free slots of the ring are what a read returns. *)

From S2P Require Import Prelude.

(** ** Configuration space: 256 bytes *)

(** [IOPCIDevice::configRead8/16/32] at an offset that fits a byte. *)
Definition config_read (n : Z) (off : Z) (config : list Z) : option Z := b ← ldn config off n; Some (le_val b).
Definition config_write (n : nat) (off val : Z) (config : list Z) : option (list Z) := stn config off (le_bytes n val).

(** The accessors of the controller convert the offset to UInt8. *)
Definition pciReadByte (offset : Z) (config : list Z) : option Z := config_read 1 (u8 offset) config.
Definition pciReadWord (offset : Z) (config : list Z) : option Z := config_read 2 (u8 offset) config.
Definition pciReadDword (offset : Z) (config : list Z) : option Z := config_read 4 (u8 offset) config.
Definition pciWriteByte (offset val : Z) (config : list Z) : option (list Z) := config_write 1 (u8 offset) (u8 val) config.
Definition pciWriteWord (offset val : Z) (config : list Z) : option (list Z) := config_write 2 (u8 offset) (u16 val) config.
Definition pciWriteDword (offset val : Z) (config : list Z) : option (list Z) := config_write 4 (u8 offset) (u32 val) config.

(** [present] is [g_pci_dev_instance]; the result and [*val]. *)
Definition compat_pci_read_config_byte (present : bool) (where_ : Z) (config : list Z) : option (Z * Z) :=
  if present then v ← pciReadByte where_ config; Some (0, v) else Some (-1, 0xff).
Definition compat_pci_read_config_word (present : bool) (where_ : Z) (config : list Z) : option (Z * Z) :=
  if present then v ← pciReadWord where_ config; Some (0, v) else Some (-1, 0xffff).
Definition compat_pci_read_config_dword (present : bool) (where_ : Z) (config : list Z) : option (Z * Z) :=
  if present then v ← pciReadDword where_ config; Some (0, v) else Some (-1, 0xffffffff).
Definition compat_pci_write_config_byte (present : bool) (where_ val : Z) (config : list Z) : option (Z * list Z) :=
  if present then c ← pciWriteByte where_ val config; Some (0, c) else Some (-1, config).
Definition compat_pci_write_config_word (present : bool) (where_ val : Z) (config : list Z) : option (Z * list Z) :=
  if present then c ← pciWriteWord where_ val config; Some (0, c) else Some (-1, config).
Definition compat_pci_write_config_dword (present : bool) (where_ val : Z) (config : list Z) : option (Z * list Z) :=
  if present then c ← pciWriteDword where_ val config; Some (0, c) else Some (-1, config).

(** [ops]: whether [rtw88_pci_io_ops] is installed. *)
Definition pci_read_config_word (ops present : bool) (where_ : Z) (config : list Z) : option (Z * Z) :=
  if ops then compat_pci_read_config_word present where_ config else Some (-1, 0xffff).
Definition pci_write_config_word (ops present : bool) (where_ val : Z) (config : list Z) : option (Z * list Z) :=
  if ops then compat_pci_write_config_word present where_ val config else Some (-1, config).
Definition pcie_capability_set_word (ops present : bool) (where_ set : Z) (config : list Z) : option (Z * list Z) :=
  '(ret, val) ← pci_read_config_word ops present (0x100 + where_) config;
  if negb (ret =? 0) then Some (ret, config)
  else pci_write_config_word ops present (0x100 + where_) (val .| set) config.
Definition pcie_capability_clear_word (ops present : bool) (where_ clear : Z) (config : list Z) : option (Z * list Z) :=
  '(ret, val) ← pci_read_config_word ops present (0x100 + where_) config;
  if negb (ret =? 0) then Some (ret, config)
  else pci_write_config_word ops present (0x100 + where_) (val .& Z.lnot clear) config.
Definition pcie_capability_read_word (ops present : bool) (pos : Z) (config : list Z) : option (Z * Z) :=
  pci_read_config_word ops present pos config.

(** [find]: [findPCICapability], its value and the offset it stores. *)
Definition pciFindCapability (find : Z -> Z * Z) (pciDev : bool) (cap : Z) : Z :=
  if negb pciDev || (cap <? 0) || (0xff <? cap) then 0
  else let '(value, offset) := find (u8 cap) in if negb (value =? 0) then offset else 0.
Definition compat_pci_find_capability (find : Z -> Z * Z) (present pciDev : bool) (cap : Z) : Z :=
  if present then pciFindCapability find pciDev cap else 0.

Definition chipDisplayName (device : option Z) : string :=
  match device with
  | None => "Realtek Wireless"
  | Some d =>
      if d =? 0xB822 then "RTL8822BE"
      else if (d =? 0xC822) || (d =? 0xC82F) then "RTL8822CE"
      else if (d =? 0xC821) || (d =? 0xB821) then "RTL8821CE"
      else if d =? 0x8821 then "RTL8821AE"
      else if d =? 0x8812 then "RTL8812AE"
      else if d =? 0x8813 then "RTL8814AE"
      else "Realtek Wireless"
  end.

(** ** The controller *)

Definition kRTW88TxStallAvail : Z := 96.
Definition kRTW88TxResumeAvail : Z := 160.
Definition kIOReturnOutputSuccess : Z := 0.
Definition kIOReturnOutputDropped : Z := 1.
Definition kIOReturnOutputStall : Z := 2.
Definition kIOReturnSuccess : Z := 0.
Definition kIOReturnNotReady : Z := 0xe00002d8.

Inductive qcall :=
| QStart | QStop | QFlush | QService | IntrEnable | IntrDisable | PowerOn | PowerOff
| Transmit (m : Z) | FreePacket (m : Z) | InputPacket (m : Z) | FlushInput | DrainFree | DumpTx | ArmTimer.

Record pci := mk_pci {
  _enabled : bool; _ieee80211 : bool; _txStalled : bool;
  _txQueue : bool; _intrSrc : bool; _iface : bool; _nd : bool;
  inputPackets : Z; _macAddr : list Z; calls : list qcall }.
#[export] Instance eta_pci : Eta pci := fun p =>
  mk_pci (_enabled p) (_ieee80211 p) (_txStalled p) (_txQueue p) (_intrSrc p) (_iface p) (_nd p)
    (inputPackets p) (_macAddr p) (calls p).

Definition ask (q : qcall) (p : pci) : pci := p <| calls := calls p ++ [q] |>.
Definition ask_if (b : bool) (q : qcall) (p : pci) : pci := if b then ask q p else p.

(** [ret]: what [powerOn] returns. *)
Definition enable (ret : Z) (p : pci) : Z * pci :=
  if _enabled p then (kIOReturnSuccess, p)
  else if negb (_ieee80211 p) then (kIOReturnNotReady, p)
  else
    let p := ask PowerOn p in
    if negb (ret =? kIOReturnSuccess) then (ret, p)
    else
      let p := ask_if (_txQueue p) QStart p in
      let p := ask_if (_intrSrc p) IntrEnable p in
      (kIOReturnSuccess, p <| _enabled := true |>).
Definition disable (p : pci) : Z * pci :=
  if negb (_enabled p) then (kIOReturnSuccess, p)
  else
    let p := p <| _enabled := false |> in
    let p := ask_if (_intrSrc p) IntrDisable p in
    let p := ask_if (_txQueue p) QStop p in
    let p := ask_if (_txQueue p) QFlush p in
    (kIOReturnSuccess, ask_if (_ieee80211 p) PowerOff p).

(** [outputPacket] up to its test of the ring, which read [avail] free slots,
    and [ret] what the station returns for a packet it was given.  [None]: the
    packet is to be held, [_txStalled] comes next. *)
Definition outputPacket (m avail ret : Z) (p : pci) : option Z * pci :=
  let p := ask DrainFree p in
  if negb (_enabled p) || negb (_ieee80211 p) then (Some kIOReturnOutputDropped, ask (FreePacket m) p)
  else if avail <? kRTW88TxStallAvail then (None, p)
  else (Some ret, ask (Transmit m) p).
(** The store that precedes the return of kIOReturnOutputStall. *)
Definition outputPacket_stall (p : pci) : Z * pci := (kIOReturnOutputStall, p <| _txStalled := true |>).

(** [resumeTxIfStalled] in its three accesses: the test, the store, the call. *)
Definition resume_test (avail : Z) (p : pci) : bool := _txStalled p && (kRTW88TxResumeAvail <=? avail).
Definition resume_store (p : pci) : pci := p <| _txStalled := false |>.
Definition resume_service (p : pci) : pci := ask_if (_txQueue p) QService p.
Definition resumeTxIfStalled (avail : Z) (p : pci) : pci :=
  if resume_test avail p then resume_service (resume_store p) else p.

(** [debugTimerFired]: the ring is read once for the two tests, and again by
    [resumeTxIfStalled]. *)
Definition debugTimerFired (avail avail' : Z) (p : pci) : pci :=
  let p := if _txStalled p && (kRTW88TxResumeAvail <=? avail) then resumeTxIfStalled avail' p else p in
  let p := ask_if (_txStalled p || (avail <? kRTW88TxStallAvail)) DumpTx p in
  ask ArmTimer p.

(** [plen] and [mlen]: mbuf_pkthdr_len and mbuf_len, unsigned. *)
Definition injectRxFrame (m plen mlen : Z) (p : pci) : pci :=
  let p := ask DrainFree p in
  if negb (_iface p) || negb (_enabled p) then ask (FreePacket m) p
  else if (plen <? 14) || (4096 <? plen) || (mlen <? 14) || (4096 <? mlen) then ask (FreePacket m) p
  else
    let p := ask FlushInput (ask (InputPacket m) p) in
    if _nd p then p <| inputPackets := u32 (inputPackets p + 1) |> else p.

(** [mac]: the station's address. *)
Definition getHardwareAddress (mac : list Z) (p : pci) : Z * pci :=
  if negb (_ieee80211 p) then (kIOReturnNotReady, p) else (kIOReturnSuccess, p <| _macAddr := mac |>).
Definition setHardwareAddress (addr : list Z) (p : pci) : Z * pci := (kIOReturnSuccess, p <| _macAddr := addr |>).

(** ** Flow control between threads

    [outputPacket] runs on the work loop, [resumeTxIfStalled] on any number of
    threads (the interrupt's bottom half, the debug timer).  [held] is whether
    the queue was told to hold a packet and no service was asked for since the
    flag was stored.  IOGatedOutputQueue serves a request that comes while it
    is still in outputPacket once that returns, so that such a request counts. *)

Inductive resume_pc := ToStore | ToService.
Record flow := mk_flow { ctl : pci; stalling : option Z; resuming : gmap Z resume_pc; held : bool }.
#[export] Instance eta_flow : Eta flow := fun f => mk_flow (ctl f) (stalling f) (resuming f) (held f).

Inductive flow_event :=
| FlOutput (m avail ret : Z) | FlStall
| FlTest (t avail : Z) | FlStore (t : Z) | FlService (t : Z)
| FlEnable (ret : Z) | FlDisable.

(** [None]: not possible now. *)
Definition flow_exec (e : flow_event) (f : flow) : option flow :=
  match e with
  | FlOutput m avail ret =>
      match stalling f with
      | Some _ => None
      | None => let '(r, p) := outputPacket m avail ret (ctl f) in
                Some (f <| ctl := p |> <| stalling := match r with None => Some m | Some _ => None end |>)
      end
  | FlStall =>
      match stalling f with
      | Some _ => Some (f <| ctl := snd (outputPacket_stall (ctl f)) |> <| stalling := None |> <| held := true |>)
      | None => None
      end
  | FlTest t avail =>
      match resuming f !! t with
      | Some _ => None
      | None => Some (if resume_test avail (ctl f) then f <| resuming := <[t := ToStore]> (resuming f) |> else f)
      end
  | FlStore t =>
      match resuming f !! t with
      | Some ToStore => Some (f <| ctl := resume_store (ctl f) |> <| resuming := <[t := ToService]> (resuming f) |>)
      | _ => None
      end
  | FlService t =>
      match resuming f !! t with
      | Some ToService => Some (f <| ctl := resume_service (ctl f) |> <| resuming := delete t (resuming f) |> <| held := false |>)
      | _ => None
      end
  | FlEnable ret => Some (f <| ctl := snd (enable ret (ctl f)) |>)
  | FlDisable => if _enabled (ctl f) then Some (f <| ctl := snd (disable (ctl f)) |> <| held := false |>) else Some f
  end.
Fixpoint flow_run (es : list flow_event) (f : flow) : option flow :=
  match es with [] => Some f | e :: es => f ← flow_exec e f; flow_run es f end.

Definition flow_start (p : pci) : flow := mk_flow p None ∅ false.

(** A held packet is known: by the flag, or by a thread that passed its test
    and has yet to ask for service. *)
Definition flow_inv (f : flow) : Prop :=
  _txQueue (ctl f) = true /\ (held f = true -> _txStalled (ctl f) = true \/ exists t pc, resuming f !! t = Some pc).

(** Split every test of the goal. *)
Ltac ifs := repeat (match goal with |- context [if ?b then _ else _] => destruct b eqn:? end; simpl in * ); try done.

Lemma enable_keeps ret p : _txQueue (snd (enable ret p)) = _txQueue p /\ _txStalled (snd (enable ret p)) = _txStalled p.
Proof. unfold enable, ask_if, ask. ifs. Qed.
Lemma disable_keeps p : _txQueue (snd (disable p)) = _txQueue p /\ _txStalled (snd (disable p)) = _txStalled p.
Proof. unfold disable, ask_if, ask. ifs. Qed.
Lemma output_keeps m avail ret p : _txQueue (snd (outputPacket m avail ret p)) = _txQueue p /\
  _txStalled (snd (outputPacket m avail ret p)) = _txStalled p.
Proof. unfold outputPacket, ask. ifs. Qed.

Lemma flow_step e f f' : flow_inv f -> flow_exec e f = Some f' -> flow_inv f'.
Proof.
  intros [Hq Hi] He. destruct e as [m avail ret| |t avail|t|t|ret|]; simpl in He.
  - destruct (stalling f); [done|]. destruct (output_keeps m avail ret (ctl f)) as [H1 H2].
    destruct (outputPacket m avail ret (ctl f)) as [r p] eqn:E. injection He as <-. unfold flow_inv. simpl in *.
    by rewrite H1, H2.
  - destruct (stalling f); [|done]. injection He as <-. unfold flow_inv. simpl. split; [done|]. by left.
  - destruct (resuming f !! t); [done|]. injection He as <-. destruct (resume_test _ _); [|done]. unfold flow_inv. simpl.
    split; [done|]. intros _. right. exists t, ToStore. by rewrite lookup_insert_eq.
  - destruct (resuming f !! t) as [[]|]; try done. injection He as <-. unfold flow_inv. simpl. split; [done|].
    intros _. right. exists t, ToService. by rewrite lookup_insert_eq.
  - destruct (resuming f !! t) as [[]|]; try done. injection He as <-. unfold flow_inv. simpl. split; [|done].
    unfold resume_service, ask_if, ask. by destruct (_txQueue (ctl f)) eqn:E.
  - injection He as <-. unfold flow_inv. simpl. destruct (enable_keeps ret (ctl f)) as [-> ->]. done.
  - destruct (_enabled (ctl f)); [|by injection He as <-]. injection He as <-. unfold flow_inv. simpl.
    destruct (disable_keeps (ctl f)) as [-> _]. done.
Qed.
Lemma flow_run_inv es : forall f f', flow_inv f -> flow_run es f = Some f' -> flow_inv f'.
Proof.
  induction es as [|e es IH]; intros f f' Hi Hr; simpl in Hr; [by injection Hr as <-|].
  destruct (flow_exec e f) as [f1|] eqn:E; [|done]. simpl in Hr. eauto using flow_step.
Qed.

(** C34: a stalled output queue is served again.  In every history of packets
    given to the output path, of enabling and disabling, and of threads that
    resume it, interleaved between any two accesses to the flag: while the
    queue holds a packet and no service was asked for since, either the flag is
    set or a thread that saw it set is about to ask; such a thread does ask;
    and otherwise the bottom half's call, as well as the debug timer's, asks
    for service as soon as 160 slots are free.  A packet is given to the
    station only with 96 free slots, and is never dropped for lack of them. *)
Theorem tx_stall_resumed p es f : _txQueue p = true -> flow_run es (flow_start p) = Some f ->
  (held f = true -> resuming f = ∅ -> forall avail avail', 160 <= avail -> 160 <= avail' ->
    calls (resumeTxIfStalled avail (ctl f)) = calls (ctl f) ++ [QService] /\
    calls (debugTimerFired avail avail' (ctl f)) = calls (ctl f) ++ [QService; ArmTimer]) /\
  (forall t pc, resuming f !! t = Some pc -> exists f',
    flow_run (match pc with ToStore => [FlStore t; FlService t] | ToService => [FlService t] end) f = Some f' /\
    held f' = false /\ calls (ctl f') = calls (ctl f) ++ [QService]) /\
  (forall m avail ret, _enabled (ctl f) = true -> _ieee80211 (ctl f) = true ->
    fst (outputPacket m avail ret (ctl f)) = (if avail <? 96 then None else Some ret) /\
    (Transmit m ∈ drop (length (calls (ctl f))) (calls (snd (outputPacket m avail ret (ctl f)))) <-> 96 <= avail)).
Proof.
  intros Hq Hr. destruct (flow_run_inv es (flow_start p) f) as [Hf Hi]; [by split|done|]. split_and!.
  - intros Hh Hn avail avail' H1 H2. destruct (Hi Hh) as [Hs|(t & pc & Ht)]; [|by rewrite Hn in Ht].
    assert (E : forall a, 160 <= a -> resumeTxIfStalled a (ctl f) = ask QService (ctl f <| _txStalled := false |>)).
    { intros a Ha. unfold resumeTxIfStalled, resume_test, resume_service, resume_store, ask_if, kRTW88TxResumeAvail.
      rewrite Hs. simpl. rewrite (proj2 (Z.leb_le 160 a)) by done. simpl. by rewrite Hf. }
    split; [by rewrite E|]. unfold debugTimerFired, kRTW88TxResumeAvail, kRTW88TxStallAvail.
    rewrite Hs, (proj2 (Z.leb_le 160 avail)), E by done. simpl. unfold ask_if. rewrite (proj2 (Z.ltb_ge avail 96)) by lia.
    simpl. by rewrite <- app_assoc.
  - intros t pc Ht. destruct pc; simpl; rewrite ?Ht; simpl.
    + rewrite lookup_insert_eq. simpl. eexists. split; [done|]. split; [done|]. simpl. unfold resume_service, ask_if. simpl. by rewrite Hf.
    + eexists. split; [done|]. split; [done|]. simpl. unfold resume_service, ask_if. by rewrite Hf.
  - intros m avail ret He Hs. unfold outputPacket, kRTW88TxStallAvail. simpl. rewrite He, Hs. simpl.
    destruct (Z.ltb_spec avail 96); simpl; (split; [done|]).
    + rewrite drop_app_length. split; [|lia]. by intros [?|?%elem_of_nil]%elem_of_cons.
    + rewrite <- app_assoc, drop_app_length. split; [done|]. intros _. right. left.
Qed.
Definition demo_pci : pci := mk_pci true true false true true true true 0 (zeros 6) [].
Definition demo_flow_events : list flow_event :=
  [FlOutput 1 200 0; FlOutput 2 40 0; FlTest 7 170; FlStall; FlTest 8 170; FlTest 9 10; FlStore 8; FlService 8; FlOutput 2 95 0; FlStall].
Definition demo_flow : flow := default (flow_start demo_pci) (flow_run demo_flow_events (flow_start demo_pci)).
Lemma demo_flow_run : flow_run demo_flow_events (flow_start demo_pci) = Some demo_flow.
Proof. vm_compute. reflexivity. Qed.
Lemma demo_flow_held : held demo_flow = true.
Proof. vm_compute. reflexivity. Qed.
Lemma demo_flow_idle : resuming demo_flow = ∅.
Proof. vm_compute. reflexivity. Qed.
Lemma tx_stall_resumed_witness :
  calls (resumeTxIfStalled 160 (ctl demo_flow)) = calls (ctl demo_flow) ++ [QService] /\
  calls (debugTimerFired 160 161 (ctl demo_flow)) = calls (ctl demo_flow) ++ [QService; ArmTimer].
Proof.
  destruct (tx_stall_resumed demo_pci demo_flow_events demo_flow eq_refl demo_flow_run) as (H & _).
  apply (H demo_flow_held demo_flow_idle 160 161); lia.
Defined.

(** ** Received packets and the other packets' fates *)

(** A received packet goes to the stack once if it is well-formed, and is freed
    once otherwise. *)
Definition frame_fits (plen mlen : Z) : bool := (14 <=? plen) && (plen <=? 4096) && (14 <=? mlen) && (mlen <=? 4096).
Lemma frame_fits_negb plen mlen :
  (plen <? 14) || (4096 <? plen) || (mlen <? 14) || (4096 <? mlen) = negb (frame_fits plen mlen).
Proof. unfold frame_fits. by rewrite !negb_andb, !Z.leb_antisym, !negb_involutive. Qed.
Lemma injectRxFrame_exact m plen mlen p :
  let ok := _iface p && _enabled p && frame_fits plen mlen in
  calls (injectRxFrame m plen mlen p) = calls p ++ DrainFree :: (if ok then [InputPacket m; FlushInput] else [FreePacket m]) /\
  inputPackets (injectRxFrame m plen mlen p) = (if ok && _nd p then u32 (inputPackets p + 1) else inputPackets p).
Proof.
  unfold injectRxFrame, ask. rewrite frame_fits_negb. destruct p as [en ie st q i ifc nd n mac cs]. simpl.
  destruct ifc, en; simpl; try by rewrite <- app_assoc.
  destruct (frame_fits plen mlen); simpl; [|by rewrite <- app_assoc]. destruct nd; simpl; by rewrite <- !app_assoc.
Qed.

(** ** Configuration space *)

(** The offset 0x100 of the capability helpers does not survive the accessor's
    conversion to UInt8: they change the word of the standard header at
    [where_] itself. *)
Lemma capability_offset_lost where_ set config : 0 <= where_ <= 254 -> zlen config = 256 ->
  pcie_capability_set_word true true where_ set config =
    (v ← config_read 2 where_ config; c ← config_write 2 where_ (u16 (v .| set)) config; Some (0, c)).
Proof.
  intros Hw Hl. unfold pcie_capability_set_word, pci_read_config_word, compat_pci_read_config_word, pciReadWord.
  assert (E : u8 (0x100 + where_) = where_) by euclid. rewrite E.
  destruct (config_read 2 where_ config) as [v|]; [|done]. cbn [mbind option_bind]. simpl Z.eqb. cbv iota. cbn [negb].
  unfold pci_write_config_word, compat_pci_write_config_word, pciWriteWord. by rewrite E.
Qed.
(** Enabling clock request (PCI_EXP_LNKCTL, 0x10) rewrites the first BAR. *)
Example capability_hits_bar0 :
  option_map (fun r => ldn (snd r) 0x10 2) (pcie_capability_set_word true true 0x10 0x100 (zeros 256)) = Some (Some [0; 1]).
Proof. reflexivity. Qed.

(** ** The Airport controller's interface and media

    AirportRTW88Interface.cpp and the media of AirportRTW88.cpp.  [iocall] is
    what is asked of IO80211 and of the object system. *)

Inductive iocall :=
| ToIO80211 (len options : Z) | ToEthernet (len options : Z)
| NewDict | ReleaseDict | NewMedium | ReleaseMedium | AddMedium | PublishMedia | SetCurrent | SetSelected
| NewInterface | ReleaseInterface.

(** [AirportRTW88Interface::inputPacket]: the packet's first segment, or null.
    The path taken, none for a null packet; [None] is a read outside it. *)
Definition inputPacket (packet : option (list Z)) (length options : Z) : option (list iocall) :=
  match packet with
  | None => Some []
  | Some m =>
      let len := zlen m in
      if 14 <=? len then
        hi ← ld m 12; lo ← ld m 13;
        let ethertype := u16 ((hi << 8) .| lo) in
        if ethertype =? 0x888E then Some [ToIO80211 (u32 len) 0] else Some [ToEthernet length options]
      else Some [ToEthernet length options]
  end.

(** The answers: superclass, dictionary, medium, and the four steps. *)
Record media_answers := mk_media {
  conf_ok : bool; dict_ok : bool; medium_ok : bool; added : bool; published : bool; current_ok : bool; selected_ok : bool }.
Definition configureInterface (a : media_answers) : bool * list iocall :=
  if negb (conf_ok a) then (false, [])
  else if negb (dict_ok a) then (false, [])
  else
    let cs := [NewDict] in
    let cs := if medium_ok a then cs ++ [NewMedium] else cs in
    let '(ok, cs) := if medium_ok a then (added a, cs ++ [AddMedium]) else (false, cs) in
    let '(ok, cs) := if ok then (published a, cs ++ [PublishMedia]) else (ok, cs) in
    let '(ok, cs) := if ok then (current_ok a, cs ++ [SetCurrent]) else (ok, cs) in
    let '(ok, cs) := if ok then (selected_ok a, cs ++ [SetSelected]) else (ok, cs) in
    let cs := if medium_ok a then cs ++ [ReleaseMedium] else cs in
    (ok, cs ++ [ReleaseDict]).
Definition createInterface (alloc init_ok : bool) : bool * list iocall :=
  if negb alloc then (false, [])
  else if negb init_ok then (false, [NewInterface; ReleaseInterface])
  else (true, [NewInterface]).

Definition kIOReturnUnsupported : Z := 0xe00002c7.
Definition kIOReturnError : Z := 0xe00002bc.
Definition kIOReturnBadArgument : Z := 0xe00002c2.
(** [medium]: null, or whether it is the automatic one. *)
Definition selectMedium (medium : option bool) (selected : bool) : Z :=
  match medium with
  | Some true => if selected then kIOReturnSuccess else kIOReturnError
  | _ => kIOReturnUnsupported
  end.
(** The filter bits of the network group. *)
Definition getPacketFilters (unicast broadcast multicast : Z) (group : option bool) (filters : bool) : Z * option Z :=
  match group with
  | Some is_network =>
      if filters then (kIOReturnSuccess, Some (if is_network then unicast .| broadcast .| multicast else 0))
      else (kIOReturnBadArgument, None)
  | None => (kIOReturnBadArgument, None)
  end.

#[export] Instance iocall_eq_dec : EqDecision iocall.
Proof. solve_decision. Defined.
Definition count_occ_io (x : iocall) (cs : list iocall) : Z := zlen (List.filter (fun y => bool_decide (x = y)) cs).

(** EAPOL frames, and only they, take IO80211's path, with their real length;
    no packet is lost and nothing is read past a short one. *)
Lemma inputPacket_exact m length options : bytes_ok m ->
  inputPacket (Some m) length options =
    Some [if bool_decide (ld m 12 = Some 0x88 /\ ld m 13 = Some 0x8E) then ToIO80211 (u32 (zlen m)) 0 else ToEthernet length options].
Proof.
  intros Hb. unfold inputPacket. destruct (Z.leb_spec 14 (zlen m)) as [H|H].
  - destruct (ld_Some m 12 ltac:(lia)) as [hi Eh]. destruct (ld_Some m 13 ltac:(lia)) as [lo El].
    assert (Hby : forall i x, ld m i = Some x -> is_byte x).
    { intros i x Hx. unfold ld in Hx. destruct (0 <=? i); [|done]. by eapply Forall_lookup_1 in Hx. }
    pose proof (Hby 12 hi Eh) as Hh. pose proof (Hby 13 lo El) as Hl. unfold in_range in Hh, Hl.
    rewrite Eh, El. cbn [mbind option_bind]. rewrite Z.lor_comm, lor_shift, wrap_small by (unfold in_range; lia).
    destruct (Z.eqb_spec (lo + hi * 2 ^ 8) 0x888E) as [E|E].
    + rewrite bool_decide_true; [done|]. split; f_equal; lia.
    + rewrite bool_decide_false; [done|]. intros [[= ->] [= ->]]. by apply E.
  - rewrite bool_decide_false; [done|]. intros [_ Hl]. apply ld_inv in Hl. lia.
Qed.

(** Media and interface: what is created is released, whatever fails. *)
Lemma media_balanced a :
  let '(ok, cs) := configureInterface a in
  count_occ_io NewDict cs = count_occ_io ReleaseDict cs /\ count_occ_io NewMedium cs = count_occ_io ReleaseMedium cs /\
  (ok = true <-> conf_ok a && dict_ok a && medium_ok a && added a && published a && current_ok a && selected_ok a = true).
Proof. destruct a as [[] [] [] [] [] [] []]; vm_compute; auto. Qed.
