(* ===== verification/ListHead.v ===== *)
(** * The intrusive doubly linked lists of [src/src/compat/linux/types.h]

    A node is an address; the heap maps an allocated node to its two link
    fields.  Every operation performs the field reads and writes of the C
    function in its order; dereferencing an address that is not an allocated
    node is the result [None].  [dlist] is the representation predicate, and
    the class [ListOps] is what the clients (the sk_buff queues, the work
    queues) rely on. *)

From S2P Require Import Prelude.

Abbreviation ptr := Z (only parsing).
Definition NULL : ptr := 0.

Record list_head := mk_list_head { next : ptr; prev : ptr }.
Abbreviation heap := (gmap ptr list_head).

#[export] Instance list_head_eq_dec : EqDecision list_head.
Proof. solve_decision. Defined.

(** ** Field accesses *)

Definition get_next (h : heap) (p : ptr) : option ptr := next <$> h !! p.
Definition get_prev (h : heap) (p : ptr) : option ptr := prev <$> h !! p.

Definition set_next (p v : ptr) (h : heap) : option heap :=
  n ← h !! p; Some (<[p := mk_list_head v (prev n)]> h).
Definition set_prev (p v : ptr) (h : heap) : option heap :=
  n ← h !! p; Some (<[p := mk_list_head (next n) v]> h).

(** ** The operations *)

Definition INIT_LIST_HEAD (l : ptr) (h : heap) : option heap :=
  h ← set_next l l h; set_prev l l h.

Definition __list_add (n prv nxt : ptr) (h : heap) : option heap :=
  h ← set_prev nxt n h;
  h ← set_next n nxt h;
  h ← set_prev n prv h;
  set_next prv n h.

Definition list_add_tail (n head : ptr) (h : heap) : option heap :=
  p ← get_prev h head; __list_add n p head h.

Definition list_add (n head : ptr) (h : heap) : option heap :=
  x ← get_next h head; __list_add n head x h.

Definition list_del (entry : ptr) (h : heap) : option heap :=
  p ← get_prev h entry;
  x ← get_next h entry;
  h ← set_next p x h;
  x ← get_next h entry;
  p ← get_prev h entry;
  h ← set_prev x p h;
  h ← set_next entry NULL h;
  set_prev entry NULL h.

Definition list_del_init (entry : ptr) (h : heap) : option heap :=
  h ← list_del entry h; INIT_LIST_HEAD entry h.

Definition list_empty (head : ptr) (h : heap) : option bool :=
  x ← get_next h head; Some (bool_decide (x = head)).

Definition list_move_tail (l head : ptr) (h : heap) : option heap :=
  h ← list_del l h; list_add_tail l head h.

(** [list_first_entry_or_null]: the node after the head, or [NULL]. *)
Definition list_first_entry_or_null (head : ptr) (h : heap) : option ptr :=
  x ← get_next h head; Some (if bool_decide (x = head) then NULL else x).

(** [list_for_each_entry] without a body: the nodes visited from [pos] until
    the walk is back at [head].  The fuel bounds the number of nodes. *)
Fixpoint list_walk (fuel : nat) (pos head : ptr) (h : heap) : option (list ptr) :=
  if bool_decide (pos = head) then Some []
  else match fuel with
       | O => None
       | S k => x ← get_next h pos; r ← list_walk k x head h; Some (pos :: r)
       end.

Definition list_for_each_entry (fuel : nat) (head : ptr) (h : heap) : option (list ptr) :=
  x ← get_next h head; list_walk fuel x head h.

(** ** The representation predicate *)

(** [a]'s successor is [b] and [b]'s predecessor is [a]. *)
Definition links (h : heap) (a b : ptr) : Prop :=
  get_next h a = Some b /\ get_prev h b = Some a.

(** Consecutive nodes of [l] are linked both ways. *)
Fixpoint path (h : heap) (l : list ptr) : Prop :=
  match l with
  | a :: ((b :: _) as l') => links h a b /\ path h l'
  | _ => True
  end.

(** The circular list with head node [hd] and elements [xs], in order. *)
Definition dlist (h : heap) (hd : ptr) (xs : list ptr) : Prop :=
  NoDup (hd :: xs) /\ path h (hd :: xs ++ [hd]).

(** An initialised node that is on no list points to itself. *)
Abbreviation detached h p := (dlist h p []).

(** [h'] differs from [h] at most on the nodes of [ws], and allocates the same
    nodes. *)
Definition touches (ws : list ptr) (h h' : heap) : Prop :=
  (forall r, r ∉ ws -> h' !! r = h !! r) /\ (forall r, is_Some (h' !! r) <-> is_Some (h !! r)).

(** ** Field-update laws *)

Lemma set_next_spec p v h :
  is_Some (h !! p) ->
  exists h', set_next p v h = Some h' /\ touches [p] h h' /\
    (forall q, get_next h' q = if decide (q = p) then Some v else get_next h q) /\
    (forall q, get_prev h' q = get_prev h q).
Proof.
  intros [n Hn]. unfold set_next. rewrite Hn. simpl. eexists. split; [done|].
  unfold touches, get_next, get_prev. split_and!; intros q; rewrite ?lookup_insert.
  - intros Hq. rewrite decide_False; [done|set_solver].
  - case_decide; subst; [by rewrite Hn|done].
  - repeat case_decide; subst; try done; by rewrite Hn.
  - repeat case_decide; subst; try done; by rewrite Hn.
Qed.

Lemma set_prev_spec p v h :
  is_Some (h !! p) ->
  exists h', set_prev p v h = Some h' /\ touches [p] h h' /\
    (forall q, get_prev h' q = if decide (q = p) then Some v else get_prev h q) /\
    (forall q, get_next h' q = get_next h q).
Proof.
  intros [n Hn]. unfold set_prev. rewrite Hn. simpl. eexists. split; [done|].
  unfold touches, get_next, get_prev. split_and!; intros q; rewrite ?lookup_insert.
  - intros Hq. rewrite decide_False; [done|set_solver].
  - case_decide; subst; [by rewrite Hn|done].
  - repeat case_decide; subst; try done; by rewrite Hn.
  - repeat case_decide; subst; try done; by rewrite Hn.
Qed.

Lemma touches_trans ws1 ws2 h1 h2 h3 :
  touches ws1 h1 h2 -> touches ws2 h2 h3 -> touches (ws1 ++ ws2) h1 h3.
Proof.
  intros [A1 A2] [B1 B2]. split; intros r.
  - intros Hr. rewrite B1, A1; [done|set_solver..].
  - by rewrite B2.
Qed.

Lemma touches_mono ws1 ws2 h1 h2 :
  ws1 ⊆ ws2 -> touches ws1 h1 h2 -> touches ws2 h1 h2.
Proof. intros Hs [A1 A2]. split; [|done]. intros r Hr. apply A1. set_solver. Qed.

Lemma links_alloc h a b : links h a b -> is_Some (h !! a) /\ is_Some (h !! b).
Proof.
  unfold links, get_next, get_prev. intros [H1 H2].
  apply fmap_Some in H1 as (?&->&_). apply fmap_Some in H2 as (?&->&_). eauto.
Qed.

(** Perform one field write of a goal [exists h', (set_… ≫= …) = Some h' /\ _]. *)
Ltac field_write h' :=
  lazymatch goal with
  | |- context [set_next ?p ?v ?h] =>
      let E := fresh "E" in let T := fresh "T" in let N := fresh "N" in let P := fresh "P" in
      edestruct (set_next_spec p v h) as (h' & E & T & N & P);
      [|rewrite E; clear E; cbn [mbind option_bind]]
  | |- context [set_prev ?p ?v ?h] =>
      let E := fresh "E" in let T := fresh "T" in let N := fresh "N" in let P := fresh "P" in
      edestruct (set_prev_spec p v h) as (h' & E & T & N & P);
      [|rewrite E; clear E; cbn [mbind option_bind]]
  end.

(** ** Paths *)

Lemma path_cons h a b l : path h (a :: b :: l) <-> links h a b /\ path h (b :: l).
Proof. done. Qed.

Lemma path_app h l1 p q l2 :
  path h (l1 ++ p :: q :: l2) <-> path h (l1 ++ [p]) /\ links h p q /\ path h (q :: l2).
Proof.
  induction l1 as [|a [|b l1] IH].
  - simpl. tauto.
  - cbn [app] in *. rewrite !path_cons in *. simpl. tauto.
  - cbn [app] in *. rewrite !(path_cons h a b), IH. tauto.
Qed.

Lemma path_ext h h' l :
  (forall l1 q l2, l = l1 ++ q :: l2 -> l2 <> [] -> get_next h' q = get_next h q) ->
  (forall l1 q l2, l = l1 ++ q :: l2 -> l1 <> [] -> get_prev h' q = get_prev h q) ->
  path h l -> path h' l.
Proof.
  induction l as [|a [|b l] IH]; intros HN HP; [done..|].
  rewrite !path_cons. intros [[H1 H2] Hl]. split.
  - split.
    + by rewrite (HN [] a (b :: l)).
    + by rewrite (HP [a] b l).
  - apply IH; [| |done].
    + intros l1 q l2 Heq Hne. apply (HN (a :: l1) q l2); [by rewrite Heq|done].
    + intros l1 q l2 Heq Hne. apply (HP (a :: l1) q l2); [by rewrite Heq|done].
Qed.

(** The nodes around an insertion point: [p] before it, [q] after it. *)
Lemma split_point hd (xs1 xs2 : list ptr) :
  exists l1 p q l2, hd :: xs1 = l1 ++ [p] /\ xs2 ++ [hd] = q :: l2.
Proof.
  destruct (exists_last (l := hd :: xs1)) as (l1 & p & E); [done|].
  destruct (xs2 ++ [hd]) as [|q l2] eqn:E2; [by destruct xs2|]. eauto 10.
Qed.

Lemma dlist_split h hd xs1 xs2 l1 p q l2 :
  hd :: xs1 = l1 ++ [p] -> xs2 ++ [hd] = q :: l2 ->
  path h (hd :: (xs1 ++ xs2) ++ [hd]) <->
  path h (l1 ++ [p]) /\ links h p q /\ path h (q :: l2).
Proof.
  intros E1 E2. rewrite <- path_app.
  replace (hd :: (xs1 ++ xs2) ++ [hd]) with (l1 ++ p :: q :: l2); [done|].
  rewrite <- E2, <- app_assoc. change (p :: xs2 ++ [hd]) with ([p] ++ xs2 ++ [hd]).
  by rewrite app_assoc, <- E1.
Qed.

Section point.
Context (hd : ptr) (xs1 xs2 l1 : list ptr) (p q : ptr) (l2 : list ptr).
Context (E1 : hd :: xs1 = l1 ++ [p]) (E2 : xs2 ++ [hd] = q :: l2).

Lemma point_p_in : p ∈ hd :: xs1.
Proof. rewrite E1. set_solver. Qed.
Lemma point_q_in : q ∈ hd :: xs2.
Proof. assert (q ∈ xs2 ++ [hd]) by (rewrite E2; set_solver). set_solver. Qed.

Context (ND : NoDup (hd :: xs1 ++ xs2)).

(** Nodes strictly before [p] are not [p]; likewise after the first node,
    none is [q]. *)
Lemma point_before l r l' : hd :: xs1 = l ++ r :: l' -> l' <> [] -> r <> p.
Proof.
  intros E Hne ->. destruct (exists_last Hne) as (l'' & z & ->).
  rewrite E1 in E. replace (l ++ p :: l'' ++ [z]) with ((l ++ p :: l'') ++ [z]) in E
    by (by rewrite <- app_assoc).
  apply app_inj_tail in E as [E ->].
  assert (NoDup (l1 ++ [z])) as N.
  { rewrite <- E1. change (hd :: xs1 ++ xs2) with ((hd :: xs1) ++ xs2) in ND.
    by apply NoDup_app in ND as [? _]. }
  rewrite E in N. apply NoDup_app in N as (_ & N & _). apply (N z); set_solver.
Qed.

Lemma point_after_prev l r l' : hd :: xs1 = l ++ r :: l' -> l <> [] -> r <> q.
Proof.
  intros E Hne ->. destruct l as [|z l]; [done|]. injection E as -> E.
  assert (q ∈ xs1) by (rewrite E; set_solver).
  apply NoDup_cons in ND as [ND1 ND2]. apply NoDup_app in ND2 as (_ & ND2 & _).
  destruct xs2 as [|y ys]; injection E2 as <- _; set_solver.
Qed.

Lemma point_next_after l r l' : xs2 ++ [hd] = l ++ r :: l' -> l' <> [] -> r <> p.
Proof.
  intros E Hne ->. destruct (exists_last Hne) as (l'' & z & ->).
  replace (l ++ p :: l'' ++ [z]) with ((l ++ p :: l'') ++ [z]) in E
    by (by rewrite <- app_assoc).
  apply app_inj_tail in E as [E _].
  assert (p ∈ xs2) by (rewrite E; set_solver).
  pose proof point_p_in. apply NoDup_cons in ND as [ND1 ND2].
  apply NoDup_app in ND2 as (_ & ND2 & _). set_solver.
Qed.

Lemma point_prev_after l r l' : xs2 ++ [hd] = l ++ r :: l' -> l <> [] -> r <> q.
Proof.
  intros E Hne ->. destruct l as [|z l]; [done|].
  assert (NoDup (xs2 ++ [hd])) as N.
  { apply NoDup_cons in ND as [ND1 ND2]. apply NoDup_app in ND2 as (_ & _ & ND2).
    apply NoDup_app. repeat split; [done|set_solver|apply NoDup_singleton]. }
  rewrite E2 in E, N. injection E as -> ->. apply NoDup_cons in N as [N _]. set_solver.
Qed.
Context (h h' : heap) (z : ptr) (Hz : z ∉ hd :: xs1 ++ xs2).
Context (HN : forall r, r <> p -> r <> z -> get_next h' r = get_next h r).
Context (HP : forall r, r <> q -> r <> z -> get_prev h' r = get_prev h r).

(** Changing only [p]'s successor, [q]'s predecessor and a node [z] off the
    list keeps both halves of the list. *)
Lemma point_frame :
  path h (l1 ++ [p]) -> path h (q :: l2) -> path h' (l1 ++ [p]) /\ path h' (q :: l2).
Proof.
  assert (forall l r l', hd :: xs1 = l ++ r :: l' -> r <> z) as Z1.
  { intros l r l' E ->. apply Hz. change (hd :: xs1 ++ xs2) with ((hd :: xs1) ++ xs2).
    rewrite E. clear. set_solver. }
  assert (forall l r l', xs2 ++ [hd] = l ++ r :: l' -> r <> z) as Z2.
  { intros l r l' E ->. apply Hz. assert (z ∈ xs2 ++ [hd]) as H by (rewrite E; clear; set_solver).
    clear -H. set_solver. }
  intros PA1 PA2. split; (eapply path_ext; [| |eassumption]); rewrite <- ?E1, <- ?E2;
    intros l r l' E Hne.
  - apply HN; [by eapply point_before|eauto].
  - apply HP; [by eapply point_after_prev|eauto].
  - apply HN; [by eapply point_next_after|eauto].
  - apply HP; [by eapply point_prev_after|eauto].
Qed.
End point.

(** ** Specifications of the operations *)

(** Allocation is unaffected by field writes. *)
Ltac alloc :=
  repeat match goal with T : touches _ _ _ |- _ => destruct T as [? T]; revert T end; intros;
  repeat match goal with
  | H : forall r, is_Some (?h' !! r) <-> _ |- is_Some (?h' !! _) => apply H
  end; try done.

Lemma INIT_LIST_HEAD_spec h l :
  is_Some (h !! l) ->
  exists h', INIT_LIST_HEAD l h = Some h' /\ touches [l] h h' /\ detached h' l.
Proof.
  intros Hl. unfold INIT_LIST_HEAD.
  field_write h1; [done|]. field_write h2; [alloc|].
  eexists; split; [done|]. split.
  { apply (touches_mono ([l] ++ [l])); [set_solver|]. by apply (touches_trans _ _ _ h1). }
  split; [apply NoDup_singleton|]. cbn. split; [|done]. unfold links.
  by rewrite P0, N, N0, !decide_True.
Qed.

Lemma __list_add_spec h hd xs1 xs2 l1 p q l2 n :
  hd :: xs1 = l1 ++ [p] -> xs2 ++ [hd] = q :: l2 ->
  dlist h hd (xs1 ++ xs2) -> is_Some (h !! n) -> n ∉ hd :: xs1 ++ xs2 ->
  exists h', __list_add n p q h = Some h' /\
    dlist h' hd (xs1 ++ n :: xs2) /\ touches [q; n; n; p] h h'.
Proof.
  intros E1 E2 [ND PA] Hn Hni. rewrite (dlist_split _ _ _ _ _ _ _ _ E1 E2) in PA.
  destruct PA as (PA1 & PL & PA2). destruct (links_alloc _ _ _ PL) as [Hp Hq].
  assert (p ∈ hd :: xs1) as Hpi by (by eapply point_p_in).
  assert (q ∈ hd :: xs2) as Hqi by (by eapply point_q_in).
  assert (p <> n /\ q <> n) as [Hpn Hqn] by (clear -Hni Hpi Hqi; set_solver).
  unfold __list_add.
  field_write h1; [done|]. field_write h2; [alloc|].
  field_write h3; [alloc|]. field_write h4; [alloc|].
  assert (forall r, get_next h4 r = if decide (r = p) then Some n else
            if decide (r = n) then Some q else get_next h r) as HN.
  { intros r. by rewrite N2, P1, N0, P. }
  assert (forall r, get_prev h4 r = if decide (r = n) then Some p else
            if decide (r = q) then Some n else get_prev h r) as HP.
  { intros r. by rewrite P2, N1, P0, N. }
  eexists; split; [done|]. split; [split|].
  - clear -ND Hni. change (hd :: xs1 ++ n :: xs2) with ((hd :: xs1) ++ n :: xs2).
    rewrite <- Permutation_middle. by constructor.
  - replace (hd :: (xs1 ++ n :: xs2) ++ [hd]) with (l1 ++ p :: n :: q :: l2).
    2:{ rewrite <- E2. replace (l1 ++ p :: n :: xs2 ++ [hd]) with ((l1 ++ [p]) ++ n :: xs2 ++ [hd])
          by (by rewrite <- app_assoc). rewrite <- E1. cbn. by rewrite <- app_assoc. }
    assert (path h4 (l1 ++ [p]) /\ path h4 (q :: l2)) as [PB1 PB2].
    { eapply (point_frame hd xs1 xs2 l1 p q l2 E1 E2 ND h h4 n); try done; intros r H1 H2.
      - by rewrite HN, !decide_False.
      - by rewrite HP, !decide_False. }
    rewrite path_app, path_cons. unfold links. rewrite !HN, !HP.
    rewrite !(decide_True _ _ eq_refl), !decide_False by congruence. done.
  - apply (touches_trans [q] [n; n; p] _ h1); [done|].
    apply (touches_trans [n] [n; p] _ h2); [done|].
    by apply (touches_trans [n] [p] _ h3).
Qed.

Lemma dlist_ends h hd xs1 xs2 l1 p q l2 :
  hd :: xs1 = l1 ++ [p] -> xs2 ++ [hd] = q :: l2 -> dlist h hd (xs1 ++ xs2) ->
  get_next h p = Some q /\ get_prev h q = Some p.
Proof. intros E1 E2 [_ PA]. rewrite (dlist_split _ _ _ _ _ _ _ _ E1 E2) in PA. by destruct PA as (_ & ? & _). Qed.

Lemma list_add_tail_spec h hd xs n :
  dlist h hd xs -> is_Some (h !! n) -> n ∉ hd :: xs ->
  exists h', list_add_tail n hd h = Some h' /\ dlist h' hd (xs ++ [n]) /\
    touches (n :: hd :: xs) h h'.
Proof.
  intros D Hn Hni. rewrite <- (app_nil_r xs) in D.
  destruct (split_point hd xs []) as (l1 & p & q & l2 & E1 & E2).
  destruct (dlist_ends _ _ _ _ _ _ _ _ E1 E2 D) as [_ HP].
  injection E2 as <- <-. unfold list_add_tail. rewrite HP. cbn [mbind option_bind].
  destruct (__list_add_spec h hd xs [] l1 p hd [] n) as (h' & -> & D' & T); try done.
  { by rewrite app_nil_r. }
  eexists. split; [done|]. split; [done|]. eapply touches_mono; [|done].
  assert (p ∈ hd :: xs) as Hp by (by rewrite E1; set_solver). clear -Hp. set_solver.
Qed.

Lemma list_add_spec h hd xs n :
  dlist h hd xs -> is_Some (h !! n) -> n ∉ hd :: xs ->
  exists h', list_add n hd h = Some h' /\ dlist h' hd (n :: xs) /\
    touches (n :: hd :: xs) h h'.
Proof.
  intros D Hn Hni.
  destruct (xs ++ [hd]) as [|q l2] eqn:E2; [by destruct xs|].
  destruct (dlist_ends h hd [] xs [] hd q l2 eq_refl E2 D) as [HN _].
  unfold list_add. rewrite HN. cbn [mbind option_bind].
  destruct (__list_add_spec h hd [] xs [] hd q l2 n) as (h' & -> & D' & T); try done.
  eexists. split; [done|]. split; [done|]. eapply touches_mono; [|done].
  assert (q ∈ hd :: xs) as Hq.
  { assert (q ∈ xs ++ [hd]) by (rewrite E2; set_solver). set_solver. }
  clear -Hq. set_solver.
Qed.

(** Unlinking [x] joins its neighbours and clears its links. *)
Lemma list_del_spec h hd xs1 x xs2 :
  dlist h hd (xs1 ++ x :: xs2) ->
  exists h', list_del x h = Some h' /\ dlist h' hd (xs1 ++ xs2) /\
    h' !! x = Some (mk_list_head NULL NULL) /\ touches (hd :: xs1 ++ x :: xs2) h h'.
Proof.
  intros [ND PA].
  destruct (split_point hd xs1 xs2) as (l1 & p & q & l2 & E1 & E2).
  assert (NoDup (hd :: xs1 ++ xs2) /\ x ∉ hd :: xs1 ++ xs2) as [ND' Hx].
  { clear -ND. change (hd :: xs1 ++ x :: xs2) with ((hd :: xs1) ++ x :: xs2) in ND.
    rewrite <- Permutation_middle in ND. by apply NoDup_cons in ND as [? ?]. }
  assert (p ∈ hd :: xs1) as Hpi by (by eapply point_p_in).
  assert (q ∈ hd :: xs2) as Hqi by (by eapply point_q_in).
  assert (p <> x /\ q <> x) as [Hpx Hqx] by (clear -Hx Hpi Hqi; set_solver).
  replace (hd :: (xs1 ++ x :: xs2) ++ [hd]) with (l1 ++ p :: x :: q :: l2) in PA.
  2:{ rewrite <- E2. replace (l1 ++ p :: x :: xs2 ++ [hd]) with ((l1 ++ [p]) ++ x :: xs2 ++ [hd])
        by (by rewrite <- app_assoc). rewrite <- E1. cbn. by rewrite <- app_assoc. }
  rewrite path_app, path_cons in PA. destruct PA as (PA1 & PL1 & PL2 & PA2).
  destruct (links_alloc _ _ _ PL1) as [Hp Hxa]. destruct (links_alloc _ _ _ PL2) as [_ Hq].
  destruct PL1 as [_ PL1]. destruct PL2 as [PL2 _].
  unfold list_del. rewrite PL1, PL2. cbn [mbind option_bind].
  field_write h1; [done|].
  rewrite (N x), decide_False, PL2 by congruence. cbn [mbind option_bind].
  rewrite (P x), PL1. cbn [mbind option_bind].
  field_write h2; [alloc|]. field_write h3; [alloc|]. field_write h4; [alloc|].
  assert (forall r, get_next h4 r = if decide (r = x) then Some NULL else
            if decide (r = p) then Some q else get_next h r) as HN.
  { intros r. by rewrite P2, N1, P0, N. }
  assert (forall r, get_prev h4 r = if decide (r = x) then Some NULL else
            if decide (r = q) then Some p else get_prev h r) as HP.
  { intros r. by rewrite N2, P1, N0, P. }
  assert (touches [p; q; x; x] h h4) as TT.
  { apply (touches_trans [p] [q; x; x] _ h1); [done|].
    apply (touches_trans [q] [x; x] _ h2); [done|]. by apply (touches_trans [x] [x] _ h3). }
  eexists; split; [done|]. split; [split; [done|]|split].
  - assert (path h4 (l1 ++ [p]) /\ path h4 (q :: l2)) as [PB1 PB2].
    { eapply (point_frame hd xs1 xs2 l1 p q l2 E1 E2 ND' h h4 x); try done; intros r H1 H2.
      - by rewrite HN, !decide_False.
      - by rewrite HP, !decide_False. }
    rewrite (dlist_split _ _ _ _ _ _ _ _ E1 E2). unfold links. rewrite !HN, !HP.
    rewrite !(decide_True _ _ eq_refl), !decide_False by congruence. done.
  - specialize (HN x). specialize (HP x). rewrite decide_True in HN, HP by done.
    unfold get_next, get_prev in HN, HP. destruct (h4 !! x) as [[]|]; simplify_eq/=. done.
  - eapply touches_mono; [|exact TT]. clear -Hpi Hqi. set_solver.
Qed.

Lemma list_empty_spec h hd xs :
  dlist h hd xs -> list_empty hd h = Some (bool_decide (xs = [])).
Proof.
  intros [ND PA]. unfold list_empty. destruct xs as [|x xs]; cbn in PA |- *.
  - destruct PA as [[-> _] _]. cbn. by rewrite bool_decide_true.
  - destruct PA as [[-> _] _]. cbn. apply NoDup_cons in ND as [ND _].
    assert (x <> hd) by set_solver. by rewrite !bool_decide_false.
Qed.

Lemma list_first_spec h hd xs :
  dlist h hd xs -> get_next h hd = Some (default hd (head xs)).
Proof. intros [_ PA]. destruct xs as [|x xs]; cbn in PA |- *; by destruct PA as [[-> _] _]. Qed.

Lemma list_first_entry_or_null_spec h hd xs :
  dlist h hd xs -> list_first_entry_or_null hd h = Some (default NULL (head xs)).
Proof.
  intros D. unfold list_first_entry_or_null. rewrite (list_first_spec h hd xs) by done.
  destruct D as [ND _]. destruct xs as [|x xs]; cbn.
  - by rewrite bool_decide_true.
  - apply NoDup_cons in ND as [ND _]. rewrite bool_decide_false; [done|set_solver].
Qed.

Lemma list_del_init_spec h hd xs1 x xs2 :
  dlist h hd (xs1 ++ x :: xs2) ->
  exists h', list_del_init x h = Some h' /\ dlist h' hd (xs1 ++ xs2) /\
    detached h' x /\ touches (hd :: xs1 ++ x :: xs2) h h'.
Proof.
  intros D. destruct (list_del_spec _ _ _ _ _ D) as (h1 & E & D1 & Hx & T).
  unfold list_del_init. rewrite E. cbn [mbind option_bind].
  destruct (INIT_LIST_HEAD_spec h1 x) as (h2 & E2 & T2 & D2); [by eexists|].
  assert (x ∉ hd :: xs1 ++ xs2) as Hni.
  { destruct D as [ND _]. change (hd :: xs1 ++ x :: xs2) with ((hd :: xs1) ++ x :: xs2) in ND.
    rewrite <- Permutation_middle in ND. by apply NoDup_cons in ND as [? ?]. }
  eexists. split; [done|]. split_and!; [|done|].
  - destruct D1 as [ND PA]. split; [done|]. eapply path_ext; [| |exact PA].
    all: intros l r l' E' _; unfold get_next, get_prev; destruct T2 as [-> _]; [done|].
    all: assert (r ∈ hd :: (xs1 ++ xs2) ++ [hd]) as Hr by (rewrite E'; clear; set_solver).
    all: clear -Hr Hni; set_solver.
  - apply (touches_mono ((hd :: xs1 ++ x :: xs2) ++ [x])); [clear; set_solver|].
    by apply (touches_trans _ _ _ h1).
Qed.

Lemma list_move_tail_spec h hd xs1 x xs2 :
  dlist h hd (xs1 ++ x :: xs2) ->
  exists h', list_move_tail x hd h = Some h' /\ dlist h' hd (xs1 ++ xs2 ++ [x]).
Proof.
  intros D. destruct (list_del_spec _ _ _ _ _ D) as (h1 & E & D1 & Hx & T).
  unfold list_move_tail. rewrite E. cbn [mbind option_bind].
  destruct (list_add_tail_spec h1 hd (xs1 ++ xs2) x) as (h2 & E2 & D2 & _); [done|by eexists| |].
  - destruct D as [ND _]. change (hd :: xs1 ++ x :: xs2) with ((hd :: xs1) ++ x :: xs2) in ND.
    rewrite <- Permutation_middle in ND. by apply NoDup_cons in ND as [? ?].
  - eexists. split; [done|]. by rewrite <- app_assoc in D2.
Qed.

(** The walk of [list_for_each_entry] visits the elements in order and stops:
    as many steps as there are elements are enough. *)
Lemma list_walk_spec h hd ys : forall a fuel,
  (length ys <= fuel)%nat -> path h (a :: ys ++ [hd]) -> hd ∉ ys ->
  (x ← get_next h a; list_walk fuel x hd h) = Some ys.
Proof.
  induction ys as [|y ys IH]; intros a fuel Hf PA Hni; cbn in PA; destruct PA as [[E _] PA].
  - rewrite E. cbn [mbind option_bind]. destruct fuel; cbn; by rewrite bool_decide_true.
  - rewrite E. cbn [mbind option_bind]. destruct fuel as [|fuel]; [cbn in Hf; lia|].
    cbn [list_walk]. rewrite bool_decide_false by set_solver.
    specialize (IH y fuel). destruct (get_next h y) as [z|] eqn:Ez; cbn [mbind option_bind] in *.
    + rewrite IH; [done|cbn in Hf; lia|done|set_solver].
    + destruct ys; cbn in PA; destruct PA as [[E2 _] _]; congruence.
Qed.

Lemma list_for_each_entry_spec h hd xs fuel :
  dlist h hd xs -> (length xs <= fuel)%nat -> list_for_each_entry fuel hd h = Some xs.
Proof.
  intros [ND PA] Hf. unfold list_for_each_entry. apply list_walk_spec; [done..|].
  by apply NoDup_cons in ND as [? ?].
Qed.

(** Two lists over disjoint nodes do not disturb each other. *)
Lemma dlist_frame ws h h' hd xs :
  touches ws h h' -> dlist h hd xs -> ws ## hd :: xs -> dlist h' hd xs.
Proof.
  intros [T _] [ND PA] Hd. split; [done|]. eapply path_ext; [| |exact PA].
  all: intros l r l' E _; unfold get_next, get_prev; rewrite T; [done|].
  all: assert (r ∈ hd :: xs ++ [hd]) as Hr by (rewrite E; clear; set_solver).
  all: intros Hw; apply (Hd r Hw); clear -Hr; set_solver.
Qed.

(** ** The interface used by the queues

    What a client of the list operations may rely on: a representation
    predicate and the effect of each operation on it. *)

Class ListOps := {
  lstore : Type;
  l_empty : ptr -> lstore -> option bool;
  l_first : ptr -> lstore -> option ptr;
  l_add_tail : ptr -> ptr -> lstore -> option lstore;
  l_add : ptr -> ptr -> lstore -> option lstore;
  l_del : ptr -> lstore -> option lstore;
  l_del_init : ptr -> lstore -> option lstore;
  l_rep : lstore -> ptr -> list ptr -> Prop;
  l_node : lstore -> ptr -> Prop;
  l_rep_nodup s hd xs : l_rep s hd xs -> NoDup (hd :: xs);
  l_rep_node s hd xs x : l_rep s hd xs -> x ∈ xs -> l_node s x;
  l_empty_law s hd xs : l_rep s hd xs -> l_empty hd s = Some (bool_decide (xs = []));
  l_first_law s hd xs : l_rep s hd xs -> l_first hd s = Some (default hd (head xs));
  l_add_tail_law s hd xs n :
    l_rep s hd xs -> l_node s n -> n ∉ hd :: xs ->
    exists s', l_add_tail n hd s = Some s' /\ l_rep s' hd (xs ++ [n]) /\
               (forall x, l_node s' x <-> l_node s x);
  l_add_law s hd xs n :
    l_rep s hd xs -> l_node s n -> n ∉ hd :: xs ->
    exists s', l_add n hd s = Some s' /\ l_rep s' hd (n :: xs) /\
               (forall x, l_node s' x <-> l_node s x);
  l_del_law s hd xs1 x xs2 :
    l_rep s hd (xs1 ++ x :: xs2) ->
    exists s', l_del x s = Some s' /\ l_rep s' hd (xs1 ++ xs2) /\
               (forall y, l_node s' y <-> l_node s y);
  l_del_init_law s hd xs1 x xs2 :
    l_rep s hd (xs1 ++ x :: xs2) ->
    exists s', l_del_init x s = Some s' /\ l_rep s' hd (xs1 ++ xs2) /\
               l_rep s' x [] /\ (forall y, l_node s' y <-> l_node s y)
}.

#[export] Program Instance heap_list_ops : ListOps := {|
  lstore := heap;
  l_empty := list_empty;
  l_first hd h := get_next h hd;
  l_add_tail := list_add_tail;
  l_add := list_add;
  l_del := list_del;
  l_del_init := list_del_init;
  l_rep := dlist;
  l_node h x := is_Some (h !! x)
|}.
Next Obligation. by intros s hd xs [? _]. Qed.
Next Obligation.
  intros s hd xs x [ND PA] Hx. apply list_elem_of_split in Hx as (l1 & l2 & ->).
  rewrite <- app_assoc in PA. change (hd :: l1 ++ (x :: l2) ++ [hd]) with ((hd :: l1) ++ x :: (l2 ++ [hd])) in PA.
  destruct (l2 ++ [hd]) as [|q l3] eqn:E; [by destruct l2|].
  rewrite path_app in PA. by destruct PA as (_ & [H _]%links_alloc & _).
Qed.
Next Obligation. exact list_empty_spec. Qed.
Next Obligation. exact list_first_spec. Qed.
Next Obligation.
  intros s hd xs n D Hn Hni. destruct (list_add_tail_spec s hd xs n D Hn Hni) as (s' & E & D' & T).
  exists s'. repeat (split; [done|]). apply T.
Qed.
Next Obligation.
  intros s hd xs n D Hn Hni. destruct (list_add_spec s hd xs n D Hn Hni) as (s' & E & D' & T).
  exists s'. repeat (split; [done|]). apply T.
Qed.
Next Obligation.
  intros s hd xs1 x xs2 D. destruct (list_del_spec s hd xs1 x xs2 D) as (s' & E & D' & _ & T).
  exists s'. repeat (split; [done|]). apply T.
Qed.
Next Obligation.
  intros s hd xs1 x xs2 D. destruct (list_del_init_spec s hd xs1 x xs2 D) as (s' & E & D' & Dx & T).
  exists s'. repeat (split; [done|]). apply T.
Qed.

(** ** Properties *)

(** C28: the intrusive lists of types.h implement mathematical lists.  On a
    well-formed circular list with elements [xs], none or more: list_empty
    answers whether there is none, list_first_entry_or_null the first element
    or NULL, and the list_for_each_entry walk visits the elements in order and
    stops.  An allocated node that is not on the list is initialised without
    disturbing it, added at the tail or at the head; any member is unlinked,
    unlinked and reinitialised, or moved to the tail.  All of these succeed
    without touching unallocated memory and leave the well-formed list with
    exactly the expected elements in the expected order; an unlinked node has
    both links NULL, a reinitialised one points to itself. *)
Theorem list_head_refines h hd xs :
  dlist h hd xs ->
  list_empty hd h = Some (bool_decide (xs = [])) /\
  list_first_entry_or_null hd h = Some (default NULL (head xs)) /\
  (forall fuel, (length xs <= fuel)%nat -> list_for_each_entry fuel hd h = Some xs) /\
  (forall n, is_Some (h !! n) -> n ∉ hd :: xs ->
    (exists h', INIT_LIST_HEAD n h = Some h' /\ detached h' n /\ dlist h' hd xs) /\
    (exists h', list_add_tail n hd h = Some h' /\ dlist h' hd (xs ++ [n])) /\
    (exists h', list_add n hd h = Some h' /\ dlist h' hd (n :: xs))) /\
  (forall xs1 x xs2, xs = xs1 ++ x :: xs2 ->
    (exists h', list_del x h = Some h' /\ dlist h' hd (xs1 ++ xs2) /\ h' !! x = Some (mk_list_head NULL NULL)) /\
    (exists h', list_del_init x h = Some h' /\ dlist h' hd (xs1 ++ xs2) /\ detached h' x) /\
    (exists h', list_move_tail x hd h = Some h' /\ dlist h' hd (xs1 ++ xs2 ++ [x]))).
Proof.
  intros D. split; [by apply list_empty_spec|]. split; [by apply list_first_entry_or_null_spec|].
  split; [intros fuel Hf; by apply list_for_each_entry_spec|]. split.
  - intros n Hn Hni. split_and!.
    + destruct (INIT_LIST_HEAD_spec h n Hn) as (h' & E & T & Dn). exists h'. split; [done|]. split; [done|].
      apply (dlist_frame [n] h); [done|done|]. intros z Hz%list_elem_of_singleton. by subst z.
    + destruct (list_add_tail_spec h hd _ n D Hn Hni) as (h' & ? & ? & _); eauto.
    + destruct (list_add_spec h hd _ n D Hn Hni) as (h' & ? & ? & _); eauto.
  - intros xs1 x xs2 ->. split_and!.
    + destruct (list_del_spec h hd _ _ _ D) as (h' & ? & ? & ? & _); eauto.
    + destruct (list_del_init_spec h hd _ _ _ D) as (h' & ? & ? & ? & _); eauto.
    + by apply list_move_tail_spec.
Qed.

(** Head 1 with the element 2; node 3 is initialised and on no list. *)
Definition demo_heap : heap :=
  list_to_map [(1, mk_list_head 2 2); (2, mk_list_head 1 1); (3, mk_list_head 3 3)].

(** Node 2 leaves the list of head 1; 3 as the head of an empty list is added
    to. *)
Lemma list_head_refines_witness :
  (exists h', list_del_init 2 demo_heap = Some h' /\ dlist h' 1 [] /\ detached h' 2) /\
  (exists h', list_add 2 3 demo_heap = Some h' /\ dlist h' 3 [2]) /\ list_first_entry_or_null 3 demo_heap = Some NULL.
Proof.
  assert (dlist demo_heap 1 [2]) as D.
  { split; [apply (bool_decide_unpack _); by vm_compute|]. by vm_compute. }
  assert (dlist demo_heap 3 []) as D3.
  { split; [apply (bool_decide_unpack _); by vm_compute|]. by vm_compute. }
  pose proof (list_head_refines demo_heap 1 [2] D) as (_ & _ & _ & _ & H). pose proof (list_head_refines demo_heap 3 [] D3) as (_ & F & _ & A & _).
  destruct (H [] 2 [] eq_refl) as (_ & H2 & _). split; [exact H2|].
  assert (is_Some (demo_heap !! 2)) as I by (by vm_compute; eexists).
  assert (2 ∉ [3]) as B by (apply (bool_decide_unpack _); by vm_compute).
  destruct (A 2 I B) as (_ & _ & H3). split; [exact H3|exact F].
Defined.

(** the list_for_each_entry walk of a well-formed list terminates after one
    step per element, having visited the elements in order, list_empty answers
    exactly whether there is none, and writes confined to nodes outside the
    list (operations on another list) change neither answer. *)
Theorem list_traversal h h' hd xs ws fuel :
  dlist h hd xs -> touches ws h h' -> ws ## hd :: xs -> (length xs <= fuel)%nat ->
  list_for_each_entry fuel hd h' = Some xs /\
  list_empty hd h' = Some (bool_decide (xs = [])) /\
  list_first_entry_or_null hd h' = Some (default NULL (head xs)).
Proof.
  intros D T Hd Hf. pose proof (dlist_frame _ _ _ _ _ T D Hd) as D'. split_and!.
  - by apply list_for_each_entry_spec.
  - by apply list_empty_spec.
  - by apply list_first_entry_or_null_spec.
Qed.

Lemma list_traversal_witness :
  dlist demo_heap 1 [2] /\ list_for_each_entry 1 1 (<[3 := mk_list_head 0 0]> demo_heap) = Some [2].
Proof.
  assert (dlist demo_heap 1 [2]) as D.
  { split; [apply (bool_decide_unpack _); by vm_compute|]. by vm_compute. }
  split; [exact D|].
  refine (proj1 (list_traversal demo_heap (<[3 := mk_list_head 0 0]> demo_heap) 1 [2] [3] 1 D _ _ _)).
  - split; intros r; rewrite lookup_insert.
    + intros Hr. rewrite decide_False; [done|set_solver].
    + case_decide; subst; [|done]. vm_compute. split; intros _; by eexists.
  - intros y Hy Hy'. apply list_elem_of_singleton in Hy as ->.
    revert Hy'. apply (bool_decide_unpack (3 ∉ [1; 2])). by vm_compute.
  - done.
Defined.
