(* ===== verification/Slab.v ===== *)
(** * The kernel allocator shim of [src/src/compat/linux/slab.h]

    [IOMalloc] and [IOFree] are XNU services: [IOMalloc] is a parameter that
    returns the bytes of a fresh block or fails.  A [kmalloc] block is that
    block with its first 8 bytes holding the requested size; the pointer the
    driver sees is the ninth byte. *)

From S2P Require Import Prelude.

Definition sizeof_size_t : Z := 8.
Definition GFP_KERNEL : Z := 0.
Definition GFP_ATOMIC : Z := 0.
Definition __GFP_ZERO : Z := 1.

(** [blk_size] is the header word, [blk_user] the bytes after it. *)
Record block := mk_block { blk_size : Z; blk_user : list Z }.

Section slab.
Variable IOMalloc : Z -> option (list Z).

(** [None]: undefined behaviour (the zeroing runs past the block);
    [Some None]: the allocator failed. *)
Definition kmalloc (size flags : Z) : option (option block) :=
  let total := u64 (size + sizeof_size_t) in
  match IOMalloc total with
  | None => Some None
  | Some b =>
      if negb (flags .& __GFP_ZERO =? 0)
      then u ← stn (zdrop sizeof_size_t b) 0 (zeros size);
           Some (Some (mk_block size u))
      else Some (Some (mk_block size (zdrop sizeof_size_t b)))
  end.

Definition kzalloc (size flags : Z) : option (option block) :=
  kmalloc size (flags .| __GFP_ZERO).

Definition kcalloc (n size flags : Z) : option (option block) :=
  kzalloc (u64 (n * size)) flags.

Definition kmalloc_array (n size flags : Z) : option (option block) :=
  kmalloc (u64 (n * size)) flags.

(** The argument [kfree] passes to [IOFree]. *)
Definition kfree_size (b : block) : Z := u64 (blk_size b + sizeof_size_t).

(** The address test of [kfree]: [true] when the block is really freed. *)
Definition kfree_accepts (addr : Z) : bool :=
  negb (addr =? 0) && negb (addr <? 0xffff000000000000).

(** The block returned, and whether the old one was released. *)
Definition krealloc (addr : Z) (b : block) (new_size flags : Z)
    : option (option block * bool) :=
  if addr =? 0 then r ← kmalloc new_size flags; Some (r, false)
  else
    r ← kmalloc new_size flags;
    match r with
    | None => Some (None, false)
    | Some nb =>
        let copy := if blk_size b <? new_size then blk_size b else new_size in
        src ← ldn (blk_user b) 0 copy;
        u ← stn (blk_user nb) 0 src;
        Some (Some (mk_block (blk_size nb) u), kfree_accepts addr)
    end.

(** [kmemdup]; [kstrdup] is the copy of the string with its terminator. *)
Definition kmemdup (src : list Z) (len flags : Z) : option (option block) :=
  r ← kmalloc len flags;
  match r with
  | None => Some None
  | Some nb =>
      s ← ldn src 0 len;
      u ← stn (blk_user nb) 0 s;
      Some (Some (mk_block (blk_size nb) u))
  end.

Definition kstrdup (s : list Z) (flags : Z) : option (option block) :=
  kmemdup (s ++ [0]) (zlen s + 1) flags.

(** [IOMalloc] returns a block of the size it was asked for. *)
Definition IOMalloc_sized : Prop := forall n b, IOMalloc n = Some b -> zlen b = n.

Section laws.
Context (Hsz : IOMalloc_sized).

Lemma kmalloc_spec size flags :
  0 <= size < 2 ^ 64 - 8 ->
  kmalloc size flags = Some None \/
  exists b, kmalloc size flags = Some (Some b) /\ blk_size b = size /\
    zlen (blk_user b) = size /\
    (flags .& __GFP_ZERO <> 0 -> blk_user b = zeros size).
Proof.
  intros Hs. unfold kmalloc, sizeof_size_t.
  rewrite (wrap_small 64) by (unfold in_range; lia).
  destruct (IOMalloc (size + 8)) as [m|] eqn:E; [right|by left].
  apply Hsz in E. destruct (Z.eqb_spec (flags .& __GFP_ZERO) 0); cbn [negb].
  - eexists. split; [done|]. cbn [blk_size blk_user]. split_and!; [done|zlen|done].
  - rewrite stn_Some; [|lia|zlen]. cbn [mbind option_bind]. eexists. split; [done|].
    cbn [blk_size blk_user]. rewrite ztake_0. cbn [app]. rewrite (zdrop_all (0 + _)) by zlen.
    rewrite app_nil_r. split; [done|]. split; [zlen|done].
Qed.

(** What [kfree] returns to [IOFree] is what [kmalloc] took from
    [IOMalloc]. *)
Lemma kmalloc_kfree size flags b :
  kmalloc size flags = Some (Some b) ->
  kfree_size b = u64 (size + sizeof_size_t).
Proof.
  unfold kmalloc, kfree_size. destruct (IOMalloc _) as [m|]; [|done].
  destruct (negb _); [|by intros [= <-]].
  destruct (stn _ _ _) as [u|]; cbn [mbind option_bind]; [|done]. by intros [= <-].
Qed.

Lemma kmalloc_in_range size flags b :
  0 <= size < 2 ^ 64 - 8 -> kmalloc size flags = Some (Some b) ->
  zlen (blk_user b) = size /\ blk_size b = size.
Proof. intros Hs E. destruct (kmalloc_spec size flags Hs) as [?|(b' & ? & ? & ? & _)]; naive_solver. Qed.
End laws.
End slab.

(** A concrete allocator: always succeeds, with recognisable contents. *)
Definition demo_malloc (n : Z) : option (list Z) := Some (replicate (Z.to_nat n) 0xA5).

Lemma demo_malloc_sized n b : demo_malloc n = Some b -> 0 <= n -> zlen b = n.
Proof. intros [= <-] ?. zlen. Qed.
