(* ===== verification/Skb.v ===== *)
(** * Socket buffers: [src/src/compat/linux/skbuff.h]

    The four pointers of a [sk_buff] are offsets from its [head]; the
    allocation is the byte list [mem].  The pointer moves are unchecked, as
    in the source; [skb_wf] is the invariant a caller must keep, and the
    lemmas say under which room it is kept. *)

From S2P Require Import Prelude ListHead Slab.

Record sk_buff := mk_skb {
  mem : list Z;
  data : Z;
  tail : Z;
  end_ : Z;
  len : Z;
  data_len : Z;
  protocol : Z;
  pkt_type : Z;
  priority : Z;
  queue_mapping : Z;
  ip_summed : Z;
  cb : list Z
}.

Definition sizeof_cb : Z := 64.
Definition sizeof_sk_buff : Z := 152.

(** ** Field updates *)

Definition with_ptrs (s : sk_buff) (d t l : Z) : sk_buff :=
  mk_skb (mem s) d t (end_ s) l (data_len s) (protocol s) (pkt_type s) (priority s)
         (queue_mapping s) (ip_summed s) (cb s).
Definition with_mem (s : sk_buff) (m : list Z) : sk_buff :=
  mk_skb m (data s) (tail s) (end_ s) (len s) (data_len s) (protocol s) (pkt_type s)
         (priority s) (queue_mapping s) (ip_summed s) (cb s).
Definition with_cb (s : sk_buff) (c : list Z) : sk_buff :=
  mk_skb (mem s) (data s) (tail s) (end_ s) (len s) (data_len s) (protocol s) (pkt_type s)
         (priority s) (queue_mapping s) (ip_summed s) c.
Definition with_class (s : sk_buff) (prio qmap : Z) : sk_buff :=
  mk_skb (mem s) (data s) (tail s) (end_ s) (len s) (data_len s) (protocol s) (pkt_type s)
         prio qmap (ip_summed s) (cb s).

(** ** Data manipulation *)

(** Returns the old tail, where the caller writes. *)
Definition skb_put (s : sk_buff) (n : Z) : Z * sk_buff :=
  (tail s, with_ptrs s (data s) (tail s + n) (u32 (len s + n))).

Definition skb_put_zero (s : sk_buff) (n : Z) : option (Z * sk_buff) :=
  let '(tmp, s) := skb_put s n in
  m ← stn (mem s) tmp (zeros n); Some (tmp, with_mem s m).

Definition skb_put_data (s : sk_buff) (bs : list Z) : option sk_buff :=
  let '(tmp, s) := skb_put s (zlen bs) in
  m ← stn (mem s) tmp bs; Some (with_mem s m).

Definition skb_push (s : sk_buff) (n : Z) : Z * sk_buff :=
  let s := with_ptrs s (data s - n) (tail s) (u32 (len s + n)) in (data s, s).

Definition skb_pull (s : sk_buff) (n : Z) : Z * sk_buff :=
  let s := with_ptrs s (data s + n) (tail s) (u32 (len s - n)) in (data s, s).

Definition skb_reserve (s : sk_buff) (n : Z) : sk_buff :=
  with_ptrs s (data s + n) (tail s + n) (len s).

Definition skb_trim (s : sk_buff) (n : Z) : sk_buff :=
  if n <? len s then with_ptrs s (data s) (tail s - (len s - n)) n else s.

Definition skb_headroom (s : sk_buff) : Z := u32 (data s).
Definition skb_tailroom (s : sk_buff) : Z := u32 (end_ s - tail s).

Definition skb_tailroom_reserve (s : sk_buff) (mtu needed : Z) : Z :=
  signed 32 (signed 32 (skb_tailroom s) - signed 32 needed).

Definition skb_copy_from_linear_data (s : sk_buff) (n : Z) : option (list Z) :=
  ldn (mem s) (data s) n.

Definition skb_reset_tail_pointer (s : sk_buff) : sk_buff :=
  with_ptrs s (data s) (data s) (len s).

Definition skb_copy_header (dst src : sk_buff) : sk_buff :=
  with_class (with_cb dst (cb src)) (priority src) (queue_mapping dst).

Definition skb_get_queue_mapping (s : sk_buff) : Z := queue_mapping s.
Definition skb_set_queue_mapping (s : sk_buff) (q : Z) : sk_buff :=
  with_class s (priority s) (u16 q).

(** ** Allocation *)

Section alloc.
Variable IOMalloc : Z -> option (list Z).

(** [None] is undefined behaviour, [Some None] an allocation failure. *)
Definition alloc_skb (size gfp : Z) : option (option sk_buff) :=
  let alloc_size := u32 (size + 64) in
  d ← kmalloc IOMalloc alloc_size gfp;
  match d with
  | None => Some None
  | Some d =>
      o ← kzalloc IOMalloc sizeof_sk_buff gfp;
      match o with
      | None => Some None
      | Some _ =>
          Some (Some (mk_skb (blk_user d) 0 0 alloc_size 0 0 0 0 0 0 0 (zeros sizeof_cb)))
      end
  end.

Definition dev_alloc_skb (size : Z) := alloc_skb size GFP_ATOMIC.
Definition netdev_alloc_skb (size : Z) := alloc_skb size GFP_ATOMIC.
Definition netdev_alloc_skb_ip_align (size : Z) := alloc_skb (u32 (size + 2)) GFP_ATOMIC.

Definition skb_copy (s : sk_buff) (prio : Z) : option (option sk_buff) :=
  n ← alloc_skb (u32 (len s + skb_headroom s)) prio;
  match n with
  | None => Some None
  | Some n =>
      let n := skb_reserve n (skb_headroom s) in
      src ← ldn (mem s) (data s) (len s);
      n ← skb_put_data n src;
      Some (Some (with_cb n (cb s)))
  end.

Definition skb_clone (s : sk_buff) (prio : Z) := skb_copy s prio.
End alloc.

(** ** The invariant *)

Definition skb_wf (s : sk_buff) : Prop :=
  0 <= data s <= tail s /\ tail s <= end_ s /\ end_ s = zlen (mem s) /\
  len s = tail s - data s /\ zlen (mem s) < 2 ^ 32.

(** The packet held by the buffer. *)
Definition contents (s : sk_buff) : list Z := ztake (len s) (zdrop (data s) (mem s)).

Ltac skb_arith :=
  unfold skb_wf, skb_headroom, skb_tailroom in *; cbn in *; rewrite ?wrap_small by (unfold in_range; lia);
  try lia.

Lemma contents_len s : skb_wf s -> zlen (contents s) = len s.
Proof. intros W. unfold contents. unfold skb_wf in W. zlen. Qed.

Lemma mem_split s : skb_wf s ->
  mem s = ztake (data s) (mem s) ++ contents s ++ zdrop (tail s) (mem s).
Proof.
  intros W. unfold skb_wf in W. unfold contents.
  replace (zdrop (tail s) (mem s)) with (zdrop (len s) (zdrop (data s) (mem s))).
  - by rewrite !ztake_zdrop.
  - rewrite zdrop_zdrop by lia. f_equal. lia.
Qed.

Lemma mem_before_tail s : skb_wf s ->
  ztake (tail s) (mem s) = ztake (data s) (mem s) ++ contents s.
Proof.
  intros W. pose proof (contents_len s W) as Hc. rewrite (mem_split s W) at 1.
  rewrite app_assoc. apply ztake_app_exact'. unfold skb_wf in W. zlen.
Qed.

Lemma contents_at s m d t l a c z :
  zlen a = d -> zlen c = l -> m = a ++ c ++ z ->
  contents (with_mem (with_ptrs s d t l) m) = c.
Proof. intros Ha Hc ->. unfold contents. cbn. rewrite zdrop_app_exact', ztake_app_exact'; done. Qed.

Lemma skb_put_data_spec s bs :
  skb_wf s -> zlen bs <= skb_tailroom s ->
  exists s', skb_put_data s bs = Some s' /\ skb_wf s' /\
    contents s' = contents s ++ bs /\ data s' = data s /\ cb s' = cb s /\
    skb_tailroom s' = skb_tailroom s - zlen bs.
Proof.
  intros W H. pose proof (zlen_nonneg bs). pose proof (contents_len s W) as Hc.
  assert (u32 (end_ s - tail s) = end_ s - tail s) as Et by skb_arith.
  assert (u32 (len s + zlen bs) = len s + zlen bs) as El by skb_arith.
  unfold skb_put_data, skb_put. cbn. rewrite stn_Some by skb_arith. cbn [mbind option_bind].
  rewrite El. eexists. split; [done|].
  assert (skb_wf (with_mem (with_ptrs s (data s) (tail s + zlen bs) (len s + zlen bs))
    (ztake (tail s) (mem s) ++ bs ++ zdrop (tail s + zlen bs) (mem s)))) as W'.
  { skb_arith. zlen. }
  split; [done|]. split_and!; [|done|done|].
  - eapply (contents_at _ _ _ _ _ (ztake (data s) (mem s))); [skb_arith; zlen|zlen|].
    rewrite (mem_before_tail s W). by rewrite <- !app_assoc.
  - skb_arith.
Qed.

(** Reserving headroom in an empty buffer. *)
Lemma skb_reserve_spec s n :
  skb_wf s -> len s = 0 -> 0 <= n <= skb_tailroom s ->
  skb_wf (skb_reserve s n) /\ contents (skb_reserve s n) = [] /\
  skb_headroom (skb_reserve s n) = skb_headroom s + n /\
  skb_tailroom (skb_reserve s n) = skb_tailroom s - n.
Proof.
  intros W H0 Hn. assert (u32 (end_ s - tail s) = end_ s - tail s) by skb_arith.
  split_and!; [skb_arith| |skb_arith|skb_arith].
  unfold contents, skb_reserve. cbn. by rewrite H0, ztake_0.
Qed.

Lemma skb_push_spec s n :
  skb_wf s -> 0 <= n <= skb_headroom s ->
  let s' := snd (skb_push s n) in
  skb_wf s' /\ exists hdr, zlen hdr = n /\ contents s' = hdr ++ contents s /\
    skb_headroom s' = skb_headroom s - n.
Proof.
  intros W Hn. assert (u32 (data s) = data s) as E by skb_arith. cbn zeta.
  split; [skb_arith|].
  exists (ztake n (zdrop (data s - n) (mem s))). split_and!; [skb_arith; zlen| |skb_arith].
  unfold skb_push, contents. cbn. rewrite wrap_small by (unfold in_range; skb_arith).
  unfold skb_headroom in Hn. rewrite E in Hn.
  rewrite <- (ztake_zdrop n (zdrop (data s - n) (mem s))) at 1.
  rewrite zdrop_zdrop by lia. replace (data s - n + n) with (data s) by lia.
  unfold ztake at 1. rewrite take_app. f_equal.
  - rewrite take_ge; [done|]. enough (zlen (ztake n (zdrop (data s - n) (mem s))) <= len s + n)
      by (unfold zlen in *; lia). skb_arith. zlen.
  - unfold ztake. f_equal. enough (zlen (ztake n (zdrop (data s - n) (mem s))) = n)
      by (unfold zlen, ztake in *; skb_arith). skb_arith. zlen.
Qed.

Lemma skb_pull_spec s n :
  skb_wf s -> 0 <= n <= len s ->
  let s' := snd (skb_pull s n) in
  skb_wf s' /\ contents s' = zdrop n (contents s) /\ skb_headroom s' = skb_headroom s + n.
Proof.
  intros W Hn. cbn zeta. split; [skb_arith|]. split; [|skb_arith].
  unfold skb_pull, contents. cbn. rewrite wrap_small by (unfold in_range; skb_arith).
  by rewrite zdrop_ztake, zdrop_zdrop by skb_arith.
Qed.

Lemma skb_trim_spec s n :
  skb_wf s -> 0 <= n ->
  skb_wf (skb_trim s n) /\ contents (skb_trim s n) = ztake n (contents s) /\
  len (skb_trim s n) = Z.min n (len s).
Proof.
  intros W Hn. unfold skb_trim. destruct (Z.ltb_spec n (len s)).
  - split_and!; [skb_arith| |cbn; lia]. unfold contents. cbn.
    rewrite ztake_ztake. f_equal. lia.
  - split_and!; [done| |lia]. rewrite ztake_all; [done|]. rewrite contents_len; [lia|done].
Qed.

(** ** Allocation and copying *)

Section alloc_laws.
Variable IOMalloc : Z -> option (list Z).
Context (Hsz : IOMalloc_sized IOMalloc).

Lemma alloc_skb_spec size gfp :
  0 <= size -> size + 64 < 2 ^ 32 ->
  alloc_skb IOMalloc size gfp = Some None \/
  exists s, alloc_skb IOMalloc size gfp = Some (Some s) /\ skb_wf s /\ len s = 0 /\
    skb_headroom s = 0 /\ skb_tailroom s = size + 64 /\
    data s = 0 /\ tail s = 0 /\ priority s = 0 /\ queue_mapping s = 0.
Proof.
  intros H1 H2. unfold alloc_skb. rewrite (wrap_small 32) by (unfold in_range; lia).
  destruct (kmalloc_spec IOMalloc Hsz (size + 64) gfp) as [->|(b & -> & _ & Hb & _)];
    [lia|by left|]. cbn [mbind option_bind]. unfold kzalloc.
  destruct (kmalloc_spec IOMalloc Hsz sizeof_sk_buff (gfp .| __GFP_ZERO)) as [->|(o & -> & _)];
    [unfold sizeof_sk_buff; lia|by left|]. cbn [mbind option_bind].
  right. eexists. split; [done|]. split_and!; skb_arith; done.
Qed.

(** Never undefined behaviour: either out of memory or a faithful copy. *)
Lemma skb_copy_ok s prio :
  skb_wf s -> end_ s + 64 < 2 ^ 32 ->
  skb_copy IOMalloc s prio = Some None \/
  exists n, skb_copy IOMalloc s prio = Some (Some n) /\ skb_wf n /\
    contents n = contents s /\ skb_headroom n = skb_headroom s /\ cb n = cb s.
Proof.
  intros W Hsz'. unfold skb_copy.
  assert (skb_headroom s = data s) as Eh by skb_arith.
  assert (u32 (len s + skb_headroom s) = tail s) as El
    by (rewrite Eh; rewrite wrap_small; unfold in_range; skb_arith).
  rewrite El.
  destruct (alloc_skb_spec (tail s) prio) as [->|(n & -> & Wn & Hl & Hh & Ht & Hd & Htl & _)];
    [skb_arith..|by left|]. cbn [mbind option_bind]. right.
  destruct (skb_reserve_spec n (skb_headroom s)) as (Wr & Hc & Hh' & Ht');
    [done|done|rewrite Ht, Eh; unfold skb_wf in W; lia|].
  rewrite ldn_Some by skb_arith. cbn [mbind option_bind]. fold (contents s).
  destruct (skb_put_data_spec (skb_reserve n (skb_headroom s)) (contents s))
    as (n' & -> & W' & Hc' & Hd' & _); [done| |].
  { rewrite contents_len by done. rewrite Ht', Ht, Eh. skb_arith. }
  cbn [mbind option_bind]. eexists. split; [done|]. split_and!; [exact W'| | |done].
  - change (contents (with_cb n' (cb s))) with (contents n'). by rewrite Hc', Hc.
  - change (skb_headroom (with_cb n' (cb s))) with (u32 (data n')). rewrite Hd'.
    change (u32 (data (skb_reserve n (skb_headroom s))))
      with (skb_headroom (skb_reserve n (skb_headroom s))). rewrite Hh'. lia.
Qed.
End alloc_laws.

(** ** Queues

    A queue is its list head node and its length counter.  A buffer is named
    by the address of its [list] member ([container_of] subtracts a constant).
    The spin lock brackets each operation and is not part of the state: each
    operation is one critical section. *)

Record sk_buff_head := mk_queue { qnode : ptr; qlen : Z }.

Section queue.
Context `{L : ListOps}.

Definition skb_queue_empty (q : sk_buff_head) (s : lstore) : option bool :=
  l_empty (qnode q) s.

Definition skb_queue_len (q : sk_buff_head) : Z := qlen q.

Definition skb_queue_tail (skb : ptr) (q : sk_buff_head) (s : lstore)
    : option (sk_buff_head * lstore) :=
  s ← l_add_tail skb (qnode q) s;
  Some (mk_queue (qnode q) (u32 (qlen q + 1)), s).

Definition skb_queue_head (skb : ptr) (q : sk_buff_head) (s : lstore)
    : option (sk_buff_head * lstore) :=
  s ← l_add skb (qnode q) s;
  Some (mk_queue (qnode q) (u32 (qlen q + 1)), s).

Definition skb_dequeue (q : sk_buff_head) (s : lstore)
    : option (ptr * sk_buff_head * lstore) :=
  e ← l_empty (qnode q) s;
  if (e : bool) then Some (NULL, q, s)
  else
    skb ← l_first (qnode q) s;
    s ← l_del skb s;
    Some (skb, mk_queue (qnode q) (u32 (qlen q - 1)), s).

Definition skb_unlink (skb : ptr) (q : sk_buff_head) (s : lstore)
    : option (sk_buff_head * lstore) :=
  s ← l_del skb s;
  Some (mk_queue (qnode q) (u32 (qlen q - 1)), s).

Definition skb_peek (q : sk_buff_head) (s : lstore) : option ptr :=
  e ← l_empty (qnode q) s;
  if (e : bool) then Some NULL else l_first (qnode q) s.

(** [skb_queue_purge]: the buffers freed, in order. *)
Fixpoint skb_queue_purge (fuel : nat) (q : sk_buff_head) (s : lstore)
    : option (list ptr * sk_buff_head * lstore) :=
  match fuel with
  | O => None
  | S k =>
      '(skb, q, s) ← skb_dequeue q s;
      if skb =? NULL then Some ([], q, s)
      else '(freed, q, s) ← skb_queue_purge k q s; Some (skb :: freed, q, s)
  end.

(** The queue [q] holds the buffers [xs], oldest first. *)
Definition queue_rep (q : sk_buff_head) (s : lstore) (xs : list ptr) : Prop :=
  l_rep s (qnode q) xs /\ qlen q = zlen xs /\ zlen xs < 2 ^ 32 /\ Forall (fun x => x <> NULL) xs.

Ltac queue_step := cbn [mbind option_bind]; eexists; split; [done|].

Lemma skb_queue_tail_ok q s xs skb :
  queue_rep q s xs -> l_node s skb -> skb ∉ qnode q :: xs -> skb <> NULL ->
  zlen xs + 1 < 2 ^ 32 ->
  exists r, skb_queue_tail skb q s = Some r /\ queue_rep (fst r) (snd r) (xs ++ [skb]).
Proof.
  intros (R & Hq & Hl & Hn) Hs Hni H0 Hb. unfold skb_queue_tail.
  destruct (l_add_tail_law s (qnode q) xs skb R Hs Hni) as (s' & -> & R' & _).
  queue_step. unfold queue_rep. cbn [fst snd qnode qlen]. split_and!; [done| |zlen|].
  - rewrite Hq, wrap_small; zlen. pose proof (zlen_nonneg xs). unfold in_range. lia.
  - apply Forall_app. by repeat constructor.
Qed.

Lemma skb_queue_head_ok q s xs skb :
  queue_rep q s xs -> l_node s skb -> skb ∉ qnode q :: xs -> skb <> NULL ->
  zlen xs + 1 < 2 ^ 32 ->
  exists r, skb_queue_head skb q s = Some r /\ queue_rep (fst r) (snd r) (skb :: xs).
Proof.
  intros (R & Hq & Hl & Hn) Hs Hni H0 Hb. unfold skb_queue_head.
  destruct (l_add_law s (qnode q) xs skb R Hs Hni) as (s' & -> & R' & _).
  queue_step. unfold queue_rep. cbn [fst snd qnode qlen]. split_and!; [done| |zlen|by constructor].
  rewrite Hq, wrap_small; zlen. pose proof (zlen_nonneg xs). unfold in_range. lia.
Qed.

Lemma queue_rep_del q s s' xs1 x xs2 :
  queue_rep q s (xs1 ++ x :: xs2) -> l_rep s' (qnode q) (xs1 ++ xs2) ->
  queue_rep (mk_queue (qnode q) (u32 (qlen q - 1))) s' (xs1 ++ xs2).
Proof.
  intros (R & Hq & Hl & Hn) R'. unfold queue_rep. cbn [qnode qlen]. zlen_in Hl. zlen_in Hq.
  pose proof (zlen_nonneg xs1). pose proof (zlen_nonneg xs2). split_and!; [done| |zlen|].
  - rewrite Hq, wrap_small; zlen. unfold in_range. lia.
  - apply Forall_app in Hn as [? Hn]. apply Forall_cons in Hn as [_ ?]. by apply Forall_app.
Qed.

Lemma skb_dequeue_ok q s xs :
  queue_rep q s xs ->
  exists r, skb_dequeue q s = Some r /\ fst (fst r) = default NULL (head xs) /\
    queue_rep (snd (fst r)) (snd r) (list.tail xs) /\
    qnode (snd (fst r)) = qnode q.
Proof.
  intros Q. pose proof Q as (R & Hq & Hl & Hn). unfold skb_dequeue.
  rewrite (l_empty_law _ _ _ R). cbn [mbind option_bind]. destruct xs as [|x xs].
  - rewrite bool_decide_true by done. eexists. by split.
  - rewrite bool_decide_false by done. rewrite (l_first_law _ _ _ R).
    cbn [mbind option_bind head from_option id].
    destruct (l_del_law s (qnode q) [] x xs R) as (s' & -> & R' & _). queue_step.
    cbn [fst snd list.tail head from_option id]. split_and!; [done| |done].
    by apply (queue_rep_del q s s' [] x xs).
Qed.

Lemma skb_unlink_ok q s xs1 x xs2 :
  queue_rep q s (xs1 ++ x :: xs2) ->
  exists r, skb_unlink x q s = Some r /\ queue_rep (fst r) (snd r) (xs1 ++ xs2).
Proof.
  intros Q. pose proof Q as (R & _). unfold skb_unlink.
  destruct (l_del_law s (qnode q) xs1 x xs2 R) as (s' & -> & R' & _). queue_step.
  by apply (queue_rep_del q s s' xs1 x xs2).
Qed.

Lemma skb_peek_ok q s xs : queue_rep q s xs -> skb_peek q s = Some (default NULL (head xs)).
Proof.
  intros (R & _). unfold skb_peek. rewrite (l_empty_law _ _ _ R). cbn [mbind option_bind].
  destruct xs as [|x xs]; [by rewrite bool_decide_true|].
  rewrite bool_decide_false by done. by rewrite (l_first_law _ _ _ R).
Qed.

(** Purging frees every buffer once, in order, and terminates: one round per
    buffer and one to see the empty queue. *)
Lemma skb_queue_purge_ok xs : forall q s fuel,
  queue_rep q s xs -> (length xs < fuel)%nat ->
  exists q' s', skb_queue_purge fuel q s = Some (xs, q', s') /\ queue_rep q' s' [] /\
    qnode q' = qnode q.
Proof.
  induction xs as [|x xs IH]; intros q s fuel Q Hf; (destruct fuel as [|fuel]; [lia|]);
    cbn [skb_queue_purge]; destruct (skb_dequeue_ok q s _ Q) as ([[y q1] s1] & -> & Ey & Q1 & Hn);
    cbn [mbind option_bind fst snd head from_option id list.tail] in *; subst y.
  - eexists _, _. rewrite Z.eqb_refl. by split.
  - destruct Q as (_ & _ & _ & [Hx _]%Forall_cons). destruct (Z.eqb_spec x NULL); [done|].
    destruct (IH q1 s1 fuel Q1 ltac:(cbn in Hf; lia)) as (q2 & s2 & -> & Q2 & Hn2).
    cbn [mbind option_bind]. eexists _, _. split_and!; [done..|by rewrite Hn2].
Qed.
End queue.

(** ** Queue histories *)

Inductive queue_op :=
| Enqueue (skb : ptr)       (* skb_queue_tail *)
| EnqueueHead (skb : ptr)   (* skb_queue_head *)
| Dequeue                   (* skb_dequeue *)
| Unlink (skb : ptr).       (* skb_unlink *)

(** The abstract queue, with the buffers handed out so far. *)
Definition spec_op (xs out : list ptr) (o : queue_op) : list ptr * list ptr :=
  match o with
  | Enqueue x => (xs ++ [x], out)
  | EnqueueHead x => (x :: xs, out)
  | Dequeue => (list.tail xs, out ++ [default NULL (head xs)])
  | Unlink x => (filter (fun y => y <> x) xs, out)
  end.

(** The caller's obligations: a buffer is queued once, and only a queued
    buffer is unlinked. *)
Definition op_allowed (hd : ptr) (node : ptr -> Prop) (xs : list ptr) (o : queue_op) : Prop :=
  match o with
  | Enqueue x | EnqueueHead x => node x /\ x ∉ hd :: xs /\ x <> NULL /\ zlen xs + 1 < 2 ^ 32
  | Dequeue => True
  | Unlink x => x ∈ xs
  end.

Fixpoint spec_run (xs out : list ptr) (os : list queue_op) : list ptr * list ptr :=
  match os with
  | [] => (xs, out)
  | o :: os => let '(xs, out) := spec_op xs out o in spec_run xs out os
  end.

Fixpoint ops_allowed (hd : ptr) (node : ptr -> Prop) (xs : list ptr) (os : list queue_op) : Prop :=
  match os with
  | [] => True
  | o :: os => op_allowed hd node xs o /\ ops_allowed hd node (fst (spec_op xs [] o)) os
  end.

Definition run_op (q : sk_buff_head) (h : heap) (out : list ptr) (o : queue_op)
    : option (sk_buff_head * heap * list ptr) :=
  match o with
  | Enqueue x => '(q, h) ← skb_queue_tail (L := heap_list_ops) x q h; Some (q, h, out)
  | EnqueueHead x => '(q, h) ← skb_queue_head (L := heap_list_ops) x q h; Some (q, h, out)
  | Dequeue => '(x, q, h) ← skb_dequeue (L := heap_list_ops) q h; Some (q, h, out ++ [x])
  | Unlink x => '(q, h) ← skb_unlink (L := heap_list_ops) x q h; Some (q, h, out)
  end.

Fixpoint run_ops (q : sk_buff_head) (h : heap) (out : list ptr) (os : list queue_op)
    : option (sk_buff_head * heap * list ptr) :=
  match os with
  | [] => Some (q, h, out)
  | o :: os => '(q, h, out) ← run_op q h out o; run_ops q h out os
  end.

Lemma filter_split (xs1 xs2 : list ptr) x :
  NoDup (xs1 ++ x :: xs2) -> filter (fun y => y <> x) (xs1 ++ x :: xs2) = xs1 ++ xs2.
Proof.
  intros ND. assert (x ∉ xs1 /\ x ∉ xs2) as [H1 H2].
  { rewrite <- Permutation_middle in ND. apply NoDup_cons in ND as [ND _]. clear -ND. set_solver. }
  rewrite filter_app, filter_cons, decide_False by (intros ?; done).
  f_equal; apply filter_id, Forall_forall; intros y Hy ->; done.
Qed.

Lemma run_op_ok q h xs out o :
  queue_rep q h xs -> op_allowed (qnode q) (fun x => is_Some (h !! x)) xs o ->
  exists q' h', run_op q h out o = Some (q', h', snd (spec_op xs out o)) /\
    queue_rep q' h' (fst (spec_op xs out o)) /\ qnode q' = qnode q /\
    (forall x, is_Some (h' !! x) <-> is_Some (h !! x)).
Proof.
  intros Q A. pose proof Q as (R & _). destruct o as [x|x| |x]; cbn [run_op spec_op op_allowed fst snd] in *.
  - destruct A as (A1 & A2 & A3 & A4). unfold skb_queue_tail.
    destruct (list_add_tail_spec h (qnode q) xs x R A1 A2) as (h' & E & R' & T).
    destruct (skb_queue_tail_ok (L := heap_list_ops) q h xs x Q A1 A2 A3 A4) as ([q1 h1] & E1 & Q1).
    unfold skb_queue_tail in E1. cbn in E1 |- *. rewrite E in E1 |- *. cbn [mbind option_bind] in *.
    injection E1 as <- <-. eexists _, _. split_and!; [done..|apply T].
  - destruct A as (A1 & A2 & A3 & A4). unfold skb_queue_head.
    destruct (list_add_spec h (qnode q) xs x R A1 A2) as (h' & E & R' & T).
    destruct (skb_queue_head_ok (L := heap_list_ops) q h xs x Q A1 A2 A3 A4) as ([q1 h1] & E1 & Q1).
    unfold skb_queue_head in E1. cbn in E1 |- *. rewrite E in E1 |- *. cbn [mbind option_bind] in *.
    injection E1 as <- <-. eexists _, _. split_and!; [done..|apply T].
  - destruct (skb_dequeue_ok (L := heap_list_ops) q h xs Q) as ([[x q1] h1] & E1 & Ex & Q1 & Hn).
    cbn [fst snd] in *. subst x. rewrite E1. cbn [mbind option_bind].
    eexists _, _. split_and!; [done..|]. unfold skb_dequeue in E1. cbn in E1.
    rewrite (list_empty_spec _ _ _ R) in E1. cbn [mbind option_bind] in E1. destruct xs as [|y ys].
    + rewrite bool_decide_true in E1 by done. by injection E1 as <- <-.
    + rewrite bool_decide_false, (list_first_spec _ _ _ R) in E1 by done. cbn [mbind option_bind head from_option id] in E1.
      destruct (list_del_spec h (qnode q) [] y ys R) as (h' & E & _ & _ & T).
      rewrite E in E1. cbn [mbind option_bind] in E1. injection E1 as <- <-. apply T.
  - apply list_elem_of_split in A as (xs1 & xs2 & ->).
    rewrite filter_split by (destruct R as [ND _]; by apply NoDup_cons in ND as [_ ?]).
    destruct (list_del_spec h (qnode q) xs1 x xs2 R) as (h' & E & R' & _ & T).
    destruct (skb_unlink_ok (L := heap_list_ops) q h xs1 x xs2 Q) as ([q1 h1] & E1 & Q1).
    unfold skb_unlink in E1 |- *. cbn in E1 |- *. rewrite E in E1 |- *. cbn [mbind option_bind] in *.
    injection E1 as <- <-. eexists _, _. split_and!; [done..|apply T].
Qed.

Lemma ops_allowed_node hd (P1 P2 : ptr -> Prop) os : forall xs,
  (forall x, P1 x <-> P2 x) -> ops_allowed hd P1 xs os -> ops_allowed hd P2 xs os.
Proof.
  induction os as [|o os IH]; intros xs HP; [done|]. cbn. intros [A B]. split; [|by apply IH].
  destruct o; cbn in *; rewrite <- ?HP; done.
Qed.

Lemma spec_op_fst xs out out' o : fst (spec_op xs out o) = fst (spec_op xs out' o).
Proof. by destruct o. Qed.

(** ** Properties *)

(** The sk_buff queue refines a sequence.  Every history of
    skb_queue_tail, skb_queue_head, skb_dequeue and skb_unlink in which a
    buffer is queued at most once at a time and only queued buffers are
    unlinked runs to completion on the linked representation; skb_dequeue
    returns exactly the buffers the abstract sequence returns (NULL when it
    is empty) and at the end the links and the 32-bit length counter describe
    the abstract sequence. *)
Theorem skb_queue_refines_sequence os : forall q h xs out,
  queue_rep (L := heap_list_ops) q h xs ->
  ops_allowed (qnode q) (fun x => is_Some (h !! x)) xs os ->
  exists q' h', run_ops q h out os = Some (q', h', snd (spec_run xs out os)) /\
    queue_rep (L := heap_list_ops) q' h' (fst (spec_run xs out os)) /\
    skb_queue_len q' = zlen (fst (spec_run xs out os)).
Proof.
  induction os as [|o os IH]; intros q h xs out Q A.
  - eexists _, _. split_and!; [done..|apply Q].
  - cbn [ops_allowed] in A. destruct A as [A1 A2].
    destruct (run_op_ok q h xs out o Q A1) as (q1 & h1 & E & Q1 & Hn & Hal).
    cbn [run_ops spec_run]. rewrite E. cbn [mbind option_bind].
    destruct (spec_op xs out o) as [xs1 out1] eqn:Es. cbn [fst snd] in *.
    destruct (IH q1 h1 xs1 out1 Q1) as (q2 & h2 & E2 & Q2); [|by eauto].
    rewrite (spec_op_fst xs [] out), Es in A2. cbn [fst] in A2. rewrite Hn.
    eapply ops_allowed_node; [|exact A2]. intros x. by rewrite Hal.
Qed.

Definition demo_queue_heap : heap :=
  list_to_map [(1, mk_list_head 1 1); (2, mk_list_head 2 2); (3, mk_list_head 3 3)].

Lemma skb_queue_refines_sequence_witness :
  exists q' h', run_ops (mk_queue 1 0) demo_queue_heap [] [Enqueue 2; EnqueueHead 3; Dequeue; Dequeue; Dequeue]
    = Some (q', h', [3; 2; 0]) /\ queue_rep (L := heap_list_ops) q' h' [] /\ skb_queue_len q' = 0.
Proof.
  refine (skb_queue_refines_sequence [Enqueue 2; EnqueueHead 3; Dequeue; Dequeue; Dequeue]
            (mk_queue 1 0) demo_queue_heap [] [] _ _).
  - split; [|split; [|split]]; [|done|done|by constructor].
    split; [apply (bool_decide_unpack _); by vm_compute|by vm_compute].
  - cbn [ops_allowed op_allowed spec_op fst snd list.tail app qnode].
    repeat split; try done; try (vm_compute; by eexists); apply (bool_decide_unpack _); by vm_compute.
Defined.

(** skb_copy never writes outside the new allocation: for a well-formed
    buffer either an allocation fails or the copy is a well-formed buffer with
    the same packet, the same headroom and the same control block. *)
Theorem skb_copy_faithful (IOMalloc : Z -> option (list Z)) s prio :
  IOMalloc_sized IOMalloc -> skb_wf s -> end_ s + 64 < 2 ^ 32 ->
  skb_copy IOMalloc s prio = Some None \/
  exists n, skb_copy IOMalloc s prio = Some (Some n) /\ skb_wf n /\
    contents n = contents s /\ skb_headroom n = skb_headroom s /\ cb n = cb s.
Proof. intros Hm W Hs. by apply skb_copy_ok. Qed.

(** An allocator that serves the size asked for (nothing for a negative one). *)
Definition demo_IOMalloc (n : Z) : option (list Z) :=
  if n <? 0 then None else Some (replicate (Z.to_nat n) 0xA5).

Lemma demo_IOMalloc_sized : IOMalloc_sized demo_IOMalloc.
Proof. intros n b. unfold demo_IOMalloc. destruct (Z.ltb_spec n 0); [done|]. intros [= <-]. zlen. Qed.

Definition demo_skb : sk_buff := mk_skb [9; 9; 1; 2; 3; 9] 2 5 6 3 0 0 0 0 0 0 (zeros 64).

Lemma skb_copy_faithful_witness :
  contents demo_skb = [1; 2; 3] /\
  (skb_copy demo_IOMalloc demo_skb 0 = Some None \/
   exists n, skb_copy demo_IOMalloc demo_skb 0 = Some (Some n) /\ skb_wf n /\
     contents n = contents demo_skb /\ skb_headroom n = skb_headroom demo_skb /\ cb n = cb demo_skb).
Proof.
  split; [done|]. apply (skb_copy_faithful demo_IOMalloc demo_skb 0 demo_IOMalloc_sized);
    vm_compute; by repeat split.
Defined.

(** headroom and tailroom accounting.  On a well-formed buffer, a write of
    at most the tailroom appends to the packet, a push of at most the headroom
    prepends exactly that many bytes, pulling them again gives back the packet,
    trimming keeps a prefix; each keeps the buffer well formed and moves
    exactly that many bytes of head- or tailroom. *)
Theorem skb_room_accounting s bs n k :
  skb_wf s -> zlen bs <= skb_tailroom s -> 0 <= n <= skb_headroom s -> 0 <= k ->
  (exists s', skb_put_data s bs = Some s' /\ skb_wf s' /\ contents s' = contents s ++ bs /\
     skb_tailroom s' = skb_tailroom s - zlen bs) /\
  (let p := snd (skb_push s n) in
   skb_wf p /\ (exists hdr, zlen hdr = n /\ contents p = hdr ++ contents s) /\
   skb_headroom p = skb_headroom s - n /\
   contents (snd (skb_pull p n)) = contents s) /\
  (skb_wf (skb_trim s k) /\ contents (skb_trim s k) = ztake k (contents s)).
Proof.
  intros W Hb Hn Hk. split_and!.
  - destruct (skb_put_data_spec s bs W Hb) as (s' & ? & ? & ? & _ & _ & ?). eauto 10.
  - cbn zeta. destruct (skb_push_spec s n W Hn) as (W' & hdr & Hl & Hc & Hh).
    assert (len (snd (skb_push s n)) = n + len s) as Hlen.
    { rewrite <- (contents_len _ W'), Hc, zlen_app, (contents_len _ W). lia. }
    split_and!; [done|by eauto|done|].
    destruct (skb_pull_spec (snd (skb_push s n)) n W') as (_ & -> & _).
    + rewrite Hlen. unfold skb_wf in W. lia.
    + rewrite Hc. by apply zdrop_app_exact'.
  - by apply skb_trim_spec.
  - by apply skb_trim_spec.
Qed.

Lemma skb_room_accounting_witness :
  skb_wf demo_skb /\ exists s', skb_put_data demo_skb [7] = Some s' /\ skb_wf s' /\
    contents s' = [1; 2; 3] ++ [7] /\ skb_tailroom s' = 1 - 1.
Proof.
  split; [by vm_compute|].
  refine (proj1 (skb_room_accounting demo_skb [7] 2 1 _ _ _ _)); by vm_compute.
Defined.
