(* ===== verification/LogRing.v ===== *)
(** * The log ring of [src/src/compat/rtw88_compat.c]

    [rtw88_printk] writes its message to a ring of 8192 bytes that
    [rtw88_read_log] empties.  The ring's lock makes each call one step, so a
    history is a list of calls. *)

From S2P Require Import Prelude.

Definition ring_size : Z := 8192.
Definition KERN_DEBUG : Z := 3.

(** [rtw88_log_ring], [rtw88_log_head], [rtw88_log_tail], [rtw88_log_level],
    and whether [rtw88_log_lock] is allocated. *)
Record log_state := mk_log { ring : list Z; head : Z; tail : Z; log_level : Z; log_lock : bool }.
#[export] Instance eta_log : Eta log_state := fun s => mk_log (ring s) (head s) (tail s) (log_level s) (log_lock s).

(** One turn of the loop of [rtw88_log_append]. *)
Definition log_put (c : Z) (s : log_state) : option log_state :=
  r ← st (ring s) (head s) c;
  let h := u32 (head s + 1) mod ring_size in
  Some (s <| ring := r |> <| head := h |> <| tail := if h =? tail s then u32 (tail s + 1) mod ring_size else tail s |>).

(** The loop reads [msg] up to its terminator; [None] is a read past the end
    of [msg] or a write outside the ring. *)
Fixpoint log_chars (msg : list Z) (s : log_state) : option log_state :=
  match msg with
  | [] => None
  | c :: msg => if c =? 0 then Some s else s ← log_put c s; log_chars msg s
  end.
Definition rtw88_log_append (msg : list Z) (s : log_state) : option log_state :=
  if log_lock s then log_chars msg s else Some s.

Definition level_str (level : Z) : list Z :=
  if level =? 0 then chars "ERR" else if level =? 1 then chars "WARN"
  else if level =? 2 then chars "INFO" else if level =? 3 then chars "DBG" else chars "???".

(** [snprintf(buf, 512, ...)]: at most 511 characters and a terminator. *)
Definition snprintf512 (text : list Z) : list Z := ztake 511 text ++ [0].

(** What [%s] prints: the characters before the terminator. *)
Fixpoint cstr (text : list Z) : list Z :=
  match text with [] => [] | c :: text => if c =? 0 then [] else c :: cstr text end.

(** [text] is what the caller's format and arguments expand to. *)
Definition ring_msg (level : Z) (text : list Z) : list Z :=
  let buf := snprintf512 text in snprintf512 (chars "[rtw88 " ++ level_str level ++ chars "] " ++ cstr buf).
Definition rtw88_printk (level : Z) (text : list Z) (s : log_state) : option log_state :=
  if log_level s <? level then Some s else rtw88_log_append (ring_msg level text) s.

(** The loop of [rtw88_read_log]; [fuel] bounds its turns by the ring. *)
Fixpoint read_loop (fuel : nat) (max_len : Z) (out : list Z) (s : log_state) : option (list Z * log_state) :=
  if (tail s =? head s) || (max_len <=? zlen out) then Some (out, s)
  else
    match fuel with
    | O => None
    | S fuel =>
        c ← ld (ring s) (tail s);
        read_loop fuel max_len (out ++ [c]) (s <| tail := u32 (tail s + 1) mod ring_size |>)
    end.
(** The bytes put in [out_buf], whose room [max_len] is. *)
Definition rtw88_read_log (max_len : Z) (s : log_state) : option (list Z * log_state) :=
  if (max_len =? 0) || negb (log_lock s) then Some ([], s) else read_loop (Z.to_nat ring_size) max_len [] s.

(** The ring as [rtw88_compat_init] leaves it, its lock allocated. *)
Definition log_boot : log_state := mk_log (zeros ring_size) 0 0 KERN_DEBUG true.

(** The calls of the logging interface; [LogLevel] is the assignment of
    [RTW88UserClient::sSetDebug]. *)
Inductive log_op := LogPrint (level : Z) (text : list Z) | LogRead (max_len : Z) | LogLevel (level : Z).
Definition log_step (o : log_op) (s : log_state) : option (list Z * log_state) :=
  match o with
  | LogPrint level text => s ← rtw88_printk level text s; Some ([], s)
  | LogRead max_len => rtw88_read_log max_len s
  | LogLevel level => Some ([], s <| log_level := level |>)
  end.
Fixpoint log_run (os : list log_op) (s : log_state) : option (list (list Z) * log_state) :=
  match os with
  | [] => Some ([], s)
  | o :: os => '(out, s) ← log_step o s; '(outs, s) ← log_run os s; Some (out :: outs, s)
  end.

(** ** A bounded queue of characters *)

Definition lastn (n : Z) (l : list Z) : list Z := zdrop (zlen l - n) l.
Lemma lastn_all n l : zlen l <= n -> lastn n l = l.
Proof. intros. unfold lastn, zdrop. by replace (Z.to_nat (zlen l - n)) with O by lia. Qed.
Lemma zlen_lastn n l : 0 <= n -> zlen (lastn n l) = Z.min n (zlen l).
Proof. intros. pose proof (zlen_nonneg l). unfold lastn. rewrite zlen_zdrop. lia. Qed.
Lemma lastn_lastn n l x : 0 <= n -> lastn n (lastn n l ++ x) = lastn n (l ++ x).
Proof.
  intros. pose proof (zlen_nonneg l). pose proof (zlen_nonneg x). destruct (Z.le_gt_cases (zlen l) n); [by rewrite (lastn_all n l)|].
  assert (zlen (lastn n l) = n) as E by (rewrite zlen_lastn; lia).
  unfold lastn at 1 3. rewrite !zlen_app, E. unfold lastn.
  replace (zdrop (zlen l - n) l ++ x) with (zdrop (zlen l - n) (l ++ x)).
  - rewrite zdrop_zdrop by lia. f_equal. lia.
  - unfold zdrop, zlen. rewrite drop_app_le by (unfold zlen in *; lia). done.
Qed.

(** The characters logged and not yet read, the oldest first. *)
Definition contents (s : log_state) : list Z :=
  map (fun i => ring s !!! Z.to_nat ((tail s + i) mod ring_size)) (seqZ 0 ((head s - tail s) mod ring_size)).

Record log_wf (s : log_state) : Prop := {
  lw_ring : zlen (ring s) = ring_size;
  lw_head : 0 <= head s < ring_size;
  lw_tail : 0 <= tail s < ring_size
}.

Lemma zlen_contents s : zlen (contents s) = (head s - tail s) mod ring_size.
Proof.
  unfold contents, zlen. rewrite length_map, length_seqZ. unfold ring_size. euclid.
Qed.

Lemma next_index i : 0 <= i < ring_size -> u32 (i + 1) mod ring_size = if i =? 8191 then 0 else i + 1.
Proof.
  unfold ring_size. intros. rewrite wrap_small by (split; [lia|]; change (2 ^ 32) with 4294967296; lia).
  case_cmp; [subst; done|]. rewrite Z.mod_small; lia.
Qed.

(** Index arithmetic modulo the ring's size. *)
Ltac ring_arith := unfold ring_size in *; Z.to_euclidean_division_equations; lia.

Lemma contents_extend c s : log_wf s ->
  contents s ++ [c] = map (fun i => (<[Z.to_nat (head s) := c]> (ring s)) !!! Z.to_nat ((tail s + i) mod ring_size))
                          (seqZ 0 ((head s - tail s) mod ring_size + 1)).
Proof.
  intros [HR HH HT]. set (n := (head s - tail s) mod ring_size). assert (0 <= n < ring_size) as Hn by (unfold n; ring_arith).
  rewrite (seqZ_app 0 n 1) by lia. rewrite map_app. f_equal.
  - unfold contents. fold n. apply map_ext_in. intros i Hi%list_elem_of_In%elem_of_seqZ.
    rewrite list_lookup_total_insert_ne; [done|]. unfold n in *. ring_arith.
  - replace (seqZ (0 + n) 1) with [n] by (cbn; f_equal; lia). cbn [map]. f_equal.
    replace ((tail s + n) mod ring_size) with (head s) by (unfold n; ring_arith).
    rewrite list_lookup_total_insert_eq; [done|]. unfold zlen in HR. lia.
Qed.

Lemma log_put_ok c s : log_wf s -> exists s', log_put c s = Some s' /\ log_wf s' /\
  contents s' = lastn 8191 (contents s ++ [c]) /\ log_level s' = log_level s /\ log_lock s' = log_lock s.
Proof.
  intros W. pose proof W as [HR HH HT]. unfold log_put. rewrite st_Some by lia. cbn [mbind option_bind].
  rewrite !next_index by done. eexists. split; [reflexivity|].
  assert (0 <= (if head s =? 8191 then 0 else head s + 1) < ring_size) as Hh by (unfold ring_size in *; case_cmp).
  split; [|split; [|done]].
  { split; cbn; [rewrite zlen_insert; done|done|]. destruct (_ =? tail s); [|done]. unfold ring_size in *; case_cmp. }
  rewrite contents_extend by done. set (g := fun i => _ !!! Z.to_nat ((tail s + i) mod ring_size)).
  destruct (Z.eqb_spec (if head s =? 8191 then 0 else head s + 1) (tail s)) as [E|E].
  - assert ((head s - tail s) mod ring_size = 8191) as -> by (revert E; unfold ring_size in *; case_cmp; ring_arith).
    change (8191 + 1) with (1 + 8191). rewrite (seqZ_app 0 1 8191), map_app by lia. cbn [upd].
    unfold contents. cbn [tail head ring]. unfold lastn.
    replace (_ mod ring_size) with 8191 by (revert E; unfold ring_size in *; case_cmp; ring_arith).
    change (seqZ 0 1) with [0]. cbn [map app].
    replace (zlen _ - 8191) with 1 by (rewrite zlen_cons; unfold zlen; rewrite length_map, length_seqZ; lia).
    change (zdrop 1 (g 0 :: ?l)) with l. rewrite <- (fmap_add_seqZ 1 0 8191) at 1.
    unfold fmap. change (list_fmap Z Z ?f ?l) with (map f l). rewrite map_map. apply map_ext_in. intros i Hi%list_elem_of_In%elem_of_seqZ.
    unfold g. do 2 f_equal. revert E. case_cmp; ring_arith.
  - unfold lastn. unfold zlen at 1. rewrite length_map, length_seqZ.
    assert ((head s - tail s) mod ring_size < 8191) by (revert E; unfold ring_size in *; case_cmp; ring_arith).
    replace (zdrop _ _) with (map g (seqZ 0 ((head s - tail s) mod ring_size + 1))) by (unfold zdrop; replace (Z.to_nat _) with O by lia; done).
    unfold contents. cbn [tail head ring upd]. f_equal. f_equal. revert E. case_cmp; ring_arith.
Qed.

(** The whole message goes in, the oldest characters out. *)
Lemma log_chars_ok msg s : log_wf s -> In 0 msg -> exists s', log_chars msg s = Some s' /\ log_wf s' /\
  contents s' = lastn 8191 (contents s ++ cstr msg) /\ log_level s' = log_level s /\ log_lock s' = log_lock s.
Proof.
  revert s. induction msg as [|c msg IH]; intros s W H0; [done|]. cbn [log_chars cstr].
  destruct (Z.eqb_spec c 0) as [Hc|Hc].
  - exists s. split_and!; try done. rewrite app_nil_r, lastn_all; [done|]. rewrite zlen_contents. pose proof (lw_head s W); pose proof (lw_tail s W). ring_arith.
  - destruct H0 as [?|H0]; [congruence|]. destruct (log_put_ok c s W) as (s1 & -> & W1 & C1 & L1 & K1). cbn [mbind option_bind].
    destruct (IH s1 W1 H0) as (s' & -> & W' & C' & L' & K'). exists s'. split_and!; [done..| |congruence|congruence].
    rewrite C', C1, lastn_lastn by lia. by rewrite <- app_assoc.
Qed.

Lemma contents_cons s : log_wf s -> tail s <> head s -> exists c, ld (ring s) (tail s) = Some c /\
  contents s = c :: contents (s <| tail := u32 (tail s + 1) mod ring_size |>).
Proof.
  intros [HR HH HT] Hne. unfold ld. rewrite (proj2 (Z.leb_le 0 (tail s))) by lia.
  destruct (lookup_lt_is_Some_2 (ring s) (Z.to_nat (tail s))) as [c Hc]; [unfold zlen in HR; lia|]. exists c. split; [done|].
  unfold contents. cbn [tail head ring upd]. rewrite next_index by done.
  set (n := (head s - tail s) mod ring_size). assert (0 < n < ring_size) as Hn by (unfold n; ring_arith).
  replace n with (1 + (n - 1)) by lia. rewrite (seqZ_app 0 1 (n - 1)), map_app by lia. change (seqZ 0 1) with [0]. cbn [map app]. f_equal.
  - rewrite Z.add_0_r, Z.mod_small by done. by apply list_lookup_total_correct.
  - replace (_ mod ring_size) with (n - 1) by (unfold n; unfold ring_size in *; case_cmp; ring_arith).
    change (seqZ (0 + 1)) with (seqZ (1 + 0)). rewrite <- (fmap_add_seqZ 1 0 (n - 1)). unfold fmap. change (list_fmap Z Z ?f ?l) with (map f l). rewrite map_map.
    apply map_ext. intros i. do 2 f_equal. unfold ring_size in *. case_cmp; ring_arith.
Qed.

Lemma read_loop_ok fuel max_len out s : log_wf s -> zlen (contents s) <= Z.of_nat fuel ->
  exists s', read_loop fuel max_len out s = Some (out ++ ztake (max_len - zlen out) (contents s), s') /\ log_wf s' /\
    contents s' = zdrop (max_len - zlen out) (contents s) /\ log_level s' = log_level s /\ log_lock s' = log_lock s.
Proof.
  revert out s. induction fuel as [|fuel IH]; intros out s W Hf; pose proof (zlen_contents s) as Hl; cbn [read_loop];
    destruct (Z.eqb_spec (tail s) (head s)) as [E|E].
  1, 3: exists s; rewrite E, Z.sub_diag in Hl; assert (contents s = []) as -> by (destruct (contents s); [done|]; rewrite zlen_cons in Hl; pose proof (zlen_nonneg l); change (0 mod ring_size) with 0 in Hl; lia);
    unfold ztake, zdrop; rewrite take_nil, drop_nil, app_nil_r; done.
  - exfalso. pose proof (lw_head s W); pose proof (lw_tail s W). ring_arith.
  - cbn [orb]. destruct (Z.leb_spec max_len (zlen out)).
    + exists s. unfold ztake, zdrop. replace (Z.to_nat _) with O by lia. cbn [take drop]. by rewrite app_nil_r.
    + destruct (contents_cons s W E) as (c & -> & Hc). cbn [mbind option_bind]. set (s1 := s <| tail := _ |>) in *.
      assert (log_wf s1) as W1 by (split; [apply W..|]; cbn; unfold ring_size in *; ring_arith).
      destruct (IH (out ++ [c]) s1 W1) as (s' & -> & W' & C' & L'). { rewrite Hc, zlen_cons in Hf. lia. }
      rewrite zlen_app in C' |- *. change (zlen [c]) with 1 in *. exists s'. rewrite Hc. unfold ztake, zdrop in *.
      replace (Z.to_nat (max_len - zlen out)) with (S (Z.to_nat (max_len - (zlen out + 1)))) by lia. cbn [take drop].
      by rewrite <- app_assoc.
Qed.

Lemma read_log_ok max_len s : log_wf s -> log_lock s = true ->
  exists s', rtw88_read_log max_len s = Some (ztake max_len (contents s), s') /\ log_wf s' /\
    contents s' = zdrop max_len (contents s) /\ log_level s' = log_level s /\ log_lock s' = log_lock s.
Proof.
  intros W K. unfold rtw88_read_log. rewrite K. cbn [negb]. rewrite orb_false_r. destruct (Z.eqb_spec max_len 0) as [->|].
  - exists s. rewrite ztake_0, zdrop_0. by split_and!.
  - destruct (read_loop_ok (Z.to_nat ring_size) max_len [] s W) as (s' & E & H).
    { rewrite zlen_contents. unfold ring_size. ring_arith. }
    exists s'. rewrite K, zlen_nil, Z.sub_0_r in *. exact (conj E H).
Qed.

(** ** What the interface promises: a queue of at most 8191 characters that
    forgets the oldest *)

Definition fifo_step (o : log_op) (f : Z * list Z) : list Z * (Z * list Z) :=
  let '(level, q) := f in
  match o with
  | LogPrint l text => ([], (level, if level <? l then q else lastn 8191 (q ++ cstr (ring_msg l text))))
  | LogRead max_len => (ztake max_len q, (level, zdrop max_len q))
  | LogLevel l => ([], (l, q))
  end.
Fixpoint fifo_run (os : list log_op) (f : Z * list Z) : list (list Z) * (Z * list Z) :=
  match os with
  | [] => ([], f)
  | o :: os => let '(out, f) := fifo_step o f in let '(outs, f) := fifo_run os f in (out :: outs, f)
  end.

Definition log_abs (s : log_state) : Z * list Z := (log_level s, contents s).

Lemma ring_msg_terminated level text : In 0 (ring_msg level text).
Proof. unfold ring_msg, snprintf512. apply in_or_app. right. by left. Qed.

Lemma log_step_ok o s : log_wf s -> log_lock s = true ->
  exists s', log_step o s = Some (fst (fifo_step o (log_abs s)), s') /\ log_wf s' /\ log_lock s' = true /\ log_abs s' = snd (fifo_step o (log_abs s)).
Proof.
  intros W K. unfold log_abs. destruct o as [l text|m|l]; cbn [log_step fifo_step fst snd].
  - unfold rtw88_printk, rtw88_log_append. destruct (log_level s <? l); [by exists s|]. rewrite K.
    destruct (log_chars_ok (ring_msg l text) s W (ring_msg_terminated l text)) as (s' & -> & W' & C & L & K'). exists s'. split_and!; try done; congruence.
  - destruct (read_log_ok m s W K) as (s' & -> & W' & C & L & K'). exists s'. split_and!; try done; congruence.
  - eexists. split; [reflexivity|]. split; [|done]. by destruct W.
Qed.

Lemma log_run_ok os s : log_wf s -> log_lock s = true ->
  exists s', log_run os s = Some (fst (fifo_run os (log_abs s)), s') /\ log_wf s' /\ log_abs s' = snd (fifo_run os (log_abs s)).
Proof.
  revert s. induction os as [|o os IH]; intros s W K; cbn [log_run fifo_run]; [by exists s|].
  destruct (log_step_ok o s W K) as (s1 & -> & W1 & K1 & A1). cbn [mbind option_bind].
  destruct (fifo_step o (log_abs s)) as [out f1]. cbn [fst snd] in *. subst f1.
  destruct (IH s1 W1 K1) as (s' & -> & W' & A'). destruct (fifo_run os (log_abs s1)) as [outs f2]. by exists s'.
Qed.

(** C17: The log ring is a bounded queue.  Whatever the messages, their
    levels and the readers' buffer sizes, every call answers (no access
    outside the ring or a message), a reader receives the oldest unread
    characters in the order they were logged, as many as its buffer takes, and
    when more than 8191 wait the oldest are forgotten, never the newest. *)
Theorem log_ring_bounded_fifo os :
  exists s, log_run os log_boot = Some (fst (fifo_run os (KERN_DEBUG, [])), s) /\
    log_wf s /\ zlen (contents s) <= 8191 /\ contents s = snd (snd (fifo_run os (KERN_DEBUG, []))).
Proof.
  destruct (log_run_ok os log_boot) as (s & E & W & A); [by split|done|].
  change (log_abs log_boot) with (KERN_DEBUG, @nil Z) in *. exists s. split; [done|]. split; [done|].
  split; [rewrite zlen_contents; ring_arith|by rewrite <- A].
Qed.

Example log_line : exists s, log_run [LogPrint 1 (chars "fw not ready"); LogPrint 4 (chars "quiet"); LogRead 4095] log_boot =
  Some ([[]; []; chars "[rtw88 WARN] fw not ready"], s).
Proof. eexists. vm_compute. reflexivity. Qed.
