(* ===== verification/Dma.v ===== *)
(** * DMA buffers: [src/src/kext/AirportRTW88.cpp] and [src/src/kext/RTW88HwOps.cpp]

    The controller answers the driver's DMA calls ([rtw88_dma_ops]) with
    bounce buffers below 4 GB, which it lists in [_dmaList] until they are
    freed, or in [_dmaPendingFree] when they were freed where sleeping is not
    allowed.  [RTW88PCIDevice.cpp] has the same functions, and drains the
    pending list in its data path too.

    Memory is two maps: the bytes of the live descriptors, by their virtual
    address, and the driver's own buffers.  A result [None] is a fault: a
    descriptor released twice or used after its release, or a copy outside a
    buffer. *)

From S2P Require Import Prelude.

Definition DMA_FROM_DEVICE : Z := 0.
Definition DMA_TO_DEVICE : Z := 1.
Definition DMA_BIDIRECTIONAL : Z := 2.

(** [RTW88DMAEntry]; its descriptor is known by [virt]. *)
Record dma_entry := mk_dma { virt : Z; phys : Z; size : Z; orig_va : Z }.
Record dma_state := mk_dmas {
  _dmaList : list dma_entry; _dmaPendingFree : list dma_entry;
  descs : gmap Z (list Z); (* the live descriptors *)
  own : gmap Z (list Z)    (* the driver's buffers *)
}.
#[export] Instance dma_entry_eq_dec : EqDecision dma_entry.
Proof. solve_decision. Defined.
#[export] Instance eta_dma_entry : Eta dma_entry := fun e => mk_dma (virt e) (phys e) (size e) (orig_va e).
#[export] Instance eta_dma_state : Eta dma_state := fun s => mk_dmas (_dmaList s) (_dmaPendingFree s) (descs s) (own s).

(** What IOKit answers to [allocCoherent]: no descriptor, one that cannot be
    prepared or has no address; a descriptor but no memory for the entry, whose
    address the caller's variable already holds; a descriptor at these
    addresses. *)
Inductive grant := GrantNone | GrantNoEntry (pa : Z) | Grant (va pa : Z).

(** The virtual and physical address, 0 for the null pointer. *)
Definition allocCoherent (g : grant) (n : Z) (s : dma_state) : Z * Z * dma_state :=
  match g with
  | GrantNone => (0, 0, s)
  | GrantNoEntry pa => (0, pa, s)
  | Grant va pa => (va, pa, s <| descs := <[va := zeros n]> (descs s) |> <| _dmaList := mk_dma va pa n 0 :: _dmaList s |>)
  end.

(** [e->desc->complete(); e->desc->release(); IOFree(e)] *)
Definition release (e : dma_entry) (s : dma_state) : option dma_state :=
  match descs s !! virt e with Some _ => Some (s <| descs := delete (virt e) (descs s) |>) | None => None end.
Fixpoint release_all (l : list dma_entry) (s : dma_state) : option dma_state :=
  match l with [] => Some s | e :: l => s ← release e s; release_all l s end.

(** The loops over [_dmaList]: the first entry that fits, and the others. *)
Fixpoint unlink (p : dma_entry -> bool) (l : list dma_entry) : option (dma_entry * list dma_entry) :=
  match l with
  | [] => None
  | e :: l => if p e then Some (e, l) else '(x, l) ← unlink p l; Some (x, e :: l)
  end.
Definition free_entry (p : dma_entry -> bool) (preemptible : bool) (s : dma_state) : option dma_state :=
  match unlink p (_dmaList s) with
  | None => Some s
  | Some (e, l) =>
      let s := s <| _dmaList := l |> in
      if preemptible then release e s else Some (s <| _dmaPendingFree := e :: _dmaPendingFree s |>)
  end.
Definition freeCoherent (va : Z) : bool -> dma_state -> option dma_state := free_entry (fun e => virt e =? va).
Definition freeCoherentByPhys (pa : Z) : bool -> dma_state -> option dma_state := free_entry (fun e => phys e =? pa).

Fixpoint set_orig (pa orig : Z) (l : list dma_entry) : list dma_entry :=
  match l with
  | [] => []
  | e :: l => if phys e =? pa then e <| orig_va := orig |> :: l else e :: set_orig pa orig l
  end.
Definition setBounceOrigVA (pa orig : Z) (s : dma_state) : dma_state := s <| _dmaList := set_orig pa orig (_dmaList s) |>.

(** [memcpy] to one of the driver's buffers. *)
Definition copy_to_own (ptr : Z) (v : list Z) (s : dma_state) : option dma_state :=
  b ← own s !! ptr; b ← stn b 0 v; Some (s <| own := <[ptr := b]> (own s) |>).

Definition syncBounceForCpu (dma n : Z) (s : dma_state) : option dma_state :=
  match find (fun e => (phys e =? dma) && negb (orig_va e =? 0) && negb (virt e =? 0)) (_dmaList s) with
  | None => Some s
  | Some e =>
      b ← descs s !! virt e;
      v ← ldn b 0 (if n <=? size e then n else size e);
      copy_to_own (orig_va e) v s
  end.

Definition drainPendingFree (s : dma_state) : option dma_state := release_all (_dmaPendingFree s) (s <| _dmaPendingFree := [] |>).
Definition releaseDMAEntries (s : dma_state) : option dma_state := release_all (_dmaList s) (s <| _dmaList := [] |>).

(** The DMA part of [teardown]. *)
Definition dma_teardown (s : dma_state) : option dma_state := s ← drainPendingFree s; releaseDMAEntries s.

(** ** The driver's calls ([_dma_ops]), with a controller in place *)

(** The handle, 0 on failure. *)
Definition compat_dma_map (g : grant) (ptr n dir : Z) (s : dma_state) : option (Z * dma_state) :=
  if ptr =? 0 then Some (0, s)
  else
    let '(bounce, pa, s) := allocCoherent g n s in
    if bounce =? 0 then Some (0, s)
    else
      let s := setBounceOrigVA pa ptr s in
      if (dir =? 1) || (dir =? 2) then
        b ← own s !! ptr; v ← ldn b 0 n;
        d ← descs s !! bounce; d ← stn d 0 v;
        Some (pa, s <| descs := <[bounce := d]> (descs s) |>)
      else Some (pa, s).
Definition compat_dma_unmap (addr : Z) (preemptible : bool) (s : dma_state) : option dma_state := freeCoherentByPhys addr preemptible s.
Definition compat_dma_sync_cpu (addr n dir : Z) (s : dma_state) : option dma_state :=
  if dir =? 0 then syncBounceForCpu addr n s else Some s.
Definition dma_mapping_error (addr : Z) : bool := (addr =? 0) || (addr =? 2 ^ 64 - 1).

(** The device reads and writes the buffers it was given the address of. *)
Definition device_entry (pa : Z) (s : dma_state) : option dma_entry := find (fun e => phys e =? pa) (_dmaList s).
Definition device_read (pa : Z) (s : dma_state) : option (list Z) :=
  match device_entry pa s with Some e => descs s !! virt e | None => Some [] end.
Definition device_write (pa off : Z) (v : list Z) (s : dma_state) : option dma_state :=
  match device_entry pa s with
  | Some e => b ← descs s !! virt e; b ← stn b off v; Some (s <| descs := <[virt e := b]> (descs s) |>)
  | None => Some s
  end.

(** [DmaTraffic]: [outputPacket] or [injectRxFrame] of the front end, which
    drain in [RTW88PCIDevice] and do not in [AirportRTW88]. *)
Inductive dma_op :=
| DmaAlloc (g : grant) (n : Z)
| DmaFree (va : Z) (preemptible : bool)
| DmaMap (g : grant) (ptr n dir : Z)
| DmaUnmap (addr : Z) (preemptible : bool)
| DmaSyncCpu (addr n dir : Z)
| DmaTraffic
| DeviceRead (pa : Z)
| DeviceWrite (pa off : Z) (v : list Z)
| CpuWrite (ptr : Z) (v : list Z).

(** What the caller or the device sees. *)
Inductive dma_seen := SeenNothing | SeenHandle (h : Z) | SeenBytes (b : list Z).

Definition dma_step (airport : bool) (o : dma_op) (s : dma_state) : option (dma_seen * dma_state) :=
  match o with
  | DmaAlloc g n => let '(va, pa, s) := allocCoherent g n s in Some (SeenHandle va, s)
  | DmaFree va p => s ← freeCoherent va p s; Some (SeenNothing, s)
  | DmaMap g ptr n dir => '(h, s) ← compat_dma_map g ptr n dir s; Some (SeenHandle h, s)
  | DmaUnmap addr p => s ← compat_dma_unmap addr p s; Some (SeenNothing, s)
  | DmaSyncCpu addr n dir => s ← compat_dma_sync_cpu addr n dir s; Some (SeenNothing, s)
  | DmaTraffic => s ← (if airport then Some s else drainPendingFree s); Some (SeenNothing, s)
  | DeviceRead pa => b ← device_read pa s; Some (SeenBytes b, s)
  | DeviceWrite pa off v => s ← device_write pa off v s; Some (SeenNothing, s)
  | CpuWrite ptr v => s ← copy_to_own ptr v s; Some (SeenNothing, s)
  end.

Fixpoint dma_run (airport : bool) (os : list dma_op) (s : dma_state) : option (list dma_seen * dma_state) :=
  match os with
  | [] => Some ([], s)
  | o :: os => '(r, s) ← dma_step airport o s; '(rs, s) ← dma_run airport os s; Some (r :: rs, s)
  end.

Definition no_dma : dma_state := mk_dmas [] [] ∅ ∅.

(** ** Every descriptor is in one list and live *)

Definition tracked (s : dma_state) : list dma_entry := _dmaList s ++ _dmaPendingFree s.

Record entry_ok (d o : gmap Z (list Z)) (e : dma_entry) : Prop := {
  eo_virt : virt e <> 0;
  eo_phys : 0 < phys e < 2 ^ 32;
  eo_desc : exists b, d !! virt e = Some b /\ zlen b = size e;
  eo_orig : orig_va e = 0 \/ exists b, o !! orig_va e = Some b /\ size e <= zlen b
}.
(** The entries [l] are distinct and hold every live descriptor of [d]. *)
Record owned (l : list dma_entry) (d o : gmap Z (list Z)) : Prop := {
  ow_virt : NoDup (map virt l);
  ow_phys : NoDup (map phys l);
  ow_live : forall v, is_Some (d !! v) -> v ∈ map virt l;
  ow_entry : forall e, e ∈ l -> entry_ok d o e
}.
Definition dma_inv (s : dma_state) : Prop := owned (tracked s) (descs s) (own s).

(** What IOKit and the driver keep to: fresh addresses below 4 GB, buffers
    that are there and long enough, a device that stays in its buffer. *)
Definition grant_ok (g : grant) (s : dma_state) : Prop :=
  match g with
  | Grant va pa => va <> 0 /\ 0 < pa < 2 ^ 32 /\ descs s !! va = None /\ pa ∉ map phys (tracked s)
  | _ => True
  end.
Definition has_room (ptr n : Z) (s : dma_state) : Prop := exists b, own s !! ptr = Some b /\ n <= zlen b.
Definition op_ok (o : dma_op) (s : dma_state) : Prop :=
  match o with
  | DmaAlloc g n => grant_ok g s /\ 0 <= n
  | DmaMap g ptr n _ => grant_ok g s /\ 0 <= n /\ (ptr = 0 \/ has_room ptr n s)
  | DmaSyncCpu _ n _ => 0 <= n
  | DeviceWrite pa off v => forall e, device_entry pa s = Some e -> 0 <= off /\ off + zlen v <= size e
  | CpuWrite ptr v => has_room ptr (zlen v) s
  | _ => True
  end.
Fixpoint dma_contract (airport : bool) (os : list dma_op) (s : dma_state) : Prop :=
  match os with
  | [] => True
  | o :: os => op_ok o s /\ match dma_step airport o s with Some (_, s') => dma_contract airport os s' | None => True end
  end.

(** ** What the calls promise: a table of mappings by handle *)

Record mapping := mk_mapping { m_virt : Z; m_bytes : list Z; m_orig : Z }.
Record iommu := mk_iommu { maps : gmap Z mapping; buffers : gmap Z (list Z) }.

Definition splice (off : Z) (v b : list Z) : list Z := ztake off b ++ v ++ zdrop (off + zlen v) b.
Definition rewrite_bytes (b : list Z) (m : mapping) : mapping := mk_mapping (m_virt m) b (m_orig m).

Definition iommu_step (o : dma_op) (u : iommu) : dma_seen * iommu :=
  let '(mk_iommu ms bs) := u in
  match o with
  | DmaAlloc (Grant va pa) n => (SeenHandle va, mk_iommu (<[pa := mk_mapping va (zeros n) 0]> ms) bs)
  | DmaAlloc _ _ => (SeenHandle 0, u)
  | DmaFree va _ => (SeenNothing, mk_iommu (filter (fun x => m_virt (snd x) <> va) ms) bs)
  | DmaMap (Grant va pa) ptr n dir =>
      if ptr =? 0 then (SeenHandle 0, u)
      else
        let b := if (dir =? DMA_TO_DEVICE) || (dir =? DMA_BIDIRECTIONAL) then ztake n (bs !!! ptr) else zeros n in
        (SeenHandle pa, mk_iommu (<[pa := mk_mapping va b ptr]> ms) bs)
  | DmaMap _ _ _ _ => (SeenHandle 0, u)
  | DmaUnmap addr _ => (SeenNothing, mk_iommu (delete addr ms) bs)
  | DmaSyncCpu addr n dir =>
      match ms !! addr with
      | Some m =>
          if (dir =? DMA_FROM_DEVICE) && negb (m_orig m =? 0)
          then (SeenNothing, mk_iommu ms (<[m_orig m := splice 0 (ztake n (m_bytes m)) (bs !!! m_orig m)]> bs))
          else (SeenNothing, u)
      | None => (SeenNothing, u)
      end
  | DmaTraffic => (SeenNothing, u)
  | DeviceRead pa => (SeenBytes (match ms !! pa with Some m => m_bytes m | None => [] end), u)
  | DeviceWrite pa off v =>
      match ms !! pa with
      | Some m => (SeenNothing, mk_iommu (<[pa := rewrite_bytes (splice off v (m_bytes m)) m]> ms) bs)
      | None => (SeenNothing, u)
      end
  | CpuWrite ptr v => (SeenNothing, mk_iommu ms (<[ptr := splice 0 v (bs !!! ptr)]> bs))
  end.
Fixpoint iommu_run (os : list dma_op) (u : iommu) : list dma_seen * iommu :=
  match os with
  | [] => ([], u)
  | o :: os => let '(r, u) := iommu_step o u in let '(rs, u) := iommu_run os u in (r :: rs, u)
  end.

Definition mapping_of (s : dma_state) (e : dma_entry) : mapping := mk_mapping (virt e) (descs s !!! virt e) (orig_va e).
Definition abs_maps (s : dma_state) (l : list dma_entry) : gmap Z mapping := list_to_map (map (fun e => (phys e, mapping_of s e)) l).
Definition dma_abs (s : dma_state) : iommu := mk_iommu (abs_maps s (_dmaList s)) (own s).

Definition at_phys (pa : Z) (e : dma_entry) : bool := phys e =? pa.
Lemma abs_lookup s l pa : abs_maps s l !! pa = mapping_of s <$> find (at_phys pa) l.
Proof.
  unfold abs_maps, at_phys. induction l as [|e l IH]; cbn [map list_to_map foldr find]; [apply lookup_empty|].
  cbn [curry]. destruct (Z.eqb_spec (phys e) pa) as [->|]; [apply lookup_insert_eq|]. by rewrite lookup_insert_ne.
Qed.

Lemma find_unique (f : dma_entry -> Z) l k e : NoDup (map f l) -> find (fun e => f e =? k) l = Some e <-> e ∈ l /\ f e = k.
Proof.
  intros N. split; [intros [H1 H2]%find_some; split; [by apply list_elem_of_In|lia]|]. intros [Hin <-].
  induction l as [|x l IH]; [by apply not_elem_of_nil in Hin|]. cbn. apply NoDup_cons in N as [Hx N].
  apply elem_of_cons in Hin as [->|Hin]; [by rewrite Z.eqb_refl|]. destruct (Z.eqb_spec (f x) (f e)) as [E|]; [|by apply IH].
  destruct Hx. rewrite E. by apply list_elem_of_fmap_2.
Qed.
Lemma find_absent (f : dma_entry -> Z) l k : find (fun e => f e =? k) l = None <-> k ∉ map f l.
Proof.
  induction l as [|x l IH]; cbn; [split; [intros _; apply not_elem_of_nil|done]|].
  rewrite not_elem_of_cons, <- IH. destruct (Z.eqb_spec (f x) k); naive_solver.
Qed.

Lemma unlink_find p l : fst <$> unlink p l = find p l.
Proof. induction l as [|x l IH]; [done|]. cbn. destruct (p x); [done|]. rewrite <- IH. by destruct (unlink p l) as [[]|]. Qed.
Lemma unlink_some p l e l' : unlink p l = Some (e, l') -> find p l = Some e.
Proof. intros E. by rewrite <- unlink_find, E. Qed.
Lemma unlink_none p l : unlink p l = None -> find p l = None.
Proof. intros E. by rewrite <- unlink_find, E. Qed.
Lemma unlink_perm p l e l' : unlink p l = Some (e, l') -> l ≡ₚ e :: l'.
Proof.
  revert l'. induction l as [|x l IH]; intros l'; [done|]. cbn. destruct (p x); [by intros [= -> ->]|].
  destruct (unlink p l) as [[y m]|]; [|done]. intros [= -> <-]. rewrite (IH m) by done. apply perm_swap.
Qed.

Lemma owned_perm l l' d o : l ≡ₚ l' -> owned l d o -> owned l' d o.
Proof.
  intros P [V H L E]. split; [by rewrite <- P..| |].
  - intros v Hv. rewrite <- P. by apply L.
  - intros e He. apply E. by rewrite P.
Qed.

Lemma owned_delete e l d o : owned (e :: l) d o -> is_Some (d !! virt e) /\ owned l (delete (virt e) d) o /\
  (forall x, x ∈ l -> delete (virt e) d !! virt x = d !! virt x).
Proof.
  intros [V H L E]. cbn in V, H. apply NoDup_cons in V as [Ve V]. apply NoDup_cons in H as [He H].
  assert (forall x, x ∈ l -> delete (virt e) d !! virt x = d !! virt x) as Hd.
  { intros x Hx. apply lookup_delete_ne. intros Ex. apply Ve. rewrite Ex. by apply list_elem_of_fmap_2. }
  split; [|split; [split; [done..| |]|done]].
  - destruct (eo_desc _ _ _ (E e (list_elem_of_here e l))) as (b & -> & _). done.
  - intros v [b Hb]. apply lookup_delete_Some in Hb as [Hv Hb]. specialize (L v (ex_intro _ b Hb)). cbn in L. apply elem_of_cons in L as [->|L]; done.
  - intros x Hx. destruct (E x (list_elem_of_further x e l Hx)) as [X1 X2 X3 X4]. split; [done..|by rewrite Hd|done].
Qed.

Lemma release_all_ok l r s : owned (l ++ r) (descs s) (own s) ->
  exists s', release_all l s = Some s' /\ _dmaList s' = _dmaList s /\ _dmaPendingFree s' = _dmaPendingFree s /\ own s' = own s /\
    owned r (descs s') (own s) /\ forall x, x ∈ r -> descs s' !! virt x = descs s !! virt x.
Proof.
  revert s. induction l as [|e l IH]; intros s O; cbn [release_all]; [by exists s|].
  destruct (owned_delete e (l ++ r) _ _ O) as ([b Hb] & O' & Hd). unfold release. rewrite Hb. cbn [mbind option_bind].
  set (s1 := s <| descs := delete (virt e) (descs s) |>). destruct (IH s1 O') as (s' & -> & E1 & E2 & E3 & O2 & Hd2). exists s'.
  split_and!; try done. intros x Hx. rewrite Hd2 by done. apply Hd, elem_of_app. by right.
Qed.

(** Freeing: the entry leaves the list for good or for the pending list. *)
Lemma free_entry_ok p f s : dma_inv s ->
  match unlink p (_dmaList s) with
  | None => free_entry p f s = Some s
  | Some (e, l) => exists s', free_entry p f s = Some s' /\ dma_inv s' /\ own s' = own s /\ _dmaList s' = l /\
      (f = false -> _dmaPendingFree s' = e :: _dmaPendingFree s) /\ (f = true -> _dmaPendingFree s' = _dmaPendingFree s) /\
      forall x, x ∈ l -> descs s' !! virt x = descs s !! virt x
  end.
Proof.
  intros O. unfold free_entry. destruct (unlink p (_dmaList s)) as [[e l]|] eqn:Eu; [|done]. apply unlink_perm in Eu.
  assert (tracked s ≡ₚ e :: l ++ _dmaPendingFree s) as P by (unfold tracked; by rewrite Eu).
  destruct f.
  - apply (owned_perm _ _ _ _ P) in O. destruct (owned_delete _ _ _ _ O) as ([b Hb] & O' & Hd).
    unfold release. change (descs (s <| _dmaList := l |>)) with (descs s). rewrite Hb. eexists. split; [reflexivity|].
    split; [exact O'|]. split_and!; try done. intros x Hx. apply Hd, elem_of_app. by left.
  - eexists. split; [reflexivity|]. split; [|done]. eapply owned_perm; [|exact O]. rewrite P. unfold tracked. cbn. by rewrite Permutation_middle.
Qed.

(** The table after a change of the list. *)
Lemma abs_maps_ext s s' l : (forall x, x ∈ l -> descs s' !! virt x = descs s !! virt x) -> abs_maps s' l = abs_maps s l.
Proof.
  intros H. unfold abs_maps. f_equal. apply map_ext_in. intros x Hx%list_elem_of_In. f_equal. unfold mapping_of. f_equal.
  rewrite !lookup_total_alt. by rewrite H.
Qed.
Lemma abs_maps_unlink s l e l' : NoDup (map phys l) -> l ≡ₚ e :: l' -> abs_maps s l' = delete (phys e) (abs_maps s l).
Proof.
  intros N P. apply map_eq. intros pa. rewrite lookup_delete, !abs_lookup.
  assert (NoDup (map phys l')) as N' by (rewrite P in N; cbn in N; by apply NoDup_cons in N as [_ N]).
  assert (phys e ∉ map phys l') as Hx by (rewrite P in N; cbn in N; by apply NoDup_cons in N as [N _]).
  unfold at_phys. case_decide as Hpa.
  - subst. by rewrite (proj2 (find_absent phys l' (phys e))).
  - f_equal. destruct (find _ l') as [x|] eqn:E1.
    + apply find_unique in E1 as [Hi <-]; [|done]. symmetry. apply find_unique; [done|]. split; [|done]. rewrite P. by right.
    + symmetry. apply find_absent. apply find_absent in E1. rewrite P. cbn. apply not_elem_of_cons. split; [congruence|done].
Qed.

Lemma owned_cons e b l d o : owned l d o -> entry_ok (<[virt e := b]> d) o e -> d !! virt e = None -> phys e ∉ map phys l ->
  owned (e :: l) (<[virt e := b]> d) o /\ (forall x, x ∈ l -> <[virt e := b]> d !! virt x = d !! virt x).
Proof.
  intros [V H L E] He Hf Hp.
  assert (forall x, x ∈ l -> virt e <> virt x) as Hx.
  { intros x Hx Ex. destruct (eo_desc _ _ _ (E x Hx)) as (c & Hc & _). congruence. }
  assert (forall x, x ∈ l -> <[virt e := b]> d !! virt x = d !! virt x) as Hd by (intros x Hi; by apply lookup_insert_ne, Hx).
  split; [|done]. split.
  - cbn. apply NoDup_cons. split; [|done]. intros (x & Ex & Hi)%list_elem_of_fmap. by apply (Hx x).
  - cbn. by apply NoDup_cons.
  - intros v [c Hc]. cbn. apply elem_of_cons. destruct (decide (v = virt e)); [by left|right]. rewrite lookup_insert_ne in Hc by done. apply L. by exists c.
  - intros x [->|Hi]%elem_of_cons; [done|]. destruct (E x Hi) as [X1 X2 X3 X4]. split; [done..|by rewrite Hd|done].
Qed.

Lemma owned_own l d o ptr b b' : owned l d o -> o !! ptr = Some b -> zlen b' = zlen b -> owned l d (<[ptr := b']> o).
Proof.
  intros [V H L E] Hb Hl. split; [done..|]. intros e He. destruct (E e He) as [X1 X2 X3 X4]. split; [done..|].
  destruct X4 as [X4|(c & Hc & X4)]; [by left|right]. destruct (decide (orig_va e = ptr)) as [Ep|].
  - rewrite Ep in *. exists b'. rewrite lookup_insert_eq. split; [done|]. replace c with b in X4 by congruence. lia.
  - exists c. by rewrite lookup_insert_ne.
Qed.

Lemma owned_desc l d o e b : owned l d o -> e ∈ l -> zlen b = size e ->
  owned l (<[virt e := b]> d) o /\ (forall x, x ∈ l -> x <> e -> <[virt e := b]> d !! virt x = d !! virt x).
Proof.
  intros [V H L E] He Hb. pose proof (E e He) as Ee.
  assert (forall x, x ∈ l -> x <> e -> <[virt e := b]> d !! virt x = d !! virt x) as Hd.
  { intros x Hx Hne. apply lookup_insert_ne. intros Ev. apply Hne.
    pose proof (proj2 (find_unique virt l (virt e) x V) (conj Hx (eq_sym Ev))) as F. rewrite (proj2 (find_unique virt l (virt e) e V) (conj He eq_refl)) in F. by injection F. }
  split; [|done]. split; [done..| |].
  - intros v Hv. apply lookup_insert_is_Some in Hv as [<-|[_ Hv]]; [by apply list_elem_of_fmap_2|by apply L].
  - intros x Hx. destruct (decide (x = e)) as [->|Hne].
    + destruct Ee as [X1 X2 X3 X4]. split; [done..| |done]. exists b. by rewrite lookup_insert_eq.
    + destruct (E x Hx) as [X1 X2 X3 X4]. split; [done..|by rewrite Hd|done].
Qed.

Lemma abs_maps_cons s e l : abs_maps s (e :: l) = <[phys e := mapping_of s e]> (abs_maps s l).
Proof. done. Qed.

Lemma find_and k (q : dma_entry -> bool) l : NoDup (map phys l) ->
  find (fun e => (phys e =? k) && q e) l = match find (at_phys k) l with Some e => if q e then Some e else None | None => None end.
Proof.
  intros N. unfold at_phys. induction l as [|e l IH]; [done|]. cbn in N. apply NoDup_cons in N as [Hn N]. cbn. destruct (Z.eqb_spec (phys e) k) as [<-|]; [|by apply IH].
  cbn. destruct (q e); [done|]. rewrite IH by done. by rewrite (proj2 (find_absent phys l (phys e))).
Qed.

Lemma find_ext (p q : dma_entry -> bool) l : (forall e, p e = q e) -> find p l = find q l.
Proof. intros H. induction l as [|e l IH]; [done|]. cbn. by rewrite H, IH. Qed.

Lemma inv_list s : dma_inv s -> NoDup (map phys (_dmaList s)) /\ NoDup (map virt (_dmaList s)).
Proof. intros [V H _ _]. unfold tracked in *. rewrite map_app in V, H. apply NoDup_app in V as [V _]. by apply NoDup_app in H as [H _]. Qed.
Lemma inv_entry s e : dma_inv s -> e ∈ _dmaList s -> entry_ok (descs s) (own s) e.
Proof. intros O He. apply (ow_entry _ _ _ O). apply elem_of_app. by left. Qed.

(** A step answers, keeps the invariant and does what the table does. *)
Definition refines (o : dma_op) (s : dma_state) (r : option (dma_seen * dma_state)) : Prop :=
  exists x s', r = Some (x, s') /\ dma_inv s' /\ iommu_step o (dma_abs s) = (x, dma_abs s').

Lemma alloc_refines airport g n s : dma_inv s -> grant_ok g s -> 0 <= n -> refines (DmaAlloc g n) s (dma_step airport (DmaAlloc g n) s).
Proof.
  intros O Hg Hn. destruct g as [| |va pa]; [by eexists _, _..|]. destruct Hg as (Hv & Hp & Hf & Hx).
  eexists _, _. split; [reflexivity|]. destruct (owned_cons (mk_dma va pa n 0) (zeros n) (tracked s) (descs s) (own s) O) as [O' Hd]; [|done..|].
  - split; [done..| |by left]. exists (zeros n). cbn. rewrite lookup_insert_eq, zlen_zeros. split; [done|]. lia.
  - split; [exact O'|]. unfold dma_abs. cbn [iommu_step _dmaList upd own]. do 2 f_equal. rewrite abs_maps_cons. unfold mapping_of at 1. cbn.
    rewrite lookup_total_insert_eq. f_equal. symmetry. apply abs_maps_ext. intros x Hi. apply Hd, elem_of_app. by left.
Qed.

Lemma free_refines p f (u : iommu) s o : dma_inv s ->
  iommu_step o (dma_abs s) = (SeenNothing, mk_iommu (maps u) (own s)) ->
  (forall e l, unlink p (_dmaList s) = Some (e, l) -> maps u = delete (phys e) (abs_maps s (_dmaList s))) ->
  (unlink p (_dmaList s) = None -> maps u = abs_maps s (_dmaList s)) ->
  exists s', free_entry p f s = Some s' /\ dma_inv s' /\ iommu_step o (dma_abs s) = (SeenNothing, dma_abs s').
Proof.
  intros O Hs H1 H2. pose proof (free_entry_ok p f s O) as F. destruct (unlink p (_dmaList s)) as [[e l]|] eqn:Eu.
  - destruct F as (s' & -> & O' & Eo & El & _ & _ & Hd). exists s'. split; [done|]. split; [done|]. rewrite Hs. unfold dma_abs. rewrite Eo. do 2 f_equal.
    rewrite (H1 e l eq_refl), El, (abs_maps_ext s s' l) by done. symmetry. apply abs_maps_unlink; [by apply inv_list|by apply unlink_perm in Eu].
  - exists s. rewrite F, Hs, H2 by done. by split_and!.
Qed.

Lemma unmap_refines airport pa f s : dma_inv s -> refines (DmaUnmap pa f) s (dma_step airport (DmaUnmap pa f) s).
Proof.
  intros O. destruct (free_refines (at_phys pa) f (mk_iommu (delete pa (abs_maps s (_dmaList s))) ∅) s (DmaUnmap pa f) O) as (s' & E & O' & A); [done| | |].
  - intros e l Eu. cbn. f_equal. apply unlink_some, find_some in Eu as [_ F]. unfold at_phys in F. lia.
  - intros Eu. cbn. apply delete_id. by rewrite abs_lookup, (unlink_none _ _ Eu).
  - exists SeenNothing, s'. cbn [dma_step]. unfold compat_dma_unmap, freeCoherentByPhys. change (fun e => phys e =? pa) with (at_phys pa). by rewrite E.
Qed.

Lemma free_va_refines airport va f s : dma_inv s -> refines (DmaFree va f) s (dma_step airport (DmaFree va f) s).
Proof.
  intros O. destruct (inv_list s O) as [NP NV].
  assert (forall pa m, abs_maps s (_dmaList s) !! pa = Some m -> exists e, e ∈ _dmaList s /\ phys e = pa /\ m_virt m = virt e) as Hm.
  { intros pa m Em. rewrite abs_lookup in Em. destruct (find _ _) as [e|] eqn:Ef; [|done]. apply (find_unique phys) in Ef as [Hi Hp]; [|done].
    exists e. split; [done|]. split; [done|]. by injection Em as <-. }
  destruct (free_refines (fun e => virt e =? va) f (mk_iommu (filter (fun x => m_virt (snd x) <> va) (abs_maps s (_dmaList s))) ∅) s (DmaFree va f) O) as (s' & E & O' & A); [done| | |].
  - intros e l Eu. cbn [maps]. apply unlink_some, (find_unique virt) in Eu as [Hi <-]; [|done].
    apply map_eq. intros pa. apply option_eq. intros m. rewrite map_lookup_filter_Some, lookup_delete_Some. cbn. split.
    + intros [Em Hne]. split; [|done]. intros <-. apply Hne. rewrite abs_lookup in Em. unfold at_phys in Em. rewrite (proj2 (find_unique phys _ (phys e) e NP)) in Em by done. by injection Em as <-.
    + intros [Hne Em]. split; [done|]. intros Hv. apply Hne. destruct (Hm pa m Em) as (x & Hx & <- & Ev).
      pose proof (proj2 (find_unique virt _ (virt e) x NV) (conj Hx (eq_trans (eq_sym Ev) Hv))) as F1.
      rewrite (proj2 (find_unique virt _ (virt e) e NV) (conj Hi eq_refl)) in F1. by injection F1 as ->.
  - intros Eu. cbn [maps]. apply unlink_none, (find_absent virt) in Eu.
    apply map_filter_id. intros pa m Em. cbn. intros <-. destruct (Hm pa m Em) as (x & Hx & _ & Ev). apply Eu. rewrite Ev. by apply list_elem_of_fmap_2.
  - exists SeenNothing, s'. cbn [dma_step]. unfold freeCoherent. by rewrite E.
Qed.

Lemma find_dev s pa e : dma_inv s -> find (at_phys pa) (_dmaList s) = Some e ->
  phys e = pa /\ e ∈ _dmaList s /\ entry_ok (descs s) (own s) e /\ abs_maps s (_dmaList s) !! pa = Some (mapping_of s e).
Proof.
  intros O Ef. pose proof Ef as Ef'. apply (find_unique phys) in Ef' as [Hi Hp]; [|by apply inv_list]. split; [done|]. split; [done|].
  split; [by apply inv_entry|]. by rewrite abs_lookup, Ef.
Qed.

Lemma copy_refines ptr v s b : dma_inv s -> own s !! ptr = Some b -> zlen v <= zlen b ->
  exists s', copy_to_own ptr v s = Some s' /\ dma_inv s' /\ dma_abs s' = mk_iommu (abs_maps s (_dmaList s)) (<[ptr := splice 0 v (own s !!! ptr)]> (own s)).
Proof.
  intros O Hb Hl. unfold copy_to_own. rewrite Hb. cbn [mbind option_bind]. rewrite stn_Some by lia. cbn [mbind option_bind]. eexists. split; [reflexivity|].
  pose proof (stn_zlen b 0 v (splice 0 v b)) as Hz. split.
  - apply (owned_own _ _ _ ptr b); [done|done|]. apply Hz. by rewrite stn_Some by lia.
  - unfold dma_abs. cbn [_dmaList upd own]. f_equal. by rewrite (lookup_total_correct _ _ _ Hb).
Qed.

Lemma write_refines airport ptr v s : dma_inv s -> has_room ptr (zlen v) s -> refines (CpuWrite ptr v) s (dma_step airport (CpuWrite ptr v) s).
Proof.
  intros O (b & Hb & Hl). destruct (copy_refines ptr v s b O Hb Hl) as (s' & E & O' & A). exists SeenNothing, s'. cbn [dma_step iommu_step dma_abs]. by rewrite E, A.
Qed.

Lemma sync_refines airport pa n dir s : dma_inv s -> 0 <= n -> refines (DmaSyncCpu pa n dir) s (dma_step airport (DmaSyncCpu pa n dir) s).
Proof.
  intros O Hn. unfold refines. cbn [dma_step iommu_step dma_abs]. unfold compat_dma_sync_cpu, syncBounceForCpu. change (dir =? DMA_FROM_DEVICE) with (dir =? 0).
  rewrite (find_ext _ (fun e => (phys e =? pa) && (negb (orig_va e =? 0) && negb (virt e =? 0)))) by (intros; by rewrite andb_assoc).
  rewrite (find_and pa (fun e => negb (orig_va e =? 0) && negb (virt e =? 0))) by apply inv_list, O.
  destruct (find (at_phys pa) (_dmaList s)) as [e|] eqn:Ef.
  2: { rewrite abs_lookup, Ef. exists SeenNothing, s. destruct (dir =? 0); by split_and!. }
  destruct (find_dev s pa e O Ef) as (_ & _ & [X1 X2 (b & Hb & Hl) X4] & ->). unfold mapping_of. cbn [m_orig m_bytes]. rewrite (lookup_total_correct _ _ _ Hb).
  rewrite (proj2 (Z.eqb_neq (virt e) 0) X1). cbn [negb]. rewrite andb_true_r. destruct (dir =? 0); cbn [andb]; [|by exists SeenNothing, s].
  destruct (Z.eqb_spec (orig_va e) 0); cbn [negb]; [by exists SeenNothing, s|]. destruct X4 as [?|(c & Hc & X4)]; [done|]. rewrite Hb. cbn [mbind option_bind].
  pose proof (zlen_nonneg b). replace (if n <=? size e then n else size e) with (Z.min n (zlen b)) by (rewrite Hl; case_cmp; lia). rewrite ldn_Some by lia. cbn [mbind option_bind].
  rewrite zdrop_0. replace (ztake (Z.min n (zlen b)) b) with (ztake n b) by (destruct (Z.le_ge_cases n (zlen b)); [by rewrite Z.min_l|by rewrite Z.min_r, !ztake_all]).
  destruct (copy_refines (orig_va e) (ztake n b) s c O Hc) as (s' & -> & O' & A); [rewrite zlen_ztake; lia|]. exists SeenNothing, s'. by rewrite A.
Qed.

(** A new streaming entry, its bytes given. *)
Lemma new_mapping_ok va pa n ptr v s : dma_inv s -> grant_ok (Grant va pa) s -> zlen v = n -> has_room ptr n s ->
  let s' := s <| descs := <[va := v]> (descs s) |> <| _dmaList := mk_dma va pa n ptr :: _dmaList s |> in
  dma_inv s' /\ dma_abs s' = mk_iommu (<[pa := mk_mapping va v ptr]> (abs_maps s (_dmaList s))) (own s).
Proof.
  intros O (Hv & Hp & Hf & Hx) Hn Hr s'. destruct (owned_cons (mk_dma va pa n ptr) v (tracked s) (descs s) (own s) O) as [O' Hd]; [|done..|].
  - split; [done..| |by right]. exists v. cbn. by rewrite lookup_insert_eq.
  - split; [exact O'|]. unfold dma_abs. cbn [_dmaList upd own s']. rewrite abs_maps_cons. unfold mapping_of at 1. cbn [virt phys orig_va descs upd s'].
    rewrite lookup_total_insert_eq. do 2 f_equal. apply abs_maps_ext. intros x Hi. apply Hd, elem_of_app. by left.
Qed.

Lemma map_refines airport g ptr n dir s : dma_inv s -> op_ok (DmaMap g ptr n dir) s -> refines (DmaMap g ptr n dir) s (dma_step airport (DmaMap g ptr n dir) s).
Proof.
  intros O (Hg & Hn & Hptr). unfold refines. cbn [dma_step iommu_step dma_abs]. unfold compat_dma_map. destruct (Z.eqb_spec ptr 0) as [->|Hne].
  { eexists _, s. split; [reflexivity|]. split; [done|]. by destruct g. }
  destruct Hptr as [?|Hr]; [done|]. destruct g as [| |va pa]; [by eexists _, s..|]. cbn [allocCoherent]. pose proof Hg as (Hv & _).
  rewrite (proj2 (Z.eqb_neq va 0) Hv). unfold setBounceOrigVA. cbn [_dmaList upd set_orig phys]. rewrite Z.eqb_refl. cbn [upd].
  change (dir =? DMA_TO_DEVICE) with (dir =? 1). change (dir =? DMA_BIDIRECTIONAL) with (dir =? 2). pose proof Hr as (b & Hb & Hl).
  destruct ((dir =? 1) || (dir =? 2)).
  - cbn [own upd descs]. rewrite Hb. cbn [mbind option_bind]. rewrite ldn_Some, zdrop_0 by lia. cbn [mbind option_bind]. rewrite lookup_insert_eq. cbn [mbind option_bind].
    assert (zlen (ztake n b) = n) as Hz by (rewrite zlen_ztake; lia).
    rewrite stn_Some by (rewrite ?zlen_zeros, ?Hz; lia). cbn [mbind option_bind]. eexists _, _. split; [reflexivity|].
    rewrite ztake_0, (zdrop_all _ (zeros n)) by (rewrite zlen_zeros, Hz; lia). rewrite app_nil_l, app_nil_r, insert_insert_eq.
    destruct (new_mapping_ok va pa n ptr (ztake n b) s O Hg Hz Hr) as [O' A]. split; [exact O'|]. by rewrite (lookup_total_correct _ _ _ Hb), <- A.
  - eexists _, _. split; [reflexivity|]. destruct (new_mapping_ok va pa n ptr (zeros n) s O Hg) as [O' A]; [rewrite zlen_zeros; lia|done|]. split; [exact O'|]. by rewrite <- A.
Qed.

Lemma read_refines airport pa s : dma_inv s -> refines (DeviceRead pa) s (dma_step airport (DeviceRead pa) s).
Proof.
  intros O. unfold refines. cbn [dma_step iommu_step dma_abs]. unfold device_read, device_entry. change (fun e => phys e =? pa) with (at_phys pa).
  destruct (find (at_phys pa) (_dmaList s)) as [e|] eqn:Ef.
  - destruct (find_dev s pa e O Ef) as (_ & _ & [_ _ (b & Hb & _) _] & ->). rewrite Hb. exists (SeenBytes b), s. cbn. by rewrite (lookup_total_correct _ _ _ Hb).
  - rewrite abs_lookup, Ef. by exists (SeenBytes []), s.
Qed.

Lemma device_write_refines airport pa off v s : dma_inv s -> op_ok (DeviceWrite pa off v) s -> refines (DeviceWrite pa off v) s (dma_step airport (DeviceWrite pa off v) s).
Proof.
  intros O Hok. unfold refines. cbn [dma_step iommu_step dma_abs op_ok] in *. unfold device_write, device_entry in *. change (fun e => phys e =? pa) with (at_phys pa) in *.
  destruct (find (at_phys pa) (_dmaList s)) as [e|] eqn:Ef; [|rewrite abs_lookup, Ef; by exists SeenNothing, s].
  destruct (find_dev s pa e O Ef) as (Hp & Hi & [_ _ (b & Hb & Hl) _] & Em). destruct (Hok e eq_refl) as [H1 H2]. rewrite Em, Hb. cbn [mbind option_bind].
  rewrite stn_Some by lia. cbn [mbind option_bind]. eexists _, _. split; [reflexivity|]. change (ztake off b ++ v ++ zdrop (off + zlen v) b) with (splice off v b).
  assert (zlen (splice off v b) = size e) as Hz by (rewrite <- Hl; apply (stn_zlen b off v); by rewrite stn_Some by lia).
  assert (e ∈ tracked s) as Ht by (apply elem_of_app; by left).
  destruct (owned_desc _ _ _ e _ O Ht Hz) as [O' Hd]. split; [exact O'|]. unfold dma_abs. cbn [_dmaList upd own]. do 2 f_equal.
  unfold mapping_of, rewrite_bytes. cbn [m_virt m_bytes m_orig]. rewrite (lookup_total_correct _ _ _ Hb). apply map_eq. intros q. rewrite !abs_lookup.
  destruct (decide (pa = q)) as [<-|Hne].
  - rewrite lookup_insert_eq, Ef. cbn. unfold mapping_of. cbn [descs upd]. by rewrite lookup_total_insert_eq.
  - rewrite lookup_insert_ne, abs_lookup by done. destruct (find (at_phys q) _) as [x|] eqn:Eq; [|done]. cbn. f_equal. unfold mapping_of. f_equal.
    destruct (find_dev s q x O Eq) as (Hq & Hx & _). rewrite !lookup_total_alt. cbn [descs upd]. rewrite Hd; [done|apply elem_of_app; by left|congruence].
Qed.

Lemma drain_ok s : dma_inv s -> exists s', drainPendingFree s = Some s' /\ dma_inv s' /\ _dmaPendingFree s' = [] /\ dma_abs s' = dma_abs s.
Proof.
  intros O. unfold drainPendingFree. set (s0 := s <| _dmaPendingFree := [] |>).
  assert (owned (_dmaPendingFree s ++ _dmaList s) (descs s0) (own s0)) as O0 by (eapply owned_perm; [|exact O]; unfold tracked; by rewrite Permutation_app_comm).
  destruct (release_all_ok _ _ s0 O0) as (s' & E & E1 & E2 & E3 & O' & Hd). exists s'. split; [done|]. unfold dma_inv, tracked, dma_abs. rewrite E1, E2, E3.
  change (_dmaList s0) with (_dmaList s). change (_dmaPendingFree s0) with (@nil dma_entry). rewrite app_nil_r. split; [done|]. split; [done|].
  change (own s0) with (own s). f_equal. apply abs_maps_ext. done.
Qed.

Lemma dma_step_refines airport o s : dma_inv s -> op_ok o s -> refines o s (dma_step airport o s).
Proof.
  intros O Hok. destruct o; cbn [op_ok] in *.
  - destruct Hok. by apply alloc_refines.
  - by apply free_va_refines.
  - by apply map_refines.
  - by apply unmap_refines.
  - by apply sync_refines.
  - unfold refines. cbn [dma_step iommu_step]. destruct airport; [by exists SeenNothing, s|].
    destruct (drain_ok s O) as (s' & -> & O' & _ & A). exists SeenNothing, s'. by rewrite A.
  - by apply read_refines.
  - by apply device_write_refines.
  - by apply write_refines.
Qed.

Lemma dma_run_refines airport os s : dma_inv s -> dma_contract airport os s ->
  exists s', dma_run airport os s = Some (fst (iommu_run os (dma_abs s)), s') /\ dma_inv s' /\ dma_abs s' = snd (iommu_run os (dma_abs s)).
Proof.
  revert s. induction os as [|o os IH]; intros s O C; cbn [dma_run iommu_run]; [by exists s|]. destruct C as [Hok C].
  destruct (dma_step_refines airport o s O Hok) as (x & s1 & E & O1 & A). rewrite E in C |- *. cbn [mbind option_bind]. rewrite A.
  destruct (IH s1 O1 C) as (s' & -> & O' & A'). destruct (iommu_run os (dma_abs s1)). by exists s'.
Qed.

(** The controller as it starts, with the driver's buffers [o] in memory. *)
Definition dma_boot (o : gmap Z (list Z)) : dma_state := mk_dmas [] [] ∅ o.
Lemma dma_boot_inv o : dma_inv (dma_boot o).
Proof. split; [apply NoDup_nil_2..| |]; [intros v [b Hb]; cbn [descs dma_boot] in Hb; by apply lookup_empty_Some in Hb|by intros e He; apply not_elem_of_nil in He]. Qed.

(** C9: The bounce-buffer lists behave as a table of mappings.  Under any
    sequence of the driver's DMA calls, of device accesses and of CPU writes
    that keep the contract, every call answers (nothing is released twice,
    nothing is used after its release, no copy leaves a buffer) and answers
    what the table does: a mapping to the device shows it the bytes the buffer
    had when it was mapped, a sync brings the device's bytes back to that
    buffer and no other, and a handle that was unmapped is gone. *)
Theorem dma_refines_iommu airport o os : dma_contract airport os (dma_boot o) ->
  exists s, dma_run airport os (dma_boot o) = Some (fst (iommu_run os (mk_iommu ∅ o)), s) /\
    dma_inv s /\ dma_abs s = snd (iommu_run os (mk_iommu ∅ o)).
Proof. intros C. exact (dma_run_refines airport os (dma_boot o) (dma_boot_inv o) C). Qed.

(** Teardown releases every buffer exactly once.  Whatever was mapped,
    freed or left pending before it, it succeeds, and no descriptor and no
    entry is left. *)
Theorem dma_teardown_releases airport o os : dma_contract airport os (dma_boot o) ->
  exists rs s s', dma_run airport os (dma_boot o) = Some (rs, s) /\ dma_teardown s = Some s' /\
    descs s' = ∅ /\ _dmaList s' = [] /\ _dmaPendingFree s' = [].
Proof.
  intros C. destruct (dma_run_refines airport os _ (dma_boot_inv o) C) as (s & E & O & _). destruct (drain_ok s O) as (s1 & E1 & O1 & P1 & _).
  unfold dma_inv, tracked in O1. rewrite P1 in O1.
  set (s2 := s1 <| _dmaList := [] |>). destruct (release_all_ok (_dmaList s1) [] s2 O1) as (s' & E2 & L & P & _ & O' & _).
  exists (fst (iommu_run os (dma_abs (dma_boot o)))), s, s'. split; [exact E|]. split; [unfold dma_teardown; rewrite E1; cbn [mbind option_bind]; unfold releaseDMAEntries; exact E2|]. split; [|split; [by rewrite L|by rewrite P]].
  apply map_empty. intros v. apply eq_None_not_Some. intros Hv%(ow_live _ _ _ O'). by apply not_elem_of_nil in Hv.
Qed.

(** The deferred buffers of [AirportRTW88]: nothing but teardown releases
    them. *)
Lemma free_pending p f s s' : free_entry p f s = Some s' -> exists new, _dmaPendingFree s' = new ++ _dmaPendingFree s.
Proof.
  unfold free_entry. destruct (unlink p _) as [[e l]|]; [|intros [= <-]; by exists []]. destruct f; [|intros [= <-]; by exists [e]].
  unfold release. destruct (descs _ !! _); [|done]. intros [= <-]. by exists [].
Qed.
Theorem airport_keeps_deferred o s x s' : dma_step true o s = Some (x, s') -> exists new, _dmaPendingFree s' = new ++ _dmaPendingFree s.
Proof.
  assert (forall g n, _dmaPendingFree (snd (allocCoherent g n s)) = _dmaPendingFree s) as Ha by (by intros []).
  destruct o; cbn [dma_step].
  - specialize (Ha g n). destruct (allocCoherent g n s) as [[va pa] t]. intros H; injection H as _ <-. by exists [].
  - destruct (freeCoherent va preemptible s) as [t|] eqn:E; cbn [mbind option_bind]; [|discriminate]. intros H; injection H as _ <-. by eapply free_pending.
  - unfold compat_dma_map. destruct (ptr =? 0); [intros H; injection H as _ <-; by exists []|]. specialize (Ha g n). destruct (allocCoherent g n s) as [[va pa] t].
    cbn [snd] in Ha. rewrite <- Ha. destruct (va =? 0); [intros H; injection H as _ <-; by exists []|]. destruct (_ || _); [|intros H; injection H as _ <-; by exists []].
    destruct (own _ !! ptr); cbn [mbind option_bind]; [|discriminate]. destruct (ldn l 0 n); cbn [mbind option_bind]; [|discriminate]. destruct (descs _ !! va); cbn [mbind option_bind]; [|discriminate]. destruct (stn _ _ _); cbn [mbind option_bind]; [|discriminate]. intros H; injection H as _ <-. by exists [].
  - destruct (compat_dma_unmap addr preemptible s) as [t|] eqn:E; cbn [mbind option_bind]; [|discriminate]. intros H; injection H as _ <-. by eapply free_pending.
  - unfold compat_dma_sync_cpu, syncBounceForCpu, copy_to_own. destruct (dir =? 0); [|intros H; injection H as _ <-; by exists []]. destruct (find _ _); [|intros H; injection H as _ <-; by exists []].
    destruct (descs s !! _); cbn [mbind option_bind]; [|discriminate]. destruct (ldn _ _ _); cbn [mbind option_bind]; [|discriminate]. destruct (own s !! _); cbn [mbind option_bind]; [|discriminate]. destruct (stn _ _ _); cbn [mbind option_bind]; [|discriminate]. intros H; injection H as _ <-. by exists [].
  - intros H; injection H as _ <-. by exists [].
  - destruct (device_read pa s); cbn [mbind option_bind]; [|discriminate]. intros H; injection H as _ <-. by exists [].
  - unfold device_write. destruct (device_entry pa s); [|intros H; injection H as _ <-; by exists []]. destruct (descs s !! _); cbn [mbind option_bind]; [|discriminate]. destruct (stn _ _ _); cbn [mbind option_bind]; [|discriminate]. intros H; injection H as _ <-. by exists [].
  - unfold copy_to_own. destruct (own s !! ptr); cbn [mbind option_bind]; [|discriminate]. destruct (stn _ _ _); cbn [mbind option_bind]; [|discriminate]. intros H; injection H as _ <-. by exists [].
Qed.

(** Two frames sent, their buffers freed by the interrupt handler: what each
    front end still holds. *)
Definition send_one (va : Z) : list dma_op := [DmaMap (Grant va (va * 16)) 7 3 DMA_TO_DEVICE; DeviceRead (va * 16); DmaUnmap (va * 16) false; DmaTraffic].
Definition skb_data : gmap Z (list Z) := {[ 7 := [1; 2; 3; 4] ]}.
Example deferred_buffers :
  (option_map (fun r => (fst r, zlen (_dmaPendingFree (snd r)))) (dma_run true (send_one 1 ++ send_one 2) (dma_boot skb_data)),
   option_map (fun r => zlen (_dmaPendingFree (snd r))) (dma_run false (send_one 1 ++ send_one 2) (dma_boot skb_data))) =
  (Some ([SeenHandle 16; SeenBytes [1; 2; 3]; SeenNothing; SeenNothing; SeenHandle 32; SeenBytes [1; 2; 3]; SeenNothing; SeenNothing], 2), Some 0).
Proof. vm_compute. reflexivity. Qed.

(** A receive buffer: the device fills it, the sync brings the bytes back. *)
Definition receive_one : list dma_op :=
  [DmaAlloc (Grant 1 16) 8; DmaMap (Grant 2 32) 7 4 DMA_FROM_DEVICE; DeviceWrite 32 0 [9; 8; 7]; DmaSyncCpu 32 3 DMA_FROM_DEVICE; DmaUnmap 32 true; DmaFree 1 true].
Lemma receive_one_ok : dma_contract false receive_one (dma_boot skb_data).
Proof.
  unfold receive_one.
  repeat (cbn [dma_contract]; split; [|lazymatch goal with |- match ?x with _ => _ end => let v := eval vm_compute in x in change x with v; cbv iota beta | _ => idtac end]).
  all: cbn [op_ok grant_ok]; first [done | reflexivity | by apply (bool_decide_unpack _); vm_compute | idtac].
  - right. exists [1; 2; 3; 4]. by split.
  - injection H as <-. done.
Qed.
Lemma dma_refines_iommu_witness : dma_contract false receive_one (dma_boot skb_data) /\
  exists s, dma_run false receive_one (dma_boot skb_data) = Some (fst (iommu_run receive_one (mk_iommu ∅ skb_data)), s) /\
    dma_inv s /\ dma_abs s = snd (iommu_run receive_one (mk_iommu ∅ skb_data)).
Proof. split; [apply receive_one_ok|]. apply (dma_refines_iommu false skb_data receive_one), receive_one_ok. Defined.
Lemma dma_teardown_releases_witness : dma_contract false (take 3 receive_one) (dma_boot skb_data) /\
  exists rs s s', dma_run false (take 3 receive_one) (dma_boot skb_data) = Some (rs, s) /\ dma_teardown s = Some s' /\
    descs s' = ∅ /\ _dmaList s' = [] /\ _dmaPendingFree s' = [].
Proof.
  assert (dma_contract false (take 3 receive_one) (dma_boot skb_data)) as C.
  { pose proof receive_one_ok as C. cbn [dma_contract receive_one take] in *. destruct C as (C1 & C2 & C3 & _). exact (conj C1 (conj C2 (conj C3 I))). }
  split; [exact C|]. apply (dma_teardown_releases false skb_data (take 3 receive_one) C).
Defined.
