(* ===== verification/Reorder.v ===== *)
(** * The receive reorder buffer of [src/src/kext/RTW88IEEE80211.cpp]

    [rxBaSetup], [rxBaTeardown], [rxBaTeardownAll], [rxReorderInput] and
    [rxReorderFlushStale], each one critical section under [_rxBaLock].  The
    received frame is a type parameter [frame] with its sequence number
    [seq].  A result [None] is an access outside an array or a loop that runs
    past its fuel; no such result occurs.  The code keeps a ring of 64 slots
    indexed by sequence number; [ring] is its rotation to the window head,
    against which the specification is stated. *)

From Stdlib Require Import Sorted.
From S2P Require Import Prelude.

Definition kRxBaMaxBuf : Z := 64.
Definition kRxBaNumTid : Z := 8.

Record RxReorder (frame : Type) := mk_reorder {
  active : bool;
  headSn : Z;
  bufSize : Z;
  stored : Z;
  buf : list (option frame)
}.
Arguments mk_reorder {frame}.
Arguments active {frame}.
Arguments headSn {frame}.
Arguments bufSize {frame}.
Arguments stored {frame}.
Arguments buf {frame}.

(** What one call hands back: the frames delivered, the frames freed, and
    whether the reorder timer is armed. *)
Record outcome (frame : Type) := mk_outcome {
  delivered : list frame;
  freed : list frame;
  arm_timer : bool
}.
Arguments mk_outcome {frame}.
Arguments delivered {frame}.
Arguments freed {frame}.
Arguments arm_timer {frame}.

Section reorder.
Context {frame : Type}.
Implicit Types (r : RxReorder frame) (out : list frame) (f : frame).

Abbreviation table := (list (option (RxReorder frame))) (only parsing).

Definition advance_head r : RxReorder frame :=
  mk_reorder (active r) ((headSn r + 1) .& 0xFFF) (bufSize r) (stored r) (buf r).

(** [out[nout++] = r->buf[hidx]; r->buf[hidx] = nullptr; r->stored--] *)
Definition take_slot r (hidx : Z) : option (RxReorder frame) :=
  b ← st (buf r) hidx None;
  Some (mk_reorder (active r) (headSn r) (bufSize r) (u32 (stored r - 1)) b).

(** Slide the window up to [newHead]. *)
Fixpoint slide (fuel : nat) (newHead : Z) r out : option (RxReorder frame * list frame) :=
  let dist := (newHead - headSn r) .& 0xFFF in
  if negb (dist =? 0) && (dist <? 2048) && (zlen out <? kRxBaMaxBuf)
  then match fuel with
       | O => None
       | S k =>
           let hidx := headSn r mod kRxBaMaxBuf in
           s ← ld (buf r) hidx;
           match s with
           | Some f => r ← take_slot r hidx; slide k newHead (advance_head r) (out ++ [f])
           | None => slide k newHead (advance_head r) out
           end
       end
  else Some (r, out).

(** Release the in-order run starting at the head. *)
Fixpoint release_run (fuel : nat) r out : option (RxReorder frame * list frame) :=
  if (0 <? stored r) && (zlen out <? kRxBaMaxBuf)
  then match fuel with
       | O => None
       | S k =>
           let hidx := headSn r mod kRxBaMaxBuf in
           s ← ld (buf r) hidx;
           match s with
           | None => Some (r, out)
           | Some f => r ← take_slot r hidx; release_run k (advance_head r) (out ++ [f])
           end
       end
  else Some (r, out).

(** Skip leading holes; [guard] counts as in the source. *)
Fixpoint skip_holes (fuel : nat) (guard : Z) r : option (RxReorder frame) :=
  if (0 <? stored r) && (guard <? 4096)
  then match fuel with
       | O => None
       | S k =>
           s ← ld (buf r) (headSn r mod kRxBaMaxBuf);
           match s with
           | Some _ => Some r
           | None => skip_holes k (guard + 1) (advance_head r)
           end
       end
  else Some r.

Definition slide_fuel : nat := 2048.
Definition run_fuel : nat := 65.
Definition skip_fuel : nat := 4097.

(** The code between the two loops of [rxReorderInput]. *)
Definition store_step r (skb : frame) (sn : Z) : option (RxReorder frame * list frame) :=
  s ← ld (buf r) (sn mod kRxBaMaxBuf);
  match s with
  | Some _ => Some (r, [skb])
  | None =>
      b ← st (buf r) (sn mod kRxBaMaxBuf) (Some skb);
      Some (mk_reorder (active r) (headSn r) (bufSize r) (u32 (stored r + 1)) b, [])
  end.

(** The critical section of [rxReorderInput] on an active agreement. *)
Definition reorder_input r (skb : frame) (sn : Z) : option (RxReorder frame * outcome frame) :=
  let rel := (sn - headSn r) .& 0xFFF in
  if 2048 <=? rel then Some (r, mk_outcome [] [skb] false)
  else
    '(r, out) ← (if bufSize r <=? rel
                 then slide slide_fuel ((sn + 1 - bufSize r) .& 0xFFF) r []
                 else Some (r, []));
    '(r, fr) ← store_step r skb sn;
    '(r, out) ← release_run run_fuel r out;
    Some (r, mk_outcome out fr (0 <? stored r)).

Definition rxReorderInput (t : table) (tid : Z) (skb : frame) (sn : Z)
    : option (table * outcome frame) :=
  e ← ld t tid;
  match e with
  | None => Some (t, mk_outcome [skb] [] false)
  | Some r =>
      if negb (active r) then Some (t, mk_outcome [skb] [] false)
      else
        '(r, o) ← reorder_input r skb sn;
        t ← st t tid (Some r);
        Some (t, o)
  end.

(** [alloc] says whether [IOMallocZero] succeeds. *)
Definition rxBaSetup (alloc : bool) (t : table) (tid ssn bufsize : Z)
    : option (table * outcome frame) :=
  if kRxBaNumTid <=? tid then Some (t, mk_outcome [] [] false)
  else
    let bufsize := if (bufsize =? 0) || (kRxBaMaxBuf <? bufsize) then kRxBaMaxBuf else bufsize in
    e ← ld t tid;
    let start b := mk_reorder true (ssn .& 0xFFF) bufsize 0 b in
    let empty := replicate (Z.to_nat kRxBaMaxBuf) None in
    match e with
    | Some r =>
        t ← st t tid (Some (start empty)); Some (t, mk_outcome [] (omap id (buf r)) false)
    | None =>
        if alloc then t ← st t tid (Some (start empty)); Some (t, mk_outcome [] [] false)
        else Some (t, mk_outcome [] [] false)
    end.

Definition rxBaTeardown (t : table) (tid : Z) : option (table * outcome frame) :=
  if kRxBaNumTid <=? tid then Some (t, mk_outcome [] [] false)
  else
    e ← ld t tid;
    match e with
    | None => Some (t, mk_outcome [] [] false)
    | Some r => t ← st t tid None; Some (t, mk_outcome [] (omap id (buf r)) false)
    end.

Fixpoint teardown_tids (tids : list Z) (t : table) (fr : list frame) : option (table * outcome frame) :=
  match tids with
  | [] => Some (t, mk_outcome [] fr false)
  | tid :: tids =>
      '(t, o) ← rxBaTeardown t tid; teardown_tids tids t (fr ++ freed o)
  end.

Definition rxBaTeardownAll (t : table) : option (table * outcome frame) :=
  teardown_tids (seqZ 0 kRxBaNumTid) t [].

(** The body of the loop of [rxReorderFlushStale] over the TIDs. *)
Definition flush_tid (e : option (RxReorder frame)) out (again : bool)
    : option (option (RxReorder frame) * list frame * bool) :=
  match e with
  | None => Some (None, out, again)
  | Some r =>
      if negb (active r) || (stored r =? 0) then Some (Some r, out, again)
      else
        r ← skip_holes skip_fuel 0 r;
        '(r, out) ← release_run run_fuel r out;
        Some (Some r, out, again || (0 <? stored r))
  end.

Fixpoint flush_tids (tids : list Z) (t : table) out (again : bool) : option (table * outcome frame) :=
  match tids with
  | [] => Some (t, mk_outcome out [] again)
  | tid :: tids =>
      e ← ld t tid;
      '(e, out, again) ← flush_tid e out again;
      t ← st t tid e;
      flush_tids tids t out again
  end.

Definition rxReorderFlushStale (t : table) : option (table * outcome frame) :=
  flush_tids (seqZ 0 kRxBaNumTid) t [] false.

(** ** The window

    [ring r] lists the 64 slots from the head: position [k] is the frame
    expected as number [headSn + k]. *)

Definition rget (b : list (option frame)) (i : Z) : option frame :=
  default None (ld b (i mod kRxBaMaxBuf)).

Definition ring r : list (option frame) :=
  map (fun k => rget (buf r) (headSn r + k)) (seqZ 0 kRxBaMaxBuf).

Definition frames (g : list (option frame)) : list frame := omap id g.

(** Drop the slot at the head; an empty slot enters at the far end. *)
Definition pop (g : list (option frame)) : list (option frame) := list.tail g ++ [None].
Definition pops (n : nat) (g : list (option frame)) : list (option frame) := Nat.iter n pop g.

Fixpoint run_len (g : list (option frame)) : nat :=
  match g with Some _ :: g => S (run_len g) | _ => O end.
Fixpoint hole_len (g : list (option frame)) : nat :=
  match g with None :: g => S (hole_len g) | _ => O end.

(** [r] is well formed in memory and [g] is its window. *)
Definition rep r (g : list (option frame)) : Prop :=
  zlen (buf r) = kRxBaMaxBuf /\ in_range 12 (headSn r) /\ g = ring r /\
  stored r = zlen (frames g) /\ zlen (frames g) <= kRxBaMaxBuf.

Lemma rget_ld b i : zlen b = kRxBaMaxBuf -> ld b (i mod kRxBaMaxBuf) = Some (rget b i).
Proof.
  intros Hb. unfold rget. destruct (ld_Some b (i mod kRxBaMaxBuf)) as [x ->]; [|done].
  rewrite Hb. apply Z.mod_pos_bound. unfold kRxBaMaxBuf. lia.
Qed.

Lemma rget_insert b i j v : zlen b = kRxBaMaxBuf ->
  rget (<[Z.to_nat (i mod kRxBaMaxBuf) := v]> b) j =
  if j mod kRxBaMaxBuf =? i mod kRxBaMaxBuf then v else rget b j.
Proof.
  intros Hb. unfold rget, ld, kRxBaMaxBuf in *.
  pose proof (Z.mod_pos_bound i 64). pose proof (Z.mod_pos_bound j 64).
  rewrite (proj2 (Z.leb_le 0 (j mod 64))) by lia.
  rewrite list_lookup_insert. destruct (Z.eqb_spec (j mod 64) (i mod 64)) as [->|Hne].
  - rewrite decide_True; [done|]. unfold zlen in Hb. split; [done|lia].
  - by rewrite decide_False by lia.
Qed.

Lemma ring_length r : length (ring r) = 64%nat.
Proof. unfold ring. by rewrite length_map, length_seqZ. Qed.

Lemma ring_lookup r (k : nat) : (k < 64)%nat -> ring r !! k = Some (rget (buf r) (headSn r + Z.of_nat k)).
Proof.
  intros Hk. unfold ring. rewrite list_lookup_fmap, lookup_seqZ_lt by (unfold kRxBaMaxBuf; lia).
  cbn. do 3 f_equal.
Qed.

Lemma land_FFF z : z .& 0xFFF = z mod 4096.
Proof. change 0xFFF with (Z.ones 12). by rewrite Z.land_ones. Qed.

Lemma rget_next b h k : rget b ((h + 1) .& 0xFFF + k) = rget b (h + (k + 1)).
Proof.
  unfold rget, kRxBaMaxBuf. do 2 f_equal. rewrite land_FFF.
  pose proof (Z.div_mod (h + 1) 4096).
  replace (h + (k + 1)) with (((h + 1) mod 4096 + k) + (((h + 1) / 4096) * 64) * 64) by lia.
  by rewrite Z.mod_add.
Qed.

Lemma frames_app g1 g2 : frames (g1 ++ g2) = frames g1 ++ frames g2.
Proof. apply omap_app. Qed.

Lemma ring_cons r : ring r = rget (buf r) (headSn r) :: list.tail (ring r).
Proof.
  pose proof (ring_lookup r 0 ltac:(lia)) as H. destruct (ring r) as [|x g]; [done|].
  injection H as ->. by rewrite Z.add_0_r.
Qed.

Lemma pop_length g : g <> [] -> length (pop g) = length g.
Proof. unfold pop. rewrite length_app. destruct g; cbn; [done|lia]. Qed.

(** Advancing the head over the slot [x], once it is empty, pops the ring. *)
Lemma ring_advance r r' :
  zlen (buf r) = kRxBaMaxBuf -> headSn r' = (headSn r + 1) .& 0xFFF ->
  buf r' = <[Z.to_nat (headSn r mod kRxBaMaxBuf) := None]> (buf r) ->
  ring r' = pop (ring r).
Proof.
  intros Hb Hh Hb'. apply list_eq_same_length with 64%nat.
  - rewrite pop_length; [apply ring_length|]. by rewrite ring_cons.
  - by rewrite ring_length.
  - intros k y z Hk. rewrite ring_lookup by done. rewrite Hh, Hb'.
    rewrite rget_next, rget_insert by done. intros [= <-].
    unfold pop. destruct (decide (k = 63%nat)) as [->|Hne].
    + rewrite lookup_app_r by (rewrite length_tl, ring_length; lia).
      rewrite length_tl, ring_length. cbn. intros [= <-].
      change (Z.of_nat 63 + 1) with (1 * 64).
      unfold kRxBaMaxBuf. rewrite Z.mod_add, Z.eqb_refl by lia. done.
    + rewrite lookup_app_l by (rewrite length_tl, ring_length; lia).
      rewrite lookup_tail, ring_lookup by lia. intros [= <-].
      rewrite (proj2 (Z.eqb_neq _ _)); [do 2 f_equal; lia|].
      unfold kRxBaMaxBuf. intros E. 
      pose proof (Z.mod_pos_bound (headSn r) 64). pose proof (Z.div_mod (headSn r) 64).
      pose proof (Z.div_mod (headSn r + (Z.of_nat k + 1)) 64). lia.
Qed.

Lemma ring_advance_hole r :
  zlen (buf r) = kRxBaMaxBuf -> rget (buf r) (headSn r) = None -> ring (advance_head r) = pop (ring r).
Proof.
  intros Hb Hx. apply ring_advance; [done|done|]. cbn [buf advance_head].
  unfold rget in Hx. symmetry. apply list_insert_id.
  pose proof (rget_ld (buf r) (headSn r) Hb) as E. unfold rget in E. rewrite Hx in E.
  unfold ld in E. destruct (0 <=? _); done.
Qed.

Lemma ring_insert r r' (k : nat) v :
  zlen (buf r) = kRxBaMaxBuf -> (k < 64)%nat -> headSn r' = headSn r ->
  buf r' = <[Z.to_nat ((headSn r + Z.of_nat k) mod kRxBaMaxBuf) := v]> (buf r) ->
  ring r' = <[k := v]> (ring r).
Proof.
  intros Hb Hk Hh Hb'. apply list_eq_same_length with 64%nat.
  - by rewrite length_insert, ring_length.
  - by rewrite ring_length.
  - intros j y z Hj. rewrite ring_lookup by done. rewrite Hh, Hb', rget_insert by done.
    intros [= <-]. rewrite list_lookup_insert, ring_length, ring_lookup by done.
    destruct (Z.eqb_spec ((headSn r + Z.of_nat j) mod kRxBaMaxBuf) ((headSn r + Z.of_nat k) mod kRxBaMaxBuf))
      as [E|E]; unfold kRxBaMaxBuf in E.
    + assert (k = j) as -> by (pose proof (Z.div_mod (headSn r + Z.of_nat j) 64);
        pose proof (Z.div_mod (headSn r + Z.of_nat k) 64); lia).
      rewrite decide_True by done. by intros [= <-].
    + rewrite decide_False by (intros [-> _]; done). by intros [= <-].
Qed.

(** [r'] is [r] with the head moved [n] numbers up, apart from the slots. *)
Definition moved (n : nat) r (r' : RxReorder frame) : Prop :=
  active r' = active r /\ bufSize r' = bufSize r /\ headSn r' = (headSn r + Z.of_nat n) mod 4096.

Lemma moved_0 r : in_range 12 (headSn r) -> moved 0 r r.
Proof. intros H. split_and!; [done..|]. rewrite Z.add_0_r. by rewrite Z.mod_small. Qed.

Lemma moved_step n r r1 r2 :
  active r1 = active r -> bufSize r1 = bufSize r -> headSn r1 = headSn r ->
  moved n (advance_head r1) r2 -> moved (S n) r r2.
Proof.
  intros A B H (A' & B' & H'). cbn in *. rewrite A, B, H in *. split_and!; [done..|].
  rewrite H', land_FFF. rewrite Zplus_mod_idemp_l. f_equal. lia.
Qed.

Lemma frames_pop x g : frames (pop (x :: g)) = frames g.
Proof. unfold pop. rewrite frames_app. apply app_nil_r. Qed.

Lemma frames_take_pop n x g : frames (take (S n) (x :: g)) = option_list x ++ frames (take n (pop (x :: g))).
Proof.
  unfold pop. cbn [take list.tail]. rewrite take_app, frames_app.
  replace (frames (take (n - length g) [None])) with (@nil frame).
  - rewrite app_nil_r. by destruct x.
  - by destruct (n - length g)%nat as [|[|]].
Qed.

Lemma frames_cons_zlen x g : zlen (frames (x :: g)) = (if x then 1 else 0) + zlen (frames g).
Proof. destruct x; unfold frames, zlen; cbn; lia. Qed.

Lemma pops_S n g : pops (S n) g = pops n (pop g).
Proof. apply Nat.iter_succ_r. Qed.

Lemma rep_head r g : rep r g -> exists x tl, g = x :: tl /\
  ld (buf r) (headSn r mod kRxBaMaxBuf) = Some x /\
  match x with
  | None => rep (advance_head r) (pop g)
  | Some f => exists r1, take_slot r (headSn r mod kRxBaMaxBuf) = Some r1 /\
      rep (advance_head r1) (pop g) /\
      active r1 = active r /\ bufSize r1 = bufSize r /\ headSn r1 = headSn r
  end.
Proof.
  intros (Hb & Hh & Hg & Hs & Hmax). exists (rget (buf r) (headSn r)), (list.tail (ring r)).
  rewrite <- ring_cons. split_and!; [done|by apply rget_ld|].
  assert (in_range 12 ((headSn r + 1) .& 0xFFF)) by (rewrite land_FFF; apply Z.mod_pos_bound; lia).
  rewrite Hg in *. rewrite ring_cons, frames_cons_zlen in Hs, Hmax.
  destruct (rget (buf r) (headSn r)) as [f|] eqn:E; cbv iota beta in Hs, Hmax.
  - unfold take_slot. pose proof (Z.mod_pos_bound (headSn r) 64).
    rewrite st_Some by (rewrite Hb; unfold kRxBaMaxBuf; lia). cbn [mbind option_bind].
    eexists. split; [done|]. split; [|done].
    set (r1 := mk_reorder _ _ _ _ _).
    assert (ring (advance_head r1) = pop (ring r)) as <- by by apply ring_advance.
    unfold rep. cbn [headSn buf stored advance_head r1]. rewrite zlen_insert.
    assert (frames (ring (advance_head r1)) = frames (list.tail (ring r))) as ->.
    { rewrite (ring_advance r), (ring_cons r) by done. apply frames_pop. }
    pose proof (zlen_nonneg (frames (list.tail (ring r)))).
    rewrite wrap_small by (unfold in_range, kRxBaMaxBuf in *; lia). split_and!; [done..|lia|lia].
  - unfold rep. rewrite ring_advance_hole by done. cbn [headSn buf stored advance_head].
    rewrite (ring_cons r), frames_pop. split_and!; [done..|lia|lia].
Qed.

(** ** The loops *)

Lemma rep_range r g : rep r g -> in_range 12 (headSn r).
Proof. by intros (_ & ? & _). Qed.

Lemma rep_stored r g : rep r g -> stored r = zlen (frames g).
Proof. by intros (_ & _ & _ & ? & _). Qed.

Lemma moved_0' r g : rep r g -> moved 0 r r.
Proof. intros R. apply moved_0, (rep_range _ _ R). Qed.

Lemma zlen_snoc {A} (l : list A) x : zlen (l ++ [x]) = zlen l + 1.
Proof. zlen. Qed.

Lemma window_dist h n : in_range 12 h -> (n < 2048)%nat ->
  ((h + Z.of_nat n) mod 4096 - h) .& 0xFFF = Z.of_nat n.
Proof.
  intros Hh Hn. unfold in_range in Hh. rewrite land_FFF, Zminus_mod_idemp_l.
  rewrite Z.mod_small; lia.
Qed.

Lemma advance_target h n : ((h + 1) .& 0xFFF + Z.of_nat n) mod 4096 = (h + Z.of_nat (S n)) mod 4096.
Proof. rewrite land_FFF, Zplus_mod_idemp_l. f_equal. lia. Qed.

(** With room in [out] for every buffered frame, the slide reaches its
    target, releasing exactly the frames it passes. *)
Lemma slide_ok n : forall fuel r g out,
  rep r g -> (n <= fuel)%nat -> (n < 2048)%nat -> zlen out + zlen (frames g) < kRxBaMaxBuf ->
  exists r', slide fuel ((headSn r + Z.of_nat n) mod 4096) r out = Some (r', out ++ frames (take n g)) /\
    rep r' (pops n g) /\ moved n r r'.
Proof.
  induction n as [|n IH]; intros fuel r g out R Hf Hn Hr.
  - exists r. pose proof (rep_range _ _ R). rewrite take_0, app_nil_r.
    split_and!; [|done|by eapply moved_0'].
    destruct fuel; cbn [slide]; rewrite window_dist by (done || lia); done.
  - destruct fuel as [|fuel]; [lia|]. cbn [slide].
    rewrite window_dist by (lia || by eapply rep_range).
    destruct (rep_head r g R) as (x & tl & -> & -> & Hx). pose proof (zlen_nonneg (frames tl)).
    rewrite frames_cons_zlen in Hr.
    rewrite (proj2 (Z.ltb_lt (zlen out) kRxBaMaxBuf)), (proj2 (Z.ltb_lt (Z.of_nat (S n)) 2048))
      by (destruct x; lia).
    rewrite (proj2 (Z.eqb_neq _ _)) by lia. cbn [negb andb mbind option_bind].
    rewrite frames_take_pop, pops_S. destruct x as [f|].
    + destruct Hx as (r1 & -> & R1 & A & B & Hh). cbn [mbind option_bind].
      destruct (IH fuel (advance_head r1) (pop (Some f :: tl)) (out ++ [f]) R1) as (r' & E & R' & M);
        [lia|lia|rewrite zlen_snoc, frames_pop; lia|].
      cbn [headSn advance_head] in E. rewrite advance_target, Hh in E. rewrite E.
      exists r'. rewrite <- app_assoc. split_and!; [done..|by eapply moved_step].
    + destruct (IH fuel (advance_head r) (pop (None :: tl)) out Hx) as (r' & E & R' & M);
        [lia|lia|rewrite frames_pop; lia|].
      cbn [headSn advance_head] in E. rewrite advance_target in E. rewrite E.
      exists r'. split_and!; [done..|by eapply moved_step].
Qed.

Lemma run_len_pop x g : run_len (Some x :: g) = S (run_len (pop (Some x :: g))).
Proof.
  unfold pop. cbn [run_len list.tail]. f_equal. induction g as [|[y|] g IH]; cbn; [done| |done].
  by rewrite IH.
Qed.

Lemma run_len_frames g : Z.of_nat (run_len g) <= zlen (frames g).
Proof. induction g as [|[x|] g IH]; [done| |]; rewrite frames_cons_zlen; cbn [run_len]; [lia|]. pose proof (zlen_nonneg (frames g)). lia. Qed.

(** The run released is cut only by the capacity of [out]. *)
Lemma release_run_ok n : forall fuel r g out,
  rep r g -> n = Nat.min (run_len g) (Z.to_nat (kRxBaMaxBuf - zlen out)) -> (n < fuel)%nat ->
  exists r', release_run fuel r out = Some (r', out ++ frames (take n g)) /\
    rep r' (pops n g) /\ moved n r r'.
Proof.
  induction n as [|n IH]; intros fuel r g out R Hn Hf.
  - exists r. rewrite take_0, app_nil_r. split_and!; [|done|by eapply moved_0'].
    destruct fuel as [|fuel]; [lia|]. cbn [release_run].
    destruct (Z.ltb_spec 0 (stored r)); [|done].
    destruct (Z.ltb_spec (zlen out) kRxBaMaxBuf); [cbn [andb]|done].
    destruct (rep_head r g R) as (x & tl & -> & -> & Hx). destruct x; [cbn [run_len] in Hn; lia|done].
  - destruct fuel as [|fuel]; [lia|]. cbn [release_run].
    destruct (rep_head r g R) as (x & tl & -> & -> & Hx). destruct x as [f|]; [|cbn in Hn; lia].
    pose proof (rep_stored _ _ R) as Hs. rewrite frames_cons_zlen in Hs.
    pose proof (zlen_nonneg (frames tl)).
    rewrite !(proj2 (Z.ltb_lt _ _)) by lia. cbn [andb mbind option_bind].
    destruct Hx as (r1 & -> & R1 & A & B & Hh). cbn [mbind option_bind].
    destruct (IH fuel (advance_head r1) (pop (Some f :: tl)) (out ++ [f]) R1) as (r' & E & R' & M);
      [rewrite run_len_pop in Hn; rewrite zlen_snoc; lia|lia|].
    exists r'. rewrite E, frames_take_pop, pops_S, <- app_assoc.
    split_and!; [done..|by eapply moved_step].
Qed.

Lemma hole_len_pop g : hole_len (None :: g) = S (hole_len g).
Proof. done. Qed.

Lemma hole_len_app g g' : 0 < zlen (frames g) -> hole_len (g ++ g') = hole_len g.
Proof.
  induction g as [|[x|] g IH]; [done|done|]. rewrite frames_cons_zlen. cbn. intros H.
  by rewrite IH.
Qed.

Lemma skip_holes_ok n : forall fuel guard r g,
  rep r g -> 0 < zlen (frames g) -> n = hole_len g -> (n < fuel)%nat -> 0 <= guard ->
  guard + Z.of_nat n < 4096 ->
  exists r', skip_holes fuel guard r = Some r' /\ rep r' (pops n g) /\ moved n r r' /\
    frames (pops n g) = frames g /\ hole_len (pops n g) = O.
Proof.
  induction n as [|n IH]; intros fuel guard r g R Hp Hn Hf Hg Hb;
    (destruct fuel as [|fuel]; [lia|]); cbn [skip_holes]; rewrite (rep_stored _ _ R);
    rewrite (proj2 (Z.ltb_lt 0 (zlen (frames g)))), (proj2 (Z.ltb_lt guard 4096)) by lia; cbn [andb];
    destruct (rep_head r g R) as (x & tl & -> & -> & Hx); cbn [mbind option_bind].
  - destruct x as [f|]; [|done]. exists r. split_and!; [done|done|by eapply moved_0'|done|done].
  - destruct x as [f|]; [done|]. rewrite frames_cons_zlen in Hp.
    destruct (IH fuel (guard + 1) (advance_head r) (pop (None :: tl)) Hx) as (r' & E & R' & M & F & Hz);
      [by rewrite frames_pop| |lia|lia|lia|].
    { unfold pop. cbn [list.tail]. rewrite hole_len_app by lia. cbn in Hn. lia. }
    exists r'. rewrite E, pops_S. split_and!; [done|done|by eapply moved_step| |done].
    by rewrite F, frames_pop.
Qed.

(** ** The specification of one input

    The window is its head number and its ring; [size] is the agreed window
    size. *)

Record window := mk_window { whead : Z; wring : list (option frame) }.

(** Store [f] at offset [k] unless the place is taken. *)
Definition win_store (g : list (option frame)) (k : nat) f : list (option frame) * list frame :=
  match g !! k with
  | Some (Some _) => (g, [f])
  | _ => (<[k := Some f]> g, [])
  end.

Definition spec_input (size : Z) (w : window) f (sn : Z) : window * outcome frame :=
  let rel := (sn - whead w) mod 4096 in
  if 2048 <=? rel then (w, mk_outcome [] [f] false)
  else
    let n := Z.to_nat (rel + 1 - size) in
    let '(g, fr) := win_store (pops n (wring w)) (Z.to_nat (Z.min rel (size - 1))) f in
    let m := run_len g in
    (mk_window ((whead w + Z.of_nat n + Z.of_nat m) mod 4096) (pops m g),
     mk_outcome (frames (take n (wring w)) ++ frames (take m g)) fr
                (0 <? zlen (frames (pops m g)))).

Variable seq : frame -> Z.

(** The buffered frames are where their numbers say, inside the agreed
    window, and at least one of the 64 slots is free. *)
Definition placed (h : Z) (g : list (option frame)) : Prop :=
  forall k f, g !! k = Some (Some f) -> seq f = (h + Z.of_nat k) mod 4096.

Definition inside (size : Z) (g : list (option frame)) : Prop :=
  forall k f, g !! k = Some (Some f) -> Z.of_nat k < size.

Definition window_ok r (g : list (option frame)) : Prop :=
  rep r g /\ 1 <= bufSize r <= kRxBaMaxBuf /\ zlen (frames g) < kRxBaMaxBuf /\
  placed (headSn r) g /\ inside (bufSize r) g.

Lemma pops_length n g : length g = 64%nat -> length (pops n g) = 64%nat.
Proof.
  revert g. induction n as [|n IH]; intros g H; [done|]. rewrite pops_S. apply IH.
  rewrite pop_length; [done|]. by destruct g.
Qed.

Lemma pops_lookup n g k : length g = 64%nat -> (k < 64)%nat ->
  pops n g !! k = if decide (k + n < 64)%nat then g !! (k + n)%nat else Some None.
Proof.
  revert g. induction n as [|n IH]; intros g H Hk.
  - rewrite decide_True by lia. by rewrite Nat.add_0_r.
  - rewrite pops_S, IH; [|rewrite pop_length; [done|by destruct g]|done].
    unfold pop. destruct g as [|x g]; [done|]. cbn [list.tail]. cbn in H.
    case_decide; case_decide; try lia.
    + rewrite lookup_app_l by lia. by rewrite Nat.add_succ_r.
    + rewrite lookup_app_r by lia. by replace (k + n - length g)%nat with 0%nat by lia.
    + done.
Qed.

Lemma frames_pops n g : length g = 64%nat -> frames g = frames (take n g) ++ frames (pops n g).
Proof.
  revert g. induction n as [|n IH]; intros g H; [done|]. destruct g as [|x g]; [done|].
  rewrite frames_take_pop, pops_S, <- app_assoc, <- IH, frames_pop by by rewrite pop_length.
  by destruct x.
Qed.

Lemma rep_ring_length r g : rep r g -> length g = 64%nat.
Proof. intros (_ & _ & -> & _). apply ring_length. Qed.

Lemma zlen_frames_le g : zlen (frames g) <= zlen g.
Proof. induction g as [|x g IH]; [done|]. rewrite frames_cons_zlen. zlen. destruct x; lia. Qed.

Lemma run_len_0 g : run_len g = O -> length g = 64%nat -> zlen (frames g) < kRxBaMaxBuf.
Proof.
  destruct g as [|[x|] g]; [done|done|]. intros _ H. rewrite frames_cons_zlen.
  pose proof (zlen_frames_le g). unfold zlen, kRxBaMaxBuf in *. cbn in H. lia.
Qed.

Lemma frames_insert g k f : g !! k = Some None ->
  frames (<[k := Some f]> g) ≡ₚ f :: frames g.
Proof.
  revert k. induction g as [|x g IH]; intros [|k]; cbn [lookup list_lookup]; [done|done| |].
  - by intros [= ->].
  - intros H. cbn. specialize (IH k H). unfold frames in IH. destruct x; cbn; rewrite IH; [|done].
    apply Permutation_swap.
Qed.

Lemma zlen_perm {A} (l1 l2 : list A) : l1 ≡ₚ l2 -> zlen l1 = zlen l2.
Proof. unfold zlen. by intros ->. Qed.

(** Everything about storing one frame. *)
Lemma win_store_spec g k f g2 fr :
  length g = 64%nat -> (k < 64)%nat -> win_store g k f = (g2, fr) ->
  length g2 = 64%nat /\ fr ++ frames g2 ≡ₚ f :: frames g /\
  (forall j f', g2 !! j = Some (Some f') -> g !! j = Some (Some f') \/ j = k /\ f' = f).
Proof.
  intros Hl Hk. unfold win_store. destruct (lookup_lt_is_Some_2 g k ltac:(lia)) as [x Hx].
  rewrite Hx. destruct x as [f'|]; intros [= <- <-].
  - split_and!; [done|done|by eauto].
  - rewrite length_insert. split_and!; [done|by apply frames_insert|].
    intros j f'. rewrite list_lookup_insert. case_decide; [|by eauto]. intros [= <-]. naive_solver.
Qed.

Lemma slot_of h k : 0 <= h -> ((h + Z.of_nat k) mod 4096) mod kRxBaMaxBuf = (h + Z.of_nat k) mod kRxBaMaxBuf.
Proof.
  intros Hh. unfold kRxBaMaxBuf. pose proof (Z.div_mod (h + Z.of_nat k) 4096).
  replace (h + Z.of_nat k) with ((h + Z.of_nat k) mod 4096 + ((h + Z.of_nat k) / 4096 * 64) * 64) at 2 by lia.
  by rewrite Z.mod_add.
Qed.

Lemma store_step_ok r g f k :
  rep r g -> (k < 64)%nat -> zlen (frames g) < kRxBaMaxBuf ->
  exists r', store_step r f ((headSn r + Z.of_nat k) mod 4096) = Some (r', snd (win_store g k f)) /\
    rep r' (fst (win_store g k f)) /\ moved 0 r r'.
Proof.
  intros R Hk Hc. destruct R as (Hb & Hh & Hg & Hs & Hmax). unfold store_step.
  rewrite slot_of by apply Hh. rewrite rget_ld by done. cbn [mbind option_bind].
  unfold win_store. rewrite Hg in *. rewrite ring_lookup by done.
  destruct (rget (buf r) (headSn r + Z.of_nat k)) as [f'|] eqn:E; cbn [fst snd].
  - exists r. split_and!; [done| |by apply moved_0]. done.
  - pose proof (Z.mod_pos_bound (headSn r + Z.of_nat k) 64).
    rewrite st_Some by (rewrite Hb; unfold kRxBaMaxBuf; lia). cbn [mbind option_bind].
    eexists. split; [done|]. split; [|exact (moved_0 r Hh)].
    set (r' := mk_reorder _ _ _ _ _).
    assert (ring r' = <[k := Some f]> (ring r)) as Er by by apply ring_insert.
    assert (zlen (frames (<[k := Some f]> (ring r))) = 1 + zlen (frames (ring r))) as Hz.
    { rewrite (zlen_perm _ (f :: frames (ring r))); [zlen|]. apply frames_insert.
      by rewrite ring_lookup, E. }
    pose proof (zlen_nonneg (frames (ring r))).
    unfold rep. rewrite Er, Hz. cbn [buf headSn stored r']. rewrite zlen_insert.
    rewrite wrap_small by (unfold in_range, kRxBaMaxBuf in *; lia). split_and!; [done..|lia|lia].
Qed.

(** The outcome of the code is the one specified, on the window specified. *)
Definition refines r f (sn : Z) (g : list (option frame)) : Prop :=
  let '(w, o) := spec_input (bufSize r) (mk_window (headSn r) g) f sn in
  exists r', reorder_input r f sn = Some (r', o) /\ rep r' (wring w) /\
    headSn r' = whead w /\ active r' = active r /\ bufSize r' = bufSize r.

Lemma slide_to r g sn :
  rep r g -> 1 <= bufSize r <= kRxBaMaxBuf -> zlen (frames g) < kRxBaMaxBuf -> in_range 12 sn ->
  let rel := (sn - headSn r) mod 4096 in
  let n := Z.to_nat (rel + 1 - bufSize r) in
  rel < 2048 ->
  exists r', (if bufSize r <=? rel then slide slide_fuel ((sn + 1 - bufSize r) .& 0xFFF) r []
              else Some (r, [])) = Some (r', frames (take n g)) /\
    rep r' (pops n g) /\ moved n r r' /\
    sn = (headSn r' + Z.of_nat (Z.to_nat (Z.min rel (bufSize r - 1)))) mod 4096.
Proof.
  intros R Hs Hf Hsn rel n Hrel. pose proof (rep_range _ _ R) as Hh.
  assert (sn = (headSn r + rel) mod 4096) as Esn.
  { unfold rel. rewrite Zplus_mod_idemp_r. rewrite Z.mod_small; unfold in_range in *; lia. }
  assert (0 <= rel) by (apply Z.mod_pos_bound; lia).
  destruct (Z.leb_spec (bufSize r) rel) as [Hle|Hlt].
  - replace ((sn + 1 - bufSize r) .& 0xFFF) with ((headSn r + Z.of_nat n) mod 4096).
    2: { rewrite land_FFF, Esn. replace ((headSn r + rel) mod 4096 + 1 - bufSize r) with
           ((headSn r + rel) mod 4096 + (1 - bufSize r)) by lia.
         rewrite Zplus_mod_idemp_l. f_equal. lia. }
    destruct (slide_ok n slide_fuel r g [] R) as (r' & E & R' & M);
      [unfold slide_fuel; lia|lia|done|].
    exists r'. split_and!; [done..|]. destruct M as (_ & _ & ->).
    rewrite Zplus_mod_idemp_l, Esn. f_equal. lia.
  - replace n with 0%nat by lia. exists r. split_and!; [done..|by eapply moved_0'|].
    rewrite Esn. f_equal. lia.
Qed.

Lemma reorder_input_ok r g f sn :
  rep r g -> 1 <= bufSize r <= kRxBaMaxBuf -> zlen (frames g) < kRxBaMaxBuf -> in_range 12 sn ->
  refines r f sn g.
Proof.
  intros R Hs Hf Hsn. unfold refines, spec_input. cbn [whead wring].
  unfold reorder_input. rewrite land_FFF.
  destruct (Z.leb_spec 2048 ((sn - headSn r) mod 4096)) as [Hr|Hr].
  { exists r. split_and!; done. }
  destruct (slide_to r g sn R Hs Hf Hsn Hr) as (r1 & -> & R1 & (A1 & B1 & H1) & Esn).
  cbn [mbind option_bind]. pose proof (Z.mod_pos_bound (sn - headSn r) 4096 eq_refl).
  set (n := Z.to_nat ((sn - headSn r) mod 4096 + 1 - bufSize r)) in *.
  set (k := Z.to_nat (Z.min ((sn - headSn r) mod 4096) (bufSize r - 1))) in *.
  pose proof (frames_pops n g (rep_ring_length _ _ R)) as Hfp.
  apply (f_equal zlen) in Hfp. rewrite zlen_app in Hfp. pose proof (zlen_nonneg (frames (take n g))).
  assert (k < 64)%nat as Hk by (unfold k, kRxBaMaxBuf in *; lia).
  destruct (store_step_ok r1 (pops n g) f k R1 Hk) as (r2 & E2 & R2 & (A2 & B2 & H2)); [lia|].
  rewrite Esn, E2. cbn [mbind option_bind].
  destruct (win_store (pops n g) k f) as [g2 fr] eqn:Ew. cbn [fst snd] in *.
  destruct (win_store_spec (pops n g) k f g2 fr) as (_ & Hp & _);
    [apply pops_length, (rep_ring_length _ _ R)|done|done|].
  apply zlen_perm in Hp. zlen_in Hp. pose proof (zlen_nonneg fr). pose proof (run_len_frames g2).
  destruct (release_run_ok (run_len g2) run_fuel r2 g2 (frames (take n g)) R2)
    as (r3 & E3 & R3 & (A3 & B3 & Hh3)); [lia| |].
  { destruct R2 as (_ & _ & _ & _ & ?). unfold run_fuel, kRxBaMaxBuf in *. lia. }
  rewrite E3. cbn [mbind option_bind]. exists r3. rewrite (rep_stored _ _ R3). split_and!; [done|done| | |].
  - cbn [whead]. rewrite Hh3, H2, H1. change (Z.of_nat 0) with 0. by rewrite Zplus_mod_idemp_l, Z.add_0_r, Zplus_mod_idemp_l.
  - by rewrite A3, A2, A1.
  - by rewrite B3, B2, B1.
Qed.

(** ** Order and conservation

    [l] carries strictly increasing numbers between [a] and [b] past [h]. *)

Definition in_order (h a b : Z) (l : list frame) : Prop :=
  exists ks, StronglySorted Z.lt ks /\ Forall (fun k => a <= k < b) ks /\
    map seq l = map (fun k => (h + k) mod 4096) ks.

Lemma StronglySorted_split (l1 l2 : list Z) a b c :
  StronglySorted Z.lt l1 -> StronglySorted Z.lt l2 ->
  Forall (fun k => a <= k < b) l1 -> Forall (fun k => b <= k < c) l2 -> StronglySorted Z.lt (l1 ++ l2).
Proof.
  intros S1 S2 F1 F2. induction S1 as [|x l1 S1 IH Hx]; [done|]. cbn.
  inversion_clear F1 as [|? ? Hx1 F1']. constructor; [by apply IH|]. apply Forall_app. split; [done|].
  eapply Forall_impl; [exact F2|]. cbn. lia.
Qed.

Lemma in_order_app h a b c l1 l2 : a <= b <= c ->
  in_order h a b l1 -> in_order h b c l2 -> in_order h a c (l1 ++ l2).
Proof.
  intros Hb (k1 & S1 & F1 & E1) (k2 & S2 & F2 & E2). exists (k1 ++ k2). split_and!.
  - by eapply StronglySorted_split.
  - apply Forall_app. split; (eapply Forall_impl; [eassumption|]); cbn; lia.
  - by rewrite !map_app, E1, E2.
Qed.

Lemma in_order_nil h a b : in_order h a b [].
Proof. exists []. split_and!; constructor. Qed.

Lemma in_order_take h n : forall a g,
  (forall k f, g !! k = Some (Some f) -> seq f = (h + (a + Z.of_nat k)) mod 4096) ->
  in_order h a (a + Z.of_nat n) (frames (take n g)).
Proof.
  induction n as [|n IH]; intros a g Hg; [by apply in_order_nil|].
  destruct g as [|x g]; [by apply in_order_nil|].
  assert (in_order h (a + 1) (a + Z.of_nat (S n)) (frames (take n g))) as H.
  { replace (a + Z.of_nat (S n)) with (a + 1 + Z.of_nat n) by lia. apply IH.
    intros k f Hk. rewrite (Hg (S k) f Hk). f_equal. lia. }
  change (frames (take (S n) (x :: g))) with (frames ([x] ++ take n g)). rewrite frames_app.
  apply (in_order_app h a (a + 1)); [lia| |done].
  destruct x as [f|]; [|by apply in_order_nil].
  exists [a]. split_and!; [by repeat constructor|constructor; [lia|constructor]|].
  cbn. rewrite (Hg 0%nat f eq_refl). do 3 f_equal. lia.
Qed.

Lemma pops_inv n g k f : length g = 64%nat -> pops n g !! k = Some (Some f) -> g !! (k + n)%nat = Some (Some f).
Proof.
  intros Hl Hk. pose proof (lookup_lt_Some _ _ _ Hk) as Hlt. rewrite pops_length in Hlt by done.
  rewrite pops_lookup in Hk by done. by case_decide.
Qed.

Lemma placed_pops h n g : length g = 64%nat -> placed h g -> placed ((h + Z.of_nat n) mod 4096) (pops n g).
Proof.
  intros Hl Hp k f Hk%pops_inv; [|done]. rewrite (Hp _ _ Hk), Zplus_mod_idemp_l. f_equal. lia.
Qed.

Lemma inside_pops size n g : length g = 64%nat -> inside size g -> inside size (pops n g).
Proof. intros Hl Hp k f Hk%pops_inv; [|done]. specialize (Hp _ _ Hk). lia. Qed.

Lemma frames_pops_zlen n g : length g = 64%nat -> zlen (frames (pops n g)) <= zlen (frames g).
Proof.
  intros Hl. rewrite (frames_pops n g Hl), zlen_app. pose proof (zlen_nonneg (frames (take n g))). lia.
Qed.

(** The window that a specified input leaves, and what it hands out. *)
Lemma spec_input_sound r g f sn w o :
  window_ok r g -> in_range 12 sn -> seq f = sn ->
  spec_input (bufSize r) (mk_window (headSn r) g) f sn = (w, o) ->
  placed (whead w) (wring w) /\ inside (bufSize r) (wring w) /\
  zlen (frames (wring w)) < kRxBaMaxBuf /\
  delivered o ++ freed o ++ frames (wring w) ≡ₚ f :: frames g /\
  exists adv, 0 <= adv < 2048 + kRxBaMaxBuf /\ whead w = (headSn r + adv) mod 4096 /\
    in_order (headSn r) 0 adv (delivered o).
Proof.
  intros (R & Hs & Hc & Hp & Hi) Hsn Hseq. unfold spec_input. cbn [whead wring].
  pose proof (rep_ring_length _ _ R) as Hl. pose proof (rep_range _ _ R) as Hh.
  destruct (Z.leb_spec 2048 ((sn - headSn r) mod 4096)) as [Hr|Hr].
  { intros [= <- <-]. cbn. split_and!; try done. exists 0. unfold kRxBaMaxBuf.
    split_and!; [lia|lia| |by apply in_order_nil]. rewrite Z.add_0_r, Z.mod_small; [done|apply Hh]. }
  pose proof (Z.mod_pos_bound (sn - headSn r) 4096 eq_refl).
  assert (sn = (headSn r + (sn - headSn r) mod 4096) mod 4096) as Esn.
  { rewrite Zplus_mod_idemp_r. rewrite Z.mod_small; unfold in_range in *; lia. }
  set (rel := (sn - headSn r) mod 4096) in *. set (n := Z.to_nat (rel + 1 - bufSize r)).
  set (k := Z.to_nat (Z.min rel (bufSize r - 1))).
  assert (Hk : (k < 64)%nat) by (unfold k, kRxBaMaxBuf in *; lia).
  destruct (win_store (pops n g) k f) as [g2 fr] eqn:Ew. intros [= <- <-]. cbn [whead wring delivered freed].
  destruct (win_store_spec _ _ _ _ _ (pops_length n g Hl) Hk Ew) as (Hl2 & Hperm & Hfrom).
  assert (placed ((headSn r + Z.of_nat n) mod 4096) g2) as Hp2.
  { intros j f' [Hj|[-> ->]]%Hfrom; [by apply (placed_pops _ n g Hl Hp)|].
    rewrite Hseq, Esn, Zplus_mod_idemp_l. f_equal. lia. }
  assert (inside (bufSize r) g2) as Hi2.
  { intros j f' [Hj|[-> ->]]%Hfrom; [exact (inside_pops _ n g Hl Hi j f' Hj)|]. lia. }
  set (m := run_len g2). pose proof (frames_pops_zlen m g2 Hl2). pose proof (frames_pops n g Hl) as Hn.
  split_and!.
  - rewrite <- Zplus_mod_idemp_l. by apply placed_pops.
  - by apply inside_pops.
  - destruct (Nat.eq_dec m O) as [Em|Em].
    + pose proof (run_len_0 g2 Em Hl2). lia.
    + pose proof (frames_pops m g2 Hl2) as Hm. apply (f_equal zlen) in Hm. rewrite zlen_app in Hm.
      pose proof (zlen_frames_le g2). assert (zlen g2 = 64) by (unfold zlen; lia).
      enough (0 < zlen (frames (take m g2))) by (unfold kRxBaMaxBuf; lia).
      destruct g2 as [|[x|] g2']; [done| |done]. cbn. zlen. pose proof (zlen_nonneg (frames (take (run_len g2') g2'))).
      unfold frames in *. lia.
  - rewrite Hn, <- app_assoc, (app_assoc (frames (take m g2))), (Permutation_app_comm (frames (take m g2))).
    rewrite <- app_assoc, <- (frames_pops m g2 Hl2), Hperm. by rewrite <- Permutation_middle.
  - exists (Z.of_nat n + Z.of_nat m). pose proof (run_len_frames g2). pose proof (zlen_frames_le g2).
    assert (zlen g2 = 64) by (unfold zlen; lia). split_and!; [lia|unfold kRxBaMaxBuf in *; lia| |].
    + f_equal. lia.
    + apply (in_order_app _ _ (Z.of_nat n)); [lia|by apply (in_order_take _ n 0)|].
      apply in_order_take. intros j f' Hj. rewrite (Hp2 _ _ Hj), Zplus_mod_idemp_l. f_equal. lia.
Qed.

(** ** The table of agreements *)

#[local] Opaque ring.

Definition held (e : option (RxReorder frame)) : list frame :=
  match e with Some r => frames (ring r) | None => [] end.

Definition buffered (t : table) : list frame := concat (map held t).

Definition slot_ok (e : option (RxReorder frame)) : Prop :=
  match e with Some r => active r = true /\ window_ok r (ring r) | None => True end.

Definition table_ok (t : table) : Prop := zlen t = kRxBaNumTid /\ Forall slot_ok t.

Lemma window_ring r g : window_ok r g -> g = ring r.
Proof. by intros ((_ & _ & ? & _) & _). Qed.

Lemma window_slot r g : active r = true -> window_ok r g -> slot_ok (Some r) /\ held (Some r) = frames g.
Proof. intros A W. pose proof (window_ring _ _ W) as ->. done. Qed.

Lemma buffered_app t1 t2 : buffered (t1 ++ t2) = buffered t1 ++ buffered t2.
Proof. unfold buffered. by rewrite map_app, concat_app. Qed.

Lemma buffered_cons e t : buffered (e :: t) = held e ++ buffered t.
Proof. done. Qed.

Lemma buffered_insert t i e e' : t !! i = Some e ->
  held e ++ buffered (<[i := e']> t) ≡ₚ held e' ++ buffered t.
Proof.
  intros H. rewrite <- (list_insert_id t i e H) at 2. 
  pose proof (lookup_lt_Some _ _ _ H). rewrite !insert_take_drop by done.
  rewrite !buffered_app, !buffered_cons. solve_Permutation.
Qed.

Lemma ring_perm r : zlen (buf r) = kRxBaMaxBuf -> frames (ring r) ≡ₚ omap id (buf r).
Proof.
  intros Hb. set (i := Z.to_nat (headSn r mod kRxBaMaxBuf)).
  pose proof (Z.mod_pos_bound (headSn r) 64 eq_refl). unfold zlen, kRxBaMaxBuf in *.
  assert (ring r = drop i (buf r) ++ take i (buf r)) as ->.
  - apply list_eq_same_length with 64%nat.
    + rewrite length_app, length_drop, length_take. unfold i. lia.
    + apply ring_length.
    + intros k x y Hk. rewrite ring_lookup by done. unfold rget, ld, kRxBaMaxBuf.
      pose proof (Z.mod_pos_bound (headSn r + Z.of_nat k) 64 eq_refl).
      rewrite (proj2 (Z.leb_le 0 _)) by lia. intros [= <-].
      pose proof (Z.div_mod (headSn r) 64). pose proof (Z.div_mod (headSn r + Z.of_nat k) 64).
      destruct (decide (k < 64 - i)%nat).
      * rewrite lookup_app_l by (rewrite length_drop; lia). rewrite lookup_drop.
        replace (i + k)%nat with (Z.to_nat ((headSn r + Z.of_nat k) mod 64)) by (unfold i in *; lia).
        by intros ->.
      * rewrite lookup_app_r by (rewrite length_drop; lia). rewrite length_drop, lookup_take_lt by lia.
        replace (k - (length (buf r) - i))%nat with (Z.to_nat ((headSn r + Z.of_nat k) mod 64))
          by (unfold i in *; lia). by intros ->.
  - rewrite frames_app. rewrite Permutation_app_comm, <- frames_app. by rewrite take_drop.
Qed.

Lemma slot_ok_len r : slot_ok (Some r) -> zlen (buf r) = kRxBaMaxBuf.
Proof. by intros (_ & (? & _) & _). Qed.

Lemma table_lookup t tid : table_ok t -> 0 <= tid < kRxBaNumTid ->
  exists e, ld t tid = Some e /\ t !! Z.to_nat tid = Some e /\ slot_ok e.
Proof.
  intros [Hl Hf] Ht. destruct (ld_Some t tid) as [e He]; [lia|]. exists e. 
  assert (t !! Z.to_nat tid = Some e) as H.
  { unfold ld in He. by rewrite (proj2 (Z.leb_le 0 tid)) in He by lia. }
  split_and!; [done..|]. by eapply Forall_lookup_1.
Qed.

Lemma table_store t tid e0 e : table_ok t -> ld t tid = Some e0 -> 0 <= tid < kRxBaNumTid -> slot_ok e ->
  exists t', st t tid e = Some t' /\ table_ok t' /\ held e0 ++ buffered t' ≡ₚ held e ++ buffered t.
Proof.
  intros Ht E0 Htid He. destruct (table_lookup t tid Ht Htid) as (e1 & E & H & _).
  rewrite E0 in E. injection E as <-. destruct Ht as [Hl Hf].
  rewrite st_Some by lia. eexists. split; [done|]. split.
  - split; [by rewrite zlen_insert|]. by apply Forall_insert.
  - by apply buffered_insert.
Qed.

Lemma perm_exchange (d fr h h' x b b' : list frame) :
  d ++ fr ++ h' ≡ₚ x ++ h -> h ++ b' ≡ₚ h' ++ b -> d ++ fr ++ b' ≡ₚ x ++ b.
Proof.
  intros H1 H2. apply (Permutation_app_inv_l h).
  rewrite (app_assoc d), (Permutation_app_swap_app h), H2, <- (app_assoc d), (app_assoc fr), (app_assoc d), H1.
  rewrite <- app_assoc. apply Permutation_app_swap_app.
Qed.

(** What every entry point guarantees: the table stays well formed, every
    frame is delivered, freed or still buffered, exactly once, and the local
    array [out[64]] is never overrun. *)
Definition sound (t : table) (incoming : list frame) (res : option (table * outcome frame)) : Prop :=
  exists t' o, res = Some (t', o) /\ table_ok t' /\
    delivered o ++ freed o ++ buffered t' ≡ₚ incoming ++ buffered t /\
    zlen (delivered o) <= kRxBaMaxBuf.

Lemma sound_same t d fr :
  table_ok t -> zlen d <= kRxBaMaxBuf -> sound t (d ++ fr) (Some (t, mk_outcome d fr false)).
Proof. intros Ht Hd. eexists _, _. split_and!; [done|done| |done]. cbn. by rewrite app_assoc. Qed.

Lemma window_kept r r' g f sn w o :
  window_ok r g -> in_range 12 sn -> seq f = sn ->
  spec_input (bufSize r) (mk_window (headSn r) g) f sn = (w, o) ->
  rep r' (wring w) -> headSn r' = whead w -> bufSize r' = bufSize r -> window_ok r' (wring w).
Proof.
  intros W Hsn Hf E R Hh Hb. destruct (spec_input_sound r g f sn w o W Hsn Hf E) as (Hp & Hi & Hc & _).
  pose proof W as (_ & Hs & _). split_and!; try done; rewrite ?Hb; try apply Hs; [by rewrite Hh|done].
Qed.

Lemma reorder_input_sound r f :
  slot_ok (Some r) -> in_range 12 (seq f) ->
  exists r' o, reorder_input r f (seq f) = Some (r', o) /\ slot_ok (Some r') /\
    delivered o ++ freed o ++ held (Some r') ≡ₚ f :: held (Some r) /\
    zlen (delivered o) <= kRxBaMaxBuf.
Proof.
  intros [A W] Hsn. pose proof W as (R & Hs & Hc & _).
  pose proof (reorder_input_ok r (ring r) f (seq f) R Hs Hc Hsn) as Href. unfold refines in Href.
  destruct (spec_input _ _ _ _) as [w o] eqn:E. destruct Href as (r' & Er & R' & Hh & HA & HB).
  pose proof (window_kept r r' _ f _ w o W Hsn eq_refl E R' Hh HB) as W'.
  destruct (spec_input_sound r _ f _ w o W Hsn eq_refl E) as (_ & _ & _ & Hp & _).
  destruct (window_slot r' (wring w)) as [Hok Hheld]; [by rewrite HA|done|].
  exists r', o. rewrite Hheld. split_and!; [done..|]. apply zlen_perm in Hp. zlen_in Hp.
  pose proof (zlen_nonneg (freed o)). pose proof (zlen_nonneg (frames (wring w))). lia.
Qed.

Lemma rxReorderInput_sound t tid f :
  table_ok t -> 0 <= tid < kRxBaNumTid -> in_range 12 (seq f) ->
  sound t [f] (rxReorderInput t tid f (seq f)).
Proof.
  intros Ht Htid Hf. unfold rxReorderInput.
  destruct (table_lookup t tid Ht Htid) as (e & E & _ & He). rewrite E. cbn [mbind option_bind].
  destruct e as [r|]; [|by apply (sound_same t [f] [])].
  rewrite (proj1 He). cbn [negb]. destruct (reorder_input_sound r f He Hf) as (r' & o & -> & He' & Hp & Hd).
  cbn [mbind option_bind]. destruct (table_store t tid _ (Some r') Ht E Htid He') as (t' & -> & Ht' & Hb).
  exists t', o. split_and!; [done|done| |done]. by apply (perm_exchange _ _ _ _ [f] _ _ Hp).
Qed.

Lemma empty_slot b0 ssn bufsize :
  b0 = replicate (Z.to_nat kRxBaMaxBuf) None -> 1 <= bufsize <= kRxBaMaxBuf ->
  slot_ok (Some (mk_reorder true (ssn .& 0xFFF) bufsize 0 b0)) /\
  held (Some (mk_reorder true (ssn .& 0xFFF) bufsize 0 b0)) = [].
Proof.
  intros -> Hb. set (r := mk_reorder _ _ _ _ _).
  assert (ring r = replicate 64 None) as E.
  { apply list_eq_same_length with 64%nat; [by rewrite length_replicate|apply ring_length|].
    intros k x y Hk. rewrite ring_lookup, lookup_replicate_2 by done. unfold rget, ld. cbn [buf r].
    destruct (0 <=? _); [|naive_solver].
    destruct (replicate _ None !! _) as [z|] eqn:Ez; [|naive_solver].
    apply lookup_replicate_1 in Ez as [-> _]. naive_solver. }
  unfold held, slot_ok. rewrite E. split; [|done]. split; [done|].
  assert (forall (k : nat) (f : frame), replicate 64 None !! k = Some (Some f) -> False) as Hn.
  { intros k f [Hx _]%lookup_replicate_1. done. }
  split_and!; try done; cbn [bufSize r]; try lia; [|intros k f Hk; by destruct (Hn k f)..].
  split_and!; try done. cbn [headSn r]. rewrite land_FFF. apply Z.mod_pos_bound. lia.
Qed.

Lemma rxBaSetup_sound alloc t tid ssn bufsize :
  table_ok t -> 0 <= tid -> in_range 16 bufsize -> sound t [] (rxBaSetup alloc t tid ssn bufsize).
Proof.
  intros Ht Htid Hb. unfold rxBaSetup. destruct (Z.leb_spec kRxBaNumTid tid); [by apply (sound_same t [] [])|].
  set (size := if _ || _ then _ else _).
  assert (1 <= size <= kRxBaMaxBuf) as Hsz.
  { unfold size, in_range, kRxBaMaxBuf in *. case_cmp. }
  destruct (table_lookup t tid) as (e & E & _ & He); [done..|]. rewrite E. cbn [mbind option_bind].
  destruct (empty_slot _ ssn size eq_refl Hsz) as [Hn Hh].
  destruct (table_store t tid e _ Ht E (conj Htid H) Hn) as (t' & Est & Ht' & Hp).
  rewrite Hh in Hp.
  destruct e as [r|]; [|destruct alloc; [|by apply (sound_same t [] [])]]; rewrite Est; cbn [mbind option_bind];
    eexists _, _; (split_and!; [done|done| |done]); cbn; [|done].
  rewrite <- Hp. f_equiv. symmetry. apply ring_perm, slot_ok_len, He.
Qed.

Lemma rxBaTeardown_sound t tid :
  table_ok t -> 0 <= tid -> sound t [] (rxBaTeardown t tid) /\
  (forall t' o, rxBaTeardown t tid = Some (t', o) -> delivered o = []).
Proof.
  intros Ht Htid. unfold rxBaTeardown.
  destruct (Z.leb_spec kRxBaNumTid tid).
  { split; [by apply (sound_same t [] [])|]. by intros ? ? [= _ <-]. }
  destruct (table_lookup t tid) as (e & E & _ & He); [done..|]. rewrite E. cbn [mbind option_bind].
  destruct e as [r|]; [|split; [by apply (sound_same t [] [])|by intros ? ? [= _ <-]]].
  destruct (table_store t tid _ None Ht E (conj Htid H) I) as (t' & -> & Ht' & Hp). cbn [mbind option_bind].
  split; [|by intros ? ? [= _ <-]]. eexists _, _. split_and!; [done|done| |done].
  cbn [delivered freed app]. change (held None) with (@nil frame) in Hp. cbn [app] in Hp. rewrite <- Hp. f_equiv. symmetry. apply ring_perm, slot_ok_len, He.
Qed.

Lemma teardown_tids_sound tids : forall t fr incoming,
  table_ok t -> Forall (fun tid => 0 <= tid) tids ->
  exists t' o, teardown_tids tids t fr = Some (t', o) /\ table_ok t' /\ delivered o = [] /\
    (fr ++ buffered t ≡ₚ incoming -> freed o ++ buffered t' ≡ₚ incoming).
Proof.
  induction tids as [|tid tids IH]; intros t fr incoming Ht Hn; cbn [teardown_tids].
  { eexists _, _. split_and!; done. }
  inversion_clear Hn as [|? ? H0 Hn'].
  destruct (rxBaTeardown_sound t tid Ht H0) as [(t1 & o1 & E1 & Ht1 & Hp1 & _) Hd].
  rewrite E1. cbn [mbind option_bind]. rewrite (Hd _ _ E1) in Hp1. cbn [app] in Hp1.
  destruct (IH t1 (fr ++ freed o1) incoming Ht1 Hn') as (t2 & o2 & E2 & Ht2 & Hd2 & Hp2).
  exists t2, o2. split_and!; [done..|]. intros Hin. apply Hp2. by rewrite <- app_assoc, Hp1.
Qed.

Lemma seqZ_nonneg n : Forall (fun tid => 0 <= tid) (seqZ 0 n).
Proof. apply Forall_forall. intros x Hx. apply elem_of_seqZ in Hx. lia. Qed.

Lemma rxBaTeardownAll_sound t : table_ok t -> sound t [] (rxBaTeardownAll t).
Proof.
  intros Ht. destruct (teardown_tids_sound (seqZ 0 kRxBaNumTid) t [] (buffered t) Ht (seqZ_nonneg _))
    as (t' & o & E & Ht' & Hd & Hp).
  exists t', o. rewrite Hd. split_and!; [done|done| |done]. by apply Hp.
Qed.

(** *** The stale flush *)

Lemma hole_len_lt g : 0 < zlen (frames g) -> (hole_len g < length g)%nat.
Proof.
  induction g as [|[x|] g IH]; [done|cbn; lia|]. rewrite frames_cons_zlen. cbn. intros H.
  specialize (IH H). lia.
Qed.

Lemma run_len_pos g : hole_len g = O -> 0 < zlen (frames g) -> (0 < run_len g)%nat.
Proof. destruct g as [|[x|] g]; [done|cbn; lia|done]. Qed.

Lemma frames_take_run n g : (n <= run_len g)%nat -> zlen (frames (take n g)) = Z.of_nat n.
Proof.
  revert n. induction g as [|[x|] g IH]; intros [|n]; cbn [run_len]; try done; try lia.
  intros H. change (take (S n) (Some x :: g)) with (Some x :: take n g).
  rewrite frames_cons_zlen, IH; lia.
Qed.

(** Moving the head up over what was released keeps the window. *)
Lemma window_moved n r r' g :
  window_ok r g -> moved n r r' -> rep r' (pops n g) -> window_ok r' (pops n g).
Proof.
  intros (R & Hs & Hc & Hp & Hi) (A & B & H) R'. pose proof (rep_ring_length _ _ R) as Hl.
  split_and!; [done|rewrite B; apply Hs|rewrite B; apply Hs| | |].
  - pose proof (frames_pops_zlen n g Hl). lia.
  - rewrite H. by apply placed_pops.
  - rewrite B. by apply inside_pops.
Qed.

Lemma flush_tid_ok e out again :
  slot_ok e -> zlen out <= kRxBaMaxBuf ->
  exists e' d, flush_tid e out again = Some (e', out ++ d, again || (0 <? zlen (held e'))) /\
    slot_ok e' /\ held e = d ++ held e' /\ zlen (out ++ d) <= kRxBaMaxBuf /\
    (held e <> [] -> zlen out < kRxBaMaxBuf -> d <> []).
Proof.
  intros He Ho. destruct e as [r|]; cbn [flush_tid].
  2: { exists None, []. rewrite app_nil_r, orb_false_r. split_and!; done. }
  destruct He as [A W]. rewrite A. cbn [negb orb].
  pose proof W as (R & _). pose proof (rep_stored _ _ R) as Hs.
  destruct (Z.eqb_spec (stored r) 0) as [H0|H0].
  { exists (Some r), []. change (held (Some r)) with (frames (ring r)). rewrite <- Hs, H0.
    rewrite app_nil_r, orb_false_r. split_and!; [done..|]. intros Hn. destruct (frames (ring r)) as [|f l]; [done|]. pose proof (zlen_nonneg l).
    zlen_in Hs. lia. }
  pose proof (zlen_nonneg (frames (ring r))). assert (0 < zlen (frames (ring r))) as Hpos by lia.
  pose proof (hole_len_lt _ Hpos) as Hh. rewrite ring_length in Hh.
  destruct (skip_holes_ok _ skip_fuel 0 r (ring r) R Hpos eq_refl) as (r1 & -> & R1 & M1 & F1 & Hz);
    [unfold skip_fuel; lia|lia|lia|]. cbn [mbind option_bind].
  set (g1 := pops _ _) in *. pose proof (zlen_nonneg out).
  destruct (release_run_ok _ run_fuel r1 g1 out R1 eq_refl) as (r2 & -> & R2 & M2).
  { unfold run_fuel, kRxBaMaxBuf in *. lia. }
  cbn [mbind option_bind]. set (m := Nat.min _ _) in *.
  pose proof (window_moved _ _ _ _ W M1 R1) as W1. pose proof (window_moved _ _ _ _ W1 M2 R2) as W2.
  destruct (window_slot r2 (pops m g1)) as [Hok Hheld]; [|done|].
  { destruct M2 as (-> & _), M1 as (-> & _); done. }
  exists (Some r2), (frames (take m g1)). rewrite Hheld, (rep_stored _ _ R2).
  pose proof (frames_take_run m g1 ltac:(unfold m; lia)) as Hm. split_and!; [done|done| | |].
  - change (held (Some r)) with (frames (ring r)). rewrite <- F1. apply frames_pops, (rep_ring_length _ _ R1).
  - rewrite zlen_app, Hm. unfold m. lia.
  - intros _ Hroom Hnil. rewrite Hnil in Hm. zlen_in Hm.
    pose proof (run_len_pos g1 Hz ltac:(by rewrite F1)). unfold m in Hm. lia.
Qed.

Lemma flush_tids_ok rest : forall done_ out again,
  Forall slot_ok rest -> zlen out <= kRxBaMaxBuf ->
  exists rest' d, flush_tids (seqZ (zlen done_) (zlen rest)) (done_ ++ rest) out again
      = Some (done_ ++ rest', mk_outcome (out ++ d) [] (again || (0 <? zlen (buffered rest')))) /\
    zlen rest' = zlen rest /\ Forall slot_ok rest' /\ buffered rest ≡ₚ d ++ buffered rest' /\
    zlen (out ++ d) <= kRxBaMaxBuf /\ (buffered rest <> [] -> zlen out < kRxBaMaxBuf -> d <> []).
Proof.
  induction rest as [|e rest IH]; intros done_ out again Hok Ho.
  { exists [], []. rewrite !app_nil_r, orb_false_r. split_and!; done. }
  inversion_clear Hok as [|? ? He Hrest]. rewrite zlen_cons, seqZ_cons by (pose proof (zlen_nonneg rest); lia).
  cbn [flush_tids]. pose proof (zlen_nonneg rest). pose proof (zlen_nonneg done_).
  rewrite ld_middle. cbn [mbind option_bind].
  destruct (flush_tid_ok e out again He Ho) as (e' & d1 & -> & He' & Hh & Hd1 & Hp1). cbn [mbind option_bind].
  rewrite st_middle. cbn [mbind option_bind]. rewrite cons_middle, app_assoc.
  destruct (IH (done_ ++ [e']) (out ++ d1) (again || (0 <? zlen (held e'))) Hrest Hd1)
    as (rest' & d2 & E & Hl & Hok' & Hb & Hd2 & Hp2).
  rewrite zlen_app, zlen_cons, zlen_nil in E. replace (zlen done_ + (1 + 0)) with (Z.succ (zlen done_)) in E by lia.
  replace (Z.pred (1 + zlen rest)) with (zlen rest) by lia. rewrite E.
  exists (e' :: rest'), (d1 ++ d2). rewrite buffered_cons, !zlen_app, app_assoc, <- (app_assoc done_).
  split_and!; [| |by constructor| | |].
  - do 3 f_equal. rewrite <- orb_assoc. f_equal.
    pose proof (zlen_nonneg (held e')). pose proof (zlen_nonneg (buffered rest')). case_cmp.
  - rewrite !zlen_cons. lia.
  - rewrite buffered_cons, Hh, Hb, <- !app_assoc. f_equiv. rewrite !app_assoc. f_equiv. apply Permutation_app_comm.
  - zlen_in Hd2. lia.
  - rewrite buffered_cons. intros Hne Hroom Hnil. apply app_nil in Hnil as [-> ->].
    destruct (held e) eqn:Eh; [|by apply Hp1]. apply Hp2; [by cbn in Hne|by rewrite app_nil_r|done].
Qed.

(** ** Histories *)

Inductive rx_op :=
  | OpInput (tid : Z) (f : frame)
  | OpSetup (alloc : bool) (tid ssn bufsize : Z)
  | OpTeardown (tid : Z)
  | OpTeardownAll
  | OpFlush.

(** The ranges the callers guarantee: [rxReorderInput] is called for a TID
    below 8 with the 12-bit number of its frame. *)
Definition op_valid (o : rx_op) : Prop :=
  match o with
  | OpInput tid f => 0 <= tid < kRxBaNumTid /\ in_range 12 (seq f)
  | OpSetup _ tid _ bufsize => 0 <= tid /\ in_range 16 bufsize
  | OpTeardown tid => 0 <= tid
  | _ => True
  end.

Definition incoming (o : rx_op) : list frame := match o with OpInput _ f => [f] | _ => [] end.

Definition run_rx_op (t : table) (o : rx_op) : option (table * outcome frame) :=
  match o with
  | OpInput tid f => rxReorderInput t tid f (seq f)
  | OpSetup alloc tid ssn bufsize => rxBaSetup alloc t tid ssn bufsize
  | OpTeardown tid => rxBaTeardown t tid
  | OpTeardownAll => rxBaTeardownAll t
  | OpFlush => rxReorderFlushStale t
  end.

(** A history: the final table, everything delivered, everything freed. *)
Fixpoint run_rx (t : table) (os : list rx_op) : option (table * list frame * list frame) :=
  match os with
  | [] => Some (t, [], [])
  | o :: os =>
      '(t, r) ← run_rx_op t o;
      '(t, d, fr) ← run_rx t os;
      Some (t, delivered r ++ d, freed r ++ fr)
  end.

Definition empty_table : table := replicate (Z.to_nat kRxBaNumTid) None.

Lemma empty_table_ok : table_ok empty_table.
Proof. split; [done|]. by apply Forall_replicate. Qed.

Lemma rxReorderFlushStale_ok t : table_ok t ->
  exists t' d, rxReorderFlushStale t = Some (t', mk_outcome d [] (0 <? zlen (buffered t'))) /\
    table_ok t' /\ buffered t ≡ₚ d ++ buffered t' /\ zlen d <= kRxBaMaxBuf /\
    (buffered t <> [] -> d <> []).
Proof.
  intros [Hl Hf]. destruct (flush_tids_ok t [] [] false Hf) as (t' & d & E & Hl' & Hf' & Hb & Hd & Hp).
  { unfold kRxBaMaxBuf. zlen. }
  unfold rxReorderFlushStale. rewrite <- Hl. change 0 with (zlen (@nil (option (RxReorder frame)))).
  exists t', d. split_and!; [done|split; [by rewrite Hl'|done]|done|done|].
  intros Hne. apply Hp; [done|]. unfold kRxBaMaxBuf. zlen.
Qed.

Lemma run_rx_op_sound t o : table_ok t -> op_valid o -> sound t (incoming o) (run_rx_op t o).
Proof.
  intros Ht Ho. destruct o; cbn [op_valid incoming run_rx_op] in *.
  - destruct Ho. by apply rxReorderInput_sound.
  - destruct Ho. by apply rxBaSetup_sound.
  - by apply rxBaTeardown_sound.
  - by apply rxBaTeardownAll_sound.
  - destruct (rxReorderFlushStale_ok t Ht) as (t' & d & -> & Ht' & Hb & Hd & _).
    eexists _, _. split_and!; [done|done| |done]. cbn [delivered freed app]. by rewrite Hb.
Qed.

Lemma run_rx_sound os : forall t, table_ok t -> Forall op_valid os ->
  exists t' d fr, run_rx t os = Some (t', d, fr) /\ table_ok t' /\
    d ++ fr ++ buffered t' ≡ₚ concat (map incoming os) ++ buffered t.
Proof.
  induction os as [|o os IH]; intros t Ht Hv.
  { exists t, [], []. split_and!; done. }
  inversion_clear Hv as [|? ? Ho Hos].
  destruct (run_rx_op_sound t o Ht Ho) as (t1 & r & E1 & Ht1 & Hp1 & _).
  destruct (IH t1 Ht1 Hos) as (t2 & d & fr & E2 & Ht2 & Hp2).
  cbn [run_rx]. rewrite E1. cbn [mbind option_bind]. rewrite E2. cbn [mbind option_bind].
  eexists _, _, _. split_and!; [done|done|]. cbn [map concat]. rewrite <- (app_assoc (incoming o)).
  rewrite <- !app_assoc, (Permutation_app_swap_app d (freed r)), Hp2.
  rewrite (Permutation_app_swap_app (freed r)), (Permutation_app_swap_app (delivered r)).
  rewrite Hp1. apply Permutation_app_swap_app.
Qed.

(** The reorder timer, firing [n] times: everything delivered, and the table. *)
Fixpoint flush_rounds (n : nat) (t : table) : option (table * list frame * bool) :=
  match n with
  | O => Some (t, [], 0 <? zlen (buffered t))
  | S k =>
      '(t, o) ← rxReorderFlushStale t;
      if arm_timer o then '(t, d, again) ← flush_rounds k t; Some (t, delivered o ++ d, again)
      else Some (t, delivered o, false)
  end.

Lemma flush_rounds_ok n : forall t, table_ok t -> (length (buffered t) <= n)%nat ->
  exists t' d, flush_rounds n t = Some (t', d, false) /\ buffered t' = [] /\ d ≡ₚ buffered t.
Proof.
  induction n as [|n IH]; intros t Ht Hn; cbn [flush_rounds].
  - exists t, []. destruct (buffered t) eqn:E; [done|cbn in Hn; lia].
  - destruct (rxReorderFlushStale_ok t Ht) as (t1 & d1 & -> & Ht1 & Hb & _ & Hp).
    cbn [mbind option_bind arm_timer delivered].
    destruct (Z.ltb_spec 0 (zlen (buffered t1))) as [Hpos|Hz].
    + assert (length (buffered t1) <= n)%nat as Hn1.
      { apply Permutation_length in Hb. rewrite length_app in Hb. 
        destruct d1; [|cbn in Hb; lia]. exfalso. apply Hp; [|done]. intros E. rewrite E in Hb.
        unfold zlen in Hpos. cbn in Hb. lia. }
      destruct (IH t1 Ht1 Hn1) as (t2 & d2 & -> & Hb2 & Hd2). cbn [mbind option_bind].
      exists t2, (d1 ++ d2). split_and!; [done..|]. by rewrite Hd2, Hb.
    + exists t1, d1. assert (buffered t1 = []) as E1.
      { destruct (buffered t1) as [|f l]; [done|]. zlen_in Hz. pose proof (zlen_nonneg l). lia. }
      split_and!; [done..|]. by rewrite Hb, E1, app_nil_r.
Qed.

(** ** Frames that arrive inside the window *)

Definition numbered (h : Z) (l : list frame) : Prop :=
  map seq l = map (fun j => (h + j) mod 4096) (seqZ 0 (zlen l)).

Lemma numbered_lookup h l i f : numbered h l -> l !! i = Some f -> seq f = (h + Z.of_nat i) mod 4096.
Proof.
  intros Hn Hi. pose proof (lookup_lt_Some _ _ _ Hi). apply (f_equal (fun m => m !! i)) in Hn.
  rewrite !list_lookup_fmap, Hi, lookup_seqZ_lt in Hn by (unfold zlen; lia). cbn in Hn. injection Hn as ->. done.
Qed.

Lemma numbered_intro h l :
  (forall i f, l !! i = Some f -> seq f = (h + Z.of_nat i) mod 4096) -> numbered h l.
Proof.
  intros H. apply list_eq_same_length with (length l); rewrite ?length_map, ?length_seqZ; [unfold zlen; lia|done|].
  intros i x y Hi. rewrite !list_lookup_fmap, lookup_seqZ_lt by (unfold zlen; lia).
  destruct (l !! i) as [f|] eqn:E; [|done]. cbn. intros [= <-] [= <-]. by apply H.
Qed.

Lemma numbered_app h l1 l2 :
  numbered h l1 -> numbered ((h + zlen l1) mod 4096) l2 -> numbered h (l1 ++ l2).
Proof.
  intros H1 H2. apply numbered_intro. intros i f Hi. apply lookup_app_Some in Hi as [Hi|[Hle Hi]].
  - by eapply numbered_lookup.
  - rewrite (numbered_lookup _ _ _ _ H2 Hi), Zplus_mod_idemp_l. f_equal. unfold zlen. lia.
Qed.

Lemma run_lookup g : forall i f, frames (take (run_len g) g) !! i = Some f -> g !! i = Some (Some f).
Proof.
  induction g as [|[x|] g IH]; intros i f; cbn [run_len]; try done.
  change (frames (take (S (run_len g)) (Some x :: g))) with (x :: frames (take (run_len g) g)).
  destruct i as [|i]; [by intros [= ->]|apply IH].
Qed.

Lemma run_len_pops g : length g = 64%nat -> run_len (pops (run_len g) g) = O.
Proof.
  intros Hl. set (m := run_len g). pose proof (run_len_frames g). pose proof (zlen_frames_le g).
  assert (g !! m = Some None \/ m = 64%nat) as Hm.
  { unfold m. clear -Hl. revert Hl. generalize 64%nat. induction g as [|[x|] g IH]; intros n Hl; cbn in *; [by right| |by left].
    destruct n as [|n]; [done|]. destruct (IH n ltac:(lia)) as [?| ->]; [by left|by right]. }
  pose proof (pops_length m g Hl) as Hl'. pose proof (pops_lookup m g 0 Hl ltac:(lia)) as Hhd.
  destruct (pops m g) as [|x g']; [done|]. cbn [lookup list_lookup] in Hhd. destruct x as [x|]; [|done].
  case_decide; [|done]. destruct Hm as [Hm|Hm]; [|lia]. cbn in Hhd. congruence.
Qed.

(** One input at an empty place of the window: nothing is freed, what is
    delivered is the run that starts at the head, and the head slot is empty
    afterwards. *)
Lemma input_in_window r f k :
  slot_ok (Some r) -> in_range 12 (seq f) -> (seq f - headSn r) mod 4096 = Z.of_nat k ->
  Z.of_nat k < bufSize r -> ring r !! k = Some None ->
  exists r' o, reorder_input r f (seq f) = Some (r', o) /\ slot_ok (Some r') /\ freed o = [] /\
    bufSize r' = bufSize r /\ run_len (ring r') = O /\
    headSn r' = (headSn r + zlen (delivered o)) mod 4096 /\ numbered (headSn r) (delivered o) /\
    delivered o ++ frames (ring r') ≡ₚ f :: frames (ring r).
Proof.
  intros Hok Hsn Hk Hlt Hempty. pose proof Hok as [A W]. pose proof W as (R & Hs & Hc & Hp & Hi).
  pose proof (rep_ring_length _ _ R) as Hl. pose proof (rep_range _ _ R) as Hh.
  pose proof (reorder_input_ok r (ring r) f (seq f) R Hs Hc Hsn) as Href. unfold refines in Href.
  destruct (spec_input _ _ _ _) as [w o] eqn:E. destruct Href as (r' & Er & R' & Hh' & HA & HB).
  pose proof (window_kept r r' _ f _ w o W Hsn eq_refl E R' Hh' HB) as W'.
  destruct (spec_input_sound r _ f _ w o W Hsn eq_refl E) as (_ & _ & _ & Hperm & _).
  pose proof (window_ring _ _ W') as Hw.
  unfold spec_input in E. cbn [whead wring] in E. rewrite Hk in E. unfold kRxBaMaxBuf in Hs.
  rewrite (proj2 (Z.leb_gt 2048 (Z.of_nat k))) in E by lia.
  replace (Z.to_nat (Z.of_nat k + 1 - bufSize r)) with 0%nat in E by lia.
  replace (Z.to_nat (Z.min (Z.of_nat k) (bufSize r - 1))) with k in E by lia.
  cbn [pops Nat.iter nat_rect] in E. unfold win_store in E. rewrite Hempty in E.
  set (g2 := <[k := Some f]> (ring r)) in *. injection E as <- <-. cbn [whead wring freed delivered] in *.
  assert (length g2 = 64%nat) as Hl2 by (unfold g2; by rewrite length_insert).
  change (frames (take 0 (ring r))) with (@nil frame) in *. cbn [app] in *.
  exists r', (mk_outcome (frames (take (run_len g2) g2)) [] (0 <? zlen (frames (pops (run_len g2) g2)))).
  split_and!; [done|split; [by rewrite HA|by rewrite <- Hw]|done|done| | | |by rewrite <- Hw].
  - rewrite <- Hw. by apply run_len_pops.
  - rewrite Hh'. cbn [delivered]. rewrite frames_take_run by done. f_equal. lia.
  - cbn [delivered]. apply numbered_intro. intros i x Hx%run_lookup. unfold g2 in Hx.
    rewrite list_lookup_insert in Hx. case_decide as Hd; [|by apply Hp].
    destruct Hd as [-> _]. injection Hx as <-. rewrite <- Hk, Zplus_mod_idemp_r.
    rewrite Z.mod_small by (unfold in_range in *; lia). lia.
Qed.

Fixpoint run_inputs r (fs : list frame) : option (RxReorder frame * list frame * list frame) :=
  match fs with
  | [] => Some (r, [], [])
  | f :: fs =>
      '(r, o) ← reorder_input r f (seq f);
      '(r, d, fr) ← run_inputs r fs;
      Some (r, delivered o ++ d, freed o ++ fr)
  end.

Section arrival.
Variables (h : Z) (fs : list frame).
Hypotheses (Hh : in_range 12 h) (Hfs : numbered h fs) (Hn : zlen fs <= kRxBaMaxBuf).

Lemma fs_mod a b : 0 <= a < 64 -> 0 <= b < 64 -> (h + a) mod 4096 = (h + b) mod 4096 -> a = b.
Proof. intros. pose proof (Z.div_mod (h + a) 4096). pose proof (Z.div_mod (h + b) 4096). lia. Qed.

Lemma fs_index f : f ∈ fs -> exists i, fs !! i = Some f /\ Z.of_nat i < zlen fs /\ seq f = (h + Z.of_nat i) mod 4096.
Proof.
  intros [i Hi]%list_elem_of_lookup. exists i. pose proof (lookup_lt_Some _ _ _ Hi).
  split_and!; [done|unfold zlen; lia|by eapply numbered_lookup].
Qed.

Lemma fs_inj f f' : f ∈ fs -> f' ∈ fs -> seq f = seq f' -> f = f'.
Proof.
  intros (i & Hi & Hl & ->)%fs_index (j & Hj & Hl' & ->)%fs_index E%fs_mod; unfold kRxBaMaxBuf in Hn; [|lia..].
  apply Nat2Z.inj in E as <-. congruence.
Qed.

Lemma fs_NoDup : NoDup fs.
Proof.
  apply NoDup_alt. intros i j f Hi Hj. pose proof (lookup_lt_Some _ _ _ Hi). pose proof (lookup_lt_Some _ _ _ Hj).
  pose proof (numbered_lookup _ _ _ _ Hfs Hi) as E. rewrite (numbered_lookup _ _ _ _ Hfs Hj) in E.
  apply fs_mod in E; unfold zlen, kRxBaMaxBuf in *; lia.
Qed.

(** After [arrived] of the frames, [D] delivered so far. *)
Definition progress r (D arrived : list frame) : Prop :=
  slot_ok (Some r) /\ run_len (ring r) = O /\ zlen fs <= bufSize r /\
  headSn r = (h + zlen D) mod 4096 /\ numbered h D /\ D ++ frames (ring r) ≡ₚ arrived.

Lemma frames_elem g f : f ∈ frames g <-> exists k, g !! k = Some (Some f).
Proof.
  unfold frames. rewrite list_elem_of_omap. split.
  - intros (x & Hx & E). cbn in E. subst x. by apply list_elem_of_lookup.
  - intros Hx%list_elem_of_lookup. by exists (Some f).
Qed.

Lemma progress_place r D arrived rest f :
  progress r D arrived -> arrived ++ f :: rest ≡ₚ fs ->
  exists i, Z.of_nat i < zlen fs /\ seq f = (h + Z.of_nat i) mod 4096 /\ zlen D <= Z.of_nat i /\
    ring r !! (i - length D)%nat = Some None.
Proof.
  intros ((_ & W) & _ & Hsz & Hhd & HD & Hp) Hperm. pose proof W as (R & _ & _ & Hpl & _).
  assert (NoDup (arrived ++ f :: rest)) as ND by (rewrite Hperm; apply fs_NoDup).
  assert (f ∈ fs) as Hf by (rewrite <- Hperm; set_solver).
  assert (f ∉ arrived) as Hni by (apply NoDup_app in ND as (_ & Hd & _); intros Hx; eapply Hd; [done|set_solver]).
  assert (forall d, d ∈ D \/ d ∈ frames (ring r) -> d ∈ arrived) as Harr.
  { intros d Hd. rewrite <- Hp. by apply elem_of_app. }
  assert (forall d, d ∈ arrived -> d ∈ fs) as Hsub by (intros d Hd; rewrite <- Hperm; set_solver).
  destruct (fs_index f Hf) as (i & Hi & Hlt & Hseq).
  assert (forall d, d ∈ arrived -> seq d <> seq f) as Hne.
  { intros d Hd E. apply fs_inj in E; [by subst d|by apply Hsub|done]. }
  assert (zlen D <= Z.of_nat i) as Hle.
  { destruct (Z.le_gt_cases (zlen D) (Z.of_nat i)) as [|Hgt]; [done|]. exfalso.
    destruct (lookup_lt_is_Some_2 D i) as [d Hd]; [unfold zlen in Hgt; lia|].
    apply (Hne d); [apply Harr; left; by eapply list_elem_of_lookup_2|].
    by rewrite Hseq, (numbered_lookup _ _ _ _ HD Hd). }
  exists i. split_and!; [done..|].
  destruct (lookup_lt_is_Some_2 (ring r) (i - length D)) as [[f'|] Hx]; [|exfalso|done].
  { rewrite ring_length. unfold zlen, kRxBaMaxBuf in *. lia. }
  apply (Hne f'); [apply Harr; right; apply frames_elem; by eexists|].
  rewrite (Hpl _ _ Hx), Hhd, Zplus_mod_idemp_l, Hseq. f_equal. unfold zlen in *. lia.
Qed.

Lemma progress_step r D arrived rest f :
  progress r D arrived -> arrived ++ f :: rest ≡ₚ fs ->
  exists r' o, reorder_input r f (seq f) = Some (r', o) /\ freed o = [] /\
    progress r' (D ++ delivered o) (arrived ++ [f]).
Proof.
  intros Hpr Hperm. destruct (progress_place _ _ _ _ _ Hpr Hperm) as (i & Hlt & Hseq & Hle & Hempty).
  destruct Hpr as (Hok & _ & Hsz & Hhd & HD & Hp). pose proof (zlen_nonneg D).
  assert (in_range 12 (seq f)) as Hr by (rewrite Hseq; apply Z.mod_pos_bound; lia).
  destruct (input_in_window r f (i - length D)) as (r' & o & E & Hok' & Hfr & HB & Hrun & Hhd' & Hnum & Hp');
    [done|done| |unfold zlen in *; lia|done|].
  { rewrite Hseq, Hhd. rewrite <- Zminus_mod. unfold zlen, kRxBaMaxBuf in *. rewrite Z.mod_small; lia. }
  exists r', o. split_and!; [done..|]. unfold progress. rewrite HB. split_and!; try done.
  - rewrite Hhd', Hhd, zlen_app, Zplus_mod_idemp_l. f_equal. lia.
  - apply numbered_app; [done|]. by rewrite <- Hhd.
  - rewrite <- app_assoc, Hp', <- Hp. rewrite <- Permutation_middle. apply Permutation_cons_append.
Qed.

(** When everything has arrived nothing is left in the buffer. *)
Lemma progress_end r D arrived : progress r D arrived -> arrived ≡ₚ fs -> D = fs /\ frames (ring r) = [].
Proof.
  intros ((_ & W) & Hrun & Hsz & Hhd & HD & Hp) Hperm. pose proof W as (_ & _ & _ & Hpl & _).
  assert (forall d, d ∈ D -> d ∈ fs) as Hsub by (intros d Hd; rewrite <- Hperm, <- Hp; set_solver).
  assert (zlen D + zlen (frames (ring r)) = zlen fs) as Hlen.
  { rewrite <- zlen_app. apply zlen_perm. by rewrite Hp. }
  assert (frames (ring r) = []) as Hnil.
  { destruct (Z.le_gt_cases (zlen fs) (zlen D)).
    { destruct (frames (ring r)) as [|x l]; [done|]. zlen_in Hlen. pose proof (zlen_nonneg l). lia. }
    destruct (lookup_lt_is_Some_2 fs (length D)) as [f Hf]; [unfold zlen in *; lia|].
    pose proof (numbered_lookup _ _ _ _ Hfs Hf) as Hseq.
    assert (f ∈ D ++ frames (ring r)) as Hin by (rewrite Hp, Hperm; by eapply list_elem_of_lookup_2).
    apply elem_of_app in Hin as [Hin|Hin].
    - apply list_elem_of_lookup in Hin as [j Hj]. pose proof (lookup_lt_Some _ _ _ Hj).
      rewrite (numbered_lookup _ _ _ _ HD Hj) in Hseq. apply fs_mod in Hseq; unfold zlen, kRxBaMaxBuf in *; lia.
    - apply frames_elem in Hin as [k Hk]. pose proof (lookup_lt_Some _ _ _ Hk) as Hk64. rewrite ring_length in Hk64.
      rewrite (Hpl _ _ Hk), Hhd, Zplus_mod_idemp_l in Hseq. 
      assert (k = O) as ->.
      { unfold zlen, kRxBaMaxBuf in *. pose proof (Z.div_mod (h + Z.of_nat (length D) + Z.of_nat k) 4096).
        pose proof (Z.div_mod (h + Z.of_nat (length D)) 4096). lia. }
      destruct (ring r) as [|[y|] g]; done. }
  split; [|done]. rewrite Hnil, zlen_nil in Hlen. apply list_eq_same_length with (length fs); [done|unfold zlen in *; lia|].
  intros i x y Hi Hx Hy. apply fs_inj; [apply Hsub; by eapply list_elem_of_lookup_2|by eapply list_elem_of_lookup_2|].
  by rewrite (numbered_lookup _ _ _ _ HD Hx), (numbered_lookup _ _ _ _ Hfs Hy).
Qed.

Lemma run_inputs_ok rest : forall r D arrived,
  progress r D arrived -> arrived ++ rest ≡ₚ fs ->
  exists r' d, run_inputs r rest = Some (r', d, []) /\ D ++ d = fs /\ frames (ring r') = [] /\
    headSn r' = (h + zlen fs) mod 4096.
Proof.
  induction rest as [|f rest IH]; intros r D arrived Hpr Hperm; cbn [run_inputs].
  - rewrite app_nil_r in Hperm. destruct (progress_end _ _ _ Hpr Hperm) as [<- He].
    exists r, []. rewrite app_nil_r. split_and!; [done..|]. apply Hpr.
  - destruct (progress_step _ _ _ _ _ Hpr Hperm) as (r1 & o & -> & Hfr & Hpr1).
    cbn [mbind option_bind]. destruct (IH r1 _ _ Hpr1) as (r2 & d & -> & Hd & He & Hh2); [by rewrite <- app_assoc|].
    cbn [mbind option_bind]. exists r2, (delivered o ++ d). rewrite Hfr, app_assoc. split_and!; done.
Qed.

End arrival.

(** What [rxBaSetup] leaves. *)
Definition fresh_agreement (h size : Z) : RxReorder frame :=
  mk_reorder true h size 0 (replicate (Z.to_nat kRxBaMaxBuf) None).

Lemma setup_fresh h size :
  in_range 12 h -> 1 <= size <= kRxBaMaxBuf ->
  rxBaSetup true empty_table 0 h size
    = Some (<[0%nat := Some (fresh_agreement h size)]> empty_table, mk_outcome [] [] false).
Proof.
  intros Hh Hs. unfold rxBaSetup. rewrite land_FFF, Z.mod_small by apply Hh.
  assert ((size =? 0) || (kRxBaMaxBuf <? size) = false) as -> by (unfold kRxBaMaxBuf in *; case_cmp).
  reflexivity.
Qed.

Lemma progress_fresh h fs size :
  in_range 12 h -> 1 <= size <= kRxBaMaxBuf -> zlen fs <= size -> progress h fs (fresh_agreement h size) [] [].
Proof.
  intros Hh Hs Hl. destruct (empty_slot _ h size eq_refl Hs) as [Hok Hheld].
  rewrite land_FFF, Z.mod_small in Hok, Hheld by apply Hh.
  change (frames (ring (fresh_agreement h size)) = []) in Hheld.
  split_and!; [exact Hok| |exact Hl| |done|by rewrite Hheld].
  - destruct (run_len (ring (fresh_agreement h size))) eqn:Er; [done|].
    pose proof (run_len_frames (ring (fresh_agreement h size))) as Hle.
    rewrite Er, Hheld in Hle. zlen_in Hle. lia.
  - cbn [headSn fresh_agreement]. by rewrite zlen_nil, Z.add_0_r, Z.mod_small by apply Hh.
Qed.

End reorder.

(** ** Properties *)

(** C8: rxReorderInput implements its specification.  On every well-formed
    agreement and for every 12-bit sequence number the critical section
    terminates within its fuel and inside its arrays, and its outcome is the
    specified one: a number more than half the number space behind is dropped;
    otherwise the window slides up just enough to hold the number, releasing
    the frames it passes in order, the frame is stored (or freed when its slot
    is taken), and the run of frames that starts at the head is released. *)
Theorem reorder_input_refines {frame} (seq : frame -> Z) r f sn :
  slot_ok seq (Some r) -> in_range 12 sn ->
  let spec := spec_input (bufSize r) (mk_window (headSn r) (ring r)) f sn in
  exists r', reorder_input r f sn = Some (r', snd spec) /\
    headSn r' = whead (fst spec) /\ ring r' = wring (fst spec) /\
    stored r' = zlen (frames (wring (fst spec))) /\ active r' = active r /\ bufSize r' = bufSize r.
Proof.
  intros (_ & R & Hs & Hc & _) Hsn. pose proof (reorder_input_ok seq r (ring r) f sn R Hs Hc Hsn) as H.
  unfold refines in H. cbn zeta. destruct (spec_input _ _ _ _) as [w o]. cbn [fst snd].
  destruct H as (r' & E & R' & Hh & HA & HB). exists r'. split_and!; try done; [by destruct R' as (_ & _ & -> & _)|].
  by apply rep_stored.
Qed.

(** Window of four from number 4094; frame 4095 is waiting for 4094. *)
Definition demo_reorder : RxReorder Z :=
  mk_reorder true 4094 4 1 (<[63%nat := Some 4095]> (replicate 64 None)).

Lemma demo_reorder_ok : slot_ok id (Some demo_reorder).
Proof.
  assert (ring demo_reorder = None :: Some 4095 :: replicate 62 None) as E by by vm_compute.
  split; [done|]. rewrite E. split_and!; [split_and!; by vm_compute|by vm_compute..| |].
  - intros [|[|k]] f; [done|by intros [= <-]|]. intros [Hx _]%(lookup_replicate_1 62). done.
  - intros [|[|k]] f; [done|done|]. intros [Hx _]%(lookup_replicate_1 62). done.
Qed.

Definition demo_spec : @window Z * outcome Z :=
  spec_input (bufSize demo_reorder) (mk_window (headSn demo_reorder) (ring demo_reorder)) 4094 4094.

Lemma reorder_input_refines_witness :
  in_range 12 4094 /\ snd demo_spec = mk_outcome [4094; 4095] [] false /\
  exists r', reorder_input demo_reorder 4094 4094 = Some (r', snd demo_spec) /\
    headSn r' = whead (fst demo_spec) /\ ring r' = wring (fst demo_spec) /\
    stored r' = zlen (frames (wring (fst demo_spec))) /\
    active r' = active demo_reorder /\ bufSize r' = bufSize demo_reorder.
Proof.
  assert (in_range 12 4094) as H by by vm_compute. split; [exact H|]. split; [by vm_compute|].
  exact (reorder_input_refines id demo_reorder 4094 4094 demo_reorder_ok H).
Defined.

(** C19: no frame is lost, duplicated or written past the output array.  Every
    history of inputs, agreement set-ups (whose allocation may fail),
    tear-downs and timer flushes, from the state after boot, runs to
    completion; at its end every frame received was delivered once, freed
    once, or is still buffered, and the table is well formed (so in
    particular each agreement buffers at most 63 frames, all inside its
    window). *)
Theorem reorder_conserves_frames {frame} (seq : frame -> Z) os :
  Forall (op_valid seq) os ->
  exists t d fr, run_rx seq empty_table os = Some (t, d, fr) /\ table_ok seq t /\
    d ++ fr ++ buffered t ≡ₚ concat (map incoming os).
Proof.
  intros Hv. destruct (run_rx_sound seq os empty_table (empty_table_ok seq) Hv) as (t & d & fr & E & Ht & Hp).
  exists t, d, fr. split_and!; [done..|]. rewrite Hp. by rewrite app_nil_r.
Qed.

Definition demo_history : list rx_op :=
  [OpSetup true 0 10 8; OpInput 0 11; OpInput 0 12; OpInput 0 11; OpInput 0 10; OpInput 0 30; OpFlush; OpInput 0 9; OpTeardownAll].

Lemma reorder_conserves_frames_witness :
  exists t d fr, run_rx id empty_table demo_history = Some (t, d, fr) /\ table_ok id t /\
    d ++ fr ++ buffered t ≡ₚ [11; 12; 11; 10; 30; 9].
Proof.
  refine (reorder_conserves_frames id demo_history _). unfold demo_history. repeat constructor; by vm_compute.
Defined.

(** delivery is in order.  One input hands out frames with strictly
    increasing sequence numbers (mod 4096), all from the stretch of [adv]
    numbers the head advances over, and what stays buffered lies ahead of the
    new head, inside the agreed window; so a later call can only deliver
    later frames. *)
Theorem reorder_in_order {frame} (seq : frame -> Z) r f :
  slot_ok seq (Some r) -> in_range 12 (seq f) ->
  exists r' o adv, reorder_input r f (seq f) = Some (r', o) /\ slot_ok seq (Some r') /\
    0 <= adv < 2048 + kRxBaMaxBuf /\ headSn r' = (headSn r + adv) mod 4096 /\
    in_order seq (headSn r) 0 adv (delivered o) /\
    in_order seq (headSn r') 0 kRxBaMaxBuf (frames (ring r')).
Proof.
  intros [A W] Hsn. pose proof W as (R & Hs & Hc & _).
  pose proof (reorder_input_ok seq r (ring r) f (seq f) R Hs Hc Hsn) as Href. unfold refines in Href.
  destruct (spec_input _ _ _ _) as [w o] eqn:E. destruct Href as (r' & Er & R' & Hh & HA & HB).
  pose proof (window_kept seq r r' _ f _ w o W Hsn eq_refl E R' Hh HB) as W'.
  destruct (spec_input_sound seq r _ f _ w o W Hsn eq_refl E) as (_ & _ & _ & _ & adv & Hadv & Hhd & Hord).
  destruct (window_slot seq r' (wring w)) as [Hok _]; [by rewrite HA|done|].
  exists r', o, adv. split_and!; try done; try lia.
  destruct W' as (_ & _ & _ & Hp & _). pose proof R' as (_ & _ & Hg & _). rewrite Hg in Hp.
  rewrite <- (take_ge (ring r') 64) by (rewrite ring_length; lia).
  by apply (in_order_take seq _ 64 0).
Qed.

Lemma reorder_in_order_witness :
  exists r' o adv, reorder_input demo_reorder 4094 4094 = Some (r', o) /\ slot_ok id (Some r') /\
    0 <= adv < 2048 + kRxBaMaxBuf /\ headSn r' = (4094 + adv) mod 4096 /\
    in_order id 4094 0 adv (delivered o) /\ in_order id (headSn r') 0 kRxBaMaxBuf (frames (ring r')).
Proof. apply (reorder_in_order id demo_reorder 4094 demo_reorder_ok). by vm_compute. Defined.

(** Arrival order does not matter inside a window.  After rxBaSetup, the
    next frames of the window (at most as many as the agreed size), received
    in any order, are all delivered, in sequence order, with none freed and
    none left behind. *)
Theorem reorder_sorts_window {frame} (seq : frame -> Z) h size (fs ps : list frame) :
  in_range 12 h -> 1 <= size <= kRxBaMaxBuf -> zlen fs <= size -> numbered seq h fs -> ps ≡ₚ fs ->
  exists t r r', rxBaSetup true (@empty_table frame) 0 h size = Some (t, mk_outcome [] [] false) /\
    ld t 0 = Some (Some r) /\ run_inputs seq r ps = Some (r', fs, []) /\
    frames (ring r') = [] /\ headSn r' = (h + zlen fs) mod 4096.
Proof.
  intros Hh Hs Hl Hn Hp. rewrite setup_fresh by done.
  destruct (run_inputs_ok seq h fs Hh Hn ltac:(lia) ps _ [] [] (progress_fresh seq h fs size Hh Hs Hl) Hp)
    as (r' & d & E & Hd & He & Hhd). cbn [app] in Hd. subst d.
  eexists _, (fresh_agreement h size), r'. split_and!; [reflexivity|reflexivity|exact E|done..].
Qed.

Lemma reorder_sorts_window_witness :
  exists t r r', rxBaSetup true (@empty_table Z) 0 4095 3 = Some (t, mk_outcome [] [] false) /\
    ld t 0 = Some (Some r) /\ run_inputs id r [1; 4095; 0] = Some (r', [4095; 0; 1], []) /\
    frames (ring r') = [] /\ headSn r' = (4095 + zlen [4095; 0; 1]) mod 4096.
Proof.
  apply (reorder_sorts_window id 4095 3 [4095; 0; 1] [1; 4095; 0]); try by vm_compute.
  apply (Permutation_cons_append [4095; 0] 1).
Defined.

(** the reorder timer drains the buffers.  A flush re-arms the timer
    exactly when frames are still buffered, each flush delivers at least one
    buffered frame, and after at most as many firings as there are buffered
    frames every one of them has been delivered exactly once and the timer is
    not armed again. *)
Theorem reorder_flush_drains {frame} (seq : frame -> Z) (t : list (option (RxReorder frame))) :
  table_ok seq t ->
  (exists t1 d1, rxReorderFlushStale t = Some (t1, mk_outcome d1 [] (0 <? zlen (buffered t1))) /\
     (buffered t <> [] -> d1 <> [])) /\
  exists t' d, flush_rounds (length (buffered t)) t = Some (t', d, false) /\
    buffered t' = [] /\ d ≡ₚ buffered t.
Proof.
  intros Ht. split.
  - destruct (rxReorderFlushStale_ok seq t Ht) as (t1 & d1 & E & _ & _ & _ & Hp). eauto.
  - by apply (flush_rounds_ok seq).
Qed.

Lemma reorder_flush_drains_witness :
  exists t' d, flush_rounds 1 [Some demo_reorder; None; None; None; None; None; None; None] = Some (t', d, false) /\
    buffered t' = [] /\ d ≡ₚ [4095].
Proof.
  apply (reorder_flush_drains id [Some demo_reorder; None; None; None; None; None; None; None]).
  split; [done|]. constructor; [exact demo_reorder_ok|]. by repeat constructor.
Defined.
