(* ===== verification/WorkQueue.v ===== *)
(** * Work queues: [src/src/compat/rtw88_compat.c], [src/src/compat/linux/workqueue.h]

    A transition system whose atomic steps are the critical sections under
    [work_state_lock]: from taking the lock (or waking up in [IOLockSleep]) to
    releasing it (or going to sleep again).  The worker of each queue and any
    number of client threads interleave freely; sleeping threads are woken
    only by an [IOLockWakeup] on their channel, so a lost wake-up would show.
    A queue's [list_head] is the list of the works linked on it.  The
    delayed-work timer function may run at any time, also after its timer was
    deleted.  [None] is a use of an object that does not exist. *)

From S2P Require Import Prelude.

Record work_struct := mk_work {
  pending : Z;          (* 0, 1: queued, 2: delayed timer *)
  wq : Z;               (* 0: NULL *)
  executing : bool;
  canceling : bool
}.

(** Where the worker thread of a queue is. *)
Inductive worker_pc := WReady | WSleep | WRun (w : Z) | WDone.

#[export] Instance worker_pc_eq_dec : EqDecision worker_pc.
Proof. solve_decision. Defined.

Record workqueue_struct := mk_wq {
  queue : list Z;
  running : bool;
  done : bool;
  active : Z;
  worker : worker_pc
}.

(** Sleep channels, and the blocking calls with their local variable. *)
Inductive chan := ChQueue (q : Z) | ChWork (w : Z) | ChDone (q : Z).

#[export] Instance chan_eq_dec : EqDecision chan.
Proof. solve_decision. Defined.

Inductive call :=
  | CallCancel (w : Z) (pend : bool)
  | CallDelTimer (w : Z) (pend : bool)
  | CallCancelDelayed (w : Z) (pend : bool)
  | CallFlushWq (q : Z)
  | CallFlushWork (w : Z)
  | CallDestroy (q : Z).

Record sys := mk_sys {
  works : gmap Z work_struct;
  wqs : gmap Z workqueue_struct;
  threads : gmap Z (call * bool)    (* the flag: asleep *)
}.

Inductive reply := NoReply | Bool (b : bool) | Returned (t : Z) (b : bool) | Started (w : Z).

(** ** Sleeping and waking *)

Definition chan_of (c : call) : option chan :=
  match c with
  | CallCancel w _ | CallCancelDelayed w _ | CallFlushWork w => Some (ChWork w)
  | CallFlushWq q => Some (ChQueue q)
  | CallDestroy q => Some (ChDone q)
  | CallDelTimer _ _ => None
  end.

Definition wake_thread (ch : chan) (t : call * bool) : call * bool :=
  (fst t, snd t && negb (bool_decide (chan_of (fst t) = Some ch))).

Definition wake_worker (k : workqueue_struct) : workqueue_struct :=
  mk_wq (queue k) (running k) (done k) (active k)
        (match worker k with WSleep => WReady | p => p end).

Definition IOLockWakeup (ch : chan) (s : sys) : sys :=
  mk_sys (works s)
         (match ch with ChQueue q => alter wake_worker q (wqs s) | _ => wqs s end)
         (wake_thread ch <$> threads s).

Definition set_work (w : Z) (k : work_struct) (s : sys) : sys :=
  mk_sys (<[w := k]> (works s)) (wqs s) (threads s).
Definition set_wq (q : Z) (k : workqueue_struct) (s : sys) : sys :=
  mk_sys (works s) (<[q := k]> (wqs s)) (threads s).
Definition set_thread (t : Z) (c : call) (asleep : bool) (s : sys) : sys :=
  mk_sys (works s) (wqs s) (<[t := (c, asleep)]> (threads s)).
Definition drop_thread (t : Z) (s : sys) : sys :=
  mk_sys (works s) (wqs s) (delete t (threads s)).

Definition with_pending (k : work_struct) (p : Z) : work_struct :=
  mk_work p (wq k) (executing k) (canceling k).
Definition with_canceling (k : work_struct) (b : bool) : work_struct :=
  mk_work (pending k) (wq k) (executing k) b.

(** ** Creation *)

Definition INIT_WORK (w : Z) (s : sys) : sys := set_work w (mk_work 0 0 false false) s.

(** A successful [alloc_workqueue]; its worker has not run yet. *)
Definition alloc_workqueue (q : Z) (s : sys) : sys := set_wq q (mk_wq [] true false 0 WReady) s.

(** ** Queueing *)

Definition queue_work_locked (q w : Z) (s : sys) : option (sys * bool) :=
  k ← wqs s !! q;
  x ← works s !! w;
  if negb (running k) || negb (pending x =? 0) || canceling x then Some (s, false)
  else if executing x && negb (wq x =? q) then Some (s, false)
  else
    let s := set_work w (mk_work 1 q (executing x) (canceling x)) s in
    let s := set_wq q (mk_wq (queue k ++ [w]) (running k) (done k) (active k) (worker k)) s in
    Some (IOLockWakeup (ChQueue q) s, true).

Definition queue_work (q w : Z) (s : sys) : option (sys * bool) :=
  if (q =? 0) || (w =? 0) then Some (s, false) else queue_work_locked q w s.

Definition rtw88_delayed_work_timer_fn (w : Z) (s : sys) : option sys :=
  x ← works s !! w;
  s ← (if pending x =? 2
       then '(s, _) ← queue_work_locked (wq x) w (set_work w (with_pending x 0) s); Some s
       else Some s);
  Some (IOLockWakeup (ChWork w) s).

(** [armed]: [mod_timer] found or allocated its thread call. *)
Definition queue_delayed_work (q w delay : Z) (armed : bool) (s : sys) : option (sys * bool) :=
  if (q =? 0) || (w =? 0) then Some (s, false)
  else if delay =? 0 then queue_work q w s
  else
    k ← wqs s !! q;
    x ← works s !! w;
    if negb (running k) || negb (pending x =? 0) || canceling x || (executing x && negb (wq x =? q))
    then Some (s, false)
    else
      let p := if armed then 2 else 0 in
      Some (set_work w (mk_work p q (executing x) (canceling x)) s, negb (p =? 0)).

(** ** Cancelling *)

Definition unlink (w : Z) (k : workqueue_struct) : workqueue_struct :=
  mk_wq (filter (fun x => x <> w) (queue k)) (running k) (done k) (active k) (worker k).

Definition remove_pending_work (w : Z) (s : sys) : option (sys * bool) :=
  x ← works s !! w;
  let pend := negb (pending x =? 0) in
  let s := if pending x =? 1 then mk_sys (works s) (unlink w <$> wqs s) (threads s) else s in
  let s := set_work w (with_pending x 0) s in
  let s := if pend && negb (wq x =? 0) then IOLockWakeup (ChQueue (wq x)) s else s in
  Some (IOLockWakeup (ChWork w) s, pend).

Definition set_canceling (w : Z) (b : bool) (s : sys) : option sys :=
  x ← works s !! w; Some (set_work w (with_canceling x b) s).

(** The [del_timer] of the source changes only the timer. *)
Definition cancel_delayed_work (w : Z) (s : sys) : option (sys * bool) :=
  if w =? 0 then Some (s, false) else remove_pending_work w s.

(** ** Waiting

    The condition of the [while] around each [IOLockSleep]. *)
Definition wait_cond (s : sys) (c : call) : option bool :=
  match c with
  | CallCancel w _ | CallCancelDelayed w _ => executing <$> works s !! w
  | CallDelTimer _ _ => Some false
  | CallFlushWq q =>
      k ← wqs s !! q; Some (negb (bool_decide (queue k = [])) || negb (active k =? 0))
  | CallFlushWork w =>
      x ← works s !! w; Some (negb (pending x =? 0) || executing x)
  | CallDestroy q => k ← wqs s !! q; Some (negb (done k))
  end.

(** What follows the loop. *)
Definition call_end (t : Z) (c : call) (s : sys) : option (sys * reply) :=
  match c with
  | CallCancel w pend | CallCancelDelayed w pend =>
      s ← set_canceling w false s; Some (drop_thread t s, Returned t pend)
  | CallDestroy q =>
      Some (drop_thread t (mk_sys (works s) (delete q (wqs s)) (threads s)), Returned t false)
  | _ => Some (drop_thread t s, Returned t false)
  end.

Definition wait_loop (t : Z) (c : call) (s : sys) : option (sys * reply) :=
  b ← wait_cond s c;
  if (b : bool) then Some (set_thread t c true s, NoReply) else call_end t c s.

Definition cancel_work_sync (t w : Z) (s : sys) : option (sys * reply) :=
  if w =? 0 then Some (s, Returned t false)
  else
    s ← set_canceling w true s;
    '(s, pend) ← remove_pending_work w s;
    wait_loop t (CallCancel w pend) s.

(** Up to the unlock before [del_timer_sync]. *)
Definition cancel_delayed_work_sync (t w : Z) (s : sys) : option (sys * reply) :=
  if w =? 0 then Some (s, Returned t false)
  else
    s ← set_canceling w true s;
    '(s, pend) ← remove_pending_work w s;
    Some (set_thread t (CallDelTimer w pend) false s, NoReply).

Definition flush_workqueue (t q : Z) (s : sys) : option (sys * reply) :=
  if q =? 0 then Some (s, Returned t false) else wait_loop t (CallFlushWq q) s.

Definition flush_work (t w : Z) (s : sys) : option (sys * reply) :=
  if w =? 0 then Some (s, Returned t false) else wait_loop t (CallFlushWork w) s.

Definition destroy_workqueue (t q : Z) (s : sys) : option (sys * reply) :=
  if q =? 0 then Some (s, Returned t false)
  else
    k ← wqs s !! q;
    let s := set_wq q (mk_wq (queue k) false (done k) (active k) (worker k)) s in
    wait_loop t (CallDestroy q) (IOLockWakeup (ChQueue q) s).

(** A thread that holds the lock again. *)
Definition resume (t : Z) (s : sys) : option (sys * reply) :=
  ca ← threads s !! t;
  let '(c, asleep) := ca in
  if (asleep : bool) then None
  else match c with
       | CallDelTimer w pend => wait_loop t (CallCancelDelayed w pend) s
       | _ => wait_loop t c s
       end.

(** ** The worker, [wq_thread_fn] *)

Definition worker_loop (q : Z) (s : sys) : option (sys * reply) :=
  k ← wqs s !! q;
  if running k || negb (bool_decide (queue k = []))
  then match queue k with
       | [] => Some (set_wq q (mk_wq [] (running k) (done k) (active k) WSleep) s, NoReply)
       | w :: rest =>
           x ← works s !! w;
           let s := set_work w (mk_work 0 (wq x) true (canceling x)) s in
           Some (set_wq q (mk_wq rest (running k) (done k) (u32 (active k + 1)) (WRun w)) s, Started w)
       end
  else
    let s := set_wq q (mk_wq (queue k) (running k) true (active k) WDone) s in
    Some (IOLockWakeup (ChDone q) s, NoReply).

Definition worker_finish (q w : Z) (s : sys) : option sys :=
  k ← wqs s !! q;
  x ← works s !! w;
  let s := set_work w (mk_work (pending x) (wq x) false (canceling x)) s in
  let s := set_wq q (mk_wq (queue k) (running k) (done k) (u32 (active k - 1)) WReady) s in
  Some (IOLockWakeup (ChQueue q) (IOLockWakeup (ChWork w) s)).

Definition wq_thread_fn (q : Z) (s : sys) : option (sys * reply) :=
  k ← wqs s !! q;
  match worker k with
  | WReady => worker_loop q s
  | WRun w => s ← worker_finish q w s; worker_loop q s
  | WSleep | WDone => None
  end.

(** ** The system *)

Inductive event :=
  | EvInitWork (w : Z) | EvAllocWq (q : Z)
  | EvQueueWork (q w : Z) | EvQueueDelayed (q w delay : Z) (armed : bool)
  | EvTimerFn (w : Z) | EvCancelDelayed (w : Z)
  | EvCancelWorkSync (t w : Z) | EvCancelDelayedSync (t w : Z)
  | EvFlushWq (t q : Z) | EvFlushWork (t w : Z) | EvDestroy (t q : Z)
  | EvResume (t : Z) | EvWorker (q : Z).

(** A thread starts a call only when it is in none. *)
Definition idle (t : Z) (s : sys) : bool := bool_decide (threads s !! t = None).

Definition exec (s : sys) (e : event) : option (sys * reply) :=
  match e with
  | EvInitWork w =>
      if (0 <? w) && bool_decide (works s !! w = None) then Some (INIT_WORK w s, NoReply) else None
  | EvAllocWq q =>
      if (0 <? q) && bool_decide (wqs s !! q = None) then Some (alloc_workqueue q s, NoReply) else None
  | EvQueueWork q w => '(s, b) ← queue_work q w s; Some (s, Bool b)
  | EvQueueDelayed q w d armed => '(s, b) ← queue_delayed_work q w d armed s; Some (s, Bool b)
  | EvTimerFn w => s ← rtw88_delayed_work_timer_fn w s; Some (s, NoReply)
  | EvCancelDelayed w => '(s, b) ← cancel_delayed_work w s; Some (s, Bool b)
  | EvCancelWorkSync t w => if idle t s then cancel_work_sync t w s else None
  | EvCancelDelayedSync t w => if idle t s then cancel_delayed_work_sync t w s else None
  | EvFlushWq t q => if idle t s then flush_workqueue t q s else None
  | EvFlushWork t w => if idle t s then flush_work t w s else None
  | EvDestroy t q => if idle t s then destroy_workqueue t q s else None
  | EvResume t => resume t s
  | EvWorker q => wq_thread_fn q s
  end.

Fixpoint run (s : sys) (es : list event) : option (sys * list reply) :=
  match es with
  | [] => Some (s, [])
  | e :: es => '(s, r) ← exec s e; '(s, rs) ← run s es; Some (s, r :: rs)
  end.

Definition boot : sys := mk_sys ∅ ∅ ∅.
Definition reachable (s : sys) : Prop := exists es rs, run boot es = Some (s, rs).

(** ** The invariant *)

Definition work_ok (qs : gmap Z workqueue_struct) (w : Z) (x : work_struct) : Prop :=
  (pending x = 0 \/ pending x = 1 \/ pending x = 2) /\
  (canceling x = true -> pending x = 0) /\
  (pending x = 1 -> exists k, qs !! wq x = Some k /\ w ∈ queue k) /\
  (executing x = true -> exists k, qs !! wq x = Some k /\ worker k = WRun w).

(** The part of a queue's invariant that does not mention the works. *)
Definition wq_local (q : Z) (k : workqueue_struct) : Prop :=
  q <> 0 /\ NoDup (queue k) /\
  active k = (match worker k with WRun _ => 1 | _ => 0 end) /\
  (done k = true <-> worker k = WDone) /\
  (done k = true -> running k = false /\ queue k = []) /\
  (worker k = WSleep -> queue k = [] /\ running k = true).

Definition wq_ok (ws : gmap Z work_struct) (q : Z) (k : workqueue_struct) : Prop :=
  wq_local q k /\
  (forall w, w ∈ queue k -> exists x, ws !! w = Some x /\ pending x = 1 /\ wq x = q) /\
  (forall w, worker k = WRun w -> exists x, ws !! w = Some x /\ executing x = true /\ wq x = q).

Definition core (ws : gmap Z work_struct) (qs : gmap Z workqueue_struct) : Prop :=
  (forall w x, ws !! w = Some x -> work_ok qs w x) /\
  (forall q k, qs !! q = Some k -> wq_ok ws q k).

(** No thread sleeps on a condition that no longer holds. *)
Definition sleepers_ok (s : sys) : Prop :=
  forall t c, threads s !! t = Some (c, true) -> wait_cond s c = Some true.

Definition inv (s : sys) : Prop := core (works s) (wqs s) /\ sleepers_ok s.

(** The ties between a work and a queue, which an update must keep. *)
Record tied (w : Z) (x : work_struct) (q : Z) (k : workqueue_struct) : Prop := mk_tied {
  tie_pending : pending x = 1 \/ executing x = true -> wq x = q;
  tie_range : pending x = 0 \/ pending x = 1 \/ pending x = 2;
  tie_cancel : canceling x = true -> pending x = 0;
  tie_queue : pending x = 1 <-> w ∈ queue k;
  tie_run : executing x = true <-> worker k = WRun w;
  tie_local : wq_local q k
}.

Lemma core_tied ws qs w x q k :
  core ws qs -> ws !! w = Some x -> qs !! q = Some k ->
  (pending x = 1 \/ executing x = true -> wq x = q) -> tied w x q k.
Proof.
  intros [Hw Hq] Ew Eq Ht. destruct (Hw w x Ew) as (Hr & Hc & Hp & He).
  destruct (Hq q k Eq) as (Hl & Hqu & Hru). constructor; try done.
  - split; [|intros Hin; destruct (Hqu w Hin) as (? & ? & ? & _); congruence].
    intros H1. destruct (Hp H1) as (k' & Ek' & Hin). rewrite Ht, Eq in Ek' by by left. congruence.
  - split; [|intros Hrun; destruct (Hru w Hrun) as (? & ? & ? & _); congruence].
    intros H1. destruct (He H1) as (k' & Ek' & Hin). rewrite Ht, Eq in Ek' by by right. congruence.
Qed.

(** Updating one work together with one queue keeps the invariant when the
    ties of the new pair are right and the other works' ties are untouched. *)
Lemma core_update ws qs w x x' q k k' :
  core ws qs -> ws !! w = Some x -> qs !! q = Some k -> tied w x q k -> tied w x' q k' ->
  (forall v, v <> w -> (v ∈ queue k' <-> v ∈ queue k) /\ (worker k' = WRun v <-> worker k = WRun v)) ->
  core (<[w := x']> ws) (<[q := k']> qs).
Proof.
  intros [Hw Hq] Ew Eq T T' Hv. split.
  - intros v y Hy. destruct (decide (v = w)) as [->|Hne].
    + rewrite lookup_insert_eq in Hy. injection Hy as <-.
      split_and!; [apply T'|apply T'| |]; intros H;
        (exists k'; rewrite (tie_pending _ _ _ _ T'), lookup_insert_eq by auto; split; [done|by apply T']).
    + rewrite lookup_insert_ne in Hy by done. destruct (Hw v y Hy) as (Hr & Hc & Hp & He).
      destruct (Hv v Hne) as [Hin Hrun].
      split_and!; [done..| |]; intros H; [destruct (Hp H) as (k0 & Ek & H0)|destruct (He H) as (k0 & Ek & H0)];
        (destruct (decide (wq y = q)) as [E|E];
         [rewrite E, lookup_insert_eq; rewrite E, Eq in Ek; injection Ek as <-; eexists; split; [done|tauto]
         |rewrite lookup_insert_ne by done; eauto]).
  - intros r j Hj. destruct (decide (r = q)) as [->|Hne].
    + rewrite lookup_insert_eq in Hj. injection Hj as <-. destruct (Hq q k Eq) as (_ & Hqu & Hru).
      split_and!; [apply T'| |]; intros v H; (destruct (decide (v = w)) as [->|Hne];
        [exists x'; rewrite lookup_insert_eq; pose proof (tie_pending _ _ _ _ T');
         pose proof (tie_queue _ _ _ _ T'); pose proof (tie_run _ _ _ _ T'); tauto
        |destruct (Hv v Hne) as [Hin Hrun]; rewrite lookup_insert_ne by done]); [apply Hqu|apply Hru]; tauto.
    + rewrite lookup_insert_ne in Hj by done. destruct (Hq r j Hj) as (Hl & Hqu & Hru).
      split_and!; [done| |]; intros v H; [destruct (Hqu v H) as (y & Ey & Hy1 & Hy2)|destruct (Hru v H) as (y & Ey & Hy1 & Hy2)];
        exists y; (rewrite lookup_insert_ne; [done|]); intros <-; rewrite Ew in Ey; injection Ey as <-;
        apply Hne; rewrite <- Hy2; apply T; auto.
Qed.

(** Updating a work alone: its ties to its queue must stay as they are. *)
Lemma core_update_work ws qs w x x' :
  core ws qs -> ws !! w = Some x ->
  (pending x' = 0 \/ pending x' = 1 \/ pending x' = 2) -> (canceling x' = true -> pending x' = 0) ->
  (pending x' = 1 <-> pending x = 1) -> executing x' = executing x ->
  (pending x = 1 \/ executing x = true -> wq x' = wq x) -> core (<[w := x']> ws) qs.
Proof.
  intros [Hw Hq] Ew Hr Hc Hp He Hwq. split.
  - intros v y Hy. destruct (decide (v = w)) as [->|Hne].
    + rewrite lookup_insert_eq in Hy. injection Hy as <-. destruct (Hw w x Ew) as (_ & _ & Hp0 & He0).
      split_and!; [done..| |]; intros H; [rewrite Hp in H|rewrite He in H]; rewrite Hwq by auto; auto.
    + rewrite lookup_insert_ne in Hy by done. by apply Hw.
  - intros r j Hj. destruct (Hq r j Hj) as (Hl & Hqu & Hru).
    split_and!; [done| |]; intros v H; [destruct (Hqu v H) as (y & Ey & Hy1 & Hy2)|destruct (Hru v H) as (y & Ey & Hy1 & Hy2)];
      (destruct (decide (v = w)) as [->|Hne]; [|by exists y; rewrite lookup_insert_ne]);
      rewrite Ew in Ey; injection Ey as <-; exists x'; rewrite lookup_insert_eq; split_and!; [done|..];
      rewrite ?Hwq by auto; try done; [by apply Hp|congruence].
Qed.

(** Updating a queue alone. *)
Lemma core_update_wq ws qs q k k' :
  core ws qs -> qs !! q = Some k -> queue k' = queue k -> wq_local q k' ->
  (forall w, worker k' = WRun w <-> worker k = WRun w) -> core ws (<[q := k']> qs).
Proof.
  intros [Hw Hq] Eq Hqk Hl Hrun. destruct (Hq q k Eq) as (_ & Hqu & Hru). split.
  - intros v y Hy. destruct (Hw v y Hy) as (Hr & Hc & Hp & He).
    split_and!; [done..| |]; intros H; [destruct (Hp H) as (k0 & Ek & H0)|destruct (He H) as (k0 & Ek & H0)];
      (destruct (decide (wq y = q)) as [E|E];
       [rewrite E, lookup_insert_eq; rewrite E, Eq in Ek; injection Ek as <-; eexists; split; [done|]
       |rewrite lookup_insert_ne by done; eauto]); [by rewrite Hqk|by apply Hrun].
  - intros r j Hj. destruct (decide (r = q)) as [->|Hne].
    + rewrite lookup_insert_eq in Hj. injection Hj as <-. split_and!; [done|by rewrite Hqk|].
      intros w H. apply Hru. by apply Hrun.
    + rewrite lookup_insert_ne in Hj by done. by apply Hq.
Qed.

Lemma wake_worker_run k w : worker (wake_worker k) = WRun w <-> worker k = WRun w.
Proof. unfold wake_worker. cbn. by destruct (worker k). Qed.

Lemma wake_worker_local q k : wq_local q k -> wq_local q (wake_worker k).
Proof. unfold wq_local, wake_worker. cbn. destruct (worker k); naive_solver. Qed.

(** Waking threads up never breaks the invariant of works and queues. *)
Lemma core_wakeup ch s : core (works s) (wqs s) ->
  core (works (IOLockWakeup ch s)) (wqs (IOLockWakeup ch s)).
Proof.
  intros H. destruct ch as [q|w|q]; cbn; [|done..].
  destruct (wqs s !! q) as [k|] eqn:E.
  - rewrite (alter_alt_Some wake_worker _ q k E).
    apply (core_update_wq _ _ q k); [done|done|done| |apply wake_worker_run].
    apply wake_worker_local. by destruct (proj2 H q k E).
  - rewrite alter_id; [done|]. intros k Hk. congruence.
Qed.

(** ** Preservation: works and queues *)

Abbreviation core_of s := (core (works s) (wqs s)) (only parsing).

Lemma core_work s w x : core_of s -> works s !! w = Some x -> work_ok (wqs s) w x.
Proof. intros [H _]. apply H. Qed.

Lemma core_wq s q k : core_of s -> wqs s !! q = Some k -> wq_ok (works s) q k.
Proof. intros [_ H]. apply H. Qed.

Lemma wakeup_set q k s :
  wqs (IOLockWakeup (ChQueue q) (set_wq q k s)) = <[q := wake_worker k]> (wqs s).
Proof. cbn. apply alter_insert_eq. Qed.

Lemma queue_work_locked_core q w s s' b :
  core_of s -> queue_work_locked q w s = Some (s', b) -> core_of s'.
Proof.
  intros C. unfold queue_work_locked.
  destruct (wqs s !! q) as [k|] eqn:Eq; [|done]. destruct (works s !! w) as [x|] eqn:Ew; [|done].
  cbn [mbind option_bind].
  destruct (_ || canceling x) eqn:E1; [by intros [= <- <-]|]. destruct (executing x && _) eqn:E2; [by intros [= <- <-]|].
  intros [= <- <-]. rewrite wakeup_set. cbn [works IOLockWakeup set_wq set_work wqs].
  apply orb_false_elim in E1 as [E1 Ec]. apply orb_false_elim in E1 as [Er Ep].
  apply negb_false_iff in Er, Ep. apply Z.eqb_eq in Ep.
  assert (executing x = true -> wq x = q) as Hx.
  { intros Hx. rewrite Hx in E2. cbn in E2. by apply negb_false_iff, Z.eqb_eq in E2. }
  assert (tied w x q k) as T by (eapply core_tied; [done..|]; intros [?|?]; [congruence|auto]).
  assert (w ∉ queue k) as Hni by (intros Hin%(tie_queue _ _ _ _ T); congruence).
  pose proof (tie_local _ _ _ _ T) as (Hq0 & ND & Ha & Hd & Hdr & Hs). pose proof (tie_run _ _ _ _ T) as Hrun.
  apply (core_update _ _ w x _ q k); [done..| |].
  - constructor; cbn; try tauto; try congruence.
    + split; [intros _; set_solver|done].
    + rewrite Hrun. by destruct (worker k).
    + unfold wq_local, wake_worker. cbn.
      split_and!; [done|apply NoDup_app; split_and!; [done|set_solver|apply NoDup_singleton]| | | |].
      * rewrite Ha. by destruct (worker k).
      * rewrite Hd. by destruct (worker k).
      * intros Hdn. destruct (Hdr Hdn). congruence.
      * by destruct (worker k).
  - intros v Hv. rewrite wake_worker_run. cbn. set_solver.
Qed.

Lemma remove_pending_eq s w x : core_of s -> works s !! w = Some x -> pending x = 1 ->
  exists k, wqs s !! wq x = Some k /\ unlink w <$> wqs s = <[wq x := unlink w k]> (wqs s).
Proof.
  intros C Ew Ep. destruct (core_work s w x C Ew) as (_ & _ & Hp & _).
  destruct (Hp Ep) as (k & Ek & _). exists k. split; [done|]. apply map_eq. intros r.
  rewrite lookup_fmap. destruct (decide (r = wq x)) as [->|Hne].
  - by rewrite lookup_insert_eq, Ek.
  - rewrite lookup_insert_ne by done. destruct (wqs s !! r) as [j|] eqn:Er; [|done]. cbn. f_equal.
    unfold unlink. destruct j. cbn in *. f_equal. apply filter_id. apply Forall_forall. intros v Hv ->.
    destruct (core_wq s r _ C Er) as (_ & Hq & _). destruct (Hq w Hv) as (y & Ey & _ & Hy). congruence.
Qed.

Lemma remove_pending_core w s s' b :
  core_of s -> remove_pending_work w s = Some (s', b) -> core_of s'.
Proof.
  intros C. unfold remove_pending_work. destruct (works s !! w) as [x|] eqn:Ew; [|done]. cbn [mbind option_bind].
  intros [= <- <-]. apply core_wakeup.
  match goal with |- context [if ?b then IOLockWakeup _ ?s0 else _] => assert (core_of s0) end.
  2: { destruct (_ && _); [by apply core_wakeup|done]. }
  cbn [works wqs set_work]. destruct (Z.eqb_spec (pending x) 1) as [Ep|Ep].
  - destruct (remove_pending_eq s w x C Ew Ep) as (k & Ek & Eu). cbn [works wqs]. rewrite Eu.
    assert (tied w x (wq x) k) as T by (eapply core_tied; done).
    pose proof (tie_local _ _ _ _ T) as (Hq0 & ND & Ha & Hd & Hdr & Hs).
    apply (core_update _ _ w x _ (wq x) k); [done..| |].
    + constructor; cbn; try tauto; [|apply T|].
      * split; [lia|]. intros Hin. apply list_elem_of_filter in Hin. tauto.
      * unfold wq_local. cbn. split_and!; try done; [by apply NoDup_filter| |];
          intros H; [destruct (Hdr H) as [? Hn]|destruct (Hs H) as [Hn ?]]; rewrite Hn; by split.
    + intros v Hv. cbn. split; [|tauto]. rewrite list_elem_of_filter. tauto.
  - cbn [works wqs]. eapply core_update_work; [done..| | | | |]; cbn; first [tauto|split; lia].
Qed.

Lemma set_canceling_true_core w s s1 s' b :
  core_of s -> set_canceling w true s = Some s1 -> remove_pending_work w s1 = Some (s', b) -> core_of s'.
Proof.
  unfold set_canceling. intros C. destruct (works s !! w) as [x|] eqn:Ew; [|done]. cbn [mbind option_bind].
  intros [= <-] E.
  (* removing the work first and setting the flag afterwards gives the same state *)
  unfold remove_pending_work in E. cbn [works set_work] in E. rewrite lookup_insert_eq in E. cbn [mbind option_bind] in E.
  destruct (remove_pending_work w s) as [[s2 b2]|] eqn:E2; [|unfold remove_pending_work in E2; by rewrite Ew in E2].
  pose proof (remove_pending_core w s s2 b2 C E2) as C2.
  unfold remove_pending_work in E2. rewrite Ew in E2. cbn [mbind option_bind] in E2.
  injection E2 as <- <-. injection E as <- <-. cbn [with_canceling pending wq] in *.
  eapply (core_update_work _ _ w (with_pending x 0) (with_pending (with_canceling x true) 0)) in C2; cbn.
  - revert C2. destruct (pending x =? 1), (_ && _); cbn [IOLockWakeup works wqs set_work]; by rewrite ?insert_insert_eq.
  - destruct (pending x =? 1), (_ && _); cbn [IOLockWakeup works wqs set_work]; by rewrite lookup_insert_eq.
  - tauto.
  - done.
  - done.
  - done.
  - done.
Qed.

Lemma set_canceling_false_core w s s' : core_of s -> set_canceling w false s = Some s' -> core_of s'.
Proof.
  unfold set_canceling. intros C. destruct (works s !! w) as [x|] eqn:Ew; [|done]. cbn [mbind option_bind].
  intros [= <-]. cbn. destruct (core_work s w x C Ew) as (Hr & _).
  eapply core_update_work; [done..| | | | |]; cbn; first [tauto|done].
Qed.

Lemma timer_fn_core w s s' : core_of s -> rtw88_delayed_work_timer_fn w s = Some s' -> core_of s'.
Proof.
  intros C. unfold rtw88_delayed_work_timer_fn. destruct (works s !! w) as [x|] eqn:Ew; [|done]. cbn [mbind option_bind].
  destruct (Z.eqb_spec (pending x) 2) as [Ep|Ep].
  - destruct (queue_work_locked _ _ _) as [[s1 b]|] eqn:E; [|done]. cbn [mbind option_bind].
    intros [= <-]. apply core_wakeup. eapply queue_work_locked_core; [|exact E].
    cbn. eapply core_update_work; [done..| | | | |]; cbn; first [tauto|split; lia].
  - intros [= <-]. by apply core_wakeup.
Qed.

Lemma queue_delayed_work_core q w d armed s s' b :
  core_of s -> queue_delayed_work q w d armed s = Some (s', b) -> core_of s'.
Proof.
  intros C. unfold queue_delayed_work, queue_work.
  destruct ((q =? 0) || (w =? 0)); [by intros [= <- <-]|]. destruct (d =? 0).
  { by apply queue_work_locked_core. }
  destruct (wqs s !! q) as [k|] eqn:Eq; [|done]. destruct (works s !! w) as [x|] eqn:Ew; [|done]. cbn [mbind option_bind].
  destruct (_ || (executing x && _)) eqn:E1; intros [= <- <-]; [done|].
  apply orb_false_elim in E1 as [E1 E2]. apply orb_false_elim in E1 as [E1 Ec]. apply orb_false_elim in E1 as [_ Ep].
  apply negb_false_iff, Z.eqb_eq in Ep. cbn.
  eapply core_update_work; [done..| | | | |]; cbn.
  - destruct armed; tauto.
  - congruence.
  - destruct armed; split; lia.
  - done.
  - intros [?|He]; [lia|]. rewrite He in E2. by apply negb_false_iff, Z.eqb_eq in E2.
Qed.

Lemma worker_loop_core q s s' r : core_of s -> (forall k w, wqs s !! q = Some k -> worker k = WRun w -> False) ->
  (forall k, wqs s !! q = Some k -> done k = false) -> worker_loop q s = Some (s', r) -> core_of s'.
Proof.
  intros C Hnr Hnd. unfold worker_loop. destruct (wqs s !! q) as [k|] eqn:Eq; [|done]. cbn [mbind option_bind].
  destruct (core_wq s q k C Eq) as ((Hq0 & ND & Ha & Hd & Hdr & Hs) & Hqu & _).
  specialize (Hnr k). specialize (Hnd k eq_refl).
  assert (active k = 0) as Ha0 by (rewrite Ha; destruct (worker k); try done; exfalso; by eapply Hnr).
  destruct (running k || _) eqn:Er.
  - destruct (queue k) as [|w rest] eqn:Equ.
    + intros [= <- <-]. rewrite orb_false_r in Er. cbn. eapply core_update_wq; [done..| |].
      * unfold wq_local. cbn. rewrite Hnd, Ha0. split_and!; try done; constructor.
      * intros w. cbn. split; [done|]. intros H. exfalso. by eapply Hnr.
    + destruct (works s !! w) as [x|] eqn:Ew; [|done]. cbn [mbind option_bind]. intros [= <- <-]. cbn.
      destruct (Hqu w) as (y & Ey & Hp & Hwq); [set_solver|]. rewrite Ew in Ey. injection Ey as <-.
      apply NoDup_cons in ND as [Hni ND].
      assert (tied w x q k) as T by (eapply core_tied; done).
      apply (core_update _ _ w x _ q k); [done..| |].
      * constructor; cbn; try tauto; try done.
        unfold wq_local. cbn. rewrite Hnd, Ha0. split_and!; done.
      * intros v Hv. cbn. rewrite Equ. split; [set_solver|]. split; [congruence|]. intros H. exfalso. by eapply Hnr.
  - intros [= <- <-]. apply core_wakeup. cbn. apply orb_false_elim in Er as [Er En].
    apply negb_false_iff, bool_decide_eq_true in En. eapply core_update_wq; [done..| |].
    + unfold wq_local. cbn. rewrite En, Ha0. split_and!; try done; constructor.
    + intros w. cbn. split; [done|]. intros H. exfalso. by eapply Hnr.
Qed.

Lemma worker_finish_core q w s s' : core_of s -> worker_finish q w s = Some s' ->
  (forall k, wqs s !! q = Some k -> worker k = WRun w) ->
  core_of s' /\ exists k, wqs s' !! q = Some k /\ worker k = WReady /\ done k = false.
Proof.
  intros C. unfold worker_finish. destruct (wqs s !! q) as [k|] eqn:Eq; [|done].
  destruct (works s !! w) as [x|] eqn:Ew; [|done]. cbn [mbind option_bind]. intros [= <-] Hrun. specialize (Hrun k eq_refl).
  destruct (core_wq s q k C Eq) as ((Hq0 & ND & Ha & Hd & Hdr & Hs) & Hqu & Hru).
  destruct (Hru w Hrun) as (y & Ey & Hex & Hwq). rewrite Ew in Ey. injection Ey as <-.
  assert (tied w x q k) as T by (eapply core_tied; done). rewrite Hrun in Ha, Hd.
  assert (done k = false) as Hnd by (destruct (done k); [by destruct Hd as [Hd _]; specialize (Hd eq_refl)|done]).
  split.
  - apply core_wakeup, core_wakeup. cbn. apply (core_update _ _ w x _ q k); [done..| |].
    + constructor; cbn; try done; try apply T; unfold wq_local; cbn. rewrite Ha, Hnd. split_and!; done.
    + intros v Hv. cbn. rewrite Hrun. split; [tauto|]. split; [done|congruence].
  - eexists. split; [|split].
    + cbn. rewrite alter_insert_eq. apply lookup_insert_eq.
    + done.
    + done.
Qed.

Lemma wq_thread_fn_core q s s' r : core_of s -> wq_thread_fn q s = Some (s', r) -> core_of s'.
Proof.
  intros C. unfold wq_thread_fn. destruct (wqs s !! q) as [k|] eqn:Eq; [|done]. cbn [mbind option_bind].
  destruct (core_wq s q k C Eq) as ((Hq0 & ND & Ha & Hd & _) & _).
  destruct (worker k) as [| |w|] eqn:Ew; [|done| |done].
  - apply worker_loop_core; [done|intros j w Ej; congruence|]. intros j Ej. rewrite Eq in Ej. injection Ej as <-.
    destruct (done k); [|done]. destruct Hd as [Hd _]. by specialize (Hd eq_refl).
  - destruct (worker_finish q w s) as [s1|] eqn:E1; [|done]. cbn [mbind option_bind].
    destruct (worker_finish_core q w s s1 C E1) as [C1 (j & Ej & Hw & Hnd)]; [congruence|].
    apply worker_loop_core; [done| |]; congruence.
Qed.

Lemma stop_core q k s : core_of s -> wqs s !! q = Some k ->
  core_of (IOLockWakeup (ChQueue q) (set_wq q (mk_wq (queue k) false (done k) (active k) (worker k)) s)).
Proof.
  intros C Eq. rewrite wakeup_set. cbn [works IOLockWakeup set_wq].
  destruct (core_wq s q k C Eq) as ((Hq0 & ND & Ha & Hd & Hdr & Hs) & Hqu & Hru).
  eapply core_update_wq; [done..| |].
  - unfold wq_local. cbn. split_and!; [done|done| | | |].
    + rewrite Ha. by destruct (worker k).
    + rewrite Hd. by destruct (worker k).
    + intros Hdn. split; [done|]. by apply Hdr.
    + by destruct (worker k).
  - intros w. by rewrite wake_worker_run.
Qed.

Lemma delete_core q k s : core_of s -> wqs s !! q = Some k -> done k = true ->
  core (works s) (delete q (wqs s)).
Proof.
  intros C Eq Hdn. destruct (core_wq s q k C Eq) as ((Hq0 & ND & Ha & Hd & Hdr & Hs) & Hqu & Hru).
  destruct (Hdr Hdn) as [_ Hnil]. assert (worker k = WDone) as Hwd by by apply Hd. split.
  - intros w x Ew. destruct (core_work s w x C Ew) as (Hr & Hc & Hp & He).
    split_and!; [done..| |]; intros H; [destruct (Hp H) as (j & Ej & Hj)|destruct (He H) as (j & Ej & Hj)];
      (destruct (decide (wq x = q)) as [E|E]; [|exists j; by rewrite lookup_delete_ne]);
      rewrite E, Eq in Ej; injection Ej as <-; [rewrite Hnil in Hj; by apply not_elem_of_nil in Hj|congruence].
  - intros r j [_ Ej]%lookup_delete_Some. by apply (core_wq s r j C).
Qed.

(** ** Preservation: sleepers

    Sleepers on the channels [ds] may be stale until the channels are woken. *)

Definition awake_except (ds : list chan) (s : sys) : Prop :=
  forall t c, threads s !! t = Some (c, true) ->
    wait_cond s c = Some true \/ exists ch, chan_of c = Some ch /\ ch ∈ ds.

Lemma sleepers_awake s : sleepers_ok s <-> awake_except [] s.
Proof.
  split; intros H t c Ht; [left; by eapply H|]. destruct (H t c Ht) as [?|(ch & _ & Hin)]; [done|].
  by apply not_elem_of_nil in Hin.
Qed.

Lemma wait_cond_wakeup ch s c : wait_cond (IOLockWakeup ch s) c = wait_cond s c.
Proof.
  destruct c; cbn; try done; (destruct ch as [r|r|r]; [|done..]);
    (destruct (decide (r = q)) as [->|Hne]; [rewrite lookup_alter_eq|by rewrite lookup_alter_ne]);
    by destruct (wqs s !! q).
Qed.

Lemma awake_wakeup ch ds s : awake_except (ch :: ds) s -> awake_except ds (IOLockWakeup ch s).
Proof.
  intros H t c Ht. cbn in Ht. rewrite lookup_fmap in Ht.
  destruct (threads s !! t) as [[c' a]|] eqn:E; [|done]. cbn in Ht. injection Ht as <- Ha.
  apply andb_true_iff in Ha as [-> Hb]. apply negb_true_iff, bool_decide_eq_false in Hb.
  rewrite wait_cond_wakeup. destruct (H t c' E) as [?|(ch' & Hc & Hin)]; [by left|right].
  exists ch'. split; [done|]. apply elem_of_cons in Hin as [->|?]; done.
Qed.

Lemma awake_more ds ds' s : awake_except ds s -> ds ⊆ ds' -> awake_except ds' s.
Proof. intros H Hs t c Ht. destruct (H t c Ht) as [?|(ch & ? & ?)]; eauto. Qed.

Lemma awake_wakeup_nil ch s : awake_except [] s -> awake_except [] (IOLockWakeup ch s).
Proof. intros H. apply awake_wakeup. eapply awake_more; [done|set_solver]. Qed.

Lemma awake_set_work w x x' ds s :
  awake_except ds s -> works s !! w = Some x ->
  (executing x = true -> executing x' = true) ->
  (pending x <> 0 \/ executing x = true -> pending x' <> 0 \/ executing x' = true) ->
  awake_except ds (set_work w x' s).
Proof.
  intros H Ew He Hp t c Ht. destruct (H t c Ht) as [Hc|?]; [left|by right].
  destruct c; cbn in *; try done; (destruct (decide (w0 = w)) as [->|Hne];
    [rewrite lookup_insert_eq; rewrite Ew in Hc; cbn in *; f_equal; injection Hc as Hc|by rewrite lookup_insert_ne]).
  1,2: by apply He.
  destruct (Z.eqb_spec (pending x') 0); [|done]. cbn. destruct (Z.eqb_spec (pending x) 0); cbn in Hc; tauto.
Qed.

Lemma awake_set_work_any w x' ds s : awake_except ds s -> awake_except (ChWork w :: ds) (set_work w x' s).
Proof.
  intros H t c Ht. destruct (H t c Ht) as [Hc|(ch & ? & ?)]; [|right; set_solver].
  destruct c as [w0 ?|w0 ?|w0 ?|q0|w0|q0]; cbn in *; try (by left);
    (destruct (decide (w0 = w)) as [->|Hne]; [right; set_solver|left; by rewrite lookup_insert_ne]).
Qed.

Lemma awake_set_wq q k k' ds s :
  awake_except ds s -> wqs s !! q = Some k -> done k' = done k ->
  (queue k <> [] \/ active k <> 0 -> queue k' <> [] \/ active k' <> 0) ->
  awake_except ds (set_wq q k' s).
Proof.
  intros H Eq Hd Hq t c Ht. destruct (H t c Ht) as [Hc|?]; [left|by right].
  destruct c as [w0 ?|w0 ?|w0 ?|q0|w0|q0]; cbn in *; try done;
    (destruct (decide (q0 = q)) as [->|Hne];
     [rewrite lookup_insert_eq; rewrite Eq in Hc; cbn in *; f_equal; injection Hc as Hc|by rewrite lookup_insert_ne]).
  - apply orb_true_iff. apply orb_true_iff in Hc. rewrite !negb_true_iff, !bool_decide_eq_false, !Z.eqb_neq in *.
    tauto.
  - by rewrite Hd.
Qed.

Lemma awake_set_wq_any q k k' ds s :
  awake_except ds s -> wqs s !! q = Some k -> done k' = done k ->
  awake_except (ChQueue q :: ds) (set_wq q k' s).
Proof.
  intros H Eq Hd t c Ht. destruct (H t c Ht) as [Hc|(ch & ? & ?)]; [|right; set_solver].
  destruct c as [w0 ?|w0 ?|w0 ?|q0|w0|q0]; cbn in *; try (by left);
    (destruct (decide (q0 = q)) as [->|Hne]; [|left; by rewrite lookup_insert_ne]).
  - right. set_solver.
  - left. rewrite lookup_insert_eq. rewrite Eq in Hc. cbn in *. by rewrite Hd.
Qed.

Lemma awake_set_done q k k' ds s :
  awake_except ds s -> wqs s !! q = Some k -> queue k' = queue k -> active k' = active k ->
  awake_except (ChDone q :: ds) (set_wq q k' s).
Proof.
  intros H Eq Hqu Ha t c Ht. destruct (H t c Ht) as [Hc|(ch & ? & ?)]; [|right; set_solver].
  destruct c as [w0 ?|w0 ?|w0 ?|q0|w0|q0]; cbn in *; try (by left);
    (destruct (decide (q0 = q)) as [->|Hne]; [|left; by rewrite lookup_insert_ne]).
  - left. rewrite lookup_insert_eq. rewrite Eq in Hc. cbn in *. by rewrite Hqu, Ha.
  - right. set_solver.
Qed.

Lemma awake_thread t c a ds s :
  awake_except ds s -> (a = true -> wait_cond s c = Some true) -> awake_except ds (set_thread t c a s).
Proof.
  intros H Hc t' c' Ht. cbn in Ht. destruct (decide (t' = t)) as [->|Hne].
  - rewrite lookup_insert_eq in Ht. injection Ht as <- ->. left. by apply Hc.
  - rewrite lookup_insert_ne in Ht by done. by apply (H t').
Qed.

Lemma awake_drop t ds s : awake_except ds s -> awake_except ds (drop_thread t s).
Proof. intros H t' c' Ht. cbn in Ht. apply lookup_delete_Some in Ht as [_ Ht]. by apply (H t'). Qed.

Lemma queue_work_locked_awake q w s s' b :
  awake_except [] s -> queue_work_locked q w s = Some (s', b) -> awake_except [] s'.
Proof.
  intros A. unfold queue_work_locked.
  destruct (wqs s !! q) as [k|] eqn:Eq; [|done]. destruct (works s !! w) as [x|] eqn:Ew; [|done].
  cbn [mbind option_bind]. repeat case_match; try by intros [= <- <-].
  intros [= <- <-]. apply awake_wakeup_nil. eapply awake_set_wq; [eapply awake_set_work|..]; try done.
  - cbn. intros _. by left.
  - cbn. intros _. left. by destruct (queue k).
Qed.

Lemma remove_pending_awake w s s' b :
  core_of s -> awake_except [] s -> remove_pending_work w s = Some (s', b) -> awake_except [] s'.
Proof.
  intros C A. unfold remove_pending_work. destruct (works s !! w) as [x|] eqn:Ew; [|done]. cbn [mbind option_bind].
  intros [= <- <-]. apply awake_wakeup. destruct (Z.eqb_spec (pending x) 1) as [Ep|Ep].
  - destruct (remove_pending_eq s w x C Ew Ep) as (k & Ek & ->). rewrite Ep. cbn [Z.eqb negb andb].
    destruct (core_wq s _ k C Ek) as ((H0 & _) & _). rewrite (proj2 (Z.eqb_neq _ _) H0). cbn [negb].
    apply awake_wakeup. eapply awake_more.
    + apply awake_set_work_any. by apply (awake_set_wq_any (wq x) k (unlink w k) [] s).
    + set_solver.
  - destruct (_ && _); [apply awake_wakeup; eapply awake_more; [by apply awake_set_work_any|set_solver]|by apply awake_set_work_any].
Qed.

Lemma worker_loop_awake q s s' r :
  awake_except [] s -> (forall k, wqs s !! q = Some k -> active k = 0) ->
  worker_loop q s = Some (s', r) -> awake_except [] s'.
Proof.
  intros A Ha. unfold worker_loop. destruct (wqs s !! q) as [k|] eqn:Eq; [|done]. cbn [mbind option_bind].
  specialize (Ha k eq_refl). destruct (running k || _).
  - destruct (queue k) as [|w rest] eqn:Equ.
    + intros [= <- <-]. eapply awake_set_wq; [done..|]. rewrite Equ. cbn. tauto.
    + destruct (works s !! w) as [x|] eqn:Ew; [|done]. cbn [mbind option_bind]. intros [= <- <-].
      eapply awake_set_wq; [eapply awake_set_work|..]; try done; cbn.
      * by right.
      * rewrite Ha. by right.
  - intros [= <- <-]. apply awake_wakeup. by eapply awake_set_done.
Qed.

Lemma worker_finish_awake q w s s' : awake_except [] s -> worker_finish q w s = Some s' -> awake_except [] s'.
Proof.
  intros A. unfold worker_finish. destruct (wqs s !! q) as [k|] eqn:Eq; [|done].
  destruct (works s !! w) as [x|] eqn:Ew; [|done]. cbn [mbind option_bind]. intros [= <-].
  apply awake_wakeup, awake_wakeup. eapply awake_more;
    [eapply (awake_set_wq_any q k); [by apply awake_set_work_any|done|done]|set_solver].
Qed.

(** ** Every event preserves the invariant *)

Lemma inv_awake s : inv s <-> core_of s /\ awake_except [] s.
Proof. unfold inv. by rewrite sleepers_awake. Qed.

Lemma set_canceling_awake w b s s' : awake_except [] s -> set_canceling w b s = Some s' -> awake_except [] s'.
Proof.
  intros A. unfold set_canceling. destruct (works s !! w) as [x|] eqn:Ew; [|done]. cbn [mbind option_bind].
  intros [= <-]. by eapply awake_set_work.
Qed.

Lemma delete_awake q k s : core_of s -> awake_except [] s -> wqs s !! q = Some k -> done k = true ->
  awake_except [] (mk_sys (works s) (delete q (wqs s)) (threads s)).
Proof.
  intros C A Eq Hdn t c Ht. cbn in Ht. destruct (A t c Ht) as [Hc|?]; [|by right].
  destruct (core_wq s q k C Eq) as ((_ & _ & Ha & Hd & Hdr & _) & _).
  destruct (Hdr Hdn) as [_ Hnil]. assert (worker k = WDone) as Hwd by by apply Hd. rewrite Hwd in Ha.
  left. destruct c as [w0 ?|w0 ?|w0 ?|q0|w0|q0]; cbn in *; try done;
    (destruct (decide (q0 = q)) as [->|Hne]; [exfalso|by rewrite lookup_delete_ne]).
  - rewrite Eq in Hc. cbn in Hc. by rewrite Hnil, Ha in Hc.
  - rewrite Eq in Hc. cbn in Hc. by rewrite Hdn in Hc.
Qed.

Lemma wait_loop_inv t c s s' r : inv s -> wait_loop t c s = Some (s', r) -> inv s'.
Proof.
  rewrite !inv_awake. intros [C A]. unfold wait_loop. destruct (wait_cond s c) as [b|] eqn:Ec; [|done].
  cbn [mbind option_bind]. destruct b.
  { intros [= <- <-]. split; [done|]. by apply awake_thread. }
  destruct c as [w p|w p|w p|q|w|q]; cbn [call_end];
    try (intros [= <- <-]; split; [done|by apply awake_drop]).
  1,2: destruct (set_canceling w false s) as [s1|] eqn:E; [|done]; cbn [mbind option_bind]; intros [= <- <-];
       split; [exact (set_canceling_false_core w s s1 C E)|apply awake_drop; by eapply set_canceling_awake].
  cbn in Ec. destruct (wqs s !! q) as [k|] eqn:Eq; [|done]. cbn in Ec. injection Ec as Ec.
  apply negb_false_iff in Ec. intros [= <- <-]. split; [exact (delete_core q k s C Eq Ec)|].
  apply awake_drop. by apply (delete_awake q k).
Qed.

Lemma cancel_inv w s s1 s2 p :
  inv s -> set_canceling w true s = Some s1 -> remove_pending_work w s1 = Some (s2, p) -> inv s2.
Proof.
  rewrite !inv_awake. intros [C A] E1 E2. split; [by eapply set_canceling_true_core|].
  (* the flag does not matter to the sleepers, so clear it first *)
  pose proof (set_canceling_awake _ _ _ _ A E1) as A1. revert E2. unfold remove_pending_work.
  unfold set_canceling in E1. destruct (works s !! w) as [x|] eqn:Ew; [|done]. cbn [mbind option_bind] in E1.
  injection E1 as <-. cbn [works set_work]. rewrite lookup_insert_eq. cbn [mbind option_bind].
  cbn [with_canceling pending wq wqs set_work threads works]. intros [= <- <-]. apply awake_wakeup.
  destruct (Z.eqb_spec (pending x) 1) as [Ep|Ep].
  - destruct (remove_pending_eq s w x C Ew Ep) as (k & Ek & Eu). cbn [wqs set_work]. rewrite Eu, Ep. cbn [Z.eqb negb andb].
    destruct (core_wq s _ k C Ek) as ((H0 & _) & _). rewrite (proj2 (Z.eqb_neq _ _) H0). cbn [negb].
    apply awake_wakeup. eapply awake_more.
    + apply awake_set_work_any. by apply (awake_set_wq_any (wq x) k (unlink w k) [] _ A1).
    + set_solver.
  - destruct (_ && _); [apply awake_wakeup; eapply awake_more; [by apply awake_set_work_any|set_solver]|by apply awake_set_work_any].
Qed.

Lemma wq_thread_fn_inv q s s' r : inv s -> wq_thread_fn q s = Some (s', r) -> inv s'.
Proof.
  rewrite !inv_awake. intros [C A] E. split; [by eapply wq_thread_fn_core|]. revert E.
  unfold wq_thread_fn. destruct (wqs s !! q) as [k|] eqn:Eq; [|done]. cbn [mbind option_bind].
  destruct (core_wq s q k C Eq) as ((_ & _ & Ha & _) & _).
  destruct (worker k) as [| |w|] eqn:Ew; [|done| |done].
  - apply worker_loop_awake; [done|]. intros j Ej. congruence.
  - destruct (worker_finish q w s) as [s1|] eqn:E1; [|done]. cbn [mbind option_bind].
    destruct (worker_finish_core q w s s1 C E1) as [C1 (j & Ej & Hw & _)]; [congruence|].
    apply worker_loop_awake; [by eapply worker_finish_awake|]. intros j' Ej'.
    destruct (core_wq s1 q j' C1 Ej') as ((_ & _ & Ha' & _) & _). rewrite Ej in Ej'. injection Ej' as <-.
    by rewrite Ha', Hw.
Qed.

Lemma queue_delayed_work_awake q w d armed s s' b :
  awake_except [] s -> queue_delayed_work q w d armed s = Some (s', b) -> awake_except [] s'.
Proof.
  intros A. unfold queue_delayed_work, queue_work.
  destruct ((q =? 0) || (w =? 0)); [by intros [= <- <-]|]. destruct (d =? 0).
  { by apply queue_work_locked_awake. }
  destruct (wqs s !! q) as [k|] eqn:Eq; [|done]. destruct (works s !! w) as [x|] eqn:Ew; [|done]. cbn [mbind option_bind].
  destruct (_ || (executing x && _)) eqn:E1; intros [= <- <-]; [done|].
  apply orb_false_elim in E1 as [E1 E2]. apply orb_false_elim in E1 as [E1 Ec]. apply orb_false_elim in E1 as [_ Ep].
  apply negb_false_iff, Z.eqb_eq in Ep.
  eapply awake_set_work; [done..|]. cbn. intros [?|?]; [lia|by right].
Qed.

Lemma timer_fn_awake w s s' : awake_except [] s -> rtw88_delayed_work_timer_fn w s = Some s' -> awake_except [] s'.
Proof.
  intros A. unfold rtw88_delayed_work_timer_fn. destruct (works s !! w) as [x|] eqn:Ew; [|done]. cbn [mbind option_bind].
  destruct (Z.eqb_spec (pending x) 2) as [Ep|Ep]; [|intros [= <-]; by apply awake_wakeup_nil].
  destruct (queue_work_locked _ _ _) as [[s1 b]|] eqn:E; [|done]. cbn [mbind option_bind]. intros [= <-].
  revert E. unfold queue_work_locked. cbn [wqs works set_work].
  destruct (wqs s !! wq x) as [k|] eqn:Eq; [|done]. rewrite lookup_insert_eq. cbn [mbind option_bind].
  pose proof (awake_set_work_any w (with_pending x 0) [] s A) as A1.
  repeat case_match; intros [= <- <-]; try (by apply awake_wakeup).
  apply awake_wakeup, awake_wakeup. eapply awake_more;
    [eapply (awake_set_wq_any (wq x) k); [by eapply awake_set_work_any|done|done]|set_solver].
Qed.

Lemma INIT_WORK_inv w s : inv s -> works s !! w = None -> inv (INIT_WORK w s).
Proof.
  rewrite !inv_awake. intros [C A] E0. split.
  - destruct C as [Cw Cq]. split; cbn.
    + intros v y Hy. destruct (decide (v = w)) as [->|Hne].
      * rewrite lookup_insert_eq in Hy. injection Hy as <-. split_and!; [by left|done..].
      * rewrite lookup_insert_ne in Hy by done. by apply Cw.
    + intros q k Eq. destruct (Cq q k Eq) as (Hl & Hqu & Hru). split_and!; [done| |]; intros v Hv;
        [destruct (Hqu v Hv) as (y & Ey & ?)|destruct (Hru v Hv) as (y & Ey & ?)];
        exists y; (rewrite lookup_insert_ne; [done|congruence]).
  - intros t c Ht. destruct (A t c Ht) as [Hc|?]; [left|by right]. destruct c; cbn in *; try done;
      (rewrite lookup_insert_ne; [done|]; intros <-; by rewrite E0 in Hc).
Qed.

Lemma alloc_workqueue_inv q s : 0 < q -> inv s -> wqs s !! q = None -> inv (alloc_workqueue q s).
Proof.
  intros Hq0. rewrite !inv_awake. intros [C A] E0. split.
  - destruct C as [Cw Cq]. split; cbn.
    + intros v y Hy. destruct (Cw v y Hy) as (Hr & Hc & Hp & He). split_and!; [done..| |]; intros Hx;
        [destruct (Hp Hx) as (k & Ek & ?)|destruct (He Hx) as (k & Ek & ?)];
        exists k; (rewrite lookup_insert_ne; [done|congruence]).
    + intros r j Hj. destruct (decide (r = q)) as [->|Hne].
      * rewrite lookup_insert_eq in Hj. injection Hj as <-. split_and!; cbn; try done;
          [|intros v Hv; by apply not_elem_of_nil in Hv].
        unfold wq_local. cbn. split_and!; try done; [lia|constructor].
      * rewrite lookup_insert_ne in Hj by done. by apply Cq.
  - intros t c Ht. destruct (A t c Ht) as [Hc|?]; [left|by right]. destruct c; cbn in *; try done;
      (rewrite lookup_insert_ne; [done|]; intros <-; by rewrite E0 in Hc).
Qed.

Lemma exec_inv s e s' r : inv s -> exec s e = Some (s', r) -> inv s'.
Proof.
  intros I. pose proof I as I0. rewrite inv_awake in I0. destruct I0 as [C A].
  destruct e; cbn [exec].
  - destruct ((0 <? w) && _) eqn:E; [|done]. intros [= <- <-]. bool_hyps. apply bool_decide_eq_true in H0.
    by apply INIT_WORK_inv.
  - destruct ((0 <? q) && _) eqn:E; [|done]. intros [= <- <-]. bool_hyps. apply bool_decide_eq_true in H0.
    by apply alloc_workqueue_inv.
  - unfold queue_work. destruct (_ || _); [by intros [= <- <-]|].
    destruct (queue_work_locked q w s) as [[s1 b]|] eqn:E; [|done]. cbn [mbind option_bind]. intros [= <- <-].
    rewrite inv_awake. split; [by eapply queue_work_locked_core|by eapply queue_work_locked_awake].
  - destruct (queue_delayed_work q w delay armed s) as [[s1 b]|] eqn:E; [|done]. cbn [mbind option_bind]. intros [= <- <-].
    rewrite inv_awake. split; [by eapply queue_delayed_work_core|by eapply queue_delayed_work_awake].
  - destruct (rtw88_delayed_work_timer_fn w s) as [s1|] eqn:E; [|done]. cbn [mbind option_bind]. intros [= <- <-].
    rewrite inv_awake. split; [by eapply timer_fn_core|by eapply timer_fn_awake].
  - unfold cancel_delayed_work. destruct (w =? 0); [by intros [= <- <-]|].
    destruct (remove_pending_work w s) as [[s1 b]|] eqn:E; [|done]. cbn [mbind option_bind]. intros [= <- <-].
    rewrite inv_awake. split; [by eapply remove_pending_core|by eapply remove_pending_awake].
  - destruct (idle t s); [|done]. unfold cancel_work_sync. destruct (w =? 0); [by intros [= <- <-]|].
    destruct (set_canceling w true s) as [s1|] eqn:E1; [|done]. cbn [mbind option_bind].
    destruct (remove_pending_work w s1) as [[s2 p]|] eqn:E2; [|done]. cbn [mbind option_bind].
    apply wait_loop_inv. by eapply cancel_inv.
  - destruct (idle t s); [|done]. unfold cancel_delayed_work_sync. destruct (w =? 0); [by intros [= <- <-]|].
    destruct (set_canceling w true s) as [s1|] eqn:E1; [|done]. cbn [mbind option_bind].
    destruct (remove_pending_work w s1) as [[s2 p]|] eqn:E2; [|done]. cbn [mbind option_bind]. intros [= <- <-].
    pose proof (cancel_inv _ _ _ _ _ I E1 E2) as I2.
    rewrite inv_awake in I2 |- *. split; [apply I2|]. apply awake_thread; [apply I2|done].
  - destruct (idle t s); [|done]. unfold flush_workqueue. destruct (q =? 0); [by intros [= <- <-]|]. by apply wait_loop_inv.
  - destruct (idle t s); [|done]. unfold flush_work. destruct (w =? 0); [by intros [= <- <-]|]. by apply wait_loop_inv.
  - destruct (idle t s); [|done]. unfold destroy_workqueue. destruct (q =? 0); [by intros [= <- <-]|].
    destruct (wqs s !! q) as [k|] eqn:Eq; [|done]. cbn [mbind option_bind]. apply wait_loop_inv.
    rewrite inv_awake. split; [by apply stop_core|]. apply awake_wakeup_nil. by eapply awake_set_wq.
  - unfold resume. destruct (threads s !! t) as [[c a]|] eqn:Et; [|done]. cbn [mbind option_bind].
    destruct a; [done|]. destruct c; by apply wait_loop_inv.
  - by apply wq_thread_fn_inv.
Qed.

Lemma boot_inv : inv boot.
Proof.
  split; [split; intros ? ? H|intros t c H]; unfold boot in H; cbn [works wqs threads] in H;
    by rewrite lookup_empty in H.
Qed.

Lemma run_inv es : forall s s' rs, inv s -> run s es = Some (s', rs) -> inv s'.
Proof.
  induction es as [|e es IH]; intros s s' rs I; cbn [run].
  - by intros [= <- <-].
  - destruct (exec s e) as [[s1 r]|] eqn:E; [|done]. cbn [mbind option_bind].
    destruct (run s1 es) as [[s2 rs2]|] eqn:E2; [|done]. cbn [mbind option_bind]. intros [= <- <-].
    eapply IH; [|done]. by eapply exec_inv.
Qed.

Lemma reachable_inv s : reachable s -> inv s.
Proof. intros (es & rs & E). by apply (run_inv es boot s rs boot_inv). Qed.

(** ** One canceller at a time *)

Definition cancels (c : call) : option Z :=
  match c with CallCancel w _ | CallDelTimer w _ | CallCancelDelayed w _ => Some w | _ => None end.

Definition cancelling (s : sys) (w : Z) : Prop :=
  exists t c a, threads s !! t = Some (c, a) /\ cancels c = Some w.

(** Nobody starts cancelling a work that is already being cancelled. *)
Definition one_canceller (s : sys) (e : event) : Prop :=
  match e with
  | EvCancelWorkSync _ w | EvCancelDelayedSync _ w => ~ cancelling s w
  | _ => True
  end.

Inductive disciplined : sys -> Prop :=
  | disciplined_boot : disciplined boot
  | disciplined_step s e s' r :
      disciplined s -> one_canceller s e -> exec s e = Some (s', r) -> disciplined s'.

Lemma disciplined_inv s : disciplined s -> inv s.
Proof. induction 1; [apply boot_inv|by eapply exec_inv]. Qed.

Definition flagged (s : sys) (w : Z) : Prop := exists x, works s !! w = Some x /\ canceling x = true.

Definition cancel_inv_of (s : sys) : Prop :=
  forall t c a w, threads s !! t = Some (c, a) -> cancels c = Some w ->
    flagged s w /\
    forall t' c' a', threads s !! t' = Some (c', a') -> cancels c' = Some w -> t' = t.

(** Nothing is unflagged and no new canceller appears. *)
Definition quiet (s s' : sys) : Prop :=
  (forall w, flagged s w -> flagged s' w) /\
  (forall t c a w, threads s' !! t = Some (c, a) -> cancels c = Some w ->
     exists c' a', threads s !! t = Some (c', a') /\ cancels c' = Some w).

Lemma quiet_refl s : quiet s s.
Proof. split; eauto. Qed.

Lemma quiet_trans s1 s2 s3 : quiet s1 s2 -> quiet s2 s3 -> quiet s1 s3.
Proof.
  intros [F1 T1] [F2 T2]. split; [auto|]. intros t c a w H Hc.
  destruct (T2 _ _ _ _ H Hc) as (c' & a' & H' & Hc'). eauto.
Qed.

Lemma quiet_cancel_inv s s' : quiet s s' -> cancel_inv_of s -> cancel_inv_of s'.
Proof.
  intros [F T] I t c a w H Hc. destruct (T _ _ _ _ H Hc) as (c0 & a0 & H0 & Hc0).
  destruct (I _ _ _ _ H0 Hc0) as [Hf Hu]. split; [auto|]. intros t' c' a' H' Hc'.
  destruct (T _ _ _ _ H' Hc') as (c1 & a1 & H1 & Hc1). eauto.
Qed.

Lemma quiet_wakeup ch s : quiet s (IOLockWakeup ch s).
Proof.
  split; [done|]. intros t c a w H Hc. cbn in H. rewrite lookup_fmap in H.
  destruct (threads s !! t) as [[c' a']|]; [|done]. cbn in H. injection H as <- _. eauto.
Qed.

Lemma quiet_set_wq q k s : quiet s (set_wq q k s).
Proof. split; eauto. Qed.

Lemma quiet_set_work w x x' s :
  works s !! w = Some x -> (canceling x = true -> canceling x' = true) -> quiet s (set_work w x' s).
Proof.
  intros Ew Hc. split; [|eauto]. intros v (y & Ey & Hy). unfold flagged. cbn.
  destruct (decide (v = w)) as [->|Hne].
  - exists x'. rewrite lookup_insert_eq. split; [done|]. apply Hc. congruence.
  - exists y. by rewrite lookup_insert_ne.
Qed.

Lemma quiet_thread t c a s :
  (forall w, cancels c = Some w -> exists c' a', threads s !! t = Some (c', a') /\ cancels c' = Some w) ->
  quiet s (set_thread t c a s).
Proof.
  intros H. split; [done|]. intros t' c' a' w Ht Hc. cbn in Ht. destruct (decide (t' = t)) as [->|Hne].
  - rewrite lookup_insert_eq in Ht. injection Ht as <- <-. auto.
  - rewrite lookup_insert_ne in Ht by done. eauto.
Qed.

Lemma quiet_drop t s : quiet s (drop_thread t s).
Proof. split; [done|]. intros t' c a w H Hc. cbn in H. apply lookup_delete_Some in H as [_ H]. eauto. Qed.

#[local] Hint Resolve quiet_refl quiet_wakeup quiet_set_wq quiet_drop : core.

Lemma quiet_queue_work_locked q w s s' b : queue_work_locked q w s = Some (s', b) -> quiet s s'.
Proof.
  unfold queue_work_locked. destruct (wqs s !! q) as [k|]; [|done]. destruct (works s !! w) as [x|] eqn:Ew; [|done].
  cbn [mbind option_bind]. repeat case_match; intros [= <- <-]; try done.
  eapply quiet_trans; [|apply quiet_wakeup]. eapply quiet_trans; [|apply quiet_set_wq]. by eapply quiet_set_work.
Qed.

Lemma quiet_remove_pending w s s' b : remove_pending_work w s = Some (s', b) -> quiet s s'.
Proof.
  unfold remove_pending_work. destruct (works s !! w) as [x|] eqn:Ew; [|done]. cbn [mbind option_bind]. intros [= <- <-].
  eapply quiet_trans; [|apply quiet_wakeup].
  assert (forall s0, works s0 = works s -> threads s0 = threads s -> quiet s (set_work w (with_pending x 0) s0)) as Hq.
  { intros s0 Hw Ht. destruct (quiet_set_work w x (with_pending x 0) s Ew ltac:(done)) as [F T].
    split; [intros v Hv; destruct (F v Hv) as (y & ? & ?); exists y; cbn in *; by rewrite Hw|].
    cbn. rewrite Ht. eauto. }
  destruct (pending x =? 1), (_ && _); try (eapply quiet_trans; [|apply quiet_wakeup]); by apply Hq.
Qed.

Lemma quiet_worker_loop q s s' r : worker_loop q s = Some (s', r) -> quiet s s'.
Proof.
  unfold worker_loop. destruct (wqs s !! q) as [k|]; [|done]. cbn [mbind option_bind]. destruct (_ || _).
  - destruct (queue k) as [|w rest]; [intros [= <- <-]; apply quiet_set_wq|].
    destruct (works s !! w) as [x|] eqn:Ew; [|done]. cbn [mbind option_bind]. intros [= <- <-].
    eapply quiet_trans; [|apply quiet_set_wq]. by eapply quiet_set_work.
  - intros [= <- <-]. eapply quiet_trans; [|apply quiet_wakeup]. apply quiet_set_wq.
Qed.

Lemma quiet_wq_thread_fn q s s' r : wq_thread_fn q s = Some (s', r) -> quiet s s'.
Proof.
  unfold wq_thread_fn. destruct (wqs s !! q) as [k|] eqn:Eq; [|done]. cbn [mbind option_bind].
  destruct (worker k) as [| |w|]; try done; [apply quiet_worker_loop|].
  destruct (worker_finish q w s) as [s1|] eqn:E; [|done]. cbn [mbind option_bind]. intros H.
  eapply quiet_trans; [|by eapply quiet_worker_loop]. revert E. unfold worker_finish. rewrite Eq.
  destruct (works s !! w) as [x|] eqn:Ew; [|done]. cbn [mbind option_bind]. intros [= <-].
  eapply quiet_trans; [|apply quiet_wakeup]. eapply quiet_trans; [|apply quiet_wakeup].
  eapply quiet_trans; [|apply quiet_set_wq]. by eapply quiet_set_work.
Qed.

Lemma quiet_timer_fn w s s' : rtw88_delayed_work_timer_fn w s = Some s' -> quiet s s'.
Proof.
  unfold rtw88_delayed_work_timer_fn. destruct (works s !! w) as [x|] eqn:Ew; [|done]. cbn [mbind option_bind].
  destruct (pending x =? 2); [|intros [= <-]; apply quiet_wakeup].
  destruct (queue_work_locked _ _ _) as [[s1 b]|] eqn:E; [|done]. cbn [mbind option_bind]. intros [= <-].
  eapply quiet_trans; [|apply quiet_wakeup]. eapply quiet_trans; [|by eapply quiet_queue_work_locked].
  by eapply quiet_set_work.
Qed.

Lemma quiet_queue_delayed_work q w d armed s s' b : queue_delayed_work q w d armed s = Some (s', b) -> quiet s s'.
Proof.
  unfold queue_delayed_work, queue_work. destruct ((q =? 0) || (w =? 0)); [by intros [= <- <-]|].
  destruct (d =? 0); [apply quiet_queue_work_locked|].
  destruct (wqs s !! q) as [k|]; [|done]. destruct (works s !! w) as [x|] eqn:Ew; [|done]. cbn [mbind option_bind].
  destruct (_ || _); intros [= <- <-]; [done|]. by eapply quiet_set_work.
Qed.

(** The end of a call that cancels nothing. *)
Lemma quiet_wait_loop t c s s' r : cancels c = None -> wait_loop t c s = Some (s', r) -> quiet s s'.
Proof.
  intros Hc. unfold wait_loop. destruct (wait_cond s c) as [[]|]; [| |done]; cbn [mbind option_bind].
  - intros [= <- <-]. apply quiet_thread. congruence.
  - destruct c; try done; cbn [call_end]; intros [= <- <-]; exact (quiet_drop t s).
Qed.

Lemma flag_set w s s' : set_canceling w true s = Some s' -> quiet s s' /\ flagged s' w.
Proof.
  unfold set_canceling. destruct (works s !! w) as [x|] eqn:Ew; [|done]. cbn [mbind option_bind]. intros [= <-].
  split; [by eapply quiet_set_work|]. eexists. split; [apply lookup_insert_eq|done].
Qed.

(** A thread that starts the only cancellation of a flagged work. *)
Lemma thread_added t c a w s :
  cancel_inv_of s -> flagged s w -> ~ cancelling s w -> cancels c = Some w -> cancel_inv_of (set_thread t c a s).
Proof.
  intros Hci F Hn Hc t1 c1 a1 v Ht Hv. cbn in Ht. destruct (decide (t1 = t)) as [->|Hne].
  - rewrite lookup_insert_eq in Ht. injection Ht as <- <-. rewrite Hc in Hv. injection Hv as <-. split; [done|].
    intros t2 c2 a2 Ht2 Hc2. cbn in Ht2. destruct (decide (t2 = t)) as [|Hne]; [done|].
    rewrite lookup_insert_ne in Ht2 by done. destruct Hn. by exists t2, c2, a2.
  - rewrite lookup_insert_ne in Ht by done. destruct (Hci t1 c1 a1 v Ht Hv) as [Hf Hu]. split; [done|].
    intros t2 c2 a2 Ht2 Hc2. cbn in Ht2. destruct (decide (t2 = t)) as [->|Hne2].
    + rewrite lookup_insert_eq in Ht2. injection Ht2 as <- <-. rewrite Hc in Hc2. injection Hc2 as <-.
      destruct Hn. by exists t1, c1, a1.
    + rewrite lookup_insert_ne in Ht2 by done. by apply (Hu t2 c2 a2).
Qed.

Lemma set_thread_drop t c a s : set_thread t c a (drop_thread t s) = set_thread t c a s.
Proof. unfold set_thread, drop_thread. cbn. by rewrite insert_delete_eq. Qed.

(** Waiting in, or ending, the only cancellation of [w]. *)
Lemma cancel_wait_loop t c w s s' r :
  cancels c = Some w -> (forall p, c <> CallDelTimer w p) -> inv s -> flagged s w -> cancel_inv_of (drop_thread t s) ->
  ~ cancelling (drop_thread t s) w -> wait_loop t c s = Some (s', r) ->
  cancel_inv_of s' /\
  (forall t' b, r = Returned t' b ->
     exists x, works s' !! w = Some x /\ pending x = 0 /\ executing x = false /\ canceling x = false).
Proof.
  intros Hc Hnd I (x & Ew & Hx) Hinv Hnc. unfold wait_loop.
  assert (wait_cond s c = Some (executing x)) as ->.
  { destruct c as [v p|v p|v p|v|v|v]; try done; cbn in *; injection Hc as ->; [by rewrite Ew|by destruct (Hnd p)|by rewrite Ew]. }
  cbn [mbind option_bind]. destruct (executing x) eqn:Hex.
  { intros [= <- <-]. split; [|done]. rewrite <- set_thread_drop.
    apply (thread_added t c true w); [done|by exists x|done|done]. }
  assert (call_end t c s = Some (drop_thread t (set_work w (with_canceling x false) s),
    Returned t (match c with CallCancel _ p | CallCancelDelayed _ p => p | _ => false end))) as ->.
  { destruct c as [v p|v p|v p|v|v|v]; try done; cbn in *; injection Hc as ->;
      unfold set_canceling; rewrite ?Ew; [done|by destruct (Hnd p)|done]. }
  intros [= <- <-]. split.
  - intros t1 c1 a1 v Ht Hv. destruct (Hinv t1 c1 a1 v Ht Hv) as [(y & Ey & Hy) Hu]. split; [|exact Hu].
    exists y. split; [|done]. cbn. rewrite lookup_insert_ne; [done|]. intros <-. apply Hnc. by exists t1, c1, a1.
  - intros t' b _. exists (with_canceling x false). split; [apply lookup_insert_eq|]. cbn.
    destruct I as [C _]. destruct (core_work s w x C Ew) as (_ & Hp & _). auto.
Qed.

Definition target (s : sys) (e : event) : option Z :=
  match e with
  | EvCancelWorkSync _ w | EvCancelDelayedSync _ w => if w =? 0 then None else Some w
  | EvResume t => match threads s !! t with Some (c, _) => cancels c | None => None end
  | _ => None
  end.

Definition cancelled (s : sys) (w : Z) : Prop :=
  exists x, works s !! w = Some x /\ pending x = 0 /\ executing x = false /\ canceling x = false.

Lemma cancel_inv_drop t s : cancel_inv_of s -> cancel_inv_of (drop_thread t s).
Proof. apply quiet_cancel_inv, quiet_drop. Qed.

Lemma not_cancelling_quiet s s' w : quiet s s' -> ~ cancelling s w -> ~ cancelling s' w.
Proof.
  intros [_ T] Hn (t & c & a & Ht & Hc). apply Hn. destruct (T _ _ _ _ Ht Hc) as (c' & a' & ? & ?). by exists t, c', a'.
Qed.

(** The start of either cancelling call, up to the first wait. *)
Lemma cancel_start_quiet w s s1 s2 p :
  set_canceling w true s = Some s1 -> remove_pending_work w s1 = Some (s2, p) ->
  quiet s s2 /\ flagged s2 w.
Proof.
  intros E1 E2. destruct (flag_set _ _ _ E1) as [Q1 F]. pose proof (quiet_remove_pending _ _ _ _ E2) as Q2.
  split; [by eapply quiet_trans|]. by apply Q2.
Qed.

Lemma resume_cancel t c a w s s' r :
  threads s !! t = Some (c, a) -> cancels c = Some w -> inv s -> cancel_inv_of s -> resume t s = Some (s', r) ->
  cancel_inv_of s' /\ (forall t' b, r = Returned t' b -> cancelled s' w).
Proof.
  intros Et Hc I Hci. unfold resume. rewrite Et. cbn [mbind option_bind]. destruct a; [done|].
  destruct (Hci t c false w Et Hc) as [Hf Hu].
  assert (~ cancelling (drop_thread t s) w) as Hnc.
  { intros (t2 & c2 & a2 & Ht2 & Hc2). cbn in Ht2. apply lookup_delete_Some in Ht2 as [Hne Ht2].
    by destruct Hne; rewrite (Hu t2 c2 a2). }
  destruct c as [v p|v p|v p|v|v|v]; try done; cbn in Hc; injection Hc as ->;
    intros E; (eapply cancel_wait_loop in E; [exact E|done|done|done|done|by apply cancel_inv_drop|done]).
Qed.

(** The events that neither start nor end a cancellation. *)
Lemma exec_quiet s e s' r :
  (forall t w, e <> EvCancelWorkSync t w) -> (forall t w, e <> EvCancelDelayedSync t w) -> target s e = None ->
  exec s e = Some (s', r) -> quiet s s'.
Proof.
  intros Hn1 Hn2 Ht E. destruct e as [w|q|q w|q w d armed|w|w|t w|t w|t q|t w|t q|t|q]; cbn [exec] in E.
  - destruct ((0 <? w) && _) eqn:E0; [|done]. injection E as <- <-. split; [|eauto].
    bool_hyps. apply bool_decide_eq_true in H0. intros v (y & Ey & Hy). exists y. cbn.
    rewrite lookup_insert_ne; [done|congruence].
  - destruct ((0 <? q) && _); [|done]. injection E as <- <-. apply quiet_set_wq.
  - unfold queue_work in E. destruct (_ || _); [by injection E as <- <-|].
    destruct (queue_work_locked q w s) as [[s1 b]|] eqn:E1; [|done]. injection E as <- <-.
    by eapply quiet_queue_work_locked.
  - destruct (queue_delayed_work _ _ _ _ _) as [[s1 b]|] eqn:E1; [|done]. injection E as <- <-.
    by eapply quiet_queue_delayed_work.
  - destruct (rtw88_delayed_work_timer_fn w s) as [s1|] eqn:E1; [|done]. injection E as <- <-.
    by eapply quiet_timer_fn.
  - unfold cancel_delayed_work in E. destruct (w =? 0); [by injection E as <- <-|].
    destruct (remove_pending_work w s) as [[s1 b]|] eqn:E1; [|done]. injection E as <- <-.
    by eapply quiet_remove_pending.
  - by destruct (Hn1 t w).
  - by destruct (Hn2 t w).
  - destruct (idle t s); [|done]. unfold flush_workqueue in E.
    destruct (q =? 0); [by injection E as <- <-|eapply quiet_wait_loop; [|exact E]; done].
  - destruct (idle t s); [|done]. unfold flush_work in E.
    destruct (w =? 0); [by injection E as <- <-|eapply quiet_wait_loop; [|exact E]; done].
  - destruct (idle t s); [|done]. unfold destroy_workqueue in E.
    destruct (q =? 0); [by injection E as <- <-|]. destruct (wqs s !! q) as [k|]; [|done]. cbn [mbind option_bind] in E.
    eapply quiet_trans; [|eapply quiet_wait_loop; [|exact E]; done]. eapply quiet_trans; [apply quiet_set_wq|apply quiet_wakeup].
  - cbn [target] in Ht. unfold resume in E. destruct (threads s !! t) as [[c a]|]; [|done]. cbn [mbind option_bind] in E.
    destruct a; [done|]. destruct c; try done; (eapply quiet_wait_loop; [|exact E]; done).
  - by eapply quiet_wq_thread_fn.
Qed.

(** Every event of a disciplined system; what a finished cancellation leaves. *)
Lemma exec_cancel s e s' r :
  inv s -> cancel_inv_of s -> one_canceller s e -> exec s e = Some (s', r) ->
  cancel_inv_of s' /\
  (forall w t b, target s e = Some w -> r = Returned t b -> cancelled s' w).
Proof.
  intros I Hci Hone E.
  assert (quiet s s' -> target s e = None -> cancel_inv_of s' /\
    (forall w t b, target s e = Some w -> r = Returned t b -> cancelled s' w)) as Hquiet.
  { intros Q Ht. split; [by eapply quiet_cancel_inv|congruence]. }
  destruct e as [w|q|q w|q w d armed|w|w|t w|t w|t q|t w|t q|t|q];
    try (apply Hquiet; [eapply exec_quiet; [..|exact E]; done|done]); cbn [exec one_canceller] in *.
  - destruct (idle t s); [|done]. unfold cancel_work_sync in E. destruct (w =? 0) eqn:Ew0.
    { injection E as <- <-. split; [done|]. intros v t' b Hv. cbn in Hv. by rewrite Ew0 in Hv. }
    destruct (set_canceling w true s) as [s1|] eqn:E1; [|done]. cbn [mbind option_bind] in E.
    destruct (remove_pending_work w s1) as [[s2 p]|] eqn:E2; [|done]. cbn [mbind option_bind] in E.
    destruct (cancel_start_quiet _ _ _ _ _ E1 E2) as [Q F].
    eapply cancel_wait_loop in E; [|done|done|by eapply cancel_inv|exact F| |].
    + cbn [target]. rewrite Ew0. split; [apply E|]. intros v t' b [= <-] Hr. by apply (proj2 E t' b).
    + apply cancel_inv_drop. by eapply quiet_cancel_inv.
    + eapply not_cancelling_quiet; [|exact Hone]. eapply quiet_trans; [exact Q|apply quiet_drop].
  - destruct (idle t s) eqn:Hidle; [|done]. unfold cancel_delayed_work_sync in E. destruct (w =? 0) eqn:Ew0.
    { injection E as <- <-. split; [done|]. intros v t' b Hv. cbn in Hv. by rewrite Ew0 in Hv. }
    destruct (set_canceling w true s) as [s1|] eqn:E1; [|done]. cbn [mbind option_bind] in E.
    destruct (remove_pending_work w s1) as [[s2 p]|] eqn:E2; [|done]. cbn [mbind option_bind] in E.
    injection E as <- <-. destruct (cancel_start_quiet _ _ _ _ _ E1 E2) as [Q F]. split; [|done].
    apply (thread_added t _ false w); [by eapply quiet_cancel_inv|done|by eapply not_cancelling_quiet|done].
  - destruct (target s (EvResume t)) as [w|] eqn:Htg; [|apply Hquiet; [apply (exec_quiet s (EvResume t) s' r); done|done]].
    cbn [target] in Htg. destruct (threads s !! t) as [[c a]|] eqn:Et; [|done].
    destruct (resume_cancel _ _ _ _ _ _ _ Et Htg I Hci E) as [H1 H2]. split; [done|].
    intros v t' b [= <-] Hr. by eapply H2.
Qed.

Lemma disciplined_cancel_inv s : disciplined s -> cancel_inv_of s.
Proof.
  induction 1 as [|s e s' r Hd IH Hone E].
  - intros t c a w H. unfold boot in H. cbn [threads] in H. by rewrite lookup_empty in H.
  - eapply exec_cancel; [by apply disciplined_inv|done|done|exact E].
Qed.

(** ** Draining a queue *)

Lemma worker_next s q k w rest :
  inv s -> wqs s !! q = Some k -> queue k = w :: rest ->
  exists s1 k1, exec s (EvWorker q) = Some (s1, Started w) /\ inv s1 /\ wqs s1 !! q = Some k1 /\ queue k1 = rest.
Proof.
  intros I Eq Equ. pose proof I as I0. apply inv_awake in I0 as [C A].
  destruct (core_wq s q k C Eq) as ((Hq0 & ND & Ha & Hd & Hdr & Hs) & Hqu & Hru).
  assert (forall s0 k0, inv s0 -> wqs s0 !! q = Some k0 -> queue k0 = w :: rest ->
    exists s1 k1, worker_loop q s0 = Some (s1, Started w) /\ wqs s1 !! q = Some k1 /\ queue k1 = rest) as Hloop.
  { intros s0 k0 [C0 _] E0 Q0. destruct (core_wq s0 q k0 C0 E0) as (_ & Hq0' & _).
    destruct (Hq0' w) as (x & Ex & _); [rewrite Q0; set_solver|].
    unfold worker_loop. rewrite E0. cbn [mbind option_bind]. rewrite Q0, Ex.
    replace (running k0 || _) with true by (by rewrite bool_decide_false, orb_true_r).
    eexists _, _. split; [done|]. split; [apply lookup_insert_eq|done]. }
  assert (forall s1, exec s (EvWorker q) = Some (s1, Started w) -> inv s1) as Hinv by (intros; by eapply exec_inv).
  cbn [exec] in *. unfold wq_thread_fn in *. rewrite Eq in *. cbn [mbind option_bind] in *.
  destruct (worker k) as [| |v|] eqn:Ew.
  - destruct (Hloop s k I Eq Equ) as (s1 & k1 & E1 & ? & ?). exists s1, k1. split_and!; auto.
  - destruct (Hs eq_refl). congruence.
  - destruct (Hru v eq_refl) as (x & Ex & Hex & _).
    destruct (worker_finish q v s) as [s1|] eqn:E1; [|unfold worker_finish in E1; by rewrite Eq, Ex in E1].
    cbn [mbind option_bind] in *.
    assert (inv s1) as I1 by (apply inv_awake; split; [apply (worker_finish_core q v s s1 C E1); congruence|by eapply worker_finish_awake]).
    destruct (Hloop s1 (wake_worker (mk_wq (queue k) (running k) (done k) (u32 (active k - 1)) WReady)) I1) as (s2 & k2 & E2 & ? & ?); [|done|].
    { unfold worker_finish in E1. rewrite Eq, Ex in E1. cbn [mbind option_bind] in E1. injection E1 as <-.
      rewrite wakeup_set || (cbn; rewrite alter_insert_eq; apply lookup_insert_eq). }
    exists s2, k2. split_and!; auto.
  - destruct Hd as [_ Hd]. destruct (Hdr (Hd eq_refl)). congruence.
Qed.

(** Two cancellers of one work and a producer: the first canceller clears the
    flag, the work is queued again, and the second returns with the work
    pending.  The single-canceller hypothesis below is needed. *)
Example two_cancellers :
  match run boot [EvAllocWq 1; EvInitWork 7; EvQueueWork 1 7; EvWorker 1; EvCancelWorkSync 100 7; EvCancelWorkSync 101 7;
                  EvWorker 1; EvResume 100; EvQueueWork 1 7; EvResume 101] with
  | Some (s, rs) => (pending <$> works s !! 7) = Some 1 /\ last rs = Some (Returned 101 false)
  | None => False
  end.
Proof. by vm_compute. Qed.

(** ** Properties *)

(** C20: the work-queue state is consistent and works never run concurrently.
    In every reachable state a work with pending = 1 is linked on exactly one
    queue, the one its wq field names, and only such works are linked; a work
    being cancelled is not pending; a worker runs a work exactly when that
    work's executing flag is set, and no two workers run the same work; the
    active counter is 1 exactly while the worker runs something; a queue that
    is done has stopped, is empty, and its worker has left. *)
Theorem workqueue_consistent s :
  reachable s ->
  (forall w x, works s !! w = Some x ->
     (pending x = 1 -> exists k, wqs s !! wq x = Some k /\ w ∈ queue k) /\
     (canceling x = true -> pending x = 0) /\
     (executing x = true <-> exists q k, wqs s !! q = Some k /\ worker k = WRun w)) /\
  (forall q k, wqs s !! q = Some k ->
     NoDup (queue k) /\
     (forall w, w ∈ queue k -> exists x, works s !! w = Some x /\ pending x = 1 /\ wq x = q) /\
     (active k = match worker k with WRun _ => 1 | _ => 0 end) /\
     (done k = true -> worker k = WDone /\ running k = false /\ queue k = [])) /\
  (forall q1 k1 q2 k2 w, wqs s !! q1 = Some k1 -> wqs s !! q2 = Some k2 ->
     worker k1 = WRun w -> worker k2 = WRun w -> q1 = q2).
Proof.
  intros [[Cw Cq] _]%reachable_inv. split_and!.
  - intros w x Ew. destruct (Cw w x Ew) as (_ & Hc & Hp & He). split_and!; [done..|]. split.
    + intros H. destruct (He H) as (k & ? & ?). by exists (wq x), k.
    + intros (q & k & Eq & Hr). destruct (Cq q k Eq) as (_ & _ & Hru). destruct (Hru w Hr) as (y & Ey & ? & _). congruence.
  - intros q k Eq. destruct (Cq q k Eq) as ((_ & ND & Ha & Hd & Hdr & _) & Hqu & _).
    split_and!; [done..|]. intros H. split; [by apply Hd|by apply Hdr].
  - intros q1 k1 q2 k2 w E1 E2 R1 R2. destruct (Cq q1 k1 E1) as (_ & _ & H1). destruct (Cq q2 k2 E2) as (_ & _ & H2).
    destruct (H1 w R1) as (x & Ex & _ & <-), (H2 w R2) as (y & Ey & _ & <-). congruence.
Qed.

Definition demo_events : list event :=
  [EvAllocWq 1; EvAllocWq 2; EvInitWork 7; EvInitWork 8; EvInitWork 9; EvQueueWork 1 7; EvWorker 1;
   EvQueueWork 1 8; EvQueueWork 1 9; EvQueueWork 1 8; EvFlushWq 50 1; EvCancelWorkSync 51 7].

Definition demo_sys : sys := match run boot demo_events with Some (s, _) => s | None => boot end.

Lemma workqueue_consistent_witness :
  reachable demo_sys /\
  forall q1 k1 q2 k2 w, wqs demo_sys !! q1 = Some k1 -> wqs demo_sys !! q2 = Some k2 ->
     worker k1 = WRun w -> worker k2 = WRun w -> q1 = q2.
Proof.
  assert (reachable demo_sys) as R by (eexists demo_events, _; vm_compute; reflexivity).
  split; [exact R|]. exact (proj2 (proj2 (workqueue_consistent demo_sys R))).
Defined.

(** C37: no wake-up is lost.  In every reachable state, whatever the
    interleaving, a thread asleep in cancel_work_sync,
    cancel_delayed_work_sync, flush_work, flush_workqueue or
    destroy_workqueue is asleep because the condition it waits on still holds,
    and a worker asleep on its queue has nothing to do: the queue runs and is
    empty. *)
Theorem workqueue_no_lost_wakeup s :
  reachable s ->
  (forall t c, threads s !! t = Some (c, true) -> wait_cond s c = Some true) /\
  (forall q k, wqs s !! q = Some k -> worker k = WSleep -> queue k = [] /\ running k = true).
Proof.
  intros [[Cw Cq] Hs]%reachable_inv. split; [exact Hs|]. intros q k Eq.
  destruct (Cq q k Eq) as ((_ & _ & _ & _ & _ & H) & _). exact H.
Qed.

Lemma workqueue_no_lost_wakeup_witness :
  reachable demo_sys /\ threads demo_sys !! 50 = Some (CallFlushWq 1, true) /\
  wait_cond demo_sys (CallFlushWq 1) = Some true.
Proof.
  assert (reachable demo_sys) as R by (eexists demo_events, _; vm_compute; reflexivity).
  split; [exact R|]. assert (threads demo_sys !! 50 = Some (CallFlushWq 1, true)) as T by (by vm_compute).
  split; [exact T|]. exact (proj1 (workqueue_no_lost_wakeup demo_sys R) 50 (CallFlushWq 1) T).
Defined.

(** C16: a finished cancellation is effective.  When nobody starts cancelling a
    work that is already being cancelled, the step with which cancel_work_sync
    or cancel_delayed_work_sync returns (at once, or after waiting, with any
    producers, workers and late timer callbacks interleaved) leaves the work
    neither queued, nor armed, nor executing, and no longer marked as being
    cancelled. *)
Theorem cancel_sync_effective s e s' w t b :
  disciplined s -> one_canceller s e -> target s e = Some w -> exec s e = Some (s', Returned t b) ->
  exists x, works s' !! w = Some x /\ pending x = 0 /\ executing x = false /\ canceling x = false.
Proof.
  intros Hd Hone Ht E.
  destruct (exec_cancel s e s' _ (disciplined_inv s Hd) (disciplined_cancel_inv s Hd) Hone E) as [_ H]. by eapply H.
Qed.

(** A run of events none of which starts a cancellation is disciplined. *)
Definition no_cancel (e : event) : Prop :=
  match e with EvCancelWorkSync _ _ | EvCancelDelayedSync _ _ => False | _ => True end.

Lemma disciplined_run es : forall s s' rs,
  disciplined s -> run s es = Some (s', rs) -> Forall no_cancel es -> disciplined s'.
Proof.
  induction es as [|e es IH]; intros s s' rs Hd; cbn [run]; [by intros [= <- _]|].
  destruct (exec s e) as [[s1 r]|] eqn:E; [|done]. cbn [mbind option_bind].
  destruct (run s1 es) as [[s2 rs2]|] eqn:E2; [|done]. cbn [mbind option_bind]. intros [= <- _] Hn.
  inversion_clear Hn as [|? ? He Hes]. eapply IH; [|exact E2|exact Hes].
  eapply disciplined_step; [done| |exact E]. by destruct e.
Qed.

Definition after (es : list event) (s : sys) : sys := match run s es with Some (s', _) => s' | None => s end.
Definition demo_running : sys := after [EvAllocWq 1; EvInitWork 7; EvQueueWork 1 7; EvWorker 1] boot.
Definition demo_cancelling : sys := after [EvCancelWorkSync 51 7] demo_running.
Definition demo_late : sys := after [EvQueueWork 1 7; EvTimerFn 7; EvWorker 1] demo_cancelling.

Lemma demo_late_disciplined : disciplined demo_late.
Proof.
  apply (disciplined_run [EvQueueWork 1 7; EvTimerFn 7; EvWorker 1] demo_cancelling demo_late [Bool false; NoReply; NoReply]);
    [|by vm_compute|by repeat constructor].
  apply (disciplined_step demo_running (EvCancelWorkSync 51 7) demo_cancelling NoReply); [| |by vm_compute].
  - apply (disciplined_run [EvAllocWq 1; EvInitWork 7; EvQueueWork 1 7; EvWorker 1] boot demo_running
             [NoReply; NoReply; Bool true; Started 7]); [apply disciplined_boot|by vm_compute|by repeat constructor].
  - intros (t & c & a & H & _). by vm_compute in H.
Qed.

Lemma cancel_sync_effective_witness :
  disciplined demo_late /\
  exec demo_late (EvResume 51) = Some (after [EvResume 51] demo_late, Returned 51 false) /\
  exists x, works (after [EvResume 51] demo_late) !! 7 = Some x /\
    pending x = 0 /\ executing x = false /\ canceling x = false.
Proof.
  split; [exact demo_late_disciplined|].
  assert (exec demo_late (EvResume 51) = Some (after [EvResume 51] demo_late, Returned 51 false)) as E by by vm_compute.
  split; [exact E|].
  exact (cancel_sync_effective demo_late (EvResume 51) _ 7 51 false demo_late_disciplined I eq_refl E).
Defined.

(** queued work is run, in order.  From every reachable state, scheduling
    the worker of a queue as many times as works are linked on it starts
    exactly those works, first queued first, and leaves the queue empty;
    nothing can block the worker. *)
Theorem worker_drains_fifo s q k :
  reachable s -> wqs s !! q = Some k ->
  exists s' k', run s (replicate (length (queue k)) (EvWorker q)) = Some (s', map Started (queue k)) /\
    wqs s' !! q = Some k' /\ queue k' = [].
Proof.
  intros Hr%reachable_inv. remember (queue k) as l eqn:El. revert s k Hr El.
  induction l as [|w l IH]; intros s k I El Eq; cbn [length replicate run map].
  - by exists s, k.
  - destruct (worker_next s q k w l I Eq (eq_sym El)) as (s1 & k1 & E1 & I1 & Eq1 & Hk1). rewrite E1.
    cbn [mbind option_bind]. destruct (IH s1 k1 I1 (eq_sym Hk1) Eq1) as (s' & k' & E & Eq' & Hk'). rewrite E.
    cbn [mbind option_bind]. by exists s', k'.
Qed.

Lemma worker_drains_fifo_witness :
  exists k s' k', wqs demo_sys !! 1 = Some k /\ queue k = [8; 9] /\
    run demo_sys (replicate (length (queue k)) (EvWorker 1)) = Some (s', map Started (queue k)) /\
    wqs s' !! 1 = Some k' /\ queue k' = [].
Proof.
  assert (reachable demo_sys) as R by (eexists demo_events, _; vm_compute; reflexivity).
  assert (wqs demo_sys !! 1 = Some (mk_wq [8; 9] true false 1 (WRun 7))) as E by (by vm_compute).
  destruct (worker_drains_fifo demo_sys 1 _ R E) as (s' & k' & H). exists (mk_wq [8; 9] true false 1 (WRun 7)), s', k'.
  exact (conj E (conj eq_refl H)).
Defined.

(** destroy_workqueue frees the queue only when nothing refers to it.  When
    it returns from any reachable state, its worker has terminated with the
    queue empty, the queue is gone, and no work is linked on it or executing
    on it; flush_workqueue returns only when the queue is empty and idle. *)
Theorem destroy_workqueue_safe s t q s' b :
  reachable s ->
  (threads s !! t = Some (CallDestroy q, false) -> exec s (EvResume t) = Some (s', Returned t b) ->
   (exists k, wqs s !! q = Some k /\ worker k = WDone /\ queue k = []) /\ wqs s' !! q = None /\
   forall w x, works s' !! w = Some x -> wq x = q -> pending x <> 1 /\ executing x = false) /\
  (threads s !! t = Some (CallFlushWq q, false) -> exec s (EvResume t) = Some (s', Returned t b) ->
   exists k, wqs s' !! q = Some k /\ queue k = [] /\ active k = 0).
Proof.
  intros Hr%reachable_inv. pose proof Hr as [C _]. split; intros Et; cbn [exec]; unfold resume; rewrite Et;
    cbn [mbind option_bind]; unfold wait_loop; cbn [wait_cond];
    (destruct (wqs s !! q) as [k|] eqn:Eq; [|done]); cbn [mbind option_bind].
  - destruct (done k) eqn:Hdn; [|done]. intros [= <- <-]. cbn.
    destruct (core_wq s q k C Eq) as ((_ & _ & _ & Hd & Hdr & _) & Hqu & _).
    destruct (Hdr Hdn) as [_ Hnil]. assert (worker k = WDone) as Hwd by by apply Hd.
    split; [by exists k|]. split; [apply lookup_delete_eq|]. intros w x Ew Hwq.
    destruct (core_work s w x C Ew) as (_ & _ & Hp & He). rewrite Hwq, Eq in *. split.
    + intros H. destruct (Hp H) as (k0 & [= <-] & Hin). rewrite Hnil in Hin. by apply not_elem_of_nil in Hin.
    + destruct (executing x); [|done]. destruct (He eq_refl) as (k0 & [= <-] & Hrun). congruence.
  - destruct (_ || _) eqn:E; [done|]. intros [= <- <-]. apply orb_false_elim in E as [E1 E2]. exists k. split; [done|].
    split; [by apply negb_false_iff, bool_decide_eq_true in E1|by apply negb_false_iff, Z.eqb_eq in E2].
Qed.

Definition demo_destroy : sys :=
  match run boot [EvAllocWq 1; EvInitWork 7; EvQueueWork 1 7; EvDestroy 50 1; EvWorker 1; EvWorker 1] with
  | Some (s, _) => s | None => boot end.

Lemma destroy_workqueue_safe_witness :
  exists s', exec demo_destroy (EvResume 50) = Some (s', Returned 50 false) /\ wqs s' !! 1 = None /\
  forall w x, works s' !! w = Some x -> wq x = 1 -> pending x <> 1 /\ executing x = false.
Proof.
  assert (reachable demo_destroy) as R.
  { exists [EvAllocWq 1; EvInitWork 7; EvQueueWork 1 7; EvDestroy 50 1; EvWorker 1; EvWorker 1]. eexists. vm_compute. reflexivity. }
  exists (after [EvResume 50] demo_destroy). split; [vm_compute; reflexivity|].
  refine (proj2 (proj1 (destroy_workqueue_safe demo_destroy 50 1 _ false R) _ _)); vm_compute; reflexivity.
Defined.
