(* ===== verification/ThreadCall.v ===== *)
(** * Cancellable thread calls: [src/src/compat/rtw88_thread_call.c]

    One handle, its Mach thread call and any number of threads using it.  The
    atomic steps are the critical sections under [c->lock] and the two Mach
    events outside it: the native call leaves the queue ([Fire]) and the
    callback function ends ([DispatchExit]).  Of Mach the model uses only that
    [thread_call_cancel] removes a call that is still queued and says whether
    it did, and that a queued call is dequeued at most once. *)

From S2P Require Import Prelude.

Record rtw88_call := mk_call {
  pending : bool;
  canceling : bool;
  running : Z;
  (* Mach: queued; dequeued but the trampoline has not entered; callbacks inside *)
  native : bool;
  dequeued : nat;
  inside : nat;
  (* threads in cancel_wait: the local [canceled], and asleep or not *)
  waiters : gmap Z (bool * bool)
}.

Definition allocate : rtw88_call := mk_call false false 0 false 0 0 ∅.

Definition with_flags (c : rtw88_call) (p cn : bool) (nat_ : bool) : rtw88_call :=
  mk_call p cn (running c) nat_ (dequeued c) (inside c) (waiters c).

(** [IOLockWakeup(c->lock, c, false)] *)
Definition wake (c : rtw88_call) : rtw88_call :=
  mk_call (pending c) (canceling c) (running c) (native c) (dequeued c) (inside c)
          ((fun w => (fst w, false)) <$> waiters c).

Definition set_waiter (t : Z) (w : bool * bool) (c : rtw88_call) : rtw88_call :=
  mk_call (pending c) (canceling c) (running c) (native c) (dequeued c) (inside c) (<[t := w]> (waiters c)).
Definition drop_waiter (t : Z) (c : rtw88_call) : rtw88_call :=
  mk_call (pending c) (canceling c) (running c) (native c) (dequeued c) (inside c) (delete t (waiters c)).

(** ** Mach *)

(** [thread_call_cancel]: the call is off the queue; was it on? *)
Definition thread_call_cancel (c : rtw88_call) : bool * rtw88_call :=
  (native c, with_flags c (pending c) (canceling c) false).

(** The queued call is dequeued for its thread. *)
Definition fire (c : rtw88_call) : option rtw88_call :=
  if native c
  then Some (mk_call (pending c) (canceling c) (running c) false (S (dequeued c)) (inside c) (waiters c))
  else None.

(** ** The shim *)

(** First section of [rtw88_call_dispatch]: does the function run?  A kernel
    has fewer than 2^32 threads. *)
Definition dispatch_enter (c : rtw88_call) : option (bool * rtw88_call) :=
  match dequeued c with
  | O => None
  | S n =>
      if Z.of_nat (inside c) + 1 <? 2 ^ 32
      then Some (negb (canceling c),
                 mk_call false (canceling c) (u32 (running c + 1)) (native c) n (S (inside c)) (waiters c))
      else None
  end.

(** Second section, after the function. *)
Definition dispatch_exit (c : rtw88_call) : option rtw88_call :=
  match inside c with
  | O => None
  | S n => Some (wake (mk_call (pending c) (canceling c) (u32 (running c - 1)) (native c) (dequeued c) n (waiters c)))
  end.

Definition rtw88_call_submit (delayed : bool) (c : rtw88_call) : bool * rtw88_call :=
  let already := pending c || canceling c in
  let submit := negb (canceling c) && negb (pending c) in
  let '(submit, c) :=
    if negb (canceling c) && pending c && delayed then thread_call_cancel c else (submit, c) in
  if submit then (already, with_flags c true (canceling c) true) else (already, c).

Definition rtw88_thread_call_enter := rtw88_call_submit false.
Definition rtw88_thread_call_enter_delayed := rtw88_call_submit true.

Definition rtw88_thread_call_cancel (c : rtw88_call) : bool * rtw88_call :=
  let '(canceled, c) := thread_call_cancel c in
  let c := if canceled then with_flags c false (canceling c) (native c) else c in
  (canceled, wake c).

(** The [while] of [rtw88_thread_call_cancel_wait], and what follows it. *)
Definition wait_loop (t : Z) (canceled : bool) (c : rtw88_call) : option bool * rtw88_call :=
  if pending c || negb (running c =? 0) then (None, set_waiter t (canceled, true) c)
  else (Some canceled, drop_waiter t (with_flags c (pending c) false (native c))).

Definition rtw88_thread_call_cancel_wait (t : Z) (c : rtw88_call) : option bool * rtw88_call :=
  let c := with_flags c (pending c) true (native c) in
  let '(canceled, c) := thread_call_cancel c in
  let c := if canceled then with_flags c false (canceling c) (native c) else c in
  wait_loop t canceled c.

Definition resume (t : Z) (c : rtw88_call) : option (option bool * rtw88_call) :=
  w ← waiters c !! t;
  let '(canceled, asleep) := (w : bool * bool) in
  if (asleep : bool) then None else Some (wait_loop t canceled c).

(** [rtw88_thread_call_free] past its cancel_wait.  Mach does not free a call
    that is queued; [None]: the handle is released under a callback or a
    sleeper, which then use it. *)
Definition rtw88_thread_call_free_end (c : rtw88_call) : option bool :=
  if native c then Some false
  else if bool_decide (dequeued c = O) && bool_decide (inside c = O) && bool_decide (waiters c = ∅) then Some true
  else None.

(** ** Histories *)

Inductive event :=
  | Enter (delayed : bool) | Fire | DispatchEnter | DispatchExit
  | Cancel | CancelWait (t : Z) | Resume (t : Z).

Inductive reply := Silent | Ret (b : bool) | Runs (b : bool) | Waits | Returned (b : bool).

Definition wait_reply (r : option bool * rtw88_call) : rtw88_call * reply :=
  (snd r, match fst r with Some b => Returned b | None => Waits end).

Definition exec (c : rtw88_call) (e : event) : option (rtw88_call * reply) :=
  match e with
  | Enter d => Some (snd (rtw88_call_submit d c), Ret (fst (rtw88_call_submit d c)))
  | Fire => c ← fire c; Some (c, Silent)
  | DispatchEnter => '(b, c) ← dispatch_enter c; Some (c, Runs b)
  | DispatchExit => c ← dispatch_exit c; Some (c, Silent)
  | Cancel => Some (snd (rtw88_thread_call_cancel c), Ret (fst (rtw88_thread_call_cancel c)))
  | CancelWait t =>
      if bool_decide (waiters c !! t = None) then Some (wait_reply (rtw88_thread_call_cancel_wait t c)) else None
  | Resume t => r ← resume t c; Some (wait_reply r)
  end.

Fixpoint run (c : rtw88_call) (es : list event) : option (rtw88_call * list reply) :=
  match es with
  | [] => Some (c, [])
  | e :: es => '(c, r) ← exec c e; '(c, rs) ← run c es; Some (c, r :: rs)
  end.

Definition reachable (c : rtw88_call) : Prop := exists es rs, run allocate es = Some (c, rs).

(** ** The invariant *)

(** Native submissions not yet seen by the trampoline. *)
Definition outstanding (c : rtw88_call) : nat := (if native c then 1 else 0) + dequeued c.

Definition inv (c : rtw88_call) : Prop :=
  outstanding c = (if pending c then 1%nat else 0%nat) /\
  running c = Z.of_nat (inside c) /\ Z.of_nat (inside c) < 2 ^ 32.

Lemma inv_wake c : inv (wake c) <-> inv c.
Proof. done. Qed.

Lemma cancel_native_inv p cn c :
  inv c -> p = pending c \/ p = (pending c && negb (native c)) ->
  (native c = true -> p = false) -> inv (with_flags c p cn false).
Proof.
  unfold inv, outstanding. cbn. intros (H1 & H2 & H3) Hp Hn. split_and!; [|done..].
  destruct (native c), (pending c), p; naive_solver lia.
Qed.

Lemma call_wait_loop_inv t b c : inv c -> inv (snd (wait_loop t b c)).
Proof. unfold wait_loop. by destruct (_ || _). Qed.

Lemma cancel_wait_mid c cn :
  inv c ->
  inv (let '(canceled, c1) := thread_call_cancel (with_flags c (pending c) cn (native c)) in
       if canceled then with_flags c1 false (canceling c1) (native c1) else c1).
Proof.
  intros I. cbn. destruct (native c) eqn:En.
  - apply (cancel_native_inv false cn c); [done| |done]. right. by rewrite En, andb_false_r.
  - apply (cancel_native_inv (pending c) cn c); [done|by left|congruence].
Qed.

Lemma call_exec_inv c e c' r : inv c -> exec c e = Some (c', r) -> inv c'.
Proof.
  intros I. destruct e; cbn [exec].
  - intros [= <- _]. unfold rtw88_call_submit, inv, outstanding in *.
    destruct (canceling c) eqn:Ec, (pending c) eqn:Ep, (native c) eqn:En, delayed; cbn; rewrite ?Ec, ?Ep, ?En; cbn;
      rewrite ?Ep, ?En; cbn in *; intuition lia.
  - unfold fire. destruct (native c) eqn:En; [|done]. cbn. intros [= <- _].
    unfold inv, outstanding in *. rewrite En in I. cbn. destruct (pending c); intuition lia.
  - unfold dispatch_enter. destruct (dequeued c) as [|n] eqn:Ed; [done|].
    destruct (Z.ltb_spec (Z.of_nat (inside c) + 1) (2 ^ 32)) as [Hlt|]; [|done]. cbn [mbind option_bind].
    intros [= <- _]. unfold inv, outstanding in *. rewrite Ed in I. cbn. destruct I as (H1 & H2 & H3).
    rewrite H2, wrap_small by (unfold in_range; lia). destruct (pending c), (native c); lia.
  - unfold dispatch_exit. destruct (inside c) as [|n] eqn:Ed; [done|]. cbn [mbind option_bind]. intros [= <- _].
    unfold inv, outstanding in *. cbn. rewrite Ed in I. destruct I as (H1 & H2 & H3).
    rewrite H2, wrap_small by (unfold in_range; lia). split_and!; [done|lia|lia].
  - intros [= <- _]. unfold rtw88_thread_call_cancel. pose proof (cancel_wait_mid c (canceling c) I) as H1. cbn in H1 |- *.
    destruct (native c); exact H1.
  - case_bool_decide; [|done]. intros [= <- _]. cbn [wait_reply snd]. unfold rtw88_thread_call_cancel_wait.
    pose proof (cancel_wait_mid c true I) as H1. destruct (thread_call_cancel _) as [b c1]. by apply call_wait_loop_inv.
  - unfold resume. destruct (waiters c !! t) as [[b a]|]; [|done]. cbn [mbind option_bind]. destruct a; [done|].
    cbn [mbind option_bind]. intros [= <- _]. by apply call_wait_loop_inv.
Qed.

Lemma call_run_inv es : forall c c' rs, inv c -> run c es = Some (c', rs) -> inv c'.
Proof.
  induction es as [|e es IH]; intros c c' rs I; cbn [run]; [by intros [= <- _]|].
  destruct (exec c e) as [[c1 r]|] eqn:E; [|done]. cbn [mbind option_bind].
  destruct (run c1 es) as [[c2 rs2]|] eqn:E2; [|done]. cbn [mbind option_bind]. intros [= <- _].
  eapply IH; [|exact E2]. by eapply call_exec_inv.
Qed.

Lemma call_reachable_inv c : reachable c -> inv c.
Proof. intros (es & rs & E). eapply call_run_inv; [|exact E]. done. Qed.

(** ** Wake-ups, with one canceller at a time *)

Definition one_canceller (c : rtw88_call) (e : event) : Prop :=
  match e with CancelWait _ => waiters c = ∅ | _ => True end.

Inductive disciplined : rtw88_call -> Prop :=
  | disciplined_new : disciplined allocate
  | disciplined_step c e c' r :
      disciplined c -> one_canceller c e -> exec c e = Some (c', r) -> disciplined c'.

(** While a thread is in cancel_wait it is alone there, the canceling flag is
    set and nothing is queued natively; if it sleeps it has a reason. *)
Definition waiting_ok (c : rtw88_call) : Prop :=
  waiters c = ∅ \/
  exists t b a, waiters c = {[t := (b, a)]} /\ canceling c = true /\ native c = false /\
    (a = true -> pending c || negb (running c =? 0) = true).

Lemma wait_loop_ok t b a c :
  inv c -> canceling c = true -> native c = false -> waiters c = ∅ \/ waiters c = {[t := (b, a)]} ->
  waiting_ok (snd (wait_loop t b c)).
Proof.
  intros I Hc Hn Hw. unfold wait_loop. destruct (pending c || _) eqn:E; cbn [snd].
  - right. exists t, b, true. cbn. split_and!; [|done..]. destruct Hw as [-> | ->]; [done|].
    apply insert_singleton_eq.
  - left. cbn. destruct Hw as [-> | ->]; [apply delete_empty|]. apply delete_singleton_eq.
Qed.

Lemma cancel_wait_clears c : inv c -> exists c1, 
  (let '(canceled, c1) := thread_call_cancel (with_flags c (pending c) true (native c)) in
   if canceled then with_flags c1 false (canceling c1) (native c1) else c1) = c1 /\
  canceling c1 = true /\ native c1 = false /\ waiters c1 = waiters c.
Proof. intros _. cbn. destruct (native c); eexists; done. Qed.

Lemma exec_waiting c e c' r :
  inv c -> waiting_ok c -> one_canceller c e -> exec c e = Some (c', r) -> waiting_ok c'.
Proof.
  intros I W Hone E. pose proof (call_exec_inv c e c' r I E) as I'. destruct e; cbn [exec] in E.
  - injection E as <- _. unfold rtw88_call_submit, thread_call_cancel. destruct W as [W|(t & b & a & W & Hc & Hn & Ha)].
    + left. by destruct (canceling c), (pending c), (native c), delayed.
    + right. exists t, b, a. by rewrite Hc.
  - unfold fire in E. destruct (native c) eqn:En; [|done]. injection E as <- _.
    destruct W as [W|(t & b & a & W & Hc & Hn & Ha)]; [by left|congruence].
  - unfold dispatch_enter in E. destruct (dequeued c) as [|n] eqn:Ed; [done|].
    destruct (_ <? _) eqn:Hlt; [|done]. injection E as <- _.
    destruct W as [W|(t & b & a & W & Hc & Hn & Ha)]; [by left|right].
    exists t, b, a. cbn. split_and!; [done..|]. intros _. destruct I' as (_ & Hr & _). cbn in Hr. by rewrite Hr.
  - unfold dispatch_exit in E. destruct (inside c) as [|n] eqn:Ed; [done|]. injection E as <- _.
    destruct W as [W|(t & b & a & W & Hc & Hn & Ha)]; cbn.
    + left. cbn. by rewrite W, fmap_empty.
    + right. exists t, b, false. cbn. by rewrite W, map_fmap_singleton.
  - injection E as <- _. unfold rtw88_thread_call_cancel. cbn. destruct W as [W|(t & b & a & W & Hc & Hn & Ha)].
    + left. destruct (native c); cbn; by rewrite W, fmap_empty.
    + right. exists t, b, false. rewrite Hn. cbn. by rewrite W, map_fmap_singleton.
  - cbn [one_canceller] in Hone. case_bool_decide; [|done]. injection E as <- _.
    destruct (cancel_wait_clears c I) as (c1 & E1 & Hc1 & Hn1 & Hw1).
    unfold rtw88_thread_call_cancel_wait. pose proof (cancel_wait_mid c true I) as I1.
    destruct (thread_call_cancel _) as [b c2]. rewrite E1 in *.
    eapply (wait_loop_ok t b true); [done|done|done|left; congruence].
  - unfold resume in E. destruct (waiters c !! t) as [[b a]|] eqn:Et; [|done]. cbn [mbind option_bind] in E.
    destruct a; [done|]. injection E as <- _. destruct W as [W|(t' & b' & a' & W & Hc & Hn & Ha)].
    + rewrite W in Et. by rewrite lookup_empty in Et.
    + rewrite W in Et. apply lookup_singleton_Some in Et as [-> [= -> ->]].
      eapply (wait_loop_ok t b false); [done|done|done|by right].
Qed.

Lemma disciplined_ok c : disciplined c -> inv c /\ waiting_ok c.
Proof.
  induction 1 as [|c e c' r Hd [I W] Hone E]; [split; [done|by left]|].
  split; [by eapply call_exec_inv|by eapply exec_waiting].
Qed.

(** ** Properties *)

(** The pending flag tells the truth.  In every reachable state the handle
    is pending exactly when one native submission is outstanding (still queued,
    or dequeued by Mach with the trampoline not yet entered), never more than
    one, and running counts the callbacks inside the trampoline. *)
Theorem thread_call_accounting c :
  reachable c ->
  ((if native c then 1 else 0) + dequeued c = if pending c then 1 else 0)%nat /\
  running c = Z.of_nat (inside c).
Proof. intros (H & Hr & _)%call_reachable_inv. done. Qed.

Definition demo_events : list event := [Enter false; Fire; Enter true; DispatchEnter; Enter true; Enter true; CancelWait 1; DispatchExit].
Definition demo_call : rtw88_call := match run allocate demo_events with Some (c, _) => c | None => allocate end.

Lemma thread_call_accounting_witness :
  reachable demo_call /\ ((if native demo_call then 1 else 0) + dequeued demo_call = if pending demo_call then 1 else 0)%nat /\
  running demo_call = Z.of_nat (inside demo_call).
Proof.
  assert (reachable demo_call) as R by (eexists demo_events, _; vm_compute; reflexivity).
  split; [exact R|]. exact (thread_call_accounting demo_call R).
Defined.

(** Nothing queued, about to enter or running. *)
Definition quiescent (c : rtw88_call) : Prop :=
  native c = false /\ dequeued c = O /\ inside c = O /\ running c = 0 /\ pending c = false.

Lemma returned_quiescent c e c' b : inv c -> exec c e = Some (c', Returned b) -> quiescent c'.
Proof.
  intros I E. pose proof (call_exec_inv c e c' _ I E) as (H1 & H2 & _).
  assert (pending c' = false /\ running c' = 0) as [Hp Hr].
  { destruct e; cbn [exec] in E; try (injection E as <- E; done).
    - by destruct (fire c).
    - by destruct (dispatch_enter c) as [[? ?]|].
    - by destruct (dispatch_exit c).
    - case_bool_decide; [|done]. injection E as <- E. unfold rtw88_thread_call_cancel_wait in *.
      destruct (thread_call_cancel _) as [cd c1]. revert E. unfold wait_loop.
      destruct (_ || _) eqn:Ec; [done|]. intros _. apply orb_false_elim in Ec as [? Hz].
      by apply negb_false_iff, Z.eqb_eq in Hz.
    - unfold resume in E. destruct (waiters c !! t) as [[cd a]|]; [|done]. cbn [mbind option_bind] in E.
      destruct a; [done|]. injection E as <- E. revert E. unfold wait_loop.
      destruct (_ || _) eqn:Ec; [done|]. intros _. apply orb_false_elim in Ec as [? Hz].
      by apply negb_false_iff, Z.eqb_eq in Hz. }
  unfold outstanding in H1. rewrite Hp in H1. unfold quiescent. destruct (native c'); [lia|]. split_and!; try done; lia.
Qed.

(** C38: synchronous cancellation.  When rtw88_thread_call_cancel_wait returns,
    from any reachable state and with any number of other cancellers, nothing
    is queued, nothing is dequeued and about to enter, and no callback is
    running; and a callback that enters while a cancellation is in progress
    does not call the function. *)
Theorem cancel_wait_quiescent c e c' b :
  reachable c -> exec c e = Some (c', Returned b) ->
  native c' = false /\ dequeued c' = O /\ inside c' = O /\ running c' = 0 /\ pending c' = false.
Proof.
  intros I%call_reachable_inv E. by apply (returned_quiescent c e c' b).
Qed.

Definition after (es : list event) (c : rtw88_call) : rtw88_call := match run c es with Some (c', _) => c' | None => c end.

Lemma cancel_wait_quiescent_witness :
  let c' := after [Resume 1] demo_call in
  reachable demo_call /\ exec demo_call (Resume 1) = Some (c', Returned true) /\
  native c' = false /\ dequeued c' = O /\ inside c' = O /\ running c' = 0 /\ pending c' = false.
Proof.
  assert (reachable demo_call) as R by (eexists demo_events, _; vm_compute; reflexivity).
  assert (exec demo_call (Resume 1) = Some (after [Resume 1] demo_call, Returned true)) as E by by vm_compute.
  exact (conj R (conj E (cancel_wait_quiescent demo_call (Resume 1) _ true R E))).
Defined.

(** with one canceller at a time no wake-up is lost.  In every state
    reached by a history in which rtw88_thread_call_cancel_wait is not called
    while another call to it is waiting, a thread asleep in it still has
    something to wait for. *)
Theorem cancel_wait_no_lost_wakeup c t b :
  disciplined c -> waiters c !! t = Some (b, true) -> pending c = true \/ running c <> 0.
Proof.
  intros [_ [W|(t' & b' & a & W & _ & _ & Ha)]]%disciplined_ok; rewrite W.
  - by rewrite lookup_empty.
  - intros [-> [= -> ->]]%lookup_singleton_Some. specialize (Ha eq_refl).
    apply orb_true_iff in Ha as [?|H]; [by left|right]. by apply negb_true_iff, Z.eqb_neq in H.
Qed.

Definition demo_wait : rtw88_call := after [CancelWait 1] (after [Enter false; Fire] allocate).

Lemma cancel_wait_no_lost_wakeup_witness :
  waiters demo_wait !! 1 = Some (false, true) /\ (pending demo_wait = true \/ running demo_wait <> 0).
Proof.
  assert (waiters demo_wait !! 1 = Some (false, true)) as W by by vm_compute.
  split; [exact W|]. refine (cancel_wait_no_lost_wakeup demo_wait 1 false _ W).
  set (c1 := after [Enter false] allocate). set (c2 := after [Fire] c1).
  apply (disciplined_step c2 (CancelWait 1) demo_wait Waits); [|reflexivity|vm_compute; reflexivity].
  apply (disciplined_step c1 Fire c2 Silent); [|exact I|vm_compute; reflexivity].
  apply (disciplined_step allocate (Enter false) c1 (Ret false)); [apply disciplined_new|exact I|vm_compute; reflexivity].
Defined.

Definition demo_three : list event :=
  [Enter false; Fire; DispatchEnter; CancelWait 1; CancelWait 2; DispatchExit; Resume 2; Enter false; Resume 1; CancelWait 3].

(** Concurrent cancellers can sleep forever.  cancel_wait clears pending
    without waking the other sleepers: there is a history with three
    cancellers after which one of them is asleep although nothing is pending,
    queued, dequeued or running, so that no step of the call itself will ever
    wake it. *)
Theorem cancel_wait_can_sleep_forever :
  exists c, reachable c /\ waiters c !! 1 = Some (false, true) /\
    pending c = false /\ running c = 0 /\ native c = false /\ dequeued c = O /\ inside c = O.
Proof.
  exists (after demo_three allocate). split; [|by vm_compute].
  eexists demo_three, _. vm_compute. reflexivity.
Qed.
