(* ===== verification/Timer.v ===== *)
(** * Timers of the compatibility layer

    [mod_timer], [del_timer], [del_timer_sync] and [timer_call_fn] of
    [src/src/compat/rtw88_compat.c], on the thread calls of [ThreadCall]: the
    header iokit_shim.h redirects [thread_call_*] to that shim.  A callback
    that the shim runs first tests [active]; the test with the store it guards,
    the end of the timer's function and the callback's exit are steps of their
    own, and so is each stretch of [del_timer_sync] between its waits, so that
    other threads come in between.  [mod_timer] and [del_timer] are single
    steps.  As in Linux, and as the shim's header asks, producers stop before
    a timer is deleted synchronously: while [del_timer_sync] is under way only
    the timer's own function may arm it ([calm]). *)

From S2P Require Import Prelude ThreadCall.

(** Where the thread in [del_timer_sync] stands: nowhere, asleep or woken in
    cancel_wait, past it, in the cancel_wait of [thread_call_free], past it. *)
Inductive deleting := NotDeleting | InCancelWait | BeforeFree | InFree | BeforeRelease.

(** [struct timer_list]; [has_function] is whether [function] is set.  Of the
    callbacks inside the shim, [testing] are about to test [active],
    [in_function] are in the timer's function, [leaving] are done; [runs]
    counts the calls of the function. *)
Record timer := mk_timer {
  expires : Z; has_function : bool; call : option rtw88_call; active : bool;
  testing : nat; in_function : nat; leaving : nat; del_pc : deleting; runs : Z }.
#[export] Instance eta_timer : Eta timer := fun t =>
  mk_timer (expires t) (has_function t) (call t) (active t) (testing t) (in_function t) (leaving t) (del_pc t) (runs t).

Definition timer_setup (func : bool) : timer := mk_timer 0 func None false 0 0 0 NotDeleting 0.
Definition timer_pending (t : timer) : bool := active t.

(** [alloc]: whether thread_call_allocate succeeds.  The result, and the
    milliseconds the call is delayed by. *)
Definition mod_timer (alloc : bool) (jiffies e : Z) (t : timer) : bool * timer * option Z :=
  let was_active := active t in
  let t := match call t with
           | None => if alloc then t <| call := Some allocate |> else t
           | Some _ => t end in
  match call t with
  | None => (was_active, t, None)
  | Some c =>
      let delay_ms := signed 64 (u64 (e - jiffies)) in
      let delay_ms := if delay_ms <=? 0 then 1 else delay_ms in
      (was_active, t <| expires := e |> <| active := true |> <| call := Some (snd (rtw88_thread_call_enter_delayed c)) |>, Some (u32 delay_ms))
  end.

Definition del_timer (t : timer) : bool * timer :=
  let was_active := active t in
  let t := match call t with Some c => t <| call := Some (snd (rtw88_thread_call_cancel c)) |> | None => t end in
  (was_active, t <| active := false |>).

(** The thread that deletes, among the waiters of the call. *)
Definition deleter : Z := 1.
(** Asleep in a cancel_wait, or past it. *)
Definition del_wait (asleep past : deleting) (r : option bool * rtw88_call) (t : timer) : timer :=
  t <| call := Some (snd r) |> <| del_pc := match fst r with None => asleep | Some _ => past end |>.

(** [del_timer_sync] up to the first wait, *)
Definition del_timer_sync (t : timer) : timer :=
  let t := t <| active := false |> in
  match call t with
  | Some c => del_wait InCancelWait BeforeFree (rtw88_thread_call_cancel_wait deleter c) t
  | None => t
  end.
(** and one more stretch of it; the inner [None] is a fault. *)
Definition del_timer_sync_step (t : timer) : option (option timer) :=
  match call t, del_pc t with
  | Some c, InCancelWait => r ← resume deleter c; Some (Some (del_wait InCancelWait BeforeFree r t))
  | Some c, BeforeFree => Some (Some (del_wait InFree BeforeRelease (rtw88_thread_call_cancel_wait deleter c) t))
  | Some c, InFree => r ← resume deleter c; Some (Some (del_wait InFree BeforeRelease r t))
  | Some c, BeforeRelease =>
      Some (match rtw88_thread_call_free_end c with Some _ => Some (t <| call := None |> <| del_pc := NotDeleting |>) | None => None end)
  | _, _ => None
  end.

(** The shim lets a callback in; a cancelled one does not call [timer_call_fn]. *)
Definition timer_dispatch (t : timer) : option timer :=
  c ← call t; '(b, c) ← dispatch_enter c;
  let t := t <| call := Some c |> in
  Some (if (b : bool) then t <| testing := S (testing t) |> else t <| leaving := S (leaving t) |>).
(** [timer_call_fn] up to the call of the function. *)
Definition timer_call_fn (t : timer) : option timer :=
  match testing t with
  | O => None
  | S n =>
      let t := t <| testing := n |> in
      Some (if active t && has_function t then t <| active := false |> <| in_function := S (in_function t) |> <| runs := runs t + 1 |>
            else t <| active := false |> <| leaving := S (leaving t) |>)
  end.
Definition timer_return (t : timer) : option timer :=
  match in_function t with O => None | S n => Some (t <| in_function := n |> <| leaving := S (leaving t) |>) end.
Definition timer_exit (t : timer) : option timer :=
  match leaving t with
  | O => None
  | S n => c ← call t; c ← dispatch_exit c; Some (t <| call := Some c |> <| leaving := n |>)
  end.

(** [EvModSelf]: the timer's function arms it. *)
Inductive event :=
| EvMod (alloc : bool) (jiffies expires : Z) | EvModSelf (alloc : bool) (jiffies expires : Z)
| EvDel | EvDelSync | EvDelStep | EvFire | EvDispatch | EvTest | EvReturn | EvExit.

(** The outer [None]: the event cannot happen now; the inner one: a fault. *)
Definition exec (e : event) (t : timer) : option (option timer) :=
  let ok := option_map Some in
  match e with
  | EvMod a j x => Some (Some (snd (fst (mod_timer a j x t))))
  | EvModSelf a j x => match in_function t with O => None | S _ => Some (Some (snd (fst (mod_timer a j x t)))) end
  | EvDel => Some (Some (snd (del_timer t)))
  | EvDelSync => match del_pc t with NotDeleting => Some (Some (del_timer_sync t)) | _ => None end
  | EvDelStep => del_timer_sync_step t
  | EvFire => ok (c ← call t; c ← fire c; Some (t <| call := Some c |>))
  | EvDispatch => ok (timer_dispatch t)
  | EvTest => ok (timer_call_fn t)
  | EvReturn => ok (timer_return t)
  | EvExit => ok (timer_exit t)
  end.

(** Nobody but the timer's function arms it while it is being deleted. *)
Definition calm (e : event) (t : timer) : Prop :=
  match e with EvMod _ _ _ => del_pc t = NotDeleting | _ => True end.
Inductive reachable (f : bool) : timer -> Prop :=
| reach_start : reachable f (timer_setup f)
| reach_step t e t' : reachable f t -> calm e t -> exec e t = Some (Some t') -> reachable f t'.

(** ** The invariant *)

(** The handle while nobody cancels it; while the deleter is in cancel_wait;
    and past it. *)
Definition call_idle (c : rtw88_call) : Prop := waiters c = ∅ /\ canceling c = false.
Definition call_waits (c : rtw88_call) : Prop :=
  canceling c = true /\ native c = false /\
  exists b a, waiters c = {[deleter := (b, a)]} /\ (a = true -> pending c = true \/ running c <> 0).
Definition call_over (c : rtw88_call) : Prop := call_idle c /\ quiescent c.

Definition timer_ok (t : timer) : Prop :=
  match call t with
  | None => testing t = O /\ in_function t = O /\ leaving t = O /\ del_pc t = NotDeleting
  | Some c =>
      inv c /\ inside c = (testing t + in_function t + leaving t)%nat /\
      match del_pc t with
      | NotDeleting => call_idle c /\ (active t = true -> pending c = true \/ (0 < testing t)%nat)
      | InCancelWait | InFree => call_waits c
      | BeforeFree | BeforeRelease => call_over c
      end
  end.

#[local] Arguments rtw88_thread_call_cancel _ : simpl never.
#[local] Arguments rtw88_call_submit _ _ : simpl never.

Lemma submit_inv d c : inv c -> inv (snd (rtw88_call_submit d c)).
Proof. intros I. by apply (call_exec_inv c (Enter d) _ (Ret (fst (rtw88_call_submit d c)))). Qed.
Lemma call_cancel_inv c : inv c -> inv (snd (rtw88_thread_call_cancel c)).
Proof. intros I. by apply (call_exec_inv c Cancel _ (Ret (fst (rtw88_thread_call_cancel c)))). Qed.

Lemma submit_inside d c : inside (snd (rtw88_call_submit d c)) = inside c /\ waiters (snd (rtw88_call_submit d c)) = waiters c.
Proof. unfold rtw88_call_submit, thread_call_cancel. destruct (canceling c), (pending c), d, (native c); by split. Qed.
(** A call nobody cancels takes the submission; one that is being cancelled
    refuses it. *)
Lemma submit_idle c : inv c -> call_idle c -> call_idle (snd (rtw88_call_submit true c)) /\ pending (snd (rtw88_call_submit true c)) = true.
Proof.
  intros _ [H1 H2]. unfold rtw88_call_submit, thread_call_cancel, call_idle. rewrite H2. destruct (pending c) eqn:Ep, (native c); cbn; rewrite ?Ep; by split_and!.
Qed.
Lemma submit_waits c : call_waits c -> snd (rtw88_call_submit true c) = c.
Proof. intros (H1 & H2 & _). unfold rtw88_call_submit, thread_call_cancel. by rewrite H1. Qed.

Lemma cancel_idle c : call_idle c -> call_idle (snd (rtw88_thread_call_cancel c)).
Proof. intros [H1 H2]. unfold rtw88_thread_call_cancel, thread_call_cancel, call_idle. cbn. rewrite <- H2. destruct (native c); cbn; by rewrite H1, fmap_empty. Qed.
Lemma wake_waits c : call_waits c -> call_waits (wake c).
Proof.
  intros (H1 & H2 & b & a & H3 & H4). split; [done|]. split; [done|]. exists b, false. cbn. by rewrite H3, map_fmap_singleton.
Qed.
Lemma cancel_quiet c : native c = false -> snd (rtw88_thread_call_cancel c) = wake c.
Proof. intros H. unfold rtw88_thread_call_cancel, thread_call_cancel. cbn. rewrite H. destruct c. cbn in *. by subst. Qed.
Lemma cancel_over c : call_over c -> call_over (snd (rtw88_thread_call_cancel c)).
Proof.
  intros [H1 H2]. split; [by apply cancel_idle|]. rewrite cancel_quiet by apply H2. done.
Qed.

(** A cancel_wait, begun or resumed: the deleter waits, or it is over. *)
Definition waited (c : rtw88_call) (r : option bool * rtw88_call) : Prop :=
  inv (snd r) /\ inside (snd r) = inside c /\ match fst r with None => call_waits (snd r) | Some _ => call_over (snd r) end.

Lemma wait_loop_waited b c : inv c -> canceling c = true -> native c = false ->
  delete deleter (waiters c) = ∅ -> waited c (wait_loop deleter b c).
Proof.
  intros I Hc Hn Hw. pose proof (call_wait_loop_inv deleter b c I) as I1. unfold waited. split; [done|].
  unfold wait_loop in *. destruct (pending c || negb (running c =? 0)) eqn:E; cbn [fst snd] in *; (split; [done|]).
  - split; [done|]. split; [done|]. exists b, true. cbn. split; [by rewrite <- insert_delete_eq, Hw, insert_empty|].
    intros _. apply orb_true_iff in E as [?|E]; [by left|right]. by apply negb_true_iff, Z.eqb_neq in E.
  - apply orb_false_elim in E as [Ep Er%negb_false_iff%Z.eqb_eq]. destruct I as (H1 & H2 & _). unfold outstanding in H1. rewrite Ep, Hn in H1.
    split; [by split|]. unfold quiescent. cbn. split_and!; try done; lia.
Qed.

Lemma cancel_wait_waited c : inv c -> call_idle c -> waited c (rtw88_thread_call_cancel_wait deleter c).
Proof.
  intros I [H1 H2]. unfold rtw88_thread_call_cancel_wait. pose proof (cancel_wait_mid c true I) as I1. cbn in I1 |- *.
  destruct (native c) eqn:En; (refine (wait_loop_waited _ _ I1 _ _ _); [done|done|]); cbn; by rewrite H1, delete_empty.
Qed.
Lemma resume_waited c : inv c -> call_waits c -> forall r, resume deleter c = Some r -> waited c r.
Proof.
  intros I (H1 & H2 & b & a & H3 & _) r. unfold resume. rewrite H3, lookup_singleton_eq. cbn [mbind option_bind]. destruct a; [done|]. intros [= <-].
  apply wait_loop_waited; [done..|]. rewrite H3. apply delete_singleton_eq.
Qed.

(** Arming keeps the invariant where it may happen. *)
Lemma mod_timer_ok a j x t : timer_ok t -> del_pc t = NotDeleting \/ (0 < in_function t)%nat -> timer_ok (snd (fst (mod_timer a j x t))).
Proof.
  unfold mod_timer. intros H Hp. destruct (call t) as [c|] eqn:Ec.
  - rewrite Ec. cbn [fst snd]. unfold timer_ok in *. rewrite Ec in H. cbn. unfold rtw88_thread_call_enter_delayed. destruct H as (I & Hi & H).
    destruct (submit_inside true c) as [E1 _]. split; [by apply submit_inv|]. split; [congruence|].
    destruct (del_pc t).
    + destruct (submit_idle c I (proj1 H)) as [H1 H2]. split; [done|]. intros _. by left.
    + by rewrite submit_waits.
    + destruct Hp as [|Hp]; [done|]. destruct H as [_ (_ & _ & H & _)]. lia.
    + by rewrite submit_waits.
    + destruct Hp as [|Hp]; [done|]. destruct H as [_ (_ & _ & H & _)]. lia.
  - destruct a; cbn [call]; [|by rewrite Ec]. unfold timer_ok in *. rewrite Ec in H. destruct H as (H1 & H2 & H3 & H4). cbn. rewrite H1, H2, H3, H4. cbn.
    split; [by unfold inv|]. split; [done|]. split; [by split|]. intros _. by left.
Qed.

Lemma del_timer_ok t : timer_ok t -> timer_ok (snd (del_timer t)).
Proof.
  unfold del_timer, timer_ok. intros H. destruct (call t) as [c|] eqn:Ec; cbn; [|by rewrite Ec].
  destruct H as (I & Hi & H). split; [by apply call_cancel_inv|]. split; [unfold rtw88_thread_call_cancel, thread_call_cancel; cbn; by destruct (native c)|].
  destruct (del_pc t).
  - split; [apply cancel_idle, H|done].
  - rewrite cancel_quiet by apply (proj1 (proj2 H)). by apply wake_waits.
  - by apply cancel_over.
  - rewrite cancel_quiet by apply (proj1 (proj2 H)). by apply wake_waits.
  - by apply cancel_over.
Qed.

Lemma del_wait_ok asleep past c r t : (asleep, past) = (InCancelWait, BeforeFree) \/ (asleep, past) = (InFree, BeforeRelease) ->
  inside c = (testing t + in_function t + leaving t)%nat -> waited c r -> timer_ok (del_wait asleep past r t).
Proof.
  intros Hp Hi (I & Hs & W). unfold timer_ok, del_wait. cbn. split; [done|]. split; [congruence|].
  destruct (fst r); destruct Hp as [[= -> ->]|[= -> ->]]; done.
Qed.

Lemma del_step_ok t r : timer_ok t -> del_timer_sync_step t = Some r -> exists t', r = Some t' /\ timer_ok t'.
Proof.
  unfold del_timer_sync_step. intros H E. destruct (call t) as [c|] eqn:Ec; [|done]. unfold timer_ok in H. rewrite Ec in H. destruct H as (I & Hi & H).
  destruct (del_pc t) eqn:Ep; [done| | | |].
  - destruct (resume deleter c) as [w|] eqn:Er; [|done]. injection E as <-. eexists. split; [done|]. apply (del_wait_ok _ _ c); [by left|done|].
    by apply resume_waited.
  - injection E as <-. eexists. split; [done|]. apply (del_wait_ok _ _ c); [by right|done|]. apply cancel_wait_waited; [done|apply H].
  - destruct (resume deleter c) as [w|] eqn:Er; [|done]. injection E as <-. eexists. split; [done|]. apply (del_wait_ok _ _ c); [by right|done|].
    by apply resume_waited.
  - injection E as <-. destruct H as [[Hw _] (H1 & H2 & H3 & _)]. unfold rtw88_thread_call_free_end. rewrite H1, !bool_decide_eq_true_2 by done. cbn [andb].
    eexists. split; [done|]. unfold timer_ok. cbn. split_and!; [lia..|done].
Qed.

Lemma fire_ok t c : timer_ok t -> call t = Some c -> forall c', fire c = Some c' -> timer_ok (t <| call := Some c' |>).
Proof.
  unfold timer_ok. intros H Ec. rewrite Ec in H. destruct H as (I & Hi & H). intros c' E.
  assert (inv c') as I1 by (apply (call_exec_inv c Fire _ Silent I); cbn; by rewrite E).
  revert I1. unfold fire in E. destruct (native c) eqn:En; [|done]. injection E as <-. intros I1. cbn. split; [done|]. split; [done|].
  destruct (del_pc t); [done| | | |].
  1, 3: destruct H as (_ & H & _); congruence. all: destruct H as [_ (H & _)]; congruence.
Qed.

Lemma dispatch_ok t t' : timer_ok t -> timer_dispatch t = Some t' -> timer_ok t'.
Proof.
  unfold timer_dispatch. intros H E. destruct (call t) as [c|] eqn:Ec; [|done]. cbn [mbind option_bind] in E.
  destruct (dispatch_enter c) as [[b c']|] eqn:Ed; [|done]. injection E as <-. unfold timer_ok in H. rewrite Ec in H. destruct H as (I & Hi & H).
  assert (inv c') as I1 by (apply (call_exec_inv c DispatchEnter _ (Runs b) I); cbn; by rewrite Ed).
  unfold dispatch_enter in Ed. destruct (dequeued c) as [|n] eqn:Eq; [done|]. destruct (_ <? _) eqn:El; [|done]. injection Ed as <- <-.
  assert (match del_pc t with NotDeleting => call_idle c | InCancelWait | InFree => call_waits c | _ => False end) as Hk.
  { destruct (del_pc t); [apply H|done| |done|]; destruct H as [_ (_ & H & _)]; congruence. }
  unfold timer_ok. destruct (canceling c) eqn:En; cbn [negb]; cbn; (split; [done|]); (split; [lia|]).
  - destruct (del_pc t); [destruct Hk; congruence| |done| |done]; destruct Hk as (K1 & K2 & b & a & K3 & _); (split; [done|]; split; [done|]);
      exists b, a; (split; [done|]); intros _; right; destruct I1 as (_ & R & _); cbn in *; rewrite R; lia.
  - destruct (del_pc t); [|destruct Hk; congruence|done|destruct Hk; congruence|done]. destruct Hk. split; [done|]. intros _. right. lia.
Qed.

Lemma exit_ok t t' : timer_ok t -> timer_exit t = Some t' -> timer_ok t'.
Proof.
  unfold timer_exit. intros H E. destruct (leaving t) as [|n] eqn:El; [done|]. destruct (call t) as [c|] eqn:Ec; [|done]. cbn [mbind option_bind] in E.
  destruct (dispatch_exit c) as [c'|] eqn:Ed; [|done]. injection E as <-. unfold timer_ok in H. rewrite Ec in H. destruct H as (I & Hi & H).
  assert (inv c') as I1 by (apply (call_exec_inv c DispatchExit _ Silent I); cbn; by rewrite Ed).
  unfold dispatch_exit in Ed. destruct (inside c) as [|m] eqn:Eq; [done|]. injection Ed as <-. unfold timer_ok. cbn. split; [done|]. split; [lia|].
  destruct (del_pc t).
  - destruct H as [[H1 H2] H3]. split; [|done]. unfold call_idle. cbn. by rewrite H1, fmap_empty.
  - destruct H as (H1 & H2 & b & a & H3 & _). split; [done|]. split; [done|]. exists b, false. cbn. by rewrite H3, map_fmap_singleton.
  - destruct H as [_ (_ & _ & H & _)]. lia.
  - destruct H as (H1 & H2 & b & a & H3 & _). split; [done|]. split; [done|]. exists b, false. cbn. by rewrite H3, map_fmap_singleton.
  - destruct H as [_ (_ & _ & H & _)]. lia.
Qed.

(** The steps of a callback in the function or its test. *)
Lemma test_ok t t' : timer_ok t -> timer_call_fn t = Some t' -> timer_ok t'.
Proof.
  unfold timer_call_fn, timer_ok. intros H E. destruct (testing t) as [|n] eqn:Et; [done|]. injection E as <-.
  destruct (active t && has_function t); cbn; (destruct (call t) as [c|]; [|destruct H; lia]); destruct H as (I & Hi & H); (split; [done|]); (split; [lia|]);
    (destruct (del_pc t); [by destruct H|done..]).
Qed.
Lemma return_ok t t' : timer_ok t -> timer_return t = Some t' -> timer_ok t'.
Proof.
  unfold timer_return, timer_ok. intros H E. destruct (in_function t) as [|n] eqn:Et; [done|]. injection E as <-. cbn.
  destruct (call t) as [c|]; [|lia]. destruct H as (I & Hi & H). split; [done|]. split; [lia|done].
Qed.

Lemma ok_some {P : timer -> Prop} (o : option timer) r : option_map Some o = Some r -> (forall t, o = Some t -> P t) -> exists t, r = Some t /\ P t.
Proof. destruct o as [t|]; [|done]. intros [= <-] H. exists t. auto. Qed.

Lemma exec_ok e t r : timer_ok t -> calm e t -> exec e t = Some r -> exists t', r = Some t' /\ timer_ok t'.
Proof.
  intros Ht Hc He. destruct e as [al j y|al j y| | | | | | | |]; cbn [exec calm] in *.
  - injection He as <-. eexists. split; [done|]. apply mod_timer_ok; [done|by left].
  - destruct (in_function t) as [|n] eqn:En; [done|]. injection He as <-. eexists. split; [done|]. apply mod_timer_ok; [done|right; lia].
  - injection He as <-. eexists. split; [done|]. by apply del_timer_ok.
  - destruct (del_pc t) eqn:Ep; [|done..]. injection He as <-. eexists. split; [done|]. unfold del_timer_sync. destruct (call t) as [c|] eqn:Ec.
    + cbn [call]. unfold timer_ok in Ht. rewrite Ec, Ep in Ht. destruct Ht as (I & Hi & H & _). cbn. rewrite Ec.
      apply (del_wait_ok _ _ c); [by left|done|by apply cancel_wait_waited].
    + cbn. rewrite Ec. unfold timer_ok in *. cbn. rewrite Ec in *. done.
  - by apply (del_step_ok t).
  - apply (ok_some (P := timer_ok) _ r He). intros t1 E. destruct (call t) as [c|] eqn:Ec; [|done]. cbn [mbind option_bind] in E.
    destruct (fire c) as [c'|] eqn:Ef; [|done]. injection E as <-. by apply (fire_ok t c).
  - apply (ok_some (P := timer_ok) _ r He). intros t1. by apply (dispatch_ok t).
  - apply (ok_some (P := timer_ok) _ r He). intros t1. by apply (test_ok t).
  - apply (ok_some (P := timer_ok) _ r He). intros t1. by apply (return_ok t).
  - apply (ok_some (P := timer_ok) _ r He). intros t1. by apply (exit_ok t).
Qed.

Lemma reachable_ok f t : reachable f t -> timer_ok t.
Proof.
  induction 1 as [|t e t' _ IH Hc He]; [done|]. destruct (exec_ok e t _ IH Hc He) as (t2 & [= <-] & H). done.
Qed.

Lemma has_function_kept e t t' : exec e t = Some (Some t') -> has_function t' = has_function t.
Proof.
  destruct e as [al j y|al j y| | | | | | | |]; cbn [exec]; unfold mod_timer, del_timer, del_timer_sync, del_timer_sync_step, timer_dispatch, timer_call_fn, timer_return, timer_exit, del_wait.
  1: intros [= <-]. 2: destruct (in_function t); [done|]; intros [= <-].
  1, 2: destruct (call t) as [c|] eqn:Ec; [|destruct al]; cbn; by rewrite ?Ec.
  - intros [= <-]. by destruct (call t).
  - destruct (del_pc t); [|done..]. intros [= <-]. by destruct (call t).
  - destruct (call t) as [c|]; [|done]. destruct (del_pc t); [done|..].
    1, 3: destruct (resume _ _); [|done]; by intros [= <-].
    + by intros [= <-].
    + destruct (rtw88_thread_call_free_end c); by intros [= <-].
  - destruct (call t) as [c|]; [|done]. cbn. destruct (fire c); [|done]. by intros [= <-].
  - destruct (call t) as [c|]; [|done]. cbn. destruct (dispatch_enter c) as [[[] ?]|]; [..|done]; by intros [= <-].
  - destruct (testing t); [done|]. cbn. destruct (_ && _); by intros [= <-].
  - destruct (in_function t); [done|]. by intros [= <-].
  - destruct (leaving t); [done|]. destruct (call t) as [c|]; [|done]. cbn. destruct (dispatch_exit c); [|done]. by intros [= <-].
Qed.
Lemma reachable_function f t : reachable f t -> has_function t = f.
Proof. induction 1 as [|t e t' _ IH Hc He]; [done|]. by rewrite (has_function_kept _ _ _ He). Qed.

Definition arms (e : event) : bool := match e with EvMod _ _ _ | EvModSelf _ _ _ => true | _ => false end.

(** Only an active timer's function is called, and only arming activates. *)
Lemma inactive_kept e t t' : active t = false -> arms e = false -> exec e t = Some (Some t') -> runs t' = runs t /\ active t' = false.
Proof.
  intros Ha Hm. destruct e as [al j y|al j y| | | | | | | |]; try done; cbn [exec]; unfold del_timer, del_timer_sync, del_timer_sync_step, timer_dispatch, timer_call_fn, timer_return, timer_exit, del_wait.
  - intros [= <-]. by destruct (call t).
  - destruct (del_pc t); [|done..]. intros [= <-]. by destruct (call t).
  - destruct (call t) as [c|]; [|done]. destruct (del_pc t); [done|..].
    1, 3: destruct (resume _ _); [|done]; by intros [= <-].
    + by intros [= <-].
    + destruct (rtw88_thread_call_free_end c); by intros [= <-].
  - destruct (call t) as [c|]; [|done]. cbn. destruct (fire c); [|done]. by intros [= <-].
  - destruct (call t) as [c|]; [|done]. cbn. destruct (dispatch_enter c) as [[[] ?]|]; [..|done]; by intros [= <-].
  - destruct (testing t); [done|]. cbn. rewrite Ha. by intros [= <-].
  - destruct (in_function t); [done|]. by intros [= <-].
  - destruct (leaving t); [done|]. destruct (call t) as [c|]; [|done]. cbn. destruct (dispatch_exit c); [|done]. by intros [= <-].
Qed.

(** Without a thread call nothing of the timer runs. *)
Lemma no_call_kept e t t' : timer_ok t -> call t = None -> arms e = false -> exec e t = Some (Some t') -> call t' = None /\ runs t' = runs t.
Proof.
  unfold timer_ok. intros Hk Hn. rewrite Hn in Hk. destruct Hk as (K1 & K2 & K3 & K4). intros Hm.
  destruct e as [al j y|al j y| | | | | | | |]; try done; cbn [exec]; unfold del_timer, del_timer_sync, del_timer_sync_step, timer_dispatch, timer_call_fn, timer_return, timer_exit.
  - rewrite Hn. by intros [= <-].
  - rewrite K4. cbn. rewrite Hn. by intros [= <-].
  - by rewrite Hn.
  - by rewrite Hn.
  - by rewrite Hn.
  - by rewrite K1.
  - by rewrite K2.
  - by rewrite K3.
Qed.

(** ** What an armed timer comes to *)

(** What the callbacks still have to do leads an armed timer to its function. *)
Definition next_events (t : timer) : list event :=
  match testing t with
  | S _ => [EvTest]
  | O => match call t with
         | Some c => if native c then [EvFire; EvDispatch; EvTest] else [EvDispatch; EvTest]
         | None => [] end
  end.
Fixpoint run (es : list event) (t : timer) : option timer :=
  match es with
  | [] => Some t
  | e :: es => match exec e t with Some (Some t) => run es t | _ => None end
  end.

Lemma test_runs t : active t = true -> has_function t = true -> (0 < testing t)%nat -> exists t', exec EvTest t = Some (Some t') /\ runs t' = runs t + 1.
Proof. intros Ha Hf Ht. cbn [exec]. unfold timer_call_fn. destruct (testing t); [lia|]. cbn. rewrite Ha, Hf. by eexists. Qed.

Lemma dispatch_runs t c : inv c -> call t = Some c -> canceling c = false -> (0 < dequeued c)%nat -> Z.of_nat (inside c) + 1 < 2 ^ 32 ->
  active t = true -> has_function t = true -> exists t', run [EvDispatch; EvTest] t = Some t' /\ runs t' = runs t + 1.
Proof.
  intros I Ec Hn Hd Hs Ha Hf. cbn [run exec]. unfold timer_dispatch. rewrite Ec. cbn [mbind option_bind]. unfold dispatch_enter.
  destruct (dequeued c) as [|n]; [lia|]. rewrite (proj2 (Z.ltb_lt _ _) Hs), Hn. cbn [mbind option_bind negb option_map].
  set (t1 := _ <| testing := _ |>). destruct (test_runs t1 Ha Hf ltac:(cbn; lia)) as (t2 & E & R). cbn [exec] in E. rewrite E. by exists t2.
Qed.

Lemma armed_runs t c : timer_ok t -> has_function t = true -> active t = true -> call t = Some c -> del_pc t = NotDeleting -> Z.of_nat (inside c) + 1 < 2 ^ 32 ->
  exists t', run (next_events t) t = Some t' /\ runs t' = runs t + 1.
Proof.
  unfold timer_ok, next_events. intros H Hf Ha Ec Ep Hs. rewrite Ec, Ep in H. destruct H as (I & _ & [_ Hn] & H).
  destruct (testing t) as [|n] eqn:Et.
  2: { destruct (test_runs t Ha Hf ltac:(lia)) as (t' & E & R). cbn [run]. rewrite E. by exists t'. }
  rewrite Ec. destruct (H Ha) as [Hp|Hp]; [|lia]. pose proof I as (Ho & _). unfold outstanding in Ho. rewrite Hp in Ho.
  destruct (native c) eqn:En; [|apply (dispatch_runs t c); try done; lia].
  change (run [EvFire; EvDispatch; EvTest] t) with (match exec EvFire t with Some (Some t) => run [EvDispatch; EvTest] t | _ => None end).
  cbn [exec]. rewrite Ec. cbn [mbind option_bind]. unfold fire. rewrite En. cbn [mbind option_bind option_map].
  set (c1 := mk_call _ _ _ _ _ _ _). assert (inv c1) as I1 by (apply (call_exec_inv c Fire _ Silent I); cbn; unfold fire; by rewrite En).
  destruct (dispatch_runs (t <| call := Some c1 |>) c1 I1 ltac:(done) ltac:(done) ltac:(cbn; lia) ltac:(done) ltac:(done) ltac:(done)) as (t2 & E & R). by exists t2.
Qed.

(** A deleter that sleeps waits for a callback. *)
Lemma deleter_waits t c b : timer_ok t -> call t = Some c -> waiters c !! deleter = Some (b, true) -> pending c = true \/ running c <> 0.
Proof.
  unfold timer_ok. intros H Ec Hw. rewrite Ec in H. destruct H as (_ & _ & H).
  assert (call_waits c -> pending c = true \/ running c <> 0) as W.
  { intros (_ & _ & b' & a & E & Ha). rewrite E, lookup_singleton_eq in Hw. injection Hw as -> ->. by apply Ha. }
  destruct (del_pc t); [destruct H as [[E _] _]|auto|destruct H as [[E _] _]|auto|destruct H as [[E _] _]]; by rewrite E in Hw.
Qed.

(** C33: an armed timer is not lost, and a deleted one stays deleted.  In every
    history of mod_timer, del_timer, del_timer_sync, callbacks and their tests
    by any threads, in which only the timer's own function arms it while a
    del_timer_sync is under way, and one thread at a time is in
    del_timer_sync: the thread call is never released under a callback or a
    sleeper; a timer that is active, has its thread call and is not being
    deleted reaches its function by what the callbacks have left to do; one
    that is not active calls its function no more before it is armed again; a
    thread asleep in del_timer_sync has a callback to wait for; and when
    del_timer_sync returns the call is gone and no callback is left, so that
    nothing runs before the timer is armed again. *)
Theorem timer_never_lost t : reachable true t ->
  (forall e, calm e t -> exec e t <> Some None) /\
  (forall c, active t = true -> call t = Some c -> del_pc t = NotDeleting -> Z.of_nat (inside c) + 1 < 2 ^ 32 ->
     exists t', run (next_events t) t = Some t' /\ runs t' = runs t + 1) /\
  (active t = false -> forall e t', arms e = false -> exec e t = Some (Some t') -> runs t' = runs t /\ active t' = false) /\
  (forall c b, call t = Some c -> waiters c !! deleter = Some (b, true) -> pending c = true \/ running c <> 0) /\
  (forall t', del_pc t <> NotDeleting -> exec EvDelStep t = Some (Some t') -> del_pc t' = NotDeleting ->
     call t' = None /\ testing t' = O /\ in_function t' = O /\ leaving t' = O /\ runs t' = runs t) /\
  (call t = None -> forall e t', arms e = false -> exec e t = Some (Some t') -> call t' = None /\ runs t' = runs t).
Proof.
  intros Hr. pose proof (reachable_ok _ _ Hr) as Hok. pose proof (reachable_function _ _ Hr) as Hf. split_and!.
  - intros e Hc He. by destruct (exec_ok e t None Hok Hc He) as (? & ? & _).
  - intros c Ha Ec Ep Hs. by apply (armed_runs t c).
  - intros Ha e t'. by apply inactive_kept.
  - intros c b. by apply deleter_waits.
  - intros t' Hd He Hn. destruct (exec_ok EvDelStep t _ Hok Logic.I He) as (t2 & [= <-] & Hok').
    cbn [exec] in He. unfold del_timer_sync_step, del_wait in He. destruct (call t) as [c|] eqn:Ec; [|done]. destruct (del_pc t); [done|..].
    1, 3: destruct (resume _ _) as [[[]]|]; [..|done]; injection He as <-; done.
    + destruct (rtw88_thread_call_cancel_wait _ _) as [[]]; injection He as <-; done.
    + destruct (rtw88_thread_call_free_end c); [|done]. injection He as <-. unfold timer_ok in Hok'. cbn in *. destruct Hok' as (? & ? & ? & _). by split_and!.
  - intros Hc e t'. by apply no_call_kept.
Qed.

(** A history in which every event is calm. *)
Definition calmb (e : event) (t : timer) : bool :=
  match e, del_pc t with EvMod _ _ _, NotDeleting => true | EvMod _ _ _, _ => false | _, _ => true end.
Lemma calmb_calm e t : calmb e t = true -> calm e t.
Proof. destruct e; try done. cbn. by destruct (del_pc t). Qed.
Fixpoint history (es : list event) (t : timer) : option timer :=
  match es with
  | [] => Some t
  | e :: es => if calmb e t then match exec e t with Some (Some t) => history es t | _ => None end else None
  end.
Lemma history_reachable f es : forall t t', reachable f t -> history es t = Some t' -> reachable f t'.
Proof.
  induction es as [|e es IH]; intros t t' R; cbn [history]; [by intros [= <-]|]. destruct (calmb e t) eqn:Ec; [|done].
  destruct (exec e t) as [[t1|]|] eqn:Ee; [|done..]. apply IH. by apply (reach_step f t e t1 R (calmb_calm e t Ec)).
Qed.

(** Armed, entered by its callback, armed again for later before the test. *)
Definition demo_timer : timer := default (timer_setup true) (history [EvMod true 100 120; EvFire; EvDispatch; EvMod true 121 150] (timer_setup true)).
Lemma timer_never_lost_witness :
  (forall e, calm e demo_timer -> exec e demo_timer <> Some None) /\
  exists t', run (next_events demo_timer) demo_timer = Some t' /\ runs t' = runs demo_timer + 1.
Proof.
  assert (reachable true demo_timer) as R.
  { apply (history_reachable true [EvMod true 100 120; EvFire; EvDispatch; EvMod true 121 150] (timer_setup true)); [apply reach_start|vm_compute; reflexivity]. }
  destruct (timer_never_lost demo_timer R) as (H1 & H2 & _). split; [exact H1|].
  destruct (call demo_timer) as [c|] eqn:Ec; [|discriminate Ec]. apply (H2 c); [reflexivity|reflexivity|reflexivity|].
  injection Ec as <-. reflexivity.
Defined.
(** The function runs at once, and not again for the new deadline. *)
Example demo_early : option_map (fun t => (runs t, active t)) (run [EvTest; EvReturn; EvExit; EvFire; EvDispatch; EvTest] demo_timer) = Some (1, false).
Proof. reflexivity. Qed.
(** The function arms its timer while it is deleted: the shim refuses, the
    deletion completes, and the timer stays marked active for good. *)
Example rearm_while_deleting :
  option_map (fun t => (match call t with None => true | _ => false end, timer_pending t, runs t))
    (history [EvMod true 0 5; EvFire; EvDispatch; EvTest; EvDelSync; EvModSelf true 6 10; EvReturn; EvExit; EvDelStep; EvDelStep; EvDelStep] (timer_setup true))
  = Some (true, true, 1).
Proof. reflexivity. Qed.
(** Armed by another thread past the cancel_wait of the release: Mach keeps the
    queued call, and the handle is lost. *)
Example armed_while_released :
  option_map (fun t => match call t with None => runs t | _ => -1 end)
    (run [EvMod true 0 5; EvDelSync; EvDelStep; EvMod true 1 6; EvDelStep] (timer_setup true)) = Some 0 /\
  run [EvMod true 0 5; EvDelSync; EvDelStep; EvMod true 1 6; EvFire; EvDelStep] (timer_setup true) = None.
Proof. split; reflexivity. Qed.
