(* ===== verification/Rsn.v ===== *)
(** * RSN elements: [src/src/kext/RTW88IEEE80211.cpp]

    [rtw88ReadSuite], [rtw88WriteSuite], [rtw88RsnSelectCcmpPsk] and
    [rtw88BuildSelectedRsnIe].  A pointer into the element is the list of the
    bytes from it to the end of the element, so a read past the element is
    [None]; [end - p] is the length of that list. *)

From S2P Require Import Prelude.

Definition WLAN_CIPHER_SUITE_CCMP : Z := 0x000FAC04.
Definition WLAN_CIPHER_SUITE_TKIP : Z := 0x000FAC02.
Definition WLAN_EID_RSN : Z := 48.
Definition AKM_PSK : Z := 0x000FAC02.

(** ** The code *)

Definition rtw88ReadSuite (p : list Z) : option Z :=
  p0 ← ld p 0; p1 ← ld p 1; p2 ← ld p 2; p3 ← ld p 3;
  Some (u32 (p0 << 24) .| u32 (p1 << 16) .| u32 (p2 << 8) .| p3).

(** The four bytes stored. *)
Definition rtw88WriteSuite (suite : Z) : list Z :=
  [u8 (suite >> 24); u8 (suite >> 16); u8 (suite >> 8); u8 suite].

(** [(uint16_t)(p[0] | (p[1] << 8))] *)
Definition read_count (p : list Z) : option Z :=
  p0 ← ld p 0; p1 ← ld p 1; Some (u16 (p0 .| (p1 << 8))).

(** [for (i = 0; i < count; i++, p += 4) if (read(p) == want) found = true;] *)
Fixpoint scan_suites (count : nat) (p : list Z) (want : Z) (found : bool) : option (bool * list Z) :=
  match count with
  | O => Some (found, p)
  | S k =>
      s ← rtw88ReadSuite p;
      scan_suites k (zdrop 4 p) want (if s =? want then true else found)
  end.

(** One counted list: [Some None] is the early [return false]. *)
Definition scan_list (p : list Z) (want : Z) : option (option (bool * list Z)) :=
  if zlen p <? 2 then Some None
  else
    count ← read_count p;
    let p := zdrop 2 p in
    if zlen p / 4 <? count then Some None
    else r ← scan_suites (Z.to_nat count) p want false; Some (Some r).

(** [Some (Some (pairwise, group))] is [true] with its two results. *)
Definition rtw88RsnSelectCcmpPsk (rsn : list Z) : option (option (Z * Z)) :=
  if zlen rsn <? 8 then Some None
  else
    let p := rsn in
    p0 ← ld p 0;
    p1 ← ld p 1;
    if negb (p0 =? 1) || negb (p1 =? 0) then Some None
    else
      let p := zdrop 2 p in
      group ← rtw88ReadSuite p;
      let p := zdrop 4 p in
      pw ← scan_list p WLAN_CIPHER_SUITE_CCMP;
      match pw with
      | None => Some None
      | Some (hasCcmp, p) =>
          akm ← scan_list p AKM_PSK;
          match akm with
          | None => Some None
          | Some (hasPsk, p) =>
              if negb hasCcmp || negb hasPsk then Some None
              else if negb (group =? WLAN_CIPHER_SUITE_CCMP) && negb (group =? WLAN_CIPHER_SUITE_TKIP)
              then Some None
              else Some (Some (WLAN_CIPHER_SUITE_CCMP, group))
          end
      end.

Definition rtw88BuildSelectedRsnIe (group_cipher : Z) : list Z :=
  let group_cipher :=
    if negb (group_cipher =? WLAN_CIPHER_SUITE_TKIP) then WLAN_CIPHER_SUITE_CCMP else group_cipher in
  [WLAN_EID_RSN; 20; 1; 0] ++ rtw88WriteSuite group_cipher ++
  [1; 0] ++ rtw88WriteSuite WLAN_CIPHER_SUITE_CCMP ++
  [1; 0] ++ rtw88WriteSuite AKM_PSK ++ [0; 0].

(** ** The element format *)

Definition enc16 (n : Z) : list Z := [u8 n; u8 (n >> 8)].
Definition enc_suites (ss : list Z) : list Z := concat (map rtw88WriteSuite ss).

(** The body of an RSN element: version 1, group cipher, pairwise ciphers,
    key managements, and whatever follows. *)
Definition enc_rsn (group : Z) (pairwise akms rest : list Z) : list Z :=
  [1; 0] ++ rtw88WriteSuite group ++
  enc16 (zlen pairwise) ++ enc_suites pairwise ++
  enc16 (zlen akms) ++ enc_suites akms ++ rest.

Abbreviation suites_ok := (Forall (in_range 32)).

Lemma read_suite_val a b c d rest : is_byte a -> is_byte b -> is_byte c -> is_byte d ->
  rtw88ReadSuite (a :: b :: c :: d :: rest) = Some (d + c * 2 ^ 8 + b * 2 ^ 16 + a * 2 ^ 24).
Proof.
  intros Ha Hb Hc Hd.
  assert (rtw88ReadSuite (a :: b :: c :: d :: rest) =
    Some (u32 (a << 24) .| u32 (b << 16) .| u32 (c << 8) .| d)) as -> by reflexivity. f_equal.
  rewrite !(wrap_small 32) by (unfold in_range in *; rewrite Z.shiftl_mul_pow2 by lia; lia).
  rewrite (Z.lor_comm (a << 24)), (lor_shift (b << 16)), (Z.lor_comm _ (c << 8)) by (euclid || lia).
  replace ((b << 16) + a * 2 ^ 24) with ((b + a * 2 ^ 8) << 16) by euclid.
  rewrite (lor_shift (c << 8)), (Z.lor_comm _ d) by (euclid || lia).
  replace ((c << 8) + (b + a * 2 ^ 8) * 2 ^ 16) with ((c + b * 2 ^ 8 + a * 2 ^ 16) << 8) by euclid.
  rewrite lor_shift by (euclid || lia). euclid.
Qed.

Lemma read_write_suite s rest : in_range 32 s -> rtw88ReadSuite (rtw88WriteSuite s ++ rest) = Some s.
Proof.
  intros Hs. unfold rtw88WriteSuite. cbn [app].
  rewrite read_suite_val by (apply wrap_range; lia). f_equal. euclid.
Qed.

Lemma write_read_suite a b c d rest s : is_byte a -> is_byte b -> is_byte c -> is_byte d ->
  rtw88ReadSuite (a :: b :: c :: d :: rest) = Some s -> rtw88WriteSuite s = [a; b; c; d] /\ in_range 32 s.
Proof.
  intros Ha Hb Hc Hd. rewrite read_suite_val by done. intros [= <-]. unfold rtw88WriteSuite.
  split; [|unfold in_range in *; lia]. repeat f_equal; euclid.
Qed.

Lemma read_enc16 n rest : in_range 16 n -> read_count (enc16 n ++ rest) = Some n.
Proof.
  intros Hn. assert (read_count (enc16 n ++ rest) = Some (u16 (u8 n .| (u8 (n >> 8) << 8)))) as -> by reflexivity.
  f_equal. rewrite lor_shift by (try apply wrap_range; lia). euclid.
Qed.

(** ** Reading and writing suite lists *)

Lemma zlen_write_suite s : zlen (rtw88WriteSuite s) = 4.
Proof. done. Qed.

Lemma zlen_enc_suites ss : zlen (enc_suites ss) = 4 * zlen ss.
Proof.
  induction ss as [|s ss IH]; [done|]. unfold enc_suites in *. cbn [map concat].
  rewrite zlen_app, IH, zlen_write_suite, zlen_cons. lia.
Qed.

Lemma scan_suites_enc ss : forall rest want found, suites_ok ss ->
  scan_suites (length ss) (enc_suites ss ++ rest) want found = Some (found || bool_decide (want ∈ ss), rest).
Proof.
  induction ss as [|s ss IH]; intros rest want found Hs; cbn [length scan_suites].
  { cbn. by rewrite orb_false_r. }
  inversion_clear Hs as [|? ? H1 H2]. change (enc_suites (s :: ss)) with (rtw88WriteSuite s ++ enc_suites ss).
  rewrite <- app_assoc, read_write_suite by done. cbn [mbind option_bind].
  rewrite zdrop_app_exact' by done. rewrite IH by done. do 2 f_equal.
  destruct (Z.eqb_spec s want) as [->|Hne].
  - rewrite (bool_decide_true (want ∈ want :: ss)) by left. by rewrite !orb_true_r.
  - f_equal. apply bool_decide_ext. rewrite elem_of_cons. naive_solver.
Qed.

Lemma take_suites n : forall p, bytes_ok p -> 4 * Z.of_nat n <= zlen p ->
  exists ss rest, p = enc_suites ss ++ rest /\ length ss = n /\ suites_ok ss /\ bytes_ok rest.
Proof.
  induction n as [|n IH]; intros p Hb Hl; [exists [], p; split_and!; [done|done|constructor|done]|].
  destruct p as [|a [|b [|c [|d p]]]]; zlen_in Hl; try (pose proof (zlen_nonneg p)); try lia.
  repeat match goal with H : bytes_ok (_ :: _) |- _ => inversion_clear H end.
  destruct (IH p ltac:(done) ltac:(lia)) as (ss & rest & -> & Hn & Hss & Hr).
  destruct (write_read_suite a b c d [] (d + c * 2 ^ 8 + b * 2 ^ 16 + a * 2 ^ 24)) as [Hw Hs]; [done..|by apply read_suite_val|].
  exists ((d + c * 2 ^ 8 + b * 2 ^ 16 + a * 2 ^ 24) :: ss), rest.
  split_and!; [|cbn; lia|by constructor|done].
  change (enc_suites (?x :: ss)) with (rtw88WriteSuite x ++ enc_suites ss). by rewrite Hw, <- app_assoc.
Qed.

Lemma scan_list_enc ss rest want : suites_ok ss -> zlen ss < 2 ^ 16 ->
  scan_list (enc16 (zlen ss) ++ enc_suites ss ++ rest) want = Some (Some (bool_decide (want ∈ ss), rest)).
Proof.
  intros Hs Hl. unfold scan_list. pose proof (zlen_nonneg ss). pose proof (zlen_nonneg rest).
  rewrite (proj2 (Z.ltb_ge _ _)) by (rewrite !zlen_app, zlen_enc_suites; change (zlen (enc16 _)) with 2; lia).
  rewrite read_enc16 by (unfold in_range; lia). cbn [mbind option_bind].
  rewrite zdrop_app_exact' by done.
  rewrite (proj2 (Z.ltb_ge _ _)) by (rewrite zlen_app, zlen_enc_suites; apply Z.div_le_lower_bound; lia).
  unfold zlen at 1. rewrite Nat2Z.id, scan_suites_enc by done. done.
Qed.

(** A counted list parses exactly when it is the encoding of one. *)
Lemma scan_list_inv p want : bytes_ok p ->
  scan_list p want = Some None \/
  exists ss rest, p = enc16 (zlen ss) ++ enc_suites ss ++ rest /\ suites_ok ss /\ zlen ss < 2 ^ 16 /\ bytes_ok rest /\
    scan_list p want = Some (Some (bool_decide (want ∈ ss), rest)).
Proof.
  intros Hb. unfold scan_list. destruct (Z.ltb_spec (zlen p) 2) as [|Hl]; [by left|].
  destruct p as [|a [|b p]]; zlen_in Hl; try lia. clear Hl.
  inversion_clear Hb as [|? ? Ha Hb']. inversion_clear Hb' as [|? ? Hb Hp].
  assert (read_count (a :: b :: p) = Some (a + b * 256)) as Hc.
  { assert (read_count (a :: b :: p) = Some (u16 (a .| (b << 8)))) as -> by reflexivity. f_equal.
    rewrite lor_shift by (done || lia). euclid. }
  rewrite Hc. cbn [mbind option_bind]. change (zdrop 2 (a :: b :: p)) with p.
  destruct (Z.ltb_spec (zlen p / 4) (a + b * 256)) as [|Hn]; [by left|right].
  unfold in_range in Ha, Hb. pow_const. 
  destruct (take_suites (Z.to_nat (a + b * 256)) p Hp) as (ss & rest & Ep & Hlen & Hss & Hr).
  { pose proof (Z.div_mod (zlen p) 4). pose proof (Z.mod_pos_bound (zlen p) 4). lia. }
  assert (zlen ss = a + b * 256) as Hz by (unfold zlen; lia).
  exists ss, rest. rewrite <- Hlen, Ep, scan_suites_enc, Hz by done.
  split_and!; [|done|lia|done|done]. unfold enc16. cbn [app]. do 2 f_equal; [euclid|]. f_equal. euclid.
Qed.

Lemma enc_rsn_cons g ps aks rest :
  enc_rsn g ps aks rest =
  1 :: 0 :: rtw88WriteSuite g ++ enc16 (zlen ps) ++ enc_suites ps ++ enc16 (zlen aks) ++ enc_suites aks ++ rest.
Proof. done. Qed.

Definition rsn_selected (rsn : list Z) (g : Z) : Prop :=
  exists ps aks rest, rsn = enc_rsn g ps aks rest /\ suites_ok ps /\ suites_ok aks /\
    zlen ps < 2 ^ 16 /\ zlen aks < 2 ^ 16 /\
    WLAN_CIPHER_SUITE_CCMP ∈ ps /\ AKM_PSK ∈ aks /\
    (g = WLAN_CIPHER_SUITE_CCMP \/ g = WLAN_CIPHER_SUITE_TKIP).

Lemma select_complete rsn g : rsn_selected rsn g ->
  rtw88RsnSelectCcmpPsk rsn = Some (Some (WLAN_CIPHER_SUITE_CCMP, g)).
Proof.
  intros (ps & aks & rest & -> & Hps & Haks & Hl1 & Hl2 & Hc & Hp & Hg). rewrite enc_rsn_cons. unfold rtw88RsnSelectCcmpPsk.
  pose proof (zlen_nonneg ps). pose proof (zlen_nonneg aks). pose proof (zlen_nonneg rest).
  rewrite (proj2 (Z.ltb_ge _ _)) by (rewrite !zlen_cons, !zlen_app, !zlen_enc_suites, zlen_write_suite;
    change (zlen (enc16 _)) with 2; lia).
  match goal with |- context [ld (1 :: 0 :: ?l) 0] => change (ld (1 :: 0 :: l) 0) with (Some 1);
    change (ld (1 :: 0 :: l) 1) with (Some 0); change (zdrop 2 (1 :: 0 :: l)) with l end.
  cbn [mbind option_bind Z.eqb Pos.eqb negb orb].
  rewrite read_write_suite by (destruct Hg; subst; by vm_compute). cbn [mbind option_bind].
  rewrite zdrop_app_exact' by done. rewrite scan_list_enc by done. cbn [mbind option_bind].
  rewrite scan_list_enc by done. cbn [mbind option_bind].
  rewrite !bool_decide_true by done. cbn [negb orb]. by destruct Hg as [-> | ->].
Qed.

Lemma select_sound rsn : bytes_ok rsn ->
  exists r, rtw88RsnSelectCcmpPsk rsn = Some r /\
    forall pw g, r = Some (pw, g) -> pw = WLAN_CIPHER_SUITE_CCMP /\ rsn_selected rsn g.
Proof.
  intros Hb. unfold rtw88RsnSelectCcmpPsk. destruct (Z.ltb_spec (zlen rsn) 8) as [|Hl]; [by eexists|].
  destruct rsn as [|v0 [|v1 [|a [|b [|c [|d p]]]]]]; zlen_in Hl; try lia. clear Hl.
  change (ld (v0 :: ?l) 0) with (Some v0). change (ld (v0 :: v1 :: ?l) 1) with (Some v1). cbn [mbind option_bind].
  destruct (negb (v0 =? 1) || negb (v1 =? 0)) eqn:Ev; [by eexists|]. bool_hyps. subst v0 v1.
  change (zdrop 2 (1 :: 0 :: ?l)) with l.
  repeat match goal with H : bytes_ok (_ :: _) |- _ => inversion_clear H end.
  rewrite read_suite_val by done. cbn [mbind option_bind].
  set (g := d + c * 2 ^ 8 + b * 2 ^ 16 + a * 2 ^ 24).
  destruct (write_read_suite a b c d [] g) as [Hw Hg]; [done..|by apply read_suite_val|].
  change (zdrop 4 (a :: b :: c :: d :: p)) with p.
  destruct (scan_list_inv p WLAN_CIPHER_SUITE_CCMP) as [->|(ps & p1 & Ep & Hps & Hl1 & Hb1 & ->)]; [done|by eexists|].
  cbn [mbind option_bind].
  destruct (scan_list_inv p1 AKM_PSK) as [->|(aks & rest & Ep1 & Haks & Hl2 & Hb2 & ->)]; [done|by eexists|].
  cbn [mbind option_bind]. do 2 (case_bool_decide; cbn [negb orb]; [|by eexists]).
  destruct (negb (g =? _) && _) eqn:Eg; [by eexists|]. eexists. split; [done|]. intros pw g' [= <- <-]. split; [done|].
  exists ps, aks, rest. rewrite enc_rsn_cons, Hw, Ep, Ep1. split_and!; try done.
  apply andb_false_iff in Eg as [E%negb_false_iff%Z.eqb_eq|E%negb_false_iff%Z.eqb_eq]; [by left|by right].
Qed.

(** ** Properties *)

(** The RSN selection is exact and never reads outside the element.  For
    every byte string the parser returns; it accepts with group cipher [g]
    exactly when the string is a version-1 RSN body whose pairwise list
    contains CCMP, whose key-management list contains PSK, and whose group
    cipher is [g], either CCMP or TKIP; trailing bytes are ignored and every
    truncated or overlong count is rejected. *)
Theorem rsn_select_exact rsn :
  bytes_ok rsn ->
  (exists r, rtw88RsnSelectCcmpPsk rsn = Some r) /\
  forall pw g, rtw88RsnSelectCcmpPsk rsn = Some (Some (pw, g)) <->
    pw = WLAN_CIPHER_SUITE_CCMP /\
    exists ps aks rest, rsn = enc_rsn g ps aks rest /\ suites_ok ps /\ suites_ok aks /\
      zlen ps < 2 ^ 16 /\ zlen aks < 2 ^ 16 /\ WLAN_CIPHER_SUITE_CCMP ∈ ps /\ AKM_PSK ∈ aks /\
      (g = WLAN_CIPHER_SUITE_CCMP \/ g = WLAN_CIPHER_SUITE_TKIP).
Proof.
  intros Hb. destruct (select_sound rsn Hb) as (r & E & Hr). split; [by exists r|]. intros pw g. split.
  - intros E2. rewrite E in E2. injection E2 as ->. by apply Hr.
  - intros [-> H]. by apply select_complete.
Qed.

Lemma rsn_select_exact_witness :
  let rsn := [1; 0; 0; 15; 172; 2; 2; 0; 0; 15; 172; 2; 0; 15; 172; 4; 1; 0; 0; 15; 172; 2; 12; 0] in
  bytes_ok rsn /\ rtw88RsnSelectCcmpPsk rsn = Some (Some (WLAN_CIPHER_SUITE_CCMP, WLAN_CIPHER_SUITE_TKIP)) /\
  WLAN_CIPHER_SUITE_CCMP = WLAN_CIPHER_SUITE_CCMP /\ rsn_selected rsn WLAN_CIPHER_SUITE_TKIP.
Proof.
  intros rsn. assert (bytes_ok rsn) as B by (repeat constructor; by vm_compute). split; [exact B|].
  assert (rtw88RsnSelectCcmpPsk rsn = Some (Some (WLAN_CIPHER_SUITE_CCMP, WLAN_CIPHER_SUITE_TKIP))) as E by by vm_compute.
  split; [exact E|]. exact (proj1 (proj2 (rsn_select_exact rsn B) _ _) E).
Defined.

(** what the driver sends it would select.  The element built for an
    association request is 22 bytes: identifier, length 20, and a body that
    the parser accepts with CCMP and the group cipher asked for (CCMP unless
    TKIP was asked for). *)
Theorem rsn_build_select g :
  exists body, rtw88BuildSelectedRsnIe g = WLAN_EID_RSN :: zlen body :: body /\ zlen body = 20 /\
    rtw88RsnSelectCcmpPsk body = Some (Some (WLAN_CIPHER_SUITE_CCMP,
      if g =? WLAN_CIPHER_SUITE_TKIP then WLAN_CIPHER_SUITE_TKIP else WLAN_CIPHER_SUITE_CCMP)).
Proof.
  exists (zdrop 2 (rtw88BuildSelectedRsnIe g)). unfold rtw88BuildSelectedRsnIe.
  destruct (Z.eqb_spec g WLAN_CIPHER_SUITE_TKIP) as [->|Hg]; cbn [negb]; by vm_compute.
Qed.
