(* ===== verification/Bss.v ===== *)
(** * Scan results: [processScanResult], the BSS list, and its wire format

    From [src/src/kext/RTW88IEEE80211.cpp]: the parsing of beacons and probe
    responses, the BSS list under [_bssLock], [cmdGetBSSList] and
    [copyScanBSS]; from [src/ctl/main.c]: the reader [cmd_list] of what
    [cmdGetBSSList] wrote.  The list links are the list itself. *)

From S2P Require Import Prelude Rsn.

Definition WLAN_EID_SSID : Z := 0.
Definition WLAN_EID_DS_PARAMS : Z := 3.
Definition WLAN_EID_HT_OPERATION : Z := 61.
Definition WLAN_EID_VENDOR_SPECIFIC : Z := 221.
Definition sizeof_hdr_3addr : Z := 24.
Definition sizeof_ies : Z := 512.

Record RTW88BSS := mk_bss {
  ssid : list Z;
  ssid_len : Z;
  bssid : list Z;
  rssi : Z;
  freq : Z;
  channel : Z;
  capabilities : Z;
  beacon_interval : Z;
  cipher : Z;
  group_cipher : Z;
  akm : Z;
  last_seen_scan : Z;
  ies : list Z;
  ies_len : Z
}.

Definition zero_bss : RTW88BSS :=
  mk_bss (zeros 33) 0 (zeros 6) 0 0 0 0 0 0 0 0 0 (zeros sizeof_ies) 0.

Definition with_ssid (b : RTW88BSS) (s : list Z) (n : Z) : RTW88BSS :=
  mk_bss s n (bssid b) (rssi b) (freq b) (channel b) (capabilities b) (beacon_interval b)
         (cipher b) (group_cipher b) (akm b) (last_seen_scan b) (ies b) (ies_len b).
Definition with_channel (b : RTW88BSS) (c : Z) : RTW88BSS :=
  mk_bss (ssid b) (ssid_len b) (bssid b) (rssi b) (freq b) c (capabilities b) (beacon_interval b)
         (cipher b) (group_cipher b) (akm b) (last_seen_scan b) (ies b) (ies_len b).
Definition with_security (b : RTW88BSS) (c g a : Z) : RTW88BSS :=
  mk_bss (ssid b) (ssid_len b) (bssid b) (rssi b) (freq b) (channel b) (capabilities b) (beacon_interval b)
         c g a (last_seen_scan b) (ies b) (ies_len b).
Definition with_ies (b : RTW88BSS) (i : list Z) (n : Z) : RTW88BSS :=
  mk_bss (ssid b) (ssid_len b) (bssid b) (rssi b) (freq b) (channel b) (capabilities b) (beacon_interval b)
         (cipher b) (group_cipher b) (akm b) (last_seen_scan b) i n.
Definition with_radio (b : RTW88BSS) (s f gen : Z) : RTW88BSS :=
  mk_bss (ssid b) (ssid_len b) (bssid b) s f (channel b) (capabilities b) (beacon_interval b)
         (cipher b) (group_cipher b) (akm b) gen (ies b) (ies_len b).

(** ** Parsing *)

(** The [if]-chain on one element; [body] points at its identifier. *)
Definition ie_fields (body : list Z) (id len : Z) (bss : RTW88BSS) : option RTW88BSS :=
  if (id =? WLAN_EID_SSID) && (0 <? len) && (len <=? 32) then
    v ← ldn body 2 len; s ← stn (ssid bss) 0 v; Some (with_ssid bss s len)
  else if (id =? WLAN_EID_DS_PARAMS) && (1 <=? len) then
    c ← ld body 2; Some (with_channel bss c)
  else if (id =? WLAN_EID_HT_OPERATION) && (1 <=? len) && (channel bss =? 0) then
    c ← ld body 2; Some (with_channel bss c)
  else if id =? WLAN_EID_RSN then
    v ← ldn body 2 len;
    r ← rtw88RsnSelectCcmpPsk v;
    match r with
    | Some (pairwise, group) => Some (with_security bss pairwise group AKM_PSK)
    | None => Some bss
    end
  else if (id =? WLAN_EID_VENDOR_SPECIFIC) && (8 <=? len) then
    b2 ← ld body 2; b3 ← ld body 3; b4 ← ld body 4; b5 ← ld body 5;
    if (b2 =? 0x00) && (b3 =? 0x50) && (b4 =? 0xf2) && (b5 =? 0x01) && (cipher bss =? 0)
    then Some (with_security bss WLAN_CIPHER_SUITE_TKIP WLAN_CIPHER_SUITE_TKIP AKM_PSK)
    else Some bss
  else Some bss.

(** Copy all IEs *)
Definition ie_copy (body : list Z) (len : Z) (bss : RTW88BSS) : option RTW88BSS :=
  let copy := u16 (2 + len) in
  if ies_len bss + copy <? sizeof_ies then
    v ← ldn body 0 copy; i ← stn (ies bss) (ies_len bss) v;
    Some (with_ies bss i (u16 (ies_len bss + copy)))
  else Some bss.

(** [while (body + 2 <= end)] *)
Fixpoint walk_ies (fuel : nat) (body : list Z) (bss : RTW88BSS) : option RTW88BSS :=
  if zlen body <? 2 then Some bss
  else match fuel with
       | O => None
       | S k =>
           id ← ld body 0;
           len ← ld body 1;
           if zlen body <? 2 + len then Some bss
           else
             bss ← ie_fields body id len bss;
             bss ← ie_copy body len bss;
             walk_ies k (zdrop (2 + len) body) bss
       end.

(** The channel from the receive frequency, as an [int] division. *)
Definition freq_channel (bss : RTW88BSS) : RTW88BSS :=
  if (channel bss =? 0) && negb (freq bss =? 0) then
    let f := freq bss in
    if f =? 2484 then with_channel bss 14
    else if (2412 <=? f) && (f <=? 2472) then with_channel bss (u8 ((f - 2407) / 5))
    else if (5000 <=? f) && (f <=? 5900) then with_channel bss (u8 ((f - 5000) / 5))
    else bss
  else bss.

(** [None]: frame too short.  [gen] is [_scanGeneration]; [signal] and
    [rxfreq] come from the receive status. *)
Definition parse_beacon (data : list Z) (signal rxfreq gen : Z) : option (option RTW88BSS) :=
  if zlen data <? sizeof_hdr_3addr + 12 then Some None
  else
    let body := zdrop 12 (zdrop sizeof_hdr_3addr data) in
    b32 ← ld data 32; b33 ← ld data 33; b34 ← ld data 34; b35 ← ld data 35;
    addr3 ← ldn data 16 6;
    let bss := mk_bss (zeros 33) 0 addr3 0 0 0 (b34 .| u16 (b35 << 8)) (b32 .| u16 (b33 << 8))
                      0 0 0 0 (zeros sizeof_ies) 0 in
    bss ← walk_ies (length body) body bss;
    Some (Some (freq_channel (with_radio bss signal rxfreq gen))).

(** ** The list *)

Record bss_table := mk_table { bssList : list RTW88BSS; bssCount : Z }.

(** The search loop: the entry of the same BSSID is overwritten in place. *)
Fixpoint bss_update (bss : RTW88BSS) (l : list RTW88BSS) : option (list RTW88BSS) :=
  match l with
  | [] => None
  | e :: l =>
      if bool_decide (bssid e = bssid bss) then Some (bss :: l)
      else l' ← bss_update bss l; Some (e :: l')
  end.

Definition bss_add (bss : RTW88BSS) (t : bss_table) : bss_table :=
  match bss_update bss (bssList t) with
  | Some l => mk_table l (bssCount t)
  | None => mk_table (bss :: bssList t) (u32 (bssCount t + 1))
  end.

(** [alloc]: the [IOMallocZero] succeeds. *)
Definition processScanResult (alloc : bool) (data : list Z) (signal rxfreq gen : Z) (t : bss_table)
    : option bss_table :=
  if alloc
  then r ← parse_beacon data signal rxfreq gen;
       Some (match r with Some bss => bss_add bss t | None => t end)
  else Some t.

(** [while (b && index--) b = b->next;] *)
Definition copyScanBSS (index : Z) (t : bss_table) : option RTW88BSS := ld (bssList t) index.

(** ** The wire format *)

(** One field: [memcpy(buf + written, v, n); written += n]. *)
Definition put (bw : list Z * Z) (v : list Z) : option (list Z * Z) :=
  b ← stn (fst bw) (snd bw) v; Some (b, u32 (snd bw + zlen v)).

Definition entry_sz (b : RTW88BSS) : Z := 1 + ssid_len b + 6 + 2 + 1 + 4.

Definition put_entry (bw : list Z * Z) (b : RTW88BSS) : option (list Z * Z) :=
  bw ← put bw [ssid_len b];
  s ← ldn (ssid b) 0 (ssid_len b);
  bw ← put bw s;
  a ← ldn (bssid b) 0 6;
  bw ← put bw a;
  bw ← put bw [(rssi b >> 8) .& 0xff];
  bw ← put bw [rssi b .& 0xff];
  bw ← put bw [channel b];
  put bw (le_bytes 4 (cipher b)).

Fixpoint put_entries (max : Z) (bw : list Z * Z) (l : list RTW88BSS) : option (list Z * Z) :=
  match l with
  | [] => Some bw
  | b :: l =>
      if max <? u32 (snd bw + entry_sz b) then Some bw
      else bw ← put_entry bw b; put_entries max bw l
  end.

(** [buf] is the caller's buffer of [*len] bytes; the new [*len]. *)
Definition cmdGetBSSList (t : bss_table) (buf : list Z) (len : Z) : option (list Z * Z) :=
  let max := if 4095 <? len then 4095 else len in
  if max <? 4 then Some (buf, 0)
  else
    bw ← put_entries max (buf, 4) (bssList t);
    b ← stn (fst bw) 0 (le_bytes 4 (snd bw));
    Some (b, snd bw).

(** ** The reader, [cmd_list] of [src/ctl/main.c] *)

Record listed := mk_listed {
  l_ssid : list Z;
  l_bssid : list Z;
  l_rssi : Z;
  l_ch : Z;
  l_cipher : Z
}.

Fixpoint read_entries (fuel : nat) (p : list Z) : option (list listed) :=
  if zlen p <? 1 then Some []
  else match fuel with
       | O => None
       | S k =>
           n ← ld p 0;
           let p := zdrop 1 p in
           if zlen p <? n + 6 + 2 + 1 + 4 then Some []
           else
             v ← ldn p 0 n; s ← stn (zeros 33) 0 v;
             let p := zdrop n p in
             a ← ldn p 0 6;
             let p := zdrop 6 p in
             r0 ← ld p 0; r1 ← ld p 1;
             let p := zdrop 2 p in
             ch ← ld p 0;
             let p := zdrop 1 p in
             c ← ldn p 0 4;
             rest ← read_entries k (zdrop 4 p);
             Some (mk_listed s a (signed 16 ((r0 << 8) .| r1)) ch (le_val c) :: rest)
       end.

(** [len] is what the call reported, at most the size of [buf]. *)
Definition cmd_list (buf : list Z) (len : Z) : option (list listed) :=
  if len <? 4 then Some []
  else
    e ← ldn buf 0 4;
    let explicit_len := if len <? le_val e then len else le_val e in
    read_entries (length buf) (zdrop 4 (ztake explicit_len buf)).

(** ** The record invariant *)

Definition bss_wf (b : RTW88BSS) : Prop :=
  zlen (ssid b) = 33 /\ 0 <= ssid_len b <= 32 /\ bytes_ok (ssid b) /\
  zlen (bssid b) = 6 /\ bytes_ok (bssid b) /\
  is_byte (channel b) /\ in_range 32 (cipher b) /\ in_range 32 (group_cipher b) /\
  zlen (ies b) = sizeof_ies /\ 0 <= ies_len b < sizeof_ies /\ bytes_ok (ies b) /\ ld (ssid b) 32 = Some 0.

Lemma bytes_zeros n : bytes_ok (zeros n).
Proof. apply Forall_replicate. by vm_compute. Qed.

Lemma bytes_ldn b i n v : bytes_ok b -> ldn b i n = Some v -> bytes_ok v.
Proof. intros Hb E. apply ldn_inv in E as (_ & _ & _ & -> & _). by apply Forall_take, Forall_drop. Qed.

Lemma bytes_stn b i v b' : bytes_ok b -> bytes_ok v -> stn b i v = Some b' -> bytes_ok b'.
Proof.
  intros Hb Hv. unfold stn. destruct (_ && _); [|done]. intros [= <-].
  apply Forall_app. split; [by apply Forall_take|]. apply Forall_app. split; [done|by apply Forall_drop].
Qed.

(** A write leaves what lies past it. *)
Lemma ld_stn_after b i (v b' : list Z) j : stn b i v = Some b' -> i + zlen v <= j -> ld b' j = ld b j.
Proof.
  intros E Hj. pose proof E as E'. unfold stn in E. destruct ((0 <=? i) && (i + zlen v <=? zlen b)) eqn:El; [|done]. bool_hyps. injection E as <-.
  pose proof (zlen_nonneg v). unfold ld. destruct (Z.leb_spec 0 j); [|done]. unfold ztake, zdrop, zlen in *.
  rewrite lookup_app_r by (rewrite length_take; lia). rewrite length_take, lookup_app_r by lia. rewrite lookup_drop. f_equal. lia.
Qed.

Lemma bytes_ld b i x : bytes_ok b -> ld b i = Some x -> is_byte x.
Proof. intros Hb. unfold ld. destruct (0 <=? i); [|done]. apply (Forall_lookup_1 _ _ _ _ Hb). Qed.

Lemma ie_fields_ok body id len bss :
  bytes_ok body -> is_byte len -> 2 + len <= zlen body -> bss_wf bss ->
  exists bss', ie_fields body id len bss = Some bss' /\ bss_wf bss' /\ ies bss' = ies bss /\ ies_len bss' = ies_len bss.
Proof.
  intros Hb Hl Hlen W. pose proof W as (Ws & Wl & Wsb & Wb & Wbb & Wc & Wci & Wg & Wi & Wil & Wie & Wz).
  unfold in_range in Hl. unfold ie_fields.
  destruct ((id =? WLAN_EID_SSID) && _ && _) eqn:E1; bool_hyps.
  { rewrite ldn_Some by lia. cbn [mbind option_bind]. set (v := ztake len (zdrop 2 body)).
    assert (zlen v = len) as Hv by (unfold v; zlen). assert (bytes_ok v) as Hvb by (by apply Forall_take, Forall_drop).
    destruct (stn (ssid bss) 0 v) as [s|] eqn:Es; [|by rewrite stn_Some in Es by lia]. cbn [mbind option_bind].
    eexists. split; [done|]. pose proof (stn_zlen _ _ _ _ Es) as Hz. pose proof (bytes_stn _ _ _ _ Wsb Hvb Es).
    split; [|done]. split_and!; cbn; try done; try lia. rewrite <- Wz. refine (ld_stn_after _ 0 v s 32 Es _). lia. }
  destruct ((id =? WLAN_EID_DS_PARAMS) && _) eqn:E2; bool_hyps.
  { destruct (ld_Some body 2) as [c Ec]; [lia|]. rewrite Ec. cbn [mbind option_bind].
    eexists. split; [done|]. split; [|done]. split_and!; cbn; try done; try lia. by apply (bytes_ld body 2). }
  destruct ((id =? WLAN_EID_HT_OPERATION) && _ && _) eqn:E3; bool_hyps.
  { destruct (ld_Some body 2) as [c Ec]; [lia|]. rewrite Ec. cbn [mbind option_bind].
    eexists. split; [done|]. split; [|done]. split_and!; cbn; try done; try lia. by apply (bytes_ld body 2). }
  destruct (id =? WLAN_EID_RSN).
  { rewrite ldn_Some by lia. cbn [mbind option_bind].
    destruct (select_sound (ztake len (zdrop 2 body))) as (r & -> & Hr); [by apply Forall_take, Forall_drop|].
    cbn [mbind option_bind]. destruct r as [[pw g]|]; [|by exists bss].
    destruct (Hr pw g eq_refl) as [-> (? & ? & ? & _ & _ & _ & _ & _ & _ & _ & Hg)].
    eexists. split; [done|]. split; [|done]. split_and!; cbn; try done; try lia. by destruct Hg as [-> | ->]. }
  destruct ((id =? WLAN_EID_VENDOR_SPECIFIC) && _) eqn:E5; bool_hyps; [|by exists bss].
  destruct (ld_Some body 2) as [c2 ->]; [lia|]. destruct (ld_Some body 3) as [c3 ->]; [lia|].
  destruct (ld_Some body 4) as [c4 ->]; [lia|]. destruct (ld_Some body 5) as [c5 ->]; [lia|]. cbn [mbind option_bind].
  destruct (_ && (cipher bss =? 0)); [|by exists bss].
  eexists. split; [done|]. split; [|done]. split_and!; cbn; try done; lia.
Qed.

Lemma ie_copy_ok body len bss :
  bytes_ok body -> is_byte len -> 2 + len <= zlen body -> bss_wf bss ->
  exists bss', ie_copy body len bss = Some bss' /\ bss_wf bss' /\ ssid bss' = ssid bss /\ ssid_len bss' = ssid_len bss /\
    forall rec, ztake (ies_len bss) (ies bss) = rec -> zlen rec = ies_len bss ->
      ztake (ies_len bss') (ies bss') =
        (if ies_len bss + (2 + len) <? sizeof_ies then rec ++ ztake (2 + len) body else rec) /\
      ies_len bss' = zlen (if ies_len bss + (2 + len) <? sizeof_ies then rec ++ ztake (2 + len) body else rec).
Proof.
  intros Hb Hl Hlen W. pose proof W as (Ws & Wl & Wsb & Wb & Wbb & Wc & Wci & Wg & Wi & Wil & Wie & Wz).
  unfold ie_copy. unfold in_range in Hl. rewrite (wrap_small 16) by (unfold in_range; lia).
  destruct (Z.ltb_spec (ies_len bss + (2 + len)) sizeof_ies) as [Hfit|]; [|exists bss; split_and!; done].
  rewrite ldn_Some by lia. cbn [mbind option_bind]. rewrite zdrop_0.
  set (v := ztake (2 + len) body). assert (zlen v = 2 + len) as Hv by (unfold v; zlen).
  unfold sizeof_ies in *. rewrite (wrap_small 16) by (unfold in_range; lia).
  destruct (stn (ies bss) (ies_len bss) v) as [i|] eqn:Ei; [|by rewrite stn_Some in Ei by lia]. cbn [mbind option_bind].
  eexists. split; [done|]. pose proof (stn_zlen _ _ _ _ Ei) as Hz. split; [|split; [done|split; [done|]]].
  - pose proof (bytes_stn _ _ _ _ Wie (Forall_take _ _ _ Hb) Ei). split_and!; cbn; try done; unfold sizeof_ies; lia.
  - intros rec Hrec Hrl. destruct (stn_prefix (ies bss) (ies_len bss) v rec Hrec Hrl) as (b' & Eb & _ & Hp); [lia|].
    rewrite Ei in Eb. injection Eb as <-. cbn. rewrite Hv in Hp. rewrite zlen_app, Hv. split; [done|lia].
Qed.

Lemma walk_ies_ok fuel : forall body bss,
  bytes_ok body -> (length body <= fuel)%nat -> bss_wf bss ->
  exists bss', walk_ies fuel body bss = Some bss' /\ bss_wf bss'.
Proof.
  induction fuel as [|fuel IH]; intros body bss Hb Hf W; cbn [walk_ies].
  { destruct body; [by exists bss|cbn in Hf; lia]. }
  destruct (Z.ltb_spec (zlen body) 2) as [|H2]; [by exists bss|].
  destruct (ld_Some body 0) as [id Eid]; [lia|]. destruct (ld_Some body 1) as [len El]; [lia|].
  rewrite Eid, El. cbn [mbind option_bind]. pose proof (bytes_ld _ _ _ Hb El) as Hl.
  destruct (Z.ltb_spec (zlen body) (2 + len)) as [|Hlen]; [by exists bss|].
  destruct (ie_fields_ok body id len bss Hb Hl Hlen W) as (b1 & -> & W1 & _). cbn [mbind option_bind].
  destruct (ie_copy_ok body len b1 Hb Hl Hlen W1) as (b2 & -> & W2 & _). cbn [mbind option_bind].
  apply IH; [by apply Forall_drop| |done]. unfold zdrop. rewrite length_drop. unfold in_range, zlen in *. lia.
Qed.

Lemma freq_channel_ok bss : bss_wf bss -> bss_wf (freq_channel bss).
Proof.
  intros W. pose proof W as (Ws & Wl & Wsb & Wb & Wbb & Wc & Wci & Wg & Wi & Wil & Wie & Wz).
  unfold freq_channel. destruct (_ && _); [|done].
  repeat case_match; try done; (split_and!; cbn; try done; try lia; try (apply wrap_range; lia)); by vm_compute.
Qed.

Lemma parse_beacon_ok data signal rxfreq gen :
  bytes_ok data -> exists r, parse_beacon data signal rxfreq gen = Some r /\ forall bss, r = Some bss -> bss_wf bss.
Proof.
  intros Hb. unfold parse_beacon, sizeof_hdr_3addr. destruct (Z.ltb_spec (zlen data) (24 + 12)) as [|Hl]; [by eexists|].
  destruct (ld_Some data 32) as [b32 ->]; [lia|]. destruct (ld_Some data 33) as [b33 ->]; [lia|].
  destruct (ld_Some data 34) as [b34 ->]; [lia|]. destruct (ld_Some data 35) as [b35 ->]; [lia|].
  rewrite ldn_Some by lia. cbn [mbind option_bind].
  set (b0 := mk_bss _ _ _ _ _ _ _ _ _ _ _ _ _ _). set (body := zdrop 12 _).
  assert (bss_wf b0) as W0.
  { split_and!; cbn; try done; try apply bytes_zeros; try lia; [zlen|by apply Forall_take, Forall_drop]. }
  assert (bytes_ok body) as Hbody by (by apply Forall_drop, Forall_drop).
  destruct (walk_ies_ok (length body) body b0 Hbody ltac:(lia) W0) as (b1 & -> & W1).
  cbn [mbind option_bind]. eexists. split; [done|]. intros bss [= <-]. apply freq_channel_ok. exact W1.
Qed.

(** ** The list invariant *)

Definition table_wf (t : bss_table) : Prop :=
  Forall bss_wf (bssList t) /\ NoDup (map bssid (bssList t)) /\ bssCount t = u32 (zlen (bssList t)).

Lemma bss_update_Some bss l : forall l', bss_update bss l = Some l' ->
  exists l1 e l2, l = l1 ++ e :: l2 /\ l' = l1 ++ bss :: l2 /\ bssid e = bssid bss.
Proof.
  induction l as [|e l IH]; intros l'; cbn [bss_update]; [done|]. case_bool_decide as He.
  - intros [= <-]. by exists [], e, l.
  - destruct (bss_update bss l) as [l0|]; [|done]. cbn [mbind option_bind]. intros [= <-].
    destruct (IH l0 eq_refl) as (l1 & e1 & l2 & -> & -> & H). by exists (e :: l1), e1, l2.
Qed.

Lemma bss_update_None bss l : bss_update bss l = None -> bssid bss ∉ map bssid l.
Proof.
  induction l as [|e l IH]; cbn [bss_update map]; [intros _; apply not_elem_of_nil|].
  case_bool_decide; [done|]. destruct (bss_update bss l); [done|]. intros _. rewrite not_elem_of_cons. auto.
Qed.

Lemma bss_add_wf bss t : bss_wf bss -> table_wf t -> table_wf (bss_add bss t).
Proof.
  intros W (Hf & Hn & Hc). unfold bss_add. destruct (bss_update bss (bssList t)) as [l'|] eqn:E.
  - apply bss_update_Some in E as (l1 & e & l2 & El & -> & He). unfold table_wf. cbn [bssList bssCount].
    rewrite El in Hf, Hn, Hc. rewrite map_app in *. cbn [map] in *. rewrite He in Hn. split_and!; [|done|].
    + apply Forall_app in Hf as [H1 H2]. inversion_clear H2. apply Forall_app. split; [done|by constructor].
    + rewrite Hc. f_equal. by rewrite !zlen_app, !zlen_cons.
  - apply bss_update_None in E. unfold table_wf. cbn [bssList bssCount map]. split_and!; [by constructor|by constructor|].
    rewrite Hc, wrap_add_l, zlen_cons. f_equal. lia.
Qed.

(** The list on its own: the counter is 32 bits wide. *)
Definition list_wf (l : list RTW88BSS) : Prop := Forall bss_wf l /\ NoDup (map bssid l).

Lemma bss_add_list_wf bss t : bss_wf bss -> list_wf (bssList t) -> list_wf (bssList (bss_add bss t)).
Proof.
  intros W [Hf Hn]. set (t' := mk_table (bssList t) (u32 (zlen (bssList t)))).
  assert (bssList (bss_add bss t) = bssList (bss_add bss t')) as -> by (unfold bss_add; cbn [bssList t']; by destruct (bss_update bss (bssList t))).
  destruct (bss_add_wf bss t' W) as (H1 & H2 & _); [by split_and!|by split].
Qed.

(** ** Elements and their encoding *)

Definition enc_ie (e : Z * list Z) : list Z := fst e :: zlen (snd e) :: snd e.
Definition enc_ies (es : list (Z * list Z)) : list Z := concat (map enc_ie es).
Definition ie_ok (e : Z * list Z) : Prop := is_byte (fst e) /\ bytes_ok (snd e) /\ zlen (snd e) < 256.

(** A tail that holds no further complete element. *)
Definition no_element (junk : list Z) : Prop :=
  zlen junk < 2 \/ exists id len rest, junk = id :: len :: rest /\ zlen rest < len.

(** The SSID the elements announce: the last one of 1 to 32 bytes. *)
Definition announced (acc : list Z) (e : Z * list Z) : list Z :=
  if (fst e =? WLAN_EID_SSID) && (0 <? zlen (snd e)) && (zlen (snd e) <=? 32) then snd e else acc.

Lemma ie_fields_ssid id v tl bss bss' :
  zlen (ssid bss) = 33 -> ie_fields (enc_ie (id, v) ++ tl) id (zlen v) bss = Some bss' ->
  ztake (ssid_len bss') (ssid bss') = announced (ztake (ssid_len bss) (ssid bss)) (id, v).
Proof.
  intros H33. unfold ie_fields, announced. cbn [fst snd].
  destruct ((id =? WLAN_EID_SSID) && _ && _) eqn:E1.
  - change (enc_ie (id, v) ++ tl) with ([id; zlen v] ++ v ++ tl). rewrite (ldn_app_exact [id; zlen v] v) by done.
    cbn [mbind option_bind]. bool_hyps. destruct (stn_prefix (ssid bss) 0 v [] eq_refl eq_refl) as (s & -> & _ & Hp); [lia|].
    cbn [mbind option_bind]. intros [= <-]. exact Hp.
  - intros E. assert (ssid bss' = ssid bss /\ ssid_len bss' = ssid_len bss) as [-> ->]; [|done].
    repeat match goal with
    | H : context [ld ?b ?i] |- _ => destruct (ld b i); cbn [mbind option_bind] in H
    | H : context [ldn ?b ?i ?n] |- _ => destruct (ldn b i n); cbn [mbind option_bind] in H
    | H : context [rtw88RsnSelectCcmpPsk ?v] |- _ => destruct (rtw88RsnSelectCcmpPsk v) as [[[? ?]|]|]; cbn [mbind option_bind] in H
    | H : context [if ?b then _ else _] |- _ => destruct b
    | H : Some _ = Some _ |- _ => injection H as <-
    end; done.
Qed.

Lemma walk_ies_record es : forall fuel junk bss rec,
  Forall ie_ok es -> bytes_ok junk -> no_element junk -> (length (enc_ies es ++ junk) <= fuel)%nat ->
  bss_wf bss -> ztake (ies_len bss) (ies bss) = rec -> zlen rec = ies_len bss ->
  zlen rec + zlen (enc_ies es) < sizeof_ies ->
  exists bss', walk_ies fuel (enc_ies es ++ junk) bss = Some bss' /\
    ztake (ies_len bss') (ies bss') = rec ++ enc_ies es /\
    ztake (ssid_len bss') (ssid bss') = fold_left announced es (ztake (ssid_len bss) (ssid bss)).
Proof.
  induction es as [|[id v] es IH]; intros fuel junk bss rec He Hj Hjunk Hf W Hrec Hrl Hfit.
  - exists bss. rewrite app_nil_r. cbn [enc_ies map concat app fold_left]. split; [|done].
    destruct Hjunk as [Hs|(i & n & r & -> & Hn)].
    + destruct fuel; cbn [walk_ies]; by rewrite (proj2 (Z.ltb_lt _ _) Hs).
    + destruct fuel; [cbn in Hf; lia|]. cbn [walk_ies]. pose proof (zlen_nonneg r).
      rewrite (proj2 (Z.ltb_ge _ _)) by (zlen). change (ld (i :: n :: r) 0) with (Some i).
      change (ld (i :: n :: r) 1) with (Some n). cbn [mbind option_bind]. by rewrite (proj2 (Z.ltb_lt _ _)) by (zlen).
  - inversion_clear He as [|? ? (Hid & Hv & Hvl) He']. cbn [fst snd] in *.
    change (enc_ies ((id, v) :: es)) with (enc_ie (id, v) ++ enc_ies es) in *. rewrite <- app_assoc in *.
    set (body := enc_ie (id, v) ++ enc_ies es ++ junk) in *.
    assert (zlen (enc_ie (id, v)) = 2 + zlen v) as Hel by (unfold enc_ie; cbn [fst snd]; zlen).
    pose proof (zlen_nonneg v). pose proof (zlen_nonneg (enc_ies es)). pose proof (zlen_nonneg junk).
    assert (zlen body = 2 + zlen v + zlen (enc_ies es) + zlen junk) as Hbl by (unfold body; rewrite !zlen_app, Hel; lia).
    assert (bytes_ok body) as Hbb.
    { unfold body, enc_ie. cbn [fst snd app]. repeat constructor; try apply Hid; try lia. apply Forall_app. split; [done|].
      apply Forall_app. split; [|done]. apply Forall_concat, Forall_map. eapply Forall_impl; [exact He'|].
      intros [i w] (Hi & Hw & Hwl). cbn [fst snd] in *. pose proof (zlen_nonneg w).
      unfold enc_ie. cbn [fst snd]. repeat constructor; try apply Hi; try lia. done. }
    destruct fuel as [|fuel]; [unfold zlen in Hbl; lia|]. cbn [walk_ies].
    rewrite (proj2 (Z.ltb_ge _ _)) by lia. change (ld body 0) with (Some id). change (ld body 1) with (Some (zlen v)).
    cbn [mbind option_bind]. rewrite (proj2 (Z.ltb_ge _ _)) by lia.
    assert (is_byte (zlen v)) as Hbv by (unfold in_range; lia).
    destruct (ie_fields_ok body id (zlen v) bss Hbb Hbv ltac:(lia) W) as (b1 & E1 & W1 & Hi1 & Hl1).
    rewrite E1. cbn [mbind option_bind]. apply ie_fields_ssid in E1 as Hs1; [|apply W].
    destruct (ie_copy_ok body (zlen v) b1 Hbb Hbv ltac:(lia) W1) as (b2 & -> & W2 & Hs2 & Hsl2 & Hcopy). cbn [mbind option_bind].
    rewrite Hi1, Hl1 in Hcopy. destruct (Hcopy rec Hrec Hrl) as [Ht Hn].
    rewrite zlen_app, Hel in Hfit. rewrite (proj2 (Z.ltb_lt _ _)) in Ht, Hn by lia.
    assert (ztake (2 + zlen v) body = enc_ie (id, v)) as Hbt by (by apply ztake_app_exact').
    assert (zdrop (2 + zlen v) body = enc_ies es ++ junk) as Hbd by (by apply zdrop_app_exact').
    rewrite Hbt in Ht, Hn. rewrite Hbd.
    destruct (IH fuel junk b2 (rec ++ enc_ie (id, v)) He' Hj Hjunk) as (b3 & E3 & Hr3 & Hs3); try done.
    + rewrite length_app. unfold zlen in Hbl. lia.
    + rewrite zlen_app, Hel. lia.
    + exists b3. split; [done|]. rewrite Hr3, <- app_assoc. split; [done|]. rewrite Hs3, Hs2, Hsl2, Hs1. done.
Qed.

(** ** The wire format, written and read *)

Definition enc_entry (b : RTW88BSS) : list Z :=
  [ssid_len b] ++ ztake (ssid_len b) (ssid b) ++ bssid b ++
  [(rssi b >> 8) .& 0xff] ++ [rssi b .& 0xff] ++ [channel b] ++ le_bytes 4 (cipher b).

(** The entries that fit from position [pos], in list order up to the first
    that does not. *)
Fixpoint fitting (max pos : Z) (l : list RTW88BSS) : list RTW88BSS :=
  match l with
  | [] => []
  | b :: l => if max <? pos + entry_sz b then [] else b :: fitting max (pos + entry_sz b) l
  end.

Lemma fitting_Forall (P : RTW88BSS -> Prop) max l : forall pos, Forall P l -> Forall P (fitting max pos l).
Proof.
  induction l as [|b l IH]; intros pos Hl; cbn [fitting]; [done|]. destruct (_ <? _); [done|].
  inversion_clear Hl. constructor; auto.
Qed.

Definition listed_of (b : RTW88BSS) : listed :=
  mk_listed (ztake (ssid_len b) (ssid b) ++ zeros (33 - ssid_len b)) (bssid b) (rssi b) (channel b) (cipher b).

Definition entry_ok (b : RTW88BSS) : Prop := bss_wf b /\ - 2 ^ 15 <= rssi b < 2 ^ 15.

Lemma zlen_enc_entry b : bss_wf b -> zlen (enc_entry b) = entry_sz b.
Proof.
  intros (Ws & Wl & _ & Wb & _). unfold enc_entry, entry_sz. rewrite !zlen_app, zlen_ztake, zlen_le_bytes. zlen.
Qed.

(** [pre] has been written at the start of the buffer. *)
Definition written (size : Z) (bw : list Z * Z) (pre : list Z) : Prop :=
  zlen (fst bw) = size /\ ztake (snd bw) (fst bw) = pre /\ zlen pre = snd bw.

Lemma put_ok size bw pre v :
  written size bw pre -> snd bw + zlen v <= size -> size < 2 ^ 32 ->
  exists bw', put bw v = Some bw' /\ written size bw' (pre ++ v).
Proof.
  intros (Hs & Hp & Hl) Hfit Hsz. unfold put. pose proof (zlen_nonneg pre). pose proof (zlen_nonneg v).
  destruct (stn_prefix (fst bw) (snd bw) v pre Hp Hl) as (b & -> & Hb & Hp'); [lia|]. cbn [mbind option_bind].
  eexists. split; [done|]. unfold written. cbn [fst snd]. rewrite wrap_small by (unfold in_range; lia).
  rewrite zlen_app. split_and!; [lia|done|lia].
Qed.

Lemma put_entry_ok size bw pre b :
  bss_wf b -> written size bw pre -> snd bw + entry_sz b <= size -> size < 2 ^ 32 ->
  exists bw', put_entry bw b = Some bw' /\ written size bw' (pre ++ enc_entry b).
Proof.
  intros W Hw Hfit Hsz. pose proof W as (Ws & Wl & _ & Wb & _). unfold entry_sz in Hfit. unfold put_entry.
  assert (forall bw' p, written size bw' p -> snd bw' = zlen p) as Hpos by (intros ? ? (_ & _ & ?); done).
  pose proof (Hpos _ _ Hw) as H0.
  destruct (put_ok size bw pre [ssid_len b] Hw) as (w1 & -> & Hw1); [change (zlen [_]) with 1; lia|done|]. cbn [mbind option_bind].
  pose proof (Hpos _ _ Hw1) as H1. zlen_in H1.
  set (s := ztake (ssid_len b) (ssid b)).
  replace (ldn (ssid b) 0 (ssid_len b)) with (Some s) by (symmetry; apply ldn_Some; lia). cbn [mbind option_bind].
  assert (zlen s = ssid_len b) as Hzs by (unfold s; zlen).
  destruct (put_ok size w1 _ s Hw1) as (w2 & -> & Hw2); [lia|done|]. cbn [mbind option_bind].
  pose proof (Hpos _ _ Hw2) as H2. zlen_in H2.
  replace (ldn (bssid b) 0 6) with (Some (bssid b)) by (rewrite ldn_Some, zdrop_0, ztake_all by lia; done). cbn [mbind option_bind].
  destruct (put_ok size w2 _ (bssid b) Hw2) as (w3 & -> & Hw3); [lia|done|]. cbn [mbind option_bind].
  pose proof (Hpos _ _ Hw3) as H3. zlen_in H3.
  destruct (put_ok size w3 _ [(rssi b >> 8) .& 0xff] Hw3) as (w4 & -> & Hw4); [change (zlen [_]) with 1; lia|done|]. cbn [mbind option_bind].
  pose proof (Hpos _ _ Hw4) as H4. zlen_in H4.
  destruct (put_ok size w4 _ [rssi b .& 0xff] Hw4) as (w5 & -> & Hw5); [change (zlen [_]) with 1; lia|done|]. cbn [mbind option_bind].
  pose proof (Hpos _ _ Hw5) as H5. zlen_in H5.
  destruct (put_ok size w5 _ [channel b] Hw5) as (w6 & -> & Hw6); [change (zlen [_]) with 1; lia|done|]. cbn [mbind option_bind].
  pose proof (Hpos _ _ Hw6) as H6. zlen_in H6.
  destruct (put_ok size w6 _ (le_bytes 4 (cipher b)) Hw6) as (w7 & -> & Hw7); [rewrite zlen_le_bytes; lia|done|].
  exists w7. split; [done|]. unfold enc_entry. fold s. by rewrite <- !app_assoc in Hw7.
Qed.

Lemma put_entries_ok size max l : forall bw pre,
  Forall bss_wf l -> written size bw pre -> max <= size -> size < 2 ^ 32 -> zlen pre <= max -> max <= 4095 ->
  exists bw', put_entries max bw l = Some bw' /\ zlen (pre ++ concat (map enc_entry (fitting max (zlen pre) l))) <= max /\
    written size bw' (pre ++ concat (map enc_entry (fitting max (zlen pre) l))).
Proof.
  induction l as [|b l IH]; intros bw pre Hf Hw Hm Hs Hle Hmax; cbn [put_entries fitting].
  { exists bw. cbn. by rewrite app_nil_r. }
  inversion_clear Hf as [|? ? W Hf']. pose proof W as (_ & Wl & _). pose proof (zlen_nonneg pre).
  pose proof Hw as (_ & _ & Hpos). rewrite wrap_small by (unfold in_range, entry_sz; lia). rewrite <- Hpos.
  destruct (Z.ltb_spec max (zlen pre + entry_sz b)) as [|Hfit].
  { exists bw. cbn. by rewrite app_nil_r. }
  destruct (put_entry_ok size bw pre b W Hw) as (w1 & -> & Hw1); [lia|done|]. cbn [mbind option_bind].
  assert (zlen (pre ++ enc_entry b) = zlen pre + entry_sz b) as Hz by (by rewrite zlen_app, zlen_enc_entry).
  destruct (IH w1 (pre ++ enc_entry b) Hf' Hw1 Hm Hs) as (w2 & -> & Hle2 & Hw2).
  { lia. }
  { done. }
  exists w2. rewrite Hz in Hle2, Hw2. cbn [map concat].
  by rewrite <- app_assoc in Hle2, Hw2.
Qed.

Lemma cmdGetBSSList_ok l c buf len :
  Forall bss_wf l -> zlen buf = len -> 4 <= len < 2 ^ 32 ->
  let fs := fitting (Z.min len 4095) 4 l in
  let n := 4 + zlen (concat (map enc_entry fs)) in
  exists buf', cmdGetBSSList (mk_table l c) buf len = Some (buf', n) /\ zlen buf' = len /\
    ztake n buf' = le_bytes 4 n ++ concat (map enc_entry fs) /\ n <= Z.min len 4095.
Proof.
  intros Hf Hb Hl fs n. unfold cmdGetBSSList.
  replace (if 4095 <? len then 4095 else len) with (Z.min len 4095) by case_cmp.
  rewrite (proj2 (Z.ltb_ge _ _)) by lia. cbn [bssList].
  destruct (put_entries_ok len (Z.min len 4095) l (buf, 4) (ztake 4 buf) Hf) as (bw & -> & Hle & (Hz & Ht & Hpos)).
  { split_and!; [done|done|cbn [snd]; zlen]. }
  { lia. }
  { lia. }
  { zlen. }
  { lia. }
  assert (zlen (ztake 4 buf) = 4) as H4 by zlen. rewrite H4 in Hle, Ht, Hpos. fold fs in Hle, Ht, Hpos.
  cbn [mbind option_bind]. rewrite zlen_app, H4 in Hle, Hpos. fold n in Hle, Hpos. rewrite <- Hpos in *.
  assert (zlen (le_bytes 4 n) = 4) as H4' by by rewrite zlen_le_bytes.
  pose proof (zlen_nonneg (concat (map enc_entry fs))).
  rewrite stn_Some by (rewrite ?H4'; lia). cbn [mbind option_bind]. rewrite ztake_0. cbn [app].
  eexists. split; [done|]. split; [|split; [|lia]].
  - rewrite zlen_app, H4', zlen_zdrop. lia.
  - rewrite H4'. change (0 + 4) with 4. unfold ztake at 1. rewrite take_app.
    rewrite take_ge by (unfold zlen in H4'; lia). f_equal.
    assert (concat (map enc_entry fs) = zdrop 4 (ztake n (fst bw))) as -> by (rewrite Ht; symmetry; by apply zdrop_app_exact').
    rewrite zdrop_ztake by lia. unfold ztake. f_equal. unfold zlen in H4'. lia.
Qed.

Lemma signed_bytes r : - 2 ^ 15 <= r < 2 ^ 15 -> signed 16 ((((r >> 8) .& 0xff) << 8) .| (r .& 0xff)) = r.
Proof.
  intros Hr. rewrite !land_255, Z.lor_comm, lor_shift by (try apply wrap_range; lia).
  unfold signed, wrap. rewrite Z.shiftr_div_pow2 by lia. pow_const.
  replace (r mod 256 + (r / 256) mod 256 * 256) with (r mod 65536) by (Z.to_euclidean_division_equations; lia).
  rewrite Z.mod_mod by lia. destruct (Z.ltb_spec (r mod 65536) (2 ^ (16 - 1))); Z.to_euclidean_division_equations; lia.
Qed.

Lemma read_entries_ok fs : forall fuel, Forall entry_ok fs -> (length (concat (map enc_entry fs)) <= fuel)%nat ->
  read_entries fuel (concat (map enc_entry fs)) = Some (map listed_of fs).
Proof.
  induction fs as [|b fs IH]; intros fuel Hf Hfuel; [by destruct fuel|].
  inversion_clear Hf as [|? ? [W Hr] Hf']. pose proof W as (Ws & Wl & Wsb & Wb & Wbb & Wc & Wci & _).
  cbn [map concat] in *. set (tl := concat (map enc_entry fs)) in *.
  pose proof (zlen_enc_entry b W) as He. unfold entry_sz in He. pose proof (zlen_nonneg tl).
  destruct fuel as [|fuel]; [rewrite length_app in Hfuel; unfold zlen in He; lia|]. cbn [read_entries].
  rewrite (proj2 (Z.ltb_ge (zlen (enc_entry b ++ tl)) 1)) by (rewrite zlen_app; lia).
  change (ld (enc_entry b ++ tl) 0) with (Some (ssid_len b)). cbn [mbind option_bind].
  set (s := ztake (ssid_len b) (ssid b)). assert (zlen s = ssid_len b) as Hzs by (unfold s; zlen).
  assert (zdrop 1 (enc_entry b ++ tl) = s ++ bssid b ++ [(rssi b >> 8) .& 0xff] ++ [rssi b .& 0xff] ++ [channel b] ++ le_bytes 4 (cipher b) ++ tl) as ->.
  { unfold enc_entry. fold s. rewrite <- !app_assoc. by apply zdrop_app_exact'. }
  rewrite (proj2 (Z.ltb_ge _ _)) by (rewrite !zlen_app, zlen_le_bytes; change (zlen [_]) with 1; lia).
  rewrite (ldn_app_0 s) by done. cbn [mbind option_bind].
  rewrite stn_Some by (rewrite ?Hzs; change (zlen (zeros 33)) with 33; lia). cbn [mbind option_bind].
  rewrite zdrop_app_exact' by done. rewrite (ldn_app_0 (bssid b)) by done. cbn [mbind option_bind].
  rewrite zdrop_app_exact' by done.
  change (ld ([?x] ++ [?y] ++ ?z) 0) with (Some x). change (ld ([?x] ++ [?y] ++ ?z) 1) with (Some y). cbn [mbind option_bind].
  change (zdrop 2 ([?x] ++ [?y] ++ ?z)) with z. change (ld ([?x] ++ ?z) 0) with (Some x). cbn [mbind option_bind].
  change (zdrop 1 ([?x] ++ ?z)) with z. rewrite (ldn_app_0 (le_bytes 4 _)) by (by rewrite zlen_le_bytes). cbn [mbind option_bind].
  rewrite zdrop_app_exact' by by rewrite zlen_le_bytes.
  rewrite IH; [|done|rewrite length_app in Hfuel; unfold zlen in He; lia]. cbn [mbind option_bind].
  rewrite signed_bytes, le_val_bytes by (done || (split; [apply Wci|apply Wci])). do 3 f_equal.
  unfold listed_of. f_equal. rewrite Hzs, ztake_0. cbn [app]. f_equal. unfold zdrop, zeros.
  rewrite drop_replicate. f_equal. lia.
Qed.


(** ** What a scan result does to the list *)

Definition find_bss (a : list Z) (l : list RTW88BSS) : option RTW88BSS := head (filter (fun b => bssid b = a) l).

Lemma bss_add_find bss t a : table_wf t ->
  find_bss a (bssList (bss_add bss t)) = if bool_decide (bssid bss = a) then Some bss else find_bss a (bssList t).
Proof.
  intros (_ & Hn & _). unfold bss_add, find_bss. destruct (bss_update bss (bssList t)) as [l'|] eqn:E; cbn [bssList].
  - apply bss_update_Some in E as (l1 & e & l2 & El & -> & He). rewrite El in *.
    rewrite map_app, NoDup_app in Hn. destruct Hn as (_ & Hn & _). cbn [map] in Hn.
    rewrite !filter_app, !filter_cons, He. case_bool_decide as Ha; cbn; [|by rewrite !decide_False].
    rewrite !decide_True by done. assert (filter (fun b => bssid b = a) l1 = []) as ->; [|done].
    destruct (filter _ l1) as [|b fl] eqn:Ef; [done|]. assert (b ∈ filter (fun b => bssid b = a) l1) as [Hba Hb]%list_elem_of_filter
      by (rewrite Ef; apply list_elem_of_here).
    exfalso. apply (Hn (bssid b)); [by apply list_elem_of_fmap_2|]. rewrite Hba, <- Ha, He. apply list_elem_of_here.
  - rewrite filter_cons. case_bool_decide; [by rewrite decide_True|by rewrite decide_False].
Qed.

(** The frame's BSSID field. *)
Definition frame_bssid (data : list Z) : list Z := ztake 6 (zdrop 16 data).

(** Everything parsing copies before the elements are walked is kept by the
    walk. *)
Lemma ie_fields_bssid body id len b b' : ie_fields body id len b = Some b' -> bssid b' = bssid b.
Proof.
  unfold ie_fields. intros E.
  repeat match goal with
  | H : context [ld ?b ?i] |- _ => destruct (ld b i); cbn [mbind option_bind] in H
  | H : context [ldn ?b ?i ?n] |- _ => destruct (ldn b i n); cbn [mbind option_bind] in H
  | H : context [stn ?b ?i ?n] |- _ => destruct (stn b i n); cbn [mbind option_bind] in H
  | H : context [rtw88RsnSelectCcmpPsk ?v] |- _ => destruct (rtw88RsnSelectCcmpPsk v) as [[[? ?]|]|]; cbn [mbind option_bind] in H
  | H : context [if ?b then _ else _] |- _ => destruct b
  | H : Some _ = Some _ |- _ => injection H as <-
  end; done.
Qed.

Lemma ie_copy_bssid body len b b' : ie_copy body len b = Some b' -> bssid b' = bssid b.
Proof.
  unfold ie_copy. destruct (_ <? _); [|by intros [= <-]]. destruct (ldn _ _ _); [|done]. cbn [mbind option_bind].
  destruct (stn _ _ _); [|done]. by intros [= <-].
Qed.

Lemma walk_ies_bssid fuel : forall body b b', walk_ies fuel body b = Some b' -> bssid b' = bssid b.
Proof.
  induction fuel as [|fuel IH]; intros body b b'; cbn [walk_ies]; destruct (_ <? 2); try done; try by intros [= <-].
  destruct (ld body 0); [|done]. destruct (ld body 1) as [len|]; [|done]. cbn [mbind option_bind].
  destruct (_ <? _); [by intros [= <-]|]. destruct (ie_fields _ _ _ _) as [b1|] eqn:E1; [|done]. cbn [mbind option_bind].
  destruct (ie_copy _ _ _) as [b2|] eqn:E2; [|done]. cbn [mbind option_bind]. intros ->%IH.
  by rewrite (ie_copy_bssid _ _ _ _ E2), (ie_fields_bssid _ _ _ _ _ E1).
Qed.

Lemma freq_channel_keeps b :
  bssid (freq_channel b) = bssid b /\ ies (freq_channel b) = ies b /\ ies_len (freq_channel b) = ies_len b /\
  ssid (freq_channel b) = ssid b /\ ssid_len (freq_channel b) = ssid_len b.
Proof. unfold freq_channel. by repeat case_match. Qed.

Lemma parse_beacon_bssid data signal rxfreq gen bss :
  parse_beacon data signal rxfreq gen = Some (Some bss) -> bssid bss = frame_bssid data.
Proof.
  unfold parse_beacon. destruct (_ <? _); [done|]. destruct (ld data 32); [|done]. destruct (ld data 33); [|done]. destruct (ld data 34); [|done].
  destruct (ld data 35); [|done]. cbn [mbind option_bind].
  destruct (ldn data 16 6) as [a|] eqn:Ea; [|done]. cbn [mbind option_bind].
  destruct (walk_ies _ _ _) as [b|] eqn:Ew; [|done]. cbn [mbind option_bind]. intros [= <-].
  destruct (freq_channel_keeps (with_radio b signal rxfreq gen)) as (-> & _). cbn [bssid with_radio].
  rewrite (walk_ies_bssid _ _ _ _ Ew). cbn. by apply ldn_inv in Ea as (_ & _ & _ & -> & _).
Qed.

(** C26: processScanResult stays inside the received frame and its own record
    whatever bytes the frame holds, keeps the list well formed (lengths
    within the arrays, one entry per BSSID, the counter equal to the length),
    and changes the entry of the frame's BSSID only: that one is the parsed
    record, every other BSSID is looked up as before. *)
Theorem scan_result_safe alloc data signal rxfreq gen t :
  bytes_ok data -> table_wf t ->
  exists t' r, processScanResult alloc data signal rxfreq gen t = Some t' /\
    parse_beacon data signal rxfreq gen = Some r /\ table_wf t' /\
    (is_Some r <-> 36 <= zlen data) /\
    forall a, find_bss a (bssList t') =
      match r with
      | Some bss => if alloc && bool_decide (frame_bssid data = a) then Some bss else find_bss a (bssList t)
      | None => find_bss a (bssList t)
      end.
Proof.
  intros Hb Ht. destruct (parse_beacon_ok data signal rxfreq gen Hb) as (r & E & Hr). unfold processScanResult.
  assert (is_Some r <-> 36 <= zlen data) as Hlen.
  { revert E. unfold parse_beacon, sizeof_hdr_3addr. destruct (Z.ltb_spec (zlen data) (24 + 12)) as [|Hl].
    - intros [= <-]. split; [by intros [? ?]|lia].
    - destruct (ld data 32); [|done]. destruct (ld data 33); [|done]. destruct (ld data 34); [|done].
  destruct (ld data 35); [|done]. cbn [mbind option_bind]. destruct (ldn data 16 6); [|done]. cbn [mbind option_bind].
      destruct (walk_ies _ _ _); [|done]. cbn [mbind option_bind]. intros [= <-]. split; [done|by eexists]. }
  destruct alloc; [|exists t, r; split_and!; try done; by destruct r].
  rewrite E. cbn [mbind option_bind]. destruct r as [bss|]; [|by exists t, None].
  exists (bss_add bss t), (Some bss). split_and!; try done.
  - apply bss_add_wf; auto.
  - intros a. rewrite bss_add_find by done. by rewrite (parse_beacon_bssid _ _ _ _ _ E).
Qed.

(** A beacon made of a header, the fixed fields and encoded elements, with
    any incomplete tail, is recorded as those elements: the copied elements
    are byte for byte theirs (when they fit the record), the SSID is the last
    one of 1 to 32 bytes announced, the BSSID is the third address and the
    capability and interval fields are the little-endian words before the
    elements. *)
Theorem parse_beacon_record hdr ts bi cap es junk signal rxfreq gen :
  zlen hdr = 24 -> zlen ts = 8 -> bytes_ok hdr -> bytes_ok ts -> in_range 16 bi -> in_range 16 cap ->
  Forall ie_ok es -> bytes_ok junk -> no_element junk -> zlen (enc_ies es) < sizeof_ies ->
  exists bss, parse_beacon (hdr ++ ts ++ le_bytes 2 bi ++ le_bytes 2 cap ++ enc_ies es ++ junk) signal rxfreq gen = Some (Some bss) /\
    ztake (ies_len bss) (ies bss) = enc_ies es /\
    ztake (ssid_len bss) (ssid bss) = fold_left announced es [] /\
    bssid bss = ztake 6 (zdrop 16 hdr).
Proof.
  intros Hh Ht Hhb Htb Hbi Hcap He Hj Hjunk Hfit. set (data := hdr ++ _).
  assert (data = (hdr ++ ts ++ le_bytes 2 bi ++ le_bytes 2 cap) ++ enc_ies es ++ junk) as Hd by (unfold data; by rewrite <- !app_assoc).
  assert (zlen (hdr ++ ts ++ le_bytes 2 bi ++ le_bytes 2 cap) = 36) as Hp by (rewrite !zlen_app, !zlen_le_bytes; lia).
  pose proof (zlen_nonneg (enc_ies es ++ junk)). assert (36 <= zlen data) as Hlen by (rewrite Hd, zlen_app; lia).
  unfold parse_beacon, sizeof_hdr_3addr. rewrite (proj2 (Z.ltb_ge _ _)) by lia.
  destruct (ld_Some data 32) as [b32 ->]; [lia|]. destruct (ld_Some data 33) as [b33 ->]; [lia|].
  destruct (ld_Some data 34) as [b34 ->]; [lia|]. destruct (ld_Some data 35) as [b35 ->]; [lia|].
  rewrite ldn_Some by lia. cbn [mbind option_bind]. rewrite zdrop_zdrop by lia. change (24 + 12) with 36.
  assert (zdrop 36 data = enc_ies es ++ junk) as -> by (rewrite Hd; by apply zdrop_app_exact').
  set (b0 := mk_bss _ _ _ _ _ _ _ _ _ _ _ _ _ _).
  assert (ztake 6 (zdrop 16 data) = ztake 6 (zdrop 16 hdr)) as Ha.
  { unfold data. unfold zdrop, ztake. rewrite drop_app_le by (unfold zlen in Hh; lia).
    apply take_app_le. rewrite length_drop. unfold zlen in Hh. lia. }
  assert (bss_wf b0) as W0.
  { split_and!; cbn; try done; try apply bytes_zeros; try lia; rewrite Ha; [zlen|by apply Forall_take, Forall_drop]. }
  destruct (walk_ies_record es (length (enc_ies es ++ junk)) junk b0 []) as (b1 & E1 & Hr & Hs); try done; try lia.
  rewrite E1. cbn [mbind option_bind]. eexists. split; [done|].
  destruct (freq_channel_keeps (with_radio b1 signal rxfreq gen)) as (-> & -> & -> & -> & ->). cbn [with_radio bssid ies ies_len ssid ssid_len].
  split_and!; [exact Hr|exact Hs|]. rewrite (walk_ies_bssid _ _ _ _ E1). exact Ha.
Qed.

(** C27: What cmdGetBSSList writes, rtw88ctl reads back: for a well-formed list
    and a buffer of [len] bytes the writer stays inside the buffer and inside
    4095 bytes, reports in [*len] the number of bytes written, and cmd_list
    then prints, in list order, the SSID, BSSID, signed RSSI, channel and
    cipher of every entry up to the first that does not fit. *)
Theorem bss_list_roundtrip t buf len :
  Forall entry_ok (bssList t) -> zlen buf = len -> 4 <= len < 2 ^ 32 ->
  exists buf' n, cmdGetBSSList t buf len = Some (buf', n) /\ zlen buf' = len /\ n <= Z.min len 4095 /\
    cmd_list buf' n = Some (map listed_of (fitting (Z.min len 4095) 4 (bssList t))).
Proof.
  intros Hf Hb Hl. destruct t as [l c]. cbn [bssList] in *.
  assert (Forall bss_wf l) as Hw by (eapply Forall_impl; [exact Hf|by intros ? [? _]]).
  destruct (cmdGetBSSList_ok l c buf len Hw Hb Hl) as (buf' & E & Hz & Ht & Hn). cbn zeta in *.
  set (fs := fitting _ _ l) in *. set (n := 4 + _) in *. exists buf', n. split_and!; try done.
  pose proof (zlen_nonneg (concat (map enc_entry fs))). unfold cmd_list. rewrite (proj2 (Z.ltb_ge _ _)) by lia.
  assert (ldn buf' 0 4 = Some (le_bytes 4 n)) as ->.
  { rewrite ldn_Some, zdrop_0 by lia. f_equal. transitivity (ztake 4 (ztake n buf')).
    - rewrite ztake_ztake. f_equal. lia.
    - rewrite Ht. by apply ztake_app_exact'. }
  cbn [mbind option_bind]. rewrite le_val_bytes by (unfold in_range; lia). rewrite Z.ltb_irrefl, Ht.
  rewrite zdrop_app_exact' by done. apply read_entries_ok.
  - by apply fitting_Forall.
  - unfold n, zlen in *. lia.
Qed.

(** ** Concrete runs *)

Definition test_hdr : list Z := [0x80; 0; 0; 0] ++ replicate 6 255 ++ [2; 4; 6; 8; 10; 12] ++ [2; 4; 6; 8; 10; 12] ++ [0; 0].
Definition test_es : list (Z * list Z) :=
  [(0, [72; 111; 109; 101]); (3, [11]); (48, drop 2 (rtw88BuildSelectedRsnIe WLAN_CIPHER_SUITE_CCMP))].
Definition test_beacon : list Z := test_hdr ++ zeros 8 ++ le_bytes 2 100 ++ le_bytes 2 0x411 ++ enc_ies test_es ++ [221].
Definition test_bss : RTW88BSS :=
  mk_bss ([72; 111; 109; 101] ++ zeros 29) 4 [2; 4; 6; 8; 10; 12] (-47) 2462 11 0x411 100
         WLAN_CIPHER_SUITE_CCMP WLAN_CIPHER_SUITE_CCMP AKM_PSK 7 (enc_ies test_es ++ zeros (512 - 31)) 31.

(** The beacon of a WPA2 network, parsed, stored, and listed. *)
Example beacon_run : processScanResult true test_beacon (-47) 2462 7 (mk_table [] 0) = Some (mk_table [test_bss] 1).
Proof. vm_compute. reflexivity. Qed.

Lemma test_beacon_ok : bytes_ok test_beacon.
Proof. by apply bytes_okb_ok. Qed.
Lemma test_table_ok : table_wf (mk_table [test_bss] 1).
Proof.
  unfold table_wf. split_and!; [|by repeat constructor; intros ?%not_elem_of_nil|done].
  constructor; [|constructor]. split_and!; try done; try (cbn; lia); try (by vm_compute);
    by apply bytes_okb_ok.
Qed.

Lemma scan_result_safe_witness :
  exists t' r, processScanResult true test_beacon (-60) 2462 8 (mk_table [test_bss] 1) = Some t' /\
    parse_beacon test_beacon (-60) 2462 8 = Some r /\ table_wf t' /\ (is_Some r <-> 36 <= zlen test_beacon) /\
    forall a, find_bss a (bssList t') =
      match r with
      | Some bss => if true && bool_decide (frame_bssid test_beacon = a) then Some bss else find_bss a [test_bss]
      | None => find_bss a [test_bss]
      end.
Proof. apply (scan_result_safe true test_beacon (-60) 2462 8 (mk_table [test_bss] 1)); [apply test_beacon_ok|apply test_table_ok]. Defined.

Lemma parse_beacon_record_witness :
  exists bss, parse_beacon test_beacon (-47) 2462 7 = Some (Some bss) /\
    ztake (ies_len bss) (ies bss) = enc_ies test_es /\
    ztake (ssid_len bss) (ssid bss) = [72; 111; 109; 101] /\ bssid bss = [2; 4; 6; 8; 10; 12].
Proof.
  apply (parse_beacon_record test_hdr (zeros 8) 100 0x411 test_es [221] (-47) 2462 7); try done;
    try (by apply bytes_okb_ok); try (by vm_compute); [|by left].
  repeat constructor; try (by vm_compute); by apply bytes_okb_ok.
Defined.

Lemma bss_list_roundtrip_witness :
  exists buf' n, cmdGetBSSList (mk_table [test_bss] 1) (zeros 64) 64 = Some (buf', n) /\ zlen buf' = 64 /\ n <= Z.min 64 4095 /\
    cmd_list buf' n = Some [listed_of test_bss].
Proof.
  apply (bss_list_roundtrip (mk_table [test_bss] 1) (zeros 64) 64); [|done|lia].
  constructor; [|constructor]. split; [|by vm_compute]. pose proof test_table_ok as (H & _). by inversion H.
Defined.
