(* ===== verification/Sha1.v ===== *)
(** * The SHA-1 compression function

    [kern_sha1_transform] of [src/src/kext/RTW88IEEE80211.cpp], with its
    unrolled rounds and circular message schedule, against the compression
    function of FIPS 180-4.  The machine is little-endian (the
    [CHAR64LONG16] union). *)

From S2P Require Import Prelude.

(** ** The code *)

Definition rol (value bits : Z) : Z := u32 (value << bits) .| (value >> (32 - bits)).

(** [block->l[i]]; every index is below 16 or masked. *)
Definition blk0 (l : list Z) (i : nat) : Z :=
  (rol (l !!! i) 24 .& 0xFF00FF00) .| (rol (l !!! i) 8 .& 0x00FF00FF).
Definition blk (l : list Z) (i : nat) : Z :=
  rol ((l !!! Nat.land (i + 13) 15) .^ (l !!! Nat.land (i + 8) 15) .^
       (l !!! Nat.land (i + 2) 15) .^ (l !!! Nat.land i 15)) 1.

(** The registers in the order of a round's first five arguments. *)
Record regs := mk_regs { v_ : Z; w_ : Z; x_ : Z; y_ : Z; z_ : Z }.

(** [z += f + b + k + rol(v, 5); w = rol(w, 30)], the registers then renamed
    as in the next round's arguments. *)
Definition step (s : regs) (f b k : Z) : regs :=
  mk_regs (u32 (z_ s + (f + b + k + rol (v_ s) 5))) (v_ s) (rol (w_ s) 30) (x_ s) (y_ s).

Definition r0 (sl : regs * list Z) (i : nat) : regs * list Z :=
  let '(s, l) := sl in let b := blk0 l i in
  (step s ((w_ s .& (x_ s .^ y_ s)) .^ y_ s) b 0x5A827999, <[i := b]> l).
Definition r1 (sl : regs * list Z) (i : nat) : regs * list Z :=
  let '(s, l) := sl in let b := blk l i in
  (step s ((w_ s .& (x_ s .^ y_ s)) .^ y_ s) b 0x5A827999, <[Nat.land i 15 := b]> l).
Definition r2 (sl : regs * list Z) (i : nat) : regs * list Z :=
  let '(s, l) := sl in let b := blk l i in
  (step s (w_ s .^ x_ s .^ y_ s) b 0x6ED9EBA1, <[Nat.land i 15 := b]> l).
Definition r3 (sl : regs * list Z) (i : nat) : regs * list Z :=
  let '(s, l) := sl in let b := blk l i in
  (step s (((w_ s .| x_ s) .& y_ s) .| (w_ s .& x_ s)) b 0x8F1BBCDC, <[Nat.land i 15 := b]> l).
Definition r4 (sl : regs * list Z) (i : nat) : regs * list Z :=
  let '(s, l) := sl in let b := blk l i in
  (step s (w_ s .^ x_ s .^ y_ s) b 0xCA62C1D6, <[Nat.land i 15 := b]> l).

(** [memcpy(block, buffer, 64)] seen as 16 words *)
Definition words (buffer : list Z) : list Z :=
  map (fun k => le_val (take 4 (drop (4 * k) buffer))) (seq 0 16).

Definition kern_sha1_transform (state buffer : list Z) : list Z :=
  let block := words buffer in
  let s := mk_regs (state !!! 0%nat) (state !!! 1%nat) (state !!! 2%nat) (state !!! 3%nat) (state !!! 4%nat) in
  let s := fold_left r0 (seq 0 16) (s, block) in
  let s := fold_left r1 (seq 16 4) s in
  let s := fold_left r2 (seq 20 20) s in
  let s := fold_left r3 (seq 40 20) s in
  let s := fst (fold_left r4 (seq 60 20) s) in
  [u32 (state !!! 0%nat + v_ s); u32 (state !!! 1%nat + w_ s); u32 (state !!! 2%nat + x_ s);
   u32 (state !!! 3%nat + y_ s); u32 (state !!! 4%nat + z_ s)].

(** ** Reference: FIPS 180-4 *)

Definition be_val (b : list Z) : Z := fold_left (fun a x => a * 256 + x) b 0.
Fixpoint be_bytes (n : nat) (z : Z) : list Z :=
  match n with O => [] | S k => be_bytes k (z / 256) ++ [z mod 256] end.

Definition Ch (x y z : Z) : Z := (x .& y) .^ (cnot 32 x .& z).
Definition Parity (x y z : Z) : Z := x .^ y .^ z.
Definition Maj (x y z : Z) : Z := (x .& y) .^ (x .& z) .^ (y .& z).

Definition f_t (t : nat) (x y z : Z) : Z :=
  if (t <? 20)%nat then Ch x y z else if (t <? 40)%nat then Parity x y z
  else if (t <? 60)%nat then Maj x y z else Parity x y z.
Definition K_t (t : nat) : Z :=
  if (t <? 20)%nat then 0x5a827999 else if (t <? 40)%nat then 0x6ed9eba1
  else if (t <? 60)%nat then 0x8f1bbcdc else 0xca62c1d6.

(** The message schedule: words 0 to 15 of the block, then
    [ROTL1 (W(t-3) xor W(t-8) xor W(t-14) xor W(t-16))]. *)
Definition W0 (block : list Z) : list Z := map (fun k => be_val (take 4 (drop (4 * k) block))) (seq 0 16).
Definition extend (w : list Z) (t : nat) : list Z :=
  w ++ [rol ((w !!! (t - 3)%nat) .^ (w !!! (t - 8)%nat) .^ (w !!! (t - 14)%nat) .^ (w !!! (t - 16)%nat)) 1].
Definition schedule (block : list Z) : list Z := fold_left extend (seq 16 64) (W0 block).

Definition fips_round (W : list Z) (s : regs) (t : nat) : regs :=
  mk_regs (u32 (rol (v_ s) 5 + f_t t (w_ s) (x_ s) (y_ s) + z_ s + K_t t + (W !!! t)))
          (v_ s) (rol (w_ s) 30) (x_ s) (y_ s).

Definition compress (H : list Z) (block : list Z) : list Z :=
  let s := mk_regs (H !!! 0%nat) (H !!! 1%nat) (H !!! 2%nat) (H !!! 3%nat) (H !!! 4%nat) in
  let s := fold_left (fips_round (schedule block)) (seq 0 80) s in
  [u32 (H !!! 0%nat + v_ s); u32 (H !!! 1%nat + w_ s); u32 (H !!! 2%nat + x_ s);
   u32 (H !!! 3%nat + y_ s); u32 (H !!! 4%nat + z_ s)].

(** ** One block *)

Definition regs_ok (s : regs) : Prop :=
  in_range 32 (v_ s) /\ in_range 32 (w_ s) /\ in_range 32 (x_ s) /\ in_range 32 (y_ s) /\ in_range 32 (z_ s).

Lemma rol_range v n : 0 <= n <= 32 -> in_range 32 v -> in_range 32 (rol v n).
Proof. intros Hn Hv. apply lor_in_range; [lia|apply wrap_range; lia|by apply shiftr_in_range; [lia|]]. Qed.

(** The choose and majority functions in the shape the macros use. *)
Lemma code_Ch x y z : in_range 32 x -> in_range 32 y -> in_range 32 z -> (x .& (y .^ z)) .^ z = Ch x y z.
Proof.
  intros Hx Hy Hz. unfold Ch, cnot. bits_eq.
  destruct (Z.ltb_spec i 32).
  - rewrite (proj2 (Z.leb_le 0 i)) by lia. by destruct (Z.testbit x i), (Z.testbit y i), (Z.testbit z i).
  - rewrite !(in_range_testbit 32) by done. by rewrite !andb_false_r.
Qed.
Lemma code_Maj x y z : ((x .| y) .& z) .| (x .& y) = Maj x y z.
Proof. unfold Maj. bits_eq. by destruct (Z.testbit x i), (Z.testbit y i), (Z.testbit z i). Qed.

(** One bit of an expression of masks, unions and shifts by constants of
    bytes: [H] says a byte has no bit from 8 up. *)
Ltac swap_bit H :=
  match goal with |- context [Z.of_nat ?k] => let v := eval vm_compute in (Z.of_nat k) in change (Z.of_nat k) with v end;
  repeat match goal with
  | |- context [Z.testbit ?a ?m] => rewrite (Z.testbit_neg_r a m) by lia
  | |- context [Z.testbit (?a .| ?b) ?m] => rewrite (Z.lor_spec a b m)
  | |- context [Z.testbit (?a .& ?b) ?m] => rewrite (Z.land_spec a b m)
  | |- context [Z.testbit (u32 ?a) ?m] => rewrite (wrap_testbit 32 a m) by lia
  | |- context [Z.testbit (?a >> ?n) ?m] => rewrite (Z.shiftr_spec a n m) by lia
  | |- context [Z.testbit (?a << ?n) ?m] => rewrite (Z.shiftl_spec a n m) by lia
  end;
  repeat match goal with
  | |- context [Z.testbit (Zpos ?p) ?n] => let v := eval vm_compute in (Z.testbit (Zpos p) n) in change (Z.testbit (Zpos p) n) with v
  | |- context [?a <=? ?b] => let v := eval vm_compute in (a <=? b) in change (a <=? b) with v
  | |- context [?a <? ?b] => let v := eval vm_compute in (a <? b) in change (a <? b) with v
  end;
  rewrite ?Z.testbit_neg_r by lia;
  repeat match goal with |- context [Z.testbit ?b ?n] => rewrite (H b n) by (done || lia) end;
  rewrite ?andb_false_l, ?andb_false_r, ?orb_false_l, ?orb_false_r, ?andb_true_l, ?andb_true_r;
  repeat (cbn [andb orb] || rewrite ?orb_false_r); reflexivity.

(** The byte swap. *)
Lemma blk0_swap b0 b1 b2 b3 :
  is_byte b0 -> is_byte b1 -> is_byte b2 -> is_byte b3 ->
  let x := le_val [b0; b1; b2; b3] in
  (rol x 24 .& 0xFF00FF00) .| (rol x 8 .& 0x00FF00FF) = be_val [b0; b1; b2; b3].
Proof.
  intros B0 B1 B2 B3 x.
  assert (x = b0 .| ((b1 .| ((b2 .| (b3 << 8)) << 8)) << 8)) as ->.
  { unfold x. cbn [le_val]. rewrite !lor_shift by (done || lia). lia. }
  cbn [be_val fold_left]. unfold be_val. cbn [fold_left].
  replace ((((0 * 256 + b0) * 256 + b1) * 256 + b2) * 256 + b3) with (b3 .| ((b2 .| ((b1 .| (b0 << 8)) << 8)) << 8))
    by (rewrite !lor_shift by (done || lia); lia).
  unfold rol. apply Z.bits_inj'. intros i Hi.
  assert (forall b k, is_byte b -> 8 <= k -> Z.testbit b k = false) as Hhi by (intros; by apply (in_range_testbit 8)).
  destruct (Z.ltb_spec i 32) as [Hl|Hl].
  - assert (exists k, (k < 32)%nat /\ i = Z.of_nat k) as (k & Hk & ->) by (exists (Z.to_nat i); lia).
    do 32 (destruct k as [|k]; [swap_bit Hhi|]). lia.
  - transitivity false; [|symmetry]; apply (in_range_testbit 32); try done.
    + apply lor_in_range; [lia| |]; (apply land_in_range_r; [lia|by vm_compute]).
    + rewrite !lor_shift by (done || lia). unfold in_range in *. lia.
Qed.

(** ** The circular schedule *)

Definition block_ok (block : list Z) : Prop := zlen block = 64 /\ bytes_ok block.

Lemma length_extend ts : forall w, length (fold_left extend ts w) = (length w + length ts)%nat.
Proof. induction ts as [|t ts IH]; intros w; cbn [fold_left]; [cbn; lia|]. rewrite IH. unfold extend. rewrite length_app. cbn. lia. Qed.

Lemma extend_lookup ts : forall w i, (i < length w)%nat -> fold_left extend ts w !!! i = w !!! i.
Proof.
  induction ts as [|t ts IH]; intros w i Hi; cbn [fold_left]; [done|]. rewrite IH.
  - unfold extend. by apply lookup_total_app_l.
  - unfold extend. rewrite length_app. lia.
Qed.

Lemma schedule_lt16 block i : (i < 16)%nat -> schedule block !!! i = W0 block !!! i.
Proof. intros Hi. apply extend_lookup. by unfold W0; rewrite length_map, length_seq. Qed.

Lemma schedule_ge16 block t : (16 <= t < 80)%nat ->
  schedule block !!! t = rol ((schedule block !!! (t - 3)%nat) .^ (schedule block !!! (t - 8)%nat) .^
                               (schedule block !!! (t - 14)%nat) .^ (schedule block !!! (t - 16)%nat)) 1.
Proof.
  intros Ht. unfold schedule. replace 64%nat with ((t - 16) + (1 + (79 - t)))%nat by lia.
  rewrite !seq_app, !fold_left_app. set (w := fold_left extend (seq 16 (t - 16)) (W0 block)).
  assert (length w = t) as Hw by (unfold w; rewrite length_extend, length_seq; unfold W0; rewrite length_map, length_seq; lia).
  cbn [seq fold_left]. set (w' := extend w (16 + (t - 16))).
  assert (length w' = S t) as Hw' by (unfold w', extend; rewrite length_app; cbn; lia).
  rewrite !(extend_lookup _ w') by lia. unfold w' at 1. unfold extend at 1.
  rewrite lookup_total_app_r by lia. rewrite Hw, Nat.sub_diag. cbn [lookup_total list_lookup_total].
  assert (forall k, (k < t)%nat -> w' !!! k = w !!! k) as Hk.
  { intros k Hk. unfold w', extend. apply lookup_total_app_l. lia. }
  rewrite !Hk by lia. by replace (16 + (t - 16))%nat with t by lia.
Qed.

(** The array before round [t]: the last sixteen words, or, for the words not
    yet swapped, the block as loaded. *)
Definition circ (block l : list Z) (t : nat) : Prop :=
  length l = 16%nat /\
  (forall k, (k < t)%nat -> (t <= k + 16)%nat -> l !!! (k mod 16)%nat = schedule block !!! k) /\
  (forall k, (t <= k < 16)%nat -> l !!! k = words block !!! k).

Lemma land15 k : Nat.land k 15 = (k mod 16)%nat.
Proof. change 15%nat with (Nat.ones 4). by rewrite Nat.land_ones. Qed.

Lemma mod16_lt k : (k mod 16 < 16)%nat.
Proof. by apply Nat.mod_upper_bound. Qed.

Lemma circ_next block l t b : (t < 80)%nat -> circ block l t -> b = schedule block !!! t -> circ block (<[(t mod 16)%nat := b]> l) (S t).
Proof.
  intros Ht (Hl & H1 & H2) ->. split; [by rewrite length_insert|]. split.
  - intros k Hk1 Hk2. destruct (decide (k = t)) as [->|Hne].
    + apply list_lookup_total_insert_eq. rewrite Hl. apply mod16_lt.
    + rewrite list_lookup_total_insert_ne; [apply H1; lia|]. intros E.
      pose proof (Nat.div_mod_eq k 16). pose proof (Nat.div_mod_eq t 16). lia.
  - intros k Hk. rewrite list_lookup_total_insert_ne; [apply H2; lia|]. rewrite Nat.mod_small by lia. lia.
Qed.

Lemma blk_ok block l t : (16 <= t < 80)%nat -> circ block l t -> blk l t = schedule block !!! t.
Proof.
  intros Ht (_ & H1 & _). unfold blk. rewrite !land15, schedule_ge16 by done.
  assert (forall a k, (t - 16 <= k < t)%nat -> (a = k + 16)%nat -> l !!! (a mod 16)%nat = schedule block !!! k) as H.
  { intros a k Hk ->. rewrite <- H1 by lia. f_equal. replace (k + 16)%nat with (k + 1 * 16)%nat by lia. by rewrite Nat.Div0.mod_add. }
  rewrite (H (t + 13)%nat (t - 3)%nat), (H (t + 8)%nat (t - 8)%nat), (H (t + 2)%nat (t - 14)%nat), (H t (t - 16)%nat) by lia. done.
Qed.

Lemma blk0_ok block l t : (t < 16)%nat -> block_ok block -> circ block l t -> blk0 l t = schedule block !!! t.
Proof.
  intros Ht [Hz Hb] (_ & _ & H2). unfold blk0. rewrite H2 by lia. rewrite schedule_lt16 by done. unfold words, W0.
  rewrite !list_lookup_total_alt, !list_lookup_fmap, !lookup_seq_lt by done. cbn [fmap option_fmap option_map default].
  change (0 + t)%nat with t. assert (length (take 4 (drop (4 * t) block)) = 4%nat) as Hl.
  { rewrite length_take, length_drop. unfold zlen in Hz. lia. }
  assert (bytes_ok (take 4 (drop (4 * t) block))) as Hq by (by apply Forall_take, Forall_drop).
  destruct (take 4 _) as [|c0 [|c1 [|c2 [|c3 [|? ?]]]]]; try done.
  inversion_clear Hq as [|? ? ? Hq1]. inversion_clear Hq1 as [|? ? ? Hq2]. inversion_clear Hq2 as [|? ? ? Hq3]. inversion_clear Hq3.
  by apply blk0_swap.
Qed.

(** ** The rounds *)

#[local] Opaque schedule words blk blk0.

Section rounds.
Context (block : list Z) (Hblock : block_ok block).

Lemma step_fips s f b k t : regs_ok s -> f = f_t t (w_ s) (x_ s) (y_ s) -> b = schedule block !!! t -> k = K_t t ->
  step s f b k = fips_round (schedule block) s t /\ regs_ok (step s f b k).
Proof.
  intros (Hv & Hw & Hx & Hy & Hz) -> -> ->. split.
  - unfold step, fips_round. f_equal. f_equal. lia.
  - split_and!; cbn; try done; [apply wrap_range; lia|apply rol_range; [lia|done]].
Qed.

(** What a round macro does at round [t]. *)
Definition round_ok (r : regs * list Z -> nat -> regs * list Z) (t : nat) : Prop :=
  forall s l, regs_ok s -> circ block l t ->
  exists l', r (s, l) t = (fips_round (schedule block) s t, l') /\
    regs_ok (fips_round (schedule block) s t) /\ circ block l' (S t).

Lemma round_blk r f k t : (16 <= t < 80)%nat -> k = K_t t ->
  (forall s l, r (s, l) t = (step s (f s) (blk l t) k, <[Nat.land t 15 := blk l t]> l)) ->
  (forall s, regs_ok s -> f s = f_t t (w_ s) (x_ s) (y_ s)) -> round_ok r t.
Proof.
  intros Ht Hk Hr Hf s l Hs Hl. rewrite Hr. pose proof (blk_ok block l t Ht Hl) as Hb.
  destruct (step_fips s (f s) (blk l t) k t Hs (Hf s Hs) Hb Hk) as [-> Hok].
  eexists. split; [done|]. split; [|rewrite land15; apply circ_next; [lia|done|done]].
  destruct (step_fips s (f s) (blk l t) k t Hs (Hf s Hs) Hb Hk) as [E Hok']. by rewrite E in Hok'.
Qed.

Lemma r0_ok t : (t < 16)%nat -> round_ok r0 t.
Proof.
  intros Ht s l Hs Hl. pose proof (blk0_ok block l t Ht Hblock Hl) as Hb. pose proof Hs as (_ & Hw & Hx & Hy & _).
  destruct (step_fips s ((w_ s .& (x_ s .^ y_ s)) .^ y_ s) (blk0 l t) 0x5A827999 t Hs) as [E Hok].
  - unfold f_t. rewrite (proj2 (Nat.ltb_lt t 20)) by lia. by apply code_Ch.
  - done.
  - unfold K_t. by rewrite (proj2 (Nat.ltb_lt t 20)) by lia.
  - unfold r0. rewrite E in *. eexists. split; [done|]. split; [done|].
    rewrite <- (Nat.mod_small t 16 Ht) at 1. apply circ_next; [lia|done|done].
Qed.

Ltac branch t := unfold f_t, K_t; destruct (Nat.ltb_spec t 20); try lia; destruct (Nat.ltb_spec t 40); try lia;
  destruct (Nat.ltb_spec t 60); try lia.

Lemma r1_ok t : (16 <= t < 20)%nat -> round_ok r1 t.
Proof.
  intros Ht. apply (round_blk r1 (fun s => (w_ s .& (x_ s .^ y_ s)) .^ y_ s) 0x5A827999 t); [lia|by branch t|done|].
  intros s (_ & Hw & Hx & Hy & _). branch t. by apply code_Ch.
Qed.
Lemma r2_ok t : (20 <= t < 40)%nat -> round_ok r2 t.
Proof. intros Ht. apply (round_blk r2 (fun s => w_ s .^ x_ s .^ y_ s) 0x6ED9EBA1 t); [lia|by branch t|done|]. intros s _. by branch t. Qed.
Lemma r3_ok t : (40 <= t < 60)%nat -> round_ok r3 t.
Proof.
  intros Ht. apply (round_blk r3 (fun s => ((w_ s .| x_ s) .& y_ s) .| (w_ s .& x_ s)) 0x8F1BBCDC t); [lia|by branch t|done|].
  intros s _. branch t. apply code_Maj.
Qed.
Lemma r4_ok t : (60 <= t < 80)%nat -> round_ok r4 t.
Proof. intros Ht. apply (round_blk r4 (fun s => w_ s .^ x_ s .^ y_ s) 0xCA62C1D6 t); [lia|by branch t|done|]. intros s _. by branch t. Qed.

Lemma rounds_ok r n : forall t s l, (forall i, (t <= i < t + n)%nat -> round_ok r i) -> regs_ok s -> circ block l t ->
  exists l', fold_left r (seq t n) (s, l) = (fold_left (fips_round (schedule block)) (seq t n) s, l') /\
    regs_ok (fold_left (fips_round (schedule block)) (seq t n) s) /\ circ block l' (t + n).
Proof.
  induction n as [|n IH]; intros t s l Hr Hs Hl; cbn [seq fold_left].
  { exists l. by rewrite Nat.add_0_r. }
  destruct (Hr t ltac:(lia) s l Hs Hl) as (l1 & -> & Hs1 & Hl1).
  destruct (IH (S t) _ l1 ltac:(intros; apply Hr; lia) Hs1 Hl1) as (l2 & -> & Hs2 & Hl2).
  exists l2. by replace (t + S n)%nat with (S t + n)%nat by lia.
Qed.
End rounds.

#[local] Transparent schedule words blk blk0.

Definition hash_ok (H : list Z) : Prop := length H = 5%nat /\ Forall (in_range 32) H.

Lemma hash_ok_word H i : hash_ok H -> in_range 32 (H !!! i).
Proof.
  intros [Hl Hf]. destruct (decide (i < 5)%nat).
  - apply (Forall_lookup_total_1 _ _ _ Hf). lia.
  - rewrite list_lookup_total_alt, lookup_ge_None_2 by lia. by vm_compute.
Qed.

(** kern_sha1_transform is the compression function of the standard. *)
Lemma transform_compress H block : hash_ok H -> block_ok block -> kern_sha1_transform H block = compress H block.
Proof.
  intros HH Hb. unfold kern_sha1_transform, compress. set (s0 := mk_regs _ _ _ _ _).
  assert (regs_ok s0) as Hs0 by (split_and!; by apply hash_ok_word).
  assert (circ block (words block) 0) as C0 by (split; [done|]; split; [intros; lia|done]).
  destruct (rounds_ok block r0 16 0 s0 _ (fun i Hi => r0_ok block Hb i ltac:(lia)) Hs0 C0) as (l0 & -> & Hs1 & C1).
  destruct (rounds_ok block r1 4 16 _ l0 (fun i Hi => r1_ok block i ltac:(lia)) Hs1 C1) as (l1 & -> & Hs2 & C2).
  destruct (rounds_ok block r2 20 20 _ l1 (fun i Hi => r2_ok block i ltac:(lia)) Hs2 C2) as (l2 & -> & Hs3 & C3).
  destruct (rounds_ok block r3 20 40 _ l2 (fun i Hi => r3_ok block i ltac:(lia)) Hs3 C3) as (l3 & -> & Hs4 & C4).
  destruct (rounds_ok block r4 20 60 _ l3 (fun i Hi => r4_ok block i ltac:(lia)) Hs4 C4) as (l4 & -> & _ & _).
  cbn [fst]. change (seq 0 80) with (seq 0 16 ++ seq 16 4 ++ seq 20 20 ++ seq 40 20 ++ seq 60 20).
  by rewrite !fold_left_app.
Qed.

Lemma compress_ok H block : hash_ok (compress H block).
Proof. split; [done|]. unfold compress. repeat constructor; apply wrap_range; lia. Qed.
