(* ===== verification/Kdf.v ===== *)
(** * SHA-1 streaming, HMAC and the WPA2 key derivations

    [kern_sha1_init], [kern_sha1_update], [kern_sha1_final],
    [kern_hmac_sha1], [derivePMK] and [derivePTK] of
    [src/src/kext/RTW88IEEE80211.cpp], against reference definitions of the
    hash (FIPS 180-4), HMAC (RFC 2104), PBKDF2 (RFC 8018) and the PRF of
    IEEE 802.11. *)

From S2P Require Import Prelude Sha1.

(** ** The code *)

Record KERN_SHA1_CTX := mk_ctx {
  state : list Z;
  count0 : Z;
  count1 : Z;
  buffer : list Z
}.

Definition kern_sha1_init (context : KERN_SHA1_CTX) : KERN_SHA1_CTX :=
  mk_ctx [0x67452301; 0xEFCDAB89; 0x98BADCFE; 0x10325476; 0xC3D2E1F0] 0 0 (buffer context).

(** [for (; i + 63 < len; i += 64)] *)
Fixpoint sha1_blocks (fuel : nat) (st : list Z) (data : list Z) (len i : Z) : option (list Z * Z) :=
  if u32 (i + 63) <? len then
    match fuel with
    | O => None
    | S k => b ← ldn data i 64; sha1_blocks k (kern_sha1_transform st b) data len (u32 (i + 64))
    end
  else Some (st, i).

Definition kern_sha1_update (context : KERN_SHA1_CTX) (data : list Z) : option KERN_SHA1_CTX :=
  let len := u32 (zlen data) in
  let j := count0 context in
  let c0 := u32 (count0 context + u32 (len << 3)) in
  let c1 := if c0 <? j then u32 (count1 context + 1) else count1 context in
  let c1 := u32 (c1 + (len >> 29)) in
  let j := (j >> 3) .& 63 in
  if 63 <? u32 (j + len) then
    let i := 64 - j in
    d ← ldn data 0 i;
    buf ← stn (buffer context) j d;
    r ← sha1_blocks (length data) (kern_sha1_transform (state context) buf) data len i;
    let '(st, i) := (r : list Z * Z) in
    d ← ldn data i (len - i);
    buf ← stn buf 0 d;
    Some (mk_ctx st c0 c1 buf)
  else
    d ← ldn data 0 len;
    buf ← stn (buffer context) j d;
    Some (mk_ctx (state context) c0 c1 buf).

(** [while ((context->count[0] & 504) != 448)] *)
Fixpoint sha1_pad (fuel : nat) (context : KERN_SHA1_CTX) : option KERN_SHA1_CTX :=
  if count0 context .& 504 =? 448 then Some context
  else match fuel with
       | O => None
       | S k => context ← kern_sha1_update context [0]; sha1_pad k context
       end.

Definition finalcount (context : KERN_SHA1_CTX) : list Z :=
  map (fun i => ((if 4 <=? i then count0 context else count1 context) >> ((3 - (i .& 3)) * 8)) .& 255) (seqZ 0 8).

(** The digest and the context as it is left. *)
Definition kern_sha1_final (context : KERN_SHA1_CTX) : option (list Z * KERN_SHA1_CTX) :=
  let fc := finalcount context in
  context ← kern_sha1_update context [128];
  context ← sha1_pad 64 context;
  context ← kern_sha1_update context fc;
  Some (map (fun i => ((state context !!! Z.to_nat (i >> 2)) >> ((3 - (i .& 3)) * 8)) .& 255) (seqZ 0 20), context).

(** [init], one [update] per part, [final]. *)
Fixpoint updates (context : KERN_SHA1_CTX) (parts : list (list Z)) : option KERN_SHA1_CTX :=
  match parts with
  | [] => Some context
  | d :: parts => context ← kern_sha1_update context d; updates context parts
  end.
Definition sha1_parts (ctx : KERN_SHA1_CTX) (parts : list (list Z)) : option (list Z * KERN_SHA1_CTX) :=
  ctx ← updates (kern_sha1_init ctx) parts; kern_sha1_final ctx.

(** [ctx]: the context on the stack, as it is found there. *)
Definition kern_hmac_sha1 (ctx : KERN_SHA1_CTX) (key data : list Z) : option (list Z) :=
  kc ← (if 64 <? zlen key then sha1_parts ctx [key] else Some (key, ctx));
  let '(key, ctx) := (kc : list Z * KERN_SHA1_CTX) in
  k_ipad ← stn (zeros 64) 0 key;
  k_opad ← stn (zeros 64) 0 key;
  let k_ipad := map (fun b => b .^ 0x36) k_ipad in
  let k_opad := map (fun b => b .^ 0x5c) k_opad in
  mc ← sha1_parts ctx [k_ipad; data];
  let '(mac, ctx) := (mc : list Z * KERN_SHA1_CTX) in
  mc ← sha1_parts ctx [k_opad; mac];
  Some (fst mc).

(** [strlen]: [None] when no byte of the buffer is zero. *)
Fixpoint strlen (s : list Z) : option Z :=
  match s with
  | [] => None
  | c :: s => if c =? 0 then Some 0 else n ← strlen s; Some (1 + n)
  end.

(** The sign of the first difference. *)
Fixpoint memcmp (a b : list Z) : Z :=
  match a, b with
  | x :: a, y :: b => if x =? y then memcmp a b else x - y
  | _, _ => 0
  end.

(** [for (iter = 1; iter < 4096; iter++)] *)
Fixpoint pmk_loop (iters : nat) (ctx : KERN_SHA1_CTX) (passphrase u t : list Z) : option (list Z) :=
  match iters with
  | O => Some t
  | S k =>
      u ← kern_hmac_sha1 ctx passphrase u;
      pmk_loop k ctx passphrase u (zip_with Z.lxor t u)
  end.

Definition be32 (z : Z) : list Z := [(z >> 24) .& 0xff; (z >> 16) .& 0xff; (z >> 8) .& 0xff; z .& 0xff].

Definition pmk_block (ctx : KERN_SHA1_CTX) (passphrase salt : list Z) (ssid_len block : Z) : option (list Z) :=
  salt ← stn salt ssid_len (be32 block);
  d ← ldn salt 0 (ssid_len + 4);
  u ← kern_hmac_sha1 ctx passphrase d;
  pmk_loop (Z.to_nat 4095) ctx passphrase u u.

(** [passphrase] is the NUL-terminated buffer, [pmk] the output buffer. *)
Definition derivePMK (ctx : KERN_SHA1_CTX) (passphrase ssid pmk : list Z) : option (list Z) :=
  pass_len ← strlen passphrase;
  pass ← ldn passphrase 0 pass_len;
  let ssid_len := if 120 <? zlen ssid then 120 else zlen ssid in
  d ← ldn ssid 0 ssid_len;
  salt ← stn (zeros 128) 0 d;
  t ← pmk_block ctx pass salt ssid_len 1;
  pmk ← stn pmk 0 t;
  t ← pmk_block ctx pass salt ssid_len 2;
  t ← ldn t 0 12;
  stn pmk 20 t.

(** "Pairwise key expansion" *)
Definition ptk_label : list Z :=
  [80; 97; 105; 114; 119; 105; 115; 101; 32; 107; 101; 121; 32; 101; 120; 112; 97; 110; 115; 105; 111; 110].

Definition ptk_data (anonce snonce spa aa : list Z) : option (list Z) :=
  let '(min_mac, max_mac) := if memcmp spa aa <? 0 then (spa, aa) else (aa, spa) in
  let '(min_nonce, max_nonce) := if memcmp snonce anonce <? 0 then (snonce, anonce) else (anonce, snonce) in
  data ← stn (zeros 100) 0 ptk_label;
  data ← stn data 22 [0];
  data ← stn data 23 min_mac;
  data ← stn data 29 max_mac;
  data ← stn data 35 min_nonce;
  stn data 67 max_nonce.

Fixpoint ptk_loop (ctx : KERN_SHA1_CTX) (pmk data ptk : list Z) (idx : list Z) : option (list Z) :=
  match idx with
  | [] => Some ptk
  | i :: idx =>
      data ← st data 99 (u8 i);
      d ← ldn data 0 100;
      hash ← kern_hmac_sha1 ctx pmk d;
      h ← ldn hash 0 (if i <? 3 then 20 else 4);
      ptk ← stn ptk (i * 20) h;
      ptk_loop ctx pmk data ptk idx
  end.

Definition derivePTK (ctx : KERN_SHA1_CTX) (pmk anonce snonce spa aa ptk : list Z) : option (list Z) :=
  data ← ptk_data anonce snonce spa aa; ptk_loop ctx pmk data ptk (seqZ 0 4).

(** The uninitialised stack context of the concrete runs. *)
Definition stack_ctx : KERN_SHA1_CTX := mk_ctx [0; 0; 0; 0; 0] 0 0 (zeros 64).

Example sha1_abc : fst <$> sha1_parts stack_ctx [[97]; [98; 99]] =
  Some [0xa9; 0x99; 0x3e; 0x36; 0x47; 0x06; 0x81; 0x6a; 0xba; 0x3e; 0x25; 0x71; 0x78; 0x50; 0xc2; 0x6c; 0x9c; 0xd0; 0xd8; 0x9d].
Proof. vm_compute. reflexivity. Qed.

(** RFC 2202, test case 1. *)
Example hmac_sha1_run : kern_hmac_sha1 stack_ctx (replicate 20 0x0b) [0x48; 0x69; 0x20; 0x54; 0x68; 0x65; 0x72; 0x65] =
  Some [0xb6; 0x17; 0x31; 0x86; 0x55; 0x05; 0x72; 0x64; 0xe2; 0x8b; 0xc0; 0xb6; 0xfb; 0x37; 0x8c; 0x8e; 0xf1; 0x46; 0xbe; 0x00].
Proof. vm_compute. reflexivity. Qed.

(** ** Reference: the hash *)

(** [n] blocks absorbed: the chaining value and what is left. *)
Fixpoint absorb (n : nat) (H m : list Z) : list Z * list Z :=
  match n with O => (H, m) | S k => absorb k (compress H (ztake 64 m)) (zdrop 64 m) end.

Definition H0 : list Z := [0x67452301; 0xefcdab89; 0x98badcfe; 0x10325476; 0xc3d2e1f0].
Definition padding (m : list Z) : list Z :=
  [128] ++ zeros ((55 - zlen m) mod 64) ++ be_bytes 8 (8 * zlen m).
Definition sha1 (m : list Z) : list Z :=
  let p := m ++ padding m in
  concat (map (be_bytes 4) (fst (absorb (length p / 64) H0 p))).


Lemma absorb_snd n : forall H m, snd (absorb n H m) = zdrop (64 * Z.of_nat n) m.
Proof.
  induction n as [|n IH]; intros H m; cbn [absorb snd]; [done|]. rewrite IH, zdrop_zdrop by lia. f_equal. lia.
Qed.
Lemma absorb_ok n : forall H m, hash_ok H -> hash_ok (fst (absorb n H m)).
Proof. induction n as [|n IH]; intros H m HH; cbn [absorb fst]; [done|]. apply IH, compress_ok. Qed.
Lemma absorb_add n k : forall H m, absorb (n + k) H m = absorb k (fst (absorb n H m)) (snd (absorb n H m)).
Proof. induction n as [|n IH]; intros H m; cbn [absorb Nat.add]; [done|]. apply IH. Qed.
Lemma absorb_app n : forall H m d, 64 * Z.of_nat n <= zlen m ->
  absorb n H (m ++ d) = (fst (absorb n H m), snd (absorb n H m) ++ d).
Proof.
  induction n as [|n IH]; intros H m d Hn; cbn [absorb fst snd]; [done|].
  assert (ztake 64 (m ++ d) = ztake 64 m) as -> by (unfold ztake; apply take_app_le; unfold zlen in Hn; lia).
  assert (zdrop 64 (m ++ d) = zdrop 64 m ++ d) as -> by (unfold zdrop; apply drop_app_le; unfold zlen in Hn; lia).
  apply IH. rewrite zlen_zdrop. lia.
Qed.

(** [m] is what the context has been given so far. *)
Record ctx_of (m : list Z) (c : KERN_SHA1_CTX) : Prop := {
  co_bytes : bytes_ok m;
  co_buffer : zlen (buffer c) = 64;
  co_count0 : count0 c = (8 * zlen m) mod 2 ^ 32;
  co_count1 : count1 c = (8 * zlen m / 2 ^ 32) mod 2 ^ 32;
  co_state : exists n r, absorb n H0 m = (state c, r) /\ zlen m = 64 * Z.of_nat n + zlen r /\ zlen r < 64 /\
               ztake (zlen r) (buffer c) = r
}.

Lemma H0_ok : hash_ok H0.
Proof. split; [done|]. repeat constructor; by vm_compute. Qed.

Lemma init_ctx_of c : zlen (buffer c) = 64 -> ctx_of [] (kern_sha1_init c).
Proof. intros H. split; try done. by exists O, []. Qed.

Lemma count_add A L : 0 <= A -> 0 <= L ->
  let c0 := u32 (A mod 2 ^ 32 + u32 (L << 3)) in
  c0 = (A + 8 * L) mod 2 ^ 32 /\
  forall c1, c1 = (A / 2 ^ 32) mod 2 ^ 32 ->
    u32 ((if c0 <? A mod 2 ^ 32 then u32 (c1 + 1) else c1) + (L >> 29)) = ((A + 8 * L) / 2 ^ 32) mod 2 ^ 32.
Proof.
  intros HA HL c0. assert (c0 = (A + 8 * L) mod 2 ^ 32) as E.
  { unfold c0, wrap. rewrite Z.shiftl_mul_pow2, <- Z.add_mod by lia. f_equal. lia. }
  split; [done|]. intros c1 ->. unfold wrap. rewrite Z.shiftr_div_pow2 by lia.
  assert ((if c0 <? A mod 2 ^ 32 then 1 else 0) + A / 2 ^ 32 + L / 2 ^ 29 = (A + 8 * L) / 2 ^ 32) as H.
  { rewrite E. pow_const. destruct (Z.ltb_spec ((A + 8 * L) mod 4294967296) (A mod 4294967296)); Z.to_euclidean_division_equations; lia. }
  rewrite <- H. destruct (c0 <? A mod 2 ^ 32).
  - rewrite Zplus_mod_idemp_l, <- Z.add_assoc, Zplus_mod_idemp_l. f_equal. lia.
  - by rewrite Zplus_mod_idemp_l.
Qed.

Lemma count_index M : 0 <= M -> (((8 * M) mod 2 ^ 32) >> 3) .& 63 = M mod 64.
Proof.
  intros HM. change 63 with (Z.ones 6). rewrite Z.land_ones, Z.shiftr_div_pow2 by lia. pow_const.
  Z.to_euclidean_division_equations. lia.
Qed.

Lemma block_ok_take m : bytes_ok m -> 64 <= zlen m -> block_ok (ztake 64 m).
Proof. intros Hb Hl. split; [zlen|by apply Forall_take]. Qed.

Lemma sha1_blocks_ok data : forall fuel st i,
  hash_ok st -> bytes_ok data -> zlen data + 64 < 2 ^ 32 -> 0 <= i <= zlen data -> zlen data - i <= Z.of_nat fuel ->
  exists k, sha1_blocks fuel st data (zlen data) i = Some (fst (absorb k st (zdrop i data)), i + 64 * Z.of_nat k) /\
    i + 64 * Z.of_nat k <= zlen data < i + 64 * Z.of_nat k + 64.
Proof.
  induction fuel as [|fuel IH]; intros st i Hst Hb Hl Hi Hf; cbn [sha1_blocks]; rewrite (wrap_small 32 (i + 63)) by (unfold in_range; lia).
  all: destruct (Z.ltb_spec (i + 63) (zlen data)); [|exists O; split; [cbn [absorb fst]; do 2 f_equal; lia|lia]]; try lia.
  rewrite ldn_Some by lia. cbn [mbind option_bind]. rewrite (wrap_small 32) by (unfold in_range; lia).
  rewrite transform_compress by (done || (apply block_ok_take; [by apply Forall_drop|zlen])).
  destruct (IH (compress st (ztake 64 (zdrop i data))) (i + 64)) as (k & -> & Hk); [apply compress_ok|done|lia|lia|lia|].
  exists (S k). split; [|lia]. cbn [absorb]. rewrite zdrop_zdrop by lia. f_equal. f_equal. lia.
Qed.

(** One update appends its data to what has been hashed. *)
Lemma update_ctx_of m c d : ctx_of m c -> bytes_ok d -> zlen d + 64 < 2 ^ 32 ->
  exists c', kern_sha1_update c d = Some c' /\ ctx_of (m ++ d) c'.
Proof.
  intros [Hm Hbuf Hc0 Hc1 (n & r & Ea & Hmn & Hr & Hp)] Hd Hl. unfold kern_sha1_update.
  pose proof (zlen_nonneg d). pose proof (zlen_nonneg m). pose proof (zlen_nonneg r).
  rewrite (wrap_small 32 (zlen d)) by (unfold in_range; lia). rewrite Hc0, count_index by lia.
  destruct (count_add (8 * zlen m) (zlen d)) as [Hk0 Hk1]; [lia|lia|]. cbn zeta in *. rewrite Hc1.
  rewrite (Hk1 _ eq_refl), Hk0. replace (8 * zlen m + 8 * zlen d) with (8 * zlen (m ++ d)) by zlen.
  replace (zlen m mod 64) with (zlen r) by (Z.to_euclidean_division_equations; lia).
  rewrite (wrap_small 32) by (unfold in_range; lia). pose proof (absorb_snd n H0 m) as Hs. rewrite Ea in Hs. cbn [snd] in Hs.
  pose proof (absorb_ok n H0 m H0_ok) as Hok. rewrite Ea in Hok. cbn [fst] in Hok.
  assert (bytes_ok (m ++ d)) as Hmd by (by apply Forall_app).
  assert (bytes_ok r) as Hrb by (rewrite Hs; by apply Forall_drop).
  assert (absorb n H0 (m ++ d) = (state c, r ++ d)) as Ead by (rewrite absorb_app, Ea by lia; done).
  destruct (Z.ltb_spec 63 (zlen r + zlen d)) as [Hge|Hlt].
  - rewrite ldn_Some by lia. cbn [mbind option_bind]. rewrite zdrop_0.
    destruct (stn_prefix (buffer c) (zlen r) (ztake (64 - zlen r) d) r Hp eq_refl) as (buf & -> & Hbz & Hbp); [zlen|].
    cbn [mbind option_bind].
    assert (buf = r ++ ztake (64 - zlen r) d) as ->.
    { rewrite <- Hbp. symmetry. apply ztake_all. zlen. }
    assert (r ++ ztake (64 - zlen r) d = ztake 64 (r ++ d)) as Eb.
    { unfold ztake, zlen in *. rewrite take_app. rewrite (take_ge r) by lia. f_equal. f_equal. lia. }
    assert (zdrop 64 (r ++ d) = zdrop (64 - zlen r) d) as Ed.
    { unfold zdrop, zlen in *. rewrite drop_app_ge by lia. f_equal. lia. }
    rewrite Eb, transform_compress by (done || (apply block_ok_take; [by apply Forall_app|zlen])).
    destruct (sha1_blocks_ok d (length d) (compress (state c) (ztake 64 (r ++ d))) (64 - zlen r)) as (k & -> & Hk);
      [apply compress_ok|done|lia|lia|unfold zlen in *; lia|]. cbn [mbind option_bind].
    set (i := 64 - zlen r + 64 * Z.of_nat k) in *. rewrite ldn_Some by lia. cbn [mbind option_bind].
    rewrite (ztake_all (zlen d - i)) by zlen. rewrite stn_Some by (rewrite ?zlen_zdrop, ?zlen_ztake, ?zlen_app; lia).
    cbn [mbind option_bind]. rewrite ztake_0. cbn [app]. eexists. split; [done|]. split; cbn; try done.
    { rewrite !zlen_app, !zlen_zdrop, zlen_ztake, zlen_app. lia. }
    exists (n + S k)%nat, (zdrop i d). split; [|split; [rewrite zlen_app, zlen_zdrop; unfold i; lia|split; [rewrite zlen_zdrop; lia|apply ztake_app_exact]]].
    rewrite absorb_add, Ead. cbn [fst snd absorb]. rewrite Ed. rewrite (surjective_pairing (absorb k _ _)), absorb_snd.
    f_equal. rewrite zdrop_zdrop by lia. f_equal.
  - rewrite ldn_Some by lia. cbn [mbind option_bind]. rewrite zdrop_0, ztake_all by lia.
    destruct (stn_prefix (buffer c) (zlen r) d r Hp eq_refl) as (buf & -> & Hbz & Hbp); [lia|]. cbn [mbind option_bind].
    eexists. split; [done|]. split; cbn; try done; [lia|].
    exists n, (r ++ d). rewrite !zlen_app. split_and!; [done|lia|lia|done].
Qed.

(** ** Padding and the digest *)

Lemma count_pad M : 0 <= M -> ((8 * M) mod 2 ^ 32) .& 504 = 8 * (M mod 64).
Proof.
  intros HM. replace ((8 * M) mod 2 ^ 32) with ((M mod 2 ^ 29) << 3).
  2:{ rewrite Z.shiftl_mul_pow2 by lia. pow_const. Z.to_euclidean_division_equations. lia. }
  change 504 with (63 << 3). rewrite <- Z.shiftl_land. change 63 with (Z.ones 6).
  rewrite Z.land_ones, Z.shiftl_mul_pow2 by lia. pow_const. Z.to_euclidean_division_equations. lia.
Qed.

Lemma zeros_app a b : 0 <= a -> 0 <= b -> zeros a ++ zeros b = zeros (a + b).
Proof. intros. unfold zeros. rewrite <- replicate_add. f_equal. lia. Qed.

Lemma sha1_pad_ok fuel : forall m c, ctx_of m c -> (56 - zlen m) mod 64 <= Z.of_nat fuel ->
  exists c', sha1_pad fuel c = Some c' /\ ctx_of (m ++ zeros ((56 - zlen m) mod 64)) c'.
Proof.
  induction fuel as [|fuel IH]; intros m c Hc Hf; cbn [sha1_pad]; rewrite (co_count0 _ _ Hc), count_pad by apply zlen_nonneg.
  all: pose proof (zlen_nonneg m); destruct (Z.eqb_spec (8 * (zlen m mod 64)) 448) as [E|E].
  1, 3: exists c; split; [done|]; replace ((56 - zlen m) mod 64) with 0 by (Z.to_euclidean_division_equations; lia);
    change (zeros 0) with (@nil Z); by rewrite app_nil_r.
  { exfalso. Z.to_euclidean_division_equations. lia. }
  destruct (update_ctx_of m c [0] Hc) as (c1 & -> & Hc1); [by repeat constructor|done|]. cbn [mbind option_bind].
  assert ((56 - zlen (m ++ [0])) mod 64 = (56 - zlen m) mod 64 - 1) as Ez.
  { rewrite zlen_app. change (zlen [0]) with 1. Z.to_euclidean_division_equations. lia. }
  destruct (IH _ _ Hc1) as (c2 & -> & Hc2); [lia|]. exists c2. split; [done|].
  rewrite Ez, <- app_assoc in Hc2. change [0] with (zeros 1) in Hc2. rewrite zeros_app in Hc2; [|lia|].
  - by replace (1 + _) with ((56 - zlen m) mod 64) in Hc2 by lia.
  - pose proof (Z.mod_pos_bound (56 - zlen (m ++ [0])) 64). lia.
Qed.

Lemma byte_of z k : 0 <= k -> (z >> k) .& 255 = (z / 2 ^ k) mod 256.
Proof. intros Hk. rewrite land_255. unfold wrap. by rewrite Z.shiftr_div_pow2. Qed.

Lemma be_bytes_4 z : be_bytes 4 z = [(z >> 24) .& 255; (z >> 16) .& 255; (z >> 8) .& 255; z .& 255].
Proof.
  rewrite !byte_of, land_255 by lia. cbn [be_bytes app]. rewrite !Z.div_div by lia. done.
Qed.

Lemma finalcount_ok m c : ctx_of m c -> 8 * zlen m < 2 ^ 64 -> finalcount c = be_bytes 8 (8 * zlen m).
Proof.
  intros Hc Hl. unfold finalcount. rewrite (co_count0 _ _ Hc), (co_count1 _ _ Hc). pose proof (zlen_nonneg m).
  set (z := 8 * zlen m) in *. assert (0 <= z) as Hz by lia. clearbody z. clear Hc c m H. pow_const.
  change (seqZ 0 8) with [0; 1; 2; 3; 4; 5; 6; 7]. cbn -[Z.div Z.modulo Z.shiftr Z.land Z.mul].
  change ((3 - 0 .& 3) * 8) with 24. change ((3 - 1 .& 3) * 8) with 16. change ((3 - 2 .& 3) * 8) with 8. change ((3 - 3 .& 3) * 8) with 0.
  change ((3 - 4 .& 3) * 8) with 24. change ((3 - 5 .& 3) * 8) with 16. change ((3 - 6 .& 3) * 8) with 8. change ((3 - 7 .& 3) * 8) with 0.
  rewrite !byte_of, !Z.div_div by lia. pow_const. cbn [Z.mul Pos.mul Pos.add].
  repeat (f_equal; [change (2 ^ 0) with 1; Z.to_euclidean_division_equations; lia|]).
  f_equal. change (2 ^ 0) with 1. rewrite Z.div_1_r. Z.to_euclidean_division_equations. lia.
Qed.

Lemma digest_ok H : hash_ok H ->
  map (fun i => ((H !!! Z.to_nat (i >> 2)) >> ((3 - (i .& 3)) * 8)) .& 255) (seqZ 0 20) = concat (map (be_bytes 4) H).
Proof.
  intros [Hl _]. destruct H as [|h0 [|h1 [|h2 [|h3 [|h4 [|? ?]]]]]]; try done. cbn [map concat]. rewrite !be_bytes_4.
  change (seqZ 0 20) with [0; 1; 2; 3; 4; 5; 6; 7; 8; 9; 10; 11; 12; 13; 14; 15; 16; 17; 18; 19]. reflexivity.
Qed.

Lemma final_ok m c : ctx_of m c -> zlen m < 2 ^ 61 ->
  exists c', kern_sha1_final c = Some (sha1 m, c') /\ zlen (buffer c') = 64.
Proof.
  intros Hc Hl. unfold kern_sha1_final. rewrite (finalcount_ok m c Hc) by lia. pose proof (zlen_nonneg m).
  destruct (update_ctx_of m c [128] Hc) as (c1 & -> & Hc1); [by repeat constructor|done|]. cbn [mbind option_bind].
  destruct (sha1_pad_ok 64 _ c1 Hc1) as (c2 & -> & Hc2); [pose proof (Z.mod_pos_bound (56 - zlen (m ++ [128])) 64); lia|].
  cbn [mbind option_bind]. rewrite zlen_app in Hc2. change (zlen [128]) with 1 in Hc2.
  replace (56 - (zlen m + 1)) with (55 - zlen m) in Hc2 by lia.
  destruct (update_ctx_of _ c2 (be_bytes 8 (8 * zlen m)) Hc2) as (c3 & -> & Hc3).
  { cbn [be_bytes app]. repeat constructor; apply Z.mod_pos_bound; lia. }
  { done. }
  cbn [mbind option_bind]. exists c3. split; [|apply Hc3]. f_equal. f_equal.
  assert (((m ++ [128]) ++ zeros ((55 - zlen m) mod 64)) ++ be_bytes 8 (8 * zlen m) = m ++ padding m) as Ep
    by (unfold padding; by rewrite <- !app_assoc).
  rewrite Ep in Hc3. destruct Hc3 as [_ _ _ _ (n & r & Ea & Hn & Hr & _)].
  assert (zlen (m ++ padding m) mod 64 = 0) as Hmod.
  { unfold padding. rewrite !zlen_app, zlen_zeros. change (zlen (be_bytes 8 (8 * zlen m))) with 8. change (zlen [128]) with 1.
    Z.to_euclidean_division_equations. lia. }
  pose proof (zlen_nonneg r). assert (length (m ++ padding m) / 64 = n)%nat as En.
  { unfold zlen in *. apply Nat2Z.inj. rewrite Nat2Z.inj_div. change (Z.of_nat 64) with 64. Z.to_euclidean_division_equations. lia. }
  unfold sha1. cbn zeta. rewrite En, Ea. cbn [fst]. apply digest_ok.
  pose proof (absorb_ok n H0 (m ++ padding m) H0_ok) as Hok. by rewrite Ea in Hok.
Qed.

Definition part_ok (d : list Z) : Prop := bytes_ok d /\ zlen d + 64 < 2 ^ 32.

Lemma updates_ok parts : forall m c, ctx_of m c -> Forall part_ok parts ->
  exists c', updates c parts = Some c' /\ ctx_of (m ++ concat parts) c'.
Proof.
  induction parts as [|d parts IH]; intros m c Hc Hp; cbn [updates concat].
  { exists c. by rewrite app_nil_r. }
  inversion_clear Hp as [|? ? [Hd Hl] Hp']. destruct (update_ctx_of m c d Hc Hd Hl) as (c1 & -> & Hc1). cbn [mbind option_bind].
  rewrite app_assoc. by apply IH.
Qed.

Lemma sha1_parts_ok ctx parts : zlen (buffer ctx) = 64 -> Forall part_ok parts -> zlen (concat parts) < 2 ^ 61 ->
  exists ctx', sha1_parts ctx parts = Some (sha1 (concat parts), ctx') /\ zlen (buffer ctx') = 64.
Proof.
  intros Hb Hp Hl. unfold sha1_parts.
  destruct (updates_ok parts [] _ (init_ctx_of ctx Hb) Hp) as (c & -> & Hc). cbn [mbind option_bind app] in *.
  by apply final_ok.
Qed.

Lemma sha1_shape m : zlen (sha1 m) = 20 /\ bytes_ok (sha1 m).
Proof.
  unfold sha1. cbn zeta. set (H := fst _). assert (hash_ok H) as [Hl _] by apply absorb_ok, H0_ok.
  clearbody H. destruct H as [|h0 [|h1 [|h2 [|h3 [|h4 [|? ?]]]]]]; try done. cbn [map concat be_bytes app].
  split; [done|]. repeat constructor; apply Z.mod_pos_bound; lia.
Qed.

(** ** Reference: HMAC, PBKDF2 and the PRF *)

Definition hmac (key m : list Z) : list Z :=
  let k := if 64 <? zlen key then sha1 key else key in
  let K := k ++ zeros (64 - zlen k) in
  sha1 (map (fun b => b .^ 0x5c) K ++ sha1 (map (fun b => b .^ 0x36) K ++ m)).

(** [U_1], then each the PRF of the one before; [T] is their exclusive or. *)
Definition pbkdf2_U (pass salt : list Z) (block : Z) (j : nat) : list Z :=
  Nat.iter j (hmac pass) (hmac pass (salt ++ be_bytes 4 block)).
Definition pbkdf2_T (pass salt : list Z) (iters : nat) (block : Z) : list Z :=
  fold_left (fun t j => zip_with Z.lxor t (pbkdf2_U pass salt block j)) (seq 1 (iters - 1)) (pbkdf2_U pass salt block 0).
Definition pbkdf2_32 (pass salt : list Z) (iters : nat) : list Z :=
  ztake 32 (pbkdf2_T pass salt iters 1 ++ pbkdf2_T pass salt iters 2).

(** The lesser and the greater of two strings, concatenated. *)
Definition min_max (a b : list Z) : list Z := if memcmp a b <? 0 then a ++ b else b ++ a.
Definition prf_512 (pmk anonce snonce spa aa : list Z) : list Z :=
  ztake 64 (concat (map (fun i => hmac pmk (ptk_label ++ [0] ++ min_max spa aa ++ min_max snonce anonce ++ [i])) [0; 1; 2; 3])).

Lemma lxor_bytes k b : is_byte k -> bytes_ok b -> bytes_ok (map (fun x => x .^ k) b).
Proof. intros Hk Hb. apply Forall_fmap. eapply Forall_impl; [exact Hb|]. intros x Hx. by apply lxor_in_range. Qed.

Lemma zlen_map {A B} (f : A -> B) (l : list A) : zlen (map f l) = zlen l.
Proof. unfold zlen. by rewrite length_map. Qed.

Lemma hmac_ok ctx key data : zlen (buffer ctx) = 64 -> part_ok key -> part_ok data ->
  kern_hmac_sha1 ctx key data = Some (hmac key data).
Proof.
  intros Hb [Hk Hkl] Hd. unfold kern_hmac_sha1, hmac. set (k := if 64 <? zlen key then sha1 key else key).
  assert (exists ctx', (if 64 <? zlen key then sha1_parts ctx [key] else Some (key, ctx)) = Some (k, ctx') /\
    zlen (buffer ctx') = 64 /\ zlen k <= 64 /\ bytes_ok k) as (ctx1 & -> & Hb1 & Hk64 & Hkb).
  { unfold k. destruct (Z.ltb_spec 64 (zlen key)).
    - destruct (sha1_parts_ok ctx [key] Hb) as (c & -> & Hc); [by decompose_Forall|cbn; rewrite app_nil_r; lia|].
      cbn [concat]. rewrite app_nil_r. pose proof (sha1_shape key) as [? ?]. exists c. split_and!; try done. lia.
    - exists ctx. split_and!; try done. }
  clearbody k. cbn [mbind option_bind]. pose proof (zlen_nonneg k).
  rewrite stn_Some by (change (zlen (zeros 64)) with 64; lia). cbn [mbind option_bind].
  assert (ztake 0 (zeros 64) ++ k ++ zdrop (0 + zlen k) (zeros 64) = k ++ zeros (64 - zlen k)) as ->.
  { rewrite ztake_0. cbn [app]. f_equal. unfold zdrop, zeros. rewrite drop_replicate. f_equal. lia. }
  set (K := k ++ zeros (64 - zlen k)).
  assert (zlen K = 64) as HK by (unfold K; rewrite zlen_app, zlen_zeros; lia).
  assert (bytes_ok K) as HKb by (apply Forall_app; split; [done|by apply Forall_replicate]).
  assert (part_ok (map (fun b => b .^ 0x36) K)) as Hi by (split; [by apply lxor_bytes|rewrite zlen_map; lia]).
  assert (part_ok (map (fun b => b .^ 0x5c) K)) as Ho by (split; [by apply lxor_bytes|rewrite zlen_map; lia]).
  destruct (sha1_parts_ok ctx1 [map (fun b => b .^ 0x36) K; data] Hb1) as (c2 & -> & Hb2); [by decompose_Forall| |].
  { cbn [concat]. rewrite app_nil_r, zlen_app, zlen_map. destruct Hd. lia. }
  cbn [mbind option_bind concat]. rewrite app_nil_r. pose proof (sha1_shape (map (fun b => b .^ 0x36) K ++ data)) as [Hs Hsb].
  destruct (sha1_parts_ok c2 [map (fun b => b .^ 0x5c) K; sha1 (map (fun b => b .^ 0x36) K ++ data)] Hb2) as (c3 & -> & _).
  { decompose_Forall; [done|]. split; [done|lia]. }
  { cbn [concat]. rewrite app_nil_r, zlen_app, zlen_map. lia. }
  cbn [mbind option_bind concat fst]. by rewrite app_nil_r.
Qed.

Lemma hmac_shape key m : zlen (hmac key m) = 20 /\ bytes_ok (hmac key m).
Proof. apply sha1_shape. Qed.
Lemma hmac_part key m : part_ok (hmac key m).
Proof. destruct (hmac_shape key m). split; [done|lia]. Qed.

(** C13: hashing piecewise is hashing the concatenation.  For every context
    whatever its contents, any number of updates of any sizes (each below
    2^32 - 64 bytes, 2^61 in all) between init and final stays inside the
    64-byte buffer, terminates, and gives the FIPS 180-4 digest of the
    concatenated data. *)
Theorem sha1_exact ctx parts :
  zlen (buffer ctx) = 64 -> Forall part_ok parts -> zlen (concat parts) < 2 ^ 61 ->
  exists ctx', sha1_parts ctx parts = Some (sha1 (concat parts), ctx') /\ zlen (sha1 (concat parts)) = 20.
Proof.
  intros Hb Hp Hl. destruct (sha1_parts_ok ctx parts Hb Hp Hl) as (ctx' & E & _). exists ctx'.
  split; [done|apply sha1_shape].
Qed.

Lemma sha1_exact_witness :
  exists ctx', sha1_parts stack_ctx [replicate 70 7; []; replicate 60 9] = Some (sha1 (replicate 70 7 ++ replicate 60 9), ctx') /\
    zlen (sha1 (replicate 70 7 ++ replicate 60 9)) = 20.
Proof.
  apply (sha1_exact stack_ctx [replicate 70 7; []; replicate 60 9]); [done| |done].
  decompose_Forall; (split; [by apply bytes_okb_ok|done]).
Defined.

(** ** The pre-shared key *)

Lemma pmk_loop_ok ctx pass salt block n : forall j t, zlen (buffer ctx) = 64 -> part_ok pass ->
  pmk_loop n ctx pass (pbkdf2_U pass salt block j) t =
    Some (fold_left (fun t j => zip_with Z.lxor t (pbkdf2_U pass salt block j)) (seq (S j) n) t).
Proof.
  induction n as [|n IH]; intros j t Hb Hp; cbn [pmk_loop seq fold_left]; [done|].
  rewrite hmac_ok; [|done|done|destruct j; apply hmac_part]. cbn [mbind option_bind].
  change (hmac pass (pbkdf2_U pass salt block j)) with (pbkdf2_U pass salt block (S j)). by rewrite IH.
Qed.

Lemma zlen_U pass salt block j : zlen (pbkdf2_U pass salt block j) = 20.
Proof. destruct j; apply hmac_shape. Qed.

Lemma zlen_xors pass salt block js : forall t, zlen t = 20 ->
  zlen (fold_left (fun t j => zip_with Z.lxor t (pbkdf2_U pass salt block j)) js t) = 20.
Proof.
  induction js as [|j js IH]; intros t Ht; cbn [fold_left]; [done|]. apply IH.
  pose proof (zlen_U pass salt block j). unfold zlen in *. rewrite length_zip_with. lia.
Qed.

Lemma zlen_T pass salt n block : zlen (pbkdf2_T pass salt n block) = 20.
Proof. apply zlen_xors, zlen_U. Qed.

Lemma pmk_block_ok ctx pass salt s block :
  zlen (buffer ctx) = 64 -> part_ok pass -> bytes_ok s -> zlen s <= 120 -> zlen salt = 128 ->
  ztake (zlen s) salt = s -> be32 block = be_bytes 4 block ->
  pmk_block ctx pass salt (zlen s) block = Some (pbkdf2_T pass s 4096 block).
Proof.
  intros Hb Hp Hs Hl Hz Ht Hbe. unfold pmk_block. rewrite Hbe.
  assert (zlen (be_bytes 4 block) = 4) as H4 by done.
  destruct (stn_prefix salt (zlen s) (be_bytes 4 block) s Ht eq_refl) as (salt' & -> & Hz' & Ht'); [lia|].
  cbn [mbind option_bind]. rewrite H4 in Ht'. pose proof (zlen_nonneg s). rewrite ldn_Some, zdrop_0, Ht' by lia. cbn [mbind option_bind].
  rewrite hmac_ok; [|done|done|].
  - cbn [mbind option_bind]. exact (pmk_loop_ok ctx pass s block (Z.to_nat 4095) 0 _ Hb Hp).
  - split; [|rewrite zlen_app; lia]. apply Forall_app. split; [done|].
    cbn [be_bytes app]. repeat constructor; apply Z.mod_pos_bound; lia.
Qed.

Lemma strlen_ok pass rest : Forall (fun c => c <> 0) pass -> strlen (pass ++ 0 :: rest) = Some (zlen pass).
Proof.
  induction 1 as [|c pass Hc _ IH]; cbn [strlen app]; [done|]. rewrite (proj2 (Z.eqb_neq c 0) Hc), IH.
  cbn [mbind option_bind]. by rewrite zlen_cons.
Qed.

Lemma bytes_T pass salt n block : bytes_ok (pbkdf2_T pass salt n block).
Proof.
  unfold pbkdf2_T. assert (bytes_ok (pbkdf2_U pass salt block 0)) as H by apply hmac_shape.
  revert H. generalize (pbkdf2_U pass salt block 0). induction (seq 1 (n - 1)) as [|j js IH]; intros t Ht; cbn [fold_left]; [done|].
  apply IH. assert (bytes_ok (pbkdf2_U pass salt block j)) as Hu by (destruct j; apply hmac_shape). revert Hu.
  generalize (pbkdf2_U pass salt block j). clear -Ht. induction Ht as [|x t Hx Ht IH]; intros [|u us] Hu; cbn [zip_with]; try constructor.
  - inversion_clear Hu. by apply lxor_in_range.
  - inversion_clear Hu. by apply IH.
Qed.

#[local] Opaque pbkdf2_T pbkdf2_U.

(** The derivation, in closed form. *)
Lemma derivePMK_eq ctx pass rest ssid pmk :
  zlen (buffer ctx) = 64 -> part_ok pass -> Forall (fun c => c <> 0) pass -> bytes_ok ssid -> zlen pmk = 32 ->
  derivePMK ctx (pass ++ 0 :: rest) ssid pmk = Some (pbkdf2_32 pass (ztake 120 ssid) 4096).
Proof.
  intros Hb Hp Hn Hs Hm. unfold derivePMK. rewrite strlen_ok by done. cbn [mbind option_bind].
  rewrite ldn_app_0 by done. cbn [mbind option_bind]. pose proof (zlen_nonneg ssid).
  set (s := ztake 120 ssid). assert ((if 120 <? zlen ssid then 120 else zlen ssid) = zlen s) as -> by (unfold s; rewrite zlen_ztake; case_cmp).
  assert (zlen s <= 120) as Hl by (unfold s; zlen). assert (bytes_ok s) as Hsb by (by apply Forall_take).
  pose proof (zlen_nonneg s). rewrite ldn_Some, zdrop_0 by (unfold s in *; rewrite ?zlen_ztake in *; lia). cbn [mbind option_bind].
  assert (ztake (zlen s) ssid = s) as -> by (unfold s; rewrite zlen_ztake; unfold ztake, zlen in *; destruct (decide (length ssid <= 120)%nat);
    [rewrite !take_ge by lia; done|f_equal; lia]).
  destruct (stn_prefix (zeros 128) 0 s [] eq_refl eq_refl) as (salt & -> & Hz & Ht); [change (zlen (zeros 128)) with 128; lia|].
  cbn [mbind option_bind app] in *. rewrite (pmk_block_ok ctx pass salt s 1) by done. cbn [mbind option_bind].
  pose proof (zlen_T pass s 4096 1) as Hl1. pose proof (zlen_T pass s 4096 2) as Hl2.
  set (t1 := pbkdf2_T pass s 4096 1) in *. set (t2 := pbkdf2_T pass s 4096 2) in *.
  destruct (stn_prefix pmk 0 t1 [] eq_refl eq_refl) as (p1 & -> & Hz1 & Hp1); [lia|]. cbn [mbind option_bind app] in *.
  rewrite (pmk_block_ok ctx pass salt s 2) by done. cbn [mbind option_bind]. fold t2.
  rewrite ldn_Some, zdrop_0 by lia. cbn [mbind option_bind]. assert (zlen (ztake 12 t2) = 12) as H12 by zlen. rewrite Hl1 in Hp1.
  destruct (stn_prefix p1 20 (ztake 12 t2) t1 Hp1 Hl1) as (p2 & -> & Hz2 & Hp2); [lia|]. f_equal.
  rewrite H12 in Hp2. rewrite ztake_all in Hp2 by lia. rewrite Hp2. unfold pbkdf2_32. fold t1 t2. clearbody t1 t2.
  unfold ztake, zlen in *. rewrite take_app, (take_ge t1) by lia. f_equal. f_equal. lia.
Qed.

(** A terminated passphrase always gives a 32-byte key. *)
Lemma derivePMK_ok ctx pass ssid pmk : zlen (buffer ctx) = 64 -> bytes_ok pass -> zlen pass = 64 -> In 0 pass -> bytes_ok ssid -> zlen pmk = 32 ->
  exists v, derivePMK ctx pass ssid pmk = Some v /\ zlen v = 32 /\ bytes_ok v.
Proof.
  intros Hb Hp Hl H0 Hs Hm. assert (exists p r, pass = p ++ 0 :: r /\ Forall (fun c => c <> 0) p) as (p & r & -> & Hn).
  { clear -H0. induction pass as [|c pass IH]; [done|]. destruct (decide (c = 0)) as [->|Hc]; [by exists [], pass|].
    destruct IH as (p & r & -> & Hp); [by destruct H0|]. exists (c :: p), r. by split; [|constructor]. }
  eexists. split; [apply derivePMK_eq; try done; split|].
  - by apply Forall_app in Hp as [Hp _].
  - rewrite zlen_app in Hl. pose proof (zlen_nonneg (0 :: r)). lia.
  - split; [unfold pbkdf2_32; rewrite zlen_ztake, zlen_app, !zlen_T; done|]. apply Forall_take, Forall_app. split; apply bytes_T.
Qed.

(** C21: derivePMK is the first 32 bytes of PBKDF2-HMAC-SHA1 with 4096
    iterations over the SSID, for every passphrase up to the terminating NUL; it stays
    inside its salt and output buffers, and an SSID longer than the salt has
    room for is cut at 120 bytes. *)
Theorem derive_pmk_pbkdf2 ctx pass rest ssid pmk :
  zlen (buffer ctx) = 64 -> part_ok pass -> Forall (fun c => c <> 0) pass -> bytes_ok ssid -> zlen pmk = 32 ->
  derivePMK ctx (pass ++ 0 :: rest) ssid pmk = Some (pbkdf2_32 pass (ztake 120 ssid) 4096).
Proof. apply derivePMK_eq. Qed.

Lemma derive_pmk_pbkdf2_witness :
  let pass := [112; 97; 115; 115; 119; 111; 114; 100] in let ssid := [73; 69; 69; 69] in
  derivePMK stack_ctx (pass ++ 0 :: zeros 56) ssid (zeros 32) = Some (pbkdf2_32 pass (ztake 120 ssid) 4096).
Proof.
  intros pass ssid. apply (derive_pmk_pbkdf2 stack_ctx pass (zeros 56) ssid (zeros 32)); try done.
  - split; [by apply bytes_okb_ok|done].
  - unfold pass. repeat (apply Forall_cons_2; [done|]). apply Forall_nil_2.
  - by apply bytes_okb_ok.
Defined.

(** ** The pairwise transient key *)

Lemma memcmp_sym a : forall b, memcmp b a = - memcmp a b.
Proof.
  induction a as [|x a IH]; intros [|y b]; cbn [memcmp]; try done.
  rewrite Z.eqb_sym. destruct (Z.eqb_spec x y); [apply IH|lia].
Qed.
Lemma memcmp_0 a : forall b, length a = length b -> memcmp a b = 0 -> a = b.
Proof.
  induction a as [|x a IH]; intros [|y b] Hl; cbn [memcmp]; try done.
  destruct (Z.eqb_spec x y) as [->|]; [|lia]. intros E. f_equal. apply IH; [by injection Hl|done].
Qed.
Lemma min_max_comm a b : length a = length b -> min_max a b = min_max b a.
Proof.
  intros Hl. unfold min_max. pose proof (memcmp_sym a b). destruct (Z.ltb_spec (memcmp a b) 0), (Z.ltb_spec (memcmp b a) 0); try lia; try done.
  by rewrite (memcmp_0 a b) by (done || lia).
Qed.

Lemma zlen_min_max a b : zlen (min_max a b) = zlen a + zlen b.
Proof. unfold min_max. destruct (_ <? 0); rewrite zlen_app; lia. Qed.
Lemma bytes_min_max a b : bytes_ok a -> bytes_ok b -> bytes_ok (min_max a b).
Proof. intros. unfold min_max. destruct (_ <? 0); by apply Forall_app. Qed.

(** The ninety-nine bytes before the counter. *)
Definition ptk_prefix (anonce snonce spa aa : list Z) : list Z :=
  ptk_label ++ [0] ++ min_max spa aa ++ min_max snonce anonce.

Lemma zlen_prefix an sn spa aa : zlen an = 32 -> zlen sn = 32 -> zlen spa = 6 -> zlen aa = 6 -> zlen (ptk_prefix an sn spa aa) = 99.
Proof.
  intros. unfold ptk_prefix. rewrite !zlen_app, !zlen_min_max. change (zlen ptk_label) with 22. change (zlen [0]) with 1. lia.
Qed.

Lemma ptk_data_ok an sn spa aa : zlen an = 32 -> zlen sn = 32 -> zlen spa = 6 -> zlen aa = 6 ->
  exists data, ptk_data an sn spa aa = Some data /\ zlen data = 100 /\ ztake 99 data = ptk_prefix an sn spa aa.
Proof.
  intros Ha Hs Hp Hq. unfold ptk_data.
  destruct (if memcmp spa aa <? 0 then (spa, aa) else (aa, spa)) as [m1 m2] eqn:Em.
  destruct (if memcmp sn an <? 0 then (sn, an) else (an, sn)) as [n1 n2] eqn:En.
  assert (min_max spa aa = m1 ++ m2 /\ zlen m1 = 6 /\ zlen m2 = 6) as (Hm & H1 & H2).
  { unfold min_max. destruct (memcmp spa aa <? 0); by injection Em as <- <-. }
  assert (min_max sn an = n1 ++ n2 /\ zlen n1 = 32 /\ zlen n2 = 32) as (Hn & H3 & H4).
  { unfold min_max. destruct (memcmp sn an <? 0); by injection En as <- <-. }
  pose proof (zlen_prefix an sn spa aa Ha Hs Hp Hq) as Hl. revert Hl. unfold ptk_prefix. rewrite Hm, Hn. clear Em En. intros Hl.
  destruct (stn_prefix (zeros 100) 0 ptk_label [] eq_refl eq_refl) as (b1 & E1 & Z1 & P1); [done|].
  rewrite E1. cbn [mbind option_bind]. change (0 + zlen ptk_label) with 22 in P1. cbn [app] in P1.
  destruct (stn_prefix b1 22 [0] _ P1 eq_refl) as (b2 & -> & Z2 & P2); [by rewrite Z1|]. cbn [mbind option_bind].
  change (22 + zlen [0]) with 23 in P2. change (zlen (zeros 100)) with 100 in *.
  destruct (stn_prefix b2 23 m1 _ P2 eq_refl) as (b3 & -> & Z3 & P3); [lia|]. cbn [mbind option_bind]. rewrite H1 in P3.
  destruct (stn_prefix b3 29 m2 _ P3) as (b4 & -> & Z4 & P4); [rewrite !zlen_app, H1; done|lia|]. cbn [mbind option_bind]. rewrite H2 in P4.
  destruct (stn_prefix b4 35 n1 _ P4) as (b5 & -> & Z5 & P5); [rewrite !zlen_app, H1, H2; done|lia|]. cbn [mbind option_bind]. rewrite H3 in P5.
  destruct (stn_prefix b5 67 n2 _ P5) as (b6 & E6 & Z6 & P6); [rewrite !zlen_app, H1, H2, H3; done|lia|]. rewrite H4 in P6.
  exists b6. split; [exact E6|]. split; [lia|]. change (67 + 32) with 99 in P6. by rewrite P6, <- !app_assoc.
Qed.

Lemma ptk_loop_ok ctx pmk pre idx : forall data ptk done_,
  zlen (buffer ctx) = 64 -> part_ok pmk -> bytes_ok pre -> zlen pre = 99 ->
  zlen data = 100 -> ztake 99 data = pre -> zlen ptk = 64 ->
  (exists a, idx = seqZ a (4 - a) /\ 0 <= a /\ ztake (20 * a) ptk = done_ /\ zlen done_ = 20 * a /\ a < 4) ->
  ptk_loop ctx pmk data ptk idx =
    Some (ztake 64 (done_ ++ concat (map (fun i => hmac pmk (pre ++ [i])) idx))).
Proof.
  induction idx as [|i idx IH]; intros data ptk dn Hb Hp Hpre Hprl Hd Hdt Hk (a & Hi & Ha & Hdn & Hdl & Ha4).
  { exfalso. rewrite seqZ_cons in Hi by lia. done. }
  rewrite seqZ_cons in Hi by lia. injection Hi as -> Hi. cbn [ptk_loop]. rewrite (wrap_small 8) by (unfold in_range; lia).
  assert (data = pre ++ zdrop 99 data) as Ed by (rewrite <- Hdt; symmetry; apply ztake_zdrop).
  assert (exists x, zdrop 99 data = [x]) as [x Ex].
  { assert (zlen (zdrop 99 data) = 1) as Hz by zlen. destruct (zdrop 99 data) as [|x [|? ?]]; unfold zlen in Hz; cbn in Hz; try lia. by exists x. }
  rewrite Ed, Ex, <- Hprl, st_middle. cbn [mbind option_bind].
  assert (zlen (pre ++ [a]) = 100) as Hpa by (rewrite zlen_app; change (zlen [a]) with 1; lia).
  rewrite ldn_Some, zdrop_0, ztake_all by lia. cbn [mbind option_bind].
  rewrite hmac_ok; [|done|done|split; [apply Forall_app; split; [done|repeat constructor; unfold in_range; lia]|lia]].
  cbn [mbind option_bind map concat]. pose proof (hmac_shape pmk (pre ++ [a])) as [Hh _]. set (h := hmac pmk (pre ++ [a])) in *. clearbody h.
  rewrite ldn_Some, zdrop_0 by (destruct (a <? 3); lia). cbn [mbind option_bind].
  set (hs := ztake (if a <? 3 then 20 else 4) h). assert (zlen hs = if a <? 3 then 20 else 4) as Hhs by (unfold hs; rewrite zlen_ztake; destruct (a <? 3); lia).
  destruct (stn_prefix ptk (a * 20) hs dn) as (p1 & -> & Hz1 & Hp1); [rewrite Z.mul_comm; done|lia|destruct (Z.ltb_spec a 3); lia|].
  cbn [mbind option_bind]. destruct (Z.ltb_spec a 3) as [Hlt|Hge].
  - rewrite (IH _ p1 (dn ++ h)); try done; [by rewrite <- app_assoc|by apply ztake_app_exact'|lia|].
    assert (hs = h) as E by (by apply ztake_all; lia). rewrite E in *. exists (a + 1). split_and!; [|lia| | |lia].
    + rewrite Hi. f_equal. lia.
    + rewrite <- Hp1. f_equal. lia.
    + rewrite zlen_app. lia.
  - assert (a = 3) as -> by lia. assert (idx = []) as -> by (by rewrite Hi). cbn [ptk_loop map concat]. f_equal.
    rewrite app_nil_r. rewrite Hhs in Hp1. rewrite <- (ztake_all 64 p1) by lia. change (3 * 20 + 4) with 64 in Hp1. rewrite Hp1.
    unfold hs, ztake, zlen in *. rewrite take_app, (take_ge dn) by lia. f_equal. f_equal. lia.
Qed.

Lemma derivePTK_ok ctx pmk an sn spa aa ptk :
  zlen (buffer ctx) = 64 -> part_ok pmk -> bytes_ok an -> bytes_ok sn -> bytes_ok spa -> bytes_ok aa ->
  zlen an = 32 -> zlen sn = 32 -> zlen spa = 6 -> zlen aa = 6 -> zlen ptk = 64 ->
  derivePTK ctx pmk an sn spa aa ptk = Some (prf_512 pmk an sn spa aa).
Proof.
  intros Hb Hp Ban Bsn Bspa Baa Lan Lsn Lspa Laa Hk. unfold derivePTK.
  destruct (ptk_data_ok an sn spa aa) as (data & -> & Hd & Ht); try done. cbn [mbind option_bind].
  rewrite (ptk_loop_ok ctx pmk (ptk_prefix an sn spa aa) (seqZ 0 4) data ptk []); try done.
  - unfold prf_512, ptk_prefix. change (seqZ 0 4) with [0; 1; 2; 3]. cbn [map]. change ([] ++ ?x) with x. do 3 f_equal. by rewrite <- !app_assoc.
  - unfold ptk_prefix. repeat (apply Forall_app; split); try (by apply bytes_min_max); by apply bytes_okb_ok.
  - by apply zlen_prefix.
  - exists 0. split_and!; done.
Qed.

Lemma prf_512_ok pmk an sn spa aa : zlen (prf_512 pmk an sn spa aa) = 64 /\ bytes_ok (prf_512 pmk an sn spa aa).
Proof.
  unfold prf_512. cbn [map concat].
  assert (forall i l, zlen (hmac pmk (ptk_label ++ [0] ++ min_max spa aa ++ min_max sn an ++ [i]) ++ l) = 20 + zlen l) as Hz.
  { intros i l. rewrite zlen_app. by rewrite (proj1 (hmac_shape _ _)). }
  split; [rewrite zlen_ztake, !Hz; by vm_compute|]. apply Forall_take. repeat (apply Forall_app; split); try apply hmac_shape. constructor.
Qed.

(** C22: both ends of the four-way handshake derive the same key.  For every
    pair of nonces and addresses derivePTK fills its 64-byte output with the
    first 64 bytes of PRF-512 of IEEE 802.11 ("Pairwise key expansion", lesser
    address and nonce first), and the same bytes come out when the roles of
    the two nonces and of the two addresses are exchanged. *)
Theorem derive_ptk_agrees ctx pmk an sn spa aa ptk ptk' :
  zlen (buffer ctx) = 64 -> part_ok pmk -> bytes_ok an -> bytes_ok sn -> bytes_ok spa -> bytes_ok aa ->
  zlen an = 32 -> zlen sn = 32 -> zlen spa = 6 -> zlen aa = 6 -> zlen ptk = 64 -> zlen ptk' = 64 ->
  derivePTK ctx pmk an sn spa aa ptk = Some (prf_512 pmk an sn spa aa) /\
  derivePTK ctx pmk sn an aa spa ptk' = Some (prf_512 pmk an sn spa aa).
Proof.
  intros Hb Hp Ban Bsn Bspa Baa Lan Lsn Lspa Laa Hk Hk'.
  pose proof (fun an sn spa aa ptk => derivePTK_ok ctx pmk an sn spa aa ptk Hb Hp) as H.
  split; [by apply H|]. rewrite H by done. f_equal. unfold prf_512. do 2 f_equal.
  rewrite (min_max_comm aa spa), (min_max_comm an sn) by (unfold zlen in *; lia). done.
Qed.

Lemma derive_ptk_agrees_witness :
  let an := replicate 32 1 in let sn := replicate 32 2 in let spa := [2; 0; 0; 0; 0; 1] in let aa := [2; 0; 0; 0; 0; 9] in
  derivePTK stack_ctx (replicate 32 7) an sn spa aa (zeros 64) = Some (prf_512 (replicate 32 7) an sn spa aa) /\
  derivePTK stack_ctx (replicate 32 7) sn an aa spa (zeros 64) = Some (prf_512 (replicate 32 7) an sn spa aa).
Proof.
  intros an sn spa aa. apply (derive_ptk_agrees stack_ctx (replicate 32 7) an sn spa aa (zeros 64) (zeros 64)); try done;
    try (by apply bytes_okb_ok). split; [by apply bytes_okb_ok|done].
Defined.
