(* ===== verification/Fips197.v ===== *)
(** * AES-128 and the AES key wrap, as their standards write them

    FIPS 197 (the field of section 4, the cipher and the key expansion of
    section 5) and the key wrap of RFC 3394, section 2.2.1.  Nothing here is
    taken from the code: [Aes] proves the code's tables and routines against
    it, and the authenticator of [Fourway] wraps its keys with it. *)

From S2P Require Import Prelude.

(** ** GF(2^8): polynomials over GF(2) modulo x^8 + x^4 + x^3 + x + 1 *)

Definition poly_mul (a b : Z) : Z :=
  fold_left (fun r i => if Z.testbit b i then r .^ (a << i) else r) [0; 1; 2; 3; 4; 5; 6; 7] 0.
Definition poly_mod (c : Z) : Z :=
  fold_left (fun r i => if Z.testbit r i then r .^ (0x11b << (i - 8)) else r) [14; 13; 12; 11; 10; 9; 8] c.
Definition gf_mul (a b : Z) : Z := poly_mod (poly_mul a b).

(** The inverse, [0] for [0]: [x^254]. *)
Definition gf_inv (x : Z) : Z :=
  let x2 := gf_mul x x in let x4 := gf_mul x2 x2 in let x8 := gf_mul x4 x4 in let x16 := gf_mul x8 x8 in
  let x32 := gf_mul x16 x16 in let x64 := gf_mul x32 x32 in let x128 := gf_mul x64 x64 in
  gf_mul x2 (gf_mul x4 (gf_mul x8 (gf_mul x16 (gf_mul x32 (gf_mul x64 x128))))).

(** 5.1.1: the inverse, then b'i = bi + b(i+4) + b(i+5) + b(i+6) + b(i+7) + ci
    with the subscripts modulo 8 and c = \{63\}. *)
Definition affine (b : Z) : Z :=
  let bit i := xorb (Z.testbit b i) (xorb (Z.testbit b ((i + 4) mod 8)) (xorb (Z.testbit b ((i + 5) mod 8))
    (xorb (Z.testbit b ((i + 6) mod 8)) (xorb (Z.testbit b ((i + 7) mod 8)) (Z.testbit 0x63 i))))) in
  fold_left (fun r i => if (bit i : bool) then r .| (1 << i) else r) [0; 1; 2; 3; 4; 5; 6; 7] 0.
Definition sub_byte (x : Z) : Z := affine (gf_inv x).
Arguments gf_mul _ _ : simpl never.
Arguments sub_byte _ : simpl never.

(** ** The key expansion (5.2): words of four bytes *)

Definition xor_word : list Z -> list Z -> list Z := zip_with Z.lxor.
Definition rot_word (w : list Z) : list Z := map (fun i => w !!! i) [1; 2; 3; 0]%nat.
(** [x^(j-1)], 0, 0, 0 *)
Definition round_constant (j : nat) : list Z := [Nat.iter (j - 1) (gf_mul 2) 1; 0; 0; 0].
Definition next_word (w : list (list Z)) : list Z :=
  let i := length w in
  let temp := w !!! (i - 1)%nat in
  let temp := if (i mod 4 =? 0)%nat then xor_word (map sub_byte (rot_word temp)) (round_constant (i / 4)) else temp in
  xor_word (w !!! (i - 4)%nat) temp.
Definition key_words (key : list Z) : list (list Z) := map (fun i => take 4 (drop (4 * i) key)) [0; 1; 2; 3]%nat.
Definition key_expansion (key : list Z) : list (list Z) := Nat.iter 40 (fun w => w ++ [next_word w]) (key_words key).

(** ** The cipher (5.1): a state of four rows and four columns *)

(** [s[r,c]] is byte [r + 4c]. *)
Definition entry (s : list Z) (r c : nat) : Z := s !!! (r + 4 * c)%nat.
Definition state_from (f : nat -> nat -> Z) : list Z := map (fun i => f (i mod 4)%nat (i / 4)%nat) (seq 0 16).

Definition SubBytes (s : list Z) : list Z := state_from (fun r c => sub_byte (entry s r c)).
Definition ShiftRows (s : list Z) : list Z := state_from (fun r c => entry s r ((c + r) mod 4)).
Definition MixColumns (s : list Z) : list Z :=
  state_from (fun r c => gf_mul 2 (entry s r c) .^ gf_mul 3 (entry s ((r + 1) mod 4) c) .^ entry s ((r + 2) mod 4) c .^ entry s ((r + 3) mod 4) c).
Definition AddRoundKey (w : list (list Z)) (round : nat) (s : list Z) : list Z :=
  state_from (fun r c => entry s r c .^ (w !!! (4 * round + c)%nat !!! r)).

Definition cipher_round (w : list (list Z)) (s : list Z) (round : nat) : list Z :=
  AddRoundKey w round (MixColumns (ShiftRows (SubBytes s))).
Definition Cipher (key input : list Z) : list Z :=
  let w := key_expansion key in
  let s := AddRoundKey w 0 input in
  let s := fold_left (cipher_round w) [1; 2; 3; 4; 5; 6; 7; 8; 9]%nat s in
  AddRoundKey w 10 (ShiftRows (SubBytes s)).

(** ** The key wrap of RFC 3394 *)

Definition wrap_iv : list Z := [0xA6; 0xA6; 0xA6; 0xA6; 0xA6; 0xA6; 0xA6; 0xA6].

(** [t] as a 64-bit big-endian number. *)
Definition be64 (t : Z) : list Z := map (fun i => t / 2 ^ (8 * i) mod 256) [7; 6; 5; 4; 3; 2; 1; 0].

(** B = AES(K, A | R[i]); A = MSB(64, B) ^ t, t = n*j + i; R[i] = LSB(64, B);
    [i] counts from 0 here, from 1 in the RFC. *)
Definition wrap_step (kek : list Z) (n : nat) (ar : list Z * list (list Z)) (ji : nat * nat) : list Z * list (list Z) :=
  let '(a, r) := ar in let '(j, i) := ji in
  let b := Cipher kek (a ++ (r !!! i)) in
  (zip_with Z.lxor (take 8 b) (be64 (Z.of_nat (n * j + (i + 1)))), <[i := drop 8 b]> r).
(** For j = 0 to 5, for i = 1 to n. *)
Definition wrap_order (n : nat) : list (nat * nat) :=
  concat (map (fun j => map (fun i => (j, i)) (seq 0 n)) [0; 1; 2; 3; 4; 5]%nat).
Definition aes_wrap (kek : list Z) (r : list (list Z)) : list Z :=
  let n := length r in
  let '(a, r) := fold_left (wrap_step kek n) (wrap_order n) (wrap_iv, r) in a ++ concat r.

(** ** The standards' own examples *)

Definition test_key : list Z :=
  [0x00; 0x01; 0x02; 0x03; 0x04; 0x05; 0x06; 0x07; 0x08; 0x09; 0x0a; 0x0b; 0x0c; 0x0d; 0x0e; 0x0f].
Definition test_plain : list Z :=
  [0x00; 0x11; 0x22; 0x33; 0x44; 0x55; 0x66; 0x77; 0x88; 0x99; 0xaa; 0xbb; 0xcc; 0xdd; 0xee; 0xff].
Definition test_cipher : list Z :=
  [0x69; 0xc4; 0xe0; 0xd8; 0x6a; 0x7b; 0x04; 0x30; 0xd8; 0xcd; 0xb7; 0x80; 0x70; 0xb4; 0xc5; 0x5a].
Definition test_wrapped : list Z :=
  [0x1F; 0xA6; 0x8B; 0x0A; 0x81; 0x12; 0xB4; 0x47; 0xAE; 0xF3; 0x4B; 0xD8; 0xFB; 0x5A; 0x7B; 0x82;
   0x9D; 0x3E; 0x86; 0x23; 0x71; 0xD2; 0xCF; 0xE5].

(** FIPS 197, 4.2 and figure 7. *)
Example gf_mul_run : gf_mul 0x57 0x83 = 0xc1 /\ gf_mul 0x57 0x13 = 0xfe.
Proof. by vm_compute. Qed.
Example sub_byte_run : sub_byte 0x53 = 0xed /\ sub_byte 0x00 = 0x63.
Proof. by vm_compute. Qed.
(** FIPS 197, A.1: the first and the last word of the example's schedule. *)
Example key_expansion_run :
  let w := key_expansion [0x2b; 0x7e; 0x15; 0x16; 0x28; 0xae; 0xd2; 0xa6; 0xab; 0xf7; 0x15; 0x88; 0x09; 0xcf; 0x4f; 0x3c] in
  w !!! 4%nat = [0xa0; 0xfa; 0xfe; 0x17] /\ w !!! 43%nat = [0xb6; 0x63; 0x0c; 0xa6].
Proof. by vm_compute. Qed.
(** FIPS 197, C.1. *)
Example cipher_run : Cipher test_key test_plain = test_cipher.
Proof. by vm_compute. Qed.
(** RFC 3394, 4.1. *)
Example wrap_run : aes_wrap test_key [take 8 test_plain; drop 8 test_plain] = test_wrapped.
Proof. by vm_compute. Qed.

(** Every byte but [0] has the inverse the cipher takes. *)
Lemma gf_inv_ok x : 0 < x < 256 -> gf_mul x (gf_inv x) = 1.
Proof.
  intros Hx. apply Z.eqb_eq. assert (forallb (fun x => gf_mul x (gf_inv x) =? 1) (seqZ 1 255) = true) as H by (vm_compute; reflexivity).
  rewrite forallb_forall in H. apply H, list_elem_of_In, elem_of_seqZ. lia.
Qed.
