(* ===== verification/Aes.v ===== *)
(** * AES-128 decryption and key unwrapping

    The AES routines and [aes_unwrap_128] of
    [src/src/kext/RTW88IEEE80211.cpp], proved against [Fips197]: the S-boxes
    against the field inverse and the affine map, the doubling against the
    field's multiplication, the key schedule against the word expansion, the
    block decryption as the inverse of the cipher, and unwrapping as the
    inverse of the key wrap.  The sixteen-byte state is a list; table indices
    are bytes, state indices constants. *)

From Stdlib Require Import Ring ZifyNat.
From S2P Require Import Prelude Fips197.

(** ** The code *)

Definition aes_sbox : list Z := [
   0x63; 0x7c; 0x77; 0x7b; 0xf2; 0x6b; 0x6f; 0xc5; 0x30; 0x01; 0x67; 0x2b; 0xfe; 0xd7; 0xab; 0x76;
   0xca; 0x82; 0xc9; 0x7d; 0xfa; 0x59; 0x47; 0xf0; 0xad; 0xd4; 0xa2; 0xaf; 0x9c; 0xa4; 0x72; 0xc0;
   0xb7; 0xfd; 0x93; 0x26; 0x36; 0x3f; 0xf7; 0xcc; 0x34; 0xa5; 0xe5; 0xf1; 0x71; 0xd8; 0x31; 0x15;
   0x04; 0xc7; 0x23; 0xc3; 0x18; 0x96; 0x05; 0x9a; 0x07; 0x12; 0x80; 0xe2; 0xeb; 0x27; 0xb2; 0x75;
   0x09; 0x83; 0x2c; 0x1a; 0x1b; 0x6e; 0x5a; 0xa0; 0x52; 0x3b; 0xd6; 0xb3; 0x29; 0xe3; 0x2f; 0x84;
   0x53; 0xd1; 0x00; 0xed; 0x20; 0xfc; 0xb1; 0x5b; 0x6a; 0xcb; 0xbe; 0x39; 0x4a; 0x4c; 0x58; 0xcf;
   0xd0; 0xef; 0xaa; 0xfb; 0x43; 0x4d; 0x33; 0x85; 0x45; 0xf9; 0x02; 0x7f; 0x50; 0x3c; 0x9f; 0xa8;
   0x51; 0xa3; 0x40; 0x8f; 0x92; 0x9d; 0x38; 0xf5; 0xbc; 0xb6; 0xda; 0x21; 0x10; 0xff; 0xf3; 0xd2;
   0xcd; 0x0c; 0x13; 0xec; 0x5f; 0x97; 0x44; 0x17; 0xc4; 0xa7; 0x7e; 0x3d; 0x64; 0x5d; 0x19; 0x73;
   0x60; 0x81; 0x4f; 0xdc; 0x22; 0x2a; 0x90; 0x88; 0x46; 0xee; 0xb8; 0x14; 0xde; 0x5e; 0x0b; 0xdb;
   0xe0; 0x32; 0x3a; 0x0a; 0x49; 0x06; 0x24; 0x5c; 0xc2; 0xd3; 0xac; 0x62; 0x91; 0x95; 0xe4; 0x79;
   0xe7; 0xc8; 0x37; 0x6d; 0x8d; 0xd5; 0x4e; 0xa9; 0x6c; 0x56; 0xf4; 0xea; 0x65; 0x7a; 0xae; 0x08;
   0xba; 0x78; 0x25; 0x2e; 0x1c; 0xa6; 0xb4; 0xc6; 0xe8; 0xdd; 0x74; 0x1f; 0x4b; 0xbd; 0x8b; 0x8a;
   0x70; 0x3e; 0xb5; 0x66; 0x48; 0x03; 0xf6; 0x0e; 0x61; 0x35; 0x57; 0xb9; 0x86; 0xc1; 0x1d; 0x9e;
   0xe1; 0xf8; 0x98; 0x11; 0x69; 0xd9; 0x8e; 0x94; 0x9b; 0x1e; 0x87; 0xe9; 0xce; 0x55; 0x28; 0xdf;
   0x8c; 0xa1; 0x89; 0x0d; 0xbf; 0xe6; 0x42; 0x68; 0x41; 0x99; 0x2d; 0x0f; 0xb0; 0x54; 0xbb; 0x16].

Definition aes_rsbox : list Z := [
   0x52; 0x09; 0x6a; 0xd5; 0x30; 0x36; 0xa5; 0x38; 0xbf; 0x40; 0xa3; 0x9e; 0x81; 0xf3; 0xd7; 0xfb;
   0x7c; 0xe3; 0x39; 0x82; 0x9b; 0x2f; 0xff; 0x87; 0x34; 0x8e; 0x43; 0x44; 0xc4; 0xde; 0xe9; 0xcb;
   0x54; 0x7b; 0x94; 0x32; 0xa6; 0xc2; 0x23; 0x3d; 0xee; 0x4c; 0x95; 0x0b; 0x42; 0xfa; 0xc3; 0x4e;
   0x08; 0x2e; 0xa1; 0x66; 0x28; 0xd9; 0x24; 0xb2; 0x76; 0x5b; 0xa2; 0x49; 0x6d; 0x8b; 0xd1; 0x25;
   0x72; 0xf8; 0xf6; 0x64; 0x86; 0x68; 0x98; 0x16; 0xd4; 0xa4; 0x5c; 0xcc; 0x5d; 0x65; 0xb6; 0x92;
   0x6c; 0x70; 0x48; 0x50; 0xfd; 0xed; 0xb9; 0xda; 0x5e; 0x15; 0x46; 0x57; 0xa7; 0x8d; 0x9d; 0x84;
   0x90; 0xd8; 0xab; 0x00; 0x8c; 0xbc; 0xd3; 0x0a; 0xf7; 0xe4; 0x58; 0x05; 0xb8; 0xb3; 0x45; 0x06;
   0xd0; 0x2c; 0x1e; 0x8f; 0xca; 0x3f; 0x0f; 0x02; 0xc1; 0xaf; 0xbd; 0x03; 0x01; 0x13; 0x8a; 0x6b;
   0x3a; 0x91; 0x11; 0x41; 0x4f; 0x67; 0xdc; 0xea; 0x97; 0xf2; 0xcf; 0xce; 0xf0; 0xb4; 0xe6; 0x73;
   0x96; 0xac; 0x74; 0x22; 0xe7; 0xad; 0x35; 0x85; 0xe2; 0xf9; 0x37; 0xe8; 0x1c; 0x75; 0xdf; 0x6e;
   0x47; 0xf1; 0x1a; 0x71; 0x1d; 0x29; 0xc5; 0x89; 0x6f; 0xb7; 0x62; 0x0e; 0xaa; 0x18; 0xbe; 0x1b;
   0xfc; 0x56; 0x3e; 0x4b; 0xc6; 0xd2; 0x79; 0x20; 0x9a; 0xdb; 0xc0; 0xfe; 0x78; 0xcd; 0x5a; 0xf4;
   0x1f; 0xdd; 0xa8; 0x33; 0x88; 0x07; 0xc7; 0x31; 0xb1; 0x12; 0x10; 0x59; 0x27; 0x80; 0xec; 0x5f;
   0x60; 0x51; 0x7f; 0xa9; 0x19; 0xb5; 0x4a; 0x0d; 0x2d; 0xe5; 0x7a; 0x9f; 0x93; 0xc9; 0x9c; 0xef;
   0xa0; 0xe0; 0x3b; 0x4d; 0xae; 0x2a; 0xf5; 0xb0; 0xc8; 0xeb; 0xbb; 0x3c; 0x83; 0x53; 0x99; 0x61;
   0x17; 0x2b; 0x04; 0x7e; 0xba; 0x77; 0xd6; 0x26; 0xe1; 0x69; 0x14; 0x63; 0x55; 0x21; 0x0c; 0x7d].

Definition sbox (x : Z) : Z := aes_sbox !!! Z.to_nat x.
Definition rsbox (x : Z) : Z := aes_rsbox !!! Z.to_nat x.

Definition aes_xtime (x : Z) : Z := u8 ((x << 1) .^ (if x .& 0x80 =? 0 then 0 else 0x1b)).

(** [while (y)]: [y] is a byte, so at most eight turns. *)
Fixpoint mul_loop (fuel : nat) (x y r : Z) : Z :=
  match fuel with
  | O => r
  | S k => if y =? 0 then r else mul_loop k (aes_xtime x) (y >> 1) (if y .& 1 =? 0 then r else r .^ x)
  end.
Definition aes_mul (x y : Z) : Z := mul_loop 8 x y 0.

Definition rcon : list Z := [0x01; 0x02; 0x04; 0x08; 0x10; 0x20; 0x40; 0x80; 0x1b; 0x36].

(** One turn of the loop: [round_key] is the part already written, [bytes]
    its length, [r] the next round constant. *)
Definition expand_step (rr : list Z * nat) : list Z * nat :=
  let '(round_key, r) := rr in
  let bytes := length round_key in
  let t := map (fun i => round_key !!! (bytes - 4 + i)%nat) [0; 1; 2; 3]%nat in
  let '(t, r) :=
    if bool_decide (Nat.land bytes 15 = 0%nat)
    then ([sbox (t !!! 1%nat) .^ (rcon !!! r); sbox (t !!! 2%nat); sbox (t !!! 3%nat); sbox (t !!! 0%nat)], S r)
    else (t, r) in
  (round_key ++ map (fun i => (round_key !!! (bytes - 16 + i)%nat) .^ (t !!! i)) [0; 1; 2; 3]%nat, r).
Definition aes128_key_expand (key : list Z) : list Z := fst (Nat.iter 40 expand_step (key, O)).

Definition aes_add_round_key (state rk : list Z) : list Z := zip_with Z.lxor state rk.

Definition aes_inv_shift_rows (s : list Z) : list Z :=
  let t := s !!! 13%nat in
  let s := <[13%nat := s !!! 9%nat]> s in let s := <[9%nat := s !!! 5%nat]> s in
  let s := <[5%nat := s !!! 1%nat]> s in let s := <[1%nat := t]> s in
  let t := s !!! 2%nat in
  let s := <[2%nat := s !!! 10%nat]> s in let s := <[10%nat := t]> s in
  let t := s !!! 6%nat in
  let s := <[6%nat := s !!! 14%nat]> s in let s := <[14%nat := t]> s in
  let t := s !!! 3%nat in
  let s := <[3%nat := s !!! 7%nat]> s in let s := <[7%nat := s !!! 11%nat]> s in
  let s := <[11%nat := s !!! 15%nat]> s in <[15%nat := t]> s.

Definition aes_inv_sub_bytes (s : list Z) : list Z := map rsbox s.

Definition inv_mix_column (a0 a1 a2 a3 : Z) : list Z :=
  [aes_mul a0 0x0e .^ aes_mul a1 0x0b .^ aes_mul a2 0x0d .^ aes_mul a3 0x09;
   aes_mul a0 0x09 .^ aes_mul a1 0x0e .^ aes_mul a2 0x0b .^ aes_mul a3 0x0d;
   aes_mul a0 0x0d .^ aes_mul a1 0x09 .^ aes_mul a2 0x0e .^ aes_mul a3 0x0b;
   aes_mul a0 0x0b .^ aes_mul a1 0x0d .^ aes_mul a2 0x09 .^ aes_mul a3 0x0e].
Definition aes_inv_mix_columns (s : list Z) : list Z :=
  concat (map (fun c => inv_mix_column (s !!! (4 * c)%nat) (s !!! (4 * c + 1)%nat) (s !!! (4 * c + 2)%nat) (s !!! (4 * c + 3)%nat))
              [0; 1; 2; 3]%nat).

(** [rk + 16 * round] *)
Definition round_key_at (rk : list Z) (round : nat) : list Z := take 16 (drop (16 * round) rk).

Definition dec_round (rk : list Z) (s : list Z) (round : nat) : list Z :=
  aes_inv_mix_columns (aes_add_round_key (aes_inv_sub_bytes (aes_inv_shift_rows s)) (round_key_at rk round)).

Definition aes128_decrypt_block (key input : list Z) : list Z :=
  let rk := aes128_key_expand key in
  let s := aes_add_round_key input (round_key_at rk 10) in
  let s := fold_left (dec_round rk) [9; 8; 7; 6; 5; 4; 3; 2; 1]%nat s in
  aes_add_round_key (aes_inv_sub_bytes (aes_inv_shift_rows s)) (round_key_at rk 0).

(** [for (k = 7; k >= 0 && t; k--, t >>= 8) block[k] ^= (uint8_t)(t & 0xff);] *)
Fixpoint xor_t (ks : list nat) (block : list Z) (t : Z) : list Z :=
  match ks with
  | [] => block
  | k :: ks => if t =? 0 then block else xor_t ks (<[k := (block !!! k) .^ u8 (t .& 0xff)]> block) (t >> 8)
  end.

(** The body of the two nested loops. *)
Definition unwrap_step (kek : list Z) (n : nat) (ar : list Z * list (list Z)) (ji : nat * nat) : list Z * list (list Z) :=
  let '(a, r) := ar in let '(j, i) := ji in
  let t := Z.of_nat (n * j + i + 1) in
  let plain := aes128_decrypt_block kek (xor_t [7; 6; 5; 4; 3; 2; 1; 0]%nat a t ++ (r !!! i)) in
  (ztake 8 plain, <[i := ztake 8 (zdrop 8 plain)]> r).

(** [for (j = 5 ...) for (i = n - 1 ...)] *)
Definition unwrap_loop (kek : list Z) (n : nat) (ar : list Z * list (list Z)) : list Z * list (list Z) :=
  fold_left (unwrap_step kek n)
    (concat (map (fun j => map (fun i => (j, i)) (rev (seq 0 n))) [5; 4; 3; 2; 1; 0]%nat)) ar.

Definition iv : list Z := replicate 8 0xa6.

Fixpoint blocks (n : nat) (b : list Z) : option (list (list Z)) :=
  match n with
  | O => Some []
  | S k => x ← ldn b 0 8; r ← blocks k (zdrop 8 b); Some (x :: r)
  end.

Fixpoint store_blocks (r : list (list Z)) (out : list Z) (at_ : Z) : option (list Z) :=
  match r with
  | [] => Some out
  | x :: r => out ← stn out at_ x; store_blocks r out (at_ + 8)
  end.

(** [Some None]: false; [Some (Some (out, out_len))]: true. *)
Definition aes_unwrap_128 (kek input out : list Z) : option (option (list Z * Z)) :=
  let in_len := zlen input in
  if (in_len <? 16) || negb (in_len .& 7 =? 0) then Some None
  else
    let n := in_len / 8 - 1 in
    if (n <=? 0) || (32 <? n) then Some None
    else
      a ← ldn input 0 8;
      r ← blocks (Z.to_nat n) (zdrop 8 input);
      let '(a, r) := unwrap_loop kek (Z.to_nat n) (a, r) in
      if negb (bool_decide (a = iv)) then Some None
      else out ← store_blocks r out 0; Some (Some (out, u16 (n * 8))).

(** FIPS 197, appendix C.1, and RFC 3394, section 4.1. *)
Example decrypt_run : aes128_decrypt_block test_key test_cipher = test_plain.
Proof. vm_compute. reflexivity. Qed.
Example unwrap_run : aes_unwrap_128 test_key test_wrapped (zeros 256) = Some (Some (test_plain ++ zeros 240, 16)).
Proof. vm_compute. reflexivity. Qed.

(** ** The field *)

Definition all_bytes : list Z := seqZ 0 256.

Lemma byte_check (f : Z -> bool) : forallb f all_bytes = true -> forall x, is_byte x -> f x = true.
Proof.
  intros H x Hx. rewrite forallb_forall in H. apply H, list_elem_of_In, elem_of_seqZ. unfold in_range in Hx. lia.
Qed.
(** Two functions agree on every byte, by running them on each. *)
Lemma byte_eq (f g : Z -> Z) : forallb (fun x => f x =? g x) all_bytes = true -> forall x, is_byte x -> f x = g x.
Proof. intros H x Hx. apply Z.eqb_eq. by apply (byte_check (fun x => f x =? g x)). Qed.

(** The code's tables are the standard's S-box and its inverse. *)
Lemma sbox_sub x : is_byte x -> sbox x = sub_byte x.
Proof. apply (byte_eq sbox sub_byte). vm_compute. reflexivity. Qed.
Lemma rsbox_sub x : is_byte x -> rsbox (sub_byte x) = x.
Proof. apply (byte_eq (fun x => rsbox (sub_byte x)) id). vm_compute. reflexivity. Qed.
Lemma sub_rsbox x : is_byte x -> sub_byte (rsbox x) = x.
Proof. apply (byte_eq (fun x => sub_byte (rsbox x)) id). vm_compute. reflexivity. Qed.
Lemma table_range (t : list Z) x : bytes_okb t = true -> is_byte (t !!! Z.to_nat x).
Proof.
  intros H%bytes_okb_ok. destruct (t !! Z.to_nat x) as [y|] eqn:Hy.
  - rewrite (list_lookup_total_correct _ _ _ Hy). by apply (Forall_lookup_1 _ _ _ _ H Hy).
  - rewrite list_lookup_total_alt, Hy. by vm_compute.
Qed.
Lemma rsbox_range x : is_byte (rsbox x).
Proof. by apply table_range. Qed.
Lemma sub_byte_range x : is_byte x -> is_byte (sub_byte x).
Proof. intros Hx. rewrite <- sbox_sub by done. by apply table_range. Qed.

Lemma xtime_range x : is_byte (aes_xtime x).
Proof. apply wrap_range. lia. Qed.

(** The code's doubling is the field's. *)
Lemma gf_mul_2 x : is_byte x -> gf_mul 2 x = aes_xtime x.
Proof. apply (byte_eq (gf_mul 2) aes_xtime). vm_compute. reflexivity. Qed.
Lemma gf_mul_3 x : is_byte x -> gf_mul 3 x = x .^ aes_xtime x.
Proof. apply (byte_eq (gf_mul 3) (fun x => x .^ aes_xtime x)). vm_compute. reflexivity. Qed.

Lemma xtime_lxor x y : is_byte x -> is_byte y -> aes_xtime (x .^ y) = aes_xtime x .^ aes_xtime y.
Proof.
  intros Hx Hy. apply Z.eqb_eq.
  apply (byte_check (fun y => aes_xtime (x .^ y) =? aes_xtime x .^ aes_xtime y)); [|done].
  apply (byte_check (fun x => forallb (fun y => aes_xtime (x .^ y) =? aes_xtime x .^ aes_xtime y) all_bytes)); [|done].
  vm_compute. reflexivity.
Qed.

(** Multiplication by the constants of the inverse cipher, as a sum of doublings. *)
Lemma mul_9 x : aes_mul x 0x09 = x .^ aes_xtime (aes_xtime (aes_xtime x)).
Proof. done. Qed.
Lemma mul_b x : aes_mul x 0x0b = x .^ aes_xtime x .^ aes_xtime (aes_xtime (aes_xtime x)).
Proof. done. Qed.
Lemma mul_d x : aes_mul x 0x0d = x .^ aes_xtime (aes_xtime x) .^ aes_xtime (aes_xtime (aes_xtime x)).
Proof. done. Qed.
Lemma mul_e x : aes_mul x 0x0e = aes_xtime x .^ aes_xtime (aes_xtime x) .^ aes_xtime (aes_xtime (aes_xtime x)).
Proof. done. Qed.

Lemma lxor_range x y : is_byte x -> is_byte y -> is_byte (x .^ y).
Proof. by apply lxor_in_range. Qed.

Create HintDb aes.
#[export] Hint Resolve xtime_range lxor_range sub_byte_range rsbox_range : aes.

(** Equality of sums of doublings, bit by bit in the boolean ring. *)
Ltac xor_eq :=
  repeat rewrite xtime_lxor by auto 8 with aes;
  apply Z.bits_inj'; let i := fresh "i" in intros i _; rewrite ?Z.lxor_spec; ring.

(** A column of [MixColumns], in the standard's field. *)
Definition mix_column (a0 a1 a2 a3 : Z) : list Z :=
  [gf_mul 2 a0 .^ gf_mul 3 a1 .^ a2 .^ a3; gf_mul 2 a1 .^ gf_mul 3 a2 .^ a3 .^ a0;
   gf_mul 2 a2 .^ gf_mul 3 a3 .^ a0 .^ a1; gf_mul 2 a3 .^ gf_mul 3 a0 .^ a1 .^ a2].
Definition quad (f : Z -> Z -> Z -> Z -> list Z) (b : list Z) : list Z :=
  match b with [b0; b1; b2; b3] => f b0 b1 b2 b3 | _ => [] end.

Lemma mix_column_xtime a0 a1 a2 a3 : is_byte a0 -> is_byte a1 -> is_byte a2 -> is_byte a3 ->
  mix_column a0 a1 a2 a3 =
  [aes_xtime a0 .^ (a1 .^ aes_xtime a1) .^ a2 .^ a3; aes_xtime a1 .^ (a2 .^ aes_xtime a2) .^ a3 .^ a0;
   aes_xtime a2 .^ (a3 .^ aes_xtime a3) .^ a0 .^ a1; aes_xtime a3 .^ (a0 .^ aes_xtime a0) .^ a1 .^ a2].
Proof. intros. unfold mix_column. by rewrite !gf_mul_2, !gf_mul_3. Qed.

Lemma column_bytes a0 a1 a2 a3 : is_byte a0 -> is_byte a1 -> is_byte a2 -> is_byte a3 ->
  bytes_ok (mix_column a0 a1 a2 a3) /\ bytes_ok (inv_mix_column a0 a1 a2 a3).
Proof.
  intros. rewrite mix_column_xtime by done. unfold inv_mix_column. rewrite !mul_9, !mul_b, !mul_d, !mul_e.
  split; decompose_Forall; auto 8 with aes.
Qed.

Lemma inv_mix_mix a0 a1 a2 a3 : is_byte a0 -> is_byte a1 -> is_byte a2 -> is_byte a3 ->
  quad inv_mix_column (mix_column a0 a1 a2 a3) = [a0; a1; a2; a3].
Proof.
  intros. rewrite mix_column_xtime by done. unfold quad, inv_mix_column. rewrite !mul_9, !mul_b, !mul_d, !mul_e.
  repeat f_equal; xor_eq.
Qed.
Lemma mix_inv_mix a0 a1 a2 a3 : is_byte a0 -> is_byte a1 -> is_byte a2 -> is_byte a3 ->
  quad mix_column (inv_mix_column a0 a1 a2 a3) = [a0; a1; a2; a3].
Proof.
  intros. destruct (column_bytes a0 a1 a2 a3) as [_ Hb]; [done..|]. revert Hb. unfold quad, inv_mix_column. rewrite !Forall_cons. intros (? & ? & ? & ? & _).
  rewrite mix_column_xtime by done. rewrite !mul_9, !mul_b, !mul_d, !mul_e. repeat f_equal; xor_eq.
Qed.

(** ** The state transformations *)

Definition state_ok (s : list Z) : Prop := length s = 16%nat /\ bytes_ok s.

Lemma state_list s : state_ok s -> exists s0 s1 s2 s3 s4 s5 s6 s7 s8 s9 s10 s11 s12 s13 s14 s15,
  s = [s0; s1; s2; s3; s4; s5; s6; s7; s8; s9; s10; s11; s12; s13; s14; s15].
Proof.
  intros [Hl _]. do 16 (destruct s as [|? s]; [done|]). destruct s; [|done]. by repeat eexists.
Qed.

(** Name the sixteen bytes of the state. *)
Ltac open_state s H :=
  let E := fresh "E" in
  destruct (state_list s H) as (s0 & s1 & s2 & s3 & s4 & s5 & s6 & s7 & s8 & s9 & s10 & s11 & s12 & s13 & s14 & s15 & E);
  subst s; destruct H as [_ H]; rewrite !Forall_cons in H; decompose [and] H.

Lemma ark_ok s k : state_ok s -> state_ok k -> state_ok (aes_add_round_key s k).
Proof.
  intros [Hl Hs] [Hk Hkb]. split; [unfold aes_add_round_key; rewrite length_zip_with; lia|].
  unfold aes_add_round_key. clear Hl Hk. revert k Hkb. induction Hs as [|x s Hx _ IH]; intros k Hk; [constructor|].
  destruct Hk; cbn; constructor; auto with aes.
Qed.
Lemma zip_lxor_inv s : forall k, length s = length k -> zip_with Z.lxor (zip_with Z.lxor s k) k = s.
Proof.
  induction s as [|x s IH]; intros [|y k] H; cbn; try done. f_equal; [|apply IH; by injection H].
  by rewrite Z.lxor_assoc, Z.lxor_nilpotent, Z.lxor_0_r.
Qed.
Lemma ark_ark s k : state_ok s -> state_ok k -> aes_add_round_key (aes_add_round_key s k) k = s.
Proof. intros [Hl _] [Hk _]. apply zip_lxor_inv. lia. Qed.

Lemma sub_bytes_ok s : state_ok s -> state_ok (SubBytes s) /\ state_ok (aes_inv_sub_bytes s) /\
  aes_inv_sub_bytes (SubBytes s) = s /\ SubBytes (aes_inv_sub_bytes s) = s.
Proof.
  intros Hs. open_state s Hs. unfold SubBytes, state_from, entry, aes_inv_sub_bytes. cbn [seq map Nat.modulo Nat.div Nat.divmod fst snd Nat.sub Nat.mul Nat.add lookup_total list_lookup_total].
  split_and!; [split; [done|]; decompose_Forall; auto with aes..| |]; by rewrite ?rsbox_sub, ?sub_rsbox by done.
Qed.

Lemma shift_ok s : state_ok s -> state_ok (ShiftRows s) /\ state_ok (aes_inv_shift_rows s) /\
  aes_inv_shift_rows (ShiftRows s) = s /\ ShiftRows (aes_inv_shift_rows s) = s.
Proof.
  intros Hs. open_state s Hs. split_and!; try done; (split; [done|]); cbn; by decompose_Forall.
Qed.

Lemma MixColumns_eq s : state_ok s -> MixColumns s =
  concat (map (fun c => mix_column (s !!! (4 * c)%nat) (s !!! (4 * c + 1)%nat) (s !!! (4 * c + 2)%nat) (s !!! (4 * c + 3)%nat)) [0; 1; 2; 3]%nat).
Proof. intros Hs. open_state s Hs. reflexivity. Qed.

Lemma mix_ok s : state_ok s -> state_ok (MixColumns s) /\ state_ok (aes_inv_mix_columns s) /\
  aes_inv_mix_columns (MixColumns s) = s /\ MixColumns (aes_inv_mix_columns s) = s.
Proof.
  intros Hs. assert (state_ok (MixColumns s) /\ state_ok (aes_inv_mix_columns s)) as [H1 H2].
  { rewrite MixColumns_eq by done. open_state s Hs. unfold aes_inv_mix_columns. cbn [map concat].
    split; (split; [done|]); repeat (apply Forall_app; split); try (by apply column_bytes); constructor. }
  split; [done|]. split; [done|]. rewrite (MixColumns_eq (aes_inv_mix_columns s)) by done. revert H1. rewrite MixColumns_eq by done. intros _. clear H2.
  open_state s Hs. unfold aes_inv_mix_columns. cbn [map concat]. change ((4 * 0)%nat) with 0%nat. cbn [Nat.mul Nat.add lookup_total list_lookup_total]. rewrite !app_nil_r.
  split; (transitivity ([s0; s1; s2; s3] ++ [s4; s5; s6; s7] ++ [s8; s9; s10; s11] ++ [s12; s13; s14; s15]); [|done]);
    (f_equal; [|f_equal; [|f_equal]]).
  1-4: by apply inv_mix_mix. all: by apply mix_inv_mix.
Qed.

(** ** The key schedule *)

Ltac nat_div_lia := zify; Z.to_euclidean_division_equations; lia.

Definition word_ok (w : list Z) : Prop := length w = 4%nat /\ bytes_ok w.

Lemma word_list w : word_ok w -> exists a b c d, w = [a; b; c; d] /\ is_byte a /\ is_byte b /\ is_byte c /\ is_byte d.
Proof.
  intros [Hl Hb]. do 4 (destruct w as [|? w]; [done|]). destruct w; [|done]. rewrite !Forall_cons in Hb. decompose [and] Hb. by do 4 eexists.
Qed.

(** Byte [4i + j] of the schedule is byte [j] of word [i]. *)
Lemma concat_word ws : Forall word_ok ws -> forall i j, (j < 4)%nat -> (i < length ws)%nat -> concat ws !!! (4 * i + j)%nat = ws !!! i !!! j.
Proof.
  induction 1 as [|w ws [Hw _] _ IH]; intros i j Hj Hi; [cbn in Hi; lia|]. cbn [concat length] in *. destruct i as [|i].
  - cbn [Nat.mul Nat.add]. by rewrite lookup_total_app_l by lia.
  - rewrite lookup_total_app_r by lia. replace (4 * S i + j - length w)%nat with (4 * i + j)%nat by lia. cbn. apply IH; lia.
Qed.
Lemma length_words ws : Forall word_ok ws -> length (concat ws) = (4 * length ws)%nat.
Proof. induction 1 as [|w ws [Hw _] _ IH]; cbn [concat length]; [done|]. rewrite length_app, IH. lia. Qed.
Lemma words_at ws i : Forall word_ok ws -> (i < length ws)%nat ->
  map (fun j => concat ws !!! (4 * i + j)%nat) [0; 1; 2; 3]%nat = ws !!! i /\ word_ok (ws !!! i).
Proof.
  intros H Hi. assert (word_ok (ws !!! i)) as Hw by (by apply (Forall_lookup_total_1 _ _ _ H)). split; [|done].
  cbn [map]. rewrite !concat_word by (done || lia). by destruct (word_list _ Hw) as (a & b & c & d & -> & _).
Qed.

Lemma rcon_power r : (r < 10)%nat -> [rcon !!! r; 0; 0; 0] = round_constant (S r) /\ is_byte (rcon !!! r).
Proof. intros Hr. do 10 (destruct r as [|r]; [by vm_compute|]). lia. Qed.

Lemma xor_word_ok u v : word_ok u -> word_ok v -> word_ok (xor_word u v).
Proof.
  intros (a & b & c & d & -> & ? & ? & ? & ?)%word_list (a' & b' & c' & d' & -> & ? & ? & ? & ?)%word_list.
  split; [done|]. cbn. decompose_Forall; auto with aes.
Qed.

(** One turn of the code's loop appends the standard's next word. *)
Lemma expand_word ws : Forall word_ok ws -> (4 <= length ws <= 43)%nat ->
  word_ok (next_word ws) /\
  expand_step (concat ws, ((length ws - 1) / 4)%nat) = (concat (ws ++ [next_word ws]), (length ws / 4)%nat).
Proof.
  intros Hws Hl. set (n := length ws) in *. destruct (words_at ws (n - 1) Hws ltac:(lia)) as [Et Ht]. destruct (words_at ws (n - 4) Hws ltac:(lia)) as [Eu Hu].
  assert (forall t r', word_ok t -> (concat ws ++ map (fun i => (concat ws !!! (length (concat ws) - 16 + i)%nat) .^ (t !!! i)) [0; 1; 2; 3]%nat, r') =
    (concat (ws ++ [xor_word (ws !!! (n - 4)%nat) t]), r' : nat)) as Ha.
  { intros t r' (a & b & c & d & -> & _)%word_list. rewrite concat_app. cbn [concat]. rewrite app_nil_r, <- Eu, length_words by done. fold n.
    replace (4 * n - 16)%nat with (4 * (n - 4))%nat by lia. reflexivity. }
  unfold expand_step, next_word. cbv zeta. rewrite length_words by done. fold n. replace (4 * n - 4)%nat with (4 * (n - 1))%nat by lia. rewrite Et.
  change 15%nat with (Nat.ones 4). rewrite Nat.land_ones. change (2 ^ 4)%nat with 16%nat.
  destruct (Nat.eqb_spec (n mod 4) 0) as [E|E].
  - rewrite bool_decide_eq_true_2 by (nat_div_lia). destruct (rcon_power ((n - 1) / 4)) as [Er Hr]; [nat_div_lia|].
    replace (n / 4)%nat with (S ((n - 1) / 4)) by (nat_div_lia). rewrite <- Er. clear Er Et.
    destruct (word_list _ Ht) as (a & b & c & d & Eq & H0 & H1 & H2 & H3). rewrite Eq. set (x := rcon !!! _) in *.
    assert (xor_word (map sub_byte (rot_word [a; b; c; d])) [x; 0; 0; 0] = [sbox b .^ x; sbox c; sbox d; sbox a]) as ->
      by (rewrite !sbox_sub by done; cbn; by rewrite !Z.lxor_0_r).
    cbn [lookup_total list_lookup_total]. set (t := [sbox b .^ x; _; _; _]).
    assert (word_ok t) as Hw by (unfold t; rewrite !sbox_sub by done; split; [done|]; decompose_Forall; auto with aes). clearbody t.
    split; [by apply xor_word_ok|]. rewrite <- (Ha t _ Hw), length_words by done. reflexivity.
  - rewrite bool_decide_eq_false_2 by (nat_div_lia). replace ((n - 1) / 4)%nat with (n / 4)%nat by (nat_div_lia).
    split; [by apply xor_word_ok|]. rewrite <- (Ha _ _ Ht), length_words by done. reflexivity.
Qed.

Lemma key_words_ok key : state_ok key -> Forall word_ok (key_words key) /\ concat (key_words key) = key.
Proof. intros Hk. open_state key Hk. split; [|done]. cbn. decompose_Forall; (split; [done|]; by decompose_Forall). Qed.

Lemma expansion_ok key : state_ok key ->
  Forall word_ok (key_expansion key) /\ length (key_expansion key) = 44%nat /\ aes128_key_expand key = concat (key_expansion key).
Proof.
  intros Hk. destruct (key_words_ok key Hk) as [H0 E0]. unfold key_expansion, aes128_key_expand.
  assert (forall n, (n <= 40)%nat -> let ws := Nat.iter n (fun w => w ++ [next_word w]) (key_words key) in
    Forall word_ok ws /\ length ws = (4 + n)%nat /\ Nat.iter n expand_step (key, O) = (concat ws, ((length ws - 1) / 4)%nat)) as H.
  { induction n as [|n IH]; intros Hn; [split; [done|split; [done|by cbn [Nat.iter nat_rect]; rewrite E0]]|].
    destruct IH as (I1 & I2 & I3); [lia|]. cbv zeta in *. rewrite !Nat.iter_succ, I3. set (ws := Nat.iter n _ _) in *.
    destruct (expand_word ws I1 ltac:(lia)) as [W ->]. split; [apply Forall_app; split; [done|by constructor]|].
    rewrite length_app. cbn [length]. split; [lia|]. do 2 f_equal. lia. }
  destruct (H 40%nat (le_n _)) as (H1 & H2 & H3). split; [done|]. split; [done|]. by rewrite H3.
Qed.

Lemma drop_words ws : Forall word_ok ws -> forall k, drop (4 * k) (concat ws) = concat (drop k ws).
Proof.
  induction 1 as [|w ws [Hw _] _ IH]; intros k; [cbn [concat]; by rewrite !drop_nil|]. destruct k as [|k]; [done|].
  replace (4 * S k)%nat with (length w + 4 * k)%nat by lia. cbn [concat drop]. by rewrite <- drop_drop, drop_app_length, IH.
Qed.
Lemma take_words ws : Forall word_ok ws -> forall k, take (4 * k) (concat ws) = concat (take k ws).
Proof.
  induction 1 as [|w ws [Hw _] _ IH]; intros k; [cbn [concat]; by rewrite !take_nil|]. destruct k as [|k]; [done|].
  replace (4 * S k)%nat with (length w + 4 * k)%nat by lia. cbn [concat take]. by rewrite take_app_add, IH.
Qed.

(** Sixteen bytes of the schedule are four of its words. *)
Lemma round_key_ok key r : state_ok key -> (r <= 10)%nat -> state_ok (round_key_at (aes128_key_expand key) r) /\
  forall s, state_ok s -> AddRoundKey (key_expansion key) r s = aes_add_round_key s (round_key_at (aes128_key_expand key) r).
Proof.
  intros Hk Hr. destruct (expansion_ok key Hk) as (Hw & Hl & ->). set (ws := key_expansion key) in *. clearbody ws. unfold round_key_at.
  replace (16 * r)%nat with (4 * (4 * r))%nat by lia. rewrite drop_words by done. change 16%nat with (4 * 4)%nat. rewrite take_words by by apply Forall_drop.
  set (q := take 4 (drop (4 * r) ws)). assert (length q = 4%nat) as Hq by (unfold q; rewrite length_take, length_drop; lia).
  assert (Forall word_ok q) as Hqw by by apply Forall_take, Forall_drop.
  assert (forall c, (c < 4)%nat -> ws !!! (4 * r + c)%nat = q !!! c) as Hc by (intros c Hc; unfold q; by rewrite lookup_total_take_lt, lookup_total_drop by lia).
  clearbody q. do 4 (destruct q as [|? q]; [done|]). destruct q; [|done]. rewrite !Forall_cons in Hqw. destruct Hqw as (W0 & W1 & W2 & W3 & _).
  apply word_list in W0 as (? & ? & ? & ? & -> & ?), W1 as (? & ? & ? & ? & -> & ?), W2 as (? & ? & ? & ? & -> & ?), W3 as (? & ? & ? & ? & -> & ?).
  split; [split; [done|]; cbn; decompose_Forall; tauto|]. intros s Hs. open_state s Hs. unfold AddRoundKey, state_from, entry.
  cbn [seq map Nat.modulo Nat.div Nat.divmod fst snd Nat.sub]. rewrite !Hc by lia. reflexivity.
Qed.

(** ** The block cipher and its inverse *)

(** Undoing a fold of steps in reverse order, up to a reading [h] of the
    states. *)
Lemma fold_undo {S A} (P : S -> Prop) (Q : A -> Prop) (f g : S -> A -> S) (h : S -> S) l :
  (forall s a, P s -> Q a -> P (f s a) /\ g (h (f s a)) a = h s) -> Forall Q l ->
  forall s, P s -> P (fold_left f l s) /\ fold_left g (rev l) (h (fold_left f l s)) = h s.
Proof.
  intros Hfg. induction 1 as [|a l Ha _ IH]; intros s Hs; cbn [fold_left rev]; [done|].
  destruct (Hfg s a Hs Ha) as [H1 H2]. destruct (IH _ H1) as [H3 H4]. split; [done|].
  by rewrite fold_left_app, H4.
Qed.

Definition mid (s : list Z) : list Z := ShiftRows (SubBytes s).
Definition inv_mid (s : list Z) : list Z := aes_inv_sub_bytes (aes_inv_shift_rows s).

Lemma mid_ok s : state_ok s -> state_ok (mid s) /\ inv_mid (mid s) = s.
Proof.
  intros Hs. destruct (sub_bytes_ok s Hs) as (H1 & _ & E & _). destruct (shift_ok _ H1) as (H2 & _ & H3 & _).
  split; [done|]. unfold inv_mid, mid. by rewrite H3.
Qed.
Lemma inv_mid_ok s : state_ok s -> state_ok (inv_mid s) /\ mid (inv_mid s) = s.
Proof.
  intros Hs. destruct (shift_ok s Hs) as (_ & H2 & _ & H3). destruct (sub_bytes_ok _ H2) as (_ & H1 & _ & E).
  split; [done|]. unfold mid, inv_mid. by rewrite E.
Qed.

Section cipher.
Context (key : list Z) (Hkey : state_ok key).
Notation w := (key_expansion key).
Notation rk := (aes128_key_expand key).
Notation decrypt := (aes128_decrypt_block key).

(** The two key additions are one involution. *)
Lemma round_key r s : (r <= 10)%nat -> state_ok s -> state_ok (AddRoundKey w r s) /\
  AddRoundKey w r s = aes_add_round_key s (round_key_at rk r) /\ aes_add_round_key (AddRoundKey w r s) (round_key_at rk r) = s.
Proof. intros Hr Hs. destruct (round_key_ok key r Hkey Hr) as [Hk ->]; [|done]. split; [by apply ark_ok|]. split; [done|by apply ark_ark]. Qed.

Lemma enc_dec_round s r : state_ok s -> (r <= 10)%nat ->
  state_ok (cipher_round w s r) /\ dec_round rk (mid (cipher_round w s r)) r = mid s.
Proof.
  intros Hs Hr. destruct (mid_ok s Hs) as [H1 _]. destruct (mix_ok _ H1) as (H2 & _ & H3 & _).
  destruct (round_key r _ Hr H2) as (H4 & _ & H5). split; [done|].
  unfold dec_round. change (aes_inv_sub_bytes (aes_inv_shift_rows ?x)) with (inv_mid x). unfold cipher_round in *.
  change (ShiftRows (SubBytes s)) with (mid s) in *. by rewrite (proj2 (mid_ok _ H4)), H5.
Qed.

Lemma dec_enc_round s r : state_ok s -> (r <= 10)%nat ->
  state_ok (dec_round rk s r) /\ cipher_round w (inv_mid (dec_round rk s r)) r = inv_mid s.
Proof.
  intros Hs Hr. destruct (inv_mid_ok s Hs) as [H1 _]. destruct (round_key_ok key r Hkey Hr) as [Hk He].
  pose proof (ark_ok _ _ H1 Hk) as H2. destruct (mix_ok _ H2) as (_ & H3 & _ & H4). split; [done|].
  unfold cipher_round. change (ShiftRows (SubBytes ?x)) with (mid x). unfold dec_round in *.
  change (aes_inv_sub_bytes (aes_inv_shift_rows s)) with (inv_mid s) in *. rewrite (proj2 (inv_mid_ok _ H3)), H4, He by done. by apply ark_ark.
Qed.

Notation rounds := [1; 2; 3; 4; 5; 6; 7; 8; 9]%nat.
Lemma rounds_le : Forall (fun r => (r <= 10)%nat) rounds.
Proof. decompose_Forall; lia. Qed.
Lemma rev_rounds_le : Forall (fun r => (r <= 10)%nat) (rev rounds).
Proof. cbn. decompose_Forall; lia. Qed.

Lemma decrypt_encrypt s : state_ok s -> state_ok (Cipher key s) /\ decrypt (Cipher key s) = s.
Proof.
  intros Hs. destruct (round_key 0 s ltac:(lia) Hs) as (H1 & _ & E1).
  destruct (fold_undo state_ok _ (cipher_round w) (dec_round rk) mid rounds enc_dec_round rounds_le _ H1) as [H2 H3].
  unfold Cipher, aes128_decrypt_block. cbv zeta. change (ShiftRows (SubBytes ?x)) with (mid x).
  set (e := fold_left (cipher_round w) rounds _) in *. destruct (mid_ok e H2) as [H4 _]. destruct (round_key 10 _ (le_n _) H4) as (H5 & _ & E5). split; [done|].
  rewrite E5. change [9; 8; 7; 6; 5; 4; 3; 2; 1]%nat with (rev rounds). rewrite H3.
  change (aes_inv_sub_bytes (aes_inv_shift_rows ?x)) with (inv_mid x). by rewrite (proj2 (mid_ok _ H1)).
Qed.

Lemma encrypt_decrypt s : state_ok s -> state_ok (decrypt s) /\ Cipher key (decrypt s) = s.
Proof.
  intros Hs. destruct (round_key_ok key 0 Hkey ltac:(lia)) as [K0 A0]. destruct (round_key_ok key 10 Hkey (le_n _)) as [K10 A10].
  pose proof (ark_ok s _ Hs K10) as H1.
  destruct (fold_undo state_ok _ (dec_round rk) (cipher_round w) inv_mid (rev rounds) dec_enc_round rev_rounds_le _ H1) as [H2 H3].
  rewrite rev_involutive in H3. unfold Cipher, aes128_decrypt_block. cbv zeta.
  change [9; 8; 7; 6; 5; 4; 3; 2; 1]%nat with (rev rounds).
  change (aes_inv_sub_bytes (aes_inv_shift_rows ?x)) with (inv_mid x).
  set (d := fold_left (dec_round rk) (rev rounds) _) in *. destruct (inv_mid_ok d H2) as [H4 _]. pose proof (ark_ok _ _ H4 K0) as H5. split; [done|].
  rewrite A0, (ark_ark (inv_mid d)), H3 by done. change (ShiftRows (SubBytes ?x)) with (mid x). rewrite (proj2 (inv_mid_ok _ H1)), A10 by done. by apply ark_ark.
Qed.
End cipher.

(** ** Key wrap *)

Definition row_ok (b : list Z) : Prop := length b = 8%nat /\ bytes_ok b.
Definition regs_ok (n : nat) (ar : list Z * list (list Z)) : Prop :=
  row_ok (fst ar) /\ length (snd ar) = n /\ Forall row_ok (snd ar).

Lemma be64_small t : 0 <= t < 256 -> be64 t = [0; 0; 0; 0; 0; 0; 0; t].
Proof.
  intros Ht. unfold be64. cbn [map]. rewrite Z.mul_0_r, Z.pow_0_r, Z.div_1_r, (Z.mod_small t) by done.
  by rewrite !(Z.div_small t) by (split; [lia|]; apply Z.lt_le_trans with 256; [lia|by vm_compute]).
Qed.

Lemma xor_t_ok a t : length a = 8%nat -> 0 <= t < 256 -> xor_t [7; 6; 5; 4; 3; 2; 1; 0]%nat a t = zip_with Z.lxor a (be64 t).
Proof.
  intros Hl Ht. rewrite be64_small by done. do 8 (destruct a as [|? a]; [done|]). destruct a; [|done].
  cbn [xor_t]. destruct (Z.eqb_spec t 0) as [->|Hn]; [cbn; by rewrite !Z.lxor_0_r|].
  rewrite Z.shiftr_div_pow2 by lia. change (2 ^ 8) with 256. rewrite Z.div_small by lia. cbn [Z.eqb].
  rewrite land_255, wrap_wrap, wrap_small by (unfold in_range; lia). cbn. by rewrite !Z.lxor_0_r.
Qed.

Lemma split_state s : state_ok s -> row_ok (ztake 8 s) /\ row_ok (zdrop 8 s) /\ ztake 8 (zdrop 8 s) = zdrop 8 s.
Proof.
  intros [Hl Hb]. unfold ztake, zdrop. split_and!.
  - split; [rewrite length_take; lia|by apply Forall_take].
  - split; [rewrite length_drop; lia|by apply Forall_drop].
  - apply take_ge. rewrite length_drop. lia.
Qed.
Lemma join_state a b : row_ok a -> row_ok b -> state_ok (a ++ b) /\ ztake 8 (a ++ b) = a /\ zdrop 8 (a ++ b) = b.
Proof.
  intros [La Ba] [Lb Bb]. split; [split; [rewrite length_app; lia|by apply Forall_app]|].
  split; [apply ztake_app_exact'|apply zdrop_app_exact']; unfold zlen; lia.
Qed.
Lemma xor_row a t : row_ok a -> 0 <= t < 256 -> row_ok (zip_with Z.lxor a (be64 t)) /\
  zip_with Z.lxor (zip_with Z.lxor a (be64 t)) (be64 t) = a.
Proof.
  intros [La Ba] Ht. rewrite be64_small by done. split; [|apply zip_lxor_inv; done].
  do 8 (destruct a as [|? a]; [done|]). destruct a; [|done]. split; [done|]. rewrite !Forall_cons in Ba. cbn.
  rewrite !Z.lxor_0_r. decompose [and] Ba. decompose_Forall; auto with aes.
Qed.

Section wrapping.
Context (kek : list Z) (Hkek : state_ok kek) (n : nat) (Hn : (n <= 32)%nat).

Definition index_ok (ji : nat * nat) : Prop := (fst ji < 6)%nat /\ (snd ji < n)%nat.

Lemma index_t ji : index_ok ji -> 0 <= Z.of_nat (n * fst ji + snd ji + 1) < 256.
Proof. intros [? ?]. nia. Qed.

Lemma row_lookup r i : length r = n -> Forall row_ok r -> (i < n)%nat -> row_ok (r !!! i) /\ <[i := r !!! i]> r = r.
Proof.
  intros Hl Hr Hi. split; [apply (Forall_lookup_total_1 _ _ _ Hr); lia|].
  apply list_insert_id. apply list_lookup_lookup_total_lt. lia.
Qed.

Lemma wrap_step_z a r j i : wrap_step kek n (a, r) (j, i) =
  let b := Cipher kek (a ++ (r !!! i)) in (zip_with Z.lxor (ztake 8 b) (be64 (Z.of_nat (n * j + i + 1))), <[i := zdrop 8 b]> r).
Proof. cbn [wrap_step]. by rewrite Nat.add_assoc. Qed.

Lemma unwrap_wrap_step ar ji : regs_ok n ar -> index_ok ji ->
  regs_ok n (wrap_step kek n ar ji) /\ unwrap_step kek n (wrap_step kek n ar ji) ji = ar.
Proof.
  destruct ar as [a r], ji as [j i]. intros (Ha & Hl & Hr) Hi. pose proof (index_t _ Hi) as Ht. destruct Hi as [_ Hi]. cbn [fst snd] in *.
  destruct (row_lookup r i Hl Hr Hi) as [Hri Hid]. destruct (join_state a (r !!! i) Ha Hri) as (Hs & Hsa & Hsr).
  destruct (decrypt_encrypt kek Hkek _ Hs) as [He Hde]. rewrite wrap_step_z. cbv zeta. cbn [unwrap_step]. set (b := Cipher kek _) in *.
  destruct (split_state b He) as (Hb1 & Hb2 & _). destruct (xor_row _ _ Hb1 Ht) as [Hx Hxx]. split.
  - split_and!; cbn [fst snd]; [done|by rewrite length_insert|by apply Forall_insert].
  - rewrite xor_t_ok by (done || apply Hx). rewrite Hxx, list_lookup_total_insert_eq, ztake_zdrop, Hde, Hsa, Hsr by lia.
    rewrite (ztake_all 8 (r !!! i)) by (unfold zlen; destruct Hri; lia). f_equal. by rewrite list_insert_insert_eq.
Qed.

Lemma wrap_unwrap_step ar ji : regs_ok n ar -> index_ok ji ->
  regs_ok n (unwrap_step kek n ar ji) /\ wrap_step kek n (unwrap_step kek n ar ji) ji = ar.
Proof.
  destruct ar as [a r], ji as [j i]. intros (Ha & Hl & Hr) Hi. pose proof (index_t _ Hi) as Ht. destruct Hi as [_ Hi]. cbn [fst snd] in *.
  destruct (row_lookup r i Hl Hr Hi) as [Hri Hid]. cbn [unwrap_step]. rewrite wrap_step_z. cbv zeta. rewrite xor_t_ok by (done || apply Ha).
  destruct (xor_row _ _ Ha Ht) as [Hx Hxx]. destruct (join_state _ (r !!! i) Hx Hri) as (Hs & Hsa & Hsr).
  destruct (encrypt_decrypt kek Hkek _ Hs) as [He Hde]. set (b := aes128_decrypt_block kek _) in *.
  destruct (split_state b He) as (Hb1 & Hb2 & Hb3). rewrite Hb3. split.
  - split_and!; cbn [fst snd]; [done|by rewrite length_insert|by apply Forall_insert].
  - rewrite list_lookup_total_insert_eq by lia. rewrite ztake_zdrop, Hde, Hsa, Hsr, Hxx. f_equal.
    by rewrite list_insert_insert_eq.
Qed.

Lemma wrap_order_ok : Forall index_ok (wrap_order n).
Proof.
  unfold wrap_order. change [0; 1; 2; 3; 4; 5]%nat with (seq 0 6). apply Forall_concat, Forall_fmap, Forall_forall. intros j Hj%elem_of_seq. cbn [compose].
  apply Forall_fmap, Forall_forall. intros i Hi%elem_of_seq. split; cbn; lia.
Qed.

Lemma unwrap_order : concat (map (fun j => map (fun i => (j, i)) (rev (seq 0 n))) [5; 4; 3; 2; 1; 0]%nat) = rev (wrap_order n).
Proof. unfold wrap_order. cbn [seq map concat]. rewrite !map_rev, !rev_app_distr. rewrite <- !app_assoc. cbn [rev app]. by rewrite ?app_nil_r. Qed.

Definition wrap_loop (ar : list Z * list (list Z)) : list Z * list (list Z) := fold_left (wrap_step kek n) (wrap_order n) ar.

Lemma unwrap_wrap_loop ar : regs_ok n ar -> regs_ok n (wrap_loop ar) /\ unwrap_loop kek n (wrap_loop ar) = ar.
Proof.
  intros H. unfold unwrap_loop. rewrite unwrap_order.
  apply (fold_undo (regs_ok n) index_ok (wrap_step kek n) (unwrap_step kek n) (fun x => x) (wrap_order n) unwrap_wrap_step wrap_order_ok ar H).
Qed.
Lemma wrap_unwrap_loop ar : regs_ok n ar -> regs_ok n (unwrap_loop kek n ar) /\ wrap_loop (unwrap_loop kek n ar) = ar.
Proof.
  intros H. unfold unwrap_loop, wrap_loop. rewrite unwrap_order.
  assert (Forall index_ok (rev (wrap_order n))) as Hq by apply Forall_rev, wrap_order_ok.
  pose proof (fold_undo (regs_ok n) index_ok (unwrap_step kek n) (wrap_step kek n) (fun x => x) _ wrap_unwrap_step Hq ar H) as H'.
  by rewrite rev_involutive in H'.
Qed.
End wrapping.

(** ** The whole routine *)

Lemma blocks_ok n : forall b, bytes_ok b -> 8 * Z.of_nat n <= zlen b ->
  exists r, blocks n b = Some r /\ length r = n /\ Forall row_ok r /\ concat r = ztake (8 * Z.of_nat n) b.
Proof.
  induction n as [|n IH]; intros b Hb Hl; cbn [blocks]; [by exists []|].
  rewrite ldn_Some, zdrop_0 by lia. cbn [mbind option_bind].
  destruct (IH (zdrop 8 b)) as (r & -> & Hn & Hr & Hc); [by apply Forall_drop|zlen|]. cbn [mbind option_bind].
  eexists. split; [done|]. cbn [length concat]. split_and!; [by rewrite Hn| |].
  - constructor; [|done]. split; [|by apply Forall_take]. unfold ztake. rewrite length_take. unfold zlen in Hl. lia.
  - rewrite Hc. unfold ztake, zdrop. replace (Z.to_nat (8 * Z.of_nat (S n))) with (Z.to_nat 8 + Z.to_nat (8 * Z.of_nat n))%nat by lia.
    by rewrite <- take_take_drop.
Qed.

Lemma concat_rows r : Forall row_ok r -> bytes_ok (concat r) /\ zlen (concat r) = 8 * zlen r.
Proof.
  induction 1 as [|b r [Hl Hb] _ [IH1 IH2]]; cbn [concat]; [done|]. split; [by apply Forall_app|].
  rewrite zlen_app, zlen_cons, IH2. unfold zlen. lia.
Qed.

Lemma rows_inj r : forall r', Forall row_ok r -> Forall row_ok r' -> concat r = concat r' -> r = r'.
Proof.
  induction r as [|b r IH]; intros [|b' r'] Hr Hr' E; try done.
  1: inversion_clear Hr' as [|? ? [Hl _] _]. 2: inversion_clear Hr as [|? ? [Hl _] _].
  1, 2: exfalso; apply (f_equal length) in E; cbn [concat] in E; rewrite ?length_app in E; cbn in E; lia.
  inversion_clear Hr as [|? ? [Hl Hb] Hr0]. inversion_clear Hr' as [|? ? [Hl' Hb'] Hr0']. cbn [concat] in E.
  apply app_inj_1 in E as [-> E]; [|lia]. f_equal. by apply IH.
Qed.

Lemma store_blocks_ok r : forall out at_ pre, Forall row_ok r -> ztake at_ out = pre -> zlen pre = at_ -> at_ + 8 * zlen r <= zlen out ->
  store_blocks r out at_ = Some (pre ++ concat r ++ zdrop (at_ + 8 * zlen r) out).
Proof.
  induction r as [|b r IH]; intros out at_ pre Hr Hp Hl Hf; cbn [store_blocks concat].
  { cbn [app]. rewrite Z.mul_0_r, Z.add_0_r, <- Hp. by rewrite ztake_zdrop. }
  inversion_clear Hr as [|? ? [Hb Hbb] Hr']. rewrite zlen_cons in *. pose proof (zlen_nonneg r). pose proof (zlen_nonneg pre).
  assert (zlen b = 8) as H8 by (unfold zlen; lia).
  rewrite stn_Some by lia. cbn [mbind option_bind]. rewrite Hp, H8.
  rewrite (IH _ (at_ + 8) (pre ++ b)); [|done| | |].
  - assert (zdrop (at_ + 8 + 8 * zlen r) (pre ++ b ++ zdrop (at_ + 8) out) = zdrop (at_ + 8 * (1 + zlen r)) out) as ->.
    + replace (at_ + 8 + 8 * zlen r) with (zlen (pre ++ b) + 8 * zlen r) by (rewrite zlen_app; lia).
      rewrite app_assoc, <- zdrop_zdrop, zdrop_app_exact, zdrop_zdrop by (rewrite ?zlen_app; lia). f_equal. lia.
    + by rewrite <- !app_assoc.
  - rewrite app_assoc. apply ztake_app_exact'. rewrite zlen_app. lia.
  - rewrite zlen_app. lia.
  - rewrite !zlen_app, zlen_zdrop. lia.
Qed.


Lemma iv_ok : row_ok iv.
Proof. split; [done|by apply bytes_okb_ok]. Qed.

Lemma aes_wrap_eq kek r : aes_wrap kek r = fst (wrap_loop kek (length r) (iv, r)) ++ concat (snd (wrap_loop kek (length r) (iv, r))).
Proof. unfold aes_wrap, wrap_loop. cbn zeta. by destruct (fold_left _ _ _). Qed.

Lemma unwrap_sound kek input out :
  state_ok kek -> bytes_ok input -> zlen input < 2 ^ 16 -> 256 <= zlen out ->
  exists res, aes_unwrap_128 kek input out = Some res /\
  forall out' len, res = Some (out', len) ->
    exists r, 1 <= zlen r <= 32 /\ Forall row_ok r /\ aes_wrap kek r = input /\ len = 8 * zlen r /\ out' = concat r ++ zdrop len out.
Proof.
  intros Hk Hb Hl Ho. unfold aes_unwrap_128. cbn zeta. change 7 with (Z.ones 3). rewrite Z.land_ones by lia. change (2 ^ 3) with 8.
  destruct ((zlen input <? 16) || _) eqn:E1; [by exists None|].
  destruct ((zlen input / 8 - 1 <=? 0) || _) eqn:E2; [by exists None|]. bool_hyps.
  set (n := Z.to_nat (zlen input / 8 - 1)). assert (zlen input = 8 + 8 * Z.of_nat n) as Hn by (unfold n; Z.to_euclidean_division_equations; lia).
  assert (1 <= Z.of_nat n <= 32) as Hn32 by (unfold n; lia). rewrite ldn_Some, zdrop_0 by lia. cbn [mbind option_bind].
  destruct (blocks_ok n (zdrop 8 input)) as (r & -> & Hrn & Hr & Hrc); [by apply Forall_drop|zlen|]. cbn [mbind option_bind].
  rewrite ztake_all in Hrc by zlen. set (a := ztake 8 input) in *.
  assert (row_ok a) as Ha by (split; [unfold a, ztake; rewrite length_take; unfold zlen in Hn; lia|by apply Forall_take]).
  destruct (wrap_unwrap_loop kek Hk n ltac:(lia) (a, r)) as [(Ha' & Hl' & Hr') Hw]; [by split_and!|].
  destruct (unwrap_loop kek n (a, r)) as [a' r']. cbn [fst snd] in *.
  case_bool_decide as Eiv; cbn [negb]; [|by exists None]. subst a'.
  assert (zlen r' = Z.of_nat n) as Hzr by (unfold zlen; lia).
  rewrite (store_blocks_ok r' out 0 []) by (done || (rewrite ?Hzr; lia)). cbn [mbind option_bind app]. eexists. split; [done|].
  intros out' len [= <- <-]. exists r'. rewrite wrap_small by (unfold in_range; lia). split_and!; try done; try lia.
  - rewrite aes_wrap_eq, Hl', Hw. cbn [fst snd]. rewrite Hrc. apply ztake_zdrop.
  - do 2 f_equal. lia.
Qed.

Lemma unwrap_complete kek r out :
  state_ok kek -> Forall row_ok r -> 1 <= zlen r <= 32 -> 256 <= zlen out ->
  aes_unwrap_128 kek (aes_wrap kek r) out = Some (Some (concat r ++ zdrop (8 * zlen r) out, 8 * zlen r)).
Proof.
  intros Hk Hr Hn Ho. rewrite aes_wrap_eq. set (n := length r).
  assert (zlen r = Z.of_nat n) as Hzr by done.
  destruct (unwrap_wrap_loop kek Hk n ltac:(lia) (iv, r)) as [(Ha & Hl' & Hr') Hw]; [split_and!; [apply iv_ok|done|done]|].
  destruct (wrap_loop kek n (iv, r)) as [a r']. cbn [fst snd] in *.
  assert (zlen a = 8) as Hza by (unfold zlen; destruct Ha; lia). destruct (concat_rows r' Hr') as [Hcb Hcl].
  assert (zlen r' = Z.of_nat n) as Hzr' by (unfold zlen; by rewrite Hl').
  assert (zlen (a ++ concat r') = 8 + 8 * Z.of_nat n) as Hz by (rewrite zlen_app, Hcl; lia).
  unfold aes_unwrap_128. cbn zeta. rewrite Hz. change 7 with (Z.ones 3). rewrite Z.land_ones by lia. change (2 ^ 3) with 8.
  replace ((8 + 8 * Z.of_nat n) / 8 - 1) with (Z.of_nat n) by (Z.to_euclidean_division_equations; lia).
  replace ((8 + 8 * Z.of_nat n) mod 8) with 0 by (Z.to_euclidean_division_equations; lia).
  replace ((8 + 8 * Z.of_nat n <? 16) || negb (0 =? 0)) with false by (cbn; case_cmp).
  replace ((Z.of_nat n <=? 0) || (32 <? Z.of_nat n)) with false by case_cmp.
  rewrite ldn_app_0 by done. cbn [mbind option_bind]. rewrite zdrop_app_exact' by done. rewrite Nat2Z.id.
  destruct (blocks_ok n (concat r')) as (r2 & -> & _ & Hr2 & Hc2); [done|rewrite Hcl; lia|]. cbn [mbind option_bind].
  rewrite ztake_all in Hc2 by (rewrite Hcl; lia). rewrite (rows_inj r2 r' Hr2 Hr' Hc2), Hw. cbn.
  rewrite (store_blocks_ok r out 0 []) by (done || (rewrite ?Hzr; lia)). cbn [mbind option_bind app].
  rewrite wrap_small by (unfold in_range; lia). by rewrite Hzr, Z.mul_comm.
Qed.

Lemma aes_wrap_ok kek r : state_ok kek -> Forall row_ok r -> 1 <= zlen r <= 32 ->
  bytes_ok (aes_wrap kek r) /\ zlen (aes_wrap kek r) = 8 + 8 * zlen r.
Proof.
  intros Hk Hr Hn. rewrite aes_wrap_eq. unfold zlen in Hn. set (n := length r) in *.
  destruct (unwrap_wrap_loop kek Hk n ltac:(lia) (iv, r)) as [(Ha & Hl & Hr') _]; [split_and!; [apply iv_ok|done|done]|].
  destruct (wrap_loop kek n (iv, r)) as [a r']. cbn [fst snd] in *. destruct (concat_rows r' Hr') as [Hcb Hcl].
  split; [apply Forall_app; split; [apply Ha|done]|]. rewrite zlen_app, Hcl. unfold zlen. destruct Ha as [-> _]. rewrite Hl. unfold n. lia.
Qed.

(** C14: key unwrapping is RFC 3394's.  aes_unwrap_128 returns for every
    input without leaving its buffers (256 bytes of output suffice), and
    succeeds with a plaintext exactly when the input is the standard's key wrap
    of that plaintext - the cipher, the key expansion, the S-box and the field
    of FIPS 197, written apart from the code in Fips197.v - under the key, from
    1 to 32 blocks; the bytes of the output buffer past the plaintext keep
    their values. *)
Theorem aes_unwrap_exact kek input out :
  state_ok kek -> bytes_ok input -> zlen input < 2 ^ 16 -> 256 <= zlen out ->
  exists res, aes_unwrap_128 kek input out = Some res /\
  forall out' len, res = Some (out', len) <->
    exists r, 1 <= zlen r <= 32 /\ Forall row_ok r /\ aes_wrap kek r = input /\ len = 8 * zlen r /\ out' = concat r ++ zdrop len out.
Proof.
  intros Hk Hb Hl Ho. destruct (unwrap_sound kek input out Hk Hb Hl Ho) as (res & E & H). exists res. split; [done|].
  intros out' len. split; [apply H|]. intros (r & Hn & Hr & <- & -> & ->).
  rewrite unwrap_complete in E by done. by injection E as <-.
Qed.

(** On the vector of RFC 3394, section 4.1: the key data is
    00112233445566778899AABBCCDDEEFF and its wrapping the twenty-four bytes
    the RFC prints. *)
Lemma aes_unwrap_exact_witness :
  (exists res, aes_unwrap_128 test_key test_wrapped (zeros 256) = Some res /\
    forall out' len, res = Some (out', len) <->
      exists r, 1 <= zlen r <= 32 /\ Forall row_ok r /\ aes_wrap test_key r = test_wrapped /\ len = 8 * zlen r /\
        out' = concat r ++ zdrop len (zeros 256)) /\
  aes_wrap test_key [take 8 test_plain; drop 8 test_plain] = test_wrapped.
Proof.
  split; [|by vm_compute].
  apply (aes_unwrap_exact test_key test_wrapped (zeros 256)); try done; [split; [done|]|]; by apply bytes_okb_ok.
Defined.
