(* ===== verification/Kext.v ===== *)
(** * The state of [RTW88IEEE80211], its driver interface, its keys

    The object's fields ([src/src/kext/RTW88IEEE80211.hpp]) as one record, the
    structures it passes to the rtw88 driver ([src/src/compat/net/mac80211.h])
    and, from [src/src/kext/RTW88IEEE80211.cpp], the operations every other
    component uses: [txMgmtFrame], [clearKeys], [releaseSta], [installKey].

    A call out of the object (a driver operation, a timer, the network stack)
    is an event appended to [trace]; what the outside answers is an arbitrary
    function of the trace so far, the [env] parameter of the definitions. *)

From S2P Require Import Prelude Rsn Bss Reorder.

(** ** Driver structures *)

Definition NL80211_BAND_2GHZ : Z := 0.
Definition NL80211_BAND_5GHZ : Z := 1.
Definition NL80211_NUM_BANDS : Z := 3.
Definition NL80211_CHAN_WIDTH_20_NOHT : Z := 0.
Definition NL80211_CHAN_WIDTH_40 : Z := 2.
Definition NL80211_CHAN_WIDTH_80 : Z := 3.
Definition IEEE80211_CHAN_DISABLED : Z := 1.
Definition IEEE80211_CHAN_NO_IR : Z := 2.
Definition IEEE80211_CHAN_RADAR : Z := 128.
Definition IEEE80211_KEY_FLAG_PAIRWISE : Z := 8.
Definition IEEE80211_TX_CTL_NO_ACK : Z := 4.
Definition IEEE80211_TX_CTL_FIRST_FRAGMENT : Z := 16.
Definition IEEE80211_TX_CTL_AMPDU : Z := 64.
Definition IEEE80211_AC_BE : Z := 2.

Inductive RTW88State :=
| RTW88_STATE_IDLE
| RTW88_STATE_SCANNING
| RTW88_STATE_AUTHENTICATING
| RTW88_STATE_ASSOCIATING
| RTW88_STATE_HANDSHAKING
| RTW88_STATE_CONNECTED
| RTW88_STATE_DISCONNECTING.

#[export] Instance RTW88State_eq_dec : EqDecision RTW88State.
Proof. solve_decision. Defined.

(** A comparison of two states, as a boolean. *)
Definition is_state (a b : RTW88State) : bool := bool_decide (a = b).

Record ieee80211_channel := mk_channel { hw_value : Z; center_freq : Z; ch_flags : Z; ch_band : Z }.
Record ieee80211_sta_ht_cap := mk_ht {
  ht_supported : bool; ht_capinfo : Z; ampdu_factor : Z; ampdu_density : Z;
  rx_mask : list Z; rx_highest : Z; tx_params : Z
}.
Record ieee80211_sta_vht_cap := mk_vht {
  vht_supported : bool; vht_capinfo : Z; rx_mcs_map : Z; vht_rx_highest : Z; tx_mcs_map : Z; vht_tx_highest : Z
}.
Record ieee80211_supported_band := mk_band { band_id : Z; channels : list ieee80211_channel; band_ht : ieee80211_sta_ht_cap; band_vht : ieee80211_sta_vht_cap }.
Record cfg80211_chan_def := mk_chandef { cd_chan : option ieee80211_channel; cd_width : Z; cd_center_freq1 : Z }.

(** The operations a driver may implement. *)
Inductive op :=
| OpTx | OpStart | OpStop | OpAddInterface | OpRemoveInterface | OpSetKey | OpStaAdd | OpStaRemove
| OpBssInfoChanged | OpConfigureFilter | OpHwScan | OpCancelHwScan.

(** [hw_ops] is [None] when [hw->ops] is null; [hw_bands] when [hw->wiphy] is. *)
Record ieee80211_hw := mk_hw { hw_ops : option (op -> bool); hw_bands : option (list (option ieee80211_supported_band)); hw_chandef : cfg80211_chan_def }.

Record ieee80211_vif := mk_vif { bss_assoc : bool; bss_aid : Z; bss_qos : bool; bss_bssid : list Z; cfg_assoc : bool; cfg_aid : Z }.
(** [sta_rates] is [deflink.supp_rates] of the two bands. *)
Record ieee80211_sta := mk_sta {
  sta_addr : list Z; sta_aid : Z; sta_wme : bool; sta_rates : Z * Z; sta_bw : Z; sta_ht : option ieee80211_sta_ht_cap; sta_vht : option ieee80211_sta_vht_cap
}.
Record ieee80211_key_conf := mk_key { kc_cipher : Z; kc_keyidx : Z; kc_flags : Z; kc_keylen : Z; kc_iv_len : Z; kc_icv_len : Z; kc_key : list Z }.

(** A frame given to the driver's [tx]: its bytes and what the control block
    says. *)
Record tx_frame := mk_tx {
  tx_data : list Z; tx_sta : bool; tx_flags : Z; tx_band : Z; tx_key : option ieee80211_key_conf; tx_queue : Z; tx_protocol : Z
}.

Inductive event :=
| EvTx (f : tx_frame)
| EvSetKey (install pairwise : bool) (k : ieee80211_key_conf)
| EvStaAdd (s : ieee80211_sta)
| EvStaRemove (s : ieee80211_sta)
| EvBssInfoChanged (v : ieee80211_vif)
| EvConnectHwSetup (c : cfg80211_chan_def) (bssid : list Z)
| EvRestoreConnectedHw (c : cfg80211_chan_def) (bssid : list Z)
| EvAwdlSwitch (c : cfg80211_chan_def)
| EvStart
| EvStop
| EvAddInterface
| EvRemoveInterface
| EvPciRemove
| EvRegisterVif (present : bool)
| EvConfigureFilter (changed flags : Z)
| EvHwScan (chans : list ieee80211_channel)
| EvCancelHwScan
| EvSwScanStart
| EvSwScanSwitch (c : cfg80211_chan_def)
| EvSwScanComplete
| EvSleep (ms : Z)
| EvWake (ms : Z)
| EvTimerCancel
| EvLink (active : bool)
| EvRandom
| EvInject (eth : list Z)
| EvInjectAWDL (eth : list Z)
| EvActionFrame (frame : list Z) (rssi chan : Z)
| EvFree (skb : list Z)
| EvRxFreed (skbs : list (list Z))
| EvArmReorder
| EvReorderOff
| EvScanDone (aborted : bool).

(** The outside: arbitrary functions of everything done so far. *)
Record env := mk_env {
  alloc_ok : list event -> bool;
  set_key_ret : list event -> Z;
  start_ret : list event -> Z;
  add_interface_ret : list event -> Z;
  hw_scan_ret : list event -> Z;
  hw_scan_supported : list event -> bool;
  is_scanning : list event -> bool;
  random32 : list event -> list Z;
  mbuf_ok : list event -> Z -> bool
}.

(** ** The object

    [_connectTC] and [_manualScanTC] say that the thread calls exist,
    [connectEntered] and [manualEntered] that they are entered and have not
    started. *)

Record kext := mk_kext {
  _state : RTW88State;
  _connectCancelled : bool;
  _deauthReason : Z;
  _scanReturnState : RTW88State;
  _powered : bool;
  _pmkProvided : bool;
  _externalSupplicant : bool;
  _receiveMulticast : bool;
  _awdlReceiveMode : bool;
  _awdlChannel : Z;
  _macAddr : list Z;
  _bss : bss_table;
  _scanGeneration : Z;
  _connectTC : bool;
  connectEntered : bool;
  _manualScanTC : bool;
  manualEntered : bool;
  _scanRequest : bool;
  _manualScanChannels : list ieee80211_channel;
  _manualScanChannelCount : Z;
  _manualScanAbort : bool;
  _manualScanOnHomeChannel : bool;
  _targetBSS : RTW88BSS;
  _password : list Z;
  _pmk : list Z;
  _ptk : list Z;
  _ptkConf : option ieee80211_key_conf;
  _gtkConf : option ieee80211_key_conf;
  _anonce : list Z;
  _snonce : list Z;
  _replayCtr : list Z;
  _ccmpTxPn : list Z;
  _rxCcmpIvSkipLogged : bool;
  _wpa2 : bool;
  _assocRsnIE : list Z;
  _assocRsnIELen : Z;
  _txSeq : Z;
  _dataSeq : Z;
  _awdlDataSeq : Z;
  _assocAID : Z;
  _txBaActive : bool;
  _baTid : Z;
  _connChanWidth : Z;
  _baDialog : Z;
  _baBufSize : Z;
  _rxBa : list (option (RxReorder (list Z)));
  _rssi : Z;
  _hw : option ieee80211_hw;
  _vif : option ieee80211_vif;
  _sta : option ieee80211_sta;
  trace : list event
}.

#[export] Instance eta_kext : Eta kext := fun k => mk_kext
  (_state k) (_connectCancelled k) (_deauthReason k) (_scanReturnState k) (_powered k) (_pmkProvided k) 
  (_externalSupplicant k) (_receiveMulticast k) (_awdlReceiveMode k) (_awdlChannel k) (_macAddr k) (_bss k) 
  (_scanGeneration k) (_connectTC k) (connectEntered k) (_manualScanTC k) (manualEntered k) (_scanRequest k) (_manualScanChannels k) (_manualScanChannelCount k) 
  (_manualScanAbort k) (_manualScanOnHomeChannel k) (_targetBSS k) (_password k) (_pmk k) (_ptk k) 
  (_ptkConf k) (_gtkConf k) (_anonce k) (_snonce k) (_replayCtr k) (_ccmpTxPn k) (_rxCcmpIvSkipLogged k) 
  (_wpa2 k) (_assocRsnIE k) (_assocRsnIELen k) (_txSeq k) (_dataSeq k) (_awdlDataSeq k) (_assocAID k) 
  (_txBaActive k) (_baTid k) (_connChanWidth k) (_baDialog k) (_baBufSize k) (_rxBa k) (_rssi k) (_hw k) 
  (_vif k) (_sta k) (trace k).

#[export] Instance eta_hw : Eta ieee80211_hw := fun h => mk_hw (hw_ops h) (hw_bands h) (hw_chandef h).
#[export] Instance eta_vif : Eta ieee80211_vif := fun v => mk_vif (bss_assoc v) (bss_aid v) (bss_qos v) (bss_bssid v) (cfg_assoc v) (cfg_aid v).
#[export] Instance eta_channel : Eta ieee80211_channel := fun c => mk_channel (hw_value c) (center_freq c) (ch_flags c) (ch_band c).

(** ** Guards and effects *)

Definition emit (e : event) (k : kext) : kext := k <| trace := e :: trace k |>.

(** [_hw && _hw->ops && _hw->ops->o] *)
Definition has_op (k : kext) (o : op) : bool :=
  match _hw k with
  | Some h => match hw_ops h with Some ops => ops o | None => false end
  | None => false
  end.
Definition has_ops (k : kext) : bool :=
  match _hw k with Some h => match hw_ops h with Some _ => true | None => false end | None => false end.
Definition has_hw (k : kext) : bool := match _hw k with Some _ => true | None => false end.
Definition has_vif (k : kext) : bool := match _vif k with Some _ => true | None => false end.
Definition has_sta (k : kext) : bool := match _sta k with Some _ => true | None => false end.
Definition is_some {A} (o : option A) : bool := match o with Some _ => true | None => false end.
Definition state_is (k : kext) (s : RTW88State) : bool := is_state (_state k) s.

Section object.
Context (E : env).

(** [skb] allocation, then the driver's [tx]. *)
Definition txMgmtFrame (frame : list Z) (k : kext) : bool * kext :=
  if negb (has_op k OpTx) then (false, k)
  else if negb (alloc_ok E (trace k)) then (false, k)
  else (true, emit (EvTx (mk_tx frame false (IEEE80211_TX_CTL_FIRST_FRAGMENT .| IEEE80211_TX_CTL_NO_ACK) 0 None 0 0)) k).

Definition txRawManagementFrame (frame : list Z) (k : kext) : bool * kext :=
  if (zlen frame <? 24) || (4096 <? zlen frame) then (false, k)
  else
    match frame with
    | f0 :: f1 :: _ =>
        let fc := f0 .| u16 (f1 << 8) in
        if negb (fc .& 0x000c =? 0) then (false, k) else txMgmtFrame frame k
    | _ => (false, k)
    end.

Definition disable_key (pairwise : bool) (c : option ieee80211_key_conf) (k : kext) : kext :=
  match c with Some c => emit (EvSetKey false pairwise c) k | None => k end.

Definition clearKeys (k : kext) : kext :=
  let k := if _powered k && has_op k OpSetKey
           then disable_key false (_gtkConf k) (disable_key true (_ptkConf k) k) else k in
  k <| _ptkConf := None |> <| _gtkConf := None |> <| _pmk := zeros 32 |> <| _password := zeros 64 |>
    <| _pmkProvided := false |> <| _ptk := zeros 64 |> <| _ccmpTxPn := zeros 6 |> <| _rxCcmpIvSkipLogged := false |>.

(** [rxBaTeardownAll] on the object's table. *)
Definition teardown_all (k : kext) : option kext :=
  '(t, o) ← rxBaTeardownAll (_rxBa k);
  Some (emit (EvRxFreed (freed o)) (k <| _rxBa := t |>)).

Definition releaseSta (k : kext) : option kext :=
  match _sta k with
  | None => Some k
  | Some s =>
      let k := if has_op k OpStaRemove && has_vif k then emit (EvStaRemove s) k else k in
      teardown_all (k <| _sta := None |> <| _txBaActive := false |> <| _dataSeq := 0 |>)
  end.

Definition key_slot (pairwise : bool) (k : kext) : option ieee80211_key_conf := if pairwise then _ptkConf k else _gtkConf k.
Definition set_slot (pairwise : bool) (c : option ieee80211_key_conf) (k : kext) : kext :=
  if pairwise then k <| _ptkConf := c |> else k <| _gtkConf := c |>.

(** [memcpy(key->key, tk, tk_len)] into the 32-byte field. *)
Definition make_key (pairwise : bool) (keyidx cipher : Z) (tk : list Z) : ieee80211_key_conf :=
  mk_key cipher (signed 8 keyidx) (if pairwise then IEEE80211_KEY_FLAG_PAIRWISE else 0) (zlen tk) 8
         (if cipher =? WLAN_CIPHER_SUITE_TKIP then 4 else 8) (tk ++ zeros (32 - zlen tk)).

Definition installKey (pairwise : bool) (keyidx cipher : Z) (tk : list Z) (k : kext) : bool * kext :=
  if negb (has_op k OpSetKey) || (zlen tk =? 0) || (32 <? zlen tk) then (false, k)
  else if negb (cipher =? WLAN_CIPHER_SUITE_CCMP) && negb (cipher =? WLAN_CIPHER_SUITE_TKIP) then (false, k)
  else if (cipher =? WLAN_CIPHER_SUITE_CCMP) && negb (zlen tk =? 16) then (false, k)
  else if (cipher =? WLAN_CIPHER_SUITE_TKIP) && negb (zlen tk =? 32) then (false, k)
  else
    let k := set_slot pairwise None (disable_key pairwise (key_slot pairwise k) k) in
    if negb (alloc_ok E (trace k)) then (false, k)
    else
      let key := make_key pairwise keyidx cipher tk in
      let ret := set_key_ret E (trace k) in
      let k := emit (EvSetKey true pairwise key) k in
      if negb (ret =? 0) then (false, k)
      else
        let k := set_slot pairwise (Some key) k in
        (true, if pairwise then k <| _ccmpTxPn := zeros 6 |> else k).

(** ** Sequence numbers and headers *)

Definition le16 (z : Z) : list Z := [z .& 0xff; (z >> 8) .& 0xff].

(** A 24-byte three-address header; the duration is zero. *)
Definition hdr_3addr (fc : Z) (addr1 addr2 addr3 : list Z) (seq_ctrl : Z) : list Z :=
  le16 fc ++ [0; 0] ++ addr1 ++ addr2 ++ addr3 ++ le16 seq_ctrl.

(** [_txSeq++] *)
Definition next_txSeq (k : kext) : Z * kext := (_txSeq k, k <| _txSeq := u16 (_txSeq k + 1) |>).
End object.

(** ** The type invariant

    Lengths of the arrays, ranges of the counters and the invariants of the
    records kept in the object. *)

(** The sequence number in the header of a frame. *)
Definition skb_sn (f : list Z) : Z := (((f !!! 22%nat) .| ((f !!! 23%nat) << 8)) .& 0xFFF0) >> 4.

Definition buf_ok (n : Z) (b : list Z) : Prop := zlen b = n /\ bytes_ok b.

(** A received frame: whole header, bounded length. *)
Definition rx_ok (f : list Z) : Prop := 24 <= zlen f < 2 ^ 16 /\ bytes_ok f.

(** The tables of the driver: one entry per band, MCS masks of ten bytes. *)
Definition ht_wf (c : ieee80211_sta_ht_cap) : Prop := buf_ok 10 (rx_mask c) /\ in_range 16 (ht_capinfo c).
Definition band_wf (b : option ieee80211_supported_band) : Prop := match b with Some b => ht_wf (band_ht b) | None => True end.
Definition hw_wf (h : option ieee80211_hw) : Prop :=
  match h with
  | Some h => match hw_bands h with Some bs => zlen bs = NL80211_NUM_BANDS /\ Forall band_wf bs | None => True end
  | None => True
  end.

Record kext_wf (k : kext) : Prop := {
  wf_mac : buf_ok 6 (_macAddr k);
  wf_bss : list_wf (bssList (_bss k));
  wf_target : bss_wf (_targetBSS k);
  wf_password : buf_ok 64 (_password k) /\ In 0 (_password k);
  wf_pmk : buf_ok 32 (_pmk k);
  wf_ptk : buf_ok 64 (_ptk k);
  wf_anonce : buf_ok 32 (_anonce k);
  wf_snonce : buf_ok 32 (_snonce k);
  wf_replay : buf_ok 8 (_replayCtr k);
  wf_pn : buf_ok 6 (_ccmpTxPn k);
  wf_rsnie : buf_ok 257 (_assocRsnIE k) /\ 0 <= _assocRsnIELen k <= 257;
  wf_seqs : in_range 16 (_txSeq k) /\ in_range 16 (_dataSeq k) /\ in_range 16 (_awdlDataSeq k);
  wf_ba : in_range 4 (_baTid k) /\ is_byte (_baDialog k) /\ in_range 16 (_baBufSize k);
  wf_rxba : table_ok skb_sn (_rxBa k);
  wf_rxframes : Forall rx_ok (buffered (_rxBa k));
  wf_hw : hw_wf (_hw k)
}.

Lemma zeros_buf n : 0 <= n -> buf_ok n (zeros n).
Proof. intros Hn. split; [rewrite zlen_zeros; lia|apply bytes_zeros]. Qed.

Lemma stn_buf n b i v : buf_ok n b -> bytes_ok v -> 0 <= i -> i + zlen v <= n -> exists b', stn b i v = Some b' /\ buf_ok n b'.
Proof.
  intros [Hl Hb] Hv Hi Hn. eexists. split; [apply stn_Some; lia|]. split; [rewrite !zlen_app, zlen_ztake, zlen_zdrop; pose proof (zlen_nonneg v); lia|].
  apply Forall_app. split; [by apply Forall_take|]. apply Forall_app. split; [done|by apply Forall_drop].
Qed.

(** A read inside a buffer of bytes. *)
Lemma ldn_buf b i n : bytes_ok b -> 0 <= i -> 0 <= n -> i + n <= zlen b -> exists v, ldn b i n = Some v /\ buf_ok n v.
Proof.
  intros Hb Hi Hn Hl. eexists. split; [by apply ldn_Some|]. split; [rewrite zlen_ztake, zlen_zdrop; lia|by apply Forall_take, Forall_drop].
Qed.
Lemma ld_byte b i : bytes_ok b -> 0 <= i < zlen b -> exists x, ld b i = Some x /\ is_byte x.
Proof.
  intros Hb Hi. destruct (ld_Some b i Hi) as [x Hx]. exists x. split; [done|]. revert Hx. unfold ld. destruct (0 <=? i); [|done].
  by apply Forall_lookup_1.
Qed.

(** The random bytes a nonce is filled with. *)
Definition env_ok (E : env) : Prop := forall tr, buf_ok 32 (random32 E tr).

(** *** The link

    A WPA2 link whose keys this object manages is up only with a pairwise key
    installed. *)
Definition link_ok (k : kext) : Prop :=
  _state k = RTW88_STATE_CONNECTED -> _wpa2 k = true -> _externalSupplicant k = false -> is_some (_ptkConf k) = true.

(** Prove the invariant of an updated state from the old one: fields the
    update does not touch are found by conversion. *)
Ltac solve_wf H :=
  destruct H; split; first [assumption | apply zeros_buf; lia | idtac].

(** ** Operations that only send

    Sending moves the sequence and packet numbers, the dialog token and the
    trace; every other field of the new state converts to the old one's. *)
(** Received buffers an event releases. *)
Definition frees (e : event) : list (list Z) := match e with EvFree f => [f] | EvRxFreed l => l | _ => [] end.
Definition no_free (es : list event) : Prop := Forall (fun e => frees e = []) es.

Definition tx_only (k k' : kext) : Prop :=
  exists ts ds aw pn d es, no_free es /\
    k' = k <| _txSeq := ts |> <| _dataSeq := ds |> <| _awdlDataSeq := aw |> <| _ccmpTxPn := pn |> <| _baDialog := d |> <| trace := es ++ trace k |>.

Lemma tx_only_refl k : tx_only k k.
Proof. exists (_txSeq k), (_dataSeq k), (_awdlDataSeq k), (_ccmpTxPn k), (_baDialog k), []. split; [constructor|by destruct k]. Qed.
Lemma tx_only_trans k1 k2 k3 : tx_only k1 k2 -> tx_only k2 k3 -> tx_only k1 k3.
Proof.
  intros (?&?&?&?&?&es1&N1&->) (ts&ds&aw&pn&d&es&N&->). exists ts, ds, aw, pn, d, (es ++ es1). split; [by apply Forall_app|].
  rewrite <- app_assoc. reflexivity.
Qed.
Lemma tx_only_emit e k : frees e = [] -> tx_only k (emit e k).
Proof. intros He. exists (_txSeq k), (_dataSeq k), (_awdlDataSeq k), (_ccmpTxPn k), (_baDialog k), [e]. split; [by apply Forall_singleton|by destruct k]. Qed.

Lemma emit_wf e k : kext_wf k -> kext_wf (emit e k).
Proof. intros W. by solve_wf W. Qed.

(** A step that always answers, with a well-formed state. *)
Definition steps (P : kext -> Prop) (r : option kext) : Prop := exists k', r = Some k' /\ kext_wf k' /\ P k'.
Definition answers {A} (P : A -> kext -> Prop) (r : option (A * kext)) : Prop :=
  exists a k', r = Some (a, k') /\ kext_wf k' /\ P a k'.

Lemma steps_bind P Q r f : steps P r -> (forall k, kext_wf k -> P k -> steps Q (f k)) -> steps Q (r ≫= f).
Proof. intros (k & -> & W & HP) H. cbn [mbind option_bind]. by apply H. Qed.
Lemma answers_bind {A} (P : A -> kext -> Prop) Q r (f : A * kext -> option kext) :
  answers P r -> (forall a k, kext_wf k -> P a k -> steps Q (f (a, k))) -> steps Q (r ≫= f).
Proof. intros (a & k & -> & W & HP) H. cbn [mbind option_bind]. by apply H. Qed.
Lemma steps_ret (P : kext -> Prop) k : kext_wf k -> P k -> steps P (Some k).
Proof. by exists k. Qed.
Lemma steps_mono (P Q : kext -> Prop) r : steps P r -> (forall k, P k -> Q k) -> steps Q r.
Proof. intros (k & -> & W & HP) Hf. exists k. auto. Qed.

Lemma txMgmtFrame_only E f k : tx_only k (snd (txMgmtFrame E f k)).
Proof.
  unfold txMgmtFrame. destruct (negb _); [apply tx_only_refl|]. destruct (negb _); [apply tx_only_refl|by apply tx_only_emit].
Qed.
Lemma txMgmtFrame_trace E f k : exists a, trace (snd (txMgmtFrame E f k)) = a ++ trace k.
Proof.
  unfold txMgmtFrame. destruct (negb _); [by exists []|]. destruct (negb _); [by exists []|]. cbn [snd].
  match goal with |- context [emit ?e _] => by exists [e] end.
Qed.
Lemma txMgmtFrame_wf E f k : kext_wf k -> kext_wf (snd (txMgmtFrame E f k)).
Proof. intros W. unfold txMgmtFrame. destruct (negb _); [done|]. destruct (negb _); [done|by apply emit_wf]. Qed.

Lemma next_txSeq_wf k : kext_wf k -> kext_wf (snd (next_txSeq k)).
Proof.
  intros W. destruct (wf_seqs k W) as (H1 & H2 & H3). cbn [next_txSeq snd]. solve_wf W. split; [apply wrap_range; lia|by split].
Qed.
Lemma next_txSeq_only k : tx_only k (snd (next_txSeq k)).
Proof. exists (u16 (_txSeq k + 1)), (_dataSeq k), (_awdlDataSeq k), (_ccmpTxPn k), (_baDialog k), []. by split; [constructor|]. Qed.

(** Keys: only the slots, the packet number and the trace move. *)
Definition keys_only (k k' : kext) : Prop :=
  exists p g pn es, no_free es /\ k' = k <| _ptkConf := p |> <| _gtkConf := g |> <| _ccmpTxPn := pn |> <| trace := es ++ trace k |>.

Lemma keys_only_refl k : keys_only k k.
Proof. exists (_ptkConf k), (_gtkConf k), (_ccmpTxPn k), []. split; [constructor|by destruct k]. Qed.
Lemma keys_only_trans k1 k2 k3 : keys_only k1 k2 -> keys_only k2 k3 -> keys_only k1 k3.
Proof.
  intros (?&?&?&es1&N1&->) (p&g&pn&es&N&->). exists p, g, pn, (es ++ es1). split; [by apply Forall_app|].
  rewrite <- app_assoc. reflexivity.
Qed.

Lemma keys_only_wf k k' : kext_wf k -> keys_only k k' -> buf_ok 6 (_ccmpTxPn k') -> kext_wf k'.
Proof. intros W (p & g & pn & es & _ & ->) H. by solve_wf W. Qed.

(** What installKey leaves: the slot holds the key, or is empty when the
    request was valid and the driver refused it, or nothing changed. *)
Definition key_valid (cipher : Z) (tk : list Z) : bool :=
  (cipher =? WLAN_CIPHER_SUITE_CCMP) && (zlen tk =? 16) || (cipher =? WLAN_CIPHER_SUITE_TKIP) && (zlen tk =? 32).

Lemma installKey_cases E pairwise keyidx cipher tk k :
  exists b k', installKey E pairwise keyidx cipher tk k = (b, k') /\ keys_only k k' /\
    (if b then key_valid cipher tk = true /\ key_slot pairwise k' = Some (make_key pairwise keyidx cipher tk) /\
               _ccmpTxPn k' = (if pairwise then zeros 6 else _ccmpTxPn k) /\
               key_slot (negb pairwise) k' = key_slot (negb pairwise) k /\
               (exists d, trace k' = EvSetKey true pairwise (make_key pairwise keyidx cipher tk) :: d ++ trace k)
     else k' = k \/ (key_slot pairwise k' = None /\ _ccmpTxPn k' = _ccmpTxPn k /\ key_slot (negb pairwise) k' = key_slot (negb pairwise) k)).
Proof.
  unfold installKey. destruct (_ || (32 <? zlen tk)) eqn:E1; [eexists _, k; split; [done|]; split; [apply keys_only_refl|by left]|].
  destruct (negb (cipher =? _) && _) eqn:E2; [eexists _, k; split; [done|]; split; [apply keys_only_refl|by left]|].
  destruct ((cipher =? _) && negb (zlen tk =? 16)) eqn:E3; [eexists _, k; split; [done|]; split; [apply keys_only_refl|by left]|].
  destruct ((cipher =? _) && negb (zlen tk =? 32)) eqn:E4; [eexists _, k; split; [done|]; split; [apply keys_only_refl|by left]|].
  assert (key_valid cipher tk = true) as Hv.
  { unfold key_valid. destruct (cipher =? WLAN_CIPHER_SUITE_CCMP), (cipher =? WLAN_CIPHER_SUITE_TKIP), (zlen tk =? 16), (zlen tk =? 32); cbn in *; congruence. }
  set (k1 := set_slot pairwise None _).
  assert (keys_only k k1 /\ key_slot pairwise k1 = None /\ _ccmpTxPn k1 = _ccmpTxPn k /\ key_slot (negb pairwise) k1 = key_slot (negb pairwise) k /\
    exists d, trace k1 = d ++ trace k) as (O1 & S1 & P1 & N1 & T1).
  { unfold k1, disable_key. destruct pairwise, (key_slot _ k) as [c|]; (split; [|split_and!; try reflexivity]);
      first [by exists [EvSetKey false true c]|by exists [EvSetKey false false c]|by exists []
            |(eexists _, _, (_ccmpTxPn k), [_]; split; [|reflexivity]; by apply Forall_singleton)
            |(eexists _, _, (_ccmpTxPn k), []; split; [constructor|reflexivity])]. }
  clearbody k1. destruct (alloc_ok E _); cbn [negb]; [|exists false, k1; split; [done|]; split; [done|by right]].
  destruct (set_key_ret E _ =? 0); cbn [negb].
  - eexists true, _. split; [reflexivity|]. split.
    + apply (keys_only_trans _ _ _ O1). destruct pairwise; eexists _, _, _, [_]; (split; [|reflexivity]); by apply Forall_singleton.
    + split; [done|]. destruct T1 as [d T1]. destruct pairwise; split_and!; first [exact P1|exact N1|reflexivity|exists d; cbn; by rewrite T1].
  - eexists false, _. split; [reflexivity|]. split.
    + apply (keys_only_trans _ _ _ O1). eexists _, _, _, [_]. split; [|reflexivity]. by apply Forall_singleton.
    + right. destruct pairwise; split_and!; first [exact P1|exact N1|exact S1].
Qed.

Lemma installKey_true E pairwise keyidx cipher tk k :
  has_op k OpSetKey = true -> key_valid cipher tk = true -> (forall tr, alloc_ok E tr = true) -> (forall tr, set_key_ret E tr = 0) ->
  exists k', installKey E pairwise keyidx cipher tk k = (true, k') /\ keys_only k k' /\
    key_slot pairwise k' = Some (make_key pairwise keyidx cipher tk) /\ key_slot (negb pairwise) k' = key_slot (negb pairwise) k /\
    exists d, trace k' = EvSetKey true pairwise (make_key pairwise keyidx cipher tk) :: d ++ trace k.
Proof.
  intros Ho Hv Ha Hs. destruct (installKey_cases E pairwise keyidx cipher tk k) as (b & k' & Ek & O & H).
  assert (b = true) as ->.
  { revert Ek. unfold installKey. rewrite Ho. apply orb_prop in Hv as [Hv|Hv]; apply andb_prop in Hv as [Hc Hl];
      apply Z.eqb_eq in Hc as ->; apply Z.eqb_eq in Hl; rewrite Hl; closed_ifs; rewrite Ha; cbn [negb]; rewrite Hs; by intros [= <- _]. }
  destruct H as (_ & H1 & _ & H2 & H3). by exists k'.
Qed.

Lemma installKey_wf E pairwise keyidx cipher tk k : kext_wf k -> kext_wf (snd (installKey E pairwise keyidx cipher tk k)).
Proof.
  intros W. destruct (installKey_cases E pairwise keyidx cipher tk k) as (b & k' & -> & O & H). cbn [snd].
  apply (keys_only_wf k); [done|done|]. pose proof (wf_pn k W). destruct b.
  - destruct H as (_ & _ & -> & _). destruct pairwise; [|done]. apply zeros_buf. lia.
  - by destruct H as [-> | (_ & -> & _)].
Qed.

(** ** A concrete object *)

Definition demo_env : env :=
  mk_env (fun _ => true) (fun _ => 0) (fun _ => 0) (fun _ => 0) (fun _ => 0) (fun _ => false) (fun _ => false)
         (fun _ => replicate 32 7) (fun _ _ => true).

Definition demo_ht : ieee80211_sta_ht_cap := mk_ht true 0x1862 3 5 (replicate 10 0xff) 0 1.
Definition demo_vht : ieee80211_sta_vht_cap := mk_vht true 0x3391 0xfffa 0 0xfffa 0.
Definition demo_chan (n f b : Z) : ieee80211_channel := mk_channel n f 0 b.
Definition demo_hw : ieee80211_hw :=
  mk_hw (Some (fun _ => true))
        (Some [Some (mk_band 0 [demo_chan 1 2412 0; demo_chan 6 2437 0; demo_chan 11 2462 0] demo_ht demo_vht);
               Some (mk_band 1 [demo_chan 36 5180 0; demo_chan 149 5745 0] demo_ht demo_vht); None])
        (mk_chandef (Some (demo_chan 11 2462 0)) 0 2462).
Definition demo_vif : ieee80211_vif := mk_vif true 1 true [2; 4; 6; 8; 10; 12] true 1.
Definition demo_sta : ieee80211_sta := mk_sta [2; 4; 6; 8; 10; 12] 1 true (0xFFF, 0xFF) 0 (Some demo_ht) None.
Definition demo_ptk : list Z := seqZ 0 64.

(** Associated with the network of [test_bss], WPA2, keys installed. *)
Definition demo_kext (st : RTW88State) : kext :=
  mk_kext st false 0 RTW88_STATE_IDLE true false false true false 0 [2; 0; 0; 0; 0; 1]
    (mk_table [test_bss] 1) 7 true false true false false [] 0 false false test_bss (zeros 64) (replicate 32 9) demo_ptk
    (Some (make_key true 0 WLAN_CIPHER_SUITE_CCMP (seqZ 32 16))) None (replicate 32 3) (replicate 32 5) (zeros 8)
    [254; 255; 0; 0; 0; 0] false true (zeros 257) 0 100 200 0 1 false 0 20 0 64 empty_table (-50)
    (Some demo_hw) (Some demo_vif) (Some demo_sta) [].

Lemma demo_kext_wf st : kext_wf (demo_kext st).
Proof.
  split; try (split; [done|by apply bytes_okb_ok]); try (by split_and!).
  - pose proof test_table_ok as (H1 & H2 & _). by split.
  - pose proof test_table_ok as (H & _). by inversion H.
  - split; [split; [done|by apply bytes_okb_ok]|]. by left.
  - split; [split; [done|by apply bytes_okb_ok]|]. done.
  - split; [done|]. by apply Forall_replicate.
  - by apply Forall_nil_2.
  - split; [done|]. repeat (apply Forall_cons_2); try done; (split; [split; [done|by apply bytes_okb_ok]|done]).
Qed.

Lemma demo_env_ok : env_ok demo_env.
Proof. intros tr. split; [done|by apply bytes_okb_ok]. Qed.
