(* ===== verification/Tx.v ===== *)
(** * Transmission: data, AWDL data, null-function, probe and BlockAck frames

    From [src/src/kext/RTW88IEEE80211.cpp]: [txDataFrame], [txAWDLDataFrame],
    [txNullFunc], [txProbeRequest], [htAllowed], [sendAddbaRequest],
    [sendAddbaResponse], [startTxAggregation].  An mbuf is the list of its
    bytes; [mbuf_ok E tr off] says whether the copy out of it from offset
    [off] succeeds. *)

From Stdlib Require Import Sorting.Sorted.
From S2P Require Import Prelude Rsn Bss Kext.

Definition IEEE80211_FTYPE_MGMT : Z := 0x0000.
Definition IEEE80211_FTYPE_DATA : Z := 0x0008.
Definition IEEE80211_STYPE_PROBE_REQ : Z := 0x0040.
Definition IEEE80211_STYPE_ACTION : Z := 0x00D0.
Definition IEEE80211_STYPE_QOS_DATA : Z := 0x0080.
Definition IEEE80211_STYPE_NULLFUNC : Z := 0x0040.
Definition IEEE80211_FCTL_TODS : Z := 0x0100.
Definition IEEE80211_FCTL_FROMDS : Z := 0x0200.
Definition IEEE80211_FCTL_PM : Z := 0x1000.
Definition IEEE80211_FCTL_PROTECTED : Z := 0x4000.
Definition IEEE80211_QOS_CTL_TID_MASK : Z := 0x000f.
Definition ETH_P_PAE : Z := 0x888E.
Definition WLAN_EID_SUPP_RATES : Z := 1.
Definition WLAN_CATEGORY_BACK : Z := 3.
Definition WLAN_ACTION_ADDBA_REQ : Z := 0.
Definition WLAN_ACTION_ADDBA_RESP : Z := 1.
Definition WLAN_ACTION_DELBA : Z := 2.

Definition rates_2g : list Z := [0x82; 0x84; 0x8b; 0x96; 0x0c; 0x12; 0x18; 0x24].
Definition rates_5g : list Z := [0x8c; 0x12; 0x98; 0x24; 0x30; 0x48; 0x60; 0x6c].
Definition awdlBssid : list Z := [0x00; 0x25; 0x00; 0xff; 0x94; 0x73].

Definition htAllowed (k : kext) : bool :=
  if cipher (_targetBSS k) =? WLAN_CIPHER_SUITE_TKIP then false
  else if group_cipher (_targetBSS k) =? WLAN_CIPHER_SUITE_TKIP then false
  else true.

(** The band of the target: channels above 14 are 5 GHz. *)
Definition target_band (k : kext) : Z := if 14 <? channel (_targetBSS k) then NL80211_BAND_5GHZ else NL80211_BAND_2GHZ.
(** [chandef.chan && chandef.chan->band == 5 GHz] *)
Definition tuned_5g (k : kext) : bool :=
  match _hw k with
  | Some h => match cd_chan (hw_chandef h) with Some c => ch_band c =? NL80211_BAND_5GHZ | None => false end
  | None => false
  end.

(** [for (i = 0; i < 6; i++) if (++_ccmpTxPn[i] != 0) break;] *)
Fixpoint inc_pn (pn : list Z) : list Z :=
  match pn with
  | [] => []
  | x :: pn => let x := u8 (x + 1) in if negb (x =? 0) then x :: pn else x :: inc_pn pn
  end.

(** [seq_ctrl] of a 12-bit number. *)
Definition seq_field (sn : Z) : Z := u16 ((sn .& 0xFFF) << 4).

Definition snap_rfc1042 (ethertype : Z) : list Z :=
  [0xAA; 0xAA; 0x03; 0x00; 0x00; 0x00; u8 (ethertype >> 8); ethertype .& 0xff].

(** The CCMP header of the packet number just drawn. *)
Definition ccmp_header (pn : list Z) (keyidx : Z) : option (list Z) :=
  p0 ← ld pn 0; p1 ← ld pn 1; p2 ← ld pn 2; p3 ← ld pn 3; p4 ← ld pn 4; p5 ← ld pn 5;
  Some [p0; p1; 0x00; u8 (0x20 .| ((u8 keyidx .& 0x3) << 6)); p2; p3; p4; p5].

Section tx.
Context (E : env).

(** [Some (sent, k)]; [None] is an access outside a buffer. *)
Definition txDataFrame (m : list Z) (k : kext) : option (bool * kext) :=
  if negb (has_op k OpTx && has_vif k && has_sta k) then Some (false, k)
  else
    let total := zlen m in
    if (total <? 14) || (2048 <? total) then Some (false, k)
    else if negb (mbuf_ok E (trace k) 0) then Some (false, k)
    else
      let paylen := total - 14 in
      eh ← ldn m 0 14;
      e12 ← ld eh 12; e13 ← ld eh 13; da ← ldn eh 0 6;
      let ethertype := u16 ((e12 << 8) .| e13) in
      let protected_frame := _wpa2 k && is_some (_ptkConf k) && negb (ethertype =? ETH_P_PAE) in
      let qos := htAllowed k in
      if negb (alloc_ok E (trace k)) then Some (false, k)
      else
        let fc := IEEE80211_FTYPE_DATA .| IEEE80211_FCTL_TODS in
        let fc := if qos then fc .| IEEE80211_STYPE_QOS_DATA else fc in
        let fc := if protected_frame then fc .| IEEE80211_FCTL_PROTECTED else fc in
        let sn := if qos then _dataSeq k else _txSeq k in
        let k := if qos then k <| _dataSeq := u16 (_dataSeq k + 1) |> else k <| _txSeq := u16 (_txSeq k + 1) |> in
        let h := hdr_3addr fc (bssid (_targetBSS k)) (_macAddr k) da (seq_field sn) in
        let qosc := if qos then [u8 (_baTid k .& IEEE80211_QOS_CTL_TID_MASK); 0] else [] in
        '(ccmp, k) ← (if protected_frame
                      then
                        let k := k <| _ccmpTxPn := inc_pn (_ccmpTxPn k) |> in
                        c ← ccmp_header (_ccmpTxPn k) (from_option kc_keyidx 0 (_ptkConf k));
                        Some (c, k)
                      else Some ([], k));
        if (0 <? paylen) && negb (mbuf_ok E (trace k) 14) then Some (false, k)
        else
          pay ← ldn m 14 paylen;
          let flags := if qos && _txBaActive k
                       then IEEE80211_TX_CTL_FIRST_FRAGMENT .| IEEE80211_TX_CTL_AMPDU
                       else IEEE80211_TX_CTL_FIRST_FRAGMENT in
          Some (true, emit (EvTx (mk_tx (h ++ qosc ++ ccmp ++ snap_rfc1042 ethertype ++ pay) true flags (target_band k)
                                        (if protected_frame then _ptkConf k else None) IEEE80211_AC_BE ethertype)) k).

Definition outputPacket (m : list Z) (k : kext) : option (bool * kext) :=
  let connected := state_is k RTW88_STATE_CONNECTED ||
                   (state_is k RTW88_STATE_SCANNING && is_state (_scanReturnState k) RTW88_STATE_CONNECTED &&
                    ((_manualScanChannelCount k =? 0) || _manualScanOnHomeChannel k)) in
  if negb connected || negb (has_hw k) || negb (has_vif k) || negb (has_sta k) then Some (false, k)
  else txDataFrame m k.

Definition txAWDLDataFrame (m : list Z) (k : kext) : option (bool * kext) :=
  if negb (has_op k OpTx && has_vif k) then Some (false, k)
  else
    let total := zlen m in
    if (total <? 14) || (4096 <? total) then Some (false, k)
    else if negb (mbuf_ok E (trace k) 0) then Some (false, k)
    else
      eh ← ldn m 0 14;
      e12 ← ld eh 12; e13 ← ld eh 13; da ← ldn eh 0 6; sa ← ldn eh 6 6;
      let ethertype := u16 ((e12 << 8) .| e13) in
      let paylen := total - 14 in
      if negb (alloc_ok E (trace k)) then Some (false, k)
      else
        let h := hdr_3addr IEEE80211_FTYPE_DATA da sa awdlBssid (seq_field (_txSeq k)) in
        let k := k <| _txSeq := u16 (_txSeq k + 1) |> in
        let snap := [0xaa; 0xaa; 0x03; 0x00; 0x17; 0xf2; 0x08; 0x00] in
        let seq := _awdlDataSeq k in
        let k := k <| _awdlDataSeq := u16 (_awdlDataSeq k + 1) |> in
        let aw := [0x03; 0x04; seq .& 0xff; u8 (seq >> 8); 0; 0; u8 (ethertype >> 8); u8 ethertype] in
        if (0 <? paylen) && negb (mbuf_ok E (trace k) 14) then Some (false, k)
        else
          pay ← ldn m 14 paylen;
          Some (true, emit (EvTx (mk_tx (h ++ snap ++ aw ++ pay) false IEEE80211_TX_CTL_FIRST_FRAGMENT
                                        (if tuned_5g k then NL80211_BAND_5GHZ else NL80211_BAND_2GHZ)
                                        None IEEE80211_AC_BE ethertype)) k).

Definition txNullFunc (powerSave : bool) (k : kext) : bool * kext :=
  if negb (has_op k OpTx && has_vif k && has_sta k) then (false, k)
  else if negb (alloc_ok E (trace k)) then (false, k)
  else
    let fc := IEEE80211_FTYPE_DATA .| IEEE80211_STYPE_NULLFUNC .| IEEE80211_FCTL_TODS in
    let fc := if powerSave then fc .| IEEE80211_FCTL_PM else fc in
    let '(sn, k) := next_txSeq k in
    let a := bssid (_targetBSS k) in
    (true, emit (EvTx (mk_tx (hdr_3addr fc a (_macAddr k) a (seq_field sn)) true IEEE80211_TX_CTL_FIRST_FRAGMENT
                             (target_band k) None IEEE80211_AC_BE 0)) k).

Definition txProbeRequest (k : kext) : bool * kext :=
  if negb (has_op k OpTx) then (false, k)
  else
    let '(sn, k) := next_txSeq k in
    let bcast := replicate 6 0xff in
    let h := hdr_3addr (IEEE80211_FTYPE_MGMT .| IEEE80211_STYPE_PROBE_REQ) bcast (_macAddr k) bcast (seq_field sn) in
    let rates := if tuned_5g k then rates_5g else rates_2g in
    txMgmtFrame E (h ++ [WLAN_EID_SSID; 0] ++ [WLAN_EID_SUPP_RATES; zlen rates] ++ rates) k.

(** ** BlockAck negotiation *)

(** [f] of [sendAddbaRequest] / [sendAddbaResponse]: header and nine bytes. *)
Definition back_frame (b : list Z) (k : kext) : list Z * kext :=
  let '(sn, k) := next_txSeq k in
  let a := bssid (_targetBSS k) in
  (hdr_3addr (IEEE80211_FTYPE_MGMT .| IEEE80211_STYPE_ACTION) a (_macAddr k) a (seq_field sn) ++ b, k).

Definition ba_param (low tid bufsize : Z) : Z :=
  u16 (low .| (1 << 1) .| ((tid .& 0xf) << 2) .| ((bufsize .& 0x3ff) << 6)).

Definition sendAddbaRequest (tid : Z) (k : kext) : kext :=
  let d := u8 (_baDialog k + 1) in
  let k := k <| _baDialog := if d =? 0 then 1 else d |> in
  let param := ba_param 0 tid (_baBufSize k) in
  let ssc := seq_field (_dataSeq k) in
  let '(f, k) := back_frame ([WLAN_CATEGORY_BACK; WLAN_ACTION_ADDBA_REQ; _baDialog k] ++ le16 param ++ [0; 0] ++ le16 ssc) k in
  snd (txMgmtFrame E f k).

Definition sendAddbaResponse (tid dialog req_param ba_timeout : Z) (k : kext) : kext :=
  let param := ba_param (req_param .& 0x0001) tid (_baBufSize k) in
  let '(f, k) := back_frame ([WLAN_CATEGORY_BACK; WLAN_ACTION_ADDBA_RESP; dialog; 0; 0] ++ le16 param ++ le16 ba_timeout) k in
  snd (txMgmtFrame E f k).

Definition startTxAggregation (k : kext) : kext :=
  if _txBaActive k then k
  else if negb (htAllowed k) then k
  else
    match _sta k with
    | Some s =>
        match sta_ht s with
        | Some ht => if ht_supported ht then sendAddbaRequest (_baTid k) k else k
        | None => k
        end
    | None => k
    end.
End tx.

(** ** Packet numbers *)

Lemma inc_pn_ok pn : bytes_ok pn ->
  bytes_ok (inc_pn pn) /\ length (inc_pn pn) = length pn /\ le_val (inc_pn pn) = (le_val pn + 1) mod 256 ^ zlen pn.
Proof.
  induction 1 as [|x pn Hx Hpn IH]; [done|]. destruct IH as (IH1 & IH2 & IH3). unfold in_range in Hx. cbn [inc_pn].
  assert (0 <= le_val pn < 256 ^ zlen pn) as Hv.
  { clear IH1 IH2 IH3 Hx x. induction Hpn as [|y pn Hy _ IH]; [done|]. cbn [le_val]. rewrite zlen_cons, Z.pow_add_r by (pose proof (zlen_nonneg pn); lia).
    unfold in_range in Hy. change (256 ^ 1) with 256. lia. }
  rewrite zlen_cons, Z.pow_add_r by (pose proof (zlen_nonneg pn); lia). change (256 ^ 1) with 256.
  destruct (Z.eqb_spec (u8 (x + 1)) 0) as [E|E]; cbn [negb].
  - assert (x = 255) as -> by (unfold wrap in E; Z.to_euclidean_division_equations; lia).
    split; [constructor; [by vm_compute|done]|]. split; [cbn [length]; lia|]. cbn [le_val]. rewrite IH3, E.
    replace (255 + 256 * le_val pn + 1) with (256 * (le_val pn + 1)) by lia. rewrite Zmult_mod_distr_l. lia.
  - assert (x + 1 < 256) as Hlt.
    { destruct (Z.ltb_spec (x + 1) 256); [done|]. replace x with 255 in E by lia. by vm_compute in E. }
    rewrite wrap_small by (unfold in_range; lia). split; [constructor; [unfold in_range; lia|done]|]. split; [done|].
    cbn [le_val]. rewrite Z.mod_small by nia. lia.
Qed.

(** ** What the access point decodes

    A reference receiver for frames to the distribution system, from the
    802.11 frame format. *)

Record decap := mk_decap {
  d_ra : list Z; d_ta : list Z; d_da : list Z; d_sn : Z; d_tid : option Z; d_pn : option Z;
  d_ethertype : Z; d_payload : list Z
}.

Definition get16 (f : list Z) (i : Z) : option Z := a ← ld f i; b ← ld f (i + 1); Some (a + 256 * b).

Definition ap_decap (f : list Z) : option decap :=
  fc ← get16 f 0;
  if negb ((fc / 4) mod 4 =? 2) || negb ((fc / 256) mod 4 =? 1) then None
  else
    ra ← ldn f 4 6; ta ← ldn f 10 6; da ← ldn f 16 6; sc ← get16 f 22;
    let qos := Z.testbit fc 7 in
    let off := if qos then 26 else 24 in
    tid ← (if qos then q ← get16 f 24; Some (Some (q mod 16)) else Some None);
    pn ← (if Z.testbit fc 14
          then
            h ← ldn f off 8;
            match h with
            | [p0; p1; 0; k; p2; p3; p4; p5] => if Z.testbit k 5 then Some (Some (le_val [p0; p1; p2; p3; p4; p5])) else None
            | _ => None
            end
          else Some None);
    let off := if Z.testbit fc 14 then off + 8 else off in
    s ← ldn f off 8;
    match s with
    | [0xaa; 0xaa; 3; 0; 0; 0; t1; t0] =>
        Some (mk_decap ra ta da (sc / 16) tid pn (t1 * 256 + t0) (zdrop (off + 8) f))
    | _ => None
    end.

Lemma list6 (l : list Z) : zlen l = 6 -> exists a b c d e f, l = [a; b; c; d; e; f].
Proof.
  intros H. unfold zlen in H. do 6 (destruct l as [|? l]; [cbn in H; lia|]). destruct l; [|cbn in H; lia]. by repeat eexists.
Qed.

Lemma seq_field_le16 sn : exists a b, le16 (seq_field sn) = [a; b] /\ (a + 256 * b) / 16 = sn mod 4096.
Proof.
  do 2 eexists. split; [reflexivity|]. unfold seq_field. change 0xFFF with (Z.ones 12). change 0xff with (Z.ones 8).
  rewrite !Z.land_ones by lia. euclid.
Qed.

Lemma ethertype_bytes t : in_range 16 t -> u8 (t >> 8) * 256 + (t .& 0xff) = t.
Proof. intros Ht. rewrite land_255. euclid. Qed.

Lemma be16_lor a b : is_byte a -> is_byte b -> u16 ((a << 8) .| b) = a * 256 + b.
Proof.
  intros Ha Hb. rewrite Z.lor_comm, lor_shift by (lia || done). unfold in_range in *. rewrite wrap_small by (unfold in_range; lia). lia.
Qed.

(** One frame of each of the four header layouts. *)
Lemma decap_frame (qos prot : bool) ra ta da sn q pn keyidx et pay ccmp :
  zlen ra = 6 -> zlen ta = 6 -> zlen da = 6 -> zlen pn = 6 -> in_range 16 et ->
  (if prot then ccmp_header pn keyidx = Some ccmp else ccmp = []) ->
  let fc := IEEE80211_FTYPE_DATA .| IEEE80211_FCTL_TODS in
  let fc := if qos then fc .| IEEE80211_STYPE_QOS_DATA else fc in
  let fc := if prot then fc .| IEEE80211_FCTL_PROTECTED else fc in
  ap_decap (hdr_3addr fc ra ta da (seq_field sn) ++ (if qos then [u8 (q .& 15); 0] else []) ++ ccmp ++ snap_rfc1042 et ++ pay) =
    Some (mk_decap ra ta da (sn mod 4096) (if qos then Some (q mod 16) else None) (if prot then Some (le_val pn) else None) et pay).
Proof.
  intros Hra Hta Hda Hpn Het Hc. destruct (list6 ra Hra) as (?&?&?&?&?&?&->). destruct (list6 ta Hta) as (?&?&?&?&?&?&->).
  destruct (list6 da Hda) as (?&?&?&?&?&?&->). destruct (list6 pn Hpn) as (?&?&?&?&?&?&->).
  destruct (seq_field_le16 sn) as (a & b & Hs & Hv). unfold hdr_3addr. rewrite Hs.
  assert (u8 (q .& 15) mod 16 = q mod 16) as Hq.
  { change 15 with (Z.ones 4). rewrite Z.land_ones by lia. euclid. }
  assert (Z.testbit (u8 (32 .| ((u8 keyidx .& 3) << 6))) 5 = true) as Hk.
  { rewrite wrap_testbit, Z.lor_spec by lia. done. }
  pose proof (ethertype_bytes et Het) as He.
  assert (forall c, prot = true -> ccmp_header [x17; x18; x19; x20; x21; x22] keyidx = Some c ->
    c = [x17; x18; 0; u8 (32 .| ((u8 keyidx .& 3) << 6)); x19; x20; x21; x22]) as Hcc by (intros c _ [= <-]; done).
  destruct qos, prot; cbn zeta; (apply Hcc in Hc; [subst ccmp|done]) || subst ccmp;
    match goal with |- context [le16 ?fc] => let v := eval vm_compute in (le16 fc) in change (le16 fc) with v end;
    unfold snap_rfc1042; cbn [app]; unfold ap_decap, get16; repeat (progress (closed_ifs; read_prefix)).
  all: rewrite ?Hk; closed_ifs; cbn [mbind option_bind]; read_prefix; rewrite Hv, He, ?Z.add_0_r, ?Hq; reflexivity.
Qed.

(** ** The data path's output *)

Definition tx_ready (k : kext) : bool := has_op k OpTx && has_vif k && has_sta k.
Definition eth_type (m : list Z) : Z := (m !!! 12%nat) * 256 + (m !!! 13%nat).
Definition protects (m : list Z) (k : kext) : bool := _wpa2 k && is_some (_ptkConf k) && negb (eth_type m =? ETH_P_PAE).

(** The state once the sequence number and, for a protected frame, the packet
    number are drawn. *)
Definition drawn (m : list Z) (k : kext) : kext :=
  let k := if htAllowed k then k <| _dataSeq := u16 (_dataSeq k + 1) |> else k <| _txSeq := u16 (_txSeq k + 1) |> in
  if protects m k then k <| _ccmpTxPn := inc_pn (_ccmpTxPn k) |> else k.

Lemma drawn_fields m k :
  htAllowed (drawn m k) = htAllowed k /\ trace (drawn m k) = trace k /\ _targetBSS (drawn m k) = _targetBSS k /\
  _ptkConf (drawn m k) = _ptkConf k /\ _macAddr (drawn m k) = _macAddr k /\ _wpa2 (drawn m k) = _wpa2 k /\
  _ccmpTxPn (drawn m k) = (if protects m k then inc_pn (_ccmpTxPn k) else _ccmpTxPn k).
Proof.
  unfold drawn. destruct (htAllowed k) eqn:E; cbn zeta.
  - change (protects m (k <| _dataSeq := u16 (_dataSeq k + 1) |>)) with (protects m k).
    destruct (protects m k); split_and!; try done; exact E.
  - change (protects m (k <| _txSeq := u16 (_txSeq k + 1) |>)) with (protects m k).
    destruct (protects m k); split_and!; try done; exact E.
Qed.

Lemma eth_head m : bytes_ok m -> 14 <= zlen m ->
  exists eh e12 e13, ldn m 0 14 = Some eh /\ ld eh 12 = Some e12 /\ ld eh 13 = Some e13 /\ ldn eh 0 6 = Some (ztake 6 m) /\
    ldn eh 6 6 = Some (ztake 6 (zdrop 6 m)) /\ u16 ((e12 << 8) .| e13) = eth_type m /\ in_range 16 (eth_type m).
Proof.
  intros Hb Hl. unfold zlen in Hl. do 14 (destruct m as [|? m]; [cbn in Hl; lia|]).
  rewrite !Forall_cons in Hb. decompose [and] Hb.
  eexists [_; _; _; _; _; _; _; _; _; _; _; _; _; _], _, _. split.
  - rewrite ldn_Some; [done|lia|lia|]. rewrite !zlen_cons. pose proof (zlen_nonneg m). lia.
  - split_and!; try done; unfold eth_type; cbn [lookup_total list_lookup_total].
    + by apply be16_lor.
    + unfold in_range in *. lia.
Qed.

(** Below the 48-bit limit the next number is one more. *)
Lemma inc_pn_next k : kext_wf k -> le_val (_ccmpTxPn k) + 1 < 2 ^ 48 -> 0 <= le_val (_ccmpTxPn k) /\ le_val (inc_pn (_ccmpTxPn k)) = le_val (_ccmpTxPn k) + 1.
Proof.
  intros W Hpn. destruct (wf_pn k W) as [H6 Hpb]. destruct (inc_pn_ok _ Hpb) as (_ & _ & ->).
  assert (forall l, bytes_ok l -> 0 <= le_val l) as Hnn by (clear; induction 1 as [|x l Hx _ IH]; cbn [le_val]; unfold in_range in *; lia).
  pose proof (Hnn _ Hpb). split; [done|]. rewrite H6, Z.mod_small by (change (256 ^ 6) with (2 ^ 48); lia). done.
Qed.

Lemma drawn_wf m k : kext_wf k -> kext_wf (drawn m k).
Proof.
  intros W. unfold drawn. cbn zeta.
  set (k1 := if htAllowed k then _ else _).
  assert (kext_wf k1) as W1.
  { unfold k1. destruct (wf_seqs k W) as (H1 & H2 & H3).
    destruct (htAllowed k); solve_wf W; split_and!; first [assumption | apply wrap_range; lia]. }
  clearbody k1. destruct (protects m k1); [|done]. destruct (wf_pn k1 W1) as [H6 Hb].
  destruct (inc_pn_ok _ Hb) as (Hib & Hil & _). solve_wf W1. split; [unfold zlen in *; cbn; lia|done].
Qed.

Section tx_proofs.
Context (E : env).

Record tx_outcome (m : list Z) (k : kext) (k' : kext) (f : tx_frame) : Prop := {
  to_state : k' = emit (EvTx f) (drawn m k);
  to_decap : ap_decap (tx_data f) = Some (mk_decap (bssid (_targetBSS k)) (_macAddr k) (ztake 6 m)
     ((if htAllowed k then _dataSeq k else _txSeq k) mod 4096)
     (if htAllowed k then Some (_baTid k) else None)
     (if protects m k then Some (le_val (inc_pn (_ccmpTxPn k))) else None) (eth_type m) (zdrop 14 m));
  to_key : tx_key f = if protects m k then _ptkConf k else None;
  to_ampdu : Z.testbit (tx_flags f) 6 = htAllowed k && _txBaActive k
}.

Lemma txDataFrame_cases m k :
  kext_wf k -> bytes_ok m ->
  exists b k', txDataFrame E m k = Some (b, k') /\
    if b then (exists f, tx_outcome m k k' f) else k' = k \/ k' = drawn m k.
Proof.
  intros W Hm. unfold txDataFrame. destruct (has_op k OpTx && _ && _); cbn [negb]; [|exists false, k; auto].
  destruct ((zlen m <? 14) || _) eqn:El; [exists false, k; auto|]. destruct (mbuf_ok E (trace k) 0); cbn [negb]; [|exists false, k; auto].
  bool_hyps. destruct (eth_head m Hm) as (eh & e12 & e13 & E1 & E2 & E3 & E4 & _ & E5 & Het); [lia|].
  rewrite E1. cbn [mbind option_bind]. rewrite E2, E3, E4. cbn [mbind option_bind]. rewrite E5.
  destruct (alloc_ok E (trace k)); cbn [negb]; [|exists false, k; auto]. fold (protects m k).
  pose proof (drawn_fields m k) as (Hht & Htr & _ & _ & _ & _ & Hpn').
  destruct (wf_mac k W) as [Hmac _]. destruct (wf_target k W) as (_ & _ & _ & Hbss & _). destruct (wf_pn k W) as [Hp6 Hpb].
  destruct (inc_pn_ok (_ccmpTxPn k) Hpb) as (Hib & Hil & _).
  assert (zlen (inc_pn (_ccmpTxPn k)) = 6) as Hi6 by (unfold zlen in *; lia).
  assert (exists ccmp, (if protects m k then ccmp_header (inc_pn (_ccmpTxPn k)) (from_option kc_keyidx 0 (_ptkConf k)) = Some ccmp else ccmp = [])) as [ccmp Hc].
  { destruct (protects m k); [|by eexists]. destruct (list6 _ Hi6) as (?&?&?&?&?&?&->). by eexists. }
  match goal with |- context [mbind _ (if protects m k then ?a else Some ([], ?b))] =>
    assert ((if protects m k then a else Some ([], b)) = Some (ccmp, drawn m k)) as -> end.
  { unfold drawn. cbn zeta. destruct (htAllowed k).
    - change (protects m (k <| _dataSeq := u16 (_dataSeq k + 1) |>)) with (protects m k). destruct (protects m k); [|by rewrite Hc].
      cbn [_ccmpTxPn _ptkConf upd]. by rewrite Hc.
    - change (protects m (k <| _txSeq := u16 (_txSeq k + 1) |>)) with (protects m k). destruct (protects m k); [|by rewrite Hc].
      cbn [_ccmpTxPn _ptkConf upd]. by rewrite Hc. }
  cbn [mbind option_bind]. destruct (_ && negb (mbuf_ok E _ 14)); [exists false, (drawn m k); auto|].
  rewrite ldn_Some, (ztake_all (zlen m - 14)) by (rewrite ?zlen_zdrop; lia). cbn [mbind option_bind]. do 2 eexists. split; [reflexivity|].
  eexists. split; [reflexivity| | |]; cbn [tx_data tx_key tx_flags].
  - repeat match goal with |- context [?p (if htAllowed k then ?a else ?b)] =>
      replace (p (if htAllowed k then a else b)) with (p k) by (by destruct (htAllowed k)) end.
    pose proof (decap_frame (htAllowed k) (protects m k) _ _ (ztake 6 m) (if htAllowed k then _dataSeq k else _txSeq k) (_baTid k) _
      (from_option kc_keyidx 0 (_ptkConf k)) (eth_type m) (zdrop 14 m) ccmp Hbss Hmac ltac:(zlen) Hi6 Het Hc) as D.
    cbn zeta in D. unfold IEEE80211_QOS_CTL_TID_MASK. change 0x000f with 15. rewrite D.
    rewrite (Z.mod_small (_baTid k) 16); [done|]. apply (wf_ba k W).
  - destruct (protects m k); [|done]. by destruct (drawn_fields m k) as (_ & _ & _ & -> & _).
  - assert (_txBaActive (drawn m k) = _txBaActive k) as ->.
    { unfold drawn. cbn zeta. destruct (htAllowed k); match goal with |- context [protects m ?x] => change (protects m x) with (protects m k) end; by destruct (protects m k). }
    by destruct (htAllowed k && _txBaActive k).
Qed.

(** With every allocation and copy succeeding the frame is sent. *)
Lemma txDataFrame_sends m k : kext_wf k -> bytes_ok m -> 14 <= zlen m <= 2048 -> tx_ready k = true ->
  (forall tr, alloc_ok E tr = true) -> (forall tr off, mbuf_ok E tr off = true) ->
  exists f k', txDataFrame E m k = Some (true, k') /\ tx_outcome m k k' f.
Proof.
  intros W Hm Hl Hr Ha Hc. destruct (txDataFrame_cases m k W Hm) as (b & k' & Et & Hb).
  assert (b = true) as ->.
  { revert Et. unfold txDataFrame. fold (tx_ready k). rewrite Hr. cbn [negb].
    rewrite (proj2 (orb_false_iff _ _)) by (split; apply Z.ltb_ge; lia). rewrite Hc. cbn [negb].
    destruct (eth_head m Hm) as (eh & e12 & e13 & E1 & E2 & E3 & E4 & _); [lia|].
    rewrite E1. cbn [mbind option_bind]. rewrite E2, E3, E4. cbn [mbind option_bind]. rewrite Ha. cbn [negb].
    match goal with |- context [mbind _ ?x] => destruct x as [[c k1]|] end; [|done]. cbn [mbind option_bind].
    rewrite Hc, andb_false_r. destruct (ldn m 14 _); [|done]. cbn [mbind option_bind]. congruence. }
  destruct Hb as (f & Hb). by exists f, k'.
Qed.

(** Every frame is handled inside the buffers, keeps the invariant and moves
    nothing but the counters and the trace. *)
Lemma drawn_only m k : tx_only k (drawn m k).
Proof.
  unfold drawn. destruct (htAllowed k); cbn zeta; match goal with |- context [if protects m ?x then _ else _] => destruct (protects m x) end.
  - exists (_txSeq k), (u16 (_dataSeq k + 1)), (_awdlDataSeq k), (inc_pn (_ccmpTxPn k)), (_baDialog k), []. by split; [constructor|].
  - exists (_txSeq k), (u16 (_dataSeq k + 1)), (_awdlDataSeq k), (_ccmpTxPn k), (_baDialog k), []. by split; [constructor|].
  - exists (u16 (_txSeq k + 1)), (_dataSeq k), (_awdlDataSeq k), (inc_pn (_ccmpTxPn k)), (_baDialog k), []. by split; [constructor|].
  - exists (u16 (_txSeq k + 1)), (_dataSeq k), (_awdlDataSeq k), (_ccmpTxPn k), (_baDialog k), []. by split; [constructor|].
Qed.

Lemma txDataFrame_total m k : kext_wf k -> bytes_ok m -> answers (fun _ => tx_only k) (txDataFrame E m k).
Proof.
  intros W Hm. destruct (txDataFrame_cases m k W Hm) as (b & k' & ? & Hb). exists b, k'. split; [done|].
  pose proof (drawn_only m k). pose proof (drawn_wf m k W).
  destruct b; [destruct Hb as (f & [-> _ _ _]); split; [by apply emit_wf|eapply tx_only_trans; [done|by apply tx_only_emit]]|].
  destruct Hb as [-> | ->]; split; by try apply tx_only_refl.
Qed.

Lemma outputPacket_total m k : kext_wf k -> bytes_ok m -> answers (fun _ => tx_only k) (outputPacket E m k).
Proof.
  intros W Hm. unfold outputPacket. cbn zeta. destruct (_ || negb (has_sta k)); [|by apply txDataFrame_total].
  exists false, k. split; [done|]. split; [done|apply tx_only_refl].
Qed.

Lemma txNullFunc_keeps ps k : kext_wf k -> kext_wf (snd (txNullFunc E ps k)) /\ tx_only k (snd (txNullFunc E ps k)).
Proof.
  intros W. unfold txNullFunc. destruct (negb _); [split; [done|apply tx_only_refl]|].
  destruct (negb _); [split; [done|apply tx_only_refl]|]. cbn zeta.
  split; [apply emit_wf; by apply (next_txSeq_wf k)|]. eapply tx_only_trans; [apply (next_txSeq_only k)|by apply tx_only_emit].
Qed.

Lemma txProbeRequest_keeps k : kext_wf k -> kext_wf (snd (txProbeRequest E k)) /\ tx_only k (snd (txProbeRequest E k)).
Proof.
  intros W. unfold txProbeRequest. destruct (negb _); [split; [done|apply tx_only_refl]|].
  cbn zeta. split; [by apply txMgmtFrame_wf, (next_txSeq_wf k)|].
  eapply tx_only_trans; [apply (next_txSeq_only k)|apply txMgmtFrame_only].
Qed.

Lemma back_keeps b k : kext_wf k ->
  let r := back_frame b k in kext_wf (snd (txMgmtFrame E (fst r) (snd r))) /\ tx_only k (snd (txMgmtFrame E (fst r) (snd r))).
Proof.
  intros W r. split; [by apply txMgmtFrame_wf, (next_txSeq_wf k)|].
  eapply tx_only_trans; [apply (next_txSeq_only k)|apply txMgmtFrame_only].
Qed.

Lemma next_dialog d : is_byte d -> is_byte (if u8 (d + 1) =? 0 then 1 else u8 (d + 1)).
Proof. intros Hd. destruct (_ =? 0); [by vm_compute|apply wrap_range; lia]. Qed.

Lemma sendAddbaRequest_keeps tid k : kext_wf k -> kext_wf (sendAddbaRequest E tid k) /\ tx_only k (sendAddbaRequest E tid k).
Proof.
  intros W. unfold sendAddbaRequest. cbn zeta. set (k1 := k <| _baDialog := _ |>).
  assert (kext_wf k1) as W1.
  { destruct (wf_ba k W) as (Ht & Hd & Hb). solve_wf W. split; [done|]. split; [by apply next_dialog|done]. }
  match goal with |- context [back_frame ?b k1] => destruct (back_keeps b k1 W1) as [A B] end. split; [exact A|].
  eapply tx_only_trans; [|exact B]. exists (_txSeq k), (_dataSeq k), (_awdlDataSeq k), (_ccmpTxPn k), (_baDialog k1), []. by split; [constructor|].
Qed.

Lemma sendAddbaResponse_keeps tid dialog p t k :
  kext_wf k -> kext_wf (sendAddbaResponse E tid dialog p t k) /\ tx_only k (sendAddbaResponse E tid dialog p t k).
Proof. intros W. unfold sendAddbaResponse. cbn zeta. match goal with |- context [back_frame ?b k] => exact (back_keeps b k W) end. Qed.

Lemma startTxAggregation_keeps k : kext_wf k -> kext_wf (startTxAggregation E k) /\ tx_only k (startTxAggregation E k).
Proof.
  intros W. pose proof (tx_only_refl k). unfold startTxAggregation. destruct (_txBaActive k); [done|]. destruct (negb _); [done|].
  destruct (_sta k) as [s|]; [|done]. destruct (sta_ht s) as [ht|]; [|done]. destruct (ht_supported ht); [|done].
  by apply sendAddbaRequest_keeps.
Qed.

Lemma startTxAggregation_trace k : exists a, trace (startTxAggregation E k) = a ++ trace k.
Proof.
  unfold startTxAggregation. destruct (_txBaActive k); [by exists []|]. destruct (negb _); [by exists []|].
  destruct (_sta k) as [s|]; [|by exists []]. destruct (sta_ht s) as [ht|]; [|by exists []]. destruct (ht_supported ht); [|by exists []].
  unfold sendAddbaRequest. cbn zeta.
  match goal with |- context [back_frame ?b ?k1] => exact (txMgmtFrame_trace E (fst (back_frame b k1)) (snd (back_frame b k1))) end.
Qed.

Lemma txAWDLDataFrame_total m k : kext_wf k -> bytes_ok m -> answers (fun _ => tx_only k) (txAWDLDataFrame E m k).
Proof.
  intros W Hm. pose proof (tx_only_refl k). unfold txAWDLDataFrame. destruct (negb _); [by exists false, k|].
  destruct ((zlen m <? 14) || _) eqn:El; [by exists false, k|]. destruct (negb (mbuf_ok E _ 0)); [by exists false, k|]. bool_hyps.
  destruct (eth_head m Hm) as (eh & e12 & e13 & E1 & E2 & E3 & E4 & E6 & E5 & Het); [lia|].
  rewrite E1. cbn [mbind option_bind]. rewrite E2, E3, E4, E6. cbn [mbind option_bind]. cbn zeta. destruct (negb (alloc_ok E _)); [by exists false, k|].
  set (k1 := k <| _txSeq := _ |> <| _awdlDataSeq := _ |>).
  assert (kext_wf k1) as W1.
  { destruct (wf_seqs k W) as (S1 & S2 & S3). solve_wf W. split; [apply wrap_range; lia|]. split; [done|apply wrap_range; lia]. }
  assert (tx_only k k1) by (exists (u16 (_txSeq k + 1)), (_dataSeq k), (u16 (_awdlDataSeq k + 1)), (_ccmpTxPn k), (_baDialog k), []; by split; [constructor|]).
  destruct (_ && _); [by exists false, k1|]. rewrite ldn_Some by lia. cbn [mbind option_bind]. eexists true, _. split; [reflexivity|].
  split; [by apply emit_wf|]. eapply tx_only_trans; [done|by apply tx_only_emit].
Qed.
End tx_proofs.

(** C23: txDataFrame encapsulates faithfully.  For every Ethernet frame of 14
    to 2048 bytes and every well-formed state ready to send, when the
    allocation and the copies succeed exactly one frame goes to the driver,
    and a receiver following the 802.11 frame format reads from it the AP and
    station addresses, the destination, EtherType and payload of the Ethernet
    frame, the sequence number, the TID when HT is in use, and, for a
    protected frame, the packet number just drawn; the key handed to the
    hardware is the pairwise key, and EAPOL frames go out unprotected. *)
Theorem tx_data_frame E m k :
  kext_wf k -> bytes_ok m -> 14 <= zlen m <= 2048 -> tx_ready k = true -> le_val (_ccmpTxPn k) + 1 < 2 ^ 48 ->
  (forall tr, alloc_ok E tr = true) -> (forall tr off, mbuf_ok E tr off = true) ->
  exists f k', txDataFrame E m k = Some (true, k') /\ kext_wf k' /\ trace k' = EvTx f :: trace k /\
    ap_decap (tx_data f) = Some (mk_decap (bssid (_targetBSS k)) (_macAddr k) (ztake 6 m)
      ((if htAllowed k then _dataSeq k else _txSeq k) mod 4096)
      (if htAllowed k then Some (_baTid k) else None)
      (if protects m k then Some (le_val (_ccmpTxPn k) + 1) else None) (eth_type m) (zdrop 14 m)) /\
    tx_key f = (if protects m k then _ptkConf k else None) /\
    (eth_type m = ETH_P_PAE -> tx_key f = None).
Proof.
  intros W Hm Hl Hr Hpn Ha Hc. destruct (txDataFrame_sends E m k W Hm Hl Hr Ha Hc) as (f & k' & Et & [-> D K _]). destruct (inc_pn_next k W Hpn) as [_ Hiv].
  exists f, (emit (EvTx f) (drawn m k)). split_and!; try done.
  - by apply emit_wf, drawn_wf.
  - cbn. f_equal. by destruct (drawn_fields m k) as (_ & -> & _).
  - by rewrite D, Hiv.
  - intros He. rewrite K. unfold protects. by rewrite He, Z.eqb_refl, andb_false_r.
Qed.

(** ** No packet number is used twice *)

Fixpoint tx_run (E : env) (ms : list (list Z)) (k : kext) : option kext :=
  match ms with
  | [] => Some k
  | m :: ms => '(_, k) ← txDataFrame E m k; tx_run E ms k
  end.

(** The packet number of a transmitted frame, as a receiver reads it. *)
Definition sent_pn (e : event) : option Z :=
  match e with EvTx f => d ← ap_decap (tx_data f); d_pn d | _ => None end.

Lemma tx_run_ok E ms : forall k, kext_wf k -> Forall bytes_ok ms -> le_val (_ccmpTxPn k) + zlen ms < 2 ^ 48 ->
  exists k' evs, tx_run E ms k = Some k' /\ kext_wf k' /\ trace k' = rev evs ++ trace k /\
    StronglySorted Z.lt (omap sent_pn evs) /\
    Forall (fun p => le_val (_ccmpTxPn k) < p <= le_val (_ccmpTxPn k')) (omap sent_pn evs) /\
    le_val (_ccmpTxPn k') <= le_val (_ccmpTxPn k) + zlen ms /\ le_val (_ccmpTxPn k) <= le_val (_ccmpTxPn k').
Proof.
  induction ms as [|m ms IH]; intros k W Hms Hl; cbn [tx_run].
  { exists k, []. change (zlen []) with 0 in *. split_and!; try done; try lia; constructor. }
  inversion_clear Hms as [|? ? Hm Hms']. rewrite zlen_cons in *. pose proof (zlen_nonneg ms).
  destruct (txDataFrame_cases E m k W Hm) as (b & k1 & -> & Hb). cbn [mbind option_bind].
  destruct (inc_pn_next k W) as [? Hiv]; [lia|].
  pose proof (drawn_fields m k) as (_ & Htr & _ & _ & _ & _ & Hdp). pose proof (drawn_wf m k W) as Wd.
  assert (exists ev, kext_wf k1 /\ trace k1 = ev ++ trace k /\ rev ev = ev /\
    le_val (_ccmpTxPn k) <= le_val (_ccmpTxPn k1) <= le_val (_ccmpTxPn k) + 1 /\
    (omap sent_pn ev = [] \/ omap sent_pn ev = [le_val (_ccmpTxPn k1)] /\ le_val (_ccmpTxPn k1) = le_val (_ccmpTxPn k) + 1)) as (ev & W1 & T1 & R1 & B1 & P1).
  { destruct b.
    - destruct Hb as (f & [-> D _ _]). exists [EvTx f]. cbn [trace emit _ccmpTxPn upd]. change (_ccmpTxPn (emit (EvTx f) (drawn m k))) with (_ccmpTxPn (drawn m k)).
      split; [by apply emit_wf|]. split; [cbn; by rewrite Htr|]. split; [done|]. rewrite Hdp. cbn [omap list_omap sent_pn]. rewrite D. cbn [mbind option_bind d_pn].
      destruct (protects m k); [|split; [lia|by left]]. split; [lia|]. right. rewrite Hiv. done.
    - exists []. cbn [app omap list_omap rev]. destruct Hb as [-> | ->]; [split_and!; try done; [lia|by left]|].
      split; [done|]. split; [done|]. split; [done|]. rewrite Hdp. destruct (protects m k); (split; [lia|by left]). }
  destruct (IH k1 W1 Hms') as (k' & evs & -> & W' & T' & S' & F' & U' & L'); [lia|].
  exists k', (ev ++ evs). split; [done|]. split; [done|]. split; [rewrite T', T1, rev_app_distr, R1; by rewrite app_assoc|].
  rewrite omap_app. assert (Forall (fun p => le_val (_ccmpTxPn k) < p <= le_val (_ccmpTxPn k')) (omap sent_pn evs)) as F2.
  { eapply Forall_impl; [exact F'|]. cbn. lia. }
  destruct P1 as [-> | [-> Ep]]; cbn [app]; split_and!; try done; try lia.
  - constructor; [done|]. eapply Forall_impl; [exact F'|]. cbn. lia.
  - constructor; [lia|done].
Qed.

(** C11: CCMP nonces are never reused under one key.  Whatever Ethernet frames
    are handed to txDataFrame from the state a key installation leaves, and
    whichever allocations or copies fail, the packet numbers that receivers
    read from the transmitted frames are strictly increasing, start above the
    stored number and stay within the 48 bits, as long as fewer than 2^48
    packets are sent. *)
Theorem tx_pn_never_reused E ms k :
  kext_wf k -> Forall bytes_ok ms -> le_val (_ccmpTxPn k) + zlen ms < 2 ^ 48 ->
  exists k' evs, tx_run E ms k = Some k' /\ trace k' = rev evs ++ trace k /\
    StronglySorted Z.lt (omap sent_pn evs) /\
    Forall (fun p => le_val (_ccmpTxPn k) < p < 2 ^ 48) (omap sent_pn evs).
Proof.
  intros W Hm Hl. destruct (tx_run_ok E ms k W Hm Hl) as (k' & evs & ? & _ & ? & ? & F & ? & _). exists k', evs.
  split_and!; try done. eapply Forall_impl; [exact F|]. cbn. lia.
Qed.

(** ** Concrete runs *)

(** An IP packet: one QoS frame, protected with packet number 0x10000. *)
Definition demo_eth : list Z := [1; 2; 3; 4; 5; 6] ++ [2; 0; 0; 0; 0; 1] ++ [8; 0] ++ [0x45; 0; 0; 20].

Example tx_run_demo :
  omap sent_pn (from_option (fun k => rev (trace k)) [] (tx_run demo_env [demo_eth; demo_eth] (demo_kext RTW88_STATE_CONNECTED))) = [0xffff; 0x10000].
Proof. vm_compute. reflexivity. Qed.

Lemma tx_data_frame_witness :
  let k := demo_kext RTW88_STATE_CONNECTED in
  exists f k', txDataFrame demo_env demo_eth k = Some (true, k') /\ kext_wf k' /\ trace k' = EvTx f :: trace k /\
    ap_decap (tx_data f) = Some (mk_decap [2; 4; 6; 8; 10; 12] [2; 0; 0; 0; 0; 1] [1; 2; 3; 4; 5; 6] 200 (Some 0) (Some 0xffff) 0x800 [0x45; 0; 0; 20]) /\
    tx_key f = _ptkConf k /\ (eth_type demo_eth = ETH_P_PAE -> tx_key f = None).
Proof.
  intros k. apply (tx_data_frame demo_env demo_eth k); try done.
  - apply demo_kext_wf.
  - by apply bytes_okb_ok.
Defined.

Lemma tx_pn_never_reused_witness :
  let k := demo_kext RTW88_STATE_CONNECTED in
  exists k' evs, tx_run demo_env [demo_eth; []; demo_eth] k = Some k' /\ trace k' = rev evs ++ trace k /\
    StronglySorted Z.lt (omap sent_pn evs) /\ Forall (fun p => 0xfffe < p < 2 ^ 48) (omap sent_pn evs).
Proof.
  intros k. apply (tx_pn_never_reused demo_env [demo_eth; []; demo_eth] k); try done.
  - apply demo_kext_wf.
  - decompose_Forall; by apply bytes_okb_ok.
Defined.
