(* ===== verification/Eapol.v ===== *)
(** * The WPA2 four-way handshake

    [eapol_mic_ok], [extract_gtk_from_kde], [handleEAPOL], [sendEAPOLKey] and
    [cmdInstallExternalKey] of [src/src/kext/RTW88IEEE80211.cpp].  A received
    EAPOL packet is the list of its bytes; every read is bounds-checked. *)

From S2P Require Import Prelude Rsn Bss Sha1 Kdf Aes Reorder Kext Tx.

(** ** The code *)

Definition kIOReturnSuccess : Z := 0.
Definition kIOReturnNotReady : Z := 0xe00002d8.
Definition kIOReturnBadArgument : Z := 0xe00002c2.
Definition kIOReturnUnsupported : Z := 0xe00002c7.

Definition be16 (z : Z) : list Z := [u8 (z >> 8); z .& 0xff].
(** [(uint16_t)((data[i] << 8) | data[i + 1])] *)
Definition get_be16 (b : list Z) (i : Z) : option Z := h ← ld b i; l ← ld b (i + 1); Some (u16 ((h << 8) .| l)).

Section eapol.
Context (E : env) (ctx : KERN_SHA1_CTX).

(** [alloc]: the [IOMalloc] succeeds. *)
Definition eapol_mic_ok (alloc : bool) (kck eapol : list Z) : option bool :=
  if zlen eapol <? 99 then Some false
  else if negb alloc then Some false
  else
    rx_mic ← ldn eapol 81 16;
    tmp ← stn eapol 81 (zeros 16);
    mic ← kern_hmac_sha1 ctx kck tmp;
    m ← ldn mic 0 16;
    Some (bool_decide (rx_mic = m)).

Record gtk_kde := mk_gtk { g_key : list Z; g_len : Z; g_idx : Z }.

(** [for (pos = 0; pos + 2 <= key_data_len; )]; [data] starts at [pos], [gtk]
    is the caller's 32-byte buffer. *)
Fixpoint extract_loop (fuel : nat) (data gtk : list Z) : option (option gtk_kde) :=
  if zlen data <? 2 then Some None
  else match fuel with
       | O => None
       | S n =>
           id ← ld data 0;
           len ← ld data 1;
           if zlen data <? 2 + len then Some None
           else
             let body := zdrop 2 data in
             oui ← (if (id =? 0xdd) && (6 <=? len) then o ← ldn body 0 4; Some (bool_decide (o = [0x00; 0x0f; 0xac; 0x01]))
                    else Some false);
             if (oui : bool) then
               let key_len := u8 (len - 6) in
               if 32 <? key_len then Some None
               else
                 b4 ← ld body 4;
                 v ← ldn body 6 key_len;
                 g ← stn gtk 0 v;
                 Some (Some (mk_gtk g key_len (b4 .& 0x3)))
             else extract_loop n (zdrop (2 + len) data) gtk
       end.
Definition extract_gtk_from_kde (key_data gtk : list Z) : option (option gtk_kde) :=
  extract_loop (length key_data) key_data gtk.

(** The EAPOL-Key packet without its MIC, from the version byte. *)
Definition eapol_key_packet (ki : Z) (replay snonce mic key_data : list Z) : list Z :=
  let eapol_key_len := u16 (95 + zlen key_data) in
  [2; 3] ++ be16 eapol_key_len ++
  [2] ++ be16 ki ++ [0; 16] ++ replay ++ snonce ++ zeros 32 ++ mic ++ be16 (zlen key_data) ++ key_data.

Definition sendEAPOLKey (step : Z) (replay_counter : list Z) (install ack mic : bool) (k : kext) : option kext :=
  let ki := 0x000A in
  let ki := if mic then ki .| 0x0100 else ki in
  let ki := if install then ki .| 0x0040 else ki in
  let ki := if ack then ki .| 0x0080 else ki in
  let ki := if step =? 4 then ki .| 0x0200 else ki in
  let key_data := if step =? 2 then rtw88BuildSelectedRsnIe (group_cipher (_targetBSS k)) else [] in
  let key_data := if 512 - 14 <? 99 + zlen key_data then [] else key_data in
  let eapol := eapol_key_packet ki replay_counter (_snonce k) (zeros 16) key_data in
  m ← (if mic then
         kck ← ldn (_ptk k) 0 16;
         mic_buf ← kern_hmac_sha1 ctx kck eapol;
         ldn mic_buf 0 16
       else Some (zeros 16));
  let eth := bssid (_targetBSS k) ++ _macAddr k ++ [0x88; 0x8e] in
  if negb (mbuf_ok E (trace k) (-1)) then Some k
  else
    '(_, k) ← txDataFrame E (eth ++ eapol_key_packet ki replay_counter (_snonce k) m key_data) k;
    Some k.

(** [clock_interval_to_deadline(ms, ...); _timer->wakeAtTime(d);] *)
Definition wake (ms : Z) (k : kext) : kext := emit (EvWake ms) k.

Definition handle_m1 (data : list Z) (k : kext) : option kext :=
  an ← ldn data 17 32;
  let k := k <| _anonce := an |> in
  let k := k <| _snonce := random32 E (trace k) |> in
  let k := emit EvRandom k in
  ptk ← derivePTK ctx (_pmk k) (_anonce k) (_snonce k) (_macAddr k) (bssid (_targetBSS k)) (_ptk k);
  let k := k <| _ptk := ptk |> in
  rc ← ldn data 9 8;
  let k := k <| _replayCtr := rc |> in
  k ← sendEAPOLKey 2 (_replayCtr k) false false true k;
  Some (wake 5000 k).

(** The group key in the key data: [None] when the handler returns. *)
Definition m3_key_data (data : list Z) (key_info key_data_len : Z) (k : kext) : option (option gtk_kde) :=
  let none := mk_gtk (zeros 32) 0 0 in
  if key_data_len =? 0 then Some (Some none)
  else
    kd ← ldn data 99 key_data_len;
    kd ← (if negb (key_info .& 0x1000 =? 0) then
            kek ← ldn (_ptk k) 16 16;
            u ← aes_unwrap_128 kek kd (zeros 256);
            match u with
            | None => Some None
            | Some (out, n) => p ← ldn out 0 n; Some (Some p)
            end
          else Some (Some kd));
    match (kd : option (list Z)) with
    | None => Some None
    | Some kd =>
        g ← extract_gtk_from_kde kd (zeros 32);
        Some (Some (from_option id none g))
    end.

Definition handle_m3 (data : list Z) (eapol_len key_info key_data_len : Z) (k : kext) : option kext :=
  kck ← ldn (_ptk k) 0 16;
  pkt ← ldn data 0 eapol_len;
  ok ← eapol_mic_ok (alloc_ok E (trace k)) kck pkt;
  if negb ok then Some k
  else if eapol_len <? 99 + key_data_len then Some k
  else
    g ← m3_key_data data key_info key_data_len k;
    match (g : option gtk_kde) with
    | None => Some k
    | Some g =>
        rc ← ldn data 9 8;
        let k := k <| _replayCtr := rc |> in
        tk ← ldn (_ptk k) 32 16;
        let '(ok, k) := installKey E true 0 WLAN_CIPHER_SUITE_CCMP tk k in
        if negb ok then Some k
        else
          let groupCipher := if group_cipher (_targetBSS k) =? WLAN_CIPHER_SUITE_TKIP
                             then WLAN_CIPHER_SUITE_TKIP else WLAN_CIPHER_SUITE_CCMP in
          gk ← ldn (g_key g) 0 (g_len g);
          let '(ok, k) := if g_len g =? 0 then (true, k) else installKey E false (g_idx g) groupCipher gk k in
          if negb ok then Some k
          else
            k ← sendEAPOLKey 4 (_replayCtr k) false false true k;
            let k := k <| _state := RTW88_STATE_CONNECTED |> in
            let k := emit (EvLink true) (emit EvTimerCancel k) in
            Some (startTxAggregation E k)
    end.

Definition handleEAPOL (data : list Z) (k : kext) : option kext :=
  let len := zlen data in
  if len <? 99 then Some k
  else
    d1 ← ld data 1;
    if negb (d1 =? 3) then Some k
    else
      body_len ← get_be16 data 2;
      let eapol_len := 4 + body_len in
      if (len <? eapol_len) || (eapol_len <? 99) then Some k
      else
        key_info ← get_be16 data 5;
        let is_m1 := (key_info .& 0x0088 =? 0x0088) && (key_info .& 0x0100 =? 0) in
        let is_m3 := key_info .& 0x01c8 =? 0x01c8 in
        key_data_len ← get_be16 data 97;
        if is_m1 then handle_m1 data k
        else if is_m3 then handle_m3 data eapol_len key_info key_data_len k
        else Some k.

(** [key] is [None] for a null pointer. *)
Definition cmdInstallExternalKey (pairwise : bool) (keyidx cipher : Z) (key : option (list Z)) (k : kext) : Z * kext :=
  if negb (_externalSupplicant k) || negb (_wpa2 k) || negb (state_is k RTW88_STATE_CONNECTED) then (kIOReturnNotReady, k)
  else
    match key with
    | None | Some [] => (kIOReturnBadArgument, k)
    | Some key =>
        if pairwise && negb (has_sta k) then (kIOReturnNotReady, k)
        else
          let '(ok, k) := installKey E pairwise keyidx cipher key k in
          ((if ok then kIOReturnSuccess else kIOReturnUnsupported), k)
    end.
End eapol.


(** ** Big-endian fields *)

Lemma be16_val z : in_range 16 z -> u16 ((u8 (z >> 8) << 8) .| (z .& 0xff)) = z.
Proof.
  intros Hz. rewrite Z.lor_comm, lor_shift by (first [lia|apply (land_in_range_r 8); [lia|by vm_compute]]).
  rewrite land_255. euclid.
Qed.

Lemma get_be16_at a z b i : in_range 16 z -> zlen a = i -> get_be16 (a ++ be16 z ++ b) i = Some z.
Proof.
  intros Hz <-. unfold get_be16, be16. cbn [app]. rewrite ld_middle. cbn [mbind option_bind].
  replace (a ++ u8 (z >> 8) :: (z .& 255) :: b) with ((a ++ [u8 (z >> 8)]) ++ (z .& 255) :: b) by (by rewrite <- app_assoc).
  replace (zlen a + 1) with (zlen (a ++ [u8 (z >> 8)])) by (rewrite zlen_app; done). rewrite ld_middle. cbn [mbind option_bind].
  by rewrite be16_val.
Qed.

(** ** The message integrity code *)

(** The packet with its MIC field cleared, and the MIC of a packet. *)
Definition blank (pkt : list Z) : list Z := ztake 81 pkt ++ zeros 16 ++ zdrop 97 pkt.
Definition mic_field (pkt : list Z) : list Z := ztake 16 (zdrop 81 pkt).
Definition mic_of (kck pkt : list Z) : list Z := ztake 16 (hmac kck (blank pkt)).

Lemma blank_ok pkt : part_ok pkt -> 99 <= zlen pkt -> part_ok (blank pkt) /\ zlen (blank pkt) = zlen pkt.
Proof.
  intros [Hb Hl] H9. assert (zlen (blank pkt) = zlen pkt) as Hz by (unfold blank; zlen).
  split; [|done]. split; [|lia]. unfold blank. apply Forall_app. split; [by apply Forall_take|].
  apply Forall_app. split; [apply bytes_zeros|by apply Forall_drop].
Qed.

Lemma eapol_mic_ok_spec ctx alloc kck pkt :
  zlen (buffer ctx) = 64 -> part_ok kck -> part_ok pkt -> 99 <= zlen pkt ->
  eapol_mic_ok ctx alloc kck pkt = Some (alloc && bool_decide (mic_field pkt = mic_of kck pkt)).
Proof.
  intros Hc Hk Hp Hl. unfold eapol_mic_ok. rewrite (proj2 (Z.ltb_ge _ _)) by lia. destruct alloc; [|done]. cbn [negb].
  rewrite ldn_Some by lia. cbn [mbind option_bind]. rewrite stn_Some by (change (zlen (zeros 16)) with 16; lia). cbn [mbind option_bind].
  change (81 + zlen (zeros 16)) with 97. fold (blank pkt). destruct (blank_ok pkt Hp Hl) as [Hbp _].
  rewrite hmac_ok by done. cbn [mbind option_bind]. destruct (hmac_shape kck (blank pkt)) as [Hz _].
  rewrite ldn_Some by lia. cbn [mbind option_bind]. by rewrite zdrop_0.
Qed.

(** ** The group key element *)

Definition gtk_ok (g : gtk_kde) : Prop := buf_ok 32 (g_key g) /\ 0 <= g_len g <= 32 /\ in_range 2 (g_idx g).

Lemma part_small b : bytes_ok b -> zlen b < 2 ^ 31 -> part_ok b.
Proof. intros Hb Hl. split; [done|]. lia. Qed.

Lemma extract_loop_ok fuel : forall data gtk, bytes_ok data -> buf_ok 32 gtk -> (length data <= fuel)%nat ->
  exists r, extract_loop fuel data gtk = Some r /\ forall g, r = Some g -> gtk_ok g.
Proof.
  induction fuel as [|fuel IH]; intros data gtk Hb [Hg Hgb] Hf; cbn [extract_loop].
  { destruct data; [|cbn in Hf; lia]. by exists None. }
  destruct (Z.ltb_spec (zlen data) 2) as [|H2]; [by exists None|].
  destruct data as [|id [|len rest]]; [by vm_compute in H2|by vm_compute in H2|].
  read_prefix. apply Forall_cons in Hb as [Hid Hb]. apply Forall_cons in Hb as [Hlen Hb]. unfold in_range in Hlen.
  assert (forall A (x : A) l, zlen (x :: l) = 1 + zlen l) as Hc by (intros; apply zlen_cons). rewrite !Hc.
  destruct (Z.ltb_spec (1 + (1 + zlen rest)) (2 + len)) as [|Hfit]; [by exists None|].
  change (zdrop 2 (id :: len :: rest)) with rest.
  assert (exists r, extract_loop fuel (zdrop (2 + len) (id :: len :: rest)) gtk = Some r /\ forall g, r = Some g -> gtk_ok g) as Hrec.
  { apply IH; [by apply Forall_drop, Forall_cons_2, Forall_cons_2|done|]. unfold zdrop. rewrite length_drop. cbn [length] in *. lia. }
  destruct ((id =? 0xdd) && (6 <=? len)) eqn:E; cbn [mbind option_bind]; [|exact Hrec]. bool_hyps.
  rewrite (ldn_Some rest 0 4) by lia. cbn [mbind option_bind]. destruct (bool_decide _); [|exact Hrec].
  rewrite wrap_small by (unfold in_range; lia). destruct (Z.ltb_spec 32 (len - 6)); [by exists None|].
  destruct (ld_Some rest 4) as [b4 H4]; [lia|]. rewrite H4. cbn [mbind option_bind]. rewrite ldn_Some by lia. cbn [mbind option_bind].
  set (v := ztake (len - 6) (zdrop 6 rest)). assert (zlen v = len - 6) as Hv by (unfold v; zlen).
  assert (bytes_ok v) as Hvb by (by apply Forall_take, Forall_drop). clearbody v.
  destruct (stn_buf 32 gtk 0 v) as (g & Eg & Hgo); [done|done|lia|lia|]. rewrite Eg. cbn [mbind option_bind].
  eexists. split; [reflexivity|]. intros g' [= <-]. unfold gtk_ok. cbn [g_key g_len g_idx]. split; [done|]. split; [lia|].
  apply (land_in_range_r 2); [lia|by vm_compute].
Qed.


(** ** Building a message *)

Definition key_head (ki : Z) (replay snonce : list Z) (n : Z) : list Z :=
  [2; 3] ++ be16 (u16 (95 + n)) ++ [2] ++ be16 ki ++ [0; 16] ++ replay ++ snonce ++ zeros 32.

Lemma be16_ok z : buf_ok 2 (be16 z).
Proof. split; [done|]. apply Forall_cons_2; [apply wrap_range; lia|]. apply Forall_cons_2; [|done]. apply (land_in_range_r 8); [lia|by vm_compute]. Qed.

Lemma key_head_ok ki replay snonce n : buf_ok 8 replay -> buf_ok 32 snonce -> buf_ok 81 (key_head ki replay snonce n).
Proof.
  intros [Hr Hrb] [Hs Hsb]. split; [unfold key_head; rewrite !zlen_app, Hr, Hs; by vm_compute|].
  unfold key_head. repeat (apply Forall_app; split); try done; try (by apply bytes_okb_ok); apply be16_ok.
Qed.

Lemma packet_split ki replay snonce mic kd :
  eapol_key_packet ki replay snonce mic kd = key_head ki replay snonce (zlen kd) ++ mic ++ be16 (zlen kd) ++ kd.
Proof. unfold eapol_key_packet, key_head. by rewrite <- !app_assoc. Qed.

(** Clearing the MIC of a packet gives the packet it was computed over. *)
Lemma packet_mic ki replay snonce mic kd : buf_ok 8 replay -> buf_ok 32 snonce -> buf_ok 16 mic -> bytes_ok kd ->
  let pkt := eapol_key_packet ki replay snonce mic kd in
  buf_ok (99 + zlen kd) pkt /\ mic_field pkt = mic /\ blank pkt = eapol_key_packet ki replay snonce (zeros 16) kd /\ ldn pkt 0 (99 + zlen kd) = Some pkt.
Proof.
  intros Hr Hs [Hm Hmb] Hkd pkt. destruct (key_head_ok ki replay snonce (zlen kd) Hr Hs) as [Hh Hhb].
  assert (pkt = key_head ki replay snonce (zlen kd) ++ mic ++ be16 (zlen kd) ++ kd) as -> by apply packet_split. rewrite packet_split.
  set (h := key_head _ _ _ _) in *. clearbody h. destruct (be16_ok (zlen kd)) as [Hb Hbb]. set (b := be16 (zlen kd)) in *. clearbody b.
  assert (zlen (h ++ mic ++ b ++ kd) = 99 + zlen kd) as Hz by (rewrite !zlen_app; lia).
  assert (bytes_ok (h ++ mic ++ b ++ kd)) as Hob by (repeat (apply Forall_app; split); done). split; [done|].
  unfold mic_field, blank. rewrite (zdrop_app_exact' 81 h), (ztake_app_exact' 81 h), (ztake_app_exact' 16 mic) by done.
  rewrite (app_assoc h mic), (zdrop_app_exact' 97 (h ++ mic)) by (rewrite zlen_app; lia). split_and!; [done|done|].
  rewrite <- app_assoc. rewrite ldn_Some, zdrop_0, ztake_all by (rewrite ?zlen_zdrop; pose proof (zlen_nonneg kd); lia). done.
Qed.

(** The packet [sendEAPOLKey] sends at a step, MIC included. *)
Definition step_data (step : Z) (k : kext) : list Z := if step =? 2 then rtw88BuildSelectedRsnIe (group_cipher (_targetBSS k)) else [].
Definition step_packet (step ki : Z) (replay : list Z) (k : kext) : list Z :=
  eapol_key_packet ki replay (_snonce k)
    (mic_of (ztake 16 (_ptk k)) (eapol_key_packet ki replay (_snonce k) (zeros 16) (step_data step k))) (step_data step k).
Definition eth_frame (k : kext) (payload : list Z) : list Z := bssid (_targetBSS k) ++ _macAddr k ++ [0x88; 0x8e] ++ payload.

Lemma step_data_ok step k : bytes_ok (step_data step k) /\ zlen (step_data step k) <= 22.
Proof.
  unfold step_data, rtw88BuildSelectedRsnIe. destruct (_ =? 2); [|by split].
  destruct (negb (_ =? _)) eqn:Eg; [split; [by apply bytes_okb_ok|by vm_compute]|].
  apply negb_false_iff, Z.eqb_eq in Eg. rewrite Eg. split; [by apply bytes_okb_ok|by vm_compute].
Qed.

Lemma mic_of_ok kck pkt : buf_ok 16 (mic_of kck pkt).
Proof. unfold mic_of. destruct (hmac_shape kck (blank pkt)) as [Hz Hb]. split; [zlen|by apply Forall_take]. Qed.

Lemma step_packet_ok step ki replay k : kext_wf k -> buf_ok 8 replay ->
  let pkt := step_packet step ki replay k in
  buf_ok (99 + zlen (step_data step k)) pkt /\ mic_field pkt = mic_of (ztake 16 (_ptk k)) pkt.
Proof.
  intros W Hr pkt. destruct (step_data_ok step k) as [Hd _]. set (pkt0 := eapol_key_packet ki replay (_snonce k) (zeros 16) (step_data step k)).
  destruct (packet_mic ki replay (_snonce k) (mic_of (ztake 16 (_ptk k)) pkt0) (step_data step k) Hr (wf_snonce k W) (mic_of_ok _ _) Hd) as (Hp & Hm & Hb & _).
  destruct (packet_mic ki replay (_snonce k) (zeros 16) (step_data step k) Hr (wf_snonce k W) (zeros_buf 16 ltac:(lia)) Hd) as (_ & _ & Hb0 & _).
  unfold pkt, step_packet. fold pkt0. split; [done|]. rewrite Hm. unfold mic_of at 2. rewrite Hb. fold pkt0. unfold mic_of. f_equal. f_equal. exact Hb0.
Qed.

Section handshake.
Context (E : env) (ctx : KERN_SHA1_CTX) (Hctx : zlen (buffer ctx) = 64).

Lemma sendEAPOLKey_eq step replay k : kext_wf k -> buf_ok 8 replay ->
  let ki := if step =? 4 then 0x030a else 0x010a in
  sendEAPOLKey E ctx step replay false false true k =
    if negb (mbuf_ok E (trace k) (-1)) then Some k
    else '(_, k') ← txDataFrame E (eth_frame k (step_packet step ki replay k)) k; Some k'.
Proof.
  intros W [Hr Hrb] ki. unfold sendEAPOLKey. cbv iota. fold (step_data step k). destruct (step_data_ok step k) as [Hd Hdl].
  rewrite (proj2 (Z.ltb_ge _ _)) by lia.
  assert ((if step =? 4 then 10 .| 256 .| 512 else 10 .| 256) = ki) as -> by (unfold ki; by destruct (step =? 4)).
  destruct (wf_ptk k W) as [Hpl Hpb]. rewrite ldn_Some, zdrop_0 by lia. cbn [mbind option_bind].
  set (pkt0 := eapol_key_packet ki replay (_snonce k) (zeros 16) (step_data step k)).
  destruct (packet_mic ki replay (_snonce k) (zeros 16) (step_data step k)) as ([Hpz Hpk] & _ & Hb0 & _);
    [by split|apply W|apply zeros_buf; lia|done|]. fold pkt0 in Hpz, Hpk, Hb0.
  rewrite hmac_ok; [|done|apply part_small; [by apply Forall_take|rewrite zlen_ztake; lia]|apply part_small; [done|lia]].
  cbn [mbind option_bind]. destruct (hmac_shape (ztake 16 (_ptk k)) pkt0) as [Hz _]. rewrite ldn_Some, zdrop_0 by lia. cbn [mbind option_bind].
  destruct (negb _); [done|]. unfold eth_frame, step_packet. fold pkt0. unfold mic_of. rewrite Hb0. by rewrite <- !app_assoc.
Qed.

Lemma eth_frame_ok k p : kext_wf k -> bytes_ok p -> bytes_ok (eth_frame k p).
Proof.
  intros W Hp. destruct (wf_target k W) as (_ & _ & _ & _ & Hb & _). unfold eth_frame.
  repeat (apply Forall_app; split); try done; [apply W|by apply bytes_okb_ok].
Qed.

Lemma sendEAPOLKey_ok step replay k : kext_wf k -> buf_ok 8 replay ->
  steps (tx_only k) (sendEAPOLKey E ctx step replay false false true k).
Proof.
  intros W Hr. rewrite sendEAPOLKey_eq by done. cbn zeta. destruct (negb _); [apply steps_ret; [done|apply tx_only_refl]|].
  eapply answers_bind; [apply txDataFrame_total; [done|]|].
  - apply eth_frame_ok; [done|]. by apply (step_packet_ok step _ replay k).
  - intros b k' W' O. by apply steps_ret.
Qed.

(** Neither the state nor a key moved. *)
Definition link_same (k k' : kext) : Prop := _state k' = _state k /\ _ptkConf k' = _ptkConf k /\ _gtkConf k' = _gtkConf k.

Lemma link_same_refl k : link_same k k.
Proof. done. Qed.
Lemma tx_only_link k k' : tx_only k k' -> link_same k k'.
Proof. by intros (?&?&?&?&?&?&_&->). Qed.

(** The fields the handshake may move. *)
Definition hs_only (k k' : kext) : Prop :=
  exists an sn ptk rc p g pn ts ds aw d st es, no_free es /\
    k' = k <| _anonce := an |> <| _snonce := sn |> <| _ptk := ptk |> <| _replayCtr := rc |> <| _ptkConf := p |> <| _gtkConf := g |>
           <| _ccmpTxPn := pn |> <| _txSeq := ts |> <| _dataSeq := ds |> <| _awdlDataSeq := aw |> <| _baDialog := d |> <| _state := st |>
           <| trace := es ++ trace k |>.

Lemma hs_only_trans k1 k2 k3 : hs_only k1 k2 -> hs_only k2 k3 -> hs_only k1 k3.
Proof.
  intros (?&?&?&?&?&?&?&?&?&?&?&?&es1&N1&->) (an&sn&ptk&rc&p&g&pn&ts&ds&aw&d&st&es&N&->).
  exists an, sn, ptk, rc, p, g, pn, ts, ds, aw, d, st, (es ++ es1). split; [by apply Forall_app|]. rewrite <- app_assoc. reflexivity.
Qed.
Lemma tx_only_hs k k' : tx_only k k' -> hs_only k k'.
Proof.
  intros (ts&ds&aw&pn&d&es&N&->).
  exists (_anonce k), (_snonce k), (_ptk k), (_replayCtr k), (_ptkConf k), (_gtkConf k), pn, ts, ds, aw, d, (_state k), es. by split.
Qed.
Lemma keys_only_hs k k' : keys_only k k' -> hs_only k k'.
Proof.
  intros (p&g&pn&es&N&->).
  by exists (_anonce k), (_snonce k), (_ptk k), (_replayCtr k), p, g, pn, (_txSeq k), (_dataSeq k), (_awdlDataSeq k), (_baDialog k), (_state k), es.
Qed.
Lemma hs_only_set an sn ptk rc st es k : no_free es ->
  hs_only k (k <| _anonce := an |> <| _snonce := sn |> <| _ptk := ptk |> <| _replayCtr := rc |> <| _state := st |> <| trace := es ++ trace k |>).
Proof. intros N. by exists an, sn, ptk, rc, (_ptkConf k), (_gtkConf k), (_ccmpTxPn k), (_txSeq k), (_dataSeq k), (_awdlDataSeq k), (_baDialog k), st, es. Qed.
Lemma hs_only_refl k : hs_only k k.
Proof. apply tx_only_hs, tx_only_refl. Qed.

Lemma get_be16_ok b i : bytes_ok b -> 0 <= i -> i + 2 <= zlen b -> exists v, get_be16 b i = Some v /\ in_range 16 v.
Proof.
  intros Hb Hi Hl. unfold get_be16. destruct (ld_byte b i Hb) as (x & -> & Hx); [lia|]. destruct (ld_byte b (i + 1) Hb) as (y & -> & Hy); [lia|].
  cbn [mbind option_bind]. eexists. split; [done|]. apply wrap_range. lia.
Qed.

Lemma handle_m1_ok data k : env_ok E -> kext_wf k -> bytes_ok data -> 99 <= zlen data ->
  steps (fun k' => link_same k k' /\ hs_only k k') (handle_m1 E ctx data k).
Proof.
  intros HE W Hb Hl. unfold handle_m1. destruct (ldn_buf data 17 32 Hb) as (an & -> & Han); [lia..|]. cbn [mbind option_bind].
  set (k1 := emit EvRandom _). assert (kext_wf k1) as W1 by (specialize (HE (trace k)); solve_wf W).
  destruct (wf_pmk k W) as [Hpz Hpb]. destruct (wf_mac k W) as [Hmz Hmb]. destruct (wf_target k W) as (_ & _ & _ & Haz & Hab & _).
  destruct (wf_ptk k W) as [Hkz _]. destruct (HE (trace k)) as [Hnz Hnb]. destruct Han as [Hanz Hanb].
  rewrite derivePTK_ok; try done; [|apply (part_small (_pmk k)); [done|lia]]. cbn [mbind option_bind].
  destruct (ldn_buf data 9 8 Hb) as (rc & -> & Hrc); [lia..|]. cbn [mbind option_bind].
  set (k2 := _ <| _replayCtr := rc |>). assert (kext_wf k2) as W2 by (pose proof (prf_512_ok (_pmk k1) (_anonce k1) (_snonce k1) (_macAddr k1) (bssid (_targetBSS k1))); solve_wf W1).
  eapply steps_bind; [by apply sendEAPOLKey_ok|]. intros k3 W3 O3. apply steps_ret; [by apply emit_wf|].
  destruct (tx_only_link _ _ O3) as (S & P & G). split; [by split|].
  eapply hs_only_trans; [apply (hs_only_set an (random32 E (trace k)) (_ptk k2) rc (_state k) [EvRandom]); by apply Forall_singleton|].
  eapply hs_only_trans; [apply tx_only_hs, O3|]. by apply tx_only_hs, tx_only_emit.
Qed.

Lemma m3_key_data_ok data ki n k : kext_wf k -> bytes_ok data -> in_range 16 n -> 99 + n <= zlen data ->
  exists r, m3_key_data data ki n k = Some r /\ forall g, r = Some g -> gtk_ok g.
Proof.
  intros W Hb Hn Hl. unfold in_range in Hn. unfold m3_key_data.
  assert (gtk_ok (mk_gtk (zeros 32) 0 0)) as H0 by (split; [apply zeros_buf; lia|]; split; [cbn; lia|by vm_compute]).
  destruct (n =? 0); [eexists; split; [done|]; by intros g [= <-]|].
  destruct (ldn_buf data 99 n Hb) as (kd & -> & [Hkz Hkb]); [lia..|]. cbn [mbind option_bind].
  assert (forall kd, bytes_ok kd -> exists r, (g ← extract_gtk_from_kde kd (zeros 32); Some (Some (from_option id (mk_gtk (zeros 32) 0 0) g))) = Some r /\
    forall g, r = Some g -> gtk_ok g) as Hx.
  { intros d Hd. unfold extract_gtk_from_kde. destruct (extract_loop_ok (length d) d (zeros 32) Hd) as (g & -> & Hg); [apply zeros_buf; lia|lia|].
    cbn [mbind option_bind]. eexists. split; [done|]. intros g' [= <-]. destruct g; [by apply Hg|done]. }
  destruct (negb (_ =? 0)); [|by apply Hx]. destruct (wf_ptk k W) as [Hpz Hpb].
  destruct (ldn_buf (_ptk k) 16 16 Hpb) as (kek & -> & [Hkkz Hkkb]); [lia..|]. cbn [mbind option_bind].
  destruct (unwrap_sound kek kd (zeros 256)) as (u & -> & Hu); [split; [unfold zlen in *; lia|done]|done|lia|by vm_compute|].
  cbn [mbind option_bind]. destruct u as [[out m]|]; [|by exists None].
  destruct (Hu _ _ eq_refl) as (r & Hr & Hrow & _ & -> & ->). destruct (concat_rows r Hrow) as [Hcb Hcz].
  rewrite ldn_app_0 by done. cbn [mbind option_bind]. by apply Hx.
Qed.

(** The packet is authentic: its MIC is the one the key confirmation key
    gives. *)
Definition authentic (kck pkt : list Z) : Prop := mic_field pkt = mic_of kck pkt.

Definition pairwise_key (ptk : list Z) : ieee80211_key_conf := make_key true 0 WLAN_CIPHER_SUITE_CCMP (ztake 16 (zdrop 32 ptk)).

Definition m3_result (k k' : kext) : Prop :=
  link_same k k' \/ _state k' = _state k \/ (_state k' = RTW88_STATE_CONNECTED /\ _ptkConf k' = Some (pairwise_key (_ptk k))).

Lemma keys_only_state k k' : keys_only k k' -> _state k' = _state k /\ _replayCtr k' = _replayCtr k /\ _targetBSS k' = _targetBSS k /\ _ptk k' = _ptk k.
Proof. by intros (?&?&?&?&_&->). Qed.

(** The keys of an authentic message 3. *)
Lemma m3_install_ok rc g k : kext_wf k -> buf_ok 8 rc -> gtk_ok g ->
  let k1 := k <| _replayCtr := rc |> in
  steps (fun k' => m3_result k k' /\ hs_only k k')
   (tk ← ldn (_ptk k1) 32 16;
    let '(ok, k) := installKey E true 0 WLAN_CIPHER_SUITE_CCMP tk k1 in
    if negb ok then Some k
    else
      let groupCipher := if group_cipher (_targetBSS k) =? WLAN_CIPHER_SUITE_TKIP then WLAN_CIPHER_SUITE_TKIP else WLAN_CIPHER_SUITE_CCMP in
      gk ← ldn (g_key g) 0 (g_len g);
      let '(ok, k) := if g_len g =? 0 then (true, k) else installKey E false (g_idx g) groupCipher gk k in
      if negb ok then Some k
      else
        k ← sendEAPOLKey E ctx 4 (_replayCtr k) false false true k;
        let k := k <| _state := RTW88_STATE_CONNECTED |> in
        let k := emit (EvLink true) (emit EvTimerCancel k) in
        Some (startTxAggregation E k)).
Proof.
  intros W Hrc [[Hgz Hgb] [Hgl _]] k1. assert (kext_wf k1) as W1 by (solve_wf W). destruct (wf_ptk k W) as [Hpz Hpb].
  change (_ptk k1) with (_ptk k). rewrite (ldn_Some (_ptk k)) by lia. cbn [mbind option_bind].
  pose proof (installKey_wf E true 0 WLAN_CIPHER_SUITE_CCMP (ztake 16 (zdrop 32 (_ptk k))) k1 W1) as W2.
  destruct (installKey_cases E true 0 WLAN_CIPHER_SUITE_CCMP (ztake 16 (zdrop 32 (_ptk k))) k1) as (b & k2 & E2 & O2 & R2).
  rewrite E2 in *. cbn [snd] in W2. destruct (keys_only_state _ _ O2) as (S2 & C2 & _ & _).
  assert (hs_only k k2) as H2.
  { eapply hs_only_trans; [apply (hs_only_set (_anonce k) (_snonce k) (_ptk k) rc (_state k) []); constructor|]. by apply keys_only_hs. }
  destruct b; cbn [negb]; [|apply steps_ret; [done|split; [right; by left|done]]]. destruct R2 as (_ & P2 & _). cbn [key_slot] in P2.
  rewrite ldn_Some by lia. cbn [mbind option_bind]; cbn zeta. 
  match goal with |- context [installKey E false (g_idx g) ?c ?d k2] => set (gc := c); set (gk := d) end.
  assert (exists b k3, (if g_len g =? 0 then (true, k2) else installKey E false (g_idx g) gc gk k2) = (b, k3) /\ kext_wf k3 /\
    _state k3 = _state k /\ _replayCtr k3 = rc /\ _ptkConf k3 = _ptkConf k2 /\ hs_only k k3) as (b & k3 & E3 & W3 & S3 & C3 & P3 & H3).
  { destruct (g_len g =? 0); [by exists true, k2; split_and!|]. pose proof (installKey_wf E false (g_idx g) gc gk k2 W2) as W3.
    destruct (installKey_cases E false (g_idx g) gc gk k2) as (b & k3 & E3 & O3 & R3). rewrite E3 in *. exists b, k3.
    destruct (keys_only_state _ _ O3) as (S3 & C3 & _ & _). split_and!; [done|done|by rewrite S3, S2|by rewrite C3, C2| |eapply hs_only_trans; [done|by apply keys_only_hs]].
    destruct b; [exact (proj1 (proj2 (proj2 (proj2 R3))))|]. destruct R3 as [-> | (_ & _ & R3)]; [done|exact R3]. }
  rewrite E3. destruct b; cbn [negb]; [|apply steps_ret; [done|split; [right; by left|done]]].
  eapply steps_bind; [apply sendEAPOLKey_ok; [done|by rewrite C3]|]. intros k4 W4 O4.
  set (k5 := emit (EvLink true) _). assert (kext_wf k5) as W5 by (solve_wf W4).
  destruct (startTxAggregation_keeps E k5 W5) as [W6 O6]. apply steps_ret; [done|]. split; [right; right|].
  - destruct (tx_only_link _ _ O6) as (-> & -> & _). split; [done|]. destruct (tx_only_link _ _ O4) as (_ & P4 & _).
    change (_ptkConf k5) with (_ptkConf k4). by rewrite P4, P3.
  - eapply hs_only_trans; [exact H3|]. eapply hs_only_trans; [apply tx_only_hs, O4|]. eapply hs_only_trans; [|apply tx_only_hs, O6].
    apply (hs_only_set (_anonce k4) (_snonce k4) (_ptk k4) (_replayCtr k4) RTW88_STATE_CONNECTED [EvLink true; EvTimerCancel]).
    by apply Forall_cons_2, Forall_singleton.
Qed.

Lemma handle_m3_ok data el ki n k : kext_wf k -> bytes_ok data -> in_range 16 n -> 99 <= el <= zlen data -> el < 2 ^ 17 ->
  steps (fun k' => (k' = k \/ authentic (ztake 16 (_ptk k)) (ztake el data) /\ m3_result k k') /\ hs_only k k') (handle_m3 E ctx data el ki n k).
Proof.
  intros W Hb Hn Hel Hel2. pose proof (hs_only_refl k). unfold handle_m3. destruct (wf_ptk k W) as [Hpz Hpb]. rewrite (ldn_Some (_ptk k) 0 16), zdrop_0 by lia. cbn [mbind option_bind].
  rewrite (ldn_Some data 0 el), zdrop_0 by lia. cbn [mbind option_bind].
  rewrite eapol_mic_ok_spec; [|done|apply part_small; [by apply Forall_take|zlen]|apply part_small; [by apply Forall_take|zlen]|zlen].
  cbn [mbind option_bind]. destruct (alloc_ok E _); [|apply steps_ret; [done|split; [by left|done]]]. cbn [andb].
  destruct (bool_decide_reflect (mic_field (ztake el data) = mic_of (ztake 16 (_ptk k)) (ztake el data))) as [Ha|]; [|apply steps_ret; [done|split; [by left|done]]]. cbn [negb].
  destruct (Z.ltb_spec el (99 + n)); [apply steps_ret; [done|split; [by left|done]]|].
  destruct (m3_key_data_ok data ki n k W Hb Hn) as (g & -> & Hg); [lia|]. cbn [mbind option_bind].
  destruct g as [g|]; [|apply steps_ret; [done|split; [by left|done]]]. destruct (ldn_buf data 9 8 Hb) as (rc & -> & Hrc); [lia..|]. cbn [mbind option_bind].
  eapply steps_mono; [by apply (m3_install_ok rc g k W Hrc), Hg|]. intros k' [H1 H2]. split; [by right|done].
Qed.

Lemma handleEAPOL_ok data k : env_ok E -> kext_wf k -> bytes_ok data ->
  steps (fun k' => (link_same k k' \/
    exists pkt rest, data = pkt ++ rest /\ 99 <= zlen pkt /\ authentic (ztake 16 (_ptk k)) pkt /\ m3_result k k') /\ hs_only k k') (handleEAPOL E ctx data k).
Proof.
  intros HE W Hb. pose proof (link_same_refl k) as HR. pose proof (hs_only_refl k) as HH. unfold handleEAPOL.
  destruct (Z.ltb_spec (zlen data) 99); [apply steps_ret; [done|split; [by left|done]]|].
  destruct (ld_byte data 1 Hb) as (d1 & -> & _); [lia|]. cbn [mbind option_bind]. destruct (negb _); [apply steps_ret; [done|split; [by left|done]]|].
  destruct (get_be16_ok data 2 Hb) as (bl & -> & Hbl); [lia..|]. cbn [mbind option_bind]. unfold in_range in Hbl.
  destruct ((zlen data <? 4 + bl) || _) eqn:El; [apply steps_ret; [done|split; [by left|done]]|]. bool_hyps.
  destruct (get_be16_ok data 5 Hb) as (ki & -> & _); [lia..|]. cbn [mbind option_bind].
  destruct (get_be16_ok data 97 Hb) as (n & -> & Hn); [lia..|]. cbn [mbind option_bind].
  destruct (_ && _).
  - eapply steps_mono; [by apply handle_m1_ok|]. intros k' [Hk ?]. split; [by left|done].
  - destruct (_ =? 0x01c8); [|apply steps_ret; [done|split; [by left|done]]].
    eapply steps_mono; [apply handle_m3_ok; try done; lia|]. intros k' [[-> | [Ha Hm]] ?]; (split; [|done]); [by left|]. right.
    exists (ztake (4 + bl) data), (zdrop (4 + bl) data). rewrite ztake_zdrop. split_and!; try done. zlen.
Qed.
End handshake.

(** C10: the four-way handshake is guarded by the message integrity code.
    handleEAPOL answers for every byte string without leaving the packet or a
    buffer of the object and keeps the object well formed.  The state and both
    keys are as before unless the packet begins with a message of at least 99
    bytes whose MIC verifies under the stored key confirmation key; then the
    state either stays or becomes CONNECTED, and it becomes CONNECTED only with
    the temporal key of the stored PTK installed as the pairwise key. *)
Theorem eapol_needs_mic E ctx data k :
  env_ok E -> zlen (buffer ctx) = 64 -> kext_wf k -> bytes_ok data ->
  exists k', handleEAPOL E ctx data k = Some k' /\ kext_wf k' /\
    ((_state k' = _state k /\ _ptkConf k' = _ptkConf k /\ _gtkConf k' = _gtkConf k) \/
     exists pkt rest, data = pkt ++ rest /\ 99 <= zlen pkt /\
       ztake 16 (zdrop 81 pkt) = ztake 16 (hmac (ztake 16 (_ptk k)) (ztake 81 pkt ++ zeros 16 ++ zdrop 97 pkt)) /\
       (_state k' = _state k \/
        _state k' = RTW88_STATE_CONNECTED /\
        _ptkConf k' = Some (make_key true 0 WLAN_CIPHER_SUITE_CCMP (ztake 16 (zdrop 32 (_ptk k)))))).
Proof.
  intros HE Hc W Hb. destruct (handleEAPOL_ok E ctx Hc data k HE W Hb) as (k' & Ek & W' & H & _). exists k'. split; [done|]. split; [done|].
  destruct H as [L | (pkt & rest & Hd & Hl & Ha & Hm)]; [by left|].
  destruct Hm as [L | Hm]; [by left|]. right. by exists pkt, rest.
Qed.

Lemma eapol_needs_mic_witness :
  let k := demo_kext RTW88_STATE_HANDSHAKING in let data := [2; 3; 0; 95; 2; 1; 0xca] ++ replicate 92 0 in
  exists k', handleEAPOL demo_env stack_ctx data k = Some k' /\ kext_wf k' /\
    ((_state k' = _state k /\ _ptkConf k' = _ptkConf k /\ _gtkConf k' = _gtkConf k) \/
     exists pkt rest, data = pkt ++ rest /\ 99 <= zlen pkt /\
       ztake 16 (zdrop 81 pkt) = ztake 16 (hmac (ztake 16 (_ptk k)) (ztake 81 pkt ++ zeros 16 ++ zdrop 97 pkt)) /\
       (_state k' = _state k \/
        _state k' = RTW88_STATE_CONNECTED /\
        _ptkConf k' = Some (make_key true 0 WLAN_CIPHER_SUITE_CCMP (ztake 16 (zdrop 32 (_ptk k)))))).
Proof.
  intros k data. apply (eapol_needs_mic demo_env stack_ctx data k); [apply demo_env_ok|done|apply demo_kext_wf|by apply bytes_okb_ok].
Defined.
