(* ===== verification/Fourway.v ===== *)
(** * The four-way handshake end to end

    A reference authenticator, from IEEE 802.11 (messages 1 and 3, and what it
    checks of messages 2 and 4), run against [handleEAPOL]. *)

From S2P Require Import Prelude Rsn Bss Sha1 Kdf Fips197 Aes Kext Tx Eapol.

(** ** The authenticator *)

(** An EAPOL-Key packet with a descriptor of version 2. *)
Definition ap_packet (info : Z) (counter nonce mic kd : list Z) : list Z :=
  [2; 3] ++ be_bytes 2 (95 + zlen kd) ++ [2] ++ be_bytes 2 info ++ be_bytes 2 16 ++ counter ++ nonce ++ zeros 32 ++ mic ++
  be_bytes 2 (zlen kd) ++ kd.

Definition ap_m1 (counter anonce : list Z) : list Z := ap_packet 0x008a counter anonce (zeros 16) [].

(** Key data of message 3: elements, the GTK element and padding. *)
Definition gtk_element (idx : Z) (gtk : list Z) : list Z := [0xdd; 6 + zlen gtk; 0x00; 0x0f; 0xac; 0x01; idx; 0] ++ gtk.
Definition m3_plain (es : list (Z * list Z)) (idx : Z) (gtk pad : list Z) : list Z := enc_ies es ++ gtk_element idx gtk ++ pad.

(** Message 3: install, ack, MIC, secure, encrypted key data. *)
Definition ap_m3 (ptk counter anonce : list Z) (rows : list (list Z)) : list Z :=
  let p mic := ap_packet 0x13ca counter anonce mic (aes_wrap (ztake 16 (zdrop 16 ptk)) rows) in
  p (ztake 16 (hmac (ztake 16 ptk) (p (zeros 16)))).

(** What the authenticator reads from a frame: the EAPOL-Key packet. *)
Definition ap_key_frame (f : list Z) : option (list Z) :=
  d ← ap_decap f; if (d_ethertype d =? 0x888e) && (99 <=? zlen (d_payload d)) then Some (d_payload d) else None.

Record key_frame := mk_kf { kf_info : list Z; kf_counter : list Z; kf_nonce : list Z; kf_mic : list Z; kf_data : list Z }.
Definition parse_key (p : list Z) : key_frame :=
  mk_kf (ztake 2 (zdrop 5 p)) (ztake 8 (zdrop 9 p)) (ztake 32 (zdrop 17 p)) (ztake 16 (zdrop 81 p)) (zdrop 99 p).

(** The MIC check of the authenticator. *)
Definition ap_mic_ok (kck p : list Z) : bool :=
  bool_decide (ztake 16 (zdrop 81 p) = ztake 16 (hmac kck (ztake 81 p ++ zeros 16 ++ zdrop 97 p))).

(** ** Packets *)

Lemma be_bytes_2 z : in_range 16 z -> be_bytes 2 z = be16 z.
Proof.
  intros Hz. unfold be16. cbn [be_bytes app]. f_equal; [|f_equal; change 0xff with (Z.ones 8); by rewrite Z.land_ones by lia].
  f_equal. euclid.
Qed.

Lemma ap_packet_eq info counter nonce mic kd : in_range 16 info -> zlen kd < 2 ^ 16 - 95 ->
  ap_packet info counter nonce mic kd = eapol_key_packet info counter nonce mic kd.
Proof.
  intros Hi Hl. pose proof (zlen_nonneg kd). unfold ap_packet, eapol_key_packet.
  rewrite wrap_small by (unfold in_range; lia). rewrite !be_bytes_2 by (unfold in_range in *; lia). done.
Qed.

(** The fields handleEAPOL reads of a packet. *)
Lemma packet_fields info counter nonce mic kd : in_range 16 info -> buf_ok 8 counter -> buf_ok 32 nonce -> buf_ok 16 mic -> bytes_ok kd ->
  zlen kd < 2 ^ 16 - 95 ->
  let p := eapol_key_packet info counter nonce mic kd in
  buf_ok (99 + zlen kd) p /\ ld p 1 = Some 3 /\ get_be16 p 2 = Some (95 + zlen kd) /\ get_be16 p 5 = Some info /\
  get_be16 p 97 = Some (zlen kd) /\ ldn p 9 8 = Some counter /\ ldn p 17 32 = Some nonce /\ ldn p 99 (zlen kd) = Some kd.
Proof.
  intros Hi Hc Hn Hm Hkd Hl p. pose proof (zlen_nonneg kd). destruct (packet_mic info counter nonce mic kd Hc Hn Hm Hkd) as (Hp & _).
  destruct Hc as [Hc _], Hn as [Hn _], Hm as [Hm _]. fold p in Hp. split; [done|]. unfold p, eapol_key_packet.
  assert (wrap 16 (95 + zlen kd) = 95 + zlen kd) as -> by (apply wrap_small; unfold in_range; lia).
  set (L := 95 + zlen kd). assert (in_range 16 L) as HL by (unfold in_range, L; lia).
  split; [done|]. split; [by apply (get_be16_at [2; 3])|].
  split; [exact (get_be16_at ([2; 3] ++ be16 L ++ [2]) info _ 5 Hi eq_refl)|].
  set (h := [2; 3] ++ be16 L ++ [2] ++ be16 info ++ [0; 16]).
  assert (forall tl, [2; 3] ++ be16 L ++ [2] ++ be16 info ++ [0; 16] ++ tl = h ++ tl) as -> by (intros; unfold h; by rewrite <- !app_assoc).
  assert (zlen h = 9) as Hh by done. clearbody h. split_and!.
  - replace (h ++ counter ++ nonce ++ zeros 32 ++ mic ++ be16 (zlen kd) ++ kd) with ((h ++ counter ++ nonce ++ zeros 32 ++ mic) ++ be16 (zlen kd) ++ kd)
      by (by rewrite <- !app_assoc).
    apply get_be16_at; [unfold in_range; lia|]. rewrite !zlen_app, zlen_zeros. lia.
  - by apply ldn_app_exact.
  - rewrite app_assoc. apply ldn_app_exact; [rewrite zlen_app; lia|done].
  - replace (h ++ counter ++ nonce ++ zeros 32 ++ mic ++ be16 (zlen kd) ++ kd) with ((h ++ counter ++ nonce ++ zeros 32 ++ mic ++ be16 (zlen kd)) ++ kd ++ [])
      by (rewrite app_nil_r; by rewrite <- !app_assoc).
    apply ldn_app_exact; [|done]. rewrite !zlen_app, zlen_zeros. change (zlen (be16 (zlen kd))) with 2. lia.
Qed.

(** ** The group key *)

Definition other_kde (e : Z * list Z) : Prop := ~ (fst e = 0xdd /\ 6 <= zlen (snd e) /\ ztake 4 (snd e) = [0x00; 0x0f; 0xac; 0x01]).

Lemma extract_element idx gtk pad buf fuel : in_range 2 idx -> zlen gtk <= 32 -> zlen buf = 32 -> (0 < fuel)%nat ->
  extract_loop fuel (gtk_element idx gtk ++ pad) buf = Some (Some (mk_gtk (gtk ++ zdrop (zlen gtk) buf) (zlen gtk) idx)).
Proof.
  intros Hi Hg Hb Hf. destruct fuel as [|fuel]; [lia|]. pose proof (zlen_nonneg gtk). pose proof (zlen_nonneg pad).
  unfold gtk_element. cbn [app extract_loop]. read_prefix.
  rewrite (proj2 (Z.ltb_ge _ _)) by (rewrite !zlen_cons, zlen_app; lia). rewrite (proj2 (Z.ltb_ge _ _)) by (rewrite !zlen_cons, zlen_app; lia).
  rewrite (proj2 (Z.leb_le 6 (6 + zlen gtk))) by lia. cbn [andb Z.eqb Pos.eqb].  read_prefix. closed_ifs.
  assert (u8 (6 + zlen gtk - 6) = zlen gtk) as -> by (rewrite wrap_small by (unfold in_range; lia); lia).
  rewrite (proj2 (Z.ltb_ge 32 (zlen gtk))) by lia. read_prefix.
  pose proof (ldn_app_exact [0; 15; 172; 1; idx; 0] gtk pad 6 (zlen gtk) eq_refl eq_refl) as Hv. cbn [app] in Hv. rewrite Hv. cbn [mbind option_bind].
  rewrite stn_Some by lia. cbn [mbind option_bind]. rewrite ztake_0. cbn [app]. do 3 f_equal.
  change 3 with (Z.ones 2). rewrite Z.land_ones by lia. by apply wrap_small.
Qed.

Lemma extract_enc es idx gtk pad buf : forall fuel,
  Forall ie_ok es -> Forall other_kde es -> in_range 2 idx -> zlen gtk <= 32 -> zlen buf = 32 ->
  (length (m3_plain es idx gtk pad) <= fuel)%nat ->
  extract_loop fuel (m3_plain es idx gtk pad) buf = Some (Some (mk_gtk (gtk ++ zdrop (zlen gtk) buf) (zlen gtk) idx)).
Proof.
  unfold m3_plain. induction es as [|[id v] es IH]; intros fuel He Ho Hi Hg Hb Hf.
  { apply extract_element; try done. revert Hf. cbn. lia. }
  inversion_clear He as [|? ? He1 He2]. inversion_clear Ho as [|? ? Ho1 Ho2].
  change (enc_ies ((id, v) :: es)) with (enc_ie (id, v) ++ enc_ies es) in *. rewrite <- app_assoc in *.
  set (rest := enc_ies es ++ gtk_element idx gtk ++ pad) in *. unfold enc_ie in *. cbn [fst snd app] in *.
  destruct fuel as [|fuel]; [cbn in Hf; lia|]. pose proof (zlen_nonneg v). pose proof (zlen_nonneg rest).
  cbn [extract_loop]. rewrite (proj2 (Z.ltb_ge _ _)) by (rewrite !zlen_cons, zlen_app; lia). read_prefix.
  rewrite (proj2 (Z.ltb_ge _ _)) by (rewrite !zlen_cons, zlen_app; lia).
  assert (extract_loop fuel (zdrop (2 + zlen v) (id :: zlen v :: v ++ rest)) buf = Some (Some (mk_gtk (gtk ++ zdrop (zlen gtk) buf) (zlen gtk) idx))) as Hrec.
  { assert (zdrop (2 + zlen v) (id :: zlen v :: v ++ rest) = rest) as ->.
    { change (id :: zlen v :: v ++ rest) with ([id; zlen v] ++ v ++ rest). rewrite app_assoc. apply zdrop_app_exact'. by rewrite zlen_app. }
    apply IH; try done. cbn [length] in Hf. rewrite length_app in Hf. lia. }
  destruct ((id =? 0xdd) && (6 <=? zlen v)) eqn:Ec; [|exact Hrec]. bool_hyps.
  rewrite (ldn_Some (v ++ rest) 0 4) by (rewrite ?zlen_app; lia). cbn [mbind option_bind]. rewrite zdrop_0.
  rewrite bool_decide_eq_false_2; [exact Hrec|]. intros Hq. apply Ho1. cbn [fst snd]. split_and!; try done.
  rewrite <- Hq. unfold ztake. rewrite take_app_le; [done|]. unfold zlen in *. lia.
Qed.

(** ** The station's answers *)

(** Every allocation, copy and driver call succeeds. *)
Record all_ok (E : env) : Prop := {
  ok_random : env_ok E;
  ok_alloc : forall tr, alloc_ok E tr = true;
  ok_mbuf : forall tr off, mbuf_ok E tr off = true;
  ok_set_key : forall tr, set_key_ret E tr = 0
}.

Section runs.
Context (E : env) (ctx : KERN_SHA1_CTX) (Hctx : zlen (buffer ctx) = 64) (HE : all_ok E).

(** The message of a step, sent and readable by the authenticator. *)
Lemma send_step step rc k : kext_wf k -> buf_ok 8 rc -> tx_ready k = true ->
  let p := step_packet step (if step =? 4 then 0x030a else 0x010a) rc k in
  exists f k', sendEAPOLKey E ctx step rc false false true k = Some k' /\ trace k' = EvTx f :: trace k /\ tx_only k k' /\ kext_wf k' /\
    ap_key_frame (tx_data f) = Some p /\ ap_mic_ok (ztake 16 (_ptk k)) p = true.
Proof.
  intros W Hr Hrd p. destruct HE as [_ Ha Hm _]. rewrite (sendEAPOLKey_eq E ctx Hctx) by done. cbn zeta. rewrite Hm. cbn [negb]. fold p.
  destruct (step_packet_ok step (if step =? 4 then 0x030a else 0x010a) rc k W Hr) as [[Hpz Hpb] Hmic]. fold p in Hpz, Hpb, Hmic.
  destruct (step_data_ok step k) as [_ Hdl]. pose proof (zlen_nonneg (step_data step k)).
  destruct (wf_mac k W) as [Hmz _]. destruct (wf_target k W) as (_ & _ & _ & Haz & _).
  assert (zlen (eth_frame k p) = 14 + zlen p) as Hez by (unfold eth_frame; rewrite !zlen_app, Haz, Hmz; change (zlen [136; 142]) with 2; lia).
  destruct (txDataFrame_sends E (eth_frame k p) k W) as (f & k' & -> & [-> D _ _]); [by apply eth_frame_ok|lia|done|done|done|].
  cbn [mbind option_bind]. eexists f, _. split; [reflexivity|]. split; [change (EvTx f :: trace (drawn (eth_frame k p) k) = EvTx f :: trace k); by destruct (drawn_fields (eth_frame k p) k) as (_ & -> & _)|].
  split; [eapply tx_only_trans; [apply drawn_only|by apply tx_only_emit]|]. split; [by apply emit_wf, drawn_wf|]. split; [|by apply bool_decide_eq_true_2].
  unfold ap_key_frame. rewrite D. cbn [mbind option_bind d_ethertype d_payload].
  assert (eth_type (eth_frame k p) = 0x888e /\ zdrop 14 (eth_frame k p) = p) as [-> ->].
  { unfold eth_frame. destruct (list6 _ Haz) as (?&?&?&?&?&?&->), (list6 _ Hmz) as (?&?&?&?&?&?&->). by split. }
  rewrite (proj2 (Z.leb_le _ _)) by lia. done.
Qed.

Definition m1_state (an rc : list Z) (k : kext) : kext :=
  let sn := random32 E (trace k) in
  emit EvRandom (k <| _anonce := an |> <| _snonce := sn |>) <| _ptk := prf_512 (_pmk k) an sn (_macAddr k) (bssid (_targetBSS k)) |> <| _replayCtr := rc |>.

Lemma m1_state_wf an rc k : kext_wf k -> buf_ok 32 an -> buf_ok 8 rc -> kext_wf (m1_state an rc k).
Proof.
  intros W Ha Hr. pose proof (ok_random E HE (trace k)) as Hsn. pose proof (prf_512_ok (_pmk k) an (random32 E (trace k)) (_macAddr k) (bssid (_targetBSS k))).
  unfold m1_state. solve_wf W.
Qed.

Lemma m1_run an rc k : kext_wf k -> buf_ok 32 an -> buf_ok 8 rc ->
  handleEAPOL E ctx (ap_m1 rc an) k = (k ← sendEAPOLKey E ctx 2 rc false false true (m1_state an rc k); Some (wake 5000 k)).
Proof.
  intros W Ha Hr. unfold ap_m1. rewrite ap_packet_eq by (by vm_compute).
  destruct (packet_fields 0x008a rc an (zeros 16) []) as ([Hz Hb] & F1 & F2 & F5 & F97 & F9 & F17 & _); try done; [apply zeros_buf; lia|].
  set (p := eapol_key_packet 138 rc an (zeros 16) []) in *. clearbody p. change (99 + zlen []) with 99 in Hz. unfold handleEAPOL.
  rewrite Hz. closed_ifs. rewrite F1. cbn [mbind option_bind]. closed_ifs. rewrite F2. cbn [mbind option_bind]. closed_ifs.
  rewrite F5. cbn [mbind option_bind]. rewrite F97. cbn [mbind option_bind]. closed_ifs. unfold handle_m1. rewrite F17. cbn [mbind option_bind].
  destruct (wf_pmk k W) as [Hpz Hpb]. destruct (wf_mac k W) as [Hmz Hmb]. destruct (wf_target k W) as (_ & _ & _ & Haz & Hab & _).
  destruct (wf_ptk k W) as [Hkz _]. destruct (ok_random E HE (trace k)) as [Hnz Hnb]. destruct Ha as [Hanz Hanb].
  rewrite derivePTK_ok; try done; [|apply (part_small (_pmk k)); [done|lia]]. cbn [mbind option_bind]. rewrite F9. done.
Qed.

(** Message 3 as the handler's packet format, its MIC valid. *)
Lemma m3_packet ptk rc an rows : buf_ok 64 ptk -> buf_ok 8 rc -> buf_ok 32 an -> Forall row_ok rows -> 1 <= zlen rows <= 32 ->
  exists mic, let kd := aes_wrap (ztake 16 (zdrop 16 ptk)) rows in let p := eapol_key_packet 0x13ca rc an mic kd in
    ap_m3 ptk rc an rows = p /\ buf_ok 16 mic /\ bytes_ok kd /\ zlen kd = 8 + 8 * zlen rows /\ authentic (ztake 16 ptk) p.
Proof.
  intros [Hpz Hpb] Hr Ha Hrow Hn.
  assert (state_ok (ztake 16 (zdrop 16 ptk))) as Hkek.
  { split; [|by apply Forall_take, Forall_drop]. assert (zlen (ztake 16 (zdrop 16 ptk)) = 16) as Hz by zlen. unfold zlen in Hz. lia. }
  destruct (aes_wrap_ok _ rows Hkek Hrow Hn) as [Hwb Hwz]. set (kd := aes_wrap _ rows) in *.
  assert (forall mic, ap_packet 0x13ca rc an mic kd = eapol_key_packet 0x13ca rc an mic kd) as Hap by (intros mic; apply ap_packet_eq; [done|lia]).
  set (p0 := eapol_key_packet 0x13ca rc an (zeros 16) kd). exists (mic_of (ztake 16 ptk) p0). cbn zeta.
  destruct (packet_mic 0x13ca rc an (zeros 16) kd Hr Ha (zeros_buf 16 ltac:(lia)) Hwb) as (_ & _ & Hb0 & _). fold p0 in Hb0.
  destruct (packet_mic 0x13ca rc an (mic_of (ztake 16 ptk) p0) kd Hr Ha (mic_of_ok _ _) Hwb) as (_ & Hm & Hb & _).
  split; [|split; [apply mic_of_ok|split; [done|split; [done|]]]].
  - unfold ap_m3. fold kd. cbn zeta. rewrite !Hap. fold p0. unfold mic_of. by rewrite Hb0.
  - unfold authentic. rewrite Hm. unfold mic_of at 2. rewrite Hb. fold p0. unfold mic_of. by rewrite Hb0.
Qed.

Lemma m3_key k es idx gtk pad rows p n : kext_wf k -> Forall row_ok rows -> 1 <= zlen rows <= 32 ->
  concat rows = m3_plain es idx gtk pad -> Forall ie_ok es -> Forall other_kde es -> in_range 2 idx -> zlen gtk <= 32 ->
  n = 8 + 8 * zlen rows -> ldn p 99 n = Some (aes_wrap (ztake 16 (zdrop 16 (_ptk k))) rows) ->
  m3_key_data p 0x13ca n k = Some (Some (mk_gtk (gtk ++ zdrop (zlen gtk) (zeros 32)) (zlen gtk) idx)).
Proof.
  intros W Hrow Hn Hc He Ho Hi Hg -> Hp. unfold m3_key_data. rewrite (proj2 (Z.eqb_neq _ 0)) by lia. rewrite Hp. cbn [mbind option_bind]. closed_ifs.
  destruct (wf_ptk k W) as [Hpz Hpb]. rewrite ldn_Some by lia. cbn [mbind option_bind].
  assert (state_ok (ztake 16 (zdrop 16 (_ptk k)))) as Hkek.
  { split; [|by apply Forall_take, Forall_drop]. assert (zlen (ztake 16 (zdrop 16 (_ptk k))) = 16) as Hz by zlen. unfold zlen in Hz. lia. }
  rewrite unwrap_complete by (done || by vm_compute). cbn [mbind option_bind]. destruct (concat_rows rows Hrow) as [_ Hz].
  rewrite ldn_app_0 by done. cbn [mbind option_bind]. unfold extract_gtk_from_kde. rewrite Hc.
  rewrite extract_enc by (done || lia). done.
Qed.

(** The installation after an authentic message 3 with a group key. *)
Lemma m3_run_install k rc idx gtk : kext_wf k -> buf_ok 8 rc -> zlen gtk <= 32 -> 0 < zlen gtk ->
  let gc := if group_cipher (_targetBSS k) =? WLAN_CIPHER_SUITE_TKIP then WLAN_CIPHER_SUITE_TKIP else WLAN_CIPHER_SUITE_CCMP in
  key_valid gc gtk = true -> has_op k OpSetKey = true -> tx_ready k = true ->
  let g := mk_gtk (gtk ++ zdrop (zlen gtk) (zeros 32)) (zlen gtk) idx in
  let k1 := k <| _replayCtr := rc |> in
  exists f k2 a d1 d2 p4,
   (tk ← ldn (_ptk k1) 32 16;
    let '(ok, k) := installKey E true 0 WLAN_CIPHER_SUITE_CCMP tk k1 in
    if negb ok then Some k
    else
      let groupCipher := if group_cipher (_targetBSS k) =? WLAN_CIPHER_SUITE_TKIP then WLAN_CIPHER_SUITE_TKIP else WLAN_CIPHER_SUITE_CCMP in
      gk ← ldn (g_key g) 0 (g_len g);
      let '(ok, k) := if g_len g =? 0 then (true, k) else installKey E false (g_idx g) groupCipher gk k in
      if negb ok then Some k
      else
        k ← sendEAPOLKey E ctx 4 (_replayCtr k) false false true k;
        let k := k <| _state := RTW88_STATE_CONNECTED |> in
        let k := emit (EvLink true) (emit EvTimerCancel k) in
        Some (startTxAggregation E k)) = Some k2 /\ kext_wf k2 /\
    _state k2 = RTW88_STATE_CONNECTED /\ _ptkConf k2 = Some (pairwise_key (_ptk k)) /\ _gtkConf k2 = Some (make_key false idx gc gtk) /\
    trace k2 = a ++ [EvLink true; EvTimerCancel; EvTx f] ++
               (EvSetKey true false (make_key false idx gc gtk) :: d2) ++ (EvSetKey true true (pairwise_key (_ptk k)) :: d1) ++ trace k /\
    ap_key_frame (tx_data f) = Some p4 /\ ap_mic_ok (ztake 16 (_ptk k)) p4 = true /\ p4 = step_packet 4 0x030a rc k.
Proof.
  intros W Hr Hg Hg0 gc Hv Hop Hrd g k1. pose proof HE as [_ Hal _ Hsk]. destruct (wf_ptk k W) as [Hpz Hpb].
  assert (kext_wf k1) as W1 by (solve_wf W). change (_ptk k1) with (_ptk k). rewrite (ldn_Some (_ptk k)) by lia. cbn [mbind option_bind].
  set (tk := ztake 16 (zdrop 32 (_ptk k))). assert (zlen tk = 16) as Htk by (unfold tk; zlen).
  pose proof (installKey_wf E true 0 WLAN_CIPHER_SUITE_CCMP tk k1 W1) as W2.
  destruct (installKey_true E true 0 WLAN_CIPHER_SUITE_CCMP tk k1 Hop) as (k2 & E2 & O2 & S2 & N2 & d1 & T2); [unfold key_valid; by rewrite Htk|done|done|].
  rewrite E2 in *. cbn [snd negb] in *. cbn [key_slot negb] in S2, N2. destruct O2 as (p & g2 & pn & es2 & _ & ->).
  cbn [g_key g_len g_idx g]. rewrite ldn_app_0 by done. cbn [mbind option_bind]. cbn zeta. rewrite (proj2 (Z.eqb_neq (zlen gtk) 0)) by lia.
  set (k2 := k1 <| _ptkConf := p |> <| _gtkConf := g2 |> <| _ccmpTxPn := pn |> <| trace := es2 ++ trace k1 |>) in *.
  change (_targetBSS k2) with (_targetBSS k). fold gc.
  pose proof (installKey_wf E false idx gc gtk k2 W2) as W3.
  destruct (installKey_true E false idx gc gtk k2 Hop Hv Hal Hsk) as (k3 & E3 & O3 & S3 & N3 & d2 & T3).
  rewrite E3 in *. cbn [snd negb] in *. cbn [key_slot negb] in S3, N3. destruct O3 as (p3 & g3 & pn3 & es3 & _ & ->).
  set (k3 := k2 <| _ptkConf := p3 |> <| _gtkConf := g3 |> <| _ccmpTxPn := pn3 |> <| trace := es3 ++ trace k2 |>) in *.
  destruct (send_step 4 rc k3 W3 Hr Hrd) as (f & k4 & E4 & T4 & O4 & W4 & Hf & Hmic). change (_replayCtr k3) with rc. rewrite E4. cbn [mbind option_bind].
  set (k5 := emit (EvLink true) _). assert (kext_wf k5) as W5 by (solve_wf W4).
  destruct (startTxAggregation_keeps E k5 W5) as [W6 O6]. destruct (startTxAggregation_trace E k5) as [a T6].
  exists f, (startTxAggregation E k5), a, d1, d2, (step_packet 4 0x030a rc k). destruct (tx_only_link _ _ O6) as (-> & -> & ->).
  destruct (tx_only_link _ _ O4) as (_ & P4 & G4). split; [done|]. split; [done|]. split; [done|].
  split; [change (_ptkConf k5) with (_ptkConf k4); by rewrite P4, N3, S2|]. split; [change (_gtkConf k5) with (_gtkConf k4); by rewrite G4, S3|].
  split; [|by split]. rewrite T6. change (trace k5) with (EvLink true :: EvTimerCancel :: trace k4). rewrite T4, T3, T2. cbn [app]. by rewrite <- ?app_assoc.
Qed.

Lemma m3_run k an rc rows es idx gtk pad :
  kext_wf k -> buf_ok 32 an -> buf_ok 8 rc -> Forall row_ok rows -> 1 <= zlen rows <= 32 ->
  concat rows = m3_plain es idx gtk pad -> Forall ie_ok es -> Forall other_kde es -> in_range 2 idx ->
  let gc := if group_cipher (_targetBSS k) =? WLAN_CIPHER_SUITE_TKIP then WLAN_CIPHER_SUITE_TKIP else WLAN_CIPHER_SUITE_CCMP in
  key_valid gc gtk = true -> has_op k OpSetKey = true -> tx_ready k = true ->
  exists f k2 a d1 d2 p4, handleEAPOL E ctx (ap_m3 (_ptk k) rc an rows) k = Some k2 /\ kext_wf k2 /\
    _state k2 = RTW88_STATE_CONNECTED /\ _ptkConf k2 = Some (pairwise_key (_ptk k)) /\ _gtkConf k2 = Some (make_key false idx gc gtk) /\
    trace k2 = a ++ [EvLink true; EvTimerCancel; EvTx f] ++
               (EvSetKey true false (make_key false idx gc gtk) :: d2) ++ (EvSetKey true true (pairwise_key (_ptk k)) :: d1) ++ trace k /\
    ap_key_frame (tx_data f) = Some p4 /\ ap_mic_ok (ztake 16 (_ptk k)) p4 = true /\ p4 = step_packet 4 0x030a rc k.
Proof.
  intros W Ha Hr Hrow Hn Hc He Ho Hi gc Hv Hop Hrd. pose proof HE as [_ Hal _ Hsk].
  assert (zlen gtk <= 32) as Hg.
  { apply orb_prop in Hv as [Hv|Hv]; apply andb_prop in Hv as [_ Hl]; apply Z.eqb_eq in Hl; lia. }
  assert (0 < zlen gtk) as Hg0.
  { apply orb_prop in Hv as [Hv|Hv]; apply andb_prop in Hv as [_ Hl]; apply Z.eqb_eq in Hl; lia. }
  destruct (m3_packet (_ptk k) rc an rows (wf_ptk k W) Hr Ha Hrow Hn) as (mic & -> & Hmic & Hkb & Hkz & Hau).
  set (kd := aes_wrap _ rows) in *.
  destruct (packet_fields 0x13ca rc an mic kd) as ([Hz Hb] & F1 & F2 & F5 & F97 & F9 & _ & F99); try done; [lia|].
  set (p := eapol_key_packet 0x13ca rc an mic kd) in *. clearbody p. unfold handleEAPOL.
  rewrite (proj2 (Z.ltb_ge _ _)) by lia. rewrite F1. cbn [mbind option_bind]. closed_ifs. rewrite F2. cbn [mbind option_bind].
  rewrite (proj2 (orb_false_iff _ _)) by (split; apply Z.ltb_ge; lia). rewrite F5. cbn [mbind option_bind]. rewrite F97. cbn [mbind option_bind]. closed_ifs.
  destruct (wf_ptk k W) as [Hpz Hpb]. unfold handle_m3. rewrite (ldn_Some (_ptk k) 0 16), zdrop_0 by lia. cbn [mbind option_bind].
  rewrite (ldn_Some p 0), zdrop_0, (ztake_all _ p) by lia. cbn [mbind option_bind].
  rewrite eapol_mic_ok_spec; [|done|apply part_small; [by apply Forall_take|zlen]|apply part_small; [done|lia]|lia].
  rewrite Hal, bool_decide_eq_true_2 by done. cbn [andb negb mbind option_bind]. rewrite (proj2 (Z.ltb_ge _ _)) by lia.
  rewrite (m3_key k es idx gtk pad rows p (zlen kd)) by done. cbn [mbind option_bind]. rewrite F9. cbn [mbind option_bind]. cbn zeta.
  apply m3_run_install; try done; lia.
Qed.


Lemma parse_step step info rc k : kext_wf k -> buf_ok 8 rc ->
  let p := step_packet step info rc k in
  kf_counter (parse_key p) = rc /\ kf_nonce (parse_key p) = _snonce k /\ kf_data (parse_key p) = step_data step k.
Proof.
  intros W [Hr _] p. destruct (wf_snonce k W) as [Hs _]. unfold p, step_packet, eapol_key_packet. cbn [parse_key kf_counter kf_nonce kf_data].
  set (mic := mic_of _ _). assert (buf_ok 16 mic) as [Hm _] by apply mic_of_ok. clearbody mic. set (kd := step_data step k). set (h := [2; 3] ++ be16 (u16 (95 + zlen kd)) ++ [2] ++ be16 info ++ [0; 16]).
  assert (forall tl, [2; 3] ++ be16 (u16 (95 + zlen kd)) ++ [2] ++ be16 info ++ [0; 16] ++ tl = h ++ tl) as -> by (intros; unfold h; by rewrite <- !app_assoc).
  assert (zlen h = 9) as Hh by done. clearbody h. split_and!.
  - rewrite (zdrop_app_exact' 9 h) by done. by apply ztake_app_exact'.
  - rewrite app_assoc, (zdrop_app_exact' 17) by (rewrite zlen_app; lia). by apply ztake_app_exact'.
  - replace (h ++ rc ++ _snonce k ++ zeros 32 ++ mic ++ be16 (zlen kd) ++ kd) with ((h ++ rc ++ _snonce k ++ zeros 32 ++ mic ++ be16 (zlen kd)) ++ kd)
      by (by rewrite <- !app_assoc).
    apply zdrop_app_exact'. destruct (be16_ok (zlen kd)) as [Hb2 _]. rewrite !zlen_app, zlen_zeros, Hb2. lia.
Qed.
End runs.

(** C1: the four-way handshake completes and both ends agree.  Take any
    well-formed state with a driver ready to send and to take keys, and let
    every allocation and driver call succeed.  Message 1 of an authenticator
    holding the same PMK makes handleEAPOL send one frame, in which the
    authenticator finds an EAPOL-Key packet whose MIC verifies under the PTK
    it derives from the nonce of that packet.  Its message 3, carrying a group
    key among other elements, wrapped and signed with that PTK, then makes
    handleEAPOL install that PTK's temporal key and the group key with its
    index before it answers with message 4, whose MIC and replay counter the
    authenticator accepts, and report the link up in state CONNECTED. *)
Theorem fourway_handshake E ctx k an rc1 rc3 rows es idx gtk pad :
  zlen (buffer ctx) = 64 -> all_ok E -> kext_wf k -> tx_ready k = true -> has_op k OpSetKey = true ->
  buf_ok 32 an -> buf_ok 8 rc1 -> buf_ok 8 rc3 -> Forall row_ok rows -> 1 <= zlen rows <= 32 ->
  concat rows = m3_plain es idx gtk pad -> Forall ie_ok es -> Forall other_kde es -> in_range 2 idx ->
  let gc := if group_cipher (_targetBSS k) =? WLAN_CIPHER_SUITE_TKIP then WLAN_CIPHER_SUITE_TKIP else WLAN_CIPHER_SUITE_CCMP in
  key_valid gc gtk = true ->
  exists k1 f2 p2, handleEAPOL E ctx (ap_m1 rc1 an) k = Some k1 /\ trace k1 = [EvWake 5000; EvTx f2; EvRandom] ++ trace k /\
    ap_key_frame (tx_data f2) = Some p2 /\ kf_counter (parse_key p2) = rc1 /\
    let ptk := prf_512 (_pmk k) an (kf_nonce (parse_key p2)) (_macAddr k) (bssid (_targetBSS k)) in
    ap_mic_ok (ztake 16 ptk) p2 = true /\ kf_data (parse_key p2) = rtw88BuildSelectedRsnIe (group_cipher (_targetBSS k)) /\
    exists k2 f4 p4 a d1 d2, handleEAPOL E ctx (ap_m3 ptk rc3 an rows) k1 = Some k2 /\ _state k2 = RTW88_STATE_CONNECTED /\
      _ptkConf k2 = Some (make_key true 0 WLAN_CIPHER_SUITE_CCMP (ztake 16 (zdrop 32 ptk))) /\
      _gtkConf k2 = Some (make_key false idx gc gtk) /\
      trace k2 = a ++ [EvLink true; EvTimerCancel; EvTx f4] ++ (EvSetKey true false (make_key false idx gc gtk) :: d2) ++
                 (EvSetKey true true (make_key true 0 WLAN_CIPHER_SUITE_CCMP (ztake 16 (zdrop 32 ptk))) :: d1) ++ trace k1 /\
      ap_key_frame (tx_data f4) = Some p4 /\ ap_mic_ok (ztake 16 ptk) p4 = true /\ kf_counter (parse_key p4) = rc3.
Proof.
  intros Hc HE W Hrd Hop Han Hr1 Hr3 Hrow Hn Hcc He Ho Hi gc Hv.
  rewrite (m1_run E ctx Hc HE an rc1 k W Han Hr1). pose proof (m1_state_wf E HE an rc1 k W Han Hr1) as W0.
  destruct (send_step E ctx Hc HE 2 rc1 (m1_state E an rc1 k) W0 Hr1 Hrd) as (f2 & k0 & -> & T0 & O0 & W1 & F2 & M2). cbn [mbind option_bind].
  change (2 =? 4) with false in *. cbv iota in *. set (p2 := step_packet 2 266 rc1 (m1_state E an rc1 k)) in *.
  destruct (parse_step 2 266 rc1 (m1_state E an rc1 k) W0 Hr1) as (Pc & Pn & Pd). fold p2 in Pc, Pn, Pd.
  exists (wake 5000 k0), f2, p2. split; [done|]. split; [change (trace (wake 5000 k0)) with (EvWake 5000 :: trace k0); by rewrite T0|].
  split; [done|]. split; [done|]. cbn zeta. rewrite Pn. change (_snonce (m1_state E an rc1 k)) with (random32 E (trace k)).
  set (ptk := prf_512 (_pmk k) an (random32 E (trace k)) (_macAddr k) (bssid (_targetBSS k))). split; [exact M2|]. split; [exact Pd|].
  destruct O0 as (?&?&?&?&?&?&_&->). match goal with |- context [wake 5000 ?kk] => set (k1 := wake 5000 kk); assert (kext_wf k1) as W1' by (by apply emit_wf) end.
  destruct (m3_run E ctx Hc HE k1 an rc3 rows es idx gtk pad W1' Han Hr3 Hrow Hn Hcc He Ho Hi Hv Hop Hrd)
    as (f4 & k2 & a & d1 & d2 & p4 & E2 & _ & S2 & P2 & G2 & T2 & F4 & M4 & ->).
  exists k2, f4, (step_packet 4 778 rc3 k1), a, d1, d2. destruct (parse_step 4 778 rc3 k1 W1' Hr3) as (Pc4 & _ & _).
  split_and!; first [exact E2|done].
Qed.

(** ** A concrete handshake *)

Definition demo_es : list (Z * list Z) := [(48, [1; 0; 0; 15; 172; 4]); (221, [0; 80; 242; 1])].
Definition demo_gtk : list Z := seqZ 1 16.
Definition demo_rows : list (list Z) :=
  let b := m3_plain demo_es 2 demo_gtk [221; 0] in
  [ztake 8 b; ztake 8 (zdrop 8 b); ztake 8 (zdrop 16 b); ztake 8 (zdrop 24 b); zdrop 32 b].

Lemma demo_all_ok : all_ok demo_env.
Proof. split; [apply demo_env_ok|done|done|done]. Qed.

Lemma fourway_handshake_witness :
  let k := demo_kext RTW88_STATE_HANDSHAKING in let an := replicate 32 8 in let rc1 := replicate 8 0 in let rc3 := replicate 8 1 in
  exists k1 f2 p2, handleEAPOL demo_env stack_ctx (ap_m1 rc1 an) k = Some k1 /\ trace k1 = [EvWake 5000; EvTx f2; EvRandom] ++ trace k /\
    ap_key_frame (tx_data f2) = Some p2 /\ kf_counter (parse_key p2) = rc1 /\
    let ptk := prf_512 (_pmk k) an (kf_nonce (parse_key p2)) (_macAddr k) (bssid (_targetBSS k)) in
    ap_mic_ok (ztake 16 ptk) p2 = true /\ kf_data (parse_key p2) = rtw88BuildSelectedRsnIe (group_cipher (_targetBSS k)) /\
    exists k2 f4 p4 a d1 d2, handleEAPOL demo_env stack_ctx (ap_m3 ptk rc3 an demo_rows) k1 = Some k2 /\ _state k2 = RTW88_STATE_CONNECTED /\
      _ptkConf k2 = Some (make_key true 0 WLAN_CIPHER_SUITE_CCMP (ztake 16 (zdrop 32 ptk))) /\
      _gtkConf k2 = Some (make_key false 2 WLAN_CIPHER_SUITE_CCMP demo_gtk) /\
      trace k2 = a ++ [EvLink true; EvTimerCancel; EvTx f4] ++ (EvSetKey true false (make_key false 2 WLAN_CIPHER_SUITE_CCMP demo_gtk) :: d2) ++
                 (EvSetKey true true (make_key true 0 WLAN_CIPHER_SUITE_CCMP (ztake 16 (zdrop 32 ptk))) :: d1) ++ trace k1 /\
      ap_key_frame (tx_data f4) = Some p4 /\ ap_mic_ok (ztake 16 ptk) p4 = true /\ kf_counter (parse_key p4) = rc3.
Proof.
  intros k an rc1 rc3.
  apply (fourway_handshake demo_env stack_ctx k an rc1 rc3 demo_rows demo_es 2 demo_gtk [221; 0]);
    first [done|apply demo_all_ok|apply demo_kext_wf|(split; [done|by apply bytes_okb_ok])|idtac].
  - unfold demo_rows, row_ok. decompose_Forall; (split; [done|by apply bytes_okb_ok]).
  - unfold demo_es, ie_ok. decompose_Forall; (split; [done|split; [by apply bytes_okb_ok|done]]).
  - unfold demo_es, other_kde. decompose_Forall; cbn [fst snd]; intros (? & ? & ?); done.
Defined.
