(* ===== verification/Rx.v ===== *)
(** * The receive data path

    From [src/src/kext/RTW88IEEE80211.cpp]: [processRxData],
    [deliverDataFrame], [deliverEthernet], [deAmsdu], [rxReorderInput] and
    [rxReorderFlushStale] on the object, [tryDeliverAWDLDataFrame],
    [deliverAWDLEthernet]; the frame-control predicates of
    [src/src/compat/net/mac80211.h].  A socket buffer is the list of its bytes;
    [EvInject] gives an Ethernet frame to the network stack, [EvFree] releases
    the buffer. *)

From S2P Require Import Prelude Rsn Bss Kdf Reorder Kext Tx Eapol.

Definition IEEE80211_FTYPE_CTL : Z := 0x0004.
Definition IEEE80211_FCTL_FTYPE : Z := 0x000c.
Definition IEEE80211_FCTL_STYPE : Z := 0x00f0.
Definition IEEE80211_FCTL_MOREDATA : Z := 0x2000.
Definition IEEE80211_STYPE_BEACON : Z := 0x0080.
Definition IEEE80211_STYPE_PROBE_RESP : Z := 0x0050.

(** ** Frame control *)

Definition ieee80211_is_mgmt (fc : Z) : bool := fc .& 0x000c =? IEEE80211_FTYPE_MGMT.
Definition ieee80211_is_data (fc : Z) : bool := fc .& 0x000c =? IEEE80211_FTYPE_DATA.
Definition ieee80211_is_ctl (fc : Z) : bool := fc .& 0x000c =? IEEE80211_FTYPE_CTL.
Definition ieee80211_has_tods (fc : Z) : bool := negb (fc .& IEEE80211_FCTL_TODS =? 0).
Definition ieee80211_has_fromds (fc : Z) : bool := negb (fc .& IEEE80211_FCTL_FROMDS =? 0).
Definition ieee80211_has_protected (fc : Z) : bool := negb (fc .& IEEE80211_FCTL_PROTECTED =? 0).
Definition ieee80211_has_moredata (fc : Z) : bool := negb (fc .& IEEE80211_FCTL_MOREDATA =? 0).
Definition ieee80211_is_beacon (fc : Z) : bool :=
  fc .& (IEEE80211_FCTL_FTYPE .| IEEE80211_FCTL_STYPE) =? IEEE80211_FTYPE_MGMT .| IEEE80211_STYPE_BEACON.
Definition ieee80211_is_probe_resp (fc : Z) : bool :=
  fc .& (IEEE80211_FCTL_FTYPE .| IEEE80211_FCTL_STYPE) =? IEEE80211_FTYPE_MGMT .| IEEE80211_STYPE_PROBE_RESP.
Definition ieee80211_is_action (fc : Z) : bool :=
  fc .& (IEEE80211_FCTL_FTYPE .| IEEE80211_FCTL_STYPE) =? IEEE80211_FTYPE_MGMT .| IEEE80211_STYPE_ACTION.
Definition ieee80211_is_nullfunc (fc : Z) : bool := fc .& (0x00fc .| 0x000c) =? 0x0048 .| IEEE80211_FTYPE_DATA.
Definition ieee80211_is_data_qos (fc : Z) : bool := fc .& (0x000c .| 0x0080) =? IEEE80211_FTYPE_DATA .| 0x0080.

Definition ieee80211_get_hdrlen_from_skb (fc : Z) : Z :=
  let has_a4 := fc .& (IEEE80211_FCTL_TODS .| IEEE80211_FCTL_FROMDS) =? IEEE80211_FCTL_TODS .| IEEE80211_FCTL_FROMDS in
  let is_qos := negb (fc .& 0x0080 =? 0) && (fc .& 0x000c =? IEEE80211_FTYPE_DATA) in
  let len := 24 in
  let len := if has_a4 then len + 6 else len in
  if is_qos then len + 2 else len.

(** [le16_to_cpu] of the two bytes at [i]. *)
Definition get_le16 (b : list Z) (i : Z) : option Z := l ← ld b i; h ← ld b (i + 1); Some (l .| (h << 8)).

Definition is_broadcast_ether_addr (a : list Z) : bool := bool_decide (a = replicate 6 0xff).
Definition is_multicast_ether_addr (a : list Z) : bool := negb (a !!! 0%nat .& 0x01 =? 0).

Section rx.
Context (E : env) (ctx : KERN_SHA1_CTX).

(** ** Delivery *)

(** A missing parent is an allocation that fails. *)
Definition deliverEthernet (da sa : list Z) (ethertype : Z) (payload : list Z) (k : kext) : kext :=
  if negb (alloc_ok E (trace k)) then k
  else
    let ehdr := da ++ sa ++ [u8 (ethertype >> 8); ethertype .& 0xff] in
    if negb (mbuf_ok E (trace k) 0) || ((0 <? zlen payload) && negb (mbuf_ok E (trace k) 14)) then k
    else emit (EvInject (ehdr ++ payload)) k.

(** [while (pos + 14 <= len)]; [data] starts at [pos]. *)
Fixpoint deAmsdu_loop (fuel : nat) (data : list Z) (k : kext) : option kext :=
  if zlen data <? 14 then Some k
  else match fuel with
       | O => None
       | S n =>
           sublen ← get_be16 data 12;
           if (sublen <? 8) || (zlen data <? 14 + sublen) then Some k
           else
             m0 ← ld data 14; m1 ← ld data 15; m2 ← ld data 16;
             k ← (if (m0 =? 0xAA) && (m1 =? 0xAA) && (m2 =? 0x03) then
                    ethertype ← get_be16 data 20;
                    da ← ldn data 0 6; sa ← ldn data 6 6; pay ← ldn data 22 (sublen - 8);
                    Some (deliverEthernet da sa ethertype pay k)
                  else Some k);
             deAmsdu_loop n (zdrop ((14 + sublen + 3) .& cnot 32 3) data) k
       end.
Definition deAmsdu (data : list Z) (k : kext) : option kext := deAmsdu_loop (length data) data k.

(** The offset of the LLC header of an unaggregated frame: after a CCMP header
    the hardware left in place. *)
Definition payload_offset (f : list Z) (fc hdrlen : Z) (k : kext) : option (Z * kext) :=
  l0 ← ld f hdrlen; l1 ← ld f (hdrlen + 1); l2 ← ld f (hdrlen + 2);
  if (negb (l0 =? 0xAA) || negb (l1 =? 0xAA) || negb (l2 =? 0x03)) && ieee80211_has_protected fc && (hdrlen + 8 + 8 <=? zlen f)
  then
    c0 ← ld f (hdrlen + 8); c1 ← ld f (hdrlen + 9); c2 ← ld f (hdrlen + 10);
    if (c0 =? 0xAA) && (c1 =? 0xAA) && (c2 =? 0x03)
    then Some (hdrlen + 8, k <| _rxCcmpIvSkipLogged := true |>)
    else Some (hdrlen, k)
  else Some (hdrlen, k).

Definition deliverDataFrame (f : list Z) (k : kext) : option kext :=
  fc ← get_le16 f 0;
  let hdrlen := ieee80211_get_hdrlen_from_skb fc in
  if zlen f <? hdrlen then Some (emit (EvFree f) k)
  else
    amsdu ← (if ieee80211_is_data_qos fc then q ← ld f (hdrlen - 2); Some (negb (q .& 0x80 =? 0)) else Some false);
    if (amsdu : bool) then
      let off := hdrlen in
      if ieee80211_has_protected fc && (zlen f <? off + 8) then Some (emit (EvFree f) k)
      else
        let off := if ieee80211_has_protected fc then off + 8 else off in
        data ← ldn f off (zlen f - off);
        k ← deAmsdu data k;
        Some (emit (EvFree f) k)
    else if zlen f <? hdrlen + 8 then Some (emit (EvFree f) k)
    else
      '(off, k) ← payload_offset f fc hdrlen k;
      l0 ← ld f off; l1 ← ld f (off + 1); l2 ← ld f (off + 2);
      let snap := (l0 =? 0xAA) && (l1 =? 0xAA) && (l2 =? 0x03) in
      ethertype ← (if snap then get_be16 f (off + 6) else Some 0);
      pay ← ldn f (off + 8) (zlen f - off - 8);
      if snap && (ethertype =? ETH_P_PAE) && state_is k RTW88_STATE_HANDSHAKING && negb (_externalSupplicant k)
      then k ← handleEAPOL E ctx pay k; Some (emit (EvFree f) k)
      else
        a1 ← ldn f 4 6; a3 ← ldn f 16 6;
        Some (emit (EvFree f) (deliverEthernet a1 a3 ethertype pay k)).

(** ** Reordering on the object *)

Fixpoint deliver_all (out : list (list Z)) (k : kext) : option kext :=
  match out with
  | [] => Some k
  | f :: out => k ← deliverDataFrame f k; deliver_all out k
  end.

(** What a critical section on the table leaves to do. *)
Definition finish (r : option (list (option (RxReorder (list Z))) * outcome (list Z))) (k : kext) : option kext :=
  '(t, o) ← r;
  let k := emit (EvRxFreed (freed o)) (k <| _rxBa := t |>) in
  k ← deliver_all (delivered o) k;
  Some (if arm_timer o then emit EvArmReorder k else k).

Definition reorder_and_deliver (tid : Z) (f : list Z) (sn : Z) (k : kext) : option kext :=
  finish (Reorder.rxReorderInput (_rxBa k) tid f sn) k.

Definition reorderTimerFired (k : kext) : option kext := finish (Reorder.rxReorderFlushStale (_rxBa k)) k.

(** ** Infrastructure data *)

(** The dispatch after the filters: to the reorder buffer of an active
    agreement, or on. *)
Definition rx_dispatch (f : list Z) (fc : Z) (k : kext) : option kext :=
  let hdrlen := ieee80211_get_hdrlen_from_skb fc in
  if ieee80211_is_data_qos fc && (hdrlen <=? zlen f) then
    q ← ld f (hdrlen - 2);
    let tid := q .& 0x0f in
    active ← (if tid <? kRxBaNumTid then e ← ld (_rxBa k) tid; Some (match e with Some r => active r | None => false end)
              else Some false);
    if (active : bool) then sc ← get_le16 f 22; reorder_and_deliver tid f ((sc .& 0xFFF0) >> 4) k
    else deliverDataFrame f k
  else deliverDataFrame f k.

Definition processRxData (f : list Z) (k : kext) : option kext :=
  let connected := state_is k RTW88_STATE_CONNECTED || state_is k RTW88_STATE_HANDSHAKING ||
                   (state_is k RTW88_STATE_SCANNING && is_state (_scanReturnState k) RTW88_STATE_CONNECTED) in
  if negb connected then Some (emit (EvFree f) k)
  else
    fc ← get_le16 f 0; a1 ← ldn f 4 6; a2 ← ldn f 10 6;
    let fromDS := ieee80211_has_fromds fc in
    let toUs := bool_decide (a1 = _macAddr k) || is_broadcast_ether_addr a1 || is_multicast_ether_addr a1 in
    let fromAP := bool_decide (a2 = bssid (_targetBSS k)) in
    if negb fromDS || negb toUs || negb fromAP then Some (emit (EvFree f) k) else rx_dispatch f fc k.

(** ** AWDL data *)

Definition deliverAWDLEthernet (da sa : list Z) (ethertype : Z) (payload : list Z) (k : kext) : kext :=
  if negb (alloc_ok E (trace k)) then k
  else
    let eh := da ++ sa ++ [u8 (ethertype >> 8); u8 ethertype] in
    if negb (mbuf_ok E (trace k) 0) || ((0 <? zlen payload) && negb (mbuf_ok E (trace k) 14)) then k
    else emit (EvInjectAWDL (eh ++ payload)) k.

(** [(true, k)]: the buffer was consumed. *)
Definition tryDeliverAWDLDataFrame (f : list Z) (k : kext) : option (bool * kext) :=
  if zlen f <? 24 + 8 + 8 then Some (false, k)
  else
    fc ← get_le16 f 0;
    if negb (fc .& (IEEE80211_FCTL_TODS .| IEEE80211_FCTL_FROMDS) =? 0) then Some (false, k)
    else
      a1 ← ldn f 4 6; a2 ← ldn f 10 6; a3 ← ldn f 16 6;
      if negb (bool_decide (a3 = awdlBssid)) then Some (false, k)
      else
        let hdrlen := ieee80211_get_hdrlen_from_skb fc in
        if (hdrlen <? 24) || (zlen f <? hdrlen + 16) then Some (false, k)
        else
          s ← ldn f hdrlen 8;
          if negb (bool_decide (s = [0xaa; 0xaa; 0x03; 0x00; 0x17; 0xf2; 0x08; 0x00])) then Some (false, k)
          else
            p ← ldn f (hdrlen + 8) 2;
            if negb (bool_decide (p = [0x03; 0x04])) then Some (false, k)
            else
              ethertype ← get_be16 f (hdrlen + 14);
              pay ← ldn f (hdrlen + 16) (zlen f - (hdrlen + 16));
              Some (true, emit (EvFree f) (deliverAWDLEthernet a1 a2 ethertype pay k)).
End rx.

(** ** Ownership of received buffers

    [fs] are the buffers handed to an operation: each is released or joins the
    reorder buffers, and nothing else is released. *)
Definition consumes (fs : list (list Z)) (k k' : kext) : Prop :=
  exists es, trace k' = es ++ trace k /\ concat (map frees es) ++ buffered (_rxBa k') ≡ₚ fs ++ buffered (_rxBa k).

(** The fields the data path may move. *)
Definition rx_fields (k k' : kext) : Prop :=
  exists k1 t b tr, hs_only k k1 /\ k' = k1 <| _rxBa := t |> <| _rxCcmpIvSkipLogged := b |> <| trace := tr |>.

(** The link comes up only out of the handshake, and soundly. *)
Definition link_moves (k k' : kext) : Prop :=
  (_state k' = _state k \/ (_state k = RTW88_STATE_HANDSHAKING /\ _state k' = RTW88_STATE_CONNECTED)) /\ (link_ok k -> link_ok k').
Lemma link_moves_trans k1 k2 k3 : link_moves k1 k2 -> link_moves k2 k3 -> link_moves k1 k3.
Proof.
  intros [S1 L1] [S2 L2]. split; [|by auto]. destruct S1 as [S1|[S1 T1]], S2 as [S2|[S2 T2]]; [left|right; split|right; split|left]; congruence.
Qed.

Definition rx_step (fs : list (list Z)) (k k' : kext) : Prop :=
  consumes fs k k' /\ rx_fields k k' /\ link_moves k k'.

Lemma consumes_trans fs1 fs2 k1 k2 k3 : consumes fs1 k1 k2 -> consumes fs2 k2 k3 -> consumes (fs1 ++ fs2) k1 k3.
Proof.
  intros (es1 & T1 & P1) (es2 & T2 & P2). exists (es2 ++ es1). split; [by rewrite T2, T1, app_assoc|].
  rewrite map_app, concat_app, <- app_assoc, (Permutation_app_swap_app (concat (map frees es2))), P2.
  rewrite (Permutation_app_swap_app (concat (map frees es1))), P1, app_assoc. by rewrite (Permutation_app_comm fs2 fs1).
Qed.

Lemma rx_fields_trans k1 k2 k3 : rx_fields k1 k2 -> rx_fields k2 k3 -> rx_fields k1 k3.
Proof.
  intros (k1' & t1 & b1 & tr1 & H1 & ->) (k2' & t2 & b2 & tr2 & (an&sn&ptk&rc&p&g&pn&ts&ds&aw&d&st&es&N&->) & ->).
  exists (k1' <| _anonce := an |> <| _snonce := sn |> <| _ptk := ptk |> <| _replayCtr := rc |> <| _ptkConf := p |> <| _gtkConf := g |>
           <| _ccmpTxPn := pn |> <| _txSeq := ts |> <| _dataSeq := ds |> <| _awdlDataSeq := aw |> <| _baDialog := d |> <| _state := st |>
           <| trace := [] ++ trace k1' |>), t2, b2, tr2. split; [|reflexivity].
  eapply hs_only_trans; [exact H1|]. eexists _, _, _, _, _, _, _, _, _, _, _, _, []. split; [constructor|reflexivity].
Qed.

Lemma rx_step_trans fs1 fs2 k1 k2 k3 : rx_step fs1 k1 k2 -> rx_step fs2 k2 k3 -> rx_step (fs1 ++ fs2) k1 k3.
Proof.
  intros (C1 & F1 & L1) (C2 & F2 & L2). split; [by eapply consumes_trans|]. split; [by eapply rx_fields_trans|by eapply link_moves_trans].
Qed.

Lemma rx_step_refl k : rx_step [] k k.
Proof.
  split; [by exists []|]. split; [|split; [by left|done]]. exists k, (_rxBa k), (_rxCcmpIvSkipLogged k), (trace k). split; [apply hs_only_refl|by destruct k].
Qed.

Lemma rx_step_emit e k : rx_step (frees e) k (emit e k).
Proof.
  split; [exists [e]; split; [done|cbn [map concat]; by rewrite app_nil_r]|]. split; [|split; [by left|done]].
  exists k, (_rxBa k), (_rxCcmpIvSkipLogged k), (e :: trace k). split; [apply hs_only_refl|by destruct k].
Qed.

Section rx_proofs.
Context (E : env) (ctx : KERN_SHA1_CTX) (HE : env_ok E) (Hctx : zlen (buffer ctx) = 64).

Lemma steps_free fs f k k1 : kext_wf k1 -> rx_step fs k k1 -> steps (rx_step (fs ++ [f]) k) (Some (emit (EvFree f) k1)).
Proof.
  intros W S. apply steps_ret; [by apply emit_wf|]. eapply rx_step_trans; [exact S|]. exact (rx_step_emit (EvFree f) k1).
Qed.

Lemma steps_drop f k : kext_wf k -> steps (rx_step [f] k) (Some (emit (EvFree f) k)).
Proof. intros W. exact (steps_free [] f k k W (rx_step_refl k)). Qed.

Lemma deliverEthernet_ok da sa et pay k : kext_wf k ->
  kext_wf (deliverEthernet E da sa et pay k) /\ rx_step [] k (deliverEthernet E da sa et pay k) /\ exists es, deliverEthernet E da sa et pay k = k <| trace := es ++ trace k |>.
Proof.
  intros W. unfold deliverEthernet. pose proof (rx_step_refl k).
  assert (exists es, k = k <| trace := es ++ trace k |>) by (exists []; by destruct k).
  destruct (negb _); [done|]. destruct (_ || _); [done|]. split; [by apply emit_wf|].
  split; [apply (rx_step_emit (EvInject _))|by exists [EvInject (((da ++ sa ++ [u8 (et >> 8); et .& 255])) ++ pay)]].
Qed.

Lemma get_le16_ok b i : bytes_ok b -> 0 <= i -> i + 2 <= zlen b -> exists v, get_le16 b i = Some v /\ in_range 16 v.
Proof.
  intros Hb Hi Hl. unfold get_le16. destruct (ld_byte b i Hb) as (x & -> & Hx); [lia|]. destruct (ld_byte b (i + 1) Hb) as (y & -> & Hy); [lia|].
  cbn [mbind option_bind]. eexists. split; [done|]. apply lor_in_range; [lia| |]; unfold in_range in *; [lia|].
  rewrite Z.shiftl_mul_pow2 by lia. lia.
Qed.

(** The next subframe starts after the present one. *)
Lemma align_step n : 14 <= n < 2 ^ 17 -> n <= (n + 3) .& cnot 32 3 < n + 4.
Proof.
  intros Hn. assert ((n + 3) .& cnot 32 3 = (n + 3) - (n + 3) mod 4) as ->; [|Z.to_euclidean_division_equations; lia].
  change (cnot 32 3) with (Z.ldiff (Z.ones 32) (Z.ones 2)).
  assert ((n + 3) .& Z.ldiff (Z.ones 32) (Z.ones 2) = Z.ldiff (n + 3) (Z.ones 2)) as ->.
  { bits_eq. destruct (Z.ltb_spec i 32); [rewrite (Z.ones_spec_low 32) by lia; by destruct (Z.testbit (n + 3) i)|].
    rewrite (in_range_testbit 32 (n + 3) i) by (unfold in_range; lia). done. }
  rewrite Z.ldiff_ones_r, Z.shiftr_div_pow2, Z.shiftl_mul_pow2 by lia. change (2 ^ 2) with 4. Z.to_euclidean_division_equations. lia.
Qed.

Lemma deAmsdu_loop_ok fuel : forall data k, kext_wf k -> bytes_ok data -> (length data <= fuel)%nat ->
  steps (fun k' => rx_step [] k k' /\ exists es, k' = k <| trace := es ++ trace k |>) (deAmsdu_loop E fuel data k).
Proof.
  induction fuel as [|fuel IH]; intros data k W Hb Hf; cbn [deAmsdu_loop].
  { destruct data; [|cbn in Hf; lia]. apply steps_ret; [done|]. split; [apply rx_step_refl|exists []; by destruct k]. }
  assert (rx_step [] k k /\ exists es, k = k <| trace := es ++ trace k |>) as Hs by (split; [apply rx_step_refl|exists []; by destruct k]).
  destruct (Z.ltb_spec (zlen data) 14); [by apply steps_ret|]. destruct (get_be16_ok data 12 Hb) as (n & -> & Hn); [lia..|].
  cbn [mbind option_bind]. unfold in_range in Hn. destruct ((n <? 8) || _) eqn:El; [by apply steps_ret|]. bool_hyps.
  destruct (ld_byte data 14 Hb) as (m0 & -> & _); [lia|]. destruct (ld_byte data 15 Hb) as (m1 & -> & _); [lia|].
  destruct (ld_byte data 16 Hb) as (m2 & -> & _); [lia|]. cbn [mbind option_bind].
  assert (forall k1, kext_wf k1 -> rx_step [] k k1 /\ (exists es, k1 = k <| trace := es ++ trace k |>) ->
    steps (fun k' => rx_step [] k k' /\ exists es, k' = k <| trace := es ++ trace k |>) (deAmsdu_loop E fuel (zdrop ((14 + n + 3) .& cnot 32 3) data) k1)) as Hrec.
  { intros k1 W1 [S1 [es1 ->]]. eapply steps_mono; [apply IH; [done|by apply Forall_drop|]|].
    - pose proof (align_step (14 + n) ltac:(lia)). unfold zdrop. rewrite length_drop. unfold zlen in *. lia.
    - intros k' [S2 [es2 ->]]. split; [exact (rx_step_trans [] [] _ _ _ S1 S2)|]. exists (es2 ++ es1). rewrite <- app_assoc. reflexivity. }
  destruct (_ && (m2 =? 3)); [|by apply Hrec].
  destruct (get_be16_ok data 20 Hb) as (et & -> & _); [lia..|]. cbn [mbind option_bind].
  rewrite (ldn_Some data 0 6), (ldn_Some data 6 6), (ldn_Some data 22 (n - 8)) by lia. cbn [mbind option_bind].
  match goal with |- context [deliverEthernet E ?da ?sa ?e ?p k] => destruct (deliverEthernet_ok da sa e p k W) as (W1 & S1 & Hx1) end.
  by apply Hrec.
Qed.

(** ** One frame *)

Lemma hdrlen_range fc : 24 <= ieee80211_get_hdrlen_from_skb fc <= 32.
Proof.
  unfold ieee80211_get_hdrlen_from_skb. cbn zeta.
  repeat match goal with |- context [if ?b then _ else _] => destruct b end; lia.
Qed.

Lemma payload_offset_ok f fc k : let h := ieee80211_get_hdrlen_from_skb fc in
  bytes_ok f -> h + 8 <= zlen f -> kext_wf k ->
  exists off k', payload_offset f fc h k = Some (off, k') /\ h <= off /\ off + 8 <= zlen f /\ kext_wf k' /\ rx_step [] k k' /\
    (_state k' = _state k /\ _externalSupplicant k' = _externalSupplicant k).
Proof.
  intros h Hb Hl W. pose proof (hdrlen_range fc). fold h in H. unfold payload_offset.
  assert (forall i, 0 <= i < 8 -> exists x, ld f (h + i) = Some x) as Hld by (intros i Hi; destruct (ld_byte f (h + i) Hb) as (x & ? & _); [lia|by exists x]).
  destruct (Hld 0 ltac:(lia)) as [x0 E0]. rewrite Z.add_0_r in E0. destruct (Hld 1 ltac:(lia)) as [x1 E1]. destruct (Hld 2 ltac:(lia)) as [x2 E2].
  rewrite E0, E1, E2. cbn [mbind option_bind]. pose proof (rx_step_refl k).
  destruct (_ && (h + 8 + 8 <=? zlen f)) eqn:El; [|by exists h, k; split_and!; try done; lia].
  apply andb_prop in El as [_ El]. apply Z.leb_le in El.
  destruct (ld_byte f (h + 8) Hb) as (c0 & -> & _); [lia|]. destruct (ld_byte f (h + 9) Hb) as (c1 & -> & _); [lia|].
  destruct (ld_byte f (h + 10) Hb) as (c2 & -> & _); [lia|]. cbn [mbind option_bind].
  destruct (_ && (c2 =? 3)); [|by exists h, k; split_and!; try done; lia].
  exists (h + 8), (k <| _rxCcmpIvSkipLogged := true |>). split_and!; try done; try lia; [by solve_wf W|].
  split; [by exists []|]. split; [|split; [by left|done]]. exists k, (_rxBa k), true, (trace k). split; [apply hs_only_refl|by destruct k].
Qed.

(** A message of the handshake, while the handshake is on. *)
Lemma eapol_step pay k : kext_wf k -> bytes_ok pay -> _state k = RTW88_STATE_HANDSHAKING ->
  steps (rx_step [] k) (handleEAPOL E ctx pay k).
Proof.
  intros W Hb Hs. eapply steps_mono; [by apply handleEAPOL_ok|]. intros k' [Hl H]. split; [|split].
  - destruct H as (an&sn&ptk&rc&p&g&pn&ts&ds&aw&d&st&es&N&->). exists es. split; [done|].
    assert (concat (map frees es) = []) as ->; [|done]. clear -N. induction N as [|e es He _ IH]; [done|]. cbn [map concat]. by rewrite He, IH.
  - exists k', (_rxBa k'), (_rxCcmpIvSkipLogged k'), (trace k'). split; [done|by destruct k'].
  - destruct Hl as [(S & _) | (pkt & rest & _ & _ & _ & Hm)]; [split; [by left|intros _ Hc; congruence]|].
    destruct Hm as [(S & _) | [S | (S & P)]]; [split; [by left|intros _ Hc; congruence]..|]. split; [by right|]. intros _ _ _ _. by rewrite P.
Qed.

Lemma deliverDataFrame_ok f k : kext_wf k -> rx_ok f -> steps (rx_step [f] k) (deliverDataFrame E ctx f k).
Proof.
  intros W [Hl Hb]. unfold deliverDataFrame. destruct (get_le16_ok f 0 Hb) as (fc & -> & _); [lia..|]. cbn [mbind option_bind].
  pose proof (hdrlen_range fc). set (h := ieee80211_get_hdrlen_from_skb fc) in *.
  destruct (Z.ltb_spec (zlen f) h); [by apply steps_drop|].
  assert (exists a, (if ieee80211_is_data_qos fc then q ← ld f (h - 2); Some (negb (q .& 128 =? 0)) else Some false) = Some a) as [a ->].
  { destruct (ieee80211_is_data_qos fc); [|by eexists]. destruct (ld_byte f (h - 2) Hb) as (q & -> & _); [lia|]. by eexists. }
  cbn [mbind option_bind]. destruct a.
  - destruct (ieee80211_has_protected fc && _) eqn:Ep; [by apply steps_drop|].
    set (off := if ieee80211_has_protected fc then h + 8 else h).
    assert (h <= off <= zlen f) as Hoff by (unfold off; destruct (ieee80211_has_protected fc); cbn [andb] in Ep; bool_hyps; lia).
    destruct (ldn_buf f off (zlen f - off) Hb) as (data & -> & [_ Hd]); [lia..|]. cbn [mbind option_bind].
    eapply steps_bind; [by apply (deAmsdu_loop_ok (length data))|]. intros k1 W1 [S1 _]. by apply (steps_free []).
  - destruct (Z.ltb_spec (zlen f) (h + 8)); [by apply steps_drop|].
    destruct (payload_offset_ok f fc k Hb ltac:(done) W) as (off & k1 & Eo & Hho & Hol & W1 & S1 & Hst & Hex). fold h in Eo, Hho. rewrite Eo. cbn [mbind option_bind].
    destruct (ld_byte f off Hb) as (l0 & -> & _); [lia|]. destruct (ld_byte f (off + 1) Hb) as (l1 & -> & _); [lia|].
    destruct (ld_byte f (off + 2) Hb) as (l2 & -> & _); [lia|]. cbn [mbind option_bind]. set (snap := _ && _).
    assert (exists et, (if snap then get_be16 f (off + 6) else Some 0) = Some et) as [et ->].
    { destruct snap; [|by eexists]. destruct (get_be16_ok f (off + 6) Hb) as (v & -> & _); [lia..|]. by eexists. }
    cbn [mbind option_bind]. destruct (ldn_buf f (off + 8) (zlen f - off - 8) Hb) as (pay & -> & [_ Hpb]); [lia..|]. cbn [mbind option_bind].
    destruct (_ && negb (_externalSupplicant k1)) eqn:Ec.
    + assert (_state k1 = RTW88_STATE_HANDSHAKING) as Hs.
      { apply andb_prop in Ec as [Ec _]. apply andb_prop in Ec as [_ Ec]. by apply bool_decide_eq_true in Ec. }
      eapply steps_bind; [by apply eapol_step|]. intros k2 W2 S2. apply (steps_free []); [done|]. exact (rx_step_trans [] [] _ _ _ S1 S2).
    + rewrite (ldn_Some f 4 6), (ldn_Some f 16 6) by lia. cbn [mbind option_bind].
      match goal with |- context [deliverEthernet E ?da ?sa ?e ?p k1] => destruct (deliverEthernet_ok da sa e p k1 W1) as (W2 & S2 & _) end.
      apply (steps_free []); [done|]. exact (rx_step_trans [] [] _ _ _ S1 S2).
Qed.

(** ** Through the reorder buffers *)

Lemma deliver_all_ok out : forall k, kext_wf k -> Forall rx_ok out -> steps (rx_step out k) (deliver_all E ctx out k).
Proof.
  induction out as [|f out IH]; intros k W Ho; cbn [deliver_all]; [apply steps_ret; [done|apply rx_step_refl]|].
  inversion_clear Ho as [|? ? Hf Ho']. eapply steps_bind; [by apply deliverDataFrame_ok|]. intros k1 W1 S1.
  eapply steps_mono; [by apply IH|]. intros k2 S2. exact (rx_step_trans [f] out _ _ _ S1 S2).
Qed.

(** A sound critical section, then its deliveries. *)
Lemma finish_ok fs r k : kext_wf k -> Forall rx_ok fs -> sound skb_sn (_rxBa k) fs r -> steps (rx_step fs k) (finish E ctx r k).
Proof.
  intros W Hfs (t & o & -> & Ht & Hp & _). unfold finish. cbn [mbind option_bind].
  assert (Forall rx_ok (delivered o ++ freed o ++ buffered t)) as Hall.
  { rewrite Hp. apply Forall_app. split; [done|apply W]. }
  apply Forall_app in Hall as [Hd Hall]. apply Forall_app in Hall as [_ Hbt].
  set (k1 := emit (EvRxFreed (freed o)) (k <| _rxBa := t |>)). assert (kext_wf k1) as W1 by (solve_wf W).
  assert (rx_fields k k1) as F1 by (exists k, t, (_rxCcmpIvSkipLogged k), (EvRxFreed (freed o) :: trace k); split; [apply hs_only_refl|by destruct k]).
  eapply steps_bind; [by apply deliver_all_ok|]. intros k2 W2 ((es & T2 & P2) & F2 & L2).
  assert (rx_step fs k k2) as S2.
  { split; [|split; [by eapply rx_fields_trans|exact L2]]. exists (es ++ [EvRxFreed (freed o)]).
    split; [rewrite T2; by rewrite <- app_assoc|]. rewrite map_app, concat_app, <- app_assoc. cbn [map concat frees]. rewrite app_nil_r.
    change (_rxBa k1) with t in P2. by rewrite (Permutation_app_swap_app (concat (map frees es))), P2, (Permutation_app_swap_app (freed o)), Hp. }
  apply steps_ret; [destruct (arm_timer o); [by apply emit_wf|done]|]. destruct (arm_timer o); [|done].
  rewrite <- (app_nil_r fs). eapply rx_step_trans; [done|apply (rx_step_emit EvArmReorder)].
Qed.

Lemma skb_sn_read f : rx_ok f -> exists sc, get_le16 f 22 = Some sc /\ (sc .& 0xFFF0) >> 4 = skb_sn f /\ in_range 12 (skb_sn f).
Proof.
  intros [Hl Hb]. unfold get_le16. change (22 + 1) with 23.
  assert (forall i, 0 <= i < 24 -> ld f i = Some (f !!! Z.to_nat i)) as Hld.
  { intros i Hi. unfold ld. rewrite (proj2 (Z.leb_le 0 i)) by lia. apply list_lookup_lookup_total_lt. unfold zlen in Hl. lia. }
  rewrite (Hld 22), (Hld 23) by lia. cbn [mbind option_bind]. change (Z.to_nat 22) with 22%nat. change (Z.to_nat 23) with 23%nat.
  eexists. split; [reflexivity|]. split; [done|]. unfold skb_sn. split; [apply Z.shiftr_nonneg, Z.land_nonneg; right; lia|].
  rewrite Z.shiftr_div_pow2 by lia. apply Z.div_lt_upper_bound; [lia|]. change (2 ^ 4 * 2 ^ 12) with (2 ^ 16).
  apply (land_in_range_r 16); [lia|by vm_compute].
Qed.

Lemma rx_dispatch_ok f fc k : kext_wf k -> rx_ok f -> get_le16 f 0 = Some fc -> steps (rx_step [f] k) (rx_dispatch E ctx f fc k).
Proof.
  intros W Hf Hfc. pose proof Hf as [Hl Hb]. unfold rx_dispatch. pose proof (hdrlen_range fc). set (h := ieee80211_get_hdrlen_from_skb fc) in *.
  destruct (_ && (h <=? zlen f)) eqn:Ec; [|by apply deliverDataFrame_ok]. apply andb_prop in Ec as [_ Ec]. apply Z.leb_le in Ec.
  destruct (ld_byte f (h - 2) Hb) as (q & -> & Hq); [lia|]. cbn [mbind option_bind].
  assert (0 <= q .& 15) by (apply Z.land_nonneg; by right).
  destruct (Z.ltb_spec (q .& 0x0f) kRxBaNumTid) as [Ht|]; [|by apply deliverDataFrame_ok].
  destruct (table_lookup skb_sn (_rxBa k) (q .& 15) (wf_rxba k W)) as (e & He & _); [done|]. rewrite He. cbn [mbind option_bind].
  destruct (match e with Some r => active r | None => false end); [|by apply deliverDataFrame_ok].
  destruct (skb_sn_read f Hf) as (sc & -> & Es & Hsn). cbn [mbind option_bind]. rewrite Es. unfold reorder_and_deliver.
  apply finish_ok; [done|by apply Forall_singleton|]. apply rxReorderInput_sound; [apply W|done|done].
Qed.

Lemma processRxData_ok f k : kext_wf k -> rx_ok f -> steps (rx_step [f] k) (processRxData E ctx f k).
Proof.
  intros W Hf. pose proof Hf as [Hl Hb]. unfold processRxData. destruct (negb _); [by apply steps_drop|].
  destruct (get_le16_ok f 0 Hb) as (fc & Hfc & _); [lia..|]. rewrite Hfc. cbn [mbind option_bind].
  rewrite (ldn_Some f 4 6), (ldn_Some f 10 6) by lia. cbn [mbind option_bind]. destruct (_ || _); [by apply steps_drop|]. by apply rx_dispatch_ok.
Qed.

Lemma reorderTimerFired_ok k : kext_wf k -> steps (rx_step [] k) (reorderTimerFired E ctx k).
Proof.
  intros W. apply finish_ok; [done|constructor|]. exact (run_rx_op_sound skb_sn (_rxBa k) OpFlush (wf_rxba k W) I).
Qed.

Lemma tryDeliverAWDLDataFrame_ok f k : kext_wf k -> rx_ok f ->
  exists b k', tryDeliverAWDLDataFrame E f k = Some (b, k') /\ kext_wf k' /\ if b then rx_step [f] k k' else k' = k.
Proof.
  intros W [Hl Hb]. unfold tryDeliverAWDLDataFrame. destruct (Z.ltb_spec (zlen f) (24 + 8 + 8)); [by exists false, k|].
  destruct (get_le16_ok f 0 Hb) as (fc & -> & _); [lia..|]. cbn [mbind option_bind]. destruct (negb _); [by exists false, k|].
  rewrite (ldn_Some f 4 6), (ldn_Some f 10 6), (ldn_Some f 16 6) by lia. cbn [mbind option_bind]. destruct (negb _); [by exists false, k|].
  pose proof (hdrlen_range fc). set (h := ieee80211_get_hdrlen_from_skb fc) in *.
  destruct ((h <? 24) || _) eqn:Eh; [by exists false, k|]. bool_hyps.
  rewrite (ldn_Some f h 8) by lia. cbn [mbind option_bind]. destruct (negb _); [by exists false, k|].
  rewrite (ldn_Some f (h + 8) 2) by lia. cbn [mbind option_bind]. destruct (negb _); [by exists false, k|].
  destruct (get_be16_ok f (h + 14) Hb) as (et & -> & _); [lia..|]. cbn [mbind option_bind].
  rewrite (ldn_Some f (h + 16)) by lia. cbn [mbind option_bind]. eexists true, _. split; [reflexivity|].
  unfold deliverAWDLEthernet. destruct (negb _); [split; [by apply emit_wf|exact (rx_step_emit (EvFree f) k)]|].
  destruct (_ || _); [split; [by apply emit_wf|exact (rx_step_emit (EvFree f) k)]|].
  split; [by apply emit_wf, emit_wf|]. exact (rx_step_trans [] [f] _ _ _ (rx_step_emit (EvInjectAWDL _) k) (rx_step_emit (EvFree f) _)).
Qed.
End rx_proofs.

(** ** Histories of the data path *)

Inductive rx_event := RxData (f : list Z) | RxAwdl (f : list Z) | RxFlush.
Definition rx_in (e : rx_event) : list (list Z) := match e with RxData f | RxAwdl f => [f] | RxFlush => [] end.

(** A data frame as [rxFrame] hands it on. *)
Definition rx_run1 (E : env) (ctx : KERN_SHA1_CTX) (e : rx_event) (k : kext) : option kext :=
  match e with
  | RxData f => processRxData E ctx f k
  | RxAwdl f => '(done, k) ← tryDeliverAWDLDataFrame E f k; if (done : bool) then Some k else processRxData E ctx f k
  | RxFlush => reorderTimerFired E ctx k
  end.
Fixpoint rx_run (E : env) (ctx : KERN_SHA1_CTX) (es : list rx_event) (k : kext) : option kext :=
  match es with [] => Some k | e :: es => k ← rx_run1 E ctx e k; rx_run E ctx es k end.

Lemma rx_run1_ok E ctx e k : env_ok E -> zlen (buffer ctx) = 64 -> kext_wf k -> Forall rx_ok (rx_in e) -> steps (rx_step (rx_in e) k) (rx_run1 E ctx e k).
Proof.
  intros HE Hc W Hf. destruct e as [f|f|]; cbn [rx_in rx_run1] in *; try inversion_clear Hf as [|? ? H1 _].
  - by apply processRxData_ok.
  - destruct (tryDeliverAWDLDataFrame_ok E f k W H1) as (b & k1 & -> & W1 & Hb). cbn [mbind option_bind].
    destruct b; [by apply steps_ret|]. subst k1. by apply processRxData_ok.
  - by apply reorderTimerFired_ok.
Qed.

Lemma rx_run_ok E ctx es : forall k, env_ok E -> zlen (buffer ctx) = 64 -> kext_wf k -> Forall (fun e => Forall rx_ok (rx_in e)) es ->
  steps (rx_step (concat (map rx_in es)) k) (rx_run E ctx es k).
Proof.
  induction es as [|e es IH]; intros k HE Hc W Hes; cbn [rx_run map concat]; [apply steps_ret; [done|apply rx_step_refl]|].
  inversion_clear Hes as [|? ? He Hes']. eapply steps_bind; [by apply rx_run1_ok|]. intros k1 W1 S1.
  eapply steps_mono; [by apply IH|]. intros k2 S2. by eapply rx_step_trans.
Qed.

(** C15: the receive data path stays inside its buffers and owns them exactly.
    For every history of data frames of any content (24 bytes to 64 KiB) and
    stale-flush timer firings, from any well-formed state, every operation
    answers without an access outside a frame or an array of the object, the
    object stays well formed, and the buffers released together with those
    still held for reordering are exactly the buffers received together with
    those held before: none leaks, none is released twice.  A WPA2 link managed
    here comes up only with a pairwise key. *)
Theorem rx_path_owned E ctx es k :
  env_ok E -> zlen (buffer ctx) = 64 -> kext_wf k ->
  Forall (fun e => Forall rx_ok (rx_in e)) es ->
  exists k' evs, rx_run E ctx es k = Some k' /\ kext_wf k' /\ trace k' = evs ++ trace k /\
    concat (map frees evs) ++ buffered (_rxBa k') ≡ₚ concat (map rx_in es) ++ buffered (_rxBa k) /\
    (link_ok k -> link_ok k').
Proof.
  intros HE Hc W Hes. destruct (rx_run_ok E ctx es k HE Hc W Hes) as (k' & Er & W' & (evs & T & P) & _ & _ & L).
  by exists k', evs.
Qed.

(** ** Aggregated frames *)

Record msdu := mk_msdu { m_da : list Z; m_sa : list Z; m_type : Z; m_pay : list Z }.
Definition msdu_ok (m : msdu) : Prop :=
  zlen (m_da m) = 6 /\ zlen (m_sa m) = 6 /\ in_range 16 (m_type m) /\ 8 + zlen (m_pay m) < 2 ^ 16.
Definition enc_sub (m : msdu) : list Z := m_da m ++ m_sa m ++ be16 (8 + zlen (m_pay m)) ++ snap_rfc1042 (m_type m) ++ m_pay m.
Definition pad4 (n : Z) : Z := (- n) mod 4.
(** Every subframe but the last is padded to four bytes. *)
Fixpoint enc_amsdu (ms : list msdu) : list Z :=
  match ms with
  | [] => []
  | [m] => enc_sub m
  | m :: ms => enc_sub m ++ zeros (pad4 (zlen (enc_sub m))) ++ enc_amsdu ms
  end.
Definition eth_of (m : msdu) : list Z := m_da m ++ m_sa m ++ be16 (m_type m) ++ m_pay m.

Lemma zlen_enc_sub m : msdu_ok m -> zlen (enc_sub m) = 22 + zlen (m_pay m).
Proof. intros (Ha & Hs & _). unfold enc_sub. rewrite !zlen_app, Ha, Hs. change (zlen (be16 _)) with 2. change (zlen (snap_rfc1042 _)) with 8. lia. Qed.

Lemma align_pad n : 14 <= n < 2 ^ 17 -> (n + 3) .& cnot 32 3 = n + pad4 n.
Proof.
  intros Hn. change (cnot 32 3) with (Z.ldiff (Z.ones 32) (Z.ones 2)).
  assert ((n + 3) .& Z.ldiff (Z.ones 32) (Z.ones 2) = Z.ldiff (n + 3) (Z.ones 2)) as ->.
  { bits_eq. destruct (Z.ltb_spec i 32); [rewrite (Z.ones_spec_low 32) by lia; by destruct (Z.testbit (n + 3) i)|].
    rewrite (in_range_testbit 32 (n + 3) i) by (unfold in_range; lia). done. }
  rewrite Z.ldiff_ones_r, Z.shiftr_div_pow2, Z.shiftl_mul_pow2 by lia. unfold pad4. change (2 ^ 2) with 4. Z.to_euclidean_division_equations. lia.
Qed.

Lemma deAmsdu_sub E fuel m rest k : msdu_ok m -> (forall tr, alloc_ok E tr = true) -> (forall tr off, mbuf_ok E tr off = true) ->
  deAmsdu_loop E (S fuel) (enc_sub m ++ rest) k = deAmsdu_loop E fuel (zdrop (pad4 (zlen (enc_sub m))) rest) (emit (EvInject (eth_of m)) k).
Proof.
  intros Hm Ha Hb. pose proof (zlen_enc_sub m Hm) as Hz. destruct Hm as (H1 & H2 & H3 & H4). pose proof (zlen_nonneg (m_pay m)). pose proof (zlen_nonneg rest).
  cbn [deAmsdu_loop]. set (data := enc_sub m ++ rest). assert (zlen data = 22 + zlen (m_pay m) + zlen rest) as Hd by (unfold data; rewrite zlen_app; lia).
  rewrite (proj2 (Z.ltb_ge _ _)) by lia.
  assert (get_be16 data 12 = Some (8 + zlen (m_pay m))) as ->.
  { unfold data, enc_sub. rewrite (app_assoc (m_da m)), <- app_assoc, <- (app_assoc (be16 _)). apply get_be16_at; [unfold in_range; lia|]. rewrite zlen_app. lia. }
  cbn [mbind option_bind]. rewrite (proj2 (orb_false_iff _ _)) by (split; apply Z.ltb_ge; lia).
  assert (forall i n, ldn data i n = ldn (enc_sub m ++ rest) i n) as Hld by done.
  assert (ldn data 0 6 = Some (m_da m)) as E0 by (unfold data, enc_sub; rewrite <- app_assoc; by apply ldn_app_0).
  assert (ldn data 6 6 = Some (m_sa m)) as E6 by (unfold data, enc_sub; rewrite <- !app_assoc; by apply ldn_app_exact).
  assert (ldn data 22 (zlen (m_pay m)) = Some (m_pay m)) as E22.
  { unfold data, enc_sub. replace ((m_da m ++ m_sa m ++ be16 (8 + zlen (m_pay m)) ++ snap_rfc1042 (m_type m) ++ m_pay m) ++ rest)
      with ((m_da m ++ m_sa m ++ be16 (8 + zlen (m_pay m)) ++ snap_rfc1042 (m_type m)) ++ m_pay m ++ rest) by (by rewrite <- !app_assoc).
    apply ldn_app_exact; [rewrite !zlen_app, H1, H2; done|done]. }
  destruct (list6 _ H1) as (a0&a1&a2&a3&a4&a5&Ea). destruct (list6 _ H2) as (b0&b1&b2&b3&b4&b5&Eb).
  assert (exists q tl, data = [a0;a1;a2;a3;a4;a5;b0;b1;b2;b3;b4;b5] ++ q ++ [0xaa; 0xaa; 3; 0; 0; 0] ++ be16 (m_type m) ++ tl /\ zlen q = 2) as (q & tl & Eq & Hq).
  { exists (be16 (8 + zlen (m_pay m))), (m_pay m ++ rest). unfold data, enc_sub, snap_rfc1042. rewrite Ea, Eb. cbn [app]. rewrite <- app_assoc. by split. }
  assert (ld data 14 = Some 0xaa /\ ld data 15 = Some 0xaa /\ ld data 16 = Some 3 /\ get_be16 data 20 = Some (m_type m)) as (-> & -> & -> & Et).
  { rewrite Eq. unfold zlen in Hq. destruct q as [|q0 [|q1 [|]]]; cbn [length] in Hq; try lia.
    split_and!; try done. cbn [app]. change (a0 :: ?x) with ([a0;a1;a2;a3;a4;a5;b0;b1;b2;b3;b4;b5;q0;q1;170;170;3;0;0;0] ++ be16 (m_type m) ++ tl). by apply get_be16_at. }
  cbn [mbind option_bind]. closed_ifs. rewrite Et, E0, E6. cbn [mbind option_bind].
  replace (8 + zlen (m_pay m) - 8) with (zlen (m_pay m)) by lia. rewrite E22. cbn [mbind option_bind].
  unfold deliverEthernet. rewrite Ha, !Hb. cbn [negb]. rewrite andb_false_r. cbn [orb].
  replace (14 + (8 + zlen (m_pay m)) + 3) with (zlen (enc_sub m) + 3) by lia. rewrite align_pad by lia.
  rewrite <- zdrop_zdrop by (try lia; apply Z.mod_pos_bound; lia). unfold data. rewrite zdrop_app_exact. unfold eth_of, be16. by rewrite <- !app_assoc.
Qed.

Lemma deAmsdu_enc E ms : forall fuel k, Forall msdu_ok ms -> (forall tr, alloc_ok E tr = true) -> (forall tr off, mbuf_ok E tr off = true) ->
  (length (enc_amsdu ms) <= fuel)%nat ->
  deAmsdu_loop E fuel (enc_amsdu ms) k = Some (fold_left (fun k m => emit (EvInject (eth_of m)) k) ms k).
Proof.
  induction ms as [|m ms IH]; intros fuel k Hms Ha Hb Hf; [by destruct fuel|]. inversion_clear Hms as [|? ? Hm Hms'].
  pose proof (zlen_enc_sub m Hm) as Hz. pose proof (zlen_nonneg (m_pay m)). destruct fuel as [|fuel].
  { exfalso. assert (length (enc_sub m) <= length (enc_amsdu (m :: ms)))%nat; [|unfold zlen in Hz; lia].
    cbn [enc_amsdu]. destruct ms; [done|]. rewrite length_app. lia. }
  destruct ms as [|m' ms].
  - cbn [enc_amsdu]. rewrite <- (app_nil_r (enc_sub m)) at 1. rewrite deAmsdu_sub by done. rewrite zdrop_all by (change (zlen []) with 0; apply Z.mod_pos_bound; lia).
    by destruct fuel.
  - change (enc_amsdu (m :: m' :: ms)) with (enc_sub m ++ zeros (pad4 (zlen (enc_sub m))) ++ enc_amsdu (m' :: ms)) in *.
    rewrite deAmsdu_sub by done. assert (0 <= pad4 (zlen (enc_sub m)) < 4) by (apply Z.mod_pos_bound; lia).
    rewrite zdrop_app_exact' by (rewrite zlen_zeros; lia). rewrite IH; try done. rewrite !length_app in Hf. unfold zlen in Hz. lia.
Qed.

(** Aggregated frames are taken apart exactly.  For every list of MSDUs,
    encoded as an A-MSDU (each subframe but the last padded to four bytes),
    deAmsdu terminates and hands the network stack exactly the Ethernet frames
    of those MSDUs, in order, and nothing else, when allocations succeed. *)
Theorem deamsdu_roundtrip E ms k :
  Forall msdu_ok ms -> (forall tr, alloc_ok E tr = true) -> (forall tr off, mbuf_ok E tr off = true) ->
  deAmsdu E (enc_amsdu ms) k = Some (k <| trace := rev (map (fun m => EvInject (eth_of m)) ms) ++ trace k |>).
Proof.
  intros Hms Ha Hb. unfold deAmsdu. rewrite deAmsdu_enc by done. f_equal. clear. revert k.
  induction ms as [|m ms IH]; intros k; [by destruct k|]. cbn [fold_left map rev]. rewrite IH, <- app_assoc. reflexivity.
Qed.

(** ** AWDL from end to end *)

Lemma eth_split (m : list Z) : 14 <= zlen m -> exists (da sa : list Z) t1 t0 pay, m = da ++ sa ++ [t1; t0] ++ pay /\ zlen da = 6 /\ zlen sa = 6.
Proof.
  intros Hl. unfold zlen in Hl. do 14 (destruct m as [|? m]; [cbn in Hl; lia|]).
  by exists [z; z0; z1; z2; z3; z4], [z5; z6; z7; z8; z9; z10], z11, z12, m.
Qed.

Lemma txAWDL_frame E m k : bytes_ok m -> 14 <= zlen m <= 4096 -> has_op k OpTx = true -> has_vif k = true ->
  (forall tr, alloc_ok E tr = true) -> (forall tr off, mbuf_ok E tr off = true) ->
  exists f k' a b, txAWDLDataFrame E m k = Some (true, k') /\ trace k' = EvTx f :: trace k /\ tx_sta f = false /\ tx_key f = None /\
    tx_data f = hdr_3addr 8 (ztake 6 m) (ztake 6 (zdrop 6 m)) awdlBssid (seq_field (_txSeq k)) ++
      [0xaa; 0xaa; 0x03; 0x00; 0x17; 0xf2; 0x08; 0x00] ++ [0x03; 0x04; a; b; 0; 0; u8 (eth_type m >> 8); u8 (eth_type m)] ++ zdrop 14 m.
Proof.
  intros Hb Hl Ho Hv Ha Hm. unfold txAWDLDataFrame. rewrite Ho, Hv. cbn [andb negb].
  rewrite (proj2 (orb_false_iff _ _)) by (split; apply Z.ltb_ge; lia). rewrite Hm. cbn [negb].
  destruct (eth_head m Hb) as (eh & e12 & e13 & E1 & E2 & E3 & E4 & E6 & E5 & Het); [lia|].
  rewrite E1. cbn [mbind option_bind]. rewrite E2, E3, E4, E6. cbn [mbind option_bind]. rewrite Ha. cbn [negb]. cbn zeta. rewrite E5, Hm, andb_false_r.
  rewrite ldn_Some, (ztake_all (zlen m - 14)) by (rewrite ?zlen_zdrop; lia). cbn [mbind option_bind]. do 4 eexists. split; [reflexivity|]. by split_and!.
Qed.

(** AWDL data crosses from one station to another unchanged.  For every
    Ethernet frame of 14 to 4096 bytes, whatever either object is doing, the
    frame txAWDLDataFrame gives the driver is one that the receiver's
    tryDeliverAWDLDataFrame recognises and turns back into exactly that
    Ethernet frame (when allocations and copies succeed); it goes out without
    station and key, and it leaves the receiver's infrastructure state alone. *)
Theorem awdl_roundtrip E m k r :
  bytes_ok m -> 14 <= zlen m <= 4096 -> has_op k OpTx = true -> has_vif k = true ->
  (forall tr, alloc_ok E tr = true) -> (forall tr off, mbuf_ok E tr off = true) ->
  exists f k', txAWDLDataFrame E m k = Some (true, k') /\ trace k' = EvTx f :: trace k /\ tx_sta f = false /\ tx_key f = None /\
    tryDeliverAWDLDataFrame E (tx_data f) r = Some (true, r <| trace := EvFree (tx_data f) :: EvInjectAWDL m :: trace r |>).
Proof.
  intros Hb Hl Ho Hv Ha Hm. destruct (txAWDL_frame E m k Hb Hl Ho Hv Ha Hm) as (f & k' & a & b & Et & Tr & Hs & Hk & Hf).
  exists f, k'. split_and!; try done. destruct (eth_split m) as (da & sa & t1 & t0 & pay & Em & Hda & Hsa); [lia|].
  destruct (eth_head m Hb) as (_ & _ & _ & _ & _ & _ & _ & _ & _ & Het); [lia|].
  assert (u8 (eth_type m >> 8) = t1 /\ u8 (eth_type m) = t0 /\ is_byte t1 /\ is_byte t0) as (H1 & H0 & B1 & B0).
  { rewrite Em in Hb. rewrite !Forall_app in Hb. destruct Hb as (_ & _ & Hb & _). rewrite !Forall_cons in Hb. destruct Hb as (B1 & B0 & _).
    assert (eth_type m = t1 * 256 + t0) as ->.
    { rewrite Em. destruct (list6 _ Hda) as (?&?&?&?&?&?&->), (list6 _ Hsa) as (?&?&?&?&?&?&->). done. }
    split_and!; try done; unfold in_range in *; euclid. }
  rewrite H1, H0 in Hf. assert (ztake 6 m = da /\ ztake 6 (zdrop 6 m) = sa /\ zdrop 14 m = pay) as (E1 & E2 & E3).
  { rewrite Em. destruct (list6 _ Hda) as (?&?&?&?&?&?&->), (list6 _ Hsa) as (?&?&?&?&?&?&->). by split. }
  rewrite E1, E2, E3 in Hf. set (fr := tx_data f) in *. clearbody fr. subst fr m. clear E1 E2 E3 Et Het.
  destruct (list6 _ Hda) as (d0&d1&d2&d3&d4&d5&->), (list6 _ Hsa) as (s0&s1&s2&s3&s4&s5&->). clear Hda Hsa.
  unfold hdr_3addr, le16. cbn [app awdlBssid]. match goal with |- context [tryDeliverAWDLDataFrame E ?x r] => set (F := x) end. pose proof (zlen_nonneg pay). assert (zlen F = 40 + zlen pay) as HF by (unfold F; rewrite !zlen_cons; lia).
  unfold tryDeliverAWDLDataFrame. rewrite HF, (proj2 (Z.ltb_ge (40 + zlen pay) (24 + 8 + 8))) by lia.
  assert (get_le16 F 0 = Some 8) as -> by reflexivity. cbn [mbind option_bind]. closed_ifs.
  assert (ldn F 4 6 = Some [d0; d1; d2; d3; d4; d5] /\ ldn F 10 6 = Some [s0; s1; s2; s3; s4; s5] /\ ldn F 16 6 = Some awdlBssid /\
    ldn F 24 8 = Some [0xaa; 0xaa; 0x03; 0x00; 0x17; 0xf2; 0x08; 0x00] /\ ldn F 32 2 = Some [0x03; 0x04]) as (-> & -> & -> & L4 & L5)
    by (split_and!; rewrite ldn_Some by lia; reflexivity).
  cbn [mbind option_bind]. rewrite bool_decide_eq_true_2 by done. cbn [negb]. change (ieee80211_get_hdrlen_from_skb 8) with 24.
  rewrite (proj2 (Z.ltb_ge (40 + zlen pay) (24 + 16))) by lia. cbn [orb Z.ltb Z.compare Pos.compare Pos.compare_cont].
  rewrite L4. cbn [mbind option_bind]. rewrite bool_decide_eq_true_2 by done. cbn [negb]. change (24 + 8) with 32. rewrite L5. cbn [mbind option_bind].
  rewrite bool_decide_eq_true_2 by done. cbn [negb]. assert (get_be16 F (24 + 14) = Some (t1 * 256 + t0)) as ->.
  { transitivity (Some (u16 ((t1 << 8) .| t0))); [reflexivity|]. by rewrite be16_lor. }
  cbn [mbind option_bind]. rewrite ldn_Some by lia. cbn [mbind option_bind].
  assert (ztake (40 + zlen pay - (24 + 16)) (zdrop (24 + 16) F) = pay) as ->.
  { replace (40 + zlen pay - (24 + 16)) with (zlen pay) by lia. change (zdrop (24 + 16) F) with pay. by apply ztake_all. }
  unfold deliverAWDLEthernet. rewrite Ha, !Hm. cbn [negb]. rewrite andb_false_r. cbn [orb].
  assert (u8 ((t1 * 256 + t0) >> 8) = t1 /\ u8 (t1 * 256 + t0) = t0) as [-> ->] by (split; unfold in_range in *; euclid).
  reflexivity.
Qed.

(** ** Concrete runs *)

Definition demo_qos_hdr : list Z := [0x88; 0x02; 0; 0] ++ [2; 0; 0; 0; 0; 1] ++ [2; 4; 6; 8; 10; 12] ++ [7; 7; 7; 7; 7; 7].
Definition demo_rx (sn : Z) : list Z := demo_qos_hdr ++ le16 (sn * 16) ++ [0; 0] ++ snap_rfc1042 0x0800 ++ [0x45; 0; 0; sn].
Definition demo_awdl : list Z :=
  hdr_3addr 8 (replicate 6 0xff) [7; 7; 7; 7; 7; 7] awdlBssid 0 ++ [0xaa; 0xaa; 3; 0; 0x17; 0xf2; 8; 0] ++ [3; 4; 0; 0; 0; 0; 0x86; 0xdd] ++ [1; 2].

Lemma demo_rx_ok sn : in_range 8 sn -> rx_ok (demo_rx sn).
Proof.
  intros Hs. split; [done|]. unfold demo_rx. repeat (apply Forall_app; split); try (by apply bytes_okb_ok).
  - unfold le16. change 0xff with (Z.ones 8). repeat constructor; rewrite Z.land_ones by lia; apply Z.mod_pos_bound; lia.
  - repeat constructor; (done || apply Hs).
Qed.

Example rx_run_demo :
  from_option (fun k => List.filter (fun e => match e with EvInject _ | EvInjectAWDL _ => true | _ => false end) (trace k)) []
    (rx_run demo_env stack_ctx [RxData (demo_rx 5); RxAwdl demo_awdl] (demo_kext RTW88_STATE_CONNECTED)) =
  [EvInjectAWDL (replicate 6 0xff ++ [7; 7; 7; 7; 7; 7] ++ [0x86; 0xdd; 1; 2]);
   EvInject ([2; 0; 0; 0; 0; 1] ++ [7; 7; 7; 7; 7; 7] ++ [8; 0; 0x45; 0; 0; 5])].
Proof. reflexivity. Qed.

Lemma rx_path_owned_witness :
  let k := demo_kext RTW88_STATE_CONNECTED in
  let es := [RxData (demo_rx 5); RxAwdl demo_awdl; RxFlush] in
  exists k' evs, rx_run demo_env stack_ctx es k = Some k' /\ kext_wf k' /\ trace k' = evs ++ trace k /\
    concat (map frees evs) ++ buffered (_rxBa k') ≡ₚ concat (map rx_in es) ++ buffered (_rxBa k) /\ (link_ok k -> link_ok k').
Proof.
  intros k es. apply (rx_path_owned demo_env stack_ctx es k); [apply demo_env_ok|done|apply demo_kext_wf|].
  unfold es. decompose_Forall; cbn [rx_in]; decompose_Forall; [by apply demo_rx_ok|split; [done|by apply bytes_okb_ok]].
Defined.

Lemma deamsdu_roundtrip_witness :
  let ms := [mk_msdu [2; 0; 0; 0; 0; 1] [7; 7; 7; 7; 7; 7] 0x800 [0x45; 1; 2]; mk_msdu [2; 0; 0; 0; 0; 1] [9; 9; 9; 9; 9; 9] 0x86dd [0x60]] in
  let k := demo_kext RTW88_STATE_CONNECTED in
  deAmsdu demo_env (enc_amsdu ms) k = Some (k <| trace := rev (map (fun m => EvInject (eth_of m)) ms) ++ trace k |>).
Proof. intros ms k. apply (deamsdu_roundtrip demo_env ms k); [|done|done]. unfold ms. decompose_Forall; by split_and!. Defined.

Lemma awdl_roundtrip_witness :
  let k := demo_kext RTW88_STATE_IDLE in let r := demo_kext RTW88_STATE_CONNECTED in
  exists f k', txAWDLDataFrame demo_env demo_eth k = Some (true, k') /\ trace k' = EvTx f :: trace k /\ tx_sta f = false /\ tx_key f = None /\
    tryDeliverAWDLDataFrame demo_env (tx_data f) r = Some (true, r <| trace := EvFree (tx_data f) :: EvInjectAWDL demo_eth :: trace r |>).
Proof. intros k r. apply (awdl_roundtrip demo_env demo_eth k r); try done. by apply bytes_okb_ok. Defined.
