(* ===== verification/Mac80211.v ===== *)
(** * The mac80211 interface of [src/src/compat/rtw88_compat.c]

    What the driver calls in place of mac80211: the frames it asks for, the
    channel conversions, and the routing of received frames, transmit reports
    and scan ends to the station object, with the lifetime of the hardware
    descriptor ([ieee80211_alloc_hw], [ieee80211_free_hw] of mac80211.h). *)

From S2P Require Import Prelude ListHead Slab Skb Kext Rx.

(** ** Frames built for the firmware's reserved page

    [vif_view] is what they use of [struct ieee80211_vif]. *)

Record vif_view := mk_view { vif_type : Z; bss_bssid : list Z; cfg_aid : Z; vif_addr : list Z }.

Section frames.
Context (IOMalloc : Z -> option (list Z)).

(** A store through [p], which points at [off] in the buffer. *)
Definition put_at (off i : Z) (bs : list Z) (s : sk_buff) : option sk_buff :=
  m ← stn (mem s) (off + i) bs; Some (with_mem s m).

(** [None]: a store outside the buffer; [Some None]: NULL. *)
Definition ieee80211_nullfunc_get (vif : option vif_view) (qos_ok : bool) : option (option sk_buff) :=
  let headroom := 64 in
  let hdr_len := if qos_ok then 26 else 24 in
  match vif with
  | None => Some None
  | Some vif =>
      skb ← alloc_skb IOMalloc (headroom + hdr_len) GFP_ATOMIC;
      match skb with
      | None => Some None
      | Some skb =>
          let skb := skb_reserve skb headroom in
          '(p, skb) ← skb_put_zero skb hdr_len;
          let subtype := if qos_ok then 0xC else 0x4 in
          skb ← put_at p 0 [u8 ((subtype << 4) .| (2 << 2))] skb;
          skb ← put_at p 1 [0x01] skb;
          skb ← put_at p 2 [0; 0] skb;
          skb ← put_at p 4 (bss_bssid vif) skb;
          skb ← put_at p 10 (vif_addr vif) skb;
          skb ← put_at p 16 (bss_bssid vif) skb;
          skb ← put_at p 22 [0; 0] skb;
          skb ← (if qos_ok then put_at p 24 [0; 0] skb else Some skb);
          Some (Some skb)
      end
  end.

Definition ieee80211_pspoll_get (vif : option vif_view) : option (option sk_buff) :=
  let headroom := 64 in
  let frame_len := 16 in
  match vif with
  | None => Some None
  | Some vif =>
      skb ← alloc_skb IOMalloc (headroom + frame_len) GFP_ATOMIC;
      match skb with
      | None => Some None
      | Some skb =>
          let skb := skb_reserve skb headroom in
          '(p, skb) ← skb_put_zero skb frame_len;
          skb ← put_at p 0 [u8 ((0xA << 4) .| (1 << 2))] skb;
          skb ← put_at p 1 [0x00] skb;
          let aid := u16 (cfg_aid vif .| 0xC000) in
          skb ← put_at p 2 [aid .& 0xFF] skb;
          skb ← put_at p 3 [u8 (aid >> 8)] skb;
          skb ← put_at p 4 (bss_bssid vif) skb;
          skb ← put_at p 10 (vif_addr vif) skb;
          Some (Some skb)
      end
  end.
End frames.

Definition ieee80211_vif_type_p2p (vif : option vif_view) : Z :=
  match vif with Some v => u8 (vif_type v) | None => 0 end.

(** ** Channels *)

(** Division in C rounds towards zero; these operands are positive. *)
Definition ieee80211_freq_to_channel (freq : Z) : Z :=
  if (2412 <=? freq) && (freq <=? 2484) then Z.quot (freq - 2407) 5
  else if (5180 <=? freq) && (freq <=? 5825) then Z.quot (freq - 5000) 5
  else 0.
Definition ieee80211_channel_to_frequency (chan band : Z) : Z :=
  if band =? NL80211_BAND_2GHZ then 2407 + chan * 5 else 5000 + chan * 5.

(** ** Smaller helpers *)

Record cfg80211_ssid := mk_ssid { ssid : list Z; ssid_len : Z }.
Definition cfg80211_ssid_eq (a b : option cfg80211_ssid) : option bool :=
  match a, b with
  | Some a, Some b =>
      if negb (ssid_len a =? ssid_len b) then Some false
      else x ← ldn (ssid a) 0 (ssid_len a); y ← ldn (ssid b) 0 (ssid_len a); Some (bool_decide (x = y))
  | _, _ => Some false
  end.

(** [rates\[i\]] as its index, count and flags. *)
Definition IEEE80211_TX_MAX_RATES : Z := 4.
Definition ieee80211_tx_info_clear_status (rates : list (Z * Z * Z)) : option (list (Z * Z * Z)) :=
  stn rates 0 (replicate (Z.to_nat IEEE80211_TX_MAX_RATES) (-1, 0, 0)).

Definition RATE_INFO_FLAGS_MCS : Z := 1 << 0.
Definition RATE_INFO_FLAGS_VHT_MCS : Z := 1 << 1.
Record rate_info := mk_rate { r_flags : Z; legacy : Z; mcs : Z; nss : Z }.
Definition cfg80211_calculate_bitrate (rate : rate_info) : Z :=
  if negb (r_flags rate .& RATE_INFO_FLAGS_VHT_MCS =? 0) then nss rate * (mcs rate + 1) * 1000
  else if negb (r_flags rate .& RATE_INFO_FLAGS_MCS =? 0) then (mcs rate + 1) * 1000
  else u32 (legacy rate * 100).

(** The loop ends with the queue empty: [None] when the fuel does not reach. *)
Definition ieee80211_purge_tx_queue `{L : ListOps} (fuel : nat) (skbs : sk_buff_head) (s : lstore)
    : option (list ptr * sk_buff_head * lstore) :=
  skb_queue_purge fuel skbs s.

(** ** Routing to the station object *)

(** [struct ieee80211_hw] as far as these functions use it: its wiphy's
    address, the back pointer, and that its channel is the static one. *)
Record hw_desc := mk_desc { hw_wiphy : Z; kext_hw : Z }.
#[export] Instance eta_hw_desc : Eta hw_desc := fun h => mk_desc (hw_wiphy h) (kext_hw h).
(** Which members of [struct rtw88_hw_callbacks] are set. *)
Record rtw88_hw_callbacks := mk_cbs { has_rx_frame : bool; has_tx_status : bool; has_scan_done : bool }.

Inductive routed :=
| RxFrame (ctx skb : Z) | TxStatus (ctx skb : Z) | ScanDone (ctx : Z) (aborted : bool)
| FreeSkb (skb : Z) | Iterate (vif : Z).

(** The file's globals, the live descriptors and wiphys, and what was done. *)
Record compat := mk_compat {
  g_hw_cbs : option rtw88_hw_callbacks; g_kext_hw : Z; g_rtw88_hw : Z; g_rtw88_vif : Z;
  hws : gmap Z hw_desc; wiphys : gset Z; routes : list routed }.
#[export] Instance eta_compat : Eta compat := fun c =>
  mk_compat (g_hw_cbs c) (g_kext_hw c) (g_rtw88_hw c) (g_rtw88_vif c) (hws c) (wiphys c) (routes c).
Definition compat_start : compat := mk_compat None 0 0 0 ∅ ∅ [].

Definition route (r : routed) (c : compat) : compat := c <| routes := routes c ++ [r] |>.
(** A read of a descriptor that was freed is a fault. *)
Definition get_hw (hw : Z) (c : compat) : option hw_desc := hws c !! hw.

Definition rtw88_register_vif (vif : Z) (c : compat) : compat := c <| g_rtw88_vif := vif |>.
Definition rtw88_unregister_vif (c : compat) : compat := c <| g_rtw88_vif := 0 |>.
Definition rtw88_register_hw (hw : Z) (c : compat) : compat := c <| g_rtw88_hw := hw |>.
Definition rtw88_unregister_hw (hw : Z) (c : compat) : compat :=
  if g_rtw88_hw c =? hw then c <| g_rtw88_hw := 0 |> else c.
Definition rtw88_get_hw (c : compat) : Z := g_rtw88_hw c.

Definition wiphy_to_ieee80211_hw (wiphy : Z) (c : compat) : option Z :=
  if g_rtw88_hw c =? 0 then Some 0
  else h ← get_hw (g_rtw88_hw c) c; Some (if hw_wiphy h =? wiphy then g_rtw88_hw c else 0).

Definition rtw88_set_hw_callbacks (cbs : option rtw88_hw_callbacks) (k : Z) (c : compat) : option compat :=
  let c := c <| g_hw_cbs := cbs |> <| g_kext_hw := k |> in
  if g_rtw88_hw c =? 0 then Some c
  else
    h ← get_hw (g_rtw88_hw c) c;
    Some (c <| hws := <[g_rtw88_hw c := h <| kext_hw := k |>]> (hws c) |>).

(** What [rtw88_compat_exit] does to these globals. *)
Definition rtw88_compat_exit_cbs (c : compat) : compat := c <| g_hw_cbs := None |> <| g_kext_hw := 0 |> <| g_rtw88_vif := 0 |>.

(** [hw ? hw->kext_hw : NULL], then the fallback. *)
Definition callback_ctx (hw : Z) (c : compat) : option Z :=
  ctx ← (if hw =? 0 then Some 0 else h ← get_hw hw c; Some (kext_hw h));
  Some (if ctx =? 0 then g_kext_hw c else ctx).
Definition ieee80211_rx_irqsafe (hw skb : Z) (c : compat) : option compat :=
  ctx ← callback_ctx hw c;
  match g_hw_cbs c with
  | Some cbs => Some (route (if has_rx_frame cbs then RxFrame ctx skb else FreeSkb skb) c)
  | None => Some (route (FreeSkb skb) c)
  end.
Definition ieee80211_rx_napi (hw skb : Z) (c : compat) : option compat := ieee80211_rx_irqsafe hw skb c.
Definition ieee80211_tx_status_irqsafe (hw skb : Z) (c : compat) : option compat :=
  ctx ← callback_ctx hw c;
  match g_hw_cbs c with
  | Some cbs => Some (route (if has_tx_status cbs then TxStatus ctx skb else FreeSkb skb) c)
  | None => Some (route (FreeSkb skb) c)
  end.
Definition ieee80211_tx_status (hw skb : Z) (c : compat) : option compat := ieee80211_tx_status_irqsafe hw skb c.
Definition ieee80211_free_txskb (skb : Z) (c : compat) : compat := route (FreeSkb skb) c.
(** [info]: [None] is NULL, else its [aborted]. *)
Definition ieee80211_scan_completed (hw : Z) (info : option bool) (c : compat) : option compat :=
  ctx ← callback_ctx hw c;
  match g_hw_cbs c with
  | Some cbs => Some (if has_scan_done cbs then route (ScanDone ctx (default false info)) c else c)
  | None => Some c
  end.
Definition ieee80211_iterate_active_interfaces_atomic (iterator : bool) (c : compat) : compat :=
  if negb (g_rtw88_vif c =? 0) && iterator then route (Iterate (g_rtw88_vif c)) c else c.
Definition ieee80211_iterate_active_interfaces (iterator : bool) (c : compat) : compat :=
  if negb (g_rtw88_vif c =? 0) && iterator then route (Iterate (g_rtw88_vif c)) c else c.

(** [hw] and [wiphy] are what the two allocations return, 0 when they fail. *)
Definition ieee80211_alloc_hw (hw wiphy : Z) (c : compat) : Z * compat :=
  if hw =? 0 then (0, c)
  else if wiphy =? 0 then (0, c)
  else
    let c := c <| hws := <[hw := mk_desc wiphy 0]> (hws c) |> <| wiphys := {[wiphy]} ∪ wiphys c |> in
    (hw, rtw88_register_hw hw c).
(** [kfree] of a wiphy or descriptor that is not live is a fault. *)
Definition ieee80211_free_hw (hw : Z) (c : compat) : option compat :=
  let c := rtw88_unregister_hw hw c in
  if hw =? 0 then Some c
  else
    h ← get_hw hw c;
    if bool_decide (hw_wiphy h ∈ wiphys c) then
      Some (c <| wiphys := wiphys c ∖ {[hw_wiphy h]} |> <| hws := delete hw (hws c) |>)
    else None.

(** ** The frames are the ones of 802.11 *)

Lemma stn_exact {A} (x y w bs : list A) i : zlen x = i -> zlen y = zlen bs -> stn (x ++ y ++ w) i bs = Some (x ++ bs ++ w).
Proof.
  intros Hx Hy. pose proof (zlen_nonneg x). pose proof (zlen_nonneg w). rewrite stn_Some by (rewrite ?zlen_app; lia).
  assert (Hd : zdrop (i + zlen bs) (x ++ y ++ w) = w) by (rewrite app_assoc; apply zdrop_app_exact'; rewrite zlen_app; lia).
  by rewrite (ztake_app_exact' i), Hd.
Qed.
(** A store inside the middle part of a buffer. *)
Lemma stn_middle {A} (a m z bs c : list A) i : stn m i bs = Some c -> stn (a ++ m ++ z) (zlen a + i) bs = Some (a ++ c ++ z).
Proof.
  unfold stn at 1. destruct (_ && _) eqn:E; [|done]. intros [= <-]. bool_hyps. pose proof (zlen_nonneg bs).
  assert (Hm : m = ztake i m ++ ztake (zlen bs) (zdrop i m) ++ zdrop (i + zlen bs) m).
  { rewrite <- (zdrop_zdrop (zlen bs) i) by lia. by rewrite !ztake_zdrop. }
  rewrite Hm at 1. rewrite <- !app_assoc, (app_assoc a).
  rewrite (stn_exact (a ++ ztake i m)); [by rewrite <- !app_assoc|zlen|rewrite zlen_ztake, zlen_zdrop; lia].
Qed.

Lemma put_at_spec s i bs c : skb_wf s -> stn (contents s) i bs = Some c ->
  exists s', put_at (data s) i bs s = Some s' /\ skb_wf s' /\ contents s' = c /\ data s' = data s /\ len s' = len s.
Proof.
  intros W Hc. pose proof (contents_len s W) as Hl. pose proof W as W0. unfold skb_wf in W0.
  pose proof (stn_middle (ztake (data s) (mem s)) _ (zdrop (tail s) (mem s)) _ _ _ Hc) as Hst.
  rewrite <- (mem_split s W), zlen_ztake in Hst. replace (Z.min (Z.max (data s) 0) (zlen (mem s))) with (data s) in Hst by lia.
  unfold put_at. rewrite Hst. cbn [mbind option_bind]. eexists. split; [done|].
  pose proof (stn_zlen _ _ _ _ Hst) as Hz. pose proof (stn_zlen _ _ _ _ Hc) as Hcz. split.
  { unfold skb_wf. cbn. rewrite Hz. intuition lia. }
  split; [|done]. apply (contents_at s _ (data s) (tail s) (len s) (ztake (data s) (mem s)) c (zdrop (tail s) (mem s))); [|lia|done].
  rewrite zlen_ztake. lia.
Qed.

Lemma put_zero_data s n s' : 0 <= n -> skb_put_data s (zeros n) = Some s' -> skb_put_zero s n = Some (tail s, s').
Proof.
  intros Hn. unfold skb_put_data, skb_put_zero. replace (zlen (zeros n)) with n by zlen. simpl.
  destruct (stn _ _ _); simpl; congruence.
Qed.

(** An empty frame of [n] zero bytes behind 64 bytes of headroom. *)
Definition frame_of (c : list Z) (s : sk_buff) : Prop := skb_wf s /\ contents s = c /\ data s = 64.
Lemma blank_frame IOMalloc n : IOMalloc_sized IOMalloc -> 0 <= n <= 64 ->
  alloc_skb IOMalloc (64 + n) GFP_ATOMIC = Some None \/
  exists s s', alloc_skb IOMalloc (64 + n) GFP_ATOMIC = Some (Some s) /\
    skb_put_zero (skb_reserve s 64) n = Some (64, s') /\ frame_of (zeros n) s'.
Proof.
  intros Hsz Hn. destruct (alloc_skb_spec IOMalloc Hsz (64 + n) GFP_ATOMIC ltac:(lia) ltac:(lia))
    as [H|(s & H & W & Hl & Hh & Ht & Hd & Htl & _)]; [by left|right].
  destruct (skb_reserve_spec s 64 W Hl ltac:(lia)) as (W1 & C1 & H1 & T1).
  assert (Hzl : zlen (zeros n) = n) by zlen.
  destruct (skb_put_data_spec _ (zeros n) W1) as (s' & Hp & W' & C' & D' & _ & _); [lia|].
  rewrite C1 in C'. exists s, s'. split; [done|]. apply put_zero_data in Hp; [|lia].
  replace (tail (skb_reserve s 64)) with 64 in Hp by (simpl; lia).
  split; [done|]. split; [done|]. split; [done|]. rewrite D'. simpl. lia.
Qed.

Lemma put_frame i bs m c s : frame_of m s -> stn m i bs = Some c ->
  exists s', put_at 64 i bs s = Some s' /\ frame_of c s'.
Proof.
  intros (W & Hc & Hd) Hst. rewrite <- Hc in Hst. destruct (put_at_spec s i bs c W Hst) as (s' & H1 & H2 & H3 & H4 & _).
  rewrite Hd in *. by exists s'.
Qed.
(** The next store of a frame whose bytes are known. *)
Ltac put_step :=
  match goal with
  | F : frame_of ?m ?s |- context [put_at 64 ?i ?bs ?s] =>
      let s' := fresh "s" in let E := fresh "E" in let F' := fresh "F" in
      destruct (put_frame i bs m _ s F eq_refl) as (s' & E & F'); rewrite E; cbn [mbind option_bind]; clear F E
  end.

(** The header of a null frame, as 802.11 lays it out: frame control, duration,
    receiver (the AP), transmitter, destination, sequence, QoS control. *)
Definition null_header (v : vif_view) (qos : bool) : list Z :=
  [if qos then 0xC8 else 0x48; 0x01; 0; 0] ++ bss_bssid v ++ vif_addr v ++ bss_bssid v ++ [0; 0] ++
  (if qos then [0; 0] else []).
(** A PS-Poll: frame control, AID with the top two bits set, BSSID, sender. *)
Definition pspoll_header (v : vif_view) : list Z :=
  let aid := u16 (cfg_aid v .| 0xC000) in [0xA4; 0; aid .& 0xFF; u8 (aid >> 8)] ++ bss_bssid v ++ vif_addr v.

Definition view_ok (v : vif_view) : Prop := length (bss_bssid v) = 6%nat /\ length (vif_addr v) = 6%nat.

Lemma nullfunc_exact IOMalloc v qos : IOMalloc_sized IOMalloc -> view_ok v ->
  ieee80211_nullfunc_get IOMalloc (Some v) qos = Some None \/
  exists s, ieee80211_nullfunc_get IOMalloc (Some v) qos = Some (Some s) /\ frame_of (null_header v qos) s.
Proof.
  intros Hsz [Hb Ha]. unfold ieee80211_nullfunc_get, null_header. destruct v as [ty b aid a]. simpl in Hb, Ha.
  destruct b as [|b0 [|b1 [|b2 [|b3 [|b4 [|b5 [|]]]]]]]; try done.
  destruct a as [|a0 [|a1 [|a2 [|a3 [|a4 [|a5 [|]]]]]]]; try done. cbn [bss_bssid vif_addr]. destruct qos.
  - destruct (blank_frame IOMalloc 26 Hsz ltac:(lia)) as [->|(s & s' & -> & E & F)]; [by left|right].
    cbn [mbind option_bind]. rewrite E. cbn [mbind option_bind]. change (zeros 26) with (replicate 26 0) in F. simpl in F.
    clear E. repeat put_step. eexists. split; [done|]. done.
  - destruct (blank_frame IOMalloc 24 Hsz ltac:(lia)) as [->|(s & s' & -> & E & F)]; [by left|right].
    cbn [mbind option_bind]. rewrite E. cbn [mbind option_bind]. change (zeros 24) with (replicate 24 0) in F. simpl in F.
    clear E. repeat put_step. eexists. split; [done|]. done.
Qed.

Lemma pspoll_exact IOMalloc v : IOMalloc_sized IOMalloc -> view_ok v ->
  ieee80211_pspoll_get IOMalloc (Some v) = Some None \/
  exists s, ieee80211_pspoll_get IOMalloc (Some v) = Some (Some s) /\ frame_of (pspoll_header v) s.
Proof.
  intros Hsz [Hb Ha]. unfold ieee80211_pspoll_get, pspoll_header. destruct v as [ty b aid a]. simpl in Hb, Ha.
  destruct b as [|b0 [|b1 [|b2 [|b3 [|b4 [|b5 [|]]]]]]]; try done.
  destruct a as [|a0 [|a1 [|a2 [|a3 [|a4 [|a5 [|]]]]]]]; try done. cbn [bss_bssid vif_addr cfg_aid].
  destruct (blank_frame IOMalloc 16 Hsz ltac:(lia)) as [->|(s & s' & -> & E & F)]; [by left|right].
  cbn [mbind option_bind]. rewrite E. cbn [mbind option_bind]. change (zeros 16) with (replicate 16 0) in F. simpl in F.
  clear E. repeat put_step. eexists. split; [done|]. done.
Qed.

(** Room for a descriptor of [n] bytes, and the frame behind it. *)
Lemma frame_push c s n : frame_of c s -> 0 <= n <= 64 ->
  skb_wf (snd (skb_push s n)) /\ exists d, zlen d = n /\ contents (snd (skb_push s n)) = d ++ c.
Proof.
  intros (W & Hc & Hd) Hn. destruct (skb_push_spec s n W) as (W' & d & H1 & H2 & _).
  - unfold skb_headroom. rewrite Hd, wrap_small by (split; lia). lia.
  - split; [done|]. exists d. by rewrite H2, Hc.
Qed.

Definition frame_answer (c : list Z) (n : Z) (r : option (option sk_buff)) : Prop :=
  r = Some None \/ exists s, r = Some (Some s) /\ contents s = c /\ skb_wf (snd (skb_push s n)) /\
    exists d, zlen d = n /\ contents (snd (skb_push s n)) = d ++ c.

(** The frames the firmware keeps are the ones of 802.11.  For every
    allocator, address, BSSID and AID, ieee80211_nullfunc_get (with and without
    QoS) and ieee80211_pspoll_get either return NULL for lack of memory, or a
    well-formed buffer that holds exactly the frame, with room in front for a
    descriptor of up to 64 bytes; the header-length helper and the QoS test
    agree with the null frame's own length and kind. *)
Theorem reserved_page_frames IOMalloc v qos n :
  IOMalloc_sized IOMalloc -> view_ok v -> 0 <= n <= 64 ->
  frame_answer (null_header v qos) n (ieee80211_nullfunc_get IOMalloc (Some v) qos) /\
  frame_answer (pspoll_header v) n (ieee80211_pspoll_get IOMalloc (Some v)) /\
  (exists fc, get_le16 (null_header v qos) 0 = Some fc /\ ieee80211_is_data_qos fc = qos /\
    ieee80211_is_nullfunc fc = negb qos /\ ieee80211_get_hdrlen_from_skb fc = zlen (null_header v qos)).
Proof.
  intros Hsz Hv Hn. split_and!.
  - destruct (nullfunc_exact IOMalloc v qos Hsz Hv) as [H|(s & H & F)]; [by left|right]. exists s.
    destruct (frame_push _ s n F Hn) as [H1 H2]. split; [done|]. split; [apply F|]. by split.
  - destruct (pspoll_exact IOMalloc v Hsz Hv) as [H|(s & H & F)]; [by left|right]. exists s.
    destruct (frame_push _ s n F Hn) as [H1 H2]. split; [done|]. split; [apply F|]. by split.
  - destruct Hv as [Hb Ha]. assert (Hl : zlen (null_header v qos) = if qos then 26 else 24).
    { unfold null_header, zlen. rewrite !length_app, Hb, Ha. by destruct qos. }
    rewrite Hl. exists (if qos then 0x1C8 else 0x148). destruct qos; vm_compute; done.
Qed.
Definition demo_view : vif_view := mk_view 2 [2; 4; 6; 8; 10; 12] 5 [1; 3; 5; 7; 9; 11].
Lemma reserved_page_frames_witness :
  frame_answer (null_header demo_view true) 48 (ieee80211_nullfunc_get demo_IOMalloc (Some demo_view) true) /\
  frame_answer (pspoll_header demo_view) 48 (ieee80211_pspoll_get demo_IOMalloc (Some demo_view)) /\
  (exists fc, get_le16 (null_header demo_view true) 0 = Some fc /\ ieee80211_is_data_qos fc = true /\
    ieee80211_is_nullfunc fc = negb true /\ ieee80211_get_hdrlen_from_skb fc = zlen (null_header demo_view true)).
Proof. apply (reserved_page_frames demo_IOMalloc demo_view true 48); [exact demo_IOMalloc_sized|split; reflexivity|lia]. Defined.
Example demo_pspoll : option_map (option_map contents) (ieee80211_pspoll_get demo_IOMalloc (Some demo_view)) =
  Some (Some [0xA4; 0; 5; 0xC0; 2; 4; 6; 8; 10; 12; 1; 3; 5; 7; 9; 11]).
Proof. reflexivity. Qed.

(** ** Channels *)

Lemma channel_roundtrip chan :
  (1 <= chan <= 13 -> ieee80211_freq_to_channel (ieee80211_channel_to_frequency chan NL80211_BAND_2GHZ) = chan) /\
  (36 <= chan <= 165 -> ieee80211_freq_to_channel (ieee80211_channel_to_frequency chan NL80211_BAND_5GHZ) = chan).
Proof.
  unfold ieee80211_freq_to_channel, ieee80211_channel_to_frequency, NL80211_BAND_2GHZ, NL80211_BAND_5GHZ.
  split; intros Hc; simpl Z.eqb; cbv iota.
  - replace ((2412 <=? 2407 + chan * 5) && (2407 + chan * 5 <=? 2484)) with true by case_cmp.
    replace (2407 + chan * 5 - 2407) with (chan * 5) by lia. by rewrite Z.quot_mul.
  - replace ((2412 <=? 5000 + chan * 5) && (5000 + chan * 5 <=? 2484)) with false by case_cmp.
    replace ((5180 <=? 5000 + chan * 5) && (5000 + chan * 5 <=? 5825)) with true by case_cmp.
    replace (5000 + chan * 5 - 5000) with (chan * 5) by lia. by rewrite Z.quot_mul.
Qed.
(** Channel 14, at 2484 MHz, is off the raster of 5 MHz. *)
Example channel_14 : ieee80211_freq_to_channel 2484 = 15 /\ ieee80211_channel_to_frequency 14 NL80211_BAND_2GHZ = 2477.
Proof. done. Qed.

(** ** Routing: any history of the descriptor, the callbacks and the frames *)

Inductive hw_event :=
| EvAllocHw (hw wiphy : Z) | EvFreeHw (hw : Z) | EvSetCbs (cbs : option rtw88_hw_callbacks) (k : Z)
| EvRx (hw skb : Z) | EvTx (hw skb : Z) | EvFreeTx (skb : Z) | EvScanCompleted (hw : Z) (info : option bool)
| EvSetVif (vif : Z) | EvIterate (iterator : bool) | EvExit.

Definition hw_exec (e : hw_event) (c : compat) : option compat :=
  match e with
  | EvAllocHw hw wiphy => Some (snd (ieee80211_alloc_hw hw wiphy c))
  | EvFreeHw hw => ieee80211_free_hw hw c
  | EvSetCbs cbs k => rtw88_set_hw_callbacks cbs k c
  | EvRx hw skb => ieee80211_rx_napi hw skb c
  | EvTx hw skb => ieee80211_tx_status hw skb c
  | EvFreeTx skb => Some (ieee80211_free_txskb skb c)
  | EvScanCompleted hw info => ieee80211_scan_completed hw info c
  | EvSetVif vif => Some (if vif =? 0 then rtw88_unregister_vif c else rtw88_register_vif vif c)
  | EvIterate iterator => Some (ieee80211_iterate_active_interfaces iterator c)
  | EvExit => Some (rtw88_compat_exit_cbs c)
  end.

(** What the driver and the station object promise: one descriptor at a time,
    calls with a live one (or none), callbacks together with their object. *)
Definition hw_live (hw : Z) (c : compat) : Prop := hw = 0 \/ is_Some (hws c !! hw).
Definition hw_event_ok (e : hw_event) (c : compat) : Prop :=
  match e with
  | EvAllocHw _ _ | EvExit => hws c = ∅
  | EvFreeHw hw | EvRx hw _ | EvTx hw _ | EvScanCompleted hw _ => hw_live hw c
  | EvSetCbs cbs k => cbs = None /\ k = 0 \/ cbs <> None /\ k <> 0
  | _ => True
  end.
Fixpoint hw_run (es : list hw_event) (c : compat) : option compat :=
  match es with [] => Some c | e :: es => c ← hw_exec e c; hw_run es c end.
Fixpoint hw_run_ok (es : list hw_event) (c : compat) : Prop :=
  match es with
  | [] => True
  | e :: es => hw_event_ok e c /\ match hw_exec e c with Some c => hw_run_ok es c | None => True end
  end.

(** The contract: the frames go to the object registered last, or are freed;
    descriptors do not matter. *)
Record router := mk_router { object : option (rtw88_hw_callbacks * Z); interface : Z }.
Definition hand (has : rtw88_hw_callbacks -> bool) (r : router) (to : Z -> routed) (otherwise : list routed) : list routed :=
  match object r with Some (cbs, k) => if has cbs then [to k] else otherwise | None => otherwise end.
Definition router_step (e : hw_event) (r : router) : router * list routed :=
  match e with
  | EvAllocHw _ _ | EvFreeHw _ => (r, [])
  | EvSetCbs cbs k => (mk_router ((fun cbs => (cbs, k)) <$> cbs) (interface r), [])
  | EvRx _ skb => (r, hand has_rx_frame r (fun k => RxFrame k skb) [FreeSkb skb])
  | EvTx _ skb => (r, hand has_tx_status r (fun k => TxStatus k skb) [FreeSkb skb])
  | EvFreeTx skb => (r, [FreeSkb skb])
  | EvScanCompleted _ info => (r, hand has_scan_done r (fun k => ScanDone k (default false info)) [])
  | EvSetVif vif => (mk_router (object r) vif, [])
  | EvExit => (mk_router None 0, [])
  | EvIterate iterator => (r, if negb (interface r =? 0) && iterator then [Iterate (interface r)] else [])
  end.
Fixpoint router_run (es : list hw_event) (r : router) : list routed :=
  match es with [] => [] | e :: es => let '(r, l) := router_step e r in l ++ router_run es r end.

(** No descriptor, or one that is registered and points to nobody or to the
    object. *)
Definition hw_inv (c : compat) : Prop :=
  (hws c = ∅ /\ g_rtw88_hw c = 0) \/
  exists hw h, hw <> 0 /\ hws c = {[hw := h]} /\ g_rtw88_hw c = hw /\ hw_wiphy h ∈ wiphys c /\
    (kext_hw h = 0 \/ kext_hw h = g_kext_hw c).
Definition router_of (c : compat) (r : router) : Prop :=
  g_rtw88_vif c = interface r /\
  match g_hw_cbs c with Some cbs => object r = Some (cbs, g_kext_hw c) /\ g_kext_hw c <> 0 | None => object r = None /\ g_kext_hw c = 0 end.

Lemma callback_ctx_ok hw c : hw_inv c -> hw_live hw c -> callback_ctx hw c = Some (g_kext_hw c).
Proof.
  unfold callback_ctx, get_hw. intros Hi Hl. destruct (Z.eqb_spec hw 0) as [->|Hne]; [done|].
  destruct Hl as [?|[h Hh]]; [done|]. rewrite Hh. cbn [mbind option_bind]. f_equal.
  destruct Hi as [[He _]|(hw' & h' & _ & Hm & _ & _ & Hk)]; [by rewrite He in Hh|].
  rewrite Hm in Hh. apply lookup_singleton_Some in Hh as [-> ->].
  destruct Hk as [-> | ->]; [done|]. by destruct (g_kext_hw c =? 0).
Qed.

Lemma route_inv r c : hw_inv c -> hw_inv (route r c).
Proof. done. Qed.
Lemma route_of r c ro : router_of c ro -> router_of (route r c) ro.
Proof. done. Qed.

(** One event: no fault, the contract's state and frames. *)
Definition event_refines (e : hw_event) (c : compat) (r : router) : Prop :=
  exists c', hw_exec e c = Some c' /\ hw_inv c' /\ router_of c' (fst (router_step e r)) /\
    routes c' = routes c ++ snd (router_step e r).

(** The three calls that hand something to the object. *)
Lemma handed (has : rtw88_hw_callbacks -> bool) (to : Z -> routed) otherwise c r c' : hw_inv c -> router_of c r ->
  c' = (match g_hw_cbs c with
        | Some cbs => if has cbs then route (to (g_kext_hw c)) c else foldr (fun x c => route x c) c otherwise
        | None => foldr (fun x c => route x c) c otherwise end) -> (length otherwise <= 1)%nat ->
  hw_inv c' /\ router_of c' r /\ routes c' = routes c ++ hand has r to otherwise.
Proof.
  intros Hi Hr -> Ho. unfold hand. destruct Hr as [Hv Hr].
  assert (Hrest : let c' := foldr (fun x c => route x c) c otherwise in
    hw_inv c' /\ router_of c' r /\ routes c' = routes c ++ otherwise).
  { assert (router_of c r) by by split. destruct otherwise as [|x [|y l]]; simpl in *; [|done|lia]. by rewrite app_nil_r. }
  destruct (g_hw_cbs c) as [cbs|] eqn:Ec.
  - destruct Hr as [Ho' Hk]. rewrite Ho'. destruct (has cbs); [|exact Hrest]. split; [done|]. split; [|done].
    split; [done|]. simpl. by rewrite Ec.
  - destruct Hr as [Ho' Hk]. rewrite Ho'. exact Hrest.
Qed.

Lemma set_cbs_refines cbs k c r : hw_inv c -> router_of c r -> hw_event_ok (EvSetCbs cbs k) c ->
  event_refines (EvSetCbs cbs k) c r.
Proof.
  intros Hi [Hv Hr] Hok. unfold event_refines. cbn [hw_exec router_step fst snd]. unfold rtw88_set_hw_callbacks.
  assert (Hro : forall c', g_hw_cbs c' = cbs -> g_kext_hw c' = k -> g_rtw88_vif c' = g_rtw88_vif c ->
    router_of c' (mk_router ((fun cbs => (cbs, k)) <$> cbs) (interface r))).
  { intros c' H1 H2 H3. split; [by rewrite H3|]. rewrite H1, H2. simpl in Hok. destruct cbs; simpl; intuition congruence. }
  destruct Hi as [[He Hg]|(hw & h & Hne & Hm & Hg & Hw & Hk)]; simpl; rewrite Hg.
  - eexists. split; [done|]. rewrite app_nil_r. split; [by left|]. split; [by apply Hro|done].
  - rewrite (proj2 (Z.eqb_neq hw 0)) by done. unfold get_hw. simpl. rewrite Hm, lookup_singleton_eq. simpl.
    eexists. split; [done|]. rewrite app_nil_r. split; [|split; [by apply Hro|done]].
    right. exists hw, (h <| kext_hw := k |>). simpl. rewrite insert_singleton_eq. split_and!; try done. by right.
Qed.

Lemma alloc_hw_refines hw wiphy c r : hw_inv c -> router_of c r -> hws c = ∅ -> event_refines (EvAllocHw hw wiphy) c r.
Proof.
  intros Hi Hr He. unfold event_refines. cbn [hw_exec router_step fst snd]. unfold ieee80211_alloc_hw. rewrite app_nil_r.
  destruct (Z.eqb_spec hw 0); [by exists c|]. destruct (Z.eqb_spec wiphy 0); [by exists c|].
  eexists. split; [done|]. split; [|done]. right. exists hw, (mk_desc wiphy 0). simpl. rewrite He. split_and!; try done.
  - set_solver.
  - by left.
Qed.

Lemma free_hw_refines hw c r : hw_inv c -> router_of c r -> hw_live hw c -> event_refines (EvFreeHw hw) c r.
Proof.
  intros Hi [Hv Hr] Hl. unfold event_refines. cbn [hw_exec router_step fst snd]. rewrite app_nil_r.
  assert (Hun : forall c1, c1 = rtw88_unregister_hw hw c -> hws c1 = hws c /\ wiphys c1 = wiphys c /\ routes c1 = routes c /\ router_of c1 r).
  { intros c1 ->. unfold rtw88_unregister_hw. by destruct (_ =? _). }
  destruct (Hun _ eq_refl) as (H1 & H2 & H3 & H4). unfold ieee80211_free_hw, get_hw. cbv zeta.
  destruct Hi as [[He Hg]|(hw' & h & Hne & Hm & Hg & Hw & Hk)].
  - destruct Hl as [->|[h Hh]]; [|by rewrite He in Hh]. change (0 =? 0) with true. cbv iota. eexists. split; [done|]. split; [|done].
    left. rewrite H1. split; [done|]. unfold rtw88_unregister_hw. by destruct (_ =? _).
  - destruct (Z.eqb_spec hw 0) as [->|Hz].
    + eexists. split; [done|]. split; [|done]. right. exists hw', h. unfold rtw88_unregister_hw.
      rewrite Hg, (proj2 (Z.eqb_neq hw' 0)) by done. done.
    + destruct Hl as [?|[h' Hh]]; [done|]. pose proof Hh as Hh1. rewrite Hm in Hh1.
      apply lookup_singleton_Some in Hh1 as [-> ->]. rewrite H1, Hh. cbn [mbind option_bind].
      rewrite H2, bool_decide_eq_true_2 by done. eexists. split; [done|]. split; [|done].
      left. simpl. rewrite Hm. split; [apply delete_singleton_eq|].
      unfold rtw88_unregister_hw. by rewrite Hg, Z.eqb_refl.
Qed.

Lemma event_ok e c r : hw_inv c -> router_of c r -> hw_event_ok e c -> event_refines e c r.
Proof.
  intros Hi Hr Hok. destruct e as [hw wiphy|hw|cbs k|hw skb|hw skb|skb|hw info|vif|it|].
  - by apply alloc_hw_refines.
  - by apply free_hw_refines.
  - by apply set_cbs_refines.
  - unfold event_refines. cbn [hw_exec]. unfold ieee80211_rx_napi, ieee80211_rx_irqsafe.
    rewrite callback_ctx_ok by done. cbn [mbind option_bind].
    destruct (handed has_rx_frame (fun k => RxFrame k skb) [FreeSkb skb] c r _ Hi Hr eq_refl) as (H1 & H2 & H3); [done|].
    eexists. split; [|exact (conj H1 (conj H2 H3))]. simpl. destruct (g_hw_cbs c) as [cbs|]; [by destruct (has_rx_frame cbs)|done].
  - unfold event_refines. cbn [hw_exec]. unfold ieee80211_tx_status, ieee80211_tx_status_irqsafe.
    rewrite callback_ctx_ok by done. cbn [mbind option_bind].
    destruct (handed has_tx_status (fun k => TxStatus k skb) [FreeSkb skb] c r _ Hi Hr eq_refl) as (H1 & H2 & H3); [done|].
    eexists. split; [|exact (conj H1 (conj H2 H3))]. simpl. destruct (g_hw_cbs c) as [cbs|]; [by destruct (has_tx_status cbs)|done].
  - by eexists.
  - unfold event_refines. cbn [hw_exec]. unfold ieee80211_scan_completed.
    rewrite callback_ctx_ok by done. cbn [mbind option_bind].
    destruct (handed has_scan_done (fun k => ScanDone k (default false info)) [] c r _ Hi Hr eq_refl) as (H1 & H2 & H3); [simpl; lia|].
    eexists. split; [|exact (conj H1 (conj H2 H3))]. simpl. destruct (g_hw_cbs c) as [cbs|]; done.
  - eexists. split; [done|]. rewrite app_nil_r. destruct Hr as [Hv Hr].
    destruct (Z.eqb_spec vif 0) as [->|]; (split; [done|]); (split; [|done]); by split.
  - eexists. split; [done|]. unfold ieee80211_iterate_active_interfaces. destruct Hr as [Hv Hr]. simpl. rewrite Hv.
    destruct (_ && _); simpl; [|by rewrite app_nil_r]. split; [done|]. split; [by split|done].
  - eexists. split; [done|]. cbn [router_step fst snd]. rewrite app_nil_r.
    destruct Hi as [Hi|(hw & h & _ & Hm & _)]; [by split; [left|]|].
    simpl in Hok. rewrite Hm in Hok. by apply map_non_empty_singleton in Hok.
Qed.

(** C32: what the driver gives up reaches the station object or is freed.  For
    every history in which the driver keeps one hardware descriptor at a time
    and calls with a live one, and the object registers and unregisters its
    callbacks at any moment (also before the descriptor exists), and the layer
    exits without a descriptor: no descriptor
    is used after it was freed, and what happens to the frames is exactly the
    contract's: each received frame and transmit report goes once to the object
    registered at that moment, with that object as context and never a null
    one, and is freed once when there is none; scan ends likewise; the
    interface iterator sees the registered interface. *)
Theorem compat_routes es : forall c r, hw_inv c -> router_of c r -> hw_run_ok es c ->
  exists c', hw_run es c = Some c' /\ routes c' = routes c ++ router_run es r.
Proof.
  induction es as [|e es IH]; intros c r Hi Hr Hok; simpl; [exists c; by rewrite app_nil_r|].
  destruct Hok as [He Hok]. destruct (event_ok e c r Hi Hr He) as (c1 & E & Hi1 & Hr1 & H1). rewrite E in *. simpl.
  destruct (router_step e r) as [r1 l]. simpl in *. destruct (IH c1 r1 Hi1 Hr1 Hok) as (c2 & E2 & H2).
  exists c2. split; [done|]. by rewrite H2, H1, app_assoc.
Qed.

(** The test for [hw_run_ok], for concrete histories. *)
Definition hw_liveb (hw : Z) (c : compat) : bool := (hw =? 0) || match hws c !! hw with Some _ => true | None => false end.
Definition hw_event_okb (e : hw_event) (c : compat) : bool :=
  match e with
  | EvAllocHw _ _ | EvExit => match map_to_list (hws c) with [] => true | _ => false end
  | EvFreeHw hw | EvRx hw _ | EvTx hw _ | EvScanCompleted hw _ => hw_liveb hw c
  | EvSetCbs cbs k => match cbs with None => k =? 0 | Some _ => negb (k =? 0) end
  | _ => true
  end.
Fixpoint hw_run_okb (es : list hw_event) (c : compat) : bool :=
  match es with
  | [] => true
  | e :: es => hw_event_okb e c && match hw_exec e c with Some c => hw_run_okb es c | None => true end
  end.
Lemma hw_event_okb_ok e c : hw_event_okb e c = true -> hw_event_ok e c.
Proof.
  assert (Hl : forall hw, hw_liveb hw c = true -> hw_live hw c).
  { intros hw [H%Z.eqb_eq|H]%orb_true_iff; [by left|right]. by destruct (hws c !! hw). }
  destruct e; simpl; auto.
  - destruct (map_to_list (hws c)) eqn:E; [|done]. intros _. by apply map_to_list_empty_iff.
  - destruct cbs; intros H; bool_hyps; [by right|by left].
  - destruct (map_to_list (hws c)) eqn:E; [|done]. intros _. by apply map_to_list_empty_iff.
Qed.
Lemma hw_run_okb_ok es : forall c, hw_run_okb es c = true -> hw_run_ok es c.
Proof.
  induction es as [|e es IH]; intros c H; simpl in *; [done|]. apply andb_prop in H as [H1 H2].
  split; [by apply hw_event_okb_ok|]. destruct (hw_exec e c); auto.
Qed.

Definition demo_cbs : rtw88_hw_callbacks := mk_cbs true true true.
Definition demo_hw_events : list hw_event :=
  [EvRx 0 1; EvSetCbs (Some demo_cbs) 900; EvAllocHw 100 200; EvRx 100 2; EvTx 100 3; EvScanCompleted 100 (Some true);
   EvSetVif 300; EvIterate true; EvSetCbs None 0; EvTx 100 4; EvFreeHw 100; EvRx 0 5].
Lemma compat_routes_witness : exists c', hw_run demo_hw_events compat_start = Some c' /\
  routes c' = routes compat_start ++
    [FreeSkb 1; RxFrame 900 2; TxStatus 900 3; ScanDone 900 true; Iterate 300; FreeSkb 4; FreeSkb 5].
Proof.
  apply (compat_routes demo_hw_events compat_start (mk_router None 0)).
  - left. split; reflexivity.
  - repeat split.
  - apply hw_run_okb_ok. vm_compute. reflexivity.
Defined.
