(* ===== verification/Mgmt.v ===== *)
(** * Management frames

    Response validation ([src/src/kext/RTW88MgmtValidation.hpp]) and, from
    [src/src/kext/RTW88IEEE80211.cpp]: [buildAuthReq], [buildAssocReq],
    [doAssociate], [cmdSetAssocRsnIE], [copyTargetIEs], [copyTargetRsnIE],
    [processAssocResponse], [handleBackAction], [processRxMgmt], [rxFrame]. *)

From S2P Require Import Prelude Rsn Bss Kdf Reorder Kext Tx Eapol Rx.

Definition WLAN_EID_EXT_SUPP_RATES : Z := 50.
Definition WLAN_EID_HT_CAPABILITY : Z := 45.
Definition WLAN_EID_VHT_CAPABILITY : Z := 191.
Definition IEEE80211_STYPE_ASSOC_REQ : Z := 0x0000.
Definition IEEE80211_STYPE_AUTH : Z := 0x00B0.
Definition IEEE80211_HT_CAP_SUP_WIDTH_20_40 : Z := 0x0002.
Definition IEEE80211_HT_CAP_SGI_40 : Z := 0x0040.
Definition IEEE80211_HT_CAP_DSSSCCK40 : Z := 0x1000.
Definition IEEE80211_STA_RX_BW_20 : Z := 0.
Definition IEEE80211_STA_RX_BW_40 : Z := 1.
Definition IEEE80211_STA_RX_BW_80 : Z := 2.
Definition kIOReturnNoSpace : Z := 0xe00002db.
Definition kIOReturnNotFound : Z := 0xe00002f0.

(** ** Validation of responses *)

(** The address loop: [f[4+i] == mac[i] && f[10+i] == bssid[i] && f[16+i] == bssid[i]]. *)
Fixpoint peer_loop (idx : list Z) (f mac bssid : list Z) : option bool :=
  match idx with
  | [] => Some true
  | i :: idx =>
      x ← ld f (4 + i); m ← ld mac i;
      if negb (x =? m) then Some false
      else
        y ← ld f (10 + i); b ← ld bssid i;
        if negb (y =? b) then Some false
        else z ← ld f (16 + i); if negb (z =? b) then Some false else peer_loop idx f mac bssid
  end.

Definition rtw88ResponsePeer (f mac bssid : list Z) : option bool :=
  if zlen f <? 30 then Some false else peer_loop [0; 1; 2; 3; 4; 5] f mac bssid.

(** [Some None]: false; [Some (Some status)]: true. *)
Definition rtw88AuthResponse (f mac bssid : list Z) : option (option Z) :=
  ok ← rtw88ResponsePeer f mac bssid;
  if negb ok then Some None
  else
    f0 ← ld f 0; f24 ← ld f 24; f25 ← ld f 25; f26 ← ld f 26; f27 ← ld f 27;
    if negb (f0 .& 0xfc =? 0xb0) || negb (f24 =? 0) || negb (f25 =? 0) || negb (f26 =? 2) || negb (f27 =? 0) then Some None
    else f28 ← ld f 28; f29 ← ld f 29; Some (Some (f28 .| u16 (f29 << 8))).

(** [Some (Some (status, aid))]: true. *)
Definition rtw88AssocResponse (f mac bssid : list Z) : option (option (Z * Z)) :=
  ok ← rtw88ResponsePeer f mac bssid;
  if negb ok then Some None
  else
    f0 ← ld f 0;
    if negb (f0 .& 0xfc =? 0x10) && negb (f0 .& 0xfc =? 0x30) then Some None
    else
      f26 ← ld f 26; f27 ← ld f 27; f28 ← ld f 28; f29 ← ld f 29;
      let status := f26 .| u16 (f27 << 8) in
      let aid := (f28 .| u16 (f29 << 8)) .& 0x3fff in
      if negb (status =? 0) || ((1 <=? aid) && (aid <=? 2007)) then Some (Some (status, aid)) else Some None.

(** ** Building requests *)

(** [memcpy(body, v, n); body += n] in a buffer written up to [snd bp]. *)
Definition wr (v : list Z) (bp : list Z * Z) : option (list Z * Z) := b ← stn (fst bp) (snd bp) v; Some (b, snd bp + zlen v).

Definition buildAuthReq (k : kext) : list Z * kext :=
  let '(sn, k) := next_txSeq k in
  let a := bssid (_targetBSS k) in
  (hdr_3addr (IEEE80211_FTYPE_MGMT .| IEEE80211_STYPE_AUTH) a (_macAddr k) a (u16 (sn << 4)) ++ [0; 0; 1; 0; 0; 0], k).

Definition ext_rates_2g : list Z := [0x30; 0x48; 0x60; 0x6c].
Definition wme_info : list Z := [0xdd; 0x07; 0x00; 0x50; 0xf2; 0x02; 0x00; 0x01; 0x00].

(** [_hw && _hw->wiphy ? _hw->wiphy->bands[band] : nullptr] *)
Definition target_sband (k : kext) : option (option ieee80211_supported_band) :=
  match _hw k with
  | Some h => match hw_bands h with Some bs => ld bs (target_band k) | None => Some None end
  | None => Some None
  end.

(** Without 40 MHz operation the width bits are cleared. *)
Definition ht_cap_at (width cap : Z) : Z :=
  if width <? 40
  then cap .& cnot 16 (IEEE80211_HT_CAP_SUP_WIDTH_20_40 .| IEEE80211_HT_CAP_SGI_40 .| IEEE80211_HT_CAP_DSSSCCK40)
  else cap.

Definition ht_ie (width : Z) (ht : ieee80211_sta_ht_cap) : option (list Z) :=
  let cap := ht_cap_at width (ht_capinfo ht) in
  mask ← ldn (rx_mask ht) 0 10;
  Some ([WLAN_EID_HT_CAPABILITY; 26; cap .& 0xff; cap >> 8; u8 ((ampdu_factor ht .& 0x3) .| ((ampdu_density ht .& 0x7) << 2))] ++
        mask ++ [rx_highest ht .& 0xff; (rx_highest ht >> 8) .& 0xff; tx_params ht .& 0xff] ++ zeros 10).

Definition vht_ie (vht : ieee80211_sta_vht_cap) : list Z :=
  let rxmap := u16 (rx_mcs_map vht) in let rxhi := vht_rx_highest vht in
  let txmap := u16 (tx_mcs_map vht) in let txhi := vht_tx_highest vht in
  let vcap := vht_capinfo vht in
  [WLAN_EID_VHT_CAPABILITY; 12; vcap .& 0xff; (vcap >> 8) .& 0xff; (vcap >> 16) .& 0xff; (vcap >> 24) .& 0xff;
   rxmap .& 0xff; rxmap >> 8; rxhi .& 0xff; u8 (rxhi >> 8); txmap .& 0xff; txmap >> 8; txhi .& 0xff; u8 (txhi >> 8)].

(** The supplicant's RSN element is usable. *)
Definition use_ext_rsn (k : kext) : option bool :=
  if _externalSupplicant k && (2 <=? _assocRsnIELen k) && (_assocRsnIELen k <=? 257) then
    e0 ← ld (_assocRsnIE k) 0; e1 ← ld (_assocRsnIE k) 1;
    Some ((e0 =? 48) && (u16 (e1 + 2) =? _assocRsnIELen k))
  else Some false.

(** [buf] is the caller's 256-byte array. *)
Definition buildAssocReq (buf : list Z) (k : kext) : option (list Z * Z * kext) :=
  let '(sn, k) := next_txSeq k in
  let t := _targetBSS k in
  let a := bssid t in
  let cap := if _wpa2 k then 0x0431 .| 0x0010 else 0x0431 in
  bp ← wr (hdr_3addr (IEEE80211_FTYPE_MGMT .| IEEE80211_STYPE_ASSOC_REQ) a (_macAddr k) a (u16 (sn << 4))) (buf, 0);
  bp ← wr [cap .& 0xff; cap >> 8; 10; 0] bp;
  s ← ldn (ssid t) 0 (ssid_len t);
  bp ← wr ([WLAN_EID_SSID; ssid_len t] ++ s) bp;
  let rates := if 14 <? channel t then rates_5g else rates_2g in
  bp ← wr ([WLAN_EID_SUPP_RATES; zlen rates] ++ rates) bp;
  bp ← (if channel t <=? 14 then wr ([WLAN_EID_EXT_SUPP_RATES; zlen ext_rates_2g] ++ ext_rates_2g) bp else Some bp);
  sb ← target_sband k;
  bp ← match sb with
       | Some sb => if htAllowed k && ht_supported (band_ht sb) then v ← ht_ie (_connChanWidth k) (band_ht sb); wr v bp else Some bp
       | None => Some bp
       end;
  bp ← match sb with
       | Some sb => if htAllowed k && (target_band k =? NL80211_BAND_5GHZ) && vht_supported (band_vht sb) then wr (vht_ie (band_vht sb)) bp else Some bp
       | None => Some bp
       end;
  bp ← wr wme_info bp;
  bp ← (if _wpa2 k then
          ext ← use_ext_rsn k;
          if (ext : bool) then v ← ldn (_assocRsnIE k) 0 (_assocRsnIELen k); wr v bp
          else wr (rtw88BuildSelectedRsnIe (group_cipher t)) bp
        else Some bp);
  Some (fst bp, snd bp, k).

(** ** The supplicant's elements *)

(** [ie] is [None] for a null pointer. *)
Definition cmdSetAssocRsnIE (ie : option (list Z)) (k : kext) : option (Z * kext) :=
  match ie with
  | None => Some (kIOReturnBadArgument, k)
  | Some ie =>
      let len := zlen ie in
      if (len <? 2) || (257 <? len) then Some (kIOReturnBadArgument, k)
      else
        e0 ← ld ie 0; e1 ← ld ie 1;
        if negb (e0 =? 48) || negb (u16 (e1 + 2) =? len) then Some (kIOReturnBadArgument, k)
        else Some (kIOReturnSuccess, k <| _assocRsnIE := ie ++ zeros (257 - len) |> <| _assocRsnIELen := len |>)
  end.

Definition target_need (k : kext) : Z := if sizeof_ies <? ies_len (_targetBSS k) then sizeof_ies else ies_len (_targetBSS k).

(** The status, the bytes written to [out], the value stored in [*len];
    [capacity] is [None] for a null [out]. *)
Definition copyTargetIEs (capacity : option Z) (k : kext) : option (Z * list Z * option Z) :=
  let need := target_need k in
  if match capacity with Some c => c <? need | None => true end
  then Some (if need =? 0 then kIOReturnNotReady else kIOReturnNoSpace, [], Some need)
  else if need =? 0 then Some (kIOReturnNotReady, [], None)
  else v ← ldn (ies (_targetBSS k)) 0 need; Some (kIOReturnSuccess, v, Some need).

(** [for (pos = 0; pos + 2 <= total;)]; [b] is what is left from [pos]. *)
Fixpoint find_rsn (fuel : nat) (b : list Z) (capacity : Z) : option (Z * list Z) :=
  if zlen b <? 2 then Some (kIOReturnNotFound, [])
  else match fuel with
       | O => None
       | S m =>
           e0 ← ld b 0; e1 ← ld b 1;
           let n := e1 + 2 in
           if zlen b <? n then Some (kIOReturnNotFound, [])
           else if e0 =? 48 then
             if capacity <? n then Some (kIOReturnNoSpace, []) else v ← ldn b 0 n; Some (kIOReturnSuccess, v)
           else find_rsn m (zdrop n b) capacity
       end.

Definition copyTargetRsnIE (capacity : Z) (k : kext) : option (Z * list Z) :=
  if 2 <=? _assocRsnIELen k then
    if capacity <? _assocRsnIELen k then Some (kIOReturnNoSpace, [])
    else v ← ldn (_assocRsnIE k) 0 (_assocRsnIELen k); Some (kIOReturnSuccess, v)
  else
    b ← ldn (ies (_targetBSS k)) 0 (target_need k);
    find_rsn (length b) b capacity.

(** ** BlockAck actions *)

Section mgmt.
Context (E : env) (ctx : KERN_SHA1_CTX).

(** [b] is the action body, from the category byte. *)
Definition handleBackAction (b : list Z) (k : kext) : option kext :=
  if zlen b <? 2 then Some k
  else
    b1 ← ld b 1;
    if b1 =? WLAN_ACTION_ADDBA_REQ then
      if zlen b <? 9 then Some k
      else
        dialog ← ld b 2; req_param ← get_le16 b 3; ba_to ← get_le16 b 5; ssc ← get_le16 b 7;
        let tid := u8 ((req_param >> 2) .& 0xf) in
        let bufsz := u16 ((req_param >> 6) .& 0x3ff) in
        '(t, o) ← rxBaSetup (alloc_ok E (trace k)) (_rxBa k) tid (ssc >> 4) bufsz;
        let k := emit (EvRxFreed (freed o)) (k <| _rxBa := t |>) in
        Some (sendAddbaResponse E tid dialog req_param ba_to k)
    else if b1 =? WLAN_ACTION_ADDBA_RESP then
      if zlen b <? 9 then Some k
      else
        status ← get_le16 b 3; param ← get_le16 b 5;
        let tid := u8 ((param >> 2) .& 0xf) in
        Some (if (status =? 0) && (tid =? _baTid k) then k <| _txBaActive := true |> else k)
    else if b1 =? WLAN_ACTION_DELBA then
      if zlen b <? 6 then Some k
      else
        del_param ← get_le16 b 2;
        let tid := u8 ((del_param >> 12) .& 0xf) in
        let initiator := negb (del_param .& (1 << 11) =? 0) in
        let k := if negb initiator && (tid =? _baTid k) then k <| _txBaActive := false |> else k in
        if initiator then
          '(t, o) ← rxBaTeardown (_rxBa k) tid; Some (emit (EvRxFreed (freed o)) (k <| _rxBa := t |>))
        else Some k
    else Some k.

(** ** Association *)

Definition authenticationCancelled (k : kext) : bool := _connectCancelled k.

Definition doAssociate (k : kext) : option kext :=
  if negb (has_hw k) || negb (has_vif k) then Some k
  else if authenticationCancelled k then Some k
  else
    '(assoc, assoclen, k) ← buildAssocReq (zeros 256) k;
    let k := k <| _state := RTW88_STATE_ASSOCIATING |> in
    f ← ldn assoc 0 assoclen;
    let '(ok, k) := txMgmtFrame E f k in
    if negb ok then Some (k <| _state := RTW88_STATE_IDLE |>)
    else if authenticationCancelled k || negb (state_is k RTW88_STATE_ASSOCIATING) then Some k
    else Some (wake 3000 k).

(** The peer station of the association. *)
Definition peer_sta (aid : Z) (sb : option ieee80211_supported_band) (k : kext) : ieee80211_sta :=
  let w := _connChanWidth k in
  mk_sta (bssid (_targetBSS k)) aid true (0xFFF, 0xFF)
    (if w =? 80 then IEEE80211_STA_RX_BW_80 else if w =? 40 then IEEE80211_STA_RX_BW_40 else IEEE80211_STA_RX_BW_20)
    (match sb with
     | Some sb => if htAllowed k then
                    let h := band_ht sb in
                    Some (mk_ht (ht_supported h) (ht_cap_at w (ht_capinfo h)) (ampdu_factor h) (ampdu_density h) (rx_mask h) (rx_highest h) (tx_params h))
                  else None
     | None => None
     end)
    (match sb with
     | Some sb => if htAllowed k && (target_band k =? NL80211_BAND_5GHZ) then Some (band_vht sb) else None
     | None => None
     end).

(** The connected interface. *)
Definition vif_assoc (aid : Z) (bssid : list Z) (v : ieee80211_vif) : ieee80211_vif :=
  mk_vif true aid true bssid true aid.

(** The station is added, then the interface marked associated.  A null [_hw]
    or, where it is dereferenced, a null [_vif] is [None]. *)
Definition setup_peer (aid : Z) (k : kext) : option kext :=
  _ ← _hw k;
  k ← (if negb (has_sta k) && has_op k OpStaAdd then
         if alloc_ok E (trace k) then
           sb ← target_sband k;
           let s := peer_sta aid sb k in
           Some (emit (EvStaAdd s) (k <| _sta := Some s |>))
         else Some k
       else Some k);
  if has_op k OpBssInfoChanged then
    v ← _vif k;
    let v := vif_assoc aid (bssid (_targetBSS k)) v in
    Some (emit (EvBssInfoChanged v) (k <| _vif := Some v |>))
  else Some k.

Definition processAssocResponse (f : list Z) (k : kext) : option kext :=
  r ← rtw88AssocResponse f (_macAddr k) (bssid (_targetBSS k));
  let k := emit (EvFree f) k in
  match r with
  | None => Some k
  | Some (status, aid) =>
      if authenticationCancelled k then Some k
      else if negb (status =? 0) then Some (k <| _state := RTW88_STATE_IDLE |>)
      else
        k ← setup_peer aid (k <| _assocAID := aid |>);
        if _wpa2 k && negb (_externalSupplicant k) then
          let k := k <| _state := RTW88_STATE_HANDSHAKING |> in
          k ← (if negb (_pmkProvided k) then
                 s ← ldn (ssid (_targetBSS k)) 0 (ssid_len (_targetBSS k));
                 pmk ← derivePMK ctx (_password k) s (_pmk k);
                 Some (k <| _pmk := pmk |>)
               else Some k);
          Some (wake 8000 k)
        else
          let k := emit (EvLink true) (k <| _state := RTW88_STATE_CONNECTED |>) in
          let k := if negb (_wpa2 k) then startTxAggregation E k else k in
          Some (emit EvTimerCancel k)
  end.

(** ** Dispatch *)

(** The channel reported with an action frame. *)
Definition rx_channel (rx_band : Z) (k : kext) : option Z :=
  match _hw k with
  | Some h =>
      match hw_bands h with
      | Some bs =>
          if rx_band <? NL80211_NUM_BANDS then
            b ← ld bs rx_band;
            Some (match b with
                  | Some _ => match cd_chan (hw_chandef h) with Some c => u16 (hw_value c) | None => _awdlChannel k end
                  | None => 0
                  end)
          else Some 0
      | None => Some 0
      end
  | None => Some 0
  end.

(** Beacons and probe responses, while scanning. *)
Definition rx_scan_result (f : list Z) (signal rxfreq : Z) (k : kext) : option kext :=
  if state_is k RTW88_STATE_SCANNING then
    t ← processScanResult (alloc_ok E (trace k)) f signal rxfreq (_scanGeneration k) (_bss k);
    Some (k <| _bss := t |>)
  else Some k.

Definition rx_auth (f : list Z) (k : kext) : option kext :=
  if state_is k RTW88_STATE_AUTHENTICATING && negb (authenticationCancelled k) then
    r ← rtw88AuthResponse f (_macAddr k) (bssid (_targetBSS k));
    match r with
    | Some status =>
        if status =? 0 then doAssociate k
        else Some (emit EvTimerCancel k <| _state := RTW88_STATE_IDLE |>)
    | None => Some k
    end
  else Some k.

(** What a valid deauthentication or disassociation does. *)
Definition leave (reason : Z) (k : kext) : option kext :=
  k ← teardown_all (clearKeys (k <| _deauthReason := reason |>) <| _txBaActive := false |>);
  Some (emit (EvLink false) (k <| _state := RTW88_STATE_IDLE |> <| _scanReturnState := RTW88_STATE_IDLE |>)).

Definition rx_deauth (f : list Z) (k : kext) : option kext :=
  if state_is k RTW88_STATE_CONNECTED || state_is k RTW88_STATE_HANDSHAKING ||
     (state_is k RTW88_STATE_SCANNING && is_state (_scanReturnState k) RTW88_STATE_CONNECTED)
  then
    a1 ← ldn f 4 6; a2 ← ldn f 10 6; a3 ← ldn f 16 6;
    let fromTarget := bool_decide (a3 = bssid (_targetBSS k)) || bool_decide (a2 = bssid (_targetBSS k)) in
    let addressedToUs := bool_decide (a1 = _macAddr k) || is_broadcast_ether_addr a1 in
    if negb fromTarget || negb addressedToUs then Some k
    else
      reason ← (if 26 <=? zlen f then get_le16 f 24 else Some 0);
      leave reason k
  else Some k.

Definition rx_action (f : list Z) (signal rx_band : Z) (k : kext) : option kext :=
  chan ← rx_channel rx_band k;
  let k := emit (EvActionFrame f (signed 8 signal) chan) k in
  if state_is k RTW88_STATE_CONNECTED then
    b ← ldn f 24 (zlen f - 24);
    if 2 <=? zlen b then
      b0 ← ld b 0; a3 ← ldn f 16 6;
      if (b0 =? WLAN_CATEGORY_BACK) && bool_decide (a3 = bssid (_targetBSS k)) then handleBackAction b k else Some k
    else Some k
  else Some k.

(** [signal], [freq] and [rx_band] are the receive status of the buffer, which
    every path releases. *)
Definition processRxMgmt (f : list Z) (signal rxfreq rx_band : Z) (k : kext) : option kext :=
  fc ← get_le16 f 0;
  let stype := fc .& 0x00f0 in
  let free r := k ← r; Some (emit (EvFree f) k) in
  if (stype =? 0x0080) || (stype =? 0x0050) then free (rx_scan_result f signal rxfreq k)
  else if stype =? 0x00B0 then free (rx_auth f k)
  else if (stype =? 0x0010) || (stype =? 0x0030) then
    if state_is k RTW88_STATE_ASSOCIATING then processAssocResponse f k else free (Some k)
  else if (stype =? 0x00A0) || (stype =? 0x00C0) then free (rx_deauth f k)
  else if stype =? 0x00D0 then free (rx_action f signal rx_band k)
  else free (Some k).

Definition rxFrame (f : list Z) (signal rxfreq rx_band : Z) (k : kext) : option kext :=
  if zlen f <? 24 then Some (emit (EvFree f) k)
  else
    let k := k <| _rssi := signal |> in
    fc ← get_le16 f 0;
    if ieee80211_is_mgmt fc then processRxMgmt f signal rxfreq rx_band k
    else if ieee80211_is_data fc then
      '(done, k) ← tryDeliverAWDLDataFrame E f k;
      if (done : bool) then Some k else processRxData E ctx f k
    else Some (emit (EvFree f) k).
End mgmt.

(** ** Requests, element by element *)

(** [bp] holds [pre] and room for [n] more bytes. *)
Definition holds (size : Z) (pre : list Z) (bp : list Z * Z) : Prop :=
  snd bp = zlen pre /\ zlen (fst bp) = size /\ ztake (zlen pre) (fst bp) = pre /\ zlen pre <= size.

Lemma wr_ok size pre v bp : holds size pre bp ->
  (zlen pre + zlen v <= size /\ exists bp', wr v bp = Some bp' /\ holds size (pre ++ v) bp') \/ (size < zlen pre + zlen v /\ wr v bp = None).
Proof.
  intros (Hs & Hz & Ht & Hl). pose proof (zlen_nonneg pre). pose proof (zlen_nonneg v). unfold wr. rewrite Hs.
  destruct (Z.leb_spec (zlen pre + zlen v) size) as [Hfit|Hover].
  - left. split; [done|]. destruct (stn_prefix (fst bp) (zlen pre) v pre Ht eq_refl) as (b & -> & Hbz & Hbt); [lia|]. cbn [mbind option_bind].
    eexists. split; [done|]. unfold holds. cbn [fst snd]. rewrite zlen_app. split_and!; try done; lia.
  - right. split; [done|]. unfold stn. rewrite Hz. by rewrite (proj2 (Z.leb_gt (zlen pre + zlen v) size)), andb_false_r by lia.
Qed.

Lemma wr_nil size pre bp : holds size pre bp -> wr [] bp = Some bp.
Proof.
  intros (Hs & Hz & _ & Hl). pose proof (zlen_nonneg pre). unfold wr. rewrite stn_Some by (try rewrite (@zlen_nil Z); lia). cbn [mbind option_bind app].
  rewrite (@zlen_nil Z), Z.add_0_r. unfold ztake, zdrop. rewrite take_drop. by destruct bp.
Qed.

(** A run of writes: all of them, or the first that does not fit. *)
Fixpoint wr_all (vs : list (list Z)) (bp : list Z * Z) : option (list Z * Z) :=
  match vs with [] => Some bp | v :: vs => bp ← wr v bp; wr_all vs bp end.

Lemma wr_all_ok size vs : forall pre bp, holds size pre bp ->
  (zlen pre + zlen (concat vs) <= size /\ exists bp', wr_all vs bp = Some bp' /\ holds size (pre ++ concat vs) bp') \/
  (size < zlen pre + zlen (concat vs) /\ wr_all vs bp = None).
Proof.
  induction vs as [|v vs IH]; intros pre bp H; cbn [wr_all concat].
  { left. rewrite (@zlen_nil Z), app_nil_r. split; [destruct H as (_ & _ & _ & H); lia|by exists bp]. }
  rewrite zlen_app. pose proof (zlen_nonneg (concat vs)). destruct (wr_ok size pre v bp H) as [(Hl & bp' & -> & H') | [Hl ->]]; cbn [mbind option_bind].
  - destruct (IH (pre ++ v) bp' H') as [(Hl2 & bp2 & E2 & H2) | [Hl2 E2]]; rewrite zlen_app in Hl2.
    + left. split; [lia|]. exists bp2. by rewrite app_assoc.
    + right. split; [lia|done].
  - right. split; [lia|done].
Qed.

(** The frame body of the association request, in the order of the standard. *)
Definition opt_ie (c : bool) (v : list Z) : list Z := if c then v else [].
Definition ht_bytes (width : Z) (ht : ieee80211_sta_ht_cap) : list Z :=
  let cap := ht_cap_at width (ht_capinfo ht) in
  [45; 26; cap .& 0xff; cap >> 8; u8 ((ampdu_factor ht .& 0x3) .| ((ampdu_density ht .& 0x7) << 2))] ++
  rx_mask ht ++ [rx_highest ht .& 0xff; (rx_highest ht >> 8) .& 0xff; tx_params ht .& 0xff] ++ zeros 10.
Definition sband_of (k : kext) : option ieee80211_supported_band :=
  h ← _hw k; bs ← hw_bands h; b ← ld bs (target_band k); b.
Definition ext_rsn (k : kext) : bool :=
  _externalSupplicant k && (2 <=? _assocRsnIELen k) && (_assocRsnIE k !!! 0%nat =? 48) && (u16 (_assocRsnIE k !!! 1%nat + 2) =? _assocRsnIELen k).
Definition assoc_chunks (k : kext) : list (list Z) :=
  let t := _targetBSS k in
  let fiveg := 14 <? channel t in
  let cap := if _wpa2 k then 0x0431 .| 0x0010 else 0x0431 in
  [hdr_3addr 0 (bssid t) (_macAddr k) (bssid t) (u16 (_txSeq k << 4));
   [cap .& 0xff; cap >> 8; 10; 0];
   [0; ssid_len t] ++ ztake (ssid_len t) (ssid t);
   [1; 8] ++ (if fiveg then rates_5g else rates_2g);
   opt_ie (negb fiveg) ([50; 4] ++ ext_rates_2g);
   match sband_of k with Some b => opt_ie (htAllowed k && ht_supported (band_ht b)) (ht_bytes (_connChanWidth k) (band_ht b)) | None => [] end;
   match sband_of k with Some b => opt_ie (htAllowed k && fiveg && vht_supported (band_vht b)) (vht_ie (band_vht b)) | None => [] end;
   wme_info;
   opt_ie (_wpa2 k) (if ext_rsn k then ztake (_assocRsnIELen k) (_assocRsnIE k) else rtw88BuildSelectedRsnIe (group_cipher t))].
Definition assoc_frame (k : kext) : list Z := concat (assoc_chunks k).

(** One write of the code is one chunk. *)
Lemma next_chunk {B} size pre v vs bp (c : option (list Z * Z)) (body : list Z * Z -> option (list Z * Z * B)) (x : B) :
  holds size pre bp -> c = wr v bp ->
  (forall bp', holds size (pre ++ v) bp' -> body bp' = '(b, n) ← wr_all vs bp'; Some (b, n, x)) ->
  (bp' ← c; body bp') = '(b, n) ← wr_all (v :: vs) bp; Some (b, n, x).
Proof.
  intros H -> Hn. cbn [wr_all]. destruct (wr_ok size pre v bp H) as [(_ & bp' & -> & H') | [_ ->]]; cbn [mbind option_bind]; [by apply Hn|done].
Qed.

Lemma opt_wr size pre (c : bool) v bp : holds size pre bp -> (if c then wr v bp else Some bp) = wr (opt_ie c v) bp.
Proof. intros H. destruct c; cbn [opt_ie]; [done|]. symmetry. by apply (wr_nil size pre). Qed.

Lemma target_sband_ok k : kext_wf k -> exists sb, target_sband k = Some sb /\ sband_of k = sb /\ band_wf sb.
Proof.
  intros W. pose proof (wf_hw k W) as H. unfold target_sband, sband_of, hw_wf in *. destruct (_hw k) as [h|]; [|by exists None]. cbn [mbind option_bind].
  destruct (hw_bands h) as [bs|]; [|by exists None]. cbn [mbind option_bind]. destruct H as [Hl Hf].
  destruct (ld_Some bs (target_band k)) as [b Eb]; [rewrite Hl; unfold target_band; case_match; done|].
  rewrite Eb. exists b. split_and!; [done|by destruct b|]. revert Eb. unfold ld. destruct (0 <=? _); [|done]. by apply Forall_lookup_1.
Qed.

Lemma ht_ie_ok w ht : ht_wf ht -> ht_ie w ht = Some (ht_bytes w ht).
Proof. intros [[Hm _] _]. unfold ht_ie. rewrite ldn_Some, zdrop_0, ztake_all by lia. done. Qed.

Lemma use_ext_rsn_ok k : kext_wf k -> use_ext_rsn k = Some (ext_rsn k).
Proof.
  intros W. destruct (wf_rsnie k W) as [[Hl _] Hn]. unfold use_ext_rsn, ext_rsn. rewrite (proj2 (Z.leb_le (_assocRsnIELen k) 257)) by lia. rewrite andb_true_r.
  destruct (_ && (2 <=? _)); [|done]. unfold zlen in Hl. destruct (_assocRsnIE k) as [|e0 [|e1 r]]; [cbn in Hl; lia|cbn in Hl; lia|]. done.
Qed.

(** The function is its run of writes. *)
Lemma buildAssocReq_wr k : kext_wf k ->
  buildAssocReq (zeros 256) k = '(b, n) ← wr_all (assoc_chunks k) (zeros 256, 0); Some (b, n, snd (next_txSeq k)).
Proof.
  intros W. unfold buildAssocReq. cbn [next_txSeq snd]. set (k' := k <| _txSeq := _ |>).
  assert (kext_wf k') as W' by apply (next_txSeq_wf k W). change (assoc_chunks k) with (assoc_chunks (k' <| _txSeq := _txSeq k |>)).
  destruct (target_sband_ok k' W') as (sb & Es & Ed & Hsb). pose proof (wf_target k' W') as T. destruct (wf_rsnie k' W') as [[Hr _] Hn].
  assert (holds 256 [] (zeros 256, 0)) as H0 by (split; [done|split; done]).
  eapply next_chunk; [exact H0|reflexivity|]. intros b1 H1. eapply next_chunk; [exact H1|reflexivity|]. intros b2 H2.
  rewrite (ldn_Some (ssid (_targetBSS k')) 0 (ssid_len (_targetBSS k'))), zdrop_0 by (destruct T as (?&?&?&?); lia). cbn [mbind option_bind].
  eapply next_chunk; [exact H2|reflexivity|]. intros b3 H3.
  eapply next_chunk; [exact H3|by destruct (14 <? _)|]. intros b4 H4.
  eapply next_chunk; [exact H4|rewrite <- (opt_wr _ _ _ _ _ H4), Z.ltb_antisym, negb_involutive; reflexivity|]. intros b5 H5.
  rewrite Es. cbn [mbind option_bind].
  eapply next_chunk; [exact H5| |intros b6 H6].
  { change (sband_of (k' <| _txSeq := _txSeq k |>)) with (sband_of k'). rewrite Ed. destruct sb as [sb|]; [|by rewrite (wr_nil _ _ _ H5)].
    rewrite <- (opt_wr _ _ _ _ _ H5), ht_ie_ok by apply Hsb. reflexivity. }
  eapply next_chunk; [exact H6| |intros b7 H7].
  { change (sband_of (k' <| _txSeq := _txSeq k |>)) with (sband_of k'). rewrite Ed. destruct sb as [sb|]; [|by rewrite (wr_nil _ _ _ H6)].
    rewrite <- (opt_wr _ _ _ _ _ H6). unfold target_band. by destruct (14 <? channel (_targetBSS k')) eqn:E14; cbn in E14 |- *; rewrite ?E14. }
  eapply next_chunk; [exact H7|reflexivity|]. intros b8 H8.
  eapply next_chunk; [exact H8| |intros b9 H9; by destruct b9].
  rewrite <- (opt_wr _ _ _ _ _ H8). change (_wpa2 (k' <| _txSeq := _txSeq k |>)) with (_wpa2 k'). destruct (_wpa2 k'); [|done].
  rewrite use_ext_rsn_ok by done. cbn [mbind option_bind]. change (ext_rsn (k' <| _txSeq := _txSeq k |>)) with (ext_rsn k').
  destruct (ext_rsn k'); [|done]. by rewrite ldn_Some, zdrop_0 by lia.
Qed.

Lemma opt_ie_zlen (c : bool) v : 0 <= zlen (opt_ie c v) <= zlen v.
Proof. pose proof (zlen_nonneg v). destruct c; unfold opt_ie; [lia|]. rewrite (@zlen_nil Z). lia. Qed.

(** Everything but the RSN element. *)
Definition assoc_base (k : kext) : Z := zlen (concat (take 8 (assoc_chunks k))).
Definition assoc_rsn (k : kext) : list Z :=
  opt_ie (_wpa2 k) (if ext_rsn k then ztake (_assocRsnIELen k) (_assocRsnIE k) else rtw88BuildSelectedRsnIe (group_cipher (_targetBSS k))).
Lemma assoc_frame_zlen k : zlen (assoc_frame k) = assoc_base k + zlen (assoc_rsn k).
Proof.
  unfold assoc_frame. rewrite <- (take_drop 8 (assoc_chunks k)) at 1. rewrite concat_app, zlen_app. unfold assoc_base. f_equal.
  change (drop 8 (assoc_chunks k)) with [assoc_rsn k]. cbn [concat]. by rewrite app_nil_r.
Qed.

Lemma ht_bytes_zlen w ht : ht_wf ht -> zlen (ht_bytes w ht) = 28.
Proof. intros [[Hm _] _]. unfold ht_bytes. rewrite !zlen_app, Hm. reflexivity. Qed.

Lemma assoc_base_range k : kext_wf k -> 49 <= assoc_base k <= 123.
Proof.
  intros W. destruct (target_sband_ok k W) as (sb & _ & Es & Hb). destruct (wf_mac k W) as [Hm _].
  destruct (wf_target k W) as (Hs & Hn & _ & Ha & _). unfold assoc_base, assoc_chunks. rewrite Es. cbn [take concat].
  rewrite !zlen_app, (@zlen_nil Z). change (zlen wme_info) with 9. unfold hdr_3addr. rewrite !zlen_app, Hm, Ha, zlen_ztake.
  set (fiveg := 14 <? _). set (h := match sb with Some _ => opt_ie (_ && _) (ht_bytes _ _) | None => _ end).
  set (v := match sb with Some _ => opt_ie _ (vht_ie _) | None => _ end).
  assert (0 <= zlen h <= 28) as Hh.
  { subst h. destruct sb as [sb|]; [|rewrite (@zlen_nil Z); lia]. rewrite <- (ht_bytes_zlen (_connChanWidth k) (band_ht sb)) by apply Hb. apply opt_ie_zlen. }
  assert (0 <= zlen v <= if fiveg then 14 else 0) as Hv.
  { subst v. destruct sb as [sb|]; [|rewrite (@zlen_nil Z); by destruct fiveg]. destruct fiveg; [|by rewrite andb_false_r]. change 14 with (zlen (vht_ie (band_vht sb))). apply opt_ie_zlen. }
  clearbody h v. destruct fiveg; cbn [negb opt_ie]; unfold zlen in *; cbn [length rates_5g rates_2g ext_rates_2g app Z.of_nat le16] in *; lia.
Qed.

Lemma assoc_rsn_zlen k : kext_wf k -> zlen (assoc_rsn k) <= Z.max 22 (if ext_rsn k then _assocRsnIELen k else 0).
Proof.
  intros W. destruct (wf_rsnie k W) as [[Hl _] Hn]. unfold assoc_rsn. pose proof (opt_ie_zlen (_wpa2 k) (if ext_rsn k then ztake (_assocRsnIELen k) (_assocRsnIE k) else rtw88BuildSelectedRsnIe (group_cipher (_targetBSS k)))) as H.
  destruct (ext_rsn k); [rewrite zlen_ztake in *; lia|]. change (zlen (rtw88BuildSelectedRsnIe _)) with 22 in *. lia.
Qed.

Definition rsn_fits (k : kext) : Prop := _assocRsnIELen k <= 133.
Lemma assoc_frame_fits k : kext_wf k -> ext_rsn k = false \/ rsn_fits k -> zlen (assoc_frame k) <= 256.
Proof.
  intros W H. pose proof (assoc_base_range k W). pose proof (assoc_rsn_zlen k W). pose proof (assoc_frame_zlen k).
  unfold rsn_fits in H. destruct (ext_rsn k); [destruct H; [done|]|]; lia.
Qed.

Lemma buildAssocReq_eq k : kext_wf k ->
  (zlen (assoc_frame k) <= 256 /\ exists b, buildAssocReq (zeros 256) k = Some (b, zlen (assoc_frame k), snd (next_txSeq k)) /\ ldn b 0 (zlen (assoc_frame k)) = Some (assoc_frame k)) \/
  (256 < zlen (assoc_frame k) /\ buildAssocReq (zeros 256) k = None).
Proof.
  intros W. assert (holds 256 [] (zeros 256, 0)) as H0 by (split; [done|split; done]). rewrite buildAssocReq_wr by done.
  destruct (wr_all_ok 256 (assoc_chunks k) [] _ H0) as [(Hl & [b n] & -> & Hs & Hz & Ht & Hp) | [Hl ->]];
    rewrite (@zlen_nil Z) in Hl; cbn [mbind option_bind]; [left|right; split; [done|done]].
  cbn [app fst snd] in *. fold (assoc_frame k) in *. subst n. split; [lia|]. exists b. split; [done|].
  pose proof (zlen_nonneg (assoc_frame k)). rewrite ldn_Some, zdrop_0 by lia. by rewrite Ht.
Qed.

(** ** What a frame may change *)

(** What no received frame changes. *)
Definition config (k : kext) :=
  (_hw k, has_vif k, (_wpa2 k, _externalSupplicant k), (_assocRsnIE k, _assocRsnIELen k), (_macAddr k, _targetBSS k), (_connectCancelled k, connectEntered k, manualEntered k, _connectTC k),
   (_powered k, _manualScanTC k, _manualScanAbort k, _manualScanChannels k, _manualScanChannelCount k, _manualScanOnHomeChannel k), _connChanWidth k).

(** Buffers [fs] come in; the state goes from [_state k] to one of [S]. *)
Definition mg_step (S : RTW88State -> Prop) (fs : list (list Z)) (k k' : kext) : Prop :=
  consumes fs k k' /\ (link_ok k -> link_ok k') /\ config k' = config k /\
  (_scanReturnState k' = _scanReturnState k \/ _scanReturnState k' = RTW88_STATE_IDLE) /\ S (_state k').

Lemma consumes_refl k : consumes [] k k.
Proof. by exists []. Qed.
Lemma consumes_emit e k : consumes (frees e) k (emit e k).
Proof. exists [e]. split; [done|]. cbn [map concat]. by rewrite app_nil_r. Qed.
Lemma consumes_quiet es k k' : no_free es -> trace k' = es ++ trace k -> _rxBa k' = _rxBa k -> consumes [] k k'.
Proof.
  intros N T R. exists es. split; [done|]. rewrite R. assert (concat (map frees es) = []) as ->; [|done].
  clear -N. induction N as [|e es He _ IH]; [done|]. cbn [map concat]. by rewrite He, IH.
Qed.

Lemma mg_refl k : mg_step (eq (_state k)) [] k k.
Proof. split; [apply consumes_refl|]. repeat split; [done|by left]. Qed.
Lemma mg_trans S1 S2 fs1 fs2 k1 k2 k3 : mg_step S1 fs1 k1 k2 -> mg_step S2 fs2 k2 k3 -> mg_step S2 (fs1 ++ fs2) k1 k3.
Proof.
  intros (C1 & L1 & G1 & R1 & _) (C2 & L2 & G2 & R2 & H). split; [by eapply consumes_trans|]. split; [auto|]. split; [congruence|].
  split; [|done]. destruct R2 as [->|]; [done|by right].
Qed.
Lemma mg_mono (S1 S2 : RTW88State -> Prop) fs k k' : (forall s, S1 s -> S2 s) -> mg_step S1 fs k k' -> mg_step S2 fs k k'.
Proof. intros Hs (C & L & G & R & H). split; [done|]. repeat split; auto. Qed.
Lemma mg_emit e k : mg_step (eq (_state k)) (frees e) k (emit e k).
Proof. split; [apply consumes_emit|]. repeat split; [done|by left]. Qed.

Lemma tx_only_mg k k' : tx_only k k' -> mg_step (eq (_state k)) [] k k'.
Proof.
  intros (ts&ds&aw&pn&d&es&N&->). split; [by apply (consumes_quiet es)|]. repeat split; [done|by left].
Qed.

Lemma rx_step_mg fs k k' : rx_step fs k k' ->
  mg_step (fun s => s = _state k \/ (_state k = RTW88_STATE_HANDSHAKING /\ s = RTW88_STATE_CONNECTED)) fs k k'.
Proof.
  intros (C & (k1 & t & b & tr & (?&?&?&?&?&?&?&?&?&?&?&?&?&?&->) & ->) & S & L). split; [done|]. split; [done|]. split; [done|]. split; [by left|exact S].
Qed.

(** A state set to anything but CONNECTED cannot break the link's invariant. *)
Lemma mg_set_state s k : s <> RTW88_STATE_CONNECTED -> mg_step (eq s) [] k (k <| _state := s |>).
Proof. intros Hs. split; [by exists []|]. split; [by intros _ H|]. repeat split. by left. Qed.
Lemma set_state_wf s k : kext_wf k -> kext_wf (k <| _state := s |>).
Proof. intros W. by solve_wf W. Qed.

(** A sequence of moves, the last of which gives the state. *)
Lemma steps_mg S1 S2 fs1 fs2 k r f : steps (mg_step S1 fs1 k) r ->
  (forall k1, kext_wf k1 -> mg_step S1 fs1 k k1 -> steps (mg_step S2 fs2 k1) (f k1)) -> steps (mg_step S2 (fs1 ++ fs2) k) (r ≫= f).
Proof.
  intros Hr Hf. eapply steps_bind; [exact Hr|]. intros k1 W1 M1. eapply steps_mono; [by apply Hf|]. intros k2. by apply mg_trans with S1.
Qed.

(** ** Response validation, specified *)

Lemma peer_loop_spec f mac bssid : zlen f >= 22 -> zlen mac = 6 -> zlen bssid = 6 -> forall idx, Forall (fun i => 0 <= i < 6) idx ->
  exists b, peer_loop idx f mac bssid = Some b /\
    (b = true <-> Forall (fun i => ld f (4 + i) = ld mac i /\ ld f (10 + i) = ld bssid i /\ ld f (16 + i) = ld bssid i) idx).
Proof.
  intros Hf Hm Hb. induction 1 as [|i idx Hi _ (b & E & IH)]; cbn [peer_loop]; [by exists true|].
  destruct (ld_Some f (4 + i)) as [x Ex]; [lia|]. destruct (ld_Some mac i) as [m Em]; [lia|]. rewrite Ex, Em. cbn [mbind option_bind].
  destruct (ld_Some f (10 + i)) as [y Ey]; [lia|]. destruct (ld_Some bssid i) as [w Ew]; [lia|]. destruct (ld_Some f (16 + i)) as [z Ez]; [lia|].
  destruct (Z.eqb_spec x m) as [->|Hx]; cbn [negb]; [|exists false; split; [done|]; split; [done|intros [(H1 & _) _]%Forall_cons; congruence]].
  rewrite Ey, Ew. cbn [mbind option_bind].
  destruct (Z.eqb_spec y w) as [->|Hy]; cbn [negb]; [|exists false; split; [done|]; split; [done|intros [(_ & H1 & _) _]%Forall_cons; congruence]].
  rewrite Ez. cbn [mbind option_bind].
  destruct (Z.eqb_spec z w) as [->|Hz]; cbn [negb]; [|exists false; split; [done|]; split; [done|intros [(_ & _ & H1) _]%Forall_cons; congruence]].
  exists b. split; [done|]. rewrite IH, Forall_cons. split; [intros H; split_and!; congruence || done|by intros [_ H]].
Qed.

(** Six equal bytes are an equal address. *)
Lemma addr_eq (f : list Z) o a : 0 <= o -> o + 6 <= zlen f -> zlen a = 6 ->
  ldn f o 6 = Some a <-> Forall (fun i => ld f (o + i) = ld a i) [0; 1; 2; 3; 4; 5].
Proof.
  intros Ho Hf Ha. rewrite ldn_Some by lia. split.
  - intros [= <-]. assert (forall i, 0 <= i < 6 -> ld f (o + i) = ld (ztake 6 (zdrop o f)) i) as H; [|decompose_Forall; apply H; lia].
    intros i Hi. unfold ld. rewrite !(proj2 (Z.leb_le _ _)) by lia. unfold ztake, zdrop. rewrite lookup_take_lt, lookup_drop by lia. f_equal. lia.
  - intros H. f_equal. apply list_eq_same_length with 6%nat; [unfold zlen in Ha; lia| |].
    { unfold ztake, zdrop, zlen in *. rewrite length_take, length_drop. lia. }
    intros i x y Hi Hx Hy. unfold ztake, zdrop in Hx. rewrite lookup_take_lt, lookup_drop in Hx by lia.
    assert (ld f (o + Z.of_nat i) = ld a (Z.of_nat i)) as E.
    { rewrite Forall_forall in H. apply H. do 6 (destruct i as [|i]; [by repeat constructor|]). lia. }
    unfold ld in E. rewrite !(proj2 (Z.leb_le _ _)) in E by lia. rewrite Nat2Z.id in E. replace (Z.to_nat (o + Z.of_nat i)) with (Z.to_nat o + i)%nat in E by lia. congruence.
Qed.

(** The frame is long enough, for us and from the access point. *)
Definition from_peer (f mac bssid : list Z) : Prop :=
  30 <= zlen f /\ ldn f 4 6 = Some mac /\ ldn f 10 6 = Some bssid /\ ldn f 16 6 = Some bssid.

Lemma rtw88ResponsePeer_spec f mac bssid : zlen mac = 6 -> zlen bssid = 6 ->
  exists b, rtw88ResponsePeer f mac bssid = Some b /\ (b = true <-> from_peer f mac bssid).
Proof.
  intros Hm Hb. unfold rtw88ResponsePeer, from_peer. destruct (Z.ltb_spec (zlen f) 30); [exists false; split; [done|]; split; [done|intros (? & _); lia]|].
  destruct (peer_loop_spec f mac bssid ltac:(lia) Hm Hb [0; 1; 2; 3; 4; 5]) as (b & -> & E); [by decompose_Forall|].
  exists b. split; [done|]. rewrite E, !addr_eq by lia. rewrite !Forall_and. split; [intros (? & ? & ?); by split_and!|by intros (_ & ? & ? & ?)].
Qed.

(** A little-endian field read byte by byte. *)
Lemma le16_at f i j : bytes_ok f -> j = i + 1 -> 0 <= i -> i + 2 <= zlen f -> exists x y, ld f i = Some x /\ ld f j = Some y /\
  is_byte x /\ is_byte y /\ get_le16 f i = Some (x + 256 * y) /\ x .| u16 (y << 8) = x + 256 * y.
Proof.
  intros Hb -> Hi Hl. destruct (ld_byte f i Hb) as (x & Ex & Hx); [lia|]. destruct (ld_byte f (i + 1) Hb) as (y & Ey & Hy); [lia|].
  exists x, y. unfold get_le16. rewrite Ex, Ey. cbn [mbind option_bind].
  assert (u16 (y << 8) = y << 8) as -> by (apply Z.mod_small; rewrite Z.shiftl_mul_pow2 by lia; unfold in_range in *; lia).
  rewrite lor_shift by (done || lia). split_and!; try done; [f_equal; lia|lia].
Qed.

Lemma auth_response_spec f mac bssid : bytes_ok f -> zlen mac = 6 -> zlen bssid = 6 ->
  exists r, rtw88AuthResponse f mac bssid = Some r /\
    forall status, r = Some status <-> from_peer f mac bssid /\ (exists f0, ld f 0 = Some f0 /\ f0 .& 0xfc = 0xb0) /\
      get_le16 f 24 = Some 0 /\ get_le16 f 26 = Some 2 /\ get_le16 f 28 = Some status.
Proof.
  intros Hf Hm Hb. unfold rtw88AuthResponse. destruct (rtw88ResponsePeer_spec f mac bssid Hm Hb) as (b & -> & Eb). cbn [mbind option_bind].
  destruct b; cbn [negb]; [|exists None; split; [done|]; intros s; split; [done|intros (H & _); by apply Eb in H]].
  pose proof (proj1 Eb eq_refl) as (Hl & _). destruct (ld_byte f 0 Hf) as (f0 & E0 & _); [lia|].
  destruct (le16_at f 24 25 Hf) as (x1 & y1 & -> & -> & X1 & Y1 & -> & _); [lia..|].
  destruct (le16_at f 26 27 Hf) as (x2 & y2 & -> & -> & X2 & Y2 & -> & _); [lia..|].
  destruct (le16_at f 28 29 Hf) as (x3 & y3 & -> & -> & X3 & Y3 & -> & E3); [lia..|]. rewrite E0. cbn [mbind option_bind]. rewrite E3. unfold in_range in *.
  destruct (_ || negb (y2 =? 0)) eqn:El.
  - exists None. split; [done|]. intros s. split; [done|]. intros (_ & (z & [= <-] & Hz) & [= Ha] & [= Hs] & _). rewrite Hz in El. bool_hyps. lia.
  - exists (Some (x3 + 256 * y3)). split; [done|]. bool_hyps. intros s. split; [|intros (_ & _ & _ & _ & [= ->]); done].
    intros [= <-]. split; [by apply Eb|]. split; [exists f0; by split|]. split_and!; f_equal; lia.
Qed.

Lemma assoc_response_spec f mac bssid : bytes_ok f -> zlen mac = 6 -> zlen bssid = 6 ->
  exists r, rtw88AssocResponse f mac bssid = Some r /\
    forall status aid, r = Some (status, aid) <-> from_peer f mac bssid /\
      (exists f0, ld f 0 = Some f0 /\ (f0 .& 0xfc = 0x10 \/ f0 .& 0xfc = 0x30)) /\
      get_le16 f 26 = Some status /\ (exists raw, get_le16 f 28 = Some raw /\ aid = raw .& 0x3fff) /\ (status = 0 -> 1 <= aid <= 2007).
Proof.
  intros Hf Hm Hb. unfold rtw88AssocResponse. destruct (rtw88ResponsePeer_spec f mac bssid Hm Hb) as (b & -> & Eb). cbn [mbind option_bind].
  destruct b; cbn [negb]; [|exists None; split; [done|]; intros s a; split; [done|intros (H & _); by apply Eb in H]].
  pose proof (proj1 Eb eq_refl) as (Hl & _). destruct (ld_byte f 0 Hf) as (f0 & E0 & _); [lia|]. rewrite E0. cbn [mbind option_bind].
  destruct (negb (f0 .& 252 =? 16) && _) eqn:Ef.
  { exists None. split; [done|]. intros s a. split; [done|]. intros (_ & (z & [= <-] & Hz) & _). bool_hyps. by destruct Hz. }
  assert (f0 .& 252 = 16 \/ f0 .& 252 = 48) as Hf0 by (destruct (Z.eqb_spec (f0 .& 252) 16); [by left|]; destruct (Z.eqb_spec (f0 .& 252) 48); [by right|done]).
  destruct (le16_at f 26 27 Hf) as (x1 & y1 & -> & -> & X1 & Y1 & -> & E1); [lia..|].
  destruct (le16_at f 28 29 Hf) as (x2 & y2 & -> & -> & X2 & Y2 & -> & E2); [lia..|]. cbn [mbind option_bind]. rewrite E1, E2.
  set (st := x1 + 256 * y1). set (aid := (x2 + 256 * y2) .& 0x3fff). 
  destruct (negb (st =? 0) || _) eqn:El; (eexists; split; [reflexivity|]; intros s a).
  - split; [|intros (_ & _ & [= <-] & (raw & [= <-] & ->) & _); done]. intros [= <- <-]. split; [by apply Eb|]. split; [by exists f0|]. split; [done|].
    split; [by eexists|]. intros Hs. rewrite Hs in El. cbn [Z.eqb negb orb] in El. bool_hyps. lia.
  - split; [done|]. intros (_ & _ & [= <-] & (raw & [= <-] & ->) & Ha). apply orb_false_elim in El as [Ez El].
    apply negb_false_iff, Z.eqb_eq in Ez. fold aid in Ha. specialize (Ha Ez).
    destruct (Z.leb_spec 1 aid), (Z.leb_spec aid 2007); lia || done.
Qed.

(** ** The handlers, one by one *)

Section mgmt_proofs.
Context (E : env) (ctx : KERN_SHA1_CTX) (HE : env_ok E) (Hctx : zlen (buffer ctx) = 64).

(** An association needs the driver and its interface, and a request that
    fits its buffer. *)
Definition assoc_ready (k : kext) : Prop :=
  ((_state k = RTW88_STATE_AUTHENTICATING \/ _state k = RTW88_STATE_ASSOCIATING) -> has_hw k = true /\ has_vif k = true) /\
  (ext_rsn k = false \/ rsn_fits k).

Lemma txMgmtFrame_mg f k : mg_step (eq (_state k)) [] k (snd (txMgmtFrame E f k)).
Proof. apply tx_only_mg, txMgmtFrame_only. Qed.

Lemma tx_only_states k k' : tx_only k k' -> _state k' = _state k /\ _connectCancelled k' = _connectCancelled k.
Proof. by intros (?&?&?&?&?&?&_&->). Qed.

Lemma doAssociate_ok k : kext_wf k -> assoc_ready k ->
  steps (mg_step (fun s => s = _state k \/ s = RTW88_STATE_ASSOCIATING \/ s = RTW88_STATE_IDLE) [] k) (doAssociate E k).
Proof.
  intros W [_ Hr]. pose proof (mg_refl k) as R. unfold doAssociate.
  destruct (_ || _); [apply steps_ret; [done|]; eapply mg_mono, R; by left|]. destruct (authenticationCancelled k); [apply steps_ret; [done|]; eapply mg_mono, R; by left|].
  pose proof (assoc_frame_fits k W Hr) as Hl. destruct (buildAssocReq_eq k W) as [(_ & b & -> & Hb) | [Hn _]]; [|lia]. cbn [mbind option_bind].
  set (k1 := snd (next_txSeq k) <| _state := RTW88_STATE_ASSOCIATING |>). rewrite Hb. cbn [mbind option_bind].
  assert (mg_step (eq RTW88_STATE_ASSOCIATING) [] k k1) as M1.
  { eapply (mg_trans _ _ [] []); [apply tx_only_mg, next_txSeq_only|]. by apply mg_set_state. }
  assert (kext_wf k1) as W1 by apply set_state_wf, next_txSeq_wf, W.
  destruct (txMgmtFrame E (assoc_frame k) k1) as [ok k2] eqn:Et. pose proof (txMgmtFrame_wf E (assoc_frame k) k1 W1) as W2.
  pose proof (txMgmtFrame_mg (assoc_frame k) k1) as M2. rewrite Et in W2, M2. cbn [snd] in *.
  pose proof (mg_trans _ _ [] [] _ _ _ M1 M2) as M. cbn [app] in M. change (_state k1) with RTW88_STATE_ASSOCIATING in M.
  destruct ok; cbn [negb].
  - destruct (_ || _); apply steps_ret; [done|eapply mg_mono, M; by (right; left)|by apply emit_wf|].
    eapply mg_mono; [|eapply (mg_trans _ _ [] []); [exact M|exact (mg_emit (EvWake 3000) k2)]]. intros s <-. right. left. by destruct M as (_&_&_&_&<-).
  - apply steps_ret; [by apply set_state_wf|]. eapply mg_mono; [|eapply (mg_trans _ _ [] []); [exact M|by apply (mg_set_state RTW88_STATE_IDLE)]].
    intros s <-. by right; right.
Qed.

(** A sound change of the reorder table, whose released buffers are reported. *)
Lemma rxba_step k r : kext_wf k -> sound skb_sn (_rxBa k) [] r -> (forall t o, r = Some (t, o) -> delivered o = []) ->
  exists t o, r = Some (t, o) /\ kext_wf (emit (EvRxFreed (freed o)) (k <| _rxBa := t |>)) /\
    mg_step (eq (_state k)) [] k (emit (EvRxFreed (freed o)) (k <| _rxBa := t |>)).
Proof.
  intros W (t & o & -> & Ht & Hp & _) Hd. exists t, o. specialize (Hd t o eq_refl). rewrite Hd in Hp. cbn [app] in Hp.
  assert (Forall rx_ok (freed o ++ buffered t)) as Hall by (rewrite Hp; apply W). apply Forall_app in Hall as [_ Hb].
  split; [done|]. split; [by solve_wf W|]. split; [|split; [by intros H|split; [done|split; [by left|done]]]].
  exists [EvRxFreed (freed o)]. split; [done|]. cbn [map concat frees]. by rewrite app_nil_r.
Qed.

Lemma rxBaSetup_ok alloc k tid ssn sz : kext_wf k -> 0 <= tid -> in_range 16 sz ->
  exists t o, rxBaSetup alloc (_rxBa k) tid ssn sz = Some (t, o) /\ kext_wf (emit (EvRxFreed (freed o)) (k <| _rxBa := t |>)) /\
    mg_step (eq (_state k)) [] k (emit (EvRxFreed (freed o)) (k <| _rxBa := t |>)).
Proof.
  intros W Ht Hs. apply rxba_step; [done|by apply rxBaSetup_sound; [apply W|..]|]. intros t o. unfold rxBaSetup. destruct (_ <=? tid); [by intros [= _ <-]|].
  destruct (ld _ _) as [[r|]|]; cbn [mbind option_bind]; [|destruct alloc|done]; try by intros [= _ <-].
  all: destruct (st _ _ _); cbn [mbind option_bind]; [by intros [= _ <-]|done].
Qed.

Lemma rxBaTeardown_ok k tid : kext_wf k -> 0 <= tid ->
  exists t o, rxBaTeardown (_rxBa k) tid = Some (t, o) /\ kext_wf (emit (EvRxFreed (freed o)) (k <| _rxBa := t |>)) /\
    mg_step (eq (_state k)) [] k (emit (EvRxFreed (freed o)) (k <| _rxBa := t |>)).
Proof. intros W Ht. destruct (rxBaTeardown_sound skb_sn (_rxBa k) tid (wf_rxba k W) Ht). by apply rxba_step. Qed.

Lemma teardown_all_ok k : kext_wf k -> steps (mg_step (eq (_state k)) [] k) (teardown_all k).
Proof.
  intros W. unfold teardown_all.
  destruct (teardown_tids_sound skb_sn (seqZ 0 kRxBaNumTid) (_rxBa k) [] (buffered (_rxBa k)) (wf_rxba k W) (seqZ_nonneg _)) as (t & o & Et & Ht & Hd & Hp).
  destruct (rxba_step k (rxBaTeardownAll (_rxBa k)) W) as (t' & o' & -> & W' & M); [apply rxBaTeardownAll_sound, W| |].
  - intros t' o'. unfold rxBaTeardownAll. rewrite Et. by intros [= _ <-].
  - by apply steps_ret.
Qed.

Lemma u8_land_range x y : 0 <= u8 (x .& y).
Proof. apply Z.mod_pos_bound. lia. Qed.

Lemma handleBackAction_ok b k : kext_wf k -> bytes_ok b -> steps (mg_step (eq (_state k)) [] k) (handleBackAction E b k).
Proof.
  intros W Hb. pose proof (mg_refl k) as R. unfold handleBackAction. destruct (Z.ltb_spec (zlen b) 2); [by apply steps_ret|].
  destruct (ld_byte b 1 Hb) as (b1 & -> & _); [lia|]. cbn [mbind option_bind].
  destruct (b1 =? WLAN_ACTION_ADDBA_REQ); [|destruct (b1 =? WLAN_ACTION_ADDBA_RESP); [|destruct (b1 =? WLAN_ACTION_DELBA); [|by apply steps_ret]]].
  - destruct (Z.ltb_spec (zlen b) 9); [by apply steps_ret|]. destruct (ld_byte b 2 Hb) as (dg & -> & _); [lia|].
    destruct (get_le16_ok b 3 Hb) as (rp & -> & Hrp); [lia..|]. destruct (get_le16_ok b 5 Hb) as (to & -> & _); [lia..|].
    destruct (get_le16_ok b 7 Hb) as (ssc & -> & _); [lia..|]. cbn [mbind option_bind].
    destruct (rxBaSetup_ok (alloc_ok E (trace k)) k (u8 ((rp >> 2) .& 0xf)) (ssc >> 4) (u16 ((rp >> 6) .& 0x3ff)) W) as (t & o & -> & W1 & M1);
      [apply u8_land_range|apply wrap_range; lia|]. cbn [mbind option_bind].
    match goal with |- context [sendAddbaResponse E ?a ?b ?c ?d ?k1] => destruct (sendAddbaResponse_keeps E a b c d k1 W1) as [W2 T2] end.
    apply steps_ret; [done|]. apply (mg_trans _ _ [] [] _ _ _ M1). exact (tx_only_mg _ _ T2).
  - destruct (Z.ltb_spec (zlen b) 9); [by apply steps_ret|]. destruct (get_le16_ok b 3 Hb) as (x & -> & _); [lia..|].
    destruct (get_le16_ok b 5 Hb) as (y & -> & _); [lia..|]. cbn [mbind option_bind].
    destruct (_ && _); [|by apply steps_ret]. apply steps_ret; [by solve_wf W|exact R].
  - destruct (Z.ltb_spec (zlen b) 6); [by apply steps_ret|]. destruct (get_le16_ok b 2 Hb) as (x & -> & _); [lia..|]. cbn [mbind option_bind].
    set (k1 := if _ && (_ =? _baTid k) then _ else k). assert (kext_wf k1 /\ mg_step (eq (_state k)) [] k k1) as [W1 M1].
    { unfold k1. destruct (_ && _); [|done]. split; [by solve_wf W|exact R]. }
    clearbody k1. destruct (negb (x .& (1 << 11) =? 0)); [|by apply steps_ret].
    destruct (rxBaTeardown_ok k1 (u8 ((x >> 12) .& 15)) W1 (u8_land_range _ _)) as (t & o & -> & W2 & M2). cbn [mbind option_bind].
    apply steps_ret; [done|]. pose proof M1 as (_&_&_&_&Es). rewrite Es. by apply (mg_trans _ _ [] [] _ _ _ M1).
Qed.

(** Keys erased: only the handshake's fields and the trace move. *)
Lemma clearKeys_ok k : kext_wf k -> kext_wf (clearKeys k) /\ consumes [] k (clearKeys k) /\
  config (clearKeys k) = config k /\ _state (clearKeys k) = _state k /\ _scanReturnState (clearKeys k) = _scanReturnState k /\ _rxBa (clearKeys k) = _rxBa k.
Proof.
  intros W. unfold clearKeys, disable_key.
  destruct (_ && has_op k OpSetKey), (_ptkConf k) as [p|], (_gtkConf k) as [g|];
    (split; [solve_wf W; (split; [apply zeros_buf; lia|by left])|]); (split; [|done]);
    first [by exists []|by exists [EvSetKey false true p]|by exists [EvSetKey false false g]|by exists [EvSetKey false false g; EvSetKey false true p]].
Qed.

(** Fields and quiet events only. *)
Lemma mg_quiet (S : RTW88State -> Prop) es k k' : no_free es -> trace k' = es ++ trace k -> _rxBa k' = _rxBa k -> config k' = config k ->
  _scanReturnState k' = _scanReturnState k -> (link_ok k -> link_ok k') -> S (_state k') -> mg_step S [] k k'.
Proof. intros N T B G R L H. split; [by apply (consumes_quiet es)|]. split; [done|]. split; [done|]. split; [by left|done]. Qed.

(** Where an association response takes the state. *)
Definition assoc_next (f : list Z) (k : kext) (s : RTW88State) : Prop :=
  s = _state k \/ exists status aid, rtw88AssocResponse f (_macAddr k) (bssid (_targetBSS k)) = Some (Some (status, aid)) /\
    _connectCancelled k = false /\
    s = if status =? 0 then if _wpa2 k && negb (_externalSupplicant k) then RTW88_STATE_HANDSHAKING else RTW88_STATE_CONNECTED else RTW88_STATE_IDLE.

(** The station and the interface are set up; nothing else moves. *)
Definition associated (k k' : kext) : Prop :=
  exists a st v es, no_free es /\ k' = k <| _assocAID := a |> <| _sta := st |> <| _vif := v |> <| trace := es ++ trace k |> /\ is_some v = has_vif k.

Lemma associated_ok k k' : kext_wf k -> associated k k' -> kext_wf k' /\ mg_step (eq (_state k)) [] k k'.
Proof.
  intros W (a & st & v & es & N & -> & Hv). split; [by solve_wf W|]. apply (mg_quiet _ es); try done.
  unfold config, has_vif, is_some in *. cbn. by rewrite Hv.
Qed.

Lemma assoc_setup aid k : kext_wf k -> has_hw k = true -> has_vif k = true ->
  exists k', setup_peer E aid (k <| _assocAID := aid |>) = Some k' /\ associated k k'.
Proof.
  intros W Hh Hv. unfold setup_peer, has_hw, has_vif in *. destruct (_hw k) as [h|] eqn:Eh; [|done]. destruct (_vif k) as [v|] eqn:Ev; [|done].
  set (k1 := k <| _assocAID := aid |>). change (_hw k1) with (_hw k). rewrite Eh. cbn [mbind option_bind].
  destruct (target_sband_ok k W) as (sb & Es & _). change (target_sband k1) with (target_sband k). rewrite Es. cbn [mbind option_bind]. change (trace k1) with (trace k).
  assert (exists st es, (if negb (has_sta k1) && has_op k1 OpStaAdd then if alloc_ok E (trace k) then Some (emit (EvStaAdd (peer_sta aid sb k1)) (k1 <| _sta := Some (peer_sta aid sb k1) |>)) else Some k1 else Some k1)
    = Some (k1 <| _sta := st |> <| trace := es ++ trace k |>) /\ no_free es) as (st & es & -> & N).
  { destruct (_ && _); [destruct (alloc_ok E _)|]; first [exists (Some (peer_sta aid sb k1)), [EvStaAdd (peer_sta aid sb k1)]; split; [done|by apply Forall_singleton]
      |exists (_sta k), []; split; [by destruct k|constructor]]. }
  cbn [mbind option_bind]. destruct (has_op _ OpBssInfoChanged).
  - change (_vif (k1 <| _sta := st |> <| trace := es ++ trace k |>)) with (_vif k). rewrite Ev. cbn [mbind option_bind].
    eexists. split; [reflexivity|]. eexists aid, st, (Some _), (EvBssInfoChanged _ :: es). split; [by constructor|]. split; [reflexivity|]. unfold has_vif. by rewrite Ev.
  - eexists. split; [reflexivity|]. exists aid, st, (_vif k), es. split; [done|]. split; [by destruct k|]. by unfold has_vif, is_some.
Qed.

Lemma pmk_step k : kext_wf k ->
  exists pmk, (if negb (_pmkProvided k) then
                 s ← ldn (ssid (_targetBSS k)) 0 (ssid_len (_targetBSS k)); pmk ← derivePMK ctx (_password k) s (_pmk k); Some (k <| _pmk := pmk |>)
               else Some k) = Some (k <| _pmk := pmk |>) /\ kext_wf (k <| _pmk := pmk |>).
Proof.
  intros W. destruct (negb _); [|exists (_pmk k); split; [by destruct k|by solve_wf W]].
  destruct (wf_target k W) as (Hs & Hn & Hb & _). rewrite (ldn_Some (ssid (_targetBSS k))) by lia. cbn [mbind option_bind]. rewrite zdrop_0.
  destruct (wf_password k W) as [[Hp Hpb] H0]. destruct (wf_pmk k W) as [Hm _].
  destruct (derivePMK_ok ctx (_password k) (ztake (ssid_len (_targetBSS k)) (ssid (_targetBSS k))) (_pmk k)) as (v & -> & Hv & Hvb); try done; [by apply Forall_take|].
  exists v. split; [done|]. solve_wf W. by split.
Qed.

(** The open link, or the one whose keys are not ours. *)
Lemma link_up_ok k1 : kext_wf k1 -> _wpa2 k1 && negb (_externalSupplicant k1) = false ->
  let k2 := emit (EvLink true) (k1 <| _state := RTW88_STATE_CONNECTED |>) in
  steps (mg_step (eq RTW88_STATE_CONNECTED) [] k1) (Some (emit EvTimerCancel (if negb (_wpa2 k2) then startTxAggregation E k2 else k2))).
Proof.
  intros W1 Ew k2. assert (kext_wf k2) as W2 by apply emit_wf, set_state_wf, W1.
  assert (mg_step (eq RTW88_STATE_CONNECTED) [] k1 k2) as M2.
  { apply (mg_quiet _ [EvLink true]); try done; [by constructor|]. intros _ _ W2' E2.
    change (_wpa2 k1 = true) in W2'. change (_externalSupplicant k1 = false) in E2. by rewrite W2', E2 in Ew. }
  set (k3 := if negb (_wpa2 k2) then _ else _). assert (kext_wf k3 /\ mg_step (eq RTW88_STATE_CONNECTED) [] k1 k3) as [W3 M3].
  { unfold k3. destruct (negb (_wpa2 k2)); [|by split]. destruct (startTxAggregation_keeps E k2 W2) as [W' T]. split; [done|].
    exact (mg_trans _ _ [] [] _ _ _ M2 (tx_only_mg _ _ T)). }
  apply steps_ret; [by apply emit_wf|]. apply (mg_trans _ _ [] [] _ _ _ M3).
  eapply mg_mono; [|exact (mg_emit EvTimerCancel k3)]. destruct M3 as (_&_&_&_&E3). intros s <-. exact E3.
Qed.

Lemma processAssocResponse_ok f k : kext_wf k -> assoc_ready k -> _state k = RTW88_STATE_ASSOCIATING -> bytes_ok f ->
  steps (mg_step (assoc_next f k) [f] k) (processAssocResponse E ctx f k).
Proof.
  intros W [Hr _] Hs Hf. destruct (Hr (or_intror Hs)) as [Hh Hv]. destruct (wf_mac k W) as [Hm _]. destruct (wf_target k W) as (_ & _ & _ & Hb & _).
  unfold processAssocResponse. destruct (assoc_response_spec f (_macAddr k) (bssid (_targetBSS k)) Hf Hm Hb) as (r & Er & Hr').
  rewrite Er. cbn [mbind option_bind]. set (k0 := emit (EvFree f) k). assert (kext_wf k0) as W0 by apply emit_wf, W.
  pose proof (mg_emit (EvFree f) k) as M0. fold k0 in M0. cbn [frees] in M0.
  assert (forall k1, k1 = k0 -> steps (mg_step (assoc_next f k) [f] k) (Some k1)) as Hsame.
  { intros k1 ->. apply steps_ret; [done|]. eapply mg_mono, M0. by left. }
  destruct r as [[status aid]|]; [|by apply Hsame]. destruct (authenticationCancelled k0) eqn:Ec; [by apply Hsame|].
  assert (forall s, s = (if status =? 0 then if _wpa2 k && negb (_externalSupplicant k) then RTW88_STATE_HANDSHAKING else RTW88_STATE_CONNECTED else RTW88_STATE_IDLE) ->
    assoc_next f k s) as Hnext by (intros s ->; right; by exists status, aid).
  destruct (Z.eqb_spec status 0) as [->|]; cbn [negb].
  2: { apply steps_ret; [by apply set_state_wf|]. eapply mg_mono; [|eapply (mg_trans _ _ [f] []); [exact M0|by apply (mg_set_state RTW88_STATE_IDLE)]]. by intros s <-; apply Hnext. }
  destruct (assoc_setup aid k0 W0 Hh Hv) as (k1 & -> & A). cbn [mbind option_bind]. destruct (associated_ok k0 k1 W0 A) as [W1 M1].
  pose proof (mg_trans _ _ [f] [] _ _ _ M0 M1) as M. cbn [app] in M. pose proof M as (_ & _ & G & _). injection G as _ _ Gw Ge _ _ _ _ _ _ _ _ _ _ _ _ _ _ _.
  rewrite Gw, Ge. destruct (_wpa2 k && negb (_externalSupplicant k)) eqn:Ew.
  - destruct (pmk_step (k1 <| _state := RTW88_STATE_HANDSHAKING |>) (set_state_wf _ _ W1)) as (pmk & -> & W2). cbn [mbind option_bind].
    apply steps_ret; [by apply emit_wf|]. rewrite <- (app_nil_r [f]). apply (mg_trans _ _ _ _ _ _ _ M).
    apply (mg_quiet _ [EvWake 8000]); try done; [by constructor|by apply Hnext].
  - rewrite <- (app_nil_r [f]). eapply steps_mono; [apply (link_up_ok k1 W1); by rewrite Gw, Ge|].
    intros k2 M2. apply (mg_trans _ _ _ _ _ _ _ M). eapply mg_mono, M2. intros s <-. by apply Hnext.
Qed.

(** What may move the state on a received frame [f]. *)
Inductive frame_moves (f : list Z) (k : kext) : RTW88State -> Prop :=
| MoveStay : frame_moves f k (_state k)
| MoveAuthOk s : _state k = RTW88_STATE_AUTHENTICATING -> _connectCancelled k = false ->
    rtw88AuthResponse f (_macAddr k) (bssid (_targetBSS k)) = Some (Some 0) ->
    s = RTW88_STATE_ASSOCIATING \/ s = RTW88_STATE_IDLE -> frame_moves f k s
| MoveAuthRefused status : _state k = RTW88_STATE_AUTHENTICATING -> _connectCancelled k = false ->
    rtw88AuthResponse f (_macAddr k) (bssid (_targetBSS k)) = Some (Some status) -> status <> 0 -> frame_moves f k RTW88_STATE_IDLE
| MoveAssocOk aid : _state k = RTW88_STATE_ASSOCIATING -> _connectCancelled k = false ->
    rtw88AssocResponse f (_macAddr k) (bssid (_targetBSS k)) = Some (Some (0, aid)) ->
    frame_moves f k (if _wpa2 k && negb (_externalSupplicant k) then RTW88_STATE_HANDSHAKING else RTW88_STATE_CONNECTED)
| MoveAssocRefused status aid : _state k = RTW88_STATE_ASSOCIATING -> _connectCancelled k = false ->
    rtw88AssocResponse f (_macAddr k) (bssid (_targetBSS k)) = Some (Some (status, aid)) -> status <> 0 -> frame_moves f k RTW88_STATE_IDLE
| MoveDeauth a1 a2 a3 : _state k = RTW88_STATE_CONNECTED \/ _state k = RTW88_STATE_HANDSHAKING \/
      (_state k = RTW88_STATE_SCANNING /\ _scanReturnState k = RTW88_STATE_CONNECTED) ->
    ldn f 4 6 = Some a1 -> ldn f 10 6 = Some a2 -> ldn f 16 6 = Some a3 ->
    a1 = _macAddr k \/ is_broadcast_ether_addr a1 = true -> a2 = bssid (_targetBSS k) \/ a3 = bssid (_targetBSS k) ->
    frame_moves f k RTW88_STATE_IDLE
| MoveHandshake fc : _state k = RTW88_STATE_HANDSHAKING -> get_le16 f 0 = Some fc -> ieee80211_is_data fc = true ->
    frame_moves f k RTW88_STATE_CONNECTED.

Lemma is_state_true a b : is_state a b = true -> a = b.
Proof. unfold is_state. by intros ?%bool_decide_eq_true_1. Qed.

(** A step with nothing but the release of the frame. *)
Lemma steps_stay f k : kext_wf k -> steps (mg_step (frame_moves f k) [f] k) (Some (emit (EvFree f) k)).
Proof. intros W. apply steps_ret; [by apply emit_wf|]. eapply mg_mono, (mg_emit (EvFree f) k). intros s <-. constructor. Qed.
Lemma steps_then_free (S : RTW88State -> Prop) f k r : steps (mg_step S [] k) r -> steps (mg_step S [f] k) (k ← r; Some (emit (EvFree f) k)).
Proof.
  intros H. change [f] with ([] ++ [f]). eapply steps_mg; [exact H|]. intros k1 W1 (_&_&_&_&H1). apply steps_ret; [by apply emit_wf|].
  eapply mg_mono, (mg_emit (EvFree f) k1). by intros s <-.
Qed.

Lemma rx_auth_ok f k : kext_wf k -> assoc_ready k -> bytes_ok f -> steps (mg_step (frame_moves f k) [] k) (rx_auth E f k).
Proof.
  intros W Hr Hf. assert (steps (mg_step (frame_moves f k) [] k) (Some k)) as Hstay.
  { apply steps_ret; [done|]. eapply mg_mono, mg_refl. intros s <-. constructor. }
  unfold rx_auth. destruct (_ && _) eqn:Ec; [|done]. apply andb_prop in Ec as [Es Ec]. apply is_state_true in Es. apply negb_true_iff in Ec.
  destruct (wf_mac k W) as [Hm _]. destruct (wf_target k W) as (_ & _ & _ & Hb & _).
  destruct (auth_response_spec f _ _ Hf Hm Hb) as (r & Er & _). rewrite Er. cbn [mbind option_bind]. destruct r as [status|]; [|done].
  destruct (Z.eqb_spec status 0) as [->|Hne].
  - eapply steps_mono; [by apply doAssociate_ok|]. intros k'. apply mg_mono. intros s [->|Hs]; [constructor|by apply MoveAuthOk].
  - apply steps_ret; [by apply set_state_wf, emit_wf|]. eapply mg_mono; [|apply (mg_trans _ _ [] [] _ _ _ (mg_emit EvTimerCancel k)); by apply (mg_set_state RTW88_STATE_IDLE)].
    intros s <-. by apply (MoveAuthRefused f k status).
Qed.

Lemma set_txBa_wf b k : kext_wf k -> kext_wf (k <| _txBaActive := b |>).
Proof. intros W. by solve_wf W. Qed.
Lemma set_txBa_config b k : config (k <| _txBaActive := b |>) = config k.
Proof. reflexivity. Qed.

(** To IDLE, over states [kc] and [k2] that keep the configuration. *)
Lemma leave_mg k kc k2 : consumes [] k kc -> consumes [] (kc <| _txBaActive := false |>) k2 -> config kc = config k -> config k2 = config kc ->
  mg_step (eq RTW88_STATE_IDLE) [] k (emit (EvLink false) (k2 <| _state := RTW88_STATE_IDLE |> <| _scanReturnState := RTW88_STATE_IDLE |>)).
Proof.
  intros C1 C2 G1 G2. split; [|split; [intros _ Hc; discriminate Hc|]].
  - apply (consumes_trans [] [] _ k2); [exact (consumes_trans [] [] k kc k2 C1 C2)|]. by exists [EvLink false].
  - split; [|split; [right; reflexivity|reflexivity]]. change (config k2 = config k). by rewrite G2.
Qed.
Lemma leave_wf k : kext_wf k -> kext_wf (emit (EvLink false) (k <| _state := RTW88_STATE_IDLE |> <| _scanReturnState := RTW88_STATE_IDLE |>)).
Proof. intros W. by solve_wf W. Qed.
Lemma set_deauth_wf r k : kext_wf k -> kext_wf (k <| _deauthReason := r |>).
Proof. intros W. by solve_wf W. Qed.

Lemma leave_ok reason k : kext_wf k -> steps (mg_step (eq RTW88_STATE_IDLE) [] k) (leave reason k).
Proof.
  intros W. unfold leave. destruct (clearKeys_ok _ (set_deauth_wf reason k W)) as (W1 & C1 & G1 & _).
  set (kc := clearKeys _) in *. clearbody kc.
  destruct (teardown_all_ok _ (set_txBa_wf false kc W1)) as (k2 & -> & W2 & C2 & _ & G2 & _). cbn [mbind option_bind].
  apply steps_ret; [by apply leave_wf|]. rewrite set_txBa_config in G2. exact (leave_mg k kc k2 C1 C2 G1 G2).
Qed.

Lemma steps_same f k : kext_wf k -> steps (mg_step (frame_moves f k) [] k) (Some k).
Proof. intros W. apply steps_ret; [done|]. eapply mg_mono, mg_refl. intros s <-. exact (MoveStay f k). Qed.

Lemma rx_deauth_ok f k : kext_wf k -> rx_ok f -> steps (mg_step (frame_moves f k) [] k) (rx_deauth f k).
Proof.
  intros W [Hl Hb]. pose proof (steps_same f k W) as Hstay. unfold rx_deauth.
  destruct (_ || (_ && _)) eqn:Es; [|done]. destruct (ldn_buf f 4 6 Hb) as (a1 & E1 & _); [lia..|]. destruct (ldn_buf f 10 6 Hb) as (a2 & E2 & _); [lia..|].
  destruct (ldn_buf f 16 6 Hb) as (a3 & E3 & _); [lia..|]. rewrite E1, E2, E3. cbn [mbind option_bind]. cbn zeta. destruct (_ || negb _) eqn:Ea; [done|].
  assert (exists r, (if 26 <=? zlen f then get_le16 f 24 else Some 0) = Some r) as [r ->].
  { destruct (Z.leb_spec 26 (zlen f)); [|by eexists]. destruct (get_le16_ok f 24 Hb) as (r & -> & _); [lia..|]. by eexists. }
  cbn [mbind option_bind]. eapply steps_mono; [by apply leave_ok|]. intros k'. apply mg_mono. intros s <-.
  apply orb_false_elim in Ea as [Ea Eb]. apply negb_false_iff in Ea, Eb. apply (MoveDeauth f k a1 a2 a3); try done.
  - apply orb_prop in Es as [Es|Es]; [apply orb_prop in Es as [Es|Es]; apply is_state_true in Es; by auto|].
    apply andb_prop in Es as [Es Er]. apply is_state_true in Es, Er. by auto.
  - apply orb_prop in Eb as [Eb|]; [left; by apply bool_decide_eq_true_1 in Eb|by right].
  - apply orb_prop in Ea as [Ea|Ea]; apply bool_decide_eq_true_1 in Ea; by auto.
Qed.

Lemma rx_channel_ok rx_band k : kext_wf k -> 0 <= rx_band -> exists c, rx_channel rx_band k = Some c.
Proof.
  intros W Hb. pose proof (wf_hw k W) as H. unfold rx_channel, hw_wf in *. destruct (_hw k) as [h|]; [|by eexists].
  destruct (hw_bands h) as [bs|]; [|by eexists]. destruct (Z.ltb_spec rx_band NL80211_NUM_BANDS); [|by eexists].
  destruct (ld_Some bs rx_band) as [b ->]; [lia|]. by eexists.
Qed.

Lemma rx_action_ok f signal rx_band k : kext_wf k -> rx_ok f -> 0 <= rx_band ->
  steps (mg_step (eq (_state k)) [] k) (rx_action E f signal rx_band k).
Proof.
  intros W [Hl Hb] Hband. unfold rx_action. destruct (rx_channel_ok rx_band k W Hband) as (c & ->). cbn [mbind option_bind]. cbn zeta.
  set (k1 := emit (EvActionFrame f (signed 8 signal) c) k). assert (kext_wf k1) as W1 by apply emit_wf, W.
  pose proof (mg_emit (EvActionFrame f (signed 8 signal) c) k) as M1. fold k1 in M1. cbn [frees] in M1.
  assert (forall r, steps (mg_step (eq (_state k1)) [] k1) r -> steps (mg_step (eq (_state k)) [] k) r) as Hlift.
  { intros r H. eapply steps_mono; [exact H|]. intros k2 M2. exact (mg_trans _ _ [] [] _ _ _ M1 M2). }
  apply Hlift. assert (steps (mg_step (eq (_state k1)) [] k1) (Some k1)) as Hstay by (apply steps_ret; [done|apply mg_refl]).
  destruct (state_is k1 _); [|done]. destruct (ldn_buf f 24 (zlen f - 24) Hb) as (b & -> & Hz & Hbb); [lia..|]. cbn [mbind option_bind].
  destruct (Z.leb_spec 2 (zlen b)); [|done]. destruct (ld_byte b 0 Hbb) as (b0 & -> & _); [lia|]. rewrite ldn_Some by lia. cbn [mbind option_bind].
  destruct (_ && _); [by apply handleBackAction_ok|done].
Qed.

Lemma set_bss_wf t k : list_wf (bssList t) -> kext_wf k -> kext_wf (k <| _bss := t |>).
Proof. intros Ht W. by solve_wf W. Qed.

Lemma rx_scan_result_ok f signal rxfreq k : kext_wf k -> bytes_ok f ->
  steps (mg_step (eq (_state k)) [] k) (rx_scan_result E f signal rxfreq k).
Proof.
  intros W Hf. unfold rx_scan_result. destruct (state_is k _); [|apply steps_ret; [done|apply mg_refl]].
  assert (exists t, processScanResult (alloc_ok E (trace k)) f signal rxfreq (_scanGeneration k) (_bss k) = Some t /\ list_wf (bssList t)) as (t & -> & Ht).
  { unfold processScanResult. destruct (alloc_ok E _); [|exists (_bss k); split; [done|apply W]].
    destruct (parse_beacon_ok f signal rxfreq (_scanGeneration k) Hf) as (r & -> & Hr). cbn [mbind option_bind].
    destruct r as [b|]; [|exists (_bss k); split; [done|apply W]]. eexists. split; [done|]. apply bss_add_list_wf; [by apply Hr|apply W]. }
  cbn [mbind option_bind]. apply steps_ret; [by apply set_bss_wf|]. by apply (mg_quiet _ []); [constructor|..].
Qed.

Lemma processRxMgmt_ok f signal rxfreq rx_band k : kext_wf k -> assoc_ready k -> rx_ok f -> 0 <= rx_band ->
  steps (mg_step (frame_moves f k) [f] k) (processRxMgmt E ctx f signal rxfreq rx_band k).
Proof.
  intros W Hr Hf Hband. pose proof Hf as [Hl Hb]. pose proof (steps_stay f k W) as Hstay. unfold processRxMgmt.
  destruct (get_le16_ok f 0 Hb) as (fc & -> & _); [lia..|]. cbn [mbind option_bind]. set (stype := fc .& 0x00f0). clearbody stype. cbn zeta.
  assert (forall r, steps (mg_step (eq (_state k)) [] k) r -> steps (mg_step (frame_moves f k) [f] k) (k ← r; Some (emit (EvFree f) k))) as Hquiet.
  { intros r H. apply steps_then_free. eapply steps_mono; [exact H|]. intros k'. apply mg_mono. intros s <-. exact (MoveStay f k). }
  destruct (_ || (stype =? 80)); [by apply Hquiet, rx_scan_result_ok|].
  destruct (stype =? 176); [by apply steps_then_free, rx_auth_ok|].
  destruct (_ || (stype =? 48)).
  { destruct (state_is k _) eqn:Es; [|done]. apply is_state_true in Es. eapply steps_mono; [by apply processAssocResponse_ok|].
    intros k'. apply mg_mono. intros s [->|(st & aid & Er & Hc & ->)]; [exact (MoveStay f k)|]. destruct (Z.eqb_spec st 0) as [->|]; [by eapply MoveAssocOk|by eapply MoveAssocRefused]. }
  destruct (_ || (stype =? 192)); [by apply steps_then_free, rx_deauth_ok|].
  destruct (stype =? 208); [by apply Hquiet, rx_action_ok|done].
Qed.

Lemma set_rssi_wf r k : kext_wf k -> kext_wf (k <| _rssi := r |>).
Proof. intros W. by solve_wf W. Qed.

Lemma rxFrame_ok f signal rxfreq rx_band k : kext_wf k -> assoc_ready k -> zlen f < 2 ^ 16 -> bytes_ok f -> 0 <= rx_band ->
  steps (mg_step (frame_moves f k) [f] k) (rxFrame E ctx f signal rxfreq rx_band k).
Proof.
  intros W Hr Hl Hb Hband. unfold rxFrame. destruct (Z.ltb_spec (zlen f) 24); [by apply steps_stay|]. assert (rx_ok f) as Hf by done.
  set (k1 := k <| _rssi := signal |>). assert (kext_wf k1) as W1 by apply set_rssi_wf, W.
  assert (forall r, steps (mg_step (frame_moves f k1) [f] k1) r -> steps (mg_step (frame_moves f k) [f] k) r) as Hlift.
  { intros r H1. eapply steps_mono; [exact H1|]. intros k' M. apply (mg_mono (frame_moves f k1)).
    - intros s []; [exact (MoveStay f k)|by eapply (MoveAuthOk f k)|by eapply (MoveAuthRefused f k)|by eapply (MoveAssocOk f k)|by eapply (MoveAssocRefused f k)|by eapply (MoveDeauth f k)|by eapply (MoveHandshake f k)].
    - exact (mg_trans _ _ [] [f] _ _ _ (mg_refl k) M). }
  destruct (get_le16_ok f 0 Hb) as (fc & Ef & _); [lia..|]. rewrite Ef. cbn [mbind option_bind]. apply Hlift.
  destruct (ieee80211_is_mgmt fc); [by apply processRxMgmt_ok|]. destruct (ieee80211_is_data fc) eqn:Ed; [|by apply steps_stay].
  destruct (tryDeliverAWDLDataFrame_ok E f k1 W1 Hf) as (b & k2 & -> & W2 & Hd). cbn [mbind option_bind].
  assert (forall k', rx_step [f] k1 k' -> mg_step (frame_moves f k1) [f] k1 k') as Hrx.
  { intros k' S. eapply mg_mono, rx_step_mg, S. intros s [->|[S1 ->]]; [constructor|by apply (MoveHandshake f k1 fc)]. }
  destruct b; [apply steps_ret; [done|by apply Hrx]|]. subst k2. eapply steps_mono; [by apply processRxData_ok|]. exact Hrx.
Qed.
End mgmt_proofs.

(** ** Theorems *)

Lemma assoc_ready_next f k k' : assoc_ready k -> config k' = config k -> frame_moves f k (_state k') -> assoc_ready k'.
Proof.
  intros [Hr Hx] G M. injection G as Gh Gv Gw Ge Gi Gl _ _ _ _ _ _ _ _ _ _ _ _ _. split.
  - unfold has_hw. rewrite Gv, Gh. intros Hs. apply Hr. revert Hs M. generalize (_state k'). intros s Hs M. destruct M; auto; exfalso; destruct Hs; try congruence;
      by destruct (_wpa2 k && negb (_externalSupplicant k)).
  - unfold ext_rsn, rsn_fits in *. by rewrite Ge, Gi, Gl.
Qed.

Lemma cmdSetAssocRsnIE_ok ie k k' : kext_wf k -> bytes_ok ie -> cmdSetAssocRsnIE (Some ie) k = Some (kIOReturnSuccess, k') ->
  kext_wf k' /\ k' = k <| _assocRsnIE := ie ++ zeros (257 - zlen ie) |> <| _assocRsnIELen := zlen ie |> /\ 2 <= zlen ie <= 257 /\
  ie !!! 0%nat = 48 /\ u16 (ie !!! 1%nat + 2) = zlen ie.
Proof.
  intros W Hb. unfold cmdSetAssocRsnIE. destruct (_ || (257 <? zlen ie)) eqn:El; [done|]. bool_hyps.
  destruct ie as [|e0 [|e1 r]]; [unfold zlen in *; cbn in *; lia..|].
  change (ld (e0 :: e1 :: r) 0) with (Some e0). change (ld (e0 :: e1 :: r) 1) with (Some e1). cbn [mbind option_bind].
  destruct (negb (e0 =? 48) || _) eqn:Ee; [done|]. intros [= <-]. bool_hyps. split; [|by split_and!].
  set (ie := e0 :: e1 :: r) in *. solve_wf W. split; [|change (0 <= zlen ie <= 257); lia]. change (buf_ok 257 (ie ++ zeros (257 - zlen ie))).
  split; [rewrite zlen_app, zlen_zeros; lia|]. apply Forall_app. split; [done|apply bytes_zeros].
Qed.

(** C39: buildAssocReq writes the association request it means to, byte for
    byte, exactly when that request fits the caller's 256-byte array, and runs
    past the array otherwise.  The driver's own RSN element, or a supplicant's
    element of at most 133 bytes, always fits; an element of 208 bytes or more,
    which cmdSetAssocRsnIE accepts, never does. *)
Theorem assoc_request_bounds k : kext_wf k ->
  (zlen (assoc_frame k) <= 256 ->
    exists b, buildAssocReq (zeros 256) k = Some (b, zlen (assoc_frame k), k <| _txSeq := u16 (_txSeq k + 1) |>) /\
      ldn b 0 (zlen (assoc_frame k)) = Some (assoc_frame k)) /\
  (256 < zlen (assoc_frame k) -> buildAssocReq (zeros 256) k = None) /\
  (_externalSupplicant k = false \/ _assocRsnIELen k <= 133 -> zlen (assoc_frame k) <= 256) /\
  (forall ie k', bytes_ok ie -> cmdSetAssocRsnIE (Some ie) k = Some (kIOReturnSuccess, k') -> 208 <= zlen ie ->
    _wpa2 k = true -> _externalSupplicant k = true -> buildAssocReq (zeros 256) k' = None).
Proof.
  intros W. split; [|split; [|split]].
  - intros Hl. destruct (buildAssocReq_eq k W) as [(_ & H) | [Hn _]]; [exact H|lia].
  - intros Hl. destruct (buildAssocReq_eq k W) as [(Hn & _) | [_ H]]; [lia|exact H].
  - intros He. apply assoc_frame_fits; [done|]. destruct He as [He|Hr]; [left|right; exact Hr]. unfold ext_rsn. by rewrite He.
  - intros ie k' Hb Ec Hl Hw He. destruct (cmdSetAssocRsnIE_ok ie k k' W Hb Ec) as (W' & -> & Hr & E0 & E1).
    set (k' := k <| _assocRsnIE := _ |> <| _assocRsnIELen := _ |>) in *. destruct (buildAssocReq_eq k' W') as [(Hn & _) | [_ H]]; [exfalso|exact H].
    pose proof (assoc_base_range k' W') as Hbase. rewrite assoc_frame_zlen in Hn.
    assert (ext_rsn k' = true) as Ex.
    { unfold ext_rsn. change (_externalSupplicant k') with (_externalSupplicant k). change (_assocRsnIELen k') with (zlen ie).
      change (_assocRsnIE k') with (ie ++ zeros (257 - zlen ie)). rewrite !lookup_total_app_l by (unfold zlen in *; lia).
      rewrite He, E0, E1, (proj2 (Z.leb_le 2 (zlen ie))) by lia. by rewrite !Z.eqb_refl. }
    unfold assoc_rsn in Hn. rewrite Ex in Hn. change (_wpa2 k') with (_wpa2 k) in Hn. rewrite Hw in Hn. cbn [opt_ie] in Hn. rewrite zlen_ztake in Hn.
    change (_assocRsnIELen k') with (zlen ie) in Hn. destruct (wf_rsnie k' W') as [[Hz _] _]. lia.
Qed.

(** C24: the response checks accept exactly the frames meant.  Both checks
    answer on every frame; an authentication response is one of 30 bytes or
    more, addressed to us and sent for the target network, of the right
    subtype, open system, second in its exchange, and its status is what the
    frame carries; an association response also has, when it is a success, an
    association identifier from 1 to 2007. *)
Theorem response_validation f mac bssid : bytes_ok f -> zlen mac = 6 -> zlen bssid = 6 ->
  (exists r, rtw88AuthResponse f mac bssid = Some r /\
    forall status, r = Some status <-> from_peer f mac bssid /\ (exists f0, ld f 0 = Some f0 /\ f0 .& 0xfc = 0xb0) /\
      get_le16 f 24 = Some 0 /\ get_le16 f 26 = Some 2 /\ get_le16 f 28 = Some status) /\
  (exists r, rtw88AssocResponse f mac bssid = Some r /\
    forall status aid, r = Some (status, aid) <-> from_peer f mac bssid /\
      (exists f0, ld f 0 = Some f0 /\ (f0 .& 0xfc = 0x10 \/ f0 .& 0xfc = 0x30)) /\
      get_le16 f 26 = Some status /\ (exists raw, get_le16 f 28 = Some raw /\ aid = raw .& 0x3fff) /\ (status = 0 -> 1 <= aid <= 2007)).
Proof. intros Hf Hm Hb. split; [by apply auth_response_spec|by apply assoc_response_spec]. Qed.

(** C4: received frames drive the connection along its state machine.  On
    every frame of any content rxFrame answers: no access outside the frame or
    an array of the object, no null pointer; the frame is released, delivered
    or kept for reordering, once; the object stays well formed and ready for
    the next frame, its configuration untouched; the state moves only as the
    exchange allows (a valid response of the target network, a
    deauthentication from it, or the end of the handshake), and never on a
    response while the connection attempt is cancelled. *)
Theorem frame_state_machine E ctx f signal rxfreq rx_band k :
  env_ok E -> zlen (buffer ctx) = 64 -> kext_wf k -> assoc_ready k -> zlen f < 2 ^ 16 -> bytes_ok f -> 0 <= rx_band ->
  exists k', rxFrame E ctx f signal rxfreq rx_band k = Some k' /\ kext_wf k' /\ assoc_ready k' /\
    consumes [f] k k' /\ (link_ok k -> link_ok k') /\ config k' = config k /\ frame_moves f k (_state k').
Proof.
  intros HE Hc W Hr Hl Hb Hband. destruct (rxFrame_ok E ctx HE Hc f signal rxfreq rx_band k W Hr Hl Hb Hband) as (k' & Er & W' & C & L & G & _ & M).
  exists k'. split; [done|]. split; [done|]. split; [|done]. by apply (assoc_ready_next f k).
Qed.

(** ** Witnesses *)

Definition demo_supplicant : kext := demo_kext RTW88_STATE_AUTHENTICATING <| _externalSupplicant := true |>.
Lemma demo_supplicant_wf : kext_wf demo_supplicant.
Proof. pose proof (demo_kext_wf RTW88_STATE_AUTHENTICATING) as W. by solve_wf W. Qed.

(** A 257-byte element is accepted and overruns the request. *)
Example assoc_overflow :
  ('(ret, k) ← cmdSetAssocRsnIE (Some ([48; 255] ++ zeros 255)) demo_supplicant; Some ret) = Some kIOReturnSuccess /\
  ('(ret, k) ← cmdSetAssocRsnIE (Some ([48; 255] ++ zeros 255)) demo_supplicant; buildAssocReq (zeros 256) k) = None.
Proof. split; vm_compute; reflexivity. Qed.

Lemma assoc_request_bounds_witness :
  let k := demo_supplicant in
  (zlen (assoc_frame k) <= 256 ->
    exists b, buildAssocReq (zeros 256) k = Some (b, zlen (assoc_frame k), k <| _txSeq := u16 (_txSeq k + 1) |>) /\
      ldn b 0 (zlen (assoc_frame k)) = Some (assoc_frame k)) /\
  (256 < zlen (assoc_frame k) -> buildAssocReq (zeros 256) k = None) /\
  (_externalSupplicant k = false \/ _assocRsnIELen k <= 133 -> zlen (assoc_frame k) <= 256) /\
  (forall ie k', bytes_ok ie -> cmdSetAssocRsnIE (Some ie) k = Some (kIOReturnSuccess, k') -> 208 <= zlen ie ->
    _wpa2 k = true -> _externalSupplicant k = true -> buildAssocReq (zeros 256) k' = None).
Proof. intros k. apply (assoc_request_bounds k). exact demo_supplicant_wf. Defined.

(** The access point's answers to the demo station. *)
Definition demo_answer (stype : Z) (body : list Z) : list Z :=
  hdr_3addr stype [2; 0; 0; 0; 0; 1] [2; 4; 6; 8; 10; 12] [2; 4; 6; 8; 10; 12] 0 ++ body.
Definition demo_auth_ok : list Z := demo_answer 0xb0 [0; 0; 2; 0; 0; 0].
Definition demo_assoc_ok : list Z := demo_answer 0x10 [0x31; 4; 0; 0; 1; 0xc0].

Example demo_auth_accepted : rtw88AuthResponse demo_auth_ok [2; 0; 0; 0; 0; 1] [2; 4; 6; 8; 10; 12] = Some (Some 0).
Proof. reflexivity. Qed.
Example demo_assoc_accepted : rtw88AssocResponse demo_assoc_ok [2; 0; 0; 0; 0; 1] [2; 4; 6; 8; 10; 12] = Some (Some (0, 1)).
Proof. reflexivity. Qed.

Lemma response_validation_witness :
  let f := demo_auth_ok in let mac := [2; 0; 0; 0; 0; 1] in let bssid := [2; 4; 6; 8; 10; 12] in
  (exists r, rtw88AuthResponse f mac bssid = Some r /\
    forall status, r = Some status <-> from_peer f mac bssid /\ (exists f0, ld f 0 = Some f0 /\ f0 .& 0xfc = 0xb0) /\
      get_le16 f 24 = Some 0 /\ get_le16 f 26 = Some 2 /\ get_le16 f 28 = Some status) /\
  (exists r, rtw88AssocResponse f mac bssid = Some r /\
    forall status aid, r = Some (status, aid) <-> from_peer f mac bssid /\
      (exists f0, ld f 0 = Some f0 /\ (f0 .& 0xfc = 0x10 \/ f0 .& 0xfc = 0x30)) /\
      get_le16 f 26 = Some status /\ (exists raw, get_le16 f 28 = Some raw /\ aid = raw .& 0x3fff) /\ (status = 0 -> 1 <= aid <= 2007)).
Proof. intros f mac bssid. apply (response_validation f mac bssid); [by apply bytes_okb_ok|done|done]. Defined.

(** The exchange, run: authenticating to associating to connected. *)
Definition demo_open : kext := demo_kext RTW88_STATE_AUTHENTICATING <| _wpa2 := false |>.
Example demo_exchange :
  (k ← rxFrame demo_env stack_ctx demo_auth_ok (-40) 2462 0 demo_open;
   k' ← rxFrame demo_env stack_ctx demo_assoc_ok (-40) 2462 0 k;
   Some (_state k, _state k')) = Some (RTW88_STATE_ASSOCIATING, RTW88_STATE_CONNECTED).
Proof. vm_compute. reflexivity. Qed.

Lemma frame_state_machine_witness :
  exists k', rxFrame demo_env stack_ctx demo_auth_ok (-40) 2462 0 demo_open = Some k' /\ kext_wf k' /\ assoc_ready k' /\
    consumes [demo_auth_ok] demo_open k' /\ (link_ok demo_open -> link_ok k') /\ config k' = config demo_open /\ frame_moves demo_auth_ok demo_open (_state k').
Proof.
  apply (frame_state_machine demo_env stack_ctx demo_auth_ok (-40) 2462 0 demo_open); [apply demo_env_ok|done| | |done|by apply bytes_okb_ok|done].
  - pose proof (demo_kext_wf RTW88_STATE_AUTHENTICATING) as W. by solve_wf W.
  - split; [done|by left].
Defined.
