(* ===== verification/Mlme.v ===== *)
(** * Power, scanning and the connection attempt

    From [src/src/kext/RTW88IEEE80211.cpp]: [start], [stop], [powerOn],
    [powerOff], [setReceiveMulticast], [setAWDLReceiveMode],
    [setAWDLChannel], [setConnectedChandef], [restoreConnectedChannel],
    [abortActiveScan], [scanDone], [cmdScan], [runManualScan], [cmdConnect],
    [doAuthenticate], [cancelAuthentication], [cmdDisconnect],
    [doDisconnect], [cmdPowerOn], [cmdPowerOff], [onTimer] and the queries.

    A function that sleeps or waits is a machine: a position and one step per
    stretch between two waits.  [None] is a null pointer dereferenced or an
    access outside an array. *)

From S2P Require Import Prelude Rsn Bss Kdf Reorder Kext Tx Eapol Rx Mgmt.

Definition kIOReturnError : Z := 0xe00002bc.
Definition kIOReturnNoMemory : Z := 0xe00002bd.
Definition kIOReturnBusy : Z := 0xe00002d5.
Definition FIF_ALLMULTI : Z := 0x02.
Definition FIF_OTHER_BSS : Z := 0x40.
Definition WLAN_EID_VHT_OPERATION : Z := 192.
Definition WLAN_REASON_DEAUTH_LEAVING : Z := 3.
Definition IEEE80211_STYPE_DEAUTH : Z := 0x00C0.

(** ** The channel table

    [chan->band = band->band] is written into the table of the driver. *)

Fixpoint find_chan (p : ieee80211_channel -> bool) (bid : Z) (cs : list ieee80211_channel) : option (ieee80211_channel * list ieee80211_channel) :=
  match cs with
  | [] => None
  | c :: cs =>
      if p c then let c := c <| ch_band := bid |> in Some (c, c :: cs)
      else '(r, cs) ← find_chan p bid cs; Some (r, c :: cs)
  end.

Definition with_channels (b : ieee80211_supported_band) (cs : list ieee80211_channel) : ieee80211_supported_band :=
  mk_band (band_id b) cs (band_ht b) (band_vht b).

Fixpoint find_band (p : ieee80211_channel -> bool) (bs : list (option ieee80211_supported_band))
    : option (ieee80211_channel * list (option ieee80211_supported_band)) :=
  match bs with
  | [] => None
  | None :: bs => '(r, bs) ← find_band p bs; Some (r, None :: bs)
  | Some b :: bs =>
      match find_chan p (band_id b) (channels b) with
      | Some (r, cs) => Some (r, Some (with_channels b cs) :: bs)
      | None => '(r, bs) ← find_band p bs; Some (r, Some b :: bs)
      end
  end.

Definition set_bands (bs : list (option ieee80211_supported_band)) (k : kext) : kext :=
  match _hw k with Some h => k <| _hw := Some (h <| hw_bands := Some bs |>) |> | None => k end.

(** The first channel of the table that satisfies [p]. *)
Definition find_channel (p : ieee80211_channel -> bool) (k : kext) : option ieee80211_channel * kext :=
  match h ← _hw k; bs ← hw_bands h; find_band p bs with
  | Some (c, bs) => (Some c, set_bands bs k)
  | None => (None, k)
  end.

Definition set_chandef (c : ieee80211_channel) (width cf1 : Z) (k : kext) : option kext :=
  h ← _hw k; Some (k <| _hw := Some (h <| hw_chandef := mk_chandef (Some c) width cf1 |>) |>).

(** ** The operating width *)

Record oper := mk_oper { sco : Z; htStaWidth : bool; vhtWidth : Z; vhtSeg0 : Z }.

(** [b] is what is left of the elements from [i]. *)
Fixpoint parse_oper (fuel : nat) (b : list Z) (o : oper) : option oper :=
  if zlen b <? 2 then Some o
  else match fuel with
       | O => None
       | S m =>
           id ← ld b 0; len ← ld b 1;
           if zlen b <? 2 + len then Some o
           else
             o ← (if (id =? WLAN_EID_HT_OPERATION) && (2 <=? len) then
                    d1 ← ld b 3; Some (mk_oper (d1 .& 0x03) (negb (d1 .& 0x04 =? 0)) (vhtWidth o) (vhtSeg0 o))
                  else if (id =? WLAN_EID_VHT_OPERATION) && (3 <=? len) then
                    d0 ← ld b 2; d1 ← ld b 3; Some (mk_oper (sco o) (htStaWidth o) d0 d1)
                  else Some o);
             parse_oper m (zdrop (2 + len) b) o
       end.

Definition setConnectedChandef (c : ieee80211_channel) (k : kext) : option kext :=
  k ← set_chandef c NL80211_CHAN_WIDTH_20_NOHT (center_freq c) k;
  let k := k <| _connChanWidth := 20 |> in
  if negb (htAllowed k) then Some k
  else
    sb ← target_sband k;
    match sb with
    | None => Some k
    | Some sb =>
        let chip40 := negb (ht_capinfo (band_ht sb) .& IEEE80211_HT_CAP_SUP_WIDTH_20_40 =? 0) in
        let chip80 := chip40 && (target_band k =? NL80211_BAND_5GHZ) && vht_supported (band_vht sb) in
        b ← ldn (ies (_targetBSS k)) 0 (ies_len (_targetBSS k));
        o ← parse_oper (length b) b (mk_oper 0 false 0 0);
        k ← (if chip40 && htStaWidth o && ((sco o =? 1) || (sco o =? 3)) then
               set_chandef c NL80211_CHAN_WIDTH_40 (u32 (center_freq c + (if sco o =? 1 then 10 else -10))) (k <| _connChanWidth := 40 |>)
             else Some k);
        if chip80 && (vhtWidth o =? 1) && negb (vhtSeg0 o =? 0) then
          set_chandef c NL80211_CHAN_WIDTH_80 (u32 (5000 + 5 * vhtSeg0 o)) (k <| _connChanWidth := 80 |>)
        else Some k
    end.

Definition is_target_channel (k : kext) (c : ieee80211_channel) : bool := hw_value c =? channel (_targetBSS k).

Definition restoreConnectedChannel (k : kext) : option kext :=
  if negb (is_state (_scanReturnState k) RTW88_STATE_CONNECTED) || negb (has_hw k) || negb (has_vif k) then Some k
  else
    let '(chan, k) := find_channel (is_target_channel k) k in
    k ← match chan with Some c => setConnectedChandef c k | None => Some k end;
    h ← _hw k;
    let a := bssid (_targetBSS k) in
    let k := emit (EvRestoreConnectedHw (hw_chandef h) a) k in
    v ← _vif k;
    Some (k <| _vif := Some (mk_vif true (_assocAID k) (bss_qos v) a true (_assocAID k)) |>).

(** ** Filters, the AWDL channel and power *)

Definition setReceiveMulticast (active : bool) (k : kext) : Z * kext :=
  if negb (has_op k OpConfigureFilter) then (kIOReturnNotReady, k)
  else
    let k := k <| _receiveMulticast := active |> in
    (kIOReturnSuccess, if _powered k then emit (EvConfigureFilter FIF_ALLMULTI (if active then FIF_ALLMULTI else 0)) k else k).

Definition setAWDLReceiveMode (active : bool) (k : kext) : Z * kext :=
  if negb (has_op k OpConfigureFilter) then (kIOReturnNotReady, k)
  else
    let k := k <| _awdlReceiveMode := active |> in
    let k := if negb active then k <| _awdlChannel := 0 |> else k in
    let changed := FIF_OTHER_BSS .| FIF_ALLMULTI in
    let flags := if active then FIF_OTHER_BSS .| FIF_ALLMULTI else if _receiveMulticast k then FIF_ALLMULTI else 0 in
    (kIOReturnSuccess, emit (EvConfigureFilter changed flags) k).

Definition has_wiphy (k : kext) : bool :=
  match _hw k with Some h => match hw_bands h with Some _ => true | None => false end | None => false end.
Definition chan_enabled (c : ieee80211_channel) : bool := ch_flags c .& IEEE80211_CHAN_DISABLED =? 0.

(** The station owns the radio. *)
Definition sta_busy (k : kext) : bool :=
  state_is k RTW88_STATE_CONNECTED || (state_is k RTW88_STATE_SCANNING && is_state (_scanReturnState k) RTW88_STATE_CONNECTED) ||
  state_is k RTW88_STATE_AUTHENTICATING || state_is k RTW88_STATE_ASSOCIATING || state_is k RTW88_STATE_HANDSHAKING.

Definition setAWDLChannel (chan : Z) (k : kext) : option (Z * kext) :=
  if negb (_powered k) || negb (has_wiphy k) || (chan =? 0) then Some (kIOReturnNotReady, k)
  else
    let k := k <| _awdlChannel := chan |> in
    if sta_busy k then Some (kIOReturnBusy, k)
    else
      let '(target, k) := find_channel (fun c => (hw_value c =? chan) && chan_enabled c) k in
      match target with
      | None => Some (kIOReturnUnsupported, k)
      | Some c =>
          k ← set_chandef c NL80211_CHAN_WIDTH_20_NOHT (center_freq c) k;
          h ← _hw k;
          Some (kIOReturnSuccess, emit (EvAwdlSwitch (hw_chandef h)) k)
      end.

Section power.
Context (E : env).

Definition powerOn (k : kext) : Z * kext :=
  if _powered k then (kIOReturnSuccess, k)
  else if negb (has_op k OpStart) then (kIOReturnNotReady, k)
  else
    let ret := start_ret E (trace k) in
    let k := emit EvStart k in
    if negb (ret =? 0) then (kIOReturnError, k)
    else let k := k <| _powered := true |> in setReceiveMulticast (_receiveMulticast k) k.

Definition powerOff (k : kext) : kext :=
  if negb (_powered k) then k
  else (if has_op k OpStop then emit EvStop k else k) <| _powered := false |>.

(** ** Disconnecting *)

Definition deauth_frame (k : kext) : list Z :=
  let a := bssid (_targetBSS k) in
  hdr_3addr (IEEE80211_FTYPE_MGMT .| IEEE80211_STYPE_DEAUTH) a (_macAddr k) a 0 ++ [WLAN_REASON_DEAUTH_LEAVING; 0].

Definition to_idle (k : kext) : kext := k <| _state := RTW88_STATE_IDLE |> <| _scanReturnState := RTW88_STATE_IDLE |>.

Definition doDisconnect (k : kext) : option kext :=
  if negb (has_hw k) || negb (has_vif k) then Some (to_idle k)
  else
    let k := clearKeys k in
    let '(_, k) := txMgmtFrame E (deauth_frame k) k in
    v ← _vif k;
    let v := mk_vif false (bss_aid v) (bss_qos v) (bss_bssid v) (cfg_assoc v) (cfg_aid v) in
    let k := k <| _vif := Some v |> in
    let k := if has_op k OpBssInfoChanged then emit (EvBssInfoChanged v) k else k in
    k ← releaseSta k;
    Some (emit (EvLink false) (emit EvTimerCancel (to_idle k))).

(** [cancelAuthentication], up to its wait for the connect call. *)
Definition cancel_begin (k : kext) : kext := emit EvTimerCancel (k <| _connectCancelled := true |>).

(** [cmdDisconnect] after the wait. *)
Definition disconnect_rest (k : kext) : option (Z * kext) :=
  if state_is k RTW88_STATE_IDLE then Some (kIOReturnSuccess, k)
  else k ← doDisconnect k; Some (kIOReturnSuccess, k).

Definition cmdPowerOn (k : kext) : Z * kext :=
  let '(ret, k) := powerOn k in
  (ret, if (ret =? kIOReturnSuccess) && state_is k RTW88_STATE_DISCONNECTING then k <| _state := RTW88_STATE_IDLE |> else k).

(** [cmdPowerOff] after its waits. *)
Definition poweroff_rest (k : kext) : option kext :=
  k ← (if state_is k RTW88_STATE_CONNECTED || state_is k RTW88_STATE_AUTHENTICATING || state_is k RTW88_STATE_ASSOCIATING ||
          state_is k RTW88_STATE_HANDSHAKING
       then doDisconnect k
       else releaseSta (clearKeys k));
  Some (emit (EvLink false) (to_idle (powerOff k))).

(** ** Scanning *)

(** [abortActiveScan] before its wait: ask the scan to end. *)
Definition abort_begin (k : kext) : kext :=
  if negb (_manualScanChannelCount k =? 0) then k <| _manualScanAbort := true |>
  else if has_op k OpCancelHwScan then emit EvCancelHwScan k else k.

(** [abortActiveScan] after the wait: the answer. *)
Definition abort_finish (returnState : RTW88State) (k : kext) : option (bool * kext) :=
  if state_is k RTW88_STATE_SCANNING then
    if negb (_manualScanChannelCount k =? 0) then Some (false, k)
    else
      k ← (if is_state returnState RTW88_STATE_CONNECTED then restoreConnectedChannel k else Some k);
      let k := k <| _state := if is_state returnState RTW88_STATE_IDLE then RTW88_STATE_IDLE else returnState |>
                 <| _scanReturnState := RTW88_STATE_IDLE |> <| _manualScanChannelCount := 0 |> <| _manualScanOnHomeChannel := false |> in
      Some (negb (state_is k RTW88_STATE_SCANNING), k)
  else Some (true, k).

(** The list without its stale entries; the counter goes down with each. *)
Fixpoint age_list (keep : RTW88BSS -> bool) (l : list RTW88BSS) (count : Z) : list RTW88BSS * Z :=
  match l with
  | [] => ([], count)
  | b :: l =>
      if keep b then let '(l, count) := age_list keep l count in (b :: l, count)
      else age_list keep l (if negb (count =? 0) then u32 (count - 1) else count)
  end.

(** The entry stays: it is the network in use, or at most three scans old. *)
Definition keep_bss (k : kext) (b : RTW88BSS) : bool :=
  let effective := if state_is k RTW88_STATE_SCANNING then _scanReturnState k else _state k in
  let isTarget := (is_state effective RTW88_STATE_CONNECTED || is_state effective RTW88_STATE_HANDSHAKING) &&
                  bool_decide (bssid b = bssid (_targetBSS k)) in
  isTarget || (u32 (_scanGeneration k - last_seen_scan b) <=? 3).

(** [EvScanDone] is the call of the delegate.  The Airport controller sets
    itself as delegate before it starts the object ([setEventDelegate]); under
    the Ethernet controller there is none, and the event reaches nobody. *)
Definition scanDone (aborted : bool) (k : kext) : option kext :=
  let k := if negb aborted
           then let '(l, n) := age_list (keep_bss k) (bssList (_bss k)) (bssCount (_bss k)) in k <| _bss := mk_table l n |>
           else k in
  k ← (if state_is k RTW88_STATE_SCANNING then
         let returnState := _scanReturnState k in
         k ← (if is_state returnState RTW88_STATE_CONNECTED then restoreConnectedChannel k else Some k);
         let k := k <| _state := if is_state returnState RTW88_STATE_IDLE then RTW88_STATE_IDLE else returnState |>
                    <| _scanReturnState := RTW88_STATE_IDLE |> <| _manualScanOnHomeChannel := false |> in
         if is_state returnState RTW88_STATE_IDLE && _awdlReceiveMode k && negb (_awdlChannel k =? 0) then
           '(_, k) ← setAWDLChannel (_awdlChannel k) k; Some k
         else Some k
       else Some k);
  Some (emit (EvScanDone aborted) k).

(** [n] channels are already in the request. *)
Fixpoint collect_chans (n : Z) (bid : Z) (cs : list ieee80211_channel) : list ieee80211_channel * list ieee80211_channel :=
  match cs with
  | [] => ([], [])
  | c :: cs =>
      if (n <? 256) && chan_enabled c then
        let c := c <| ch_band := bid |> in let '(out, cs) := collect_chans (n + 1) bid cs in (c :: out, c :: cs)
      else let '(out, cs) := collect_chans n bid cs in (out, c :: cs)
  end.
Fixpoint collect_bands (n : Z) (bs : list (option ieee80211_supported_band)) : list ieee80211_channel * list (option ieee80211_supported_band) :=
  match bs with
  | [] => ([], [])
  | None :: bs => let '(out, bs) := collect_bands n bs in (out, None :: bs)
  | Some b :: bs =>
      let '(o1, cs) := collect_chans n (band_id b) (channels b) in
      let '(o2, bs) := collect_bands (n + zlen o1) bs in (o1 ++ o2, Some (with_channels b cs) :: bs)
  end.

(** The passive fallback is handed to its own thread call. *)
Definition start_manual (chans : list ieee80211_channel) (k : kext) : kext :=
  let k := k <| _manualScanChannelCount := zlen chans |> <| _manualScanChannels := chans |> <| _manualScanAbort := false |>
             <| _manualScanOnHomeChannel := false |> in
  emit (EvWake (if is_state (_scanReturnState k) RTW88_STATE_CONNECTED then 30000 else 12000)) (k <| manualEntered := true |>).

Definition with_seen (g : Z) (b : RTW88BSS) : RTW88BSS :=
  mk_bss (ssid b) (ssid_len b) (bssid b) (rssi b) (freq b) (channel b) (capabilities b) (beacon_interval b)
         (cipher b) (group_cipher b) (akm b) g (ies b) (ies_len b).

(** [_scanGeneration++], never 0 again. *)
Definition next_generation (k : kext) : kext :=
  let g := u32 (_scanGeneration k + 1) in
  if g =? 0 then k <| _scanGeneration := 1 |> <| _bss := mk_table (map (with_seen 1) (bssList (_bss k))) (bssCount (_bss k)) |>
  else k <| _scanGeneration := g |>.

Definition cmdScan (k : kext) : Z * kext :=
  if negb (state_is k RTW88_STATE_IDLE) then (kIOReturnBusy, k)
  else if negb (_powered k) || negb (has_ops k) then (kIOReturnNotReady, k)
  else
    let returnState := _state k in
    let back ret (k : kext) := (ret, k <| _state := returnState |> <| _scanReturnState := RTW88_STATE_IDLE |>) in
    let k := next_generation k in
    let k := k <| _scanReturnState := if is_state returnState RTW88_STATE_CONNECTED then returnState else RTW88_STATE_IDLE |>
               <| _state := RTW88_STATE_SCANNING |> in
    let k := k <| _scanRequest := _scanRequest k || alloc_ok E (trace k) |> in
    if negb (_scanRequest k) then back kIOReturnNoMemory k
    else
      let '(chans, k) := match h ← _hw k; hw_bands h with
                         | Some bs => let '(chans, bs) := collect_bands 0 bs in (chans, set_bands bs k)
                         | None => ([], k)
                         end in
      if zlen chans =? 0 then back kIOReturnNotReady k
      else if negb (has_op k OpHwScan) || negb (hw_scan_supported E (trace k)) then
        if negb (_manualScanTC k) then back kIOReturnNotReady k else (kIOReturnSuccess, start_manual chans k)
      else
        let ret := hw_scan_ret E (trace k) in
        let k := emit (EvHwScan chans) k in
        if negb (ret =? 0) then
          if _manualScanTC k then (kIOReturnSuccess, start_manual chans k) else back kIOReturnError k
        else (kIOReturnSuccess, emit (EvWake 10000) k).

(** [runManualScan], between its sleeps: at the entry; at the head of the
    loop; retuning; after the dwell; and the three steps of its end. *)
Inductive scan_pc :=
| ScanEntry
| ScanLoop (connected : bool) (count i : Z)
| ScanTune (connected : bool) (count i : Z) (c : ieee80211_channel)
| ScanDwell (connected : bool) (count i : Z)
| ScanDone
| ScanResetAbort
| ScanResetCount.

Definition passive (c : ieee80211_channel) : bool := negb (ch_flags c .& (IEEE80211_CHAN_NO_IR .| IEEE80211_CHAN_RADAR) =? 0).

Definition scan_step (pc : scan_pc) (k : kext) : option (kext * option scan_pc) :=
  match pc with
  | ScanEntry =>
      if negb (has_hw k) || negb (has_vif k) then k ← scanDone true k; Some (k, Some ScanResetCount)
      else
        let count := if 256 <? _manualScanChannelCount k then 256 else _manualScanChannelCount k in
        Some (emit EvSwScanStart k, Some (ScanLoop (is_state (_scanReturnState k) RTW88_STATE_CONNECTED) count 0))
  | ScanLoop connected count i =>
      if (i <? count) && negb (_manualScanAbort k) then
        match ld (_manualScanChannels k) i with
        | None => Some (k, Some (ScanLoop connected count (i + 1)))
        | Some c =>
            let k := k <| _manualScanOnHomeChannel := false |> in
            k ← (if (connected : bool) then
                   k ← restoreConnectedChannel k; Some (emit (EvSleep 10) (snd (txNullFunc E true k)))
                 else Some k);
            Some (k, Some (ScanTune connected count i c))
        end
      else
        let k := emit EvSwScanComplete (k <| _manualScanOnHomeChannel := false |>) in
        k ← (if (connected : bool) then k ← restoreConnectedChannel k; Some (snd (txNullFunc E false k)) else Some k);
        Some (k, Some ScanDone)
  | ScanTune connected count i c =>
      k ← set_chandef c NL80211_CHAN_WIDTH_20_NOHT (center_freq c) k;
      h ← _hw k;
      let k := emit (EvSwScanSwitch (hw_chandef h)) k in
      let k := if negb (passive c) then snd (txProbeRequest E k) else k in
      Some (emit (EvSleep (if passive c then 140 else 70)) k, Some (ScanDwell connected count i))
  | ScanDwell connected count i =>
      k ← (if (connected : bool) && negb (_manualScanAbort k) then
             k ← restoreConnectedChannel k;
             Some (emit (EvSleep 80) (snd (txNullFunc E false k) <| _manualScanOnHomeChannel := true |>))
           else Some k);
      Some (k, Some (ScanLoop connected count (i + 1)))
  | ScanDone => k ← scanDone (_manualScanAbort k) k; Some (k, Some ScanResetAbort)
  | ScanResetAbort => Some (k <| _manualScanAbort := false |>, Some ScanResetCount)
  | ScanResetCount => Some (k <| _manualScanChannelCount := 0 |>, None)
  end.

(** The call with nothing in between; [fuel] bounds the steps. *)
Fixpoint scan_run (fuel : nat) (pc : scan_pc) (k : kext) : option kext :=
  match fuel with
  | O => None
  | S m => '(k, pc) ← scan_step pc k; match pc with Some pc => scan_run m pc k | None => Some k end
  end.
(** Three steps for each channel, and five around the loop. *)
Definition runManualScan (k : kext) : option kext := scan_run (5 + 3 * Z.to_nat (Z.min 256 (_manualScanChannelCount k))) ScanEntry k.

(** ** Connecting *)

(** [strnlen(s, n)] of a buffer; [None]: no terminator and too few bytes. *)
Fixpoint strnlen (s : list Z) (n : nat) {struct n} : option Z :=
  match n with
  | O => Some 0
  | S m => match s with [] => None | c :: s => if c =? 0 then Some 0 else l ← strnlen s m; Some (1 + l) end
  end.

(** [strlcpy(dst, src, size)]: at most [size - 1] bytes and a terminator. *)
Definition strlcpy (dst src : list Z) (size : Z) : option (list Z) :=
  n ← strlen src; v ← ldn src 0 (Z.min n (size - 1)); stn dst 0 (v ++ [0]).

(** [strlen(b->ssid) == strlen(ssid) && !memcmp(...) && (!bssid || !memcmp(...))] *)
Definition is_wanted (ssid_ : list Z) (bssid_ : option (list Z)) (b : RTW88BSS) : option bool :=
  n ← strlen (ssid b); m ← strlen ssid_;
  if negb (n =? m) then Some false
  else
    x ← ldn (ssid b) 0 m; y ← ldn ssid_ 0 m;
    if negb (bool_decide (x = y)) then Some false
    else match bssid_ with
         | None => Some true
         | Some a => v ← ldn a 0 6; Some (bool_decide (bssid b = v))
         end.

(** The first entry that matches. *)
Fixpoint find_target (ssid_ : list Z) (bssid_ : option (list Z)) (l : list RTW88BSS) : option (option RTW88BSS) :=
  match l with
  | [] => Some None
  | b :: l => w ← is_wanted ssid_ bssid_ b; if (w : bool) then Some (Some b) else find_target ssid_ bssid_ l
  end.

Record connect_args := mk_connect {
  ca_ssid : option (list Z); ca_password : option (list Z); ca_pmk : option (list Z); ca_bssid : option (list Z); ca_external : bool
}.

(** The network is one this driver can join with these credentials. *)
Definition supported (a : connect_args) (t : RTW88BSS) : bool :=
  let protected := negb (capabilities t .& 0x10 =? 0) in
  negb (protected && (negb (cipher t =? WLAN_CIPHER_SUITE_CCMP) || negb (akm t =? 0x000FAC02))) &&
  negb ((is_some (ca_pmk a) && negb protected) ||
        (negb (ca_external a) && negb (is_some (ca_pmk a)) && negb (is_some (ca_password a)) && protected)).

(** [cmdConnect] once no scan is active. *)
Definition connect_rest (a : connect_args) (k : kext) : option (Z * kext) :=
  if negb (state_is k RTW88_STATE_IDLE) then Some (kIOReturnBusy, k)
  else
    match ca_ssid a with
    | None => Some (kIOReturnBadArgument, k)
    | Some s =>
        s0 ← ld s 0;
        n ← (if s0 =? 0 then Some 33 else strnlen s 33);
        if 32 <? n then Some (kIOReturnBadArgument, k)
        else if negb (_powered k) || negb (_connectTC k) then Some (kIOReturnNotReady, k)
        else
          k ← releaseSta (clearKeys k);
          t ← find_target s (ca_bssid a) (bssList (_bss k));
          match t with
          | None => Some (kIOReturnNotFound, k)
          | Some t =>
              let k := k <| _targetBSS := t |> in
              if negb (supported a t) then Some (kIOReturnUnsupported, k)
              else
                let k := k <| _externalSupplicant := ca_external a |> <| _pmkProvided := is_some (ca_pmk a) |> in
                k ← match ca_pmk a with
                    | Some p => v ← ldn p 0 32; b ← stn (_pmk k) 0 v; Some (k <| _pmk := b |>)
                    | None => Some k
                    end;
                pw ← strlcpy (_password k) (match ca_password a with Some p => p | None => [0] end) 64;
                let k := k <| _password := pw |> <| _wpa2 := cipher t =? WLAN_CIPHER_SUITE_CCMP |> <| _deauthReason := 0 |>
                           <| _connectCancelled := false |> <| _state := RTW88_STATE_AUTHENTICATING |> in
                Some (kIOReturnSuccess, k <| connectEntered := true |>)
          end
    end.

(** [doAuthenticate], between its sleeps and around the driver's calls. *)
Inductive auth_pc :=
| AuthEntry
| AuthPoll (i : Z)
| AuthPolled
| AuthSettled
| AuthTuned
| AuthReady (frame : list Z)
| AuthSent.

(** The interface before the exchange. *)
Definition vif_target (a : list Z) (v : ieee80211_vif) : ieee80211_vif := mk_vif false 0 (bss_qos v) a (cfg_assoc v) (cfg_aid v).

Definition auth_step (pc : auth_pc) (k : kext) : option (kext * option auth_pc) :=
  match pc with
  | AuthEntry =>
      if authenticationCancelled k || negb (_powered k) || negb (has_hw k) || negb (has_vif k) then Some (k, None)
      else Some (k, Some (AuthPoll 0))
  | AuthPoll i =>
      if i <? 100 then
        if authenticationCancelled k then Some (k, None)
        else if negb (is_scanning E (trace k)) then Some (k, Some AuthPolled)
        else Some (emit (EvSleep 50) k, Some (AuthPoll (i + 1)))
      else Some (k, Some AuthPolled)
  | AuthPolled =>
      if authenticationCancelled k || is_scanning E (trace k) then Some (k, None)
      else Some (emit (EvSleep 500) k, Some AuthSettled)
  | AuthSettled =>
      if authenticationCancelled k then Some (k, None)
      else
        let '(chan, k) := find_channel (is_target_channel k) k in
        k ← match chan with Some c => setConnectedChandef c k | None => Some k end;
        h ← _hw k;
        Some (emit (EvConnectHwSetup (hw_chandef h) (bssid (_targetBSS k))) k, Some AuthTuned)
  | AuthTuned =>
      if authenticationCancelled k then Some (k, None)
      else
        v ← _vif k;
        let k := k <| _vif := Some (vif_target (bssid (_targetBSS k)) v) |> in
        let '(f, k) := buildAuthReq k in
        Some (k, Some (AuthReady f))
  | AuthReady f =>
      if authenticationCancelled k then Some (k, None)
      else Some (snd (txMgmtFrame E f k), Some AuthSent)
  | AuthSent =>
      if authenticationCancelled k || negb (state_is k RTW88_STATE_AUTHENTICATING) then Some (k, None)
      else Some (wake 3000 k, None)
  end.

Fixpoint auth_run (fuel : nat) (pc : auth_pc) (k : kext) : option kext :=
  match fuel with
  | O => None
  | S m => '(k, pc) ← auth_step pc k; match pc with Some pc => auth_run m pc k | None => Some k end
  end.
(** The poll takes at most 101 steps. *)
Definition doAuthenticate (k : kext) : option kext := auth_run 108 AuthEntry k.

(** ** The timer *)

Definition onTimer (k : kext) : option kext :=
  match _state k with
  | RTW88_STATE_SCANNING =>
      if negb (_manualScanChannelCount k =? 0) then Some (k <| _manualScanAbort := true |>)
      else
        let k := if has_op k OpCancelHwScan then emit EvCancelHwScan k else k in
        let returnState := _scanReturnState k in
        k ← (if is_state returnState RTW88_STATE_CONNECTED then restoreConnectedChannel k else Some k);
        Some (k <| _state := if is_state returnState RTW88_STATE_IDLE then RTW88_STATE_IDLE else returnState |>
                <| _scanReturnState := RTW88_STATE_IDLE |>)
  | RTW88_STATE_AUTHENTICATING =>
      if negb (authenticationCancelled k) && _connectTC k then Some (k <| connectEntered := true |>) else Some k
  | RTW88_STATE_ASSOCIATING => Some (k <| _state := RTW88_STATE_IDLE |>)
  | RTW88_STATE_HANDSHAKING => doDisconnect k
  | _ => Some k
  end.

(** ** Bringing the driver up and down *)

Definition zero_vif : ieee80211_vif := mk_vif false 0 false (zeros 6) false 0.

(** The exits of [start] by its labels. *)
Definition fail_probe (k : kext) : Z * kext := (kIOReturnError, emit EvPciRemove k <| _hw := None |> <| _powered := false |>).
Definition fail_vif (k : kext) : Z * kext :=
  let k := if _powered k && has_op k OpStop then emit EvStop k <| _powered := false |> else k in
  fail_probe (k <| _vif := None |>).

(** [chip]: the device is in the chip table; [probe_ret], [hw], [perm_addr]:
    what the probe returned, registered and read from the device. *)
Definition start (chip : bool) (probe_ret : Z) (hw : option ieee80211_hw) (perm_addr : list Z) (k : kext) : Z * kext :=
  if negb chip then (kIOReturnUnsupported, k)
  else if negb (probe_ret =? 0) then (kIOReturnError, k)
  else
    let k := k <| _hw := hw |> in
    if negb (has_wiphy k) || negb (has_ops k) then fail_probe k
    else
      let k := k <| _macAddr := perm_addr |> in
      if negb (alloc_ok E (trace k)) then fail_probe (k <| _vif := None |>)
      else
        let k := k <| _vif := Some zero_vif |> in
        if negb (has_op k OpAddInterface) then fail_vif k
        else if negb (has_op k OpStart) then fail_vif k
        else
          let ret := start_ret E (trace k) in
          let k := emit EvStart k in
          if negb (ret =? 0) then fail_vif k
          else
            let k := k <| _powered := true |> in
            let ret := add_interface_ret E (trace k) in
            let k := emit EvAddInterface k in
            if negb (ret =? 0) then fail_vif k
            else (kIOReturnSuccess, to_idle (emit (EvRegisterVif true) k)).

(** [stop] after the thread calls are drained. *)
Definition stop_rest (k : kext) : option kext :=
  let k := emit EvTimerCancel (emit EvReorderOff k) in
  k ← (if (state_is k RTW88_STATE_CONNECTED || (state_is k RTW88_STATE_SCANNING && is_state (_scanReturnState k) RTW88_STATE_CONNECTED)) && _powered k
       then doDisconnect k
       else releaseSta (clearKeys k));
  let k := if state_is k RTW88_STATE_SCANNING && has_op k OpCancelHwScan then emit EvCancelHwScan k else k in
  let k := if has_vif k then
             let k := emit (EvRegisterVif false) k in
             let k := if has_ops k && has_op k OpRemoveInterface then emit EvRemoveInterface k else k in
             k <| _vif := None |>
           else k in
  let k := if _powered k && has_op k OpStop then emit EvStop k else k in
  Some (to_idle (emit EvPciRemove (k <| _powered := false |>) <| _hw := None |>)).
End power.

(** ** Queries *)

Record RTW88StateResult := mk_state_result {
  sr_state : RTW88State; sr_rssi : Z; sr_ssid : list Z; sr_bssid : list Z; sr_channel : Z; sr_mac_addr : list Z;
  sr_scan_offload : bool; sr_powered : bool
}.
Definition cmdGetState (E : env) (k : kext) : RTW88StateResult :=
  mk_state_result (_state k) (_rssi k) (ssid (_targetBSS k)) (bssid (_targetBSS k)) (channel (_targetBSS k)) (_macAddr k)
    (has_op k OpHwScan && hw_scan_supported E (trace k)) (_powered k).
Definition cmdGetRSSI (k : kext) : Z * Z := (kIOReturnSuccess, _rssi k).
Definition getMACAddress (k : kext) : list Z := _macAddr k.

Definition with_rssi (r : Z) (b : RTW88BSS) : RTW88BSS :=
  mk_bss (ssid b) (ssid_len b) (bssid b) r (freq b) (channel b) (capabilities b) (beacon_interval b)
         (cipher b) (group_cipher b) (akm b) (last_seen_scan b) (ies b) (ies_len b).

Definition copyCurrentBSS (k : kext) : option (Z * option RTW88BSS) :=
  if negb (state_is k RTW88_STATE_CONNECTED) then Some (kIOReturnNotReady, None)
  else
    let b := match List.find (fun b => bool_decide (bssid b = bssid (_targetBSS k))) (bssList (_bss k)) with
             | Some b => b
             | None => _targetBSS k
             end in
    let b := with_rssi (signed 16 (u16 (_rssi k))) b in
    s0 ← ld (ssid b) 0;
    b ← (if (ssid_len b =? 0) && negb (s0 =? 0) then n ← strnlen (ssid b) 32; Some (with_ssid b (ssid b) n) else Some b);
    if (ssid_len b =? 0) || (channel b =? 0) then Some (kIOReturnNotReady, Some b) else Some (kIOReturnSuccess, Some b).

Record RTW88Channel := mk_rchannel { rc_number : Z; rc_passive : bool; rc_radar : bool }.

(** The channel number of a frequency; C division truncates. *)
Definition chan_number (f : Z) : Z :=
  if f =? 2484 then 14 else if f <? 2500 then Z.quot (f - 2407) 5 else Z.quot (f - 5000) 5.

(** The copy stops with an error when the array is full. *)
Fixpoint copy_chans (capacity : Z) (out : list RTW88Channel) (cs : list ieee80211_channel) : bool * list RTW88Channel :=
  match cs with
  | [] => (true, out)
  | c :: cs =>
      if negb (chan_enabled c) then copy_chans capacity out cs
      else if zlen out =? capacity then (false, out)
      else
        let n := chan_number (center_freq c) in
        if (n <=? 0) || (196 <? n) then copy_chans capacity out cs
        else copy_chans capacity
               (out ++ [mk_rchannel n (negb (ch_flags c .& IEEE80211_CHAN_NO_IR =? 0)) (negb (ch_flags c .& IEEE80211_CHAN_RADAR =? 0))]) cs
  end.
Fixpoint copy_bands (capacity : Z) (out : list RTW88Channel) (bs : list (option ieee80211_supported_band)) : bool * list RTW88Channel :=
  match bs with
  | [] => (true, out)
  | None :: bs => copy_bands capacity out bs
  | Some b :: bs => let '(ok, out) := copy_chans capacity out (channels b) in if ok then copy_bands capacity out bs else (false, out)
  end.
Definition copyChannels (capacity : Z) (k : kext) : Z * list RTW88Channel :=
  match h ← _hw k; hw_bands h with
  | None => (kIOReturnNotReady, [])
  | Some bs => let '(ok, out) := copy_bands capacity [] bs in ((if ok then kIOReturnSuccess else kIOReturnNoSpace), out)
  end.

(** ** The object's invariant

    A scan starts only from IDLE, so it always returns there; outside IDLE the
    driver and its interface are present; the element of an external
    supplicant, if a caller ever asks for one, fits an association request. *)

(** Whether some caller passes [externalSupplicant] to [cmdConnect]. *)
Class callers := external_caller : bool.
Definition rsn_ok {who : callers} (k : kext) : Prop := if external_caller then rsn_fits k else _externalSupplicant k = false.

Ltac solve_inv I :=
  destruct I as [IW IL IR IV IP IS ID IN]; split; first [assumption | done | solve [solve_wf IW] | idtac].

Section invariant.
Context {who : callers}.

Record obj_inv (k : kext) : Prop := {
  oi_wf : kext_wf k;
  oi_link : link_ok k;
  oi_ret : _scanReturnState k = RTW88_STATE_IDLE;
  oi_vif : has_vif k = has_hw k;
  oi_power : _powered k = true -> has_hw k = true;
  oi_state : _state k <> RTW88_STATE_IDLE -> has_hw k = true;
  oi_dead : _state k <> RTW88_STATE_DISCONNECTING;
  oi_rsn : rsn_ok k
}.

Lemma rsn_ok_frame k : obj_inv k -> ext_rsn k = false \/ rsn_fits k.
Proof.
  intros I. pose proof (oi_rsn k I) as H. unfold rsn_ok, ext_rsn in *. destruct external_caller; [by right|]. left. by rewrite H.
Qed.
Lemma rsn_ok_same k k' : _externalSupplicant k' = _externalSupplicant k -> _assocRsnIELen k' = _assocRsnIELen k -> rsn_ok k -> rsn_ok k'.
Proof. unfold rsn_ok, rsn_fits. by intros -> ->. Qed.

(** Nothing the invariant reads has moved, or the state is IDLE. *)
Lemma inv_config k k' : obj_inv k -> kext_wf k' -> config k' = config k -> (link_ok k -> link_ok k') ->
  (_scanReturnState k' = _scanReturnState k \/ _scanReturnState k' = RTW88_STATE_IDLE) ->
  (_state k' = RTW88_STATE_IDLE \/ _state k <> RTW88_STATE_IDLE) -> _state k' <> RTW88_STATE_DISCONNECTING -> obj_inv k'.
Proof.
  intros [IW IL IR IV IP IS ID IN] W G L R S D. injection G as Gh Gv _ Gx _ Gl _ _ _ _ _ _ Gp _ _ _ _ _ _.
  split; [done|by apply L|by destruct R as [->|]|unfold has_hw; rewrite Gv, Gh; exact IV|rewrite Gp; unfold has_hw; rewrite Gh; exact IP| |done|by apply (rsn_ok_same k)].
  intros Hn. unfold has_hw in *. rewrite Gh. destruct S as [S|S]; [by destruct Hn|by apply IS].
Qed.

(** From IDLE everything else follows. *)
Lemma inv_idle k k' : obj_inv k -> kext_wf k' -> config k' = config k -> _scanReturnState k' = RTW88_STATE_IDLE -> _state k' = RTW88_STATE_IDLE -> obj_inv k'.
Proof.
  intros I W G R S. apply (inv_config k); try done; [|by right|by left|by rewrite S]. intros _ Hc. by rewrite S in Hc.
Qed.

Lemma inv_emit e k : obj_inv k -> obj_inv (emit e k).
Proof. intros I. solve_inv I. Qed.
Lemma inv_to_idle k k0 : obj_inv k0 -> kext_wf k -> config k = config k0 -> obj_inv (to_idle k).
Proof. intros I W G. apply (inv_idle k0); try done. unfold to_idle. solve_wf W. Qed.

(** The step answers, and keeps the invariant. *)
Definition keeps (P : kext -> Prop) (r : option kext) : Prop := exists k', r = Some k' /\ obj_inv k' /\ P k'.

Lemma keeps_ret (P : kext -> Prop) k : obj_inv k -> P k -> keeps P (Some k).
Proof. by exists k. Qed.
Lemma keeps_bind P Q r f : keeps P r -> (forall k, obj_inv k -> P k -> keeps Q (f k)) -> keeps Q (r ≫= f).
Proof. intros (k & -> & I & H) Hf. cbn [mbind option_bind]. by apply Hf. Qed.
Lemma keeps_mono (P Q : kext -> Prop) r : keeps P r -> (forall k, obj_inv k -> P k -> Q k) -> keeps Q r.
Proof. intros (k & -> & I & H) Hf. exists k. auto. Qed.

(** *** Steps inherited from the frames *)

Lemma steps_keeps S fs k r : obj_inv k -> steps (mg_step S fs k) r ->
  (forall s, S s -> (s = RTW88_STATE_IDLE \/ _state k <> RTW88_STATE_IDLE) /\ s <> RTW88_STATE_DISCONNECTING) -> keeps (mg_step S fs k) r.
Proof.
  intros I (k' & -> & W & M) Hs. exists k'. split; [done|]. split; [|done]. pose proof M as (_ & L & G & R & H).
  destruct (Hs _ H). by apply (inv_config k).
Qed.

(** *** The radio: only the driver's tables, the tuning and the trace move *)

Definition radio_only (k k' : kext) : Prop :=
  exists h w tr, k' = k <| _hw := h |> <| _connChanWidth := w |> <| trace := tr |> /\ is_some h = has_hw k.

Lemma radio_refl k : radio_only k k.
Proof. exists (_hw k), (_connChanWidth k), (trace k). split; [by destruct k|done]. Qed.
Lemma radio_trans k1 k2 k3 : radio_only k1 k2 -> radio_only k2 k3 -> radio_only k1 k3.
Proof. intros (h1 & w1 & t1 & -> & H1) (h & w & tr & -> & H). exists h, w, tr. split; [reflexivity|]. by rewrite H, <- H1. Qed.

Lemma radio_inv k h w tr : obj_inv k -> is_some h = has_hw k -> hw_wf h -> obj_inv (k <| _hw := h |> <| _connChanWidth := w |> <| trace := tr |>).
Proof.
  intros I Hh Hw. destruct I as [IW IL IR IV IP IS ID IN]. split; try done.
  - by solve_wf IW.
  - change (has_vif k = is_some h). by rewrite Hh.
  - change (_powered k = true -> is_some h = true). by rewrite Hh.
  - change (_state k <> RTW88_STATE_IDLE -> is_some h = true). by rewrite Hh.
Qed.

Lemma find_band_ok p bs : forall c bs', find_band p bs = Some (c, bs') -> zlen bs' = zlen bs /\ (Forall band_wf bs -> Forall band_wf bs').
Proof.
  induction bs as [|[b|] bs IH]; intros c bs' E; cbn [find_band] in E; [done| |].
  - destruct (find_chan p (band_id b) (channels b)) as [[r cs]|].
    + injection E as _ <-. split; [by rewrite !zlen_cons|]. intros [H1 H2]%Forall_cons. by constructor.
    + destruct (find_band p bs) as [[r bs1]|]; [|done]. injection E as <- <-. destruct (IH _ _ eq_refl) as [Hz Hf].
      split; [rewrite !zlen_cons; lia|]. intros [H1 H2]%Forall_cons. constructor; auto.
  - destruct (find_band p bs) as [[r bs1]|]; [|done]. injection E as <- <-. destruct (IH _ _ eq_refl) as [Hz Hf].
    split; [rewrite !zlen_cons; lia|]. intros [H1 H2]%Forall_cons. constructor; auto.
Qed.

Lemma set_bands_ok bs k : obj_inv k -> has_wiphy k = true -> zlen bs = NL80211_NUM_BANDS -> Forall band_wf bs -> obj_inv (set_bands bs k) /\ radio_only k (set_bands bs k).
Proof.
  intros I Hw Hz Hf. unfold set_bands, has_wiphy in *. destruct (_hw k) as [h|] eqn:Eh; [|done].
  assert (is_some (Some (h <| hw_bands := Some bs |>)) = has_hw k) as Hs by (unfold has_hw; by rewrite Eh).
  pose proof (radio_inv k (Some (h <| hw_bands := Some bs |>)) (_connChanWidth k) (trace k) I Hs (conj Hz Hf)) as H.
  split; [exact H|]. exists (Some (h <| hw_bands := Some bs |>)), (_connChanWidth k), (trace k). by split.
Qed.

Lemma bands_wf k h bs : obj_inv k -> _hw k = Some h -> hw_bands h = Some bs -> zlen bs = NL80211_NUM_BANDS /\ Forall band_wf bs.
Proof. intros I Eh Eb. pose proof (wf_hw k (oi_wf k I)) as H. unfold hw_wf in H. by rewrite Eh, Eb in H. Qed.

Lemma find_channel_ok p k : obj_inv k -> obj_inv (snd (find_channel p k)) /\ radio_only k (snd (find_channel p k)).
Proof.
  intros I. pose proof (radio_refl k) as R. unfold find_channel. destruct (_hw k) as [h|] eqn:Eh; cbn [mbind option_bind]; [|done].
  destruct (hw_bands h) as [bs|] eqn:Eb; cbn [mbind option_bind]; [|done]. destruct (find_band p bs) as [[c bs']|] eqn:Ef; [|done].
  destruct (find_band_ok p bs c bs' Ef) as [Hz Hf]. destruct (bands_wf k h bs I Eh Eb) as [Hn Hb]. cbn [snd].
  apply set_bands_ok; [done|unfold has_wiphy; by rewrite Eh, Eb|lia|auto].
Qed.

Lemma set_chandef_ok c w f k : obj_inv k -> has_hw k = true -> keeps (radio_only k) (set_chandef c w f k).
Proof.
  intros I Hh. unfold set_chandef. destruct (_hw k) as [h|] eqn:Eh; [|unfold has_hw in Hh; by rewrite Eh in Hh]. cbn [mbind option_bind].
  set (h' := h <| hw_chandef := _ |>). assert (is_some (Some h') = has_hw k) as Hs by (unfold has_hw; by rewrite Eh).
  assert (hw_wf (Some h')) as Hw by (pose proof (wf_hw k (oi_wf k I)) as H; rewrite Eh in H; exact H).
  apply keeps_ret; [exact (radio_inv k (Some h') (_connChanWidth k) (trace k) I Hs Hw)|]. by exists (Some h'), (_connChanWidth k), (trace k).
Qed.

Lemma parse_oper_ok fuel : forall b o, bytes_ok b -> (length b <= fuel)%nat -> exists o', parse_oper fuel b o = Some o'.
Proof.
  induction fuel as [|fuel IH]; intros b o Hb Hf; cbn [parse_oper].
  { destruct b; [by eexists|cbn in Hf; lia]. }
  destruct (Z.ltb_spec (zlen b) 2) as [|H2]; [by eexists|]. destruct (ld_byte b 0 Hb) as (id & -> & _); [lia|].
  destruct (ld_byte b 1 Hb) as (len & -> & Hl); [lia|]. cbn [mbind option_bind]. destruct (Z.ltb_spec (zlen b) (2 + len)); [by eexists|].
  assert (exists o', (if (id =? WLAN_EID_HT_OPERATION) && (2 <=? len) then d1 ← ld b 3; Some (mk_oper (d1 .& 0x03) (negb (d1 .& 0x04 =? 0)) (vhtWidth o) (vhtSeg0 o))
                  else if (id =? WLAN_EID_VHT_OPERATION) && (3 <=? len) then d0 ← ld b 2; d1 ← ld b 3; Some (mk_oper (sco o) (htStaWidth o) d0 d1)
                  else Some o) = Some o') as [o' ->].
  { destruct (_ && (2 <=? len)) eqn:E1; bool_hyps; [destruct (ld_byte b 3 Hb) as (x & -> & _); [lia|by eexists]|].
    destruct (_ && (3 <=? len)) eqn:E2; bool_hyps; [|by eexists]. destruct (ld_byte b 2 Hb) as (x & -> & _); [lia|]. destruct (ld_byte b 3 Hb) as (y & -> & _); [lia|]. by eexists. }
  cbn [mbind option_bind]. apply IH; [by apply Forall_drop|]. unfold zdrop, zlen, in_range in *. rewrite length_drop. lia.
Qed.

Lemma set_width w k : obj_inv k -> obj_inv (k <| _connChanWidth := w |>) /\ radio_only k (k <| _connChanWidth := w |>).
Proof. intros I. split; [solve_inv I|]. by exists (_hw k), w, (trace k). Qed.

Lemma radio_has_hw k k' : radio_only k k' -> has_hw k' = has_hw k.
Proof. by intros (h & w & tr & -> & H). Qed.

(** A retuning after moves of the radio. *)
Lemma retune k k1 c w f n : obj_inv k1 -> radio_only k k1 -> has_hw k = true -> keeps (radio_only k) (set_chandef c w f (k1 <| _connChanWidth := n |>)).
Proof.
  intros I R Hh. destruct (set_width n k1 I) as [I2 R2]. eapply keeps_mono; [apply set_chandef_ok; [exact I2|]|].
  - change (has_hw k1 = true). by rewrite (radio_has_hw k k1).
  - intros k' _ R3. exact (radio_trans _ _ _ R (radio_trans _ _ _ R2 R3)).
Qed.

Lemma setConnectedChandef_ok c k : obj_inv k -> has_hw k = true -> keeps (radio_only k) (setConnectedChandef c k).
Proof.
  intros I Hh. unfold setConnectedChandef. eapply keeps_bind; [by apply set_chandef_ok|]. intros k1 I1 R1.
  destruct (set_width 20 k1 I1) as [I2 R2]. set (k2 := k1 <| _connChanWidth := 20 |>) in *. pose proof (radio_trans _ _ _ R1 R2) as R.
  assert (keeps (radio_only k) (Some k2)) as Hstay by (by apply keeps_ret). destruct (negb _); [done|].
  destruct (target_sband_ok k2 (oi_wf k2 I2)) as (sb & -> & _). cbn [mbind option_bind]. destruct sb as [sb|]; [|done].
  destruct (wf_target k2 (oi_wf k2 I2)) as (_&_&_&_&_&_&_&_& Wi & Wl & Wb & _). unfold sizeof_ies in *.
  destruct (ldn_buf (ies (_targetBSS k2)) 0 (ies_len (_targetBSS k2)) Wb) as (b & -> & _ & Hb); [lia..|]. cbn [mbind option_bind].
  destruct (parse_oper_ok (length b) b (mk_oper 0 false 0 0) Hb ltac:(lia)) as [o ->]. cbn [mbind option_bind].
  eapply (keeps_bind (radio_only k)).
  - destruct (_ && (_ || _)); [|done]. by apply retune.
  - intros k3 I3 R3. destruct (_ && negb _); [by apply retune|by apply keeps_ret].
Qed.

(** No scan returns to CONNECTED, so the restoration is never reached. *)
Lemma restoreConnectedChannel_id k : obj_inv k -> restoreConnectedChannel k = Some k.
Proof. intros I. unfold restoreConnectedChannel. by rewrite (oi_ret k I). Qed.

Lemma radio_emit e k k' : radio_only k k' -> radio_only k (emit e k').
Proof. intros (h & w & tr & -> & H). by exists h, w, (e :: tr). Qed.
Lemma radio_awdl c k k' : radio_only (k <| _awdlChannel := c |>) k' -> radio_only (k <| _awdlChannel := _awdlChannel k' |>) k'.
Proof. intros (h & w & tr & -> & H). by exists h, w, tr. Qed.

Lemma setAWDLChannel_ok c k : obj_inv k ->
  exists ret k', setAWDLChannel c k = Some (ret, k') /\ obj_inv k' /\ radio_only (k <| _awdlChannel := _awdlChannel k' |>) k'.
Proof.
  intros I. unfold setAWDLChannel. assert (radio_only (k <| _awdlChannel := _awdlChannel k |>) k) as R0.
  { exists (_hw k), (_connChanWidth k), (trace k). split; [by destruct k|done]. }
  destruct (negb (_powered k) || negb (has_wiphy k) || _) eqn:Eg; [by exists kIOReturnNotReady, k|].
  apply orb_false_elim in Eg as [Eg _]. apply orb_false_elim in Eg as [_ Ew]. apply negb_false_iff in Ew.
  set (k1 := k <| _awdlChannel := c |>). assert (obj_inv k1) as I1 by (solve_inv I).
  destruct (sta_busy k1); [exists kIOReturnBusy, k1; split; [done|]; split; [done|apply radio_refl]|].
  destruct (find_channel_ok (fun x => (hw_value x =? c) && chan_enabled x) k1 I1) as [I2 R2].
  destruct (find_channel _ k1) as [[t|] k2]; cbn [snd] in *; [|exists kIOReturnUnsupported, k2; split; [done|]; split; [exact I2|exact (radio_awdl c k k2 R2)]].
  assert (has_hw k2 = true) as Hh.
  { rewrite (radio_has_hw _ _ R2). change (has_hw k = true). unfold has_wiphy, has_hw in *. by destruct (_hw k). }
  destruct (set_chandef_ok t NL80211_CHAN_WIDTH_20_NOHT (center_freq t) k2 I2 Hh) as (k3 & -> & I3 & R3). cbn [mbind option_bind].
  pose proof (radio_has_hw _ _ R3) as H3. rewrite Hh in H3. unfold has_hw in H3. destruct (_hw k3) as [h|] eqn:Eh; [|done]. cbn [mbind option_bind].
  eexists _, _. split; [reflexivity|]. split; [by apply inv_emit|]. apply (radio_awdl c), radio_emit. exact (radio_trans _ _ _ R2 R3).
Qed.

(** *** Handlers that neither take down the driver nor touch the attempt *)

(** No exchange and no link. *)
Definition down (k : kext) : Prop := _state k = RTW88_STATE_IDLE \/ _state k = RTW88_STATE_SCANNING.

(** What no handler touches, frames included. *)
Definition drift (k k' : kext) : Prop :=
  has_hw k' = has_hw k /\ _connectCancelled k' = _connectCancelled k /\ connectEntered k' = connectEntered k /\
  manualEntered k' = manualEntered k /\ (down k -> down k').

(** Where no frame is involved the state stays, or goes to IDLE or SCANNING. *)
Definition calm (k k' : kext) : Prop :=
  has_hw k' = has_hw k /\ _connectCancelled k' = _connectCancelled k /\ connectEntered k' = connectEntered k /\
  manualEntered k' = manualEntered k /\
  forall S : RTW88State -> Prop, S RTW88_STATE_IDLE -> S RTW88_STATE_SCANNING -> S (_state k) -> S (_state k').

Lemma calm_drift k k' : calm k k' -> drift k k'.
Proof.
  intros (A & B & C & D & F). do 4 (split; [done|]). unfold down. intros H.
  apply (F (fun s => s = RTW88_STATE_IDLE \/ s = RTW88_STATE_SCANNING)); [by left|by right|done].
Qed.

Lemma calm_refl k : calm k k.
Proof. by split. Qed.
Lemma calm_trans k1 k2 k3 : calm k1 k2 -> calm k2 k3 -> calm k1 k3.
Proof. intros (A1 & B1 & C1 & D1 & F1) (A2 & B2 & C2 & D2 & F2). do 4 (split; [congruence|]). intros S HI HS H. by apply F2, F1. Qed.
Lemma radio_calm k k' : radio_only k k' -> calm k k'.
Proof. intros (h & w & tr & -> & H). by split. Qed.
Lemma calm_idle k k' : has_hw k' = has_hw k -> _connectCancelled k' = _connectCancelled k -> connectEntered k' = connectEntered k ->
  manualEntered k' = manualEntered k -> _state k' = RTW88_STATE_IDLE -> calm k k'.
Proof. intros A B C D F. do 4 (split; [done|]). intros S HI _ _. by rewrite F. Qed.
Lemma tx_only_calm k k' : tx_only k k' -> calm k k'.
Proof. by intros (?&?&?&?&?&?&_&->). Qed.
Lemma tx_only_inv k k' : obj_inv k -> kext_wf k' -> tx_only k k' -> obj_inv k'.
Proof. intros [IW IL IR IV IP IS ID IN] W (ts&ds&aw&pn&d&es&N&->). by split. Qed.

Lemma config_drift k k' : config k' = config k -> (down k -> down k') -> drift k k'.
Proof. intros G D. injection G as Gh _ _ _ _ _ _ _ Gc Ge Gm _ _ _ _ _ _ _ _. split; [unfold has_hw; by rewrite Gh|]. by split_and!. Qed.

(** The scan's end: the list and the states. *)
Lemma age_list_ok keep l : forall n, list_wf l -> list_wf (fst (age_list keep l n)) /\
  forall a, a ∈ map bssid (fst (age_list keep l n)) -> a ∈ map bssid l.
Proof.
  induction l as [|b l IH]; intros n [Hf Hn]; cbn [age_list]; [done|]. apply Forall_cons in Hf as [Hb Hf]. cbn [map] in Hn. apply NoDup_cons in Hn as [Hi Hn].
  destruct (keep b).
  - specialize (IH n (conj Hf Hn)). destruct (age_list keep l n) as [l' m]. cbn [fst] in *. destruct IH as [[Hf' Hn'] Hs].
    split; [split; [by constructor|]; cbn [map]; constructor; auto|]. cbn [map]. intros a [->|Ha]%elem_of_cons; [by left|right; auto].
  - set (m := if negb (n =? 0) then _ else _). destruct (IH m (conj Hf Hn)) as [Hw Hs]. split; [done|]. intros a Ha. cbn [map]. right. auto.
Qed.

Lemma set_list_inv t k : obj_inv k -> list_wf (bssList t) -> obj_inv (k <| _bss := t |>).
Proof. intros I H. destruct I as [IW IL IR IV IP IS ID IN]. split; try done. by apply set_bss_wf. Qed.

Lemma scan_ended_inv k : obj_inv k ->
  obj_inv (k <| _state := RTW88_STATE_IDLE |> <| _scanReturnState := RTW88_STATE_IDLE |> <| _manualScanOnHomeChannel := false |>).
Proof. intros I. destruct I as [IW IL IR IV IP IS ID IN]. split; try done. by solve_wf IW. Qed.

Lemma scanDone_ok aborted k : obj_inv k -> keeps (calm k) (scanDone aborted k).
Proof.
  intros I. unfold scanDone. set (k1 := if negb aborted then _ else k).
  assert (obj_inv k1 /\ calm k k1) as [I1 C1].
  { unfold k1. destruct (negb aborted); [|by split]. pose proof (age_list_ok (keep_bss k) (bssList (_bss k)) (bssCount (_bss k)) (wf_bss k (oi_wf k I))) as [Hw _].
    destruct (age_list _ _ _) as [l n]. cbn [fst] in Hw. split; [by apply set_list_inv|done]. }
  clearbody k1. eapply (keeps_bind (calm k)); [|intros k2 I2 C2; apply keeps_ret; [by apply inv_emit|exact C2]].
  destruct (state_is k1 RTW88_STATE_SCANNING); [|by apply keeps_ret]. rewrite (oi_ret k1 I1).
  change (is_state RTW88_STATE_IDLE RTW88_STATE_CONNECTED) with false. change (is_state RTW88_STATE_IDLE RTW88_STATE_IDLE) with true. cbn [mbind option_bind andb].
  set (k2 := k1 <| _state := _ |> <| _scanReturnState := _ |> <| _manualScanOnHomeChannel := _ |>).
  assert (obj_inv k2) as I2 by exact (scan_ended_inv k1 I1).
  assert (calm k k2) as C2 by (apply (calm_trans _ _ _ C1); by apply calm_idle).
  destruct (_ && negb _); [|by apply keeps_ret]. destruct (setAWDLChannel_ok (_awdlChannel k2) k2 I2) as (ret & k3 & -> & I3 & R3). cbn [mbind option_bind].
  apply keeps_ret; [done|]. apply (calm_trans _ _ _ C2). by apply radio_calm in R3.
Qed.

Lemma collect_bands_ok bs : forall n, zlen (snd (collect_bands n bs)) = zlen bs /\ (Forall band_wf bs -> Forall band_wf (snd (collect_bands n bs))).
Proof.
  induction bs as [|[b|] bs IH]; intros n; cbn [collect_bands]; [done| |].
  - destruct (collect_chans n (band_id b) (channels b)) as [o1 cs]. specialize (IH (n + zlen o1)). destruct (collect_bands (n + zlen o1) bs) as [o2 bs']. cbn [snd] in *.
    destruct IH as [Hz Hf]. split; [rewrite !zlen_cons; lia|]. intros [H1 H2]%Forall_cons. constructor; auto.
  - specialize (IH n). destruct (collect_bands n bs) as [o2 bs']. cbn [snd] in *. destruct IH as [Hz Hf].
    split; [rewrite !zlen_cons; lia|]. intros [H1 H2]%Forall_cons. constructor; auto.
Qed.

Lemma with_seen_list g l : list_wf l -> list_wf (map (with_seen g) l).
Proof.
  intros [Hf Hn]. split; [|by rewrite map_map].
  clear Hn. induction Hf as [|b l Hb _ IH]; cbn [map]; constructor; [exact Hb|exact IH].
Qed.

Lemma next_generation_ok k : obj_inv k -> obj_inv (next_generation k) /\ calm k (next_generation k).
Proof.
  intros I. unfold next_generation. cbn zeta. destruct (_ =? 0); (split; [|done]); destruct I as [IW IL IR IV IP IS ID IN]; split; try done.
  - apply (set_bss_wf (mk_table _ _) (k <| _scanGeneration := 1 |>)); [apply with_seen_list, IW|by solve_wf IW].
  - by solve_wf IW.
Qed.

(** A scan under way. *)
Lemma scanning_inv k : obj_inv k -> has_hw k = true -> obj_inv (k <| _scanReturnState := RTW88_STATE_IDLE |> <| _state := RTW88_STATE_SCANNING |>).
Proof. intros I Hh. destruct I as [IW IL IR IV IP IS ID IN]. split; try done. by solve_wf IW. Qed.

Section mlme_proofs.
Context (E : env) (ctx : KERN_SHA1_CTX) (HE : env_ok E) (Hctx : zlen (buffer ctx) = 64).

(** Calm, but for the manual scan's call. *)
Definition scan_calm (k k' : kext) : Prop := calm k (k' <| manualEntered := manualEntered k |>).
Lemma calm_scan k k' : calm k k' -> scan_calm k k'.
Proof. by intros (A & B & C & _ & D). Qed.

(** A scan that could not start. *)
Lemma scan_refused ret k k1 : obj_inv k1 -> calm k k1 ->
  let r := (ret : Z, k1 <| _state := RTW88_STATE_IDLE |> <| _scanReturnState := RTW88_STATE_IDLE |>) in obj_inv (snd r) /\ scan_calm k (snd r).
Proof.
  intros I C. split; [apply (inv_to_idle k1 k1); [done|apply I|done]|]. apply calm_scan, (calm_trans _ _ _ C). by apply calm_idle.
Qed.

Lemma start_manual_ok chans k k1 : obj_inv k1 -> calm k k1 -> obj_inv (start_manual chans k1) /\ scan_calm k (start_manual chans k1).
Proof.
  intros I C. split; [|exact (calm_scan _ _ C)]. apply inv_emit. destruct I as [IW IL IR IV IP IS ID IN]. split; try done. by solve_wf IW.
Qed.

Lemma scan_channels_ok k : obj_inv k ->
  exists chans k', match h ← _hw k; hw_bands h with
    | Some bs => let '(chans, bs) := collect_bands 0 bs in (chans, set_bands bs k)
    | None => ([], k)
    end = (chans, k') /\ obj_inv k' /\ calm k k'.
Proof.
  intros I. destruct (_hw k) as [h|] eqn:Eh; cbn [mbind option_bind]; [|by exists [], k]. destruct (hw_bands h) as [bs|] eqn:Eb; [|by exists [], k].
  destruct (bands_wf k h bs I Eh Eb) as [Hz Hf]. pose proof (collect_bands_ok bs 0) as [Hz' Hf']. destruct (collect_bands 0 bs) as [chans bs']. cbn [snd] in *.
  destruct (set_bands_ok bs' k I) as [I' R']; [unfold has_wiphy; by rewrite Eh, Eb|lia|auto|]. exists chans, (set_bands bs' k). split; [done|]. split; [done|by apply radio_calm].
Qed.

Lemma cmdScan_ok k : obj_inv k -> obj_inv (snd (cmdScan E k)) /\ scan_calm k (snd (cmdScan E k)).
Proof.
  intros I. pose proof (calm_scan _ _ (calm_refl k)) as R. unfold cmdScan. destruct (state_is k RTW88_STATE_IDLE) eqn:Es; cbn [negb]; [|done]. apply is_state_true in Es.
  destruct (negb (_powered k) || _) eqn:Eg; [done|]. apply orb_false_elim in Eg as [_ Eo]. apply negb_false_iff in Eo. rewrite Es.
  change (is_state RTW88_STATE_IDLE RTW88_STATE_CONNECTED) with false. cbn zeta.
  assert (has_hw k = true) as Hh by (unfold has_ops, has_hw in *; by destruct (_hw k)).
  destruct (next_generation_ok k I) as [I1 C1]. set (k1 := next_generation k) in *. clearbody k1.
  assert (has_hw k1 = true) as Hh1 by (by rewrite (proj1 C1)). pose proof (scanning_inv k1 I1 Hh1) as I2.
  set (k2 := k1 <| _scanReturnState := _ |> <| _state := _ |>) in *.
  assert (calm k k2) as C2. { destruct C1 as (A & B & C & D & _). do 4 (split; [done|]). by intros S _ HS _. } clearbody k2.
  set (k3 := k2 <| _scanRequest := _ |>). assert (obj_inv k3) as I3 by (clear -I2; solve_inv I2). assert (calm k k3) as C3 by exact C2. clearbody k3.
  destruct (negb (_scanRequest k3)); [by apply scan_refused|].
  destruct (scan_channels_ok k3 I3) as (chans & k4 & -> & I4 & C4). pose proof (calm_trans _ _ _ C3 C4) as C.
  destruct (zlen chans =? 0); [by apply scan_refused|]. destruct (_ || negb (hw_scan_supported E _)).
  - destruct (_manualScanTC k4); cbn [negb]; [by apply start_manual_ok|by apply scan_refused].
  - set (k5 := emit (EvHwScan chans) k4). assert (obj_inv k5) as I5 by apply inv_emit, I4. assert (calm k k5) as C5 by exact C. clearbody k5.
    destruct (negb _); [destruct (_manualScanTC k5); [by apply start_manual_ok|by apply scan_refused]|]. split; [by apply inv_emit|exact (calm_scan _ _ C5)].
Qed.

(** *** The manual scan *)

Definition scan_on_air (pc : scan_pc) : bool := match pc with ScanLoop _ _ _ | ScanTune _ _ _ _ | ScanDwell _ _ _ => true | _ => false end.
Definition in_sweep (pc : scan_pc) : Prop := match pc with ScanLoop _ n i | ScanTune _ n i _ | ScanDwell _ n i => 0 <= i /\ n <= 256 | _ => True end.
Definition scan_pc_ok (pc : option scan_pc) (k : kext) : Prop :=
  match pc with Some pc => (scan_on_air pc = true -> has_hw k = true) /\ in_sweep pc | None => True end.

Lemma txNullFunc_ok ps k : obj_inv k -> obj_inv (snd (txNullFunc E ps k)) /\ calm k (snd (txNullFunc E ps k)).
Proof. intros I. destruct (txNullFunc_keeps E ps k (oi_wf k I)) as [W T]. split; [by apply (tx_only_inv k)|by apply tx_only_calm]. Qed.
Lemma txProbeRequest_ok k : obj_inv k -> obj_inv (snd (txProbeRequest E k)) /\ calm k (snd (txProbeRequest E k)).
Proof. intros I. destruct (txProbeRequest_keeps E k (oi_wf k I)) as [W T]. split; [by apply (tx_only_inv k)|by apply tx_only_calm]. Qed.

Lemma set_home_ok b k : obj_inv k -> obj_inv (k <| _manualScanOnHomeChannel := b |>) /\ calm k (k <| _manualScanOnHomeChannel := b |>).
Proof. intros I. split; [solve_inv I|done]. Qed.

(** Restoring the channel around a null frame, when the link is kept. *)
Lemma home_leg (b : bool) (f : kext -> kext) k k1 : obj_inv k1 -> calm k k1 -> (forall x, obj_inv x -> obj_inv (f x) /\ calm x (f x)) ->
  keeps (calm k) (if b then x ← restoreConnectedChannel k1; Some (f x) else Some k1).
Proof.
  intros I C Hf. destruct b; [|by apply keeps_ret]. rewrite restoreConnectedChannel_id by done. cbn [mbind option_bind].
  destruct (Hf k1 I). apply keeps_ret; [done|by apply (calm_trans k k1)].
Qed.

Lemma scan_step_ok pc k : obj_inv k -> scan_pc_ok (Some pc) k ->
  exists k' pc', scan_step E pc k = Some (k', pc') /\ obj_inv k' /\ calm k k' /\ scan_pc_ok pc' k'.
Proof.
  intros I [Hpc Hr].
  destruct pc as [|cn n i|cn n i c|cn n i| | |]; cbn [scan_step].
  - destruct (_ || _) eqn:Eg.
    + destruct (scanDone_ok true k I) as (k1 & -> & I1 & C1). by exists k1, (Some ScanResetCount).
    + apply orb_false_elim in Eg as [Eg _]. apply negb_false_iff in Eg.
      eexists _, _. split; [reflexivity|]. split; [by apply inv_emit|]. split; [exact (calm_refl k)|]. split; [by intros _|]. cbn. destruct (Z.ltb_spec 256 (_manualScanChannelCount k)); lia.
  - specialize (Hpc eq_refl). destruct (_ && _).
    + destruct (ld _ _) as [c|]; [|exists k, (Some (ScanLoop cn n (i + 1))); do 2 (split; [done|]); split; [apply calm_refl|split; [by intros _|cbn in *; lia]]]. destruct (set_home_ok false k I) as [I1 C1].
      destruct (home_leg cn (fun x => emit (EvSleep 10) (snd (txNullFunc E true x))) k _ I1 C1) as (k2 & -> & I2 & C2).
      { intros x Ix. destruct (txNullFunc_ok true x Ix). split; [by apply inv_emit|done]. }
      cbn [mbind option_bind]. exists k2, (Some (ScanTune cn n i c)). do 3 (split; [done|]). split; [intros _; by rewrite (proj1 C2)|done].
    + destruct (set_home_ok false k I) as [I1 C1].
      destruct (home_leg cn (fun x => snd (txNullFunc E false x)) k (emit EvSwScanComplete (k <| _manualScanOnHomeChannel := false |>)) (inv_emit _ _ I1) C1) as (k2 & -> & I2 & C2).
      { intros x Ix. by apply txNullFunc_ok. }
      cbn [mbind option_bind]. by exists k2, (Some ScanDone).
  - specialize (Hpc eq_refl). destruct (set_chandef_ok c NL80211_CHAN_WIDTH_20_NOHT (center_freq c) k I Hpc) as (k1 & -> & I1 & R1). cbn [mbind option_bind].
    pose proof (radio_calm _ _ R1) as C1. pose proof (proj1 C1) as H1. rewrite Hpc in H1. unfold has_hw in H1. destruct (_hw k1) as [h|] eqn:Eh; [|done]. cbn [mbind option_bind].
    set (k2 := emit (EvSwScanSwitch _) k1). assert (obj_inv k2) as I2 by apply inv_emit, I1.
    set (k3 := if negb (passive c) then _ else _). assert (obj_inv k3 /\ calm k2 k3) as [I3 C3] by (unfold k3; destruct (negb (passive c)); [by apply txProbeRequest_ok|split; [done|apply calm_refl]]).
    eexists _, _. split; [reflexivity|]. split; [by apply inv_emit|]. assert (calm k k3) as C by exact (calm_trans _ _ _ C1 C3). split; [exact C|].
    split; [|done]. intros _. change (has_hw k3 = true). by rewrite (proj1 C).
  - specialize (Hpc eq_refl).
    destruct (home_leg (cn && negb (_manualScanAbort k)) (fun x => emit (EvSleep 80) (snd (txNullFunc E false x) <| _manualScanOnHomeChannel := true |>)) k k I (calm_refl k)) as (k2 & -> & I2 & C2).
    { intros x Ix. destruct (txNullFunc_ok false x Ix) as [I1 C1]. destruct (set_home_ok true _ I1). split; [by apply inv_emit|exact C1]. }
    cbn [mbind option_bind]. exists k2, (Some (ScanLoop cn n (i + 1))). do 3 (split; [done|]). split; [intros _; by rewrite (proj1 C2)|cbn in *; lia].
  - destruct (scanDone_ok (_manualScanAbort k) k I) as (k1 & -> & I1 & C1). by exists k1, (Some ScanResetAbort).
  - eexists _, _. split; [reflexivity|]. split; [solve_inv I|done].
  - eexists _, _. split; [reflexivity|]. split; [solve_inv I|done].
Qed.

(** *** Leaving the network *)

(** Well formed, with the configuration of [k]. *)
Definition same_config (k k' : kext) : Prop := kext_wf k' /\ config k' = config k.

Lemma rxba_wf e t k : kext_wf k -> table_ok skb_sn t -> Forall rx_ok (buffered t) -> kext_wf (emit e (k <| _rxBa := t |>)).
Proof. intros W Ht Hb. by solve_wf W. Qed.

Lemma releaseSta_ok k : kext_wf k -> exists k', releaseSta k = Some k' /\ same_config k k' /\ _state k' = _state k /\ _scanReturnState k' = _scanReturnState k.
Proof.
  intros W. unfold releaseSta. destruct (_sta k) as [s|]; [|by exists k].
  set (k1 := (if has_op k OpStaRemove && has_vif k then emit (EvStaRemove s) k else k) <| _sta := None |> <| _txBaActive := false |> <| _dataSeq := 0 |>).
  assert (exists tr, k1 = k <| _sta := None |> <| _txBaActive := false |> <| _dataSeq := 0 |> <| trace := tr |>) as [tr E1].
  { unfold k1. destruct (_ && _); [by exists (EvStaRemove s :: trace k)|exists (trace k); by destruct k]. }
  assert (kext_wf k1) as W1 by (rewrite E1; destruct (wf_seqs k W) as (H1 & H2 & H3); solve_wf W; by split_and!). clearbody k1.
  destruct (rxBaTeardownAll_sound skb_sn (_rxBa k1) (wf_rxba k1 W1)) as (t & o & E2 & Ht & Hp & _). unfold teardown_all. rewrite E2. cbn [mbind option_bind].
  assert (Forall rx_ok (delivered o ++ freed o ++ buffered t)) as Hall by (rewrite Hp; apply W1). rewrite !Forall_app in Hall. destruct Hall as (_ & _ & Hb).
  eexists. split; [reflexivity|]. split; [split; [by apply rxba_wf|]|]; by rewrite E1.
Qed.

Lemma clearKeys_same k : kext_wf k -> same_config k (clearKeys k) /\ _state (clearKeys k) = _state k /\ _scanReturnState (clearKeys k) = _scanReturnState k.
Proof. intros W. by destruct (clearKeys_ok k W) as (W1 & _ & G & S & R & _). Qed.

Lemma same_trans k1 k2 k3 : same_config k1 k2 -> same_config k2 k3 -> same_config k1 k3.
Proof. intros [_ G1] [W2 G2]. split; [done|congruence]. Qed.

(** Keys and station gone, in a state without a link. *)
Lemma forget_ok k : kext_wf k -> exists k', releaseSta (clearKeys k) = Some k' /\ same_config k k' /\ _state k' = _state k /\ _scanReturnState k' = _scanReturnState k.
Proof.
  intros W. destruct (clearKeys_same k W) as (S1 & T1 & R1). revert S1 T1 R1. generalize (clearKeys k). intros k1 S1 T1 R1.
  destruct (releaseSta_ok k1 (proj1 S1)) as (k2 & -> & S2 & T2 & R2). exists k2. split; [done|]. split; [by apply (same_trans k k1)|]. split; congruence.
Qed.

Lemma vif_step_ok (v : ieee80211_vif) k : kext_wf k -> has_vif k = true ->
  let k1 := k <| _vif := Some v |> in same_config k (if has_op k1 OpBssInfoChanged then emit (EvBssInfoChanged v) k1 else k1).
Proof.
  intros W Hv k1. assert (same_config k k1) as [W1 G1] by (split; [by solve_wf W|unfold config; cbn; rewrite Hv; done]).
  destruct (has_op k1 _); [|done]. split; [by apply emit_wf|done].
Qed.

Lemma same_idle k0 k : obj_inv k0 -> same_config k0 k -> obj_inv (to_idle k) /\ calm k0 (to_idle k).
Proof.
  intros I [W G]. split; [by apply (inv_to_idle k k0)|]. destruct (config_drift k0 (to_idle k) G) as (A & B & C & D & _); [intros _; by left|]. by apply calm_idle.
Qed.

Lemma doDisconnect_ok k : obj_inv k -> keeps (fun k' => calm k k' /\ _state k' = RTW88_STATE_IDLE) (doDisconnect E k).
Proof.
  intros I. unfold doDisconnect. destruct (_ || _) eqn:Eg.
  { destruct (same_idle k k I (conj (oi_wf k I) eq_refl)). by apply keeps_ret. }
  apply orb_false_elim in Eg as [_ Ev]. apply negb_false_iff in Ev. destruct (clearKeys_same k (oi_wf k I)) as (S1 & _).
  revert S1. generalize (clearKeys k). intros k1 S1. pose proof (txMgmtFrame_only E (deauth_frame k1) k1) as T2. pose proof (txMgmtFrame_wf E (deauth_frame k1) k1 (proj1 S1)) as W2.
  destruct (txMgmtFrame E (deauth_frame k1) k1) as [ok k2]. cbn [snd] in *.
  assert (same_config k k2) as S2. { split; [done|]. destruct S1 as [_ G1]. rewrite <- G1. by destruct T2 as (?&?&?&?&?&?&_&->). }
  assert (has_vif k2 = true) as Hv by (destruct S2 as [_ G2]; injection G2; intros; congruence).
  unfold has_vif in Hv. destruct (_vif k2) as [v|] eqn:Evif; [|done]. cbn [mbind option_bind].
  set (v' := mk_vif _ _ _ _ _ _). pose proof (vif_step_ok v' k2 W2 ltac:(unfold has_vif; by rewrite Evif)) as S3. cbn zeta in S3.
  set (k3 := if has_op _ _ then _ else _) in *. clearbody k3. destruct (releaseSta_ok k3 (proj1 S3)) as (k4 & -> & S4 & _). cbn [mbind option_bind].
  destruct (same_idle k k4 I (same_trans _ _ _ S2 (same_trans _ _ _ S3 S4))) as [I5 C5].
  apply keeps_ret; [by apply inv_emit, inv_emit|]. split; [exact C5|done].
Qed.

Lemma disconnect_rest_ok k : obj_inv k -> exists ret k', disconnect_rest E k = Some (ret, k') /\ obj_inv k' /\ calm k k' /\ _state k' = RTW88_STATE_IDLE.
Proof.
  intros I. unfold disconnect_rest. destruct (state_is k RTW88_STATE_IDLE) eqn:Es.
  - apply is_state_true in Es. exists kIOReturnSuccess, k. by split_and!.
  - destruct (doDisconnect_ok k I) as (k1 & -> & I1 & C1 & S1). by exists kIOReturnSuccess, k1.
Qed.

(** *** Filters and power *)

Lemma setReceiveMulticast_ok b k : obj_inv k -> obj_inv (snd (setReceiveMulticast b k)) /\ calm k (snd (setReceiveMulticast b k)).
Proof.
  intros I. unfold setReceiveMulticast. destruct (negb _); [by split|]. cbn [snd]. assert (obj_inv (k <| _receiveMulticast := b |>)) as I1 by solve_inv I.
  destruct (_powered _); (split; [|done]); [by apply inv_emit|done].
Qed.

Lemma setAWDLReceiveMode_ok b k : obj_inv k -> obj_inv (snd (setAWDLReceiveMode b k)) /\ calm k (snd (setAWDLReceiveMode b k)).
Proof.
  intros I. unfold setAWDLReceiveMode. destruct (negb _); [by split|]. cbn [snd]. destruct (negb b); (split; [apply inv_emit; solve_inv I|done]).
Qed.

Lemma set_powered_inv b k : obj_inv k -> (b = true -> has_hw k = true) -> obj_inv (k <| _powered := b |>) /\ calm k (k <| _powered := b |>).
Proof. intros I H. split; [|done]. destruct I as [IW IL IR IV IP IS ID IN]. split; try done. by solve_wf IW. Qed.

Lemma has_op_hw o k : has_op k o = true -> has_hw k = true.
Proof. unfold has_op, has_hw. by destruct (_hw k). Qed.

Lemma powerOn_ok k : obj_inv k -> obj_inv (snd (powerOn E k)) /\ calm k (snd (powerOn E k)).
Proof.
  intros I. unfold powerOn. destruct (_powered k); [by split|]. destruct (has_op k OpStart) eqn:Eo; cbn [negb]; [|by split].
  pose proof (inv_emit EvStart k I) as I1. destruct (negb _); [by split|].
  destruct (set_powered_inv true (emit EvStart k) I1) as [I2 C2]; [intros _; by apply (has_op_hw OpStart)|].
  destruct (setReceiveMulticast_ok (_receiveMulticast (emit EvStart k <| _powered := true |>)) _ I2) as [I3 C3]. split; [exact I3|exact (calm_trans _ _ _ C2 C3)].
Qed.

Lemma powerOff_ok k : obj_inv k -> obj_inv (powerOff k) /\ calm k (powerOff k).
Proof.
  intros I. unfold powerOff. destruct (negb _); [by split|]. destruct (has_op k OpStop).
  - destruct (set_powered_inv false (emit EvStop k) (inv_emit _ _ I)) as [I1 C1]; [done|]. split; [exact I1|exact C1].
  - by apply set_powered_inv.
Qed.

Lemma cmdPowerOn_ok k : obj_inv k -> obj_inv (snd (cmdPowerOn E k)) /\ calm k (snd (cmdPowerOn E k)).
Proof.
  intros I. unfold cmdPowerOn. destruct (powerOn_ok k I) as [I1 C1]. destruct (powerOn E k) as [ret k1]. cbn [snd] in *.
  destruct (_ && state_is k1 _) eqn:Es; [|done]. apply andb_prop in Es as [_ Es]. apply is_state_true in Es. by destruct (oi_dead k1 I1).
Qed.

Lemma poweroff_rest_ok k : obj_inv k -> keeps (fun k' => calm k k' /\ _state k' = RTW88_STATE_IDLE) (poweroff_rest E k).
Proof.
  intros I. unfold poweroff_rest.
  assert (exists k1, (if state_is k RTW88_STATE_CONNECTED || state_is k RTW88_STATE_AUTHENTICATING || state_is k RTW88_STATE_ASSOCIATING ||
          state_is k RTW88_STATE_HANDSHAKING then doDisconnect E k else releaseSta (clearKeys k)) = Some k1 /\ obj_inv (to_idle k1) /\ calm k (to_idle k1)) as (k1 & -> & I1 & C1).
  { destruct (_ || _).
    - destruct (doDisconnect_ok k I) as (k1 & -> & I1 & C1 & S1). exists k1. split; [done|].
      destruct (same_idle k1 k1 I1 (conj (oi_wf k1 I1) eq_refl)) as [I2 C2]. split; [done|by apply (calm_trans k k1)].
    - destruct (forget_ok k (oi_wf k I)) as (k1 & -> & S1 & _). exists k1. split; [done|]. by apply same_idle. }
  cbn [mbind option_bind]. destruct (powerOff_ok (to_idle k1) I1) as [I2 C2].
  assert (to_idle (powerOff k1) = powerOff (to_idle k1)) as ->.
  { unfold powerOff. change (_powered (to_idle k1)) with (_powered k1). change (has_op (to_idle k1) OpStop) with (has_op k1 OpStop). destruct (negb _); [done|]. by destruct (has_op k1 OpStop). }
  apply keeps_ret; [by apply inv_emit|]. split; [exact (calm_trans _ _ _ C1 C2)|].
  unfold powerOff. destruct (negb _); [done|]. by destruct (has_op _ OpStop).
Qed.

(** *** Connecting *)

(** A string handed in by the user client. *)
Definition cstr_ok (s : list Z) : Prop := bytes_ok s /\ In 0 s.

Lemma strlen_In s : In 0 s -> exists n, strlen s = Some n /\ 0 <= n < zlen s.
Proof.
  induction s as [|c s IH]; [done|]. intros H. cbn [strlen]. rewrite zlen_cons. pose proof (zlen_nonneg s). destruct (Z.eqb_spec c 0) as [|Hc]; [exists 0; split; [done|lia]|].
  destruct IH as (n & -> & Hn); [by destruct H|]. exists (1 + n). split; [done|lia].
Qed.

Lemma strnlen_In n : forall s, In 0 s -> exists l, strnlen s n = Some l.
Proof.
  induction n as [|n IH]; intros s H; cbn [strnlen]; [by eexists|]. destruct s as [|c s]; [done|]. destruct (Z.eqb_spec c 0) as [|Hc]; [by eexists|].
  destruct (IH s) as [l ->]; [by destruct H|]. cbn [mbind option_bind]. by eexists.
Qed.

Lemma strlcpy_ok dst src : buf_ok 64 dst -> cstr_ok src -> exists d, strlcpy dst src 64 = Some d /\ buf_ok 64 d /\ In 0 d.
Proof.
  intros Hd [Hb H0]. unfold strlcpy. destruct (strlen_In src H0) as (n & -> & Hn). cbn [mbind option_bind].
  destruct (ldn_buf src 0 (Z.min n (64 - 1)) Hb) as (v & -> & Hv & Hvb); [lia..|]. cbn [mbind option_bind].
  assert (zlen (v ++ [0]) = Z.min n 63 + 1) as Hz by (rewrite zlen_app, Hv; done).
  assert (bytes_ok (v ++ [0])) as Hvb' by (apply Forall_app; split; [done|repeat constructor; done]).
  destruct (stn_buf 64 dst 0 (v ++ [0]) Hd Hvb') as (d & Ed & Hd'); [lia..|]. exists d. split; [done|]. split; [done|].
  rewrite stn_Some in Ed by (destruct Hd; lia). injection Ed as <-. apply in_or_app. left. apply in_or_app. right. by left.
Qed.

Lemma ssid_terminated b : bss_wf b -> In 0 (ssid b).
Proof.
  intros (_&_&_&_&_&_&_&_&_&_&_& Hz). apply list_elem_of_In. apply (list_elem_of_lookup_2 _ 32%nat). exact Hz.
Qed.

Record connect_ok (a : connect_args) : Prop := {
  co_ssid : forall s, ca_ssid a = Some s -> cstr_ok s;
  co_password : forall p, ca_password a = Some p -> cstr_ok p;
  co_pmk : forall p, ca_pmk a = Some p -> bytes_ok p /\ 32 <= zlen p;
  co_bssid : forall b, ca_bssid a = Some b -> 6 <= zlen b;
  co_external : ca_external a = true -> external_caller = true
}.

Lemma is_wanted_ok s o b : bss_wf b -> cstr_ok s -> (forall x, o = Some x -> 6 <= zlen x) -> exists w, is_wanted s o b = Some w.
Proof.
  intros W [_ H0] Ho. unfold is_wanted. destruct (strlen_In (ssid b) (ssid_terminated b W)) as (n & -> & Hn). destruct (strlen_In s H0) as (m & -> & Hm). cbn [mbind option_bind].
  destruct (Z.eqb_spec n m) as [->|]; cbn [negb]; [|by eexists]. rewrite (ldn_Some (ssid b) 0 m), (ldn_Some s 0 m) by lia. cbn [mbind option_bind].
  destruct (negb _); [by eexists|]. destruct o as [x|]; [|by eexists]. specialize (Ho x eq_refl). rewrite (ldn_Some x 0 6) by lia. by eexists.
Qed.

Lemma find_target_ok s o l : Forall bss_wf l -> cstr_ok s -> (forall x, o = Some x -> 6 <= zlen x) ->
  exists t, find_target s o l = Some t /\ (forall b, t = Some b -> bss_wf b).
Proof.
  intros Hf Hs Ho. induction Hf as [|b l Hb _ IH]; cbn [find_target]; [by exists None|].
  destruct (is_wanted_ok s o b Hb Hs Ho) as [[] ->]; cbn [mbind option_bind]; [|done]. exists (Some b). split; [done|]. by intros ? [= <-].
Qed.

(** The credentials and the target written, the attempt begins. *)
Lemma attempt_inv k t p e v w : obj_inv k -> (e = true -> external_caller = true) -> has_hw k = true -> bss_wf t -> buf_ok 32 p -> buf_ok 64 w -> In 0 w ->
  obj_inv (k <| _targetBSS := t |> <| _externalSupplicant := e |> <| _pmkProvided := v |> <| _pmk := p |> <| _password := w |>
             <| _wpa2 := cipher t =? WLAN_CIPHER_SUITE_CCMP |> <| _deauthReason := 0 |> <| _connectCancelled := false |>
             <| _state := RTW88_STATE_AUTHENTICATING |> <| connectEntered := true |>).
Proof.
  intros I He Hh Ht Hp Hw H0. destruct I as [IW IL IR IV IP IS ID IN]. split; try done; [by solve_wf IW|]. unfold rsn_ok in *.
  destruct external_caller; [done|]. destruct e; [by discriminate He|done].
Qed.

Lemma connect_rest_ok a k : obj_inv k -> connect_ok a -> exists ret k', connect_rest a k = Some (ret, k') /\ obj_inv k' /\ has_hw k' = has_hw k.
Proof.
  intros I [Cs Cp Cm Cb Ce]. unfold connect_rest. destruct (state_is k RTW88_STATE_IDLE) eqn:Es; cbn [negb]; [|by exists kIOReturnBusy, k]. apply is_state_true in Es.
  destruct (ca_ssid a) as [s|]; [|by exists kIOReturnBadArgument, k]. pose proof (Cs s eq_refl) as [Hsb Hs0].
  destruct (ld_Some s 0) as [s0 ->]; [destruct s; [done|rewrite zlen_cons; pose proof (zlen_nonneg s); lia]|]. cbn [mbind option_bind].
  assert (exists n, (if s0 =? 0 then Some 33 else strnlen s 33) = Some n) as [n ->] by (destruct (s0 =? 0); [by eexists|by apply strnlen_In]).
  cbn [mbind option_bind]. destruct (32 <? n); [by exists kIOReturnBadArgument, k|].
  destruct (negb (_powered k) || _) eqn:Eg; [by exists kIOReturnNotReady, k|]. apply orb_false_elim in Eg as [Ep _]. apply negb_false_iff in Ep.
  destruct (forget_ok k (oi_wf k I)) as (k1 & -> & [W1 G1] & S1 & R1). cbn [mbind option_bind].
  assert (obj_inv k1) as I1 by (apply (inv_idle k); try done; [rewrite R1; apply I|by rewrite S1]).
  assert (has_hw k1 = has_hw k) as H1 by (injection G1 as Gh; unfold has_hw; by rewrite Gh).
  destruct (find_target_ok s (ca_bssid a) (bssList (_bss k1)) (proj1 (wf_bss k1 W1)) (Cs s eq_refl) Cb) as (t & -> & Ht). cbn [mbind option_bind].
  destruct t as [t|]; [|by exists kIOReturnNotFound, k1]. specialize (Ht t eq_refl).
  destruct (supported a t); cbn [negb].
  2: { eexists kIOReturnUnsupported, _. split; [reflexivity|]. split; [|exact H1]. clear -I1 Ht. solve_inv I1. }
  assert (exists p, buf_ok 32 p /\ forall k2, _pmk k2 = _pmk k1 -> match ca_pmk a with Some p => v ← ldn p 0 32; b ← stn (_pmk k2) 0 v; Some (k2 <| _pmk := b |>) | None => Some k2 end
     = Some (k2 <| _pmk := p |>)) as (p & Hp & Ek).
  { destruct (ca_pmk a) as [p|]; [|exists (_pmk k1); split; [apply W1|intros k2 <-; by destruct k2]]. destruct (Cm p eq_refl) as [Hpb Hpl].
    destruct (ldn_buf p 0 32 Hpb) as (v & -> & Hv & Hvb); [lia..|]. destruct (stn_buf 32 (_pmk k1) 0 v (wf_pmk k1 W1) Hvb) as (b & Eb & Hb); [lia..|].
    exists b. split; [done|]. intros k2 Ek2. cbn [mbind option_bind]. by rewrite Ek2, Eb. }
  rewrite Ek by done. cbn [mbind option_bind].
  destruct (strlcpy_ok (_password k1) (match ca_password a with Some p => p | None => [0] end) (proj1 (wf_password k1 W1))) as (w & Ew & Hw & Hw0).
  { destruct (ca_password a) as [q|]; [by apply Cp|]. split; [repeat constructor; done|by left]. }
  match goal with |- context [strlcpy (_password ?k2) ?x 64] => change (_password k2) with (_password k1) end. rewrite Ew. cbn [mbind option_bind].
  eexists kIOReturnSuccess, _. split; [reflexivity|]. split; [|exact H1]. apply attempt_inv; try done. rewrite H1. by apply (oi_power k I).
Qed.

(** *** The authentication exchange *)

(** The call is past its first check: the driver and the interface are there. *)
Definition auth_pc_ok (pc : option auth_pc) (k : kext) : Prop :=
  match pc with Some AuthEntry | None => True | Some _ => has_hw k = true end.

Lemma vif_target_inv k v : obj_inv k -> has_vif k = true -> obj_inv (k <| _vif := Some v |>) /\ calm k (k <| _vif := Some v |>).
Proof.
  intros I Hv. split; [|done]. destruct I as [IW IL IR IV IP IS ID IN]. split; try done; [by solve_wf IW|]. change (true = has_hw k). congruence.
Qed.

Lemma auth_step_ok pc k : obj_inv k -> auth_pc_ok (Some pc) k ->
  exists k' pc', auth_step E pc k = Some (k', pc') /\ obj_inv k' /\ calm k k' /\ auth_pc_ok pc' k'.
Proof.
  intros I Hpc. pose proof (calm_refl k) as R. assert (exists k' pc', Some (k, @None auth_pc) = Some (k', pc') /\ obj_inv k' /\ calm k k' /\ auth_pc_ok pc' k') as Hdone.
  { by exists k, None. }
  destruct pc as [|i| | | |f|]; cbn [auth_step].
  - destruct (_ || negb (has_vif k)) eqn:Eg; [done|]. apply orb_false_elim in Eg as [Eg _]. apply orb_false_elim in Eg as [_ Eh]. apply negb_false_iff in Eh.
    by exists k, (Some (AuthPoll 0)).
  - destruct (i <? 100); [|by exists k, (Some AuthPolled)]. destruct (authenticationCancelled k); [done|]. destruct (negb _); [by exists k, (Some AuthPolled)|].
    eexists _, _. split; [reflexivity|]. split; [by apply inv_emit|]. split; [exact R|exact Hpc].
  - destruct (_ || _); [done|]. eexists _, _. split; [reflexivity|]. split; [by apply inv_emit|]. split; [exact R|exact Hpc].
  - destruct (authenticationCancelled k); [done|]. destruct (find_channel_ok (is_target_channel k) k I) as [I1 R1].
    destruct (find_channel _ k) as [chan k1]. cbn [snd] in *. pose proof (radio_has_hw _ _ R1) as H1. cbn in Hpc. rewrite Hpc in H1.
    assert (keeps (radio_only k1) (match chan with Some c => setConnectedChandef c k1 | None => Some k1 end)) as (k2 & -> & I2 & R2).
    { destruct chan; [by apply setConnectedChandef_ok|]. apply keeps_ret; [done|apply radio_refl]. }
    cbn [mbind option_bind]. pose proof (radio_has_hw _ _ R2) as H2. rewrite H1 in H2. pose proof H2 as H3. unfold has_hw in H3. destruct (_hw k2) as [h|] eqn:Eh; [|done]. cbn [mbind option_bind].
    eexists _, _. split; [reflexivity|]. split; [by apply inv_emit|]. split; [exact (radio_calm _ _ (radio_trans _ _ _ R1 R2))|exact H2].
  - destruct (authenticationCancelled k); [done|]. cbn in Hpc. assert (has_vif k = true) as Hv by (by rewrite (oi_vif k I)).
    pose proof Hv as Hv'. unfold has_vif in Hv'. destruct (_vif k) as [v|] eqn:Ev; [|done]. cbn [mbind option_bind].
    destruct (vif_target_inv k (vif_target (bssid (_targetBSS k)) v) I Hv) as [I1 C1]. set (k1 := k <| _vif := _ |>) in *.
    eexists (snd (next_txSeq k1)), _. split; [reflexivity|]. split; [apply (tx_only_inv k1); [done|apply next_txSeq_wf, I1|apply next_txSeq_only]|].
    split; [exact (calm_trans _ _ _ C1 (tx_only_calm _ _ (next_txSeq_only k1)))|exact Hpc].
  - destruct (authenticationCancelled k); [done|]. pose proof (txMgmtFrame_only E f k) as T. eexists _, _. split; [reflexivity|].
    split; [apply (tx_only_inv k); [done|apply txMgmtFrame_wf, I|done]|]. pose proof (tx_only_calm _ _ T) as C. split; [done|]. cbn. by rewrite (proj1 C).
  - destruct (_ || _); [done|]. eexists _, _. split; [reflexivity|]. split; [by apply inv_emit|]. split; [exact R|done].
Qed.

(** *** The timer, the user's abort, starting and stopping *)

(** Without a scan or an attempt under way the timer leaves them alone. *)
Lemma onTimer_ok k : obj_inv k -> exists k', onTimer E k = Some k' /\ obj_inv k' /\ has_hw k' = has_hw k /\
  _connectCancelled k' = _connectCancelled k /\ (_connectCancelled k = true -> calm k k') /\ (_state k' = _state k \/ _state k' = RTW88_STATE_IDLE).
Proof.
  intros I. unfold onTimer. destruct (_state k) eqn:Es; try (exists k; split_and!; [..|by left]; done).
  - destruct (negb (_manualScanChannelCount k =? 0)); [exists (k <| _manualScanAbort := true |>); split; [done|]; split; [solve_inv I|rewrite <- Es; split_and!; [..|by left]; done]|].
    set (k1 := if has_op k OpCancelHwScan then _ else _). assert (obj_inv k1 /\ calm k k1) as [I1 C1] by (unfold k1; destruct (has_op _ _); split; try done; by apply inv_emit).
    clearbody k1. rewrite (oi_ret k1 I1). change (is_state RTW88_STATE_IDLE RTW88_STATE_CONNECTED) with false. cbn [mbind option_bind].
    eexists. split; [reflexivity|]. split; [exact (inv_to_idle k1 k1 I1 (oi_wf k1 I1) eq_refl)|]. split; [exact (proj1 C1)|]. split; [exact (proj1 (proj2 C1))|].
    split; [|by right]. intros _. apply (calm_trans _ _ _ C1). by apply calm_idle.
  - destruct (_connectCancelled k) eqn:Ec; unfold authenticationCancelled; rewrite Ec; cbn [negb andb].
    + exists k. split_and!; [..|by left]; done.
    + destruct (_connectTC k); [|exists k; split_and!; [..|by left]; done]. eexists. split; [reflexivity|]. split; [solve_inv I|]. split_and!; [..|by left]; done.
  - eexists. split; [reflexivity|]. split; [apply (inv_idle k); try done; [apply set_state_wf, I|apply I]|]. do 2 (split; [done|]). split; [intros _; by apply calm_idle|by right].
  - destruct (doDisconnect_ok k I) as (k1 & -> & I1 & C1 & S1). exists k1. split; [done|]. split; [done|]. split; [apply C1|]. split; [apply C1|]. split; [done|by right].
Qed.

Lemma abort_begin_ok k : obj_inv k -> obj_inv (abort_begin k) /\ calm k (abort_begin k).
Proof. intros I. unfold abort_begin. destruct (negb _); [split; [solve_inv I|done]|]. destruct (has_op _ _); [split; [by apply inv_emit|done]|by split]. Qed.

Lemma abort_finish_ok k : obj_inv k -> exists b k', abort_finish RTW88_STATE_IDLE k = Some (b, k') /\ obj_inv k' /\ calm k k' /\
  (b = true -> _state k' <> RTW88_STATE_SCANNING).
Proof.
  intros I. unfold abort_finish. destruct (state_is k RTW88_STATE_SCANNING) eqn:Es.
  2: { exists true, k. do 3 (split; [done|]). intros _ Hs. unfold state_is, is_state in Es. by rewrite Hs in Es. }
  destruct (negb _); [by exists false, k|]. change (is_state RTW88_STATE_IDLE RTW88_STATE_CONNECTED) with false. change (is_state RTW88_STATE_IDLE RTW88_STATE_IDLE) with true. cbn [mbind option_bind].
  eexists true, _. split; [reflexivity|]. split; [|split; [by apply calm_idle|done]]. apply scan_ended_inv in I. clear -I. solve_inv I.
Qed.

(** What holds while the driver comes up or goes down. *)
Record booting (k : kext) : Prop := {
  b_wf : kext_wf k;
  b_state : _state k = RTW88_STATE_IDLE;
  b_ret : _scanReturnState k = RTW88_STATE_IDLE;
  b_rsn : rsn_ok k
}.

Lemma booting_emit e k : booting k -> booting (emit e k).
Proof. intros [W S R N]. split; try done. by apply emit_wf. Qed.
Lemma booting_hw h k : booting k -> hw_wf h -> booting (k <| _hw := h |>).
Proof. intros [W S R N] H. split; try done. by solve_wf W. Qed.
Lemma booting_mac m k : booting k -> buf_ok 6 m -> booting (k <| _macAddr := m |>).
Proof. intros [W S R N] H. split; try done. by solve_wf W. Qed.
Lemma booting_vif v k : booting k -> booting (k <| _vif := v |>).
Proof. intros [W S R N]. split; try done. by solve_wf W. Qed.
Lemma booting_power b k : booting k -> booting (k <| _powered := b |>).
Proof. intros [W S R N]. split; try done. by solve_wf W. Qed.
Lemma booting_inv k : booting k -> has_vif k = has_hw k -> (_powered k = true -> has_hw k = true) -> obj_inv k.
Proof. intros [W S R N] Hv Hp. split; try done; [by intros Hc; rewrite S in Hc|by rewrite S]. Qed.
Lemma booting_idle k : booting k -> booting (to_idle k).
Proof. intros [W S R N]. split; try done. by solve_wf W. Qed.

Lemma fail_probe_ok k : booting k -> _vif k = None -> obj_inv (snd (fail_probe k)).
Proof.
  intros B Hv. unfold fail_probe. cbn [snd].
  pose proof (booting_power false _ (booting_hw None _ (booting_emit EvPciRemove _ B) Logic.I)) as B1.
  apply booting_inv; [done| |done]. change (has_vif k = false). unfold has_vif. by rewrite Hv.
Qed.
Lemma fail_vif_ok k : booting k -> obj_inv (snd (fail_vif k)).
Proof.
  intros B. unfold fail_vif. set (k1 := if _ && _ then _ else k).
  assert (booting k1) as B1 by (unfold k1; destruct (_ && _); [by apply booting_power, booting_emit|done]). clearbody k1.
  apply fail_probe_ok; [by apply booting_vif|done].
Qed.

Lemma start_ok chip ret hw mac k : obj_inv k -> has_hw k = false -> hw_wf hw -> buf_ok 6 mac -> obj_inv (snd (start E chip ret hw mac k)).
Proof.
  intros I Hn Hw Hm. assert (booting k) as B.
  { split; [apply I| |apply I|apply I]. destruct (decide (_state k = RTW88_STATE_IDLE)) as [|H]; [done|]. pose proof (oi_state k I H). congruence. }
  assert (_vif k = None) as Hv by (pose proof (oi_vif k I) as H; rewrite Hn in H; unfold has_vif in H; by destruct (_vif k)).
  unfold start. destruct (negb chip); [done|]. destruct (negb (ret =? 0)); [done|].
  pose proof (booting_hw hw k B Hw) as B1. assert (_vif (k <| _hw := hw |>) = None) as Hv1 by exact Hv. set (k1 := k <| _hw := hw |>) in *. clearbody k1.
  destruct (negb (has_wiphy k1) || negb (has_ops k1)) eqn:Eg; [by apply fail_probe_ok|]. apply orb_false_elim in Eg as [Ew _]. apply negb_false_iff in Ew.
  assert (has_hw k1 = true) as Hh1 by (unfold has_wiphy, has_hw in *; by destruct (_hw k1)).
  pose proof (booting_mac mac k1 B1 Hm) as B2. assert (has_hw (k1 <| _macAddr := mac |>) = true) as Hh2 by exact Hh1.
  set (k2 := k1 <| _macAddr := mac |>) in *. clearbody k2. clear k1 B1 Hv1 Ew Hh1.
  destruct (alloc_ok E (trace k2)); cbn [negb]; [|apply fail_probe_ok; [by apply booting_vif|done]].
  pose proof (booting_vif (Some zero_vif) k2 B2) as B3. assert (has_hw (k2 <| _vif := Some zero_vif |>) = true) as Hh3 by exact Hh2.
  assert (has_vif (k2 <| _vif := Some zero_vif |>) = true) as Hv3 by done.
  set (k3 := k2 <| _vif := Some zero_vif |>) in *. clearbody k3. clear k2 B2 Hh2.
  destruct (negb (has_op k3 OpAddInterface)); [by apply fail_vif_ok|]. destruct (negb (has_op k3 OpStart)); [by apply fail_vif_ok|].
  pose proof (booting_power true _ (booting_emit EvStart k3 B3)) as B4. destruct (negb (start_ret E (trace k3) =? 0)); [by apply fail_vif_ok, booting_emit|].
  assert (has_hw (emit EvStart k3 <| _powered := true |>) = true) as Hh4 by exact Hh3. assert (has_vif (emit EvStart k3 <| _powered := true |>) = true) as Hv4 by exact Hv3.
  set (k4 := emit EvStart k3 <| _powered := true |>) in *. clearbody k4.
  destruct (negb (add_interface_ret E (trace k4) =? 0)); [by apply fail_vif_ok, booting_emit|]. cbn [snd].
  apply booting_inv; [by apply booting_idle, booting_emit, booting_emit| |intros _; exact Hh4]. change (has_vif k4 = has_hw k4). congruence.
Qed.

Lemma booting_trace tr k : booting k -> booting (k <| trace := tr |>).
Proof. intros [W S R N]. split; try done. by solve_wf W. Qed.

(** Only the interface and the trace have moved. *)
Definition stop_stage (v : option ieee80211_vif) (k k' : kext) : Prop := exists tr, k' = k <| _vif := v |> <| trace := tr |>.
Lemma stage_refl k : stop_stage (_vif k) k k.
Proof. exists (trace k). by destruct k. Qed.
Lemma stage_emit v e k k' : stop_stage v k k' -> stop_stage v k (emit e k').
Proof. intros (tr & ->). by exists (e :: tr). Qed.

(** [stop] always completes, without driver, interface, keys or link. *)
Lemma stop_rest_ok k : obj_inv k -> exists k', stop_rest E k = Some k' /\ obj_inv k' /\ has_hw k' = false /\ _state k' = RTW88_STATE_IDLE /\
  _connectCancelled k' = _connectCancelled k /\ connectEntered k' = connectEntered k.
Proof.
  intros I0. unfold stop_rest. set (k0 := emit EvTimerCancel (emit EvReorderOff k)). assert (obj_inv k0) as I by apply inv_emit, inv_emit, I0.
  assert (_connectCancelled k0 = _connectCancelled k /\ connectEntered k0 = connectEntered k) as [<- <-] by done. clearbody k0. clear k I0. rename k0 into k.
  assert (exists k1, (if (state_is k RTW88_STATE_CONNECTED || (state_is k RTW88_STATE_SCANNING && is_state (_scanReturnState k) RTW88_STATE_CONNECTED)) && _powered k
       then doDisconnect E k else releaseSta (clearKeys k)) = Some k1 /\ booting (to_idle k1) /\
       _connectCancelled k1 = _connectCancelled k /\ connectEntered k1 = connectEntered k) as (k1 & -> & B1 & C1 & E1).
  { destruct (_ && _powered k).
    - destruct (doDisconnect_ok k I) as (k1 & -> & I1 & (_ & C1 & E1 & _ & _) & S1). exists k1. split; [done|]. split; [|by split]. apply booting_idle. split; [apply I1|done|apply I1|apply I1].
    - destruct (forget_ok k (oi_wf k I)) as (k1 & -> & [W1 G1] & _). exists k1. split; [done|].
      injection G1 as _ _ _ Gx _ Gl _ _ Gc Ge _ _ _ _ _ _ _ _ _. split; [|by split]. pose proof (oi_rsn k I) as Hr.
      split; [unfold to_idle; by solve_wf W1|done|done|]. by apply (rsn_ok_same k). }
  cbn [mbind option_bind]. set (k2 := if state_is k1 _ && _ then _ else k1).
  assert (stop_stage (_vif k1) k1 k2) as Q2 by (unfold k2; destruct (_ && _); [apply stage_emit|]; apply stage_refl). clearbody k2.
  set (k3 := if has_vif k2 then _ else k2). assert (stop_stage None k1 k3) as Q3.
  { unfold k3, has_vif. destruct (_vif k2) eqn:Ev.
    - destruct Q2 as (tr & ->). destruct (_ && _); eexists; reflexivity.
    - destruct Q2 as (tr & ->). exists tr. change (_vif k1 = None) in Ev. by rewrite Ev. }
  clearbody k3. set (k4 := if _powered k3 && _ then _ else k3).
  assert (stop_stage None k1 k4) as (tr & ->) by (unfold k4; destruct (_ && _); [by apply stage_emit|done]).
  eexists. split; [reflexivity|]. split; [|done]. apply booting_inv; [|done|done].
  exact (booting_hw None _ (booting_emit EvPciRemove _ (booting_power false _ (booting_trace tr _ (booting_vif None _ B1)))) Logic.I).
Qed.
End mlme_proofs.
End invariant.
