(* ===== verification/Sweep.v ===== *)
(** * The manual scan from [cmdScan] to [scanDone]

    [src/src/kext/RTW88IEEE80211.cpp]: the two halves of a passive scan put
    together.  [cmdScan] collects the enabled channels of every band and hands
    them to the thread call; [runManualScan] tunes to each of them in turn,
    reports the end and leaves the object idle. *)

From S2P Require Import Prelude Rsn Bss Kdf Reorder Kext Tx Eapol Mgmt Mlme.

(** ** What a sweep should do *)

(** The retunings of a scan, the last one first. *)
Definition switch_of (e : event) : option cfg80211_chan_def := match e with EvSwScanSwitch c => Some c | _ => None end.
Definition switches (tr : list event) : list cfg80211_chan_def := omap switch_of tr.
Definition tuned_to (c : ieee80211_channel) : cfg80211_chan_def := mk_chandef (Some c) NL80211_CHAN_WIDTH_20_NOHT (center_freq c).

(** The channels of a scan: the enabled ones, band by band, 256 at most. *)
Definition band_channels (b : option ieee80211_supported_band) : list ieee80211_channel :=
  match b with Some b => map (fun c => c <| ch_band := band_id b |>) (filter (fun c => chan_enabled c = true) (channels b)) | None => [] end.
Definition scan_channels (k : kext) : list ieee80211_channel :=
  match h ← _hw k; hw_bands h with Some bs => take 256 (concat (map band_channels bs)) | None => [] end.

(** ** [cmdScan] collects them *)

Lemma collect_chans_eq bid cs : forall n, 0 <= n <= 256 ->
  fst (collect_chans n bid cs) = take (Z.to_nat (256 - n)) (map (fun c => c <| ch_band := bid |>) (filter (fun c => chan_enabled c = true) cs)).
Proof.
  induction cs as [|c cs IH]; intros n Hn; cbn [collect_chans]; [rewrite filter_nil; cbn [map]; by rewrite take_nil|]. rewrite filter_cons.
  destruct (chan_enabled c) eqn:Ec; [rewrite decide_True by done|rewrite decide_False by done]; cbn [andb].
  - rewrite andb_true_r. destruct (Z.ltb_spec n 256).
    + specialize (IH (n + 1) ltac:(lia)). destruct (collect_chans (n + 1) bid cs) as [o cs']. cbn [fst map] in *.
      replace (Z.to_nat (256 - n)) with (S (Z.to_nat (256 - (n + 1)))) by lia. cbn [take]. by rewrite <- IH.
    + specialize (IH n Hn). destruct (collect_chans n bid cs) as [o cs']. cbn [fst] in *. rewrite IH.
      by replace (Z.to_nat (256 - n)) with 0%nat by lia.
  - rewrite andb_false_r. specialize (IH n Hn). by destruct (collect_chans n bid cs) as [o cs'].
Qed.

Lemma collect_bands_eq bs : forall n, 0 <= n <= 256 -> fst (collect_bands n bs) = take (Z.to_nat (256 - n)) (concat (map band_channels bs)).
Proof.
  induction bs as [|[b|] bs IH]; intros n Hn; cbn [collect_bands]; [by destruct (Z.to_nat _)| |].
  - pose proof (collect_chans_eq (band_id b) (channels b) n Hn) as E1. destruct (collect_chans n (band_id b) (channels b)) as [o1 cs]. cbn [fst] in E1.
    assert (0 <= zlen o1 <= 256 - n) as Hz by (rewrite E1; unfold zlen; rewrite length_take; lia).
    specialize (IH (n + zlen o1) ltac:(lia)). destruct (collect_bands (n + zlen o1) bs) as [o2 bs']. cbn [fst map concat] in *.
    rewrite take_app, IH. unfold band_channels at 2. rewrite <- E1. f_equal.
    assert (length o1 = Nat.min (Z.to_nat (256 - n)) (length (band_channels (Some b)))) as Hl by (rewrite E1, length_take; done). unfold zlen in *.
    f_equal. unfold band_channels in *. lia.
  - specialize (IH n Hn). by destruct (collect_bands n bs) as [o2 bs'].
Qed.

(** ** [runManualScan] tunes to each *)

Section sweep.
Context {who : callers} (E : env).

(** The scan's own state stands; only retunings to [cs] are reported. *)
Definition swept (cs : list cfg80211_chan_def) (k k' : kext) : Prop :=
  obj_inv k' /\ has_hw k' = has_hw k /\ _state k' = _state k /\ _manualScanAbort k' = _manualScanAbort k /\
  _manualScanChannels k' = _manualScanChannels k /\ switches (trace k') = cs ++ switches (trace k).

Lemma swept_trans c1 c2 k1 k2 k3 : swept c1 k1 k2 -> swept c2 k2 k3 -> swept (c2 ++ c1) k1 k3.
Proof.
  intros (I1 & H1 & S1 & A1 & C1 & T1) (I2 & H2 & S2 & A2 & C2 & T2). split; [done|]. do 4 (split; [congruence|]). by rewrite T2, T1, app_assoc.
Qed.

Lemma probe_swept k : obj_inv k -> swept [] k (snd (txProbeRequest E k)).
Proof.
  intros I. destruct (txProbeRequest_ok E k I) as [I1 C1]. pose proof (txProbeRequest_keeps E k (oi_wf k I)) as [_ T].
  split; [done|]. split; [apply C1|]. assert (switches (trace (snd (txProbeRequest E k))) = switches (trace k)) as Ht.
  { unfold txProbeRequest, txMgmtFrame. destruct (negb _); [done|]. cbn [next_txSeq]. destruct (negb (has_op _ _)); [done|]. by destruct (negb (alloc_ok _ _)). }
  revert Ht. destruct T as (ts&ds&aw&pn&d&es&_&->). intros Ht. do 3 (split; [done|]). exact Ht.
Qed.

(** One channel: tuned to, probed when allowed, left. *)
Lemma sweep_one n i c k : obj_inv k -> has_hw k = true -> _manualScanAbort k = false -> i < n -> ld (_manualScanChannels k) i = Some c ->
  exists k', swept [tuned_to c] k k' /\ forall m, scan_run E (S (S (S m))) (ScanLoop false n i) k = scan_run E m (ScanLoop false n (i + 1)) k'.
Proof.
  intros I Hh Ha Hi Hc. cbn [scan_run scan_step]. destruct (Z.ltb_spec i n); [|lia]. rewrite Ha, Hc. cbn [negb andb mbind option_bind].
  destruct (set_home_ok false k I) as [I1 _]. set (k1 := k <| _manualScanOnHomeChannel := false |>) in *.
  assert (_hw k1 = _hw k) as Eh by done. assert (swept [] k k1) as S1 by done. clearbody k1.
  destruct (set_chandef_ok c NL80211_CHAN_WIDTH_20_NOHT (center_freq c) k1 I1) as (k2 & E2 & I2 & R2); [by rewrite (proj1 (proj2 S1))|]. cbn [scan_step]. rewrite E2. cbn [mbind option_bind].
  assert (swept [] k1 k2 /\ exists h, _hw k2 = Some h /\ hw_chandef h = tuned_to c) as [S2 (h & Eh2 & Ec)].
  { unfold set_chandef in E2. destruct (_hw k1) as [h|] eqn:Eh1; [|done]. cbn [mbind option_bind] in E2. injection E2 as <-. split; [|by eexists].
    split; [done|]. by split_and!; [rewrite (radio_has_hw _ _ R2)|..]. }
  clear E2. rewrite Eh2. cbn [mbind option_bind scan_step]. rewrite Ec. set (k3 := emit (EvSwScanSwitch (tuned_to c)) k2).
  assert (swept [tuned_to c] k2 k3) as S3 by (split; [by apply inv_emit|done]). clearbody k3.
  set (k4 := if negb (passive c) then _ else k3).
  assert (swept [] k3 k4) as S4 by (unfold k4; destruct (negb _); [apply probe_swept, S3|split; [apply S3|done]]). clearbody k4.
  exists (emit (EvSleep (if passive c then 140 else 70)) k4). split; [|by rewrite andb_false_l].
  pose proof (swept_trans _ _ _ _ _ S1 (swept_trans _ _ _ _ _ S2 (swept_trans _ _ _ _ _ S3 S4))) as S.
  destruct S as (I4 & S). split; [by apply inv_emit|exact S].
Qed.

(** The loop, from channel [i] on. *)
Lemma sweep_loop n cs : forall i k, obj_inv k -> has_hw k = true -> _manualScanAbort k = false -> 0 <= i -> i + zlen cs = n ->
  zdrop i (_manualScanChannels k) = cs ->
  exists k', swept (rev (map tuned_to cs)) k k' /\ forall m, scan_run E (3 * length cs + m) (ScanLoop false n i) k = scan_run E m (ScanLoop false n n) k'.
Proof.
  induction cs as [|c cs IH]; intros i k I Hh Ha Hi Hn Hd.
  - exists k. split; [by split_and!|]. intros m. cbn [length Nat.mul Nat.add]. unfold zlen in Hn. cbn [length] in Hn. by replace n with i by lia.
  - rewrite zlen_cons in Hn. pose proof (zlen_nonneg cs). assert (ld (_manualScanChannels k) i = Some c) as Hc.
    { unfold ld. rewrite (proj2 (Z.leb_le 0 i)) by done. rewrite <- (Nat.add_0_r (Z.to_nat i)), <- lookup_drop. unfold zdrop in Hd. by rewrite Hd. }
    destruct (sweep_one n i c k I Hh Ha ltac:(lia) Hc) as (k1 & S1 & R1).
    destruct (IH (i + 1) k1) as (k2 & S2 & R2); [apply S1|by rewrite (proj1 (proj2 S1))|destruct S1 as (_&_&_&->&_); done|lia|lia| |].
    { destruct S1 as (_&_&_&_&->&_). unfold zdrop in *. replace (Z.to_nat (i + 1)) with (Z.to_nat i + 1)%nat by lia. by rewrite <- drop_drop, Hd. }
    exists k2. split; [cbn [map rev]; by apply (swept_trans _ _ k k1)|]. intros m. cbn [length].
    replace (3 * S (length cs) + m)%nat with (S (S (S (3 * length cs + m)))) by lia. by rewrite R1, R2.
Qed.

(** The AWDL retuning reports no scan switch. *)
Lemma find_channel_trace p k : trace (snd (find_channel p k)) = trace k /\ _state (snd (find_channel p k)) = _state k.
Proof.
  unfold find_channel. destruct (h ← _hw k; bs ← hw_bands h; find_band p bs) as [[c bs]|] eqn:Eb; [|done]. cbn [snd]. unfold set_bands. by destruct (_hw k).
Qed.
Lemma setAWDLChannel_trace c k ret k' : setAWDLChannel c k = Some (ret, k') -> switches (trace k') = switches (trace k) /\ _state k' = _state k.
Proof.
  unfold setAWDLChannel. destruct (_ || _); [by intros [= _ <-]|]. destruct (sta_busy _); [by intros [= _ <-]|].
  match goal with |- context [find_channel ?p ?k1] => pose proof (find_channel_trace p k1) as [Ht Hs]; destruct (find_channel p k1) as [[t|] k2] end; cbn [snd] in Ht, Hs.
  - unfold set_chandef. destruct (_hw k2) as [h|]; [|done]. cbn [mbind option_bind]. intros [= _ <-]. split; [exact (f_equal switches Ht)|exact Hs].
  - intros [= _ <-]. by rewrite Ht.
Qed.

Lemma scanDone_ends aborted k : obj_inv k -> _state k = RTW88_STATE_SCANNING ->
  exists k', scanDone aborted k = Some k' /\ obj_inv k' /\ _state k' = RTW88_STATE_IDLE /\ switches (trace k') = switches (trace k) /\
    exists tr, trace k' = EvScanDone aborted :: tr.
Proof.
  intros I Hs. destruct (scanDone_ok aborted k I) as (k' & E1 & I' & _). exists k'. split; [done|]. split; [done|]. clear I'. revert E1. unfold scanDone.
  set (k1 := if negb aborted then _ else k). assert (_state k1 = _state k /\ trace k1 = trace k /\ _scanReturnState k1 = RTW88_STATE_IDLE) as (S1 & T1 & R1).
  { unfold k1. destruct (negb aborted); [|split; [done|split; [done|apply I]]]. destruct (age_list _ _ _). split; [done|]. split; [done|apply I]. }
  clearbody k1. assert (state_is k1 RTW88_STATE_SCANNING = true) as -> by (unfold state_is; by rewrite S1, Hs). rewrite R1.
  change (is_state RTW88_STATE_IDLE RTW88_STATE_CONNECTED) with false. change (is_state RTW88_STATE_IDLE RTW88_STATE_IDLE) with true. cbn [mbind option_bind andb].
  set (k2 := k1 <| _state := _ |> <| _scanReturnState := _ |> <| _manualScanOnHomeChannel := _ |>).
  assert (_state k2 = RTW88_STATE_IDLE /\ trace k2 = trace k) as [S2 T2] by done. clearbody k2. destruct (_ && _).
  - destruct (setAWDLChannel (_awdlChannel k2) k2) as [[ret k3]|] eqn:Ea; [|done]. cbn [mbind option_bind]. intros [= <-].
    destruct (setAWDLChannel_trace _ _ _ _ Ea) as [T3 S3]. split; [exact (eq_trans S3 S2)|]. split; [|by eexists].
    change (switches (trace k3) = switches (trace k)). by rewrite T3, T2.
  - intros [= <-]. split; [done|]. split; [|by eexists]. change (switches (trace k2) = switches (trace k)). by rewrite T2.
Qed.

Lemma sweep_end n k : obj_inv k -> _state k = RTW88_STATE_SCANNING -> _manualScanAbort k = false ->
  exists k', scan_run E 4 (ScanLoop false n n) k = Some k' /\ obj_inv k' /\ _state k' = RTW88_STATE_IDLE /\ _manualScanAbort k' = false /\
    _manualScanChannelCount k' = 0 /\ switches (trace k') = switches (trace k) /\ exists tr, trace k' = EvScanDone false :: tr.
Proof.
  intros I Hs Ha. cbn [scan_run scan_step]. rewrite Z.ltb_irrefl. cbn [andb mbind option_bind].
  set (k1 := emit EvSwScanComplete _). assert (obj_inv k1) as I1 by (apply inv_emit; solve_inv I).
  assert (_manualScanAbort k1 = false /\ switches (trace k1) = switches (trace k)) as [A1 T1] by done. assert (_state k1 = RTW88_STATE_SCANNING) as S1 by done.
  clearbody k1. cbn [scan_step]. rewrite A1. destruct (scanDone_ends false k1 I1 S1) as (k2 & -> & I2 & S2 & T2 & tr & E2). cbn [mbind option_bind scan_step].
  eexists. split; [reflexivity|]. split; [solve_inv I2|]. split; [done|]. split; [done|]. split; [done|]. split; [|by exists tr]. change (switches (trace k2) = switches (trace k)). congruence.
Qed.

(** [runManualScan], called as [start_manual] arranges it. *)
Lemma manual_run k : obj_inv k -> has_hw k = true -> _state k = RTW88_STATE_SCANNING -> _manualScanAbort k = false ->
  _manualScanChannelCount k = zlen (_manualScanChannels k) -> zlen (_manualScanChannels k) <= 256 ->
  exists k', runManualScan E k = Some k' /\ obj_inv k' /\ _state k' = RTW88_STATE_IDLE /\ _manualScanAbort k' = false /\ _manualScanChannelCount k' = 0 /\
    switches (trace k') = rev (map tuned_to (_manualScanChannels k)) ++ switches (trace k) /\ exists tr, trace k' = EvScanDone false :: tr.
Proof.
  intros I Hh Hs Ha Hc Hl. unfold runManualScan. set (n := zlen (_manualScanChannels k)) in *. rewrite Hc. pose proof (zlen_nonneg (_manualScanChannels k)).
  replace (5 + 3 * Z.to_nat (Z.min 256 n))%nat with (S (3 * length (_manualScanChannels k) + 4)) by (unfold n, zlen in *; lia).
  cbn [scan_run scan_step]. rewrite Hh, (oi_vif k I), Hh. cbn [negb orb mbind option_bind]. rewrite Hc, (oi_ret k I).
  change (is_state RTW88_STATE_IDLE RTW88_STATE_CONNECTED) with false. destruct (Z.ltb_spec 256 n); [unfold n in *; lia|].
  destruct (sweep_loop n (_manualScanChannels k) 0 (emit EvSwScanStart k)) as (k1 & (I1 & H1 & S1 & A1 & _ & T1) & R1); [by apply inv_emit|done..|].
  rewrite R1. destruct (sweep_end n k1 I1) as (k2 & -> & I2 & S2 & A2 & C2 & T2 & E2); [by rewrite S1|by rewrite A1|]. exists k2.
  split; [done|]. do 4 (split; [done|]). split; [|done]. rewrite T2, T1. done.
Qed.
End sweep.

Lemma next_generation_same k : exists g l, next_generation k = k <| _scanGeneration := g |> <| _bss := l |>.
Proof. unfold next_generation. cbn zeta. destruct (_ =? 0); [eexists _, _; reflexivity|]. exists (u32 (_scanGeneration k + 1)), (_bss k). by destruct k. Qed.

(** The driver is no help: it has no hw_scan, does not support it for this
    chip, or fails it. *)
Definition no_driver_scan (E : env) (k : kext) : Prop :=
  has_op k OpHwScan = false \/ hw_scan_supported E (trace k) = false \/ hw_scan_ret E (trace k) <> 0.

(** Without the driver's own scan, [cmdScan] prepares the manual one. *)
Lemma cmdScan_manual E k h bs : _state k = RTW88_STATE_IDLE -> _powered k = true -> _hw k = Some h -> hw_bands h = Some bs -> has_ops k = true ->
  no_driver_scan E k -> _scanRequest k = true \/ alloc_ok E (trace k) = true -> _manualScanTC k = true -> scan_channels k <> [] ->
  exists k', cmdScan E k = (kIOReturnSuccess, k') /\ has_hw k' = true /\ _state k' = RTW88_STATE_SCANNING /\ _manualScanAbort k' = false /\
    _manualScanChannels k' = scan_channels k /\ _manualScanChannelCount k' = zlen (scan_channels k) /\ switches (trace k') = switches (trace k).
Proof.
  intros Hs Hp Eh Eb Ho Hn Hr Ht Hc. unfold cmdScan. destruct (next_generation_same k) as (g & l & ->). unfold state_is. rewrite Hs, Hp, Ho. cbn [negb orb].
  change (is_state RTW88_STATE_IDLE RTW88_STATE_IDLE) with true. change (is_state RTW88_STATE_IDLE RTW88_STATE_CONNECTED) with false. cbn [negb].
  match goal with |- context [?x <| _scanRequest := _ |>] => set (k1 := x) end.
  assert (_scanRequest k1 || alloc_ok E (trace k1) = true) as -> by (change (_scanRequest k || alloc_ok E (trace k) = true); destruct Hr as [->| ->]; [done|apply orb_true_r]).
  set (k2 := k1 <| _scanRequest := true |>). assert (_scanRequest k2 = true /\ _hw k2 = Some h /\ _manualScanTC k2 = true /\ _state k2 = RTW88_STATE_SCANNING /\ trace k2 = trace k) as (R2 & H2 & M2 & S2 & T2) by done.
  assert (has_op k2 OpHwScan = has_op k OpHwScan) as O2 by done. clearbody k2. rewrite R2, H2. cbn [mbind option_bind negb]. rewrite Eb. pose proof (collect_bands_eq bs 0 ltac:(lia)) as Ec.
  destruct (collect_bands 0 bs) as [chans bs']. cbn [fst] in Ec. assert (chans = scan_channels k) as -> by (unfold scan_channels; rewrite Eh; cbn [mbind option_bind]; by rewrite Eb).
  set (k3 := set_bands bs' k2). assert (_manualScanTC k3 = true /\ _state k3 = RTW88_STATE_SCANNING /\ trace k3 = trace k /\ has_hw k3 = true) as (M3 & S3 & T3 & H3) by (unfold k3, set_bands; by rewrite H2).
  assert (has_op k3 OpHwScan = has_op k OpHwScan) as O3 by (rewrite <- O2; unfold k3, set_bands, has_op; by rewrite H2). clearbody k3.
  destruct (Z.eqb_spec (zlen (scan_channels k)) 0) as [E0|_].
  { destruct (scan_channels k) as [|c cs]; [done|]. rewrite zlen_cons in E0. pose proof (zlen_nonneg cs). lia. }
  unfold no_driver_scan in Hn. rewrite O3, T3. destruct (negb (has_op k OpHwScan) || negb (hw_scan_supported E (trace k))) eqn:En.
  - rewrite M3. eexists. split; [reflexivity|]. split; [exact H3|]. split; [exact S3|]. do 3 (split; [done|]). exact (f_equal switches T3).
  - apply orb_false_elim in En as [N1%negb_false_iff N2%negb_false_iff]. destruct Hn as [Hn|[Hn|Hn]]; [congruence|congruence|].
    rewrite (proj2 (Z.eqb_neq _ _)) by done. cbn [negb]. change (_manualScanTC (emit ?e ?x)) with (_manualScanTC x). rewrite M3.
    eexists. split; [reflexivity|]. split; [exact H3|]. split; [exact S3|]. do 3 (split; [done|]). exact (f_equal switches T3).
Qed.

Lemma scan_channels_length k : zlen (scan_channels k) <= 256.
Proof. unfold scan_channels, zlen. destruct (_ ≫= _); [rewrite length_take|cbn [length]]; lia. Qed.

(** C12: A scan without the driver's help sweeps.  cmdScan, on an idle and
    powered object with an enabled channel, its manual-scan thread call and a
    scan request (allocated already, or now), whose driver has no hw_scan, does
    not support it or fails it, answers success; and the thread call it enters,
    when no other handler comes between its steps, comes to its end:
    runManualScan tunes the radio to every enabled channel of every band, in
    order and once each (256 at most), reports the scan done and not aborted,
    and leaves the object idle and well formed with no channel list and no
    abort pending, ready for the next command. *)
Theorem manual_scan_sweeps {who : callers} E k h bs : obj_inv k -> _state k = RTW88_STATE_IDLE -> _powered k = true -> _hw k = Some h -> hw_bands h = Some bs -> has_ops k = true ->
  no_driver_scan E k -> _scanRequest k = true \/ alloc_ok E (trace k) = true -> _manualScanTC k = true -> scan_channels k <> [] ->
  exists k1 k2, cmdScan E k = (kIOReturnSuccess, k1) /\ _state k1 = RTW88_STATE_SCANNING /\ runManualScan E k1 = Some k2 /\
    obj_inv k2 /\ _state k2 = RTW88_STATE_IDLE /\ _manualScanAbort k2 = false /\ _manualScanChannelCount k2 = 0 /\
    switches (trace k2) = rev (map tuned_to (scan_channels k)) ++ switches (trace k) /\ exists tr, trace k2 = EvScanDone false :: tr.
Proof.
  intros I Hs Hp Eh Eb Ho Hn Hr Ht Hc. destruct (cmdScan_manual E k h bs Hs Hp Eh Eb Ho Hn Hr Ht Hc) as (k1 & E1 & H1 & S1 & A1 & C1 & N1 & T1).
  destruct (cmdScan_ok E k I) as [I1 _]. rewrite E1 in I1. cbn [snd] in I1. pose proof (scan_channels_length k).
  destruct (manual_run E k1 I1 H1 S1 A1) as (k2 & R2 & I2 & S2 & A2 & C2 & T2 & E2); [congruence|by rewrite C1|].
  exists k1, k2. do 7 (split; [done|]). split; [|done]. by rewrite T2, C1, T1.
Qed.

(** ** A concrete scan *)

(** The driver has a hw_scan of its own, which fails; no request is allocated
    yet. *)
Definition demo_idle : kext :=
  demo_kext RTW88_STATE_IDLE <| _scanRequest := false |> <| _manualScanTC := true |> <| _powered := true |>.
Definition failing_env : env :=
  mk_env (fun _ => true) (fun _ => 0) (fun _ => 0) (fun _ => 0) (fun _ => -5) (fun _ => true) (fun _ => false) (fun _ => replicate 32 7) (fun _ _ => true).
Lemma demo_idle_inv {who : callers} : obj_inv demo_idle.
Proof.
  split; try done.
  - pose proof (demo_kext_wf RTW88_STATE_IDLE) as W. unfold demo_idle. by solve_wf W.
  - unfold rsn_ok. by destruct external_caller.
Qed.

Example demo_scan_channels : map center_freq (scan_channels demo_idle) = [2412; 2437; 2462; 5180; 5745].
Proof. reflexivity. Qed.

Lemma manual_scan_sweeps_witness :
  exists k1 k2, cmdScan failing_env demo_idle = (kIOReturnSuccess, k1) /\ _state k1 = RTW88_STATE_SCANNING /\ runManualScan failing_env k1 = Some k2 /\
    @obj_inv false k2 /\ _state k2 = RTW88_STATE_IDLE /\ _manualScanAbort k2 = false /\ _manualScanChannelCount k2 = 0 /\
    switches (trace k2) = rev (map tuned_to (scan_channels demo_idle)) ++ switches (trace demo_idle) /\ exists tr, trace k2 = EvScanDone false :: tr.
Proof.
  eapply manual_scan_sweeps; try reflexivity; [exact (@demo_idle_inv false)|right; right; discriminate|right; reflexivity|].
  intros H. apply (f_equal (@length _)) in H. vm_compute in H. discriminate.
Defined.

(** ** The authentication call comes to its end *)

(** Steps left, at most. *)
Definition auth_left (pc : auth_pc) : nat :=
  match pc with
  | AuthEntry => 107 | AuthPoll i => 6 + Z.to_nat (100 - i) | AuthPolled => 5 | AuthSettled => 4 | AuthTuned => 3 | AuthReady _ => 2 | AuthSent => 1
  end.

Lemma auth_progress E pc k k' pc' : auth_step E pc k = Some (k', Some pc') -> (auth_left pc' < auth_left pc)%nat.
Proof.
  destruct pc as [|i| | | |f|]; cbn [auth_step].
  - destruct (_ || _); [done|]. intros [= _ <-]. cbn. lia.
  - destruct (Z.ltb_spec i 100); [|intros [= _ <-]; cbn; lia]. destruct (authenticationCancelled k); [done|].
    destruct (negb _); intros [= _ <-]; cbn; lia.
  - destruct (_ || _); [done|]. intros [= _ <-]. cbn. lia.
  - destruct (authenticationCancelled k); [done|]. destruct (find_channel _ k) as [c k1]. destruct (match c with Some c => setConnectedChandef c k1 | None => Some k1 end) as [k2|]; [|done].
    cbn [mbind option_bind]. destruct (_hw k2) as [h|]; [|done]. cbn [mbind option_bind]. intros [= _ <-]. cbn. lia.
  - destruct (authenticationCancelled k); [done|]. destruct (_vif k) as [v|]; [|done]. cbn [mbind option_bind]. destruct (buildAuthReq _) as [f k1]. intros [= _ <-]. cbn. lia.
  - destruct (authenticationCancelled k); [done|]. intros [= _ <-]. cbn. lia.
  - by destruct (_ || _).
Qed.

Lemma auth_run_returns {who : callers} E fuel : forall pc k, (auth_left pc <= fuel)%nat -> obj_inv k -> auth_pc_ok (Some pc) k ->
  exists k', auth_run E fuel pc k = Some k' /\ obj_inv k' /\ calm k k'.
Proof.
  induction fuel as [|fuel IH]; intros pc k Hf I Hpc; [by destruct pc; cbn in Hf; lia|]. cbn [auth_run].
  destruct (auth_step_ok E pc k I Hpc) as (k1 & pc1 & E1 & I1 & C1 & P1). rewrite E1. cbn [mbind option_bind]. destruct pc1 as [pc1|]; [|by exists k1].
  pose proof (auth_progress E pc k k1 pc1 E1). destruct (IH pc1 k1) as (k2 & -> & I2 & C2); [lia|done..|].
  exists k2. split; [done|]. split; [done|by apply (calm_trans k k1)].
Qed.
Lemma doAuthenticate_returns {who : callers} E k : obj_inv k -> exists k', doAuthenticate E k = Some k' /\ obj_inv k' /\ calm k k'.
Proof. intros I. apply auth_run_returns; [|done..]. cbn. lia. Qed.

(** A driver whose scan outlasts the hundred polls: the call gives up, the
    state stays AUTHENTICATING, and no timer is armed that would leave it. *)
Definition busy_env : env :=
  mk_env (fun _ => true) (fun _ => 0) (fun _ => 0) (fun _ => 0) (fun _ => 0) (fun _ => false) (fun _ => true) (fun _ => replicate 32 7) (fun _ _ => true).
Example attempt_left_behind :
  match doAuthenticate busy_env (demo_idle <| _state := RTW88_STATE_AUTHENTICATING |>) with
  | Some k => _state k = RTW88_STATE_AUTHENTICATING /\ forallb (fun e => match e with EvSleep 50 => true | _ => false end) (trace k) = true /\ zlen (trace k) = 100
  | None => False
  end.
Proof. vm_compute. by split_and!. Qed.
