(* ===== verification/Session.v ===== *)
(** * Sessions: the threads of [src/src/kext/RTW88IEEE80211.cpp] together

    The receive path, the timers, the driver's callbacks, the two thread calls
    ([connectTCFn], [manualScanTCFn]) and one command at a time act on the
    object in any order.  A handler is one step; [doAuthenticate],
    [runManualScan] and the commands that wait are one step per stretch
    between two waits.  The code takes no lock, so this is coarser than what it
    may do; Race.v cuts the handlers that carry an attempt forward between
    their checks and their stores, and has the theorems.  Commands come one at
    a time: the code leaves that to its callers, and two clients at once are
    not modelled. *)

From S2P Require Import Prelude Rsn Bss Sha1 Kdf Reorder Kext Tx Eapol Rx Mgmt Mlme.

Inductive command :=
| CmdScan
| CmdConnect (a : connect_args)
| CmdDisconnect
| CmdPowerOn
| CmdPowerOff
| CmdStart (chip : bool) (probe_ret : Z) (hw : option ieee80211_hw) (perm_addr : list Z)
| CmdStop
| CmdSetAssocRsnIE (ie : option (list Z))
| CmdInstallExternalKey (pairwise : bool) (keyidx cipher : Z) (key : option (list Z))
| CmdReceiveMulticast (active : bool)
| CmdAWDLReceiveMode (active : bool)
| CmdAWDLChannel (channel : Z)
| CmdRawFrame (frame : list Z).

(** Where a command waits: in the poll of [abortActiveScan], or draining a
    thread call ([thread_call_cancel_wait]). *)
Inductive cmd_pc :=
| WaitAbortConnect (a : connect_args) (returnState : RTW88State) (i : Z)
| DrainDisconnect
| DrainPowerOff
| WaitAbortPowerOff (returnState : RTW88State) (i : Z)
| DrainStop
| DrainStopScan
| DrainStopAgain.

(** [cmd_ret] is what the last command to finish returned. *)
Record sys := mk_sys { obj : kext; thr_auth : option auth_pc; thr_scan : option scan_pc; thr_cmd : option cmd_pc; cmd_ret : Z }.
#[export] Instance eta_sys : Eta sys := fun s => mk_sys (obj s) (thr_auth s) (thr_scan s) (thr_cmd s) (cmd_ret s).

(** A command's return, with the object it leaves. *)
Definition returns (ret : Z) (k : kext) (s : sys) : sys := s <| obj := k |> <| cmd_ret := ret |>.
Definition returned (r : Z * kext) (s : sys) : sys := let '(ret, k) := r in returns ret k s.

Inductive action :=
| ActRx (f : list Z) (signal rxfreq rx_band : Z)
| ActReorderTimer
| ActTimer
| ActScanDone (aborted : bool)
| ActOutput (m : list Z)
| ActAWDLOutput (m : list Z)
| ActAuth
| ActManualScan
| ActCommand (c : command)
| ActCommandStep.

Definition on_obj (s : sys) (r : option kext) : option sys := k ← r; Some (s <| obj := k |>).

(** [thread_call_cancel_wait]: nothing pending, nothing running. *)
Definition auth_drained (s : sys) : option sys :=
  match thr_auth s with None => Some (s <| obj := obj s <| connectEntered := false |> |>) | Some _ => None end.

Section session.
Context (E : env) (ctx : KERN_SHA1_CTX).

(** A command up to its first wait. *)
Definition begin_command (c : command) (s : sys) : option sys :=
  let k := obj s in
  match c with
  | CmdScan => Some (returned (cmdScan E k) s)
  | CmdConnect a =>
      if state_is k RTW88_STATE_SCANNING then Some (s <| obj := abort_begin k |> <| thr_cmd := Some (WaitAbortConnect a (_scanReturnState k) 0) |>)
      else r ← connect_rest a k; Some (returned r s)
  | CmdDisconnect => Some (s <| obj := cancel_begin k |> <| thr_cmd := Some DrainDisconnect |>)
  | CmdPowerOn => Some (returned (cmdPowerOn E k) s)
  | CmdPowerOff => Some (s <| obj := cancel_begin k |> <| thr_cmd := Some DrainPowerOff |>)
  | CmdStart chip ret hw mac => if has_hw k then Some s else Some (s <| obj := snd (start E chip ret hw mac k) |>)
  | CmdStop => Some (s <| obj := cancel_begin k |> <| thr_cmd := Some DrainStop |>)
  | CmdSetAssocRsnIE ie => r ← cmdSetAssocRsnIE ie k; Some (returned r s)
  | CmdInstallExternalKey pairwise keyidx cipher key => Some (returned (cmdInstallExternalKey E pairwise keyidx cipher key k) s)
  | CmdReceiveMulticast b => Some (returned (setReceiveMulticast b k) s)
  | CmdAWDLReceiveMode b => Some (returned (setAWDLReceiveMode b k) s)
  | CmdAWDLChannel c => r ← setAWDLChannel c k; Some (returned r s)
  | CmdRawFrame f => Some (s <| obj := snd (txRawManagementFrame E f k) |>)
  end.

(** The rest of [cmdPowerOff]. *)
Definition poweroff_done (s : sys) : option sys := k ← poweroff_rest E (obj s); Some (returns kIOReturnSuccess k (s <| thr_cmd := None |>)).

(** One more turn of a command that waits; a drain that must wait stays. *)
Definition command_step (s : sys) : option sys :=
  let k := obj s in
  match thr_cmd s with
  | None => Some s
  | Some (WaitAbortConnect a ret i) =>
      if (i <? 40) && state_is k RTW88_STATE_SCANNING then Some (s <| thr_cmd := Some (WaitAbortConnect a ret (i + 1)) |>)
      else
        '(ok, k) ← abort_finish ret k;
        if (ok : bool) then r ← connect_rest a k; Some (returned r (s <| thr_cmd := None |>))
        else Some (returns kIOReturnBusy k (s <| thr_cmd := None |>))
  | Some DrainDisconnect =>
      match auth_drained s with
      | None => Some s
      | Some s => r ← disconnect_rest E (obj s); Some (returned r (s <| thr_cmd := None |>))
      end
  | Some DrainPowerOff =>
      match auth_drained s with
      | None => Some s
      | Some s =>
          let k := obj s in
          if state_is k RTW88_STATE_SCANNING then Some (s <| obj := abort_begin k |> <| thr_cmd := Some (WaitAbortPowerOff (_scanReturnState k) 0) |>)
          else poweroff_done s
      end
  | Some (WaitAbortPowerOff ret i) =>
      if (i <? 40) && state_is k RTW88_STATE_SCANNING then Some (s <| thr_cmd := Some (WaitAbortPowerOff ret (i + 1)) |>)
      else
        '(ok, k) ← abort_finish ret k;
        if (ok : bool) then poweroff_done (s <| obj := k |>) else Some (returns kIOReturnBusy k (s <| thr_cmd := None |>))
  | Some DrainStop =>
      match auth_drained s with
      | None => Some s
      | Some s => Some (s <| obj := obj s <| _manualScanAbort := true |> |> <| thr_cmd := Some DrainStopScan |>)
      end
  | Some DrainStopScan =>
      match thr_scan s with
      | Some _ => Some s
      | None => Some (s <| obj := k <| manualEntered := false |> |> <| thr_cmd := Some DrainStopAgain |>)
      end
  | Some DrainStopAgain =>
      match auth_drained s with
      | None => Some s
      | Some s => k ← stop_rest E (obj s); Some (s <| obj := k |> <| thr_cmd := None |>)
      end
  end.

(** The thread calls: a pending call starts when the last one is over. *)
Definition step_auth (s : sys) : option sys :=
  match thr_auth s with
  | Some pc => '(k, pc) ← auth_step E pc (obj s); Some (s <| obj := k |> <| thr_auth := pc |>)
  | None => if connectEntered (obj s) then Some (s <| obj := obj s <| connectEntered := false |> |> <| thr_auth := Some AuthEntry |>) else Some s
  end.
Definition step_scan (s : sys) : option sys :=
  match thr_scan s with
  | Some pc => '(k, pc) ← scan_step E pc (obj s); Some (s <| obj := k |> <| thr_scan := pc |>)
  | None => if manualEntered (obj s) then Some (s <| obj := obj s <| manualEntered := false |> |> <| thr_scan := Some ScanEntry |>) else Some s
  end.

Definition act (a : action) (s : sys) : option sys :=
  match a with
  | ActRx f signal rxfreq rx_band => on_obj s (rxFrame E ctx f signal rxfreq rx_band (obj s))
  | ActReorderTimer => on_obj s (reorderTimerFired E ctx (obj s))
  | ActTimer => on_obj s (onTimer E (obj s))
  | ActScanDone aborted => on_obj s (scanDone aborted (obj s))
  | ActOutput m => '(_, k) ← outputPacket E m (obj s); Some (s <| obj := k |>)
  | ActAWDLOutput m => '(_, k) ← txAWDLDataFrame E m (obj s); Some (s <| obj := k |>)
  | ActAuth => step_auth s
  | ActManualScan => step_scan s
  | ActCommand c => match thr_cmd s with None => begin_command c s | Some _ => Some s end
  | ActCommandStep => command_step s
  end.

Fixpoint run (acts : list action) (s : sys) : option sys :=
  match acts with [] => Some s | a :: acts => s ← act a s; run acts s end.
End session.

(** The object as [init] leaves it. *)
Definition fresh_kext : kext :=
  mk_kext RTW88_STATE_IDLE true 0 RTW88_STATE_IDLE false false false true false 0 (zeros 6)
    (mk_table [] 0) 0 true false true false false [] 0 false false zero_bss (zeros 64) (zeros 32) (zeros 64)
    None None (zeros 32) (zeros 32) (zeros 8) (zeros 6) false false (zeros 257) 0 0 0 0 0 false 0 20 0 64 empty_table (-100)
    None None None [].
Definition fresh : sys := mk_sys fresh_kext None None None kIOReturnSuccess.
Example fresh_defaults :
  (_state fresh_kext, _connectCancelled fresh_kext, _receiveMulticast fresh_kext, (_connChanWidth fresh_kext, _baBufSize fresh_kext, _rssi fresh_kext), (_connectTC fresh_kext, _manualScanTC fresh_kext)) =
  (RTW88_STATE_IDLE, true, true, (20, 64, -100), (true, true)) /\
  (_powered fresh_kext, _pmkProvided fresh_kext, _externalSupplicant fresh_kext, _awdlReceiveMode fresh_kext, _wpa2 fresh_kext, _txBaActive fresh_kext, connectEntered fresh_kext, manualEntered fresh_kext, _manualScanAbort fresh_kext) =
  (false, false, false, false, false, false, false, false, false) /\
  (_deauthReason fresh_kext, _scanGeneration fresh_kext, _txSeq fresh_kext, _dataSeq fresh_kext, _awdlDataSeq fresh_kext, _baTid fresh_kext, _baDialog fresh_kext, _manualScanChannelCount fresh_kext, _awdlChannel fresh_kext) =
  (0, 0, 0, 0, 0, 0, 0, 0, 0).
Proof. by split_and!. Qed.

(** ** Every handler keeps the object's invariant *)

(** A background step: nothing comes up or goes down, and once the attempt
    is cancelled nothing restarts it. *)
Definition quiet (k k' : kext) : Prop :=
  has_hw k' = has_hw k /\ _connectCancelled k' = _connectCancelled k /\ (_connectCancelled k = true -> drift k k').
Lemma drift_quiet k k' : drift k k' -> quiet k k'.
Proof. intros C. split; [apply C|]. split; [apply C|done]. Qed.

(** A step of a command: the driver does not go down, and an attempt called
    off stays so. *)
Definition still (k k' : kext) : Prop :=
  _connectCancelled k' = _connectCancelled k /\ connectEntered k' = connectEntered k /\ (down k -> down k').
Lemma calm_still k k' : calm k k' -> still k k'.
Proof. intros (_ & A & B & _ & C)%calm_drift. by split. Qed.

Section proofs.
Context {who : callers}.

Lemma answers_keeps {A} k (r : option (A * kext)) : obj_inv k -> answers (fun _ => tx_only k) r -> exists a k', r = Some (a, k') /\ obj_inv k' /\ calm k k'.
Proof. intros I (a & k' & -> & W & T). exists a, k'. split; [done|]. split; [by apply (tx_only_inv k)|by apply tx_only_calm]. Qed.

Lemma mg_keeps S fs k r : obj_inv k -> steps (mg_step S fs k) r ->
  (forall s, S s -> (s = RTW88_STATE_IDLE \/ _state k <> RTW88_STATE_IDLE) /\ s <> RTW88_STATE_DISCONNECTING /\
    (down k -> s = RTW88_STATE_IDLE \/ s = RTW88_STATE_SCANNING)) -> keeps (drift k) r.
Proof.
  intros I Hr Hs. eapply keeps_mono; [apply (steps_keeps S fs); [done..|]|].
  - intros s H. by destruct (Hs s H) as (? & ? & _).
  - intros k' _ (_ & _ & G & _ & H). apply config_drift; [done|]. by apply Hs.
Qed.

Lemma inv_assoc_ready k : obj_inv k -> assoc_ready k.
Proof.
  intros I. split; [|by apply rsn_ok_frame]. intros Hs. assert (has_hw k = true) as Hh by (apply (oi_state k I); destruct Hs; congruence).
  by rewrite (oi_vif k I).
Qed.

Lemma frame_moves_down f k s : obj_inv k -> frame_moves f k s ->
  (s = RTW88_STATE_IDLE \/ _state k <> RTW88_STATE_IDLE) /\ s <> RTW88_STATE_DISCONNECTING /\ (down k -> s = RTW88_STATE_IDLE \/ s = RTW88_STATE_SCANNING).
Proof.
  intros I M. unfold down. destruct M as [|s Hs _ _ [->| ->]| |aid Hs| | |fc Hs]; try (split; [by left|]; split; [done|by left]).
  - split; [destruct (decide (_state k = RTW88_STATE_IDLE)); [by left|by right]|]. split; [apply I|done].
  - split; [right; congruence|]. split; [done|]. rewrite Hs. by intros [|].
  - split; [right; congruence|]. split; [by destruct (_wpa2 k && _)|]. rewrite Hs. by intros [|].
  - split; [right; congruence|]. split; [done|]. rewrite Hs. by intros [|].
Qed.

Lemma assoc_ie_inv b n k : obj_inv k -> buf_ok 257 b -> 0 <= n <= 257 -> (external_caller = true -> n <= 133) ->
  obj_inv (k <| _assocRsnIE := b |> <| _assocRsnIELen := n |>).
Proof.
  intros I Hb Hn He. destruct I as [IW IL IR IV IP IS ID IN]. split; try done; [by solve_wf IW|]. unfold rsn_ok in *. destruct external_caller; [by apply He|done].
Qed.

Section handlers.
Context (E : env) (ctx : KERN_SHA1_CTX) (HE : env_ok E) (Hctx : zlen (buffer ctx) = 64).

Lemma rx_keeps f signal rxfreq rx_band k : obj_inv k -> zlen f < 2 ^ 16 -> bytes_ok f -> 0 <= rx_band -> keeps (drift k) (rxFrame E ctx f signal rxfreq rx_band k).
Proof.
  intros I Hl Hb Hband. eapply mg_keeps; [done|apply rxFrame_ok; try done; [apply I|by apply inv_assoc_ready]|].
  intros s. by apply frame_moves_down.
Qed.

Lemma flush_keeps k : obj_inv k -> keeps (drift k) (reorderTimerFired E ctx k).
Proof.
  intros I. eapply mg_keeps; [done|eapply steps_mono; [apply reorderTimerFired_ok; [done..|apply I]|apply rx_step_mg]|]. intros s Hs. unfold down.
  destruct Hs as [->|[Hs ->]].
  - split; [destruct (decide (_state k = RTW88_STATE_IDLE)); [by left|by right]|]. split; [apply I|done].
  - split; [right; congruence|]. split; [done|]. rewrite Hs. by intros [|].
Qed.

Lemma setAssocRsnIE_keeps ie k : obj_inv k -> (forall e, ie = Some e -> bytes_ok e /\ (external_caller = true -> zlen e <= 133)) ->
  exists ret k', cmdSetAssocRsnIE ie k = Some (ret, k') /\ obj_inv k' /\ calm k k'.
Proof.
  intros I H. destruct ie as [e|]; [|exists kIOReturnBadArgument, k; split; [done|]; split; [done|apply calm_refl]]. destruct (H e eq_refl) as [Hb Hl]. unfold cmdSetAssocRsnIE.
  destruct (_ || (257 <? zlen e)) eqn:El; [exists kIOReturnBadArgument, k; split; [done|]; split; [done|apply calm_refl]|]. bool_hyps.
  destruct (ld_byte e 0 Hb) as (e0 & -> & _); [lia|]. destruct (ld_byte e 1 Hb) as (e1 & -> & _); [lia|]. cbn [mbind option_bind].
  destruct (_ || _); [exists kIOReturnBadArgument, k; split; [done|]; split; [done|apply calm_refl]|].
  eexists _, _. split; [reflexivity|]. split; [|exact (calm_refl k)]. apply assoc_ie_inv; [done| |pose proof (zlen_nonneg e); lia|done].
  split; [rewrite zlen_app, zlen_zeros; lia|]. apply Forall_app. split; [done|apply bytes_zeros].
Qed.

(** A supplicant's keys: only the slots move, and its link is not the
    driver's to keep. *)
Lemma external_key_inv k k' : obj_inv k -> _externalSupplicant k = true -> kext_wf k' -> keys_only k k' -> obj_inv k' /\ calm k k'.
Proof.
  intros [IW IL IR IV IP IS ID IN] Hx W (p & g & pn & es & _ & ->). split; [|done]. split; try done.
  intros _ _ H. change (_externalSupplicant k = false) in H. congruence.
Qed.
Lemma installExternalKey_keeps pairwise keyidx cipher key k : obj_inv k ->
  obj_inv (snd (cmdInstallExternalKey E pairwise keyidx cipher key k)) /\ calm k (snd (cmdInstallExternalKey E pairwise keyidx cipher key k)).
Proof.
  intros I. pose proof (calm_refl k). unfold cmdInstallExternalKey. destruct (_ || negb (state_is k _)) eqn:Eg; [done|].
  apply orb_false_elim in Eg as [Eg _]. apply orb_false_elim in Eg as [Eg _]. apply negb_false_iff in Eg.
  destruct key as [[|b key]|]; [done| |done]. destruct (_ && _); [done|].
  pose proof (installKey_wf E pairwise keyidx cipher (b :: key) k (oi_wf k I)) as W.
  destruct (installKey_cases E pairwise keyidx cipher (b :: key) k) as (r & k' & Er & O & _). rewrite Er in *. cbn [snd] in *. by apply (external_key_inv k).
Qed.

Lemma rawFrame_keeps f k : obj_inv k -> obj_inv (snd (txRawManagementFrame E f k)) /\ calm k (snd (txRawManagementFrame E f k)).
Proof.
  intros I. pose proof (calm_refl k). unfold txRawManagementFrame. destruct (_ || _); [done|]. destruct f as [|f0 [|f1 f]]; [done..|]. destruct (negb _); [done|].
  pose proof (txMgmtFrame_only E (f0 :: f1 :: f) k). split; [apply (tx_only_inv k); [done|apply txMgmtFrame_wf, I|done]|by apply tx_only_calm].
Qed.
End handlers.

(** ** The session's invariant *)

(** What the callers hand in: frames and strings of bytes, a registered
    driver, a station address. *)
Definition command_ok (c : command) : Prop :=
  match c with
  | CmdConnect a => connect_ok a
  | CmdStart _ _ hw mac => hw_wf hw /\ buf_ok 6 mac
  | CmdSetAssocRsnIE ie => forall e, ie = Some e -> bytes_ok e /\ (external_caller = true -> zlen e <= 133)
  | _ => True
  end.
Definition action_ok (a : action) : Prop :=
  match a with
  | ActRx f _ _ rx_band => zlen f < 2 ^ 16 /\ bytes_ok f /\ 0 <= rx_band
  | ActOutput m | ActAWDLOutput m => bytes_ok m
  | ActCommand c => command_ok c
  | _ => True
  end.

(** What a waiting command relies on. *)
Definition cmd_ok (s : sys) : Prop :=
  match thr_cmd s with
  | None => True
  | Some (WaitAbortConnect a ret _) => ret = RTW88_STATE_IDLE /\ connect_ok a
  | Some (WaitAbortPowerOff ret _) => ret = RTW88_STATE_IDLE
  | Some DrainStopAgain => _connectCancelled (obj s) = true /\ thr_scan s = None /\ manualEntered (obj s) = false
  | Some _ => _connectCancelled (obj s) = true
  end.

Record sys_inv (s : sys) : Prop := {
  si_obj : obj_inv (obj s);
  si_auth : auth_pc_ok (thr_auth s) (obj s);
  si_scan : scan_pc_ok (thr_scan s) (obj s);
  si_cmd : cmd_ok s
}.

(** The attempt is called off, and nothing is left that would resume it. *)
Record settled (s : sys) : Prop := {
  st_cancelled : _connectCancelled (obj s) = true;
  st_entered : connectEntered (obj s) = false;
  st_down : down (obj s);
  st_auth : thr_auth s = None;
  st_cmd : forall a ret i, thr_cmd s <> Some (WaitAbortConnect a ret i)
}.

Definition connects (a : action) : bool := match a with ActCommand (CmdConnect _) => true | _ => false end.

(** The step answers, keeps the invariant and, unless it connects, leaves a
    called-off attempt alone. *)
Definition goes (safe : bool) (s : sys) (r : option sys) : Prop :=
  exists s', r = Some s' /\ sys_inv s' /\ (safe = true -> settled s -> settled s').

Lemma goes_stay b s : sys_inv s -> goes b s (Some s).
Proof. intros I. by exists s. Qed.

Lemma auth_pc_grows pc k k' : auth_pc_ok pc k -> (has_hw k = true -> has_hw k' = true) -> auth_pc_ok pc k'.
Proof. intros H G. destruct pc as [[]|]; cbn in *; auto. Qed.
Lemma scan_pc_grows pc k k' : scan_pc_ok pc k -> (has_hw k = true -> has_hw k' = true) -> scan_pc_ok pc k'.
Proof. intros H G. destruct pc as [pc|]; [|done]. destruct H as [H R]. split; auto. Qed.

Lemma settled_drift s s' : settled s -> drift (obj s) (obj s') -> thr_auth s' = None ->
  (forall a ret i, thr_cmd s' <> Some (WaitAbortConnect a ret i)) -> settled s'.
Proof. intros [A B C D F] (_ & G & H & _ & J) K L. split; [congruence|congruence|auto|done|done]. Qed.

(** A background step of the object. *)
Lemma goes_quiet b s r : sys_inv s -> (exists k', r = Some k' /\ obj_inv k' /\ quiet (obj s) k') -> goes b s (on_obj s r).
Proof.
  intros [I A S C] (k' & -> & I' & Hh & Hc & Hq). exists (s <| obj := k' |>). split; [done|]. split.
  - split; [done|apply (auth_pc_grows _ (obj s)); [done|cbn; congruence]|apply (scan_pc_grows _ (obj s)); [done|cbn; congruence]|].
    unfold cmd_ok in *. cbn. destruct (thr_cmd s) as [[]|]; try done; [congruence..|]. destruct C as (C1 & C2 & C3). destruct (Hq C1) as (_ & _ & _ & Hm & _).
    split; [congruence|]. split; [done|congruence].
  - intros _ T. apply (settled_drift s); [done|apply Hq, T|apply T|apply T].
Qed.
Lemma goes_drift b s r : sys_inv s -> keeps (drift (obj s)) r -> goes b s (on_obj s r).
Proof. intros I (k' & -> & I' & C). apply goes_quiet; [done|]. exists k'. split; [done|]. split; [done|by apply drift_quiet]. Qed.
Lemma goes_calm b s r : sys_inv s -> keeps (calm (obj s)) r -> goes b s (on_obj s r).
Proof. intros I H. apply goes_drift; [done|]. eapply keeps_mono; [exact H|]. intros k _. apply calm_drift. Qed.

(** What a command returns decides nothing. *)
Lemma goes_ret b s s1 ret : goes b s (Some s1) -> goes b s (Some (s1 <| cmd_ret := ret |>)).
Proof.
  intros (s' & [= <-] & [Io A S C] & T). exists (s1 <| cmd_ret := ret |>). split; [done|]. split; [by split|].
  intros Hb Hs. destruct (T Hb Hs) as [T1 T2 T3 T4 T5]. by split.
Qed.
Lemma goes_over b s s0 ret k : goes b s (Some (s0 <| obj := k |> <| thr_cmd := None |>)) -> goes b s (Some (returns ret k (s0 <| thr_cmd := None |>))).
Proof. exact (goes_ret b s (s0 <| obj := k |> <| thr_cmd := None |>) ret). Qed.
Lemma goes_returned b s r : goes b s (Some (s <| obj := snd r |>)) -> goes b s (Some (returned r s)).
Proof. destruct r as [ret k]. apply goes_ret. Qed.

(** A step of a command, which then waits at [pc] or is over. *)
Lemma goes_command (b : bool) s k' pc : sys_inv s -> obj_inv k' -> (has_hw (obj s) = true -> has_hw k' = true) ->
  cmd_ok (s <| obj := k' |> <| thr_cmd := pc |>) -> (b = true -> still (obj s) k' \/ (_connectCancelled (obj s) = true -> connectEntered (obj s) = false -> down (obj s) ->
     _connectCancelled k' = true /\ connectEntered k' = false /\ down k')) ->
  (b = true -> forall a ret i, pc <> Some (WaitAbortConnect a ret i)) -> goes b s (Some (s <| obj := k' |> <| thr_cmd := pc |>)).
Proof.
  intros [I A S _] I' G C Q N. eexists. split; [reflexivity|]. split.
  - split; [done|by apply (auth_pc_grows _ (obj s))|by apply (scan_pc_grows _ (obj s))|done].
  - intros Hb [T1 T2 T3 T4 T5]. assert (_connectCancelled k' = true /\ connectEntered k' = false /\ down k') as (Q1 & Q2 & Q3).
    { destruct (Q Hb) as [(Q1 & Q2 & Q3)|Q']; [|by apply Q']. split; [congruence|]. split; [congruence|auto]. }
    split; [done|done|done|done|by apply N].
Qed.

Lemma start_still E chip ret hw mac k : still k (snd (start E chip ret hw mac k)).
Proof.
  assert (forall k1 k2, _state k2 = _state k1 \/ _state k2 = RTW88_STATE_IDLE -> _connectCancelled k2 = _connectCancelled k1 -> connectEntered k2 = connectEntered k1 -> still k1 k2) as Hs.
  { intros k1 k2 S A B. split; [done|]. split; [done|]. unfold down. by destruct S as [->| ->]; [|left]. }
  assert (forall k1 k2, still k k1 -> _state k2 = _state k1 \/ _state k2 = RTW88_STATE_IDLE -> _connectCancelled k2 = _connectCancelled k1 -> connectEntered k2 = connectEntered k1 -> still k k2) as Ht.
  { intros k1 k2 (A & B & C) S A' B'. destruct (Hs k1 k2 S A' B') as (_ & _ & C'). split; [congruence|]. split; [congruence|auto]. }
  assert (forall k1, still k k1 -> still k (snd (fail_probe k1))) as Hp by (intros k1 H; by apply (Ht k1); [|left| |]).
  assert (forall k1, still k k1 -> still k (snd (fail_vif k1))) as Hf.
  { intros k1 H. unfold fail_vif. apply Hp. destruct (_ && _); by apply (Ht k1); [|left| |]. }
  unfold start. destruct (negb chip); [by apply Hs; [left|..]|]. destruct (negb (ret =? 0)); [by apply Hs; [left|..]|].
  assert (still k (k <| _hw := hw |>)) as S1 by (by apply Hs; [left|..]). set (k1 := k <| _hw := hw |>) in *. clearbody k1. cbv zeta.
  destruct (_ || _); [by apply Hp|]. assert (still k (k1 <| _macAddr := mac |>)) as S2 by (by apply (Ht k1); [|left| |]). set (k2 := k1 <| _macAddr := mac |>) in *. clearbody k2.
  destruct (negb (alloc_ok E (trace k2))); [apply Hp; by apply (Ht k2); [|left| |]|].
  assert (still k (k2 <| _vif := Some zero_vif |>)) as S3 by (by apply (Ht k2); [|left| |]). set (k3 := k2 <| _vif := _ |>) in *. clearbody k3.
  destruct (negb (has_op k3 _)); [by apply Hf|]. destruct (negb (has_op k3 _)); [by apply Hf|].
  assert (still k (emit EvStart k3 <| _powered := true |>)) as S4 by (by apply (Ht k3); [|left| |]).
  destruct (negb (start_ret E _ =? 0)); [apply Hf; by apply (Ht k3); [|left| |]|]. set (k4 := emit EvStart k3 <| _powered := true |>) in *. clearbody k4.
  destruct (negb _); [apply Hf; by apply (Ht k4); [|left| |]|]. by apply (Ht k4); [|right| |].
Qed.

(** A command that does not wait. *)
Lemma goes_once b s k' : sys_inv s -> thr_cmd s = None -> obj_inv k' -> (has_hw (obj s) = true -> has_hw k' = true) ->
  (b = true -> still (obj s) k') -> goes b s (Some (s <| obj := k' |>)).
Proof.
  intros I N I' G Q. pose proof (goes_command b s k' None I I' G Logic.I (fun Hb => or_introl (Q Hb)) ltac:(done)) as H.
  destruct s as [o a c p]. cbn in N. subst p. exact H.
Qed.
Lemma goes_once_calm b s k' : sys_inv s -> thr_cmd s = None -> obj_inv k' -> calm (obj s) k' -> goes b s (Some (s <| obj := k' |>)).
Proof. intros I N I' C. apply goes_once; [done..| |intros _; by apply calm_still]. by rewrite (proj1 C). Qed.

Lemma cancel_begin_inv k : obj_inv k -> obj_inv (cancel_begin k).
Proof. intros I. apply inv_emit. solve_inv I. Qed.

Lemma auth_drained_ok s s' : sys_inv s -> auth_drained s = Some s' -> sys_inv s' /\ thr_auth s = None /\ s' = s <| obj := obj s <| connectEntered := false |> |>.
Proof.
  intros [I A S C]. unfold auth_drained. destruct (thr_auth s) eqn:Ea; [done|]. intros [= <-]. split; [|done]. split; [solve_inv I|cbn; by rewrite Ea|exact S|].
  unfold cmd_ok in *. cbn. by destruct (thr_cmd s) as [[]|].
Qed.

(** A drain: the call off the list, the rest of the command on the object. *)
Lemma drained_settled s : settled s -> settled (s <| obj := obj s <| connectEntered := false |> |>).
Proof. intros [A B C D F]. by split. Qed.

Section steps.
Context (E : env) (ctx : KERN_SHA1_CTX) (HE : env_ok E) (Hctx : zlen (buffer ctx) = 64).

Lemma begin_command_ok c s : sys_inv s -> thr_cmd s = None -> command_ok c -> goes (negb (connects (ActCommand c))) s (begin_command E c s).
Proof.
  intros I N Hc. pose proof (si_obj s I) as Io.
  assert (forall pc, cmd_ok (s <| obj := cancel_begin (obj s) |> <| thr_cmd := Some pc |>) -> (forall a ret i, pc <> WaitAbortConnect a ret i) ->
    goes true s (Some (s <| obj := cancel_begin (obj s) |> <| thr_cmd := Some pc |>))) as Hcancel.
  { intros pc Hpc Hne. apply goes_command; [done|by apply cancel_begin_inv|done|done|by right|]. intros _ a ret i [= ->]. by apply (Hne a ret i). }
  destruct c; cbn [begin_command connects negb command_ok] in *.
  - destruct (cmdScan_ok E (obj s) Io) as [I1 (C1 & C2 & C3 & _ & C5)%calm_drift]. apply goes_returned, goes_once; [done..|by rewrite <- C1|intros _; by split].
  - destruct (state_is (obj s) RTW88_STATE_SCANNING).
    + destruct (abort_begin_ok (obj s) Io) as [I1 C1]. apply goes_command; [done..|by rewrite (proj1 C1)| |done|done]. split; [apply Io|done].
    + destruct (connect_rest_ok a (obj s) Io Hc) as (ret & k1 & -> & I1 & H1). cbn [mbind option_bind]. apply goes_returned, goes_once; [done..|by cbn [snd]; rewrite H1|done].
  - by apply Hcancel.
  - destruct (cmdPowerOn_ok E (obj s) Io) as [I1 C1]. by apply goes_returned, goes_once_calm.
  - by apply Hcancel.
  - destruct (has_hw (obj s)) eqn:Eh; [by apply goes_stay|]. apply goes_once; [done..|by destruct Hc; apply start_ok|congruence|intros _; apply start_still].
  - by apply Hcancel.
  - destruct (setAssocRsnIE_keeps ie (obj s) Io Hc) as (ret & k1 & -> & I1 & C1). cbn [mbind option_bind]. by apply goes_returned, goes_once_calm.
  - destruct (installExternalKey_keeps E pairwise keyidx cipher key (obj s) Io) as [I1 C1]. by apply goes_returned, goes_once_calm.
  - destruct (setReceiveMulticast_ok active (obj s) Io) as [I1 C1]. by apply goes_returned, goes_once_calm.
  - destruct (setAWDLReceiveMode_ok active (obj s) Io) as [I1 C1]. by apply goes_returned, goes_once_calm.
  - destruct (setAWDLChannel_ok channel (obj s) Io) as (ret & k1 & -> & I1 & R1). cbn [mbind option_bind]. apply goes_returned, goes_once_calm; [done..|]. by apply radio_calm in R1.
  - destruct (rawFrame_keeps E frame (obj s) Io) as [I1 C1]. by apply goes_once_calm.
Qed.

(** The last leg of [cmdPowerOff]. *)
Lemma poweroff_done_ok b s : sys_inv s -> goes b s (poweroff_done E s).
Proof.
  intros I. unfold poweroff_done. destruct (poweroff_rest_ok E (obj s) (si_obj s I)) as (k1 & -> & I1 & C1 & _). cbn [mbind option_bind].
  apply goes_over, goes_command; [done..|by rewrite (proj1 C1)|done|intros _; left; by apply calm_still|done].
Qed.

Lemma goes_from b s s1 r : (settled s -> settled s1) -> goes b s1 r -> goes b s r.
Proof. intros H (s' & -> & I & T). exists s'. auto. Qed.
Lemma goes_unsettled s r : (settled s -> False) -> goes false s r -> goes true s r.
Proof. intros H (s' & -> & I & _). exists s'. split; [done|]. split; [done|]. intros _ T. by destruct (H T). Qed.

Lemma wait_connect_ok a ret i s : sys_inv s -> thr_cmd s = Some (WaitAbortConnect a ret i) -> goes true s (command_step E s).
Proof.
  intros I N. pose proof (si_cmd s I) as C. unfold cmd_ok in C. rewrite N in C. destruct C as [-> Ha].
  apply goes_unsettled; [intros T; by apply (st_cmd s T a RTW88_STATE_IDLE i)|]. unfold command_step. rewrite N. destruct (_ && _).
  { eexists. split; [reflexivity|]. split; [|done]. destruct I as [Io A S C]. by split. }
  destruct (abort_finish_ok (obj s) (si_obj s I)) as (ok & k1 & -> & I1 & C1 & _). cbn [mbind option_bind]. destruct ok.
  - destruct (connect_rest_ok a k1 I1 Ha) as (ret & k2 & -> & I2 & H2). cbn [mbind option_bind].
    apply goes_over, goes_command; [done..|by rewrite H2, (proj1 C1)|done|done|done].
  - apply goes_over, goes_command; [done..|by rewrite (proj1 C1)|done|done|done].
Qed.

Lemma wait_poweroff_ok ret i s : sys_inv s -> thr_cmd s = Some (WaitAbortPowerOff ret i) -> goes true s (command_step E s).
Proof.
  intros I N. pose proof (si_cmd s I) as C. unfold cmd_ok in C. rewrite N in C. subst ret. unfold command_step. rewrite N. destruct (_ && _).
  { eexists. split; [reflexivity|]. split; [destruct I as [Io A S C]; by split|]. intros _ [A B C D F]. by split. }
  destruct (abort_finish_ok (obj s) (si_obj s I)) as (ok & k1 & -> & I1 & C1 & _). cbn [mbind option_bind].
  set (s1 := s <| obj := k1 |> <| thr_cmd := None |>).
  assert (goes true s (Some s1)) as G by (apply goes_command; [done..|by rewrite (proj1 C1)|done|intros _; left; by apply calm_still|done]).
  destruct ok; [|by apply goes_over]. destruct G as (s2 & [= <-] & J & T).
  apply (goes_from _ _ s1); [by apply T|]. exact (poweroff_done_ok true _ J).
Qed.

(** Once the call is drained: the rest of [cmdDisconnect], [cmdPowerOff], [stop]. *)
Lemma drain_step_ok s : sys_inv s -> In (thr_cmd s) [Some DrainDisconnect; Some DrainPowerOff; Some DrainStop] -> goes true s (command_step E s).
Proof.
  intros I N. assert (_connectCancelled (obj s) = true) as Hc.
  { pose proof (si_cmd s I) as C. unfold cmd_ok in C. by destruct N as [N|[N|[N|[]]]]; rewrite <- N in C. }
  unfold command_step. destruct (auth_drained s) as [s1|] eqn:Ed.
  2: { destruct N as [<-|[<-|[<-|[]]]]; by apply goes_stay. }
  destruct (auth_drained_ok s s1 I Ed) as (J & _ & E1). assert (_connectCancelled (obj s1) = true) as Hc1 by (by rewrite E1).
  assert (forall r, goes true s1 r -> goes true s r) as Hlift by (intros r; apply goes_from; rewrite E1; apply drained_settled). clear E1.
  destruct N as [<-|[<-|[<-|[]]]]; apply Hlift.
  - destruct (disconnect_rest_ok E (obj s1) (si_obj s1 J)) as (ret & k1 & -> & I1 & C1 & _). cbn [mbind option_bind].
    apply goes_over, goes_command; [done..|by rewrite (proj1 C1)|done|intros _; left; by apply calm_still|done].
  - cbv zeta. destruct (state_is (obj s1) RTW88_STATE_SCANNING); [|by apply poweroff_done_ok]. destruct (abort_begin_ok (obj s1) (si_obj s1 J)) as [I1 C1].
    apply goes_command; [done..|by rewrite (proj1 C1)|apply (oi_ret _ (si_obj s1 J))|intros _; left; by apply calm_still|done].
  - apply goes_command; [done| |done..|by left|done]. destruct (si_obj s1 J) as [IW IL IR IV IP IS ID IN]. split; try done. by solve_wf IW.
Qed.

(** The last drains of [stop]. *)
Lemma stop_step_ok s : sys_inv s -> In (thr_cmd s) [Some DrainStopScan; Some DrainStopAgain] -> goes true s (command_step E s).
Proof.
  intros I N. pose proof (si_cmd s I) as C. unfold cmd_ok in C. unfold command_step. destruct N as [N|[N|[]]]; rewrite <- N in *.
  - destruct (thr_scan s) eqn:Es; [by apply goes_stay|]. apply goes_command; [done| |done| |by left|done].
    + pose proof (si_obj s I) as Io. solve_inv Io.
    + by split.
  - destruct (auth_drained s) as [s1|] eqn:Ed; [|by apply goes_stay]. destruct (auth_drained_ok s s1 I Ed) as (J & Ha & E1). destruct C as (C1 & C2 & _).
    destruct (stop_rest_ok E (obj s1) (si_obj s1 J)) as (k1 & -> & I1 & H1 & S1 & K1 & L1). cbn [mbind option_bind]. eexists. split; [reflexivity|]. split.
    + split; [done|by rewrite E1; cbn; rewrite Ha|by rewrite E1; cbn; rewrite C2|done].
    + intros _ T. split; [cbn; rewrite K1, E1; exact C1|cbn; by rewrite L1, E1|by left|by rewrite E1|done].
Qed.

Lemma command_step_ok s : sys_inv s -> goes true s (command_step E s).
Proof.
  intros I. destruct (thr_cmd s) as [[a ret i| | |ret i| | |]|] eqn:N;
    first [by eapply wait_connect_ok|by eapply wait_poweroff_ok|apply drain_step_ok; [done|rewrite N; cbn; tauto]|apply stop_step_ok; [done|rewrite N; cbn; tauto]|idtac].
  unfold command_step. rewrite N. by apply goes_stay.
Qed.

Lemma step_auth_ok s : sys_inv s -> goes true s (step_auth E s).
Proof.
  intros I. destruct I as [Io A S C] eqn:EI. clear EI. unfold step_auth. destruct (thr_auth s) as [pc|] eqn:Ea.
  - destruct (auth_step_ok E pc (obj s) Io A) as (k1 & pc1 & -> & I1 & C1 & P1). cbn [mbind option_bind]. eexists. split; [reflexivity|]. split.
    + split; [done..|apply (scan_pc_grows _ (obj s)); [done|cbn; by rewrite (proj1 C1)]|]. destruct C1 as (_ & K1 & _ & M1 & _).
      unfold cmd_ok in *. cbn. destruct (thr_cmd s) as [[]|]; try done; rewrite K1; [done..|]. by rewrite M1.
    + intros _ T. destruct T as [_ _ _ T _]. congruence.
  - destruct (connectEntered (obj s)) eqn:Ee; [|by apply goes_stay]. eexists. split; [reflexivity|]. split.
    + split; [solve_inv Io|done|exact S|]. unfold cmd_ok in *. cbn. by destruct (thr_cmd s) as [[]|].
    + intros _ T. destruct T as [_ T _ _ _]. congruence.
Qed.

Lemma step_scan_ok s : sys_inv s -> goes true s (step_scan E s).
Proof.
  intros I. destruct I as [Io A S C] eqn:EI. clear EI. unfold step_scan. destruct (thr_scan s) as [pc|] eqn:Es.
  - destruct (scan_step_ok E pc (obj s) Io S) as (k1 & pc1 & -> & I1 & C1 & P1). cbn [mbind option_bind]. eexists. split; [reflexivity|]. split.
    + split; [done|apply (auth_pc_grows _ (obj s)); [done|cbn; by rewrite (proj1 C1)]|done|]. destruct C1 as (_ & K1 & _ & M1 & _).
      unfold cmd_ok in *. cbn. destruct (thr_cmd s) as [[]|]; try done; rewrite ?K1; [done..|]. destruct C as (_ & C & _). congruence.
    + intros _ T. apply (settled_drift s); [done|by apply calm_drift|apply T|apply T].
  - destruct (manualEntered (obj s)) eqn:Em; [|by apply goes_stay]. eexists. split; [reflexivity|]. split.
    + split; [solve_inv Io|exact A|done|]. unfold cmd_ok in *. cbn. destruct (thr_cmd s) as [[]|]; try done. destruct C as (_ & _ & C). congruence.
    + intros _ [T1 T2 T3 T4 T5]. by split.
Qed.

Lemma act_ok a s : sys_inv s -> action_ok a -> goes (negb (connects a)) s (act E ctx a s).
Proof.
  intros I Ha. pose proof (si_obj s I) as Io. destruct a; cbn [act connects negb action_ok] in *.
  - destruct Ha as (Hl & Hb & Hr). apply goes_drift; [done|by apply rx_keeps].
  - apply goes_drift; [done|by apply flush_keeps].
  - apply goes_quiet; [done|]. destruct (onTimer_ok E (obj s) Io) as (k1 & Ek & I1 & H1 & C1 & Q1 & _). exists k1. do 4 (split; [done|]). intros Hc. by apply calm_drift, Q1.
  - apply goes_calm; [done|by apply scanDone_ok].
  - destruct (answers_keeps (obj s) _ Io (outputPacket_total E m (obj s) (si_obj s I).(oi_wf _) Ha)) as (ok & k1 & -> & I1 & C1). cbn [mbind option_bind].
    apply (goes_calm true s (Some k1)); [done|]. by apply keeps_ret.
  - destruct (answers_keeps (obj s) _ Io (txAWDLDataFrame_total E m (obj s) (si_obj s I).(oi_wf _) Ha)) as (ok & k1 & -> & I1 & C1). cbn [mbind option_bind].
    apply (goes_calm true s (Some k1)); [done|]. by apply keeps_ret.
  - by apply step_auth_ok.
  - by apply step_scan_ok.
  - destruct (thr_cmd s) eqn:N; [by apply goes_stay|]. by apply begin_command_ok.
  - by apply command_step_ok.
Qed.

Lemma run_ok acts : forall s, sys_inv s -> Forall action_ok acts -> goes (forallb (fun a => negb (connects a)) acts) s (run E ctx acts s).
Proof.
  induction acts as [|a acts IH]; intros s I Ha; cbn [run forallb]; [by apply goes_stay|]. apply Forall_cons in Ha as [H1 H2].
  destruct (act_ok a s I H1) as (s1 & -> & I1 & T1). cbn [mbind option_bind]. destruct (IH s1 I1 H2) as (s2 & -> & I2 & T2).
  exists s2. split; [done|]. split; [done|]. intros [B1 B2]%andb_prop T. auto.
Qed.
End steps.

(** The step that ends [cmdDisconnect]. *)
Lemma disconnect_step E s : sys_inv s -> thr_cmd s = Some DrainDisconnect -> thr_auth s = None ->
  exists s', command_step E s = Some s' /\ sys_inv s' /\ settled s'.
Proof.
  intros I Hd Hn. destruct (drain_step_ok E s I ltac:(rewrite Hd; by left)) as (s' & E1 & I' & _). exists s'. split; [done|]. split; [done|].
  pose proof (si_cmd s I) as C. unfold cmd_ok in C. rewrite Hd in C. revert E1. unfold command_step. rewrite Hd.
  destruct (auth_drained s) as [s1|] eqn:Ed; [|unfold auth_drained in Ed; by rewrite Hn in Ed]. destruct (auth_drained_ok s s1 I Ed) as (J & _ & E1).
  destruct (disconnect_rest_ok E (obj s1) (si_obj s1 J)) as (ret & k1 & -> & I1 & (_ & C1 & B1 & _) & S1). cbn [mbind option_bind]. intros [= <-].
  split; [cbn; by rewrite C1, E1|cbn; by rewrite B1, E1|by left|cbn; by rewrite E1|done].
Qed.

Lemma fresh_wf : kext_wf fresh_kext.
Proof.
  split; try (split; [done|by apply bytes_okb_ok]); try (by split_and!).
  - split; constructor.
  - split_and!; try done; by apply bytes_okb_ok.
  - split; [split; [done|by apply bytes_okb_ok]|]. by left.
  - split; [split; [done|by apply bytes_okb_ok]|]. done.
  - split; [done|]. by apply Forall_replicate.
  - by apply Forall_nil_2.
  - done.
Qed.
Lemma fresh_inv : sys_inv fresh.
Proof. split; try done. split; try done; [exact fresh_wf|]. unfold rsn_ok. by destruct external_caller. Qed.
End proofs.

(** The steps of the object's own threads leave the command alone. *)
Definition background (x : action) : bool := match x with ActCommand _ | ActCommandStep => false | _ => true end.
Lemma background_cmd E ctx x s s' : background x = true -> act E ctx x s = Some s' -> thr_cmd s' = thr_cmd s.
Proof.
  destruct x; try done; intros _; cbn [act]; unfold on_obj, step_auth, step_scan.
  - destruct (rxFrame _ _ _ _ _ _ _); [|done]. by intros [= <-].
  - destruct (reorderTimerFired _ _ _); [|done]. by intros [= <-].
  - destruct (onTimer _ _); [|done]. by intros [= <-].
  - destruct (scanDone _ _); [|done]. by intros [= <-].
  - destruct (outputPacket _ _ _) as [[]|]; [|done]. by intros [= <-].
  - destruct (txAWDLDataFrame _ _ _) as [[]|]; [|done]. by intros [= <-].
  - destruct (thr_auth s); [destruct (auth_step _ _ _) as [[]|]; [|done]; by intros [= <-]|]. destruct (connectEntered _); by intros [= <-].
  - destruct (thr_scan s); [destruct (scan_step _ _ _) as [[]|]; [|done]; by intros [= <-]|]. destruct (manualEntered _); by intros [= <-].
Qed.

(** ** A concrete session *)

(** A caller with its own supplicant. *)
Definition callers_any : callers := true.

(** Up, a scan that hears the network, and a supplicant's connection. *)
Definition demo_session : list action :=
  [ActCommand (CmdStart true 0 (Some demo_hw) [2; 0; 0; 0; 0; 1]); ActCommand CmdScan; ActRx test_beacon (-47) 2462 0; ActScanDone false;
   ActCommand (CmdConnect (mk_connect (Some [72; 111; 109; 101; 0]) None None None true))].
Definition demo_join : list action :=
  [ActAuth; ActAuth; ActAuth; ActAuth; ActAuth; ActAuth; ActAuth; ActAuth; ActRx demo_auth_ok (-40) 2462 0; ActRx demo_assoc_ok (-40) 2462 0].

Definition state_after (acts : list action) : option RTW88State := s ← run demo_env stack_ctx acts fresh; Some (_state (obj s)).
Example demo_connects : state_after (demo_session ++ demo_join) = Some RTW88_STATE_CONNECTED.
Proof. vm_compute. reflexivity. Qed.

#[local] Existing Instance callers_any.
Lemma demo_answer_ok f : bytes_okb f = true -> zlen f < 2 ^ 16 -> action_ok (ActRx f (-40) 2462 0).
Proof. intros H Hl. split; [done|]. split; [by apply bytes_okb_ok|done]. Qed.
Lemma demo_hw_wf : hw_wf (Some demo_hw).
Proof. exact (wf_hw _ (demo_kext_wf RTW88_STATE_IDLE)). Qed.
Lemma demo_session_ok : Forall action_ok demo_session.
Proof.
  unfold demo_session. constructor; [split; [apply demo_hw_wf|split; [done|by apply bytes_okb_ok]]|]. constructor; [done|].
  constructor; [split; [done|split; [apply test_beacon_ok|done]]|]. constructor; [done|]. constructor; [|constructor].
  split; try done. intros s [= <-]. split; [by apply bytes_okb_ok|]. by do 4 right; left.
Qed.
Lemma demo_join_ok : Forall action_ok demo_join.
Proof. unfold demo_join. repeat (constructor; [first [exact Logic.I|by apply demo_answer_ok]|]). constructor. Qed.
