(* ===== verification/ScanFlow.v ===== *)
(** * Passive scans in a session: entered, run, reported

    Between [cmdScan] and its report stand the pending entry of the scan call
    ([manualEntered]) and the call's own steps ([thr_scan]).  This file shows
    that no other step of a session loses either, and that the call comes to
    its report in a bounded number of steps. *)

From S2P Require Import Prelude Rsn Bss Sha1 Kdf Reorder Kext Tx Eapol Rx Mgmt Mlme Sweep Session.

(** The driver never carries a scan itself: hw_scan is not supported on the
    chip, or fails. *)
Definition passive_driver (E : env) : Prop := forall tr, hw_scan_supported E tr = false \/ hw_scan_ret E tr <> 0.

(** The call has not reported yet. *)
Definition to_report (pc : scan_pc) : bool := match pc with ScanResetAbort | ScanResetCount => false | _ => true end.
Definition scan_coming (s : sys) : Prop := manualEntered (obj s) = true \/ exists pc, thr_scan s = Some pc /\ to_report pc = true.

(** The controller never stops the object while it serves requests. *)
Definition stops (c : command) : bool := match c with CmdStop | CmdStart _ _ _ _ => true | _ => false end.
Definition stopping (pc : option cmd_pc) : bool := match pc with Some (DrainStop | DrainStopScan | DrainStopAgain) => true | _ => false end.

Definition scan_kept (s s' : sys) : Prop := thr_scan s' = thr_scan s /\ (manualEntered (obj s) = true -> manualEntered (obj s') = true).
Lemma scan_kept_coming s s' : scan_kept s s' -> scan_coming s -> scan_coming s'.
Proof. intros [T M] [H|(pc & H & R)]; [left; auto|right; exists pc; split; [congruence|done]]. Qed.

Section flow.
Context {who : callers} (E : env) (ctx : KERN_SHA1_CTX) (HE : env_ok E) (Hctx : zlen (buffer ctx) = 64).

Lemma connect_rest_manual a k r k' : obj_inv k -> connect_rest a k = Some (r, k') -> manualEntered k' = manualEntered k.
Proof.
  intros I. unfold connect_rest. destruct (negb _); [by intros [= _ <-]|]. destruct (ca_ssid a) as [s|]; [|by intros [= _ <-]]. destruct (ld s 0) as [s0|]; [|done]. cbn [mbind option_bind].
  destruct (if s0 =? 0 then _ else _) as [n|]; [|done]. cbn [mbind option_bind]. destruct (32 <? n); [by intros [= _ <-]|]. destruct (_ || _); [by intros [= _ <-]|].
  destruct (forget_ok k (oi_wf k I)) as (k1 & -> & [_ G1] & _). assert (manualEntered k1 = manualEntered k) as <- by (by injection G1). cbn [mbind option_bind].
  destruct (find_target _ _ _) as [[t|]|]; cbn [mbind option_bind]; [|by intros [= _ <-]|done]. destruct (negb _); [by intros [= _ <-]|].
  match goal with |- context [mbind _ ?r] => destruct r as [k2|] eqn:E2; [|done] end. assert (manualEntered k2 = manualEntered k1) as <-.
  { revert E2. destruct (ca_pmk a); [|by intros [= <-]]. destruct (ldn _ _ _); [|done]. cbn [mbind option_bind]. destruct (stn _ _ _); [|done]. by intros [= <-]. }
  cbn [mbind option_bind]. destruct (strlcpy _ _ _); [|done]. by intros [= _ <-].
Qed.
Lemma onTimer_manual k k' : obj_inv k -> onTimer E k = Some k' -> manualEntered k' = manualEntered k.
Proof.
  intros I. unfold onTimer. destruct (_state k); try (by intros [= <-]).
  - destruct (negb _); [by intros [= <-]|]. set (k1 := if has_op k OpCancelHwScan then _ else _). assert (manualEntered k1 = manualEntered k /\ _scanReturnState k1 = _scanReturnState k) as [<- Er] by (unfold k1; by destruct (has_op _ _)).
    rewrite Er, (oi_ret k I). by intros [= <-].
  - destruct (_ && _); by intros [= <-].
  - destruct (doDisconnect_ok E k I) as (k1 & -> & _ & (_ & _ & _ & H & _) & _). by intros [= <-].
Qed.

(** The steps of everything but the scan call and the commands. *)
Lemma act_scan_kept x s s' : sys_inv s -> action_ok x -> match x with ActManualScan | ActCommand _ | ActCommandStep => False | _ => True end ->
  act E ctx x s = Some s' -> scan_kept s s'.
Proof.
  intros I Hx Hn. pose proof (si_obj s I) as Io. destruct x; try done; cbn [act action_ok] in *; unfold on_obj.
  - destruct Hx as (H1 & H2 & H3). destruct (rx_keeps E ctx HE Hctx f signal rxfreq rx_band (obj s) Io H1 H2 H3) as (k & -> & _ & (_ & _ & _ & M & _)). intros [= <-]. split; [done|]. cbn. by rewrite M.
  - destruct (flush_keeps E ctx HE Hctx (obj s) Io) as (k & -> & _ & (_ & _ & _ & M & _)). intros [= <-]. split; [done|]. cbn. by rewrite M.
  - destruct (onTimer E (obj s)) as [k|] eqn:Ek; [|done]. intros [= <-]. split; [done|]. cbn. by rewrite (onTimer_manual _ _ Io Ek).
  - destruct (scanDone_ok aborted (obj s) Io) as (k & -> & _ & (_ & _ & _ & M & _)). intros [= <-]. split; [done|]. cbn. by rewrite M.
  - destruct (answers_keeps (obj s) _ Io (outputPacket_total E m (obj s) (oi_wf _ Io) Hx)) as (ok & k & -> & _ & (_ & _ & _ & M & _)). intros [= <-]. split; [done|]. cbn. by rewrite M.
  - destruct (answers_keeps (obj s) _ Io (txAWDLDataFrame_total E m (obj s) (oi_wf _ Io) Hx)) as (ok & k & -> & _ & (_ & _ & _ & M & _)). intros [= <-]. split; [done|]. cbn. by rewrite M.
  - unfold step_auth. destruct (thr_auth s) as [pc|] eqn:Ea.
    + pose proof (si_auth s I) as A. rewrite Ea in A. destruct (auth_step_ok E pc (obj s) Io A) as (k & pc1 & -> & _ & (_ & _ & _ & M & _) & _). intros [= <-]. split; [done|]. cbn. by rewrite M.
    + destruct (connectEntered _); by intros [= <-].
Qed.

(** A command keeps a scan that was entered; [cmdScan] enters one. *)
Lemma cmdScan_manual_entered k : manualEntered k = true -> manualEntered (snd (cmdScan E k)) = true.
Proof.
  intros H. unfold cmdScan. destruct (negb _); [done|]. destruct (_ || _); [done|]. cbv zeta. set (k0 := next_generation k). assert (manualEntered k0 = true) as H0 by (unfold k0, next_generation; by destruct (_ =? 0)). clearbody k0.
  set (k1 := k0 <| _scanReturnState := _ |> <| _state := _ |> <| _scanRequest := _ |>). assert (manualEntered k1 = true) as H1 by done. clearbody k1. destruct (negb _); [done|].
  destruct (h ← _hw k1; hw_bands h) as [bs|]; [destruct (collect_bands 0 bs) as [chans bs'] eqn:Ec|].
  1: assert (manualEntered (set_bands bs' k1) = true) as H2 by (unfold set_bands; by destruct (_hw k1)); set (k2 := set_bands bs' k1) in *; clearbody k2; destruct (zlen chans =? 0); [done|];
     destruct (_ || _); [by destruct (negb _)|]; destruct (negb (_ =? 0)); [|done]; by destruct (_manualScanTC _).
  done.
Qed.

(** With no scan of the driver's, a scan that starts is the call's. *)
Lemma cmdScan_passive k : passive_driver E -> fst (cmdScan E k) = kIOReturnSuccess -> manualEntered (snd (cmdScan E k)) = true.
Proof.
  intros HP. unfold cmdScan. destruct (negb _); [done|]. destruct (_ || _); [done|]. cbv zeta. set (k0 := next_generation k). clearbody k0.
  set (k1 := k0 <| _scanReturnState := _ |> <| _state := _ |> <| _scanRequest := _ |>). clearbody k1. destruct (negb _); [done|].
  destruct (match h ← _hw k1; hw_bands h with Some bs => _ | None => _ end) as [chans k2]. destruct (zlen chans =? 0); [done|].
  destruct (_ || negb (hw_scan_supported E (trace k2))) eqn:En; [clear En; by destruct (negb _)|]. apply orb_false_elim in En as [_ En%negb_false_iff].
  destruct (HP (trace k2)) as [H|H]; [congruence|]. rewrite (proj2 (Z.eqb_neq _ _)) by done. cbn [negb]. by destruct (_manualScanTC _).
Qed.

Lemma returned_kept s r : (manualEntered (obj s) = true -> manualEntered (snd r) = true) -> scan_kept s (returned r s).
Proof. by destruct r. Qed.
Lemma calm_kept s r : calm (obj s) (snd r) -> scan_kept s (returned r s).
Proof. intros (_ & _ & _ & M & _). apply returned_kept. by rewrite M. Qed.

Lemma begin_scan_kept c s s' : sys_inv s -> command_ok c -> stops c = false -> thr_cmd s = None -> begin_command E c s = Some s' ->
  scan_kept s s' /\ stopping (thr_cmd s') = false.
Proof.
  intros I Hc Hn N. pose proof (si_obj s I) as Io.
  assert (forall r, scan_kept s (returned r s) -> Some (returned r s) = Some s' -> scan_kept s s' /\ stopping (thr_cmd s') = false) as Hr.
  { intros r H [= <-]. split; [done|]. destruct r. cbn. by rewrite N. }
  destruct c; try done; cbn [begin_command command_ok] in *.
  - apply Hr, returned_kept. apply cmdScan_manual_entered.
  - destruct (state_is _ _).
    + intros [= <-]. split; [|done]. split; [done|]. cbn. unfold abort_begin. destruct (negb _); [done|]. by destruct (has_op _ _).
    + destruct (connect_rest a (obj s)) as [[r k]|] eqn:Ek; [|done]. cbn [mbind option_bind]. apply Hr, returned_kept. cbn [snd]. by rewrite (connect_rest_manual a _ _ _ Io Ek).
  - by intros [= <-].
  - apply Hr, calm_kept. by apply cmdPowerOn_ok.
  - by intros [= <-].
  - destruct (setAssocRsnIE_keeps ie (obj s) Io Hc) as (r & k & -> & _ & C). cbn [mbind option_bind]. by apply Hr, calm_kept.
  - apply Hr, calm_kept. by apply installExternalKey_keeps.
  - apply Hr, calm_kept. by apply setReceiveMulticast_ok.
  - apply Hr, calm_kept. by apply setAWDLReceiveMode_ok.
  - destruct (setAWDLChannel_ok channel (obj s) Io) as (r & k & -> & _ & R). cbn [mbind option_bind]. apply Hr, calm_kept. cbn [snd]. by apply radio_calm in R.
  - intros [= <-]. destruct (rawFrame_keeps E frame (obj s) Io) as [_ (_ & _ & _ & M & _)]. split; [|cbn; by rewrite N]. split; [done|]. cbn. by rewrite M.
Qed.

(** The rest of a command that does not stop the object. *)
Lemma over_kept s (r : Z * kext) s0 : thr_scan s0 = thr_scan s -> (manualEntered (obj s) = true -> manualEntered (snd r) = true) ->
  scan_kept s (returned r (s0 <| thr_cmd := None |>)) /\ stopping (thr_cmd (returned r (s0 <| thr_cmd := None |>))) = false.
Proof. by destruct r. Qed.
Lemma command_scan_kept s s' : sys_inv s -> stopping (thr_cmd s) = false -> command_step E s = Some s' -> scan_kept s s' /\ stopping (thr_cmd s') = false.
Proof.
  intros I Hn. pose proof (si_obj s I) as Io. assert (scan_kept s s) as R by done. pose proof (si_cmd s I) as C. unfold cmd_ok in C. unfold command_step.
  assert (forall s1, auth_drained s = Some s1 -> sys_inv s1 /\ thr_scan s1 = thr_scan s /\ manualEntered (obj s1) = manualEntered (obj s)) as Hd.
  { intros s1 Ed. destruct (auth_drained_ok s s1 I Ed) as (J & _ & ->). by split. }
  assert (forall s1, sys_inv s1 -> thr_scan s1 = thr_scan s -> (manualEntered (obj s) = true -> manualEntered (obj s1) = true) -> poweroff_done E s1 = Some s' -> scan_kept s s' /\ stopping (thr_cmd s') = false) as Hoff.
  { intros s1 J Ht Hm. unfold poweroff_done. destruct (poweroff_rest_ok E (obj s1) (si_obj s1 J)) as (k1 & -> & _ & (_ & _ & _ & M & _) & _). cbn [mbind option_bind]. intros [= <-].
    apply (over_kept s (kIOReturnSuccess, k1) s1 Ht). cbn [snd]. rewrite M. exact Hm. }
  destruct (thr_cmd s) as [[a ret i| | |ret i| | |]|] eqn:Ec; try done; [| | | |by intros [= <-]; rewrite Ec].
  - destruct (_ && _); [by intros [= <-]|]. destruct C as [-> Ha]. destruct (abort_finish_ok (obj s) Io) as (ok & k1 & -> & I1 & (_ & _ & _ & M & _) & _). cbn [mbind option_bind]. destruct ok.
    + destruct (connect_rest a k1) as [[r k2]|] eqn:Ek; [|done]. cbn [mbind option_bind]. intros [= <-]. apply (over_kept s (r, k2) s eq_refl). cbn [snd]. by rewrite (connect_rest_manual a _ _ _ I1 Ek), M.
    + intros [= <-]. apply (over_kept s (kIOReturnBusy, k1) s eq_refl). cbn [snd]. by rewrite M.
  - destruct (auth_drained s) as [s1|] eqn:Ed; [|by intros [= <-]; rewrite Ec]. destruct (Hd s1 eq_refl) as (J & Ht & Hm). destruct (disconnect_rest_ok E (obj s1) (si_obj s1 J)) as (r & k1 & -> & _ & (_ & _ & _ & M & _) & _).
    cbn [mbind option_bind]. intros [= <-]. apply (over_kept s (r, k1) s1 Ht). cbn [snd]. by rewrite M, Hm.
  - destruct (auth_drained s) as [s1|] eqn:Ed; [|by intros [= <-]; rewrite Ec]. destruct (Hd s1 eq_refl) as (J & Ht & Hm). cbv zeta. destruct (state_is _ _).
    + intros [= <-]. split; [|done]. split; [done|]. intros H. cbn. destruct (abort_begin_ok (obj s1) (si_obj s1 J)) as [_ (_ & _ & _ & M & _)]. by rewrite M, Hm.
    + apply Hoff; [done..|]. by rewrite Hm.
  - subst ret. destruct (_ && _); [by intros [= <-]|]. destruct (abort_finish_ok (obj s) Io) as (ok & k1 & -> & I1 & C1 & _). pose proof C1 as (Hh & Hcc & _ & M & _). cbn [mbind option_bind]. destruct ok.
    + intros H. destruct (Hoff (s <| obj := k1 |> <| thr_cmd := None |>)) as [H1 H2].
      * split; [done|apply (auth_pc_grows _ (obj s)); [apply I|cbn; congruence]|apply (scan_pc_grows _ (obj s)); [apply I|cbn; congruence]|done].
      * done.
      * cbn. by rewrite M.
      * exact H.
      * by split.
    + intros [= <-]. apply (over_kept s (kIOReturnBusy, k1) s eq_refl). cbn [snd]. by rewrite M.
Qed.

(** ** The call comes to its report *)

(** Steps left before the report, at most. *)
Definition scan_left (pc : scan_pc) : nat :=
  match pc with
  | ScanEntry => 3 * 256 + 2
  | ScanLoop _ n i => 3 * Z.to_nat (n - i) + 1
  | ScanTune _ n i _ => 3 * Z.to_nat (n - i - 1) + 3
  | ScanDwell _ n i => 3 * Z.to_nat (n - i - 1) + 2
  | _ => 0
  end.

Lemma scan_progress pc k k' pc' : to_report pc = true -> pc <> ScanDone -> obj_inv k -> scan_step E pc k = Some (k', pc') ->
  (exists pc1, pc' = Some pc1 /\ to_report pc1 = true /\ (scan_left pc1 < scan_left pc)%nat) \/ (pc = ScanEntry /\ scanDone true k = Some k').
Proof.
  intros Hr Hd I. destruct pc; try done; cbn [scan_step].
  - destruct (_ || _).
    + destruct (scanDone true k) as [k1|]; [|done]. intros [= <- <-]. by right.
    + intros [= _ <-]. left. eexists. split; [reflexivity|]. split; [done|]. cbn [scan_left]. destruct (Z.ltb_spec 256 (_manualScanChannelCount k)); lia.
  - destruct (Z.ltb_spec i count); cbn [andb].
    + destruct (negb _).
      * destruct (ld _ _).
        -- match goal with |- context [mbind _ ?r] => destruct r; [|done] end. intros [= _ <-]. left. eexists. split; [reflexivity|]. split; [done|]. cbn [scan_left]. lia.
        -- intros [= _ <-]. left. eexists. split; [reflexivity|]. split; [done|]. cbn [scan_left]. lia.
      * match goal with |- context [mbind _ ?r] => destruct r; [|done] end. intros [= _ <-]. left. eexists. split; [reflexivity|]. split; [done|]. cbn [scan_left]. lia.
    + match goal with |- context [mbind _ ?r] => destruct r; [|done] end. intros [= _ <-]. left. eexists. split; [reflexivity|]. split; [done|]. cbn [scan_left]. lia.
  - destruct (set_chandef _ _ _ _) as [k1|]; [|done]. cbn [mbind option_bind]. destruct (_hw k1); [|done]. intros [= _ <-]. left. eexists. split; [reflexivity|]. split; [done|]. cbn [scan_left]. lia.
  - match goal with |- context [mbind _ ?r] => destruct r; [|done] end. intros [= _ <-]. left. eexists. split; [reflexivity|]. split; [done|]. cbn [scan_left]. lia.
Qed.

(** The report is the last thing [scanDone] says, and it says it anew. *)
Definition reported (k k' : kext) : Prop := exists aborted tr, trace k' = EvScanDone aborted :: tr /\ (length (trace k) <= length tr)%nat.
Lemma setAWDLChannel_grows c k r k' : setAWDLChannel c k = Some (r, k') -> (length (trace k) <= length (trace k'))%nat.
Proof.
  unfold setAWDLChannel. destruct (_ || _); [by intros [= _ <-]|]. destruct (sta_busy _); [by intros [= _ <-]|].
  match goal with |- context [find_channel ?p ?k1] => pose proof (find_channel_trace p k1) as [Ht _]; destruct (find_channel p k1) as [[t|] k2] end; cbn [snd] in Ht.
  - unfold set_chandef. destruct (_hw k2) as [h|]; [|done]. cbn [mbind option_bind]. intros [= _ <-]. cbn. rewrite Ht. cbn. lia.
  - intros [= _ <-]. by rewrite Ht.
Qed.
Lemma scanDone_reports aborted k k' : obj_inv k -> scanDone aborted k = Some k' -> reported k k'.
Proof.
  intros I. unfold scanDone. set (k1 := if negb aborted then _ else k). assert (trace k1 = trace k /\ _scanReturnState k1 = RTW88_STATE_IDLE) as [T1 R1].
  { unfold k1. destruct (negb aborted); [|split; [done|apply I]]. destruct (age_list _ _ _). split; [done|apply I]. }
  clearbody k1. rewrite R1. change (is_state RTW88_STATE_IDLE RTW88_STATE_CONNECTED) with false. change (is_state RTW88_STATE_IDLE RTW88_STATE_IDLE) with true. cbn [mbind option_bind andb].
  destruct (state_is k1 _); [|intros [= <-]; exists aborted, (trace k1); split; [done|by rewrite T1]].
  set (k2 := k1 <| _state := _ |> <| _scanReturnState := _ |> <| _manualScanOnHomeChannel := _ |>). assert (trace k2 = trace k) as T2 by done. clearbody k2. destruct (_ && _).
  - destruct (setAWDLChannel (_awdlChannel k2) k2) as [[ret k3]|] eqn:Ea; [|done]. cbn [mbind option_bind]. intros [= <-].
    exists aborted, (trace k3). split; [done|]. rewrite <- T2. by apply (setAWDLChannel_grows _ _ _ _ Ea).
  - intros [= <-]. exists aborted, (trace k2). split; [done|]. by rewrite T2.
Qed.

(** Steps of the thread left before the report, waiting for a call that is
    over its report included. *)
Definition call_left (s : sys) : nat :=
  match thr_scan s with
  | Some ScanResetAbort => 773
  | Some ScanResetCount => 772
  | Some pc => scan_left pc
  | None => 771
  end.
Lemma step_scan_progress s : sys_inv s -> scan_coming s ->
  exists s', act E ctx ActManualScan s = Some s' /\ ((scan_coming s' /\ (call_left s' < call_left s)%nat) \/ reported (obj s) (obj s')).
Proof.
  intros I C. destruct (act_ok E ctx HE Hctx ActManualScan s I Logic.I) as (s' & Es & _). exists s'. split; [done|]. revert Es. cbn [act]. unfold step_scan. unfold call_left at 2.
  destruct (thr_scan s) as [pc|] eqn:Et.
  - destruct (scan_step E pc (obj s)) as [[k' pc']|] eqn:Ep; [|done]. cbn [mbind option_bind]. intros [= <-]. unfold call_left. cbn [thr_scan obj].
    destruct (to_report pc) eqn:Er.
    + assert (pc = ScanDone \/ pc <> ScanDone) as [->|Hd] by (destruct pc; auto).
      * right. cbn [scan_step] in Ep. destruct (scanDone _ _) as [k1|] eqn:Ek; [|done]. injection Ep as <- <-. by apply (scanDone_reports _ _ _ (si_obj s I) Ek).
      * destruct (scan_progress pc (obj s) k' pc' Er Hd (si_obj s I) Ep) as [(pc1 & -> & R1 & L)|[-> Ek]]; [|right; by apply (scanDone_reports _ _ _ (si_obj s I) Ek)].
        left. split; [right; by exists pc1|]. by destruct pc, pc1.
    + destruct C as [M|(q & Eq & R)]; [|rewrite Et in Eq; injection Eq as ->; congruence]. left. destruct pc; try done; injection Ep as <- <-; (split; [by left|]); cbn; lia.
  - destruct C as [->|(q & Eq & _)]; [|by rewrite Et in Eq]. intros [= <-]. left. split; [right; by exists ScanEntry|]. unfold call_left. cbn. lia.
Qed.
End flow.
