(* ===== verification/Race.v ===== *)
(** * Handlers cut between their checks and their stores

    [src/src/kext/RTW88IEEE80211.cpp] takes no lock: [cmdDisconnect] can run
    between the moment another thread looks at [_connectCancelled] or at
    [_state] and the moment it acts on what it saw.  Here the handlers that can
    carry an attempt forward are cut at that place: [doAssociate] (2367 and
    2369), [processAssocResponse] (2381 and 2383), [deliverDataFrame] before
    [handleEAPOL] (1568), and the retry of [onTimer] (3585).  Everything else
    another thread stores in [_state] takes an attempt down.

    Frames come one at a time: the reorder timer is put on the work loop of the
    receive path for that.  A message of the handshake that leaves a reorder
    buffer is handled in one step. *)

From S2P Require Import Prelude Rsn Bss Sha1 Kdf Reorder Kext Tx Eapol Rx Mgmt Mlme Session ScanFlow.

(** A receive handler past its last check: what it has in its hands. *)
Inductive rx_pc :=
| RxAssociate (f assoc : list Z)
| RxAssocResponse (status aid : Z)
| RxEapol (f pay : list Z).

Section race.
Context (E : env) (ctx : KERN_SHA1_CTX).

(** ** Up to the check *)

Definition associate_check (k : kext) : option (option (list Z) * kext) :=
  if negb (has_hw k) || negb (has_vif k) then Some (None, k)
  else if authenticationCancelled k then Some (None, k)
  else '(assoc, assoclen, k) ← buildAssocReq (zeros 256) k; f ← ldn assoc 0 assoclen; Some (Some f, k).

Definition auth_check (f : list Z) (k : kext) : option (option rx_pc * kext) :=
  let free r := k ← r; Some (None, emit (EvFree f) k) in
  if state_is k RTW88_STATE_AUTHENTICATING && negb (authenticationCancelled k) then
    r ← rtw88AuthResponse f (_macAddr k) (bssid (_targetBSS k));
    match r with
    | Some status =>
        if status =? 0 then
          '(a, k) ← associate_check k;
          match a with Some a => Some (Some (RxAssociate f a), k) | None => free (Some k) end
        else free (Some (emit EvTimerCancel k <| _state := RTW88_STATE_IDLE |>))
    | None => free (Some k)
    end
  else free (Some k).

Definition response_check (f : list Z) (k : kext) : option (option rx_pc * kext) :=
  if state_is k RTW88_STATE_ASSOCIATING then
    r ← rtw88AssocResponse f (_macAddr k) (bssid (_targetBSS k));
    let k := emit (EvFree f) k in
    match r with
    | None => Some (None, k)
    | Some (status, aid) => Some (if authenticationCancelled k then None else Some (RxAssocResponse status aid), k)
    end
  else Some (None, emit (EvFree f) k).

(** [deliverDataFrame], to the message of the handshake. *)
Definition deliver_check (f : list Z) (k : kext) : option (option rx_pc * kext) :=
  let whole := k ← deliverDataFrame E ctx f k; Some (None, k) in
  fc ← get_le16 f 0;
  let hdrlen := ieee80211_get_hdrlen_from_skb fc in
  if zlen f <? hdrlen then whole
  else
    amsdu ← (if ieee80211_is_data_qos fc then q ← ld f (hdrlen - 2); Some (negb (q .& 0x80 =? 0)) else Some false);
    if (amsdu : bool) then whole
    else if zlen f <? hdrlen + 8 then whole
    else
      '(off, k1) ← payload_offset f fc hdrlen k;
      l0 ← ld f off; l1 ← ld f (off + 1); l2 ← ld f (off + 2);
      let snap := (l0 =? 0xAA) && (l1 =? 0xAA) && (l2 =? 0x03) in
      ethertype ← (if snap then get_be16 f (off + 6) else Some 0);
      pay ← ldn f (off + 8) (zlen f - off - 8);
      if snap && (ethertype =? ETH_P_PAE) && state_is k1 RTW88_STATE_HANDSHAKING && negb (_externalSupplicant k1)
      then Some (Some (RxEapol f pay), k1) else whole.

(** Frames of an active agreement pass through the reorder buffer. *)
Definition data_check (f : list Z) (k : kext) : option (option rx_pc * kext) :=
  let whole := k ← processRxData E ctx f k; Some (None, k) in
  let connected := state_is k RTW88_STATE_CONNECTED || state_is k RTW88_STATE_HANDSHAKING ||
                   (state_is k RTW88_STATE_SCANNING && is_state (_scanReturnState k) RTW88_STATE_CONNECTED) in
  if negb connected then whole
  else
    fc ← get_le16 f 0; a1 ← ldn f 4 6; a2 ← ldn f 10 6;
    let toUs := bool_decide (a1 = _macAddr k) || is_broadcast_ether_addr a1 || is_multicast_ether_addr a1 in
    let fromAP := bool_decide (a2 = bssid (_targetBSS k)) in
    if negb (ieee80211_has_fromds fc) || negb toUs || negb fromAP then whole
    else if ieee80211_is_data_qos fc && (ieee80211_get_hdrlen_from_skb fc <=? zlen f) then
      q ← ld f (ieee80211_get_hdrlen_from_skb fc - 2);
      let tid := q .& 0x0f in
      active ← (if tid <? kRxBaNumTid then e ← ld (_rxBa k) tid; Some (match e with Some r => active r | None => false end) else Some false);
      if (active : bool) then whole else deliver_check f k
    else deliver_check f k.

Definition mgmt_check (f : list Z) (signal rxfreq rx_band : Z) (k : kext) : option (option rx_pc * kext) :=
  fc ← get_le16 f 0;
  let stype := fc .& 0x00f0 in
  if (stype =? 0x0080) || (stype =? 0x0050) then k ← processRxMgmt E ctx f signal rxfreq rx_band k; Some (None, k)
  else if stype =? 0x00B0 then auth_check f k
  else if (stype =? 0x0010) || (stype =? 0x0030) then response_check f k
  else k ← processRxMgmt E ctx f signal rxfreq rx_band k; Some (None, k).

(** [rxFrame] up to its store, or to its end. *)
Definition rx_check (f : list Z) (signal rxfreq rx_band : Z) (k : kext) : option (option rx_pc * kext) :=
  if zlen f <? 24 then Some (None, emit (EvFree f) k)
  else
    let k := k <| _rssi := signal |> in
    fc ← get_le16 f 0;
    if ieee80211_is_mgmt fc then mgmt_check f signal rxfreq rx_band k
    else if ieee80211_is_data fc then
      '(done, k) ← tryDeliverAWDLDataFrame E f k;
      if (done : bool) then Some (None, k) else data_check f k
    else Some (None, emit (EvFree f) k).

(** ** From the store on *)

Definition associate_store (assoc : list Z) (k : kext) : option kext :=
  let k := k <| _state := RTW88_STATE_ASSOCIATING |> in
  let '(ok, k) := txMgmtFrame E assoc k in
  if negb ok then Some (k <| _state := RTW88_STATE_IDLE |>)
  else if authenticationCancelled k || negb (state_is k RTW88_STATE_ASSOCIATING) then Some k
  else Some (wake 3000 k).

Definition response_store (status aid : Z) (k : kext) : option kext :=
  if negb (status =? 0) then Some (k <| _state := RTW88_STATE_IDLE |>)
  else
    k ← setup_peer E aid (k <| _assocAID := aid |>);
    if _wpa2 k && negb (_externalSupplicant k) then
      let k := k <| _state := RTW88_STATE_HANDSHAKING |> in
      k ← (if negb (_pmkProvided k) then
             s ← ldn (ssid (_targetBSS k)) 0 (ssid_len (_targetBSS k));
             pmk ← derivePMK ctx (_password k) s (_pmk k);
             Some (k <| _pmk := pmk |>)
           else Some k);
      Some (wake 8000 k)
    else
      let k := emit (EvLink true) (k <| _state := RTW88_STATE_CONNECTED |>) in
      let k := if negb (_wpa2 k) then startTxAggregation E k else k in
      Some (emit EvTimerCancel k).

Definition rx_store (pc : rx_pc) (k : kext) : option kext :=
  match pc with
  | RxAssociate f assoc => k ← associate_store assoc k; Some (emit (EvFree f) k)
  | RxAssocResponse status aid => response_store status aid k
  | RxEapol f pay => k ← handleEAPOL E ctx pay k; Some (emit (EvFree f) k)
  end.

(** The two halves, one after the other. *)
Definition joined (r : option (option rx_pc * kext)) : option kext :=
  '(pc, k) ← r; match pc with Some pc => rx_store pc k | None => Some k end.

(** ** The halves make up the handler *)

Lemma joined_whole r : joined (k ← r; Some (None, k)) = r.
Proof. by destruct r. Qed.

Lemma doAssociate_cut k : doAssociate E k = '(a, k) ← associate_check k; match a with Some a => associate_store a k | None => Some k end.
Proof.
  unfold doAssociate, associate_check. destruct (_ || _); [done|]. destruct (authenticationCancelled k); [done|].
  destruct (buildAssocReq _ k) as [[[assoc n] k1]|]; [|done]. cbn [mbind option_bind]. by destruct (ldn assoc 0 n).
Qed.

Lemma rx_auth_cut f k : (k ← rx_auth E f k; Some (emit (EvFree f) k)) = joined (auth_check f k).
Proof.
  unfold rx_auth, auth_check. destruct (_ && _); [|done]. destruct (rtw88AuthResponse _ _ _) as [[status|]|]; [|done..]. cbn [mbind option_bind].
  destruct (status =? 0); [|done]. rewrite doAssociate_cut. destruct (associate_check k) as [[[a|] k1]|]; [|done..]. cbn [mbind option_bind joined rx_store]. done.
Qed.

Lemma processAssocResponse_cut f k :
  (if state_is k RTW88_STATE_ASSOCIATING then processAssocResponse E ctx f k else Some (emit (EvFree f) k)) = joined (response_check f k).
Proof.
  unfold response_check. destruct (state_is k _); [|done]. unfold processAssocResponse. destruct (rtw88AssocResponse _ _ _) as [[[status aid]|]|]; [|done..]. cbn [mbind option_bind].
  by destruct (authenticationCancelled _).
Qed.

Lemma deliverDataFrame_cut f k : deliverDataFrame E ctx f k = joined (deliver_check f k).
Proof.
  unfold deliver_check. destruct (get_le16 f 0) as [fc|] eqn:Ef; cbn [mbind option_bind]; [|unfold deliverDataFrame; by rewrite Ef].
  set (h := ieee80211_get_hdrlen_from_skb fc). destruct (zlen f <? h) eqn:E1; [by rewrite joined_whole|].
  match goal with |- context [mbind _ ?a] => destruct a as [[]|] eqn:E2 end; cbn [mbind option_bind]; [by rewrite joined_whole| |].
  2: { unfold deliverDataFrame. rewrite Ef. cbn [mbind option_bind]. fold h. rewrite E1, E2. done. }
  destruct (zlen f <? h + 8) eqn:E3; [by rewrite joined_whole|].
  destruct (payload_offset f fc h k) as [[off k1]|] eqn:E4; cbn [mbind option_bind].
  2: { unfold deliverDataFrame. rewrite Ef. cbn [mbind option_bind]. fold h. rewrite E1, E2. cbn [mbind option_bind]. by rewrite E3, E4. }
  assert (deliverDataFrame E ctx f k =
    (l0 ← ld f off; l1 ← ld f (off + 1); l2 ← ld f (off + 2);
      let snap := (l0 =? 0xAA) && (l1 =? 0xAA) && (l2 =? 0x03) in
      ethertype ← (if snap then get_be16 f (off + 6) else Some 0);
      pay ← ldn f (off + 8) (zlen f - off - 8);
      if snap && (ethertype =? ETH_P_PAE) && state_is k1 RTW88_STATE_HANDSHAKING && negb (_externalSupplicant k1)
      then k ← handleEAPOL E ctx pay k1; Some (emit (EvFree f) k)
      else a1 ← ldn f 4 6; a3 ← ldn f 16 6; Some (emit (EvFree f) (deliverEthernet E a1 a3 ethertype pay k1)))) as ED.
  { unfold deliverDataFrame. rewrite Ef. cbn [mbind option_bind]. fold h. rewrite E1, E2. cbn [mbind option_bind]. by rewrite E3, E4. }
  destruct (ld f off) as [l0|]; cbn [mbind option_bind] in *; [|done]. destruct (ld f (off + 1)) as [l1|]; cbn [mbind option_bind] in *; [|done].
  destruct (ld f (off + 2)) as [l2|]; cbn [mbind option_bind] in *; [|done]. cbv zeta in *.
  match goal with |- context [mbind _ ?a] => destruct a as [et|] end; cbn [mbind option_bind] in *; [|done]. destruct (ldn f (off + 8) _) as [pay|]; cbn [mbind option_bind] in *; [|done].
  destruct (_ && _ && _ && negb _); [|by rewrite joined_whole]. rewrite ED. done.
Qed.

Lemma processRxData_cut f k : processRxData E ctx f k = joined (data_check f k).
Proof.
  unfold data_check. cbv zeta. destruct (negb (state_is k _ || _ || _)) eqn:E1; [by rewrite joined_whole|].
  assert (processRxData E ctx f k = (fc ← get_le16 f 0; a1 ← ldn f 4 6; a2 ← ldn f 10 6;
    if negb (ieee80211_has_fromds fc) || negb (bool_decide (a1 = _macAddr k) || is_broadcast_ether_addr a1 || is_multicast_ether_addr a1) || negb (bool_decide (a2 = bssid (_targetBSS k)))
    then Some (emit (EvFree f) k) else rx_dispatch E ctx f fc k)) as ED by (unfold processRxData; by rewrite E1).
  destruct (get_le16 f 0) as [fc|]; cbn [mbind option_bind] in *; [|done]. destruct (ldn f 4 6) as [a1|]; cbn [mbind option_bind] in *; [|done].
  destruct (ldn f 10 6) as [a2|]; cbn [mbind option_bind] in *; [|done]. destruct (_ || _ || negb _); [by rewrite joined_whole|].
  unfold rx_dispatch in ED. cbv zeta in ED.
  destruct (_ && (_ <=? zlen f)); [|by rewrite ED, deliverDataFrame_cut]. destruct (ld f _) as [q|]; cbn [mbind option_bind] in *; [|done].
  match goal with |- context [mbind _ ?a] => destruct a as [[]|] end; cbn [mbind option_bind] in *; [by rewrite joined_whole|by rewrite ED, deliverDataFrame_cut|done].
Qed.

Lemma processRxMgmt_cut f signal rxfreq rx_band k : processRxMgmt E ctx f signal rxfreq rx_band k = joined (mgmt_check f signal rxfreq rx_band k).
Proof.
  unfold mgmt_check. destruct (get_le16 f 0) as [fc|] eqn:Ef; cbn [mbind option_bind]; [|unfold processRxMgmt; by rewrite Ef]. cbv zeta.
  destruct (_ || (_ =? 0x0050)) eqn:E1; [by rewrite joined_whole|]. destruct (_ =? 0x00B0) eqn:E2.
  { rewrite <- rx_auth_cut. unfold processRxMgmt. rewrite Ef. cbn [mbind option_bind]. cbv zeta. by rewrite E1, E2. }
  destruct (_ || (_ =? 0x0030)) eqn:E3; [|by rewrite joined_whole].
  rewrite <- processAssocResponse_cut. unfold processRxMgmt. rewrite Ef. cbn [mbind option_bind]. cbv zeta. by rewrite E1, E2, E3.
Qed.

(** [rxFrame] is its two halves, run without a pause. *)
Lemma rxFrame_cut f signal rxfreq rx_band k : rxFrame E ctx f signal rxfreq rx_band k = joined (rx_check f signal rxfreq rx_band k).
Proof.
  unfold rxFrame, rx_check. destruct (zlen f <? 24); [done|]. destruct (get_le16 f 0) as [fc|]; cbn [mbind option_bind]; [|done].
  destruct (ieee80211_is_mgmt fc); [apply processRxMgmt_cut|]. destruct (ieee80211_is_data fc); [|done].
  destruct (tryDeliverAWDLDataFrame _ _ _) as [[[] k1]|]; cbn [mbind option_bind]; [done|apply processRxData_cut|done].
Qed.

(** ** The timer *)

(** What [onTimer] does before it enters the connect call: the retry is all
    that is left ([true]), or it is over. *)
Definition timer_check (k : kext) : option (bool * kext) :=
  match _state k with
  | RTW88_STATE_AUTHENTICATING => Some (negb (authenticationCancelled k) && _connectTC k, k)
  | _ => k ← onTimer E k; Some (false, k)
  end.
Definition timer_store (k : kext) : kext := k <| connectEntered := true |>.

Lemma onTimer_cut k : onTimer E k = '(b, k) ← timer_check k; Some (if b : bool then timer_store k else k).
Proof. unfold timer_check. destruct (_state k) eqn:Es; try (by destruct (onTimer E k)). unfold onTimer. rewrite Es. by destruct (_ && _). Qed.

(** ** The object's threads, cut *)

(** [receiving]: the frame handler between its halves; [retrying]: the timer. *)
Record fine := mk_fine { base : sys; receiving : option rx_pc; retrying : bool }.

Inductive fine_action :=
| Whole (a : action)
| RxCheck (f : list Z) (signal rxfreq rx_band : Z)
| RxStore
| TimerCheck
| TimerStore.

(** The work loops: a frame or a reorder timer waits for the frame being
    handled, a timer for the last one. *)
Definition loop_busy (r : fine) (a : action) : bool :=
  match a with ActRx _ _ _ _ | ActReorderTimer => is_some (receiving r) | ActTimer => retrying r | _ => false end.

Definition on_base (r : fine) (k : kext) : sys := base r <| obj := k |>.

Definition fine_act (a : fine_action) (r : fine) : option fine :=
  match a with
  | Whole a => if loop_busy r a then Some r else s ← act E ctx a (base r); Some (mk_fine s (receiving r) (retrying r))
  | RxCheck f signal rxfreq rx_band =>
      if is_some (receiving r) then Some r
      else '(pc, k) ← rx_check f signal rxfreq rx_band (obj (base r)); Some (mk_fine (on_base r k) pc (retrying r))
  | RxStore =>
      match receiving r with
      | None => Some r
      | Some pc => k ← rx_store pc (obj (base r)); Some (mk_fine (on_base r k) None (retrying r))
      end
  | TimerCheck =>
      if retrying r then Some r else '(b, k) ← timer_check (obj (base r)); Some (mk_fine (on_base r k) (receiving r) b)
  | TimerStore => Some (if retrying r then mk_fine (on_base r (timer_store (obj (base r)))) (receiving r) false else r)
  end.

Fixpoint fine_run (xs : list fine_action) (r : fine) : option fine :=
  match xs with [] => Some r | x :: xs => r ← fine_act x r; fine_run xs r end.
End race.

Definition quiet_start : fine := mk_fine fresh None false.

(** The attempt is resumed only by a connection. *)
Definition fine_connects (x : fine_action) : bool := match x with Whole a => connects a | _ => false end.
(** [stop] takes the interface from under a handler that is under way. *)
Definition fine_stops (x : fine_action) : bool := match x with Whole (ActCommand CmdStop) => true | _ => false end.
Definition fine_ok {who : callers} (x : fine_action) : Prop :=
  match x with
  | Whole a => action_ok a
  | RxCheck f signal rxfreq rx_band => action_ok (ActRx f signal rxfreq rx_band)
  | _ => True
  end.

Section proofs.
Context {who : callers} (E : env) (ctx : KERN_SHA1_CTX) (HE : env_ok E) (Hctx : zlen (buffer ctx) = 64).

(** ** No handler resumes what is called off *)

Lemma whole_over (r : option kext) k' pc : (k ← r; Some (@None rx_pc, k)) = Some (Some pc, k') -> False.
Proof. by destruct r. Qed.

(** What a frame handler that stops at its check leaves behind, and what it
    found: the attempt not called off, or the handshake on. *)
Definition rx_pc_ok (pc : rx_pc) : Prop := match pc with RxEapol _ pay => bytes_ok pay | _ => True end.
Definition parked (pc : rx_pc) (k k' : kext) : Prop :=
  obj_inv k' /\ calm k k' /\ has_hw k = true /\ rx_pc_ok pc /\
  match pc with RxEapol _ _ => _state k = RTW88_STATE_HANDSHAKING | _ => _connectCancelled k = false end.

Lemma up_hw k s : obj_inv k -> state_is k s = true -> s <> RTW88_STATE_IDLE -> has_hw k = true.
Proof. intros I Hs%is_state_true Hn. apply (oi_state k I). congruence. Qed.

Lemma auth_check_parked f k pc k' : obj_inv k -> auth_check f k = Some (Some pc, k') -> parked pc k k'.
Proof.
  intros I. unfold auth_check. destruct (_ && _) eqn:Ec; [|done]. apply andb_prop in Ec as [Es Ec]. apply negb_true_iff in Ec.
  destruct (rtw88AuthResponse _ _ _) as [[status|]|]; [|done..]. cbn [mbind option_bind]. destruct (status =? 0); [|done].
  unfold associate_check. destruct (_ || _); [done|]. rewrite Ec. pose proof (assoc_frame_fits k (oi_wf k I) (rsn_ok_frame k I)) as Hl.
  destruct (buildAssocReq_eq k (oi_wf k I)) as [(_ & b & -> & Hb) | [Hn _]]; [|lia]. cbn [mbind option_bind]. rewrite Hb. cbn [mbind option_bind]. intros [= <- <-].
  pose proof (next_txSeq_only k) as T. split; [apply (tx_only_inv k); [done|apply next_txSeq_wf, I|done]|]. split; [by apply tx_only_calm|].
  split; [by apply (up_hw k _ I Es)|]. by split.
Qed.

Lemma response_check_parked f k pc k' : obj_inv k -> response_check f k = Some (Some pc, k') -> parked pc k k'.
Proof.
  intros I. unfold response_check. destruct (state_is k _) eqn:Es; [|done]. destruct (rtw88AssocResponse _ _ _) as [[[status aid]|]|]; [|done..]. cbn [mbind option_bind].
  destruct (authenticationCancelled _) eqn:Ec; [done|]. intros [= <- <-]. split; [by apply inv_emit|]. split; [exact (calm_refl k)|].
  split; [by apply (up_hw k _ I Es)|]. by split.
Qed.

Lemma payload_offset_inv f fc h k off k' : obj_inv k -> payload_offset f fc h k = Some (off, k') ->
  obj_inv k' /\ calm k k' /\ _state k' = _state k.
Proof.
  intros I. unfold payload_offset. destruct (ld f h); [|done]. destruct (ld f (h + 1)); [|done]. destruct (ld f (h + 2)); [|done]. cbn [mbind option_bind].
  assert (obj_inv k /\ calm k k /\ _state k = _state k) as R by (split; [done|split; [apply calm_refl|done]]).
  destruct (_ && _); [|by intros [= _ <-]]. destruct (ld f (h + 8)); [|done]. destruct (ld f (h + 9)); [|done]. destruct (ld f (h + 10)); [|done]. cbn [mbind option_bind].
  destruct (_ && _); intros [= _ <-]; [|done]. split; [|done]. solve_inv I.
Qed.

Lemma deliver_check_parked f k pc k' : obj_inv k -> bytes_ok f -> deliver_check E ctx f k = Some (Some pc, k') -> parked pc k k'.
Proof.
  intros I Hb. unfold deliver_check. cbv zeta. destruct (get_le16 f 0) as [fc|]; [|done]. cbn [mbind option_bind]. set (h := ieee80211_get_hdrlen_from_skb fc).
  destruct (zlen f <? h); [by intros ?%whole_over|]. match goal with |- context [mbind _ ?a] => destruct a as [[]|] end; [by intros ?%whole_over| |done]. cbn [mbind option_bind].
  destruct (zlen f <? h + 8); [by intros ?%whole_over|]. destruct (payload_offset f fc h k) as [[off k1]|] eqn:Ep; [|done]. cbn [mbind option_bind].
  destruct (payload_offset_inv _ _ _ _ _ _ I Ep) as (I1 & C1 & S1). destruct (ld f off); [|done]. destruct (ld f (off + 1)); [|done]. destruct (ld f (off + 2)); [|done]. cbn [mbind option_bind].
  match goal with |- context [mbind _ ?a] => destruct a as [et|] end; [|done]. cbn [mbind option_bind]. destruct (ldn f (off + 8) _) as [pay|] eqn:Ey; [|done]. cbn [mbind option_bind].
  destruct (_ && _ && _ && _) eqn:Eg; [|by intros ?%whole_over]. intros [= <- <-]. apply andb_prop in Eg as [Eg _]. apply andb_prop in Eg as [_ Es].
  split; [done|]. split; [done|]. split; [rewrite <- (proj1 C1); by apply (up_hw k1 _ I1 Es)|]. apply is_state_true in Es. split; [|cbn; congruence].
  cbn. revert Ey. unfold ldn. destruct (_ && _); [|done]. intros [= <-]. by apply Forall_take, Forall_drop.
Qed.

Lemma data_check_parked f k pc k' : obj_inv k -> bytes_ok f -> data_check E ctx f k = Some (Some pc, k') -> parked pc k k'.
Proof.
  intros I Hb. unfold data_check. cbv zeta. destruct (negb _); [by intros ?%whole_over|]. destruct (get_le16 f 0) as [fc|]; [|done]. cbn [mbind option_bind].
  destruct (ldn f 4 6); [|done]. destruct (ldn f 10 6); [|done]. cbn [mbind option_bind]. destruct (_ || _); [by intros ?%whole_over|].
  destruct (_ && _); [|by apply deliver_check_parked]. destruct (ld f _); [|done]. cbn [mbind option_bind].
  match goal with |- context [mbind _ ?a] => destruct a as [[]|] end; [by intros ?%whole_over|by apply deliver_check_parked|done].
Qed.

Lemma calm_from k k1 pc k' : has_hw k1 = has_hw k -> _connectCancelled k1 = _connectCancelled k -> _state k1 = _state k -> calm k k1 -> parked pc k1 k' -> parked pc k k'.
Proof.
  intros Hh Hc Hs C (I & C1 & H & P & Q). split; [done|]. split; [by apply (calm_trans k k1)|]. split; [congruence|]. split; [done|]. destruct pc; congruence.
Qed.

Lemma rx_check_parked f signal rxfreq rx_band k pc k' : obj_inv k -> zlen f < 2 ^ 16 -> bytes_ok f -> rx_check E ctx f signal rxfreq rx_band k = Some (Some pc, k') -> parked pc k k'.
Proof.
  intros I Hl Hb. unfold rx_check. destruct (Z.ltb_spec (zlen f) 24) as [|Hf]; [done|]. set (k1 := k <| _rssi := signal |>). assert (obj_inv k1) as I1 by (solve_inv I).
  intros H. apply (calm_from k k1); try done. revert H. destruct (get_le16 f 0) as [fc|] eqn:Ef; [|done]. cbn [mbind option_bind].
  destruct (ieee80211_is_mgmt fc).
  - unfold mgmt_check. rewrite Ef. cbn [mbind option_bind]. destruct (_ || _); [by intros ?%whole_over|]. destruct (_ =? 0x00B0); [by apply auth_check_parked|].
    destruct (_ || _); [by apply response_check_parked|by intros ?%whole_over].
  - destruct (ieee80211_is_data fc); [|done]. destruct (tryDeliverAWDLDataFrame_ok E f k1 (oi_wf k1 I1) (conj (conj Hf Hl) Hb)) as (b & k2 & -> & _ & Hk). cbn [mbind option_bind].
    destruct b; [done|]. subst k2. by apply data_check_parked.
Qed.

(** ** A store, whenever it comes *)

(** With the driver there, the state may be any but DISCONNECTING. *)
Lemma inv_up k k' : obj_inv k -> has_hw k = true -> kext_wf k' -> config k' = config k -> (link_ok k -> link_ok k') ->
  (_scanReturnState k' = _scanReturnState k \/ _scanReturnState k' = RTW88_STATE_IDLE) -> _state k' <> RTW88_STATE_DISCONNECTING -> obj_inv k'.
Proof.
  intros [IW IL IR IV IP IS ID IN] Hh W G L R D. injection G as Gh Gv _ Gx _ Gl _ _ _ _ _ _ Gp _ _ _ _ _ _.
  split; [done|by apply L|by destruct R as [->|]|unfold has_hw; rewrite Gv, Gh; exact IV|rewrite Gp; unfold has_hw; rewrite Gh; exact IP| |done|by apply (rsn_ok_same k)].
  intros _. unfold has_hw in *. by rewrite Gh.
Qed.
Lemma steps_up S fs k r : obj_inv k -> has_hw k = true -> steps (mg_step S fs k) r -> (forall s, S s -> s <> RTW88_STATE_DISCONNECTING) ->
  keeps (fun k' => config k' = config k) r.
Proof.
  intros I Hh (k' & -> & W & (_ & L & G & R & H)) Hs. apply keeps_ret; [|done]. apply (inv_up k); auto.
Qed.

Lemma associate_store_ok assoc k : kext_wf k ->
  steps (mg_step (fun s => s = RTW88_STATE_ASSOCIATING \/ s = RTW88_STATE_IDLE) [] k) (associate_store E assoc k).
Proof.
  intros W. unfold associate_store. set (k1 := k <| _state := RTW88_STATE_ASSOCIATING |>).
  assert (kext_wf k1) as W1 by apply set_state_wf, W. assert (mg_step (eq RTW88_STATE_ASSOCIATING) [] k k1) as M1 by (by apply mg_set_state).
  pose proof (txMgmtFrame_wf E assoc k1 W1) as W2. pose proof (txMgmtFrame_mg E assoc k1) as M2. destruct (txMgmtFrame E assoc k1) as [ok k2]. cbn [snd] in *.
  pose proof (mg_trans _ _ [] [] _ _ _ M1 M2) as M. cbn [app] in M. change (_state k1) with RTW88_STATE_ASSOCIATING in M. destruct ok; cbn [negb].
  - destruct (_ || _); apply steps_ret; [done|eapply mg_mono, M; by left|by apply emit_wf|].
    eapply mg_mono; [|eapply (mg_trans _ _ [] []); [exact M|exact (mg_emit (EvWake 3000) k2)]]. intros s <-. left. by destruct M as (_&_&_&_&<-).
  - apply steps_ret; [by apply set_state_wf|]. eapply mg_mono; [|eapply (mg_trans _ _ [] []); [exact M|by apply (mg_set_state RTW88_STATE_IDLE)]].
    intros s <-. by right.
Qed.

Definition raised (s : RTW88State) : Prop := s = RTW88_STATE_IDLE \/ s = RTW88_STATE_HANDSHAKING \/ s = RTW88_STATE_CONNECTED.
Lemma response_store_ok status aid k : kext_wf k -> has_hw k = true -> has_vif k = true -> steps (mg_step raised [] k) (response_store E ctx status aid k).
Proof.
  intros W Hh Hv. unfold response_store. destruct (negb _).
  { apply steps_ret; [by apply set_state_wf|]. eapply mg_mono; [|by apply (mg_set_state RTW88_STATE_IDLE)]. intros s <-. by left. }
  destruct (assoc_setup E aid k W Hh Hv) as (k1 & -> & A). cbn [mbind option_bind]. destruct (associated_ok k k1 W A) as [W1 M].
  destruct (_wpa2 k1 && negb (_externalSupplicant k1)) eqn:Ew.
  - destruct (pmk_step ctx Hctx (k1 <| _state := RTW88_STATE_HANDSHAKING |>) (set_state_wf _ _ W1)) as (pmk & -> & W2). cbn [mbind option_bind].
    apply steps_ret; [by apply emit_wf|]. apply (mg_trans _ _ [] [] _ _ _ M). apply (mg_quiet _ [EvWake 8000]); try done; [by constructor|by right; left].
  - eapply steps_mono; [apply (link_up_ok E k1 W1 Ew)|]. intros k2 M2. apply (mg_trans _ _ [] [] _ _ _ M). eapply mg_mono, M2. intros s <-. by right; right.
Qed.

Lemma handleEAPOL_late data k : obj_inv k -> has_hw k = true -> bytes_ok data -> _state k <> RTW88_STATE_CONNECTED ->
  keeps (fun k' => config k' = config k) (handleEAPOL E ctx data k).
Proof.
  intros I Hh Hb Hn. destruct (handleEAPOL_ok E ctx Hctx data k HE (oi_wf k I) Hb) as (k' & -> & W & Hl & H).
  assert (config k' = config k /\ _scanReturnState k' = _scanReturnState k) as [G R] by (by destruct H as (?&?&?&?&?&?&?&?&?&?&?&?&?&?&->)).
  assert ((_state k' = _state k) \/ (_state k' = RTW88_STATE_CONNECTED /\ is_some (_ptkConf k') = true)) as Hs.
  { destruct Hl as [(S & _) | (pkt & rest & _ & _ & _ & [(S & _) | [S | (S & P)]])]; [by left..|right]. split; [done|by rewrite P]. }
  apply keeps_ret; [|done]. apply (inv_up k); try done; [|by left|destruct Hs as [->|[-> _]]; [apply I|done]].
  intros _ Hc _ _. destruct Hs as [S|[_ P]]; [by rewrite S in Hc|done].
Qed.

Lemma rx_store_ok pc k : obj_inv k -> has_hw k = true -> rx_pc_ok pc -> match pc with RxEapol _ _ => _state k <> RTW88_STATE_CONNECTED | _ => True end ->
  keeps (fun k' => config k' = config k) (rx_store E ctx pc k).
Proof.
  intros I Hh Hp Hn. destruct pc as [f assoc|status aid|f pay]; cbn [rx_store].
  - eapply keeps_bind; [eapply steps_up; [done..|apply associate_store_ok, I|by intros s [->| ->]]|]. intros k1 I1 G1. apply keeps_ret; [by apply inv_emit|done].
  - eapply steps_up; [done..|apply response_store_ok; [apply I|done|by rewrite (oi_vif k I)]|by intros s [->|[->| ->]]].
  - eapply keeps_bind; [by apply handleEAPOL_late|]. intros k1 I1 G1. apply keeps_ret; [by apply inv_emit|done].
Qed.

(** ** The other threads, while a frame is being handled *)

(** The driver stays, and no link comes up. *)
Definition held (k k' : kext) : Prop :=
  (has_hw k = true -> has_hw k' = true) /\ (_state k <> RTW88_STATE_CONNECTED -> _state k' <> RTW88_STATE_CONNECTED).

Lemma held_refl k : held k k.
Proof. done. Qed.
Lemma held_trans k1 k2 k3 : held k1 k2 -> held k2 k3 -> held k1 k3.
Proof. intros [A1 B1] [A2 B2]. split; auto. Qed.
Lemma calm_held k k' : calm k k' -> held k k'.
Proof. intros (H & _ & _ & _ & F). split; [by rewrite H|]. by apply (F (fun s => s <> RTW88_STATE_CONNECTED)). Qed.
Lemma idle_held k k' : (has_hw k = true -> has_hw k' = true) -> _state k' = RTW88_STATE_IDLE -> held k k'.
Proof. intros H S. split; [done|]. by rewrite S. Qed.

Lemma connect_rest_state a k r k' : obj_inv k -> connect_rest a k = Some (r, k') -> _state k' = _state k \/ _state k' = RTW88_STATE_AUTHENTICATING.
Proof.
  intros I. unfold connect_rest. assert (_state k = _state k \/ _state k = RTW88_STATE_AUTHENTICATING) as R by (by left).
  destruct (negb _); [by intros [= _ <-]|]. destruct (ca_ssid a) as [s|]; [|by intros [= _ <-]]. destruct (ld s 0) as [s0|]; [|done]. cbn [mbind option_bind].
  destruct (if s0 =? 0 then _ else _) as [n|]; [|done]. cbn [mbind option_bind]. destruct (32 <? n); [by intros [= _ <-]|]. destruct (_ || _); [by intros [= _ <-]|].
  destruct (forget_ok k (oi_wf k I)) as (k1 & -> & _ & S1 & _). cbn [mbind option_bind]. rewrite <- S1 in *. clear S1.
  destruct (find_target _ _ _) as [[t|]|]; cbn [mbind option_bind]; [|by intros [= _ <-]|done]. destruct (negb _); [by intros [= _ <-]|].
  match goal with |- context [mbind _ ?r] => destruct r as [k2|]; [|done] end. cbn [mbind option_bind]. destruct (strlcpy _ _ _); [|done]. intros [= _ <-]. by right.
Qed.
Lemma connect_rest_held a k r k' : obj_inv k -> connect_ok a -> connect_rest a k = Some (r, k') -> held k k'.
Proof.
  intros I Ha Ek. destruct (connect_rest_ok a k I Ha) as (r1 & k1 & Ek1 & _ & Hh). rewrite Ek in Ek1. injection Ek1 as <- <-.
  split; [by rewrite Hh|]. by destruct (connect_rest_state a k r k' I Ek) as [->| ->].
Qed.

Lemma begin_command_held c s s' : sys_inv s -> command_ok c -> c <> CmdStop -> thr_cmd s = None -> begin_command E c s = Some s' ->
  held (obj s) (obj s') /\ stopping (thr_cmd s') = false.
Proof.
  intros I Hc Hn N. pose proof (si_obj s I) as Io.
  assert (forall k', held (obj s) k' -> held (obj s) k' /\ stopping (thr_cmd (s <| obj := k' |>)) = false) as Hs by (intros k' H; split; [done|cbn; by rewrite N]).
  assert (forall r, held (obj s) (snd r) -> Some (returned r s) = Some s' -> held (obj s) (obj s') /\ stopping (thr_cmd s') = false) as Hr.
  { intros [r k'] H [= <-]. by apply (Hs k'). }
  destruct c; try done; cbn [begin_command command_ok] in *.
  - apply Hr. destruct (cmdScan_ok E (obj s) Io) as [_ C]. exact (calm_held _ _ C).
  - destruct (state_is _ _); [intros [= <-]; split; [|done]; by apply calm_held, abort_begin_ok|].
    destruct (connect_rest a (obj s)) as [[r k]|] eqn:Ek; [|done]. cbn [mbind option_bind]. apply Hr. by apply (connect_rest_held a _ r).
  - by intros [= <-].
  - apply Hr, calm_held. by apply cmdPowerOn_ok.
  - by intros [= <-].
  - destruct (has_hw (obj s)) eqn:Eh; intros [= <-]; [by apply (Hs (obj s))|]. apply (Hs (snd _)). destruct Hc as [Hw Hm]. split; [by rewrite Eh|].
    pose proof (start_still E chip probe_ret hw perm_addr (obj s)) as (_ & _ & D). intros _ Hk. destruct D as [D|D]; [|by rewrite D in Hk..].
    left. destruct (decide (_state (obj s) = RTW88_STATE_IDLE)) as [|H]; [done|]. pose proof (oi_state _ Io H). congruence.
  - destruct (setAssocRsnIE_keeps ie (obj s) Io Hc) as (r & k & -> & _ & C). cbn [mbind option_bind]. by apply Hr, calm_held.
  - apply Hr, calm_held. by apply installExternalKey_keeps.
  - apply Hr, calm_held. by apply setReceiveMulticast_ok.
  - apply Hr, calm_held. by apply setAWDLReceiveMode_ok.
  - destruct (setAWDLChannel_ok channel (obj s) Io) as (r & k & -> & _ & R). cbn [mbind option_bind]. apply Hr, calm_held. cbn [snd]. by apply radio_calm in R.
  - intros [= <-]. apply (Hs (snd _)), calm_held. by apply rawFrame_keeps.
Qed.

Lemma command_step_held s s' : sys_inv s -> stopping (thr_cmd s) = false -> command_step E s = Some s' ->
  held (obj s) (obj s') /\ stopping (thr_cmd s') = false.
Proof.
  intros I Hn Es. split; [|by apply (command_scan_kept E s s' I Hn Es)]. revert Es. pose proof (si_obj s I) as Io. pose proof (si_cmd s I) as C. unfold cmd_ok in C. unfold command_step.
  assert (forall s1, obj_inv (obj s1) -> held (obj s) (obj s1) -> poweroff_done E s1 = Some s' -> held (obj s) (obj s')) as Hoff.
  { intros s1 J H. unfold poweroff_done. destruct (poweroff_rest_ok E (obj s1) J) as (k1 & -> & _ & C1 & _). cbn [mbind option_bind]. intros [= <-].
    exact (held_trans _ _ _ H (calm_held _ _ C1)). }
  destruct (thr_cmd s) as [[a ret i| | |ret i| | |]|] eqn:Ec; try done; [| | | |by intros [= <-]].
  - destruct (_ && _); [by intros [= <-]|]. destruct C as [-> Ha]. destruct (abort_finish_ok (obj s) Io) as (ok & k1 & -> & I1 & C1 & _). cbn [mbind option_bind]. destruct ok.
    + destruct (connect_rest a k1) as [[r k2]|] eqn:Ek; [|done]. cbn [mbind option_bind]. intros [= <-]. exact (held_trans _ _ _ (calm_held _ _ C1) (connect_rest_held a k1 r k2 I1 Ha Ek)).
    + intros [= <-]. exact (calm_held _ _ C1).
  - destruct (auth_drained s) as [s1|] eqn:Ed; [|by intros [= <-]]. destruct (auth_drained_ok s s1 I Ed) as (J & _ & E1). destruct (disconnect_rest_ok E (obj s1) (si_obj s1 J)) as (r & k1 & -> & _ & C1 & _).
    cbn [mbind option_bind]. intros [= <-]. rewrite E1 in C1. exact (calm_held _ _ C1).
  - destruct (auth_drained s) as [s1|] eqn:Ed; [|by intros [= <-]]. destruct (auth_drained_ok s s1 I Ed) as (J & _ & E1). cbv zeta. destruct (state_is _ _).
    + intros [= <-]. destruct (abort_begin_ok (obj s1) (si_obj s1 J)) as [_ C1]. subst s1. exact (calm_held _ _ C1).
    + apply Hoff; [apply J|]. by rewrite E1.
  - subst ret. destruct (_ && _); [by intros [= <-]|]. destruct (abort_finish_ok (obj s) Io) as (ok & k1 & -> & I1 & C1 & _). cbn [mbind option_bind]. destruct ok.
    + apply Hoff; [exact I1|exact (calm_held _ _ C1)].
    + intros [= <-]. exact (calm_held _ _ C1).
Qed.

Definition is_rx (a : action) : bool := match a with ActRx _ _ _ _ | ActReorderTimer => true | _ => false end.

Lemma act_held a s s' : sys_inv s -> action_ok a -> stopping (thr_cmd s) = false -> fine_stops (Whole a) = false -> act E ctx a s = Some s' ->
  (is_rx a = false -> held (obj s) (obj s')) /\ stopping (thr_cmd s') = false.
Proof.
  intros I Ha Hn Hs Es. destruct (background a) eqn:Eb.
  - rewrite (background_cmd E ctx a s s' Eb Es). split; [|done]. revert Es. pose proof (si_obj s I) as Io. destruct a; try done; intros Es _; revert Es; cbn [act action_ok] in *; unfold on_obj.
    + destruct (onTimer_ok E (obj s) Io) as (k & -> & _ & Hh & _ & _ & S). cbn [mbind option_bind]. intros [= <-]. split; cbn; [by rewrite Hh|by destruct S as [->| ->]].
    + destruct (scanDone_ok aborted (obj s) Io) as (k & -> & _ & C). intros [= <-]. exact (calm_held _ _ C).
    + destruct (answers_keeps (obj s) _ Io (outputPacket_total E m (obj s) (oi_wf _ Io) Ha)) as (ok & k & -> & _ & C). intros [= <-]. exact (calm_held _ _ C).
    + destruct (answers_keeps (obj s) _ Io (txAWDLDataFrame_total E m (obj s) (oi_wf _ Io) Ha)) as (ok & k & -> & _ & C). intros [= <-]. exact (calm_held _ _ C).
    + unfold step_auth. destruct (thr_auth s) as [pc|] eqn:Ea; [|destruct (connectEntered _); by intros [= <-]]. pose proof (si_auth s I) as A. rewrite Ea in A.
      destruct (auth_step_ok E pc (obj s) Io A) as (k & pc1 & -> & _ & C & _). intros [= <-]. exact (calm_held _ _ C).
    + unfold step_scan. destruct (thr_scan s) as [pc|] eqn:Ea; [|destruct (manualEntered _); by intros [= <-]]. pose proof (si_scan s I) as A. rewrite Ea in A.
      destruct (scan_step_ok E pc (obj s) Io A) as (k & pc1 & -> & _ & C & _). intros [= <-]. exact (calm_held _ _ C).
  - destruct a; try done; cbn [act] in Es.
    + destruct (thr_cmd s) eqn:N; [injection Es as <-; split; [done|by rewrite N]|]. assert (c <> CmdStop) as Hc by (by intros ->).
      destruct (begin_command_held c s s' I Ha Hc N Es). by split.
    + destruct (command_step_held s s' I Hn Es). by split.
Qed.

(** ** The invariant of the cut handlers *)

Definition rx_held (pc : option rx_pc) (k : kext) : Prop :=
  match pc with
  | Some pc => has_hw k = true /\ rx_pc_ok pc /\ match pc with RxEapol _ _ => _state k <> RTW88_STATE_CONNECTED | _ => True end
  | None => True
  end.
Lemma rx_held_held pc k k' : held k k' -> rx_held pc k -> rx_held pc k'.
Proof. intros [H1 H2]. destruct pc as [pc|]; [|done]. intros (A & B & C). split; [auto|]. split; [done|]. destruct pc; auto. Qed.
Lemma parked_held pc k k' : parked pc k k' -> rx_held (Some pc) k'.
Proof.
  intros (I & C & H & P & Q). split; [by rewrite (proj1 C)|]. split; [done|]. destruct pc; try done.
  apply (calm_held _ _ C). by rewrite Q.
Qed.

Record fine_inv (r : fine) : Prop := {
  fi_sys : sys_inv (base r);
  fi_up : stopping (thr_cmd (base r)) = false;
  fi_rx : rx_held (receiving r) (obj (base r))
}.

(** The object moves under threads that stay where they are. *)
Lemma sys_obj s k' : sys_inv s -> obj_inv k' -> has_hw k' = has_hw (obj s) -> _connectCancelled k' = _connectCancelled (obj s) ->
  manualEntered k' = manualEntered (obj s) -> sys_inv (s <| obj := k' |>).
Proof.
  intros [I A S C] I' Hh Hc Hm. split; [done|apply (auth_pc_grows _ (obj s)); [done|cbn; congruence]|apply (scan_pc_grows _ (obj s)); [done|cbn; congruence]|].
  unfold cmd_ok in *. cbn. by destruct (thr_cmd s) as [[]|]; rewrite ?Hc, ?Hm.
Qed.

(** The first half of a frame: over, as the whole handler would be, or parked. *)
Lemma rx_check_ok f signal rxfreq rx_band s : sys_inv s -> action_ok (ActRx f signal rxfreq rx_band) ->
  exists pc k', rx_check E ctx f signal rxfreq rx_band (obj s) = Some (pc, k') /\
    match pc with Some pc => parked pc (obj s) k' | None => act E ctx (ActRx f signal rxfreq rx_band) s = Some (s <| obj := k' |>) end.
Proof.
  intros I (Hl & Hb & Hr). pose proof (rx_keeps E ctx HE Hctx f signal rxfreq rx_band (obj s) (si_obj s I) Hl Hb Hr) as (k1 & E1 & _).
  pose proof E1 as E2. rewrite rxFrame_cut in E2. destruct (rx_check E ctx f signal rxfreq rx_band (obj s)) as [[[pc|] k']|] eqn:Ec; [| |done].
  - exists (Some pc), k'. split; [done|]. by apply (rx_check_parked f signal rxfreq rx_band _ _ _ (si_obj s I) Hl Hb).
  - exists None, k'. split; [done|]. injection E2 as ->. cbn [act]. by rewrite E1.
Qed.

Lemma timer_check_ok s : sys_inv s -> exists b k', timer_check E (obj s) = Some (b, k') /\
  ((_state (obj s) = RTW88_STATE_AUTHENTICATING /\ k' = obj s) \/ (b = false /\ act E ctx ActTimer s = Some (s <| obj := k' |>))).
Proof.
  intros I. destruct (onTimer_ok E (obj s) (si_obj s I)) as (k1 & Ek & _). unfold timer_check.
  destruct (_state (obj s)) eqn:Es; try (rewrite Ek; exists false, k1; split; [done|]; right; split; [done|]; cbn [act]; by rewrite Ek).
  eexists _, _. split; [reflexivity|]. by left.
Qed.

Lemma fine_whole_ok a r : fine_inv r -> action_ok a -> fine_stops (Whole a) = false -> exists r', fine_act E ctx (Whole a) r = Some r' /\ fine_inv r'.
Proof.
  intros [I U R] Ha Hs. cbn [fine_act]. destruct (loop_busy r a) eqn:Ew; [by exists r|]. destruct (act_ok E ctx HE Hctx a (base r) I Ha) as (s' & Es & I' & _).
  rewrite Es. cbn [mbind option_bind]. eexists. split; [reflexivity|]. destruct (act_held a (base r) s' I Ha U Hs Es) as [H U']. split; [done..|]. cbn [receiving base].
  destruct (is_rx a) eqn:Ea; [|by apply (rx_held_held _ (obj (base r))); [apply H|]]. assert (receiving r = None) as -> by (destruct a; try done; cbn [loop_busy] in Ew; by destruct (receiving r)). done.
Qed.

Lemma fine_ok_step x r : fine_inv r -> fine_ok x -> fine_stops x = false -> exists r', fine_act E ctx x r = Some r' /\ fine_inv r'.
Proof.
  intros F Hx Hs. pose proof F as [I U R]. destruct x as [a|f signal rxfreq rx_band| | |]; [by apply fine_whole_ok|..]; cbn [fine_act fine_ok] in *.
  - destruct (receiving r) as [pc0|] eqn:Er; [by exists r|]. destruct (rx_check_ok f signal rxfreq rx_band (base r) I Hx) as (pc & k' & -> & Hk).
    cbn [is_some mbind option_bind]. eexists. split; [reflexivity|]. destruct pc as [pc|].
    + pose proof Hk as (I' & (Hh & Hc & _ & Hm & _) & _). split; [|done|exact (parked_held _ _ _ Hk)]. by apply sys_obj.
    + destruct (act_ok E ctx HE Hctx _ (base r) I Hx) as (s' & Es & I' & _). rewrite Hk in Es. injection Es as <-. by split.
  - destruct (receiving r) as [pc|] eqn:Er; [|by exists r]. destruct R as (Hh & Hp & Hn). destruct (rx_store_ok pc (obj (base r)) (si_obj _ I) Hh Hp Hn) as (k' & -> & I' & G).
    cbn [mbind option_bind]. eexists. split; [reflexivity|]. split; [|done..]. injection G as Gh _ _ _ _ _ _ _ Gc _ Gm _ _ _ _ _ _ _ _.
    apply sys_obj; try done. unfold has_hw. cbn. by rewrite Gh.
  - destruct (retrying r); [by exists r|]. destruct (timer_check_ok (base r) I) as (b & k' & -> & Hk). cbn [mbind option_bind]. eexists. split; [reflexivity|].
    destruct Hk as [[_ ->]|[_ Hk]]; [split; [apply sys_obj; try done; apply I|done..]|].
    destruct (act_ok E ctx HE Hctx ActTimer (base r) I Logic.I) as (s' & Es & I' & _). destruct (act_held ActTimer (base r) _ I Logic.I U eq_refl Hk) as [H U'].
    rewrite Hk in Es. injection Es as <-. split; [done..|]. apply (rx_held_held _ (obj (base r))); [by apply H|done].
  - destruct (retrying r); [|by exists r]. eexists. split; [reflexivity|]. split; [|done|by apply (rx_held_held _ (obj (base r)))].
    apply sys_obj; try done. destruct (si_obj _ I) as [IW IL IR IV IP IS ID IN]. split; try done. by solve_wf IW.
Qed.

Lemma fine_run_ok xs : forall r, fine_inv r -> Forall fine_ok xs -> forallb (fun x => negb (fine_stops x)) xs = true -> exists r', fine_run E ctx xs r = Some r' /\ fine_inv r'.
Proof.
  induction xs as [|x xs IH]; intros r F Hx Hs; cbn [fine_run forallb] in *; [by exists r|]. apply Forall_cons in Hx as [H1 H2]. apply andb_prop in Hs as [S1 S2]. apply negb_true_iff in S1.
  destruct (fine_ok_step x r F H1 S1) as (r1 & -> & F1). cbn [mbind option_bind]. by apply IH.
Qed.

(** ** Called off, with no handler between its halves *)

Record final (r : fine) : Prop := {
  fn_sys : sys_inv (base r);
  fn_settled : settled (base r);
  fn_rx : receiving r = None;
  fn_timer : retrying r = false
}.

Lemma settled_act a s : sys_inv s -> settled s -> action_ok a -> connects a = false -> exists s', act E ctx a s = Some s' /\ sys_inv s' /\ settled s'.
Proof. intros I T Ha Hc. destruct (act_ok E ctx HE Hctx a s I Ha) as (s' & Es & I' & T'). exists s'. rewrite Hc in T'. auto. Qed.

Lemma final_step x r : final r -> fine_ok x -> fine_connects x = false -> exists r', fine_act E ctx x r = Some r' /\ final r'.
Proof.
  intros F Hx Hc. pose proof F as [I T R M]. destruct x as [a|f signal rxfreq rx_band| | |]; cbn [fine_act fine_ok fine_connects] in *.
  - destruct (loop_busy r a); [by exists r|]. destruct (settled_act a (base r) I T Hx Hc) as (s' & -> & I' & T'). eexists. split; [reflexivity|]. by split.
  - rewrite R. cbn [is_some]. destruct (rx_check_ok f signal rxfreq rx_band (base r) I Hx) as (pc & k' & -> & Hk). cbn [mbind option_bind]. eexists. split; [reflexivity|].
    destruct pc as [pc|].
    + exfalso. destruct Hk as (_ & _ & _ & _ & Q). destruct T as [T1 _ T3 _ _]. destruct pc; [congruence..|]. unfold down in T3. rewrite Q in T3. by destruct T3.
    + destruct (settled_act _ (base r) I T Hx eq_refl) as (s' & Es & I' & T'). rewrite Hk in Es. injection Es as <-. by split.
  - rewrite R. by exists r.
  - rewrite M. destruct (timer_check_ok (base r) I) as (b & k' & -> & Hk). cbn [mbind option_bind]. eexists. split; [reflexivity|].
    destruct Hk as [[Q _]|[-> Hk]]; [destruct T as [_ _ T3 _ _]; unfold down in T3; rewrite Q in T3; by destruct T3|].
    destruct (settled_act ActTimer (base r) I T Logic.I eq_refl) as (s' & Es & I' & T'). rewrite Hk in Es. injection Es as <-. by split.
  - rewrite M. by exists r.
Qed.

Lemma final_run xs : forall r, final r -> Forall fine_ok xs -> forallb (fun x => negb (fine_connects x)) xs = true -> exists r', fine_run E ctx xs r = Some r' /\ final r'.
Proof.
  induction xs as [|x xs IH]; intros r F Hx Hs; cbn [fine_run forallb] in *; [by exists r|]. apply Forall_cons in Hx as [H1 H2]. apply andb_prop in Hs as [S1 S2]. apply negb_true_iff in S1.
  destruct (final_step x r F H1 S1) as (r1 & -> & F1). cbn [mbind option_bind]. by apply IH.
Qed.
End proofs.

(** ** Theorems *)

(** C3: Whatever happens, in whatever order - frames of any content,
    reorder and protocol timers, scan results, packets to send, every step of
    the two thread calls and of one command at a time - the session goes on: from
    the fresh object no step reads or writes outside an array or follows a missing
    pointer, and the object is well typed afterwards: its buffers and tables
    well formed, no state but IDLE without a driver, never DISCONNECTING, a
    driver exactly when an interface, and an unassisted WPA2 link only with its
    pairwise key installed.  This holds for handlers that run whole ([run]:
    commands and thread calls are cut at their waits only), and, as long as
    [stop] is not called, for handlers that are also cut between their checks
    and their stores ([fine_run]).  What the callers hand in is restricted
    ([action_ok]): frames, packets and keys are bytes; the strings of a
    connection end within their fields and its key has 32 bytes; where some
    client brings its own supplicant, its RSN elements have at most 133 bytes.
    The code itself checks neither that a password ends within its field nor
    that such an element fits the request, and overruns them otherwise. *)
Theorem session_invariant {who : callers} E ctx acts xs : env_ok E -> zlen (buffer ctx) = 64 -> Forall action_ok acts ->
  Forall fine_ok xs -> forallb (fun x => negb (fine_stops x)) xs = true ->
  (exists s, run E ctx acts fresh = Some s /\ obj_inv (obj s)) /\
  (exists r, fine_run E ctx xs quiet_start = Some r /\ obj_inv (obj (base r))).
Proof.
  intros HE Hctx Ha Hx Hs. split.
  - destruct (run_ok E ctx HE Hctx acts fresh fresh_inv Ha) as (s & -> & I & _). exists s. split; [done|apply I].
  - destruct (fine_run_ok E ctx HE Hctx xs quiet_start) as (r & -> & F); [split; [apply fresh_inv|done..]|done..|]. exists r. split; [done|apply F].
Qed.

(** C6: cmdDisconnect is final.  Its wait for the connect call is over; no
    frame handler stands between its check and its store, and the timer not
    between its check and the retry.  Then the command completes, and whatever
    comes until the next cmdConnect - frames and timers cut at their checks or
    whole, driver callbacks, scans, packets, every other command - nothing is
    authenticating, handshaking or connected, the connect call neither runs nor
    is pending, and no handler is left that would resume the attempt.  Before
    the disconnection anything but [stop] may have happened.  A handler caught
    between its halves does resume the attempt: [late_association] and
    [late_response] below. *)
Theorem disconnect_is_final {who : callers} E ctx before after r : env_ok E -> zlen (buffer ctx) = 64 ->
  Forall fine_ok before -> forallb (fun x => negb (fine_stops x)) before = true -> fine_run E ctx before quiet_start = Some r ->
  thr_cmd (base r) = Some DrainDisconnect -> thr_auth (base r) = None -> receiving r = None -> retrying r = false ->
  Forall fine_ok after -> forallb (fun x => negb (fine_connects x)) after = true ->
  exists r', fine_run E ctx (Whole ActCommandStep :: after) r = Some r' /\
    (_state (obj (base r')) = RTW88_STATE_IDLE \/ _state (obj (base r')) = RTW88_STATE_SCANNING) /\
    thr_auth (base r') = None /\ connectEntered (obj (base r')) = false /\ _connectCancelled (obj (base r')) = true /\
    receiving r' = None /\ retrying r' = false.
Proof.
  intros HE Hctx Hb Hs Hr Hd Hn Hrx Ht Ha Hc. assert (fine_inv quiet_start) as F0 by (split; [apply fresh_inv|done..]).
  destruct (fine_run_ok E ctx HE Hctx before quiet_start F0 Hb Hs) as (r0 & E0 & [I _ _]). rewrite Hr in E0. injection E0 as <-.
  destruct (disconnect_step E (base r) I Hd Hn) as (s1 & E1 & I1 & T1). cbn [fine_run fine_act loop_busy act]. rewrite E1. cbn [mbind option_bind].
  destruct (final_run E ctx HE Hctx after (mk_fine s1 (receiving r) (retrying r))) as (r' & Er & [I2 [A B C D _] R M]); [by split|done..|]. exists r'. by split_and!.
Qed.

(** ** Concrete runs *)

Definition demo_begun : list fine_action := map Whole (demo_session ++ [ActAuth; ActAuth; ActAuth; ActAuth; ActAuth; ActAuth; ActAuth; ActAuth]).
Definition demo_disconnect : list fine_action := [Whole (ActCommand CmdDisconnect); Whole ActCommandStep].

(** The state, the answer of the last command, the flag. *)
Definition after_run (xs : list fine_action) : option (RTW88State * Z * bool) :=
  r ← fine_run demo_env stack_ctx xs quiet_start; Some (_state (obj (base r)), cmd_ret (base r), _connectCancelled (obj (base r))).

(** The accepted authentication is read, then the disconnection runs to its
    end, then [doAssociate] goes on: the request is sent, the state is
    ASSOCIATING with no timer set, and the next connection is refused. *)
Definition demo_late : list fine_action := demo_begun ++ [RxCheck demo_auth_ok (-40) 2462 0] ++ demo_disconnect.
Definition demo_again : fine_action := Whole (ActCommand (CmdConnect (mk_connect (Some [72; 111; 109; 101; 0]) None None None true))).
Example late_association :
  after_run demo_late = Some (RTW88_STATE_IDLE, kIOReturnSuccess, true) /\
  after_run (demo_late ++ [RxStore]) = Some (RTW88_STATE_ASSOCIATING, kIOReturnSuccess, true) /\
  after_run (demo_late ++ [RxStore; demo_again]) = Some (RTW88_STATE_ASSOCIATING, kIOReturnBusy, true).
Proof. split; [|split]; vm_compute; reflexivity. Qed.

(** One frame later the link comes up after the disconnection. *)
Definition demo_later_still : list fine_action :=
  demo_begun ++ [Whole (ActRx demo_auth_ok (-40) 2462 0); RxCheck demo_assoc_ok (-40) 2462 0] ++ demo_disconnect.
Example late_response :
  after_run demo_later_still = Some (RTW88_STATE_IDLE, kIOReturnSuccess, true) /\
  after_run (demo_later_still ++ [RxStore]) = Some (RTW88_STATE_CONNECTED, kIOReturnSuccess, true).
Proof. split; vm_compute; reflexivity. Qed.

#[local] Existing Instance callers_any.

(** Called off while the connect call polls; the call notices and leaves, and
    then frames, a timer and a scan come, cut and whole. *)
Definition demo_called_off : list fine_action :=
  map Whole (demo_session ++ [ActAuth; ActAuth; ActCommand CmdDisconnect; ActCommandStep; ActAuth]) ++ [TimerCheck; RxCheck demo_assoc_ok (-40) 2462 0].
Definition demo_later : list fine_action :=
  [RxCheck demo_auth_ok (-40) 2462 0; TimerCheck; Whole ActAuth; RxStore; Whole (ActCommand CmdScan); RxCheck demo_assoc_ok (-40) 2462 0; TimerStore; Whole (ActScanDone false)].

Lemma demo_called_off_ok : Forall fine_ok demo_called_off.
Proof.
  unfold demo_called_off. rewrite map_app, <- app_assoc. apply Forall_app. split; [apply Forall_map, demo_session_ok|].
  repeat (constructor; [first [exact Logic.I|by apply demo_answer_ok]|]). constructor.
Qed.
Lemma demo_later_ok : Forall fine_ok demo_later.
Proof. unfold demo_later. repeat (constructor; [first [exact Logic.I|by apply demo_answer_ok]|]). constructor. Qed.

(** Handlers cut, in the presence of the race. *)
Lemma demo_late_ok : Forall fine_ok (demo_later_still ++ [RxStore]).
Proof.
  unfold demo_later_still, demo_begun, demo_disconnect. rewrite !map_app, <- !app_assoc. apply Forall_app. split; [apply Forall_map, demo_session_ok|].
  repeat (constructor; [first [exact Logic.I|by apply demo_answer_ok]|]). constructor.
Qed.
Lemma session_invariant_witness :
  (exists s, run demo_env stack_ctx (demo_session ++ demo_join) fresh = Some s /\ obj_inv (obj s)) /\
  (exists r, fine_run demo_env stack_ctx (demo_later_still ++ [RxStore]) quiet_start = Some r /\ obj_inv (obj (base r))).
Proof.
  apply session_invariant; [apply demo_env_ok|reflexivity|apply Forall_app; split; [apply demo_session_ok|apply demo_join_ok]|apply demo_late_ok|reflexivity].
Defined.

Lemma disconnect_is_final_witness :
  match fine_run demo_env stack_ctx demo_called_off quiet_start with
  | Some r => exists r', fine_run demo_env stack_ctx (Whole ActCommandStep :: demo_later) r = Some r' /\
      (_state (obj (base r')) = RTW88_STATE_IDLE \/ _state (obj (base r')) = RTW88_STATE_SCANNING) /\
      thr_auth (base r') = None /\ connectEntered (obj (base r')) = false /\ _connectCancelled (obj (base r')) = true /\
      receiving r' = None /\ retrying r' = false
  | None => False
  end.
Proof.
  destruct (fine_run demo_env stack_ctx demo_called_off quiet_start) as [r|] eqn:Er.
  2: { apply (f_equal is_some) in Er. vm_compute in Er. discriminate. }
  assert (forall A (f : fine -> A) x, option_map f (fine_run demo_env stack_ctx demo_called_off quiet_start) = Some x -> f r = x) as Hs by (intros A f x; rewrite Er; by intros [= <-]).
  apply (disconnect_is_final demo_env stack_ctx demo_called_off demo_later r).
  - apply demo_env_ok.
  - reflexivity.
  - apply demo_called_off_ok.
  - reflexivity.
  - exact Er.
  - apply (Hs _ (fun r => thr_cmd (base r))). vm_compute. reflexivity.
  - apply (Hs _ (fun r => thr_auth (base r))). vm_compute. reflexivity.
  - apply (Hs _ receiving). vm_compute. reflexivity.
  - apply (Hs _ retrying). vm_compute. reflexivity.
  - apply demo_later_ok.
  - reflexivity.
Defined.
