(* ===== verification/UserClient.v ===== *)
(** * The user client: [src/src/kext/RTW88UserClient.cpp]

    rtw88ctl reaches the driver through ten external methods.  Each unpacks
    the caller's arguments and runs a command of the station (file [Session]),
    reads its state, or handles the log (file [LogRing]).  IOKit checks the
    counts of [sMethods] before it calls a method; its check is a parameter. *)

From S2P Require Import Prelude LogRing Rsn Bss Sha1 Kdf Reorder Kext Tx Eapol Rx Mgmt Mlme Session.

Definition kIOReturnOffline : Z := 0xe00002d7.

Inductive selector := kRTW88Scan | kRTW88Connect | kRTW88Disconnect | kRTW88GetState | kRTW88GetBSSList | kRTW88GetRSSI | kRTW88SetDebug
| kRTW88GetLog | kRTW88PowerOn | kRTW88PowerOff.
Definition kRTW88NumSelectors : Z := 10.
Definition selector_of (n : Z) : option selector :=
  ld [kRTW88Scan; kRTW88Connect; kRTW88Disconnect; kRTW88GetState; kRTW88GetBSSList; kRTW88GetRSSI; kRTW88SetDebug; kRTW88GetLog; kRTW88PowerOn; kRTW88PowerOff] n.

Definition sizeof_ssid : Z := 33.
Definition sizeof_password : Z := 64.
Definition sizeof_RTW88ConnectArgs : Z := sizeof_ssid + sizeof_password.
Definition sizeof_RTW88StateResult : Z := 108.
Definition kIOUCVariableStructureSize : Z := 0xffffffff.

(** [sMethods]: scalars in, structure in, scalars out, structure out. *)
Definition sMethods (s : selector) : Z * Z * Z * Z :=
  match s with
  | kRTW88Connect => (0, sizeof_RTW88ConnectArgs, 0, 0)
  | kRTW88GetState => (0, 0, 0, sizeof_RTW88StateResult)
  | kRTW88GetBSSList | kRTW88GetLog => (0, 0, 0, kIOUCVariableStructureSize)
  | kRTW88GetRSSI => (0, 0, 1, 0)
  | kRTW88SetDebug => (1, 0, 0, 0)
  | _ => (0, 0, 0, 0)
  end.

(** [IOExternalMethodArguments]; a structure is the memory it points to, the
    input structure with what follows it in memory. *)
Record ext_args := mk_args {
  scalarInput : list Z; structureInput : option (list Z); structureInputSize : Z;
  scalarOutput : bool; scalarOutputCount : Z;
  structureOutput : option (list Z); structureOutputSize : Z
}.

(** What is in the output afterwards; [ExtBytes]: the buffer and its new size. *)
Inductive ext_out := ExtNone | ExtState (r : RTW88StateResult) | ExtUninitialized | ExtBytes (buf : list Z) (size : Z) | ExtScalar (v : Z).
Inductive ext_result := ExtReturn (ret : Z) (out : ext_out) | ExtWaits.

(** The client's view: the station with its threads, the log, whether the
    device and its station are there, whether a call waits. *)
Record client := mk_client { uc_sys : sys; uc_log : log_state; uc_station : bool; uc_waits : bool }.
#[export] Instance eta_client : Eta client := fun u => mk_client (uc_sys u) (uc_log u) (uc_station u) (uc_waits u).

Section client.
Context (E : env) (ctx : KERN_SHA1_CTX) (accepts : Z * Z * Z * Z -> ext_args -> bool).

Definition ext_ret (ret : Z) (u : client) : option (ext_result * client) := Some (ExtReturn ret ExtNone, u).
(** A command on the caller's behalf: it returns, or the caller waits. *)
Definition ext_command (c : command) (u : client) : option (ext_result * client) :=
  if negb (uc_station u) then ext_ret kIOReturnOffline u
  else
    s ← begin_command E c (uc_sys u);
    if is_some (thr_cmd s) then Some (ExtWaits, u <| uc_sys := s |> <| uc_waits := true |>) else ext_ret (cmd_ret s) (u <| uc_sys := s |>).

(** [ca->ssid] and [ca->password] point into the input structure. *)
Definition sConnect (a : ext_args) (u : client) : option (ext_result * client) :=
  if negb (uc_station u) then ext_ret kIOReturnOffline u
  else
    match structureInput a with
    | None => ext_ret kIOReturnBadArgument u
    | Some ca =>
        if structureInputSize a <? sizeof_RTW88ConnectArgs then ext_ret kIOReturnBadArgument u
        else ext_command (CmdConnect (mk_connect (Some ca) (Some (zdrop sizeof_ssid ca)) None None false)) u
    end.

Definition sGetState (a : ext_args) (u : client) : option (ext_result * client) :=
  if negb (is_some (structureOutput a)) || (structureOutputSize a <? sizeof_RTW88StateResult) then ext_ret kIOReturnBadArgument u
  else if negb (uc_station u) then Some (ExtReturn kIOReturnSuccess ExtUninitialized, u)
  else Some (ExtReturn kIOReturnSuccess (ExtState (cmdGetState E (obj (uc_sys u)))), u).

Definition sGetBSSList (a : ext_args) (u : client) : option (ext_result * client) :=
  match structureOutput a with
  | None => ext_ret kIOReturnBadArgument u
  | Some buf =>
      if negb (uc_station u) then Some (ExtReturn kIOReturnSuccess (ExtBytes buf 0), u)
      else '(buf, len) ← cmdGetBSSList (_bss (obj (uc_sys u))) buf (u32 (structureOutputSize a)); Some (ExtReturn kIOReturnSuccess (ExtBytes buf len), u)
  end.

Definition sGetRSSI (a : ext_args) (u : client) : option (ext_result * client) :=
  if negb (scalarOutput a) || (scalarOutputCount a <? 1) then ext_ret kIOReturnBadArgument u
  else if negb (uc_station u) then Some (ExtReturn kIOReturnSuccess (ExtScalar (u64 (-100))), u)
  else let '(ret, rssi) := cmdGetRSSI (obj (uc_sys u)) in Some (ExtReturn ret (ExtScalar (u64 rssi)), u).

Definition sSetDebug (a : ext_args) (u : client) : option (ext_result * client) :=
  match scalarInput a with
  | [] => ext_ret kIOReturnSuccess u
  | v :: _ => ext_ret kIOReturnSuccess (u <| uc_log := uc_log u <| log_level := signed 32 v |> |>)
  end.

Definition sGetLog (a : ext_args) (u : client) : option (ext_result * client) :=
  match structureOutput a with
  | None => ext_ret kIOReturnBadArgument u
  | Some buf =>
      if structureOutputSize a =? 0 then ext_ret kIOReturnBadArgument u
      else
        '(text, l) ← rtw88_read_log (u32 (structureOutputSize a)) (uc_log u);
        buf ← stn buf 0 text;
        Some (ExtReturn kIOReturnSuccess (ExtBytes buf (zlen text)), u <| uc_log := l |>)
  end.

Definition method (s : selector) (a : ext_args) (u : client) : option (ext_result * client) :=
  match s with
  | kRTW88Scan => ext_command CmdScan u
  | kRTW88Connect => sConnect a u
  | kRTW88Disconnect => ext_command CmdDisconnect u
  | kRTW88GetState => sGetState a u
  | kRTW88GetBSSList => sGetBSSList a u
  | kRTW88GetRSSI => sGetRSSI a u
  | kRTW88SetDebug => sSetDebug a u
  | kRTW88GetLog => sGetLog a u
  | kRTW88PowerOn => ext_command CmdPowerOn u
  | kRTW88PowerOff => ext_command CmdPowerOff u
  end.

(** [super::externalMethod] checks the counts, then calls the method. *)
Definition externalMethod (n : Z) (a : ext_args) (u : client) : option (ext_result * client) :=
  if kRTW88NumSelectors <=? n then ext_ret kIOReturnUnsupported u
  else s ← selector_of n; if accepts (sMethods s) a then method s a u else ext_ret kIOReturnBadArgument u.

(** One thing happens: a call of the client (one at a time), a turn of the
    command it waits for, a step of the station, a message of the driver. *)
Inductive client_action := UcCall (n : Z) (a : ext_args) | UcCommandStep | UcStation (x : action) | UcPrint (level : Z) (text : list Z).
Definition client_step (x : client_action) (u : client) : option (ext_result * client) :=
  match x with
  | UcCall n a => if uc_waits u then Some (ExtWaits, u) else externalMethod n a u
  | UcCommandStep =>
      s ← command_step E (uc_sys u); let u := u <| uc_sys := s |> in
      if uc_waits u && negb (is_some (thr_cmd s)) then ext_ret (cmd_ret s) (u <| uc_waits := false |>) else Some (ExtWaits, u)
  | UcStation x => match x with ActCommand _ | ActCommandStep => Some (ExtWaits, u) | _ => s ← act E ctx x (uc_sys u); Some (ExtWaits, u <| uc_sys := s |>) end
  | UcPrint level text => l ← rtw88_printk level text (uc_log u); Some (ExtWaits, u <| uc_log := l |>)
  end.
Fixpoint client_run (xs : list client_action) (u : client) : option (list ext_result * client) :=
  match xs with [] => Some ([], u) | x :: xs => '(r, u) ← client_step x u; '(rs, u) ← client_run xs u; Some (r :: rs, u) end.
End client.

(** ** Calls are served *)

(** No client brings its own supplicant. *)
#[local] Instance client_callers : callers := false.

Record client_inv (u : client) : Prop := {
  cl_sys : sys_inv (uc_sys u);
  cl_log : log_wf (uc_log u);
  cl_lock : log_lock (uc_log u) = true;
  cl_waits : uc_waits u = is_some (thr_cmd (uc_sys u))
}.
(** The password ends somewhere in what follows the name; an output buffer has
    its size. *)
Record args_ok (a : ext_args) : Prop := {
  ao_input : forall ca, structureInput a = Some ca -> cstr_ok (zdrop sizeof_ssid ca) /\ bytes_ok ca;
  ao_output : forall b, structureOutput a = Some b -> zlen b = structureOutputSize a /\ structureOutputSize a < 2 ^ 32
}.
Definition client_action_ok (x : client_action) : Prop :=
  match x with UcCall n a => 0 <= n /\ args_ok a | UcStation x => action_ok x | _ => True end.

Section proofs.
Context (E : env) (ctx : KERN_SHA1_CTX) (accepts : Z * Z * Z * Z -> ext_args -> bool) (HE : env_ok E) (Hctx : zlen (buffer ctx) = 64).

Definition called (r : option (ext_result * client)) : Prop := exists x u, r = Some (x, u) /\ client_inv u.
Lemma called_ret x u : client_inv u -> called (Some (x, u)).
Proof. by exists x, u. Qed.
Hint Resolve called_ret : core.

Lemma ext_command_ok c u : client_inv u -> uc_waits u = false -> command_ok c -> called (ext_command E c u).
Proof.
  intros I Hw Hc. unfold ext_command, ext_ret. destruct (negb _); [auto|]. destruct I as [S L K W].
  assert (thr_cmd (uc_sys u) = None) as N by (rewrite Hw in W; by destruct (thr_cmd (uc_sys u))).
  destruct (begin_command_ok E c (uc_sys u) S N Hc) as (s & -> & J & _). cbn [mbind option_bind]. destruct (is_some (thr_cmd s)) eqn:Es; apply called_ret; (split; [done..|]); cbn; by rewrite Es.
Qed.

Lemma sConnect_ok a u : client_inv u -> uc_waits u = false -> args_ok a -> called (sConnect E a u).
Proof.
  intros I Hw [Hi _]. unfold sConnect, ext_ret. destruct (negb _); [auto|]. destruct (structureInput a) as [ca|]; [|auto]. destruct (_ <? _); [auto|].
  destruct (Hi ca eq_refl) as [[Hb Hz] Hb']. apply ext_command_ok; [done..|]. split; try done.
  - intros s [= <-]. split; [done|]. unfold zdrop in Hz. apply list_elem_of_In. apply list_elem_of_In in Hz. rewrite <- (take_drop (Z.to_nat sizeof_ssid) ca). apply elem_of_app. by right.
  - by intros p [= <-].
Qed.

Lemma sGetBSSList_ok a u : client_inv u -> args_ok a -> called (sGetBSSList a u).
Proof.
  intros I [_ Ho]. unfold sGetBSSList, ext_ret. destruct (structureOutput a) as [b|]; [|auto]. destruct (negb _); [auto|]. destruct (Ho b eq_refl) as [Hz Hl]. pose proof (zlen_nonneg b).
  assert (u32 (structureOutputSize a) = structureOutputSize a) as -> by (apply wrap_small; split; lia). destruct (Z.lt_ge_cases (structureOutputSize a) 4).
  - unfold cmdGetBSSList. rewrite (proj2 (Z.ltb_ge 4095 (structureOutputSize a))), (proj2 (Z.ltb_lt _ _)) by lia. cbn [mbind option_bind]. auto.
  - destruct (_bss (obj (uc_sys u))) as [l c] eqn:Eb. pose proof (proj1 (wf_bss _ (oi_wf _ (si_obj _ (cl_sys u I))))) as W. rewrite Eb in W.
    destruct (cmdGetBSSList_ok l c b (structureOutputSize a) W Hz) as (b' & -> & _); [lia|]. cbn [mbind option_bind]. auto.
Qed.
Lemma sGetLog_ok a u : client_inv u -> args_ok a -> called (sGetLog a u).
Proof.
  intros I [_ Ho]. unfold sGetLog, ext_ret. destruct (structureOutput a) as [b|]; [|auto]. destruct (Z.eqb_spec (structureOutputSize a) 0); [auto|]. destruct (Ho b eq_refl) as [Hz Hl]. pose proof (zlen_nonneg b).
  rewrite wrap_small by (split; lia). destruct I as [S L K W]. destruct (read_log_ok (structureOutputSize a) (uc_log u) L K) as (l & -> & L' & _ & _ & K'). cbn [mbind option_bind].
  rewrite stn_Some by (rewrite ?zlen_ztake; lia). cbn [mbind option_bind]. apply called_ret. split; [done..|exact (eq_trans K' K)|done].
Qed.

Lemma method_ok s a u : client_inv u -> uc_waits u = false -> args_ok a -> called (method E s a u).
Proof.
  intros I Hw Ha. destruct s; cbn [method]; try (by apply ext_command_ok); try (by apply sConnect_ok); try (by apply sGetBSSList_ok); try (by apply sGetLog_ok).
  - unfold sGetState, ext_ret. destruct (_ || _); [auto|]. destruct (negb _); auto.
  - unfold sGetRSSI, cmdGetRSSI, ext_ret. destruct (_ || _); [auto|]. destruct (negb _); auto.
  - unfold sSetDebug, ext_ret. destruct (scalarInput a); [auto|]. apply called_ret. destruct I as [S [L1 L2 L3] K W]. split; [done|by split|done|done].
Qed.
Lemma externalMethod_ok n a u : client_inv u -> uc_waits u = false -> 0 <= n -> args_ok a -> called (externalMethod E accepts n a u).
Proof.
  intros I Hw Hn Ha. unfold externalMethod, ext_ret. unfold kRTW88NumSelectors. destruct (Z.leb_spec 10 n); [auto|].
  assert (exists s, selector_of n = Some s) as (s & ->) by (unfold selector_of; apply ld_Some; change (zlen _) with 10; lia). cbn [mbind option_bind]. destruct (accepts _ a); [by apply method_ok|auto].
Qed.

Lemma client_step_ok x u : client_inv u -> client_action_ok x -> called (client_step E ctx accepts x u).
Proof.
  intros I Hx. destruct x as [n a| |x|level text]; cbn [client_step].
  - destruct (uc_waits u) eqn:Ew; [auto|]. destruct Hx. by apply externalMethod_ok.
  - pose proof I as [S L K W]. destruct (command_step_ok E (uc_sys u) S) as (s & Es & J & _). rewrite Es. cbn [mbind option_bind]. cbv zeta. change (uc_waits (u <| uc_sys := s |>)) with (uc_waits u).
    unfold ext_ret. destruct (uc_waits u) eqn:Ew; cbn [andb]; [destruct (is_some (thr_cmd s)) eqn:Ec; cbn [negb]|]; apply called_ret; (split; [done..|]); cbn; rewrite ?Ew; [done|by rewrite Ec|].
    destruct (thr_cmd (uc_sys u)) eqn:Et; [done|]. unfold command_step in Es. rewrite Et in Es. injection Es as <-. by rewrite Et.
  - destruct I as [S L K W]. assert (forall s, sys_inv s -> thr_cmd s = thr_cmd (uc_sys u) -> client_inv (u <| uc_sys := s |>)) as K1 by (intros s J Et; split; [done..|]; cbn; by rewrite Et).
    destruct x; try (by apply called_ret; split); cbn [client_action_ok] in Hx;
      match goal with |- context [act E ctx ?x _] => destruct (act_ok E ctx HE Hctx x (uc_sys u) S Hx) as (s & Es & J & _); rewrite Es; cbn [mbind option_bind]; apply called_ret, K1; [done|]; exact (background_cmd E ctx x _ _ eq_refl Es) end.
  - destruct I as [S L K W]. destruct (log_step_ok (LogPrint level text) (uc_log u) L K) as (l & El & L' & K' & _). revert El. cbn [log_step]. destruct (rtw88_printk level text (uc_log u)) as [l'|]; cbn [mbind option_bind]; [|done]. intros [= <-]. apply called_ret. by split.
Qed.
End proofs.

Lemma client_run_ok E ctx accepts xs : env_ok E -> zlen (buffer ctx) = 64 -> forall u, client_inv u -> Forall client_action_ok xs ->
  exists rs u', client_run E ctx accepts xs u = Some (rs, u') /\ client_inv u'.
Proof.
  intros HE Hctx. induction xs as [|x xs IH]; intros u I Hx; cbn [client_run]; [by exists [], u|]. apply Forall_cons in Hx as [H1 H2].
  destruct (client_step_ok E ctx accepts HE Hctx x u I H1) as (r & u1 & -> & I1). cbn [mbind option_bind]. destruct (IH u1 I1 H2) as (rs & u2 & -> & I2). cbn [mbind option_bind]. by exists (r :: rs), u2.
Qed.

(** C40: The user client is safe.  On a station in any state its threads can
    bring it to, whatever selectors a client calls, with any scalars, names,
    sizes and buffers, while the station goes on and the driver logs: every
    call answers or waits for its command, nothing is read or written outside
    the arguments, the log and the station, and both stay well formed.  One
    thing is asked: that the password of a connect call ends somewhere in the
    memory that follows the name. *)
Theorem user_client_safe E ctx accepts before s xs : env_ok E -> zlen (buffer ctx) = 64 -> Forall action_ok before -> Forall client_action_ok xs ->
  run E ctx before fresh = Some s -> thr_cmd s = None ->
  exists rs u', client_run E ctx accepts xs (mk_client s log_boot true false) = Some (rs, u') /\ client_inv u'.
Proof.
  intros HE Hctx Hb Hx Er Hn. destruct (run_ok E ctx HE Hctx before fresh fresh_inv Hb) as (s0 & E0 & S & _). rewrite Er in E0. injection E0 as <-.
  apply client_run_ok; [done..| |done]. split; [done|by split|done|]. cbn. by rewrite Hn.
Qed.

(** ** A client of a concrete station *)

Definition demo_accepts (c : Z * Z * Z * Z) (a : ext_args) : bool := true.
Definition connect_input (password : list Z) : ext_args := mk_args [] (Some ((chars "Home" ++ zeros 29) ++ password)) 97 false 0 None 0.
Definition output (n : Z) : ext_args := mk_args [] None 0 true 1 (Some (zeros n)) n.
Definition demo_station : list action :=
  [ActCommand (CmdStart true 0 (Some demo_hw) [2; 0; 0; 0; 0; 1]); ActCommand CmdScan; ActRx test_beacon (-47) 2462 0; ActScanDone false].
Definition demo_calls (password : list Z) : list client_action :=
  [UcPrint 2 (chars "up"); UcCall 7 (output 9); UcCall 4 (output 64); UcCall 5 (output 0); UcCall 11 (output 0); UcCall 1 (connect_input password); UcStation ActAuth; UcCall 3 (output 108)].
Definition seen (r : ext_result) : Z * list Z :=
  match r with ExtReturn ret (ExtBytes b n) => (ret, ztake n b) | ExtReturn ret _ => (ret, []) | ExtWaits => (-1, []) end.
Definition demo_client (password : list Z) : option (list (Z * list Z)) :=
  s ← run demo_env stack_ctx demo_station fresh;
  '(rs, _) ← client_run demo_env stack_ctx demo_accepts (demo_calls password) (mk_client s log_boot true false); Some (map seen rs).
Definition good_password : list Z := chars "password" ++ zeros 56.
Example demo_client_runs : demo_client good_password =
  Some [(-1, []); (kIOReturnSuccess, chars "[rtw88 IN"); (kIOReturnSuccess, [22; 0; 0; 0; 4; 72; 111; 109; 101; 2; 4; 6; 8; 10; 12; 255; 209; 11; 4; 172; 15; 0]);
        (kIOReturnSuccess, []); (kIOReturnUnsupported, []); (kIOReturnSuccess, []); (-1, []); (kIOReturnSuccess, [])].
Proof. vm_compute. reflexivity. Qed.
(** A password of 64 characters has no end in its field: [strlcpy] goes on
    reading behind the caller's structure. *)
Example password_overread : demo_client (replicate 64 65) = None.
Proof. vm_compute. reflexivity. Qed.

Lemma demo_station_ok : Forall action_ok demo_station.
Proof.
  unfold demo_station. constructor; [split; [apply demo_hw_wf|split; [done|by apply bytes_okb_ok]]|]. constructor; [done|].
  constructor; [split; [done|split; [apply test_beacon_ok|done]]|]. by constructor.
Qed.
Lemma output_ok n : 0 <= n < 2 ^ 32 -> args_ok (output n).
Proof. intros Hn. split; [done|]. intros b [= <-]. cbn. rewrite zlen_zeros; lia. Qed.
Lemma connect_input_ok p : cstr_ok p -> args_ok (connect_input p).
Proof.
  intros [Hb H0]. split; [|done]. intros ca Hca. cbn [structureInput connect_input] in Hca. assert (ca = (chars "Home" ++ zeros 29) ++ p) as -> by congruence.
  change (zdrop sizeof_ssid ((chars "Home" ++ zeros 29) ++ p)) with p. split; [done|]. apply Forall_app. split; [by apply bytes_okb_ok|done].
Qed.
Lemma demo_calls_ok : Forall client_action_ok (demo_calls good_password).
Proof.
  unfold demo_calls. repeat (constructor; [first [exact Logic.I|split; [lia|first [apply output_ok; lia|apply connect_input_ok; split; [by apply bytes_okb_ok|by do 8 right; left]]]]|]). constructor.
Qed.
Lemma user_client_safe_witness :
  match run demo_env stack_ctx demo_station fresh with
  | Some s => exists rs u', client_run demo_env stack_ctx demo_accepts (demo_calls good_password) (mk_client s log_boot true false) = Some (rs, u') /\ client_inv u'
  | None => False
  end.
Proof.
  destruct (run demo_env stack_ctx demo_station fresh) as [s|] eqn:Er; [|apply (f_equal is_some) in Er; vm_compute in Er; discriminate].
  assert (forall A (f : sys -> A) x, option_map f (run demo_env stack_ctx demo_station fresh) = Some x -> f s = x) as Hs by (intros A f x; rewrite Er; by intros [= <-]).
  apply (user_client_safe demo_env stack_ctx demo_accepts demo_station s (demo_calls good_password)).
  - apply demo_env_ok.
  - reflexivity.
  - apply demo_station_ok.
  - apply demo_calls_ok.
  - exact Er.
  - apply (Hs _ thr_cmd). vm_compute. reflexivity.
Defined.
