(* ===== verification/Ctl.v ===== *)
(** * rtw88ctl: [src/src/ctl/main.c]

    The command-line client: its dispatch, what each command sends to the user
    client (file [UserClient]), the loops that poll the state, what it prints
    and returns.  The kernel, IOKit's matching and [getopt] are parameters;
    printed text is reduced to the line it belongs to and the values it shows. *)

From S2P Require Import Prelude Helpers Bss Sha1 Kdf Kext Mlme UserClient.

(** ** What a run does *)

Inductive line :=
| LUsage | LOpenFailed | LFailed | LScanning | LDot | LPartial | LListHeader | LEntry (e : listed)
| LConnecting | LState (name : string) | LConnected (rssi : Z) | LConnectFailed | LTimedOut | LDisconnected
| LStatus | LLink | LLog (text : list Z) | LDebug (level : Z) | LPower (on : bool) | LNeedsSsid | LNeedsOnOff | LNeedsLevel | LUnknown.
Inductive ctl_event := CtlOpen | CtlCall (s : selector) (scalars : list Z) (struct_in : list Z) | CtlSleep | CtlLine (l : line) | CtlClose.

(** The kernel's answer to a call: its code, the state and RSSI of a state
    result, the output buffer and its length. *)
Record answer := mk_answer { a_kr : Z; a_state : Z; a_rssi : Z; a_buf : list Z; a_len : Z }.
Definition KERN_SUCCESS : Z := 0.

(** One connection: the calls so far, in order. *)
Definition kernel := list ctl_event -> answer.

Section ctl.
Context (open_ok : bool) (K : kernel).

Definition say (l : line) (w : list ctl_event) : list ctl_event := w ++ [CtlLine l].
Definition kernel_call (s : selector) (scalars struct_in : list Z) (w : list ctl_event) : answer * list ctl_event :=
  let w := w ++ [CtlCall s scalars struct_in] in (K w, w).
Definition nap (w : list ctl_event) : list ctl_event := w ++ [CtlSleep].

Definition state_name (s : Z) : string :=
  if s =? 0 then "idle" else if s =? 1 then "scanning" else if s =? 2 then "authenticating"
  else if s =? 3 then "associating" else if s =? 4 then "handshaking" else if s =? 5 then "connected"
  else if s =? 6 then "disconnecting" else "unknown".

Definition open_kext (w : list ctl_event) : bool * list ctl_event :=
  if open_ok then (true, w ++ [CtlOpen]) else (false, say LOpenFailed w).

(** The buffer is 4095 zero bytes before the call; [None]: a fault of the
    reader ([Bss.cmd_list]). *)
Definition ctl_list (w : list ctl_event) : option (Z * list ctl_event) :=
  let '(a, w) := kernel_call kRTW88GetBSSList [] [] w in
  if negb (a_kr a =? KERN_SUCCESS) then Some (1, say LFailed w)
  else
    let w := say LListHeader w in
    es ← cmd_list (a_buf a) (a_len a);
    Some (0, fold_left (fun w e => say (LEntry e) w) es w).

(** The loop of [cmd_scan]: whether the scan was seen to end. *)
Fixpoint scan_poll (n : nat) (w : list ctl_event) : bool * list ctl_event :=
  match n with
  | O => (false, w)
  | S n =>
      let w := say LDot (nap w) in
      let '(a, w) := kernel_call kRTW88GetState [] [] w in
      if (a_kr a =? KERN_SUCCESS) && negb (a_state a =? 1) then (true, w) else scan_poll n w
  end.
Definition cmd_scan (wait_secs : Z) (w : list ctl_event) : option (Z * list ctl_event) :=
  let '(a, w) := kernel_call kRTW88Scan [] [] w in
  if negb (a_kr a =? KERN_SUCCESS) then Some (1, say LFailed w)
  else
    let '(done, w) := scan_poll (Z.to_nat wait_secs) (say LScanning w) in
    ctl_list (if done then w else say LPartial w).

(** [struct RTW88ConnectArgs], zeroed and filled by [strlcpy]; [ssid] and [pass]
    are the arguments without their terminators. *)
Definition connect_args (ssid : list Z) (pass : option (list Z)) : option (list Z) :=
  s ← strlcpy (zeros sizeof_ssid) (ssid ++ [0]) sizeof_ssid;
  p ← match pass with
      | Some pass => strlcpy (zeros sizeof_password) (pass ++ [0]) sizeof_password
      | None => Some (zeros sizeof_password)
      end;
  Some (s ++ p).
(** The loop of [cmd_connect]: [i] counts up to [i + n]. *)
Fixpoint connect_poll (n : nat) (i : Z) (w : list ctl_event) : Z * list ctl_event :=
  match n with
  | O => (1, say LTimedOut w)
  | S n =>
      let '(a, w) := kernel_call kRTW88GetState [] [] (nap w) in
      if a_kr a =? KERN_SUCCESS then
        let w := say (LState (state_name (a_state a))) w in
        if a_state a =? 5 then (0, say (LConnected (a_rssi a)) w)
        else if (a_state a =? 0) && (3 <? i) then (1, say LConnectFailed w)
        else connect_poll n (i + 1) w
      else connect_poll n (i + 1) w
  end.
Definition cmd_connect (ssid : list Z) (pass : option (list Z)) (w : list ctl_event) : option (Z * list ctl_event) :=
  args ← connect_args ssid pass;
  let '(a, w) := kernel_call kRTW88Connect [] args w in
  if negb (a_kr a =? KERN_SUCCESS) then Some (1, say LFailed w)
  else Some (connect_poll 30 0 (say LConnecting w)).

Definition cmd_disconnect (w : list ctl_event) : Z * list ctl_event :=
  let '(a, w) := kernel_call kRTW88Disconnect [] [] w in
  if negb (a_kr a =? KERN_SUCCESS) then (1, say LFailed w) else (0, say LDisconnected w).
Definition cmd_status (w : list ctl_event) : Z * list ctl_event :=
  let '(a, w) := kernel_call kRTW88GetState [] [] w in
  if negb (a_kr a =? KERN_SUCCESS) then (1, say LFailed w)
  else
    let w := say LStatus (say (LState (state_name (a_state a))) w) in
    (0, if a_state a =? 5 then say LLink w else w).
(** [fwrite] of [sz] bytes of a buffer of 4096. *)
Definition cmd_log (w : list ctl_event) : option (Z * list ctl_event) :=
  let '(a, w) := kernel_call kRTW88GetLog [] [] w in
  if negb (a_kr a =? KERN_SUCCESS) then Some (1, say LFailed w)
  else text ← ldn (a_buf a) 0 (a_len a); Some (0, say (LLog text) w).
(** [(uint64_t)level] of an int. *)
Definition cmd_debug (level : Z) (w : list ctl_event) : Z * list ctl_event :=
  let '(a, w) := kernel_call kRTW88SetDebug [u64 level] [] w in
  if negb (a_kr a =? KERN_SUCCESS) then (1, say LFailed w) else (0, say (LDebug level) w).
Definition cmd_power (on : bool) (w : list ctl_event) : Z * list ctl_event :=
  let '(a, w) := kernel_call (if on then kRTW88PowerOn else kRTW88PowerOff) [] [] w in
  if negb (a_kr a =? KERN_SUCCESS) then (1, say LFailed w) else (0, say (LPower on) w).

(** [atoi]: white space, a sign, digits; the value as an int. *)
Definition is_space (c : Z) : bool := (c =? 32) || ((9 <=? c) && (c <=? 13)).
Fixpoint skip_spaces (s : list Z) : list Z :=
  match s with c :: r => if is_space c then skip_spaces r else s | [] => [] end.
Fixpoint digits (acc : Z) (s : list Z) : Z :=
  match s with c :: r => if (48 <=? c) && (c <=? 57) then digits (acc * 10 + (c - 48)) r else acc | [] => acc end.
Definition atoi (s : list Z) : Z :=
  signed 32 (match skip_spaces s with
    | c :: r => if c =? 45 then - digits 0 r else if c =? 43 then digits 0 r else digits 0 (c :: r)
    | [] => 0 end).

(** [getopt w]: the options it returns for the arguments from the command on,
    each with its argument. *)
Context (getopt : list (list Z) -> list (Z * list Z)).
Definition scan_wait (opts : list (Z * list Z)) : Z :=
  fold_left (fun wait '(opt, optarg) => if opt =? 119 then atoi optarg else wait) opts 10.

Definition is_cmd (c : list Z) (name : string) : bool := bool_decide (c = chars name).
(** The dispatch of [main], with a connection; [cmd] is argv[1] and [rest] what
    follows it. *)
Definition dispatch (cmd : list Z) (rest : list (list Z)) (w : list ctl_event) : option (Z * list ctl_event) :=
  if is_cmd cmd "scan" then cmd_scan (scan_wait (getopt (cmd :: rest))) w
  else if is_cmd cmd "list" then ctl_list w
  else if is_cmd cmd "connect" then
    match rest with
    | [] => Some (1, say LNeedsSsid w)
    | ssid :: more => cmd_connect ssid (head more) w
    end
  else if is_cmd cmd "disconnect" then Some (cmd_disconnect w)
  else if is_cmd cmd "power" then
    match rest with
    | x :: _ => if negb (is_cmd x "on") && negb (is_cmd x "off") then Some (1, say LNeedsOnOff w) else Some (cmd_power (is_cmd x "on") w)
    | [] => Some (1, say LNeedsOnOff w)
    end
  else if is_cmd cmd "status" then Some (cmd_status w)
  else if is_cmd cmd "log" then cmd_log w
  else if is_cmd cmd "debug" then
    match rest with [] => Some (1, say LNeedsLevel w) | level :: _ => Some (cmd_debug (atoi level) w) end
  else Some (1, say LUsage (say LUnknown w)).

(** [argv] from the command on. *)
Definition main (argv : list (list Z)) : option (Z * list ctl_event) :=
  match argv with
  | [] => Some (1, say LUsage [])
  | cmd :: rest =>
      let '(ok, w) := open_kext [] in
      if negb ok then Some (1, w)
      else '(ret, w) ← dispatch cmd rest w; Some (ret, w ++ [CtlClose])
  end.
End ctl.

(** ** Documented behaviour of the kernel *)

(** The names of a list as it is on the wire: in every entry the reader takes,
    the length byte is at most 32. *)
Fixpoint names_fit (fuel : nat) (p : list Z) : bool :=
  match fuel, p with
  | S k, n :: q => if zlen q <? n + 6 + 2 + 1 + 4 then true else (n <=? 32) && names_fit k (zdrop (n + 13) q)
  | _, _ => true
  end.
Definition list_fits (buf : list Z) (len : Z) : bool :=
  (len <? 4) || names_fit (length buf) (zdrop 4 (ztake (Z.min len (le_val (ztake 4 buf))) buf)).

(** A successful call of the list or of the log fills a part of the buffer it
    is given, with bytes; a list has no name longer than 32 bytes.  That is
    how the station writes it ([list_written_fits]); [cmd_list] itself does not
    check ([long_name_overruns]). *)
Definition kernel_ok (K : kernel) : Prop := forall w s scalars b, let a := K (w ++ [CtlCall s scalars b]) in
  a_kr a = KERN_SUCCESS ->
  match s with
  | kRTW88GetBSSList => bytes_ok (a_buf a) /\ 0 <= a_len a <= zlen (a_buf a) /\ list_fits (a_buf a) (a_len a) = true
  | kRTW88GetLog => 0 <= a_len a <= zlen (a_buf a)
  | _ => True
  end.
(** Arguments of a process: bytes, no terminator inside. *)
Definition arg_ok (s : list Z) : Prop := bytes_ok s /\ ~ In 0 s.

(** ** The list reader *)

Lemma read_entries_fit fuel : forall p, bytes_ok p -> (length p <= fuel)%nat -> names_fit fuel p = true -> exists es, read_entries fuel p = Some es.
Proof.
  induction fuel as [|fuel IH]; intros p Hb Hl Hf; (destruct p as [|n q]; [by exists []|]); [cbn in Hl; lia|].
  cbn [names_fit read_entries] in *. rewrite (proj2 (Z.ltb_ge _ _)) by (rewrite zlen_cons; pose proof (zlen_nonneg q); lia).
  change (ld (n :: q) 0) with (Some n). cbn [mbind option_bind]. change (zdrop 1 (n :: q)) with q.
  apply Forall_cons in Hb as [Hn Hq]. unfold in_range in Hn. destruct (Z.ltb_spec (zlen q) (n + 6 + 2 + 1 + 4)) as [|Hz]; [by eexists|].
  apply andb_prop in Hf as [Hn32 Hf]. apply Z.leb_le in Hn32. cbn [length] in Hl.
  rewrite (ldn_Some q 0 n), zdrop_0 by lia. cbn [mbind option_bind]. rewrite stn_Some by (rewrite ?zlen_ztake; change (zlen (zeros 33)) with 33; lia). cbn [mbind option_bind].
  rewrite (ldn_Some (zdrop n q) 0 6) by (rewrite ?zlen_zdrop; lia). cbn [mbind option_bind]. rewrite (zdrop_zdrop 6 n), (zdrop_zdrop 2 (n + 6)), (zdrop_zdrop 1 (n + 6 + 2)), (zdrop_zdrop 4 (n + 6 + 2 + 1)) by lia.
  destruct (ld_Some (zdrop (n + 6) q) 0) as [r0 ->]; [rewrite zlen_zdrop; lia|]. destruct (ld_Some (zdrop (n + 6) q) 1) as [r1 ->]; [rewrite zlen_zdrop; lia|].
  cbn [mbind option_bind]. destruct (ld_Some (zdrop (n + 6 + 2) q) 0) as [ch ->]; [rewrite zlen_zdrop; lia|]. cbn [mbind option_bind].
  rewrite ldn_Some by (rewrite ?zlen_zdrop; lia). cbn [mbind option_bind]. replace (n + 6 + 2 + 1 + 4) with (n + 13) by lia.
  destruct (IH (zdrop (n + 13) q)) as [es ->]; [by apply Forall_drop|unfold zdrop; rewrite length_drop; lia|done|]. by eexists.
Qed.

Lemma cmd_list_fit buf len : bytes_ok buf -> 0 <= len <= zlen buf -> list_fits buf len = true -> exists es, cmd_list buf len = Some es.
Proof.
  intros Hb Hl. unfold list_fits, cmd_list. destruct (Z.ltb_spec len 4) as [|H4]; [by eexists|]. cbn [orb]. intros Hf.
  rewrite ldn_Some by lia. cbn [mbind option_bind]. rewrite zdrop_0. set (e := le_val (ztake 4 buf)) in *.
  replace (if len <? e then len else e) with (Z.min len e) by case_cmp. apply read_entries_fit; [by apply Forall_drop, Forall_take| |done].
  unfold zdrop, ztake. rewrite length_drop, length_take. lia.
Qed.

(** What the station writes for a well-formed list fits. *)
Lemma names_written_fit fs : Forall bss_wf fs -> forall fuel, names_fit fuel (concat (map enc_entry fs)) = true.
Proof.
  induction 1 as [|b fs W _ IH]; intros fuel; [by destruct fuel|]. destruct fuel as [|fuel]; [done|]. cbn [map concat]. pose proof (zlen_enc_entry b W) as He.
  pose proof W as (_ & Wl & _). unfold entry_sz in He. set (tl := concat (map enc_entry fs)) in *.
  assert (enc_entry b = ssid_len b :: zdrop 1 (enc_entry b)) as Eb by done. rewrite Eb. cbn [app names_fit].
  set (q := zdrop 1 (enc_entry b)) in *. assert (zlen q = ssid_len b + 13) as Hq by (unfold q; rewrite zlen_zdrop; lia).
  destruct (_ <? _); [done|]. rewrite (proj2 (Z.leb_le _ _)) by lia. cbn [andb]. by rewrite zdrop_app_exact' by lia.
Qed.
Lemma list_written_fits t buf buf' len n : Forall entry_ok (bssList t) -> zlen buf = len -> 4 <= len < 2 ^ 32 ->
  cmdGetBSSList t buf len = Some (buf', n) -> list_fits buf' n = true /\ 0 <= n <= zlen buf'.
Proof.
  intros Hf Hb Hl E. destruct t as [l c]. cbn [bssList] in *. assert (Forall bss_wf l) as Hw by (eapply Forall_impl; [exact Hf|by intros ? [? _]]).
  destruct (cmdGetBSSList_ok l c buf len Hw Hb Hl) as (b2 & E2 & Hz & Ht & Hn). cbn zeta in *. rewrite E in E2. injection E2 as <- E2. rewrite <- E2 in *.
  set (fs := fitting _ _ l) in *. pose proof (zlen_nonneg (concat (map enc_entry fs))). split; [|lia].
  assert (ztake 4 buf' = le_bytes 4 n) as E4.
  { transitivity (ztake 4 (ztake n buf')); [rewrite ztake_ztake; f_equal; lia|]. rewrite Ht. by apply ztake_app_exact'. }
  unfold list_fits. rewrite E4, le_val_bytes by (unfold in_range; lia). rewrite Z.min_id, Ht, zdrop_app_exact' by by rewrite zlen_le_bytes.
  rewrite names_written_fit; [apply orb_true_r|]. by apply fitting_Forall.
Qed.

(** ** What a command does with its connection *)

(** The calls of a trace; every argument of a connect call is a structure the
    user client takes. *)
Definition is_call (e : ctl_event) : bool := match e with CtlCall _ _ _ => true | _ => false end.
Definition calls_of (w : list ctl_event) : list ctl_event := List.filter is_call w.
Definition inner (e : ctl_event) : Prop :=
  match e with
  | CtlOpen | CtlClose => False
  | CtlCall kRTW88Connect _ b => zlen b = sizeof_RTW88ConnectArgs /\ bytes_ok b /\ cstr_ok (zdrop sizeof_ssid b)
  | _ => True
  end.
(** The trace extends by inner events with at most [n] calls. *)
Definition extends (n : Z) (w w' : list ctl_event) : Prop :=
  exists d, w' = w ++ d /\ Forall inner d /\ zlen (calls_of d) <= n.

Lemma extends_refl w : extends 0 w w.
Proof. exists []. rewrite app_nil_r. split_and!; [done|constructor|done]. Qed.
Lemma extends_trans n m k w w' w'' : extends n w w' -> extends m w' w'' -> n + m <= k -> extends k w w''.
Proof.
  intros (d & -> & H1 & L1) (e & -> & H2 & L2) Hk. exists (d ++ e). rewrite app_assoc. split_and!; [done|by apply Forall_app|].
  unfold calls_of in *. rewrite List.filter_app, zlen_app. lia.
Qed.
Lemma extends_event n e w : inner e -> (if is_call e then 1 else 0) <= n -> extends n w (w ++ [e]).
Proof.
  intros He Hn. exists [e]. split_and!; [done|by constructor|]. unfold calls_of. simpl. by destruct (is_call e).
Qed.
Lemma extends_say n l w w' : extends n w w' -> extends n w (say l w').
Proof. intros H. eapply extends_trans; [exact H|by apply (extends_event 0)|lia]. Qed.
Lemma extends_le n m w w' : extends n w w' -> n <= m -> extends m w w'.
Proof. intros (d & ? & ? & ?) Hm. exists d. split_and!; [done|done|lia]. Qed.
Lemma extends_nap n w w' : extends n w w' -> extends n w (nap w').
Proof. intros H. eapply extends_trans; [exact H|by apply (extends_event 0)|lia]. Qed.
Lemma extends_call n s sc b w w' : inner (CtlCall s sc b) -> extends n w w' -> extends (n + 1) w (w' ++ [CtlCall s sc b]).
Proof. intros Hi H. eapply extends_trans; [exact H|by apply (extends_event 1)|lia]. Qed.
Create HintDb ctl.
#[export] Hint Resolve extends_refl extends_say extends_nap : ctl.

(** A command: it answers 0 or 1 within [n] calls. *)
Definition behaves (n : Z) (w : list ctl_event) (r : option (Z * list ctl_event)) : Prop :=
  exists ret w', r = Some (ret, w') /\ (ret = 0 \/ ret = 1) /\ extends n w w'.

Section proofs.
Context (K : kernel) (HK : kernel_ok K) (getopt : list (list Z) -> list (Z * list Z)).

(** One call, answered or not, and a line. *)
Lemma plain_call (w : list ctl_event) s sc l : inner (CtlCall s sc []) ->
  behaves 1 w (Some (let '(a, w') := kernel_call K s sc [] w in if negb (a_kr a =? KERN_SUCCESS) then (1, say LFailed w') else (0, say l w'))).
Proof.
  intros Hi. unfold behaves, kernel_call. pose proof (extends_call 0 s sc [] w w Hi (extends_refl w)) as Hg.
  destruct (negb _); eauto 8 with ctl.
Qed.

Lemma lines_extend es : forall n w w', extends n w w' -> extends n w (fold_left (fun w e => say (LEntry e) w) es w').
Proof. induction es as [|e es IH]; intros n w w' H; [done|]. simpl. apply IH. by apply extends_say. Qed.

Lemma list_behaves n w w' : extends n w w' -> behaves (n + 1) w (ctl_list K w').
Proof.
  intros H. unfold behaves, ctl_list, kernel_call. pose proof (extends_call n kRTW88GetBSSList [] [] w w' Logic.I H) as Hg.
  destruct (Z.eqb_spec (a_kr (K (w' ++ [CtlCall kRTW88GetBSSList [] []]))) KERN_SUCCESS) as [Ek|]; cbn [negb]; [|eauto 8 with ctl].
  destruct (HK w' kRTW88GetBSSList [] [] Ek) as (Hb & Hl & Hf). destruct (cmd_list_fit _ _ Hb Hl Hf) as [es ->].
  cbn [mbind option_bind]. eexists _, _. split; [done|]. split; [by left|]. apply lines_extend. auto with ctl.
Qed.

Lemma scan_poll_extends k : forall n w w', extends n w w' -> extends (n + Z.of_nat k) w (snd (scan_poll K k w')).
Proof.
  induction k as [|k IH]; intros n w w' H; cbn [scan_poll]; [eapply extends_le; [exact H|lia]|]. unfold kernel_call.
  pose proof (extends_call n kRTW88GetState [] [] w (say LDot (nap w')) Logic.I) as Hg.
  assert (H1 : extends (n + 1) w (say LDot (nap w') ++ [CtlCall kRTW88GetState [] []])) by auto with ctl.
  destruct (_ && _); [eapply extends_le; [exact H1|lia]|]. eapply extends_le; [apply (IH (n + 1)); exact H1|lia].
Qed.
Lemma scan_behaves wait w : behaves (2 + Z.max 0 wait) w (cmd_scan K wait w).
Proof.
  unfold cmd_scan, kernel_call. pose proof (extends_call 0 kRTW88Scan [] [] w w Logic.I (extends_refl w)) as Hg.
  destruct (negb _).
  - eexists _, _. split; [done|]. split; [by right|]. eapply extends_le; [apply extends_say; exact Hg|lia].
  - destruct (scan_poll K (Z.to_nat wait) _) as [done w'] eqn:E.
    pose proof (scan_poll_extends (Z.to_nat wait) 1 w (say LScanning (w ++ [CtlCall kRTW88Scan [] []])) ltac:(by apply extends_say)) as H.
    rewrite E in H. simpl in H. replace (2 + Z.max 0 wait) with (1 + Z.of_nat (Z.to_nat wait) + 1) by lia.
    apply list_behaves. destruct done; auto with ctl.
Qed.

Lemma connect_poll_extends k : forall n i w w', extends n w w' ->
  let r := connect_poll K k i w' in (fst r = 0 \/ fst r = 1) /\ extends (n + Z.of_nat k) w (snd r).
Proof.
  induction k as [|k IH]; intros n i w w' H; cbn [connect_poll].
  - split; [by right|]. apply extends_say. eapply extends_le; [exact H|lia].
  - unfold kernel_call. set (w1 := nap w' ++ [CtlCall kRTW88GetState [] []]).
    assert (H1 : extends (n + 1) w w1) by (apply (extends_call n kRTW88GetState [] [] w (nap w') Logic.I); auto with ctl).
    assert (Hrest : forall w2, extends (n + 1) w w2 -> let r := connect_poll K k (i + 1) w2 in
      (fst r = 0 \/ fst r = 1) /\ extends (n + Z.of_nat (S k)) w (snd r)).
    { intros w2 H2. destruct (IH (n + 1) (i + 1) w w2 H2) as [Hr Hg]. split; [done|]. eapply extends_le; [exact Hg|lia]. }
    destruct (a_kr (K w1) =? KERN_SUCCESS); [|by apply Hrest]. destruct (a_state (K w1) =? 5).
    + split; [by left|]. simpl. do 2 apply extends_say. eapply extends_le; [exact H1|lia].
    + destruct (_ && _); [split; [by right|]; do 2 apply extends_say; eapply extends_le; [exact H1|lia]|].
      apply Hrest. auto with ctl.
Qed.

(** ** The structure of a connect call *)

(** The prefix of an argument that fits a field. *)
Definition field (n : Z) (s : list Z) : list Z := ztake (n - 1) s.
Lemma strlen_arg s : ~ In 0 s -> strlen (s ++ [0]) = Some (zlen s).
Proof.
  induction s as [|c s IH]; intros H; [done|]. simpl. destruct (Z.eqb_spec c 0) as [->|]; [by destruct H; left|].
  rewrite IH by (intros ?; apply H; by right). cbn [mbind option_bind]. by rewrite zlen_cons.
Qed.
Lemma strlcpy_arg s n : ~ In 0 s -> 0 < n ->
  strlcpy (zeros n) (s ++ [0]) n = Some (field n s ++ zeros (n - zlen (field n s))).
Proof.
  intros Hs Hn. unfold strlcpy, field. rewrite strlen_arg by done. cbn [mbind option_bind]. pose proof (zlen_nonneg s).
  set (v := ztake (n - 1) s). assert (Hz : zlen v = Z.min (zlen s) (n - 1)) by (unfold v; rewrite zlen_ztake; lia).
  assert (Hl : ldn (s ++ [0]) 0 (zlen v) = Some v).
  { rewrite <- (ztake_zdrop (n - 1) s), <- app_assoc. by apply ldn_app_0. }
  rewrite <- Hz, Hl. cbn [mbind option_bind].
  rewrite stn_Some by (rewrite ?zlen_app, ?zlen_zeros; change (zlen [0]) with 1; lia).
  rewrite ztake_0. cbn [app]. rewrite zlen_app. change (zlen [0]) with 1. f_equal.
  assert (Ez : zeros n = zeros (zlen v + 1) ++ zeros (n - (zlen v + 1))) by (rewrite zeros_app by lia; f_equal; lia).
  rewrite Ez, zdrop_app_exact' by (rewrite zlen_zeros; lia).
  rewrite <- app_assoc. f_equal. change [0] with (zeros 1). rewrite zeros_app by lia. f_equal. lia.
Qed.
Lemma field_ok n s : bytes_ok s -> 0 < n -> let f := field n s ++ zeros (n - zlen (field n s)) in zlen f = n /\ cstr_ok f.
Proof.
  intros Hs Hn. unfold field. set (v := ztake (n - 1) s). pose proof (zlen_nonneg v).
  assert (Hz : zlen v <= n - 1) by (unfold v; rewrite zlen_ztake; lia). split; [rewrite zlen_app, zlen_zeros; lia|].
  split.
  - apply Forall_app. split; [by apply Forall_take|apply bytes_zeros].
  - apply in_or_app. right. unfold zeros. replace (Z.to_nat (n - zlen v)) with (S (Z.to_nat (n - zlen v - 1))) by lia. by left.
Qed.

(** What [cmd_connect] sends: each argument's prefix that fits its field, filled
    up with zeros; the user client reads back these prefixes. *)
Lemma connect_args_exact ssid pass : arg_ok ssid -> (forall p, pass = Some p -> arg_ok p) ->
  exists b, connect_args ssid pass = Some b /\ zlen b = sizeof_RTW88ConnectArgs /\ bytes_ok b /\
    cstr_ok (zdrop sizeof_ssid b) /\
    b = (field 33 ssid ++ zeros (33 - zlen (field 33 ssid))) ++ field 64 (default [] pass) ++ zeros (64 - zlen (field 64 (default [] pass))).
Proof.
  intros [Hs Hs0] Hp. unfold connect_args, sizeof_ssid, sizeof_password.
  rewrite strlcpy_arg by done. cbn [mbind option_bind]. destruct (field_ok 33 ssid Hs eq_refl) as [L1 [B1 _]].
  set (x := field 33 ssid ++ _) in *.
  assert (H : exists y, match pass with Some p => strlcpy (zeros 64) (p ++ [0]) 64 | None => Some (zeros 64) end = Some y /\
    y = field 64 (default [] pass) ++ zeros (64 - zlen (field 64 (default [] pass))) /\ zlen y = 64 /\ cstr_ok y).
  { destruct pass as [p|]; simpl.
    - destruct (Hp p eq_refl) as [Hb H0]. rewrite strlcpy_arg by done. eexists. split; [done|]. split; [done|]. by apply field_ok.
    - eexists. split; [done|]. split; [done|]. by apply (field_ok 64 []). }
  destruct H as (y & -> & Ey & L2 & C2). cbn [mbind option_bind]. exists (x ++ y). split; [done|].
  split; [rewrite zlen_app, L1, L2; done|]. split; [apply Forall_app; split; [done|apply C2]|].
  rewrite zdrop_app_exact' by done. split; [done|]. by rewrite Ey.
Qed.

Lemma connect_behaves ssid pass w : arg_ok ssid -> (forall p, pass = Some p -> arg_ok p) ->
  behaves 31 w (cmd_connect K ssid pass w).
Proof.
  intros Hs Hp. destruct (connect_args_exact ssid pass Hs Hp) as (b & E & H1 & H2 & H3 & _).
  unfold cmd_connect, kernel_call. rewrite E. cbn [mbind option_bind].
  pose proof (extends_call 0 kRTW88Connect [] b w w (conj H1 (conj H2 H3)) (extends_refl w)) as Hg. simpl in Hg.
  destruct (negb _).
  - eexists _, _. split; [done|]. split; [by right|]. eapply extends_le; [apply extends_say; exact Hg|lia].
  - destruct (connect_poll_extends 30 1 0 w _ (extends_say _ LConnecting _ _ Hg)) as [Hr Hw].
    destruct (connect_poll K 30 0 _) as [ret w']. eexists _, _. split; [done|]. split; [done|]. exact Hw.
Qed.

(** ** Every command *)

(** The calls a command may make: those of a scan wait as long as asked. *)
Definition call_bound (cmd : list Z) (rest : list (list Z)) : Z :=
  if is_cmd cmd "scan" then 2 + Z.max 0 (scan_wait (getopt (cmd :: rest))) else if is_cmd cmd "connect" then 31 else 1.

Lemma behaves_say n l w : 0 <= n -> behaves n w (Some (1, say l w)).
Proof. intros Hn. eexists _, _. split; [done|]. split; [by right|]. eapply extends_le; [apply extends_say, extends_refl|done]. Qed.
Lemma log_behaves w : behaves 1 w (cmd_log K w).
Proof.
  unfold cmd_log, kernel_call. pose proof (extends_call 0 kRTW88GetLog [] [] w w Logic.I (extends_refl w)) as Hg.
  destruct (Z.eqb_spec (a_kr (K (w ++ [CtlCall kRTW88GetLog [] []]))) KERN_SUCCESS) as [Ek|]; cbn [negb]; [|eexists _, _; split; [done|]; split; [by right|by apply extends_say]].
  pose proof (HK w kRTW88GetLog [] [] Ek) as Hl. cbn in Hl. rewrite ldn_Some by lia. cbn [mbind option_bind]. eexists _, _. split; [done|].
  split; [by left|by apply extends_say].
Qed.
Lemma status_behaves w : behaves 1 w (Some (cmd_status K w)).
Proof.
  unfold cmd_status, kernel_call. pose proof (extends_call 0 kRTW88GetState [] [] w w Logic.I (extends_refl w)) as Hg.
  set (w1 := w ++ [_]) in *. destruct (negb _); eexists _, _; (split; [done|]); (split; [auto|]); [by apply extends_say|].
  destruct (a_state (K w1) =? 5); auto with ctl.
Qed.
Lemma debug_behaves level w : behaves 1 w (Some (cmd_debug K level w)).
Proof.
  unfold cmd_debug, kernel_call. pose proof (extends_call 0 kRTW88SetDebug [u64 level] [] w w Logic.I (extends_refl w)) as Hg.
  destruct (negb _); eexists _, _; (split; [done|]); (split; [auto|]); by apply extends_say.
Qed.

Lemma dispatch_behaves cmd rest w : Forall arg_ok rest -> behaves (call_bound cmd rest) w (dispatch K getopt cmd rest w).
Proof.
  intros Hr. unfold dispatch, call_bound. destruct (is_cmd cmd "scan"); [apply scan_behaves|].
  destruct (is_cmd cmd "list") eqn:El; [|destruct (is_cmd cmd "connect")].
  - assert (Hc : is_cmd cmd "connect" = false) by (apply bool_decide_eq_true in El as ->; reflexivity). rewrite Hc.
    apply (list_behaves 0), extends_refl.
  - destruct rest as [|ssid more]; [by apply behaves_say|]. apply Forall_cons in Hr as [Hs Hm]. apply connect_behaves; [done|].
    intros p Hp. destruct more as [|x more]; [done|]. injection Hp as <-. by apply Forall_cons in Hm as [? _].
  - destruct (is_cmd cmd "disconnect"); [by apply plain_call|]. destruct (is_cmd cmd "power").
    { destruct rest as [|x rest]; [by apply behaves_say|]. destruct (_ && _); [by apply behaves_say|].
      unfold cmd_power. destruct (is_cmd x "on"); by apply plain_call. }
    destruct (is_cmd cmd "status"); [apply status_behaves|]. destruct (is_cmd cmd "log"); [apply log_behaves|].
    destruct (is_cmd cmd "debug"); [destruct rest; [by apply behaves_say|apply debug_behaves]|].
    eexists _, _. split; [done|]. split; [by right|]. eapply extends_le; [do 2 apply extends_say; apply extends_refl|done].
Qed.

(** A connect command that answers 0 has seen the state connected, in an answer
    to its last call. *)
Lemma connect_poll_zero k : forall i w, fst (connect_poll K k i w) = 0 ->
  exists w1 l, a_state (K (w1 ++ [CtlCall kRTW88GetState [] []])) = 5 /\
    snd (connect_poll K k i w) = w1 ++ CtlCall kRTW88GetState [] [] :: l /\ calls_of l = [].
Proof.
  induction k as [|k IH]; intros i w H; cbn [connect_poll] in *; [done|]. unfold kernel_call in *.
  destruct (a_kr _ =? KERN_SUCCESS); [|by apply IH]. destruct (Z.eqb_spec (a_state (K (nap w ++ [CtlCall kRTW88GetState [] []]))) 5) as [E|].
  - eexists (nap w), [_; _]. split; [done|].
    split; [simpl; unfold say; by rewrite <- !app_assoc|done].
  - destruct (_ && _); [done|by apply IH].
Qed.
End proofs.

(** C36: rtw88ctl ends, with a status, and closes what it opened.  For every
    command line and every kernel that answers the list and the log within the
    buffers it is given, and a list with no name longer than 32 bytes (every
    list that cmdGetBSSList writes is such a one, [list_written_fits]): [main]
    returns 0 or 1 without reading or writing outside an array; without a
    connection it makes no call; with one it closes it exactly once, at the end,
    after at most as many calls as the command allows (one, 31 for connect, the
    seconds asked for and two for scan); and the structure of every connect call
    has the size the user client asks for and strings that end inside it. *)
Theorem ctl_runs K getopt opened argv : kernel_ok K -> Forall arg_ok argv ->
  exists ret w, main opened K getopt argv = Some (ret, w) /\ (ret = 0 \/ ret = 1) /\
    match argv with
    | cmd :: rest =>
        if opened then exists body, w = CtlOpen :: body ++ [CtlClose] /\ Forall inner body /\ zlen (calls_of body) <= call_bound getopt cmd rest
        else Forall inner w /\ calls_of w = []
    | [] => Forall inner w /\ calls_of w = []
    end.
Proof.
  intros HK Ha. destruct argv as [|cmd rest]; [eexists _, _; split; [done|]; split; [by right|]; split; [by repeat constructor|done]|].
  apply Forall_cons in Ha as [_ Hr]. unfold main, open_kext. destruct opened; simpl.
  - destruct (dispatch_behaves K HK getopt cmd rest [CtlOpen] Hr) as (ret & w & -> & Hret & (d & -> & Hi & Hc)).
    cbn [mbind option_bind]. eexists _, _. split; [done|]. split; [done|]. exists d. by rewrite <- app_comm_cons.
  - eexists _, _. split; [done|]. split; [by right|]. split; [by repeat constructor|done].
Qed.

(** A kernel that reports a scan, then an idle station, then one that connects. *)
Definition demo_kernel : kernel := fun w =>
  let n := zlen (calls_of w) in mk_answer 0 (if n <? 3 then 1 else if n <? 6 then 0 else 5) (-40) [0; 0; 0; 0] 4.
Definition demo_getopt (l : list (list Z)) : list (Z * list Z) :=
  match l with [_; o; x] => if bool_decide (o = chars "-w") then [(119, x)] else [] | _ => [] end.
Lemma demo_kernel_ok : kernel_ok demo_kernel.
Proof. intros w s sc b. cbv zeta. intros _. destruct s; try done. split; [by apply bytes_okb_ok|done]. Qed.
Definition demo_argv : list (list Z) := [chars "connect"; chars "Home"; chars "password"].
Lemma demo_argv_ok : Forall arg_ok demo_argv.
Proof. repeat constructor; try done; simpl; intuition discriminate. Qed.
Lemma ctl_runs_witness :
  exists ret w, main true demo_kernel demo_getopt demo_argv = Some (ret, w) /\ (ret = 0 \/ ret = 1) /\
    exists body, w = CtlOpen :: body ++ [CtlClose] /\ Forall inner body /\
      zlen (calls_of body) <= call_bound demo_getopt (chars "connect") [chars "Home"; chars "password"].
Proof. exact (ctl_runs demo_kernel demo_getopt true demo_argv demo_kernel_ok demo_argv_ok). Defined.
Example demo_status : option_map (fun r => (fst r, zlen (calls_of (snd r)))) (main true demo_kernel demo_getopt demo_argv) = Some (0, 6).
Proof. vm_compute. reflexivity. Qed.
(** A name of 33 bytes leaves [cmd_list]'s string without its end; one of 34
    overruns the array. *)
Definition long_list (n : Z) : list Z := le_bytes 4 (18 + n) ++ [n] ++ replicate (Z.to_nat n) 65 ++ zeros 13.
Example long_name_overruns : cmd_list (long_list 34) 52 = None /\ list_fits (long_list 33) 51 = false /\ is_Some (cmd_list (long_list 32) 50).
Proof. split; [by vm_compute|]. split; [by vm_compute|]. eexists. vm_compute. reflexivity. Qed.
Example demo_scan : option_map (fun r => (fst r, zlen (calls_of (snd r))))
  (main true demo_kernel demo_getopt [chars "scan"; chars "-w"; chars " 5"]) = Some (0, 4).
Proof. vm_compute. reflexivity. Qed.
(** The debug level survives its passage through a 64-bit scalar. *)
Lemma debug_level_kept level : - 2 ^ 31 <= level < 2 ^ 31 -> signed 32 (u64 level) = level.
Proof.
  intros H. rewrite <- (signed_small 32 level) at 2 by done. unfold signed, wrap.
  by rewrite Z.mod_mod_divide, Z.mod_mod by (try done; by exists (2 ^ 32)).
Qed.
