(* ===== verification/ScanReport.v ===== *)
(** * Apple's scan result, from [src/src/kext/AirportRTW88.cpp]

    [fillScanResultFromBSS] turns an entry of the BSS list into the
    [apple80211_scan_result] that IO80211 reads: fixed arrays inside one
    structure, filled from the elements the beacon carried.  The constants and
    array sizes are those of the reference headers kept with the tests
    ([src/tests/fixtures/airportitlwm-2.3.0]); the code asserts the total size
    of 1164 bytes they give. *)

From S2P Require Import Prelude Rsn Bss.

Definition APPLE80211_VERSION : Z := 1.
Definition APPLE80211_ADDR_LEN : Z := 6.
Definition APPLE80211_MAX_RATES : Z := 15.
Definition APPLE80211_MAX_SSID_LEN : Z := 32.
Definition APPLE80211_C_FLAG_20MHZ : Z := 0x2.
Definition APPLE80211_C_FLAG_2GHZ : Z := 0x8.
Definition APPLE80211_C_FLAG_5GHZ : Z := 0x10.
Definition APPLE80211_C_FLAG_ACTIVE : Z := 0x80.
Definition sizeof_asr_ie_data : Z := 1024.

Record apple80211_channel := mk_achannel { ac_version : Z; ac_channel : Z; ac_flags : Z }.
Record apple80211_scan_result := mk_sr {
  asr_version : Z; asr_channel : apple80211_channel;
  asr_noise : Z; asr_snr : Z; asr_rssi : Z; asr_beacon_int : Z; asr_cap : Z; asr_age : Z;
  asr_bssid : list Z; asr_nrates : Z; asr_rates : list Z; asr_ssid_len : Z; asr_ssid : list Z;
  asr_ie_len : Z; asr_ie_data : list Z
}.
#[export] Instance eta_scan_result : Eta apple80211_scan_result := fun d =>
  mk_sr (asr_version d) (asr_channel d) (asr_noise d) (asr_snr d) (asr_rssi d) (asr_beacon_int d) (asr_cap d) (asr_age d)
    (asr_bssid d) (asr_nrates d) (asr_rates d) (asr_ssid_len d) (asr_ssid d) (asr_ie_len d) (asr_ie_data d).

(** The structure after [bzero]. *)
Definition zero_scan_result : apple80211_scan_result :=
  mk_sr 0 (mk_achannel 0 0 0) 0 0 0 0 0 0 (zeros 6) 0 (zeros APPLE80211_MAX_RATES) 0 (zeros APPLE80211_MAX_SSID_LEN) 0 (zeros sizeof_asr_ie_data).

Definition channel_flags (channel : Z) : Z :=
  APPLE80211_C_FLAG_ACTIVE .| APPLE80211_C_FLAG_20MHZ .| (if channel <=? 14 then APPLE80211_C_FLAG_2GHZ else APPLE80211_C_FLAG_5GHZ).

Definition i16 (z : Z) : Z := signed 16 z.

(** The first RSN element, from [pos]; [None]: an access out of bounds, or
    out of fuel. *)
Fixpoint rsn_loop (fuel : nat) (b : list Z) (ieLength pos : Z) (d : apple80211_scan_result) : option apple80211_scan_result :=
  if negb (pos + 2 <=? ieLength) then Some d
  else
    match fuel with
    | O => None
    | S fuel =>
        l ← ld b (pos + 1);
        let n := l + 2 in
        if ieLength - pos <? n then Some d
        else
          i ← ld b pos;
          if i =? 48 then
            let copyLen := if sizeof_asr_ie_data <? n then sizeof_asr_ie_data else n in
            v ← ldn b pos copyLen; data ← stn (asr_ie_data d) 0 v;
            Some (d <| asr_ie_data := data |> <| asr_ie_len := i16 copyLen |>)
          else rsn_loop fuel b ieLength (pos + n) d
    end.

(** The rates of one element: [n] bytes from [pos]. *)
Fixpoint put_rates (n : nat) (b : list Z) (pos : Z) (d : apple80211_scan_result) : option apple80211_scan_result :=
  match n with
  | O => Some d
  | S n =>
      if asr_nrates d <? APPLE80211_MAX_RATES then
        r ← ld b pos; rs ← st (asr_rates d) (asr_nrates d) r;
        put_rates n b (pos + 1) (d <| asr_rates := rs |> <| asr_nrates := u8 (asr_nrates d + 1) |>)
      else Some d
  end.
Fixpoint rates_loop (fuel : nat) (b : list Z) (ieLength pos : Z) (d : apple80211_scan_result) : option apple80211_scan_result :=
  if negb (pos + 2 <=? ieLength) then Some d
  else
    match fuel with
    | O => None
    | S fuel =>
        l ← ld b (pos + 1);
        let n := l + 2 in
        if ieLength - pos <? n then Some d
        else
          i ← ld b pos;
          d ← (if (i =? 1) || (i =? 50) then put_rates (Z.to_nat (n - 2)) b (pos + 2) d else Some d);
          rates_loop fuel b ieLength (pos + n) d
    end.

Definition fillScanResultFromBSS (b : RTW88BSS) (fullIEs : bool) : option apple80211_scan_result :=
  let d := zero_scan_result <| asr_version := APPLE80211_VERSION |>
             <| asr_channel := mk_achannel APPLE80211_VERSION (channel b) (channel_flags (channel b)) |>
             <| asr_noise := -95 |> <| asr_rssi := rssi b |> <| asr_snr := i16 (rssi b - -95) |>
             <| asr_beacon_int := i16 (beacon_interval b) |> <| asr_cap := i16 (capabilities b) |> <| asr_age := 0 |> in
  a ← ldn (bssid b) 0 APPLE80211_ADDR_LEN;
  let n := if APPLE80211_MAX_SSID_LEN <? ssid_len b then APPLE80211_MAX_SSID_LEN else ssid_len b in
  let d := d <| asr_bssid := a |> <| asr_ssid_len := n |> in
  d ← (if negb (n =? 0) then v ← ldn (ssid b) 0 n; s ← stn (asr_ssid d) 0 v; Some (d <| asr_ssid := s |>) else Some d);
  let ieLength := if sizeof_ies <? ies_len b then sizeof_ies else ies_len b in
  let d := d <| asr_ie_len := 0 |> in
  d ← (if (fullIEs : bool) then
         let ieCopy := if sizeof_asr_ie_data <? ieLength then sizeof_asr_ie_data else ieLength in
         if negb (ieCopy =? 0) then
           v ← ldn (ies b) 0 ieCopy; data ← stn (asr_ie_data d) 0 v;
           Some (d <| asr_ie_data := data |> <| asr_ie_len := i16 ieCopy |>)
         else Some d
       else rsn_loop (Z.to_nat ieLength) (ies b) ieLength 0 d);
  rates_loop (Z.to_nat ieLength) (ies b) ieLength 0 d.

(** ** What a scan result says of the elements *)

Definition is_rsn (e : Z * list Z) : bool := fst e =? 48.
Definition rates_of (es : list (Z * list Z)) : list Z := concat (map snd (filter (fun e => fst e = 1 \/ fst e = 50) es)).

(** The first RSN element with its header, if any. *)
Definition rsn_tlv (es : list (Z * list Z)) : list Z := match find is_rsn es with Some e => enc_ie e | None => [] end.

Lemma zlen_enc_ie e : zlen (enc_ie e) = 2 + zlen (snd e).
Proof. unfold enc_ie. zlen. Qed.

Lemma enc_ies_cons e es : enc_ies (e :: es) = enc_ie e ++ enc_ies es.
Proof. done. Qed.

(** Where a loop stands: [pre] is behind it, the elements [es] and the tail
    [junk] before it. *)
Section walk.
Context (pre junk post : list Z) (es : list (Z * list Z)).
Let b := pre ++ enc_ies es ++ junk ++ post.
Let L := zlen pre + zlen (enc_ies es) + zlen junk.

Lemma walk_end : es = [] -> no_element junk ->
  (zlen pre + 2 <=? L) = false \/ exists l, ld b (zlen pre + 1) = Some l /\ (L - zlen pre <? l + 2) = true.
Proof.
  intros -> [Hj|(i & n & r & Hj & Hr)]; unfold L, b; change (enc_ies []) with (@nil Z); rewrite zlen_nil.
  - left. lia.
  - right. exists n. rewrite Hj. cbn [app]. replace (zlen pre + 1) with (zlen (pre ++ [i])) by zlen.
    split; [|rewrite !zlen_cons; lia]. change (pre ++ i :: n :: r ++ post) with (pre ++ [i] ++ n :: r ++ post). rewrite app_assoc. apply ld_middle.
Qed.

Lemma walk_element i v es' : es = (i, v) :: es' -> (zlen pre + 2 <=? L) = true /\ ld b (zlen pre) = Some i /\
  ld b (zlen pre + 1) = Some (zlen v) /\ (L - zlen pre <? zlen v + 2) = false /\ ldn b (zlen pre) (zlen v + 2) = Some (enc_ie (i, v)).
Proof.
  intros ->. pose proof (zlen_nonneg v). pose proof (zlen_nonneg junk). pose proof (zlen_nonneg (enc_ies es')). unfold L, b. rewrite enc_ies_cons.
  split; [rewrite zlen_app, zlen_enc_ie; cbn [snd]; lia|]. split; [apply ld_middle|]. split.
  - replace (zlen pre + 1) with (zlen (pre ++ [i])) by zlen. unfold enc_ie. cbn [fst snd app].
    change (pre ++ i :: zlen v :: (v ++ enc_ies es') ++ junk ++ post) with (pre ++ [i] ++ zlen v :: (v ++ enc_ies es') ++ junk ++ post). rewrite app_assoc. apply ld_middle.
  - split; [rewrite zlen_app, zlen_enc_ie; cbn [snd]; lia|]. rewrite <- app_assoc. apply ldn_app_exact; [done|]. rewrite zlen_enc_ie. cbn [snd]. lia.
Qed.
End walk.

(** Move one element behind the loop. *)
Lemma walk_next pre e es junk post : pre ++ enc_ies (e :: es) ++ junk ++ post = (pre ++ enc_ie e) ++ enc_ies es ++ junk ++ post /\
  zlen pre + zlen (enc_ies (e :: es)) + zlen junk = zlen (pre ++ enc_ie e) + zlen (enc_ies es) + zlen junk /\
  zlen pre + (zlen (snd e) + 2) = zlen (pre ++ enc_ie e).
Proof. rewrite enc_ies_cons, <- !app_assoc, !zlen_app, zlen_enc_ie. split; [done|]. split; lia. Qed.

(** The fixed array starts with [v]. *)
Definition holds (n : Z) (a : list Z) (size : Z) (v : list Z) : Prop := zlen a = size /\ n = zlen v /\ ztake n a = v.

Lemma stn_holds a size v : zlen a = size -> zlen v <= size -> exists a', stn a 0 v = Some a' /\ holds (zlen v) a' size v.
Proof. intros Ha Hv. destruct (stn_prefix a 0 v [] eq_refl eq_refl) as (a' & -> & Hl & Ht); [lia|]. exists a'. split; [done|]. split; [lia|]. by split. Qed.

Lemma rsn_loop_ok es : forall fuel pre junk post d, Forall ie_ok es -> no_element junk -> (length (enc_ies es ++ junk) <= fuel)%nat ->
  zlen (asr_ie_data d) = sizeof_asr_ie_data -> asr_ie_len d = 0 ->
  exists data n, rsn_loop fuel (pre ++ enc_ies es ++ junk ++ post) (zlen pre + zlen (enc_ies es) + zlen junk) (zlen pre) d =
    Some (d <| asr_ie_data := data |> <| asr_ie_len := n |>) /\ holds n data sizeof_asr_ie_data (rsn_tlv es).
Proof.
  induction es as [|[i v] es IH]; intros fuel pre junk post d He Hj Hf Hd Hn.
  - exists (asr_ie_data d), 0. assert (d = d <| asr_ie_data := asr_ie_data d |> <| asr_ie_len := 0 |>) as <- by (rewrite <- Hn; by destruct d).
    split; [|by split]. destruct (walk_end pre junk post [] eq_refl Hj) as [E|(l & El & E)]; destruct fuel; cbn [rsn_loop].
    1, 2: by rewrite E.
    + destruct (negb _) eqn:E'; [done|]. destruct (walk_end pre junk post [] eq_refl Hj) as [E2|_]; [by rewrite E2 in E'|].
      exfalso. destruct junk; [|cbn in Hf; lia]. change (enc_ies []) with (@nil Z) in E'. rewrite !zlen_nil in E'. apply negb_false_iff, Z.leb_le in E'. lia.
    + destruct (negb _); [done|]. rewrite El. cbn [mbind option_bind]. by rewrite E.
  - inversion_clear He as [|? ? (Hi & Hv & Hvl) He']. cbn [fst snd] in *.
    destruct (walk_element pre junk post _ i v es eq_refl) as (E1 & E2 & E3 & E4 & E5).
    destruct fuel as [|fuel]; [unfold enc_ies in Hf; cbn in Hf; lia|]. cbn [rsn_loop]. rewrite E1, E3. cbn [negb mbind option_bind]. rewrite E4, E2. cbn [mbind option_bind].
    unfold rsn_tlv. change (find is_rsn ((i, v) :: es)) with (if i =? 48 then Some (i, v) else find is_rsn es). pose proof (zlen_nonneg v). destruct (i =? 48).
    + rewrite (proj2 (Z.ltb_ge _ _)) by (unfold sizeof_asr_ie_data; lia). rewrite E5. cbn [mbind option_bind].
      destruct (stn_holds (asr_ie_data d) sizeof_asr_ie_data (enc_ie (i, v)) Hd) as (a & -> & Ha); [rewrite zlen_enc_ie; unfold sizeof_asr_ie_data; cbn [snd]; lia|].
      cbn [mbind option_bind]. eexists a, _. split; [reflexivity|]. replace (i16 (zlen v + 2)) with (zlen (enc_ie (i, v))); [exact Ha|].
      rewrite zlen_enc_ie. cbn [snd]. unfold i16, signed. change (2 ^ 16) with 65536. change (2 ^ (16 - 1)) with 32768. rewrite Z.mod_small by lia. case_cmp.
    + destruct (walk_next pre (i, v) es junk post) as (W1 & W2 & W3). rewrite W1, W2. cbn [snd] in W3. rewrite W3. apply IH; try done.
      rewrite enc_ies_cons, <- app_assoc, length_app in Hf. unfold enc_ie in Hf at 1. cbn [length] in Hf. lia.
Qed.

Definition rates_hold (d : apple80211_scan_result) (rs : list Z) : Prop := holds (asr_nrates d) (asr_rates d) APPLE80211_MAX_RATES rs.
(** Only the rates have moved. *)
Definition rates_only (d d' : apple80211_scan_result) : Prop := exists n rs, d' = d <| asr_nrates := n |> <| asr_rates := rs |>.
Lemma rates_only_refl d : rates_only d d.
Proof. exists (asr_nrates d), (asr_rates d). by destruct d. Qed.
Lemma rates_only_trans d1 d2 d3 : rates_only d1 d2 -> rates_only d2 d3 -> rates_only d1 d3.
Proof. intros (? & ? & ->) (n & rs & ->). by exists n, rs. Qed.

Lemma ztake_extend (l rs : list Z) x : ztake (zlen rs) l = rs -> zlen rs < zlen l -> ztake (zlen rs + 1) (<[Z.to_nat (zlen rs) := x]> l) = rs ++ [x].
Proof.
  intros Ht Hl. pose proof (zlen_nonneg rs). unfold ztake. replace (Z.to_nat (zlen rs + 1)) with (S (Z.to_nat (zlen rs))) by lia.
  rewrite (take_S_r _ _ x) by (apply list_lookup_insert_eq; unfold zlen in *; lia). f_equal. rewrite take_insert_ge by lia. exact Ht.
Qed.

Lemma put_rates_ok v : forall pre post d rs, rates_hold d rs ->
  exists d', put_rates (length v) (pre ++ v ++ post) (zlen pre) d = Some d' /\ rates_hold d' (ztake APPLE80211_MAX_RATES (rs ++ v)) /\ rates_only d d'.
Proof.
  induction v as [|r v IH]; intros pre post d rs (Hl & Hn & Ht); cbn [put_rates length].
  - exists d. split; [done|]. split; [|apply rates_only_refl]. rewrite app_nil_r, ztake_all; [by split|]. rewrite <- Ht, zlen_ztake, Hl. unfold APPLE80211_MAX_RATES. lia.
  - pose proof (zlen_nonneg rs). rewrite Hn in *. destruct (Z.ltb_spec (zlen rs) APPLE80211_MAX_RATES).
    + cbn [app]. rewrite ld_middle. cbn [mbind option_bind]. rewrite <- Hn, Hn, st_Some by lia. cbn [mbind option_bind].
      replace (zlen pre + 1) with (zlen (pre ++ [r])) by zlen. change (pre ++ r :: v ++ post) with (pre ++ [r] ++ v ++ post). rewrite app_assoc.
      set (d1 := d <| asr_rates := _ |> <| asr_nrates := _ |>).
      destruct (IH (pre ++ [r]) post d1 (rs ++ [r])) as (d' & E & Hh & Ho).
      { unfold rates_hold, holds, d1. cbn [asr_nrates asr_rates upd]. rewrite zlen_insert, zlen_app. change (zlen [r]) with 1. split; [done|].
        assert (u8 (zlen rs + 1) = zlen rs + 1) as -> by (apply wrap_small; unfold in_range, APPLE80211_MAX_RATES in *; change (2 ^ 8) with 256; lia).
        split; [done|]. apply ztake_extend; [done|lia]. }
      exists d'. rewrite <- app_assoc in Hh. split; [exact E|]. split; [done|]. eapply rates_only_trans; [|exact Ho]. by eexists _, _.
    + exists d. split; [done|]. split; [|apply rates_only_refl]. assert (zlen rs = APPLE80211_MAX_RATES) as E by (rewrite <- Ht, zlen_ztake, Hl; unfold APPLE80211_MAX_RATES in *; lia).
      rewrite (ztake_app_exact' _ rs) by done. split; [done|]. split; [done|]. by rewrite Hn.
Qed.

Lemma ztake_more n (l m : list Z) : ztake n (ztake n l ++ m) = ztake n (l ++ m).
Proof.
  destruct (Z.le_ge_cases (zlen l) n) as [H|H]; [by rewrite (ztake_all n l)|]. unfold ztake, zlen in *.
  rewrite !take_app, length_take, take_take. f_equal; f_equal; lia.
Qed.

Lemma rates_loop_ok es : forall fuel pre junk post d rs, Forall ie_ok es -> no_element junk -> (length (enc_ies es ++ junk) <= fuel)%nat ->
  rates_hold d rs ->
  exists d', rates_loop fuel (pre ++ enc_ies es ++ junk ++ post) (zlen pre + zlen (enc_ies es) + zlen junk) (zlen pre) d = Some d' /\
    rates_hold d' (ztake APPLE80211_MAX_RATES (rs ++ rates_of es)) /\ rates_only d d'.
Proof.
  induction es as [|[i v] es IH]; intros fuel pre junk post d rs He Hj Hf Hr.
  - exists d. change (rates_of []) with (@nil Z). rewrite app_nil_r. pose proof Hr as (Hl & Hn & Ht).
    split; [|split; [|apply rates_only_refl]].
    2: { rewrite ztake_all; [done|]. rewrite <- Ht, zlen_ztake, Hl. unfold APPLE80211_MAX_RATES. lia. }
    destruct (walk_end pre junk post [] eq_refl Hj) as [E|(l & El & E)]; destruct fuel; cbn [rates_loop].
    1, 2: by rewrite E.
    + destruct (negb _) eqn:E'; [done|]. exfalso. destruct junk; [|cbn in Hf; lia]. change (enc_ies []) with (@nil Z) in E'. rewrite !zlen_nil in E'. apply negb_false_iff, Z.leb_le in E'. lia.
    + destruct (negb _); [done|]. rewrite El. cbn [mbind option_bind]. by rewrite E.
  - inversion_clear He as [|? ? (Hi & Hv & Hvl) He']. cbn [fst snd] in *. pose proof (zlen_nonneg v).
    destruct (walk_element pre junk post _ i v es eq_refl) as (E1 & E2 & E3 & E4 & _).
    destruct fuel as [|fuel]; [unfold enc_ies in Hf; cbn in Hf; lia|]. cbn [rates_loop]. rewrite E1, E3. cbn [negb mbind option_bind]. rewrite E4, E2. cbn [mbind option_bind].
    assert (exists d1, (if (i =? 1) || (i =? 50) then put_rates (Z.to_nat (zlen v + 2 - 2)) (pre ++ enc_ies ((i, v) :: es) ++ junk ++ post) (zlen pre + 2) d else Some d) = Some d1 /\
      rates_hold d1 (ztake APPLE80211_MAX_RATES (rs ++ rates_of [(i, v)])) /\ rates_only d d1) as (d1 & -> & Hr1 & Ho1).
    { unfold rates_of. cbn [filter list_filter fst]. pose proof Hr as (Hl & Hn & Ht). case_decide as Hd.
      - replace ((i =? 1) || (i =? 50)) with true by (destruct Hd as [->| ->]; done). replace (Z.to_nat (zlen v + 2 - 2)) with (length v) by (unfold zlen; lia).
        replace (zlen pre + 2) with (zlen (pre ++ [i; zlen v])) by (rewrite zlen_app; done).
        replace (pre ++ enc_ies ((i, v) :: es) ++ junk ++ post) with ((pre ++ [i; zlen v]) ++ v ++ enc_ies es ++ junk ++ post).
        + cbn [map concat snd]. rewrite app_nil_r. by apply put_rates_ok.
        + rewrite enc_ies_cons. unfold enc_ie. cbn [fst snd]. by rewrite <- !app_assoc.
      - replace ((i =? 1) || (i =? 50)) with false by (symmetry; apply orb_false_iff; split; apply Z.eqb_neq; tauto). exists d.
        split; [done|]. split; [|apply rates_only_refl]. cbn [map concat]. rewrite app_nil_r, ztake_all; [done|]. rewrite <- Ht, zlen_ztake, Hl. unfold APPLE80211_MAX_RATES. lia. }
    cbn [mbind option_bind]. destruct (walk_next pre (i, v) es junk post) as (W1 & W2 & W3). rewrite W1, W2. cbn [snd] in W3. rewrite W3.
    destruct (IH fuel (pre ++ enc_ie (i, v)) junk post d1 (ztake APPLE80211_MAX_RATES (rs ++ rates_of [(i, v)])) He' Hj) as (d' & -> & Hr' & Ho'); [|exact Hr1|].
    { rewrite enc_ies_cons, <- app_assoc, length_app in Hf. unfold enc_ie in Hf at 1. cbn [length] in Hf. lia. }
    exists d'. split; [done|]. split; [|by eapply rates_only_trans]. rewrite ztake_more, <- app_assoc in Hr'.
    replace (rates_of ((i, v) :: es)) with (rates_of [(i, v)] ++ rates_of es); [done|]. unfold rates_of. cbn [filter list_filter]. case_decide; cbn [map concat app]; [by rewrite app_nil_r|done].
Qed.

Lemma ztake_take_app (b es junk : list Z) n : ztake n b = es ++ junk -> b = [] ++ es ++ junk ++ zdrop n b.
Proof. intros H. cbn [app]. by rewrite app_assoc, <- H, ztake_zdrop. Qed.

(** The rest of the structure is what the entry says. *)
Record reports (b : RTW88BSS) (d : apple80211_scan_result) : Prop := {
  rp_version : asr_version d = APPLE80211_VERSION;
  rp_channel : asr_channel d = mk_achannel APPLE80211_VERSION (channel b) (channel_flags (channel b));
  rp_bssid : asr_bssid d = bssid b;
  rp_radio : asr_rssi d = rssi b /\ asr_noise d = -95 /\ asr_snr d = i16 (rssi b + 95);
  rp_beacon : asr_beacon_int d = i16 (beacon_interval b) /\ asr_cap d = i16 (capabilities b) /\ asr_age d = 0;
  rp_ssid : holds (asr_ssid_len d) (asr_ssid d) APPLE80211_MAX_SSID_LEN (ztake (ssid_len b) (ssid b))
}.

Lemma fill_exact b es junk full : bss_wf b -> Forall ie_ok es -> no_element junk -> ztake (ies_len b) (ies b) = enc_ies es ++ junk ->
  exists d, fillScanResultFromBSS b full = Some d /\ reports b d /\
    holds (asr_nrates d) (asr_rates d) APPLE80211_MAX_RATES (ztake APPLE80211_MAX_RATES (rates_of es)) /\
    holds (asr_ie_len d) (asr_ie_data d) sizeof_asr_ie_data (if full then enc_ies es ++ junk else rsn_tlv es).
Proof.
  intros (Hs & Hsl & Hsb & Hb & Hbb & Hch & _ & _ & Hi & Hil & Hib & _) He Hj Ht. unfold fillScanResultFromBSS.
  assert (ldn (bssid b) 0 APPLE80211_ADDR_LEN = Some (bssid b)) as -> by (rewrite ldn_Some, zdrop_0, ztake_all; unfold APPLE80211_ADDR_LEN; try done; lia).
  cbn [mbind option_bind]. rewrite (proj2 (Z.ltb_ge APPLE80211_MAX_SSID_LEN (ssid_len b))) by (unfold APPLE80211_MAX_SSID_LEN; lia).
  rewrite (proj2 (Z.ltb_ge sizeof_ies (ies_len b))) by lia. set (d0 := zero_scan_result <| asr_version := _ |> <| asr_channel := _ |> <| asr_noise := _ |> <| asr_rssi := _ |> <| asr_snr := _ |>
    <| asr_beacon_int := _ |> <| asr_cap := _ |> <| asr_age := _ |> <| asr_bssid := _ |> <| asr_ssid_len := _ |>).
  assert (exists s, (if negb (ssid_len b =? 0) then v ← ldn (ssid b) 0 (ssid_len b); s ← stn (asr_ssid d0) 0 v; Some (d0 <| asr_ssid := s |>) else Some d0) = Some (d0 <| asr_ssid := s |>) /\
    holds (ssid_len b) s APPLE80211_MAX_SSID_LEN (ztake (ssid_len b) (ssid b))) as (s & -> & Hss).
  { destruct (Z.eqb_spec (ssid_len b) 0) as [->|]; cbn [negb].
    - exists (zeros APPLE80211_MAX_SSID_LEN). split; [done|]. by split.
    - rewrite ldn_Some, zdrop_0 by lia. cbn [mbind option_bind]. destruct (stn_holds (asr_ssid d0) APPLE80211_MAX_SSID_LEN (ztake (ssid_len b) (ssid b))) as (a & -> & Ha); [done|rewrite zlen_ztake; unfold APPLE80211_MAX_SSID_LEN; lia|].
      exists a. split; [done|]. replace (zlen (ztake (ssid_len b) (ssid b))) with (ssid_len b) in Ha by (rewrite zlen_ztake; lia). done. }
  cbn [mbind option_bind]. set (d1 := (d0 <| asr_ssid := s |>) <| asr_ie_len := 0 |>).
  assert (zlen (enc_ies es) + zlen junk = ies_len b) as Hz by (rewrite <- zlen_app, <- Ht, zlen_ztake; unfold sizeof_ies in *; lia).
  assert (length (enc_ies es ++ junk) <= Z.to_nat (ies_len b))%nat as Hfuel by (rewrite length_app; unfold zlen in Hz; lia).
  pose proof (ztake_take_app _ _ _ _ Ht) as Eb. set (post := zdrop (ies_len b) (ies b)) in *.
  match goal with |- context [mbind _ ?r] => assert (exists n data, r = Some (d1 <| asr_ie_data := data |> <| asr_ie_len := n |>) /\
    holds n data sizeof_asr_ie_data (if full then enc_ies es ++ junk else rsn_tlv es)) as (n & data & -> & Hd) end.
  { destruct full.
    - rewrite (proj2 (Z.ltb_ge sizeof_asr_ie_data (ies_len b))) by (unfold sizeof_asr_ie_data, sizeof_ies in *; lia). destruct (Z.eqb_spec (ies_len b) 0) as [E0|]; cbn [negb].
      + exists 0, (zeros sizeof_asr_ie_data). split; [done|]. rewrite <- Ht, E0. by split.
      + rewrite ldn_Some, zdrop_0, Ht by lia. cbn [mbind option_bind]. destruct (stn_holds (asr_ie_data d1) sizeof_asr_ie_data (enc_ies es ++ junk)) as (a & -> & Ha); [done|rewrite zlen_app; unfold sizeof_asr_ie_data, sizeof_ies in *; lia|].
        cbn [mbind option_bind]. eexists _, a. split; [reflexivity|]. replace (i16 (ies_len b)) with (zlen (enc_ies es ++ junk)); [done|]. rewrite zlen_app, Hz. unfold i16, signed.
        change (2 ^ 16) with 65536. change (2 ^ (16 - 1)) with 32768. unfold sizeof_ies in *. rewrite Z.mod_small by lia. case_cmp.
    - destruct (rsn_loop_ok es (Z.to_nat (ies_len b)) [] junk post d1 He Hj Hfuel) as (a & n & E & Hh); [done..|].
      rewrite zlen_nil, Z.add_0_l, Hz, <- Eb in E. by exists n, a. }
  cbn [mbind option_bind]. set (d2 := d1 <| asr_ie_data := data |> <| asr_ie_len := n |>).
  destruct (rates_loop_ok es (Z.to_nat (ies_len b)) [] junk post d2 [] He Hj Hfuel) as (d' & E & Hr & n' & rs' & ->); [by split|].
  rewrite zlen_nil, Z.add_0_l, Hz, <- Eb in E. rewrite E. eexists. split; [reflexivity|]. split; [by split|]. by split.
Qed.

(** Any bytes are elements and a tail. *)
Lemma split_elements l : bytes_ok l -> exists es junk, l = enc_ies es ++ junk /\ Forall ie_ok es /\ no_element junk.
Proof.
  remember (length l) as n eqn:Hn. revert l Hn. induction n as [n IH] using lt_wf_ind. intros l -> Hb.
  assert (no_element l -> exists es junk, l = enc_ies es ++ junk /\ Forall ie_ok es /\ no_element junk) as Hend by (intros H; by exists [], l).
  destruct l as [|i [|k r]]; [apply Hend; by left|apply Hend; by left|]. destruct (Z.ltb_spec (zlen r) k) as [Hk|Hk]; [apply Hend; right; by exists i, k, r|].
  inversion_clear Hb as [|? ? Hi Hb']. inversion_clear Hb' as [|? ? Hk' Hr]. pose proof Hk' as [Hk0 Hk1]. change (2 ^ 8) with 256 in Hk1.
  destruct (IH (length (zdrop k r))) with (l := zdrop k r) as (es & junk & E & He & Hj); [unfold zdrop; rewrite length_drop; cbn; lia|done|by apply Forall_drop|].
  exists ((i, ztake k r) :: es), junk. split; [|split; [|done]].
  - rewrite enc_ies_cons, <- app_assoc, <- E. unfold enc_ie. cbn [fst snd app]. rewrite ztake_zdrop, zlen_ztake. f_equal. f_equal. lia.
  - constructor; [|done]. split; [done|]. split; [by apply Forall_take|]. cbn [snd]. rewrite zlen_ztake. lia.
Qed.


Lemma fill_answers b full : bss_wf b -> exists d, fillScanResultFromBSS b full = Some d /\ reports b d.
Proof.
  intros W. destruct (split_elements (ztake (ies_len b) (ies b))) as (es & junk & E & He & Hj); [apply Forall_take, W|].
  destruct (fill_exact b es junk full W He Hj E) as (d & Ed & R & _). by exists d.
Qed.

(** C25: A scan result reports its network exactly.  For a list entry whose
    element area holds the elements [es] and then no further complete one,
    filling the structure answers (no array of it is overrun, no loop fails to
    end); channel, address, signal and SSID are the entry's; the rates are the
    first fifteen of all its rate elements in order; and the element data is
    the first RSN element with its header, or all the elements when those are
    asked for. *)
Theorem scan_report_exact b es junk full : bss_wf b -> Forall ie_ok es -> no_element junk -> ztake (ies_len b) (ies b) = enc_ies es ++ junk ->
  exists d, fillScanResultFromBSS b full = Some d /\ reports b d /\
    holds (asr_nrates d) (asr_rates d) APPLE80211_MAX_RATES (ztake APPLE80211_MAX_RATES (rates_of es)) /\
    holds (asr_ie_len d) (asr_ie_data d) sizeof_asr_ie_data (if full then enc_ies es ++ junk else rsn_tlv es).
Proof. apply fill_exact. Qed.

(** A network with eighteen rates in two elements and an element cut off. *)
Definition report_es : list (Z * list Z) := test_es ++ [(1, [130; 132; 139; 150; 12; 18; 24; 36]); (50, [48; 72; 96; 108; 2; 4; 11; 22; 9; 6])].
Definition report_junk : list Z := [221; 7; 0].
Definition report_bss : RTW88BSS := with_ies test_bss (enc_ies report_es ++ report_junk ++ zeros (512 - zlen (enc_ies report_es ++ report_junk))) (zlen (enc_ies report_es ++ report_junk)).
Example report_run : option_map (fun d => (asr_rates d, asr_nrates d, ztake 4 (asr_ssid d), asr_ie_len d, ac_flags (asr_channel d), asr_snr d)) (fillScanResultFromBSS report_bss false) =
  Some ([130; 132; 139; 150; 12; 18; 24; 36; 48; 72; 96; 108; 2; 4; 11], 15, [72; 111; 109; 101], 22, 0x8a, 48).
Proof. vm_compute. reflexivity. Qed.

Lemma report_es_ok : Forall ie_ok report_es.
Proof. repeat (apply Forall_cons; split; [split; [by vm_compute|split; [by apply bytes_okb_ok|by vm_compute]]|]). apply Forall_nil. done. Qed.
Lemma report_bss_ok : bss_wf report_bss.
Proof.
  assert (bss_wf test_bss) as W by (apply Forall_inv with (l := []), test_table_ok).
  destruct W as (?&?&?&?&?&?&?&?&_&_&_&?). split_and!; try done; try apply H0; by apply bytes_okb_ok.
Qed.
Lemma scan_report_exact_witness : bss_wf report_bss /\ ztake (ies_len report_bss) (ies report_bss) = enc_ies report_es ++ report_junk /\
  exists d, fillScanResultFromBSS report_bss false = Some d /\ reports report_bss d /\
    holds (asr_nrates d) (asr_rates d) APPLE80211_MAX_RATES (ztake APPLE80211_MAX_RATES (rates_of report_es)) /\
    holds (asr_ie_len d) (asr_ie_data d) sizeof_asr_ie_data (rsn_tlv report_es).
Proof.
  split; [apply report_bss_ok|]. split; [vm_compute; reflexivity|].
  apply (scan_report_exact report_bss report_es report_junk false); [apply report_bss_ok|apply report_es_ok|right; by exists 221, 7, [0]|vm_compute; reflexivity].
Defined.
