(* ===== verification/Awdl.v ===== *)
(** * AWDL: [src/src/kext/RTW88AWDLManager.cpp] and the frames of
      [src/src/kext/AirportRTW88AWDL.cpp]

    The manager keeps what IO80211 sets through the virtual interface's
    requests; the frame functions hand management frames and data packets of
    that interface to the object, and received action frames to its peer
    manager.  A virtual interface belongs to IO80211: the model knows its
    identity, its BSD name and its role. *)

From S2P Require Import Prelude Rsn Bss Sha1 Kdf Reorder Kext Tx Eapol Rx Mgmt Mlme.

Definition APPLE80211_VIF_P2P_DEVICE : Z := 3.
Definition APPLE80211_VIF_P2P_CLIENT : Z := 4.
Definition APPLE80211_VIF_P2P_GO : Z := 5.
Definition APPLE80211_VIF_AWDL : Z := 6.

(** [IO80211VirtualInterface] *)
Record vif := mk_io_vif { vi_id : Z; vi_name : option (list Z); vi_role : Z }.

Record awdl_manager := mk_awdl {
  _awdlInterface : option vif; _p2pInterface : option vif;
  _syncTemplate : option (list Z); _syncTemplateLength : Z;
  _electionMetric : Z; _electionId : Z; _masterChannel : Z; _secondaryMasterChannel : Z; _peerRegistrations : Z;
  _presenceMode : Z; _syncState : Z; _actionFrameTxMode : Z; _bssid : list Z; _minRate : Z; _deviceCapabilities : Z;
  _syncChannelSequence : list Z; _syncChannelSequenceLength : Z;
  _availabilityWindowLength : Z; _availabilityWindowPeriod : Z; _extensionLength : Z; _synchronizationFramePeriod : Z;
  _syncParamsValid : bool; _syncEnabled : bool; _p2pEnabled : bool
}.
#[export] Instance eta_awdl : Eta awdl_manager := fun m =>
  mk_awdl (_awdlInterface m) (_p2pInterface m) (_syncTemplate m) (_syncTemplateLength m)
    (_electionMetric m) (_electionId m) (_masterChannel m) (_secondaryMasterChannel m) (_peerRegistrations m)
    (_presenceMode m) (_syncState m) (_actionFrameTxMode m) (_bssid m) (_minRate m) (_deviceCapabilities m)
    (_syncChannelSequence m) (_syncChannelSequenceLength m)
    (_availabilityWindowLength m) (_availabilityWindowPeriod m) (_extensionLength m) (_synchronizationFramePeriod m)
    (_syncParamsValid m) (_syncEnabled m) (_p2pEnabled m).

(** The members' initial values. *)
Definition new_awdl : awdl_manager :=
  mk_awdl None None None 0 0 0 0 0 0 0 0 0 (zeros 6) 0 0 (zeros 512) 0 0 0 0 0 false true false.

(** What [init] and [reset] have in common. *)
Definition clear_settings (m : awdl_manager) : awdl_manager :=
  m <| _syncEnabled := true |> <| _p2pEnabled := false |> <| _electionMetric := 0 |> <| _electionId := 0 |> <| _masterChannel := 0 |>
    <| _secondaryMasterChannel := 0 |> <| _presenceMode := 0 |> <| _syncState := 0 |> <| _actionFrameTxMode := 0 |> <| _minRate := 0 |>
    <| _deviceCapabilities := 0 |> <| _bssid := zeros 6 |> <| _peerRegistrations := 0 |>.
Definition awdl_init (backend workLoop : bool) (m : awdl_manager) : bool * awdl_manager :=
  if negb backend || negb workLoop then (false, m) else (true, clear_settings m).
Definition awdl_reset (m : awdl_manager) : awdl_manager :=
  let m := clear_settings (m <| _awdlInterface := None |> <| _p2pInterface := None |>) in
  match _syncTemplate m with Some _ => m <| _syncTemplate := None |> <| _syncTemplateLength := 0 |> | None => m end.

Definition setVirtualInterface (role : Z) (i : option vif) (m : awdl_manager) : awdl_manager :=
  if role =? APPLE80211_VIF_AWDL then m <| _awdlInterface := i |>
  else if (APPLE80211_VIF_P2P_DEVICE <=? role) && (role <=? APPLE80211_VIF_P2P_GO) then m <| _p2pInterface := i |>
  else m.
(** Pointer comparison. *)
Definition same_vif (i j : option vif) : bool :=
  match i, j with Some i, Some j => vi_id i =? vi_id j | None, None => true | _, _ => false end.
Definition clearVirtualInterface (i : option vif) (m : awdl_manager) : awdl_manager :=
  let m := if same_vif (_awdlInterface m) i then m <| _awdlInterface := None |> else m in
  if same_vif (_p2pInterface m) i then m <| _p2pInterface := None |> else m.

(** [payload] is the buffer the caller points to, [None] for a null pointer;
    [alloc]: [IOMalloc] succeeds.  A result [None] is a read or write past a
    buffer. *)
Definition setSyncFrameTemplate (payload : option (list Z)) (length : Z) (alloc : bool) (m : awdl_manager) : option (Z * awdl_manager) :=
  match payload with
  | None => Some (kIOReturnBadArgument, m)
  | Some p =>
      if (length =? 0) || (4096 <? length) then Some (kIOReturnBadArgument, m)
      else if negb alloc then Some (kIOReturnNoMemory, m)
      else v ← ldn p 0 length; Some (kIOReturnSuccess, m <| _syncTemplate := Some v |> <| _syncTemplateLength := length |>)
  end.
(** The status, the buffer and the length the caller gets back. *)
Definition copySyncFrameTemplate (payload : option (list Z)) (length : Z) (m : awdl_manager) : option (Z * option (list Z) * Z) :=
  match payload with
  | None => Some (kIOReturnBadArgument, None, length)
  | Some p =>
      match _syncTemplate m with
      | None => Some (kIOReturnNotReady, Some p, length)
      | Some t =>
          if _syncTemplateLength m =? 0 then Some (kIOReturnNotReady, Some p, length)
          else if length <? _syncTemplateLength m then Some (kIOReturnNoSpace, Some p, _syncTemplateLength m)
          else v ← ldn t 0 (_syncTemplateLength m); p ← stn p 0 v; Some (kIOReturnSuccess, Some p, _syncTemplateLength m)
      end
  end.
Definition notePeerTrafficRegistration (active : bool) (m : awdl_manager) : awdl_manager :=
  if active then m <| _peerRegistrations := u32 (_peerRegistrations m + 1) |>
  else if negb (_peerRegistrations m =? 0) then m <| _peerRegistrations := _peerRegistrations m - 1 |> else m.

Definition setSyncChannelSequence (data : list Z) (length : Z) (m : awdl_manager) : option (Z * awdl_manager) :=
  if (length =? 0) || (512 <? length) then Some (kIOReturnBadArgument, m)
  else
    v ← ldn data 0 length; b ← stn (zeros 512) 0 v;
    Some (kIOReturnSuccess, m <| _syncChannelSequence := b |> <| _syncChannelSequenceLength := length |>).
Definition copySyncChannelSequence (data : list Z) (length : Z) (m : awdl_manager) : option (Z * list Z) :=
  if (_syncChannelSequenceLength m =? 0) || (length <? _syncChannelSequenceLength m) then Some (kIOReturnNotReady, data)
  else v ← ldn (_syncChannelSequence m) 0 (_syncChannelSequenceLength m); d ← stn data 0 v; Some (kIOReturnSuccess, d).

Definition setSyncParams (awLen awPeriod extLen syncPeriod : Z) (m : awdl_manager) : awdl_manager :=
  m <| _availabilityWindowLength := awLen |> <| _availabilityWindowPeriod := awPeriod |> <| _extensionLength := extLen |>
    <| _synchronizationFramePeriod := syncPeriod |> <| _syncParamsValid := true |>.

(** The stored lengths are those of the stored bytes. *)
Record awdl_wf (m : awdl_manager) : Prop := {
  aw_template : match _syncTemplate m with Some t => _syncTemplateLength m = zlen t /\ 0 < zlen t <= 4096 | None => _syncTemplateLength m = 0 end;
  aw_sequence : zlen (_syncChannelSequence m) = 512 /\ 0 <= _syncChannelSequenceLength m <= 512;
  aw_bssid : zlen (_bssid m) = 6
}.

(** ** Frames *)

Section frames.
Context (E : env).

(** [m] is a packet's bytes, [backend]: the object is there; the result is the
    status and the object. *)
Definition rtw88SendActionFrame (backend : bool) (m : list Z) (k : kext) : Z * kext :=
  let len := zlen m in
  if negb backend then (kIOReturnNotReady, k)
  else if (len <? 24) || (4096 <? len) then (kIOReturnBadArgument, k)
  else if negb (alloc_ok E (trace k)) then (kIOReturnNoMemory, k)
  else if negb (mbuf_ok E (trace k) 0) then (kIOReturnError, k)
  else let '(ok, k) := txRawManagementFrame E m k in ((if ok then kIOReturnSuccess else kIOReturnError), k).

Inductive dlt := DLT_RAW | DLT_IEEE802_11 | DLT_IEEE802_11_RADIO | DLT_OTHER.

Definition bpfOutputPacket (backend : bool) (dltType : dlt) (m : list Z) (k : kext) : option (Z * kext) :=
  match dltType with
  | DLT_RAW | DLT_IEEE802_11 => Some (rtw88SendActionFrame backend m k)
  | DLT_IEEE802_11_RADIO =>
      if (zlen m <? 4) || negb (mbuf_ok E (trace k) 1) then Some (kIOReturnBadArgument, k)
      else
        hdr ← ldn m 0 4; h2 ← ld hdr 2; h3 ← ld hdr 3;
        let rtlen := h2 .| u16 (h3 << 8) in
        if (rtlen <? 4) || (zlen m <=? rtlen) then Some (kIOReturnBadArgument, k)
        else Some (rtw88SendActionFrame backend (zdrop rtlen m) k)
  | DLT_OTHER => Some (kIOReturnUnsupported, k)
  end.

(** [requestPacketTx]: one turn over the service classes, at most 32 packets
    of each; what is sent, and what stays queued. *)
Fixpoint tx_all (ms : list (list Z)) (sent : Z) (k : kext) : option (Z * kext) :=
  match ms with
  | [] => Some (sent, k)
  | m :: ms => '(ok, k) ← txAWDLDataFrame E m k; tx_all ms (if (ok : bool) then u32 (sent + 1) else sent) k
  end.
Fixpoint requestPacketTx (queues : list (list (list Z))) (sent : Z) (k : kext) : option (Z * list (list (list Z)) * kext) :=
  match queues with
  | [] => Some (sent, [], k)
  | q :: queues =>
      '(sent, k) ← tx_all (take 32 q) sent k;
      '(sent, rest, k) ← requestPacketTx queues sent k;
      Some (sent, drop 32 q :: rest, k)
  end.
End frames.

Definition kAWDLBSSID : list Z := [0x00; 0x25; 0x00; 0xff; 0x94; 0x73].
Definition kAppleOUI : list Z := [0x00; 0x17; 0xf2].

(** The subtype, when the frame is one of AWDL's: [Some None] is a refusal,
    [None] a read past the frame. *)
Definition rtw88IsAWDLActionFrame (frame : list Z) : option (option Z) :=
  if zlen frame <? 24 + 16 then Some None
  else
    f0 ← ld frame 0; addr3 ← ldn frame 16 6;
    if negb (f0 .& 0xfc =? 0xd0) then Some None
    else if negb (bool_decide (addr3 = kAWDLBSSID)) then Some None
    else
      let a := zdrop 24 frame in
      a0 ← ld a 0; oui ← ldn a 1 3; a4 ← ld a 4;
      if negb (a0 =? 0x7f) || negb (bool_decide (oui = kAppleOUI)) || negb (a4 =? 8) then Some None
      else
        subtype ← ld a 6;
        if negb (subtype =? 0) && negb (subtype =? 3) then Some None
        else
          sa ← ldn frame 10 6; s0 ← ld sa 0;
          if forallb (fun x => x =? 0) sa || negb (s0 .& 0x01 =? 0) then Some None
          else Some (Some subtype).

(** ** The manager's state *)

Lemma new_awdl_wf : awdl_wf new_awdl.
Proof. by repeat split. Qed.
Lemma clear_settings_wf m : awdl_wf m -> awdl_wf (clear_settings m).
Proof. intros [T S B]. by split. Qed.
Lemma awdl_init_wf b w m : awdl_wf m -> awdl_wf (snd (awdl_init b w m)).
Proof. intros W. unfold awdl_init. destruct (_ || _); [done|]. by apply clear_settings_wf. Qed.
Lemma no_interfaces_wf m : awdl_wf m -> awdl_wf (m <| _awdlInterface := None |> <| _p2pInterface := None |>).
Proof. intros [T S B]. split; [exact T|exact S|exact B]. Qed.
Lemma no_template_wf m : awdl_wf m -> awdl_wf (match _syncTemplate m with Some _ => m <| _syncTemplate := None |> <| _syncTemplateLength := 0 |> | None => m end).
Proof. intros W. destruct (_syncTemplate m) eqn:E; [|exact W]. destruct W as [T S B]. split; [reflexivity|exact S|exact B]. Qed.
Lemma awdl_reset_wf m : awdl_wf m -> awdl_wf (awdl_reset m).
Proof. intros W. apply no_template_wf, clear_settings_wf, no_interfaces_wf, W. Qed.

Lemma setSyncFrameTemplate_ok p length alloc m : awdl_wf m -> (forall b, p = Some b -> 0 <= length <= zlen b) ->
  exists ret m', setSyncFrameTemplate p length alloc m = Some (ret, m') /\ awdl_wf m' /\
    (ret = kIOReturnSuccess -> exists b, p = Some b /\ 0 < length <= 4096 /\ _syncTemplate m' = Some (ztake length b) /\ _syncTemplateLength m' = length) /\
    (ret <> kIOReturnSuccess -> m' = m).
Proof.
  intros W Hp. unfold setSyncFrameTemplate. destruct p as [p|]; [|by exists kIOReturnBadArgument, m]. specialize (Hp p eq_refl).
  destruct ((length =? 0) || (4096 <? length)) eqn:El; [by exists kIOReturnBadArgument, m|]. bool_hyps. destruct alloc; [|by exists kIOReturnNoMemory, m].
  cbn [negb]. rewrite ldn_Some, zdrop_0 by lia. eexists _, _. split; [reflexivity|]. split; [|split; [intros _; exists p; repeat split; lia|done]].
  destruct W as [T S B]. split; [|done|done]. cbn. rewrite zlen_ztake. lia.
Qed.

Lemma setSyncChannelSequence_ok d length m : awdl_wf m -> 0 <= length <= zlen d ->
  exists ret m', setSyncChannelSequence d length m = Some (ret, m') /\ awdl_wf m' /\ (ret <> kIOReturnSuccess -> m' = m) /\
    (ret = kIOReturnSuccess -> ztake length (_syncChannelSequence m') = ztake length d /\ _syncChannelSequenceLength m' = length).
Proof.
  intros W Hl. unfold setSyncChannelSequence. destruct ((length =? 0) || (512 <? length)) eqn:El; [by exists kIOReturnBadArgument, m|]. bool_hyps.
  rewrite ldn_Some, zdrop_0 by lia. cbn [mbind option_bind]. assert (zlen (ztake length d) = length) as Hz by (rewrite zlen_ztake; lia).
  destruct (stn_prefix (zeros 512) 0 (ztake length d) [] eq_refl eq_refl) as (b & -> & Hb & Ht); [rewrite zlen_zeros; lia|]. cbn [mbind option_bind].
  rewrite zlen_zeros in Hb. rewrite Hz in Ht. eexists _, _. split; [reflexivity|]. split; [|done]. destruct W as [T S B]. split; [done| |done]. cbn. lia.
Qed.

(** The AWDL manager gives back what it was given.  A synchronization
    template or channel sequence that was accepted comes back byte for byte to
    a caller whose buffer is large enough; a smaller buffer is refused, left
    untouched and, for a template, told the size it needs; nothing is ever
    read or written past a buffer. *)
Theorem awdl_settings_roundtrip m p length alloc m' buf d sl m2 out : awdl_wf m -> 0 <= length <= zlen p ->
  setSyncFrameTemplate (Some p) length alloc m = Some (kIOReturnSuccess, m') ->
  0 <= sl <= zlen d -> setSyncChannelSequence d sl m' = Some (kIOReturnSuccess, m2) ->
  awdl_wf m2 /\ 0 < length <= 4096 /\ 0 < sl <= 512 /\
  (if length <=? zlen buf then copySyncFrameTemplate (Some buf) (zlen buf) m2 = Some (kIOReturnSuccess, Some (ztake length p ++ zdrop length buf), length)
   else copySyncFrameTemplate (Some buf) (zlen buf) m2 = Some (kIOReturnNoSpace, Some buf, length)) /\
  (if sl <=? zlen out then copySyncChannelSequence out (zlen out) m2 = Some (kIOReturnSuccess, ztake sl d ++ zdrop sl out)
   else copySyncChannelSequence out (zlen out) m2 = Some (kIOReturnNotReady, out)).
Proof.
  intros W Hp Hs Hd Hq. destruct (setSyncFrameTemplate_ok (Some p) length alloc m W) as (r & m0 & E & W0 & H0 & _); [by intros b [= <-]|].
  rewrite Hs in E. injection E as <- <-. destruct (H0 eq_refl) as (b & [= <-] & Hlen & Ht & Htl).
  destruct (setSyncChannelSequence_ok d sl m' W0 Hd) as (r & m0 & E & W2 & _ & H2). rewrite Hq in E. injection E as <- <-. destruct (H2 eq_refl) as [Hs2 Hsl].
  assert (0 < sl <= 512 /\ _syncTemplate m2 = _syncTemplate m' /\ _syncTemplateLength m2 = _syncTemplateLength m') as (Hsl0 & ET & EL).
  { revert Hq. unfold setSyncChannelSequence. destruct ((sl =? 0) || (512 <? sl)) eqn:Eg; [done|]. bool_hyps.
    destruct (ldn d 0 sl); [|done]. cbn [mbind option_bind]. destruct (stn _ _ _); [|done]. intros [= <-]. split; [lia|done]. }
  split; [done|]. split; [done|]. split; [done|]. split.
  - unfold copySyncFrameTemplate. rewrite ET, EL, Ht, Htl. rewrite (proj2 (Z.eqb_neq length 0)) by lia. destruct (Z.leb_spec length (zlen buf)).
    + rewrite (proj2 (Z.ltb_ge (zlen buf) length)) by lia. assert (zlen (ztake length p) = length) as Hz by (rewrite zlen_ztake; lia).
      rewrite ldn_Some, zdrop_0 by lia. cbn [mbind option_bind]. rewrite ztake_all, stn_Some, Hz by (rewrite ?Hz; lia). by rewrite ztake_0, Z.add_0_l.
    + by rewrite (proj2 (Z.ltb_lt (zlen buf) length)) by lia.
  - unfold copySyncChannelSequence. rewrite Hsl, (proj2 (Z.eqb_neq sl 0)) by lia. cbn [orb]. destruct (Z.leb_spec sl (zlen out)).
    + rewrite (proj2 (Z.ltb_ge (zlen out) sl)) by lia. pose proof (aw_sequence _ W2) as [S1 S2]. rewrite ldn_Some, zdrop_0, Hs2 by lia. cbn [mbind option_bind].
      assert (zlen (ztake sl d) = sl) as Hz by (rewrite zlen_ztake; lia). rewrite stn_Some, Hz by (rewrite ?Hz; lia). by rewrite ztake_0, Z.add_0_l.
    + by rewrite (proj2 (Z.ltb_lt (zlen out) sl)) by lia.
Qed.
Lemma awdl_settings_roundtrip_witness : awdl_wf new_awdl /\
  exists m', setSyncFrameTemplate (Some [1; 2; 3; 4]) 3 true new_awdl = Some (kIOReturnSuccess, m') /\
  exists m2, setSyncChannelSequence [11; 6; 1] 2 m' = Some (kIOReturnSuccess, m2) /\ awdl_wf m2 /\
    copySyncFrameTemplate (Some [9; 9]) 2 m2 = Some (kIOReturnNoSpace, Some [9; 9], 3) /\ copySyncChannelSequence [9; 9; 9] 3 m2 = Some (kIOReturnSuccess, [11; 6; 9]).
Proof.
  split; [apply new_awdl_wf|]. eexists. split; [reflexivity|]. eexists. split; [reflexivity|].
  pose proof (awdl_settings_roundtrip new_awdl [1; 2; 3; 4] 3 true _ [9; 9] [11; 6; 1] 2 _ [9; 9; 9] new_awdl_wf ltac:(done) eq_refl ltac:(done) eq_refl) as (W & _ & _ & C1 & C2).
  split; [exact W|]. split; [exact C1|exact C2].
Defined.

(** ** Frames in and out *)

(** An AWDL action frame: the 802.11 header with its source, the vendor
    header, the version, the subtype and the fixed body. *)
Definition awdl_frame (f0 f1 : Z) (dur ra sa sc : list Z) (version subtype : Z) (body : list Z) : list Z :=
  f0 :: f1 :: dur ++ ra ++ sa ++ kAWDLBSSID ++ sc ++ [0x7f] ++ kAppleOUI ++ [8; version; subtype] ++ body.
(** A possible transmitter: not all zeros, not a group. *)
Definition station_sa (sa : list Z) : bool := negb (forallb (fun x => x =? 0) sa) && match sa with s0 :: _ => s0 .& 1 =? 0 | [] => false end.

Record awdl_layout (frame : list Z) (subtype : Z) : Prop := {
  al_split : exists f0 f1 dur ra sa sc version body, frame = awdl_frame f0 f1 dur ra sa sc version subtype body /\
    f0 .& 0xfc = 0xd0 /\ zlen dur = 2 /\ zlen ra = 6 /\ zlen sa = 6 /\ zlen sc = 2 /\ station_sa sa = true /\ 9 <= zlen body;
  al_subtype : subtype = 0 \/ subtype = 3
}.

Lemma awdl_frame_eq f0 f1 dur ra sa sc version subtype body : zlen dur = 2 -> zlen ra = 6 -> zlen sa = 6 -> zlen sc = 2 ->
  let f := awdl_frame f0 f1 dur ra sa sc version subtype body in
  zlen f = 31 + zlen body /\ ldn f 16 6 = Some kAWDLBSSID /\ ldn f 10 6 = Some sa /\
  zdrop 24 f = [0x7f] ++ kAppleOUI ++ [8; version; subtype] ++ body.
Proof.
  intros Hd Hr Hs Hc f. unfold f, awdl_frame. split; [rewrite !zlen_cons, !zlen_app, Hd, Hr, Hs, Hc; change (zlen kAWDLBSSID) with 6; rewrite !zlen_cons; change (zlen kAppleOUI) with 3; rewrite zlen_nil; lia|].
  set (rest := [0x7f] ++ kAppleOUI ++ [8; version; subtype] ++ body).
  assert (f0 :: f1 :: dur ++ ra ++ sa ++ kAWDLBSSID ++ sc ++ rest = ([f0; f1] ++ dur ++ ra ++ sa) ++ kAWDLBSSID ++ (sc ++ rest)) as E1 by (by rewrite <- !app_assoc).
  assert (f0 :: f1 :: dur ++ ra ++ sa ++ kAWDLBSSID ++ sc ++ rest = ([f0; f1] ++ dur ++ ra) ++ sa ++ (kAWDLBSSID ++ sc ++ rest)) as E2 by (by rewrite <- !app_assoc).
  assert (f0 :: f1 :: dur ++ ra ++ sa ++ kAWDLBSSID ++ sc ++ rest = ([f0; f1] ++ dur ++ ra ++ sa ++ kAWDLBSSID ++ sc) ++ rest) as E3 by (by rewrite <- !app_assoc).
  split; [|split].
  - rewrite E1. apply ldn_app_exact; [rewrite !zlen_app, Hd, Hr, Hs; done|done].
  - rewrite E2. apply ldn_app_exact; [rewrite !zlen_app, Hd, Hr; done|done].
  - rewrite E3. apply zdrop_app_exact'. rewrite !zlen_app, Hd, Hr, Hs, Hc. done.
Qed.

(** The decision, on a frame written out. *)
Definition awdl_decide (x0 x24 x28 x30 : Z) (sa addr3 oui : list Z) : option Z :=
  if (x0 .& 0xfc =? 0xd0) && bool_decide (addr3 = kAWDLBSSID) && (x24 =? 0x7f) && bool_decide (oui = kAppleOUI) && (x28 =? 8) &&
     ((x30 =? 0) || (x30 =? 3)) && station_sa sa then Some x30 else None.
Lemma awdl_filter_long x0 x1 x2 x3 x4 x5 x6 x7 x8 x9 x10 x11 x12 x13 x14 x15 x16 x17 x18 x19 x20 x21 x22 x23 x24 x25 x26 x27 x28 x29 x30 body : 9 <= zlen body ->
  let frame := [x0; x1; x2; x3; x4; x5; x6; x7; x8; x9; x10; x11; x12; x13; x14; x15; x16; x17; x18; x19; x20; x21; x22; x23; x24; x25; x26; x27; x28; x29; x30] ++ body in
  rtw88IsAWDLActionFrame frame = Some (awdl_decide x0 x24 x28 x30 [x10; x11; x12; x13; x14; x15] [x16; x17; x18; x19; x20; x21] [x25; x26; x27]).
Proof.
  intros Hb frame. unfold rtw88IsAWDLActionFrame, awdl_decide, station_sa. unfold frame. cbn [app].
  rewrite (proj2 (Z.ltb_ge _ _)) by (rewrite !zlen_cons; lia). read_prefix.
  destruct (x0 .& 0xfc =? 0xd0); cbn [negb andb]; [|done]. destruct (bool_decide ([x16; _; _; _; _; _] = _)); cbn [negb andb]; [|done].
  destruct (x24 =? 0x7f); cbn [negb andb orb]; [|done]. destruct (bool_decide ([x25; _; _] = _)); cbn [negb andb orb]; [|done].
  destruct (x28 =? 8); cbn [negb andb orb]; [|done]. destruct (x30 =? 0); destruct (x30 =? 3); cbn [negb andb orb]; try done.
  all: change (ld [x10; x11; x12; x13; x14; x15] 0) with (Some x10); cbn [mbind option_bind]; destruct (forallb _ _); cbn [negb andb orb]; [done|]; by destruct (x10 .& 1 =? 0).
Qed.

Lemma zlen_S {A} (l : list A) n : zlen l = 1 + n -> 0 <= n -> exists x r, l = x :: r /\ zlen r = n.
Proof. destruct l as [|x r]; [rewrite zlen_nil; lia|]. rewrite zlen_cons. intros. exists x, r. split; [done|lia]. Qed.
Lemma zlen_ge {A} (l : list A) n : 1 + n <= zlen l -> 0 <= n -> exists x r, l = x :: r /\ n <= zlen r.
Proof. destruct l as [|x r]; [rewrite zlen_nil; lia|]. rewrite zlen_cons. intros. exists x, r. split; [done|lia]. Qed.
Ltac write_out H := repeat (
  match type of H with
  | zlen ?l = 0 => destruct l; [clear H|rewrite zlen_cons in H; pose proof (zlen_nonneg l); lia]
  | zlen ?l = ?k => let k' := eval vm_compute in (k - 1) in let x := fresh "x" in let r := fresh "r" in let E := fresh "E" in
      destruct (zlen_S l k' H ltac:(lia)) as (x & r & E & H'); subst l; clear H; rename H' into H
  end).

(** Only AWDL frames reach the AWDL peer manager.  Any received action
    frame is judged without reading past it, and it is passed on, with its
    subtype, exactly when it is laid out as AWDL's periodic or master frame:
    an action frame on the AWDL network from a possible station, with Apple's
    vendor header, type 8 and room for the fixed body. *)
Theorem awdl_filter_exact frame :
  exists r, rtw88IsAWDLActionFrame frame = Some r /\ forall subtype, r = Some subtype <-> awdl_layout frame subtype.
Proof.
  destruct (Z.ltb_spec (zlen frame) 40) as [Hs|Hl].
  { exists None. split; [unfold rtw88IsAWDLActionFrame; by rewrite (proj2 (Z.ltb_lt _ _)) by lia|]. intros st. split; [done|].
    intros [(f0 & f1 & dur & ra & sa & sc & v & body & -> & _ & Hd & Hr & Ha & Hc & _ & Hb) _].
    destruct (awdl_frame_eq f0 f1 dur ra sa sc v st body Hd Hr Ha Hc) as [E _]. rewrite E in Hs. lia. }
  do 31 (match goal with H : ?n <= zlen ?l |- _ => let k := eval vm_compute in (n - 1) in let x := fresh "x" in let r := fresh "l" in let E := fresh "E" in let H' := fresh "H" in
    destruct (zlen_ge l k H ltac:(lia)) as (x & r & E & H'); subst l; clear H end).
  match goal with H : 9 <= zlen ?l |- _ => rename l into body, H into Hb end.
  pose proof (awdl_filter_long x x0 x1 x2 x3 x4 x5 x6 x7 x8 x9 x10 x11 x12 x13 x14 x15 x16 x17 x18 x19 x20 x21 x22 x23 x24 x25 x26 x27 x28 x29 body Hb) as E.
  cbn [app] in E. eexists. split; [exact E|]. clear E. intros st. unfold awdl_decide. split.
  - destruct (_ && _) eqn:G; [|done]. intros [= <-]. repeat (apply andb_prop in G as [G ?]).
    repeat match goal with
    | H : bool_decide _ = true |- _ => apply bool_decide_eq_true in H
    | H : (_ =? _) = true |- _ => apply Z.eqb_eq in H
    | H : (_ || _) = true |- _ => apply orb_prop in H
    end.
    split; [|match goal with H : _ \/ _ |- _ => destruct H as [?%Z.eqb_eq|?%Z.eqb_eq]; [by left|by right] end].
    exists x, x0, [x1; x2], [x3; x4; x5; x6; x7; x8], [x9; x10; x11; x12; x13; x14], [x21; x22], x28, body.
    split; [|by split_and!]. unfold awdl_frame, kAWDLBSSID, kAppleOUI in *. cbn [app]. simplify_eq. done.
  - intros [(f0 & f1 & dur & ra & sa & sc & v & tl & E & Hf & Hd & Hr & Ha & Hc & Hsa & _) Hst].
    write_out Hd. write_out Hr. write_out Ha. write_out Hc. unfold awdl_frame, kAWDLBSSID, kAppleOUI in E. cbn [app] in E. simplify_eq.
    rewrite Hf, Hsa. unfold kAWDLBSSID, kAppleOUI. rewrite !bool_decide_eq_true_2 by done. by destruct Hst as [->| ->].
Qed.

(** A radiotap header of [4 + zlen body] bytes. *)
Definition radiotap (version pad : Z) (body : list Z) : list Z := [version; pad] ++ le_bytes 2 (4 + zlen body) ++ body.

Lemma radiotap_length h2 h3 : is_byte h2 -> is_byte h3 -> h2 .| u16 (h3 << 8) = h2 + 256 * h3.
Proof.
  intros [H2 H2'] [H3 H3']. change (2 ^ 8) with 256 in *. rewrite Z.shiftl_mul_pow2 by lia. rewrite wrap_small by (split; [lia|change (2 ^ 16) with 65536; change (2 ^ 8) with 256; lia]).
  rewrite <- Z.shiftl_mul_pow2 by lia. rewrite (lor_shift h2 h3 8) by (done || (split; [lia|change (2 ^ 8) with 256; lia])). change (2 ^ 8) with 256. lia.
Qed.

Lemma le_bytes2 n : in_range 16 n -> exists a b, le_bytes 2 n = [a; b] /\ is_byte a /\ is_byte b /\ a + 256 * b = n.
Proof.
  intros Hn. cbn [le_bytes]. rewrite !land_255. eexists _, _. split; [reflexivity|]. split; [by apply wrap_range|]. split; [by apply wrap_range|].
  destruct Hn as [H1 H2]. change (2 ^ 16) with 65536 in H2. euclid.
Qed.

Lemma bpf_radiotap_eq E backend v p h2 h3 r k : is_byte h2 -> is_byte h3 -> mbuf_ok E (trace k) 1 = true ->
  let m := v :: p :: h2 :: h3 :: r in
  bpfOutputPacket E backend DLT_IEEE802_11_RADIO m k =
  if (h2 + 256 * h3 <? 4) || (zlen m <=? h2 + 256 * h3) then Some (kIOReturnBadArgument, k) else Some (rtw88SendActionFrame E backend (zdrop (h2 + 256 * h3) m) k).
Proof.
  intros B2 B3 Hok m. cbn [bpfOutputPacket]. rewrite Hok. cbn [negb]. rewrite orb_false_r. rewrite (proj2 (Z.ltb_ge _ _)) by (unfold m; rewrite !zlen_cons; pose proof (zlen_nonneg r); lia).
  subst m. read_prefix. change (ld [v; p; h2; h3] 2) with (Some h2). change (ld [v; p; h2; h3] 3) with (Some h3). cbn [mbind option_bind].
  by rewrite radiotap_length.
Qed.

(** What a packet filter writes is sent as it is.  A packet with a
    radiotap header of any length is transmitted exactly as the frame after
    that header would be; any packet whose length field does not fit it is
    refused with nothing sent; no packet is read out of bounds. *)
Theorem bpf_output_exact E backend m k : bytes_ok m -> mbuf_ok E (trace k) 1 = true ->
  (exists version pad body frame, m = radiotap version pad body ++ frame /\ zlen body + 4 < 2 ^ 16 /\ 0 < zlen frame /\
     bpfOutputPacket E backend DLT_IEEE802_11_RADIO m k = bpfOutputPacket E backend DLT_RAW frame k) \/
  ((forall version pad body frame, 0 < zlen frame -> zlen body + 4 < 2 ^ 16 -> m <> radiotap version pad body ++ frame) /\
     bpfOutputPacket E backend DLT_IEEE802_11_RADIO m k = Some (kIOReturnBadArgument, k)).
Proof.
  intros Hm Hok. pose proof (zlen_nonneg m). destruct (Z.ltb_spec (zlen m) 4) as [Hs|Hs].
  { right. split; [|cbn [bpfOutputPacket]; by rewrite (proj2 (Z.ltb_lt _ _)) by lia]. intros v p body frame Hf Hb ->. unfold radiotap in Hs. pose proof (zlen_nonneg body). rewrite !zlen_app, zlen_le_bytes in Hs. change (zlen [v; p]) with 2 in Hs. lia. }
  destruct m as [|v [|p [|h2 [|h3 r]]]]; [exfalso; unfold zlen in Hs; cbn [length] in Hs; lia..|]. apply Forall_cons in Hm as [_ Hm]. apply Forall_cons in Hm as [_ Hm]. apply Forall_cons in Hm as [B2 Hm]. apply Forall_cons in Hm as [B3 _].
  rewrite bpf_radiotap_eq by done. pose proof B2 as [L2 U2]. pose proof B3 as [L3 U3]. change (2 ^ 8) with 256 in U2, U3.
  rewrite !zlen_cons in *. pose proof (zlen_nonneg r). set (n := h2 + 256 * h3). assert (in_range 16 n) as Hn by (split; [lia|change (2 ^ 16) with 65536; lia]).
  destruct (le_bytes2 n Hn) as (a & b & El & Ba & Bb & Eab).
  assert (a = h2 /\ b = h3) as [-> ->] by (destruct Ba, Bb; change (2 ^ 8) with 256 in *; lia).
  destruct ((n <? 4) || (1 + (1 + (1 + (1 + zlen r))) <=? n)) eqn:G.
  - right. split; [|done]. intros v' p' body frame Hf Hb Em. unfold radiotap in Em. pose proof (zlen_nonneg body).
    destruct (le_bytes2 (4 + zlen body)) as (c & d & Ec & Bc & Bd & Ecd); [split; lia|]. rewrite Ec in Em. cbn [app] in Em. injection Em as -> -> -> -> ->.
    rewrite zlen_app in G. unfold n in G. apply orb_prop in G as [G|G]; lia.
  - apply orb_false_elim in G as [G1 G2]. left. exists v, p, (ztake (n - 4) r), (zdrop (n - 4) r).
    assert (zlen (ztake (n - 4) r) = n - 4) as Hz by (rewrite zlen_ztake; lia). split; [|split; [change (2 ^ 16) with 65536; unfold n in *; lia|split; [rewrite zlen_zdrop; lia|]]].
    + unfold radiotap. rewrite Hz. replace (4 + (n - 4)) with n by lia. rewrite El. cbn [app]. by rewrite ztake_zdrop.
    + cbn [bpfOutputPacket]. f_equal. f_equal. replace n with (4 + (n - 4)) at 1 by lia. rewrite <- (zdrop_zdrop (n - 4) 4) by lia. done.
Qed.
Definition radiotap_packet : list Z := radiotap 0 0 [0; 0; 0; 0] ++ hdr_3addr 0xd0 (replicate 6 255) [2; 0; 0; 0; 0; 1] kAWDLBSSID 0 ++ [0x7f; 0x00; 0x17; 0xf2].
Lemma bpf_output_exact_witness : bytes_ok radiotap_packet /\
  ((exists version pad body frame, radiotap_packet = radiotap version pad body ++ frame /\ zlen body + 4 < 2 ^ 16 /\ 0 < zlen frame /\
     bpfOutputPacket demo_env true DLT_IEEE802_11_RADIO radiotap_packet (demo_kext RTW88_STATE_IDLE) = bpfOutputPacket demo_env true DLT_RAW frame (demo_kext RTW88_STATE_IDLE)) \/
  ((forall version pad body frame, 0 < zlen frame -> zlen body + 4 < 2 ^ 16 -> radiotap_packet <> radiotap version pad body ++ frame) /\
     bpfOutputPacket demo_env true DLT_IEEE802_11_RADIO radiotap_packet (demo_kext RTW88_STATE_IDLE) = Some (kIOReturnBadArgument, demo_kext RTW88_STATE_IDLE))).
Proof.
  assert (bytes_ok radiotap_packet) as B by (apply bytes_okb_ok; vm_compute; reflexivity). split; [exact B|].
  apply (bpf_output_exact demo_env true radiotap_packet (demo_kext RTW88_STATE_IDLE) B). reflexivity.
Defined.
Example radiotap_sent : option_map fst (bpfOutputPacket demo_env true DLT_IEEE802_11_RADIO radiotap_packet (demo_kext RTW88_STATE_IDLE)) = Some kIOReturnSuccess.
Proof. vm_compute. reflexivity. Qed.
