(* ===== verification/Airport.v ===== *)
(** * The IO80211 controller: [src/src/kext/AirportRTW88.cpp]

    [AirportRTW88] answers the requests IO80211 sends for the interface en0,
    turning each into the commands of [RTW88IEEE80211] (file [Session]), and
    gives IO80211 what that object reports: received packets, link changes,
    the end of scans.  This file has the controller's state, the reports, the
    life of the virtual interfaces and every request handler with its
    dispatcher [apple80211Request]; [AirportVif] has the requests of the
    virtual interface, [AirportRun] everything together.

    A request that needs [cmdConnect], [cmdDisconnect] or [cmdPowerOff] can
    wait for a thread call; it is answered when the command ends
    ([request_done]).  The structures IO80211 passes are those of
    [src/tests/fixtures/airportitlwm-2.3.0]; of an answer the model has the
    fields that are not constant: [version] is always 1, the rest is zero. *)

From S2P Require Import Prelude Rsn Bss Sha1 Kdf Reorder Kext Tx Eapol Rx Mgmt Mlme Session Awdl ScanReport.

Definition APPLE80211_MAX_RSN_IE_LEN : Z := 257.
Definition APPLE80211_MAX_CHANNELS : Z := 128.
Definition APPLE80211_MAX_RADIO : Z := 4.
Definition APPLE80211_KEY_BUFF_LEN : Z := 32.
Definition APPLE80211_MAX_CC_LEN : Z := 3.
Definition APPLE80211_AUTHTYPE_OPEN : Z := 1.
Definition APPLE80211_AUTHTYPE_NONE : Z := 0.
Definition APPLE80211_AUTHTYPE_WPA_PSK : Z := Z.shiftl 1 1.
Definition APPLE80211_AUTHTYPE_WPA2_PSK : Z := Z.shiftl 1 3.
Definition APPLE80211_AUTHTYPE_SHA256_PSK : Z := Z.shiftl 1 10.
Definition APPLE80211_CIPHER_NONE : Z := 0.
Definition APPLE80211_CIPHER_TKIP : Z := 3.
Definition APPLE80211_CIPHER_AES_CCM : Z := 5.
Definition APPLE80211_S_INIT : Z := 0.
Definition APPLE80211_S_SCAN : Z := 1.
Definition APPLE80211_S_AUTH : Z := 2.
Definition APPLE80211_S_ASSOC : Z := 3.
Definition APPLE80211_S_RUN : Z := 4.
Definition APPLE80211_POWER_OFF : Z := 0.
Definition APPLE80211_POWER_ON : Z := 1.
Definition APPLE80211_UNIT_DBM : Z := 0.
Definition APPLE80211_UNIT_PERCENT : Z := 2.
Definition APPLE80211_M_STA : Z := 1.
Definition APPLE80211_MODE_AUTO : Z := 1.
Definition phy_modes : Z := Z.shiftl 2 0 .| Z.shiftl 2 1 .| Z.shiftl 2 2 .| Z.shiftl 2 3 .| Z.shiftl 2 6.
Definition APPLE80211_STATUS_SUCCESS : Z := 0.
Definition APPLE80211_STATUS_UNAVAILABLE : Z := 0xffff.
Definition APPLE80211_RESULT_SUCCESS : Z := 1.
Definition APPLE80211_INT_MIT_AUTO : Z := 1.
Definition APPLE80211_PROTMODE_OFF : Z := 0.
Definition APPLE80211_POWERSAVE_MODE_DISABLED : Z := 0.
Definition APPLE80211_LOCALE_ROW : Z := 6.
Definition IFNAMSIZ : Z := 16.
(** [ENXIO], and AirportItlwm's end of the scan list. *)
Definition ENXIO : Z := 6.
Definition end_of_list : Z := 5.

(** ** What the controller tells IO80211 *)

(** [NoteInput]: [inputPacket] of en0, [NoteVifInput]: of a virtual interface.
    [NotePosted] names the message of [postMessage]. *)
Inductive message := MSG_SCAN_DONE (result : Z) | MSG_ASSOC_DONE | MSG_POWER_CHANGED | MSG_RSN_HANDSHAKE_DONE | MSG_COUNTRY_CODE_CHANGED.
Inductive notice :=
| NotePosted (m : message)
| NoteLinkStatus (active : bool)
| NoteLinkState (up : bool)
| NoteInput (eth : list Z)
| NoteDropped (eth : list Z)
| NoteVifInput (v : vif) (frame : list Z)
| NotePeer (v : vif) (sa : list Z) (rssi chan subtype : Z)
| NoteVifLink (v : vif) (up : bool)
| NoteAttach (addr : list Z) (role : Z)
| NoteDetach (v : vif).

(** What IO80211 answers, by what was told before: [allocatePacket] with its
    copy, [super::enable], [super::enableVirtualInterface] and
    [super::disableVirtualInterface], [attachVirtualInterface] (the interface,
    and whether it was enabled on the way), [detachVirtualInterface]. *)
Record io80211 := mk_io {
  io_packet : list notice -> bool;
  io_enable : list notice -> Z;
  io_vif_enable : list notice -> Z;
  io_vif_disable : list notice -> Z;
  io_attach : list notice -> option (vif * bool);
  io_detach : list notice -> bool
}.

(** ** The controller *)

(** The request whose command waits. *)
Inductive pending := PendAssociate | PendDisassociate | PendPowerOff.

Record airport := mk_airport {
  ap_sys : sys;               (* the object behind [_ieee80211] and its threads *)
  _ieee80211 : bool; _netif : bool;
  ap_macAddr : list Z;
  _scanInProgress : bool; _scanCursor : Z; _scanResult : apple80211_scan_result;
  _authLower : Z; _authUpper : Z; _countryCode : list Z; _linkUp : bool;
  _awdlManager : option awdl_manager;
  ap_pending : option pending;
  notices : list notice       (* newest first *)
}.
#[export] Instance eta_airport : Eta airport := fun a =>
  mk_airport (ap_sys a) (_ieee80211 a) (_netif a) (ap_macAddr a) (_scanInProgress a) (_scanCursor a) (_scanResult a)
    (_authLower a) (_authUpper a) (_countryCode a) (_linkUp a) (_awdlManager a) (ap_pending a) (notices a).

Definition note (n : notice) (a : airport) : airport := a <| notices := n :: notices a |>.
Definition postMessage (m : message) (a : airport) : airport := note (NotePosted m) a.
Definition ap_obj (a : airport) : kext := obj (ap_sys a).
Definition on_awdl (f : awdl_manager -> awdl_manager) (a : airport) : airport :=
  match _awdlManager a with Some m => a <| _awdlManager := Some (f m) |> | None => a end.
Definition awdl_vif (a : airport) : option vif := m ← _awdlManager a; _awdlInterface m.

(** ** Reports of the object *)

Section controller.
Context (E : env) (io : io80211).

(** [rtw88Event(kRTW88EventScanDone)]: the one event the object raises. *)
Definition rtw88Event_scan_done (aborted : bool) (a : airport) : airport :=
  if negb (_netif a) then a
  else postMessage (MSG_SCAN_DONE (if aborted then 1 else 0)) (a <| _scanInProgress := false |> <| _scanCursor := 0 |>).

Definition setLinkStatus (up : bool) (a : airport) : airport :=
  let a := note (NoteLinkStatus up) a in
  if _netif a && negb (Bool.eqb (_linkUp a) up) then
    let a := note (NoteLinkState up) (a <| _linkUp := up |>) in
    if up then postMessage MSG_ASSOC_DONE a else a
  else a.

Definition injectRxFrame (eth : list Z) (a : airport) : airport :=
  if negb (_netif a) then note (NoteDropped eth) a
  else if (zlen eth <? 14) || (4096 <? zlen eth) then note (NoteDropped eth) a
  else note (NoteInput eth) a.

(** A received action frame: [None] is a read past the frame. *)
Definition injectRxActionFrame (frame : list Z) (rssi chan : Z) (a : airport) : option airport :=
  match awdl_vif a with
  | None => Some a
  | Some v =>
      if 4096 <? zlen frame then Some a
      else
        r ← rtw88IsAWDLActionFrame frame;
        match r with
        | None => Some a
        | Some subtype =>
            sa ← ldn frame 10 6;
            let a := note (NotePeer v sa rssi chan subtype) a in
            if negb (io_packet io (notices a)) then Some a else Some (note (NoteVifInput v frame) a)
        end
  end.

Definition injectRxAWDLFrame (eth : list Z) (a : airport) : airport :=
  match awdl_vif a with None => note (NoteDropped eth) a | Some v => note (NoteVifInput v eth) a end.

Definition deliver (e : event) (a : airport) : option airport :=
  match e with
  | EvScanDone aborted => Some (rtw88Event_scan_done aborted a)
  | EvLink up => Some (setLinkStatus up a)
  | EvInject eth => Some (injectRxFrame eth a)
  | EvInjectAWDL eth => Some (injectRxAWDLFrame eth a)
  | EvActionFrame f rssi chan => injectRxActionFrame f rssi chan a
  | _ => Some a
  end.
Fixpoint deliver_reports (es : list event) (a : airport) : option airport :=
  match es with [] => Some a | e :: es => a ← deliver e a; deliver_reports es a end.

(** The object and its threads moved on to [s]: what it reported on the way,
    oldest first. *)
Definition reports_of (k k' : kext) : list event := rev (take (length (trace k') - length (trace k)) (trace k')).
Definition moved (s : sys) (a : airport) : option airport := deliver_reports (reports_of (ap_obj a) (obj s)) (a <| ap_sys := s |>).

(** [AirportRTW88Interface::inputPacket]: which superclass takes the packet. *)
Inductive input_path := IO80211_path (length : Z) | Ethernet_path.
Definition iface_inputPacket (packet : list Z) : option input_path :=
  if 14 <=? zlen packet then
    e12 ← ld packet 12; e13 ← ld packet 13;
    if u16 (e12 << 8) .| e13 =? 0x888E then Some (IO80211_path (zlen packet)) else Some Ethernet_path
  else Some Ethernet_path.

(** ** Commands on behalf of a request *)

(** A command up to its wait, with what the object reports meanwhile. *)
Definition issue (c : command) (a : airport) : option airport := s ← begin_command E c (ap_sys a); moved s a.
Definition ret_of (a : airport) : Z := cmd_ret (ap_sys a).
Definition blocked (a : airport) : bool := is_some (thr_cmd (ap_sys a)).
(** A direct call of the object. *)
Definition call (r : Z * kext) (a : airport) : option airport := moved (returned r (ap_sys a)) a.

Definition enable (a : airport) : option (Z * airport) :=
  if negb (_ieee80211 a) then Some (kIOReturnNotReady, a)
  else
    a ← call (powerOn E (ap_obj a)) a;
    let ret := ret_of a in
    if negb (ret =? kIOReturnSuccess) then Some (ret, a)
    else
      let ret := io_enable io (notices a) in
      a ← (if negb (ret =? kIOReturnSuccess) then call (kIOReturnSuccess, powerOff (ap_obj a)) a else Some a);
      Some (ret, a).

Definition setMulticastMode (active : bool) (a : airport) : option (Z * airport) :=
  if _ieee80211 a then a ← issue (CmdReceiveMulticast active) a; Some (ret_of a, a) else Some (kIOReturnNotReady, a).
(** [addrs]: the array is given; only its being empty matters. *)
Definition setMulticastList (addrs : bool) (count : Z) (a : airport) : option (Z * airport) :=
  if negb (count =? 0) && negb addrs then Some (kIOReturnBadArgument, a) else setMulticastMode (negb (count =? 0)) a.
Definition setPromiscuousMode (active : bool) : Z := if active then kIOReturnUnsupported else kIOReturnSuccess.
Definition getHardwareAddress (a : airport) : Z * list Z :=
  if negb (_ieee80211 a) then (kIOReturnNotReady, []) else (kIOReturnSuccess, getMACAddress (ap_obj a)).
(** [enableFeature]: [kIO80211Feature80211n] only. *)
Definition enableFeature (is_80211n : bool) : Z := if is_80211n then kIOReturnSuccess else 102.

(** ** Virtual interfaces *)

Definition p2p_role (role : Z) : bool := negb ((role <? APPLE80211_VIF_P2P_DEVICE) || (APPLE80211_VIF_AWDL <? role)).

Definition enableVirtualInterface (i : option vif) (a : airport) : option (Z * airport) :=
  match i with
  | None => Some (kIOReturnBadArgument, a)
  | Some v =>
      let ret := io_vif_enable io (notices a) in
      if negb (ret =? kIOReturnSuccess) then Some (ret, a)
      else
        let a := on_awdl (setVirtualInterface (vi_role v) (Some v)) a in
        a ← (if (vi_role v =? APPLE80211_VIF_AWDL) && _ieee80211 a then issue (CmdAWDLReceiveMode true) a else Some a);
        Some (kIOReturnSuccess, note (NoteVifLink v true) a)
  end.
Definition disableVirtualInterface (i : option vif) (a : airport) : option (Z * airport) :=
  match i with
  | None => Some (kIOReturnBadArgument, a)
  | Some v =>
      let ret := io_vif_disable io (notices a) in
      if negb (ret =? kIOReturnSuccess) then Some (ret, a)
      else
        let a := note (NoteVifLink v false) a in
        a ← (if (vi_role v =? APPLE80211_VIF_AWDL) && _ieee80211 a then issue (CmdAWDLReceiveMode false) a else Some a);
        Some (kIOReturnSuccess, on_awdl (clearVirtualInterface (Some v)) a)
  end.

(** [attachVirtualInterface]: IO80211 creates the interface and may enable it
    before it returns. *)
Definition attachVirtualInterface (addr : list Z) (role : Z) (a : airport) : option (option vif * airport) :=
  let a := note (NoteAttach addr role) a in
  match io_attach io (notices a) with
  | None => Some (None, a)
  | Some (v, enabled) => '(_, a) ← (if enabled : bool then enableVirtualInterface (Some v) a else Some (kIOReturnSuccess, a)); Some (Some v, a)
  end.

(** The address of the AWDL interface: locally administered, unicast. *)
Definition awdl_addr (mac : list Z) : option (list Z) :=
  m0 ← ld mac 0; m5 ← ld mac 5; m ← st mac 0 (u8 ((m0 .| 2) .& 0xfe)); st m 5 (m5 .^ 0x80).
Definition ensureAWDLVirtualInterface (a : airport) : option (bool * airport) :=
  if negb (is_some (_awdlManager a)) || negb (_netif a) then Some (false, a)
  else if is_some (awdl_vif a) then Some (true, a)
  else
    mac ← ldn (ap_macAddr a) 0 6; addr ← awdl_addr mac;
    '(created, a) ← attachVirtualInterface addr APPLE80211_VIF_AWDL a;
    match created with
    | None => Some (false, a)
    | Some v =>
        let a := on_awdl (setVirtualInterface APPLE80211_VIF_AWDL (Some v)) a in
        '(ret, a) ← enableVirtualInterface (Some v) a;
        Some (ret =? kIOReturnSuccess, a)
    end.

(** [bzero(bsd_name)] and [strlcpy] of the name, if there is one. *)
Definition bsd_name_of (v : vif) : option (list Z) :=
  match vi_name v with None => Some (zeros IFNAMSIZ) | Some n => strlcpy (zeros IFNAMSIZ) n IFNAMSIZ end.
(** [strncmp(a, b, n) == 0] *)
Fixpoint strneq (a b : list Z) (n : nat) : option bool :=
  match n with
  | O => Some true
  | S m => x ← ld a 0; y ← ld b 0; if negb (x =? y) then Some false else if x =? 0 then Some true else strneq (zdrop 1 a) (zdrop 1 b) m
  end.

(** ** Requests and answers *)

Record assoc_data := mk_assoc {
  ad_version : Z; ad_auth_lower : Z; ad_auth_upper : Z; ad_ssid_len : Z; ad_ssid : list Z; ad_bssid : list Z;
  ad_key_len : Z; ad_key : list Z; ad_rsn_ie : list Z
}.
Record key_data := mk_keyd { kd_version : Z; kd_len : Z; kd_cipher : Z; kd_flags : Z; kd_index : Z; kd_key : list Z }.
Record scan_data := mk_scand { sd_version : Z; sd_ssid_len : Z; sd_num_channels : Z }.

(** The selector with the structure it points to, as IO80211 filled it. *)
Inductive ioc :=
| IOC_SSID | IOC_AUTH_TYPE (version lower upper : Z) | IOC_ASSOCIATE (d : assoc_data) | IOC_RSN_IE (version len : Z) (ie : list Z)
| IOC_AP_IE_LIST (len : Z) | IOC_CIPHER_KEY (d : key_data) | IOC_SCAN_REQ (d : scan_data) | IOC_SCAN_REQ_MULTIPLE
| IOC_SCANCACHE_CLEAR | IOC_SCAN_RESULT | IOC_RSSI | IOC_DISASSOCIATE | IOC_OP_MODE | IOC_PHY_MODE | IOC_CARD_CAPABILITIES
| IOC_BSSID | IOC_DEAUTH | IOC_ASSOCIATION_STATUS | IOC_ASSOCIATE_RESULT | IOC_SUPPORTED_CHANNELS | IOC_HW_SUPPORTED_CHANNELS
| IOC_DRIVER_VERSION | IOC_HARDWARE_VERSION | IOC_VIRTUAL_IF_CREATE (version role : Z) (mac : list Z)
| IOC_VIRTUAL_IF_DELETE (version : Z) (bsd_name : list Z) | IOC_CURRENT_NETWORK | IOC_STATE | IOC_CHANNEL | IOC_RADIO_INFO
| IOC_POWER (version num_radios : Z) (power_state : list Z) | IOC_NOISE | IOC_INT_MIT | IOC_PROTMODE | IOC_TXPOWER | IOC_POWERSAVE
| IOC_LOCALE | IOC_COUNTRY_CODE (version : Z) (cc : list Z) | IOC_OTHER.

(** What the structure holds afterwards. *)
Inductive ioc_out :=
| OutNone
| OutSSID (len : Z) (bytes : list Z)
| OutAuthType (lower upper : Z)
| OutIE (len : Z) (bytes : list Z)
| OutScanResult (r : apple80211_scan_result)
| OutRSSI (num_radios unit rssi : Z)
| OutValue (v : Z)
| OutPhyMode (modes active : Z)
| OutBytes (b : list Z)
| OutChannels (l : list apple80211_channel)
| OutVersion (len : Z) (text : list Z)
| OutPower (num_radios : Z) (states : list Z)
| OutUnitValue (unit v : Z).

(** Answered, or waiting for its command. *)
Inductive answer := Answer (ret : Z) (out : ioc_out) | Waits.

(** ** Request handlers *)

Definition state_of (a : airport) : RTW88StateResult := cmdGetState E (ap_obj a).
Definition connected (a : airport) : bool := is_state (sr_state (state_of a)) RTW88_STATE_CONNECTED.
Definition answered (ret : Z) (out : ioc_out) (a : airport) : option (answer * airport) := Some (Answer ret out, a).
Definition refused (ret : Z) (a : airport) : option (answer * airport) := answered ret OutNone a.
(** Answers that need a connection. *)
Definition when_connected (out : ioc_out) (a : airport) : option (answer * airport) :=
  if negb (connected a) then refused ENXIO a else answered kIOReturnSuccess out a.

Definition handleSSID (set : bool) (a : airport) : option (answer * airport) :=
  if set then refused kIOReturnSuccess a
  else if negb (connected a) then refused ENXIO a
  else
    n ← strnlen (sr_ssid (state_of a)) 32;
    v ← ldn (sr_ssid (state_of a)) 0 n; b ← stn (zeros 32) 0 v;
    answered kIOReturnSuccess (OutSSID n b) a.

Definition handleAUTH_TYPE (set : bool) (version lower upper : Z) (a : airport) : option (answer * airport) :=
  if set then
    if negb (version =? APPLE80211_VERSION) then refused kIOReturnBadArgument a
    else refused kIOReturnSuccess (a <| _authLower := lower |> <| _authUpper := upper |>)
  else answered kIOReturnSuccess (OutAuthType (_authLower a) (_authUpper a)) a.

(** A command, answered when it does not wait. *)
Definition command_answer (p : pending) (c : command) (a : airport) : option (answer * airport) :=
  a ← issue c a;
  if blocked a then Some (Waits, a <| ap_pending := Some p |>) else refused (ret_of a) a.

Definition handleASSOCIATE (d : assoc_data) (a : airport) : option (answer * airport) :=
  if negb (ad_version d =? APPLE80211_VERSION) || (ad_ssid_len d =? 0) || (APPLE80211_MAX_SSID_LEN <? ad_ssid_len d) then refused kIOReturnBadArgument a
  else
    v ← ldn (ad_ssid d) 0 (ad_ssid_len d); ssid ← stn (zeros (APPLE80211_MAX_SSID_LEN + 1)) 0 v;
    bss ← ldn (ad_bssid d) 0 APPLE80211_ADDR_LEN;
    let bssid := if bool_decide (bss = zeros APPLE80211_ADDR_LEN) then None else Some bss in
    let a := a <| _authLower := ad_auth_lower d |> <| _authUpper := ad_auth_upper d |> in
    r0 ← ld (ad_rsn_ie d) 0; r1 ← ld (ad_rsn_ie d) 1;
    a ← (if r0 =? 48 then
           let rsnLen := u16 (r1 + 2) in
           if rsnLen <=? APPLE80211_MAX_RSN_IE_LEN then ie ← ldn (ad_rsn_ie d) 0 rsnLen; issue (CmdSetAssocRsnIE (Some ie)) a else Some a
         else Some a);
    let upper := ad_auth_upper d in
    let personalMask := APPLE80211_AUTHTYPE_WPA_PSK .| APPLE80211_AUTHTYPE_WPA2_PSK .| APPLE80211_AUTHTYPE_SHA256_PSK in
    let secure := negb (upper .& personalMask =? 0) in
    if negb (ad_auth_lower d =? APPLE80211_AUTHTYPE_OPEN) then refused kIOReturnUnsupported a
    else if negb secure && negb (upper =? APPLE80211_AUTHTYPE_NONE) then refused kIOReturnUnsupported a
    else if (upper .& (APPLE80211_AUTHTYPE_WPA2_PSK .| APPLE80211_AUTHTYPE_SHA256_PSK) =? 0) && negb (upper =? APPLE80211_AUTHTYPE_NONE) then
      refused kIOReturnUnsupported a
    else if (if secure then negb (ad_key_len d =? 32) else negb (ad_key_len d =? 0)) then refused kIOReturnUnsupported a
    else command_answer PendAssociate (CmdConnect (mk_connect (Some ssid) None (if secure then Some (ad_key d) else None) bssid false)) a.

Definition handleRSN_IE (set : bool) (version len : Z) (ie : list Z) (a : airport) : option (answer * airport) :=
  if set then
    if negb (version =? APPLE80211_VERSION) || (len <? 2) || (APPLE80211_MAX_RSN_IE_LEN <? len) then refused kIOReturnBadArgument a
    else e ← ldn ie 0 len; a ← issue (CmdSetAssocRsnIE (Some e)) a; refused (ret_of a) a
  else
    '(ret, b) ← copyTargetRsnIE APPLE80211_MAX_RSN_IE_LEN (ap_obj a);
    if negb (ret =? 0) then refused ret a else answered kIOReturnSuccess (OutIE (zlen b) b) a.

Definition handleAP_IE_LIST (len : Z) (a : airport) : option (answer * airport) :=
  if len =? 0 then refused kIOReturnBadArgument a
  else
    '(ret, b) ← copyTargetRsnIE APPLE80211_MAX_RSN_IE_LEN (ap_obj a);
    if negb (ret =? 0) then refused ret a
    else if len <? zlen b then refused kIOReturnNoSpace a
    else answered kIOReturnSuccess (OutIE (zlen b) b) a.

Definition handleCIPHER_KEY (d : key_data) (a : airport) : option (answer * airport) :=
  if negb (kd_version d =? APPLE80211_VERSION) || (APPLE80211_KEY_BUFF_LEN <? kd_len d) then refused kIOReturnBadArgument a
  else if kd_cipher d =? APPLE80211_CIPHER_NONE then refused kIOReturnSuccess a
  else
    match (if kd_cipher d =? APPLE80211_CIPHER_AES_CCM then Some WLAN_CIPHER_SUITE_CCMP
           else if kd_cipher d =? APPLE80211_CIPHER_TKIP then Some WLAN_CIPHER_SUITE_TKIP else None) with
    | None => refused kIOReturnUnsupported a
    | Some cipher =>
        if negb (kd_flags d =? 4) && negb (kd_flags d =? 0) then refused kIOReturnUnsupported a
        else
          key ← ldn (kd_key d) 0 (u8 (kd_len d));
          a ← issue (CmdInstallExternalKey (kd_flags d =? 4) (u8 (kd_index d)) cipher (Some key)) a;
          let ret := ret_of a in
          refused ret (if (ret =? 0) && _netif a then postMessage MSG_RSN_HANDSHAKE_DONE a else a)
    end.

(** The common part of the two scan requests. *)
Definition start_scan (a : airport) : option (answer * airport) :=
  if _scanInProgress a then refused kIOReturnSuccess a
  else if connected a then refused kIOReturnSuccess (postMessage (MSG_SCAN_DONE 0) (a <| _scanCursor := 0 |>))
  else
    let a := a <| _scanInProgress := true |> <| _scanCursor := 0 |> in
    a ← issue CmdScan a;
    let ret := ret_of a in
    refused ret (if negb (ret =? 0) then a <| _scanInProgress := false |> else a).
Definition scan_data_ok (d : scan_data) : bool :=
  (sd_version d =? APPLE80211_VERSION) && (sd_ssid_len d <=? APPLE80211_MAX_SSID_LEN) && (sd_num_channels d <=? APPLE80211_MAX_CHANNELS).
Definition handleSCAN_REQ (d : scan_data) (a : airport) : option (answer * airport) :=
  if negb (scan_data_ok d) then refused kIOReturnBadArgument a else start_scan a.

Definition handleSCAN_RESULT (a : airport) : option (answer * airport) :=
  if _scanInProgress a then refused kIOReturnBusy a
  else
    match copyScanBSS (_scanCursor a) (_bss (ap_obj a)) with
    | None => refused end_of_list (a <| _scanCursor := 0 |>)
    | Some b =>
        d ← fillScanResultFromBSS b false;
        answered kIOReturnSuccess (OutScanResult d) (a <| _scanResult := d |> <| _scanCursor := u32 (_scanCursor a + 1) |>)
    end.

(** The current network from the connection's state, over what the failed
    copy left. *)
Definition rebuild_current (st : RTW88StateResult) (b : RTW88BSS) : option RTW88BSS :=
  n ← strnlen (sr_ssid st) 32;
  v ← ldn (sr_ssid st) 0 n; s ← stn (ssid b) 0 v; s ← Prelude.st s n 0;
  Some (mk_bss s (u8 n) (sr_bssid st) (signed 16 (u16 (sr_rssi st))) (freq b) (u8 (sr_channel st)) (capabilities b) 100
          (cipher b) (group_cipher b) (akm b) (last_seen_scan b) (ies b) (ies_len b)).
Definition handleCURRENT_NETWORK (a : airport) : option (answer * airport) :=
  '(ret, current) ← copyCurrentBSS (ap_obj a);
  let current := match current with Some b => b | None => zero_bss end in
  if negb (ret =? kIOReturnSuccess) then
    let st := state_of a in
    s0 ← ld (sr_ssid st) 0;
    if negb (connected a) || (sr_channel st =? 0) || (s0 =? 0) then refused ret a
    else current ← rebuild_current st current; d ← fillScanResultFromBSS current true; answered kIOReturnSuccess (OutScanResult d) a
  else d ← fillScanResultFromBSS current true; answered kIOReturnSuccess (OutScanResult d) a.

Definition apple_state (s : RTW88State) : Z :=
  match s with
  | RTW88_STATE_SCANNING => APPLE80211_S_SCAN
  | RTW88_STATE_AUTHENTICATING => APPLE80211_S_AUTH
  | RTW88_STATE_ASSOCIATING | RTW88_STATE_HANDSHAKING => APPLE80211_S_ASSOC
  | RTW88_STATE_CONNECTED => APPLE80211_S_RUN
  | _ => APPLE80211_S_INIT
  end.
Definition handleSTATE (a : airport) : option (answer * airport) := answered kIOReturnSuccess (OutValue (apple_state (sr_state (state_of a)))) a.

Definition apple_channel (c : Z) : apple80211_channel := mk_achannel APPLE80211_VERSION c (channel_flags c).
Definition handleCHANNEL (a : airport) : option (answer * airport) :=
  let st := state_of a in
  if negb (connected a) || (sr_channel st =? 0) then refused ENXIO a
  else answered kIOReturnSuccess (OutChannels [apple_channel (sr_channel st)]) a.

Definition power_done (a : airport) : airport := if (ret_of a =? kIOReturnSuccess) && _netif a then postMessage MSG_POWER_CHANGED a else a.
Definition handlePOWER (set : bool) (version num_radios : Z) (power_state : list Z) (a : airport) : option (answer * airport) :=
  if set then
    if negb (version =? APPLE80211_VERSION) || (num_radios =? 0) || (APPLE80211_MAX_RADIO <? num_radios) then refused kIOReturnBadArgument a
    else
      requested ← ld power_state 0;
      if requested =? APPLE80211_POWER_ON then a ← issue CmdPowerOn a; refused (ret_of a) (power_done a)
      else if requested =? APPLE80211_POWER_OFF then
        a ← issue CmdPowerOff a;
        if blocked a then Some (Waits, a <| ap_pending := Some PendPowerOff |>) else refused (ret_of a) (power_done a)
      else refused kIOReturnUnsupported a
  else
    let st := state_of a in
    answered kIOReturnSuccess (OutPower APPLE80211_MAX_RADIO (replicate 4 (if sr_powered st then APPLE80211_POWER_ON else APPLE80211_POWER_OFF))) a.

(** The command a request waited for has ended: its answer. *)
Definition request_done (a : airport) : answer * airport :=
  match ap_pending a with
  | Some p =>
      let a := a <| ap_pending := None |> in
      (Answer (ret_of a) OutNone, match p with PendPowerOff => power_done a | _ => a end)
  | None => (Answer (ret_of a) OutNone, a)
  end.

Definition handleVIRTUAL_IF_CREATE (version role : Z) (mac : list Z) (a : airport) : option (answer * airport) :=
  if negb (version =? APPLE80211_VERSION) then refused kIOReturnBadArgument a
  else if negb (p2p_role role) then refused kIOReturnUnsupported a
  else
    addr ← ldn mac 0 APPLE80211_ADDR_LEN;
    match _awdlManager a with
    | None => refused kIOReturnNotReady a
    | Some m =>
        match (if role =? APPLE80211_VIF_AWDL then _awdlInterface m else _p2pInterface m) with
        | Some existing => name ← bsd_name_of existing; answered kIOReturnSuccess (OutBytes name) a
        | None =>
            '(created, a) ← attachVirtualInterface addr role a;
            match created with
            | None => refused kIOReturnError a
            | Some v => name ← bsd_name_of v; answered kIOReturnSuccess (OutBytes name) (on_awdl (setVirtualInterface role (Some v)) a)
            end
        end
    end.

Definition named (v : option vif) (requested : list Z) : option bool :=
  match v with Some v => match vi_name v with Some n => strneq n requested (Z.to_nat IFNAMSIZ) | None => Some false end | None => Some false end.
Definition handleVIRTUAL_IF_DELETE (version : Z) (bsd_name : list Z) (a : airport) : option (answer * airport) :=
  if negb (version =? APPLE80211_VERSION) then refused kIOReturnBadArgument a
  else
    b ← ldn bsd_name 0 IFNAMSIZ; let requested := b ++ [0] in
    let awdl := m ← _awdlManager a; _awdlInterface m in
    let p2p := m ← _awdlManager a; _p2pInterface m in
    is_awdl ← named awdl requested; is_p2p ← named p2p requested;
    match (if is_awdl : bool then awdl else if is_p2p : bool then p2p else None) with
    | None => refused kIOReturnNotFound a
    | Some target =>
        let a := note (NoteDetach target) a in
        if io_detach io (notices a) then refused kIOReturnSuccess (on_awdl (clearVirtualInterface (Some target)) a)
        else refused kIOReturnError a
    end.

(** ** The dispatcher *)

(** [capabilities[cap / 8] |= 1U << (cap % 8)], then the reference's bytes. *)
Definition set_cap (b : option (list Z)) (cap : Z) : option (list Z) := b ← b; x ← ld b (cap / 8); st b (cap / 8) (x .| (1 << (cap mod 8))).
Definition card_capabilities : option (list Z) :=
  b ← fold_left set_cap [1; 3; 14; 12; 9; 10] (Some (zeros 11));
  stn b 2 [0xff; 0x2b; 0xad; 0x8c; 0x8c; 0x84].

Definition supported_channels (a : airport) : option (answer * airport) :=
  let '(ret, cs) := copyChannels APPLE80211_MAX_CHANNELS (ap_obj a) in
  if negb (ret =? 0) then refused ret a
  else answered kIOReturnSuccess (OutChannels (map (fun c => apple_channel (rc_number c)) cs)) a.

(** A selector that can only be read. *)
Definition get_only (isSet : bool) (r : option (answer * airport)) (a : airport) : option (answer * airport) :=
  if isSet then refused kIOReturnUnsupported a else r.
Definition set_only (isSet : bool) (r : option (answer * airport)) (a : airport) : option (answer * airport) :=
  if isSet then r else refused kIOReturnUnsupported a.

Inductive ioc_type := SIOCGA80211 | SIOCSA80211 | SIOC_OTHER.

(** [data]: the structure is given. *)
Definition apple80211Request (request_type : ioc_type) (data : bool) (r : ioc) (a : airport) : option (answer * airport) :=
  if negb (_ieee80211 a) then refused kIOReturnNotReady a
  else
    match request_type with
    | SIOC_OTHER => refused kIOReturnBadArgument a
    | _ =>
        let isSet := match request_type with SIOCSA80211 => true | _ => false end in
        if negb data && negb (match r with IOC_DISASSOCIATE => true | _ => false end) then refused kIOReturnBadArgument a
        else
          let k := ap_obj a in
          let get out := get_only isSet (answered kIOReturnSuccess out a) a in
          let get_connected out := get_only isSet (when_connected out a) a in
          match r with
          | IOC_SSID => handleSSID isSet a
          | IOC_AUTH_TYPE version lower upper => handleAUTH_TYPE isSet version lower upper a
          | IOC_ASSOCIATE d => set_only isSet (handleASSOCIATE d a) a
          | IOC_RSN_IE version len ie => handleRSN_IE isSet version len ie a
          | IOC_AP_IE_LIST len => get_only isSet (handleAP_IE_LIST len a) a
          | IOC_CIPHER_KEY d => set_only isSet (handleCIPHER_KEY d a) a
          | IOC_SCAN_REQ d => set_only isSet (handleSCAN_REQ d a) a
          | IOC_SCAN_REQ_MULTIPLE => set_only isSet (start_scan a) a
          | IOC_SCANCACHE_CLEAR => set_only isSet (refused kIOReturnSuccess (a <| _scanCursor := 0 |>)) a
          | IOC_SCAN_RESULT => get_only isSet (handleSCAN_RESULT a) a
          | IOC_RSSI => get_connected (OutRSSI 1 APPLE80211_UNIT_DBM (sr_rssi (state_of a)))
          | IOC_DISASSOCIATE => set_only isSet (command_answer PendDisassociate CmdDisconnect a) a
          | IOC_OP_MODE => get (OutValue APPLE80211_M_STA)
          | IOC_PHY_MODE => get (OutPhyMode phy_modes APPLE80211_MODE_AUTO)
          | IOC_CARD_CAPABILITIES => get_only isSet (caps ← card_capabilities; answered kIOReturnSuccess (OutBytes caps) a) a
          | IOC_BSSID => if isSet then refused kIOReturnSuccess a else when_connected (OutBytes (sr_bssid (state_of a))) a
          | IOC_DEAUTH => get (OutValue (_deauthReason k))
          | IOC_ASSOCIATION_STATUS => get (OutValue (if connected a then APPLE80211_STATUS_SUCCESS else APPLE80211_STATUS_UNAVAILABLE))
          | IOC_ASSOCIATE_RESULT =>
              get_only isSet (if negb (connected a) then refused kIOReturnNotReady a else answered kIOReturnSuccess (OutValue APPLE80211_RESULT_SUCCESS) a) a
          | IOC_SUPPORTED_CHANNELS | IOC_HW_SUPPORTED_CHANNELS => get_only isSet (supported_channels a) a
          | IOC_DRIVER_VERSION => get (OutVersion 19 (chars "AirPort_RTW88 1.0.1"))
          | IOC_HARDWARE_VERSION => get (OutVersion 9 (chars "RTL8822BE"))
          | IOC_VIRTUAL_IF_CREATE version role mac => set_only isSet (handleVIRTUAL_IF_CREATE version role mac a) a
          | IOC_VIRTUAL_IF_DELETE version name => set_only isSet (handleVIRTUAL_IF_DELETE version name a) a
          | IOC_CURRENT_NETWORK => get_only isSet (handleCURRENT_NETWORK a) a
          | IOC_STATE => get_only isSet (handleSTATE a) a
          | IOC_CHANNEL => get_only isSet (handleCHANNEL a) a
          | IOC_RADIO_INFO => get (OutValue 1)
          | IOC_POWER version n states => handlePOWER isSet version n states a
          | IOC_NOISE => get_connected (OutRSSI 1 APPLE80211_UNIT_DBM (-95))
          | IOC_INT_MIT => get (OutValue APPLE80211_INT_MIT_AUTO)
          | IOC_PROTMODE => get_connected (OutUnitValue APPLE80211_PROTMODE_OFF 0)
          | IOC_TXPOWER => get_connected (OutUnitValue APPLE80211_UNIT_PERCENT 100)
          | IOC_POWERSAVE => get (OutValue APPLE80211_POWERSAVE_MODE_DISABLED)
          | IOC_LOCALE => get (OutValue APPLE80211_LOCALE_ROW)
          | IOC_COUNTRY_CODE version cc =>
              if isSet then
                if negb (version =? APPLE80211_VERSION) then refused kIOReturnBadArgument a
                else
                  c0 ← ld cc 0;
                  if negb (c0 =? 0x78) && negb (c0 =? 0x58) then
                    v ← ldn cc 0 APPLE80211_MAX_CC_LEN; v ← st v (APPLE80211_MAX_CC_LEN - 1) 0;
                    let a := a <| _countryCode := v |> in
                    refused kIOReturnSuccess (if _netif a then postMessage MSG_COUNTRY_CODE_CHANGED a else a)
                  else refused kIOReturnSuccess a
              else answered kIOReturnSuccess (OutBytes (_countryCode a)) a
          | IOC_OTHER => refused kIOReturnUnsupported a
          end
    end.
End controller.

Example capabilities_published : card_capabilities = Some [0x0a; 0x56; 0xff; 0x2b; 0xad; 0x8c; 0x8c; 0x84; 0; 0; 0].
Proof. vm_compute. reflexivity. Qed.
