(* ===== verification/AirportVif.v ===== *)
(** * Requests of the virtual interface: [src/src/kext/AirportRTW88AWDL.cpp]

    [apple80211VirtualRequest] answers awdl0 and the P2P interfaces: the
    selectors of the physical radio go to [apple80211Request] (file
    [Airport]), AWDL's settings to the manager (file [Awdl]), a channel to the
    object as well, when no station connection needs the radio. *)

From S2P Require Import Prelude Rsn Bss Sha1 Kdf Reorder Kext Tx Eapol Rx Mgmt Mlme Session Awdl ScanReport Airport.

(** [sizeof(apple80211_awdl_sync_channel_sequence)] *)
Definition sizeof_sequence : Z := 0x190.

Inductive vioc :=
| VIOC (r : ioc)
| VIOC_CHANNEL (version channel : Z)
| AWDL_SYNC_ENABLED (enabled : Z) | AWDL_ELECTION_METRIC (metric : Z) | AWDL_PEER_TRAFFIC_REGISTRATION (active : Z)
| AWDL_SYNC_FRAME_TEMPLATE (payload : option (list Z)) (payload_len : Z) | HT_CAPABILITY | VHT_CAPABILITY | CHANNELS_INFO
| PEER_CACHE_MAXIMUM_SIZE | P2P_ENABLE | P2P_SCAN (d : scan_data) | P2P_LISTEN | P2P_GO_CONF
| AWDL_BSSID (bssid : list Z) | AWDL_ELECTION_ID (id : Z) | AWDL_MASTER_CHANNEL (channel : Z) | AWDL_SECONDARY_MASTER_CHANNEL (channel : Z)
| AWDL_MIN_RATE (rate : Z) | AWDL_ELECTION_RSSI_THRESHOLDS | AWDL_SYNCHRONIZATION_CHANNEL_SEQUENCE (d : list Z) | AWDL_PRESENCE_MODE (mode : Z)
| AWDL_EXTENSION_STATE_MACHINE_PARAMETERS | AWDL_SYNC_STATE (state : Z) | AWDL_SYNC_PARAMS (awLen awPeriod extLen syncPeriod : Z)
| AWDL_DEVICE_CAPABILITIES (cap : Z) | AWDL_AF_TX_MODE (mode : Z) | AWDL_OOB_AUTO_REQUEST | VIOC_OTHER.

(** An entry of the channel table: number, passive, radar, 40 MHz, 80 MHz. *)
Record chan_info := mk_chan_info { ci_num : Z; ci_passive : Z; ci_radar_dfs : Z; ci_support_40Mhz : Z; ci_support_80Mhz : Z }.

Inductive vif_out :=
| VOut (o : ioc_out)
| VOutTemplate (payload : option (list Z)) (payload_len : Z)
| VOutHT (unk1 unk3 : Z)
| VOutChannels (l : list chan_info)
| VOutParams (awLen awPeriod extLen syncPeriod : Z).
Inductive vif_answer := VAnswer (ret : Z) (out : vif_out) | VWaits.

Definition physical (r : ioc) : bool :=
  match r with
  | IOC_CARD_CAPABILITIES | IOC_POWER _ _ _ | IOC_SUPPORTED_CHANNELS | IOC_DRIVER_VERSION | IOC_OP_MODE | IOC_PHY_MODE | IOC_RSSI
  | IOC_STATE | IOC_BSSID | IOC_AUTH_TYPE _ _ _ | IOC_SSID | IOC_COUNTRY_CODE _ _ => true
  | _ => false
  end.

Section requests.
Context (E : env) (io : io80211).

Definition v_ok (out : ioc_out) (a : airport) : option (vif_answer * airport) := Some (VAnswer kIOReturnSuccess (VOut out), a).
Definition v_refused (ret : Z) (a : airport) : option (vif_answer * airport) := Some (VAnswer ret (VOut OutNone), a).
Definition forward (request_type : ioc_type) (data : bool) (r : ioc) (a : airport) : option (vif_answer * airport) :=
  '(x, a) ← apple80211Request E io request_type data r a;
  Some (match x with Answer ret out => VAnswer ret (VOut out) | Waits => VWaits end, a).

(** A setting of the manager: stored on SET, read back on GET. *)
Definition setting (set data : bool) (f : awdl_manager -> awdl_manager) (g : awdl_manager -> ioc_out) (a : airport) : option (vif_answer * airport) :=
  match _awdlManager a with
  | Some m => if negb data then v_refused kIOReturnNotReady a
              else if set then v_ok OutNone (on_awdl f a) else v_ok (g m) a
  | None => v_refused kIOReturnNotReady a
  end.

(** [_ieee80211->setAWDLChannel], of 16 bits; a channel the object refuses for a reason
    not in [tolerated] is an error. *)
Definition tune (channel : Z) (tolerated : list Z) (a : airport) : option (vif_answer * airport) :=
  a ← issue E io (CmdAWDLChannel (u16 channel)) a;
  if (ret_of a =? kIOReturnSuccess) || bool_decide (ret_of a ∈ tolerated) then v_ok OutNone a else v_refused (ret_of a) a.

Definition chan_info_of (c : RTW88Channel) : chan_info :=
  mk_chan_info (u8 (rc_number c)) (c_bool (rc_passive c)) (c_bool (rc_radar c)) (c_bool (negb (rc_number c =? 14))) (c_bool (14 <? rc_number c)).

Definition apple80211VirtualRequest (request_type : ioc_type) (role : Z) (data : bool) (r : vioc) (a : airport) : option (vif_answer * airport) :=
  match request_type with
  | SIOC_OTHER => v_refused kIOReturnBadArgument a
  | _ =>
      let set := match request_type with SIOCSA80211 => true | _ => false end in
      match r with
      | VIOC r => if physical r then forward request_type data r a else v_refused kIOReturnUnsupported a
      | VIOC_CHANNEL version channel =>
          if negb data then v_refused kIOReturnBadArgument a
          else if negb (role =? APPLE80211_VIF_AWDL) then forward request_type data IOC_CHANNEL a
          else if set then
            if negb (version =? APPLE80211_VERSION) || (channel =? 0) then v_refused kIOReturnBadArgument a
            else
              let a := on_awdl (fun m => m <| _masterChannel := u8 channel |>) a in
              if _ieee80211 a then tune channel [kIOReturnBusy] a else v_refused kIOReturnNotReady a
          else
            let ch := match _awdlManager a with Some m => u16 (_masterChannel m) | None => 0 end in
            if ch =? 0 then forward request_type data IOC_CHANNEL a else v_ok (OutChannels [apple_channel ch]) a
      | AWDL_SYNC_ENABLED enabled =>
          if negb data then v_refused kIOReturnBadArgument a
          else if set then
            match _awdlManager a with
            | Some m => v_ok OutNone (a <| _awdlManager := Some (m <| _syncEnabled := negb (enabled =? 0) |>) |>)
            | None => v_refused kIOReturnNotReady a
            end
          else v_ok (OutValue (match _awdlManager a with Some m => c_bool (_syncEnabled m) | None => 0 end)) a
      | AWDL_ELECTION_METRIC metric =>
          if negb data then v_refused kIOReturnBadArgument a
          else if set then
            match _awdlManager a with
            | Some m => v_ok OutNone (a <| _awdlManager := Some (m <| _electionMetric := metric |>) |>)
            | None => v_refused kIOReturnNotReady a
            end
          else v_ok (OutValue (match _awdlManager a with Some m => _electionMetric m | None => 0 end)) a
      | AWDL_PEER_TRAFFIC_REGISTRATION active =>
          if negb data then v_refused kIOReturnBadArgument a
          else if negb set then v_refused kIOReturnNotFound a
          else v_ok OutNone (on_awdl (notePeerTrafficRegistration (negb (active =? 0))) a)
      | AWDL_SYNC_FRAME_TEMPLATE payload len =>
          if negb data then v_refused kIOReturnBadArgument a
          else
            match _awdlManager a with
            | None => v_refused kIOReturnNotReady a
            | Some m =>
                if set then
                  '(ret, m) ← setSyncFrameTemplate payload len (alloc_ok E (trace (ap_obj a))) m;
                  v_refused ret (a <| _awdlManager := Some m |>)
                else if negb (is_some payload) then v_refused kIOReturnBadArgument a
                else '(ret, p, n) ← copySyncFrameTemplate payload len m; Some (VAnswer ret (VOutTemplate p n), a)
            end
      | HT_CAPABILITY => if set || negb data then v_refused kIOReturnUnsupported a else Some (VAnswer kIOReturnSuccess (VOutHT 45 0x0062), a)
      | VHT_CAPABILITY => if set || negb data then v_refused kIOReturnUnsupported a else v_ok (OutValue 3263) a
      | CHANNELS_INFO =>
          if set || negb data || negb (_ieee80211 a) then v_refused kIOReturnUnsupported a
          else
            let '(ret, cs) := copyChannels APPLE80211_MAX_CHANNELS (ap_obj a) in
            if negb (ret =? kIOReturnSuccess) && negb (ret =? kIOReturnNoSpace) then v_refused ret a
            else Some (VAnswer kIOReturnSuccess (VOutChannels (map chan_info_of cs)), a)
      | PEER_CACHE_MAXIMUM_SIZE => if negb data then v_refused kIOReturnBadArgument a else v_ok (if set then OutNone else OutValue 255) a
      | P2P_ENABLE => if negb set then v_refused kIOReturnUnsupported a else v_ok OutNone (on_awdl (fun m => m <| _p2pEnabled := true |>) a)
      | P2P_SCAN d =>
          if negb set || negb data then v_refused kIOReturnUnsupported a
          else if negb (scan_data_ok d) then v_refused kIOReturnBadArgument a else v_ok OutNone a
      | P2P_LISTEN | P2P_GO_CONF | AWDL_OOB_AUTO_REQUEST => if set then v_ok OutNone a else v_refused kIOReturnUnsupported a
      | AWDL_BSSID b => setting set data (fun m => m <| _bssid := b |>) (fun m => OutBytes (_bssid m)) a
      | AWDL_ELECTION_ID v => setting set data (fun m => m <| _electionId := v |>) (fun m => OutValue (_electionId m)) a
      | AWDL_MASTER_CHANNEL channel =>
          '(x, a) ← setting set data (fun m => m <| _masterChannel := channel |>) (fun m => OutValue (_masterChannel m)) a;
          if set && data && is_some (_awdlManager a) && _ieee80211 a && negb (channel =? 0) then tune channel [kIOReturnBusy] a else Some (x, a)
      | AWDL_SECONDARY_MASTER_CHANNEL v => setting set data (fun m => m <| _secondaryMasterChannel := v |>) (fun m => OutValue (_secondaryMasterChannel m)) a
      | AWDL_MIN_RATE v => setting set data (fun m => m <| _minRate := v |>) (fun m => OutValue (_minRate m)) a
      | AWDL_ELECTION_RSSI_THRESHOLDS | AWDL_EXTENSION_STATE_MACHINE_PARAMETERS => if negb data then v_refused kIOReturnBadArgument a else v_ok OutNone a
      | AWDL_SYNCHRONIZATION_CHANNEL_SEQUENCE d =>
          match _awdlManager a with
          | None => v_refused kIOReturnNotReady a
          | Some m =>
              if negb data then v_refused kIOReturnNotReady a
              else if set then
                '(ret, m) ← setSyncChannelSequence d sizeof_sequence m;
                if negb (ret =? kIOReturnSuccess) then v_refused ret a
                else
                  let a := a <| _awdlManager := Some m |> in
                  fill_channel ← ld d 9;
                  if _ieee80211 a && negb (fill_channel =? 0) then tune fill_channel [kIOReturnBusy; kIOReturnUnsupported] a else v_ok OutNone a
              else
                '(ret, d) ← copySyncChannelSequence (zeros sizeof_sequence) sizeof_sequence m;
                v_ok (if ret =? kIOReturnSuccess then OutBytes d else OutNone) a
          end
      | AWDL_PRESENCE_MODE v => setting set data (fun m => m <| _presenceMode := v |>) (fun m => OutValue (_presenceMode m)) a
      | AWDL_SYNC_STATE v => setting set data (fun m => m <| _syncState := v |>) (fun m => OutValue (_syncState m)) a
      | AWDL_SYNC_PARAMS awLen awPeriod extLen syncPeriod =>
          match _awdlManager a with
          | None => v_refused kIOReturnNotReady a
          | Some m =>
              if negb data then v_refused kIOReturnNotReady a
              else if set then v_ok OutNone (a <| _awdlManager := Some (setSyncParams awLen awPeriod extLen syncPeriod m) |>)
              else Some (VAnswer kIOReturnSuccess
                           (if _syncParamsValid m
                            then VOutParams (_availabilityWindowLength m) (_availabilityWindowPeriod m) (_extensionLength m) (_synchronizationFramePeriod m)
                            else VOutParams 0 0 0 0), a)
          end
      | AWDL_DEVICE_CAPABILITIES v =>
          setting set data (fun m => m <| _deviceCapabilities := v |>)
            (fun m => OutValue (if _deviceCapabilities m =? 0 then 1 else _deviceCapabilities m)) a
      | AWDL_AF_TX_MODE v => setting set data (fun m => m <| _actionFrameTxMode := v |>) (fun m => OutValue (_actionFrameTxMode m)) a
      | VIOC_OTHER => v_refused kIOReturnUnsupported a
      end
  end.

(** ** Packets of the virtual interface *)

Definition outputActionFrame (m : list Z) (a : airport) : option (Z * airport) :=
  let r := rtw88SendActionFrame E (_ieee80211 a) m (ap_obj a) in a ← call io r a; Some (fst r, a).
Definition vif_bpfOutputPacket (t : dlt) (m : list Z) (a : airport) : option (Z * airport) :=
  r ← bpfOutputPacket E (_ieee80211 a) t m (ap_obj a); a ← call io r a; Some (fst r, a).

(** The AWDL interface's queues, by service class; what stays. *)
Definition vif_requestPacketTx (role : Z) (queues : list (list (list Z))) (a : airport) : option (list (list (list Z)) * airport) :=
  if negb (_ieee80211 a) || negb (role =? APPLE80211_VIF_AWDL) then Some (queues, a)
  else '(sent, rest, k) ← requestPacketTx E queues 0 (ap_obj a); a ← call io (sent, k) a; Some (rest, a).
End requests.
