(* ===== verification/AirportRun.v ===== *)
(** * The controller at work: requests, reports and threads together

    IO80211 calls the controller one request at a time; between them, and
    while a request waits for its command, the object goes on: frames, timers
    and thread calls ([Session.act]), whose reports the controller passes on.
    No caller of this kext brings its own supplicant. *)

From S2P Require Import Prelude Rsn Bss Sha1 Kdf Reorder Kext Tx Eapol Rx Mgmt Mlme Session ScanFlow Awdl ScanReport Airport AirportVif.

#[export] Instance airport_callers : callers := false.

(** [start] up to its end: the object started, the manager set up, the
    interface attached, the AWDL interface asked for. [None] inside: failed,
    everything torn down. *)
Definition no_controller : airport :=
  mk_airport fresh true false (zeros 6) false 0 zero_scan_result APPLE80211_AUTHTYPE_OPEN APPLE80211_AUTHTYPE_NONE [0x5a; 0x5a; 0] false None None [].

Inductive ap_action :=
| ApObject (x : action)
| ApCommandStep
| ApRequest (t : ioc_type) (data : bool) (r : ioc)
| ApVifRequest (t : ioc_type) (role : Z) (data : bool) (r : vioc)
| ApEnable
| ApMulticastList (addrs : bool) (count : Z)
| ApEnableVif (v : option vif)
| ApDisableVif (v : option vif)
| ApActionFrame (m : list Z)
| ApBpf (t : dlt) (m : list Z)
| ApPacketTx (role : Z) (queues : list (list (list Z))).

(** What the step answers to its caller, if it has one. *)
Inductive reply := NoReply | Reply (x : answer) | VifReply (x : vif_answer) | RetReply (ret : Z) | QueueReply (rest : list (list (list Z))).

Section running.
Context (E : env) (ctx : KERN_SHA1_CTX) (io : io80211).

Definition ap_start (chip : bool) (probe_ret : Z) (hw : option ieee80211_hw) (mac : list Z) (manager attached : bool) : option (option airport) :=
  let a := no_controller in
  let r := start E chip probe_ret hw mac (ap_obj a) in
  a ← call io r a;
  if negb (fst r =? kIOReturnSuccess) then Some None
  else if negb manager then Some None
  else
    let '(ok, m) := awdl_init true true new_awdl in
    if negb ok then Some None
    else
      let a := a <| _awdlManager := Some m |> in
      if negb attached then Some None
      else '(_, a) ← ensureAWDLVirtualInterface E io (note (NoteLinkStatus false) (a <| _netif := true |>)); Some (Some a).

(** A turn of the scan call. *)
Definition is_turn (x : action) : bool := match x with ActManualScan => true | _ => false end.
(** The command gate: one request, or a command that waits. *)
Definition gated (a : airport) (r : option (reply * airport)) : option (reply * airport) :=
  if is_some (ap_pending a) then Some (NoReply, a) else r.
Definition replying {A} (f : A -> reply) (r : option (A * airport)) : option (reply * airport) := '(x, a) ← r; Some (f x, a).

Definition ap_step (x : ap_action) (a : airport) : option (reply * airport) :=
  match x with
  | ApObject x => if background x then s ← act E ctx x (ap_sys a); a ← moved io s a; Some (NoReply, a) else Some (NoReply, a)
  | ApCommandStep =>
      s ← command_step E (ap_sys a); a ← moved io s a;
      if is_some (ap_pending a) && negb (blocked a) then let '(x, a) := request_done a in Some (Reply x, a) else Some (NoReply, a)
  | ApRequest t data r => gated a (replying Reply (apple80211Request E io t data r a))
  | ApVifRequest t role data r => gated a (replying VifReply (apple80211VirtualRequest E io t role data r a))
  | ApEnable => gated a (replying RetReply (enable E io a))
  | ApMulticastList addrs count => gated a (replying RetReply (setMulticastList E io addrs count a))
  | ApEnableVif v => gated a (replying RetReply (enableVirtualInterface E io v a))
  | ApDisableVif v => gated a (replying RetReply (disableVirtualInterface E io v a))
  | ApActionFrame m => gated a (replying RetReply (outputActionFrame E io m a))
  | ApBpf t m => gated a (replying RetReply (vif_bpfOutputPacket E io t m a))
  | ApPacketTx role queues => gated a (replying QueueReply (vif_requestPacketTx E io role queues a))
  end.

Fixpoint ap_run (xs : list ap_action) (a : airport) : option (list reply * airport) :=
  match xs with
  | [] => Some ([], a)
  | x :: xs => '(r, a) ← ap_step x a; '(rs, a) ← ap_run xs a; Some (r :: rs, a)
  end.
End running.

(** ** The controller's invariant *)

(** What IO80211 and the clients hand in. *)
Definition vif_ok (v : vif) : Prop := forall n, vi_name v = Some n -> cstr_ok n.
Definition io_ok (io : io80211) : Prop := forall ns v b, io_attach io ns = Some (v, b) -> vif_ok v.

Definition request_ok (r : ioc) : Prop :=
  match r with
  | IOC_ASSOCIATE d => buf_ok 32 (ad_ssid d) /\ 0 <= ad_ssid_len d /\ buf_ok 6 (ad_bssid d) /\ buf_ok 32 (ad_key d) /\ buf_ok 258 (ad_rsn_ie d)
  | IOC_RSN_IE _ _ ie => buf_ok 257 ie
  | IOC_CIPHER_KEY d => buf_ok 32 (kd_key d) /\ 0 <= kd_len d
  | IOC_POWER _ _ states => zlen states = APPLE80211_MAX_RADIO
  | IOC_COUNTRY_CODE _ cc => zlen cc = APPLE80211_MAX_CC_LEN
  | IOC_VIRTUAL_IF_CREATE _ _ mac => zlen mac = APPLE80211_ADDR_LEN
  | IOC_VIRTUAL_IF_DELETE _ name => zlen name = IFNAMSIZ
  | _ => True
  end.
Definition vif_request_ok (r : vioc) : Prop :=
  match r with
  | VIOC r => request_ok r
  | AWDL_SYNC_FRAME_TEMPLATE p n => 0 <= n /\ forall b, p = Some b -> n <= zlen b
  | AWDL_BSSID b => zlen b = 6
  | AWDL_SYNCHRONIZATION_CHANNEL_SEQUENCE d => zlen d = sizeof_sequence
  | _ => True
  end.
Definition ap_action_ok (x : ap_action) : Prop :=
  match x with
  | ApObject x => action_ok x
  | ApRequest _ _ r => request_ok r
  | ApVifRequest _ _ _ r => vif_request_ok r
  | ApEnableVif v | ApDisableVif v => forall i, v = Some i -> vif_ok i
  | ApBpf _ m => bytes_ok m
  | ApPacketTx _ queues => Forall (Forall (fun m => bytes_ok m)) queues
  | _ => True
  end.

(** The link IO80211 was told of, by notices newest first; [None]: told the
    same twice. *)
Fixpoint links (b : bool) (ns : list notice) : option bool :=
  match ns with
  | [] => Some b
  | n :: ns => b ← links b ns; match n with NoteLinkState up => if Bool.eqb up b then None else Some up | _ => Some b end
  end.
Lemma links_app b ns : forall ms, links b (ms ++ ns) = (b ← links b ns; links b ms).
Proof. induction ms as [|m ms IH]; cbn [app links]; [by destruct (links b ns)|]. rewrite IH. by destruct (links b ns). Qed.

(** The manager, if there is one, is well formed and knows named interfaces;
    the country code is a string of two letters; link changes alternate. *)
Record ctl_inv (a : airport) : Prop := {
  ci_mac : zlen (ap_macAddr a) = 6;
  ci_cc : zlen (_countryCode a) = 3 /\ ld (_countryCode a) 2 = Some 0;
  ci_cursor : 0 <= _scanCursor a;
  ci_awdl : forall m, _awdlManager a = Some m -> awdl_wf m /\ forall v, _awdlInterface m = Some v \/ _p2pInterface m = Some v -> vif_ok v;
  ci_link : links false (notices a) = Some (_linkUp a)
}.

(** What the controller says only grows; a scan is over only when it says so. *)
Definition posts_scan_done (ns : list notice) : Prop := exists r, In (NotePosted (MSG_SCAN_DONE r)) ns.
Definition grows (a a' : airport) : Prop := exists ns, notices a' = ns ++ notices a /\ links (_linkUp a) ns = Some (_linkUp a') /\
  (_scanInProgress a' = _scanInProgress a \/ _scanInProgress a' = false /\ posts_scan_done ns).
Lemma grows_by ns a a' : notices a' = ns ++ notices a -> links (_linkUp a) ns = Some (_linkUp a') -> _scanInProgress a' = _scanInProgress a -> grows a a'.
Proof. intros. exists ns. auto. Qed.
Lemma grows_refl a : grows a a.
Proof. by apply (grows_by []). Qed.
Lemma posts_app n2 n1 : posts_scan_done n1 \/ posts_scan_done n2 -> posts_scan_done (n2 ++ n1).
Proof. intros [[r H]|[r H]]; exists r; apply in_or_app; auto. Qed.
Lemma grows_trans a b c : grows a b -> grows b c -> grows a c.
Proof.
  intros (n1 & E1 & L1 & F1) (n2 & E2 & L2 & F2). exists (n2 ++ n1). split; [by rewrite E2, E1, app_assoc|]. split; [by rewrite links_app, L1|].
  destruct F2 as [F2|[F2 P2]]; [destruct F1 as [F1|[F1 P1]]; [left; congruence|]|]; right; (split; [congruence|]); apply posts_app; auto.
Qed.

(** Steps of the controller alone. *)
Definition same_ctl (a a' : airport) : Prop :=
  ap_sys a' = ap_sys a /\ ap_pending a' = ap_pending a /\ _ieee80211 a' = _ieee80211 a /\ _netif a' = _netif a /\
  ap_macAddr a' = ap_macAddr a /\ _countryCode a' = _countryCode a /\ _awdlManager a' = _awdlManager a /\ (_scanCursor a' = _scanCursor a \/ _scanCursor a' = 0) /\ grows a a'.
Lemma same_ctl_refl a : same_ctl a a.
Proof. unfold same_ctl. pose proof (grows_refl a). intuition. Qed.
Lemma same_ctl_trans a b c : same_ctl a b -> same_ctl b c -> same_ctl a c.
Proof.
  intros (A1 & A2 & A3 & A4 & A5 & A6 & A7 & A8 & A9) (B1 & B2 & B3 & B4 & B5 & B6 & B7 & B8 & B9). unfold same_ctl. split_and!; try congruence; [|by apply (grows_trans _ b)].
  destruct B8 as [B8|B8]; [rewrite B8; destruct A8 as [A8|A8]; [by left|by right]|by right].
Qed.
Lemma same_ctl_inv a a' : same_ctl a a' -> ctl_inv a -> ctl_inv a'.
Proof.
  intros (_ & _ & _ & _ & M & C & W & S & (ns & N & L & _)) [I1 I2 I3 I4 I5]. split; [by rewrite M|by rewrite C|by destruct S as [-> | ->]|by rewrite W|].
  by rewrite N, links_app, I5.
Qed.
(** [a'] is [a] but for notices; a notice more. *)
Ltac told ns := unfold same_ctl; split_and!; try done; [by left|eapply (grows_by ns); try done].
Lemma same_note n a : match n with NoteLinkState _ => False | _ => True end -> same_ctl a (note n a).
Proof. intros H. told [n]. by destruct n. Qed.

Lemma awdl_filter_total f : exists r, rtw88IsAWDLActionFrame f = Some r /\ (r <> None -> 40 <= zlen f).
Proof.
  unfold rtw88IsAWDLActionFrame. destruct (Z.ltb_spec (zlen f) (24 + 16)); [by exists None|].
  destruct (ld_Some f 0) as [f0 ->]; [lia|]. rewrite (ldn_Some f 16 6) by lia. cbn [mbind option_bind]. destruct (negb (_ =? 0xd0)); [by exists None|]. destruct (negb (bool_decide _)); [by exists None|].
  assert (zlen (zdrop 24 f) = zlen f - 24) as Hz by (rewrite zlen_zdrop; lia).
  destruct (ld_Some (zdrop 24 f) 0) as [a0 ->]; [lia|]. cbn [mbind option_bind]. rewrite (ldn_Some (zdrop 24 f) 1 3) by lia. cbn [mbind option_bind].
  destruct (ld_Some (zdrop 24 f) 4) as [a4 ->]; [lia|]. cbn [mbind option_bind]. destruct (_ || _); [by exists None|]. destruct (ld_Some (zdrop 24 f) 6) as [a6 ->]; [lia|]. cbn [mbind option_bind].
  destruct (_ && _); [by exists None|]. rewrite (ldn_Some f 10 6) by lia. cbn [mbind option_bind].
  destruct (ld_Some (ztake 6 (zdrop 10 f)) 0) as [s0 ->]; [rewrite zlen_ztake, zlen_zdrop; lia|]. cbn [mbind option_bind]. destruct (_ || _); eexists; (split; [reflexivity|lia]).
Qed.

Lemma setLinkStatus_same up a : same_ctl a (setLinkStatus up a).
Proof.
  unfold setLinkStatus. set (a1 := note (NoteLinkStatus up) a). assert (same_ctl a a1) as S by (by apply same_note). cbv zeta. destruct (_ && _) eqn:Eg; [|done]. bool_hyps.
  change (_linkUp a1) with (_linkUp a) in *. apply (same_ctl_trans _ (note (NoteLinkState up) (a <| notices := notices a1 |> <| _linkUp := up |>))).
  - told [NoteLinkState up; NoteLinkStatus up]. cbn. by destruct up, (_linkUp a).
  - destruct up; [by apply same_note|apply same_ctl_refl].
Qed.
Lemma scan_done_same aborted a : same_ctl a (rtw88Event_scan_done aborted a).
Proof.
  unfold rtw88Event_scan_done. destruct (negb _); [apply same_ctl_refl|]. unfold same_ctl. split_and!; try done; [by right|]. eexists [_]. split; [reflexivity|]. split; [done|]. right. split; [done|]. eexists. by left.
Qed.
Lemma deliver_ok io e a : exists a', deliver io e a = Some a' /\ same_ctl a a'.
Proof.
  pose proof (same_ctl_refl a) as R. destruct e; cbn [deliver]; try (by exists a); try (eexists; split; [reflexivity|]).
  - apply setLinkStatus_same.
  - unfold injectRxFrame. destruct (negb _); [by apply same_note|]. destruct (_ || _); by apply same_note.
  - unfold injectRxAWDLFrame. destruct (awdl_vif a); by apply same_note.
  - unfold injectRxActionFrame. destruct (awdl_vif a) as [v|]; [|by exists a]. destruct (4096 <? _); [by exists a|].
    destruct (awdl_filter_total frame) as (r & -> & Hr). cbn [mbind option_bind]. destruct r as [st|]; [|by exists a]. specialize (Hr ltac:(done)).
    rewrite (ldn_Some frame 10 6) by lia. cbn [mbind option_bind]. set (a1 := note _ a). assert (same_ctl a a1) as S1 by (by apply same_note). clearbody a1.
    destruct (negb _); eexists; (split; [reflexivity|]); [done|]. apply (same_ctl_trans _ a1); [done|by apply same_note].
  - apply scan_done_same.
Qed.
Lemma reports_delivered io es : forall a, exists a', deliver_reports io es a = Some a' /\ same_ctl a a'.
Proof.
  induction es as [|e es IH]; intros a; cbn [deliver_reports]; [exists a; split; [done|apply same_ctl_refl]|].
  destruct (deliver_ok io e a) as (a1 & -> & S1). cbn [mbind option_bind]. destruct (IH a1) as (a2 & -> & S2). exists a2. split; [done|by apply (same_ctl_trans _ a1)].
Qed.
Lemma moved_ok io s a : exists a', moved io s a = Some a' /\ same_ctl (a <| ap_sys := s |>) a'.
Proof. apply reports_delivered. Qed.

(** The end of a scan, reported. *)
Lemma deliver_all_done io es : forall a a' b, deliver_reports io es a = Some a' -> _netif a = true -> In (EvScanDone b) es ->
  _scanInProgress a' = false /\ exists ns, notices a' = ns ++ notices a /\ posts_scan_done ns.
Proof.
  induction es as [|e es IH]; intros a a' b; cbn [deliver_reports]; [done|]. destruct (deliver_ok io e a) as (a1 & Ed & S1). rewrite Ed. cbn [mbind option_bind]. intros Ea Hn [->|Hb].
  - cbn [deliver] in Ed. injection Ed as <-. destruct (reports_delivered io es (rtw88Event_scan_done b a)) as (a2 & E2 & (_ & _ & _ & _ & _ & _ & _ & _ & (n2 & N2 & _ & F2))). rewrite Ea in E2. injection E2 as <-.
    revert N2 F2. unfold rtw88Event_scan_done. rewrite Hn. cbn. intros N2 F2. split; [destruct F2 as [F|[F _]]; by rewrite F|]. exists (n2 ++ [NotePosted (MSG_SCAN_DONE (if b then 1 else 0))]).
    split; [by rewrite N2, <- app_assoc|]. apply posts_app. left. eexists. by left.
  - destruct S1 as (_ & _ & _ & N & _ & _ & _ & _ & (n1 & N1 & _)). destruct (IH a1 a' b Ea ltac:(congruence) Hb) as (F & n2 & N2 & P2). split; [done|]. exists (n2 ++ n1).
    split; [by rewrite N2, N1, app_assoc|]. apply posts_app. by right.
Qed.
Lemma reported_event k k' : reported k k' -> exists b, In (EvScanDone b) (reports_of k k').
Proof.
  intros (b & tr & Et & Hl). exists b. unfold reports_of. rewrite Et. cbn [length]. apply -> in_rev. replace (S (length tr) - length (trace k))%nat with (S (length tr - length (trace k)))%nat by lia. by left.
Qed.
Lemma moved_reported io s a a' : _netif a = true -> reported (ap_obj a) (obj s) -> moved io s a = Some a' ->
  _scanInProgress a' = false /\ exists ns, notices a' = ns ++ notices a /\ posts_scan_done ns.
Proof.
  intros Hn R Em. destruct (reported_event _ _ R) as (b & Hb). by apply (deliver_all_done io _ (a <| ap_sys := s |>) a' b Em).
Qed.

Section proofs.
Context (E : env) (ctx : KERN_SHA1_CTX) (io : io80211) (HE : env_ok E) (Hctx : zlen (buffer ctx) = 64) (Hio : io_ok io).

(** en0 is there.  A scan the controller waits for is under way, if the driver
    leaves scans to the object. With a mark [(old, n)]: since the notices were [old], its
    end was told, or its call has less than [n] turns left. *)
Definition promised (old : list notice) (n : nat) (a : airport) (s : sys) : Prop :=
  exists ns, notices a = ns ++ old /\ (posts_scan_done ns \/ _scanInProgress a = true /\ (call_left s < n)%nat).
Definition tracked (mark : option (list notice * nat)) (a : airport) : Prop := _netif a = true /\ (passive_driver E ->
  (_scanInProgress a = true -> scan_coming (ap_sys a)) /\ match mark with Some (old, n) => promised old n a (ap_sys a) | None => True end).
Lemma moved_tracked mark s a a' : moved io s a = Some a' ->
  _netif a = true -> (passive_driver E -> reported (ap_obj a) (obj s) /\ match mark with Some (old, _) => exists ns, notices a = ns ++ old | None => True end \/
    (_scanInProgress a = true -> scan_coming s) /\ match mark with Some (old, n) => promised old n a s | None => True end) -> tracked mark a'.
Proof.
  intros Em Hn H. destruct (moved_ok io s a) as (b & Eb & (Q1 & _ & _ & Q2 & _ & _ & _ & _ & (n1 & N1 & _ & F1))). rewrite Em in Eb. injection Eb as <-. change (_netif a' = _netif a) in Q2. split; [congruence|]. intros HP. rewrite Q1.
  change (notices a' = n1 ++ notices a) in N1. change (_scanInProgress a' = _scanInProgress a \/ _scanInProgress a' = false /\ posts_scan_done n1) in F1. change (ap_sys (a <| ap_sys := s |>)) with s.
  destruct (H HP) as [[R M]|[C M]].
  - destruct (moved_reported io s a a' Hn R Em) as (F & n2 & N2 & P2). split; [congruence|]. destruct mark as [[old n]|]; [|done]. destruct M as (ns & M). exists (n2 ++ ns). split; [by rewrite N2, M, app_assoc|]. left. apply posts_app. by right.
  - split; [intros Hf; apply C; destruct F1 as [<-|[F _]]; [done|congruence]|]. destruct mark as [[old n]|]; [|done]. destruct M as (ns & M & D). exists (n1 ++ ns). split; [by rewrite N1, M, app_assoc|].
    destruct D as [D|[D L]]; [left; apply posts_app; by left|]. destruct F1 as [F|[_ P1]]; [right; split; [congruence|done]|left; apply posts_app; by right].
Qed.
Lemma moved_kept mark s a a' : tracked mark a -> scan_kept (ap_sys a) s -> moved io s a = Some a' -> tracked mark a'.
Proof.
  intros [Hn T] K Em. apply (moved_tracked mark s a a' Em Hn). intros HP. right. destruct (T HP) as [C M]. split; [intros Hf; apply (scan_kept_coming (ap_sys a)); auto|].
  destruct mark as [[old n]|]; [|done]. destruct M as (ns & M & D). exists ns. split; [done|]. destruct D as [D|[D L]]; [by left|right]. split; [done|]. unfold call_left in *. by rewrite (proj1 K).
Qed.
Context (mark : option (list notice * nat)).

(** A request is pending exactly when its command waits, and no command stops
    the object. *)
Record ap_inv (a : airport) : Prop := {
  ai_sys : sys_inv (ap_sys a);
  ai_ctl : ctl_inv a;
  ai_pending : is_some (ap_pending a) = blocked a;
  ai_stop : stopping (thr_cmd (ap_sys a)) = false;
  ai_scan : tracked mark a
}.
Record idle (a : airport) : Prop := {
  id_sys : sys_inv (ap_sys a);
  id_ctl : ctl_inv a;
  id_free : thr_cmd (ap_sys a) = None;
  id_pending : ap_pending a = None;
  id_scan : tracked mark a
}.
Lemma idle_inv a : idle a -> ap_inv a.
Proof. intros [S C F P T]. split; [done..| | |done]; [unfold blocked; by rewrite F, P|by rewrite F]. Qed.
Lemma inv_idle_ap a : ap_inv a -> ap_pending a = None -> idle a.
Proof. intros [S C P _ T] N. rewrite N in P. split; [done..| |done|done]. unfold blocked in P. by destruct (thr_cmd (ap_sys a)). Qed.


Lemma moved_inv s a : ctl_inv a -> sys_inv s ->
  exists a', moved io s a = Some a' /\ sys_inv (ap_sys a') /\ ctl_inv a' /\ ap_sys a' = s /\ ap_pending a' = ap_pending a /\ _awdlManager a' = _awdlManager a.
Proof.
  intros C S. destruct (moved_ok io s a) as (a' & -> & Q). exists a'. pose proof Q as (Q1 & Q2 & _ & _ & _ & _ & Q3 & _). split; [done|].
  change (ap_sys a' = s) in Q1. rewrite Q1. split; [done|]. split; [|done]. apply (same_ctl_inv _ _ Q). by destruct C.
Qed.

(** A command that may wait, and one that cannot. *)
Definition waits (c : command) : bool := match c with CmdConnect _ | CmdDisconnect | CmdPowerOff | CmdStop | CmdStart _ _ _ _ => true | _ => false end.
Lemma returned_cmd r s : thr_cmd (returned r s) = thr_cmd s.
Proof. by destruct r. Qed.
Lemma begin_free c s s' : waits c = false -> thr_cmd s = None -> begin_command E c s = Some s' -> thr_cmd s' = None.
Proof.
  intros Hw Hn. destruct c; try done; cbn [begin_command]; try (intros [= <-]; by rewrite returned_cmd).
  - destruct (cmdSetAssocRsnIE _ _); [|done]. intros [= <-]. by rewrite returned_cmd.
  - destruct (setAWDLChannel _ _); [|done]. intros [= <-]. by rewrite returned_cmd.
  - by intros [= <-].
Qed.

Lemma waits_stops c : waits c = false -> stops c = false.
Proof. by destruct c. Qed.

Lemma issue_ok c a : idle a -> command_ok c -> stops c = false -> exists a', issue E io c a = Some a' /\ sys_inv (ap_sys a') /\ ctl_inv a' /\ ap_pending a' = None /\
  tracked mark a' /\ stopping (thr_cmd (ap_sys a')) = false /\ (waits c = false -> idle a' /\ _awdlManager a' = _awdlManager a).
Proof.
  intros [S C F P T] Hc Hs. unfold issue. destruct (begin_command_ok E c (ap_sys a) S F Hc) as (s & Es & I & _). destruct (begin_scan_kept E c (ap_sys a) s S Hc Hs F Es) as [K Hst]. rewrite Es. cbn [mbind option_bind].
  destruct (moved_inv s a C I) as (a' & Em' & I' & C' & Es' & Ep & Em). pose proof (moved_kept mark s a a' T K Em') as T'. rewrite Em'. exists a'. do 3 (split; [done|]). split; [congruence|]. split; [done|]. rewrite Es'. split; [done|].
  intros Hw. split; [|done]. split; [done..| |congruence|done]. rewrite Es'. by apply (begin_free c (ap_sys a)).
Qed.
Lemma issue_idle c a : idle a -> command_ok c -> waits c = false -> exists a', issue E io c a = Some a' /\ idle a' /\ _awdlManager a' = _awdlManager a.
Proof. intros I Hc Hw. destruct (issue_ok c a I Hc (waits_stops c Hw)) as (a' & -> & _ & _ & _ & _ & _ & H). exists a'. split; [done|by apply H]. Qed.

Lemma call_ok (r : Z * kext) a : idle a -> obj_inv (snd r) -> calm (ap_obj a) (snd r) ->
  exists a', call io r a = Some a' /\ idle a' /\ _awdlManager a' = _awdlManager a.
Proof.
  intros [S C F P T] I Q. unfold call. destruct (goes_returned true (ap_sys a) r (goes_once_calm true (ap_sys a) (snd r) S F I Q)) as (s & [= <-] & J & _).
  destruct (moved_inv (returned r (ap_sys a)) a C J) as (a' & Em' & I' & C' & Es' & Ep & Em). pose proof (moved_kept mark _ a a' T (calm_kept _ _ Q) Em') as T'. rewrite Em'. exists a'. split; [done|]. split; [|done].
  split; [done..| |congruence|done]. by rewrite Es', returned_cmd.
Qed.

(** *** Requests *)

Definition served {X} (r : option (X * airport)) : Prop := exists x a', r = Some (x, a') /\ ap_inv a'.
Definition stays {X} (r : option (X * airport)) : Prop := exists x a', r = Some (x, a') /\ idle a'.
Lemma stays_served {X} (r : option (X * airport)) : stays r -> served r.
Proof. intros (x & a' & -> & I). exists x, a'. split; [done|by apply idle_inv]. Qed.
Lemma stays_ret {X} (x : X) a : idle a -> stays (Some (x, a)).
Proof. by exists x, a. Qed.
Lemma served_ret {X} (x : X) a : idle a -> served (Some (x, a)).
Proof. intros I. by apply stays_served, stays_ret. Qed.
Hint Resolve stays_ret served_ret : core.

(** Steps of the controller's own members. *)
Lemma idle_same a a' : same_ctl a a' -> idle a -> idle a'.
Proof.
  intros Q [S C F P T]. pose proof Q as (Q1 & Q2 & _ & Q4 & _ & _ & _ & _ & (n1 & N1 & _ & F1)). split; [by rewrite Q1|by apply (same_ctl_inv a)|by rewrite Q1|congruence|].
  destruct T as [Hn T]. split; [congruence|]. intros HP. rewrite Q1. destruct (T HP) as [Cm M]. split; [intros Hf; apply Cm; destruct F1 as [<-|[F1 _]]; [done|congruence]|].
  destruct mark as [[old n]|]; [|done]. destruct M as (ns & M & D). exists (n1 ++ ns). split; [by rewrite N1, M, app_assoc|].
  destruct D as [D|[D L]]; [left; apply posts_app; by left|]. destruct F1 as [F1|[_ P1]]; [right; split; [congruence|done]|left; apply posts_app; by right].
Qed.
Lemma idle_note n a : match n with NoteLinkState _ => False | _ => True end -> idle a -> idle (note n a).
Proof. intros H. by apply idle_same, same_note. Qed.
Lemma idle_auth l u a : idle a -> idle (a <| _authLower := l |> <| _authUpper := u |>).
Proof. apply idle_same. told (@nil notice). Qed.
Lemma idle_rewind a : idle a -> idle (a <| _scanCursor := 0 |>).
Proof. apply idle_same. unfold same_ctl. split_and!; try done; [by right|]. by apply (grows_by []). Qed.
Lemma idle_post m a : idle a -> idle (postMessage m a).
Proof. by apply idle_note. Qed.
Hint Extern 1 (idle (note _ _)) => apply idle_note; [exact Logic.I|] : core.
Hint Resolve idle_auth idle_rewind idle_post : core.

Lemma refused_ok ret a : idle a -> served (refused ret a).
Proof. intros I. by apply served_ret. Qed.
Lemma answered_ok ret out a : idle a -> served (answered ret out a).
Proof. intros I. by apply served_ret. Qed.
Hint Resolve refused_ok answered_ok : core.
Lemma when_connected_ok out a : idle a -> served (when_connected E out a).
Proof. intros I. unfold when_connected. destruct (negb _); auto. Qed.

(** A command that waits leaves its request pending. *)
Lemma waiting_ok (p : bool) c a : idle a -> command_ok c -> stops c = false -> (forall a', idle a' -> served (refused (ret_of a') (if p then power_done a' else a'))) ->
  forall q, served (a ← issue E io c a; if blocked a then Some (Waits, (a : airport) <| ap_pending := Some q |>) else refused (ret_of a) (if p then power_done a else a)).
Proof.
  intros I Hc Hs Hd q. destruct (issue_ok c a I Hc Hs) as (a' & -> & S & C & P & T & St & _). cbn [mbind option_bind]. destruct (blocked a') eqn:Eb.
  - exists Waits, (a' <| ap_pending := Some q |>). split; [done|]. split; [done|by destruct C| |done|done]. unfold blocked in *. cbn. by rewrite Eb.
  - apply Hd. split; [done..| |done|done]. unfold blocked in Eb. by destruct (thr_cmd (ap_sys a')).
Qed.
Lemma command_answer_ok q c a : idle a -> command_ok c -> stops c = false -> served (command_answer E io q c a).
Proof. intros I Hc Hs. apply (waiting_ok false c a I Hc Hs). auto. Qed.

Lemma power_done_idle a : idle a -> idle (power_done a).
Proof. intros I. unfold power_done. destruct (_ && _); auto. Qed.
Hint Resolve power_done_idle : core.

Lemma strnlen_range n : forall s l, strnlen s n = Some l -> 0 <= l <= Z.of_nat n /\ (In 0 s -> l <= zlen s - 1).
Proof.
  induction n as [|n IH]; intros s l; cbn [strnlen]; [intros [= <-]; split; [lia|]; intros H; destruct s; [done|]; rewrite zlen_cons; pose proof (zlen_nonneg s); lia|].
  destruct s as [|c s]; [done|]. rewrite zlen_cons. pose proof (zlen_nonneg s). destruct (Z.eqb_spec c 0); [intros [= <-]; lia|]. destruct (strnlen s n) as [m|] eqn:Em; [|done]. cbn [mbind option_bind].
  intros [= <-]. destruct (IH s m Em) as [H1 H2]. split; [lia|]. intros [|H3]; [done|]. specialize (H2 H3). lia.
Qed.
Lemma target_ssid a : idle a -> let s := sr_ssid (state_of E a) in zlen s = 33 /\ In 0 s /\ bytes_ok s.
Proof.
  intros I s. pose proof (wf_target _ (oi_wf _ (si_obj _ (id_sys a I)))) as W. split; [apply W|]. split; [by apply ssid_terminated|apply W].
Qed.

Lemma handleSSID_ok set a : idle a -> served (handleSSID E set a).
Proof.
  intros I. unfold handleSSID. destruct set; [auto|]. destruct (negb _); [auto|]. destruct (target_ssid a I) as (Hz & H0 & Hb).
  destruct (strnlen_In 32 _ H0) as (n & En). rewrite En. cbn [mbind option_bind]. apply strnlen_range in En as [Hn _].
  destruct (ldn_buf _ 0 n Hb) as (v & -> & Hv & Hvb); [lia..|]. cbn [mbind option_bind]. destruct (stn_buf 32 (zeros 32) 0 v) as (b & -> & _); [by apply zeros_buf|done|lia|lia|]. cbn [mbind option_bind]. auto.
Qed.
Lemma handleAUTH_TYPE_ok set version lower upper a : idle a -> served (handleAUTH_TYPE set version lower upper a).
Proof. intros I. unfold handleAUTH_TYPE. destruct set; [destruct (negb _)|]; auto. Qed.

Lemma find_rsn_ok capacity fuel : forall b, (length b <= fuel)%nat -> bytes_ok b -> exists r v, find_rsn fuel b capacity = Some (r, v).
Proof.
  induction fuel as [|fuel IH]; intros b Hf Hb; cbn [find_rsn].
  { destruct b; [|cbn in Hf; lia]. by eexists _, _. }
  destruct (Z.ltb_spec (zlen b) 2); [by eexists _, _|]. destruct (ld_byte b 0 Hb) as (e0 & -> & _); [lia|]. destruct (ld_byte b 1 Hb) as (e1 & -> & H1 & _); [lia|]. cbn [mbind option_bind].
  destruct (Z.ltb_spec (zlen b) (e1 + 2)); [by eexists _, _|]. destruct (e0 =? 48).
  - destruct (capacity <? e1 + 2); [by eexists _, _|]. rewrite ldn_Some by lia. by eexists _, _.
  - apply IH; [|by apply Forall_drop]. unfold zdrop. rewrite length_drop. unfold zlen in *. lia.
Qed.
Lemma copyTargetRsnIE_ok capacity k : kext_wf k -> exists r v, copyTargetRsnIE capacity k = Some (r, v).
Proof.
  intros W. unfold copyTargetRsnIE. destruct (wf_rsnie k W) as [[Hl Hb] Hn]. destruct (2 <=? _).
  - destruct (capacity <? _); [by eexists _, _|]. rewrite ldn_Some by lia. by eexists _, _.
  - pose proof (wf_target k W) as (_&_&_&_&_&_&_&_&Hi&Hil&Hib&_). unfold target_need. rewrite (proj2 (Z.ltb_ge _ _)) by lia.
    rewrite ldn_Some by lia. cbn [mbind option_bind]. apply find_rsn_ok; [done|]. by apply Forall_take, Forall_drop.
Qed.
Lemma id_wf a : idle a -> kext_wf (ap_obj a).
Proof. intros I. apply (oi_wf _ (si_obj _ (id_sys a I))). Qed.

Lemma handleRSN_IE_ok set version len ie a : idle a -> buf_ok 257 ie -> served (handleRSN_IE E io set version len ie a).
Proof.
  intros I [Hl Hb]. unfold handleRSN_IE. destruct set.
  - destruct (_ || (_ <? len)) eqn:Eg; [auto|]. bool_hyps. unfold APPLE80211_MAX_RSN_IE_LEN in *. destruct (ldn_buf ie 0 len Hb) as (e & -> & He & Heb); [lia..|]. cbn [mbind option_bind].
    destruct (issue_idle (CmdSetAssocRsnIE (Some e)) a I) as (a' & -> & I' & _); [by intros x [= <-]|done|]. cbn [mbind option_bind]. auto.
  - destruct (copyTargetRsnIE_ok APPLE80211_MAX_RSN_IE_LEN (ap_obj a) (id_wf a I)) as (r & v & ->). cbn [mbind option_bind]. destruct (negb _); auto.
Qed.
Lemma handleAP_IE_LIST_ok len a : idle a -> served (handleAP_IE_LIST len a).
Proof.
  intros I. unfold handleAP_IE_LIST. destruct (len =? 0); [auto|]. destruct (copyTargetRsnIE_ok APPLE80211_MAX_RSN_IE_LEN (ap_obj a) (id_wf a I)) as (r & v & ->). cbn [mbind option_bind].
  destruct (negb _); [auto|]. destruct (_ <? _); auto.
Qed.

(** The SSID as a string. *)
Lemma ssid_string b n : buf_ok 32 b -> 0 < n <= 32 -> exists v s, ldn b 0 n = Some v /\ stn (zeros (APPLE80211_MAX_SSID_LEN + 1)) 0 v = Some s /\ cstr_ok s.
Proof.
  intros [Hl Hb] Hn. destruct (ldn_buf b 0 n Hb) as (v & Ev & Hv & Hvb); [lia..|]. exists v. change (zeros (APPLE80211_MAX_SSID_LEN + 1)) with (zeros 33).
  assert (zlen (zeros 33) = 33) as H33 by done. eexists. split; [done|]. split; [apply stn_Some; lia|]. split.
  - apply Forall_app. split; [constructor|]. apply Forall_app. split; [done|]. apply Forall_drop, bytes_zeros.
  - apply in_or_app. right. apply in_or_app. right. rewrite Hv. unfold zdrop, zeros. rewrite drop_replicate.
    destruct (Z.to_nat 33 - Z.to_nat (0 + n))%nat eqn:Ez; [lia|]. by left.
Qed.

Lemma handleASSOCIATE_ok d a : idle a -> request_ok (IOC_ASSOCIATE d) -> served (handleASSOCIATE E io d a).
Proof.
  intros I (Hs & Hn & Hb & Hk & Hr). unfold handleASSOCIATE. destruct (_ || (_ <? ad_ssid_len d)) eqn:Eg; [auto|]. bool_hyps. unfold APPLE80211_MAX_SSID_LEN in *.
  destruct (ssid_string (ad_ssid d) (ad_ssid_len d) Hs) as (v & s & -> & Es & Hc); [lia|]. cbn [mbind option_bind]. change (32 + 1) with (APPLE80211_MAX_SSID_LEN + 1). rewrite Es. cbn [mbind option_bind].
  destruct Hb as [Hbl Hbb]. destruct (ldn_buf (ad_bssid d) 0 APPLE80211_ADDR_LEN Hbb) as (bss & -> & Hbs & _); [unfold APPLE80211_ADDR_LEN; lia..|]. cbn [mbind option_bind].
  destruct Hr as [Hrl Hrb]. destruct (ld_byte (ad_rsn_ie d) 0 Hrb) as (r0 & -> & _); [lia|]. destruct (ld_byte (ad_rsn_ie d) 1 Hrb) as (r1 & -> & B1 & B1'); [lia|]. cbn [mbind option_bind]. change (2 ^ 8) with 256 in B1'.
  set (a1 := a <| _authLower := ad_auth_lower d |> <| _authUpper := ad_auth_upper d |>). assert (idle a1) as I1 by (unfold a1; auto). clearbody a1.
  match goal with |- context [mbind _ ?r] => assert (exists a2, r = Some a2 /\ idle a2) as (a2 & -> & I2) end.
  { destruct (r0 =? 48); [|by exists a1]. destruct (_ <=? APPLE80211_MAX_RSN_IE_LEN); [|by exists a1]. rewrite wrap_small by (split; [lia|change (2 ^ 16) with 65536; lia]).
    destruct (ldn_buf (ad_rsn_ie d) 0 (r1 + 2) Hrb) as (ie & -> & _ & Hie); [lia..|]. cbn [mbind option_bind].
    destruct (issue_idle (CmdSetAssocRsnIE (Some ie)) a1 I1) as (a2 & -> & I2 & _); [by intros x [= <-]|done|]. by exists a2. }
  cbn [mbind option_bind]. destruct (negb _); [auto|]. set (secure := negb (_ =? 0)). destruct (negb secure && _); [auto|]. destruct (_ && _); [auto|].
  destruct (if secure then _ else _); [auto|]. apply command_answer_ok; [done| |done]. split; cbn.
  - by intros x [= <-].
  - done.
  - destruct secure; [|done]. intros p [= <-]. destruct Hk. split; [done|lia].
  - destruct (bool_decide _); [done|]. intros b [= <-]. rewrite Hbs. unfold APPLE80211_ADDR_LEN. lia.
  - done.
Qed.

Lemma handleCIPHER_KEY_ok d a : idle a -> request_ok (IOC_CIPHER_KEY d) -> served (handleCIPHER_KEY E io d a).
Proof.
  intros I ([Hl Hb] & Hn). unfold handleCIPHER_KEY. destruct (_ || _) eqn:Eg; [auto|]. bool_hyps. unfold APPLE80211_KEY_BUFF_LEN in *. destruct (_ =? APPLE80211_CIPHER_NONE); [auto|].
  destruct (if kd_cipher d =? APPLE80211_CIPHER_AES_CCM then _ else _) as [cipher|]; [|auto]. destruct (negb _ && _); [auto|].
  rewrite (wrap_small 8 (kd_len d)) by (split; [lia|change (2 ^ 8) with 256; lia]). destruct (ldn_buf (kd_key d) 0 (kd_len d) Hb) as (key & -> & _); [lia..|]. cbn [mbind option_bind].
  destruct (issue_idle (CmdInstallExternalKey (kd_flags d =? 4) (u8 (kd_index d)) cipher (Some key)) a I) as (a1 & -> & I1 & _); [done..|]. cbn [mbind option_bind].
  destruct (_ && _); auto.
Qed.

(** With no scan under way, what a mark waits for was told. *)
Lemma tracked_off n1 a a' : tracked mark a -> _scanInProgress a = false -> notices a' = n1 ++ notices a ->
  passive_driver E -> match mark with Some (old, n) => exists ns, notices a' = ns ++ old /\ posts_scan_done ns | None => True end.
Proof.
  intros [Hn T] F N HP. destruct mark as [[old n]|]; [|done]. destruct (T HP) as (_ & ns & M & [D|[D _]]); [|congruence].
  exists (n1 ++ ns). split; [by rewrite N, M, app_assoc|]. apply posts_app. by left.
Qed.
Lemma start_scan_ok a : idle a -> served (start_scan E io a).
Proof.
  intros I. unfold start_scan. destruct (_scanInProgress a) eqn:Eflag; [auto|]. destruct (connected E a); [auto|].
  set (a1 := a <| _scanInProgress := true |> <| _scanCursor := 0 |>). destruct I as [S C F P T]. assert (ctl_inv a1) as C1 by (destruct C; by split).
  unfold issue. destruct (begin_command_ok E CmdScan (ap_sys a) S F Logic.I) as (s & Es & J & _). change (ap_sys a1) with (ap_sys a). rewrite Es. cbn [mbind option_bind begin_command] in *. injection Es as <-.
  destruct (moved_inv _ a1 C1 J) as (a2 & Em & I2 & C2 & Es2 & Ep & _). rewrite Em. cbn [mbind option_bind]. unfold ret_of. rewrite Es2.
  assert (thr_cmd (ap_sys a2) = None) as F2 by (by rewrite Es2, returned_cmd). change (ap_pending a1) with (ap_pending a) in Ep. rewrite P in Ep.
  assert (cmd_ret (returned (cmdScan E (obj (ap_sys a))) (ap_sys a)) = fst (cmdScan E (obj (ap_sys a)))) as -> by (by destruct (cmdScan _ _)).
  destruct (Z.eqb_spec (fst (cmdScan E (obj (ap_sys a)))) 0) as [E0|]; cbn [negb].
  - apply refused_ok. split; [done..|]. apply (moved_tracked mark _ a1 a2 Em); [apply T|]. intros HP. right. split; [intros _; left; pose proof (cmdScan_passive E (obj (ap_sys a)) HP E0); by destruct (cmdScan _ _)|].
    pose proof (tracked_off [] a a1 T Eflag eq_refl HP) as M. destruct mark as [[old n]|]; [|done]. destruct M as (ns & M & D). exists ns. auto.
  - destruct (moved_ok io (returned (cmdScan E (obj (ap_sys a))) (ap_sys a)) a1) as (b & Eb & (_ & _ & _ & Qn & _ & _ & _ & _ & (n1 & N1 & _))). rewrite Em in Eb. injection Eb as <-. set (a3 := a2 <| _scanInProgress := false |>).
    assert (notices a3 = n1 ++ notices a) as N3 by done. apply refused_ok. split; [done|by destruct C2|done|done|]. split; [exact (eq_trans Qn (proj1 T))|]. intros HP. split; [done|].
    pose proof (tracked_off n1 a a3 T Eflag N3 HP) as M. destruct mark as [[old m]|]; [|done]. destruct M as (ns & M & D). exists ns. auto.
Qed.
Lemma handleSCAN_REQ_ok d a : idle a -> served (handleSCAN_REQ E io d a).
Proof. intros I. unfold handleSCAN_REQ. destruct (negb _); [auto|]. by apply start_scan_ok. Qed.

Lemma idle_result d n a : idle a -> 0 <= n -> idle (a <| _scanResult := d |> <| _scanCursor := n |>).
Proof. intros [S [C1 C2 C3 C4 C5] F P T] Hn. by split. Qed.
Lemma handleSCAN_RESULT_ok a : idle a -> served (handleSCAN_RESULT a).
Proof.
  intros I. unfold handleSCAN_RESULT. destruct (_scanInProgress a); [auto|]. destruct (copyScanBSS _ _) as [b|] eqn:Eb; [|auto].
  assert (bss_wf b) as Hb. { unfold copyScanBSS, ld in Eb. destruct (0 <=? _); [|done]. exact (Forall_lookup_1 _ _ _ _ (proj1 (wf_bss _ (id_wf a I))) Eb). }
  destruct (fill_answers b false Hb) as (d & -> & _). cbn [mbind option_bind]. apply answered_ok, idle_result; [done|]. apply wrap_range. lia.
Qed.

Lemma with_rssi_wf r b : bss_wf b -> bss_wf (with_rssi r b).
Proof. done. Qed.
Lemma copyCurrentBSS_ok k : kext_wf k -> exists ret o, copyCurrentBSS k = Some (ret, o) /\ forall b, o = Some b -> bss_wf b.
Proof.
  intros W. unfold copyCurrentBSS. destruct (negb _); [by eexists _, _|]. set (b0 := match List.find _ _ with Some b => b | None => _ end).
  assert (bss_wf b0) as W0. { unfold b0. destruct (List.find _ _) eqn:Ef; [|apply W]. apply find_some in Ef as [Ef _]. apply list_elem_of_In in Ef. exact (proj1 (Forall_forall _ _) (proj1 (wf_bss _ W)) _ Ef). }
  clearbody b0. cbv zeta. set (b := with_rssi _ b0). assert (bss_wf b) as Wb by done. clearbody b. pose proof Wb as (Hs & Hn & Hsb & _).
  destruct (ld_Some (ssid b) 0) as [s0 ->]; [lia|]. cbn [mbind option_bind].
  match goal with |- context [mbind _ ?r] => assert (exists b1, r = Some b1 /\ bss_wf b1) as (b1 & -> & W1) end.
  { destruct (_ && _); [|by exists b]. destruct (strnlen_In 32 _ (ssid_terminated b Wb)) as (n & En). rewrite En. cbn [mbind option_bind]. eexists. split; [reflexivity|].
    apply strnlen_range in En as [Hr _]. destruct Wb as (W1 & _ & W3). split; [exact W1|]. split; [change (0 <= n <= 32); lia|exact W3]. }
  cbn [mbind option_bind]. destruct (_ || _); eexists _, _; (split; [reflexivity|by intros ? [= <-]]).
Qed.

Lemma rebuild_current_ok a b : idle a -> bss_wf b -> exists b', rebuild_current (state_of E a) b = Some b' /\ bss_wf b'.
Proof.
  intros I (Hs & Hn & Hsb & _ & _ & _ & H1 & H2 & H3 & H4 & H5 & H32). destruct (target_ssid a I) as (Hz & H0 & Hb). unfold rebuild_current.
  destruct (strnlen_In 32 _ H0) as (n & En). rewrite En. cbn [mbind option_bind]. apply strnlen_range in En as [Hr _]. change (Z.of_nat 32) with 32 in Hr.
  destruct (ldn_buf _ 0 n Hb) as (v & -> & Hv & Hvb); [lia..|]. cbn [mbind option_bind].
  destruct (stn_buf 33 (ssid b) 0 v) as (s1 & E1 & Hs1 & Hs1b); [done..|lia|lia|]. rewrite E1. cbn [mbind option_bind]. rewrite st_Some by lia. cbn [mbind option_bind].
  eexists. split; [reflexivity|]. pose proof (wf_target _ (id_wf a I)) as (_ & _ & _ & B1 & B2 & _).
  split; [change (zlen (<[Z.to_nat n:=0]> s1) = 33); by rewrite zlen_insert|]. split; [change (0 <= u8 n <= 32); rewrite wrap_small by (split; [lia|change (2 ^ 8) with 256; lia]); lia|].
  split; [apply Forall_insert; [done|by vm_compute]|]. split; [done|]. split; [done|]. split; [by apply wrap_range|]. do 5 (split; [done|]).
  unfold ld. cbn. destruct (decide (n = 32)) as [->|]; [apply list_lookup_insert_eq; unfold zlen in Hs1; lia|].
  rewrite list_lookup_insert_ne by lia. rewrite <- H32, <- (ld_stn_after (ssid b) 0 v s1 32 E1) by lia. done.
Qed.

Lemma handleCURRENT_NETWORK_ok a : idle a -> served (handleCURRENT_NETWORK E a).
Proof.
  intros I. unfold handleCURRENT_NETWORK. destruct (copyCurrentBSS_ok (ap_obj a) (id_wf a I)) as (ret & o & -> & Ho). cbn [mbind option_bind].
  set (b := match o with Some b => b | None => zero_bss end). assert (bss_wf b) as Wb.
  { unfold b. destruct o; [by apply Ho|]. exact (wf_target _ fresh_wf). }
  clearbody b. destruct (negb (ret =? _)).
  - destruct (target_ssid a I) as (Hz & _). destruct (ld_Some (sr_ssid (state_of E a)) 0) as [s0 ->]; [lia|]. cbn [mbind option_bind]. destruct (_ || _); [auto|].
    destruct (rebuild_current_ok a b I Wb) as (b' & -> & Wb'). cbn [mbind option_bind]. destruct (fill_answers b' true Wb') as (d & -> & _). cbn [mbind option_bind]. auto.
  - destruct (fill_answers b true Wb) as (d & -> & _). cbn [mbind option_bind]. auto.
Qed.

Lemma handleCHANNEL_ok a : idle a -> served (handleCHANNEL E a).
Proof. intros I. unfold handleCHANNEL. destruct (_ || _); auto. Qed.
Lemma handlePOWER_ok set version n states a : idle a -> zlen states = APPLE80211_MAX_RADIO -> served (handlePOWER E io set version n states a).
Proof.
  intros I Hz. unfold handlePOWER. destruct set; [|auto]. destruct (_ || _); [auto|]. destruct (ld_Some states 0) as [r ->]; [rewrite Hz; unfold APPLE80211_MAX_RADIO; lia|]. cbn [mbind option_bind].
  destruct (r =? APPLE80211_POWER_ON).
  - destruct (issue_idle CmdPowerOn a I) as (a1 & -> & I1 & _); [done..|]. cbn [mbind option_bind]. auto.
  - destruct (r =? APPLE80211_POWER_OFF); [|auto]. apply (waiting_ok true CmdPowerOff a I Logic.I eq_refl). auto.
Qed.

(** *** Virtual interfaces *)

(** The manager's own steps. *)
Definition awdl_ok (m : awdl_manager) : Prop := awdl_wf m /\ forall v, _awdlInterface m = Some v \/ _p2pInterface m = Some v -> vif_ok v.
Lemma idle_awdl m a : idle a -> awdl_ok m -> idle (a <| _awdlManager := Some m |>).
Proof. intros [S [C1 C2 C3 C4 C5] F P T] Hm. split; [done| |done..]. split; [done..| |done]. by intros x [= <-]. Qed.
Lemma on_awdl_idle f a : idle a -> (forall m, awdl_ok m -> awdl_ok (f m)) -> idle (on_awdl f a).
Proof.
  intros I Hf. unfold on_awdl. destruct (_awdlManager a) as [m|] eqn:Em; [|done]. apply idle_awdl; [done|]. apply Hf. by apply (ci_awdl a (id_ctl a I)).
Qed.
Lemma setVirtualInterface_awdl role v m : vif_ok v -> awdl_ok m -> awdl_ok (setVirtualInterface role (Some v) m).
Proof.
  intros Hv [[W1 W2 W3] N]. unfold setVirtualInterface. destruct (role =? _); [|destruct (_ && _); [|done]]; (split; [done|]); cbn; intros x [H|H]; try (by injection H as <-); auto.
Qed.
Lemma clearVirtualInterface_awdl i m : awdl_ok m -> awdl_ok (clearVirtualInterface i m).
Proof.
  intros [W N]. unfold clearVirtualInterface. set (m1 := if same_vif (_awdlInterface m) i then _ else m).
  assert (awdl_ok m1) as [W1 N1]. { unfold m1. destruct (same_vif _ _); [|done]. destruct W as [W1 W2 W3]. split; [done|]. cbn. intros x [H|H]; [done|auto]. }
  clearbody m1. destruct (same_vif _ _); [|done]. destruct W1 as [V1 V2 V3]. split; [done|]. cbn. intros x [H|H]; [auto|done].
Qed.
Hint Resolve setVirtualInterface_awdl clearVirtualInterface_awdl : core.

Lemma enableVirtualInterface_ok i a : idle a -> (forall v, i = Some v -> vif_ok v) -> stays (enableVirtualInterface E io i a).
Proof.
  intros I Hi. unfold enableVirtualInterface. destruct i as [v|]; [|auto]. specialize (Hi v eq_refl). destruct (negb _); [auto|].
  set (a1 := on_awdl _ a). assert (idle a1) as I1 by (apply on_awdl_idle; auto). clearbody a1. destruct (_ && _); [|cbn [mbind option_bind]; auto].
  destruct (issue_idle (CmdAWDLReceiveMode true) a1 I1) as (a2 & -> & I2 & _); [done..|]. cbn [mbind option_bind]. auto.
Qed.
Lemma disableVirtualInterface_ok i a : idle a -> stays (disableVirtualInterface E io i a).
Proof.
  intros I. unfold disableVirtualInterface. destruct i as [v|]; [|auto]. destruct (negb _); [auto|].
  set (a1 := note _ a). assert (idle a1) as I1 by (unfold a1; auto). clearbody a1.
  match goal with |- context [mbind _ ?r] => assert (exists a2, r = Some a2 /\ idle a2) as (a2 & -> & I2) end.
  { destruct (_ && _); [|by exists a1]. destruct (issue_idle (CmdAWDLReceiveMode false) a1 I1) as (a2 & -> & I2 & _); [done..|]. by exists a2. }
  cbn [mbind option_bind]. apply stays_ret, on_awdl_idle; auto.
Qed.
Lemma attach_ok addr role a : idle a -> exists o a', attachVirtualInterface E io addr role a = Some (o, a') /\ idle a' /\ forall v, o = Some v -> vif_ok v.
Proof.
  intros I. unfold attachVirtualInterface. set (a1 := note _ a). assert (idle a1) as I1 by (unfold a1; auto). clearbody a1.
  destruct (io_attach io (notices a1)) as [[v enabled]|] eqn:Ea; [|by exists None, a1]. pose proof (Hio _ _ _ Ea) as Hv. destruct enabled.
  - destruct (enableVirtualInterface_ok (Some v) a1 I1) as (r & a2 & -> & I2); [by intros x [= <-]|]. cbn [mbind option_bind]. exists (Some v), a2. split; [done|]. split; [done|by intros x [= <-]].
  - exists (Some v), a1. split; [done|]. split; [done|by intros x [= <-]].
Qed.
Lemma ensureAWDL_ok a : idle a -> stays (ensureAWDLVirtualInterface E io a).
Proof.
  intros I. unfold ensureAWDLVirtualInterface. destruct (_ || _); [auto|]. destruct (is_some _); [auto|]. pose proof (ci_mac a (id_ctl a I)) as Hm.
  rewrite ldn_Some by lia. cbn [mbind option_bind]. rewrite zdrop_0, ztake_all by lia. unfold awdl_addr.
  destruct (ld_Some (ap_macAddr a) 0) as [m0 ->]; [lia|]. destruct (ld_Some (ap_macAddr a) 5) as [m5 ->]; [lia|]. cbn [mbind option_bind].
  rewrite st_Some by lia. cbn [mbind option_bind]. rewrite st_Some by (rewrite zlen_insert; lia). cbn [mbind option_bind].
  match goal with |- context [attachVirtualInterface E io ?x ?r a] => destruct (attach_ok x r a I) as (o & a1 & -> & I1 & Hv) end. cbn [mbind option_bind].
  destruct o as [v|]; [|auto]. set (a2 := on_awdl _ a1). assert (idle a2) as I2 by (apply on_awdl_idle; [done|]; intros; apply setVirtualInterface_awdl; auto). clearbody a2.
  destruct (enableVirtualInterface_ok (Some v) a2 I2) as (r & a3 & -> & I3); [intros x [= <-]; by apply Hv|]. cbn [mbind option_bind]. auto.
Qed.

Lemma strlcpy_fits dst src n : zlen dst = n -> 0 < n -> cstr_ok src -> exists d, strlcpy dst src n = Some d /\ zlen d = n.
Proof.
  intros Hd Hn [Hb H0]. unfold strlcpy. destruct (strlen_In src H0) as (m & -> & Hm). cbn [mbind option_bind]. rewrite ldn_Some by lia. cbn [mbind option_bind].
  set (v := ztake _ _). assert (zlen v = Z.min m (n - 1)) as Hv by (unfold v; rewrite zlen_ztake, zlen_zdrop; lia).
  assert (zlen (v ++ [0]) = Z.min m (n - 1) + 1) as Hv' by (rewrite zlen_app, Hv; done).
  destruct (stn dst 0 (v ++ [0])) as [d|] eqn:Ed; [|rewrite stn_Some in Ed by lia; done]. exists d. split; [done|]. by rewrite (stn_zlen _ _ _ _ Ed).
Qed.
Lemma bsd_name_ok v : vif_ok v -> exists n, bsd_name_of v = Some n.
Proof.
  intros Hv. unfold bsd_name_of. destruct (vi_name v) as [n|] eqn:En; [|by eexists]. destruct (strlcpy_fits (zeros IFNAMSIZ) n IFNAMSIZ) as (d & -> & _); [done..|by apply Hv|]. by eexists.
Qed.
Lemma handleVIRTUAL_IF_CREATE_ok version role mac a : idle a -> zlen mac = APPLE80211_ADDR_LEN -> served (handleVIRTUAL_IF_CREATE E io version role mac a).
Proof.
  intros I Hm. unfold handleVIRTUAL_IF_CREATE. destruct (negb _); [auto|]. destruct (negb _); [auto|]. rewrite ldn_Some by (unfold APPLE80211_ADDR_LEN in *; lia). cbn [mbind option_bind].
  destruct (_awdlManager a) as [m|] eqn:Em; [|auto]. destruct (ci_awdl a (id_ctl a I) m Em) as [_ Hn].
  destruct (if role =? APPLE80211_VIF_AWDL then _ else _) as [v|] eqn:Ev.
  - destruct (bsd_name_ok v) as (n & ->); [apply Hn; destruct (role =? _); auto|]. cbn [mbind option_bind]. auto.
  - match goal with |- context [attachVirtualInterface E io ?x ?r a] => destruct (attach_ok x r a I) as (o & a1 & -> & I1 & Hv) end. cbn [mbind option_bind].
    destruct o as [v|]; [|auto]. destruct (bsd_name_ok v) as (n & ->); [auto|]. cbn [mbind option_bind]. apply answered_ok, on_awdl_idle; [done|]. intros; apply setVirtualInterface_awdl; auto.
Qed.

Lemma strneq_ok n : forall a b, In 0 a -> In 0 b -> exists r, strneq a b n = Some r.
Proof.
  induction n as [|n IH]; intros a b Ha Hb; cbn [strneq]; [by eexists|]. destruct a as [|x a]; [done|]. destruct b as [|y b]; [done|].
  change (ld (x :: a) 0) with (Some x). change (ld (y :: b) 0) with (Some y). cbn [mbind option_bind]. destruct (Z.eqb_spec x y) as [->|]; cbn [negb]; [|by eexists].
  destruct (Z.eqb_spec y 0); [by eexists|]. change (zdrop 1 (y :: a)) with a. change (zdrop 1 (y :: b)) with b. apply IH; [by destruct Ha|by destruct Hb].
Qed.
Lemma named_ok o b : (forall v, o = Some v -> vif_ok v) -> exists r, named o (b ++ [0]) = Some r.
Proof.
  intros Ho. unfold named. destruct o as [v|]; [|by eexists]. destruct (vi_name v) as [n|] eqn:En; [|by eexists]. destruct (Ho v eq_refl n En) as [_ H0].
  apply strneq_ok; [done|]. apply in_or_app. right. by left.
Qed.
Lemma handleVIRTUAL_IF_DELETE_ok version name a : idle a -> zlen name = IFNAMSIZ -> served (handleVIRTUAL_IF_DELETE io version name a).
Proof.
  intros I Hz. unfold handleVIRTUAL_IF_DELETE. destruct (negb _); [auto|]. rewrite ldn_Some by (unfold IFNAMSIZ in *; lia). cbn [mbind option_bind].
  set (b := ztake _ _). assert (forall o : option awdl_manager, o = _awdlManager a -> (forall v, (m ← o; _awdlInterface m) = Some v -> vif_ok v) /\ (forall v, (m ← o; _p2pInterface m) = Some v -> vif_ok v)) as Hn.
  { intros o ->. destruct (_awdlManager a) as [m|] eqn:Em; [|done]. destruct (ci_awdl a (id_ctl a I) m Em) as [_ H]. cbn [mbind option_bind]. split; intros; apply H; auto. }
  destruct (Hn _ eq_refl) as [H1 H2]. destruct (named_ok _ b H1) as (r1 & E1). rewrite E1. destruct (named_ok _ b H2) as (r2 & E2). cbn [mbind option_bind] in *. rewrite E2. cbn [mbind option_bind].
  destruct (if r1 then _ else _) as [t|]; [|auto]. set (a1 := note _ a). assert (idle a1) as I1 by (unfold a1; auto). clearbody a1.
  destruct (io_detach _ _); [|auto]. apply refused_ok, on_awdl_idle; auto.
Qed.

(** *** The dispatchers *)

Lemma get_only_ok b r a : idle a -> served r -> served (get_only b r a).
Proof. intros. unfold get_only. destruct b; auto. Qed.
Lemma set_only_ok b r a : idle a -> served r -> served (set_only b r a).
Proof. intros. unfold set_only. destruct b; auto. Qed.
Lemma supported_channels_ok a : idle a -> served (supported_channels a).
Proof. intros I. unfold supported_channels. destruct (copyChannels _ _). destruct (negb _); auto. Qed.
Lemma country_ok v a : idle a -> zlen v = 3 -> ld v 2 = Some 0 -> idle (a <| _countryCode := v |>).
Proof. intros [S [C1 C2 C3 C4 C5] F P T] Hz Hl. split; [done| |done..]. by split. Qed.

Lemma apple80211Request_ok t data r a : idle a -> request_ok r -> served (apple80211Request E io t data r a).
Proof.
  intros I Hr. unfold apple80211Request. destruct (negb _); [auto|]. destruct t; [| |auto].
  all: cbv zeta; destruct (_ && _); [auto|].
  all: destruct r; cbn [request_ok] in Hr; try first [by apply get_only_ok; auto using when_connected_ok|apply get_only_ok; [done|]|apply set_only_ok; [done|]].
  all: try first [by apply handleSSID_ok|by apply handleAUTH_TYPE_ok|by apply handleASSOCIATE_ok|by apply handleRSN_IE_ok|by apply handleAP_IE_LIST_ok
    |by apply handleCIPHER_KEY_ok|by apply handleSCAN_REQ_ok|by apply start_scan_ok|by apply handleSCAN_RESULT_ok|by apply command_answer_ok
    |by apply handleCURRENT_NETWORK_ok|by apply handleCHANNEL_ok|by apply handlePOWER_ok|by apply handleVIRTUAL_IF_CREATE_ok|by apply handleVIRTUAL_IF_DELETE_ok
    |by apply supported_channels_ok|by apply when_connected_ok|by apply answered_ok|by rewrite capabilities_published; apply answered_ok|solve [auto]].
  all: try (destruct (negb _); solve [auto]).
  destruct (negb _); [auto|]. unfold APPLE80211_MAX_CC_LEN in *. destruct (ld_Some cc 0) as [c0 ->]; [lia|]. cbn [mbind option_bind]. destruct (_ && _); [|auto].
  rewrite ldn_Some by lia. cbn [mbind option_bind]. assert (zlen (ztake 3 (zdrop 0 cc)) = 3) as Hz by (rewrite zlen_ztake, zlen_zdrop; lia).
  rewrite st_Some by lia. cbn [mbind option_bind]. set (v := <[_ := 0]> _). set (a1 := a <| _countryCode := v |>).
  assert (idle a1) as I1 by (apply country_ok; [done|unfold v; by rewrite zlen_insert|unfold v, ld; cbn; apply list_lookup_insert_eq; unfold zlen in Hz; lia]).
  clearbody a1. destruct (_netif a1); auto.
Qed.

Lemma forward_ok t data r a : idle a -> request_ok r -> served (forward E io t data r a).
Proof.
  intros I Hr. unfold forward. destruct (apple80211Request_ok t data r a I Hr) as (x & a' & -> & H). cbn [mbind option_bind]. by eexists _, a'.
Qed.
Lemma v_ok_ok out a : idle a -> served (v_ok out a).
Proof. intros. by apply served_ret. Qed.
Lemma v_refused_ok ret a : idle a -> served (v_refused ret a).
Proof. intros. by apply served_ret. Qed.
Hint Resolve v_ok_ok v_refused_ok : core.
Lemma tune_ok c l a : idle a -> served (tune E io c l a).
Proof.
  intros I. unfold tune. destruct (issue_idle (CmdAWDLChannel (u16 c)) a I) as (a1 & -> & I1 & _); [done..|]. cbn [mbind option_bind]. destruct (_ || _); auto.
Qed.

(** Settings that no invariant reads. *)
Definition plain_set (f : awdl_manager -> awdl_manager) : Prop := forall m, awdl_ok m -> awdl_ok (f m).
Lemma setting_ok set data f g a : idle a -> plain_set f -> stays (setting set data f g a).
Proof.
  intros I Hf. unfold setting, v_refused, v_ok. destruct (_awdlManager a); [|auto]. destruct (negb data); [auto|]. destruct set; [|auto]. apply stays_ret, on_awdl_idle; auto.
Qed.
Lemma awdl_same m m' : awdl_ok m -> _syncTemplate m' = _syncTemplate m -> _syncTemplateLength m' = _syncTemplateLength m ->
  _syncChannelSequence m' = _syncChannelSequence m -> _syncChannelSequenceLength m' = _syncChannelSequenceLength m -> zlen (_bssid m') = 6 ->
  _awdlInterface m' = _awdlInterface m -> _p2pInterface m' = _p2pInterface m -> awdl_ok m'.
Proof.
  intros [[W1 W2 W3] N] E1 E2 E3 E4 E5 E6 E7. split; [split; [by rewrite E1, E2|by rewrite E3, E4|done]|]. rewrite E6, E7. exact N.
Qed.
Lemma awdl_bssid m : awdl_ok m -> zlen (_bssid m) = 6.
Proof. by intros [[_ _ H] _]. Qed.
Ltac plain := let m := fresh in let H := fresh in intros m H; apply (awdl_same m); try done; exact (awdl_bssid m H).

Lemma notePeer_plain b : plain_set (notePeerTrafficRegistration b).
Proof. intros m H. unfold notePeerTrafficRegistration. destruct b; [|destruct (negb _); [|done]]; apply (awdl_same m); try done; exact (awdl_bssid m H). Qed.

Lemma store_ok m a : idle a -> awdl_ok m -> forall m', _syncTemplate m' = _syncTemplate m -> _syncTemplateLength m' = _syncTemplateLength m ->
  _syncChannelSequence m' = _syncChannelSequence m -> _syncChannelSequenceLength m' = _syncChannelSequenceLength m -> _bssid m' = _bssid m ->
  _awdlInterface m' = _awdlInterface m -> _p2pInterface m' = _p2pInterface m -> served (v_ok OutNone (a <| _awdlManager := Some m' |>)).
Proof. intros I H m' E1 E2 E3 E4 E5 E6 E7. apply v_ok_ok, idle_awdl; [done|]. apply (awdl_same m); try done. rewrite E5. by apply awdl_bssid. Qed.

(** The requests that keep bytes. *)
Lemma idle_awdl_ok a m : idle a -> _awdlManager a = Some m -> awdl_ok m.
Proof. intros I. exact (ci_awdl a (id_ctl a I) m). Qed.
Lemma template_ok set p n a : idle a -> 0 <= n -> (forall b, p = Some b -> n <= zlen b) ->
  served (match _awdlManager a with
          | None => v_refused kIOReturnNotReady a
          | Some m =>
              if set : bool then '(ret, m) ← setSyncFrameTemplate p n (alloc_ok E (trace (ap_obj a))) m; v_refused ret (a <| _awdlManager := Some m |>)
              else if negb (is_some p) then v_refused kIOReturnBadArgument a
              else '(ret, p, n) ← copySyncFrameTemplate p n m; Some (VAnswer ret (VOutTemplate p n), a)
          end).
Proof.
  intros I Hn Hp. destruct (_awdlManager a) as [m|] eqn:Em; [|auto]. destruct (idle_awdl_ok a m I Em) as [W N]. destruct set.
  - destruct (setSyncFrameTemplate_ok p n (alloc_ok E (trace (ap_obj a))) m W) as (r & m' & Es & W' & _ & _); [intros b Hb; split; [done|auto]|]. pose proof Es as Es'. rewrite Es. cbn [mbind option_bind].
    apply v_refused_ok, idle_awdl; [done|]. split; [done|]. revert Es'. unfold setSyncFrameTemplate. destruct p as [b|]; [|by intros [= _ <-]]. destruct (_ || _); [by intros [= _ <-]|].
    destruct (negb _); [by intros [= _ <-]|]. destruct (ldn b 0 n); [|done]. by intros [= _ <-].
  - destruct p as [b|]; [|by apply v_refused_ok]. cbn [is_some negb]. destruct W as [T _ _]. unfold copySyncFrameTemplate. destruct (_syncTemplate m) as [t|]; [|cbn [mbind option_bind]; auto].
    destruct T as [Tl Tz]. rewrite Tl. rewrite (proj2 (Z.eqb_neq _ _)) by lia. destruct (Z.ltb_spec n (zlen t)); [cbn [mbind option_bind]; auto|]. specialize (Hp b eq_refl).
    rewrite ldn_Some, zdrop_0, ztake_all by lia. cbn [mbind option_bind]. rewrite stn_Some by lia. cbn [mbind option_bind]. auto.
Qed.
Lemma sequence_set_ok d m a : idle a -> awdl_ok m -> zlen d = sizeof_sequence ->
  served ('(ret, m) ← setSyncChannelSequence d sizeof_sequence m;
          if negb (ret =? kIOReturnSuccess) then v_refused ret a
          else
            let a := a <| _awdlManager := Some m |> in
            fill_channel ← ld d 9;
            if _ieee80211 a && negb (fill_channel =? 0) then tune E io fill_channel [kIOReturnBusy; kIOReturnUnsupported] a else v_ok OutNone a).
Proof.
  intros I [W N] Hd. destruct (setSyncChannelSequence_ok d sizeof_sequence m W) as (r & m' & Es & W' & _ & _); [unfold sizeof_sequence in *; lia|].
  pose proof Es as Es'. rewrite Es. cbn [mbind option_bind]. destruct (negb _); [auto|]. cbv zeta.
  assert (idle (a <| _awdlManager := Some m' |>)) as I'.
  { apply idle_awdl; [done|]. split; [done|]. revert Es'. unfold setSyncChannelSequence. destruct (_ || _); [by intros [= _ <-]|].
    destruct (ldn d 0 _); [|done]. cbn [mbind option_bind]. destruct (stn _ _ _); [|done]. by intros [= _ <-]. }
  set (a' := a <| _awdlManager := Some m' |>) in *. clearbody a'. destruct (ld_Some d 9) as [f ->]; [unfold sizeof_sequence in *; lia|]. cbn [mbind option_bind]. destruct (_ && _); [by apply tune_ok|auto].
Qed.
Lemma sequence_get_ok m a : idle a -> awdl_ok m ->
  served ('(ret, d) ← copySyncChannelSequence (zeros sizeof_sequence) sizeof_sequence m; v_ok (if ret =? kIOReturnSuccess then OutBytes d else OutNone) a).
Proof.
  intros I [[_ S _] _]. unfold copySyncChannelSequence. destruct (_ || _) eqn:Eg; [cbn [mbind option_bind]; auto|]. bool_hyps. assert (zlen (zeros sizeof_sequence) = sizeof_sequence) as Hz by done.
  rewrite ldn_Some by lia. cbn [mbind option_bind]. rewrite stn_Some by (rewrite ?zlen_ztake, ?zlen_zdrop; lia). cbn [mbind option_bind]. auto.
Qed.

Lemma master_ok set data c a : idle a ->
  served ('(x, a) ← setting set data (fun m => m <| _masterChannel := c |>) (fun m => OutValue (_masterChannel m)) a;
          if set && data && is_some (_awdlManager a) && _ieee80211 a && negb (c =? 0) then tune E io c [kIOReturnBusy] a else Some (x, a)).
Proof.
  intros I. destruct (setting_ok set data (fun m => m <| _masterChannel := c |>) (fun m => OutValue (_masterChannel m)) a I ltac:(plain)) as (x & a1 & -> & I1).
  cbn [mbind option_bind]. destruct (_ && _); [by apply tune_ok|auto].
Qed.

Lemma apple80211VirtualRequest_ok t role data r a : idle a -> vif_request_ok r -> served (apple80211VirtualRequest E io t role data r a).
Proof.
  intros I Hr. unfold apple80211VirtualRequest. destruct t; [| |auto].
  all: cbv zeta; destruct r; cbn [vif_request_ok] in Hr; cbn [negb orb andb].
  all: try (apply stays_served, setting_ok; [done|]; solve [plain|exact (fun m H => awdl_same m _ H eq_refl eq_refl eq_refl eq_refl Hr eq_refl eq_refl)]).
  all: try (destruct (physical r); [by apply forward_ok|solve [auto]]).
  all: try (destruct (negb data); [solve [auto]|]).
  all: try solve [auto|destruct (negb _); auto|destruct data; auto|by apply forward_ok|apply (template_ok false); tauto|apply (template_ok true); tauto].
  all: try (destruct (negb (role =? _)); [by apply forward_ok|]).
  all: try solve [destruct (_ =? 0); [by apply forward_ok|auto]].
  all: try solve [destruct (_ || _); [auto|]; destruct (copyChannels _ _); destruct (_ && _); auto].
  all: try solve [apply v_ok_ok, on_awdl_idle; [done|]; first [plain|apply notePeer_plain]].
  all: try (by apply (master_ok true)); try (by apply (master_ok false)).
  all: try solve [destruct (_awdlManager a) as [m|] eqn:Em; [|auto]; pose proof (idle_awdl_ok a m I Em); first [by apply (store_ok m)|destruct (negb data); [auto|]];
    first [by apply sequence_set_ok|by apply sequence_get_ok|by apply (store_ok m)|auto]].
  destruct (_ || _); [auto|]. set (a1 := on_awdl _ a). assert (idle a1) as I1 by (apply on_awdl_idle; [done|plain]). clearbody a1. destruct (_ieee80211 a1); [by apply tune_ok|auto].
Qed.

(** *** Every step *)

Lemma action_frame_ok b x a : idle a -> let r := rtw88SendActionFrame E b x (ap_obj a) in obj_inv (snd r) /\ calm (ap_obj a) (snd r).
Proof.
  intros I. pose proof (si_obj _ (id_sys a I)) as Io. pose proof (calm_refl (ap_obj a)). unfold rtw88SendActionFrame. cbv zeta.
  do 4 (match goal with |- context [if ?c then _ else _] => destruct c; [done|] end).
  pose proof (rawFrame_keeps E x (ap_obj a) Io). by destruct (txRawManagementFrame E x (ap_obj a)).
Qed.
Lemma bpf_ok b t m a : idle a -> bytes_ok m -> exists r, bpfOutputPacket E b t m (ap_obj a) = Some r /\ obj_inv (snd r) /\ calm (ap_obj a) (snd r).
Proof.
  intros I Hm. pose proof (fun x => action_frame_ok b x a I) as Hs.
  unfold bpfOutputPacket. destruct t; try (eexists; split; [reflexivity|]; first [apply Hs|split; [apply (id_sys a I)|apply calm_refl]]).
  destruct (Z.ltb_spec (zlen m) 4); cbn [orb]; [eexists; split; [reflexivity|]; split; [apply (id_sys a I)|apply calm_refl]|].
  destruct (negb _); [eexists; split; [reflexivity|]; split; [apply (id_sys a I)|apply calm_refl]|].
  destruct (ldn_buf m 0 4 Hm) as (h & -> & Hh & Hhb); [lia..|]. cbn [mbind option_bind]. destruct (ld_byte h 2 Hhb) as (h2 & -> & _); [lia|]. destruct (ld_byte h 3 Hhb) as (h3 & -> & _); [lia|]. cbn [mbind option_bind].
  destruct (_ || _); eexists; (split; [reflexivity|]); [split; [apply (id_sys a I)|apply calm_refl]|apply Hs].
Qed.
Lemma tx_all_ok ms : forall sent k, obj_inv k -> Forall (fun m => bytes_ok m) ms -> exists n k', tx_all E ms sent k = Some (n, k') /\ obj_inv k' /\ calm k k'.
Proof.
  induction ms as [|m ms IH]; intros sent k I Hm; cbn [tx_all]; [exists sent, k; split; [done|]; split; [done|apply calm_refl]|]. apply Forall_cons in Hm as [H1 H2].
  destruct (answers_keeps k _ I (txAWDLDataFrame_total E m k (oi_wf _ I) H1)) as (ok & k1 & -> & I1 & C1). cbn [mbind option_bind].
  destruct (IH (if ok then u32 (sent + 1) else sent) k1 I1 H2) as (n & k2 & -> & I2 & C2). exists n, k2. split; [done|]. split; [done|by apply (calm_trans k k1)].
Qed.
Lemma requestPacketTx_ok qs : forall sent k, obj_inv k -> Forall (Forall (fun m => bytes_ok m)) qs ->
  exists n k', requestPacketTx E qs sent k = Some (n, map (drop 32) qs, k') /\ obj_inv k' /\ calm k k'.
Proof.
  induction qs as [|q qs IH]; intros sent k I Hq; cbn [requestPacketTx map]; [exists sent, k; split; [done|]; split; [done|apply calm_refl]|]. apply Forall_cons in Hq as [H1 H2].
  destruct (tx_all_ok (take 32 q) sent k I) as (n & k1 & -> & I1 & C1); [by apply Forall_take|]. cbn [mbind option_bind].
  destruct (IH n k1 I1 H2) as (n2 & k2 & -> & I2 & C2). cbn [mbind option_bind]. exists n2, k2. split; [done|]. split; [done|by apply (calm_trans k k1)].
Qed.

Lemma gated_ok a r : ap_inv a -> (idle a -> served r) -> served (gated a r).
Proof.
  intros I H. unfold gated. destruct (ap_pending a) eqn:Ep; cbn [is_some]; [by exists NoReply, a|]. by apply H, inv_idle_ap.
Qed.
Lemma replying_ok {X} (f : X -> reply) r : served r -> served (replying f r).
Proof. intros (x & a & -> & I). by exists (f x), a. Qed.
Lemma replying_stays {X} (f : X -> reply) r : stays r -> served (replying f r).
Proof. intros H. by apply replying_ok, stays_served. Qed.

Lemma enable_ok a : idle a -> stays (enable E io a).
Proof.
  intros I. unfold enable. destruct (negb _); [auto|]. destruct (powerOn_ok E (ap_obj a) (si_obj _ (id_sys a I))) as [I1 C1].
  destruct (call_ok (powerOn E (ap_obj a)) a I I1 C1) as (a1 & -> & J & _). cbn [mbind option_bind]. destruct (negb _); [auto|]. cbv zeta. destruct (negb _); [|cbn [mbind option_bind]; auto].
  destruct (powerOff_ok (ap_obj a1) (si_obj _ (id_sys a1 J))) as [I2 C2]. destruct (call_ok (kIOReturnSuccess, powerOff (ap_obj a1)) a1 J I2 C2) as (a2 & -> & J2 & _). cbn [mbind option_bind]. auto.
Qed.
Lemma setMulticastList_ok b n a : idle a -> stays (setMulticastList E io b n a).
Proof.
  intros I. unfold setMulticastList, setMulticastMode. destruct (_ && _); [auto|]. destruct (_ieee80211 a); [|auto].
  destruct (issue_idle (CmdReceiveMulticast (negb (n =? 0))) a I) as (a1 & -> & I1 & _); [done..|]. cbn [mbind option_bind]. auto.
Qed.

(** A step of the object, alone or of the waiting command. *)
Lemma act_kept x s a : ap_inv a -> action_ok x -> match x with ActManualScan | ActCommand _ | ActCommandStep => False | _ => True end ->
  act E ctx x (ap_sys a) = Some s -> scan_kept (ap_sys a) s.
Proof. intros I Hx Hn Es. by apply (act_scan_kept E ctx HE Hctx x (ap_sys a) s (ai_sys a I) Hx Hn Es). Qed.
(** A turn of the scan call. *)
Definition turned : option (list notice * nat) := match mark with Some (old, n) => Some (old, (n - 1)%nat) | None => None end.
Lemma turn_tracked s a a' : ap_inv a -> act E ctx ActManualScan (ap_sys a) = Some s -> moved io s a = Some a' -> tracked turned a'.
Proof.
  intros [S C P _ T] Es Em. unfold turned. destruct T as [Hn T]. apply (moved_tracked _ s a a' Em Hn). intros HP. destruct (T HP) as [Cm M]. destruct (_scanInProgress a) eqn:Ef.
  - destruct (step_scan_progress E ctx HE Hctx (ap_sys a) S (Cm eq_refl)) as (s' & Es' & H). rewrite Es in Es'. injection Es' as <-. destruct mark as [[old n]|].
    + destruct M as (ns & M & D). destruct H as [[H L]|H]; [right|left; split; [done|by exists ns]]. split; [done|]. exists ns. split; [done|]. destruct D as [D|[D L']]; [by left|right]. split; [done|lia].
    + destruct H as [[H _]|H]; [by right|by left].
  - right. split; [done|]. destruct mark as [[old n]|]; [|done]. destruct M as (ns & M & [D|[D _]]); [|congruence]. exists ns. auto.
Qed.
Lemma tracked_turned a : tracked turned a -> tracked mark a.
Proof.
  intros [Hn T]. split; [done|]. intros HP. destruct (T HP) as [C M]. split; [done|]. unfold turned in M. destruct mark as [[old n]|]; [|done]. destruct M as (ns & M & D). exists ns. split; [done|].
  destruct D as [D|[D L]]; [by left|right]. split; [done|lia].
Qed.
Lemma act_tracked x s a a' : ap_inv a -> action_ok x -> background x = true -> act E ctx x (ap_sys a) = Some s -> moved io s a = Some a' -> tracked mark a'.
Proof.
  intros I Hx Hb Es Em. assert (is_turn x = true \/ is_turn x = false) as [Ht|Ht] by (destruct (is_turn x); auto).
  - destruct x; try done. apply tracked_turned. by apply (turn_tracked s a).
  - apply (moved_kept mark s a a' (ai_scan a I)); [|done]. apply (act_kept x); try done. by destruct x.
Qed.
Lemma object_step_ok x a : ap_inv a -> action_ok x -> background x = true ->
  exists a', (s ← act E ctx x (ap_sys a); moved io s a) = Some a' /\ ap_inv a'.
Proof.
  intros I Hx Hb. pose proof I as [S C P St _]. destruct (act_ok E ctx HE Hctx x (ap_sys a) S Hx) as (s & Es & J & _). pose proof (act_tracked x s a) as Ht. rewrite Es. cbn [mbind option_bind].
  destruct (moved_inv s a C J) as (a1 & Em & I1 & C1 & Es1 & Ep & _). specialize (Ht a1 I Hx Hb Es Em). rewrite Em. exists a1. split; [done|]. pose proof (background_cmd E ctx x _ _ Hb Es) as Ec.
  split; [done..| | |done]; [rewrite Ep, P; unfold blocked; by rewrite Es1, Ec|by rewrite Es1, Ec].
Qed.
Lemma command_waits s s' : thr_cmd s = None -> command_step E s = Some s' -> thr_cmd s' = None.
Proof. intros N. unfold command_step. rewrite N. by intros [= <-]. Qed.
Lemma command_run_ok a : ap_inv a -> served (ap_step E ctx io ApCommandStep a).
Proof.
  intros [S C P St T]. cbn [ap_step]. destruct (command_step_ok E (ap_sys a) S) as (s & Es & J & _). destruct (command_scan_kept E (ap_sys a) s S St Es) as [K St1]. rewrite Es. cbn [mbind option_bind].
  destruct (moved_inv s a C J) as (a1 & Em & I1 & C1 & Es1 & Ep & _). pose proof (moved_kept mark s a a1 T K Em) as T1. rewrite <- Es1 in St1. rewrite Em. cbn [mbind option_bind]. rewrite Ep. destruct (ap_pending a) as [p|] eqn:Epa; cbn [is_some andb].
  - destruct (blocked a1) eqn:Eb; cbn [negb]; [exists NoReply, a1; split; [done|]; split; [done..| |done|done]; by rewrite Ep, Eb|].
    unfold request_done. rewrite Ep. set (a2 := a1 <| ap_pending := None |>). assert (idle a2) as I2.
    { split; [exact I1|by destruct C1| |done|done]. unfold blocked in Eb. by destruct (thr_cmd (ap_sys a1)) eqn:Ec. }
    clearbody a2. cbv zeta. exists (Reply (Answer (ret_of a2) OutNone)), (match p with PendPowerOff => power_done a2 | _ => a2 end). split; [done|]. apply idle_inv. destruct p; auto.
  - exists NoReply, a1. split; [done|]. split; [done..| |done|done]. rewrite Ep. unfold blocked in *. rewrite Es1. destruct (thr_cmd (ap_sys a)) eqn:Ec; [done|]. by rewrite (command_waits _ _ Ec Es).
Qed.

Lemma ap_step_ok x a : ap_inv a -> ap_action_ok x -> served (ap_step E ctx io x a).
Proof.
  intros I Hx. destruct x; cbn [ap_action_ok] in Hx; try (by apply command_run_ok); cbn [ap_step];
    try (apply gated_ok; [done|]; intros J; first [apply replying_ok; first [by apply apple80211Request_ok|by apply apple80211VirtualRequest_ok]
      |apply replying_stays; first [by apply enable_ok|by apply setMulticastList_ok|by apply enableVirtualInterface_ok|by apply disableVirtualInterface_ok|idtac]]).
  - destruct (background x) eqn:Eb; [|by exists NoReply, a]. destruct (object_step_ok x a I Hx Eb) as (a' & Ea & I').
    destruct (act E ctx x (ap_sys a)); [|done]. cbn [mbind option_bind] in *. rewrite Ea. by exists NoReply, a'.
  - unfold outputActionFrame. cbv zeta. destruct (action_frame_ok (_ieee80211 a) m a J) as [I1 C1].
    destruct (call_ok _ a J I1 C1) as (a1 & -> & J1 & _). cbn [mbind option_bind]. auto.
  - unfold vif_bpfOutputPacket. destruct (bpf_ok (_ieee80211 a) t m a J Hx) as (r & -> & I1 & C1). cbn [mbind option_bind].
    destruct (call_ok r a J I1 C1) as (a1 & -> & J1 & _). cbn [mbind option_bind]. auto.
  - unfold vif_requestPacketTx. destruct (_ || _); [auto|]. destruct (requestPacketTx_ok queues 0 (ap_obj a) (si_obj _ (id_sys a J)) Hx) as (n & k & -> & I1 & C1). cbn [mbind option_bind].
    destruct (call_ok (n, k) a J I1 C1) as (a1 & -> & J1 & _). cbn [mbind option_bind]. auto.
Qed.
Lemma ap_run_ok xs : forall a, ap_inv a -> Forall ap_action_ok xs -> served (ap_run E ctx io xs a).
Proof.
  induction xs as [|x xs IH]; intros a I Hx; cbn [ap_run]; [by exists [], a|]. apply Forall_cons in Hx as [H1 H2].
  destruct (ap_step_ok x a I H1) as (r & a1 & -> & I1). cbn [mbind option_bind]. destruct (IH a1 I1 H2) as (rs & a2 & -> & I2). cbn [mbind option_bind]. by exists (r :: rs), a2.
Qed.
End proofs.
