(* ===== verification/Controller.v ===== *)
(** * What the controller guarantees

    From [start] on, whatever IO80211, the clients of its interfaces, the
    driver and the threads do, in any order: the invariant of [AirportRun], the
    credentials a connection is attempted with, the scan list as it is read
    out, and that a scan request is followed by its notification. *)

From S2P Require Import Prelude Rsn Bss Sha1 Kdf Reorder Kext Tx Eapol Rx Mgmt Mlme Session ScanFlow Awdl ScanReport Airport AirportVif AirportRun.

Section start.
Context (E : env) (ctx : KERN_SHA1_CTX) (io : io80211) (HE : env_ok E) (Hctx : zlen (buffer ctx) = 64) (Hio : io_ok io).

Lemma no_controller_inv : ctl_inv no_controller.
Proof. by split. Qed.

Lemma started chip probe_ret hw mac : hw_wf hw -> buf_ok 6 mac ->
  exists a, call io (start E chip probe_ret hw mac (ap_obj no_controller)) no_controller = Some a /\
    sys_inv (ap_sys a) /\ ctl_inv a /\ thr_cmd (ap_sys a) = None /\ ap_pending a = None /\ _scanInProgress a = false.
Proof.
  intros Hh Hm. unfold call. set (r := start _ _ _ _ _ _). pose proof fresh_inv as S.
  assert (goes true fresh (Some (returned r fresh))) as (s & [= <-] & J & _).
  { apply goes_returned, goes_once; [done|done|by apply start_ok; [apply S|..]|done|intros _; apply start_still]. }
  destruct (moved_inv io (returned r fresh) no_controller no_controller_inv J) as (a & Em & I & C & Es & Ep & _). exists a. split; [exact Em|].
  do 2 (split; [done|]). split; [by rewrite Es, returned_cmd|]. split; [exact Ep|].
  destruct (moved_ok io (returned r fresh) no_controller) as (b & Eb & (_ & _ & _ & _ & _ & _ & _ & _ & (ns & _ & _ & F))). rewrite Em in Eb. injection Eb as <-. by destruct F as [F|[F _]].
Qed.

Lemma ap_start_ok chip probe_ret hw mac manager attached : hw_wf hw -> buf_ok 6 mac ->
  exists o, ap_start E io chip probe_ret hw mac manager attached = Some o /\ forall a, o = Some a -> idle E None a.
Proof.
  intros Hh Hm. unfold ap_start. destruct (started chip probe_ret hw mac Hh Hm) as (a & Ea & S & [C1 C2 C3 C4 C5] & F & P & Fa). cbv zeta. rewrite Ea. cbn [mbind option_bind].
  destruct (negb _); [by exists None|]. destruct manager; cbn [negb]; [|by exists None]. cbn [awdl_init negb orb]. destruct attached; cbn [negb]; [|by exists None].
  set (a2 := note _ _). assert (idle E None a2) as I2.
  { split; [done| |done|done|].
    - split; try done; [|cbn; by rewrite C5]. intros m [= <-]. split; [by vm_compute; split|by intros v [H|H]].
    - split; [done|]. intros _. split; [|done]. change (_scanInProgress a2) with (_scanInProgress a). by rewrite Fa. }
  clearbody a2. destruct (ensureAWDL_ok E io Hio None a2 I2) as (x & a3 & -> & I3). cbn [mbind option_bind]. exists (Some a3). split; [done|]. by intros ? [= <-].
Qed.
End start.

(** C2: The controller is safe and stays consistent.  [start] answers, and when
    it succeeds, then whatever follows in whatever order - every request of
    en0 and of a virtual interface with any contents, enabling and disabling,
    packets to send, frames of any content, timers, turns of the thread calls
    and of a command that waits - is served: nothing is read or written outside
    an array and no missing object is followed.  Afterwards the object is well
    typed, the AWDL settings are, a request is pending exactly when its command
    waits, and IO80211 was told of link changes in strict alternation, the last
    of them the state the controller keeps. *)
Theorem controller_invariant E ctx io chip probe_ret hw mac manager attached xs :
  env_ok E -> zlen (buffer ctx) = 64 -> io_ok io -> hw_wf hw -> buf_ok 6 mac -> Forall ap_action_ok xs ->
  exists o, ap_start E io chip probe_ret hw mac manager attached = Some o /\
    forall a, o = Some a -> exists rs a', ap_run E ctx io xs a = Some (rs, a') /\ ap_inv E None a' /\ links false (notices a') = Some (_linkUp a').
Proof.
  intros HE Hctx Hio Hh Hm Hx. destruct (ap_start_ok E io Hio chip probe_ret hw mac manager attached Hh Hm) as (o & Eo & Ho). exists o. split; [done|].
  intros a ->. destruct (ap_run_ok E ctx io HE Hctx Hio None xs a (idle_inv _ _ _ (Ho a eq_refl)) Hx) as (rs & a' & Ea & I). exists rs, a'. split; [done|]. split; [done|apply I].
Qed.

(** ** Scans come to their end *)

Section scans.
Context (E : env) (ctx : KERN_SHA1_CTX) (io : io80211) (HE : env_ok E) (Hctx : zlen (buffer ctx) = 64) (Hio : io_ok io).

Definition scan_turn (x : ap_action) : bool := match x with ApObject x => is_turn x | _ => false end.
Fixpoint turns (xs : list ap_action) : nat := match xs with [] => 0 | x :: xs => (if scan_turn x then 1 else 0) + turns xs end.

(** A turn of the scan call counts down the mark. *)
Lemma step_turn old n x a : ap_inv E (Some (old, n)) a -> ap_action_ok x ->
  exists r a', ap_step E ctx io x a = Some (r, a') /\ ap_inv E (Some (old, n - (if scan_turn x then 1 else 0))%nat) a'.
Proof.
  intros I Hx. destruct (ap_step_ok E ctx io HE Hctx Hio (Some (old, n)) x a I Hx) as (r & a' & Ea & I'). exists r, a'. split; [done|].
  destruct (scan_turn x) eqn:Et; [|by rewrite Nat.sub_0_r]. destruct x as [x| | | | | | | | | |]; try done. destruct x; try done.
  destruct I' as [S C P St _]. split; [done..|]. cbn [ap_step background] in Ea.
  destruct (act E ctx ActManualScan (ap_sys a)) as [s|] eqn:Es; [|done]. cbn [mbind option_bind] in Ea. destruct (moved io s a) as [a1|] eqn:Em; [|done]. injection Ea as _ <-.
  exact (turn_tracked E ctx io HE Hctx (Some (old, n)) s a a1 I Es Em).
Qed.
Lemma run_turns old xs : forall n a, ap_inv E (Some (old, n)) a -> Forall ap_action_ok xs ->
  exists rs a', ap_run E ctx io xs a = Some (rs, a') /\ ap_inv E (Some (old, n - turns xs)%nat) a'.
Proof.
  induction xs as [|x xs IH]; intros n a I Hx; cbn [ap_run turns]; [exists [], a; by rewrite Nat.sub_0_r|]. apply Forall_cons in Hx as [H1 H2].
  destruct (step_turn old n x a I H1) as (r & a1 & -> & I1). cbn [mbind option_bind]. destruct (IH _ a1 I1 H2) as (rs & a2 & -> & I2). cbn [mbind option_bind]. exists (r :: rs), a2. split; [done|].
  by rewrite Nat.sub_add_distr.
Qed.

Lemma call_left_bound s : sys_inv s -> (call_left s < 774)%nat.
Proof.
  intros I. pose proof (si_scan s I) as H. unfold call_left, scan_pc_ok in *. destruct (thr_scan s) as [pc|]; [|lia]. destruct H as [_ H]. destruct pc; cbn in *; lia.
Qed.
Lemma mark_now a : ap_inv E None a -> _scanInProgress a = true -> ap_inv E (Some (notices a, 774%nat)) a.
Proof.
  intros [S C P St [Hn T]] Hf. split; [done..|]. split; [done|]. intros HP. destruct (T HP) as [Cm _]. split; [done|]. exists []. split; [done|].
  right. split; [done|by apply call_left_bound].
Qed.
End scans.

(** C5: A scan the object carries itself is always followed by its
    notification.  The driver leaves scanning to the object ([passive_driver]:
    hw_scan is unsupported or fails) and, after whatever happened since
    [start], the controller holds a scan in progress.  Then whatever happens
    next - requests and commands, frames, timers, reports, in any order, each
    handler and each stretch between two waits one step - as soon as the thread
    call of the scan has had 774 turns in between, IO80211 has been sent
    SCAN_DONE.  A scan of the driver's own that times out or is aborted is
    never reported, and is not covered. *)
Theorem scan_is_reported E ctx io chip probe_ret hw mac manager attached a0 before rs a xs :
  env_ok E -> zlen (buffer ctx) = 64 -> io_ok io -> hw_wf hw -> buf_ok 6 mac -> Forall ap_action_ok before -> Forall ap_action_ok xs ->
  ap_start E io chip probe_ret hw mac manager attached = Some (Some a0) -> ap_run E ctx io before a0 = Some (rs, a) ->
  passive_driver E -> _scanInProgress a = true -> (774 <= turns xs)%nat ->
  exists rs' a' told, ap_run E ctx io xs a = Some (rs', a') /\ notices a' = told ++ notices a /\ posts_scan_done told.
Proof.
  intros HE Hctx Hio Hh Hm Hb Hx E0 Eb HP Hf Ht. destruct (ap_start_ok E io Hio chip probe_ret hw mac manager attached Hh Hm) as (o & Eo & Ho). rewrite E0 in Eo. injection Eo as <-.
  destruct (ap_run_ok E ctx io HE Hctx Hio None before a0 (idle_inv _ _ _ (Ho a0 eq_refl)) Hb) as (rs1 & a1 & E1 & I). rewrite Eb in E1. injection E1 as <- <-.
  destruct (run_turns E ctx io HE Hctx Hio (notices a) xs 774 a (mark_now E a I Hf) Hx) as (rs2 & a2 & E2 & I2). exists rs2, a2.
  destruct (ai_scan _ _ _ I2) as [_ T2]. destruct (T2 HP) as (_ & told & N & D). exists told. split; [done|]. split; [done|]. destruct D as [D|[_ D]]; [done|lia].
Qed.

(** ** The scan list, read out *)

Section scan_list.
Context (E : env) (ctx : KERN_SHA1_CTX) (io : io80211).

Definition report_of (b : RTW88BSS) (d : apple80211_scan_result) : Prop := fillScanResultFromBSS b false = Some d.
Definition next_result : ap_action := ApRequest SIOCGA80211 true IOC_SCAN_RESULT.
Definition given (d : apple80211_scan_result) : reply := Reply (Answer kIOReturnSuccess (OutScanResult d)).

(** Between two requests: the cursor on entry [i]. *)
Definition reading (i : Z) (l : list RTW88BSS) (a : airport) : Prop :=
  _ieee80211 a = true /\ ap_pending a = None /\ _scanInProgress a = false /\ _scanCursor a = i /\ bssList (_bss (ap_obj a)) = l.

Lemma read_one i l b d a : reading i l a -> 0 <= i -> i + 1 < 2 ^ 32 -> ld l i = Some b -> report_of b d ->
  exists a', ap_step E ctx io next_result a = Some (given d, a') /\ reading (i + 1) l a' /\ ap_sys a' = ap_sys a.
Proof.
  intros (H1 & H2 & H3 & H4 & H5) Hi Hlt Hb Hd. cbn [ap_step next_result]. unfold gated. rewrite H2. cbn [is_some]. unfold apple80211Request. rewrite H1. cbn [negb andb get_only].
  unfold handleSCAN_RESULT. rewrite H3, H4. unfold copyScanBSS. rewrite H5, Hb, Hd. cbn [mbind option_bind answered replying].
  eexists. split; [reflexivity|]. split; [|done]. split; [done|]. split; [done|]. split; [done|]. split; [|done]. cbn. rewrite wrap_small; [done|split; lia].
Qed.
Lemma read_end i l a : reading i l a -> ld l i = None ->
  exists a', ap_step E ctx io next_result a = Some (Reply (Answer end_of_list OutNone), a') /\ reading 0 l a' /\ ap_sys a' = ap_sys a.
Proof.
  intros (H1 & H2 & H3 & H4 & H5) Hb. cbn [ap_step next_result]. unfold gated. rewrite H2. cbn [is_some]. unfold apple80211Request. rewrite H1. cbn [negb andb get_only].
  unfold handleSCAN_RESULT. rewrite H3, H4. unfold copyScanBSS. rewrite H5, Hb. cbn. eexists. split; [reflexivity|]. by split.
Qed.
Lemma drop_ld (l : list RTW88BSS) i : 0 <= i -> ld l i = zdrop i l !! 0%nat.
Proof. intros Hi. unfold ld, zdrop. rewrite (proj2 (Z.leb_le 0 i)) by done. by rewrite lookup_drop, Nat.add_0_r. Qed.
Lemma read_rest l : forall rest ds i a, reading i l a -> 0 <= i -> zlen l < 2 ^ 32 -> zdrop i l = rest -> Forall2 report_of rest ds ->
  exists a', ap_run E ctx io (replicate (S (length rest)) next_result) a = Some (map given ds ++ [Reply (Answer end_of_list OutNone)], a') /\ reading 0 l a' /\ ap_sys a' = ap_sys a.
Proof.
  induction rest as [|b rest IH]; intros ds i a R Hi Hl Hd H; inversion H; subst ds.
  - destruct (read_end i l a R) as (a1 & E1 & R1 & S1). { by rewrite (drop_ld l i Hi), Hd. }
    cbn [length replicate ap_run map app]. rewrite E1. cbn [mbind option_bind]. by exists a1.
  - assert (ld l i = Some b) as Hb by (by rewrite (drop_ld l i Hi), Hd).
    assert (i < zlen l) by (apply ld_inv in Hb; lia). destruct (read_one i l b y a R Hi) as (a1 & E1 & R1 & S1); [lia|done..|].
    destruct (IH l' (i + 1) a1 R1) as (a2 & E2 & R2 & S2); [lia|done| |done|].
    { unfold zdrop in *. replace (Z.to_nat (i + 1)) with (Z.to_nat i + 1)%nat by lia. by rewrite <- drop_drop, Hd. }
    cbn [length replicate ap_run map app]. rewrite E1. cbn [mbind option_bind]. cbn [length replicate ap_run] in E2. rewrite E2. cbn [mbind option_bind]. exists a2. split; [done|]. split; [done|congruence].
Qed.
Lemma reports_exist l : list_wf l -> exists ds, Forall2 report_of l ds.
Proof.
  intros [H _]. induction H as [|b l Hb _ (ds & IH)]; [by exists []|]. destruct (fill_answers b false Hb) as (d & Hd & _). exists (d :: ds). by constructor.
Qed.
End scan_list.

(** C18: The scan list is read out whole.  With the list's cursor at its start
    and no scan in progress, asking for results one after another returns the
    report of every entry of the BSS list, each once and in order, then the
    end-of-list code; the cursor is back at the start and the list unchanged,
    so that the next reading returns the same. *)
Theorem scan_list_exact E ctx io a : ap_inv E None a -> _ieee80211 a = true -> ap_pending a = None -> _scanInProgress a = false -> _scanCursor a = 0 ->
  zlen (bssList (_bss (ap_obj a))) < 2 ^ 32 ->
  exists ds a', Forall2 report_of (bssList (_bss (ap_obj a))) ds /\
    ap_run E ctx io (replicate (S (length (bssList (_bss (ap_obj a))))) next_result) a = Some (map given ds ++ [Reply (Answer end_of_list OutNone)], a') /\
    _scanCursor a' = 0 /\ ap_sys a' = ap_sys a.
Proof.
  intros I H1 H2 H3 H4 Hl. destruct (reports_exist (bssList (_bss (ap_obj a)))) as (ds & Hd); [apply (oi_wf _ (si_obj _ (ai_sys _ _ _ I)))|].
  destruct (read_rest E ctx io (bssList (_bss (ap_obj a))) (bssList (_bss (ap_obj a))) ds 0 a) as (a' & Ea & (_ & _ & _ & R & _) & S); [by split|lia|done|apply zdrop_0|done|]. by exists ds, a'.
Qed.

(** ** What is asked of the object when IO80211 associates *)

Section associate.
Context (E : env) (io : io80211).

Definition name_ok (d : assoc_data) : bool := (ad_version d =? 1) && (1 <=? ad_ssid_len d) && (ad_ssid_len d <=? 32).
(** The key to connect with; [None]: the combination is not supported. *)
Definition credentials (d : assoc_data) : option (option (list Z)) :=
  if negb (ad_auth_lower d =? APPLE80211_AUTHTYPE_OPEN) then None
  else if (ad_auth_upper d =? APPLE80211_AUTHTYPE_NONE) && (ad_key_len d =? 0) then Some None
  else if (Z.testbit (ad_auth_upper d) 3 || Z.testbit (ad_auth_upper d) 10) && (ad_key_len d =? 32) then Some (Some (ad_key d))
  else None.
Definition ssid_of (d : assoc_data) : list Z := ztake (ad_ssid_len d) (ad_ssid d) ++ zeros (33 - ad_ssid_len d).
Definition bssid_of (d : assoc_data) : option (list Z) := if bool_decide (ad_bssid d = zeros 6) then None else Some (ad_bssid d).

(** The controller with the request's types, the object with another RSN
    element of its own. *)
Definition with_rsn (b : list Z) (n ret : Z) (a : airport) : airport :=
  a <| ap_sys := ap_sys a <| obj := ap_obj a <| _assocRsnIE := b |> <| _assocRsnIELen := n |> |> <| cmd_ret := ret |> |>.
Definition noted (d : assoc_data) (a : airport) : airport := a <| _authLower := ad_auth_lower d |> <| _authUpper := ad_auth_upper d |>.

Lemma moved_silent s a : trace (obj s) = trace (ap_obj a) -> moved io s a = Some (a <| ap_sys := s |>).
Proof. intros H. unfold moved, reports_of. by rewrite H, Nat.sub_diag. Qed.
Lemma with_same_rsn r a : returned (r, ap_obj a) (ap_sys a) = ap_sys (with_rsn (_assocRsnIE (ap_obj a)) (_assocRsnIELen (ap_obj a)) r a).
Proof. unfold with_rsn, returned, returns, ap_obj. by destruct a as [[[] ? ? ? ?] ? ? ? ? ? ? ? ? ? ? ? ? ?]. Qed.
Lemma rsn_noted ie a : bytes_ok ie -> exists b n ret, issue E io (CmdSetAssocRsnIE (Some ie)) a = Some (with_rsn b n ret a).
Proof.
  intros Hb. unfold issue. cbn [begin_command]. unfold cmdSetAssocRsnIE.
  assert (forall r, moved io (returned (r, obj (ap_sys a)) (ap_sys a)) a = Some (with_rsn (_assocRsnIE (ap_obj a)) (_assocRsnIELen (ap_obj a)) r a)) as K.
  { intros r. rewrite moved_silent by done. change (obj (ap_sys a)) with (ap_obj a). by rewrite with_same_rsn. }
  destruct (_ || (257 <? zlen ie)) eqn:El; [cbn [mbind option_bind]; eexists _, _, _; apply K|]. bool_hyps.
  destruct (ld_byte ie 0 Hb) as (e0 & -> & _); [lia|]. destruct (ld_byte ie 1 Hb) as (e1 & -> & _); [lia|]. cbn [mbind option_bind].
  destruct (_ || _); [cbn [mbind option_bind]; eexists _, _, _; apply K|]. cbn [mbind option_bind]. eexists _, _, _. by apply moved_silent.
Qed.

Lemma bit_of_land x n : 0 <= n -> (x .& (1 << n) =? 0) = negb (Z.testbit x n).
Proof.
  intros Hn. rewrite Z.shiftl_1_l. destruct (Z.eqb_spec (x .& 2 ^ n) 0) as [H|H].
  - apply (f_equal (fun y => Z.testbit y n)) in H. rewrite Z.land_spec, Z.pow2_bits_true, Z.bits_0, andb_true_r in H by lia. by rewrite H.
  - destruct (Z.testbit x n) eqn:Eb; [done|]. destruct H. apply Z.bits_inj'. intros m Hm. rewrite Z.land_spec, Z.bits_0.
    destruct (decide (m = n)) as [->|]; [by rewrite Eb|]. rewrite Z.pow2_bits_false by lia. apply andb_false_r.
Qed.
Lemma lor_mask x a b : (x .& (a .| b) =? 0) = (x .& a =? 0) && (x .& b =? 0).
Proof.
  rewrite Z.land_lor_distr_r. generalize (x .& a) (x .& b). intros u v. destruct (Z.eqb_spec (u .| v) 0) as [H|H].
  - by apply Z.lor_eq_0_iff in H as [-> ->].
  - destruct (Z.eqb_spec u 0) as [->|]; [|done]. by destruct (Z.eqb_spec v 0) as [->|].
Qed.
Lemma with_rsn_id a : a = with_rsn (_assocRsnIE (ap_obj a)) (_assocRsnIELen (ap_obj a)) (cmd_ret (ap_sys a)) a.
Proof. by destruct a as [[[] ? ? ? ?] ? ? ? ? ? ? ? ? ? ? ? ? ?]. Qed.

(** The element of the request goes to the object before anything is checked. *)
Lemma rsn_stored d a (Hr : buf_ok 258 (ad_rsn_ie d)) : exists r0 r1 b n ret, ld (ad_rsn_ie d) 0 = Some r0 /\ ld (ad_rsn_ie d) 1 = Some r1 /\
  (if r0 =? 48 then
     let rsnLen := u16 (r1 + 2) in
     if rsnLen <=? APPLE80211_MAX_RSN_IE_LEN then ie ← ldn (ad_rsn_ie d) 0 rsnLen; issue E io (CmdSetAssocRsnIE (Some ie)) a else Some a
   else Some a) = Some (with_rsn b n ret a).
Proof.
  destruct Hr as [Hrl Hrb]. destruct (ld_byte (ad_rsn_ie d) 0 Hrb) as (r0 & E0 & _); [lia|]. destruct (ld_byte (ad_rsn_ie d) 1 Hrb) as (r1 & E1 & B1 & B1'); [lia|]. change (2 ^ 8) with 256 in B1'.
  exists r0, r1. assert (forall x, x = Some a -> exists b n ret, ld (ad_rsn_ie d) 0 = Some r0 /\ ld (ad_rsn_ie d) 1 = Some r1 /\ x = Some (with_rsn b n ret a)) as K.
  { intros x ->. eexists _, _, _. do 2 (split; [done|]). f_equal. apply with_rsn_id. }
  destruct (r0 =? 48); [|by apply K]. cbv zeta. rewrite wrap_small by (split; [lia|change (2 ^ 16) with 65536; lia]). destruct (Z.leb_spec (r1 + 2) APPLE80211_MAX_RSN_IE_LEN); [|by apply K]. unfold APPLE80211_MAX_RSN_IE_LEN in *.
  destruct (ldn_buf (ad_rsn_ie d) 0 (r1 + 2) Hrb) as (ie & -> & _ & Hie); [lia..|]. cbn [mbind option_bind]. destruct (rsn_noted ie a Hie) as (b & n & ret & ->). by exists b, n, ret.
Qed.

(** The checks of the handler and the table of [credentials]. *)
Lemma checks_credentials d (A : Type) (yes : option (list Z) -> A) (no : A) :
  let upper := ad_auth_upper d in
  let personalMask := APPLE80211_AUTHTYPE_WPA_PSK .| APPLE80211_AUTHTYPE_WPA2_PSK .| APPLE80211_AUTHTYPE_SHA256_PSK in
  let secure := negb (upper .& personalMask =? 0) in
  (if negb (ad_auth_lower d =? APPLE80211_AUTHTYPE_OPEN) then no
   else if negb secure && negb (upper =? APPLE80211_AUTHTYPE_NONE) then no
   else if (upper .& (APPLE80211_AUTHTYPE_WPA2_PSK .| APPLE80211_AUTHTYPE_SHA256_PSK) =? 0) && negb (upper =? APPLE80211_AUTHTYPE_NONE) then no
   else if (if secure then negb (ad_key_len d =? 32) else negb (ad_key_len d =? 0)) then no
   else yes (if secure then Some (ad_key d) else None)) = match credentials d with Some pmk => yes pmk | None => no end.
Proof.
  intros upper personalMask secure. unfold credentials. destruct (negb (ad_auth_lower d =? _)); [done|].
  unfold secure, personalMask, APPLE80211_AUTHTYPE_WPA_PSK, APPLE80211_AUTHTYPE_WPA2_PSK, APPLE80211_AUTHTYPE_SHA256_PSK. rewrite !lor_mask, !bit_of_land by lia.
  fold upper. destruct (Z.eqb_spec upper APPLE80211_AUTHTYPE_NONE) as [->|]; [cbn; by destruct (ad_key_len d =? 0)|]. cbn [andb orb negb].
  destruct (Z.testbit upper 3), (Z.testbit upper 10), (Z.testbit upper 1); cbn [andb orb negb]; try done; by destruct (ad_key_len d =? 32).
Qed.
End associate.

(** C7: A connection is attempted with exactly the requested credentials, and
    only with supported ones.  For a name of 1 to 32 bytes, ASSOCIATE issues
    the connect command iff the network is open (no key) or a WPA2 personal
    one (WPA2_PSK or SHA256_PSK among the types, a 32-byte key), with the
    name's bytes zero-terminated, the address unless it is all zeros, that key,
    and never for an external supplicant; every other combination (a passphrase
    for WPA only, enterprise, a key of another length) is refused without it.
    Besides, the controller only notes the types and the RSN element. *)
Theorem associate_exact E io d a : request_ok (IOC_ASSOCIATE d) ->
  exists b n ret, let a1 := with_rsn b n ret (noted d a) in
  handleASSOCIATE E io d a =
    if negb (name_ok d) then refused kIOReturnBadArgument a
    else match credentials d with
         | Some pmk => command_answer E io PendAssociate (CmdConnect (mk_connect (Some (ssid_of d)) None pmk (bssid_of d) false)) a1
         | None => refused kIOReturnUnsupported a1
         end.
Proof.
  intros (Hs & Hn & Hb & Hk & Hr). destruct (rsn_stored E io d (noted d a) Hr) as (r0 & r1 & b & n & ret & E0 & E1 & E2). exists b, n, ret. cbv zeta.
  unfold handleASSOCIATE, name_ok. change APPLE80211_VERSION with 1. change APPLE80211_MAX_SSID_LEN with 32.
  destruct (ad_version d =? 1); cbn [negb orb andb]; [|done]. destruct (Z.eqb_spec (ad_ssid_len d) 0) as [->|]; [done|]. cbn [orb].
  rewrite (proj2 (Z.leb_le 1 (ad_ssid_len d))) by lia. rewrite Z.ltb_antisym. destruct (Z.leb_spec (ad_ssid_len d) 32); cbn [negb andb]; [|done].
  destruct Hs as [Hs _]. rewrite (ldn_Some (ad_ssid d) 0 (ad_ssid_len d)) by lia. cbn [mbind option_bind]. rewrite zdrop_0.
  assert (zlen (ztake (ad_ssid_len d) (ad_ssid d)) = ad_ssid_len d) as Hv by (rewrite zlen_ztake; lia). rewrite (stn_Some (zeros (32 + 1)) 0) by (rewrite ?Hv; change (zlen (zeros (32 + 1))) with 33; lia). cbn [mbind option_bind]. rewrite Hv. rewrite (ldn_Some (ad_bssid d) 0 APPLE80211_ADDR_LEN) by (rewrite ?(proj1 Hb); done). cbn [mbind option_bind].
  rewrite E0, E1. cbn [mbind option_bind]. fold (noted d a). cbv zeta in E2. rewrite E2. cbn [mbind option_bind]. cbv zeta.
  rewrite zdrop_0, (ztake_all _ (ad_bssid d)) by (rewrite (proj1 Hb); done). fold (bssid_of d).
  assert (ztake 0 (zeros (32 + 1)) ++ ztake (ad_ssid_len d) (ad_ssid d) ++ zdrop (0 + ad_ssid_len d) (zeros (32 + 1)) = ssid_of d) as ->.
  { unfold ssid_of. change (ztake 0 (zeros (32 + 1))) with (@nil Z). cbn [app]. f_equal. unfold zdrop, zeros. rewrite drop_replicate. f_equal. lia. }
  exact (checks_credentials d _ (fun pmk => command_answer E io PendAssociate (CmdConnect (mk_connect (Some (ssid_of d)) None pmk (bssid_of d) false)) _) _).
Qed.

(** ** A concrete controller *)

Definition demo_awdl_if : vif := mk_io_vif 1 (Some (chars "awdl0" ++ [0])) APPLE80211_VIF_AWDL.
Definition demo_io : io80211 := mk_io (fun _ => true) (fun _ => 0) (fun _ => 0) (fun _ => 0) (fun _ => Some (demo_awdl_if, true)) (fun _ => true).
Lemma demo_io_ok : io_ok demo_io.
Proof. intros ns v b [= <- _] n [= <-]. split; [by apply bytes_okb_ok|]. by do 5 right; left. Qed.

Definition demo_start : option (option airport) := ap_start demo_env demo_io true 0 (Some demo_hw) [2; 0; 0; 0; 0; 1] true true.
Definition demo_request (r : ioc) : ap_action := ApRequest SIOCSA80211 true r.
Definition demo_assoc : assoc_data :=
  mk_assoc 1 APPLE80211_AUTHTYPE_OPEN APPLE80211_AUTHTYPE_WPA2_PSK 4 (chars "Home" ++ zeros 28) (zeros 6) 32 (seqZ 1 32) (zeros 258).

(** Up, a scan that hears a network and ends, and its list is asked for. *)
Definition demo_scan : list ap_action :=
  [ApEnable; demo_request (IOC_SCAN_REQ (mk_scand 1 0 0)); ApObject (ActRx test_beacon (-47) 2462 0)] ++ replicate 40 (ApObject ActManualScan) ++
  [next_result; next_result; demo_request (IOC_ASSOCIATE demo_assoc); ApObject ActAuth; demo_request IOC_DISASSOCIATE; ApCommandStep].
Definition brief (r : reply) : Z * bool := match r with Reply (Answer ret out) => (ret, match out with OutScanResult _ => true | _ => false end) | Reply Waits => (-1, false) | RetReply ret => (ret, false) | _ => (0, false) end.
Definition answers_of (rs : list reply) : list (Z * bool) := map brief (List.filter (fun r => match r with NoReply => false | _ => true end) rs).
Definition demo_outcome : option (list (Z * bool) * bool * bool) :=
  o ← demo_start; a ← o; '(rs, a) ← ap_run demo_env stack_ctx demo_io demo_scan a; Some (answers_of rs, _scanInProgress a, is_some (awdl_vif a)).
Example demo_scan_runs : demo_outcome = Some ([(0, false); (0, false); (0, true); (5, false); (0, false); (-1, false)], false, true).
Proof. vm_compute. reflexivity. Qed.

Lemma demo_assoc_ok : request_ok (IOC_ASSOCIATE demo_assoc).
Proof. split_and!; try done; (split; [done|by apply bytes_okb_ok]). Qed.
Lemma demo_turns_ok n : Forall ap_action_ok (replicate n (ApObject ActManualScan)).
Proof. by apply Forall_replicate. Qed.
Lemma demo_scan_ok : Forall ap_action_ok demo_scan.
Proof.
  unfold demo_scan. apply Forall_app. split; [|apply Forall_app; split; [apply demo_turns_ok|]].
  - repeat (constructor; [exact Logic.I|]). constructor; [split; [done|split; [apply test_beacon_ok|done]]|constructor].
  - constructor; [done|]. constructor; [done|]. constructor; [exact demo_assoc_ok|]. repeat (constructor; [exact Logic.I|]). constructor.
Qed.
Lemma demo_mac_ok : buf_ok 6 [2; 0; 0; 0; 0; 1].
Proof. split; [done|by apply bytes_okb_ok]. Qed.

Lemma controller_invariant_witness :
  exists o, demo_start = Some o /\
    forall a, o = Some a -> exists rs a', ap_run demo_env stack_ctx demo_io demo_scan a = Some (rs, a') /\ ap_inv demo_env None a' /\ links false (notices a') = Some (_linkUp a').
Proof.
  apply controller_invariant; [apply demo_env_ok|reflexivity|apply demo_io_ok|apply demo_hw_wf|apply demo_mac_ok|apply demo_scan_ok].
Defined.

Lemma associate_exact_witness : exists b n ret, let a1 := with_rsn b n ret (noted demo_assoc no_controller) in
  handleASSOCIATE demo_env demo_io demo_assoc no_controller =
    if negb (name_ok demo_assoc) then refused kIOReturnBadArgument no_controller
    else match credentials demo_assoc with
         | Some pmk => command_answer demo_env demo_io PendAssociate (CmdConnect (mk_connect (Some (ssid_of demo_assoc)) None pmk (bssid_of demo_assoc) false)) a1
         | None => refused kIOReturnUnsupported a1
         end.
Proof. exact (associate_exact demo_env demo_io demo_assoc no_controller demo_assoc_ok). Defined.
Example demo_credentials : (name_ok demo_assoc, credentials demo_assoc, bssid_of demo_assoc) = (true, Some (Some (seqZ 1 32)), None).
Proof. reflexivity. Qed.

(** The controller after [xs]. *)
Definition demo_after (xs : list ap_action) : option (list reply * airport) := o ← demo_start; a ← o; ap_run demo_env stack_ctx demo_io xs a.
Lemma demo_after_inv xs rs a : Forall ap_action_ok xs -> demo_after xs = Some (rs, a) -> ap_inv demo_env None a.
Proof.
  intros Hx. unfold demo_after. destruct (ap_start_ok demo_env demo_io demo_io_ok true 0 (Some demo_hw) _ true true demo_hw_wf demo_mac_ok) as (o & Eo & Ho).
  unfold demo_start. rewrite Eo. cbn [mbind option_bind]. destruct o as [a0|]; [|done]. cbn [mbind option_bind]. intros Ea.
  destruct (ap_run_ok demo_env stack_ctx demo_io demo_env_ok eq_refl demo_io_ok None xs a0 (idle_inv _ _ _ (Ho a0 eq_refl)) Hx) as (rs' & a' & Ea' & I). rewrite Ea in Ea'. by injection Ea' as <- <-.
Qed.
Lemma demo_after_field {A} xs rs a (f : airport -> A) x : demo_after xs = Some (rs, a) -> option_map (fun r => f (snd r)) (demo_after xs) = Some x -> f a = x.
Proof. intros ->. by intros [= <-]. Qed.

Definition demo_list : list ap_action := take 43 demo_scan.
Lemma scan_list_exact_witness :
  match demo_after demo_list with
  | Some (_, a) => exists ds a', Forall2 report_of (bssList (_bss (ap_obj a))) ds /\
      ap_run demo_env stack_ctx demo_io (replicate (S (length (bssList (_bss (ap_obj a))))) next_result) a = Some (map given ds ++ [Reply (Answer end_of_list OutNone)], a') /\
      _scanCursor a' = 0 /\ ap_sys a' = ap_sys a
  | None => False
  end.
Proof.
  destruct (demo_after demo_list) as [[rs a]|] eqn:Ea; [|apply (f_equal is_some) in Ea; vm_compute in Ea; discriminate].
  apply scan_list_exact.
  - apply (demo_after_inv demo_list rs a); [apply Forall_take, demo_scan_ok|exact Ea].
  - apply (demo_after_field _ _ _ _ _ Ea). vm_compute. reflexivity.
  - apply (demo_after_field _ _ _ _ _ Ea). vm_compute. reflexivity.
  - apply (demo_after_field _ _ _ _ _ Ea). vm_compute. reflexivity.
  - apply (demo_after_field _ _ _ _ _ Ea). vm_compute. reflexivity.
  - rewrite (demo_after_field _ _ _ (fun a => zlen (bssList (_bss (ap_obj a)))) 1 Ea); [done|]. vm_compute. reflexivity.
Defined.

Definition demo_request_scan : list ap_action := take 3 demo_scan.
Lemma demo_after_start xs rs a : demo_after xs = Some (rs, a) -> exists a0, ap_start demo_env demo_io true 0 (Some demo_hw) [2; 0; 0; 0; 0; 1] true true = Some (Some a0) /\
  ap_run demo_env stack_ctx demo_io xs a0 = Some (rs, a).
Proof.
  unfold demo_after, demo_start. destruct (ap_start _ _ _ _ _ _ _ _) as [[a0|]|]; cbn [mbind option_bind]; [|done|done]. intros Ea. by exists a0.
Qed.
Lemma scan_is_reported_witness :
  match demo_after demo_request_scan with
  | Some (_, a) => exists rs' a' told, ap_run demo_env stack_ctx demo_io (replicate 774 (ApObject ActManualScan)) a = Some (rs', a') /\ notices a' = told ++ notices a /\ posts_scan_done told
  | None => False
  end.
Proof.
  destruct (demo_after demo_request_scan) as [[rs a]|] eqn:Ea; [|apply (f_equal is_some) in Ea; vm_compute in Ea; discriminate].
  destruct (demo_after_start _ _ _ Ea) as (a0 & E0 & E1).
  apply (scan_is_reported demo_env stack_ctx demo_io true 0 (Some demo_hw) [2; 0; 0; 0; 0; 1] true true a0 demo_request_scan rs a).
  - apply demo_env_ok.
  - reflexivity.
  - apply demo_io_ok.
  - apply demo_hw_wf.
  - apply demo_mac_ok.
  - apply Forall_take, demo_scan_ok.
  - apply demo_turns_ok.
  - exact E0.
  - exact E1.
  - intros tr. by left.
  - apply (demo_after_field _ _ _ _ _ Ea). vm_compute. reflexivity.
  - vm_compute. reflexivity.
Defined.
